(* ===== verification/_CoqProject ===== *)
-Q . S2P
Prelude.v
PyStr.v
PyFloat.v
FloatExact.v
PyVal.v
ChannelSpec.v
Json.v
SspWire.v
SspLed.v
GpioBoard.v
GpioRemote.v
EnvelopeV2.v
Requests.v
FeConfig.v
PdsSeed.v
FeMain.v
SpyAcquire.v
AlignAfes.v
OscAcq.v
HdMezz.v
ReadState.v
V2Config.v
JsonText.v
ScanRuntime.v
VgainSweep.v
ChargeWindows.v
IntensityScan.v
RunFiles.v
SmokeMessages.v
FullSmoke.v
SmallTools.v
SpiDev.v
SeedConfigure.v
ReadTools.v
FirstGen.v
FirstGenDaphne.v
FirstGenAcquire.v
CompareEnvelopes.v
OscSpectrum.v
OscApp.v
OscStart.v
Pools.v
PeFit.v
HistogramFits.v
Reanalysis.v
ReanalysisMain.v
WaveStats.v
NoiseRuns.v
NoiseStudy.v
SinglePe.v
DarkScan.v
NoiseBatch.v
RetroFit.v
Figures.v
FftOverlays.v
FftSelector.v
WaveExamples.v
MeanOverlays.v
SnrPlots.v
ReadOsc.v
BestPlots.v
AllPlots.v
GroupSheet.v
