(* ===== verification/Prelude.v ===== *)
(** * DAPHNE client tools: a verification library

    The repository holds the slow-control software of the DAPHNE readout boards: a server in
    C++ that runs on the board, and the Python tools of [client/] that operate boards, LED
    pulsers and mezzanines from a laptop or from the board itself.  This library models the
    Python tools and proves what makes them correct.  File names below are those under [src/].

    ** The program

    - Tools that talk to the server exchange protobuf messages in a [ControlEnvelopeV2] over a
      ZeroMQ DEALER socket, each with its own copy of the exchange and its own idea of which
      reply to accept ([configure_fe_min_v2], [hdmezz_control_v2], [read_fe_state_v2],
      [protobuf_acquire_list_channels], [osc], ...).
    - [ssp_led_control] drives the LED pulser of an SSP board by register packets over TCP.
    - [ps_mio_spi_gpio_board], [align_all_afes] and [mezz0_spidev_test] run on the board and work
      on sysfs, registers and a device node; [ps_mio_spi_gpio_remote] runs the first over [ssh].
    - The LED scans of [dynamic_range_led/] run the other tools as programs, switch the LED pulser
      on and off around them, and write run directories, which further tools analyse, merge and
      watch.
    - All of them read channel and key/value lists from the command line.

    ** The library, in dependency order

    - [Prelude]: Python exceptions, results, the state-and-error monad [M] (an exception keeps
      the state reached), Hoare triples, reflexive-transitive closure, shared tactics.
    - [PyStr], [PyFloat], [PyVal]: the part of [str], [int], [float] and of decoded JSON the tools
      use: [split], [strip], [int(s, base)] and its inverse [str]; binary64 with correctly rounded
      decimal literals; dictionaries.
    - [FloatExact]: sums of binary64 numbers that round nothing, and formats with decimals.
    - [ChannelSpec]: the copies of the list parser ([dynamic_range_led/scan_runtime.py], [osc.py],
      [analyze_waveform_dataset.py], [vbias_monitor_all.py], [test_counters.py],
      [test_threshold_14bit_v2.py], [protobuf_acquire_list_channels.py],
      [protobuf_full_smoketest_v2.py]).  Theorems: each returns exactly the channels its tokens
      stand for; which copies agree.
    - [Json]: configuration documents as [ssp_led_control] inspects them.
    - [SspWire], [SspLed]: [ssp_led_control.py].  A client program is a tree of transactions
      ([ssp]); [wire] runs it over an arbitrarily fragmented byte stream as the source does,
      [device] over an ideal board.  Theorems: the first refines the second; exact receive; the
      verified write; configuring and stopping set every register of the layout and only those;
      the register encodings decode back; validation; the synchronisation loop ends; [main] closes
      what it opened and reports every error once; [inspect] only reads.
    - [GpioBoard], [GpioRemote]: [ps_mio_spi_gpio_board.py] over an abstract kernel with the
      documented laws of sysfs GPIO ([SysfsGpio]), and [ps_mio_spi_gpio_remote.py].  Theorems:
      claiming and pulsing lines, the smoke test cleans up and never touches another mezzanine;
      the quoted command survives two shells word by word.
    - [EnvelopeV2]: the messages, the socket and every copy of the exchange, over any peer (class
      [Peer]); a peer that answers each request with one matching reply is [Answering].  Theorems:
      a late reply desynchronises [v2_rpc] for good; the strict copies return only the reply to
      their request; the identifiers fit their fields.
    - [Requests]: two program logics over it, for any peer ([requests]: what is sent, in which
      order) and for a peer that answers ([easy]: the script goes on).
    - [FeConfig], [PdsSeed], [FeMain]: [configure_fe_min_v2.py], [client_dictionaries.py] and
      [pds_configure_utils.py].  Theorems: the request holds the options and overrides asked for
      and nothing else, within the widths of the fields; overlays of seeds; the script sends an
      initial part of its plan on any peer and completes it with a server that answers.
    - [SpyAcquire]: [protobuf_acquire_list_channels.py] with its files.  Theorems: what each mode
      leaves on disk; the default streaming mode never saves; compression does not lose data.
    - [AlignAfes]: [align_all_afes.py] over an abstract [devmem] ([Registers]).  Theorem: the tap
      and the bitslip it chooses.
    - [OscAcq]: the acquisition worker and the disk writer of [osc.py] as a step relation over
      their shared queue, the handlers of exceptions and the phases of closing included.  Theorems,
      over every interleaving with faults: the invariant of the queue and the file contents (a
      counted frame whose spectrum raises is lost); once the window is closed only finitely many
      steps are left, and a writer that ends without error leaves every frame on disk.
    - [OscSpectrum], [OscApp], [OscStart]: the rest of [osc.py].  [OscSpectrum] is the running
      average of spectra in the worker, [OscApp] the window (frames, drops, rolling RMS, spectrum,
      status line) as handlers on one state, with the signals between the two, [OscStart] the
      options, the construction, the description of the run and the closing.  Theorems: the
      ring holds the last spectra and the running sum what additions and subtractions of floats
      leave of them, which is their sum when the powers are exact; the window accounts for every frame;
      its RMS histories; what it counts as dropped; which options are accepted, what is built from
      them, and a late check that loses the data of an earlier run.
    - [HdMezz]: [hdmezz_control_v2.py], its command line and its panels.  Theorems: exit status;
      failed requests leave the panel as it was; lamps, displays and histories stay in step.
    - [ReadState]: [read_fe_state_v2.py] and the monitor loop of [vbias_monitor_all.py].
      Theorems: only reading requests are sent; the snapshot is that of the board.
    - [V2Config]: [protobuf_configure_daphne_v2.py] and [afe_function_v2.py].  Theorems: the
      requests bring any board to the configuration asked for, but for the gain of the PGA, which
      the script looks up and never programs; which function values are accepted.
    - [JsonText]: [json.loads] on the text of a document.
    - [ScanRuntime]: [dynamic_range_led/scan_runtime.py] over the machine the scans run on (class
      [Machine]), whose actions are logged, with rules ([emits], [does]) that follow the log through
      a script.  Theorems: the values of a range; command lines; the summary of a readback.
    - [VgainSweep]: [scan_led_vgain_sweep.py].  Theorems: the LED is stopped after every start
      unless the stop itself fails, whatever else happens, and never started in a dry run or with
      --no-led-start; the summary has one row per point, in
      order; the request of a point carries the gain and offsets of its row; the offsets.
    - [ChargeWindows]: the windows, charges and stored waveforms of [led_charge.py].  Theorems: a
      calibrated window lies inside the record and the charge is integrated inside it; documents
      of windows and files of waveforms read back as written; the histories of the bias monitor.
    - [IntensityScan]: [scan_led_intensity_charge.py].  Theorems: what a scan with status 0 has
      run, written and analysed, point by point, dry or not; the best point of a channel is one that no
      other beats.
    - [RunFiles]: [merge_led_intensity_runs.py] and [monitor_led_run.py] over run directories.
      Theorems: a merge takes each point from the last run that completed it and changes only the
      output; every point is counted once.
    - [SmokeMessages], [FullSmoke], [SmallTools]: [protobuf_full_smoketest_v2.py],
      [slowcontrol_smoketest.py], [test_counters.py] and [test_threshold_14bit_v2.py].  Theorems:
      on any server the full test sends only what its options allow, and sends all of it without
      writes; on a faithful one its write-backs leave the board as it was; what the others send
      and print; a failed reading is written back as 0; the shipped configuration is refused.
    - [SeedConfigure]: [configure_fe_from_output.py] and [configure_fe_from_detail.py] over a fleet
      of servers by host.  Theorem: each selected board gets its own request, in order, and no
      other host hears from the script.
    - [ReadTools]: [testreg_v2.py], [read_general_info_v2.py] and [vbias_monitor_once.py].  Theorem:
      the outcome of a reading of the bias monitor on every branch.
    - [SpiDev]: [mezz0_spidev_test.py] over an abstract kernel ([SpiKernel]).  Theorems: the device
      is closed on every path; the transfers asked for; request numbers, byte lists and samples.
    - [FirstGen], [FirstGenDaphne], [FirstGenAcquire]: the clients of the first protocol, whose
      envelopes have no header: the register scripts, the bring-up of a board, the acquisition
      of one channel and the oscilloscope.  Theorems: what each sends on any peer and where those
      with a fault stop; the bring-up leaves a board as its successor does; the stream of one
      channel is saved whole; the ring of the oscilloscope.
    - [CompareEnvelopes]: [compare_configure_envelopes.py].  Theorem: the files it saves are what
      it sends.
    - [Pools]: tasks that read a file and write others, run one after the other, by processes or
      by threads: a pool is a sequence of whole tasks in any order; its laws are what the fits
      below rely on.
    - [PeFit], [Reanalysis], [ReanalysisMain]: [reanalyze_led_charge_run.py].  [PeFit] is a fit
      with its branches, a task with its files, and the table of a run; [Reanalysis] the choice of the points, the windows and the best rows;
      [ReanalysisMain] the script over the files it writes.  Theorems: what a run that ends has
      written; the result does not depend on the schedule; a fit always ends with a result, but a
      failed one loses the report; a derived window holds its pulse; which points and rows are
      chosen.
    - [HistogramFits]: [fit_cpp_histograms_parallel.py] over the same pools.  Theorems: which
      histograms have a task; when all can be fitted the table and the report do not depend on the
      schedule; one that cannot be read aborts the run.
    - [WaveStats]: [analyze_waveform_dataset.py].  Theorems: the tables have one row per channel
      with samples, with the metrics of its records at the settings asked for; which rows are flagged as outliers; the peak and the floor of a spectrum; its
      reader of waveforms agrees with that of [led_charge.py].
    - [NoiseRuns], [NoiseStudy]: [study_no_bias_noise_runs.py].  [NoiseRuns] finds the runs and
      merges them into a database, [NoiseStudy] compares them and is the script.  Theorems: the
      database has one record per name, and which; the point of a dark scan; what the correlation
      summary says; the tables that a study leaves, and which runs it marks.
    - [SinglePe]: [analyze_single_channel_pe.py].  Theorems: the window of the pulse and of the
      pedestal; every point has its row and its document, and the marked row is one that no other
      fit beats.
    - [DarkScan], [NoiseBatch]: [analyze_dark_vgain_scan.py] and [analyze_noise_fft_batch.py] over
      the program they run (classes [Analyzer], [Batch]).  Theorems: the merged table holds the
      rows of the points; which folders are targets; the commands of a batch run in order up to
      the first that fails.
    - [RetroFit]: [retro_charge_fit.py].  Theorem: a fit always gives a result, and starts from
      the three peaks.
    - [Figures]: what the scripts that draw share: the tables they read (class [Tables]), a figure
      saved under its two names, pages of panels, series gathered per channel.
    - [FftOverlays], [FftSelector]: [plot_dark_vgain_fft_overlays.py] and
      [plot_no_bias_fft_selector.py].  Theorems: each channel has the spectra that exist, point by
      point, and those it has are drawn in its figure and on a page; the traces of a run by AFE,
      and the runs that the page of the selector shows.
    - [WaveExamples], [MeanOverlays]: [plot_led_waveform_examples.py] and
      [plot_led_mean_waveform_overlays.py].  Theorems: what makes a record clean; every point
      that was asked for has its figure; the mean waveforms of a channel by intensity, and the
      overview that is there whenever the script returns.
    - [SnrPlots]: [plot_snr_vs_vgain.py].  Theorem: each point has its last fit, each channel its
      figure with the points in order, and the overview all channels.
    - [BestPlots], [AllPlots], [GroupSheet]: [plot_best_led_snr_publication.py];
      [plot_all_led_histograms.py] with the two scripts that make sheets of its points,
      [make_channel_thumbnail_sheets.py] and [make_channel_vector_contact_sheets.py]; and
      [make_best_group_sheet.py].  Theorems: the range of charges that is shown keeps the bins with
      counts, and where it begins and ends; every point that has a histogram has its figure and its panel; the thumbnails are the
      figures that were saved; a group is sorted by channel, and by analysis within one.
    - [ReadOsc]: [read_osc_data.py].  Theorems: what the writer of the oscilloscope saves is what
      this script reads; what it shows of it; its spectrum is that of [WaveStats] but for DC.

    ** Conventions

    A definition has the name of the Python function it models, or says in its comment which part
    of which function it is.  Handlers are whole: guards, early returns and the state changes in
    their order.  Python integers are [Z]; a protobuf field is checked for its width when it is
    assigned ([set_u32], [set_u64]).  Standard output is part of the state where the tool reports
    through it; the layout of numbers in a line (columns, digits) is kept as data.
    Text is ASCII.

    What is not in the repository is a parameter: the protobuf runtime ([Proto], with the law
    [ProtoLaws] that parsing inverts serialization), the peer of a socket, the kernel's files, the
    program [devmem], [subprocess] and [os.system], clocks and random numbers.  Numpy's reductions
    of floats ([Numpy]), its transform and windows ([Spectral]), its integer spacing
    ([IndexSpace]), cosines ([Cosine]), scipy's filters and fits and the
    elementary functions ([Scipy], [WeightedFit], with the shapes they document in [SciLaws]), the
    statistics of tables ([Statistics], [Correlation]), the data of a curve after the transforms
    of its plot ([CurveData]), [str] and formats of floats where a result does not depend on them,
    and identifiers from [uuid] are parameters too.  A theorem that needs more than that names the
    class of behaviours it needs ([Answering], [Serving], [Board], [SysfsGpio], [Registers],
    [Faithful], [Working], [Documented]) and has a witness with a concrete instance of it.

    Each file that simulates such an environment for its witnesses does so after its properties'
    model, with messages kept unserialized.

    ** Fuel

    Loops that the code runs until an outside event ends them are bounded by a measure that is
    enough by construction: [recv_more] by the frames left of the message, [SspWire.recv_loop] by
    the bytes wanted, [SpyAcquire.stream_loop] by the messages that can still arrive,
    [find_rails] and [replace_str] by the length of the text, [json.loads] by the length of the
    document, [wait] loops by their own counters.  The transfers of [SpiDev] take the number of
    turns as an argument; [spi_transfers] says how many are enough, and a loop without end is
    interrupted after that many.  Where running out
    would show it would be the exception [OtherError "out of fuel"]; the theorems that state a
    result exclude it.  The endless loops of [osc.py] and [vbias_monitor_all.py] are modelled by
    their turns.

    ** Not modelled

    The frames that [v2_dual_probe.py] and [test_counters_listen.py] dump byte by byte, below the
    level of the messages; the Otsu thresholds and distributions of [led_charge.py] and the
    other plotting scripts of [client/], [dynamic_range_led/] and [scripts/], which are numerical
    code over numpy, scipy and ROOT with little control flow of their own; the layout of the
    windows of [osc.py] and [hdmezz_control_v2.py] and their painting; the colours, axes and layout
    of figures, of which the titles and curves are modelled, and the HTML and JavaScript of pages,
    which are templates around the data that is modelled; the server, the kernel modules, the shell scripts and the vendored libraries, which are
    not Python. *)
From Stdlib Require Export Ascii String ZArith Lia.
From stdpp Require Export base tactics sorting gmap strings numbers.
From stdpp Require Export list.
Export list.

(** ** Scope, hint database and notations of the development *)

Declare Scope py_scope.
Delimit Scope py_scope with py.
Create HintDb py discriminated.

(** ** Python exceptions and results *)

(** The exception classes the modelled files raise or let through. *)
Inductive exn_kind : Type :=
  | ValueError
  | TypeError
  | KeyError
  | IndexError
  | RuntimeError
  | ConnectionError
  | TimeoutError
  | InterruptedError
  | OverflowError
  | FileExistsError
  | OSError (errno : Z)
  | ZmqAgain
  | DecodeError
  | StructError
  | ArgumentTypeError
  | CalledProcessError
  | SystemExit
  | AttributeError
  | NameError
  | AssertionError
  | ZeroDivisionError
  | OtherError.

#[export] Instance exn_kind_eq_dec : EqDecision exn_kind.
Proof. solve_decision. Defined.

(** An exception value: its class and the text of its message. *)
Record exn : Type := Exn { exn_class : exn_kind; exn_text : string }.

#[export] Instance exn_eq_dec : EqDecision exn.
Proof. solve_decision. Defined.

(** The outcome of a fallible pure computation. *)
Inductive result (A : Type) : Type :=
  | Ok (a : A)
  | Raise (e : exn).
Arguments Ok {A} a.
Arguments Raise {A} e.

#[export] Instance result_eq_dec `{EqDecision A} : EqDecision (result A).
Proof. solve_decision. Defined.

#[export] Instance Ok_inj {A : Type} : Inj (=) (=) (@Ok A).
Proof. intros x y H. by injection H. Qed.

Definition rbind {A B : Type} (r : result A) (k : A -> result B) : result B :=
  match r with
  | Ok a => k a
  | Raise e => Raise e
  end.

Definition is_ok {A : Type} (r : result A) : bool :=
  match r with Ok _ => true | Raise _ => false end.

Notation "x <-! r ;; k" := (rbind r (fun x => k))
  (at level 100, r at next level, right associativity) : py_scope.
Notation "' pat <-! r ;; k" := (rbind r (fun x => match x with pat => k end))
  (at level 20, pat pattern, r at level 99, k at level 200) : py_scope.

(** [rmap f l] runs a fallible function over a list, left to right, stopping at the
    first exception. *)
Fixpoint rmap {A B : Type} (f : A -> result B) (l : list A) : result (list B) :=
  match l with
  | [] => Ok []
  | a :: l' => rbind (f a) (fun b => rbind (rmap f l') (fun bs => Ok (b :: bs)))
  end.

(** [rfold f l s] threads an accumulator through a fallible loop body. *)
Fixpoint rfold {A S : Type} (f : S -> A -> result S) (l : list A) (s : S) : result S :=
  match l with
  | [] => Ok s
  | a :: l' => rbind (f s a) (rfold f l')
  end.

(** ** Stateful computations

    [M W A] is a Python computation over the world [W]: it returns a value or raises, and
    the world it leaves behind is kept in both cases. *)

Definition M (W A : Type) : Type := W -> result A * W.

Section monad.
Context {W : Type}.

Definition ret {A : Type} (a : A) : M W A := fun w => (Ok a, w).

Definition raise {A : Type} (e : exn) : M W A := fun w => (Raise e, w).

Definition bind {A B : Type} (m : M W A) (k : A -> M W B) : M W B :=
  fun w =>
    match m w with
    | (Ok a, w') => k a w'
    | (Raise e, w') => (Raise e, w')
    end.

Definition lift {A : Type} (r : result A) : M W A := fun w => (r, w).

Definition get : M W W := fun w => (Ok w, w).

Definition gets {A : Type} (f : W -> A) : M W A := fun w => (Ok (f w), w).

Definition modify (f : W -> W) : M W unit := fun w => (Ok tt, f w).

(** [try: m except e: h e] *)
Definition try_except {A : Type} (m : M W A) (h : exn -> M W A) : M W A :=
  fun w =>
    match m w with
    | (Ok a, w') => (Ok a, w')
    | (Raise e, w') => h e w'
    end.

(** [try: m finally: f]; an exception of [f] replaces the outcome of [m]. *)
Definition try_finally {A : Type} (m : M W A) (f : M W unit) : M W A :=
  fun w =>
    match m w with
    | (r, w') =>
        match f w' with
        | (Ok _, w'') => (r, w'')
        | (Raise e, w'') => (Raise e, w'')
        end
    end.

Definition when (b : bool) (m : M W unit) : M W unit := if b then m else ret tt.

(** [for x in l: f x] *)
Fixpoint for_each {A : Type} (l : list A) (f : A -> M W unit) : M W unit :=
  match l with
  | [] => ret tt
  | a :: l' => bind (f a) (fun _ => for_each l' f)
  end.

(** [[f(x) for x in l]] *)
Fixpoint map_m {A B : Type} (f : A -> M W B) (l : list A) : M W (list B) :=
  match l with
  | [] => ret []
  | a :: l' => bind (f a) (fun b => bind (map_m f l') (fun bs => ret (b :: bs)))
  end.

(** A [for] loop that updates local variables [s]. *)
Fixpoint fold_m {A S : Type} (l : list A) (f : S -> A -> M W S) (s : S) : M W S :=
  match l with
  | [] => ret s
  | a :: l' => bind (f s a) (fold_m l' f)
  end.

(** Pointwise equality of computations. *)
Definition meq {A : Type} (m1 m2 : M W A) : Prop := forall w, m1 w = m2 w.

#[export] Instance meq_equivalence {A : Type} : Equivalence (@meq A).
Proof.
  split.
  - intros m w. reflexivity.
  - intros m1 m2 H w. symmetry. apply H.
  - intros m1 m2 m3 H1 H2 w. rewrite H1. apply H2.
Qed.

#[export] Instance bind_proper {A B : Type} :
  Proper (@meq A ==> pointwise_relation A (@meq B) ==> @meq B) bind.
Proof.
  intros m1 m2 Hm k1 k2 Hk w. unfold bind. rewrite Hm.
  destruct (m2 w) as [[a|e] w']; [apply Hk | reflexivity].
Qed.

Lemma bind_ret_l {A B : Type} (a : A) (k : A -> M W B) : meq (bind (ret a) k) (k a).
Proof. intros w. reflexivity. Qed.

Lemma bind_assoc {A B C : Type} (m : M W A) (k : A -> M W B) (h : B -> M W C) :
  meq (bind (bind m k) h) (bind m (fun a => bind (k a) h)).
Proof. intros w. unfold bind. destruct (m w) as [[a|e] w']; reflexivity. Qed.

Lemma bind_run {A B : Type} (m : M W A) (k : A -> M W B) w a w' :
  m w = (Ok a, w') -> bind m k w = k a w'.
Proof. intros H. unfold bind. rewrite H. reflexivity. Qed.

Lemma bind_run_raise {A B : Type} (m : M W A) (k : A -> M W B) w e w' :
  m w = (Raise e, w') -> bind m k w = (Raise e, w').
Proof. intros H. unfold bind. rewrite H. reflexivity. Qed.

Lemma bind_ok_inv {A B : Type} (m : M W A) (k : A -> M W B) w b w'' :
  bind m k w = (Ok b, w'') ->
  exists a w', m w = (Ok a, w') /\ k a w' = (Ok b, w'').
Proof. unfold bind. destruct (m w) as [[a|e] w']; [eauto | discriminate]. Qed.

(** ** Hoare triples with an exceptional postcondition *)

Definition triple {A : Type} (P : W -> Prop) (m : M W A)
    (Q : A -> W -> Prop) (E : exn -> W -> Prop) : Prop :=
  forall w, P w -> match m w with
                   | (Ok a, w') => Q a w'
                   | (Raise e, w') => E e w'
                   end.

Lemma triple_ret {A : Type} (a : A) (P : W -> Prop) (Q : A -> W -> Prop) E :
  (forall w, P w -> Q a w) -> triple P (ret a) Q E.
Proof. intros H w Hw. apply H, Hw. Qed.

Lemma triple_raise {A : Type} e (P : W -> Prop) (Q : A -> W -> Prop) (E : exn -> W -> Prop) :
  (forall w, P w -> E e w) -> triple P (raise e) Q E.
Proof. intros H w Hw. apply H, Hw. Qed.

Lemma triple_bind {A B : Type} (P : W -> Prop) (m : M W A) (R : A -> W -> Prop)
    (k : A -> M W B) (Q : B -> W -> Prop) E :
  triple P m R E -> (forall a, triple (R a) (k a) Q E) -> triple P (bind m k) Q E.
Proof.
  intros Hm Hk w Hw. specialize (Hm w Hw). unfold bind.
  destruct (m w) as [[a|e] w']; [apply Hk, Hm | exact Hm].
Qed.

Lemma triple_consequence {A : Type} (P P' : W -> Prop) (m : M W A)
    (Q Q' : A -> W -> Prop) (E E' : exn -> W -> Prop) :
  triple P m Q E -> (forall w, P' w -> P w) -> (forall a w, Q a w -> Q' a w) ->
  (forall e w, E e w -> E' e w) -> triple P' m Q' E'.
Proof.
  intros Hm HP HQ HE w Hw. specialize (Hm w (HP w Hw)).
  destruct (m w) as [[a|e] w']; auto.
Qed.

(** An invariant of every iteration is an invariant of the loop. *)
Lemma triple_for_each {A : Type} (l : list A) (f : A -> M W unit) (I : W -> Prop) E :
  (forall a, a ∈ l -> triple I (f a) (fun _ => I) E) ->
  triple I (for_each l f) (fun _ => I) E.
Proof.
  induction l as [|a l IH]; intros Hf.
  - apply triple_ret. auto.
  - simpl. eapply triple_bind.
    + apply Hf. apply list_elem_of_here.
    + intros u. apply IH. intros b Hb. apply Hf. by apply list_elem_of_further.
Qed.

Lemma for_each_app {A : Type} (l1 l2 : list A) (f : A -> M W unit) :
  meq (for_each (l1 ++ l2) f) (bind (for_each l1 f) (fun _ => for_each l2 f)).
Proof.
  induction l1 as [|a l1 IH]; intros w; [reflexivity|].
  simpl. unfold bind at 1 2. unfold bind at 1.
  destruct (f a w) as [[u|e] w']; [apply IH | reflexivity].
Qed.

End monad.

Notation "x <- m ;; k" := (bind m (fun x => k))
  (at level 100, m at next level, right associativity) : py_scope.
Notation "' pat <- m ;; k" := (bind m (fun x => match x with pat => k end))
  (at level 20, pat pattern, m at level 99, k at level 200) : py_scope.
Notation "m ;;; k" := (bind m (fun _ => k))
  (at level 100, right associativity) : py_scope.

(** ** Step relations *)

Section sequences.
Context {S : Type} (R : S -> S -> Prop).

(** Zero or more steps. *)
Inductive star : S -> S -> Prop :=
  | star_refl s : star s s
  | star_step s1 s2 s3 : R s1 s2 -> star s2 s3 -> star s1 s3.

Lemma star_trans s1 s2 s3 : star s1 s2 -> star s2 s3 -> star s1 s3.
Proof. induction 1; eauto using star. Qed.

Lemma star_one s1 s2 : R s1 s2 -> star s1 s2.
Proof. eauto using star. Qed.

(** A property every step preserves holds in every reachable state. *)
Lemma star_invariant (I : S -> Prop) :
  (forall s s', I s -> R s s' -> I s') -> forall s s', star s s' -> I s -> I s'.
Proof. intros HI s s' Hs. induction Hs; eauto. Qed.

End sequences.

(** ** Tactics *)

(** Case analysis on the scrutinee of the innermost [match] of the goal. *)
Ltac split_match :=
  match goal with
  | |- context [match ?x with _ => _ end] =>
      lazymatch x with
      | context [match _ with _ => _ end] => fail
      | _ => destruct x eqn:?
      end
  end.

(** Turn boolean comparisons in the context into propositions. *)
Ltac bool_to_prop :=
  repeat match goal with
  | H : (_ && _) = true |- _ => apply andb_prop in H; destruct H
  | H : (_ || _) = false |- _ => apply orb_false_elim in H; destruct H
  | H : negb _ = true |- _ => apply negb_true_iff in H
  | H : negb _ = false |- _ => apply negb_false_iff in H
  | H : (_ =? _)%Z = true |- _ => apply Z.eqb_eq in H
  | H : (_ =? _)%Z = false |- _ => apply Z.eqb_neq in H
  | H : (_ <? _)%Z = true |- _ => apply Z.ltb_lt in H
  | H : (_ <? _)%Z = false |- _ => apply Z.ltb_ge in H
  | H : (_ <=? _)%Z = true |- _ => apply Z.leb_le in H
  | H : (_ <=? _)%Z = false |- _ => apply Z.leb_gt in H
  | H : bool_decide _ = true |- _ => apply bool_decide_eq_true_1 in H
  | H : bool_decide _ = false |- _ => apply bool_decide_eq_false_1 in H
  end.

(** A decidable statement about concrete values, by computation. *)
Ltac reg_mem := apply (bool_decide_unpack _); vm_compute; exact I.

(** Split a run of a [bind] that ended normally. *)
Ltac inv_bind H :=
  apply bind_ok_inv in H;
  let a := fresh "a" in let w := fresh "w" in let H1 := fresh "Hrun" in
  destruct H as (a & w & H1 & H).

(** ** Rings: rows overwritten in turn *)

Section ring.
Context {A : Type} (k : nat) (zero : A).

(** The rows after [seen] went into them: the last [k] are in their rows, rows not reached yet
    are as at the start. *)
Record ring_holds (seen rows : list A) : Prop := {
  ring_size : length rows = k;
  ring_last j x : seen !! j = Some x -> (length seen <= j + k)%nat -> rows !! (j mod k)%nat = Some x;
  ring_unused i : (length seen <= i < k)%nat -> rows !! i = Some zero }.

Lemma ring_new : ring_holds [] (replicate k zero).
Proof. split; [apply length_replicate|done|]. cbn. intros i Hi. apply lookup_replicate_2. lia. Qed.

Lemma ring_put seen x rows :
  (0 < k)%nat -> ring_holds seen rows ->
  ring_holds (seen ++ [x]) (<[(length seen mod k)%nat := x]> rows).
Proof.
  intros Hk [Hr Hl Hz]. split.
  - by rewrite length_insert.
  - rewrite length_app. cbn. intros j y Hj Hlast.
    destruct (decide (j = length seen)) as [->|Hne].
    + rewrite list_lookup_insert_eq by (rewrite Hr; apply Nat.mod_upper_bound; lia).
      rewrite lookup_app_r in Hj by lia. by rewrite Nat.sub_diag in Hj.
    + apply lookup_lt_Some in Hj as Hlt. rewrite length_app in Hlt. cbn in Hlt.
      rewrite lookup_app_l in Hj by lia.
      rewrite list_lookup_insert_ne; [apply Hl; [done|lia]|].
      intros He. pose proof (Nat.div_mod_eq (length seen) k). pose proof (Nat.div_mod_eq j k).
      assert (length seen `div` k = j `div` k \/ length seen `div` k >= j `div` k + 1 \/
        length seen `div` k + 1 <= j `div` k)%nat as [Hd|[Hd|Hd]] by lia; nia.
  - rewrite length_app. cbn. intros i Hi.
    rewrite Nat.mod_small by lia. rewrite list_lookup_insert_ne by lia. apply Hz. lia.
Qed.

End ring.

(** ** Generic lemmas on results, lists and integers *)

Open Scope py_scope.

Lemma rbind_ok {A B : Type} (r : result A) (k : A -> result B) b :
  rbind r k = Ok b -> exists a, r = Ok a /\ k a = Ok b.
Proof. destruct r; simpl; [eauto | discriminate]. Qed.

Lemma rmap_ok {A B : Type} (f : A -> result B) (l : list A) bs :
  rmap f l = Ok bs <-> Forall2 (fun a b => f a = Ok b) l bs.
Proof.
  revert bs. induction l as [|a l IH]; intros bs; simpl.
  - split; intros H; [by simplify_eq; constructor | by inversion H].
  - split.
    + intros H. apply rbind_ok in H as (b & Hb & H).
      apply rbind_ok in H as (bs' & Hbs & H). simplify_eq.
      constructor; [done | by apply IH].
    + intros H. inversion H as [|? b ? bs' Hb Hbs]; subst.
      rewrite Hb. simpl. apply IH in Hbs. rewrite Hbs. done.
Qed.

Lemma rmap_app {A B : Type} (f : A -> result B) l1 l2 bs1 bs2 :
  rmap f l1 = Ok bs1 -> rmap f l2 = Ok bs2 -> rmap f (l1 ++ l2) = Ok (bs1 ++ bs2).
Proof. rewrite !rmap_ok. apply Forall2_app. Qed.

Lemma rfold_app {A S : Type} (f : S -> A -> result S) l1 l2 s :
  rfold f (l1 ++ l2) s = rbind (rfold f l1 s) (rfold f l2).
Proof.
  revert s. induction l1 as [|a l1 IH]; intros s; [done|].
  simpl. destruct (f s a); simpl; [apply IH | done].
Qed.

(** An invariant of the loop body is an invariant of the loop. *)
Lemma rfold_invariant {A S : Type} (f : S -> A -> result S) (I : S -> Prop) l s s' :
  (forall s1 a s2, a ∈ l -> I s1 -> f s1 a = Ok s2 -> I s2) ->
  I s -> rfold f l s = Ok s' -> I s'.
Proof.
  revert s. induction l as [|a l IH]; intros s Hf Hs H; simpl in H.
  - by simplify_eq.
  - apply rbind_ok in H as (s1 & H1 & H).
    eapply IH; [|eapply Hf; [|exact Hs|exact H1]|exact H].
    + intros s2 b s3 Hb. apply Hf. by apply list_elem_of_further.
    + apply list_elem_of_here.
Qed.

Local Open Scope Z_scope.

(** A field below another one is a sum. *)
Lemma lor_field a b n : 0 <= n -> 0 <= a < 2 ^ n -> Z.lor a (Z.shiftl b n) = a + b * 2 ^ n.
Proof.
  intros Hn Ha. rewrite Z.shiftl_mul_pow2 by done.
  rewrite <- Z.add_lor_land. assert (Hl : Z.land a (b * 2 ^ n) = 0); [|lia].
  apply Z.bits_inj'. intros k Hk. rewrite Z.land_spec, Z.bits_0, <- Z.shiftl_mul_pow2 by done.
  rewrite Z.shiftl_spec by done. destruct (Z.ltb_spec k n) as [Hlt|Hge].
  - rewrite (Z.testbit_neg_r b) by lia. apply andb_false_r.
  - destruct (Z.eq_dec a 0) as [->|Hz]; [by rewrite Z.bits_0|].
    rewrite (Z.bits_above_log2 a); [done|lia|].
    assert (Z.log2 a < n) by (apply Z.log2_lt_pow2; lia). lia.
Qed.
