(* ===== verification/PyStr.v ===== *)
(** Python strings and their conversions to and from integers: the part of [str], [int]
    and [str.join] that the client tools use.  A [str] is a sequence of 8-bit characters
    (the tools only build and read ASCII text); characters outside ASCII are neither white
    space nor digits here. *)
From Stdlib Require Import DecimalString DecimalZ DecimalPos.
From S2P Require Import Prelude.

Open Scope string_scope.
Open Scope list_scope.
Open Scope Z_scope.
Open Scope py_scope.

(** ** Characters *)

Definition code (c : ascii) : Z := Z.of_N (N_of_ascii c).

(** [str.isspace] on one ASCII character. *)
Definition is_space (c : ascii) : bool :=
  let n := code c in ((9 <=? n) && (n <=? 13)) || ((28 <=? n) && (n <=? 32)).

Definition char (n : Z) : ascii := ascii_of_N (Z.to_N n).

(** Value of a digit or letter in the numeral systems [int] knows. *)
Definition digit_val (c : ascii) : option Z :=
  let n := code c in
  if (48 <=? n) && (n <=? 57) then Some (n - 48)
  else if (97 <=? n) && (n <=? 122) then Some (n - 87)
  else if (65 <=? n) && (n <=? 90) then Some (n - 55)
  else None.

(** ** [strip], [split], [join] *)

Fixpoint lstrip (s : string) : string :=
  match s with
  | "" => ""
  | String c t => if is_space c then lstrip t else s
  end.

Fixpoint rstrip (s : string) : string :=
  match s with
  | "" => ""
  | String c t =>
      let t' := rstrip t in
      match t' with
      | "" => if is_space c then "" else String c ""
      | _ => String c t'
      end
  end.

(** [s.strip()] *)
Definition strip (s : string) : string := rstrip (lstrip s).

(** [s.split(c)] for a one-character separator: never empty. *)
Fixpoint split_on (c : ascii) (s : string) : list string :=
  match s with
  | "" => [""]
  | String a t =>
      if Ascii.eqb a c then "" :: split_on c t
      else match split_on c t with
           | h :: r => String a h :: r
           | [] => [String a ""]
           end
  end.

(** [s.split(c, 1)]: [Some (before, after)] when [c in s], [None] otherwise. *)
Fixpoint split_once (c : ascii) (s : string) : option (string * string) :=
  match s with
  | "" => None
  | String a t =>
      if Ascii.eqb a c then Some ("", t)
      else match split_once c t with
           | Some (x, y) => Some (String a x, y)
           | None => None
           end
  end.

(** [c in s] for a one-character string [c]. *)
Fixpoint has_char (c : ascii) (s : string) : bool :=
  match s with
  | "" => false
  | String a t => Ascii.eqb a c || has_char c t
  end.

(** [sep.join(l)] *)
Fixpoint join (sep : string) (l : list string) : string :=
  match l with
  | [] => ""
  | [s] => s
  | s :: l' => s +:+ sep +:+ join sep l'
  end.

(** [s.replace(c, r)] for a one-character [c]. *)
Fixpoint replace_char (c : ascii) (r : string) (s : string) : string :=
  match s with
  | "" => ""
  | String a t => if Ascii.eqb a c then r +:+ replace_char c r t else String a (replace_char c r t)
  end.

(** [s.split()]: the maximal runs of non-space characters. *)
Fixpoint words_aux (cur : string) (s : string) : list string :=
  match s with
  | "" => match cur with "" => [] | _ => [cur] end
  | String a t =>
      if is_space a
      then match cur with "" => words_aux "" t | _ => cur :: words_aux "" t end
      else words_aux (cur +:+ String a "") t
  end.

Definition split_words (s : string) : list string := words_aux "" s.

(** [s.startswith(p)] with the rest of [s]. *)
Fixpoint strip_prefix (p s : string) : option string :=
  match p, s with
  | "", _ => Some s
  | String a p', String b s' => if Ascii.eqb a b then strip_prefix p' s' else None
  | String _ _, "" => None
  end.

(** ** Printing integers *)

(** [str(z)] *)
Definition str_Z (z : Z) : string := NilZero.string_of_int (Z.to_int z).

Definition hex_digit (upper : bool) (d : Z) : ascii :=
  if d <? 10 then char (48 + d) else char ((if upper then 55 else 87) + d).

(** The low [n] hexadecimal digits of [z], most significant first. *)
Fixpoint hex_digits (upper : bool) (n : nat) (z : Z) : string :=
  match n with
  | O => ""
  | S n' => hex_digits upper n' (Z.shiftr z 4) +:+ String (hex_digit upper (Z.land z 15)) ""
  end.

(** Number of hexadecimal digits of a non-negative integer. *)
Definition hex_len (z : Z) : nat := Z.to_nat (Z.log2 z / 4 + 1).

(** [f"{z:0wX}"] ([upper]) and [f"{z:0wx}"]; the sign counts in the width. *)
Definition hex_pad (upper : bool) (w : nat) (z : Z) : string :=
  if z <? 0
  then "-" +:+ hex_digits upper (Nat.max (w - 1) (hex_len (- z))) (- z)
  else hex_digits upper (Nat.max w (hex_len z)) z.

(** [f"0x{z:08X}"] *)
Definition hex32 (z : Z) : string := "0x" +:+ hex_pad true 8 z.

(** Left padding with zeros, [f"{z:0wd}"] for a non-negative [z]. *)
Fixpoint zeros (n : nat) : string :=
  match n with O => "" | S n' => String "0" (zeros n') end.

Definition dec_pad (w : nat) (z : Z) : string :=
  if z <? 0
  then "-" +:+ zeros (w - 1 - String.length (str_Z (- z))) +:+ str_Z (- z)
  else zeros (w - String.length (str_Z z)) +:+ str_Z z.

(** ** Reading integers *)

(** Digits in [base] with single underscores between them; [us] says that the previous
    character was an underscore (or that nothing was read yet). *)
Fixpoint digits (base : Z) (s : string) (acc : Z) (us : bool) : option Z :=
  match s with
  | "" => if us then None else Some acc
  | String c t =>
      if Ascii.eqb c "_" then (if us then None else digits base t acc true)
      else match digit_val c with
           | Some d => if d <? base then digits base t (acc * base + d) false else None
           | None => None
           end
  end.

(** Digits after a base prefix: one underscore may follow the prefix. *)
Definition prefixed_digits (base : Z) (s : string) : option Z :=
  match s with
  | String "_" t => digits base t 0 true
  | _ => digits base s 0 true
  end.

Definition unsigned10 (s : string) : option Z := digits 10 s 0 true.

(** The body of [int(s, 0)] without sign: a prefix selects the base, and a decimal literal
    with a leading zero must be zero. *)
Definition unsigned0 (s : string) : option Z :=
  match s with
  | String "0" (String p t) =>
      if Ascii.eqb p "x" || Ascii.eqb p "X" then prefixed_digits 16 t
      else if Ascii.eqb p "o" || Ascii.eqb p "O" then prefixed_digits 8 t
      else if Ascii.eqb p "b" || Ascii.eqb p "B" then prefixed_digits 2 t
      else match digits 10 s 0 true with
           | Some 0 => Some 0
           | _ => None
           end
  | _ => digits 10 s 0 true
  end.

(** An optional sign, then [body]. *)
Definition signed (body : string -> option Z) (s : string) : option Z :=
  match s with
  | String "-" t => Z.opp <$> body t
  | String "+" t => body t
  | _ => body s
  end.

Definition int_error (base : Z) (s : string) : exn :=
  Exn ValueError ("invalid literal for int() with base " +:+ str_Z base +:+ ": '" +:+ s +:+ "'").

Definition int_of (base : Z) (body : string -> option Z) (s : string) : result Z :=
  match signed body (strip s) with
  | Some z => Ok z
  | None => Raise (int_error base s)
  end.

(** [int(s)] *)
Definition int10 (s : string) : result Z := int_of 10 unsigned10 s.

(** [int(s, 0)] *)
Definition int0 (s : string) : result Z := int_of 0 unsigned0 s.

(** [int(s, 16)]: an optional [0x] prefix is accepted. *)
Definition unsigned16 (s : string) : option Z :=
  match s with
  | String "0" (String p t) =>
      if Ascii.eqb p "x" || Ascii.eqb p "X" then prefixed_digits 16 t else digits 16 s 0 true
  | _ => digits 16 s 0 true
  end.

Definition int16 (s : string) : result Z := int_of 16 unsigned16 s.

(** ** Lemmas *)

Lemma append_nil_r (s : string) : s +:+ "" = s.
Proof.
  induction s as [|c s IH]; [done|]. change (String c (s +:+ "") = String c s). by rewrite IH.
Qed.

Lemma append_assoc (s1 s2 s3 : string) : (s1 +:+ s2) +:+ s3 = s1 +:+ s2 +:+ s3.
Proof.
  induction s1 as [|c s1 IH]; [done|].
  change (String c ((s1 +:+ s2) +:+ s3) = String c (s1 +:+ s2 +:+ s3)). by rewrite IH.
Qed.

(** Every character of [s] satisfies [p]. *)
Fixpoint str_all (p : ascii -> bool) (s : string) : bool :=
  match s with
  | "" => true
  | String c t => p c && str_all p t
  end.

Definition is_digit (c : ascii) : bool :=
  match digit_val c with Some d => d <? 10 | None => false end.

Lemma str_all_impl (p q : ascii -> bool) s :
  (forall c, p c = true -> q c = true) -> str_all p s = true -> str_all q s = true.
Proof.
  intros Hpq. induction s as [|c t IH]; simpl; [done|].
  intros [Hc Ht]%andb_prop. rewrite (Hpq _ Hc). by apply IH.
Qed.

Lemma str_all_app p s1 s2 : str_all p (s1 +:+ s2) = str_all p s1 && str_all p s2.
Proof. induction s1 as [|c t IH]; simpl; [done|]. by rewrite IH, andb_assoc. Qed.

(** A Boolean property of characters is decided by the 256 characters. *)
Lemma ascii_forall (p : ascii -> bool) :
  forallb p (ascii_of_nat <$> seq 0 256) = true -> forall c, p c = true.
Proof.
  intros H c. rewrite forallb_forall in H. apply H.
  rewrite <- (ascii_nat_embedding c). apply list_elem_of_In.
  apply list_elem_of_fmap_2. apply elem_of_seq.
  pose proof (nat_ascii_bounded c). lia.
Qed.

Ltac by_ascii c :=
  revert c;
  match goal with
  | |- forall c, @?p c = true -> @?q c = true =>
      let H := fresh in
      pose proof (ascii_forall (fun c => implb (p c) (q c)) eq_refl) as H;
      intros c Hc; specialize (H c); simpl in H; rewrite Hc in H; exact H
  end.

Lemma digit_not_space c : is_digit c = true -> negb (is_space c) = true.
Proof. by_ascii c. Qed.

Lemma digit_not_comma c : is_digit c = true -> negb (Ascii.eqb c ",") = true.
Proof. by_ascii c. Qed.

Lemma digit_not_dash c : is_digit c = true -> negb (Ascii.eqb c "-") = true.
Proof. by_ascii c. Qed.

Lemma strip_id s : str_all (fun c => negb (is_space c)) s = true -> strip s = s.
Proof.
  intros H. unfold strip.
  assert (Hl : lstrip s = s).
  { destruct s as [|c t]; simpl in *; [done|].
    apply andb_prop in H as [Hc _]. by destruct (is_space c). }
  rewrite Hl. clear Hl. induction s as [|c t IH]; simpl in *; [done|].
  apply andb_prop in H as [Hc Ht]. rewrite (IH Ht).
  destruct t; [by destruct (is_space c) | done].
Qed.

Lemma split_on_nil c s : split_on c s <> [].
Proof.
  destruct s as [|a t]; simpl; [done|].
  destruct (Ascii.eqb a c); [done|]. by destruct (split_on c t).
Qed.

Lemma split_on_none c s :
  str_all (fun a => negb (Ascii.eqb a c)) s = true -> split_on c s = [s].
Proof.
  induction s as [|a t IH]; simpl; [done|].
  intros [Ha Ht]%andb_prop. destruct (Ascii.eqb a c); [done|]. by rewrite (IH Ht).
Qed.

Lemma split_on_cons c s rest :
  str_all (fun a => negb (Ascii.eqb a c)) s = true ->
  split_on c (s +:+ String c rest) = s :: split_on c rest.
Proof.
  induction s as [|a t IH]; simpl.
  - by rewrite Ascii.eqb_refl.
  - intros [Ha Ht]%andb_prop. destruct (Ascii.eqb a c); [done|]. by rewrite (IH Ht).
Qed.

(** Splitting what [join] put together gives the parts back. *)
Lemma split_on_join c l :
  l <> [] -> Forall (fun s => str_all (fun a => negb (Ascii.eqb a c)) s = true) l ->
  split_on c (join (String c "") l) = l.
Proof.
  intros Hne H. induction H as [|s l Hs Hl IH]; [done|].
  destruct l as [|s' l]; [by apply split_on_none|].
  change (join (String c "") (s :: s' :: l)) with (s +:+ String c (join (String c "") (s' :: l))).
  rewrite split_on_cons by done. f_equal. by apply IH.
Qed.

Lemma split_once_none c s :
  str_all (fun a => negb (Ascii.eqb a c)) s = true -> split_once c s = None.
Proof.
  induction s as [|a t IH]; simpl; [done|].
  intros [Ha Ht]%andb_prop. destruct (Ascii.eqb a c); [done|]. by rewrite (IH Ht).
Qed.

Lemma split_once_app c s rest :
  str_all (fun a => negb (Ascii.eqb a c)) s = true ->
  split_once c (s +:+ String c rest) = Some (s, rest).
Proof.
  induction s as [|a t IH]; simpl.
  - by rewrite Ascii.eqb_refl.
  - intros [Ha Ht]%andb_prop. destruct (Ascii.eqb a c); [done|]. by rewrite (IH Ht).
Qed.

(** *** Decimal round trip *)

Lemma string_of_uint_digits d : str_all is_digit (NilEmpty.string_of_uint d) = true.
Proof. induction d; simpl; rewrite ?IHd; reflexivity. Qed.

(** Folding the printed digits computes the number they denote. *)
Lemma digits_uint_acc d acc :
  digits 10 (NilEmpty.string_of_uint d) (Zpos acc) false = Some (Zpos (Pos.of_uint_acc d acc)).
Proof.
  revert acc. induction d; intros acc; [reflexivity|..];
    cbn [NilEmpty.string_of_uint digits Pos.of_uint_acc];
    match goal with |- (if Ascii.eqb ?a ?b then _ else _) = _ =>
      change (Ascii.eqb a b) with false end; cbn;
    rewrite <- IHd; f_equal;
    match goal with |- context [code ?c] => let v := eval vm_compute in (code c) in change (code c) with v end;
    lia.
Qed.

Lemma digits_uint d :
  d <> Decimal.Nil -> digits 10 (NilEmpty.string_of_uint d) 0 true = Some (Z.of_uint d).
Proof.
  intros Hd.
  assert (H0 : forall d, digits 10 (NilEmpty.string_of_uint d) 0 false = Some (Z.of_uint d)).
  { clear. intros d. unfold Z.of_uint. induction d; [reflexivity|exact IHd|..];
      exact (digits_uint_acc _ _). }
  destruct d; [done|apply (H0 (Decimal.D0 d))|..];
    match goal with |- digits _ (NilEmpty.string_of_uint ?e) _ _ = _ => apply (H0 e) end.
Qed.

Lemma zero_string d :
  NilZero.string_of_uint d = NilEmpty.string_of_uint (match d with Decimal.Nil => Decimal.D0 Decimal.Nil | _ => d end).
Proof. destruct d; reflexivity. Qed.

Lemma signed_digits body s :
  str_all is_digit s = true -> signed body s = body s.
Proof.
  destruct s as [|c t]; [done|]. cbn [str_all]. intros [Hc _]%andb_prop.
  revert Hc. unfold signed.
  destruct c as [[] [] [] [] [] [] [] []]; try done.
Qed.

Lemma int10_digits s z :
  str_all is_digit s = true -> digits 10 s 0 true = Some z -> int10 s = Ok z.
Proof.
  intros Hs Hd. unfold int10, int_of.
  rewrite strip_id by (eapply str_all_impl; [apply digit_not_space | done]).
  rewrite signed_digits by done. unfold unsigned10. by rewrite Hd.
Qed.

Lemma str_Z_nonneg_uint z :
  0 <= z -> exists d, d <> Decimal.Nil /\ str_Z z = NilEmpty.string_of_uint d /\ Z.of_uint d = z.
Proof.
  intros Hz. unfold str_Z.
  pose proof (DecimalZ.of_to z) as Hof.
  destruct z as [|p|p]; [|clear Hz|lia].
  - exists (Decimal.D0 Decimal.Nil). done.
  - simpl in *. rewrite zero_string. exists (Pos.to_uint p).
    destruct (Pos.to_uint p) eqn:E; try (split; [done|]; split; done).
Qed.

(** [str] of a non-negative integer is made of decimal digits. *)
Lemma str_Z_digits z : 0 <= z -> str_all is_digit (str_Z z) = true.
Proof.
  intros Hz. destruct (str_Z_nonneg_uint z Hz) as (d & _ & -> & _).
  apply string_of_uint_digits.
Qed.

(** [int(str(z)) == z] for the non-negative integers the tools print. *)
Lemma int10_str_Z z : 0 <= z -> int10 (str_Z z) = Ok z.
Proof.
  intros Hz. destruct (str_Z_nonneg_uint z Hz) as (d & Hd & -> & Hz').
  apply int10_digits; [apply string_of_uint_digits|].
  rewrite digits_uint by done. by rewrite Hz'.
Qed.

Lemma str_Z_not_empty z : 0 <= z -> str_Z z <> "".
Proof. intros Hz Hs. pose proof (int10_str_Z z Hz) as H. by rewrite Hs in H. Qed.

(** Characters of a printed number: none is a space, a comma or a dash. *)
Lemma str_Z_no_space z : 0 <= z -> str_all (fun c => negb (is_space c)) (str_Z z) = true.
Proof. intros Hz. eapply str_all_impl; [apply digit_not_space | by apply str_Z_digits]. Qed.

Lemma str_Z_no_comma z : 0 <= z -> str_all (fun c => negb (Ascii.eqb c ",")) (str_Z z) = true.
Proof. intros Hz. eapply str_all_impl; [apply digit_not_comma | by apply str_Z_digits]. Qed.

Lemma str_Z_no_dash z : 0 <= z -> str_all (fun c => negb (Ascii.eqb c "-")) (str_Z z) = true.
Proof. intros Hz. eapply str_all_impl; [apply digit_not_dash | by apply str_Z_digits]. Qed.

#[export] Hint Resolve str_Z_digits str_Z_no_space str_Z_no_comma str_Z_no_dash
  str_Z_not_empty int10_str_Z : py.

Lemma split_on_join_str_Z l :
  l <> [] -> Forall (fun z => 0 <= z) l -> split_on "," (join "," (str_Z <$> l)) = str_Z <$> l.
Proof.
  intros Hne Hl. apply split_on_join; [by destruct l|].
  apply Forall_fmap. eapply Forall_impl; [exact Hl|]. intros z Hz. by apply str_Z_no_comma.
Qed.

(** ** Any integer *)

Lemma str_Z_neg z : z < 0 -> str_Z z = "-" +:+ str_Z (- z).
Proof. intros Hz. destruct z as [|p|p]; [lia|lia|]. reflexivity. Qed.

Definition is_int_char (c : ascii) : bool := is_digit c || Ascii.eqb c "-".

Lemma int_char_not_space c : is_int_char c = true -> negb (is_space c) = true.
Proof. by_ascii c. Qed.

Lemma int_char_not_newline c : is_int_char c = true -> negb (Ascii.eqb c (char 10)) = true.
Proof. by_ascii c. Qed.

Lemma str_Z_chars z : str_all is_int_char (str_Z z) = true.
Proof.
  assert (Hd : forall s, str_all is_digit s = true -> str_all is_int_char s = true).
  { intros s. apply str_all_impl. intros c Hc. unfold is_int_char. by rewrite Hc. }
  destruct (Z.ltb_spec z 0) as [Hz|Hz].
  - rewrite str_Z_neg, str_all_app by done.
    by rewrite (Hd (str_Z (- z))) by (apply str_Z_digits; lia).
  - by apply Hd, str_Z_digits.
Qed.

(** [int(str(z)) == z] *)
Lemma int10_str_Z_all z : int10 (str_Z z) = Ok z.
Proof.
  destruct (Z.ltb_spec z 0) as [Hz|Hz]; [|by apply int10_str_Z].
  unfold int10, int_of.
  rewrite strip_id by (eapply str_all_impl; [apply int_char_not_space|apply str_Z_chars]).
  rewrite str_Z_neg by done. pose proof (int10_str_Z (- z) ltac:(lia)) as H.
  unfold int10, int_of in H. rewrite strip_id, signed_digits in H
    by (first [eapply str_all_impl; [apply int_char_not_space|apply str_Z_chars]
              | apply str_Z_digits; lia]).
  change (signed unsigned10 ("-" +:+ str_Z (- z))) with (Z.opp <$> unsigned10 (str_Z (- z))).
  destruct (unsigned10 (str_Z (- z))); [|done].
  apply (inj Ok) in H as ->. cbn [fmap option_fmap option_map]. by rewrite Z.opp_involutive.
Qed.
