(* ===== verification/PyFloat.v ===== *)
(** Python floats: IEEE binary64 as [spec_float], the arithmetic the client tools use,
    [float(s)] with correct rounding, [int] and [round] of a float. *)
From Stdlib Require Export SpecFloat.
From S2P Require Import Prelude PyStr.

Abbreviation float := spec_float.

Definition f_of_Z (z : Z) : float := binary_normalize 53 1024 z 0 false.

(** The float nearest to [n / d]. *)
Definition f_of_ratio (neg : bool) (n d : positive) : float :=
  let '(q, e, l) := SFdiv_core_binary 53 1024 (Zpos n) 0 (Zpos d) 0 in
  binary_round_aux 53 1024 neg q e l.

Definition f_add : float -> float -> float := SFadd 53 1024.
Definition f_sub : float -> float -> float := SFsub 53 1024.
Definition f_mul : float -> float -> float := SFmul 53 1024.

(** [x / y]: division by zero raises. *)
Definition f_div (x y : float) : result float :=
  match y with
  | S754_zero _ => Raise (Exn OtherError "float division by zero")
  | _ => Ok (SFdiv 53 1024 x y)
  end.

(** A decimal literal [n * 10 ^ e]. *)
Definition f_decimal (neg : bool) (n e : Z) : float :=
  match n with
  | Zpos p =>
      match e with
      | Zneg k => f_of_ratio neg p (10 ^ k)%positive
      | Z0 => f_of_ratio neg p 1
      | Zpos k => f_of_ratio neg (p * 10 ^ k)%positive 1
      end
  | _ => S754_zero neg
  end.

Definition f_ltb (x y : float) : bool :=
  match SFcompare x y with Some Lt => true | _ => false end.
Definition f_leb (x y : float) : bool :=
  match SFcompare x y with Some Lt | Some Eq => true | _ => false end.
Definition f_eqb (x y : float) : bool :=
  match SFcompare x y with Some Eq => true | _ => false end.

Definition cannot_convert (what : string) : exn :=
  if decide (what = "NaN") then Exn ValueError "cannot convert float NaN to integer"
  else Exn OverflowError "cannot convert float infinity to integer".

(** [int(x)]: towards zero. *)
Definition f_trunc (x : float) : result Z :=
  match x with
  | S754_zero _ => Ok 0
  | S754_infinity _ => Raise (cannot_convert "infinity")
  | S754_nan => Raise (cannot_convert "NaN")
  | S754_finite s m e =>
      let a := if 0 <=? e then Zpos m * 2 ^ e else Zpos m / 2 ^ (- e) in
      Ok (if s then - a else a)
  end.

(** [n / d] rounded to the nearest integer, ties to even. *)
Definition div_half_even (n d : Z) : Z :=
  let q := n / d in
  let r := n mod d in
  match 2 * r ?= d with
  | Lt => q
  | Gt => q + 1
  | Eq => if Z.even q then q else q + 1
  end.

(** [round(x)] *)
Definition f_round (x : float) : result Z :=
  match x with
  | S754_zero _ => Ok 0
  | S754_infinity _ => Raise (cannot_convert "infinity")
  | S754_nan => Raise (cannot_convert "NaN")
  | S754_finite s m e =>
      let a := if 0 <=? e then Zpos m * 2 ^ e else div_half_even (Zpos m) (2 ^ (- e)) in
      Ok (if s then - a else a)
  end.

(** ** [float(s)] *)

(** Digits with single underscores between them: the value, the number of digits and what
    follows them; [None] for a misplaced underscore. *)
Fixpoint dec_digits (s : string) (acc : Z) (count : Z) (us : bool) : option (Z * Z * string) :=
  match s with
  | "" => if us && (0 <? count) then None else Some (acc, count, "")
  | String c t =>
      if Ascii.eqb c "_" then (if us then None else dec_digits t acc count true)
      else if (48 <=? code c) && (code c <=? 57)
      then dec_digits t (acc * 10 + (code c - 48)) (count + 1) false
      else if us && (0 <? count) then None else Some (acc, count, s)
  end.

Definition lower (c : ascii) : ascii :=
  if (65 <=? code c) && (code c <=? 90) then char (code c + 32) else c.

Fixpoint lower_str (s : string) : string :=
  match s with "" => "" | String c t => String (lower c) (lower_str t) end.

(** The exponent part, [e[sign]digits] or nothing. *)
Definition exponent (s : string) : option Z :=
  match s with
  | "" => Some 0
  | String c t =>
      if Ascii.eqb (lower c) "e" then
        signed (fun u => match dec_digits u 0 0 true with
                         | Some (v, n, "") => if 0 <? n then Some v else None
                         | _ => None
                         end) t
      else None
  end.

(** A literal without sign: the float given a sign. *)
Definition float_body (neg : bool) (s : string) : option float :=
  if decide (lower_str s = "inf" \/ lower_str s = "infinity") then Some (S754_infinity neg)
  else if decide (lower_str s = "nan") then Some S754_nan
  else
    match dec_digits s 0 0 true with
    | None => None
    | Some (ip, ni, rest) =>
        match rest with
        | String "." t =>
            match dec_digits t ip 0 true with
            | None => None
            | Some (v, nf, rest') =>
                if ni + nf =? 0 then None
                else (fun e => f_decimal neg v (e - nf)) <$> exponent rest'
            end
        | _ => if ni =? 0 then None else f_decimal neg ip <$> exponent rest
        end
    end.

(** [float(s)] *)
Definition py_float (s : string) : result float :=
  let t := strip s in
  let r := match t with
           | String "-" u => float_body true u
           | String "+" u => float_body false u
           | _ => float_body false t
           end in
  match r with
  | Some x => Ok x
  | None => Raise (Exn ValueError ("could not convert string to float: '" +:+ s +:+ "'"))
  end.

(** ** Lemmas *)

(** Rounding to the nearest integer is monotone and within one half. *)
Lemma div_half_even_spec n d :
  0 < d -> 2 * Z.abs (n - div_half_even n d * d) <= d.
Proof.
  intros Hd. unfold div_half_even.
  pose proof (Z.div_mod n d ltac:(lia)) as Hdm. pose proof (Z.mod_pos_bound n d Hd) as Hr.
  destruct (Z.compare_spec (2 * (n mod d)) d); [destruct (Z.even (n / d))|..]; nia.
Qed.

Lemma div_half_even_mono n1 n2 d : 0 < d -> n1 <= n2 -> div_half_even n1 d <= div_half_even n2 d.
Proof.
  intros Hd Hn. unfold div_half_even.
  pose proof (Z.div_mod n1 d ltac:(lia)) as H1. pose proof (Z.mod_pos_bound n1 d Hd) as R1.
  pose proof (Z.div_mod n2 d ltac:(lia)) as H2. pose proof (Z.mod_pos_bound n2 d Hd) as R2.
  pose proof (Z.div_le_mono n1 n2 d Hd Hn) as Hq.
  destruct (Z.eq_dec (n1 / d) (n2 / d)) as [He|He].
  - rewrite He in *. destruct (Z.compare_spec (2 * (n1 mod d)) d),
      (Z.compare_spec (2 * (n2 mod d)) d); destruct (Z.even (n2 / d)); nia.
  - destruct (Z.compare_spec (2 * (n1 mod d)) d), (Z.compare_spec (2 * (n2 mod d)) d);
      destruct (Z.even (n1 / d)), (Z.even (n2 / d)); lia.
Qed.

(** ** The order of floats

    Comparison is lexicographic on a key of integers; what is not a number has none. *)
Definition f_key (x : float) : option (Z * Z * Z) :=
  match x with
  | S754_zero _ => Some (0, 0, 0)
  | S754_infinity s => Some (if s then -2 else 2, 0, 0)
  | S754_nan => None
  | S754_finite s m e => Some (if s then (-1, - e, - Zpos m) else (1, e, Zpos m))
  end.

Definition key_lt (a b : Z * Z * Z) : Prop :=
  let '(a1, a2, a3) := a in
  let '(b1, b2, b3) := b in
  a1 < b1 \/ (a1 = b1 /\ (a2 < b2 \/ (a2 = b2 /\ a3 < b3))).

Lemma f_compare_key x y :
  SFcompare x y =
  match f_key x, f_key y with
  | Some (a1, a2, a3), Some (b1, b2, b3) =>
      Some (match a1 ?= b1 with
            | Eq => match a2 ?= b2 with Eq => a3 ?= b3 | c => c end
            | c => c
            end)
  | _, _ => None
  end.
Proof.
  destruct x as [sx|sx| |sx mx ex], y as [sy|sy| |sy my ey]; cbn; try done;
    try destruct sx; try destruct sy; cbn; try done.
  f_equal. rewrite Z.compare_opp, (Z.compare_antisym ey ex).
  change (- Zpos mx ?= - Zpos my) with (CompOpp (Zpos mx ?= Zpos my)).
  change (Pos.compare_cont Eq mx my) with (Zpos mx ?= Zpos my).
  by destruct (ey ?= ex).
Qed.

Lemma f_ltb_key x y a b :
  f_key x = Some a -> f_key y = Some b -> f_ltb x y = true <-> key_lt a b.
Proof.
  intros Hx Hy. unfold f_ltb. rewrite f_compare_key, Hx, Hy.
  destruct a as [[a1 a2] a3], b as [[b1 b2] b3]. unfold key_lt.
  destruct (Z.compare_spec a1 b1); [|split; [intros; lia|done]|split; [done|lia]].
  destruct (Z.compare_spec a2 b2); [|split; [intros; lia|done]|split; [done|lia]].
  destruct (Z.compare_spec a3 b3); split; try done; lia.
Qed.

Lemma f_eqb_key x y a b : f_key x = Some a -> f_key y = Some b -> f_eqb x y = true <-> a = b.
Proof.
  intros Hx Hy. unfold f_eqb. rewrite f_compare_key, Hx, Hy.
  destruct a as [[a1 a2] a3], b as [[b1 b2] b3].
  destruct (Z.compare_spec a1 b1); [|split; [done|intros [=]; lia]|split; [done|intros [=]; lia]].
  destruct (Z.compare_spec a2 b2); [|split; [done|intros [=]; lia]|split; [done|intros [=]; lia]].
  destruct (Z.compare_spec a3 b3); split; try done; try (intros [=]; lia). by subst.
Qed.

Lemma key_lt_irrefl a : ~ key_lt a a.
Proof. destruct a as [[a1 a2] a3]. cbn. lia. Qed.

Lemma key_lt_trans a b c : key_lt a b -> key_lt b c -> key_lt a c.
Proof. destruct a as [[a1 a2] a3], b as [[b1 b2] b3], c as [[c1 c2] c3]. cbn. lia. Qed.

Lemma key_lt_total a b : key_lt a b \/ a = b \/ key_lt b a.
Proof.
  destruct a as [[a1 a2] a3], b as [[b1 b2] b3]. cbn.
  destruct (Z.lt_trichotomy a1 b1) as [|[->|]]; [tauto| |tauto].
  destruct (Z.lt_trichotomy a2 b2) as [|[->|]]; [tauto| |tauto].
  destruct (Z.lt_trichotomy a3 b3) as [|[->|]]; tauto.
Qed.
