(* ===== verification/FloatExact.v ===== *)
(** Sums of floats that round nothing: integer multiples of a common power of two whose sums have
    at most 53 bits are added and subtracted exactly.  Also the texts [f"{x:.kf}"]. *)
From S2P Require Import Prelude PyStr PyFloat.

(** ** [f"{x:.kf}"] *)

(** The decimal digits of [n >= 0], at least [k] of them. *)
Definition pad_zeros (k : nat) (s : string) : string :=
  string_of_list_ascii (replicate (k - String.length s) "0"%char) +:+ s.

(** The value is rounded to [k] decimals, half to even, and keeps its sign even when it is zero. *)
Definition f_fixed (k : nat) (x : float) : string :=
  let digits (neg : bool) (n : Z) :=
    let p := 10 ^ Z.of_nat k in
    (if neg then "-" else "") +:+ str_Z (n / p) +:+
    (match k with O => "" | _ => "." +:+ pad_zeros k (str_Z (n mod p)) end) in
  match x with
  | S754_nan => "nan"
  | S754_infinity s => if s then "-inf" else "inf"
  | S754_zero s => digits s 0
  | S754_finite s m e =>
      let n := if 0 <=? e then Zpos m * 2 ^ e * 10 ^ Z.of_nat k
               else div_half_even (Zpos m * 10 ^ Z.of_nat k) (2 ^ (- e)) in
      digits s n
  end.

Example f_fixed_half : f_fixed 1 (f_decimal false 25 (-2)) = "0.2".
Proof. vm_compute. reflexivity. Qed.

Example f_fixed_minus : f_fixed 2 (f_decimal true 12345 (-3)) = "-12.35".
Proof. vm_compute. reflexivity. Qed.

(** ** Exact values *)

(** [k * 2 ^ e] as a float. *)
Definition fx (e k : Z) : float := binary_normalize 53 1024 k e false.

(** The place of the last bit of [p * 2 ^ e]. *)
Definition last_bit (p : positive) (e : Z) : Z := Z.max (Zpos (digits2_pos p) + e - 53) (-1074).

Lemma digits2_log p : Zpos (digits2_pos p) = Z.log2 (Zpos p) + 1.
Proof.
  assert (Hs : forall q, digits2_pos q = Pos.size q) by (induction q; cbn; congruence).
  rewrite Hs. destruct p; cbn; lia.
Qed.

Lemma digits2_shift p k : 0 <= k -> Zdigits2 (Zpos p * 2 ^ k) = Zpos (digits2_pos p) + k.
Proof.
  intros Hk. destruct (Zpos p * 2 ^ k) as [|q|q] eqn:Hq; [nia| |nia].
  cbn. rewrite !digits2_log, <- Hq, Z.log2_mul_pow2 by lia. lia.
Qed.

Lemma shr_1_double m : shr_1 {| shr_m := 2 * m; shr_r := false; shr_s := false |} =
  {| shr_m := m; shr_r := false; shr_s := false |}.
Proof. by destruct m. Qed.

Lemma iter_pos_nat {A : Type} (f : A -> A) n x : iter_pos f n x = Nat.iter (Pos.to_nat n) f x.
Proof.
  revert x. induction n as [n IH|n IH|]; intros x; cbn [iter_pos]; [| |done].
  - rewrite !IH, Pos2Nat.inj_xI, Nat.iter_succ_r, <- Nat.iter_add. f_equal. lia.
  - rewrite !IH, Pos2Nat.inj_xO, <- Nat.iter_add. f_equal. lia.
Qed.

Lemma shr_exact m k e : 0 <= k ->
  shr {| shr_m := m * 2 ^ k; shr_r := false; shr_s := false |} e k =
  ({| shr_m := m; shr_r := false; shr_s := false |}, e + k).
Proof.
  intros Hk. destruct k as [|n|]; [| |lia].
  { change (2 ^ 0) with 1. unfold shr. rewrite Z.mul_1_r, Z.add_0_r. done. }
  unfold shr. f_equal. rewrite iter_pos_nat, <- (positive_nat_Z n). generalize (Pos.to_nat n) as j. clear.
  induction j as [|j IH].
  { change (2 ^ Z.of_nat 0) with 1. by rewrite Z.mul_1_r. }
  rewrite Nat.iter_succ_r.
  replace (m * 2 ^ Z.of_nat (S j)) with (2 * (m * 2 ^ Z.of_nat j))
    by (rewrite Nat2Z.inj_succ, Z.pow_succ_r; lia).
  by rewrite shr_1_double.
Qed.

Lemma shl_align_pow p e e' : e' <= e ->
  Zpos (fst (shl_align p e e')) = Zpos p * 2 ^ (e - e') /\ snd (shl_align p e e') = e'.
Proof.
  intros He. unfold shl_align. destruct (e' - e) as [|n|n] eqn:Hn; [|lia|].
  - replace (e - e') with 0 by lia. cbn. lia.
  - replace (e - e') with (Zpos n) by lia. cbn [fst snd]. split; [|done].
    clear. induction n as [|n IH] using Pos.peano_ind; [cbn; lia|].
    rewrite Pos.iter_succ, Pos2Z.inj_succ, Z.pow_succ_r by lia.
    rewrite (Pos2Z.inj_xO (Pos.iter xO p n)). lia.
Qed.

(** Rounding a value of at most 53 bits, at any place below its own, changes nothing. *)
Lemma normalize_exact p e ez :
  Zpos p < 2 ^ 53 -> -1074 <= e <= 971 -> -1074 <= ez <= e ->
  binary_normalize 53 1024 (Zpos p * 2 ^ (e - ez)) ez false =
  S754_finite false (Z.to_pos (Zpos p * 2 ^ (e - last_bit p e))) (last_bit p e).
Proof.
  intros Hp He Hez. set (e' := last_bit p e).
  assert (Hd : Zpos (digits2_pos p) <= 53).
  { rewrite digits2_log. pose proof (Z.log2_lt_pow2 (Zpos p) 53 ltac:(lia)). lia. }
  assert (He' : -1074 <= e' <= e) by (unfold e', last_bit; lia).
  set (N := Zpos p * 2 ^ (e - e')).
  assert (HN : 0 < N) by (unfold N; apply Z.mul_pos_pos; [lia|apply Z.pow_pos_nonneg; lia]).
  assert (Hround : forall z M, -1074 <= z -> Zpos M = Zpos p * 2 ^ (e - z) -> z <= e' ->
    binary_round_aux 53 1024 false (Zpos M) z loc_Exact = S754_finite false (Z.to_pos N) e').
  { intros z M Hz HM Hze. unfold binary_round_aux.
    assert (H1 : shr_fexp 53 1024 (Zpos M) z loc_Exact =
      ({| shr_m := N; shr_r := false; shr_s := false |}, e')).
    { unfold shr_fexp. cbn [shr_record_of_loc]. rewrite HM, digits2_shift by lia.
      replace (fexp 53 1024 (Zpos (digits2_pos p) + (e - z) + z) - z) with (e' - z)
        by (unfold fexp, emin, e', last_bit; lia).
      replace (Zpos p * 2 ^ (e - z)) with (N * 2 ^ (e' - z)).
      - rewrite shr_exact by lia. f_equal. lia.
      - unfold N. rewrite <- Z.mul_assoc, <- Z.pow_add_r by lia. do 2 f_equal. lia. }
    rewrite H1. cbn [shr_m loc_of_shr_record round_nearest_even].
    assert (H2 : shr_fexp 53 1024 N e' loc_Exact =
      ({| shr_m := N; shr_r := false; shr_s := false |}, e')).
    { unfold shr_fexp. cbn [shr_record_of_loc]. unfold N. rewrite digits2_shift by lia.
      replace (fexp 53 1024 (Zpos (digits2_pos p) + (e - e') + e') - e') with 0
        by (unfold fexp, emin, e', last_bit; lia). done. }
    rewrite H2. cbn [shr_m]. destruct N as [|n|n]; [lia| |lia].
    rewrite (proj2 (Z.leb_le _ _)) by lia. done. }
  destruct (Zpos p * 2 ^ (e - ez)) as [|M|M] eqn:HM; [nia| |nia].
  cbn [binary_normalize]. unfold binary_round.
  assert (Hdig : Zpos (digits2_pos M) = Zpos (digits2_pos p) + (e - ez)).
  { rewrite <- digits2_shift, HM by lia. done. }
  rewrite Hdig. replace (fexp 53 1024 _) with e' by (unfold fexp, emin, e', last_bit; lia).
  destruct (Z_le_gt_dec e' ez) as [Hle|Hgt].
  - destruct (shl_align M ez e') as [mz z] eqn:Hsh.
    destruct (shl_align_pow M ez e' Hle) as [H1 H2]. rewrite Hsh in H1, H2. cbn in H1, H2. subst z.
    apply Hround; [lia| |lia]. rewrite H1, <- HM, <- Z.mul_assoc, <- Z.pow_add_r by lia.
    do 2 f_equal. lia.
  - unfold shl_align. destruct (e' - ez) as [|d|d] eqn:Hd0; [lia| |lia].
    apply Hround; [lia| |lia]. done.
Qed.

Lemma fx_pos e p : Zpos p < 2 ^ 53 -> -1074 <= e <= 971 ->
  fx e (Zpos p) = S754_finite false (Z.to_pos (Zpos p * 2 ^ (e - last_bit p e))) (last_bit p e) /\
  -1074 <= last_bit p e <= e.
Proof.
  intros Hp He. split.
  - unfold fx. rewrite <- (normalize_exact p e e) by lia. f_equal. rewrite Z.sub_diag. lia.
  - unfold last_bit. rewrite digits2_log. pose proof (Z.log2_lt_pow2 (Zpos p) 53 ltac:(lia)). lia.
Qed.

(** The range in which multiples of [2 ^ e] are exact. *)
Definition exact (k : Z) : Prop := 0 <= k < 2 ^ 53.

Lemma aligned e p z : Zpos p < 2 ^ 53 -> -1074 <= e <= 971 -> z <= last_bit p e ->
  Zpos (fst (shl_align (Z.to_pos (Zpos p * 2 ^ (e - last_bit p e))) (last_bit p e) z)) =
  Zpos p * 2 ^ (e - z).
Proof.
  intros Hp He Hz. destruct (fx_pos e p Hp He) as [_ Hb].
  destruct (shl_align_pow (Z.to_pos (Zpos p * 2 ^ (e - last_bit p e))) (last_bit p e) z Hz) as [-> _].
  rewrite Z2Pos.id by (apply Z.mul_pos_pos; [lia|apply Z.pow_pos_nonneg; lia]).
  rewrite <- Z.mul_assoc, <- Z.pow_add_r by lia. do 2 f_equal. lia.
Qed.

Lemma add_exact e a b : -1074 <= e <= 971 -> exact a -> exact b -> exact (a + b) ->
  f_add (fx e a) (fx e b) = fx e (a + b).
Proof.
  unfold exact. intros He Ha Hb Hab. destruct a as [|p|p]; [| |lia].
  { destruct b as [|q|q]; [done| |lia]. destruct (fx_pos e q ltac:(lia) He) as [Hq _].
    cbn [Z.add]. by rewrite Hq. }
  destruct b as [|q|q]; [| |lia]; destruct (fx_pos e p ltac:(lia) He) as [Hp Hlp].
  { rewrite Z.add_0_r, Hp. done. }
  destruct (fx_pos e q ltac:(lia) He) as [Hq Hlq]. rewrite Hp, Hq.
  unfold f_add, SFadd. cbv zeta. set (z := Z.min _ _). cbn [cond_Zopp].
  rewrite !aligned by lia. rewrite <- Z.mul_add_distr_r. change (Zpos p + Zpos q) with (Zpos (p + q)).
  rewrite normalize_exact by lia. by rewrite (proj1 (fx_pos e (p + q) ltac:(lia) He)).
Qed.

Lemma sub_exact e a b : -1074 <= e <= 971 -> exact a -> exact b -> b <= a ->
  f_sub (fx e a) (fx e b) = fx e (a - b).
Proof.
  unfold exact. intros He Ha Hb Hle. destruct a as [|p|p]; [| |lia].
  { replace b with 0 by lia. done. }
  destruct b as [|q|q]; [| |lia]; destruct (fx_pos e p ltac:(lia) He) as [Hp Hlp].
  { rewrite Z.sub_0_r, Hp. done. }
  destruct (fx_pos e q ltac:(lia) He) as [Hq Hlq]. rewrite Hp, Hq.
  unfold f_sub, SFsub. cbv zeta. set (z := Z.min _ _). cbn [cond_Zopp].
  rewrite !aligned by lia. rewrite <- Z.mul_sub_distr_r.
  destruct (Zpos p - Zpos q) as [|r|r] eqn:Hr; [done| |lia].
  rewrite normalize_exact by lia. by rewrite (proj1 (fx_pos e r ltac:(lia) He)).
Qed.
