(* ===== verification/PyVal.v ===== *)
(** Decoded JSON documents as Python values, and the conversions the tools apply to them. *)
From S2P Require Import Prelude PyStr PyFloat.

(** ** Python values of a JSON document *)

Inductive pyval : Type :=
  | PyNone
  | PyBool (b : bool)
  | PyInt (z : Z)
  | PyFloat (x : float)
  | PyStr (s : string)
  | PyList (l : list pyval)
  | PyDict (d : list (string * pyval)).

Definition type_error (text : string) : exn := Exn TypeError text.

(** [d.get(k)]; [None] when the key is absent. *)
Definition lookup_key (d : list (string * pyval)) (k : string) : option pyval :=
  snd <$> find (fun kv => bool_decide (fst kv = k)) d.

Definition dict_get (v : pyval) (k : string) (dflt : pyval) : result pyval :=
  match v with
  | PyDict d => Ok (default dflt (lookup_key d k))
  | _ => Raise (Exn OtherError "object has no attribute 'get'")
  end.

(** The value of an integer field: integers and booleans only. *)
Definition py_index (v : pyval) : result Z :=
  match v with
  | PyInt z => Ok z
  | PyBool b => Ok (Z.b2z b)
  | _ => Raise (type_error "bad argument type for built-in operation")
  end.

(** [bool(v)] *)
Definition truthy (v : pyval) : bool :=
  match v with
  | PyNone => false
  | PyBool b => b
  | PyInt z => negb (z =? 0)
  | PyFloat x => match x with S754_zero _ => false | _ => true end
  | PyStr s => negb (bool_decide (s = ""))
  | PyList l => match l with [] => false | _ => true end
  | PyDict d => match d with [] => false | _ => true end
  end.

(** [int(v)] *)
Definition py_int (v : pyval) : result Z :=
  match v with
  | PyInt z => Ok z
  | PyBool b => Ok (Z.b2z b)
  | PyFloat x => f_trunc x
  | PyStr s => int10 s
  | _ => Raise (type_error "int() argument must be a string or a real number")
  end.

(** Iterating over a value. *)
Definition py_iter (v : pyval) : result (list pyval) :=
  match v with
  | PyList l => Ok l
  | PyDict d => Ok ((fun kv => PyStr (fst kv)) <$> d)
  | PyStr s => Ok ((fun c => PyStr (String c "")) <$> list_ascii_of_string s)
  | _ => Raise (type_error "object is not iterable")
  end.

