(* ===== verification/ChannelSpec.v ===== *)
(** Channel, AFE and key/value lists on the command line.

    Several tools read the same notation, a comma-separated list of numbers and ranges
    ["0,8,16-23"]; each has its own copy of the parser, with its own treatment of order,
    duplicates, number bases and range checks.  The body the copies share is
    [expand_token]/[expand_spec]; each copy is one definition below it. *)
From S2P Require Import Prelude PyStr.

(** [list(range(a, b))] *)
Definition zrange (a b : Z) : list Z := seqZ a (b - a).

(** [sorted(set(l))] *)
Definition sorted_set (l : list Z) : list Z := merge_sort Z.le (remove_dups l).

(** The order-preserving removal of duplicates, first occurrence kept. *)
Definition uniq_first (l : list Z) : list Z :=
  fold_left (fun uniq c => if decide (c ∈ uniq) then uniq else uniq ++ [c]) l [].

(** One token that is not empty: a number, or a range whose ends may be swapped. *)
Definition expand_token (int_of : string -> result Z) (token : string) : result (list Z) :=
  match split_once "-" token with
  | Some (a_str, b_str) =>
      a <-! int_of a_str ;;
      b <-! int_of b_str ;;
      let '(a, b) := if b <? a then (b, a) else (a, b) in
      Ok (zrange a (b + 1))
  | None => v <-! int_of token ;; Ok [v]
  end.

(** The loop over the tokens: empty tokens are skipped, the others extend [out]. *)
Definition expand_spec (int_of : string -> result Z) (expr : string) : result (list Z) :=
  rfold (fun out token =>
    let token := strip token in
    if decide (token = "") then Ok out
    else vs <-! expand_token int_of token ;; Ok (out ++ vs)) (split_on "," expr) [].

(** [client/dynamic_range_led/scan_runtime.py: parse_channels] *)
Definition scan_parse_channels (expr : string) : result (list Z) :=
  out <-! expand_spec int10 expr ;; Ok (sorted_set out).

(** [client/osc.py: _parse_channels] *)
Definition osc_parse_channels (csv : string) : result (list Z) :=
  channels <-! expand_spec int10 csv ;; Ok (sorted_set channels).

(** [client/analyze_waveform_dataset.py: parse_channels_expr] *)
Definition parse_channels_expr (expr : string) : result (list Z) :=
  if decide (strip expr = "") then Ok []
  else out <-! expand_spec int10 expr ;; Ok (sorted_set out).

(** [client/vbias_monitor_all.py: main], the AFE list *)
Definition vbias_parse_afes (spec : string) : result (list Z) :=
  afes <-! expand_spec int10 spec ;; Ok (sorted_set afes).

(** [client/test_counters.py: parse_channels] *)
Definition counters_parse_channels (spec : string) : result (list Z) :=
  if decide (spec = "") then Ok []
  else out <-! expand_spec int10 spec ;; Ok (uniq_first out).

(** [client/test_threshold_14bit_v2.py: parse_channels]: numbers in any base, range-checked
    while the duplicates are dropped, and at least one of them. *)
Definition threshold_parse_channels (spec : string) : result (list Z) :=
  out <-! expand_spec int0 spec ;;
  uniq <-! rfold (fun uniq ch =>
    if (ch <? 0) || (39 <? ch)
    then Raise (Exn ValueError ("channel out of range: " +:+ str_Z ch +:+ " (expected 0..39)"))
    else if decide (ch ∈ uniq) then Ok uniq else Ok (uniq ++ [ch])) out [] ;;
  if decide (uniq = []) then Raise (Exn ValueError "no channels selected") else Ok uniq.

(** The comma-separated parts of several arguments, blank parts dropped. *)
Definition token_parts (tokens : list string) : list string :=
  filter (fun part => part <> "") (strip <$> mjoin (split_on "," <$> tokens)).

(** [client/protobuf_acquire_list_channels.py: _parse_channels] *)
Definition acquire_parse_channels (tokens : list string) : result (list Z) :=
  rmap (fun part =>
    val <-! int10 part ;;
    if (val <? 0) || (39 <? val)
    then Raise (Exn ValueError ("Channel out of range 0-39: " +:+ str_Z val))
    else Ok val) (token_parts tokens).

(** [client/protobuf_full_smoketest_v2.py: parse_int_tokens] *)
Definition parse_int_tokens (tokens : list string) : result (list Z) :=
  rmap int0 (token_parts tokens).

(** [client/protobuf_full_smoketest_v2.py: parse_kv_list]; [None] and the empty list give an
    empty dictionary. *)
Definition parse_kv_list (items : option (list string)) : result (gmap Z Z) :=
  rfold (fun out item =>
    match split_once ":" item with
    | None => Raise (Exn ValueError ("Expected AFE:VALUE, got '" +:+ item +:+ "'"))
    | Some (afe_str, val_str) =>
        v <-! int0 val_str ;;
        k <-! int0 afe_str ;;
        Ok (<[k := v]> out)
    end) (default [] items) ∅.

(** ** Lemmas *)

Lemma elem_of_zrange a b z : z ∈ zrange a b <-> a <= z < b.
Proof. unfold zrange. rewrite elem_of_seqZ. lia. Qed.

Lemma elem_of_sorted_set l z : z ∈ sorted_set l <-> z ∈ l.
Proof.
  unfold sorted_set. rewrite merge_sort_Permutation. apply elem_of_remove_dups.
Qed.

Lemma NoDup_sorted_set l : NoDup (sorted_set l).
Proof. unfold sorted_set. rewrite merge_sort_Permutation. apply NoDup_remove_dups. Qed.

Lemma sorted_NoDup_strict (l : list Z) :
  StronglySorted Z.le l -> NoDup l -> StronglySorted Z.lt l.
Proof.
  induction 1 as [|x l Hl IH Hx]; intros Hnd; [constructor|].
  apply NoDup_cons in Hnd as [Hnotin Hnd]. constructor; [by apply IH|].
  rewrite Forall_forall in Hx |- *. intros y Hy.
  specialize (Hx y Hy). assert (x <> y) by (intros ->; done). lia.
Qed.

Lemma sorted_set_strict l : StronglySorted Z.lt (sorted_set l).
Proof.
  apply sorted_NoDup_strict; [|apply NoDup_sorted_set].
  unfold sorted_set. apply StronglySorted_merge_sort; [|apply _].
  intros x y. lia.
Qed.

(** Strictly increasing lists with the same members are equal. *)
Lemma strict_sorted_unique (l1 l2 : list Z) :
  StronglySorted Z.lt l1 -> StronglySorted Z.lt l2 -> (forall z, z ∈ l1 <-> z ∈ l2) -> l1 = l2.
Proof.
  intros H1. revert l2. induction H1 as [|x l1 H1 IH Hx]; intros l2 H2 Heq.
  - destruct l2 as [|y l2]; [done|]. exfalso. eapply not_elem_of_nil. apply Heq, list_elem_of_here.
  - destruct H2 as [|y l2 H2 Hy].
    { exfalso. eapply not_elem_of_nil. apply Heq, list_elem_of_here. }
    rewrite Forall_forall in Hx, Hy.
    assert (x = y) as <-.
    { pose proof (proj1 (Heq x) (list_elem_of_here _ _)) as Hxy.
      pose proof (proj2 (Heq y) (list_elem_of_here _ _)) as Hyx.
      apply elem_of_cons in Hxy as [?|Hxy]; [done|].
      apply elem_of_cons in Hyx as [?|Hyx]; [done|].
      specialize (Hx y Hyx). specialize (Hy x Hxy). lia. }
    f_equal. apply IH; [done|]. intros z. split; intros Hz.
    + pose proof (proj1 (Heq z) (list_elem_of_further _ _ _ Hz)) as Hz'.
      apply elem_of_cons in Hz' as [->|?]; [|done]. specialize (Hx _ Hz). lia.
    + pose proof (proj2 (Heq z) (list_elem_of_further _ _ _ Hz)) as Hz'.
      apply elem_of_cons in Hz' as [->|?]; [|done]. specialize (Hy _ Hz). lia.
Qed.

(** *** What a list denotes *)

Definition blank (tok : string) : Prop := strip tok = "".

(** A well-formed token: every number in it is readable. *)
Definition token_wf (int_of : string -> result Z) (tok : string) : Prop :=
  match split_once "-" tok with
  | Some (a_str, b_str) => is_ok (int_of a_str) = true /\ is_ok (int_of b_str) = true
  | None => is_ok (int_of tok) = true
  end.

(** The numbers a token stands for. *)
Definition token_covers (int_of : string -> result Z) (tok : string) (z : Z) : Prop :=
  match split_once "-" tok with
  | Some (a_str, b_str) =>
      exists a b, int_of a_str = Ok a /\ int_of b_str = Ok b /\ Z.min a b <= z <= Z.max a b
  | None => int_of tok = Ok z
  end.

(** The numbers a whole list stands for. *)
Definition spec_covers (int_of : string -> result Z) (expr : string) (z : Z) : Prop :=
  Exists (fun tok => ~ blank tok /\ token_covers int_of (strip tok) z) (split_on "," expr).

Definition spec_wf (int_of : string -> result Z) (expr : string) : Prop :=
  Forall (fun tok => blank tok \/ token_wf int_of (strip tok)) (split_on "," expr).

(** Readers of integers that only fail with [ValueError]. *)
Class IntReader (int_of : string -> result Z) : Prop :=
  int_reader_error : forall s e, int_of s = Raise e -> exn_class e = ValueError.

#[export] Instance int10_reader : IntReader int10.
Proof. intros s e. unfold int10, int_of. destruct (signed _ _); intros ?; by simplify_eq. Qed.

#[export] Instance int0_reader : IntReader int0.
Proof. intros s e. unfold int0, int_of. destruct (signed _ _); intros ?; by simplify_eq. Qed.

Section expand.
Context (int_of : string -> result Z) `{!IntReader int_of}.

Lemma expand_token_spec tok :
  match expand_token int_of tok with
  | Ok l => token_wf int_of tok /\ forall z, z ∈ l <-> token_covers int_of tok z
  | Raise e => ~ token_wf int_of tok /\ exn_class e = ValueError
  end.
Proof using Type*.
  unfold expand_token, token_wf, token_covers.
  destruct (split_once "-" tok) as [[a_str b_str]|].
  - destruct (int_of a_str) as [a|e] eqn:Ha; simpl;
      [|by split; [intros [??]|eapply int_reader_error]].
    destruct (int_of b_str) as [b|e] eqn:Hb; simpl;
      [|by split; [intros [??]|eapply int_reader_error]].
    destruct (Z.ltb_spec b a); simpl; (split; [done|]); intros z; rewrite elem_of_zrange;
      (split; [intros Hz; exists a, b; split_and!; [done..|lia|lia]|
               intros (a' & b' & ? & ? & ?); simplify_eq; lia]).
  - destruct (int_of tok) as [v|e] eqn:Hv; simpl.
    + split; [done|]. intros z. rewrite list_elem_of_singleton. split; intros; by simplify_eq.
    + split; [done|]. by eapply int_reader_error.
Qed.

(** The accumulating loop is a map followed by a concatenation. *)
Lemma expand_fold toks out :
  rfold (fun out token =>
    let token := strip token in
    if decide (token = "") then Ok out
    else vs <-! expand_token int_of token ;; Ok (out ++ vs)) toks out =
  (vss <-! rmap (fun tok => if decide (strip tok = "") then Ok [] else expand_token int_of (strip tok)) toks ;;
   Ok (out ++ mjoin vss)).
Proof using Type.
  revert out. induction toks as [|tok toks IH]; intros out; simpl.
  - by rewrite app_nil_r.
  - destruct (decide (strip tok = "")); simpl.
    + rewrite IH. by destruct (rmap _ toks).
    + destruct (expand_token int_of (strip tok)); simpl; [|done].
      rewrite IH. destruct (rmap _ toks); simpl; [|done]. by rewrite app_assoc.
Qed.

(** What the shared loop computes, on success and on failure. *)
Lemma expand_spec_spec expr :
  match expand_spec int_of expr with
  | Ok out => spec_wf int_of expr /\ forall z, z ∈ out <-> spec_covers int_of expr z
  | Raise e => ~ spec_wf int_of expr /\ exn_class e = ValueError
  end.
Proof using Type*.
  unfold expand_spec, spec_wf, spec_covers, blank. rewrite expand_fold.
  generalize (split_on "," expr) as toks. induction toks as [|tok toks IH]; simpl.
  - split; [constructor|]. intros z. by rewrite Exists_nil, elem_of_nil.
  - pose proof (expand_token_spec (strip tok)) as Htok.
    destruct (decide (strip tok = "")) as [Hb|Hb]; simpl in *.
    + destruct (rmap _ toks) as [vss|e]; simpl in *; destruct IH as [Hwf IH]; rewrite Forall_cons;
        (split; [tauto|]); [|done]. intros z. rewrite Exists_cons, IH. tauto.
    + destruct (expand_token int_of (strip tok)) as [vs|e]; simpl in *;
        [|rewrite Forall_cons; tauto].
      destruct Htok as [Htwf Hcov].
      destruct (rmap _ toks) as [vss|e]; simpl in *; destruct IH as [Hwf IH];
        rewrite Forall_cons; (split; [tauto|]); [|done].
      intros z. rewrite elem_of_app, Exists_cons, IH, Hcov. tauto.
Qed.

End expand.

Lemma strip_empty s : strip s = "" -> str_all is_space s = true.
Proof.
  assert (Hr : forall s, rstrip s = "" -> str_all is_space s = true).
  { clear s. intros s. induction s as [|c t IH]; simpl; [done|].
    destruct (rstrip t) eqn:Ht; [|intros ?; congruence].
    destruct (is_space c); [|intros ?; congruence].
    intros _. by apply IH. }
  unfold strip. induction s as [|c t IH]; simpl; [done|].
  destruct (is_space c) eqn:Hc; simpl; [exact IH|].
  intros H. change (rstrip (String c t) = "") in H. apply Hr in H. simpl in H. by rewrite Hc in H.
Qed.

Lemma space_not_comma c : is_space c = true -> negb (Ascii.eqb c ",") = true.
Proof. by_ascii c. Qed.

Lemma expand_spec_blank int_of expr : blank expr -> expand_spec int_of expr = Ok [].
Proof.
  intros Hb. unfold expand_spec. rewrite split_on_none; simpl.
  - by rewrite decide_True.
  - eapply str_all_impl; [apply space_not_comma | by apply strip_empty].
Qed.

(** *** Removing duplicates in order *)

Lemma uniq_step_spec (l acc : list Z) :
  NoDup acc ->
  let r := fold_left (fun uniq c => if decide (c ∈ uniq) then uniq else uniq ++ [c]) l acc in
  NoDup r /\ forall z, z ∈ r <-> z ∈ acc \/ z ∈ l.
Proof.
  revert acc. induction l as [|c l IH]; intros acc Hacc; simpl.
  - split; [done|]. intros z. rewrite elem_of_nil. tauto.
  - destruct (decide (c ∈ acc)) as [Hc|Hc].
    + destruct (IH acc Hacc) as [Hnd Hin]. split; [done|].
      intros z. rewrite Hin, elem_of_cons. split; [tauto|]. intros [?|[->|?]]; tauto.
    + destruct (IH (acc ++ [c])) as [Hnd Hin].
      { apply NoDup_app. split_and!; [done| |apply NoDup_singleton].
        intros z Hz Hzc. apply list_elem_of_singleton in Hzc as ->. done. }
      split; [done|]. intros z. rewrite Hin, elem_of_app, list_elem_of_singleton, elem_of_cons. tauto.
Qed.

Lemma NoDup_uniq_first l : NoDup (uniq_first l).
Proof. apply (uniq_step_spec l [] (NoDup_nil_2)). Qed.

Lemma elem_of_uniq_first l z : z ∈ uniq_first l <-> z ∈ l.
Proof.
  unfold uniq_first. destruct (uniq_step_spec l [] (NoDup_nil_2)) as [_ H].
  rewrite H, elem_of_nil. tauto.
Qed.

Lemma uniq_first_sorted_set l : Permutation (uniq_first l) (sorted_set l).
Proof.
  apply NoDup_Permutation; [apply NoDup_uniq_first | apply NoDup_sorted_set |].
  intros z. by rewrite elem_of_uniq_first, elem_of_sorted_set.
Qed.

(** The range-checking variant agrees with [uniq_first] when every value is in range. *)
Lemma threshold_fold (l acc : list Z) :
  match rfold (fun uniq ch =>
    if (ch <? 0) || (39 <? ch)
    then Raise (Exn ValueError ("channel out of range: " +:+ str_Z ch +:+ " (expected 0..39)"))
    else if decide (ch ∈ uniq) then Ok uniq else Ok (uniq ++ [ch])) l acc with
  | Ok uniq => Forall (fun ch => 0 <= ch <= 39) l /\
      uniq = fold_left (fun uniq c => if decide (c ∈ uniq) then uniq else uniq ++ [c]) l acc
  | Raise e => ~ Forall (fun ch => 0 <= ch <= 39) l /\ exn_class e = ValueError
  end.
Proof.
  revert acc. induction l as [|ch l IH]; intros acc; simpl; [done|].
  destruct ((ch <? 0) || (39 <? ch)) eqn:Hrange; simpl.
  - split; [|done]. rewrite Forall_cons. apply orb_true_iff in Hrange as [?|?]; bool_to_prop; lia.
  - bool_to_prop.
    set (acc' := if decide (ch ∈ acc) then acc else acc ++ [ch]).
    assert (Hstep : (if decide (ch ∈ acc) then Ok acc else Ok (acc ++ [ch])) = Ok acc')
      by (unfold acc'; by case_decide).
    rewrite Hstep. simpl. specialize (IH acc').
    destruct (rfold _ l acc'); rewrite Forall_cons; (split; [|tauto]);
      destruct IH; [split; [lia|done]|tauto].
Qed.

(** ** Properties *)

(** [scan_runtime.parse_channels] returns exactly the channels its tokens stand for, in
    strictly increasing order (ranges may be written either way round, blanks are ignored),
    and it raises [ValueError] exactly when some token holds an unreadable number. *)
Theorem scan_parse_channels_correct expr :
  match scan_parse_channels expr with
  | Ok l => spec_wf int10 expr /\ StronglySorted Z.lt l /\
            (forall z, z ∈ l <-> spec_covers int10 expr z)
  | Raise e => ~ spec_wf int10 expr /\ exn_class e = ValueError
  end.
Proof.
  unfold scan_parse_channels. pose proof (expand_spec_spec int10 expr) as H.
  destruct (expand_spec int10 expr) as [out|e]; simpl; [|done].
  destruct H as [Hwf Hin]. split_and!; [done|apply sorted_set_strict|].
  intros z. by rewrite elem_of_sorted_set.
Qed.

(** The copies of the channel-list parser agree: [osc._parse_channels],
    [analyze_waveform_dataset.parse_channels_expr] and the AFE list of [vbias_monitor_all]
    compute what [scan_runtime.parse_channels] computes, and [test_counters.parse_channels]
    computes the same channels in the order of their first occurrence. *)
Theorem channel_parsers_agree expr :
  osc_parse_channels expr = scan_parse_channels expr /\
  parse_channels_expr expr = scan_parse_channels expr /\
  vbias_parse_afes expr = scan_parse_channels expr /\
  match scan_parse_channels expr, counters_parse_channels expr with
  | Ok l, Ok l' => Permutation l' l /\ NoDup l'
  | Raise e, Raise e' => e = e'
  | _, _ => False
  end.
Proof.
  split_and!; [done| |done|].
  - unfold parse_channels_expr, scan_parse_channels. case_decide as Hb; [|done].
    by rewrite expand_spec_blank.
  - unfold scan_parse_channels, counters_parse_channels. case_decide as Hb.
    + subst expr. rewrite expand_spec_blank by done. simpl. split; [done|constructor].
    + destruct (expand_spec int10 expr); simpl; [|done].
      split; [apply uniq_first_sorted_set | apply NoDup_uniq_first].
Qed.

(** [test_threshold_14bit_v2.parse_channels] returns a non-empty duplicate-free list of
    channels in 0..39, the ones its tokens (numbers in any base) stand for; a list that is
    empty, unreadable or out of range raises [ValueError]. *)
Theorem threshold_parse_channels_correct spec :
  match threshold_parse_channels spec with
  | Ok l => l <> [] /\ NoDup l /\ Forall (fun ch => 0 <= ch <= 39) l /\
            (forall z, z ∈ l <-> spec_covers int0 spec z)
  | Raise e => exn_class e = ValueError
  end.
Proof.
  unfold threshold_parse_channels. pose proof (expand_spec_spec int0 spec) as H.
  destruct (expand_spec int0 spec) as [out|e]; simpl; [|by destruct H].
  destruct H as [_ Hin]. pose proof (threshold_fold out []) as Hf.
  destruct (rfold _ out []) as [uniq|e]; simpl; [|by destruct Hf].
  destruct Hf as [Hrange ->]. fold (uniq_first out). case_decide as Hne; [done|].
  split_and!; [done|apply NoDup_uniq_first| |].
  - rewrite Forall_forall in Hrange |- *. intros z. rewrite elem_of_uniq_first. apply Hrange.
  - intros z. by rewrite elem_of_uniq_first.
Qed.

(** The parts of one argument written by [",".join(str(c) for c in l)]. *)
Lemma token_parts_join l :
  Forall (fun z => 0 <= z) l -> token_parts [join "," (str_Z <$> l)] = str_Z <$> l.
Proof.
  intros Hl. unfold token_parts. cbn [fmap list_fmap mjoin list_join]. rewrite app_nil_r.
  destruct l as [|x l]; [done|].
  rewrite split_on_join_str_Z by done. induction Hl as [|z l' Hz Hl IH]; [done|].
  rewrite !fmap_cons, strip_id by auto with py. rewrite filter_cons_True by auto with py.
  by rewrite IH.
Qed.

Lemma rmap_int10_str l (f : Z -> result Z) :
  Forall (fun z => 0 <= z /\ f z = Ok z) l ->
  rmap (fun part => val <-! int10 part ;; f val) (str_Z <$> l) = Ok l.
Proof.
  induction 1 as [|z l [Hz Hf] Hl IH]; [done|].
  rewrite fmap_cons. cbn [rmap]. rewrite int10_str_Z by done. cbn [rbind]. rewrite Hf, IH. done.
Qed.

(** The argument [run_acquire] passes is read back by the acquisition client. *)
Lemma acquire_reads_joined l :
  Forall (fun ch => 0 <= ch <= 39) l -> acquire_parse_channels [join "," (str_Z <$> l)] = Ok l.
Proof.
  intros Hl. unfold acquire_parse_channels.
  rewrite token_parts_join by (eapply Forall_impl; [exact Hl|]; simpl; lia).
  apply (rmap_int10_str l (fun val => if (val <? 0) || (39 <? val) then _ else Ok val)).
  eapply Forall_impl; [exact Hl|]. intros z Hz. simpl in *. split; [lia|].
  destruct (Z.ltb_spec z 0); [lia|]. destruct (Z.ltb_spec 39 z); [lia|]. done.
Qed.
