(* ===== verification/Json.v ===== *)
(** Decoded JSON values, as far as the client tools inspect them.  Numbers with a fraction
    and nested lists or objects are kept by the text [str] gives for them: the code only
    ever passes those to [str] or [int]. *)
From S2P Require Import Prelude PyStr.

Inductive json : Type :=
  | JNull
  | JBool (b : bool)
  | JInt (z : Z)
  | JFloat (text : string)
  | JStr (s : string)
  | JOther (text : string).

#[export] Instance json_eq_dec : EqDecision json.
Proof. solve_decision. Defined.

(** [str(v)] *)
Definition json_str (v : json) : string :=
  match v with
  | JNull => "None"
  | JBool b => if b then "True" else "False"
  | JInt z => str_Z z
  | JFloat t => t
  | JStr s => s
  | JOther t => t
  end.

(** Python integers that may be [None]. *)
Abbreviation pyint := (option Z).

(** Using [None] where a number is needed. *)
Definition need_int (o : pyint) : result Z :=
  match o with
  | Some z => Ok z
  | None => Raise (Exn TypeError "unsupported operand type(s): 'NoneType' and 'int'")
  end.

(** [str] of an integer or [None]. *)
Definition str_opt (o : pyint) : string := match o with Some z => str_Z z | None => "None" end.
