(* ===== verification/SspWire.v ===== *)
(** The SSP register protocol of [client/ssp_led_control.py]: little-endian packets over a
    TCP stream ([SSPClient]), and the programs that talk to the board through it.

    A client program is a value of [ssp A]: the transactions, pauses and messages it performs
    and how it continues after each reply.  [run] interprets it over a transport; [wire] is
    the transport of the source (packing, [sendall], [_recv_exact] over an arbitrarily
    chunked stream), [device] an ideal board that answers transactions directly. *)
From coqutil Require Import Byte.
From coqutil.Word Require Import LittleEndianList.
From S2P Require Import Prelude PyStr.

Abbreviation bytes := (list Init.Byte.byte).

(** ** Constants *)

Definition CMD_READ : Z := 0x01.
Definition CMD_WRITE : Z := 0x03.
Definition HEADER_SIZE : Z := 20.

Definition MODULE_ID : Z := 0x80000024.
Definition DP_FPGA_FW_BUILD : Z := 0x80000010.
Definition CALIB_BUILD : Z := 0x80000014.
Definition DP_CLOCK_STATUS : Z := 0x80000020.
Definition CAL_COUNT : Z := 0x80000448.
Definition PDTS_CMD_CONTROL_1 : Z := 0x80000464.
Definition PDTS_CMD_CONTROL_2 : Z := 0x80000468.
Definition PDTS_CONTROL : Z := 0x800004C0.
Definition PDTS_STATUS : Z := 0x800004C4.
Definition DP_CLOCK_CONTROL : Z := 0x80000520.
Definition PDTS_CMD_DELAY_0 : Z := 0x80000940.
Definition BIAS_CONTROL : Z := 0x40000300.
Definition MASTER_LOGIC_CONTROL : Z := 0x80000500.
Definition MASTER_LOGIC_STATUS : Z := 0x80000504.

Definition NON_LATCHED_REGISTERS : list Z := [BIAS_CONTROL].

(** ** [struct.pack] and [struct.unpack] of 32-bit words *)

Definition is_u32 (v : Z) : bool := (0 <=? v) && (v <? 2 ^ 32).

(** [struct.pack("<nI", *words)] *)
Definition pack_u32 (words : list Z) : result bytes :=
  if forallb is_u32 words then Ok (mjoin (le_split 4 <$> words))
  else Raise (Exn StructError "'I' format requires 0 <= number <= 4294967295").

(** [struct.unpack("<nI", data)] for a length that is a multiple of four. *)
Fixpoint unpack_u32 (data : bytes) : list Z :=
  match data with
  | b0 :: b1 :: b2 :: b3 :: rest => le_combine [b0; b1; b2; b3] :: unpack_u32 rest
  | _ => []
  end.

(** ** The TCP stream as the client sees it *)

(** Bytes that arrived, the sizes in which the network hands them over, and whether the
    other side has closed the connection. *)
Record stream : Type := Stream { inbound : bytes; cuts : list nat; eof : bool }.

(** [sock.recv(n)]: some non-empty prefix of what has arrived, at most [n] bytes; the empty
    string at the end of a closed stream; a timeout when nothing comes. *)
Definition sock_recv (n : Z) : M stream bytes := fun s =>
  match inbound s with
  | [] => if eof s then (Ok [], s) else (Raise (Exn TimeoutError "timed out"), s)
  | _ =>
      let k := Nat.min (Z.to_nat (Z.min n (Z.of_nat (length (inbound s)))))
                       (Nat.max 1 (hd 1%nat (cuts s))) in
      (Ok (take k (inbound s)), Stream (drop k (inbound s)) (tl (cuts s)) (eof s))
  end.

(** [SSPClient._recv_exact], the loop: [fuel] iterations at most. *)
Fixpoint recv_loop (fuel : nat) (remaining : Z) (chunks : list bytes) : M stream bytes :=
  if remaining <=? 0 then ret (mjoin chunks)
  else match fuel with
       | O => raise (Exn OtherError "out of fuel")
       | S fuel' =>
           chunk <- sock_recv remaining ;;
           match chunk with
           | [] => raise (Exn ConnectionError "socket closed while receiving response")
           | _ => recv_loop fuel' (remaining - Z.of_nat (length chunk)) (chunks ++ [chunk])
           end
       end.

(** Each iteration takes at least one byte, so the bytes present bound the iterations. *)
Definition recv_exact (size : Z) : M stream bytes := fun s =>
  recv_loop (S (length (inbound s))) size [] s.

(** What [_recv_exact] promises: the next [size] bytes, however they were cut. *)
Definition recv_spec (size : Z) (s : stream) : result bytes * bytes :=
  if size <=? Z.of_nat (length (inbound s))
  then (Ok (take (Z.to_nat size) (inbound s)), drop (Z.to_nat size) (inbound s))
  else (Raise (if eof s then Exn ConnectionError "socket closed while receiving response"
               else Exn TimeoutError "timed out"), []).

(** ** Transactions *)

(** A reply: the five header words and the payload words. *)
Record reply : Type := Reply {
  total_len : Z; rx_addr : Z; rx_cmd : Z; rx_size : Z; rx_status : Z; payload : list Z }.

(** The packet [_transaction] sends: the payload is packed first, then the header. *)
Definition request_packet (address command : Z) (data_words : list Z) : result bytes :=
  body <-! pack_u32 data_words ;;
  header <-! pack_u32 [HEADER_SIZE + Z.of_nat (length body); address; command; 1; 0] ;;
  Ok (header ++ body).

(** The part of [_transaction] that follows [sendall]. *)
Definition recv_reply (address : Z) : M stream reply :=
  header <- recv_exact HEADER_SIZE ;;
  match unpack_u32 header with
  | [len; addr; cmd; size; status] =>
      if len <? HEADER_SIZE
      then raise (Exn RuntimeError ("invalid response length " +:+ str_Z len
                                    +:+ " for address " +:+ hex32 address))
      else
        let payload_len := len - HEADER_SIZE in
        payload_bytes <- (if payload_len =? 0 then ret [] else recv_exact payload_len) ;;
        if negb (payload_len mod 4 =? 0)
        then raise (Exn RuntimeError ("misaligned payload length " +:+ str_Z payload_len
                                      +:+ " for address " +:+ hex32 address))
        else ret (Reply len addr cmd size status (unpack_u32 payload_bytes))
  | _ => raise (Exn StructError "unpack requires a buffer of 20 bytes")
  end.

(** ** Client programs *)

Inductive ssp (A : Type) : Type :=
  | SRet (a : A)
  | SRaise (e : exn)
  | STx (address command : Z) (data_words : list Z) (k : reply -> ssp A)
  | SSleep (ms : Z) (k : ssp A)
  | SPrint (line : string) (k : ssp A).
Arguments SRet {A}.
Arguments SRaise {A}.
Arguments STx {A}.
Arguments SSleep {A}.
Arguments SPrint {A}.

Fixpoint sbind {A B : Type} (p : ssp A) (f : A -> ssp B) : ssp B :=
  match p with
  | SRet a => f a
  | SRaise e => SRaise e
  | STx ad c ws k => STx ad c ws (fun r => sbind (k r) f)
  | SSleep ms k => SSleep ms (sbind k f)
  | SPrint l k => SPrint l (sbind k f)
  end.

Declare Scope ssp_scope.
Notation "x <~ p ;; k" := (sbind p (fun x => k))
  (at level 100, p at next level, right associativity) : ssp_scope.
Notation "p ;~ k" := (sbind p (fun _ => k))
  (at level 100, right associativity) : ssp_scope.
Open Scope ssp_scope.

Definition transaction (address command : Z) (data_words : list Z) : ssp reply :=
  STx address command data_words SRet.

Definition sleep_ms (ms : Z) : ssp unit := SSleep ms (SRet tt).

Definition print (line : string) : ssp unit := SPrint line (SRet tt).

Definition slift {A : Type} (r : result A) : ssp A :=
  match r with Ok a => SRet a | Raise e => SRaise e end.

Fixpoint sfor {A : Type} (l : list A) (f : A -> ssp unit) : ssp unit :=
  match l with
  | [] => SRet tt
  | a :: l' => f a ;~ sfor l' f
  end.

(** [SSPClient.read] *)
Definition ssp_read (address : Z) : ssp Z :=
  r <~ transaction address CMD_READ [] ;;
  if negb (rx_addr r =? address)
  then SRaise (Exn RuntimeError ("read response address mismatch: expected " +:+ hex32 address
                                 +:+ ", got " +:+ hex32 (rx_addr r)))
  else if negb (rx_status r =? 0)
  then SRaise (Exn RuntimeError ("read failed at " +:+ hex32 address
                                 +:+ ", status=" +:+ hex32 (rx_status r)))
  else match payload r with
       | [] => SRaise (Exn RuntimeError ("read response missing payload for " +:+ hex32 address))
       | v :: _ => SRet v
       end.

(** [SSPClient.write]: [None] when the value is not read back. *)
Definition ssp_write (address value : Z) (verify : bool) : ssp (option Z) :=
  r <~ transaction address CMD_WRITE [value] ;;
  if negb (rx_addr r =? address)
  then SRaise (Exn RuntimeError ("write response address mismatch: expected " +:+ hex32 address
                                 +:+ ", got " +:+ hex32 (rx_addr r)))
  else if negb (rx_status r =? 0)
  then SRaise (Exn RuntimeError ("write failed at " +:+ hex32 address
                                 +:+ ", status=" +:+ hex32 (rx_status r)))
  else if negb verify || bool_decide (address ∈ NON_LATCHED_REGISTERS)
  then SRet None
  else readback <~ ssp_read address ;;
       if negb (readback =? value)
       then SRaise (Exn RuntimeError ("readback mismatch at " +:+ hex32 address +:+ ": wrote "
                                      +:+ hex32 value +:+ ", got " +:+ hex32 readback))
       else SRet (Some readback).

(** ** Interpretation *)

Inductive event : Type :=
  | EvTx (address command : Z) (data_words : list Z) (r : reply)
  | EvSleep (ms : Z)
  | EvPrint (line : string).

(** The state of the other side, and what the client has done so far. *)
Record world (D : Type) : Type := World { dev : D; trace : list event }.
Arguments World {D}.
Arguments dev {D}.
Arguments trace {D}.

Section run.
Context {D : Type} (tx : Z -> Z -> list Z -> M D reply).

Fixpoint run {A : Type} (p : ssp A) (w : world D) : result A * world D :=
  match p with
  | SRet a => (Ok a, w)
  | SRaise e => (Raise e, w)
  | STx ad c ws k =>
      match tx ad c ws (dev w) with
      | (Ok r, d) => run (k r) (World d (trace w ++ [EvTx ad c ws r]))
      | (Raise e, d) => (Raise e, World d (trace w))
      end
  | SSleep ms k => run k (World (dev w) (trace w ++ [EvSleep ms]))
  | SPrint l k => run k (World (dev w) (trace w ++ [EvPrint l]))
  end.

Lemma run_sbind {A B : Type} (p : ssp A) (f : A -> ssp B) w :
  run (sbind p f) w =
  match run p w with
  | (Ok a, w') => run (f a) w'
  | (Raise e, w') => (Raise e, w')
  end.
Proof using Type.
  revert w. induction p as [a|e|ad c ws k IH|ms k IH|l k IH]; intros w; simpl; auto.
  destruct (tx ad c ws (dev w)) as [[r|e] d]; auto.
Qed.

Lemma run_sbind_ok {A B : Type} (p : ssp A) (f : A -> ssp B) w a w' :
  run p w = (Ok a, w') -> run (sbind p f) w = run (f a) w'.
Proof using Type. intros H. by rewrite run_sbind, H. Qed.

End run.

(** The ideal board: [step] answers a transaction; the ranges [struct.pack] checks are
    still checked. *)
Definition device {D : Type} (step : D -> Z -> Z -> list Z -> D * reply)
    (address command : Z) (data_words : list Z) : M D reply := fun d =>
  match request_packet address command data_words with
  | Raise e => (Raise e, d)
  | Ok _ => let '(d', r) := step d address command data_words in (Ok r, d')
  end.

(** [SSPClient._transaction] over the stream; [peer] is what the board does with the bytes
    of a packet: its next state and the bytes it answers. *)
Definition wire {D : Type} (peer : D -> bytes -> D * bytes)
    (address command : Z) (data_words : list Z) : M (D * stream) reply := fun '(d, s) =>
  match request_packet address command data_words with
  | Raise e => (Raise e, (d, s))
  | Ok packet =>
      let '(d', answer) := peer d packet in
      let '(r, s') := recv_reply address (Stream (inbound s ++ answer) (cuts s) (eof s)) in
      (r, (d', s'))
  end.

(** ** Boards that speak the protocol *)

Definition encode_reply (r : reply) : bytes :=
  mjoin (le_split 4 <$> [total_len r; rx_addr r; rx_cmd r; rx_size r; rx_status r] ++ payload r).

Record reply_wf (r : reply) : Prop := {
  reply_len : total_len r = HEADER_SIZE + 4 * Z.of_nat (length (payload r));
  reply_u32 : Forall (fun v => is_u32 v = true)
                ([total_len r; rx_addr r; rx_cmd r; rx_size r; rx_status r] ++ payload r) }.

(** The documented behaviour of the board firmware, which is not in the repository: the
    packet of a request is answered by the packet of one well-formed reply. *)
Class SspPeer {D : Type} (peer : D -> bytes -> D * bytes)
    (step : D -> Z -> Z -> list Z -> D * reply) : Prop := {
  peer_answers d address command data_words packet :
    request_packet address command data_words = Ok packet ->
    peer d packet = let '(d', r) := step d address command data_words in (d', encode_reply r);
  peer_reply_wf d address command data_words packet :
    request_packet address command data_words = Ok packet ->
    reply_wf (snd (step d address command data_words)) }.

(** ** Lemmas *)

Lemma sock_recv_cases n s :
  0 < n ->
  (inbound s = [] /\ sock_recv n s =
     ((if eof s then Ok [] else Raise (Exn TimeoutError "timed out")), s)) \/
  (exists k cs, (0 < k <= length (inbound s))%nat /\ Z.of_nat k <= n /\
     sock_recv n s = (Ok (take k (inbound s)), Stream (drop k (inbound s)) cs (eof s))).
Proof.
  intros Hn. unfold sock_recv. destruct (inbound s) as [|b rest] eqn:Hin.
  - left. split; [done|]. by destruct (eof s).
  - right. eexists _, _. split_and!; [..|reflexivity]; simpl length; lia.
Qed.

Lemma recv_loop_spec fuel n chunks s :
  (length (inbound s) < fuel)%nat ->
  exists cs, recv_loop fuel n chunks s =
    let '(r, rest) := recv_spec (Z.max 0 n) s in
    (match r with Ok bs => Ok (mjoin chunks ++ bs) | Raise e => Raise e end,
     Stream rest cs (eof s)).
Proof.
  revert n chunks s. induction fuel as [|fuel IH]; intros n chunks s Hfuel; [lia|].
  simpl. destruct (Z.leb_spec n 0) as [Hn|Hn].
  { exists (cuts s). unfold recv_spec. rewrite Z.max_l by lia. simpl.
    destruct (Z.leb_spec 0 (Z.of_nat (length (inbound s)))); [|lia].
    rewrite take_0, drop_0, app_nil_r. by destruct s. }
  rewrite Z.max_r by lia.
  destruct (sock_recv_cases n s Hn) as [[Hin Hrecv]|(k & cs & Hk & Hkn & Hrecv)].
  - exists (cuts s). unfold bind, recv_spec. rewrite Hrecv, Hin. simpl.
    destruct (Z.leb_spec n (Z.of_nat 0)); [lia|].
    destruct s as [inb cs ef]; simpl in *. subst inb. by destruct ef.
  - rewrite (bind_run _ _ _ _ _ Hrecv).
    assert (Hlen : length (take k (inbound s)) = k) by (rewrite length_take; lia).
    destruct (take k (inbound s)) as [|b0 rest0] eqn:Htake; [simpl in Hlen; lia|].
    rewrite <- Htake in *. rewrite Hlen.
    destruct (IH (n - Z.of_nat k) (chunks ++ [take k (inbound s)])
      (Stream (drop k (inbound s)) cs (eof s))) as [cs' ->];
      [simpl; rewrite length_drop; lia|].
    exists cs'. unfold recv_spec. simpl. rewrite length_drop, Z.max_r by lia.
    rewrite join_app. simpl. rewrite app_nil_r.
    destruct (Z.leb_spec (n - Z.of_nat k) (Z.of_nat (length (inbound s) - k)));
      destruct (Z.leb_spec n (Z.of_nat (length (inbound s)))); [|lia|lia|done].
    replace (Z.to_nat n) with (k + Z.to_nat (n - Z.of_nat k))%nat by lia.
    by rewrite <- take_take_drop, app_assoc, drop_drop.
Qed.

(** [_recv_exact] returns the next [size] bytes whatever the chunk sizes are. *)
Lemma recv_exact_spec size s :
  exists cs, recv_exact size s =
    let '(r, rest) := recv_spec (Z.max 0 size) s in (r, Stream rest cs (eof s)).
Proof.
  unfold recv_exact. destruct (recv_loop_spec (S (length (inbound s))) size [] s) as [cs ->]; [lia|].
  exists cs. destruct (recv_spec (Z.max 0 size) s) as [[bs|e] rest]; done.
Qed.

Lemma recv_exact_app n front rest cs ef :
  n = Z.of_nat (length front) ->
  exists cs', recv_exact n (Stream (front ++ rest) cs ef) = (Ok front, Stream rest cs' ef).
Proof.
  intros ->. destruct (recv_exact_spec (Z.of_nat (length front)) (Stream (front ++ rest) cs ef))
    as [cs' ->].
  exists cs'. unfold recv_spec. simpl. rewrite length_app, Z.max_r by lia.
  destruct (Z.leb_spec (Z.of_nat (length front)) (Z.of_nat (length front + length rest))); [|lia].
  by rewrite Nat2Z.id, take_app_length, drop_app_length.
Qed.

Lemma is_u32_range v : is_u32 v = true <-> 0 <= v < 2 ^ 32.
Proof. unfold is_u32. rewrite andb_true_iff, Z.leb_le, Z.ltb_lt. done. Qed.

Lemma le_split4 z : exists b0 b1 b2 b3, le_split 4 z = [b0; b1; b2; b3].
Proof. unfold le_split. eauto. Qed.

(** The bytes of a sequence of words. *)
Lemma packed_cons v ws :
  mjoin (le_split 4 <$> (v :: ws)) = le_split 4 v ++ mjoin (le_split 4 <$> ws).
Proof. reflexivity. Qed.

(** [struct.unpack] undoes [struct.pack]. *)
Lemma unpack_pack ws rest :
  Forall (fun v => is_u32 v = true) ws ->
  unpack_u32 (mjoin (le_split 4 <$> ws) ++ rest) = ws ++ unpack_u32 rest.
Proof.
  induction 1 as [|v ws Hv Hws IH]; [done|].
  rewrite packed_cons, <- app_assoc.
  pose proof (le_combine_split 4 v) as Hcomb.
  destruct (le_split4 v) as (b0 & b1 & b2 & b3 & Hs). rewrite Hs in *.
  simpl. rewrite IH, Hcomb. f_equal. apply is_u32_range in Hv.
  rewrite Z.mod_small; [done|]. simpl. lia.
Qed.

Lemma unpack_pack_nil ws :
  Forall (fun v => is_u32 v = true) ws -> unpack_u32 (mjoin (le_split 4 <$> ws)) = ws.
Proof. intros H. rewrite <- (app_nil_r (mjoin _)), unpack_pack by done. by rewrite app_nil_r. Qed.

Lemma length_packed ws : length (mjoin (le_split 4 <$> ws)) = (4 * length ws)%nat.
Proof.
  induction ws as [|v ws IH]; [done|]. rewrite packed_cons.
  rewrite length_app, IH, length_le_split. simpl. lia.
Qed.

Lemma pack_u32_ok ws :
  Forall (fun v => is_u32 v = true) ws -> pack_u32 ws = Ok (mjoin (le_split 4 <$> ws)).
Proof.
  intros H. unfold pack_u32.
  assert (Hb : forallb is_u32 ws = true) by (induction H; simpl; [done|by rewrite H, IHForall]).
  by rewrite Hb.
Qed.

(** The bytes of a well-formed reply, followed by anything, are read back as that reply. *)
Lemma recv_reply_encode address r cs ef :
  reply_wf r ->
  exists cs', recv_reply address (Stream (encode_reply r) cs ef) = (Ok r, Stream [] cs' ef).
Proof.
  intros [Hlen Hu]. unfold recv_reply, encode_reply.
  rewrite Forall_app in Hu. destruct Hu as [Hhdr Hpay].
  rewrite fmap_app, join_app.
  destruct (recv_exact_app HEADER_SIZE
    (mjoin (le_split 4 <$> [total_len r; rx_addr r; rx_cmd r; rx_size r; rx_status r]))
    (mjoin (le_split 4 <$> payload r)) cs ef) as [cs1 Hrecv]; [by rewrite length_packed|].
  rewrite (bind_run _ _ _ _ _ Hrecv), unpack_pack_nil by done.
  destruct (Z.ltb_spec (total_len r) HEADER_SIZE); [rewrite Hlen in *; unfold HEADER_SIZE in *; lia|].
  cbv zeta. rewrite Hlen.
  replace (HEADER_SIZE + 4 * Z.of_nat (length (payload r)) - HEADER_SIZE)
    with (4 * Z.of_nat (length (payload r))) by lia.
  assert (Hbody : exists cs2, (if 4 * Z.of_nat (length (payload r)) =? 0 then ret []
      else recv_exact (4 * Z.of_nat (length (payload r))))
      (Stream (mjoin (le_split 4 <$> payload r)) cs1 ef)
      = (Ok (mjoin (le_split 4 <$> payload r)), Stream [] cs2 ef)).
  { destruct (Z.eqb_spec (4 * Z.of_nat (length (payload r))) 0) as [Hz|Hz].
    - destruct (payload r); [|simpl in Hz; lia]. by exists cs1.
    - destruct (recv_exact_app (4 * Z.of_nat (length (payload r)))
        (mjoin (le_split 4 <$> payload r)) [] cs1 ef) as [cs2 H2]; [rewrite length_packed; lia|].
      rewrite app_nil_r in H2. by exists cs2. }
  destruct Hbody as [cs2 Hbody]. rewrite (bind_run _ _ _ _ _ Hbody).
  replace (4 * Z.of_nat (length (payload r)) mod 4) with 0
    by (rewrite Z.mul_comm; symmetry; apply Z_mod_mult).
  exists cs2. unfold ret. rewrite unpack_pack_nil by done. rewrite <- Hlen. by destruct r.
Qed.

(** One transaction over the wire is one transaction of the ideal board. *)
Lemma wire_transaction {D : Type} (peer : D -> bytes -> D * bytes) step
    `{!SspPeer peer step} address command data_words d cs ef :
  exists cs', wire peer address command data_words (d, Stream [] cs ef) =
    let '(r, d') := device step address command data_words d in (r, (d', Stream [] cs' ef)).
Proof.
  unfold wire, device.
  destruct (request_packet address command data_words) as [packet|e] eqn:Hp; [|by exists cs].
  rewrite (peer_answers d address command data_words packet Hp).
  pose proof (peer_reply_wf d address command data_words packet Hp) as Hwf.
  destruct (step d address command data_words) as [d' r].
  destruct (recv_reply_encode address r cs ef Hwf) as [cs' Hr].
  exists cs'. cbn [inbound cuts eof app]. rewrite Hr. reflexivity.
Qed.

(** The simulation: same outcome, same board state, same trace, nothing left unread. *)
Lemma wire_simulates_device {D A : Type} (peer : D -> bytes -> D * bytes) step
    `{!SspPeer peer step} (p : ssp A) d cs ef t :
  exists cs', run (wire peer) p (World (d, Stream [] cs ef) t) =
    let '(r, w) := run (device step) p (World d t) in
    (r, World (dev w, Stream [] cs' ef) (trace w)).
Proof.
  revert d cs t. induction p as [a|e|ad c ws k IH|ms k IH|l k IH]; intros d cs t;
    cbn [run dev trace]; eauto.
  destruct (wire_transaction peer step ad c ws d cs ef) as [cs1 ->].
  destruct (device step ad c ws d) as [[r|e] d1]; [apply IH | eauto].
Qed.

(** ** A register file that speaks the protocol *)

Definition regfile_step (d : gmap Z Z) (address command : Z) (data_words : list Z)
    : gmap Z Z * reply :=
  if command =? CMD_READ
  then (d, Reply 24 address command 1 0 [default 0 (d !! address) mod 2 ^ 32])
  else match data_words with
       | v :: _ => (<[address := v]> d, Reply 20 address command 1 0 [])
       | [] => (d, Reply 20 address command 1 1 [])
       end.

Definition regfile_peer (d : gmap Z Z) (packet : bytes) : gmap Z Z * bytes :=
  match unpack_u32 packet with
  | _ :: address :: command :: _ :: _ :: data_words =>
      let '(d', r) := regfile_step d address command data_words in (d', encode_reply r)
  | _ => (d, [])
  end.

Lemma pack_u32_inv ws bs :
  pack_u32 ws = Ok bs -> Forall (fun v => is_u32 v = true) ws /\ bs = mjoin (le_split 4 <$> ws).
Proof.
  unfold pack_u32. destruct (forallb is_u32 ws) eqn:Hb; [|done].
  intros H. apply (inj Ok) in H as <-. split; [|done].
  rewrite Forall_forall. intros v Hv. rewrite forallb_forall in Hb.
  apply Hb. by apply list_elem_of_In.
Qed.

(** A packet that could be built holds its header words followed by its data words. *)
Lemma request_packet_inv address command data_words packet :
  request_packet address command data_words = Ok packet ->
  is_u32 address = true /\ is_u32 command = true /\
  Forall (fun v => is_u32 v = true) data_words /\
  exists len, unpack_u32 packet = [len; address; command; 1; 0] ++ data_words.
Proof.
  unfold request_packet. intros H.
  apply rbind_ok in H as (body & Hbody & H). apply rbind_ok in H as (hdr & Hhdr & H).
  apply pack_u32_inv in Hbody as [Hws ->]. apply pack_u32_inv in Hhdr as [Hh ->].
  apply (inj Ok) in H as <-. pose proof Hh as Hh'. rewrite !Forall_cons in Hh'.
  split_and!; [tauto|tauto|done|]. eexists.
  rewrite unpack_pack by done. by rewrite unpack_pack_nil.
Qed.

Lemma is_u32_mod v : is_u32 (v mod 2 ^ 32) = true.
Proof. apply is_u32_range. apply Z.mod_pos_bound. lia. Qed.

#[export] Instance regfile_speaks : SspPeer regfile_peer regfile_step.
Proof.
  split.
  - intros d address command data_words packet Hp.
    apply request_packet_inv in Hp as (_ & _ & _ & len & Hu).
    unfold regfile_peer. rewrite Hu. reflexivity.
  - intros d address command data_words packet Hp.
    apply request_packet_inv in Hp as (Ha & Hc & Hws & _).
    unfold regfile_step. destruct (command =? CMD_READ).
    + split; [done|]. simpl. repeat (apply Forall_cons; split); try done. apply is_u32_mod.
    + destruct data_words as [|v data_words]; (split; [done|]); simpl;
        repeat (apply Forall_cons; split); done.
Qed.

(** ** Properties *)

(** [SSPClient._recv_exact]: however the network cuts the stream, it returns exactly the
    next [size] bytes and leaves the rest, or raises when fewer arrive ([ConnectionError]
    when the board closed the connection, a timeout otherwise); it always terminates. *)
Theorem recv_exact_correct size front rest cs ef :
  size = Z.of_nat (length front) ->
  (exists cs', recv_exact size (Stream (front ++ rest) cs ef) = (Ok front, Stream rest cs' ef)) /\
  (forall short, (length short < length front)%nat ->
     exists cs', recv_exact size (Stream short cs ef) =
       (Raise (if ef then Exn ConnectionError "socket closed while receiving response"
               else Exn TimeoutError "timed out"), Stream [] cs' ef)).
Proof.
  intros ->. split; [by apply recv_exact_app|]. intros short Hshort.
  destruct (recv_exact_spec (Z.of_nat (length front)) (Stream short cs ef)) as [cs' ->].
  exists cs'. unfold recv_spec. cbn [inbound eof]. rewrite Z.max_r by lia.
  destruct (Z.leb_spec (Z.of_nat (length front)) (Z.of_nat (length short))); [lia|done].
Qed.

Lemma recv_exact_correct_witness :
  exists cs', recv_exact 3 (Stream ([Byte.x01; Byte.x02; Byte.x03] ++ [Byte.x04]) [1; 1]%nat false)
    = (Ok [Byte.x01; Byte.x02; Byte.x03], Stream [Byte.x04] cs' false).
Proof.
  exact (proj1 (recv_exact_correct 3 [Byte.x01; Byte.x02; Byte.x03] [Byte.x04] [1; 1]%nat false
                  eq_refl)).
Defined.

(** C1. Refinement: every client program run over the packed byte stream, with any chunking,
    has the outcome, the board state and the trace it has on the ideal board, provided the
    board answers each packet with one well-formed reply. *)
Theorem wire_refines_device {D A : Type} (peer : D -> bytes -> D * bytes)
    (step : D -> Z -> Z -> list Z -> D * reply) (Hpeer : SspPeer peer step)
    (p : ssp A) d cs ef t :
  exists cs', run (wire peer) p (World (d, Stream [] cs ef) t) =
    let '(r, w) := run (device step) p (World d t) in
    (r, World (dev w, Stream [] cs' ef) (trace w)).
Proof. by apply wire_simulates_device. Qed.

Lemma wire_refines_device_witness :
  exists cs', run (wire regfile_peer) (ssp_write 0x80000448 5 true)
      (World (∅, Stream [] [3; 1; 2]%nat false) []) =
    let '(r, w) := run (device regfile_step) (ssp_write 0x80000448 5 true) (World ∅ []) in
    (r, World (dev w, Stream [] cs' false) (trace w)).
Proof. exact (wire_refines_device regfile_peer regfile_step regfile_speaks _ ∅ _ _ []). Defined.

(** [SSPClient.write] with verification, on any board: it returns only after the board
    acknowledged the write at that address with status 0 and then, unless the register is
    not latched, returned the written value when it was read back. *)
Theorem ssp_write_verified {D : Type} (step : D -> Z -> Z -> list Z -> D * reply)
    address value w o w' :
  run (device step) (ssp_write address value true) w = (Ok o, w') ->
  exists r1, rx_addr r1 = address /\ rx_status r1 = 0 /\
    if bool_decide (address ∈ NON_LATCHED_REGISTERS)
    then o = None /\ trace w' = trace w ++ [EvTx address CMD_WRITE [value] r1]
    else o = Some value /\ exists r2 rest, rx_addr r2 = address /\ rx_status r2 = 0 /\
         payload r2 = value :: rest /\
         trace w' = trace w ++ [EvTx address CMD_WRITE [value] r1; EvTx address CMD_READ [] r2].
Proof.
  unfold ssp_write, ssp_read, transaction. cbn [sbind run].
  destruct (device step address CMD_WRITE [value] (dev w)) as [[r1|e] d1]; [|done].
  destruct (Z.eqb_spec (rx_addr r1) address) as [Ha|Ha]; cbn [negb]; [|done].
  destruct (Z.eqb_spec (rx_status r1) 0) as [Hs|Hs]; cbn [negb orb]; [|done].
  intros H. exists r1. split; [done|]. split; [done|].
  destruct (bool_decide (address ∈ NON_LATCHED_REGISTERS)); [by simplify_eq/=|].
  cbn [sbind run dev trace] in H.
  destruct (device step address CMD_READ [] d1) as [[r2|e] d2]; [|done].
  destruct (Z.eqb_spec (rx_addr r2) address) as [Ha2|Ha2]; cbn [negb] in H; [|done].
  destruct (Z.eqb_spec (rx_status r2) 0) as [Hs2|Hs2]; cbn [negb] in H; [|done].
  destruct (payload r2) as [|v rest] eqn:Hp; [done|]. cbn [sbind] in H.
  destruct (Z.eqb_spec v value) as [->|Hv]; cbn [negb] in H; [|done].
  simplify_eq/=. split; [done|]. exists r2, rest. split_and!; try done.
  by rewrite <- app_assoc.
Qed.

Lemma ssp_write_verified_witness :
  let w' := snd (run (device regfile_step) (ssp_write 0x80000448 5 true) (World ∅ [])) in
  exists r1, rx_addr r1 = 0x80000448 /\ rx_status r1 = 0 /\
    if bool_decide (0x80000448 ∈ NON_LATCHED_REGISTERS)
    then Some 5 = None /\ trace w' = [] ++ [EvTx 0x80000448 CMD_WRITE [5] r1]
    else Some 5 = Some 5 /\ exists r2 rest, rx_addr r2 = 0x80000448 /\ rx_status r2 = 0 /\
         payload r2 = 5 :: rest /\
         trace w' = [] ++ [EvTx 0x80000448 CMD_WRITE [5] r1; EvTx 0x80000448 CMD_READ [] r2].
Proof.
  intros w'. apply (ssp_write_verified regfile_step 0x80000448 5 (World ∅ []) (Some 5) w').
  vm_compute. reflexivity.
Defined.
