(* ===== verification/SspLed.v ===== *)
(** The LED pulser of the SSP board: [client/ssp_led_control.py] above the wire protocol.

    Configuration ([LEDRunConfig], [load_json_config], [merge_config], [validate_config]),
    the register programs ([configure_run], [stop_run], [sync_pdts], ...) and the command
    dispatch of [main]. *)
From S2P Require Import Prelude PyStr Json SspWire.

(** ** Configuration *)

Record LEDRunConfig : Type := {
  number_channels : pyint;
  channel_mask : pyint;
  pulse_mode : string;
  burst_count : pyint;
  double_pulse_delay_ticks : pyint;
  pulse1_width_ticks : pyint;
  pulse2_width_ticks : pyint;
  pulse_bias_percent_270nm : pyint;
  pulse_bias_percent_367nm : pyint;
  module_id : pyint;
  partition_number : pyint;
  timing_address : pyint;
  pdts_sync : bool }.

Definition default_config : LEDRunConfig := {|
  number_channels := Some 12; channel_mask := Some 1; pulse_mode := "single";
  burst_count := Some 1; double_pulse_delay_ticks := Some 0;
  pulse1_width_ticks := Some 5; pulse2_width_ticks := Some 0;
  pulse_bias_percent_270nm := Some 4000; pulse_bias_percent_367nm := Some 0;
  module_id := None; partition_number := None; timing_address := None;
  pdts_sync := false |}.

(** [parse_int]: integers (booleans are integers) and [None] pass, everything else goes
    through [int(str(value), 0)]. *)
Definition parse_int (value : json) : result pyint :=
  match value with
  | JNull => Ok None
  | JInt z => Ok (Some z)
  | JBool b => Ok (Some (Z.b2z b))
  | _ => z <-! int0 (json_str value) ;; Ok (Some z)
  end.

(** [load_json_config] on the [ssp_conf] object of the decoded file ([None]: no such key).
    The fields are read in the order of the source; an absent field keeps its default. *)
Definition load_json_config (ssp_conf : option (gmap string json)) : result LEDRunConfig :=
  let conf := default ∅ ssp_conf in
  let field (name : string) (dflt : pyint) : result pyint :=
    match conf !! name with None => Ok dflt | Some v => parse_int v end in
  let d := default_config in
  nc <-! field "number_channels" (number_channels d) ;;
  cm <-! field "channel_mask" (channel_mask d) ;;
  pm <-! Ok (match conf !! "pulse_mode" with None => pulse_mode d | Some v => json_str v end) ;;
  bc <-! field "burst_count" (burst_count d) ;;
  dd <-! field "double_pulse_delay_ticks" (double_pulse_delay_ticks d) ;;
  p1 <-! field "pulse1_width_ticks" (pulse1_width_ticks d) ;;
  p2 <-! field "pulse2_width_ticks" (pulse2_width_ticks d) ;;
  b2 <-! field "pulse_bias_percent_270nm" (pulse_bias_percent_270nm d) ;;
  b3 <-! field "pulse_bias_percent_367nm" (pulse_bias_percent_367nm d) ;;
  Ok {| number_channels := nc; channel_mask := cm; pulse_mode := pm; burst_count := bc;
        double_pulse_delay_ticks := dd; pulse1_width_ticks := p1; pulse2_width_ticks := p2;
        pulse_bias_percent_270nm := b2; pulse_bias_percent_367nm := b3;
        module_id := module_id d; partition_number := partition_number d;
        timing_address := timing_address d; pdts_sync := pdts_sync d |}.

(** The command line after [argparse]; [None] for an option that was not given. *)
Record ssp_args : Type := {
  a_command : string;
  a_host : string;
  a_port : Z;
  a_ssh_tunnel : option string;
  a_remote_host : string;
  a_remote_port : option Z;
  a_config : option (option (gmap string json));
  a_number_channels : pyint;
  a_channel_mask : pyint;
  a_pulse_mode : option string;
  a_burst_count : pyint;
  a_double_pulse_delay_ticks : pyint;
  a_pulse_width_ticks : pyint;
  a_pulse1_width_ticks : pyint;
  a_pulse2_width_ticks : pyint;
  a_bias_270nm : pyint;
  a_bias_367nm : pyint;
  a_module_id : pyint;
  a_partition_number : pyint;
  a_timing_address : pyint;
  a_pdts_sync : bool }.

(** An option that was given replaces the value of the file. *)
Definition override (given old : pyint) : pyint :=
  match given with Some v => Some v | None => old end.

(** [merge_config] *)
Definition merge_config (args : ssp_args) : result LEDRunConfig :=
  cfg <-! match a_config args with
          | Some file => load_json_config file
          | None => Ok default_config
          end ;;
  match a_pulse_width_ticks args, a_pulse1_width_ticks args with
  | Some _, Some _ =>
      Raise (Exn ValueError "use only one of --pulse-width-ticks or --pulse1-width-ticks")
  | _, _ =>
      let pulse1 := match a_pulse1_width_ticks args with
                    | None => a_pulse_width_ticks args | some => some end in
      Ok {| number_channels := override (a_number_channels args) (number_channels cfg);
            channel_mask := override (a_channel_mask args) (channel_mask cfg);
            pulse_mode := default (pulse_mode cfg) (a_pulse_mode args);
            burst_count := override (a_burst_count args) (burst_count cfg);
            double_pulse_delay_ticks :=
              override (a_double_pulse_delay_ticks args) (double_pulse_delay_ticks cfg);
            pulse1_width_ticks := override pulse1 (pulse1_width_ticks cfg);
            pulse2_width_ticks := override (a_pulse2_width_ticks args) (pulse2_width_ticks cfg);
            pulse_bias_percent_270nm := override (a_bias_270nm args) (pulse_bias_percent_270nm cfg);
            pulse_bias_percent_367nm := override (a_bias_367nm args) (pulse_bias_percent_367nm cfg);
            module_id := override (a_module_id args) (module_id cfg);
            partition_number := override (a_partition_number args) (partition_number cfg);
            timing_address := override (a_timing_address args) (timing_address cfg);
            pdts_sync := a_pdts_sync args |}
  end.

(** [if v < lo or v > hi: raise ValueError(f"{name} must be in lo..hi, got {v}")] *)
Definition check_range (name : string) (o : pyint) (hi : Z) : result unit :=
  v <-! need_int o ;;
  if (v <? 0) || (hi <? v)
  then Raise (Exn ValueError (name +:+ " must be in 0.." +:+ str_Z hi +:+ ", got " +:+ str_Z v))
  else Ok tt.

(** [validate_config] *)
Definition validate_config (cfg : LEDRunConfig) : result unit :=
  _ <-! (if decide (number_channels cfg = Some 5 \/ number_channels cfg = Some 12) then Ok tt
         else Raise (Exn ValueError ("number_channels must be 5 or 12, got "
                                     +:+ str_opt (number_channels cfg)))) ;;
  _ <-! check_range "channel_mask" (channel_mask cfg) 4095 ;;
  _ <-! (if decide (pulse_mode cfg = "single" \/ pulse_mode cfg = "burst") then Ok tt
         else Raise (Exn ValueError ("pulse_mode must be 'single' or 'burst', got "
                                     +:+ pulse_mode cfg))) ;;
  _ <-! check_range "burst_count" (burst_count cfg) 10000 ;;
  _ <-! check_range "double_pulse_delay_ticks" (double_pulse_delay_ticks cfg) 4095 ;;
  _ <-! check_range "pulse1_width_ticks" (pulse1_width_ticks cfg) 255 ;;
  _ <-! check_range "pulse2_width_ticks" (pulse2_width_ticks cfg) 255 ;;
  _ <-! check_range "pulse_bias_percent_270nm" (pulse_bias_percent_270nm cfg) 4095 ;;
  _ <-! check_range "pulse_bias_percent_367nm" (pulse_bias_percent_367nm cfg) 4095 ;;
  if pdts_sync cfg then
    match partition_number cfg, timing_address cfg with
    | None, _ => Raise (Exn ValueError "--partition-number is required with --pdts-sync")
    | Some _, None => Raise (Exn ValueError "--timing-address is required with --pdts-sync")
    | Some p, Some t =>
        _ <-! check_range "partition_number" (Some p) 3 ;;
        check_range "timing_address" (Some t) 255
    end
  else Ok tt.

(** ** Register programs *)

(** [write_and_log] *)
Definition write_and_log (address value : Z) (verify : bool) (label : string) : ssp unit :=
  readback <~ ssp_write address value verify ;;
  (if verify && negb (bool_decide (address ∈ NON_LATCHED_REGISTERS))
   then print (rstrip (hex32 address +:+ " <- " +:+ hex32 value +:+ " OK " +:+ label))
   else print (hex32 address +:+ " <- " +:+ hex32 value +:+ " SENT" +:+
               (if decide (label = "") then "" else " " +:+ label))) ;~
  match readback with
  | Some rb =>
      if negb (rb =? value)
      then SRaise (Exn RuntimeError ("unexpected readback at " +:+ hex32 address +:+ ": wrote "
                                     +:+ hex32 value +:+ ", got " +:+ hex32 rb))
      else SRet tt
  | None => SRet tt
  end.

(** [0x6 <= (pdts_status & 0xF) <= 0x8] *)
Definition pdts_settled (pdts_status : Z) : bool :=
  let nibble := Z.land pdts_status 0xF in (0x6 <=? nibble) && (nibble <=? 0x8).

(** The reset loop of [sync_pdts]: [todo] attempts left, [attempt] done. *)
Fixpoint sync_attempts (partition timing : Z) (todo : nat) (attempt : Z) (pdts_status : Z)
    : ssp unit :=
  match todo with
  | O => SRaise (Exn RuntimeError ("PDTS sync failed after 5 tries; status=" +:+ hex32 pdts_status))
  | S todo' =>
      let reset_value := 0x80000000 + partition + timing * 0x10000 in
      let run_value := partition + timing * 0x10000 in
      write_and_log DP_CLOCK_CONTROL 0x30 true "pdts internal clock" ;~
      write_and_log PDTS_CONTROL reset_value true "pdts reset" ;~
      sleep_ms 1000 ;~
      st <~ ssp_read PDTS_STATUS ;;
      ctl <~ ssp_read PDTS_CONTROL ;;
      clk <~ ssp_read DP_CLOCK_CONTROL ;;
      print ("PDTS after reset: status=" +:+ hex32 st +:+ " control=" +:+ hex32 ctl
             +:+ " dp_clock=" +:+ hex32 clk) ;~
      write_and_log PDTS_CONTROL run_value true "pdts run" ;~
      sleep_ms 2000 ;~
      st <~ ssp_read PDTS_STATUS ;;
      ctl <~ ssp_read PDTS_CONTROL ;;
      print ("PDTS after run release: status=" +:+ hex32 st +:+ " control=" +:+ hex32 ctl) ;~
      write_and_log DP_CLOCK_CONTROL 0x31 true "pdts external clock" ;~
      sleep_ms 2000 ;~
      st <~ ssp_read PDTS_STATUS ;;
      print ("PDTS attempt " +:+ str_Z (attempt + 1) +:+ ": status=" +:+ hex32 st) ;~
      if pdts_settled st then SRet tt else sync_attempts partition timing todo' (attempt + 1) st
  end.

(** The final wait of [sync_pdts] for the running state. *)
Fixpoint sync_wait (todo : nat) (pdts_status : Z) : ssp unit :=
  match todo with
  | O => SRaise (Exn RuntimeError ("PDTS did not reach running state 0x8; last status="
                                   +:+ hex32 pdts_status))
  | S todo' =>
      st <~ ssp_read PDTS_STATUS ;;
      if Z.land st 0xF =? 0x8
      then print ("PDTS running: status=" +:+ hex32 st)
      else print ("Waiting for PDTS running state, current status=" +:+ hex32 st) ;~
           sleep_ms 2000 ;~
           sync_wait todo' st
  end.

(** [sync_pdts] *)
Definition sync_pdts (partition_number timing_address : Z) : ssp unit :=
  pdts_status <~ ssp_read PDTS_STATUS ;;
  pdts_control <~ ssp_read PDTS_CONTROL ;;
  dp_clock_control <~ ssp_read DP_CLOCK_CONTROL ;;
  let present_timing_address := Z.land (Z.shiftr pdts_control 16) 0xFF in
  let present_timing_partition := Z.land pdts_control 0x3 in
  print ("PDTS status before sync: status=" +:+ hex32 pdts_status +:+ " control="
         +:+ hex32 pdts_control +:+ " dp_clock=" +:+ hex32 dp_clock_control) ;~
  (if pdts_settled pdts_status && (present_timing_address =? timing_address)
      && (present_timing_partition =? partition_number)
      && (Z.land dp_clock_control 0xF =? 0x1)
   then print "PDTS already looks synced; skipping reset"
   else print ("Syncing PDTS: partition=" +:+ str_Z partition_number +:+ " timing_address=0x"
               +:+ hex_pad true 2 timing_address) ;~
        sync_attempts partition_number timing_address 5 0 pdts_status) ;~
  sync_wait 3 0.

(** [dump_registers] *)
Definition dump_registers (registers : list (Z * string)) (heading : string) : ssp unit :=
  print heading ;~
  sfor registers (fun '(address, label) =>
    value <~ ssp_read address ;;
    print ("  " +:+ hex32 address +:+ "  " +:+ hex32 value +:+ "  " +:+ label)).

Definition PDTS_REPORT_REGISTERS : list (Z * string) :=
  [(DP_CLOCK_CONTROL, "dp_clock_control"); (PDTS_CONTROL, "pdts_control");
   (PDTS_STATUS, "pdts_status"); (PDTS_CMD_CONTROL_1, "pdts_cmd_control_1");
   (PDTS_CMD_CONTROL_2, "pdts_cmd_control_2"); (CAL_COUNT, "cal_count")] ++
  ((fun index => (PDTS_CMD_DELAY_0 + index * 4, "pdts_cmd_delay_" +:+ str_Z index)) <$> seqZ 0 16).

Definition INSPECT_REGISTERS : list (Z * string) :=
  [(DP_FPGA_FW_BUILD, "dp_fpga_fw_build"); (CALIB_BUILD, "calib_build");
   (DP_CLOCK_STATUS, "dp_clock_status"); (MASTER_LOGIC_CONTROL, "master_logic_control");
   (MASTER_LOGIC_STATUS, "master_logic_status"); (DP_CLOCK_CONTROL, "dp_clock_control");
   (PDTS_CONTROL, "pdts_control"); (PDTS_STATUS, "pdts_status");
   (PDTS_CMD_CONTROL_1, "pdts_cmd_control_1"); (PDTS_CMD_CONTROL_2, "pdts_cmd_control_2");
   (CAL_COUNT, "cal_count")].

(** [configure_pdts_register_block] *)
Definition configure_pdts_register_block : ssp unit :=
  write_and_log PDTS_CMD_CONTROL_1 0x000002E7 true "pdts_cmd_control_1" ;~
  sfor (seqZ 0 16) (fun index =>
    write_and_log (PDTS_CMD_DELAY_0 + index * 4) 0x00030036 true
      ("pdts_cmd_delay_" +:+ str_Z index)) ;~
  write_and_log PDTS_CMD_CONTROL_2 0x80000000 true "pdts_cmd_control_2" ;~
  write_and_log DP_CLOCK_CONTROL 0x00000011 true "pulser/dp clock control".

(** [pulse_master_logic_reset] *)
Definition pulse_master_logic_reset : ssp unit :=
  current <~ ssp_read MASTER_LOGIC_CONTROL ;;
  let cleared := Z.land current (Z.lnot 0x00000101) in
  print ("Master logic before pulse: control=" +:+ hex32 current) ;~
  write_and_log MASTER_LOGIC_CONTROL cleared true "master_logic clear reset bits" ;~
  sleep_ms 100 ;~
  write_and_log MASTER_LOGIC_CONTROL 0x00000041 true "master_logic start" ;~
  status <~ ssp_read MASTER_LOGIC_STATUS ;;
  pdts_status <~ ssp_read PDTS_STATUS ;;
  control <~ ssp_read MASTER_LOGIC_CONTROL ;;
  print ("Master logic after pulse: control=" +:+ hex32 control +:+ " status=" +:+ hex32 status
         +:+ " pdts_status=" +:+ hex32 pdts_status).

(** One iteration of the channel loop of [configure_run]; [main] has run [validate_config],
    so none of the integers of [cfg] is [None] here. *)
Definition configure_channel (cfg : LEDRunConfig) (mask base_bias_addr base_timing_addr
    pulse_bias_setting_270nm pulse_bias_setting_367nm counter : Z) : ssp unit :=
  let bias_reg_addr := base_bias_addr + 0x4 * counter in
  let timing_reg_addr := base_timing_addr + 0x4 * counter in
  let timing_reg_val := if decide (pulse_mode cfg = "single") then 0xF0000000 else 0x90000000 in
  if negb (Z.land mask (Z.shiftl 1 counter) =? 0)
  then
    let bias_reg_val := 0x00040000 +
      (if counter <? 6 then pulse_bias_setting_270nm else pulse_bias_setting_367nm) in
    p1 <~ slift (need_int (pulse1_width_ticks cfg)) ;;
    p2 <~ slift (need_int (pulse2_width_ticks cfg)) ;;
    dd <~ slift (need_int (double_pulse_delay_ticks cfg)) ;;
    let timing_reg_val := timing_reg_val + p1 + Z.shiftl p2 8 + Z.shiftl dd 16 in
    write_and_log bias_reg_addr bias_reg_val true ("bias_config_" +:+ str_Z counter) ;~
    (if (counter =? 7) && (Z.land mask (Z.shiftl 1 (counter - 1)) =? 0)
     then write_and_log (bias_reg_addr - 0x4) bias_reg_val true "channel_7_bias_workaround"
     else SRet tt) ;~
    write_and_log timing_reg_addr timing_reg_val true ("cal_config_" +:+ str_Z counter)
  else
    write_and_log bias_reg_addr 0x00000000 true ("bias_config_" +:+ str_Z counter) ;~
    write_and_log timing_reg_addr 0x00000000 true ("cal_config_" +:+ str_Z counter).

Definition led_bases (n : Z) : Z * Z :=
  if n =? 5 then (0x4000035C, 0x800003DC) else (0x40000340, 0x800003C0).

(** The synchronisation at the start of [configure_run]. *)
Definition configure_sync (cfg : LEDRunConfig) : ssp unit :=
  if pdts_sync cfg
  then p <~ slift (need_int (partition_number cfg)) ;;
       t <~ slift (need_int (timing_address cfg)) ;;
       sync_pdts p t
  else SRet tt.

(** [configure_run] after the synchronisation. *)
Definition configure_registers (cfg : LEDRunConfig) : ssp unit :=
  match module_id cfg with
  | Some m => write_and_log MODULE_ID m true "module_id"
  | None => SRet tt
  end ;~
  configure_pdts_register_block ;~
  cal_count <~ (if decide (pulse_mode cfg = "single") then SRet 1
                else slift (need_int (burst_count cfg))) ;;
  write_and_log CAL_COUNT cal_count true "cal_count" ;~
  b270 <~ slift (need_int (pulse_bias_percent_270nm cfg)) ;;
  b367 <~ slift (need_int (pulse_bias_percent_367nm cfg)) ;;
  n <~ slift (need_int (number_channels cfg)) ;;
  mask <~ slift (need_int (channel_mask cfg)) ;;
  let '(base_bias_addr, base_timing_addr) := led_bases n in
  sfor (seqZ 0 n) (configure_channel cfg mask base_bias_addr base_timing_addr b270 (b367 / 2)) ;~
  write_and_log BIAS_CONTROL 0x00000001 false "apply_bias".

(** [configure_run] *)
Definition configure_run (cfg : LEDRunConfig) : ssp unit :=
  configure_sync cfg ;~
  configure_registers cfg.

(** [stop_run] *)
Definition stop_run : ssp unit :=
  sfor (seqZ 0 12) (fun counter =>
    write_and_log (0x40000340 + 0x4 * counter) 0x00000000 true ("bias_config_" +:+ str_Z counter) ;~
    write_and_log (0x800003C0 + 0x4 * counter) 0x00000000 true ("cal_config_" +:+ str_Z counter)) ;~
  write_and_log BIAS_CONTROL 0x00000001 false "apply_bias".

(** ** The command line *)

(** How the process of a tunnel takes [terminate()]: it ends within the two seconds of
    [wait(timeout=2.0)], or only when it is killed, or it is there for two more seconds after
    that, when the second [wait] raises [TimeoutExpired]. *)
Inductive tunnel_end : Type :=
  | Terminates
  | EndsWhenKilled
  | Lingers (timeout_expired : exn).

(** The process as [main] sees it: the outcome of the operating system's part (starting the
    tunnel, [socket.create_connection]), the board, the sockets and tunnels opened and
    closed, and what was printed. *)
Record ssp_process (D : Type) : Type := SspProcess {
  tunnel_polls : list (option string);   (* [poll()] every 0.1 s for 5 s: the text of [stderr] once it exited *)
  tunnel_exits : tunnel_end;
  connecting : result unit;              (* [socket.create_connection] *)
  board : world D;
  sock_open : nat; sock_closed : nat;
  tunnel_started : nat; tunnel_stopped : nat; tunnel_killed : nat;
  out : list string; err : list string }.
Arguments SspProcess {D}.
Arguments tunnel_polls {D}.
Arguments tunnel_exits {D}.
Arguments connecting {D}.
Arguments board {D}.
Arguments sock_open {D}.
Arguments sock_closed {D}.
Arguments tunnel_started {D}.
Arguments tunnel_stopped {D}.
Arguments tunnel_killed {D}.
Arguments out {D}.
Arguments err {D}.

Section process.
Context {D : Type} (tx : Z -> Z -> list Z -> M D reply).
Abbreviation P := (ssp_process D).

Definition say (line : string) : M P unit := modify (fun s =>
  SspProcess (tunnel_polls s) (tunnel_exits s) (connecting s) (board s) (sock_open s)
    (sock_closed s) (tunnel_started s) (tunnel_stopped s) (tunnel_killed s)
    (out s ++ [line]) (err s)).

Definition complain (line : string) : M P unit := modify (fun s =>
  SspProcess (tunnel_polls s) (tunnel_exits s) (connecting s) (board s) (sock_open s)
    (sock_closed s) (tunnel_started s) (tunnel_stopped s) (tunnel_killed s)
    (out s) (err s ++ [line])).

(** [SSPClient.__init__] *)
Definition connect : M P unit := fun s =>
  match connecting s with
  | Raise e => (Raise e, s)
  | Ok _ => (Ok tt, SspProcess (tunnel_polls s) (tunnel_exits s) (connecting s) (board s)
      (S (sock_open s)) (sock_closed s) (tunnel_started s) (tunnel_stopped s) (tunnel_killed s)
      (out s) (err s))
  end.

(** [SSPClient.close] *)
Definition close : M P unit := modify (fun s =>
  SspProcess (tunnel_polls s) (tunnel_exits s) (connecting s) (board s) (sock_open s)
    (S (sock_closed s)) (tunnel_started s) (tunnel_stopped s) (tunnel_killed s) (out s) (err s)).

(** A client program on the connected board. *)
Definition on_board (p : ssp unit) : M P unit := fun s =>
  let '(r, w) := run tx p (board s) in
  (r, SspProcess (tunnel_polls s) (tunnel_exits s) (connecting s) w (sock_open s)
        (sock_closed s) (tunnel_started s) (tunnel_stopped s) (tunnel_killed s) (out s) (err s)).

(** [SSHTunnel.__enter__]: the process must survive every poll before the deadline. *)
Fixpoint tunnel_wait (polls : list (option string)) : result unit :=
  match polls with
  | [] => Ok tt
  | None :: polls' => tunnel_wait polls'
  | Some stderr :: _ =>
      let stderr := strip stderr in
      Raise (Exn RuntimeError ("failed to start SSH tunnel" +:+
               (if decide (stderr = "") then "" else ": " +:+ stderr)))
  end.

Definition tunnel_enter (jump_host remote_host : string) (local_port remote_port : Z)
    : M P unit :=
  (fun s => (Ok tt, SspProcess (tunnel_polls s) (tunnel_exits s) (connecting s) (board s)
     (sock_open s) (sock_closed s) (S (tunnel_started s)) (tunnel_stopped s) (tunnel_killed s)
     (out s) (err s))) ;;;
  polls <- gets tunnel_polls ;;
  lift (tunnel_wait polls) ;;;
  say ("SSH tunnel ready: localhost:" +:+ str_Z local_port +:+ " -> " +:+ remote_host +:+ ":"
       +:+ str_Z remote_port +:+ " via " +:+ jump_host).

(** [SSHTunnel.__exit__]: terminate, and kill when the process does not end within 2 s; the
    exception of the wait after that replaces what the [with] block gave. *)
Definition tunnel_exit : M P unit := fun s =>
  (match tunnel_exits s with Lingers e => Raise e | _ => Ok tt end,
   SspProcess (tunnel_polls s) (tunnel_exits s) (connecting s) (board s) (sock_open s)
    (sock_closed s) (tunnel_started s) (S (tunnel_stopped s))
    (match tunnel_exits s with Terminates => tunnel_killed s | _ => S (tunnel_killed s) end)
    (out s) (err s)).

(** The connection of every command: [with tunnel:] when there is one, and
    [try: ... finally: client.close()]. *)
Definition session (args : ssp_args) (p : ssp unit) : M P unit :=
  let connected :=
    say ("Connecting to " +:+ a_host args +:+ ":" +:+ str_Z (a_port args)) ;;;
    connect ;;;
    try_finally (on_board p) close in
  match a_ssh_tunnel args with
  | Some jump =>
      if decide (jump = "") then connected
      else
        let tunnel_remote_port := match a_remote_port args with
                                  | Some p => if p =? 0 then a_port args else p
                                  | None => a_port args end in
        tunnel_enter jump (a_remote_host args) (a_port args) tunnel_remote_port ;;;
        try_finally connected tunnel_exit
  | None => connected
  end.

(** [main] after [parse_args]: the exit status, [parser.error] being a [SystemExit]. *)
Definition main (args : ssp_args) : M P Z :=
  let command := a_command args in
  let done_ (line : string) : M P Z := say line ;;; ret 0 in
  r <- try_except (
    if decide (command = "run") then
      cfg <- lift (merge_config args) ;;
      lift (validate_config cfg) ;;;
      session args (configure_run cfg) ;;;
      z <- done_ "SSP LED run configured and started" ;; ret (Some z)
    else if decide (command = "stop") then
      session args stop_run ;;;
      z <- done_ "SSP LED run stopped" ;; ret (Some z)
    else if decide (command = "pdts-sync-report") then
      session args (
        dump_registers PDTS_REPORT_REGISTERS "PDTS register dump before sync:" ;~
        p <~ slift (need_int (a_partition_number args)) ;;
        t <~ slift (need_int (a_timing_address args)) ;;
        sync_pdts p t ;~
        configure_pdts_register_block ;~
        dump_registers PDTS_REPORT_REGISTERS "PDTS register dump after sync:") ;;;
      z <- done_ "PDTS sync/report completed" ;; ret (Some z)
    else if decide (command = "inspect") then
      session args (dump_registers INSPECT_REGISTERS "SSP inspect dump:") ;;;
      z <- done_ "SSP inspect completed" ;; ret (Some z)
    else if decide (command = "master-logic-reset-report") then
      session args (
        dump_registers INSPECT_REGISTERS "Before master logic reset:" ;~
        pulse_master_logic_reset ;~
        dump_registers INSPECT_REGISTERS "After master logic reset:") ;;;
      z <- done_ "Master logic reset/report completed" ;; ret (Some z)
    else ret None)
    (fun e => complain ("ERROR: " +:+ exn_text e) ;;; ret (Some 1)) ;;
  match r with
  | Some z => ret z
  | None => raise (Exn SystemExit ("unknown command " +:+ command))
  end.

End process.

(** ** What a run is meant to leave in the registers *)

(** A configuration whose integers are present and in range. *)
Record valid_run (cfg : LEDRunConfig) (n mask bc dd p1 p2 b270 b367 : Z) : Prop := {
  vr_channels : number_channels cfg = Some n; vr_mask : channel_mask cfg = Some mask;
  vr_burst : burst_count cfg = Some bc; vr_delay : double_pulse_delay_ticks cfg = Some dd;
  vr_width1 : pulse1_width_ticks cfg = Some p1; vr_width2 : pulse2_width_ticks cfg = Some p2;
  vr_bias270 : pulse_bias_percent_270nm cfg = Some b270;
  vr_bias367 : pulse_bias_percent_367nm cfg = Some b367;
  vr_n : n = 5 \/ n = 12; vr_mode : pulse_mode cfg = "single" \/ pulse_mode cfg = "burst";
  vr_ranges : 0 <= mask <= 4095 /\ 0 <= bc <= 10000 /\ 0 <= dd <= 4095 /\ 0 <= p1 <= 255 /\
              0 <= p2 <= 255 /\ 0 <= b270 <= 4095 /\ 0 <= b367 <= 4095;
  vr_sync : pdts_sync cfg = true ->
    exists p t, partition_number cfg = Some p /\ timing_address cfg = Some t /\
                0 <= p <= 3 /\ 0 <= t <= 255 }.

(** Bias register of channel [i]: the 270 nm LEDs are channels 0 to 5.  Channel 7 borrows
    the bias of channel 6 when channel 6 itself is off. *)
Definition bias_value (mask b270 b367 i : Z) : Z :=
  if Z.testbit mask i then 0x40000 + (if i <? 6 then b270 else b367 / 2)
  else if (i =? 6) && Z.testbit mask 7 then 0x40000 + b367 / 2
  else 0.

(** Timing register of channel [i]: mode, delay, second and first pulse width. *)
Definition timing_value (single : bool) (mask dd p1 p2 i : Z) : Z :=
  if Z.testbit mask i
  then (if single then 0xF else 0x9) * 2 ^ 28 + dd * 2 ^ 16 + p2 * 2 ^ 8 + p1
  else 0.

Definition is_single (cfg : LEDRunConfig) : bool := bool_decide (pulse_mode cfg = "single").

(** The registers a run depends on: they keep the value written last. *)
Definition bias_addr (n i : Z) : Z := fst (led_bases n) + 4 * i.
Definition timing_addr (n i : Z) : Z := snd (led_bases n) + 4 * i.

Definition fixed_registers : list Z :=
  [MODULE_ID; PDTS_CMD_CONTROL_1; PDTS_CMD_CONTROL_2; DP_CLOCK_CONTROL; CAL_COUNT] ++
  ((fun i => PDTS_CMD_DELAY_0 + i * 4) <$> seqZ 0 16).

Definition led_registers (n : Z) : list Z :=
  (bias_addr n <$> seqZ 0 n) ++ (timing_addr n <$> seqZ 0 n).

Definition config_registers : list Z := fixed_registers ++ led_registers 12.

(** The board's documented behaviour towards those registers: a write to one is acknowledged
    and changes that register alone, applying the bias changes none, and reading one returns
    its value.  Status registers are left unconstrained. *)
Class LatchedBoard {D : Type} (step : D -> Z -> Z -> list Z -> D * reply)
    (reg : D -> Z -> Z) : Prop := {
  board_write d a v : a ∈ config_registers \/ a = BIAS_CONTROL -> is_u32 v = true ->
    exists d' r, step d a CMD_WRITE [v] = (d', r) /\ rx_addr r = a /\ rx_status r = 0 /\
      forall b, b ∈ config_registers -> reg d' b = if b =? a then v else reg d b;
  board_read d a : a ∈ config_registers ->
    exists d' r, step d a CMD_READ [] = (d', r) /\ rx_addr r = a /\ rx_status r = 0 /\
      (exists rest, payload r = reg d a :: rest) /\
      forall b, b ∈ config_registers -> reg d' b = reg d b }.

Definition regfile_reg (d : gmap Z Z) (a : Z) : Z := default 0 (d !! a) mod 2 ^ 32.

#[export] Instance regfile_latched : LatchedBoard regfile_step regfile_reg.
Proof.
  split.
  - intros d a v _ Hv. eexists _, _. split; [reflexivity|]. split_and!; [done..|].
    intros b _. unfold regfile_reg. destruct (Z.eqb_spec b a) as [->|Hne].
    + rewrite lookup_insert_eq. apply Z.mod_small, is_u32_range, Hv.
    + by rewrite lookup_insert_ne.
  - intros d a _. eexists _, _. split; [reflexivity|]. split_and!; [done..| |done].
    by exists [].
Qed.

(** A check on every configuration register. *)
Lemma config_forallb (f : Z -> bool) a :
  forallb f config_registers = true -> a ∈ config_registers -> f a = true.
Proof. rewrite forallb_forall. intros H Ha. by apply H, list_elem_of_In. Qed.

Lemma config_registers_u32 a : a ∈ config_registers -> is_u32 a = true.
Proof. by apply config_forallb. Qed.

Lemma bias_control_not_config : BIAS_CONTROL ∉ config_registers.
Proof. intros H. by apply (config_forallb (fun a => negb (a =? BIAS_CONTROL))) in H. Qed.

(** The value at [a] after the assignments [l], starting from [old]. *)
Definition apply_writes (l : list (Z * Z)) (a old : Z) : Z :=
  foldl (fun x w => if a =? fst w then snd w else x) old l.

Lemma apply_writes_app l1 l2 a old :
  apply_writes (l1 ++ l2) a old = apply_writes l2 a (apply_writes l1 a old).
Proof. apply foldl_app. Qed.

Lemma apply_writes_frame l a old : a ∉ fst <$> l -> apply_writes l a old = old.
Proof.
  revert old. induction l as [|[b v] l IH]; intros old Ha; [done|].
  simpl in *. apply not_elem_of_cons in Ha as [Hne Ha].
  destruct (Z.eqb_spec a b); [done|]. by apply IH.
Qed.

Section programs.
Context {D : Type} {step : D -> Z -> Z -> list Z -> D * reply} {reg : D -> Z -> Z}.
Context `{!LatchedBoard step reg}.

(** The client program [p] always completes, and performs the assignments [l]. *)
Definition programs (p : ssp unit) (l : list (Z * Z)) : Prop :=
  forall w, exists w', run (device step) p w = (Ok tt, w') /\
    forall a, a ∈ config_registers -> reg (dev w') a = apply_writes l a (reg (dev w) a).

Lemma programs_ret : programs (SRet tt) [].
Proof using Type. intros w. exists w. done. Qed.

Lemma programs_seq p q l1 l2 :
  programs p l1 -> programs q l2 -> programs (p ;~ q) (l1 ++ l2).
Proof using Type.
  intros Hp Hq w. destruct (Hp w) as (w1 & Hr1 & H1). destruct (Hq w1) as (w2 & Hr2 & H2).
  exists w2. split; [by rewrite (run_sbind_ok _ _ _ _ _ _ Hr1)|].
  intros a Ha. by rewrite apply_writes_app, H2, H1.
Qed.

Lemma programs_for {A : Type} (l : list A) f g :
  (forall x, x ∈ l -> programs (f x) (g x)) -> programs (sfor l f) (l ≫= g).
Proof using Type.
  induction l as [|x l IH]; intros H; [apply programs_ret|].
  apply programs_seq; [apply H, list_elem_of_here|].
  apply IH. intros y Hy. by apply H, list_elem_of_further.
Qed.

Lemma device_tx d a c ws :
  is_u32 a = true -> c = CMD_READ \/ c = CMD_WRITE -> Forall (fun v => is_u32 v = true) ws ->
  (length ws <= 1)%nat ->
  device step a c ws d = let '(d', r) := step d a c ws in (Ok r, d').
Proof using Type.
  intros Ha Hc Hws Hlen. unfold device, request_packet. rewrite pack_u32_ok by done.
  cbn [rbind]. rewrite pack_u32_ok; [done|].
  rewrite length_packed. repeat (apply Forall_cons; split); try done.
  - apply is_u32_range. unfold HEADER_SIZE. lia.
  - by destruct Hc as [->| ->].
Qed.

Lemma programs_write a v label :
  a ∈ config_registers -> is_u32 v = true -> programs (write_and_log a v true label) [(a, v)].
Proof using All.
  intros Ha Hv w. assert (Hu : is_u32 a = true) by by apply config_registers_u32.
  unfold write_and_log, ssp_write, ssp_read, transaction. cbn [sbind run].
  rewrite device_tx by (auto using Forall_cons, Forall_nil_2).
  destruct (board_write (dev w) a v (or_introl Ha) Hv) as (d1 & r1 & -> & -> & -> & H1).
  rewrite !Z.eqb_refl. cbn [negb orb].
  assert (Hnl : bool_decide (a ∈ NON_LATCHED_REGISTERS) = false).
  { apply bool_decide_eq_false_2. intros Hin. apply list_elem_of_singleton in Hin. subst a.
    by apply bias_control_not_config. }
  rewrite Hnl. cbn [negb orb andb sbind run dev].
  rewrite device_tx by (auto using Forall_nil_2; simpl; lia).
  destruct (board_read d1 a Ha) as (d2 & r2 & -> & -> & -> & (rest & ->) & H2).
  rewrite !Z.eqb_refl. cbn [negb sbind run]. rewrite (H1 a Ha), Z.eqb_refl.
  rewrite !Z.eqb_refl. cbn [negb sbind print run]. rewrite ?Z.eqb_refl. cbn [negb run dev].
  eexists. split; [reflexivity|]. intros b Hb. cbn [dev]. by rewrite H2, H1.
Qed.

(** Applying the bias changes no configuration register. *)
Lemma programs_apply_bias label : programs (write_and_log BIAS_CONTROL 1 false label) [].
Proof using All.
  intros w. unfold write_and_log, ssp_write, transaction. cbn [sbind run].
  rewrite device_tx by (auto using Forall_cons, Forall_nil_2).
  destruct (board_write (dev w) BIAS_CONTROL 1 (or_intror eq_refl) eq_refl)
    as (d1 & r1 & -> & -> & -> & H1).
  eexists. split; [reflexivity|]. intros b Hb. cbn [dev]. rewrite H1 by done.
  destruct (Z.eqb_spec b BIAS_CONTROL) as [->|]; [|done].
  by apply bias_control_not_config in Hb.
Qed.

End programs.
Arguments programs {D} step reg p l.

(** ** Lemmas *)

Lemma rbind_ok_iff {A B : Type} (r : result A) (k : A -> result B) b :
  rbind r k = Ok b <-> exists a, r = Ok a /\ k a = Ok b.
Proof. split; [apply rbind_ok|]. intros (a & -> & H). exact H. Qed.

Lemma check_range_ok name o hi u :
  check_range name o hi = Ok u <-> exists v, o = Some v /\ 0 <= v <= hi.
Proof.
  unfold check_range. destruct o as [v|]; simpl; [|split; [done|by intros (v & ? & ?)]].
  destruct u. destruct (Z.ltb_spec v 0), (Z.ltb_spec hi v); simpl; split; try done;
    try (intros (v' & [= <-] & ?); lia). intros _. exists v. split; [done|lia].
Qed.

Lemma fmap_singletons {A B : Type} (f : A -> B) (l : list A) : f <$> l = l ≫= (fun x => [f x]).
Proof. induction l as [|x l IH]; [done|]. simpl. by f_equal. Qed.

(** The mask bit of [counter], as the code tests it. *)
Lemma mask_bit mask counter :
  0 <= counter -> negb (Z.land mask (Z.shiftl 1 counter) =? 0) = Z.testbit mask counter.
Proof.
  intros Hc. destruct (Z.testbit mask counter) eqn:Hb.
  - apply negb_true_iff, Z.eqb_neq. intros H0.
    assert (Ht : Z.testbit (Z.land mask (Z.shiftl 1 counter)) counter = true).
    { rewrite Z.land_spec, Hb, Z.shiftl_spec by lia. by rewrite Z.sub_diag. }
    rewrite H0, Z.bits_0 in Ht. done.
  - apply negb_false_iff, Z.eqb_eq. apply Z.bits_inj'. intros m Hm.
    rewrite Z.land_spec, Z.shiftl_spec, Z.bits_0 by lia.
    destruct (Z.eq_dec m counter) as [->|Hne]; [by rewrite Hb|].
    destruct (Z.testbit 1 (m - counter)) eqn:H1; [|apply andb_false_r].
    destruct (Z.ltb_spec m counter); [by rewrite Z.testbit_neg_r in H1 by lia|].
    by rewrite Z.bits_above_log2 in H1 by (simpl; lia).
Qed.

Lemma bias_value_bounds mask b270 b367 i :
  0 <= b270 <= 4095 -> 0 <= b367 <= 4095 -> 0 <= bias_value mask b270 b367 i < 2 ^ 19.
Proof.
  intros H2 H3. unfold bias_value. assert (0 <= b367 / 2 <= 2048)
    by (split; [apply Z.div_pos | apply Z.div_le_upper_bound]; lia).
  destruct (Z.testbit mask i), (i <? 6), ((i =? 6) && Z.testbit mask 7); lia.
Qed.

Lemma timing_value_bounds single mask dd p1 p2 i :
  0 <= dd <= 4095 -> 0 <= p1 <= 255 -> 0 <= p2 <= 255 ->
  0 <= timing_value single mask dd p1 p2 i < 2 ^ 32.
Proof. intros Hd H1 H2. unfold timing_value. destruct (Z.testbit mask i), single; cbn -[Z.mul Z.add Z.pow]; lia. Qed.

(** The assignments of one iteration of the channel loop. *)
Definition channel_writes (n mask b270 b367 dd p1 p2 : Z) (single : bool) (i : Z)
    : list (Z * Z) :=
  if Z.testbit mask i
  then [(bias_addr n i, bias_value mask b270 b367 i)] ++
       (if (i =? 7) && negb (Z.testbit mask 6)
        then [(bias_addr n i - 4, bias_value mask b270 b367 i)] else []) ++
       [(timing_addr n i, timing_value single mask dd p1 p2 i)]
  else [(bias_addr n i, 0); (timing_addr n i, 0)].

Lemma led_registers_config n a : n = 5 \/ n = 12 -> a ∈ led_registers n -> a ∈ config_registers.
Proof.
  intros Hn Ha. apply (proj1 (Forall_forall (fun b => b ∈ config_registers) (led_registers n)));
    [|exact Ha].
  destruct Hn as [-> | ->]; apply (bool_decide_unpack _); vm_compute; done.
Qed.

Lemma bias_addr_in n i : 0 <= i < n -> bias_addr n i ∈ led_registers n.
Proof. intros Hi. apply elem_of_app. left. apply list_elem_of_fmap_2, elem_of_seqZ. lia. Qed.

Lemma timing_addr_in n i : 0 <= i < n -> timing_addr n i ∈ led_registers n.
Proof. intros Hi. apply elem_of_app. right. apply list_elem_of_fmap_2, elem_of_seqZ. lia. Qed.

Section configure.
Context {D : Type} {step : D -> Z -> Z -> list Z -> D * reply} {reg : D -> Z -> Z}.
Context `{!LatchedBoard step reg}.

Lemma programs_channel cfg n mask bc dd p1 p2 b270 b367 i :
  valid_run cfg n mask bc dd p1 p2 b270 b367 -> 0 <= i < n ->
  programs step reg
    (configure_channel cfg mask (fst (led_bases n)) (snd (led_bases n)) b270 (b367 / 2) i)
    (channel_writes n mask b270 b367 dd p1 p2 (is_single cfg) i).
Proof using All.
  intros [] Hi. destruct vr_ranges0 as (Hm & Hb & Hd & H1 & H2 & H270 & H367).
  assert (Hba := led_registers_config n _ vr_n0 (bias_addr_in n i Hi)).
  assert (Hta := led_registers_config n _ vr_n0 (timing_addr_in n i Hi)).
  pose proof (bias_value_bounds mask b270 b367 i H270 H367) as Hbv.
  pose proof (timing_value_bounds (is_single cfg) mask dd p1 p2 i Hd H1 H2) as Htv.
  unfold configure_channel, channel_writes. rewrite mask_bit by lia.
  change (fst (led_bases n) + 4 * i) with (bias_addr n i).
  change (snd (led_bases n) + 4 * i) with (timing_addr n i).
  destruct (Z.testbit mask i) eqn:Hbit.
  - rewrite vr_width3, vr_width4, vr_delay0. cbn [need_int slift sbind].
    set (bv := 262144 + _). set (tv := _ + _ + _ + _).
    assert (Hbveq : bv = bias_value mask b270 b367 i) by (unfold bv, bias_value; by rewrite Hbit).
    assert (Htveq : tv = timing_value (is_single cfg) mask dd p1 p2 i).
    { unfold tv, timing_value, is_single. rewrite Hbit, !Z.shiftl_mul_pow2 by lia.
      destruct (decide (pulse_mode cfg = "single")) as [Hs|Hs].
      - rewrite bool_decide_eq_true_2 by done. cbn -[Z.mul Z.add Z.pow]. lia.
      - rewrite bool_decide_eq_false_2 by done. cbn -[Z.mul Z.add Z.pow]. lia. }
    rewrite Hbveq, Htveq.
    apply (programs_seq _ _ [_]); [apply programs_write; [done|apply is_u32_range; lia]|].
    apply programs_seq; [|apply programs_write; [done|by apply is_u32_range]].
    destruct (Z.eqb_spec i 7) as [->|]; cbn [andb]; [|apply programs_ret].
    rewrite <- (negb_involutive (Z.land _ _ =? 0)), mask_bit by lia.
    change (7 - 1) with 6.
    destruct (Z.testbit mask 6); cbn [negb]; [apply programs_ret|].
    apply programs_write; [|apply is_u32_range; lia].
    replace (bias_addr n 7 - 4) with (bias_addr n 6) by (unfold bias_addr; lia).
    apply (led_registers_config n); [done|]. apply bias_addr_in. lia.
  - apply (programs_seq _ _ [_]); by apply programs_write.
Qed.

Definition pdts_writes : list (Z * Z) :=
  [(PDTS_CMD_CONTROL_1, 0x2E7)] ++ ((fun i => (PDTS_CMD_DELAY_0 + i * 4, 0x30036)) <$> seqZ 0 16)
  ++ [(PDTS_CMD_CONTROL_2, 0x80000000)] ++ [(DP_CLOCK_CONTROL, 0x11)].

Lemma fixed_registers_config a : a ∈ fixed_registers -> a ∈ config_registers.
Proof using Type. intros H. apply elem_of_app. by left. Qed.

Lemma programs_pdts_block : programs step reg configure_pdts_register_block pdts_writes.
Proof using All.
  unfold configure_pdts_register_block, pdts_writes.
  apply programs_seq; [apply programs_write; [reg_mem|done]|].
  apply programs_seq.
  - rewrite fmap_singletons. apply (programs_for (seqZ 0 16)
      (fun index => write_and_log (PDTS_CMD_DELAY_0 + index * 4) 0x30036 true _)
      (fun i => [(PDTS_CMD_DELAY_0 + i * 4, 0x30036)])).
    intros i Hi. apply programs_write; [|done]. apply fixed_registers_config, elem_of_app. right.
    by apply (list_elem_of_fmap_2 (fun i => PDTS_CMD_DELAY_0 + i * 4)).
  - apply programs_seq; (apply programs_write; [reg_mem|done]).
Qed.

(** The assignments of [configure_registers]. *)
Definition run_writes (cfg : LEDRunConfig) (n mask bc b270 b367 dd p1 p2 : Z) : list (Z * Z) :=
  (match module_id cfg with Some m => [(MODULE_ID, m)] | None => [] end) ++ pdts_writes ++
  [(CAL_COUNT, if is_single cfg then 1 else bc)] ++
  (seqZ 0 n ≫= channel_writes n mask b270 b367 dd p1 p2 (is_single cfg)).

Lemma programs_configure cfg n mask bc dd p1 p2 b270 b367 :
  valid_run cfg n mask bc dd p1 p2 b270 b367 ->
  (forall m, module_id cfg = Some m -> is_u32 m = true) ->
  programs step reg (configure_registers cfg) (run_writes cfg n mask bc b270 b367 dd p1 p2).
Proof using All.
  intros Hv Hmod. pose proof Hv as []. unfold configure_registers, run_writes.
  rewrite vr_bias271, vr_bias368, vr_channels0, vr_mask0, vr_burst0.
  apply programs_seq.
  { destruct (module_id cfg) as [m|]; [|apply programs_ret].
    apply programs_write; [apply fixed_registers_config; reg_mem|by apply Hmod]. }
  apply programs_seq; [apply programs_pdts_block|].
  rewrite <- (app_nil_r (seqZ 0 n ≫= _)).
  assert (Htail : programs step reg (sfor (seqZ 0 n) (configure_channel cfg mask
      (fst (led_bases n)) (snd (led_bases n)) b270 (b367 / 2)) ;~
      write_and_log BIAS_CONTROL 1 false "apply_bias")
    ((seqZ 0 n ≫= channel_writes n mask b270 b367 dd p1 p2 (is_single cfg)) ++ [])).
  { apply programs_seq; [|apply programs_apply_bias].
    apply programs_for. intros i Hi. apply elem_of_seqZ in Hi.
    apply (programs_channel cfg n mask bc); [done|lia]. }
  cbn [need_int slift sbind]. destruct (led_bases n) as [ba ta] eqn:Hbases.
  assert (Hcal : CAL_COUNT ∈ config_registers)
    by (apply fixed_registers_config; reg_mem).
  unfold is_single. destruct (decide (pulse_mode cfg = "single")) as [Hs|Hs]; cbn [slift sbind].
  - rewrite bool_decide_eq_true_2 by done. apply programs_seq; [by apply programs_write|].
    unfold is_single in Htail. by rewrite bool_decide_eq_true_2 in Htail by done.
  - rewrite bool_decide_eq_false_2 by done.
    apply programs_seq; [apply programs_write; [done|apply is_u32_range; lia]|].
    unfold is_single in Htail. by rewrite bool_decide_eq_false_2 in Htail by done.
Qed.

Lemma programs_stop :
  programs step reg stop_run (seqZ 0 12 ≫= fun i => [(bias_addr 12 i, 0); (timing_addr 12 i, 0)]).
Proof using All.
  unfold stop_run. rewrite <- (app_nil_r (_ ≫= _)).
  apply programs_seq; [|apply programs_apply_bias].
  apply programs_for. intros i Hi. apply elem_of_seqZ in Hi.
  apply (programs_seq _ _ [_]); (apply programs_write; [|done]);
    apply (led_registers_config 12); auto; [apply bias_addr_in|apply timing_addr_in]; lia.
Qed.

End configure.

(** Which assignments of channel [j] reach the registers of channel [i]. *)
Lemma channel_writes_bias n mask b270 b367 dd p1 p2 single i j old :
  n = 5 \/ n = 12 -> 0 <= i < n -> 0 <= j < n ->
  apply_writes (channel_writes n mask b270 b367 dd p1 p2 single j) (bias_addr n i) old =
  if j =? i then (if Z.testbit mask i then bias_value mask b270 b367 i else 0)
  else if (i =? 6) && (j =? 7) && Z.testbit mask 7 && negb (Z.testbit mask 6)
  then bias_value mask b270 b367 7 else old.
Proof.
  intros Hn Hi Hj.
  assert (Hb : (bias_addr n i =? bias_addr n j) = (j =? i)).
  { unfold bias_addr. destruct (Z.eqb_spec j i) as [->|]; [apply Z.eqb_refl|].
    apply Z.eqb_neq. lia. }
  assert (Ht : (bias_addr n i =? timing_addr n j) = false).
  { unfold bias_addr, timing_addr. apply Z.eqb_neq. destruct Hn as [-> | ->]; simpl; lia. }
  assert (Hw : (bias_addr n i =? bias_addr n j - 4) = (j =? i + 1)).
  { unfold bias_addr. destruct (Z.eqb_spec j (i + 1)) as [->|]; [apply Z.eqb_eq; lia|].
    apply Z.eqb_neq. lia. }
  unfold channel_writes. destruct (Z.testbit mask j) eqn:Hbit.
  - rewrite !apply_writes_app. cbn [apply_writes foldl fst snd]. rewrite Hb, Ht.
    destruct (Z.eqb_spec j i) as [->|Hne].
    + rewrite Hbit. destruct ((i =? 7) && negb (Z.testbit mask 6)); [|done].
      cbn [apply_writes foldl fst snd]. rewrite Hw. by destruct (Z.eqb_spec i (i + 1)); [lia|].
    + destruct (Z.eqb_spec j 7) as [->|Hj7]; [rewrite Hbit|].
      * cbn [andb]. destruct (negb (Z.testbit mask 6)); cbn [apply_writes foldl fst snd].
        -- rewrite Hw. destruct (Z.eqb_spec 7 (i + 1)), (Z.eqb_spec i 6); try lia; done.
        -- by rewrite !andb_false_r.
      * cbn [andb apply_writes foldl]. by rewrite andb_false_r.
  - cbn [apply_writes foldl fst snd]. rewrite Hb, Ht.
    destruct (Z.eqb_spec j i) as [->|Hne]; [by rewrite Hbit|].
    destruct (Z.eqb_spec j 7) as [->|]; [rewrite Hbit|]; by rewrite ?andb_false_r.
Qed.

Lemma channel_writes_timing n mask b270 b367 dd p1 p2 single i j old :
  n = 5 \/ n = 12 -> 0 <= i < n -> 0 <= j < n ->
  apply_writes (channel_writes n mask b270 b367 dd p1 p2 single j) (timing_addr n i) old =
  if j =? i then timing_value single mask dd p1 p2 i else old.
Proof.
  intros Hn Hi Hj.
  assert (Ht : (timing_addr n i =? timing_addr n j) = (j =? i)).
  { unfold timing_addr. destruct (Z.eqb_spec j i) as [->|]; [apply Z.eqb_refl|].
    apply Z.eqb_neq. lia. }
  assert (Hb : forall x, 0 <= x <= 4 -> (timing_addr n i =? bias_addr n j - x) = false).
  { intros x Hx. unfold bias_addr, timing_addr. apply Z.eqb_neq.
    destruct Hn as [-> | ->]; simpl; lia. }
  pose proof (Hb 0 ltac:(lia)) as Hb0. rewrite Z.sub_0_r in Hb0.
  unfold channel_writes. destruct (Z.testbit mask j) eqn:Hbit.
  - rewrite !apply_writes_app. cbn [apply_writes foldl fst snd]. rewrite Hb0, Ht.
    destruct ((j =? 7) && negb (Z.testbit mask 6)); cbn [apply_writes foldl fst snd]; rewrite ?Hb by lia;
      by destruct (Z.eqb_spec j i) as [->|].
  - cbn [apply_writes foldl fst snd]. rewrite Hb0, Ht.
    destruct (Z.eqb_spec j i) as [->|]; [|done]. unfold timing_value. by rewrite Hbit.
Qed.

(** The whole channel loop, at the registers of channel [i]. *)
Lemma loop_writes n mask b270 b367 dd p1 p2 single i old :
  n = 5 \/ n = 12 -> 0 <= i < n ->
  apply_writes (seqZ 0 n ≫= channel_writes n mask b270 b367 dd p1 p2 single)
    (bias_addr n i) old = bias_value mask b270 b367 i /\
  apply_writes (seqZ 0 n ≫= channel_writes n mask b270 b367 dd p1 p2 single)
    (timing_addr n i) old = timing_value single mask dd p1 p2 i.
Proof.
  intros Hn Hi.
  assert (Hcase : i = 0 \/ i = 1 \/ i = 2 \/ i = 3 \/ i = 4 \/ i = 5 \/ i = 6 \/ i = 7 \/
                  i = 8 \/ i = 9 \/ i = 10 \/ i = 11) by lia.
  assert (Hseq : seqZ 0 n = [0; 1; 2; 3; 4] /\ n = 5 \/
                 seqZ 0 n = [0; 1; 2; 3; 4; 5; 6; 7; 8; 9; 10; 11] /\ n = 12)
    by (destruct Hn as [-> | ->]; [left|right]; done).
  split.
  - destruct Hseq as [[-> ->] | [-> ->]]; cbn [mbind list_bind];
      rewrite !apply_writes_app, !channel_writes_bias by lia;
      repeat destruct Hcase as [-> | Hcase]; try lia; try subst i;
      cbn -[bias_value Z.testbit];
      unfold bias_value; cbn -[Z.testbit Z.add Z.div];
      repeat match goal with |- context [Z.testbit mask ?k] =>
        destruct (Z.testbit mask k) eqn:? end; try done.
  - destruct Hseq as [[-> ->] | [-> ->]]; cbn [mbind list_bind];
      rewrite !apply_writes_app, !channel_writes_timing by lia;
      repeat destruct Hcase as [-> | Hcase]; try lia; try subst i; reflexivity.
Qed.

(** [main] keeps the sockets and the tunnels balanced. *)
Record balanced {D : Type} (s s' : ssp_process D) : Prop := {
  bal_sock : (sock_open s' + sock_closed s = sock_open s + sock_closed s')%nat;
  bal_tunnel : tunnel_wait (tunnel_polls s) = Ok tt ->
    (tunnel_started s' + tunnel_stopped s = tunnel_started s + tunnel_stopped s')%nat;
  bal_polls : tunnel_polls s' = tunnel_polls s;
  bal_err : err s' = err s }.

Lemma session_balanced {D : Type} tx args p (s : ssp_process D) :
  balanced s (snd (session tx args p s)).
Proof.
  assert (Hc : forall s0 : ssp_process D,
    let s1 := snd ((say ("Connecting to " +:+ a_host args +:+ ":" +:+ str_Z (a_port args)) ;;;
      connect ;;; try_finally (on_board tx p) close) s0) in
    balanced s0 s1 /\ tunnel_started s1 = tunnel_started s0 /\
    tunnel_stopped s1 = tunnel_stopped s0).
  { intros s0. unfold bind, connect, say, modify, try_finally, close, on_board. simpl.
    destruct (connecting s0) as [u|e]; simpl; [|by split_and!; [split; simpl; first [done|lia]|..]].
    destruct (run tx p (board s0)) as [r w]. simpl.
    split_and!; [split; simpl; first [done|lia]|done..]. }
  unfold session. destruct (a_ssh_tunnel args) as [jump|]; [|apply Hc].
  destruct (decide (jump = "")); [apply Hc|].
  set (connected := bind _ _) in *. clearbody connected.
  unfold tunnel_enter, bind, lift, gets, try_finally.
  cbn [tunnel_polls]. destruct (tunnel_wait (tunnel_polls s)) as [u|e] eqn:Hw; cbn.
  - set (s0 := SspProcess _ _ _ _ _ _ _ _ _ _ _).
    specialize (Hc s0). cbn zeta in Hc.
    destruct (connected s0) as [r s1]. cbn in Hc |- *.
    destruct Hc as ([] & Hst & Hsp). unfold s0 in *. cbn in *.
    destruct (tunnel_exits s1); cbn; (split; cbn; [lia|intros _; lia|done|done]).
  - split; cbn; [lia| |done|done]. by rewrite Hw.
Qed.

Section sleeping.
Context {D : Type} (tx : Z -> Z -> list Z -> M D reply).

(** The time a trace spends in [time.sleep], in milliseconds. *)
Definition slept (l : list event) : Z :=
  foldr (fun e n => match e with EvSleep ms => ms + n | _ => n end) 0 l.

Lemma slept_app l1 l2 : slept (l1 ++ l2) = slept l1 + slept l2.
Proof using Type. induction l1 as [|[] l1 IH]; simpl; lia. Qed.

(** The program sleeps for at most [n] milliseconds, whatever the board answers. *)
Definition sleeps {A : Type} (p : ssp A) (n : Z) : Prop :=
  0 <= n /\ forall w, slept (trace (snd (run tx p w))) <= slept (trace w) + n.

Lemma sleeps_weaken {A : Type} (p : ssp A) n m : sleeps p n -> n <= m -> sleeps p m.
Proof using Type. intros [H0 H] Hn. split; [lia|]. intros w. specialize (H w). lia. Qed.

Lemma sleeps_bind {A B : Type} (p : ssp A) (f : A -> ssp B) n m :
  sleeps p n -> (forall a, sleeps (f a) m) -> 0 <= m -> sleeps (sbind p f) (n + m).
Proof using Type.
  intros [Hn Hp] Hf Hm. split; [lia|]. intros w. rewrite run_sbind. specialize (Hp w).
  destruct (run tx p w) as [[a|e] w1]; simpl in *; [|lia].
  destruct (Hf a) as [_ Hfa]. specialize (Hfa w1). lia.
Qed.

(** A program without pauses does not sleep. *)
Fixpoint pauseless {A : Type} (p : ssp A) : Prop :=
  match p with
  | SRet _ | SRaise _ => True
  | STx _ _ _ k => forall r, pauseless (k r)
  | SSleep _ _ => False
  | SPrint _ k => pauseless k
  end.

Lemma sleeps_pauseless {A : Type} (p : ssp A) : pauseless p -> sleeps p 0.
Proof using Type.
  intros Hp. split; [lia|]. revert Hp.
  induction p as [a|e|ad c ws k IH|ms k IH|l k IH]; intros H w; simpl in *; try lia; try done.
  - destruct (tx ad c ws (dev w)) as [[r|e] d]; simpl; [|lia].
    specialize (IH r (H r) (World d (trace w ++ [EvTx ad c ws r]))).
    simpl in IH. rewrite slept_app in IH. simpl in IH. lia.
  - specialize (IH H (World (dev w) (trace w ++ [EvPrint l]))).
    simpl in IH. rewrite slept_app in IH. simpl in IH. lia.
Qed.

Lemma sleeps_sleep ms : 0 <= ms -> sleeps (sleep_ms ms) ms.
Proof using Type. split; [done|]. intros w. simpl. rewrite slept_app. simpl. lia. Qed.

Lemma sleeps_read a : sleeps (ssp_read a) 0.
Proof using Type. apply sleeps_pauseless. intros r. simpl. repeat split_match; simpl; auto. Qed.

Lemma sleeps_write a v b label : sleeps (write_and_log a v b label) 0.
Proof using Type.
  apply sleeps_pauseless. unfold write_and_log, ssp_write, ssp_read, transaction.
  cbn [sbind]. intros r. repeat (split_match; cbn; auto; intros).
Qed.

Lemma sleeps_print l : sleeps (print l) 0.
Proof using Type. by apply sleeps_pauseless. Qed.

Lemma sleeps_ret {A : Type} (a : A) : sleeps (SRet a) 0.
Proof using Type. by apply sleeps_pauseless. Qed.

Lemma sleeps_raise {A : Type} e : sleeps (@SRaise A e) 0.
Proof using Type. by apply sleeps_pauseless. Qed.

End sleeping.

(** Bounds follow the structure of the program; the bound is left to be found. *)
Ltac sleeps_auto :=
  lazymatch goal with
  | |- sleeps _ (sbind _ _) _ => eapply sleeps_bind; [sleeps_auto | intros ?; sleeps_auto | try lia]
  | |- sleeps _ (write_and_log _ _ _ _) _ => apply sleeps_write
  | |- sleeps _ (ssp_read _) _ => apply sleeps_read
  | |- sleeps _ (print _) _ => apply sleeps_print
  | |- sleeps _ (sleep_ms _) _ => apply sleeps_sleep; lia
  | |- sleeps _ (SRet _) _ => apply sleeps_ret
  | |- sleeps _ (SRaise _) _ => apply sleeps_raise
  | |- _ => eauto
  end.

Lemma sleeps_attempts {D : Type} (tx : Z -> Z -> list Z -> M D reply) p t todo attempt st :
  sleeps tx (sync_attempts p t todo attempt st) (5000 * Z.of_nat todo).
Proof.
  revert attempt st. induction todo as [|todo IH]; intros attempt st; [apply sleeps_raise|].
  assert (Hend : forall st, sleeps tx (if pdts_settled st then SRet tt
      else sync_attempts p t todo (attempt + 1) st) (5000 * Z.of_nat todo)).
  { intros st'. destruct (pdts_settled st'); [|apply IH].
    eapply sleeps_weaken; [apply sleeps_ret|lia]. }
  cbn [sync_attempts]. eapply sleeps_weaken; [sleeps_auto; try apply Hend; lia | lia].
Qed.

Lemma sleeps_wait {D : Type} (tx : Z -> Z -> list Z -> M D reply) todo st :
  sleeps tx (sync_wait todo st) (2000 * Z.of_nat todo).
Proof.
  revert st. induction todo as [|todo IH]; intros st; [apply sleeps_raise|].
  assert (Hend : forall st, sleeps tx (if Z.land st 0xF =? 0x8
      then print ("PDTS running: status=" +:+ hex32 st)
      else print ("Waiting for PDTS running state, current status=" +:+ hex32 st) ;~
           sleep_ms 2000 ;~ sync_wait todo st) (2000 + 2000 * Z.of_nat todo)).
  { intros st'. destruct (_ =? _); (eapply sleeps_weaken; [sleeps_auto|lia]). }
  cbn [sync_wait]. eapply sleeps_weaken; [sleeps_auto|lia].
Qed.


(** Inverting a run that ended normally. *)
Lemma run_sbind_inv {D A B : Type} (tx : Z -> Z -> list Z -> M D reply) (p : ssp A)
    (f : A -> ssp B) w b w' :
  run tx (sbind p f) w = (Ok b, w') ->
  exists a w1, run tx p w = (Ok a, w1) /\ run tx (f a) w1 = (Ok b, w').
Proof. rewrite run_sbind. destruct (run tx p w) as [[a|e] w1]; [eauto|done]. Qed.

Lemma ssp_read_trace {D : Type} (tx : Z -> Z -> list Z -> M D reply) a w v w' :
  run tx (ssp_read a) w = (Ok v, w') ->
  exists r rest, payload r = v :: rest /\ rx_addr r = a /\ rx_status r = 0 /\
    trace w' = trace w ++ [EvTx a CMD_READ [] r].
Proof.
  unfold ssp_read, transaction. cbn [sbind run].
  destruct (tx a CMD_READ [] (dev w)) as [[r|e] d]; [|done].
  destruct (Z.eqb_spec (rx_addr r) a) as [Ha|]; cbn [negb]; [|done].
  destruct (Z.eqb_spec (rx_status r) 0) as [Hs|]; cbn [negb]; [|done].
  destruct (payload r) as [|v' rest] eqn:Hp; [done|]. cbn [run]. intros H. simplify_eq/=.
  eauto 10.
Qed.

(** The program only reads registers. *)
Definition is_write (e : event) : bool :=
  match e with EvTx _ c _ _ => negb (c =? CMD_READ) | _ => false end.

Lemma dump_registers_reads {D : Type} (tx : Z -> Z -> list Z -> M D reply) l heading w :
  exists evs, trace (snd (run tx (dump_registers l heading) w)) = trace w ++ evs /\
    forallb (fun e => negb (is_write e)) evs = true.
Proof.
  unfold dump_registers. rewrite run_sbind. cbn [run print].
  cut (forall w0, exists evs, trace (snd (run tx (sfor l (fun '(address, label) =>
    value <~ ssp_read address ;;
    print ("  " +:+ hex32 address +:+ "  " +:+ hex32 value +:+ "  " +:+ label))) w0)) =
      trace w0 ++ evs /\ forallb (fun e => negb (is_write e)) evs = true).
  { intros H. destruct (H (World (dev w) (trace w ++ [EvPrint heading]))) as (evs & -> & He).
    exists ([EvPrint heading] ++ evs). split; [by rewrite app_assoc|done]. }
  induction l as [|[a label] l IH]; intros w0; [exists []; by rewrite app_nil_r|].
  cbn [sfor]. rewrite run_sbind. unfold ssp_read at 1, transaction. cbn [sbind run].
  destruct (tx a CMD_READ [] (dev w0)) as [[r|e] d];
    [|exists []; by rewrite app_nil_r].
  destruct (negb (rx_addr r =? a)); [by exists [EvTx a CMD_READ [] r]|].
  destruct (negb (rx_status r =? 0)); [by exists [EvTx a CMD_READ [] r]|].
  destruct (payload r) as [|v rest]; [by exists [EvTx a CMD_READ [] r]|].
  cbn [sbind run print]. destruct (IH (World d ((trace w0 ++ [EvTx a CMD_READ [] r]) ++
    [EvPrint ("  " +:+ hex32 a +:+ "  " +:+ hex32 v +:+ "  " +:+ label)]))) as (evs & Ht & He).
  eexists ([_; _] ++ evs). split; [etransitivity; [exact Ht|]|].
  - cbn [trace]. by rewrite <- !app_assoc.
  - exact He.
Qed.


Lemma channel_writes_addrs n mask b270 b367 dd p1 p2 single a :
  n = 5 \/ n = 12 ->
  a ∈ fst <$> (seqZ 0 n ≫= channel_writes n mask b270 b367 dd p1 p2 single) ->
  a ∈ led_registers n.
Proof.
  intros Hn Ha. apply list_elem_of_fmap in Ha as (w & -> & Hw).
  apply list_elem_of_bind in Hw as (i & Hw & Hi). apply elem_of_seqZ in Hi.
  assert (Hb : bias_addr n i ∈ led_registers n) by (apply bias_addr_in; lia).
  assert (Ht : timing_addr n i ∈ led_registers n) by (apply timing_addr_in; lia).
  assert (H6 : i = 7 -> bias_addr n i - 4 ∈ led_registers n).
  { intros ->. replace (bias_addr n 7 - 4) with (bias_addr n 6) by (unfold bias_addr; lia).
    apply bias_addr_in. lia. }
  unfold channel_writes in Hw. destruct (Z.testbit mask i).
  - destruct (Z.eqb_spec i 7) as [Hi7|]; cbn [andb] in Hw;
      [destruct (negb (Z.testbit mask 6))|]; cbn [app] in Hw;
      repeat (apply elem_of_cons in Hw as [->|Hw]; [cbn [fst]; auto|]);
      by apply not_elem_of_nil in Hw.
  - repeat (apply elem_of_cons in Hw as [->|Hw]; [cbn [fst]; auto|]).
    by apply not_elem_of_nil in Hw.
Qed.

(** A register the channel loop does not own is what the earlier assignments made it. *)
Lemma run_writes_outside cfg n mask bc b270 b367 dd p1 p2 a old :
  n = 5 \/ n = 12 -> a ∉ led_registers n ->
  apply_writes (run_writes cfg n mask bc b270 b367 dd p1 p2) a old =
  apply_writes (pdts_writes ++ [(CAL_COUNT, if is_single cfg then 1 else bc)]) a
    (match module_id cfg with Some m => if a =? MODULE_ID then m else old | None => old end).
Proof.
  intros Hn Ha. unfold run_writes. rewrite !app_assoc, apply_writes_app, apply_writes_frame.
  - rewrite <- app_assoc, apply_writes_app. f_equal. by destruct (module_id cfg).
  - intros Hin. by apply channel_writes_addrs in Hin.
Qed.

Lemma run_writes_led cfg n mask bc b270 b367 dd p1 p2 i old :
  n = 5 \/ n = 12 -> 0 <= i < n ->
  apply_writes (run_writes cfg n mask bc b270 b367 dd p1 p2) (bias_addr n i) old =
    bias_value mask b270 b367 i /\
  apply_writes (run_writes cfg n mask bc b270 b367 dd p1 p2) (timing_addr n i) old =
    timing_value (is_single cfg) mask dd p1 p2 i.
Proof.
  intros Hn Hi. unfold run_writes. rewrite !app_assoc, !apply_writes_app.
  split; by apply loop_writes.
Qed.

Lemma led_registers_fixed n a : n = 5 \/ n = 12 -> a ∈ led_registers n -> a ∉ fixed_registers.
Proof.
  intros Hn Ha. apply (proj1 (Forall_forall (fun b => b ∉ fixed_registers) (led_registers n)));
    [|exact Ha].
  destruct Hn as [-> | ->]; reg_mem.
Qed.

Lemma pdts_writes_fixed v a : a ∈ fst <$> (pdts_writes ++ [(CAL_COUNT, v)]) -> a ∈ fixed_registers.
Proof.
  intros Ha. apply (proj1 (Forall_forall (fun b => b ∈ fixed_registers)
    (fst <$> (pdts_writes ++ [(CAL_COUNT, v)])))); [|exact Ha]. reg_mem.
Qed.

Lemma pdts_delay_written v j old :
  0 <= j < 16 ->
  apply_writes (pdts_writes ++ [(CAL_COUNT, v)]) (PDTS_CMD_DELAY_0 + j * 4) old = 0x30036.
Proof.
  intros Hj.
  assert (Hc : j ∈ seqZ 0 16) by (apply elem_of_seqZ; lia).
  change (seqZ 0 16) with [0; 1; 2; 3; 4; 5; 6; 7; 8; 9; 10; 11; 12; 13; 14; 15] in Hc.
  repeat (apply elem_of_cons in Hc as [->|Hc]; [reflexivity|]). by apply not_elem_of_nil in Hc.
Qed.

(** What [configure_registers] and [stop_run] do last. *)
Definition applied_last (l : list event) : Prop :=
  exists before r line, l = before ++ [EvTx BIAS_CONTROL CMD_WRITE [1] r; EvPrint line].

Lemma apply_bias_last {D : Type} (tx : Z -> Z -> list Z -> M D reply) label w w' :
  run tx (write_and_log BIAS_CONTROL 1 false label) w = (Ok tt, w') -> applied_last (trace w').
Proof.
  unfold write_and_log, ssp_write, transaction. cbn [sbind run].
  destruct (tx BIAS_CONTROL CMD_WRITE [1] (dev w)) as [[r|e] d]; [|done].
  destruct (negb (rx_addr r =? BIAS_CONTROL)); [done|].
  destruct (negb (rx_status r =? 0)); [done|]. cbn [sbind run negb orb andb print].
  intros H. simplify_eq/=. eexists (trace w), r, _. by rewrite <- app_assoc.
Qed.

Lemma configure_applies_last {D : Type} (tx : Z -> Z -> list Z -> M D reply) cfg w w' :
  run tx (configure_registers cfg) w = (Ok tt, w') -> applied_last (trace w').
Proof.
  unfold configure_registers. intros H. do 8 apply run_sbind_inv in H as (? & ? & _ & H).
  revert H. generalize (configure_channel cfg). intros body H.
  match type of H with context [led_bases ?n] => destruct (led_bases n) end.
  apply run_sbind_inv in H as (? & ? & _ & H). by eapply apply_bias_last.
Qed.

Lemma sync_wait_running {D : Type} (tx : Z -> Z -> list Z -> M D reply) todo st0 w w' :
  run tx (sync_wait todo st0) w = (Ok tt, w') ->
  exists before reply st rest line,
    trace w' = before ++ [EvTx PDTS_STATUS CMD_READ [] reply; EvPrint line] /\
    payload reply = st :: rest /\ Z.land st 0xF = 8.
Proof.
  revert st0 w. induction todo as [|todo IH]; intros st0 w H; [done|].
  cbn [sync_wait] in H. apply run_sbind_inv in H as (st & w1 & Hread & H).
  destruct (Z.eqb_spec (Z.land st 0xF) 0x8) as [H8|].
  - apply ssp_read_trace in Hread as (r & rest & Hp & _ & _ & Ht).
    cbn [print run] in H. simplify_eq/=. rewrite Ht.
    eexists (trace w), r, st, rest, _. split; [|done]. by rewrite <- app_assoc.
  - do 2 apply run_sbind_inv in H as (? & ? & _ & H). by eapply IH.
Qed.

Definition ssp_commands : list string :=
  ["run"; "stop"; "pdts-sync-report"; "inspect"; "master-logic-reset-report"].

(** The resources are given back and the exit status agrees with what was reported. *)
Definition reported {D : Type} (s : ssp_process D) (r : result Z) (s' : ssp_process D) : Prop :=
  (sock_open s' + sock_closed s = sock_open s + sock_closed s')%nat /\
  (tunnel_wait (tunnel_polls s) = Ok tt ->
   tunnel_started s' + tunnel_stopped s = tunnel_started s + tunnel_stopped s')%nat /\
  ((r = Ok 0 /\ err s' = err s) \/
   (r = Ok 1 /\ exists e, err s' = err s ++ ["ERROR: " +:+ exn_text e])).

Lemma session_command {D : Type} tx args p line (s : ssp_process D) :
  let '(r, s') := (session tx args p ;;; z <- (say line ;;; ret 0) ;; ret (Some z)) s in
  balanced s s' /\ (r = Ok (Some 0) \/ exists e, r = Raise e).
Proof.
  unfold bind. pose proof (session_balanced tx args p s) as Hb.
  destruct (session tx args p s) as [[u|e] s1]; cbn in *; [|eauto].
  split; [destruct Hb; by split|auto].
Qed.

Lemma guarded_reported {D : Type} (s : ssp_process D) (m : M (ssp_process D) (option Z)) e0 :
  (let '(r, s') := m s in balanced s s' /\ (r = Ok (Some 0) \/ exists e, r = Raise e)) ->
  let '(r, s') := (r <- try_except m (fun e => complain ("ERROR: " +:+ exn_text e) ;;;
    ret (Some 1)) ;; match r with Some z => ret z | None => raise e0 end) s in
  reported s r s'.
Proof.
  unfold bind, try_except, reported. destruct (m s) as [r s1].
  intros [[] [-> | [e ->]]]; cbn; split_and!; try done; [by left|].
  right. split; [done|]. exists e. by rewrite bal_err0.
Qed.

(** A session leaves the board alone or runs its program once. *)
Lemma session_board {D : Type} tx args p (s : ssp_process D) :
  let w' := board (snd (session tx args p s)) in
  w' = board s \/ w' = snd (run tx p (board s)).
Proof.
  assert (Hc : forall s0 : ssp_process D, board s0 = board s ->
    let w' := board (snd ((say ("Connecting to " +:+ a_host args +:+ ":" +:+
      str_Z (a_port args)) ;;; connect ;;; try_finally (on_board tx p) close) s0)) in
    w' = board s \/ w' = snd (run tx p (board s))).
  { intros s0 Hs0. unfold bind, connect, say, modify, try_finally, close, on_board. simpl.
    destruct (connecting s0); simpl; [|by left]. rewrite Hs0.
    destruct (run tx p (board s)) as [r w]. by right. }
  unfold session. destruct (a_ssh_tunnel args) as [jump|]; [|by apply Hc].
  destruct (decide (jump = "")); [by apply Hc|].
  set (connected := bind _ _) in *. clearbody connected.
  unfold tunnel_enter, bind, lift, gets, try_finally.
  cbn [tunnel_polls]. destruct (tunnel_wait (tunnel_polls s)); cbn; [|by left].
  set (s0 := SspProcess _ _ _ _ _ _ _ _ _ _ _). specialize (Hc s0 eq_refl). cbn zeta in Hc.
  destruct (connected s0) as [r s1]. unfold tunnel_exit. by destruct (tunnel_exits s1).
Qed.

Lemma main_inspect_board {D : Type} tx args (s : ssp_process D) :
  a_command args = "inspect" ->
  board (snd (main tx args s)) =
  board (snd (session tx args (dump_registers INSPECT_REGISTERS "SSP inspect dump:") s)).
Proof.
  intros Hc. unfold main. cbv zeta. rewrite !Hc.
  do 3 (rewrite decide_False by done). rewrite decide_True by done.
  unfold try_except, bind. by destruct (session tx args _ s) as [[u|e] s1].
Qed.

(** ** Properties *)

(** [validate_config] accepts a configuration exactly when the channel count is 5 or 12,
    the mode is single or burst and every field of the pulse is present and in its range
    (partition and timing address included when the synchronisation is requested). *)
Theorem validate_config_correct cfg :
  validate_config cfg = Ok tt <->
  exists n mask bc dd p1 p2 b270 b367, valid_run cfg n mask bc dd p1 p2 b270 b367.
Proof.
  unfold validate_config. split.
  - intros H. apply rbind_ok in H as ([] & Hn & H).
    destruct (decide _) as [Hnc|] in Hn; [|done]. clear Hn.
    apply rbind_ok in H as (? & (mask & Hm & Hmr)%check_range_ok & H).
    apply rbind_ok in H as ([] & Hp & H).
    destruct (decide _) as [Hmode|] in Hp; [|done]. clear Hp.
    apply rbind_ok in H as (? & (bc & Hbc & Hbcr)%check_range_ok & H).
    apply rbind_ok in H as (? & (dd & Hdd & Hddr)%check_range_ok & H).
    apply rbind_ok in H as (? & (p1 & Hp1 & Hp1r)%check_range_ok & H).
    apply rbind_ok in H as (? & (p2 & Hp2 & Hp2r)%check_range_ok & H).
    apply rbind_ok in H as (? & (b2 & Hb2 & Hb2r)%check_range_ok & H).
    apply rbind_ok in H as (? & (b3 & Hb3 & Hb3r)%check_range_ok & H).
    exists (default 0 (number_channels cfg)), mask, bc, dd, p1, p2, b2, b3.
    split; try done.
    + destruct Hnc as [-> | ->]; done.
    + destruct Hnc as [-> | ->]; simpl; auto.
    + intros Hs. rewrite Hs in H. destruct (partition_number cfg) as [p|]; [|done].
      destruct (timing_address cfg) as [t|]; [|done].
      apply rbind_ok in H as (? & (p' & [= <-] & Hpr)%check_range_ok & H).
      apply check_range_ok in H as (t' & [= <-] & Htr). eauto 10.
  - intros (n & mask & bc & dd & p1 & p2 & b2 & b3 & []).
    destruct vr_ranges0 as (Hm & Hbc & Hdd & Hp1 & Hp2 & Hb2 & Hb3).
    rewrite decide_True by (destruct vr_n0 as [-> | ->]; auto). cbn [rbind].
    rewrite (proj2 (check_range_ok _ _ _ tt)) by eauto. cbn [rbind].
    rewrite decide_True by done. cbn [rbind].
    do 6 (rewrite (proj2 (check_range_ok _ _ _ tt)) by eauto; cbn [rbind]).
    destruct (pdts_sync cfg); [|done].
    destruct (vr_sync0 eq_refl) as (p & t & -> & -> & Hp & Ht).
    rewrite (proj2 (check_range_ok _ _ _ tt)) by eauto. cbn [rbind].
    by rewrite (proj2 (check_range_ok _ _ _ tt)) by eauto.
Qed.

(** C2. [configure_run] on a board that keeps its configuration registers: once the
    synchronisation (when requested) has succeeded, a valid configuration is programmed
    without an error; every bias and timing register of the chosen layout holds the encoding
    of its channel, the pulse counter, the module id and the timing block hold theirs, the LED
    registers outside the layout keep their value, and the bias is applied after all that. *)
Theorem configure_run_registers {D : Type} (step : D -> Z -> Z -> list Z -> D * reply)
    (reg : D -> Z -> Z) (HB : LatchedBoard step reg)
    cfg n mask bc dd p1 p2 b270 b367 w w1 :
  valid_run cfg n mask bc dd p1 p2 b270 b367 ->
  (forall m, module_id cfg = Some m -> is_u32 m = true) ->
  run (device step) (configure_sync cfg) w = (Ok tt, w1) ->
  exists w', run (device step) (configure_run cfg) w = (Ok tt, w') /\
    (forall i, 0 <= i < n ->
       reg (dev w') (bias_addr n i) = bias_value mask b270 b367 i /\
       reg (dev w') (timing_addr n i) = timing_value (is_single cfg) mask dd p1 p2 i) /\
    (forall a, a ∈ led_registers 12 -> a ∉ led_registers n ->
       reg (dev w') a = reg (dev w1) a) /\
    reg (dev w') CAL_COUNT = (if is_single cfg then 1 else bc) /\
    reg (dev w') MODULE_ID = default (reg (dev w1) MODULE_ID) (module_id cfg) /\
    reg (dev w') PDTS_CMD_CONTROL_1 = 0x2E7 /\ reg (dev w') PDTS_CMD_CONTROL_2 = 0x80000000 /\
    reg (dev w') DP_CLOCK_CONTROL = 0x11 /\
    (forall j, 0 <= j < 16 -> reg (dev w') (PDTS_CMD_DELAY_0 + j * 4) = 0x30036) /\
    applied_last (trace w').
Proof.
  intros Hv Hmod Hsync. pose proof (vr_n _ _ _ _ _ _ _ _ _ Hv) as Hn.
  destruct (programs_configure cfg n mask bc dd p1 p2 b270 b367 Hv Hmod w1) as (w' & Hrun & Hreg).
  exists w'. split; [unfold configure_run; by rewrite (run_sbind_ok _ _ _ _ _ _ Hsync)|].
  assert (Hfix : forall a, a ∈ fixed_registers -> reg (dev w') a =
      apply_writes (pdts_writes ++ [(CAL_COUNT, if is_single cfg then 1 else bc)]) a
        (match module_id cfg with Some m => if a =? MODULE_ID then m else reg (dev w1) a
                                | None => reg (dev w1) a end)).
  { intros a Ha. rewrite Hreg by (by apply fixed_registers_config).
    apply run_writes_outside; [done|]. intros Hin.
    exact (led_registers_fixed n a Hn Hin Ha). }
  split_and!.
  - intros i Hi. rewrite !Hreg by (apply (led_registers_config n); [done|];
      first [by apply bias_addr_in | by apply timing_addr_in]).
    split; by eapply run_writes_led.
  - intros a Ha Hout. rewrite Hreg by (apply (led_registers_config 12); auto).
    rewrite run_writes_outside by done.
    assert (Hnf : a ∉ fixed_registers) by (intros Hf; apply (led_registers_fixed 12 a); auto).
    rewrite apply_writes_frame.
    + destruct (module_id cfg); [|done]. destruct (Z.eqb_spec a MODULE_ID) as [->|]; [|done].
      exfalso. apply Hnf. reg_mem.
    + intros Hf. apply Hnf. revert Hf. apply pdts_writes_fixed.
  - rewrite Hfix by reg_mem. reflexivity.
  - rewrite Hfix by reg_mem. by destruct (module_id cfg).
  - rewrite Hfix by reg_mem. reflexivity.
  - rewrite Hfix by reg_mem. reflexivity.
  - rewrite Hfix by reg_mem. reflexivity.
  - intros j Hj. rewrite Hfix by (apply elem_of_app; right;
      apply (list_elem_of_fmap_2 (fun i => PDTS_CMD_DELAY_0 + i * 4)), elem_of_seqZ; lia).
    by apply pdts_delay_written.
  - by eapply configure_applies_last.
Qed.

Definition example_config : LEDRunConfig := {|
  number_channels := Some 12; channel_mask := Some 0x81; pulse_mode := "burst";
  burst_count := Some 100; double_pulse_delay_ticks := Some 20;
  pulse1_width_ticks := Some 5; pulse2_width_ticks := Some 7;
  pulse_bias_percent_270nm := Some 4000; pulse_bias_percent_367nm := Some 3001;
  module_id := Some 3; partition_number := None; timing_address := None; pdts_sync := false |}.

Lemma configure_run_registers_witness :
  exists w', run (device regfile_step) (configure_run example_config) (World ∅ []) = (Ok tt, w') /\
    (forall i, 0 <= i < 12 ->
       regfile_reg (dev w') (bias_addr 12 i) = bias_value 0x81 4000 3001 i /\
       regfile_reg (dev w') (timing_addr 12 i) = timing_value false 0x81 20 5 7 i) /\
    (forall a, a ∈ led_registers 12 -> a ∉ led_registers 12 ->
       regfile_reg (dev w') a = regfile_reg ∅ a) /\
    regfile_reg (dev w') CAL_COUNT = 100 /\
    regfile_reg (dev w') MODULE_ID = 3 /\
    regfile_reg (dev w') PDTS_CMD_CONTROL_1 = 0x2E7 /\
    regfile_reg (dev w') PDTS_CMD_CONTROL_2 = 0x80000000 /\
    regfile_reg (dev w') DP_CLOCK_CONTROL = 0x11 /\
    (forall j, 0 <= j < 16 -> regfile_reg (dev w') (PDTS_CMD_DELAY_0 + j * 4) = 0x30036) /\
    applied_last (trace w').
Proof.
  apply (configure_run_registers regfile_step regfile_reg regfile_latched example_config
    12 0x81 100 20 5 7 4000 3001 (World ∅ []) (World ∅ [])).
  - split; try reflexivity; [by right|by right|lia|done].
  - intros m [= <-]. reflexivity.
  - reflexivity.
Defined.

(** [stop_run] switches off every LED of both layouts: whatever was programmed, all the
    bias and timing registers of the 12-channel and of the 5-channel layout hold zero. *)
Theorem stop_run_clears {D : Type} (step : D -> Z -> Z -> list Z -> D * reply)
    (reg : D -> Z -> Z) (HB : LatchedBoard step reg) w :
  exists w', run (device step) stop_run w = (Ok tt, w') /\
    (forall a, a ∈ led_registers 12 \/ a ∈ led_registers 5 -> reg (dev w') a = 0) /\
    (forall a, a ∈ fixed_registers -> reg (dev w') a = reg (dev w) a).
Proof.
  destruct (programs_stop w) as (w' & Hrun & Hreg). exists w'. split; [done|]. split.
  - intros a Ha. assert (Ha12 : a ∈ led_registers 12).
    { destruct Ha as [Ha|Ha]; [done|].
      apply (proj1 (Forall_forall (fun b => b ∈ led_registers 12) (led_registers 5))); [|done].
      reg_mem. }
    rewrite Hreg by (apply (led_registers_config 12); auto).
    apply (proj1 (Forall_forall (fun b => forall old, apply_writes (seqZ 0 12 ≫= fun i =>
      [(bias_addr 12 i, 0); (timing_addr 12 i, 0)]) b old = 0) (led_registers 12)));
      [|done].
    repeat (apply Forall_cons; split; [reflexivity|]). by apply Forall_nil_2.
  - intros a Ha. rewrite Hreg by (by apply fixed_registers_config).
    apply apply_writes_frame. intros Hin. apply (led_registers_fixed 12 a); [auto| |done].
    revert Hin. apply (proj1 (Forall_forall (fun b => b ∈ led_registers 12)
      (fst <$> (seqZ 0 12 ≫= fun i => [(bias_addr 12 i, 0); (timing_addr 12 i, 0)])))).
    reg_mem.
Qed.

Lemma stop_run_clears_witness :
  exists w', run (device regfile_step) stop_run (World {[0x40000340 := 5]} []) = (Ok tt, w') /\
    (forall a, a ∈ led_registers 12 \/ a ∈ led_registers 5 -> regfile_reg (dev w') a = 0) /\
    (forall a, a ∈ fixed_registers -> regfile_reg (dev w') a = regfile_reg {[0x40000340 := 5]} a).
Proof.
  exact (stop_run_clears regfile_step regfile_reg regfile_latched (World {[0x40000340 := 5]} [])).
Defined.

(** The register values of an enabled channel decode back to the configuration: 32-bit
    words whose fields are the pulse widths, the delay and the mode, and the enable bit and
    the 12-bit bias setting. *)
Theorem led_register_fields single mask b270 b367 dd p1 p2 i :
  0 <= dd <= 4095 -> 0 <= p1 <= 255 -> 0 <= p2 <= 255 ->
  0 <= b270 <= 4095 -> 0 <= b367 <= 4095 -> Z.testbit mask i = true ->
  let t := timing_value single mask dd p1 p2 i in
  let b := bias_value mask b270 b367 i in
  is_u32 t = true /\ Z.land t 0xFF = p1 /\ Z.land (Z.shiftr t 8) 0xFF = p2 /\
  Z.land (Z.shiftr t 16) 0xFFF = dd /\ Z.shiftr t 28 = (if single then 0xF else 0x9) /\
  is_u32 b = true /\ Z.shiftr b 18 = 1 /\
  Z.land b 0x3FFFF = (if i <? 6 then b270 else Z.shiftr b367 1).
Proof.
  intros Hd H1 H2 H27 H36 Hbit t b.
  pose proof (timing_value_bounds single mask dd p1 p2 i Hd H1 H2) as Ht.
  pose proof (bias_value_bounds mask b270 b367 i H27 H36) as Hb.
  assert (Hte : t = (if single then 0xF else 0x9) * 2 ^ 28 + dd * 2 ^ 16 + p2 * 2 ^ 8 + p1)
    by (unfold t, timing_value; by rewrite Hbit).
  assert (Hbe : b = 2 ^ 18 + (if i <? 6 then b270 else b367 / 2))
    by (unfold b, bias_value; by rewrite Hbit).
  assert (Hh : 0 <= b367 / 2 <= 2048)
    by (split; [apply Z.div_pos | apply Z.div_le_upper_bound]; lia).
  change 0xFF with (Z.ones 8). change 0xFFF with (Z.ones 12). change 0x3FFFF with (Z.ones 18).
  rewrite !Z.land_ones, !Z.shiftr_div_pow2 by lia.
  split_and!; [by apply is_u32_range| | | | |apply is_u32_range; unfold b; lia| |].
  - rewrite Hte. symmetry. apply (Z.mod_unique_pos _ _
      ((if single then 15 else 9) * 2 ^ 20 + dd * 2 ^ 8 + p2)); destruct single; lia.
  - rewrite Hte. symmetry. apply (Z.mod_unique_pos _ _ ((if single then 15 else 9) * 2 ^ 12 + dd * 2 ^ 0)); [lia|].
    symmetry. apply (Z.div_unique_pos _ _ _ p1); destruct single; lia.
  - rewrite Hte. symmetry. apply (Z.mod_unique_pos _ _ (if single then 15 else 9)); [lia|].
    symmetry. apply (Z.div_unique_pos _ _ _ (p2 * 2 ^ 8 + p1)); destruct single; lia.
  - rewrite Hte. symmetry.
    apply (Z.div_unique_pos _ _ _ (dd * 2 ^ 16 + p2 * 2 ^ 8 + p1)); destruct single; lia.
  - rewrite Hbe. symmetry.
    apply (Z.div_unique_pos _ _ _ (if i <? 6 then b270 else b367 / 2)); destruct (i <? 6); lia.
  - rewrite Hbe. symmetry. change (2 ^ 1) with 2.
    apply (Z.mod_unique_pos _ _ 1); destruct (i <? 6); lia.
Qed.

Lemma led_register_fields_witness :
  let t := timing_value false 0x81 20 5 7 7 in
  let b := bias_value 0x81 4000 3001 7 in
  is_u32 t = true /\ Z.land t 0xFF = 5 /\ Z.land (Z.shiftr t 8) 0xFF = 7 /\
  Z.land (Z.shiftr t 16) 0xFFF = 20 /\ Z.shiftr t 28 = 0x9 /\
  is_u32 b = true /\ Z.shiftr b 18 = 1 /\ Z.land b 0x3FFFF = Z.shiftr 3001 1.
Proof. apply (led_register_fields false 0x81 4000 3001 20 5 7 7); try lia. reflexivity. Defined.

(** [sync_pdts] against any board: it never sleeps for more than 31 s (five reset
    attempts and three polls), and it returns only when the last status it read has the
    running state 8 in its low nibble. *)
Theorem sync_pdts_settles {D : Type} (tx : Z -> Z -> list Z -> M D reply) p t w :
  let '(r, w') := run tx (sync_pdts p t) w in
  slept (trace w') <= slept (trace w) + 31000 /\
  (r = Ok tt -> exists before reply st rest line,
     trace w' = before ++ [EvTx PDTS_STATUS CMD_READ [] reply; EvPrint line] /\
     payload reply = st :: rest /\ Z.land st 0xF = 8).
Proof.
  assert (Hs : sleeps tx (sync_pdts p t) 31000).
  { unfold sync_pdts. cbv zeta.
    assert (Hc : forall c : bool, forall l1 l2 a1 a2 a3 a4, sleeps tx
      (if c then print l1 else print l2 ;~ sync_attempts a1 a2 5 a3 a4) 25000).
    { intros c l1 l2 a1 a2 a3 a4. pose proof (sleeps_attempts tx a1 a2 5 a3 a4) as Ha.
      destruct c; (eapply sleeps_weaken; [sleeps_auto|lia]). }
    pose proof (sleeps_wait tx 3 0) as Hw. eapply sleeps_weaken; [sleeps_auto|lia]. }
  destruct Hs as [_ Hs]. specialize (Hs w).
  destruct (run tx (sync_pdts p t) w) as [r w'] eqn:Hrun. split; [done|].
  intros ->. unfold sync_pdts in Hrun.
  do 5 apply run_sbind_inv in Hrun as (? & ? & _ & Hrun). by eapply sync_wait_running.
Qed.

(** [main], whatever the board, the network and the tunnel do: for a command of the
    parser every socket opened is closed, a tunnel that came up is taken down, and the exit
    status is 0 without an error line or 1 with exactly one [ERROR:] line; any other command
    is a usage error and touches nothing. *)
Theorem main_outcome {D : Type} (tx : Z -> Z -> list Z -> M D reply) args (s : ssp_process D) :
  let '(r, s') := main tx args s in
  (a_command args ∈ ssp_commands -> reported s r s') /\
  (a_command args ∉ ssp_commands ->
     r = Raise (Exn SystemExit ("unknown command " +:+ a_command args)) /\ s' = s).
Proof.
  assert (Hknown : forall m : M (ssp_process D) Z,
    a_command args ∈ ssp_commands -> (let '(r, s') := m s in reported s r s') ->
    let '(r, s') := m s in (a_command args ∈ ssp_commands -> reported s r s') /\
      (a_command args ∉ ssp_commands ->
       r = Raise (Exn SystemExit ("unknown command " +:+ a_command args)) /\ s' = s)).
  { intros m Hin. destruct (m s) as [r s']. tauto. }
  unfold main. cbv zeta.
  destruct (decide (a_command args = "run")) as [E|E1].
  { apply Hknown; [rewrite E; reg_mem|]. apply guarded_reported. unfold lift, bind at 1 2.
    destruct (merge_config args) as [cfg|e]; [|split; [by split|eauto]].
    destruct (validate_config cfg) as [u|e]; [apply session_command|split; [by split|eauto]]. }
  do 4 (destruct (decide (a_command args = _)) as [E|?] in |- *;
    [apply Hknown; [rewrite E; reg_mem|apply guarded_reported, session_command]|]).
  cbn. split; [|done]. intros Hin. exfalso. unfold ssp_commands in Hin.
  repeat (apply elem_of_cons in Hin as [?|Hin]; [done|]). by apply not_elem_of_nil in Hin.
Qed.

Definition stop_args : ssp_args := {|
  a_command := "stop"; a_host := "ssp"; a_port := 55001; a_ssh_tunnel := Some "gw";
  a_remote_host := "10.0.0.1"; a_remote_port := None; a_config := None;
  a_number_channels := None; a_channel_mask := None; a_pulse_mode := None;
  a_burst_count := None; a_double_pulse_delay_ticks := None; a_pulse_width_ticks := None;
  a_pulse1_width_ticks := None; a_pulse2_width_ticks := None; a_bias_270nm := None;
  a_bias_367nm := None; a_module_id := None; a_partition_number := None;
  a_timing_address := None; a_pdts_sync := false |}.

Lemma main_outcome_witness :
  let args := stop_args in
  let s := SspProcess [None; None] Terminates (Ok tt) (World (∅ : gmap Z Z) []) 0 0 0 0 0 [] [] in
  reported s (Ok 0) (snd (main (device regfile_step) args s)).
Proof.
  intros args s. pose proof (main_outcome (device regfile_step) args s) as H.
  assert (Hr : fst (main (device regfile_step) args s) = Ok 0) by (vm_compute; reflexivity).
  destruct (main (device regfile_step) args s) as [r s']. cbn [fst snd] in *. subst r.
  apply H. reg_mem.
Defined.

(** The command [inspect], whatever the board answers, only reads registers: no
    transaction it makes is a write. *)
Theorem inspect_only_reads {D : Type} (tx : Z -> Z -> list Z -> M D reply) args
    (s : ssp_process D) :
  a_command args = "inspect" ->
  exists evs, trace (board (snd (main tx args s))) = trace (board s) ++ evs /\
    forallb (fun e => negb (is_write e)) evs = true.
Proof.
  intros Hc. rewrite main_inspect_board by done.
  destruct (session_board tx args (dump_registers INSPECT_REGISTERS "SSP inspect dump:") s)
    as [-> | ->]; [exists []; by rewrite app_nil_r|apply dump_registers_reads].
Qed.

Definition inspect_args : ssp_args := {|
  a_command := "inspect"; a_host := "ssp"; a_port := 55001; a_ssh_tunnel := None;
  a_remote_host := "10.0.0.1"; a_remote_port := None; a_config := None;
  a_number_channels := None; a_channel_mask := None; a_pulse_mode := None;
  a_burst_count := None; a_double_pulse_delay_ticks := None; a_pulse_width_ticks := None;
  a_pulse1_width_ticks := None; a_pulse2_width_ticks := None; a_bias_270nm := None;
  a_bias_367nm := None; a_module_id := None; a_partition_number := None;
  a_timing_address := None; a_pdts_sync := false |}.

Lemma inspect_only_reads_witness :
  let s := SspProcess [] Terminates (Ok tt) (World (∅ : gmap Z Z) []) 0 0 0 0 0 [] [] in
  let s' := snd (main (device regfile_step) inspect_args s) in
  trace (board s') <> [] /\
  exists evs, trace (board s') = [] ++ evs /\ forallb (fun e => negb (is_write e)) evs = true.
Proof.
  intros s s'. split; [by vm_compute|].
  exact (inspect_only_reads (device regfile_step) inspect_args s eq_refl).
Defined.
