(* ===== verification/GpioBoard.v ===== *)
(** The reclaimed PS SPI pins used as GPIO: [client/ps_mio_spi_gpio_board.py].

    The script works on files of the kernel's sysfs and configfs, which are not in the
    repository: a [kernel] gives the file operations, and [SysfsGpio] states what the
    documentation of those interfaces promises about the observable GPIO state. *)
From S2P Require Import Prelude PyStr PyFloat.

(** A [pathlib.Path], by its components. *)
Abbreviation path := (list string).

Definition newline : string := String (char 10) "".

(** ** Constants *)

Definition GPIO_SYSFS : path := ["sys"; "class"; "gpio"].
Definition OVERLAY_ROOT : path := ["sys"; "kernel"; "config"; "device-tree"; "overlays"].
Definition OVERLAY_NAME : string := "daphne_psspi_test".
Definition DT_BASE : path := ["sys"; "firmware"; "devicetree"; "base"].
Definition TMP_DTS : path := ["tmp"; "daphne_psspi_disable.dtso"].
Definition TMP_DTBO : path := ["tmp"; "daphne_psspi_disable.dtbo"].

(** A dictionary literal, in insertion order. *)
Abbreviation dict V := (list (string * V)).

Definition MEZZ_PINS : dict (dict Z) :=
  [("MEZ0", [("CS", 38); ("SCLK", 39); ("SDO", 40); ("SDI", 50)]);
   ("MEZ1", [("CS", 41); ("SCLK", 42); ("SDO", 43); ("SDI", 61)]);
   ("MEZ2", [("CS", 62); ("SCLK", 63); ("SDO", 73); ("SDI", 74)]);
   ("MEZ3", [("CS", 69); ("SCLK", 68); ("SDO", 67); ("SDI", 57)]);
   ("MEZ4", [("CS", 65); ("SCLK", 64); ("SDO", 46); ("SDI", 45)])].

Definition OUTPUT_ROLES : list string := ["CS"; "SCLK"; "SDO"].
Definition INPUT_ROLES : list string := ["SDI"].

Definition CONFLICT_NODES : list string :=
  ["/axi/ethernet@ff0c0000"; "/axi/usb@ff9d0000"; "/axi/usb@ff9d0000/usb@fe200000";
   "/axi/usb@ff9e0000"; "/axi/usb@ff9e0000/usb@fe300000"].

Definition EBUSY : Z := 16.
Definition EINVAL : Z := 22.

(** [d[k]] *)
Definition dict_get {V : Type} (d : dict V) (k : string) : result V :=
  match find (fun kv => bool_decide (fst kv = k)) d with
  | Some (_, v) => Ok v
  | None => Raise (Exn KeyError k)
  end.

(** [selected_mezzes]: all of them when no name was given. *)
Definition selected_mezzes (names : list string) : list string :=
  match names with [] => fst <$> MEZZ_PINS | _ => names end.

(** [overlay_source] *)
Definition overlay_fragment (index : Z) (node_path : string) : list string :=
  let q := String (char 34) "" in
  ["    fragment@" +:+ str_Z index +:+ " {";
   "        target-path = " +:+ q +:+ node_path +:+ q +:+ ";";
   "        __overlay__ {";
   "            status = " +:+ q +:+ "disabled" +:+ q +:+ ";";
   "        };";
   "    };";
   ""].

Definition overlay_source : string :=
  join newline (["/dts-v1/;"; "/plugin/;"; ""; "/ {"] ++
    mjoin (imap (fun i p => overlay_fragment (Z.of_nat i) p) CONFLICT_NODES) ++ ["};"; ""]).

Definition overlay_dir : path := OVERLAY_ROOT ++ [OVERLAY_NAME].

Definition gpio_path (line : Z) : path := GPIO_SYSFS ++ ["gpio" +:+ str_Z line].

(** ** The operating system *)

Record kernel (W : Type) : Type := Kernel {
  k_euid : W -> Z;
  k_exists : path -> W -> bool;
  k_write_text : path -> string -> M W unit;
  k_read_text : path -> M W string;
  k_read_bytes : path -> M W string;
  k_write_bytes : path -> string -> M W unit;
  k_mkdir : path -> M W unit;
  k_rmdir : path -> M W unit;
  k_run : list string -> M W unit;
  k_sleep : float -> M W unit;
  k_print : string -> M W unit }.
Arguments k_euid {W}.
Arguments k_exists {W}.
Arguments k_write_text {W}.
Arguments k_read_text {W}.
Arguments k_read_bytes {W}.
Arguments k_write_bytes {W}.
Arguments k_mkdir {W}.
Arguments k_rmdir {W}.
Arguments k_run {W}.
Arguments k_sleep {W}.
Arguments k_print {W}.

(** [str(path)] of an absolute path. *)
Definition path_str (p : path) : string := "/" +:+ join "/" p.

Definition errno_of (e : exn) : option Z :=
  match exn_class e with OSError n => Some n | _ => None end.

(** The options of the subcommands. *)
Record gpio_args : Type := {
  g_command : string;
  g_mezz : list string;
  pulse_role : list string;
  pulse_count : Z;
  pulse_delay_ms : float;
  keep_lines : bool;
  keep_overlay : bool }.

Section board.
Context {W : Type} (K : kernel W).

Definition ensure_root : M W unit :=
  e <- gets (k_euid K) ;;
  if e =? 0 then ret tt else raise (Exn SystemExit "run this script under sudo/root").

Definition overlay_active : M W bool := gets (k_exists K overlay_dir).

Definition compile_overlay : M W unit :=
  k_write_text K TMP_DTS overlay_source ;;;
  k_run K ["dtc"; "-@"; "-I"; "dts"; "-O"; "dtb"; "-o"; path_str TMP_DTBO; path_str TMP_DTS].

(** The clean-up of a failed write: an [OSError] of [rmdir] is dropped. *)
Definition try_rmdir : M W unit :=
  try_except (k_rmdir K overlay_dir)
    (fun e => match errno_of e with Some _ => ret tt | None => raise e end).

Definition apply_overlay : M W unit :=
  active <- overlay_active ;;
  if active : bool then ret tt
  else
    compile_overlay ;;;
    k_mkdir K overlay_dir ;;;
    try_except
      (data <- k_read_bytes K TMP_DTBO ;;
       k_write_bytes K (overlay_dir ++ ["dtbo"]) data)
      (fun e => try_rmdir ;;; raise e).

Definition remove_overlay : M W unit :=
  active <- overlay_active ;;
  if active : bool then k_rmdir K overlay_dir else ret tt.

Definition export_gpio (line : Z) : M W unit :=
  try_except (k_write_text K (GPIO_SYSFS ++ ["export"]) (str_Z line +:+ newline))
    (fun e => match errno_of e with
              | Some n => if n =? EBUSY then ret tt else raise e
              | None => raise e
              end).

Definition unexport_gpio (line : Z) : M W unit :=
  exported <- gets (k_exists K (gpio_path line)) ;;
  if exported : bool then
    try_except (k_write_text K (GPIO_SYSFS ++ ["unexport"]) (str_Z line +:+ newline))
      (fun e => match errno_of e with
                | Some n => if n =? EINVAL then ret tt else raise e
                | None => raise e
                end)
  else ret tt.

Definition set_direction (line : Z) (direction : string) : M W unit :=
  k_write_text K (gpio_path line ++ ["direction"]) (direction +:+ newline).

Definition set_value (line value : Z) : M W unit :=
  k_write_text K (gpio_path line ++ ["value"]) (str_Z value +:+ newline).

Definition read_value (line : Z) : M W string :=
  t <- k_read_text K (gpio_path line ++ ["value"]) ;; ret (strip t).

Definition read_direction (line : Z) : M W string :=
  t <- k_read_text K (gpio_path line ++ ["direction"]) ;; ret (strip t).

Definition claim_mezz (mezz : string) : M W unit :=
  pins <- lift (dict_get MEZZ_PINS mezz) ;;
  for_each OUTPUT_ROLES (fun role =>
    line <- lift (dict_get pins role) ;;
    export_gpio line ;;;
    set_direction line "out" ;;;
    set_value line 0) ;;;
  for_each INPUT_ROLES (fun role =>
    line <- lift (dict_get pins role) ;;
    export_gpio line ;;;
    set_direction line "in").

Definition release_mezz (mezz : string) : M W unit :=
  pins <- lift (dict_get MEZZ_PINS mezz) ;;
  for_each (snd <$> pins) unexport_gpio.

Definition pulse_line (line count : Z) (delay_s : float) : M W unit :=
  set_value line 0 ;;;
  for_each (seqZ 0 count) (fun _ =>
    set_value line 1 ;;;
    k_sleep K delay_s ;;;
    set_value line 0 ;;;
    k_sleep K delay_s).

Definition read_dt_string (node_path prop : string) : M W string :=
  let p := DT_BASE ++ filter (fun c => c <> "") (split_on "/" node_path) ++ [prop] in
  there <- gets (k_exists K p) ;;
  if there : bool then
    raw <- k_read_bytes K p ;;
    ret (match split_once zero raw with Some (before, _) => before | None => raw end)
  else ret "<missing>".

Definition pad_left (w : nat) (s : string) : string :=
  foldr (fun _ t => String " " t) s (seq 0 (w - String.length s)).

Definition print_status (mezzes : list string) : M W unit :=
  active <- overlay_active ;;
  k_print K ("overlay_active=" +:+ (if active : bool then "True" else "False")) ;;;
  for_each CONFLICT_NODES (fun node_path =>
    st <- read_dt_string node_path "status" ;;
    k_print K (node_path +:+ ": status=" +:+ st)) ;;;
  for_each mezzes (fun mezz =>
    k_print K ("[" +:+ mezz +:+ "]") ;;;
    pins <- lift (dict_get MEZZ_PINS mezz) ;;
    for_each pins (fun '(role, line) =>
      there <- gets (k_exists K (gpio_path line)) ;;
      state <- (if there : bool then
                  try_except
                    (direction <- read_direction line ;;
                     value <- read_value line ;;
                     ret ("exported direction=" +:+ direction +:+ " value=" +:+ value))
                    (fun e => match errno_of e with
                              | Some n => ret ("exported unreadable errno=" +:+ str_Z n
                                               +:+ " (" +:+ exn_text e +:+ ")")
                              | None => raise e
                              end)
                else ret "not-exported") ;;
      k_print K ("  " +:+ pad_left 4 role +:+ " gpio" +:+ str_Z line +:+ ": " +:+ state))).

Definition do_apply_overlay (args : gpio_args) : M W Z :=
  apply_overlay ;;;
  print_status (fst <$> MEZZ_PINS) ;;;
  ret 0.

Definition do_remove_overlay (args : gpio_args) : M W Z :=
  for_each (selected_mezzes (g_mezz args)) release_mezz ;;;
  remove_overlay ;;;
  print_status (selected_mezzes (g_mezz args)) ;;;
  ret 0.

Definition do_status (args : gpio_args) : M W Z :=
  print_status (selected_mezzes (g_mezz args)) ;;;
  ret 0.

Definition do_smoketest (args : gpio_args) : M W Z :=
  let mezzes := selected_mezzes (g_mezz args) in
  apply_overlay ;;;
  for_each mezzes claim_mezz ;;;
  for_each mezzes (fun mezz =>
    pins <- lift (dict_get MEZZ_PINS mezz) ;;
    for_each (pulse_role args) (fun role =>
      line <- lift (dict_get pins role) ;;
      delay_s <- lift (f_div (pulse_delay_ms args) (f_of_Z 1000)) ;;
      pulse_line line (pulse_count args) delay_s)) ;;;
  print_status mezzes ;;;
  when (negb (keep_lines args)) (for_each mezzes release_mezz) ;;;
  when (negb (keep_overlay args)) remove_overlay ;;;
  ret 0.

(** [main]: the parser only accepts the four commands. *)
Definition main (args : gpio_args) : M W Z :=
  ensure_root ;;;
  if decide (g_command args = "apply-overlay") then do_apply_overlay args
  else if decide (g_command args = "remove-overlay") then do_remove_overlay args
  else if decide (g_command args = "status") then do_status args
  else if decide (g_command args = "smoketest") then do_smoketest args
  else raise (Exn SystemExit "2").

End board.

(** ** What sysfs and configfs promise *)

Record gline : Type := GLine { g_dir : string; g_val : Z }.

(** The observable state: the exported lines, whether the overlay directory exists, and the
    levels written to lines so far, oldest first. *)
Record gstate : Type := GState {
  lines : gmap Z gline; overlay : bool; levels : list (Z * Z) }.

Definition with_lines (f : gmap Z gline -> gmap Z gline) (g : gstate) : gstate :=
  GState (f (lines g)) (overlay g) (levels g).

Definition with_overlay (b : bool) (g : gstate) : gstate := GState (lines g) b (levels g).

Definition drive (n v : Z) (l : gline) (g : gstate) : gstate :=
  GState (<[n := GLine (g_dir l) v]> (lines g)) (overlay g) (levels g ++ [(n, v)]).

(** A write that fails changes nothing; one that succeeds does what its file documents. *)
Class SysfsGpio {W : Type} (K : kernel W) (obs : W -> gstate) : Prop := {
  sg_exported w n : k_exists K (gpio_path n) w = bool_decide (is_Some (lines (obs w) !! n));
  sg_overlay w : k_exists K overlay_dir w = overlay (obs w);
  sg_export w n :
    match k_write_text K (GPIO_SYSFS ++ ["export"]) (str_Z n +:+ newline) w with
    | (Ok _, w') => lines (obs w) !! n = None /\
                    exists l, obs w' = with_lines (<[n := l]>) (obs w)
    | (Raise e, w') => obs w' = obs w /\
                       (is_Some (lines (obs w) !! n) -> exn_class e = OSError EBUSY)
    end;
  sg_unexport w n :
    match k_write_text K (GPIO_SYSFS ++ ["unexport"]) (str_Z n +:+ newline) w with
    | (Ok _, w') => obs w' = with_lines (delete n) (obs w)
    | (Raise e, w') => obs w' = obs w /\
                       (exn_class e = OSError EINVAL -> lines (obs w) !! n = None)
    end;
  sg_out w n :
    match k_write_text K (gpio_path n ++ ["direction"]) ("out" +:+ newline) w with
    | (Ok _, w') => is_Some (lines (obs w) !! n) /\
                    obs w' = with_lines (<[n := GLine "out" 0]>) (obs w)
    | (Raise _, w') => obs w' = obs w
    end;
  sg_in w n :
    match k_write_text K (gpio_path n ++ ["direction"]) ("in" +:+ newline) w with
    | (Ok _, w') => exists l, lines (obs w) !! n = Some l /\
                    obs w' = with_lines (<[n := GLine "in" (g_val l)]>) (obs w)
    | (Raise _, w') => obs w' = obs w
    end;
  sg_value w n v :
    match k_write_text K (gpio_path n ++ ["value"]) (str_Z v +:+ newline) w with
    | (Ok _, w') => exists l, lines (obs w) !! n = Some l /\ obs w' = drive n v l (obs w)
    | (Raise _, w') => obs w' = obs w
    end;
  sg_mkdir w :
    match k_mkdir K overlay_dir w with
    | (Ok _, w') => obs w' = with_overlay true (obs w)
    | (Raise _, w') => obs w' = obs w
    end;
  sg_rmdir w :
    match k_rmdir K overlay_dir w with
    | (Ok _, w') => obs w' = with_overlay false (obs w)
    | (Raise _, w') => obs w' = obs w
    end;
  sg_dts w data : obs (snd (k_write_text K TMP_DTS data w)) = obs w;
  sg_dtbo w data : obs (snd (k_write_bytes K (overlay_dir ++ ["dtbo"]) data w)) = obs w;
  sg_read_text w p : obs (snd (k_read_text K p w)) = obs w;
  sg_read_bytes w p : obs (snd (k_read_bytes K p w)) = obs w;
  sg_run w cmd : obs (snd (k_run K cmd w)) = obs w;
  sg_sleep w d : obs (snd (k_sleep K d w)) = obs w;
  sg_print w s : obs (snd (k_print K s w)) = obs w }.

(** ** Lemmas *)

(** A computation that leaves the GPIO state alone, whatever its outcome. *)
Section laws.
Context {W : Type} {K : kernel W} {obs : W -> gstate} {HK : SysfsGpio K obs}.

Definition quiet {A : Type} (m : M W A) : Prop := forall w, obs (snd (m w)) = obs w.

Lemma quiet_ret {A : Type} (a : A) : quiet (ret a).
Proof using Type. by intros w. Qed.

Lemma quiet_raise {A : Type} e : quiet (@raise W A e).
Proof using Type. by intros w. Qed.

Lemma quiet_gets {A : Type} (f : W -> A) : quiet (gets f).
Proof using Type. by intros w. Qed.

Lemma quiet_lift {A : Type} (r : result A) : quiet (lift r).
Proof using Type. by intros w. Qed.

Lemma quiet_bind {A B : Type} (m : M W A) (k : A -> M W B) :
  quiet m -> (forall a, quiet (k a)) -> quiet (bind m k).
Proof using Type.
  intros Hm Hk w. specialize (Hm w). unfold bind.
  destruct (m w) as [[a|e] w']; simpl in *; [|done]. by rewrite Hk.
Qed.

Lemma quiet_try {A : Type} (m : M W A) h :
  quiet m -> (forall e, quiet (h e)) -> quiet (try_except m h).
Proof using Type.
  intros Hm Hh w. specialize (Hm w). unfold try_except.
  destruct (m w) as [[a|e] w']; simpl in *; [done|]. by rewrite Hh.
Qed.

Lemma quiet_for {A : Type} (l : list A) (f : A -> M W unit) :
  (forall a, quiet (f a)) -> quiet (for_each l f).
Proof using Type.
  intros Hf. induction l as [|a l IH]; [apply quiet_ret|]. by apply quiet_bind.
Qed.

Lemma quiet_print s : quiet (k_print K s).
Proof using HK. intros w. apply sg_print. Qed.

Lemma quiet_read_text p : quiet (k_read_text K p).
Proof using HK. intros w. apply sg_read_text. Qed.

Lemma quiet_read_bytes p : quiet (k_read_bytes K p).
Proof using HK. intros w. apply sg_read_bytes. Qed.

Lemma quiet_match {A : Type} (b : bool) (m1 m2 : M W A) : quiet m1 -> quiet m2 -> quiet (if b then m1 else m2).
Proof using Type. by destruct b. Qed.

Hint Resolve quiet_ret quiet_raise quiet_gets quiet_lift quiet_print quiet_read_text
  quiet_read_bytes quiet_bind quiet_try quiet_for quiet_match : py.

Lemma quiet_errno {A : Type} (e : exn) (f : Z -> M W A) (m : M W A) :
  (forall n, quiet (f n)) -> quiet m ->
  quiet (match errno_of e with Some n => f n | None => m end).
Proof using Type. intros. by destruct (errno_of e). Qed.

Hint Resolve quiet_errno : py.

Lemma print_status_quiet mezzes : quiet (print_status K mezzes).
Proof using HK.
  unfold print_status, overlay_active, read_dt_string, read_direction, read_value.
  apply quiet_bind; [eauto with py|]. intros active.
  apply quiet_bind; [eauto with py|]. intros _.
  apply quiet_bind; [eauto 12 with py|]. intros _.
  apply quiet_for. intros mezz. apply quiet_bind; [eauto with py|]. intros _.
  apply quiet_bind; [eauto with py|]. intros pins. apply quiet_for. intros [role line].
  eauto 20 with py.
Qed.

Lemma compile_overlay_quiet : quiet (compile_overlay K).
Proof using HK. apply quiet_bind; [intros w; apply sg_dts|intros _ w; apply sg_run]. Qed.

Lemma try_rmdir_spec e w :
  exists e' w', (try_rmdir K ;;; @raise W unit e) w = (Raise e', w') /\
    (obs w' = obs w \/ obs w' = with_overlay false (obs w)).
Proof using HK.
  unfold try_rmdir, try_except, bind, raise. pose proof (sg_rmdir w) as Hx.
  destruct (k_rmdir K overlay_dir w) as [[u|e'] w']; [by eauto 6|].
  destruct (errno_of e'); simpl; eauto 6.
Qed.

(** [apply_overlay] only ever touches the overlay, and returns with it active. *)
Lemma apply_overlay_spec w :
  match apply_overlay K w with
  | (Ok _, w') => obs w' = with_overlay true (obs w)
  | (Raise _, w') => obs w' = obs w \/ obs w' = with_overlay true (obs w) \/
                     obs w' = with_overlay false (obs w)
  end.
Proof using HK.
  unfold apply_overlay, overlay_active. unfold bind at 1, gets. rewrite sg_overlay.
  destruct (overlay (obs w)) eqn:Ho; [simpl; destruct (obs w); simpl in *; by subst|].
  pose proof (compile_overlay_quiet w) as Hc. unfold bind at 1.
  destruct (compile_overlay K w) as [[u|e] w1]; simpl in Hc; [|by left].
  pose proof (sg_mkdir w1) as Hm. unfold bind at 1.
  destruct (k_mkdir K overlay_dir w1) as [[u1|e] w2]; [|left; congruence].
  unfold try_except, bind at 1. pose proof (sg_read_bytes w2 TMP_DTBO) as Hr.
  destruct (k_read_bytes K TMP_DTBO w2) as [[data|e] w3]; simpl in Hr.
  - pose proof (sg_dtbo w3 data) as Hd.
    destruct (k_write_bytes K _ data w3) as [[u2|e] w4]; simpl in Hd; [congruence|].
    destruct (try_rmdir_spec e w4) as (e' & w5 & -> & [-> | ->]);
      rewrite Hd, Hr, Hm, Hc; auto.
  - destruct (try_rmdir_spec e w3) as (e' & w5 & -> & [-> | ->]);
      rewrite Hr, Hm, Hc; auto.
Qed.

Lemma remove_overlay_spec w u w' :
  remove_overlay K w = (Ok u, w') -> obs w' = with_overlay false (obs w).
Proof using HK.
  unfold remove_overlay, overlay_active, bind, gets. rewrite sg_overlay.
  destruct (overlay (obs w)) eqn:Ho.
  - intros H. pose proof (sg_rmdir w) as Hx. by rewrite H in Hx.
  - intros [= <- <-]. unfold with_overlay. rewrite <- Ho. by destruct (obs w).
Qed.

(** After [export_gpio] the line is exported, whether it already was or not. *)
Lemma export_gpio_spec n w :
  match export_gpio K n w with
  | (Ok _, w') => obs w' = obs w \/
                  lines (obs w) !! n = None /\ exists l, obs w' = with_lines (<[n := l]>) (obs w)
  | (Raise _, w') => obs w' = obs w
  end.
Proof using HK.
  unfold export_gpio, try_except. pose proof (sg_export w n) as H.
  destruct (k_write_text K _ _ w) as [[u|e] w']; [by right|].
  destruct H as [H _]. destruct (errno_of e) as [k|]; [destruct (k =? EBUSY)|]; simpl; auto.
Qed.

Lemma unexport_gpio_spec n w u w' :
  unexport_gpio K n w = (Ok u, w') -> obs w' = with_lines (delete n) (obs w).
Proof using HK.
  assert (Hgone : lines (obs w) !! n = None -> obs w = with_lines (delete n) (obs w)).
  { intros Hn. unfold with_lines. rewrite delete_id by done. by destruct (obs w). }
  unfold unexport_gpio, bind, gets. rewrite sg_exported.
  destruct (bool_decide _) eqn:Hx.
  - unfold try_except. pose proof (sg_unexport w n) as H.
    destruct (k_write_text K _ _ w) as [[u1|e] w1]; [by intros [= <- <-]|].
    destruct H as [H He]. unfold errno_of. destruct (exn_class e) eqn:Hc; try done.
    destruct (Z.eqb_spec errno EINVAL) as [->|]; [|done]. intros [= <- <-].
    rewrite H. apply Hgone. by apply He.
  - intros [= <- <-]. apply Hgone. apply bool_decide_eq_false in Hx.
    by apply eq_None_not_Some.
Qed.

(** One output line claimed: exported, an output, driven low. *)
Definition claim_out (n : Z) (g : gstate) : gstate :=
  GState (<[n := GLine "out" 0]> (lines g)) (overlay g) (levels g ++ [(n, 0)]).

Lemma claim_out_spec n w u w' :
  (export_gpio K n ;;; set_direction K n "out" ;;; set_value K n 0) w = (Ok u, w') ->
  obs w' = claim_out n (obs w).
Proof using HK.
  intros H. inv_bind H. inv_bind H.
  pose proof (export_gpio_spec n w) as He. rewrite Hrun in He.
  pose proof (sg_out w0 n) as Hd. unfold set_direction in Hrun0. rewrite Hrun0 in Hd.
  pose proof (sg_value w1 n 0) as Hv. unfold set_value in H. rewrite H in Hv.
  destruct Hd as [_ Hd], Hv as (l & Hl & Hv). rewrite Hd in Hl, Hv.
  simpl in Hl. rewrite lookup_insert_eq in Hl. injection Hl as <-.
  rewrite Hv. unfold drive, claim_out, with_lines. simpl. rewrite insert_insert_eq.
  destruct He as [-> | (Hn & l & ->)]; simpl; [done|]. by rewrite insert_insert_eq.
Qed.

Lemma claim_in_spec n w u w' :
  (export_gpio K n ;;; set_direction K n "in") w = (Ok u, w') ->
  exists v, obs w' = with_lines (<[n := GLine "in" v]>) (obs w).
Proof using HK.
  intros H. inv_bind H.
  pose proof (export_gpio_spec n w) as He. rewrite Hrun in He.
  pose proof (sg_in w0 n) as Hd. unfold set_direction in H. rewrite H in Hd.
  destruct Hd as (l & Hl & Hd). exists (g_val l). rewrite Hd. unfold with_lines.
  destruct He as [-> | (Hn & l0 & ->)]; simpl; [done|]. by rewrite insert_insert_eq.
Qed.

(** The GPIO state after a mezzanine has been claimed. *)
Definition claimed (pins : dict Z) (v : Z) (g : gstate) : gstate :=
  let pin role := match dict_get pins role with Ok n => n | Raise _ => 0 end in
  with_lines (<[pin "SDI" := GLine "in" v]>)
    (claim_out (pin "SDO") (claim_out (pin "SCLK") (claim_out (pin "CS") g))).

Lemma lift_bind_ok {A B : Type} (r : result A) (k : A -> M W B) w b w' :
  bind (lift r) k w = (Ok b, w') -> exists a, r = Ok a /\ k a w = (Ok b, w').
Proof using Type. unfold bind, lift. destruct r; [eauto|done]. Qed.

Lemma claim_mezz_spec mezz w u w' :
  claim_mezz K mezz w = (Ok u, w') ->
  exists pins v, dict_get MEZZ_PINS mezz = Ok pins /\ obs w' = claimed pins v (obs w).
Proof using HK.
  unfold claim_mezz. intros H. apply lift_bind_ok in H as (pins & Hpins & H).
  exists pins. unfold claimed. inv_bind H. cbn [for_each OUTPUT_ROLES INPUT_ROLES] in Hrun, H.
  inv_bind Hrun. apply lift_bind_ok in Hrun0 as (cs & -> & H1%claim_out_spec).
  inv_bind Hrun. apply lift_bind_ok in Hrun0 as (sclk & -> & H2%claim_out_spec).
  inv_bind Hrun. apply lift_bind_ok in Hrun0 as (sdo & -> & H3%claim_out_spec).
  inv_bind H. apply lift_bind_ok in Hrun0 as (sdi & -> & (v & H4)%claim_in_spec).
  exists v. split; [done|]. unfold ret in *. simplify_eq/=. congruence.
Qed.

(** Lines outside [S] and the overlay are as they were. *)
Definition touches (S : list Z) (g g' : gstate) : Prop :=
  overlay g' = overlay g /\ forall n, n ∉ S -> lines g' !! n = lines g !! n.

Lemma touches_refl S g : touches S g g.
Proof using Type. done. Qed.

Lemma touches_trans S g1 g2 g3 : touches S g1 g2 -> touches S g2 g3 -> touches S g1 g3.
Proof using Type.
  intros [Ho1 H1] [Ho2 H2]. split; [congruence|]. intros n Hn. by rewrite H2, H1.
Qed.

Lemma touches_insert S n l g v : n ∈ S -> touches S g (GState (<[n := l]> (lines g)) (overlay g) v).
Proof using Type.
  intros Hn. split; [done|]. intros m Hm. simpl. apply lookup_insert_ne. by intros ->.
Qed.

(** Whatever its outcome, the computation only touches the lines of [S]. *)
Definition within {A : Type} (S : list Z) (m : M W A) : Prop :=
  forall w, touches S (obs w) (obs (snd (m w))).

Lemma within_quiet {A : Type} S (m : M W A) : quiet m -> within S m.
Proof using Type. intros H w. rewrite H. apply touches_refl. Qed.

Lemma within_bind {A B : Type} S (m : M W A) (k : A -> M W B) :
  within S m -> (forall a, within S (k a)) -> within S (bind m k).
Proof using Type.
  intros Hm Hk w. specialize (Hm w). unfold bind.
  destruct (m w) as [[a|e] w']; simpl in *; [|done]. eapply touches_trans; [done|apply Hk].
Qed.

Lemma within_for {A : Type} S (l : list A) (f : A -> M W unit) :
  (forall a, a ∈ l -> within S (f a)) -> within S (for_each l f).
Proof using Type.
  induction l as [|a l IH]; intros Hf; [by apply within_quiet, quiet_ret|].
  apply within_bind; [apply Hf, list_elem_of_here|].
  intros _. apply IH. intros b Hb. by apply Hf, list_elem_of_further.
Qed.

(** A lookup that fails raises before anything is done. *)
Lemma within_lift {A B : Type} S (r : result A) (k : A -> M W B) :
  (forall a, r = Ok a -> within S (k a)) -> within S (bind (lift r) k).
Proof using Type.
  intros Hk w. unfold bind, lift. destruct r as [a|e]; [by apply Hk|apply touches_refl].
Qed.

Lemma within_export S n : n ∈ S -> within S (export_gpio K n).
Proof using HK.
  intros Hn w. pose proof (export_gpio_spec n w) as H.
  destruct (export_gpio K n w) as [[u|e] w']; simpl in *.
  - destruct H as [-> | (_ & l & ->)]; [apply touches_refl|by apply touches_insert].
  - rewrite H. apply touches_refl.
Qed.

Lemma within_value S n v : n ∈ S -> within S (set_value K n v).
Proof using HK.
  intros Hn w. unfold set_value. pose proof (sg_value w n v) as H.
  destruct (k_write_text K _ _ w) as [[u|e] w']; simpl in *.
  - destruct H as (l & _ & ->). by apply touches_insert.
  - rewrite H. apply touches_refl.
Qed.

Lemma within_out S n : n ∈ S -> within S (set_direction K n "out").
Proof using HK.
  intros Hn w. unfold set_direction. pose proof (sg_out w n) as H.
  destruct (k_write_text K _ _ w) as [[u|e] w']; simpl in *; [destruct H as [_ H]|];
    rewrite H; [by apply touches_insert|apply touches_refl].
Qed.

Lemma within_in S n : n ∈ S -> within S (set_direction K n "in").
Proof using HK.
  intros Hn w. unfold set_direction. pose proof (sg_in w n) as H.
  destruct (k_write_text K _ _ w) as [[u|e] w']; simpl in *; [destruct H as (l & _ & H)|];
    rewrite H; [by apply touches_insert|apply touches_refl].
Qed.

Lemma within_unexport S n : n ∈ S -> within S (unexport_gpio K n).
Proof using HK.
  intros Hn w. unfold unexport_gpio, bind, gets.
  destruct (k_exists K (gpio_path n) w); [|apply touches_refl].
  unfold try_except. pose proof (sg_unexport w n) as H.
  destruct (k_write_text K _ _ w) as [[u|e] w']; simpl in *.
  - rewrite H. split; [done|]. intros m Hm. simpl. apply lookup_delete_ne. by intros ->.
  - destruct H as [H _].
    destruct (errno_of e) as [k|]; [destruct (k =? EINVAL)|]; simpl; rewrite H; apply touches_refl.
Qed.

(** The lines of some mezzanines. *)
Definition pins_of (mezzes : list string) : list Z :=
  mezzes ≫= fun m => match dict_get MEZZ_PINS m with Ok pins => snd <$> pins | Raise _ => [] end.

Lemma dict_get_in {V : Type} (d : dict V) k v : dict_get d k = Ok v -> (k, v) ∈ d.
Proof using Type.
  unfold dict_get. destruct (find _ d) as [[k' v']|] eqn:Hf; [|done].
  intros [= ->]. apply find_some in Hf as [Hin Hk]. simpl in Hk.
  apply bool_decide_eq_true in Hk as ->. by apply list_elem_of_In.
Qed.

Lemma pins_of_in mezzes mezz pins role n :
  mezz ∈ mezzes -> dict_get MEZZ_PINS mezz = Ok pins -> dict_get pins role = Ok n ->
  n ∈ pins_of mezzes.
Proof using Type.
  intros Hm Hp Hr. apply list_elem_of_bind. exists mezz. split; [|done]. rewrite Hp.
  apply dict_get_in in Hr. apply (list_elem_of_fmap_2 snd) in Hr. exact Hr.
Qed.

Lemma within_claim mezzes mezz : mezz ∈ mezzes -> within (pins_of mezzes) (claim_mezz K mezz).
Proof using HK.
  intros Hm. unfold claim_mezz. apply within_lift. intros pins Hp.
  apply within_bind; [|intros _]; apply within_for; intros role Hr;
    apply within_lift; intros n Hn; pose proof (pins_of_in mezzes mezz pins role n Hm Hp Hn) as Hin.
  - apply within_bind; [by apply within_export|]. intros _.
    apply within_bind; [by apply within_out|]. intros _. by apply within_value.
  - apply within_bind; [by apply within_export|]. intros _. by apply within_in.
Qed.

Lemma within_release mezzes mezz : mezz ∈ mezzes -> within (pins_of mezzes) (release_mezz K mezz).
Proof using HK.
  intros Hm. unfold release_mezz. apply within_lift. intros pins Hp.
  apply within_for. intros n Hn. apply within_unexport. apply list_elem_of_bind.
  exists mezz. split; [|done]. by rewrite Hp.
Qed.

Lemma within_pulse S n count d : n ∈ S -> within S (pulse_line K n count d).
Proof using HK.
  intros Hn. assert (Hsl : within S (k_sleep K d)).
  { apply within_quiet. intros w. apply sg_sleep. }
  unfold pulse_line. apply within_bind; [by apply within_value|]. intros _.
  apply within_for. intros i _. repeat (apply within_bind; [by auto using within_value|intros _]).
  done.
Qed.

(** A pulsed line ends low, after exactly [count] high levels. *)
Lemma pulse_line_spec n count d w u w' :
  pulse_line K n count d w = (Ok u, w') ->
  levels (obs w') = levels (obs w) ++ [(n, 0)] ++
    mjoin (replicate (Z.to_nat count) [(n, 1); (n, 0)]) /\
  exists l, lines (obs w') !! n = Some l /\ g_val l = 0.
Proof using HK.
  assert (Hv : forall v w0 u0 w1, set_value K n v w0 = (Ok u0, w1) ->
    levels (obs w1) = levels (obs w0) ++ [(n, v)] /\
    exists l, lines (obs w1) !! n = Some l /\ g_val l = v).
  { intros v w0 u0 w1 H0. unfold set_value in H0. pose proof (sg_value w0 n v) as H.
    rewrite H0 in H. destruct H as (l & _ & ->). simpl. split; [done|].
    rewrite lookup_insert_eq. eauto. }
  assert (Hloop : forall l w0 u0 w1,
    (exists x, lines (obs w0) !! n = Some x /\ g_val x = 0) ->
    for_each l (fun _ : Z => set_value K n 1 ;;; k_sleep K d ;;; set_value K n 0 ;;;
      k_sleep K d) w0 = (Ok u0, w1) ->
    levels (obs w1) = levels (obs w0) ++ mjoin (replicate (length l) [(n, 1); (n, 0)]) /\
    exists x, lines (obs w1) !! n = Some x /\ g_val x = 0).
  { induction l as [|i l IH]; intros w0 u0 w1 Hlow H.
    - injection H as <- <-. simpl. by rewrite app_nil_r.
    - cbn [for_each] in H. inv_bind H. inv_bind Hrun. inv_bind Hrun. inv_bind Hrun.
      apply Hv in Hrun0 as [Hl1 _]. apply Hv in Hrun2 as [Hl2 Hx2].
      pose proof (sg_sleep w3 d) as Hs1. rewrite Hrun1 in Hs1.
      pose proof (sg_sleep w5 d) as Hs2. rewrite Hrun in Hs2. simpl in Hs1, Hs2.
      apply IH in H as [Hl Hx]; [|by rewrite Hs2]. split; [|done].
      rewrite Hl, Hs2, Hl2, Hs1, Hl1. simpl. by rewrite <- !app_assoc. }
  unfold pulse_line. intros H. inv_bind H. apply Hv in Hrun as [Hl0 Hx0].
  apply Hloop in H as [Hl Hx]; [|done]. split; [|done].
  rewrite Hl, Hl0, <- app_assoc. unfold seqZ. by rewrite length_fmap, length_seq.
Qed.

(** A released mezzanine has none of its lines exported, and only those changed. *)
Lemma release_mezz_spec mezz w u w' :
  release_mezz K mezz w = (Ok u, w') ->
  exists pins, dict_get MEZZ_PINS mezz = Ok pins /\
    obs w' = with_lines (fun m => foldl (fun m n => delete n m) m (snd <$> pins)) (obs w).
Proof using HK.
  unfold release_mezz. intros H. apply lift_bind_ok in H as (pins & Hp & H).
  exists pins. split; [done|]. clear Hp. revert w H. generalize (snd <$> pins). intros l.
  induction l as [|n l IH]; intros w H; cbn [for_each] in H.
  - injection H as <- <-. unfold with_lines. simpl. by destruct (obs w).
  - inv_bind H. apply unexport_gpio_spec in Hrun. apply IH in H. by rewrite H, Hrun.
Qed.

Lemma foldl_delete (l : list Z) (m : gmap Z gline) n :
  foldl (fun m n => delete n m) m l !! n = if bool_decide (n ∈ l) then None else m !! n.
Proof using Type.
  revert m. induction l as [|k l IH]; intros m; simpl; [done|]. rewrite IH.
  destruct (decide (n = k)) as [->|Hne].
  - rewrite (bool_decide_eq_true_2 (k ∈ k :: l)) by apply list_elem_of_here.
    case_bool_decide; [done|]. apply lookup_delete_eq.
  - rewrite lookup_delete_ne by done.
    assert (Heq : n ∈ l <-> n ∈ k :: l) by (rewrite elem_of_cons; tauto).
    by rewrite (bool_decide_ext _ _ Heq).
Qed.

(** Releasing several mezzanines leaves none of their lines exported. *)
Lemma release_all_spec mezzes w u w' :
  for_each mezzes (release_mezz K) w = (Ok u, w') ->
  forall n, n ∈ pins_of mezzes -> lines (obs w') !! n = None.
Proof using HK.
  revert w. induction mezzes as [|mezz mezzes IH]; intros w H n Hn; [by apply not_elem_of_nil in Hn|].
  cbn [for_each] in H. inv_bind H.
  apply release_mezz_spec in Hrun as (pins & Hp & Ho).
  destruct (decide (n ∈ pins_of mezzes)) as [Hin|Hout]; [by eapply IH|].
  pose proof (within_for (pins_of mezzes) mezzes (release_mezz K)
    (fun m Hm => within_release mezzes m Hm) w0) as [_ Hw].
  rewrite H in Hw. simpl in Hw. rewrite Hw by done. rewrite Ho. simpl. rewrite foldl_delete.
  rewrite bool_decide_eq_true_2; [done|].
  unfold pins_of in Hn. cbn [mbind list_bind] in Hn. rewrite Hp in Hn.
  apply elem_of_app in Hn as [Hn|Hn]; [done|]. by exfalso.
Qed.

End laws.

(** ** A kernel that keeps the promise *)

(** Lines some driver holds cannot be exported. *)
Record sim : Type := Sim { sim_g : gstate; sim_held : list Z; sim_out : list string }.

Definition sim_set (g : gstate) (s : sim) : sim := Sim g (sim_held s) (sim_out s).

Definition gpio_line (component : string) : option Z :=
  match strip_prefix "gpio" component with
  | Some t => match int10 t with Ok n => Some n | Raise _ => None end
  | None => None
  end.

Definition first_line (data : string) : string :=
  match split_once (char 10) data with Some (l, _) => l | None => data end.

Definition os_error {A : Type} (n : Z) : M sim A := raise (Exn (OSError n) "").

Definition sim_export (data : string) : M sim unit := fun s =>
  match int10 (first_line data) with
  | Raise _ => os_error EINVAL s
  | Ok n =>
      match lines (sim_g s) !! n with
      | Some _ => os_error EBUSY s
      | None => if bool_decide (n ∈ sim_held s) then os_error EBUSY s
                else (Ok tt, sim_set (with_lines (<[n := GLine "in" 0]>) (sim_g s)) s)
      end
  end.

Definition sim_unexport (data : string) : M sim unit := fun s =>
  match int10 (first_line data) with
  | Raise _ => os_error 22 s
  | Ok n => if bool_decide (is_Some (lines (sim_g s) !! n))
            then (Ok tt, sim_set (with_lines (delete n) (sim_g s)) s)
            else os_error EINVAL s
  end.

Definition sim_line_file (n : Z) (file data : string) : M sim unit := fun s =>
  match lines (sim_g s) !! n with
  | None => os_error 2 s
  | Some l =>
      if decide (file = "direction") then
        if decide (first_line data = "out")
        then (Ok tt, sim_set (with_lines (<[n := GLine "out" 0]>) (sim_g s)) s)
        else (Ok tt, sim_set (with_lines (<[n := GLine "in" (g_val l)]>) (sim_g s)) s)
      else if decide (file = "value") then
        match int10 (first_line data) with
        | Ok v => if decide (g_dir l = "out") then (Ok tt, sim_set (drive n v l (sim_g s)) s)
                  else os_error 1 s
        | Raise _ => os_error EINVAL s
        end
      else os_error 2 s
  end.

Definition sim_write (p : path) (data : string) : M sim unit :=
  if decide (p = GPIO_SYSFS ++ ["export"]) then sim_export data
  else if decide (p = GPIO_SYSFS ++ ["unexport"]) then sim_unexport data
  else match p with
       | [_; _; _; component; file] =>
           match gpio_line component with
           | Some n => sim_line_file n file data
           | None => ret tt
           end
       | _ => ret tt
       end.

Definition sim_exists (p : path) (s : sim) : bool :=
  if decide (p = overlay_dir) then overlay (sim_g s)
  else match p with
       | [_; _; _; component] =>
           match gpio_line component with
           | Some n => bool_decide (is_Some (lines (sim_g s) !! n))
           | None => false
           end
       | _ => false
       end.

Definition sim_kernel : kernel sim := {|
  k_euid _ := 0;
  k_exists := sim_exists;
  k_write_text := sim_write;
  k_read_text p := ret ("0" +:+ newline);
  k_read_bytes p := ret "dtb";
  k_write_bytes p data := ret tt;
  k_mkdir p := fun s => if decide (p = overlay_dir)
                        then (Ok tt, sim_set (with_overlay true (sim_g s)) s) else (Ok tt, s);
  k_rmdir p := fun s => if decide (p = overlay_dir)
                        then (Ok tt, sim_set (with_overlay false (sim_g s)) s) else (Ok tt, s);
  k_run cmd := ret tt;
  k_sleep d := ret tt;
  k_print l := modify (fun s => Sim (sim_g s) (sim_held s) (sim_out s ++ [l])) |}.

Lemma gpio_line_name n : gpio_line ("gpio" +:+ str_Z n) = Some n.
Proof.
  unfold gpio_line. change (strip_prefix "gpio" ("gpio" +:+ str_Z n)) with (Some (str_Z n)).
  cbv iota beta. by rewrite int10_str_Z_all.
Qed.

Lemma first_line_of s :
  str_all (fun c => negb (Ascii.eqb c (char 10))) s = true -> first_line (s +:+ newline) = s.
Proof. intros H. unfold first_line, newline. by rewrite split_once_app. Qed.

Lemma first_line_int n : int10 (first_line (str_Z n +:+ newline)) = Ok n.
Proof.
  rewrite first_line_of; [apply int10_str_Z_all|].
  eapply str_all_impl; [apply int_char_not_newline|apply str_Z_chars].
Qed.

Lemma sim_write_line n file data s :
  sim_write (gpio_path n ++ [file]) data s = sim_line_file n file data s.
Proof.
  unfold sim_write, gpio_path, GPIO_SYSFS. cbn [app].
  rewrite !decide_False by done. by rewrite gpio_line_name.
Qed.

#[export] Instance sim_sysfs : SysfsGpio sim_kernel sim_g.
Proof.
  split; cbn [sim_kernel k_exists k_write_text k_mkdir k_rmdir k_write_bytes k_read_text
    k_read_bytes k_run k_sleep k_print]; try done.
  - intros s n. unfold sim_exists, gpio_path, GPIO_SYSFS. cbn [app].
    rewrite decide_False by done. by rewrite gpio_line_name.
  - intros s n. unfold sim_write. rewrite decide_True by done.
    unfold sim_export. rewrite first_line_int.
    destruct (lines (sim_g s) !! n) as [l|] eqn:Hl; [by simpl|].
    case_bool_decide; simpl; [|by eauto].
    split; [done|]. by intros [].
  - intros s n. unfold sim_write. rewrite decide_False, decide_True by done.
    unfold sim_unexport. rewrite first_line_int. case_bool_decide; simpl; [done|].
    split; [done|]. intros _. by apply eq_None_not_Some.
  - intros s n. rewrite sim_write_line. unfold sim_line_file.
    destruct (lines (sim_g s) !! n); [|done]. by cbn.
  - intros s n. rewrite sim_write_line. unfold sim_line_file.
    destruct (lines (sim_g s) !! n) as [l|]; [|done]. cbn. by exists l.
  - intros s n v. rewrite sim_write_line. unfold sim_line_file.
    destruct (lines (sim_g s) !! n) as [l|]; [|done].
    rewrite decide_False, decide_True by done. rewrite first_line_int.
    destruct (decide (g_dir l = "out")); simpl; [by exists l|done].
Qed.

Section smoketest.
Context {W : Type} {K : kernel W} {obs : W -> gstate} {HK : SysfsGpio K obs}.

Definition pulse_all (args : gpio_args) : M W unit :=
  for_each (selected_mezzes (g_mezz args)) (fun mezz =>
    pins <- lift (dict_get MEZZ_PINS mezz) ;;
    for_each (pulse_role args) (fun role =>
      line <- lift (dict_get pins role) ;;
      delay_s <- lift (f_div (pulse_delay_ms args) (f_of_Z 1000)) ;;
      pulse_line K line (pulse_count args) delay_s)).

Lemma within_pulse_all args :
  within (obs := obs) (pins_of (selected_mezzes (g_mezz args))) (pulse_all args).
Proof using HK.
  apply within_for. intros mezz Hm. apply within_lift. intros pins Hp.
  apply within_for. intros role _. apply within_lift. intros n Hn.
  apply within_lift. intros d _. apply within_pulse. by eapply pins_of_in.
Qed.

(** The overlay does not matter to the lines. *)
Lemma lines_apply_overlay w : lines (obs (snd (apply_overlay K w))) = lines (obs w).
Proof using HK.
  pose proof (apply_overlay_spec (HK := HK) w) as H.
  destruct (apply_overlay K w) as [[u|e] w']; simpl in *; [by rewrite H|].
  by destruct H as [-> | [-> | ->]].
Qed.

Lemma lines_remove_overlay w : lines (obs (snd (remove_overlay K w))) = lines (obs w).
Proof using HK.
  unfold remove_overlay, overlay_active, bind, gets. rewrite sg_overlay.
  destruct (overlay (obs w)); [|done]. pose proof (sg_rmdir w) as H.
  destruct (k_rmdir K overlay_dir w) as [[u|e] w']; simpl in *; by rewrite H.
Qed.

(** Whatever the outcome, the lines outside [S] are as they were. *)
Definition keeps {A : Type} (S : list Z) (m : M W A) : Prop :=
  forall w n, n ∉ S -> lines (obs (snd (m w))) !! n = lines (obs w) !! n.

Lemma keeps_bind {A B : Type} S (m : M W A) (k : A -> M W B) :
  keeps S m -> (forall a, keeps S (k a)) -> keeps S (bind m k).
Proof using Type.
  intros Hm Hk w n Hn. specialize (Hm w n Hn). unfold bind.
  destruct (m w) as [[a|e] w']; simpl in *; [|done]. by rewrite Hk.
Qed.

Lemma keeps_within {A : Type} S (m : M W A) : within (obs := obs) S m -> keeps S m.
Proof using Type. intros H w n Hn. by apply H. Qed.

Lemma keeps_when S b (m : M W unit) : keeps S m -> keeps S (when b m).
Proof using Type. by destruct b. Qed.

Lemma smoketest_keeps args :
  keeps (pins_of (selected_mezzes (g_mezz args))) (do_smoketest K args).
Proof using HK.
  unfold do_smoketest. fold (pulse_all args).
  apply keeps_bind; [intros w n _; by rewrite lines_apply_overlay|]. intros _.
  apply keeps_bind; [apply keeps_within, within_for; intros; by apply within_claim|]. intros _.
  apply keeps_bind; [apply keeps_within, within_pulse_all|]. intros _.
  apply keeps_bind; [apply keeps_within, within_quiet, print_status_quiet|]. intros _.
  apply keeps_bind.
  { apply keeps_when, keeps_within, within_for. intros. by apply within_release. }
  intros _. apply keeps_bind; [|by intros _ w n].
  apply keeps_when. intros w n _. by rewrite lines_remove_overlay.
Qed.

(** The last two phases of a smoke test that completes: the overlay is active until then. *)
Lemma smoketest_phases args w z w' :
  do_smoketest K args w = (Ok z, w') ->
  z = 0 /\ exists w1 w2,
    when (negb (keep_lines args))
      (for_each (selected_mezzes (g_mezz args)) (release_mezz K)) w1 = (Ok tt, w2) /\
    overlay (obs w2) = true /\
    when (negb (keep_overlay args)) (remove_overlay K) w2 = (Ok tt, w').
Proof using HK.
  assert (Hov : forall (m : M W unit) w0 w3, within (obs := obs)
    (pins_of (selected_mezzes (g_mezz args))) m -> m w0 = (Ok tt, w3) ->
    overlay (obs w3) = overlay (obs w0)).
  { intros m w0 w3 Hm H. destruct (Hm w0) as [Ho _]. by rewrite H in Ho. }
  unfold do_smoketest. fold (pulse_all args). intros H.
  inv_bind H. pose proof (apply_overlay_spec (HK := HK) w) as Ha. rewrite Hrun in Ha.
  inv_bind H. destruct a0. apply Hov in Hrun0;
    [|apply within_for; intros; by apply within_claim].
  inv_bind H. destruct a0. apply Hov in Hrun1; [|apply within_pulse_all].
  inv_bind H. destruct a0. apply Hov in Hrun2; [|apply within_quiet, print_status_quiet].
  inv_bind H. destruct a0. pose proof Hrun3 as Hrel. apply Hov in Hrun3.
  2:{ destruct (negb (keep_lines args)); [|apply within_quiet, quiet_ret].
      apply within_for. intros. by apply within_release. }
  inv_bind H. destruct a0. injection H as <- <-. split; [done|]. exists w3, w4.
  split; [done|]. split; [|done]. by rewrite Hrun3, Hrun2, Hrun1, Hrun0, Ha.
Qed.

End smoketest.

(** The lines of two mezzanines are disjoint, and those of one are pairwise different. *)
Lemma mezz_pins_nodup : NoDup (pins_of (fst <$> MEZZ_PINS)).
Proof. apply (bool_decide_unpack _). vm_compute. exact I. Qed.

Lemma pins_disjoint mezz other :
  other ∈ fst <$> MEZZ_PINS -> other <> mezz -> pins_of [other] ## pins_of [mezz].
Proof.
  intros Ho Hne n Hn1 Hn2.
  assert (Hm : mezz ∈ fst <$> MEZZ_PINS).
  { apply list_elem_of_bind in Hn2 as (m & Hn2 & ->%list_elem_of_singleton).
    destruct (dict_get MEZZ_PINS mezz) as [pins|] eqn:Hp; [|by apply not_elem_of_nil in Hn2].
    apply dict_get_in in Hp. by apply (list_elem_of_fmap_2 fst) in Hp. }
  revert Hne n Hn1 Hn2. 
  apply (proj1 (Forall_forall (fun m => other <> m -> forall n, n ∈ pins_of [other] ->
    n ∈ pins_of [m] -> False) (fst <$> MEZZ_PINS))); [|done].
  apply (proj1 (Forall_forall (fun o => Forall (fun m => o <> m -> forall n, n ∈ pins_of [o] ->
    n ∈ pins_of [m] -> False) (fst <$> MEZZ_PINS)) (fst <$> MEZZ_PINS))); [|done].
  repeat (apply Forall_cons; split); try apply Forall_nil_2; intros Hne n Hn1 Hn2; try done;
    vm_compute in Hn1, Hn2; repeat (apply elem_of_cons in Hn1 as [-> | Hn1];
      [repeat (apply elem_of_cons in Hn2 as [Hn2 | Hn2]; [discriminate Hn2|]);
       by apply not_elem_of_nil in Hn2|]); by apply not_elem_of_nil in Hn1.
Qed.

(** On every mezzanine, claiming leaves the three outputs low and the input an input. *)
Lemma claimed_pins :
  Forall (fun '(m, pins) => forall g v,
    (forall role, role ∈ OUTPUT_ROLES -> forall n, dict_get pins role = Ok n ->
       lines (claimed pins v g) !! n = Some (GLine "out" 0)) /\
    (forall role, role ∈ INPUT_ROLES -> forall n, dict_get pins role = Ok n ->
       exists x, lines (claimed pins v g) !! n = Some (GLine "in" x))) MEZZ_PINS.
Proof.
  assert (Hout : forall P : string -> Prop, P "CS" -> P "SCLK" -> P "SDO" ->
    forall role, role ∈ OUTPUT_ROLES -> P role).
  { intros P H1 H2 H3 role Hr.
    repeat (apply elem_of_cons in Hr as [-> | Hr]; [done|]). by apply not_elem_of_nil in Hr. }
  repeat (apply Forall_cons; split); try apply Forall_nil_2; intros g v; (split;
    [ refine (Hout _ _ _ _); intros n [= <-];
      unfold claimed, claim_out, with_lines; cbn;
      repeat (rewrite lookup_insert_ne by done); by rewrite lookup_insert_eq
    | intros role Hr%list_elem_of_singleton; subst role; intros n [= <-]; exists v;
      unfold claimed, with_lines; cbn; by rewrite lookup_insert_eq ]).
Qed.

(** ** Properties *)

(** [claim_mezz] makes the three output pins of the mezzanine exported outputs driven low
    and its [SDI] an exported input, whether or not they were exported before; the lines of
    the other mezzanines are disjoint from these, and stay as they were even when it fails. *)
Theorem claim_mezz_correct {W : Type} (K : kernel W) (obs : W -> gstate) (HK : SysfsGpio K obs)
    mezz w :
  let '(r, w') := claim_mezz K mezz w in
  overlay (obs w') = overlay (obs w) /\
  (forall n, n ∉ pins_of [mezz] -> lines (obs w') !! n = lines (obs w) !! n) /\
  (forall other, other ∈ fst <$> MEZZ_PINS -> other <> mezz -> pins_of [other] ## pins_of [mezz]) /\
  (r = Ok tt -> exists pins,
     dict_get MEZZ_PINS mezz = Ok pins /\
     (forall role, role ∈ OUTPUT_ROLES -> forall n, dict_get pins role = Ok n ->
        lines (obs w') !! n = Some (GLine "out" 0)) /\
     (forall role, role ∈ INPUT_ROLES -> forall n, dict_get pins role = Ok n ->
        exists v, lines (obs w') !! n = Some (GLine "in" v))).
Proof.
  pose proof (within_claim (HK := HK) [mezz] mezz (list_elem_of_here _ _) w) as [Ho Hl].
  destruct (claim_mezz K mezz w) as [r w'] eqn:Hrun. cbn [snd] in Ho, Hl.
  split; [done|]. split; [done|]. split; [apply pins_disjoint|]. intros ->.
  apply claim_mezz_spec in Hrun as (pins & v & Hp & ->). exists pins. split; [done|].
  apply dict_get_in in Hp.
  apply (proj1 (Forall_forall (fun '(m, pins) => forall g v,
    (forall role, role ∈ OUTPUT_ROLES -> forall n, dict_get pins role = Ok n ->
       lines (claimed pins v g) !! n = Some (GLine "out" 0)) /\
    (forall role, role ∈ INPUT_ROLES -> forall n, dict_get pins role = Ok n ->
       exists x, lines (claimed pins v g) !! n = Some (GLine "in" x))) MEZZ_PINS) claimed_pins
    (mezz, pins) Hp).
Qed.

Lemma claim_mezz_correct_witness :
  let s := Sim (GState ∅ false []) [] [] in
  let s' := snd (claim_mezz sim_kernel "MEZ3" s) in
  lines (sim_g s') !! 68 = Some (GLine "out" 0) /\ lines (sim_g s') !! 41 = None.
Proof.
  intros s s'. pose proof (claim_mezz_correct sim_kernel sim_g sim_sysfs "MEZ3" s) as H.
  assert (Hr : fst (claim_mezz sim_kernel "MEZ3" s) = Ok tt) by (vm_compute; reflexivity).
  unfold s'. destruct (claim_mezz sim_kernel "MEZ3" s) as [r s1]. cbn [fst snd] in *.
  destruct H as (_ & Hl & _ & H). destruct (H Hr) as (pins & Hp & Hout & _).
  apply (inj Ok) in Hp as <-. split.
  - apply (Hout "SCLK"); [reg_mem|reflexivity].
  - rewrite Hl by (intros Hin; revert Hin; apply (bool_decide_unpack (41 ∉ _)); vm_compute; exact I).
    reflexivity.
Defined.

(** C3. [do_smoketest] that completes returns 0 and cleans up: unless it was asked to keep
    them, no line of a selected mezzanine is left exported and the overlay is gone (with
    [--keep-overlay] it is active).  Lines of other mezzanines are never touched, even when it
    fails half way. *)
Theorem smoketest_cleans_up {W : Type} (K : kernel W) (obs : W -> gstate)
    (HK : SysfsGpio K obs) args w :
  let '(r, w') := do_smoketest K args w in
  (forall n, n ∉ pins_of (selected_mezzes (g_mezz args)) ->
     lines (obs w') !! n = lines (obs w) !! n) /\
  (forall z, r = Ok z ->
     z = 0 /\
     (keep_lines args = false -> forall n, n ∈ pins_of (selected_mezzes (g_mezz args)) ->
        lines (obs w') !! n = None) /\
     overlay (obs w') = keep_overlay args).
Proof.
  pose proof (smoketest_keeps (HK := HK) args w) as Hout.
  destruct (do_smoketest K args w) as [r w'] eqn:Hrun. cbn [snd] in Hout. split; [done|].
  intros z ->. apply (smoketest_phases (HK := HK)) in Hrun as (-> & w1 & w2 & Hrel & Hov & Hrem).
  split; [done|]. unfold when in Hrem. split.
  - intros Hk n Hn. rewrite Hk in Hrel.
    pose proof (release_all_spec (HK := HK) _ _ _ _ Hrel n Hn) as Hnone.
    destruct (negb (keep_overlay args)); [|by injection Hrem as <-].
    by rewrite (remove_overlay_spec (HK := HK) _ _ _ Hrem).
  - destruct (keep_overlay args); cbn [negb] in Hrem; [by injection Hrem as <-|].
    by rewrite (remove_overlay_spec (HK := HK) _ _ _ Hrem).
Qed.

Definition smoke_args : gpio_args := {|
  g_command := "smoketest"; g_mezz := ["MEZ1"; "MEZ3"]; pulse_role := ["CS"]; pulse_count := 2;
  pulse_delay_ms := f_of_Z 25; keep_lines := false; keep_overlay := false |}.

Lemma smoketest_cleans_up_witness :
  let s := Sim (GState {[38 := GLine "in" 0]} false []) [] [] in
  let s' := snd (do_smoketest sim_kernel smoke_args s) in
  lines (sim_g s') !! 38 = Some (GLine "in" 0) /\ lines (sim_g s') !! 69 = None /\
  overlay (sim_g s') = false.
Proof.
  intros s s'. pose proof (smoketest_cleans_up sim_kernel sim_g sim_sysfs smoke_args s) as H.
  assert (Hr : fst (do_smoketest sim_kernel smoke_args s) = Ok 0) by (vm_compute; reflexivity).
  unfold s'. destruct (do_smoketest sim_kernel smoke_args s) as [r s1]. cbn [fst snd] in *.
  destruct H as (Hout & H). destruct (H 0 Hr) as (_ & Hin & Ho). split_and!; [| |exact Ho].
  - rewrite Hout; [reflexivity|]. reg_mem.
  - apply Hin; [reflexivity|]. reg_mem.
Defined.

(** [pulse_line] drives the line low, then high and low exactly [count] times, and leaves
    it low. *)
Theorem pulse_line_toggles {W : Type} (K : kernel W) (obs : W -> gstate) (HK : SysfsGpio K obs)
    n count d w w' :
  pulse_line K n count d w = (Ok tt, w') ->
  levels (obs w') = levels (obs w) ++ [(n, 0)] ++
    mjoin (replicate (Z.to_nat count) [(n, 1); (n, 0)]) /\
  exists l, lines (obs w') !! n = Some l /\ g_val l = 0.
Proof. apply pulse_line_spec. Qed.

Lemma pulse_line_toggles_witness :
  let s := Sim (GState {[40 := GLine "out" 0]} true []) [] [] in
  let s' := snd (pulse_line sim_kernel 40 2 (f_of_Z 1) s) in
  levels (sim_g s') = [] ++ [(40, 0)] ++ mjoin (replicate 2 [(40, 1); (40, 0)]) /\
  exists l, lines (sim_g s') !! 40 = Some l /\ g_val l = 0.
Proof.
  intros s s'. apply (pulse_line_toggles sim_kernel sim_g sim_sysfs 40 2 (f_of_Z 1) s s').
  vm_compute. reflexivity.
Defined.

(** The help of [smoketest] says it cleans up by default, but a failure half way leaves
    everything behind: with one line held by another driver the test raises, and the lines
    claimed before stay exported with the overlay still applied. *)
Theorem smoketest_failure_leaks :
  exists s e s', do_smoketest sim_kernel smoke_args s = (Raise e, s') /\
    lines (sim_g s) = ∅ /\ overlay (sim_g s) = false /\
    lines (sim_g s') !! 41 = Some (GLine "out" 0) /\ overlay (sim_g s') = true.
Proof.
  exists (Sim (GState ∅ false []) [57] []).
  destruct (do_smoketest sim_kernel smoke_args (Sim (GState ∅ false []) [57] []))
    as [[z|e] s'] eqn:H; [by vm_compute in H|].
  exists e, s'. split; [done|]. split; [done|]. split; [done|].
  assert (Hs : s' = snd (do_smoketest sim_kernel smoke_args (Sim (GState ∅ false []) [57] [])))
    by (by rewrite H).
  rewrite Hs. split; vm_compute; reflexivity.
Qed.
