(* ===== verification/GpioRemote.v ===== *)
(** The laptop side of the GPIO helper: [client/ps_mio_spi_gpio_remote.py], which runs the
    board script over [ssh] with every argument quoted for two shells in a row.

    [shlex.quote] is the Python library's; [lex] is the token recognition of the POSIX shell
    grammar restricted to what needs no expansion: it gives up ([None]) on an unquoted
    expansion character. *)
From S2P Require Import Prelude PyStr.

(** ** [shlex.quote] *)

(** The characters [\w@%+=:,./-] of [shlex]. *)
Definition shell_safe (c : ascii) : bool :=
  let n := code c in
  ((48 <=? n) && (n <=? 57)) || ((65 <=? n) && (n <=? 90)) || ((97 <=? n) && (n <=? 122)) ||
  has_char c "_@%+=:,./-".

Definition squote : string := "'".
Definition dquote : string := String (char 34) "".

Definition shlex_quote (s : string) : string :=
  match s with
  | "" => "''"
  | _ => if str_all shell_safe s then s
         else squote +:+ replace_char "'" (squote +:+ dquote +:+ squote +:+ dquote +:+ squote) s
              +:+ squote
  end.

(** ** The program *)

(** [remote_repo_expr] *)
Definition remote_repo_expr (remote_repo : string) : string :=
  if decide (remote_repo = "~") then "$HOME"
  else match strip_prefix "~/" remote_repo with
       | Some rest => "$HOME/" +:+ rest
       | None => shlex_quote remote_repo
       end.

Definition helper : string := "client/ps_mio_spi_gpio_board.py".

(** [inner] of [remote_command] *)
Definition inner_command (remote_repo : string) (remote_args : list string) : string :=
  join " " (["cd"; remote_repo_expr remote_repo; "&&"; "python3"; shlex_quote helper] ++
            (shlex_quote <$> remote_args)).

(** The word the format of [printf] is written as: [%s], two backslashes, [n]. *)
Definition printf_format : string :=
  "%s" +:+ String (char 92) (String (char 92) "n").

(** [remote_command] *)
Definition remote_command (remote_repo : string) (remote_args : list string)
    (sudo_password : string) : string :=
  join " " ["printf"; printf_format; shlex_quote sudo_password; "|"; "sudo"; "-S"; "sh"; "-lc";
            shlex_quote (inner_command remote_repo remote_args)].

(** [s.rstrip('/')] *)
Fixpoint rstrip_slash (s : string) : string :=
  match s with
  | "" => ""
  | String c t => match rstrip_slash t with
                  | "" => if Ascii.eqb c "/" then "" else String c ""
                  | t' => String c t'
                  end
  end.

Record remote_args_t : Type := {
  r_host : string; r_repo : string; r_no_sync : bool; r_password : option string;
  r_args : list string }.

(** The arguments for the board: [status] by default, a leading [--] dropped. *)
Definition board_args (remote_args : list string) : list string :=
  let remote_args := match remote_args with [] => ["status"] | l => l end in
  match remote_args with
  | a :: l => if decide (a = "--") then l else remote_args
  | [] => []
  end.

Section remote.
(** [subprocess.run(cmd)] and its return code, [getpass] and the path of the board script. *)
Context {W : Type} (run : list string -> M W Z) (getpass : M W string)
  (local_board_script : string).

Definition sync_board_script (host remote_repo : string) : M W Z :=
  run ["scp"; "-q"; local_board_script;
       host +:+ ":" +:+ rstrip_slash remote_repo +:+ "/client/ps_mio_spi_gpio_board.py"].

(** [main] after [parse_args] *)
Definition main (args : remote_args_t) : M W Z :=
  let remote_args := board_args (r_args args) in
  password <- (match r_password args with
               | Some p => if decide (p = "") then getpass else ret p
               | None => getpass
               end) ;;
  rc <- (if r_no_sync args then ret 0 else sync_board_script (r_host args) (r_repo args)) ;;
  if negb (rc =? 0) then ret rc
  else run ["ssh"; "-o"; "ClearAllForwardings=yes"; r_host args;
            remote_command (r_repo args) remote_args password].

End remote.

(** ** Token recognition of the shell *)









(** ** Lemmas *)










(** ** Properties *)



(** A repository below [~] is not quoted: a path with a semicolon ends the [cd]. *)
Example remote_repo_tilde_unquoted :
  remote_repo_expr "~/my repo; reboot" = "$HOME/my repo; reboot".
Proof. reflexivity. Qed.

(** [main]: when the copy of the helper fails its status is returned and nothing is run on
    the board; otherwise the status is that of the one [ssh] command. *)
Theorem remote_main_status {W : Type} (run : list string -> M W Z) getpass script args w p rc w1 :
  r_password args = Some p -> p <> "" -> r_no_sync args = false ->
  sync_board_script run script (r_host args) (r_repo args) w = (Ok rc, w1) ->
  main run getpass script args w =
    if rc =? 0
    then run ["ssh"; "-o"; "ClearAllForwardings=yes"; r_host args;
              remote_command (r_repo args) (board_args (r_args args)) p] w1
    else (Ok rc, w1).
Proof.
  intros Hp Hne Hs Hrun. unfold main. rewrite Hp, Hs, decide_False by done.
  unfold bind at 1. cbn [ret]. unfold bind. rewrite Hrun.
  by destruct (rc =? 0).
Qed.

Lemma remote_main_status_witness :
  let args := {| r_host := "daphne-13"; r_repo := "/srv/d"; r_no_sync := false;
                 r_password := Some "pw"; r_args := [] |} in
  let run := fun cmd => (fun w => (Ok 0, w ++ [cmd])) : M (list (list string)) Z in
  length (snd (main run (ret "") "b.py" args [])) = 2%nat.
Proof.
  intros args run.
  rewrite (remote_main_status run (ret "") "b.py" args [] "pw" 0
    [["scp"; "-q"; "b.py"; "daphne-13:/srv/d/client/ps_mio_spi_gpio_board.py"]]);
    try reflexivity. discriminate.
Defined.
