(* ===== verification/EnvelopeV2.v ===== *)
(** The EnvelopeV2 transport of the client tools: the messages of
    [srcs/protobuf/daphneV3_high_level_confs.proto], the DEALER socket, and every copy of the
    request/response exchange ([v2_rpc], [send_v2], [send_recv], [send_and_recv],
    [V2Link.request], ...).

    Serialized messages are opaque ([B], of a size): the protobuf runtime and the generated
    classes are not in the repository, class [Proto] gives their two operations and
    [ProtoLaws] what their documentation promises. *)
From S2P Require Import Prelude PyStr PyFloat PyVal.

(** ** Messages *)

Definition DIR_REQUEST : Z := 0.
Definition DIR_RESPONSE : Z := 1.
Definition DIR_EVENT : Z := 2.

Definition MT2_CONFIGURE_FE_REQ : Z := 202.
Definition MT2_CONFIGURE_FE_RESP : Z := 203.
Definition MT2_WRITE_AFE_VGAIN_REQ : Z := 206.
Definition MT2_WRITE_AFE_BIAS_SET_REQ : Z := 208.
Definition MT2_WRITE_AFE_BIAS_SET_RESP : Z := 209.
Definition MT2_WRITE_OFFSET_CH_REQ : Z := 220.
Definition MT2_READ_AFE_REG_REQ : Z := 224.
Definition MT2_READ_AFE_REG_RESP : Z := 225.
Definition MT2_READ_AFE_VGAIN_REQ : Z := 226.
Definition MT2_READ_AFE_VGAIN_RESP : Z := 227.
Definition MT2_READ_AFE_BIAS_SET_REQ : Z := 228.
Definition MT2_READ_AFE_BIAS_SET_RESP : Z := 229.
Definition MT2_READ_TRIM_ALL_CH_REQ : Z := 230.
Definition MT2_READ_TRIM_ALL_CH_RESP : Z := 231.
Definition MT2_READ_OFFSET_ALL_CH_REQ : Z := 236.
Definition MT2_READ_OFFSET_ALL_CH_RESP : Z := 237.
Definition MT2_READ_VBIAS_CONTROL_REQ : Z := 242.
Definition MT2_READ_VBIAS_CONTROL_RESP : Z := 243.
Definition MT2_READ_BIAS_VOLTAGE_MONITOR_REQ : Z := 246.
Definition MT2_READ_BIAS_VOLTAGE_MONITOR_RESP : Z := 247.
Definition MT2_DO_AFE_RESET_REQ : Z := 250.
Definition MT2_SET_AFE_POWERSTATE_REQ : Z := 252.
Definition MT2_DUMP_SPYBUFFER_REQ : Z := 256.
Definition MT2_DUMP_SPYBUFFER_RESP : Z := 257.
Definition MT2_ALIGN_AFE_REQ : Z := 258.
Definition MT2_ALIGN_AFE_RESP : Z := 259.
Definition MT2_WRITE_AFE_FUNCTION_REQ : Z := 260.
Definition MT2_WRITE_AFE_FUNCTION_RESP : Z := 261.
Definition MT2_DUMP_SPYBUFFER_CHUNK_REQ : Z := 300.
Definition MT2_DUMP_SPYBUFFER_CHUNK_RESP : Z := 301.
Definition MT2_READ_TEST_REG_REQ : Z := 304.
Definition MT2_READ_TRIGGER_COUNTERS_REQ : Z := 320.
Definition MT2_READ_TRIGGER_COUNTERS_RESP : Z := 321.
Definition MT2_READ_GENERAL_INFO_REQ : Z := 322.

(** Assigning an integer to a protobuf field checks its width. *)
Definition set_uint (bits : Z) (v : Z) : result Z :=
  if (0 <=? v) && (v <? 2 ^ bits) then Ok v
  else Raise (Exn ValueError ("Value out of range: " +:+ str_Z v)).

Definition set_u32 : Z -> result Z := set_uint 32.
Definition set_u64 : Z -> result Z := set_uint 64.

(** [ControlEnvelopeV2] over a type of serialized messages. *)
Record ControlEnvelopeV2 (B : Type) : Type := Env {
  version : Z; dir : Z; mtype : Z; payload : B;
  task_id : Z; msg_id : Z; correl_id : Z; route : string; timestamp_ns : Z }.
Arguments Env {B}.
Arguments version {B}.
Arguments dir {B}.
Arguments mtype {B}.
Arguments payload {B}.
Arguments task_id {B}.
Arguments msg_id {B}.
Arguments correl_id {B}.
Arguments route {B}.
Arguments timestamp_ns {B}.

(** [SerializeToString] and [ParseFromString], whose value is the number of bytes read. *)
Class Proto (B A : Type) : Type := {
  ser : A -> B;
  parse : B -> result A }.

Class Size (B : Type) : Type := { size : B -> Z }.

Class ProtoLaws (B A : Type) `{!Proto B A} : Prop := {
  parse_ser a : parse (ser a) = Ok a }.

(** [not m.ParseFromString(b)] raises on a malformed message and is true on no bytes. *)
Definition parse_or {B A : Type} `{Proto B A, Size B} (b : B) (e : exn) : result A :=
  a <-! parse b ;;
  if size b =? 0 then Raise e else Ok a.

(** The two fields of the responses to commands. *)
Class Status (R : Type) : Type := { st_success : R -> bool; st_message : R -> string }.

Definition str_bool (b : bool) : string := if b then "True" else "False".

(** The time of a round trip in milliseconds. *)
Definition rtt_of (t0 t1 : Z) : result float := f_div (f_of_Z (t1 - t0)) (f_of_Z 1000000).

Lemma rtt_ok t0 t1 : exists x, rtt_of t0 t1 = Ok x.
Proof using Type. unfold rtt_of. by eexists. Qed.

(** ** The DEALER socket *)

(** Console output: text, envelopes shown by [print_envelope], the block of times after an
    exchange (0 for the server's where it is not shown), and documents printed by
    [json.dumps]. *)
Inductive line (B : Type) : Type :=
  | Text (s : string)
  | Shown (label : string) (env : ControlEnvelopeV2 B)
  | Metrics (label : string) (send_ns recv_ns : Z) (rtt_ms : float) (server_ns : Z)
  | Document (v : pyval).
Arguments Text {B}.
Arguments Shown {B}.
Arguments Metrics {B}.
Arguments Document {B}.

(** The process and its peer: messages that arrived (each a list of frames), the frames of
    the message being read, what was sent, the clock and the source of randomness by reading
    number, the module counter [_SEQ] and the console. *)
Record zworld (S B : Type) : Type := ZW {
  srv : S; inbox : list (list B); cur : list B; sent : list B;
  clock : nat -> Z; ticks : nat; random : nat -> Z; draws : nat; seqno : Z;
  console : list (line B) }.
Arguments ZW {S B}.
Arguments srv {S B}.
Arguments inbox {S B}.
Arguments cur {S B}.
Arguments sent {S B}.
Arguments clock {S B}.
Arguments ticks {S B}.
Arguments random {S B}.
Arguments draws {S B}.
Arguments seqno {S B}.
Arguments console {S B}.

(** What the other side does with a message: refuse it for longer than the send timeout, or
    take it and let messages arrive in answer. *)
Class Peer (S B : Type) : Type := {
  can_send : S -> bool;
  answer : S -> B -> S * list (list B) }.

Definition again : exn := Exn ZmqAgain "Resource temporarily unavailable".

Definition MASK63 : Z := Z.shiftl 1 63 - 1.

Section socket.
Context {S B : Type} `{Peer S B}.
Abbreviation Wd := (zworld S B).

Definition z_send (b : B) : M Wd unit := fun w =>
  if can_send (srv w) then
    let '(s, ms) := answer (srv w) b in
    (Ok tt, ZW s (inbox w ++ ms) (cur w) (sent w ++ [b]) (clock w) (ticks w) (random w)
              (draws w) (seqno w) (console w))
  else (Raise again, w).

Definition set_reading (w : Wd) (i : list (list B)) (c : list B) : Wd :=
  ZW (srv w) i c (sent w) (clock w) (ticks w) (random w) (draws w) (seqno w) (console w).

(** [sock.recv()]: the next frame, or a timeout. *)
Definition z_recv : M Wd B := fun w =>
  match cur w with
  | f :: fs => (Ok f, set_reading w (inbox w) fs)
  | [] =>
      match inbox w with
      | (f :: fs) :: ms => (Ok f, set_reading w ms fs)
      | _ => (Raise again, w)
      end
  end.

Definition rcvmore : M Wd bool := gets (fun w => match cur w with [] => false | _ => true end).

(** [while sock.getsockopt(zmq.RCVMORE): frames.append(sock.recv())] *)
Fixpoint recv_more (fuel : nat) (frames : list B) : M Wd (list B) :=
  more <- rcvmore ;;
  if more : bool then
    match fuel with
    | O => raise (Exn OtherError "out of fuel")
    | Datatypes.S fuel' => f <- z_recv ;; recv_more fuel' (frames ++ [f])
    end
  else ret frames.

(** All the frames of the next message; the frames left bound the loop. *)
Definition recv_frames : M Wd (list B) :=
  f <- z_recv ;;
  n <- gets (fun w => length (cur w)) ;;
  recv_more n [f].

(** [frames[-1]] *)
Definition last_frame (frames : list B) : M Wd B :=
  match last frames with
  | Some f => ret f
  | None => raise (Exn IndexError "list index out of range")
  end.

(** [time.time_ns()] *)
Definition time_ns : M Wd Z := fun w =>
  (Ok (clock w (ticks w)),
   ZW (srv w) (inbox w) (cur w) (sent w) (clock w) (Datatypes.S (ticks w)) (random w) (draws w)
      (seqno w) (console w)).

(** [random.randrange(n)] *)
Definition randrange (n : Z) : M Wd Z := fun w =>
  (Ok (random w (draws w) mod n),
   ZW (srv w) (inbox w) (cur w) (sent w) (clock w) (ticks w) (random w) (Datatypes.S (draws w))
      (seqno w) (console w)).

Definition next_seq : M Wd Z := fun w =>
  (Ok (seqno w + 1),
   ZW (srv w) (inbox w) (cur w) (sent w) (clock w) (ticks w) (random w) (draws w)
      (seqno w + 1) (console w)).

Definition show (l : line B) : M Wd unit := modify (fun w =>
   ZW (srv w) (inbox w) (cur w) (sent w) (clock w) (ticks w) (random w) (draws w)
      (seqno w) (console w ++ [l])).

Definition say (s : string) : M Wd unit := show (Text s).

Definition print_envelope (label : string) (env : ControlEnvelopeV2 B) : M Wd unit :=
  show (Shown label env).

(** ** Identifiers *)

(** [next_ids] of [configure_fe_min_v2] and [protobuf_configure_daphne_v2] *)
Definition next_ids (pid rand30 : Z) : M Wd (Z * Z) :=
  seq <- next_seq ;;
  now_ns <- time_ns ;;
  let task_id := Z.lxor (Z.lxor (Z.shiftl now_ns 16) (Z.shiftl pid 8)) (Z.land rand30 0xFF) in
  let msg_id := Z.lxor (Z.shiftl now_ns 1) seq in
  ret (Z.land task_id MASK63, Z.land msg_id MASK63).

(** [next_ids] of [hdmezz_control_v2] and [slowcontrol_smoketest] *)
Definition next_ids_random : M Wd (Z * Z) :=
  now_ns <- time_ns ;;
  r1 <- randrange (Z.shiftl 1 16) ;;
  r2 <- randrange (Z.shiftl 1 16) ;;
  ret (Z.land (Z.lxor (Z.shiftl now_ns 16) r1) MASK63,
       Z.land (Z.lxor (Z.shiftl now_ns 1) r2) MASK63).

(** [next_ids] of [afe_function_v2] *)
Definition next_ids_fixed : M Wd (Z * Z) :=
  now_ns <- time_ns ;;
  ret (Z.land (Z.lxor (Z.shiftl now_ns 16) 0xBEEF) MASK63,
       Z.land (Z.lxor (Z.shiftl now_ns 1) 0x1234) MASK63).

(** A request envelope; [ids] is the script's generator. *)
Definition build_env (ids : M Wd (Z * Z)) (msg_type : Z) (payload : B) (route : string)
    : M Wd (ControlEnvelopeV2 B) :=
  '(task, msg) <- ids ;;
  now <- time_ns ;;
  ret (Env 2 DIR_REQUEST msg_type payload task msg 0 route now).

(** ** Acceptance of a reply *)

Context `{!Size B, !Proto B (ControlEnvelopeV2 B)}.
Abbreviation envelope := (ControlEnvelopeV2 B).

Definition unparsed (text : string) : exn := Exn RuntimeError text.

Definition mismatch (pre : string) (got : Z) (mid : string) (expected : Z) (post : string) : exn :=
  Exn RuntimeError (pre +:+ str_Z got +:+ mid +:+ str_Z expected +:+ post).

(** [if rep.correl_id and rep.correl_id != env.msg_id: raise] *)
Definition check_correl (e : exn) (env rep : envelope) : result unit :=
  if negb (correl_id rep =? 0) && negb (correl_id rep =? msg_id env) then Raise e else Ok tt.

(** [hdmezz_control_v2.v2_rpc] *)
Definition v2_rpc (R : Type) `{!Proto B R} (ids : M Wd (Z * Z)) (req_type : Z) (req : B)
    (resp_type : Z) (route : string) : M Wd R :=
  env <- build_env ids req_type req route ;;
  z_send (ser env) ;;;
  frames <- recv_frames ;;
  f <- last_frame frames ;;
  rep <- lift (parse_or f (unparsed "Failed to parse ControlEnvelopeV2 reply")) ;;
  (if negb (mtype rep =? resp_type)
   then raise (mismatch "Unexpected response type " (mtype rep) ", expected " resp_type "")
   else ret tt) ;;;
  lift (check_correl (mismatch "Correlation mismatch (got " (correl_id rep) ", expected "
                               (msg_id env) ")") env rep) ;;;
  lift (parse_or (payload rep) (unparsed "Failed to parse response payload")).

(** [protobuf_configure_daphne_v2.v2_rpc] *)
Definition v2_rpc_strict (ids : M Wd (Z * Z)) (mtype_req : Z) (req : B) (route : string)
    : M Wd (envelope * envelope) :=
  env <- build_env ids mtype_req req route ;;
  z_send (ser env) ;;;
  frames <- recv_frames ;;
  f <- last_frame frames ;;
  rep <- lift (parse_or f (unparsed "Bad V2 reply")) ;;
  if negb (dir rep =? DIR_RESPONSE) || negb (correl_id rep =? msg_id env)
  then raise (Exn RuntimeError "V2 correlation/type mismatch")
  else ret (env, rep).

(** [slowcontrol_smoketest.send_v2]; [poll] is false when nothing arrived in time. *)
Definition send_v2 (ids : M Wd (Z * Z)) (mtype_req : Z) (req : B) (route : string)
    : M Wd envelope :=
  env <- build_env ids mtype_req req route ;;
  z_send (ser env) ;;;
  ready <- gets (fun w => match cur w, inbox w with [], [] => false | _, _ => true end) ;;
  (if negb ready
   then raise (Exn TimeoutError ("Timed out waiting for response to type=" +:+ str_Z mtype_req))
   else ret tt) ;;;
  frames <- recv_frames ;;
  f <- last_frame frames ;;
  rep <- lift (parse f) ;;
  (if negb (dir rep =? DIR_RESPONSE)
   then raise (mismatch "Unexpected dir=" (dir rep) " for type=" mtype_req "")
   else ret tt) ;;;
  lift (check_correl (mismatch "Correlation mismatch (got " (correl_id rep) ", expected "
                               (msg_id env) ")") env rep) ;;;
  ret rep.

(** [test_threshold_14bit_v2.send_recv]: one frame only. *)
Definition send_recv (env : envelope) (expected_type : Z) : M Wd envelope :=
  z_send (ser env) ;;;
  f <- z_recv ;;
  reply <- lift (parse_or f (unparsed "failed to parse ControlEnvelopeV2 reply")) ;;
  (if negb (mtype reply =? expected_type)
   then raise (mismatch "unexpected reply type " (mtype reply) ", expected " expected_type "")
   else ret tt) ;;;
  lift (check_correl (mismatch "unexpected correl_id " (correl_id reply) ", expected "
                               (msg_id env) "") env reply) ;;;
  ret reply.

(** [read_fe_state_v2.send_and_recv] *)
Definition send_and_recv (env : envelope) (expected_type : Z) (verbose : bool) : M Wd envelope :=
  t_send <- time_ns ;;
  when verbose (print_envelope "REQUEST" env) ;;;
  z_send (ser env) ;;;
  frames <- recv_frames ;;
  reply_bytes <- last_frame frames ;;
  t_recv <- time_ns ;;
  reply <- lift (parse_or reply_bytes (unparsed "Failed to parse ControlEnvelopeV2 reply")) ;;
  when verbose (print_envelope "RESPONSE" reply ;;;
                rtt_ms <- lift (rtt_of t_send t_recv) ;;
                show (Metrics "METRICS" t_send t_recv rtt_ms 0)) ;;;
  (if negb (mtype reply =? expected_type)
   then raise (mismatch "Unexpected response type " (mtype reply) ", expected " expected_type "")
   else ret tt) ;;;
  lift (check_correl (mismatch "Correlation mismatch correl_id=" (correl_id reply) " expected="
                               (msg_id env) "") env reply) ;;;
  ret reply.

(** [afe_function_v2.send_v2]: the reply is not checked. *)
Definition send_v2_unchecked (ids : M Wd (Z * Z)) (msg_type : Z) (req : B) (route : string)
    : M Wd envelope :=
  env <- build_env ids msg_type req route ;;
  z_send (ser env) ;;;
  frames <- recv_frames ;;
  f <- last_frame frames ;;
  lift (parse f).

(** ** [osc.V2Link] *)

(** [self._next_ids()]: [rand] is [int(time.time_ns()) & 0xFFFFFFFF] at construction. *)
Definition v2link_next_ids (pid rand : Z) : M Wd (Z * Z) := next_ids pid rand.

(** The polling loop of [V2Link.request]: for each turn, whether a stop was requested, how
    long is left of the deadline (microseconds) and whether the poll woke up for the message;
    the loop ends at the latest when nothing is left. *)
Record poll_turn : Type := PollTurn { stop_asked : bool; remaining_us : Z; woken : bool }.

Fixpoint poll_loop (turns : list poll_turn) : M Wd unit :=
  match turns with
  | [] => raise (Exn ZmqAgain "Timed out waiting for reply")
  | t :: turns' =>
      if stop_asked t then raise (Exn InterruptedError "Stop requested")
      else if remaining_us t <=? 0 then raise (Exn ZmqAgain "Timed out waiting for reply")
      else
        waiting <- gets (fun w => match cur w, inbox w with [], [] => false | _, _ => true end) ;;
        if woken t && waiting then ret tt else poll_loop turns'
  end.

(** [V2Link.request]: the two envelopes. *)
Definition v2link_request (pid rand : Z) (mtype_req : Z) (payload_bytes : B) (route : string)
    (turns : list poll_turn) : M Wd (envelope * envelope) :=
  env <- build_env (v2link_next_ids pid rand) mtype_req payload_bytes route ;;
  t0 <- time_ns ;;
  z_send (ser env) ;;;
  poll_loop turns ;;;
  frames <- recv_frames ;;
  t1 <- time_ns ;;
  f <- last_frame frames ;;
  rep <- lift (parse f) ;;
  (if negb (dir rep =? DIR_RESPONSE)
   then raise (Exn RuntimeError ("Unexpected dir=" +:+ str_Z (dir rep)))
   else ret tt) ;;;
  (if negb (correl_id rep =? msg_id env)
   then raise (Exn RuntimeError "V2 correlation/type mismatch (correl_id != req.msg_id)")
   else ret tt) ;;;
  ret (env, rep).

End socket.

(** ** Lemmas *)

Section exchange.
Context {S B : Type} `{Peer S B, Size B, Proto B (ControlEnvelopeV2 B)}.
Context `{!ProtoLaws B (ControlEnvelopeV2 B)}.
Abbreviation Wd := (zworld S B).
Abbreviation envelope := (ControlEnvelopeV2 B).

(** The rest of a message is read to its end. *)
Lemma recv_more_all frames (w : Wd) fuel :
  length (cur w) = fuel ->
  recv_more fuel frames w = (Ok (frames ++ cur w), set_reading w (inbox w) []).
Proof using Type.
  revert frames w. induction fuel as [|fuel IH]; intros frames w Hlen.
  - destruct (cur w) as [|f fs] eqn:Hc; [|done]. unfold recv_more, rcvmore, bind, gets.
    rewrite Hc, app_nil_r. unfold ret, set_reading. rewrite <- Hc. by destruct w.
  - destruct (cur w) as [|f fs] eqn:Hc; [done|]. cbn [recv_more]. unfold rcvmore, bind, gets.
    rewrite Hc. unfold z_recv at 1. rewrite Hc. injection Hlen as Hlen.
    rewrite IH by (by simpl). simpl. by rewrite <- app_assoc.
Qed.

(** [recv_frames] takes exactly one message off the socket. *)
Lemma recv_frames_message (w : Wd) f fs ms :
  cur w = [] -> inbox w = (f :: fs) :: ms ->
  recv_frames w = (Ok (f :: fs), set_reading w ms []).
Proof using Type.
  intros Hc Hi. unfold recv_frames, bind at 1. unfold z_recv. rewrite Hc, Hi.
  unfold bind, gets. rewrite recv_more_all by done. reflexivity.
Qed.

(** With nothing on the socket the receive times out. *)
Lemma recv_frames_empty (w : Wd) :
  cur w = [] -> inbox w = [] -> recv_frames w = (Raise again, w).
Proof using Type. intros Hc Hi. unfold recv_frames, bind, z_recv. by rewrite Hc, Hi. Qed.

(** The envelope [build_env next_ids_random] makes. *)
Definition next_msg_id (w : Wd) (k : nat) : Z :=
  Z.land (Z.lxor (Z.shiftl (clock w (ticks w + 2 * k)%nat) 1)
                 (random w (draws w + 2 * k + 1)%nat mod Z.shiftl 1 16)) MASK63.

(** What the process looks like after it built an envelope and nothing else happened. *)
Definition advance (w : Wd) (k : nat) : Wd :=
  ZW (srv w) (inbox w) (cur w) (sent w) (clock w) (ticks w + 2 * k)%nat (random w)
     (draws w + 2 * k)%nat (seqno w) (console w).

Lemma build_env_random w req_type (req : B) rt :
  exists task now, build_env next_ids_random req_type req rt w =
    (Ok (Env 2 DIR_REQUEST req_type req task (next_msg_id w 0) 0 rt now), advance w 1).
Proof using Type.
  unfold build_env, next_ids_random, bind, time_ns, randrange, ret. cbn [ticks draws clock random].
  eexists _, _. unfold next_msg_id, advance.
  replace (ticks w + 2 * 0)%nat with (ticks w) by lia.
  replace (draws w + 2 * 0 + 1)%nat with (Datatypes.S (draws w)) by lia.
  replace (ticks w + 2 * 1)%nat with (Datatypes.S (Datatypes.S (ticks w))) by lia.
  replace (draws w + 2 * 1)%nat with (Datatypes.S (Datatypes.S (draws w))) by lia.
  reflexivity.
Qed.

(** A peer that takes every request and answers it with one message. *)
Class Answering (reply : envelope -> envelope) : Prop := {
  an_send s : can_send s = true;
  an_answer s env : exists s', answer s (ser env) = (s', [[ser (reply env)]]);
  an_size env : size (ser (reply env)) <> 0;
  an_dir env : dir (reply env) = DIR_RESPONSE;
  an_type env : mtype (reply env) = mtype env + 1;
  an_correl env : correl_id (reply env) = msg_id env }.

Context (reply : envelope -> envelope) `{!Answering reply}.

Lemma z_send_answer (w : Wd) env :
  exists s', z_send (ser env) w =
    (Ok tt, ZW s' (inbox w ++ [[ser (reply env)]]) (cur w) (sent w ++ [ser env]) (clock w) (ticks w)
               (random w) (draws w) (seqno w) (console w)).
Proof using All.
  unfold z_send. rewrite (an_send (srv w)). destruct (an_answer (srv w) env) as [s' ->]. eauto.
Qed.

Lemma parse_or_ser (env : envelope) e : size (ser env) <> 0 -> parse_or (ser env) e = Ok env.
Proof using All.
  intros Hs. unfold parse_or. rewrite parse_ser. cbn [rbind].
  by destruct (Z.eqb_spec (size (ser env)) 0).
Qed.

(** [v2_rpc] up to the reply it reads: the first message of the queue, the answer to this
    request joining the queue at its end. *)
Lemma v2_rpc_reads (R : Type) `{!Proto B R} w req_type (req : B) resp_type rt first rest :
  cur w = [] ->
  (forall env, inbox w ++ [[ser (reply env)]] = [ser (first env)] :: rest env) ->
  (forall env, size (ser (first env)) <> 0) ->
  exists env w', msg_id env = next_msg_id w 0 /\ (mtype env = req_type /\ payload env = req) /\
    cur w' = [] /\ inbox w' = rest env /\ clock w' = clock w /\ random w' = random w /\
    ticks w' = (ticks w + 2)%nat /\ draws w' = (draws w + 2)%nat /\
    v2_rpc R next_ids_random req_type req resp_type rt w =
    ((if negb (mtype (first env) =? resp_type)
      then Raise (mismatch "Unexpected response type " (mtype (first env)) ", expected "
                    resp_type "")
      else _ <-! check_correl (mismatch "Correlation mismatch (got " (correl_id (first env))
                 ", expected " (msg_id env) ")") env (first env) ;;
           parse_or (payload (first env)) (unparsed "Failed to parse response payload")), w').
Proof using All.
  intros Hc Hi Hs. unfold v2_rpc.
  destruct (build_env_random w req_type req rt) as (task & now & Hb).
  rewrite (bind_run _ _ _ _ _ Hb). set (env := Env _ _ _ _ _ _ _ _ _).
  destruct (z_send_answer (advance w 1) env) as [s' Hsend].
  rewrite (bind_run _ _ _ _ _ Hsend).
  erewrite bind_run; [|apply recv_frames_message; [exact Hc|exact (Hi env)]].
  unfold last_frame. cbn [last]. unfold bind at 1. cbn [ret].
  unfold bind at 1, lift. rewrite parse_or_ser by done.
  eexists env, _. split; [reflexivity|]. split; [done|].
  do 6 (split; [shelve|]).
  unfold bind. destruct (negb (mtype (first env) =? resp_type)); [reflexivity|].
  unfold ret. destruct (check_correl _ env (first env)); reflexivity.
  Unshelve. all: simpl; try done; lia.
Qed.

(** A call on a quiet socket reads the answer to it. *)
Lemma v2_rpc_answered (R : Type) `{!Proto B R} (w : Wd) req_type (req : B) rt :
  cur w = [] -> inbox w = [] ->
  exists env w', msg_id env = next_msg_id w 0 /\ mtype env = req_type /\ payload env = req /\
    v2_rpc R next_ids_random req_type req (req_type + 1) rt w =
      (parse_or (payload (reply env)) (unparsed "Failed to parse response payload"), w') /\
    cur w' = [] /\ inbox w' = [].
Proof using All.
  intros Hc Hi.
  destruct (v2_rpc_reads R w req_type req (req_type + 1) rt reply (fun _ => []) Hc)
    as (env & w' & Hid & [Hty Hpl] & Hc' & Hi' & _ & _ & _ & _ & Hrun);
    [by intros env; rewrite Hi|apply an_size|].
  exists env, w'. split_and!; auto. rewrite Hrun, an_type, Hty, Z.eqb_refl. cbn [negb].
  unfold check_correl. rewrite an_correl, Z.eqb_refl. by rewrite andb_false_r.
Qed.

(** The same call again and again, whatever it raises. *)
Fixpoint calls {W A : Type} (n : nat) (m : M W A) (w : W) : list (result A) * W :=
  match n with
  | O => ([], w)
  | Datatypes.S n' => let '(r, w1) := m w in let '(rs, w2) := calls n' m w1 in (r :: rs, w2)
  end.

(** A stale reply: not for any request that may follow. *)
Lemma v2_rpc_stale (R : Type) `{!Proto B R} w req_type (req : B) rt stale :
  cur w = [] -> inbox w = [[ser stale]] -> size (ser stale) <> 0 ->
  mtype stale = req_type + 1 -> correl_id stale <> 0 -> correl_id stale <> next_msg_id w 0 ->
  exists env w' text, v2_rpc R next_ids_random req_type req (req_type + 1) rt w =
      (Raise (Exn RuntimeError ("Correlation mismatch (got " +:+ text)), w') /\
    msg_id env = next_msg_id w 0 /\ mtype env = req_type /\
    cur w' = [] /\ inbox w' = [[ser (reply env)]] /\
    next_msg_id w' 0 = next_msg_id w 1 /\
    forall k, next_msg_id w' k = next_msg_id w (Datatypes.S k).
Proof using All.
  intros Hc Hi Hs Ht Hz Hne.
  destruct (v2_rpc_reads R w req_type req (req_type + 1) rt (fun _ => stale)
    (fun env => [[ser (reply env)]]) Hc) as (env & w' & Hid & [Hty _] & Hc' & Hi' & Hclk & Hrnd & Htk
      & Hdr & Hrun); [by intros env; rewrite Hi|done|].
  assert (Hk : forall k, next_msg_id w' k = next_msg_id w (Datatypes.S k)).
  { intros k. unfold next_msg_id. rewrite Hclk, Hrnd, Htk, Hdr.
    replace (ticks w + 2 + 2 * k)%nat with (ticks w + 2 * Datatypes.S k)%nat by lia.
    replace (draws w + 2 + 2 * k + 1)%nat with (draws w + 2 * Datatypes.S k + 1)%nat by lia.
    reflexivity. }
  exists env, w'. eexists. split; [|split_and!; auto].
  rewrite Hrun, Ht, Z.eqb_refl. cbn [negb]. unfold check_correl.
  rewrite (proj2 (Z.eqb_neq _ _) Hz), (proj2 (Z.eqb_neq _ _)) by (by rewrite Hid).
  cbn [negb andb rbind]. unfold mismatch. reflexivity.
Qed.

End exchange.

(** ** What each step does to the messages sent *)

Section sent.
Context {S B : Type} `{Peer S B}.
Abbreviation Wd := (zworld S B).

Lemma next_ids_sent pid rand (w0 : Wd) r w1 : next_ids pid rand w0 = (r, w1) -> sent w1 = sent w0.
Proof using Type. intros Hr. apply (f_equal snd) in Hr. cbn in Hr. by subst. Qed.

Lemma build_env_sent ids req_type (req : B) rt (w : Wd) env w' :
  (forall w0 r w1, ids w0 = (r, w1) -> sent w1 = sent w0) ->
  build_env ids req_type req rt w = (Ok env, w') ->
  mtype env = req_type /\ payload env = req /\ sent w' = sent w.
Proof using Type.
  unfold build_env. intros Hids Hr. inv_bind Hr. destruct a as [task msg].
  apply Hids in Hrun. inv_bind Hr. injection Hrun0 as <- <-. by injection Hr as <- <-.
Qed.

Lemma z_send_sent (b : B) (w : Wd) u w' : z_send b w = (Ok u, w') -> sent w' = sent w ++ [b].
Proof using Type.
  unfold z_send. destruct (can_send (srv w)); [|done]. destruct (answer (srv w) b).
  intros Hr. by simplify_eq/=.
Qed.

Lemma z_recv_sent (w : Wd) r w' : z_recv w = (r, w') -> sent w' = sent w.
Proof using Type.
  unfold z_recv. destruct (cur w) as [|f fs]; [destruct (inbox w) as [|[|f fs] ms]|];
    intros Hr; by simplify_eq/=.
Qed.

Lemma recv_more_sent fuel frames (w : Wd) r w' :
  recv_more fuel frames w = (r, w') -> sent w' = sent w.
Proof using Type.
  revert frames w. induction fuel as [|fuel IH]; intros frames w; cbn [recv_more];
    unfold rcvmore, gets; unfold bind at 1; destruct (cur w) as [|f fs];
    [by intros [= <- <-]..|].
  unfold bind. destruct (z_recv w) as [[x|e] w1] eqn:Hz; apply z_recv_sent in Hz.
  - intros Hr. apply IH in Hr. congruence.
  - by intros [= <- <-].
Qed.

Lemma recv_frames_sent (w : Wd) frames w' : recv_frames w = (Ok frames, w') -> sent w' = sent w.
Proof using Type.
  unfold recv_frames. intros Hr. inv_bind Hr. inv_bind Hr.
  apply z_recv_sent in Hrun. apply recv_more_sent in Hr. apply (f_equal snd) in Hrun0.
  cbn in Hrun0. congruence.
Qed.

Lemma last_frame_same frames (w : Wd) f w' : last_frame frames w = (Ok f, w') -> w' = w.
Proof using Type. unfold last_frame. destruct (last frames); [by intros [= <- <-]|done]. Qed.

Lemma poll_loop_same turns (w : Wd) u w' : poll_loop turns w = (Ok u, w') -> w' = w.
Proof using Type.
  induction turns as [|t turns IH]; cbn [poll_loop]; [done|].
  destruct (stop_asked t); [done|]. destruct (remaining_us t <=? 0); [done|].
  unfold bind, gets. destruct (woken t && _); [by intros [= <- <-]|done].
Qed.

End sent.

(** ** Where a reply comes from *)

Section received.
Context {S B : Type} `{Peer S B}.
Abbreviation Wd := (zworld S B).

(** The frames that wait on the socket. *)
Definition waiting (w : Wd) : list B := cur w ++ concat (inbox w).

Lemma z_recv_waiting (w : Wd) f w' : z_recv w = (Ok f, w') -> waiting w = f :: waiting w'.
Proof using Type.
  unfold z_recv, waiting. destruct (cur w) as [|g gs]; [destruct (inbox w) as [|[|g gs] ms]|];
    intros Hr; by simplify_eq/=.
Qed.

Lemma recv_more_waiting fuel frames (w : Wd) fs w' :
  recv_more fuel frames w = (Ok fs, w') -> frames ++ waiting w = fs ++ waiting w'.
Proof using Type.
  revert frames w. induction fuel as [|fuel IH]; intros frames w; cbn [recv_more];
    unfold rcvmore, gets; unfold bind at 1; destruct (cur w) as [|f l]; try by intros [= <- <-].
  intros Hr. inv_bind Hr. apply z_recv_waiting in Hrun. apply IH in Hr.
  by rewrite <- Hr, Hrun, <- app_assoc.
Qed.

Lemma recv_frames_waiting (w : Wd) fs w' :
  recv_frames w = (Ok fs, w') -> waiting w = fs ++ waiting w'.
Proof using Type.
  unfold recv_frames. intros Hr. inv_bind Hr. inv_bind Hr. apply z_recv_waiting in Hrun.
  apply (f_equal snd) in Hrun0. cbn in Hrun0. subst. apply recv_more_waiting in Hr. by rewrite Hrun.
Qed.

Lemma last_frame_in frames (w : Wd) f w' : last_frame frames w = (Ok f, w') -> f ∈ frames.
Proof using Type.
  unfold last_frame. destruct (last frames) as [g|] eqn:Hl; [|done]. intros [= -> _].
  apply last_Some in Hl as [l ->]. apply elem_of_app. right. apply list_elem_of_here.
Qed.

Context `{!Size B, !Proto B (ControlEnvelopeV2 B)}.

(** An exchange that succeeds: one request was sent, and the reply is a frame that waited on
    the socket before it or that the peer sent in answer. *)
Definition exchanged (w w' : Wd) (req_type : Z) (req : B) (resp_type : Z)
    (rep : ControlEnvelopeV2 B) : Prop :=
  exists env f, mtype env = req_type /\ payload env = req /\ sent w' = sent w ++ [ser env] /\
    f ∈ waiting w ++ concat (snd (answer (srv w) (ser env))) /\ parse f = Ok rep /\
    mtype rep = resp_type /\ (correl_id rep = 0 \/ correl_id rep = msg_id env).

Lemma z_send_waiting (b : B) (w : Wd) u w' :
  z_send b w = (Ok u, w') -> waiting w' = waiting w ++ concat (snd (answer (srv w) b)).
Proof using Type.
  unfold z_send, waiting. destruct (can_send (srv w)); [|done]. destruct (answer (srv w) b).
  intros Hr. simplify_eq/=. by rewrite concat_app, app_assoc.
Qed.

Lemma parse_or_parse {A : Type} `{!Proto B A} (b : B) e (a : A) :
  parse_or b e = Ok a -> parse b = Ok a.
Proof using Type.
  unfold parse_or. destruct (parse b) as [a'|]; [|done]. cbn. by destruct (size b =? 0).
Qed.

Lemma check_correl_ok e (env rep : ControlEnvelopeV2 B) :
  check_correl e env rep = Ok tt -> correl_id rep = 0 \/ correl_id rep = msg_id env.
Proof using Type.
  unfold check_correl. destruct (Z.eqb_spec (correl_id rep) 0); [by left|].
  destruct (Z.eqb_spec (correl_id rep) (msg_id env)); [by right|done].
Qed.

Lemma v2_rpc_received (R : Type) `{!Proto B R} req_type (req : B) resp_type rt (w : Wd) r w' :
  v2_rpc R next_ids_random req_type req resp_type rt w = (Ok r, w') ->
  exists rep, exchanged w w' req_type req resp_type rep /\ parse (payload rep) = Ok r.
Proof using Type.
  unfold v2_rpc. intros Hr. inv_bind Hr.
  destruct (build_env_random w req_type req rt) as (task & now & Hb). rewrite Hb in Hrun.
  injection Hrun as <- <-. set (env := Env _ _ _ _ _ _ _ _ _) in *.
  inv_bind Hr. pose proof (z_send_sent _ _ _ _ Hrun) as Hsent. apply z_send_waiting in Hrun.
  inv_bind Hr. pose proof (recv_frames_sent _ _ _ Hrun0) as Hsent'.
  apply recv_frames_waiting in Hrun0.
  inv_bind Hr. pose proof (last_frame_same _ _ _ _ Hrun1) as ->. apply last_frame_in in Hrun1.
  inv_bind Hr. apply (f_equal fst) in Hrun2 as Hp. apply (f_equal snd) in Hrun2. cbn in Hp, Hrun2.
  apply parse_or_parse in Hp. subst.
  inv_bind Hr. destruct (Z.eqb_spec (mtype a2) resp_type) as [Ht|]; [|done].
  injection Hrun2 as _ <-.
  inv_bind Hr. apply (f_equal fst) in Hrun2 as Hk. apply (f_equal snd) in Hrun2.
  cbn in Hk, Hrun2. destruct a4. apply check_correl_ok in Hk. subst.
  injection Hr as Hr <-. apply parse_or_parse in Hr.
  exists a2. split; [|done]. exists env, a1. split_and!; try done.
  - by rewrite Hsent', Hsent.
  - change (waiting w ++ concat (snd (answer (srv w) (ser env)))) with
      (waiting (advance w 1) ++ concat (snd (answer (srv (advance w 1)) (ser env)))).
    rewrite <- Hrun, Hrun0. apply elem_of_app. by left.
Qed.

End received.

(** ** A peer for the examples *)

(** Serialized messages as they are, and a server that answers every request with [ok]. *)
Inductive wire : Type :=
  | WEnv (e : ControlEnvelopeV2 wire)
  | WMsg (fields : list Z) (text : string).

#[export] Instance wire_size : Size wire := {
  size b := match b with WMsg [] "" => 0 | _ => 1 end }.

#[export] Instance wire_env : Proto wire (ControlEnvelopeV2 wire) := {
  ser := WEnv;
  parse b := match b with
             | WEnv e => Ok e
             | WMsg _ _ => Raise (Exn DecodeError "Error parsing message")
             end }.

#[export] Instance wire_env_laws : ProtoLaws wire (ControlEnvelopeV2 wire).
Proof. by split. Qed.

Definition wire_msg : Type := list Z * string.

#[export] Instance wire_plain : Proto wire wire_msg := {
  ser m := WMsg (fst m) (snd m);
  parse b := match b with
             | WMsg fields text => Ok (fields, text)
             | WEnv _ => Raise (Exn DecodeError "Error parsing message")
             end }.

Definition ok_reply (env : ControlEnvelopeV2 wire) : ControlEnvelopeV2 wire :=
  Env 2 DIR_RESPONSE (mtype env + 1) (WMsg [1] "ok") (task_id env) (msg_id env + 1) (msg_id env)
      (route env) 0.

#[export] Instance ok_peer : Peer nat wire := {
  can_send _ := true;
  answer n b := (S n, match b with WEnv env => [[WEnv (ok_reply env)]] | WMsg _ _ => [] end) }.

#[export] Instance ok_answers : Answering ok_reply.
Proof. split; try done. intros n env. by exists (S n). Qed.

Definition idle (stale : list (list wire)) : zworld nat wire :=
  ZW 0%nat stale [] [] (fun k => 1000 + Z.of_nat k) 0 (fun _ => 7) 0 0 [].

(** ** Properties *)

(** The round trip of [hdmezz_control_v2.v2_rpc] on a quiet socket with a server that
    answers: it returns exactly what the payload of the answer decodes to ([RuntimeError] for
    an empty payload), and leaves the socket quiet for the next call. *)
Theorem v2_rpc_roundtrip {S B : Type} `{Peer S B, Size B, Proto B (ControlEnvelopeV2 B)}
    (HL : ProtoLaws B (ControlEnvelopeV2 B)) (R : Type) `{!Proto B R} reply
    (HA : Answering reply) (w : zworld S B) req_type (req : B) rt :
  cur w = [] -> inbox w = [] ->
  exists env w', msg_id env = next_msg_id w 0 /\ mtype env = req_type /\ payload env = req /\
    v2_rpc R next_ids_random req_type req (req_type + 1) rt w =
      (parse_or (payload (reply env)) (unparsed "Failed to parse response payload"), w') /\
    cur w' = [] /\ inbox w' = [].
Proof. by apply (v2_rpc_answered reply R). Qed.

Lemma v2_rpc_roundtrip_witness :
  exists env w', msg_id env = next_msg_id (idle []) 0 /\ mtype env = 408 /\
    payload env = WMsg [0; 2] "" /\
    v2_rpc wire_msg next_ids_random 408 (WMsg [0; 2] "") (408 + 1) "mezz/0" (idle []) =
      (parse_or (payload (ok_reply env)) (unparsed "Failed to parse response payload"), w') /\
    cur w' = [] /\ inbox w' = [].
Proof.
  apply (v2_rpc_roundtrip wire_env_laws wire_msg ok_reply ok_answers (idle []) 408
    (WMsg [0; 2] "") "mezz/0"); reflexivity.
Defined.

(** C20. [v2_rpc] never recovers from a reply that came too late: with one stale reply of the
    same type on the socket, every later call raises [RuntimeError] although the server
    answers each of them at once, because each call reads the answer of the call before. *)
Theorem v2_rpc_desynchronised {S B : Type} `{Peer S B, Size B, Proto B (ControlEnvelopeV2 B)}
    (HL : ProtoLaws B (ControlEnvelopeV2 B)) (R : Type) `{!Proto B R} reply
    (HA : Answering reply) (w : zworld S B) req_type (req : B) rt stale n :
  cur w = [] -> inbox w = [[ser stale]] -> size (ser stale) <> 0 ->
  mtype stale = req_type + 1 -> correl_id stale <> 0 -> correl_id stale <> next_msg_id w 0 ->
  (forall k, (k < n)%nat -> next_msg_id w k <> 0 /\ next_msg_id w k <> next_msg_id w (k + 1)) ->
  let '(rs, w') := calls n (v2_rpc R next_ids_random req_type req (req_type + 1) rt) w in
  length rs = n /\
  Forall (fun r => exists text, r = Raise (Exn RuntimeError ("Correlation mismatch (got " +:+ text)))
    rs /\
  exists late : ControlEnvelopeV2 B, inbox w' = [[ser late]].
Proof.
  revert w stale. induction n as [|n IH]; intros w stale Hc Hi Hs Ht Hz0 Hne Hids.
  { cbn [calls]. split_and!; [done|constructor|eauto]. }
  destruct (v2_rpc_stale reply R w req_type req rt stale Hc Hi Hs Ht Hz0 Hne)
    as (env & w1 & text & Hrun & Hid & Hty & Hc1 & Hi1 & Hn1 & Hk).
  cbn [calls]. rewrite Hrun.
  specialize (IH w1 (reply env) Hc1 Hi1 (an_size env)).
  destruct (calls n _ w1) as [rs w2]. rewrite an_type, an_correl, Hid, Hn1, Hty in IH.
  destruct (Hids 0%nat ltac:(lia)) as [Hz Hd].
  destruct IH as (Hlen & Hall & Hlate); [done|done|done| |].
  { intros k Hlt. rewrite !Hk. replace (Datatypes.S (k + 1)) with (Datatypes.S k + 1)%nat by lia.
    apply Hids. lia. }
  split_and!; [simpl; lia| |done]. constructor; [by exists text|done].
Qed.

Lemma v2_rpc_desynchronised_witness :
  let stale := ok_reply (Env 2 0 408 (WMsg [] "") 0 5 0 "" 0) in
  let '(rs, w') := calls 3 (v2_rpc wire_msg next_ids_random 408 (WMsg [0; 2] "") (408 + 1) "mezz/0")
    (idle [[ser stale]]) in
  length rs = 3%nat /\
  Forall (fun r => exists text, r = Raise (Exn RuntimeError ("Correlation mismatch (got " +:+ text)))
    rs /\
  exists late : ControlEnvelopeV2 wire, inbox w' = [[ser late]].
Proof.
  intros stale. apply (v2_rpc_desynchronised wire_env_laws wire_msg ok_reply ok_answers
    (idle [[ser stale]]) 408 (WMsg [0; 2] "") "mezz/0" stale 3);
    try reflexivity; try discriminate.
  intros k Hk. assert (Hc : (k = 0 \/ k = 1 \/ k = 2)%nat) by lia.
  destruct Hc as [-> | [-> | ->]]; split; discriminate.
Defined.

(** The strict exchanges, [v2_rpc] of [protobuf_configure_daphne_v2] and
    [V2Link.request], on any peer and any queue: they return only a reply of the response
    direction whose correlation id is that of the one request they sent. *)
Theorem strict_exchanges_match {S B : Type} `{Peer S B, Size B, Proto B (ControlEnvelopeV2 B)}
    ids pid rand req_type (req : B) rt turns (w : zworld S B) env rep w' :
  (forall w0 r w1, ids w0 = (r, w1) -> sent w1 = sent w0) ->
  v2_rpc_strict ids req_type req rt w = (Ok (env, rep), w') \/
  v2link_request pid rand req_type req rt turns w = (Ok (env, rep), w') ->
  dir rep = DIR_RESPONSE /\ correl_id rep = msg_id env /\ mtype env = req_type /\
  payload env = req /\ sent w' = sent w ++ [ser env].
Proof.
  intros Hids [Hrun|Hrun].
  - unfold v2_rpc_strict in Hrun. inv_bind Hrun.
    apply build_env_sent in Hrun0 as (Ht & Hp & Hs); [|done].
    inv_bind Hrun. apply z_send_sent in Hrun0.
    inv_bind Hrun. apply recv_frames_sent in Hrun1.
    inv_bind Hrun. apply last_frame_same in Hrun2. inv_bind Hrun.
    apply (f_equal snd) in Hrun3. cbn in Hrun3. subst.
    destruct (Z.eqb_spec (dir a3) DIR_RESPONSE); [|done].
    destruct (Z.eqb_spec (correl_id a3) (msg_id a)); [|done].
    injection Hrun as <- <- <-. split_and!; auto; congruence.
  - unfold v2link_request in Hrun. inv_bind Hrun.
    apply build_env_sent in Hrun0 as (Ht & Hp & Hs); [|apply next_ids_sent].
    inv_bind Hrun. apply (f_equal (fun p => sent (snd p))) in Hrun0. cbn in Hrun0.
    inv_bind Hrun. apply z_send_sent in Hrun1.
    inv_bind Hrun. apply poll_loop_same in Hrun2.
    inv_bind Hrun. apply recv_frames_sent in Hrun3.
    inv_bind Hrun. apply (f_equal (fun p => sent (snd p))) in Hrun4. cbn in Hrun4.
    inv_bind Hrun. apply last_frame_same in Hrun5. inv_bind Hrun.
    apply (f_equal snd) in Hrun6. cbn in Hrun6.
    destruct (Z.eqb_spec (dir a6) DIR_RESPONSE); [|done].
    destruct (Z.eqb_spec (correl_id a6) (msg_id a)); [|done].
    injection Hrun as <- <- <-. split_and!; auto; congruence.
Qed.

Lemma strict_exchanges_match_witness :
  let w' := snd (v2_rpc_strict (next_ids 5 9) 258 (WMsg [] "") "mezz/0" (idle [])) in
  exists env rep : ControlEnvelopeV2 wire,
    dir rep = DIR_RESPONSE /\ correl_id rep = msg_id env /\ mtype env = 258 /\
    payload env = WMsg [] "" /\ sent w' = [] ++ [ser env].
Proof.
  intros w'.
  assert (Hr : exists p, fst (v2_rpc_strict (next_ids 5 9) 258 (WMsg [] "") "mezz/0" (idle [])) = Ok p)
    by (vm_compute; eexists; reflexivity).
  destruct Hr as [[env rep] Hr]. exists env, rep.
  apply (strict_exchanges_match (next_ids 5 9) 5 9 258 (WMsg [] "") "mezz/0" [] (idle []) env rep w').
  - apply next_ids_sent.
  - left. unfold w'. rewrite <- Hr. by destruct (v2_rpc_strict _ _ _ _ _).
Defined.

(** The identifiers of [next_ids] fit the [uint64] fields (they are below 2^63), and two
    requests made at the same clock reading have different message ids as long as the
    sequence numbers differ modulo 2^63. *)
Theorem next_ids_range {S B : Type} `{Peer S B} pid rand (w1 w2 : zworld S B) t1 m1 t2 m2 v1 v2 :
  next_ids pid rand w1 = (Ok (t1, m1), v1) -> next_ids pid rand w2 = (Ok (t2, m2), v2) ->
  (0 <= t1 < 2 ^ 63 /\ 0 <= m1 < 2 ^ 63) /\
  (clock w1 (ticks w1) = clock w2 (ticks w2) ->
   (seqno w1 + 1) mod 2 ^ 63 <> (seqno w2 + 1) mod 2 ^ 63 -> m1 <> m2).
Proof.
  unfold next_ids, bind, next_seq, time_ns, ret. cbn [seqno clock ticks]. intros H1 H2.
  simplify_eq. change MASK63 with (Z.ones 63). rewrite !Z.land_ones by lia.
  split; [split; apply Z.mod_pos_bound; lia|].
  intros -> Hne Heq. apply Hne. rewrite <- !Z.land_ones in * by lia.
  apply Z.bits_inj'. intros k Hk. apply (f_equal (fun z => Z.testbit z k)) in Heq.
  rewrite !Z.land_spec, !Z.lxor_spec in Heq. rewrite !Z.land_spec.
  destruct (Z.testbit (Z.shiftl (clock w2 (ticks w2)) 1) k),
    (Z.testbit (seqno w1 + 1) k), (Z.testbit (seqno w2 + 1) k), (Z.testbit (Z.ones 63) k);
    simpl in *; congruence.
Qed.

Lemma next_ids_range_witness :
  let '(t1, m1) := match fst (next_ids 5 9 (idle [])) with Ok p => p | Raise _ => (0, 0) end in
  let w2 := ZW 0%nat [] [] [] (fun _ => 1000 : Z) 0 (fun _ => 7) 0 1 [] : zworld nat wire in
  let '(t2, m2) := match fst (next_ids 5 9 w2) with Ok p => p | Raise _ => (0, 0) end in
  m1 <> m2.
Proof.
  set (w2 := ZW 0%nat [] [] [] (fun _ => 1000 : Z) 0 (fun _ => 7) 0 1 [] : zworld nat wire).
  apply (next_ids_range (S := nat) (B := wire) 5 9 (idle []) w2
    (match fst (next_ids 5 9 (idle [])) with Ok p => fst p | Raise _ => 0 end)
    (match fst (next_ids 5 9 (idle [])) with Ok p => snd p | Raise _ => 0 end)
    (match fst (next_ids 5 9 w2) with Ok p => fst p | Raise _ => 0 end)
    (match fst (next_ids 5 9 w2) with Ok p => snd p | Raise _ => 0 end)
    (snd (next_ids 5 9 (idle []))) (snd (next_ids 5 9 w2))); try reflexivity.
  vm_compute. discriminate.
Defined.
