(* ===== verification/Requests.v ===== *)
(** What the scripts send and how they fare with a server that answers: two ways to reason
    about a script over [EnvelopeV2], shared by the files that model the scripts.

    - [requests V p m]: whatever the peer does, [m] sends the requests [p] in order, all of them
      if it returns (a value of which [V] holds) and some first ones if it raises;
    - [easy V m]: from a quiet socket, with a server that answers, [m] returns a value of which
      [V] holds and leaves the socket quiet. *)
From S2P Require Import Prelude PyStr PyFloat PyVal EnvelopeV2.

(** ** Any peer *)

Section any_peer.
Context {S B : Type} `{Peer S B, Size B, !Proto B (ControlEnvelopeV2 B)}.
Abbreviation Wd := (zworld S B).
Abbreviation envelope := (ControlEnvelopeV2 B).

Definition tag (env : envelope) : Z * B := (mtype env, payload env).

Definition unsent {A : Type} (m : M Wd A) : Prop := forall w, sent (snd (m w)) = sent w.

Lemma unsent_lift {A : Type} (r : result A) : unsent (lift r : M Wd A).
Proof using Type. done. Qed.

Lemma unsent_bind {A C : Type} (m : M Wd A) (k : A -> M Wd C) :
  unsent m -> (forall a, unsent (k a)) -> unsent (bind m k).
Proof using Type.
  intros Hm Hk w. specialize (Hm w). unfold bind. destruct (m w) as [[a|e] w1]; [|exact Hm].
  by rewrite (Hk a w1).
Qed.

Lemma unsent_for_each {A : Type} (l : list A) (f : A -> M Wd unit) :
  (forall a, unsent (f a)) -> unsent (for_each l f).
Proof using Type.
  intros Hf. induction l as [|a l IH]; [done|]. cbn [for_each]. by apply unsent_bind.
Qed.

Lemma unsent_say s : unsent (say s : M Wd unit).
Proof using Type. done. Qed.

Lemma unsent_time : unsent (time_ns : M Wd Z).
Proof using Type. done. Qed.

Lemma unsent_when b (m : M Wd unit) : unsent m -> unsent (when b m).
Proof using Type. by destruct b. Qed.

Lemma unsent_last_frame frames : unsent (last_frame frames : M Wd B).
Proof using Type. intros w. unfold last_frame. by destruct (last frames). Qed.

Lemma unsent_recv : unsent (z_recv : M Wd B).
Proof using Type. intros w. destruct (z_recv w) as [r w1] eqn:Hz. by apply z_recv_sent in Hz. Qed.

Lemma recv_frames_quiet : unsent (recv_frames : M Wd (list B)).
Proof using Type.
  intros w. unfold recv_frames, bind. destruct (z_recv w) as [[f|e] w1] eqn:Hz;
    apply z_recv_sent in Hz; [|done]. unfold gets.
  destruct (recv_more (length (cur w1)) [f] w1) as [r w2] eqn:Hr.
  apply recv_more_sent in Hr. cbn. congruence.
Qed.

(** ** The requests of a run *)

Definition requests {A : Type} (V : A -> Prop) (p : list (Z * B)) (m : M Wd A) : Prop :=
  forall w, exists envs : list envelope,
    sent (snd (m w)) = sent w ++ (ser <$> envs) /\ tag <$> envs `prefix_of` p /\
    (forall a, fst (m w) = Ok a -> tag <$> envs = p /\ V a).

Lemma requests_ret {A : Type} (V : A -> Prop) a : V a -> requests V [] (ret a).
Proof using Type.
  intros Ha w. exists []. cbn. rewrite app_nil_r. split_and!; [done|done|]. by intros b [= <-].
Qed.

Lemma requests_unsent {A : Type} (m : M Wd A) : unsent m -> requests (fun _ => True) [] m.
Proof using Type.
  intros Hm w. exists []. cbn. rewrite app_nil_r. split_and!; [apply Hm|done|done].
Qed.

Lemma requests_raise {A : Type} (V : A -> Prop) p e : requests V p (raise e : M Wd A).
Proof using Type.
  intros w. exists []. cbn. rewrite app_nil_r. split_and!; [done|apply prefix_nil|done].
Qed.

Lemma requests_bind {A C : Type} (V : A -> Prop) (V' : C -> Prop) p1 p2 (m : M Wd A)
    (k : A -> M Wd C) :
  requests V p1 m -> (forall a, V a -> requests V' p2 (k a)) -> requests V' (p1 ++ p2) (bind m k).
Proof using Type.
  intros Hm Hk w. destruct (Hm w) as (e1 & Hs1 & Hp1 & Hn1). unfold bind.
  destruct (m w) as [[a|e] w1]; cbn in *.
  - destruct (Hn1 a eq_refl) as [Ht Ha]. destruct (Hk a Ha w1) as (e2 & Hs2 & Hp2 & Hn2).
    exists (e1 ++ e2). rewrite !fmap_app, Ht. split_and!.
    + by rewrite Hs2, Hs1, app_assoc.
    + by apply prefix_app.
    + intros b Hb. destruct (Hn2 b Hb) as [-> ?]. auto.
  - exists e1. split_and!; [done|by apply prefix_app_r|done].
Qed.

(** A step that sends nothing, first or last. *)
Lemma requests_step {A C : Type} (V' : C -> Prop) p (m : M Wd A) (k : A -> M Wd C) :
  unsent m -> (forall a, requests V' p (k a)) -> requests V' p (bind m k).
Proof using Type.
  intros Hm Hk. apply (requests_bind (fun _ => True) V' [] p); [by apply requests_unsent|auto].
Qed.

Lemma requests_then {A C : Type} (V : A -> Prop) p (m : M Wd A) (k : A -> M Wd C) :
  requests V p m -> (forall a, unsent (k a)) -> requests (fun _ => True) p (bind m k).
Proof using Type.
  intros Hm Hk. rewrite <- (app_nil_r p). apply (requests_bind V); [done|].
  intros a _. by apply requests_unsent.
Qed.

Lemma requests_for_each {A : Type} (l : list A) (f : A -> M Wd unit) (g : A -> list (Z * B)) :
  (forall a, a ∈ l -> requests (fun _ => True) (g a) (f a)) ->
  requests (fun _ => True) (concat (g <$> l)) (for_each l f).
Proof using Type.
  induction l as [|a l IH]; intros Hf; [by apply requests_ret|].
  cbn [for_each fmap list_fmap concat].
  apply (requests_bind (fun _ => True)); [apply Hf, list_elem_of_here|].
  intros _ _. apply IH. intros b Hb. apply Hf. by apply list_elem_of_further.
Qed.

Lemma requests_map_m {A C : Type} (l : list A) (f : A -> M Wd C) (g : A -> list (Z * B)) :
  (forall a, a ∈ l -> requests (fun _ => True) (g a) (f a)) ->
  requests (fun _ => True) (concat (g <$> l)) (map_m f l).
Proof using Type.
  induction l as [|a l IH]; intros Hf; [by apply requests_ret|].
  cbn [map_m fmap list_fmap concat].
  apply (requests_bind (fun _ => True)); [apply Hf, list_elem_of_here|]. intros c _.
  eapply requests_then; [apply IH|done]. intros b Hb. apply Hf. by apply list_elem_of_further.
Qed.

(** A field that is assigned before the request is made. *)
Lemma requests_lift {A C : Type} (V : C -> Prop) p (r : result A) (k : A -> M Wd C) :
  (forall a, r = Ok a -> requests V p (k a)) -> requests V p (bind (lift r) k).
Proof using Type.
  intros Hk. destruct r as [a|e]; [by apply (Hk a)|]. apply (requests_raise V p e).
Qed.

Lemma requests_u32 {C : Type} (V : C -> Prop) p z (k : Z -> M Wd C) :
  requests V p (k z) -> requests V p (bind (lift (set_u32 z)) k).
Proof using Type.
  intros Hk. apply requests_lift. intros a. unfold set_u32, set_uint.
  destruct ((0 <=? z) && (z <? 2 ^ 32)); [by intros [= <-]|done].
Qed.

Lemma requests_weaken {A : Type} (V V' : A -> Prop) p (m : M Wd A) :
  requests V p m -> (forall a, V a -> V' a) -> requests V' p m.
Proof using Type.
  intros Hm HV w. destruct (Hm w) as (envs & Hs & Hp & Hn). exists envs.
  split_and!; auto. intros a Ha. destruct (Hn a Ha). auto.
Qed.

(** ** The requests of an exchange *)

(** A generator of identifiers. *)
Definition id_source (ids : M Wd (Z * Z)) : Prop := forall w, exists p w',
  ids w = (Ok p, w') /\ sent w' = sent w /\ cur w' = cur w /\ inbox w' = inbox w.

Lemma id_next pid rand : id_source (next_ids pid rand).
Proof using Type. intros w. by eexists _, _. Qed.

Lemma id_random : id_source next_ids_random.
Proof using Type. intros w. by eexists _, _. Qed.

Lemma id_fixed : id_source next_ids_fixed.
Proof using Type. intros w. by eexists _, _. Qed.

Lemma build_env_ok ids ty (b : B) rt (w : Wd) :
  id_source ids -> exists env w', build_env ids ty b rt w = (Ok env, w') /\
    tag env = (ty, b) /\ sent w' = sent w /\ cur w' = cur w /\ inbox w' = inbox w.
Proof using Type.
  intros Hids. destruct (Hids w) as ([t k] & w1 & Hr & Hs & Hc & Hi). unfold build_env.
  rewrite (bind_run _ _ _ _ _ Hr). by eexists _, _.
Qed.

Lemma requests_send env : requests (fun _ => True) [tag env] (z_send (ser env) : M Wd unit).
Proof using Type.
  intros w. unfold z_send. destruct (can_send (srv w)); [destruct (answer (srv w) (ser env))|].
  - by exists [env].
  - exists []. cbn. rewrite app_nil_r. split_and!; [done|apply prefix_nil|done].
Qed.

Lemma requests_env {C : Type} (V : C -> Prop) ids ty (b : B) rt (k : envelope -> M Wd C) :
  id_source ids -> (forall env, tag env = (ty, b) -> requests V [(ty, b)] (k env)) ->
  requests V [(ty, b)] (bind (build_env ids ty b rt) k).
Proof using Type.
  intros Hids Hk w. destruct (build_env_ok ids ty b rt w Hids) as (env & w1 & Hr & Ht & Hs & _).
  rewrite (bind_run _ _ _ _ _ Hr). destruct (Hk env Ht w1) as (envs & Hs' & Hrest).
  exists envs. by rewrite <- Hs.
Qed.

(** After the send nothing more is sent. *)
Lemma requests_sent {C : Type} env (k : M Wd C) :
  unsent k -> requests (fun _ => True) [tag env] (z_send (ser env) ;;; k).
Proof using Type. intros Hk. eapply requests_then; [apply requests_send|by intros _]. Qed.

End any_peer.

(** Checks, readings of the clock and parses send nothing. *)
Ltac unsent_steps :=
  repeat first
    [ done | apply unsent_lift | apply recv_frames_quiet | apply unsent_recv
    | apply unsent_last_frame | apply unsent_say | apply unsent_when | apply unsent_bind; [|intros ?]
    | match goal with |- unsent (if ?b then _ else _) => destruct b end ].

Section exchanges.
Context {S B : Type} `{Peer S B, Size B, !Proto B (ControlEnvelopeV2 B)}.
Abbreviation Wd := (zworld S B).

Lemma requests_v2_rpc (R : Type) `{!Proto B R} ids ty (b : B) resp rt :
  id_source ids -> requests (fun _ => True) [(ty, b)] (v2_rpc R ids ty b resp rt).
Proof using Type.
  intros Hids. apply requests_env; [done|]. intros env <-. apply requests_sent. unsent_steps.
Qed.

Lemma requests_strict ids ty (b : B) rt :
  id_source ids -> requests (fun _ => True) [(ty, b)] (v2_rpc_strict ids ty b rt).
Proof using Type.
  intros Hids. apply requests_env; [done|]. intros env <-. apply requests_sent. unsent_steps.
Qed.

Lemma requests_send_v2 ids ty (b : B) rt :
  id_source ids -> requests (fun _ => True) [(ty, b)] (send_v2 ids ty b rt).
Proof using Type.
  intros Hids. apply requests_env; [done|]. intros env <-. apply requests_sent. unsent_steps.
Qed.

Lemma requests_unchecked ids ty (b : B) rt :
  id_source ids -> requests (fun _ => True) [(ty, b)] (send_v2_unchecked ids ty b rt).
Proof using Type.
  intros Hids. apply requests_env; [done|]. intros env <-. apply requests_sent. unsent_steps.
Qed.

Lemma requests_send_recv env ty : requests (fun _ => True) [tag env] (send_recv env ty).
Proof using Type. apply requests_sent. unsent_steps. Qed.

Lemma requests_send_and_recv env ty v : requests (fun _ => True) [tag env] (send_and_recv env ty v).
Proof using Type.
  unfold send_and_recv. apply requests_step; [done|intros t]. apply requests_step.
  { by apply unsent_when. }
  intros _. apply requests_sent. unsent_steps.
Qed.

End exchanges.

#[export] Hint Resolve id_next id_random id_fixed unsent_lift unsent_say unsent_time
  unsent_when recv_frames_quiet unsent_recv unsent_last_frame : py.

(** ** A server that answers *)

Section answering.
Context {S B : Type} `{Peer S B, Size B, !Proto B (ControlEnvelopeV2 B)}.
Abbreviation Wd := (zworld S B).
Abbreviation envelope := (ControlEnvelopeV2 B).

Definition calm (w : Wd) : Prop := cur w = [] /\ inbox w = [].

Definition easy {A : Type} (V : A -> Prop) (m : M Wd A) : Prop :=
  forall w, calm w -> exists a w', m w = (Ok a, w') /\ V a /\ calm w'.

Lemma easy_ret {A : Type} (V : A -> Prop) a : V a -> easy V (ret a).
Proof using Type. intros Ha w Hw. by exists a, w. Qed.

Lemma easy_bind {A C : Type} (V : A -> Prop) (V' : C -> Prop) (m : M Wd A) (k : A -> M Wd C) :
  easy V m -> (forall a, V a -> easy V' (k a)) -> easy V' (bind m k).
Proof using Type.
  intros Hm Hk w Hw. destruct (Hm w Hw) as (a & w1 & Hr & Ha & Hw1). unfold bind.
  rewrite Hr. by apply Hk.
Qed.

Lemma easy_say s : easy (fun _ => True) (say s).
Proof using Type. intros w Hw. by eexists _, _. Qed.

Lemma easy_show l : easy (fun _ => True) (show l).
Proof using Type. intros w Hw. by eexists _, _. Qed.

Lemma easy_when b (m : M Wd unit) : easy (fun _ => True) m -> easy (fun _ => True) (when b m).
Proof using Type. destruct b; [done|]. intros _. by apply easy_ret. Qed.

Lemma easy_for_each {A : Type} (l : list A) (f : A -> M Wd unit) :
  (forall a, easy (fun _ => True) (f a)) -> easy (fun _ => True) (for_each l f).
Proof using Type.
  intros Hf. induction l as [|a l IH]; [by intros w Hw; eexists _, _|].
  cbn [for_each]. eapply easy_bind; [apply Hf|]. auto.
Qed.

Lemma easy_map_m {A C : Type} (l : list A) (f : A -> M Wd C) (g : A -> C) :
  (forall a, a ∈ l -> easy (fun c => c = g a) (f a)) -> easy (fun cs => cs = g <$> l) (map_m f l).
Proof using Type.
  induction l as [|a l IH]; intros Hf; [by apply easy_ret|]. cbn [map_m].
  eapply easy_bind; [apply Hf, list_elem_of_here|intros c ->].
  eapply easy_bind; [apply IH; intros b Hb; apply Hf; by apply list_elem_of_further|].
  intros cs ->. by apply easy_ret.
Qed.

Lemma easy_for_each_in {A : Type} (l : list A) (f : A -> M Wd unit) :
  (forall a, a ∈ l -> easy (fun _ => True) (f a)) -> easy (fun _ => True) (for_each l f).
Proof using Type.
  induction l as [|a l IH]; intros Hf; [by apply easy_ret|]. cbn [for_each].
  eapply easy_bind; [apply Hf, list_elem_of_here|intros c _].
  apply IH; intros b Hb; apply Hf; by apply list_elem_of_further.
Qed.

Lemma easy_u32 {C : Type} (V : C -> Prop) z (k : Z -> M Wd C) :
  0 <= z < 2 ^ 32 -> easy V (k z) -> easy V (bind (lift (set_u32 z)) k).
Proof using Type.
  intros Hz Hk w Hw. unfold set_u32, set_uint, bind, lift.
  rewrite (proj2 (Z.leb_le _ _)), (proj2 (Z.ltb_lt _ _)) by lia. by apply Hk.
Qed.

Lemma easy_lift {A : Type} (r : result A) a : r = Ok a -> easy (fun x => x = a) (lift r).
Proof using Type. intros -> w Hw. by exists a, w. Qed.

Lemma easy_env ids ty (b : B) rt :
  id_source ids -> easy (fun env => tag env = (ty, b)) (build_env ids ty b rt).
Proof using Type.
  intros Hids w [Hc Hi]. destruct (build_env_ok ids ty b rt w Hids)
    as (env & w1 & Hr & Ht & _ & Hc1 & Hi1).
  exists env, w1. split_and!; [done|done|]. split; congruence.
Qed.

Context `{!ProtoLaws B (ControlEnvelopeV2 B)}.
Context (reply : envelope -> envelope) `{!Answering reply}.

(** The answer of a request is what its send and the next receive give. *)
Lemma easy_exchange {C : Type} (V : C -> Prop) env (k : list B -> M Wd C) :
  easy V (k [ser (reply env)]) -> easy V (z_send (ser env) ;;; bind recv_frames k).
Proof using All.
  intros Hk w [Hc Hi]. destruct (z_send_answer reply w env) as [s' Hs].
  rewrite (bind_run _ _ _ _ _ Hs). rewrite Hi. cbn [app].
  erewrite bind_run; [|apply (recv_frames_message _ (ser (reply env)) [] []); done].
  apply Hk. by split.
Qed.

Lemma correl_answer e env : check_correl e env (reply env) = Ok tt.
Proof using All.
  unfold check_correl. rewrite an_correl, Z.eqb_refl. by rewrite andb_false_r.
Qed.

Lemma easy_send_and_recv env ty v :
  mtype env + 1 = ty -> easy (fun rep => rep = reply env) (send_and_recv env ty v).
Proof using All.
  intros Hty. unfold send_and_recv.
  eapply (easy_bind (fun _ => True)); [by intros w Hw; eexists _, _|intros t _].
  eapply easy_bind; [apply easy_when, easy_show|intros _ _].
  apply easy_exchange.
  eapply (easy_bind (fun f => f = ser (reply env))); [by intros w Hw; eexists _, _|intros f ->].
  eapply (easy_bind (fun _ => True)); [by intros w Hw; eexists _, _|intros t2 _].
  eapply easy_bind; [apply easy_lift, (parse_or_ser reply), an_size|intros rep ->].
  eapply (easy_bind (fun _ => True)); [apply easy_when|intros _ _].
  { eapply easy_bind; [apply easy_show|intros _ _]. destruct (rtt_ok t t2) as [x Hx].
    eapply easy_bind; [by apply easy_lift|intros ? ->]. apply easy_show. }
  rewrite an_type, Hty, Z.eqb_refl. cbn [negb].
  eapply (easy_bind (fun _ => True)); [by apply easy_ret|intros _ _].
  eapply easy_bind; [apply easy_lift, correl_answer|intros _ _]. by apply easy_ret.
Qed.

Lemma easy_strict ids ty (b : B) rt :
  id_source ids ->
  easy (fun '(env, rep) => tag env = (ty, b) /\ rep = reply env) (v2_rpc_strict ids ty b rt).
Proof using All.
  intros Hids. eapply easy_bind; [by apply easy_env|intros env Ht].
  apply easy_exchange.
  eapply (easy_bind (fun f => f = ser (reply env))); [by intros w Hw; eexists _, _|intros f ->].
  eapply easy_bind; [apply easy_lift, (parse_or_ser reply), an_size|intros rep ->].
  rewrite an_dir, an_correl, !Z.eqb_refl. cbn [negb orb]. by apply easy_ret.
Qed.

End answering.
