(* ===== verification/FeConfig.v ===== *)
(** The front-end configuration request: [client/client_dictionaries.py], the helpers of
    [client/configure_fe_min_v2.py] and its request with the command line overrides. *)
From S2P Require Import Prelude PyStr PyFloat EnvelopeV2.

(** ** Messages of the configuration (daphneV3_high_level_confs.proto) *)

Record ChannelConfig : Type := Chan { ch_id : Z; ch_trim : Z; ch_offset : Z; ch_gain : Z }.

Record ADCConfig : Type := Adc { resolution : bool; output_format : bool; sb_first : bool }.
Record PGAConfig : Type :=
  Pga { lpf_cut_frequency : Z; pga_integrator_disable : bool; pga_gain : bool }.
Record LNAConfig : Type := Lna { clamp : Z; lna_gain : Z; lna_integrator_disable : bool }.

Record AFEConfig : Type := Afe {
  afe_id : Z; attenuators : Z; v_bias : Z; adc : ADCConfig; pga : PGAConfig; lna : LNAConfig }.

Record ConfigureRequest : Type := ConfReq {
  daphne_address : string; slot : Z; timeout_ms : Z; biasctrl : Z;
  self_trigger_threshold : Z; self_trigger_xcorr : Z; tp_conf : Z; compensator : Z;
  inverters : Z; channels : list ChannelConfig; afes : list AFEConfig;
  full_stream_channels : list Z }.

Record ConfigureResponse : Type := ConfResp { success : bool; message : string }.

(** A [bool] field takes an integer by its truth value. *)
Definition bool_of (z : Z) : bool := negb (z =? 0).

(** ** Option tables *)

Definition lpf_dict : list (Z * Z) := [(10, 4); (15, 0); (20, 2); (30, 3)].

Definition pga_clamp_level_dict : list (string * Z) :=
  [("-2 dBFS", 0); ("0 dBFS", 2); ("-2 dBFS_lowpower", 4); ("0 dBFS_lowpower", 6)].

Definition pga_gain_control_dict : list (string * Z) := [("24 dB", 0); ("30 dB", 1)].

Definition lna_gain_control_dict : list (string * Z) :=
  [("18 dB", 0); ("24 dB", 1); ("12 dB", 2)].

Definition lna_input_clamp_dict : list (string * Z) :=
  [("auto", 0); ("1.5 Vpp", 1); ("1.15 Vpp", 2); ("0.6 Vpp", 3)].

(** [d[k]] *)
Definition assoc {K V : Type} `{EqDecision K} (d : list (K * V)) (k : K) (text : string)
    : result V :=
  match find (fun kv => bool_decide (fst kv = k)) d with
  | Some (_, v) => Ok v
  | None => Raise (Exn KeyError text)
  end.

(** ** Conversions and parsers *)

Definition AFE_MAX : Z := 4.
Definition CH_MAX : Z := 39.
Definition BIAS_DAC_MAX : Z := 4095.

(** The float literals [26.1], [1000.0], [1.0] and [74.0]. *)
Definition f26_1 : float := f_decimal false 261 (-1).
Definition f1000 : float := f_of_Z 1000.

(** [bias_volts_to_dac] *)
Definition bias_volts_to_dac (volts : float) : result Z :=
  q <-! f_div f26_1 (f_add f26_1 f1000) ;;
  f_round (f_mul (f_mul q f1000) volts).

(** [bias_control_volts_to_dac] *)
Definition bias_control_volts_to_dac (volts : float) : result Z :=
  q <-! f_div (f_of_Z 1) (f_of_Z 74) ;;
  f_round (f_mul (f_mul q volts) f1000).

(** One item of [_parse_afe_kv_tokens] ([what] is [AFE], [hi] 4) or of
    [_parse_channel_kv_tokens] ([CHANNEL], [channel] and 39). *)
Definition parse_kv_item (what range_name : string) (hi : Z) (label item : string)
    : result (Z * float) :=
  match split_once ":" item with
  | None => Raise (Exn ValueError (label +:+ ": expected " +:+ what +:+ ":VALUE, got '"
                                   +:+ item +:+ "'"))
  | Some (key_s, value_s) =>
      key <-! int0 (strip key_s) ;;
      if (key <? 0) || (hi <? key)
      then Raise (Exn ValueError (label +:+ ": " +:+ range_name +:+ " out of range (0.."
                                  +:+ str_Z hi +:+ "), got " +:+ str_Z key))
      else value <-! py_float (strip value_s) ;; Ok (key, value)
  end.

(** The two nested loops: items that are empty after [strip] are skipped. *)
Definition kv_items (tokens : list string) : list string :=
  filter (fun i => i <> "") (tokens ≫= fun raw => strip <$> split_on "," raw).

Definition parse_afe_kv_tokens (tokens : list string) (label : string)
    : result (list (Z * float)) :=
  rmap (parse_kv_item "AFE" "AFE" AFE_MAX label) (kv_items tokens).

Definition parse_channel_kv_tokens (tokens : list string) (label : string)
    : result (list (Z * float)) :=
  rmap (parse_kv_item "CHANNEL" "channel" CH_MAX label) (kv_items tokens).

(** [_validate_dac_range] *)
Definition validate_dac_range (name : string) (value : Z) : result Z :=
  if (value <? 0) || (BIAS_DAC_MAX <? value)
  then Raise (Exn ValueError (name +:+ ": DAC out of range (0.." +:+ str_Z BIAS_DAC_MAX
                              +:+ "), got " +:+ str_Z value))
  else Ok value.

(** ** [make_default_config] *)

(** Its parameters; the generated [ADCConfig] has every field [set_adc_fields] looks for. *)
Record config_params : Type := {
  p_ip : string; p_slot : Z; p_timeout_ms : Z; p_biasctrl : Z; p_threshold : Z; p_xcorr : Z;
  p_tp_conf : Z; p_compensator : Z; p_inverters : Z; p_per_ch_trim : Z; p_per_ch_offset : Z;
  p_vgain : Z; p_lpf_cutoff : Z; p_pga_clamp_level : Z; p_pga_gain : Z; p_lna_gain : Z;
  p_lna_clamp : Z }.

Definition default_params : config_params := {|
  p_ip := "10.73.137.161"; p_slot := 0; p_timeout_ms := 500; p_biasctrl := 1300;
  p_threshold := 0xc; p_xcorr := 0x68; p_tp_conf := 0x0010DB35; p_compensator := 0xFFFFFFFFFF;
  p_inverters := 0xFF00000000; p_per_ch_trim := 0; p_per_ch_offset := 2275; p_vgain := 1600;
  p_lpf_cutoff := 4; p_pga_clamp_level := 2; p_pga_gain := 0; p_lna_gain := 2;
  p_lna_clamp := 0 |}.

Definition set_adc_fields (res fmt sb : bool) : ADCConfig := Adc res fmt sb.

Definition default_channel (p : config_params) (ch : Z) : result ChannelConfig :=
  id <-! set_u32 ch ;;
  trim <-! set_u32 (p_per_ch_trim p) ;;
  offset <-! set_u32 (p_per_ch_offset p) ;;
  gain <-! set_u32 1 ;;
  Ok (Chan id trim offset gain).

Definition default_afe (p : config_params) (afe : Z) : result AFEConfig :=
  id <-! set_u32 afe ;;
  att <-! set_u32 (p_vgain p) ;;
  bias <-! set_u32 0 ;;
  let adc := set_adc_fields true true false in
  lpf <-! set_u32 (p_lpf_cutoff p) ;;
  cl <-! set_u32 (p_lna_clamp p) ;;
  lg <-! set_u32 (p_lna_gain p) ;;
  Ok (Afe id att bias adc (Pga lpf true (bool_of (p_pga_gain p))) (Lna cl lg true)).

Definition make_default_config (p : config_params) : result ConfigureRequest :=
  sl <-! set_u32 (p_slot p) ;;
  tm <-! set_u32 (p_timeout_ms p) ;;
  bc <-! set_u32 (p_biasctrl p) ;;
  th <-! set_u64 (p_threshold p) ;;
  xc <-! set_u64 (p_xcorr p) ;;
  tp <-! set_u64 (p_tp_conf p) ;;
  co <-! set_u64 (p_compensator p) ;;
  inv <-! set_u64 (p_inverters p) ;;
  chs <-! rmap (default_channel p) (seqZ 0 40) ;;
  af <-! rmap (default_afe p) (seqZ 0 5) ;;
  Ok (ConfReq (p_ip p) sl tm bc th xc tp co inv chs af []).

(** ** The request of [configure_fe_min_v2.main] *)

(** The command line; the choices of the parser are the keys of the tables. *)
Record fe_args : Type := {
  fe_host : string; fe_port : Z; fe_route : string; fe_timeout : Z;
  fe_cfg_timeout_ms : option Z; fe_full : bool; fe_json : bool; fe_vgain : Z;
  fe_ch_offset : Z; fe_align_afes : bool; fe_lpf_cutoff : Z; fe_pga_clamp_level : string;
  fe_pga_gain_control : string; fe_lna_gain_control : string; fe_lna_input_clamp : string;
  fe_adc_resolution : Z; fe_biasctrl_dac : Z; fe_biasctrl_volts : option float;
  fe_afe_bias_dac : list string; fe_afe_bias_volts : list string; fe_ch_trim : list string }.

(** Overrides of one kind, later ones replacing earlier ones. *)
Definition add_overrides (name : Z -> string) (conv : float -> result Z)
    (kvs : list (Z * float)) (m : gmap Z Z) : result (gmap Z Z) :=
  rfold (fun m '(k, v) =>
    raw <-! conv v ;;
    d <-! validate_dac_range (name k) raw ;;
    Ok (<[k := d]> m)) kvs m.

Definition afe_bias_overrides (args : fe_args) : result (gmap Z Z) :=
  let name afe := "afe" +:+ str_Z afe +:+ " bias" in
  dacs <-! parse_afe_kv_tokens (fe_afe_bias_dac args) "--afe-bias-dac" ;;
  m <-! add_overrides name f_round dacs ∅ ;;
  volts <-! parse_afe_kv_tokens (fe_afe_bias_volts args) "--afe-bias-volts" ;;
  add_overrides name bias_volts_to_dac volts m.

Definition channel_trim_overrides (args : fe_args) : result (gmap Z Z) :=
  kvs <-! parse_channel_kv_tokens (fe_ch_trim args) "--ch-trim" ;;
  add_overrides (fun ch => "ch" +:+ str_Z ch +:+ " trim") f_round kvs ∅.

Definition override_afe (m : gmap Z Z) (res : Z) (a : AFEConfig) : AFEConfig :=
  Afe (afe_id a) (attenuators a) (default (v_bias a) (m !! afe_id a))
      (Adc (bool_of res) (output_format (adc a)) (sb_first (adc a))) (pga a) (lna a).

Definition override_channel (m : gmap Z Z) (c : ChannelConfig) : ChannelConfig :=
  Chan (ch_id c) (default (ch_trim c) (m !! ch_id c)) (ch_offset c) (ch_gain c).

Definition with_overrides (biases trims : gmap Z Z) (res : Z) (cfg : ConfigureRequest)
    : ConfigureRequest :=
  ConfReq (daphne_address cfg) (slot cfg) (timeout_ms cfg) (biasctrl cfg)
    (self_trigger_threshold cfg) (self_trigger_xcorr cfg) (tp_conf cfg) (compensator cfg)
    (inverters cfg) (override_channel trims <$> channels cfg)
    (override_afe biases res <$> afes cfg) (full_stream_channels cfg).

(** The request and the bias overrides that [main] sends. *)
Definition build_fe_request (args : fe_args) : result (ConfigureRequest * gmap Z Z) :=
  lpf_val <-! assoc lpf_dict (fe_lpf_cutoff args) (str_Z (fe_lpf_cutoff args)) ;;
  pga_clamp_val <-! assoc pga_clamp_level_dict (fe_pga_clamp_level args) (fe_pga_clamp_level args) ;;
  pga_gain_val <-! assoc pga_gain_control_dict (fe_pga_gain_control args)
                     (fe_pga_gain_control args) ;;
  lna_gain_val <-! assoc lna_gain_control_dict (fe_lna_gain_control args)
                     (fe_lna_gain_control args) ;;
  lna_clamp_val <-! assoc lna_input_clamp_dict (fe_lna_input_clamp args)
                      (fe_lna_input_clamp args) ;;
  raw <-! match fe_biasctrl_volts args with
          | Some v => bias_control_volts_to_dac v
          | None => Ok (fe_biasctrl_dac args)
          end ;;
  biasctrl_dac <-! validate_dac_range "biasctrl" raw ;;
  biases <-! afe_bias_overrides args ;;
  trims <-! channel_trim_overrides args ;;
  cfg <-! make_default_config {|
    p_ip := fe_host args; p_slot := p_slot default_params;
    p_timeout_ms := default (fe_timeout args) (fe_cfg_timeout_ms args);
    p_biasctrl := biasctrl_dac; p_threshold := p_threshold default_params;
    p_xcorr := p_xcorr default_params; p_tp_conf := p_tp_conf default_params;
    p_compensator := p_compensator default_params; p_inverters := p_inverters default_params;
    p_per_ch_trim := p_per_ch_trim default_params; p_per_ch_offset := fe_ch_offset args;
    p_vgain := fe_vgain args; p_lpf_cutoff := lpf_val; p_pga_clamp_level := pga_clamp_val;
    p_pga_gain := pga_gain_val; p_lna_gain := lna_gain_val; p_lna_clamp := lna_clamp_val |} ;;
  Ok (with_overrides biases trims (fe_adc_resolution args) cfg, biases).

(** ** Lemmas *)

Lemma set_uint_ok bits v u : set_uint bits v = Ok u <-> u = v /\ 0 <= v < 2 ^ bits.
Proof.
  unfold set_uint. destruct (Z.leb_spec 0 v), (Z.ltb_spec v (2 ^ bits)); simpl;
    split; intros H1; simplify_eq; try (destruct H1; lia); auto. by destruct H1 as [-> _].
Qed.

Lemma validate_dac_ok name v u :
  validate_dac_range name v = Ok u <-> u = v /\ 0 <= v <= BIAS_DAC_MAX.
Proof.
  unfold validate_dac_range. destruct (Z.ltb_spec v 0), (Z.ltb_spec BIAS_DAC_MAX v); simpl;
    split; intros H1; simplify_eq; try (destruct H1; lia); auto. by destruct H1 as [-> _].
Qed.

Definition is_dac (m : gmap Z Z) : Prop := map_Forall (fun _ d => 0 <= d <= BIAS_DAC_MAX) m.

Lemma is_dac_empty : is_dac ∅.
Proof. unfold is_dac. apply map_Forall_empty. Qed.

(** Every override that is kept is a DAC code, its key is that of a token. *)
Lemma add_overrides_dac name conv kvs m m' :
  is_dac m -> add_overrides name conv kvs m = Ok m' ->
  is_dac m' /\ (forall k, is_Some (m' !! k) -> is_Some (m !! k) \/ k ∈ fst <$> kvs).
Proof.
  revert m. induction kvs as [|[k v] kvs IH]; intros m Hm H; cbn in H.
  - simplify_eq. auto.
  - apply rbind_ok in H as (m1 & H1 & H). apply rbind_ok in H1 as (raw & _ & H1).
    apply rbind_ok in H1 as (d & [-> Hd]%validate_dac_ok & [= <-]).
    apply IH in H as [Hd' Hk]; [|by apply map_Forall_insert_2].
    split; [done|]. intros j Hj. destruct (Hk j Hj) as [Hj'|Hj'].
    + destruct (decide (j = k)) as [->|Hne]; [right; apply list_elem_of_here|].
      rewrite lookup_insert_ne in Hj' by done. auto.
    + right. by apply list_elem_of_further.
Qed.

(** The last override of a key wins. *)
Lemma add_overrides_last name conv kvs m m' k :
  add_overrides name conv kvs m = Ok m' ->
  match last (snd <$> filter (fun kv => fst kv = k) kvs) with
  | Some v => exists d, conv v = Ok d /\ m' !! k = Some d
  | None => m' !! k = m !! k
  end.
Proof.
  revert m m'. induction kvs as [|[j v] kvs IH] using rev_ind; intros m m' H.
  - cbn in H. by simplify_eq.
  - unfold add_overrides in H. rewrite rfold_app in H. apply rbind_ok in H as (m1 & H1 & H).
    cbn in H. apply rbind_ok in H as (m2 & H2 & [= <-]).
    apply rbind_ok in H2 as (raw & Hraw & H2).
    apply rbind_ok in H2 as (d & [-> Hd]%validate_dac_ok & [= <-]).
    rewrite filter_app, fmap_app.
    rewrite filter_cons, filter_nil. cbn [fst].
    destruct (decide (j = k)) as [->|Hne].
    + cbn [fmap list_fmap snd]. rewrite last_snoc. exists raw. split; [done|]. apply lookup_insert_eq.
    + cbn [fmap list_fmap]. rewrite app_nil_r. rewrite lookup_insert_ne by done. by apply IH.
Qed.

Lemma kv_item_key what rn hi label item k v :
  parse_kv_item what rn hi label item = Ok (k, v) -> 0 <= k <= hi.
Proof.
  unfold parse_kv_item. destruct (split_once ":" item) as [[ks vs]|]; [|done].
  intros H. apply rbind_ok in H as (key & _ & H).
  destruct (Z.ltb_spec key 0), (Z.ltb_spec hi key); cbn in H; try done.
  apply rbind_ok in H as (x & _ & [= <- <-]). lia.
Qed.

Lemma kv_keys what rn hi label items kvs :
  rmap (parse_kv_item what rn hi label) items = Ok kvs -> Forall (fun kv => 0 <= fst kv <= hi) kvs.
Proof.
  rewrite rmap_ok. induction 1 as [|item [k v] items kvs H Hall IH]; constructor; [|done].
  by eapply kv_item_key.
Qed.

Lemma fst_range (kvs : list (Z * float)) hi k :
  Forall (fun kv => 0 <= fst kv <= hi) kvs -> k ∈ fst <$> kvs -> 0 <= k <= hi.
Proof.
  intros Hall Hk. apply list_elem_of_fmap in Hk as ([j v] & -> & Hin).
  rewrite Forall_forall in Hall. by apply (Hall (j, v)).
Qed.

Lemma afe_bias_overrides_range args m :
  afe_bias_overrides args = Ok m ->
  is_dac m /\ forall k, is_Some (m !! k) -> 0 <= k <= AFE_MAX.
Proof.
  unfold afe_bias_overrides. intros H. apply rbind_ok in H as (dacs & Hd & H).
  apply rbind_ok in H as (m1 & H1 & H). apply rbind_ok in H as (volts & Hv & H).
  apply kv_keys in Hd, Hv. apply add_overrides_dac in H1 as [Hm1 Hk1]; [|apply is_dac_empty].
  apply add_overrides_dac in H as [Hm Hk]; [|done]. split; [done|]. intros k Hs.
  destruct (Hk k Hs) as [Hs1|Hin]; [|by apply (fst_range volts)].
  destruct (Hk1 k Hs1) as [Hs0|Hin]; [|by apply (fst_range dacs)].
  rewrite lookup_empty in Hs0. by destruct Hs0.
Qed.

Lemma channel_trim_overrides_range args m :
  channel_trim_overrides args = Ok m ->
  is_dac m /\ forall k, is_Some (m !! k) -> 0 <= k <= CH_MAX.
Proof.
  unfold channel_trim_overrides. intros H. apply rbind_ok in H as (kvs & Hd & H).
  apply kv_keys in Hd. apply add_overrides_dac in H as [Hm Hk]; [|apply is_dac_empty].
  split; [done|]. intros k Hs. destruct (Hk k Hs) as [Hs0|Hin]; [|by apply (fst_range kvs)].
  rewrite lookup_empty in Hs0. by destruct Hs0.
Qed.

Lemma rmap_lookup {A C : Type} (f : A -> result C) l bs i b :
  rmap f l = Ok bs -> bs !! i = Some b -> exists a, l !! i = Some a /\ f a = Ok b.
Proof.
  rewrite rmap_ok. intros H Hb. destruct (Forall2_lookup_r _ _ _ _ _ H Hb) as (a & Ha & Hf). eauto.
Qed.

Lemma rmap_length {A C : Type} (f : A -> result C) l bs :
  rmap f l = Ok bs -> length bs = length l.
Proof. rewrite rmap_ok. intros H. symmetry. by eapply Forall2_length. Qed.

(** The channels and AFEs of a default request. *)
Lemma make_default_ok p cfg :
  make_default_config p = Ok cfg ->
  length (channels cfg) = 40%nat /\ length (afes cfg) = 5%nat /\ biasctrl cfg = p_biasctrl p /\
  (forall i c, channels cfg !! i = Some c ->
     c = Chan (Z.of_nat i) (p_per_ch_trim p) (p_per_ch_offset p) 1) /\
  (forall i a, afes cfg !! i = Some a -> a = Afe (Z.of_nat i) (p_vgain p) 0 (Adc true true false)
     (Pga (p_lpf_cutoff p) true (bool_of (p_pga_gain p)))
     (Lna (p_lna_clamp p) (p_lna_gain p) true)).
Proof.
  unfold make_default_config. intros H.
  apply rbind_ok in H as (sl & _ & H). apply rbind_ok in H as (tm & _ & H).
  apply rbind_ok in H as (bc & [-> _]%set_uint_ok & H).
  do 5 apply rbind_ok in H as (? & _ & H).
  apply rbind_ok in H as (chs & Hc & H). apply rbind_ok in H as (af & Ha & [= <-]). cbn.
  split; [by rewrite (rmap_length _ _ _ Hc)|]. split; [by rewrite (rmap_length _ _ _ Ha)|].
  split; [done|]. split.
  - intros i c Hi. destruct (rmap_lookup _ _ _ _ _ Hc Hi) as (y & Hy & Hf).
    apply lookup_seqZ in Hy as [-> _]. unfold default_channel in Hf.
    apply rbind_ok in Hf as (? & [-> _]%set_uint_ok & Hf).
    apply rbind_ok in Hf as (? & [-> _]%set_uint_ok & Hf).
    apply rbind_ok in Hf as (? & [-> _]%set_uint_ok & Hf).
    apply rbind_ok in Hf as (? & [-> _]%set_uint_ok & [= <-]). done.
  - intros i a Hi. destruct (rmap_lookup _ _ _ _ _ Ha Hi) as (y & Hy & Hf).
    apply lookup_seqZ in Hy as [-> _]. unfold default_afe in Hf.
    apply rbind_ok in Hf as (? & [-> _]%set_uint_ok & Hf).
    apply rbind_ok in Hf as (? & [-> _]%set_uint_ok & Hf).
    apply rbind_ok in Hf as (? & [-> _]%set_uint_ok & Hf). cbn [set_adc_fields] in Hf.
    apply rbind_ok in Hf as (? & [-> _]%set_uint_ok & Hf).
    apply rbind_ok in Hf as (? & [-> _]%set_uint_ok & Hf).
    apply rbind_ok in Hf as (? & [-> _]%set_uint_ok & [= <-]). done.
Qed.

(** ** Properties *)

(** C9. The request [configure_fe_min_v2] sends: channels 0 to 39 and AFEs 0 to 4, each once
    and in order; every bias, trim and the bias control are 12-bit DAC codes (the channel offset
    and the VGAIN, which the script does not check against a DAC's width, are those of the options
    as they are); an override is found in the AFE or channel it names and nowhere else, and the
    bias overrides that will be written back are keyed by AFEs. *)
Theorem build_fe_request_correct args cfg biases :
  build_fe_request args = Ok (cfg, biases) ->
  length (channels cfg) = 40%nat /\ length (afes cfg) = 5%nat /\
  0 <= biasctrl cfg <= BIAS_DAC_MAX /\
  (forall i a, afes cfg !! i = Some a ->
     afe_id a = Z.of_nat i /\ attenuators a = fe_vgain args /\
     v_bias a = default 0 (biases !! Z.of_nat i) /\ 0 <= v_bias a <= BIAS_DAC_MAX /\
     resolution (adc a) = bool_of (fe_adc_resolution args)) /\
  (exists trims, channel_trim_overrides args = Ok trims /\
   forall i c, channels cfg !! i = Some c ->
     ch_id c = Z.of_nat i /\ ch_offset c = fe_ch_offset args /\ ch_gain c = 1 /\
     ch_trim c = default 0 (trims !! Z.of_nat i) /\ 0 <= ch_trim c <= BIAS_DAC_MAX) /\
  afe_bias_overrides args = Ok biases /\
  (forall k d, biases !! k = Some d -> 0 <= k <= AFE_MAX /\ 0 <= d <= BIAS_DAC_MAX).
Proof.
  unfold build_fe_request. intros H. do 6 apply rbind_ok in H as (? & _ & H).
  apply rbind_ok in H as (bc & [-> Hbc]%validate_dac_ok & H).
  apply rbind_ok in H as (m & Hm & H). apply rbind_ok in H as (trims & Ht & H).
  apply rbind_ok in H as (cfg0 & Hcfg & [= <- <-]).
  apply make_default_ok in Hcfg as (Hlc & Hla & Hbias & Hc & Ha). cbn in Hbias.
  pose proof (afe_bias_overrides_range _ _ Hm) as [Hdm Hkm].
  pose proof (channel_trim_overrides_range _ _ Ht) as [Hdt Hkt].
  assert (Hdef : forall (m : gmap Z Z) k, is_dac m -> 0 <= default 0 (m !! k) <= BIAS_DAC_MAX).
  { intros m0 k H0. destruct (m0 !! k) as [d|] eqn:Hd; cbn; [by eapply H0|]. unfold BIAS_DAC_MAX. lia. }
  unfold with_overrides. cbn [channels afes biasctrl]. rewrite !length_fmap.
  split; [done|]. split; [done|]. split; [by rewrite Hbias|]. split.
  { intros i a Hi. apply list_lookup_fmap_Some in Hi as (a0 & -> & Hi). apply Ha in Hi as ->.
    cbn. split_and!; try done; by apply Hdef. }
  split; [|split; [done|]].
  - exists trims. split; [done|]. intros i c Hi.
    apply list_lookup_fmap_Some in Hi as (c0 & -> & Hi). apply Hc in Hi as ->.
    cbn. split_and!; try done; by apply Hdef.
  - intros k d Hd. split; [apply Hkm; eauto|by eapply Hdm].
Qed.

Definition example_args : fe_args := {|
  fe_host := "127.0.0.1"; fe_port := 9876; fe_route := "mezz/0"; fe_timeout := 6000;
  fe_cfg_timeout_ms := None; fe_full := false; fe_json := false; fe_vgain := 1600;
  fe_ch_offset := 2275; fe_align_afes := false; fe_lpf_cutoff := 10;
  fe_pga_clamp_level := "0 dBFS"; fe_pga_gain_control := "24 dB";
  fe_lna_gain_control := "12 dB"; fe_lna_input_clamp := "auto"; fe_adc_resolution := 1;
  fe_biasctrl_dac := 1300; fe_biasctrl_volts := None;
  fe_afe_bias_dac := ["0:1017, 1:1323"]; fe_afe_bias_volts := ["1:40"]; fe_ch_trim := ["12:1000"] |}.

Lemma build_fe_request_correct_witness :
  match build_fe_request example_args with
  | Ok (cfg, biases) =>
      biases !! 1 = Some 1017 /\
      forall k d, biases !! k = Some d -> 0 <= k <= AFE_MAX /\ 0 <= d <= BIAS_DAC_MAX
  | Raise _ => False
  end.
Proof.
  destruct (build_fe_request example_args) as [[cfg biases]|e] eqn:H;
    [|by vm_compute in H].
  split.
  - assert (Hb : Ok biases = afe_bias_overrides example_args)
      by (symmetry; apply (build_fe_request_correct example_args cfg biases H)).
    assert (Hv : match afe_bias_overrides example_args with
                 | Ok m => m !! 1 = Some 1017 | Raise _ => False end)
      by (vm_compute; reflexivity).
    by rewrite <- Hb in Hv.
  - apply (build_fe_request_correct example_args cfg biases H).
Defined.

(** Overrides given twice: the last [--afe-bias-volts] of an AFE wins over every
    [--afe-bias-dac], and without one the last [--afe-bias-dac] counts. *)
Theorem afe_bias_overrides_last args m k dacs volts :
  parse_afe_kv_tokens (fe_afe_bias_dac args) "--afe-bias-dac" = Ok dacs ->
  parse_afe_kv_tokens (fe_afe_bias_volts args) "--afe-bias-volts" = Ok volts ->
  afe_bias_overrides args = Ok m ->
  match last (snd <$> filter (fun kv => fst kv = k) volts),
        last (snd <$> filter (fun kv => fst kv = k) dacs) with
  | Some v, _ => exists d, bias_volts_to_dac v = Ok d /\ m !! k = Some d
  | None, Some x => exists d, f_round x = Ok d /\ m !! k = Some d
  | None, None => m !! k = None
  end.
Proof.
  unfold afe_bias_overrides. intros -> -> H. cbn [rbind] in H.
  apply rbind_ok in H as (m1 & H1 & H).
  apply (add_overrides_last _ _ _ _ _ k) in H1, H.
  destruct (last (snd <$> filter _ volts)) as [v|]; [exact H|].
  destruct (last (snd <$> filter _ dacs)) as [x|]; rewrite H; [exact H1|].
  by rewrite H1, lookup_empty.
Qed.

Lemma afe_bias_overrides_last_witness :
  exists d, bias_volts_to_dac (f_of_Z 40) = Ok d /\
    match afe_bias_overrides example_args with Ok m => m !! 1 = Some d | Raise _ => False end.
Proof.
  destruct (afe_bias_overrides example_args) as [m|e] eqn:Hm; [|by vm_compute in Hm].
  apply (afe_bias_overrides_last example_args m 1 [(0, f_of_Z 1017); (1, f_of_Z 1323)]
    [(1, f_of_Z 40)]); [vm_compute; reflexivity|vm_compute; reflexivity|exact Hm].
Defined.
