(* ===== verification/PdsSeed.v ===== *)
(** Seed configurations of the PDS run tools: [client/pds_configure_utils.py].

    Decoded JSON is a [pyval]; assignments to protobuf fields check type and width as the
    runtime does. *)
From S2P Require Import Prelude PyStr PyFloat PyVal EnvelopeV2 FeConfig.

(** ** Fields taken from a document *)

Definition assign_u32 (v : pyval) : result Z := z <-! py_index v ;; set_u32 z.
Definition assign_u64 (v : pyval) : result Z := z <-! py_index v ;; set_u64 z.

(** [_maybe_get] *)
Definition maybe_get (values : pyval) (idx : nat) (dflt : pyval) : result pyval :=
  match values with
  | PyNone => Ok dflt
  | PyList l => Ok (default dflt (l !! idx))
  | PyStr s => Ok (default dflt ((fun c => PyStr (String c "")) <$> String.get idx s))
  | PyDict _ => Raise (Exn KeyError (str_Z (Z.of_nat idx)))
  | _ => Raise (type_error "object is not subscriptable")
  end.

(** ** Register values *)

(** [bitmask] of integers *)
Definition bitmask (indices : list Z) : result Z :=
  rfold (fun mask idx =>
    if idx <? 0 then Raise (Exn ValueError "negative shift count")
    else Ok (Z.lor mask (Z.shiftl 1 idx))) indices 0.

(** The trigger parameters: the integers given, and the two modes by their text ([None] when
    the key is absent). *)
Record trigger_conf : Type := {
  t_filter_mode : option string; t_slope_mode : option string; t_slope_threshold : option Z;
  t_pedestal_length : option Z; t_spybuffer_channel : option Z }.

Definition filter_modes : list (string * Z) :=
  [("compensated", 0); ("inverted", 1); ("xcorr", 2); ("raw", 3)].

(** [assemble_tp_conf] *)
Definition assemble_tp_conf (t : trigger_conf) : Z :=
  let filter_mode := match assoc filter_modes (default "inverted" (t_filter_mode t)) "" with
                     | Ok m => m | Raise _ => 1 end in
  let slope_mode := if decide (default "16" (t_slope_mode t) = "16") then 0 else 1 in
  let slope_threshold := default 12 (t_slope_threshold t) in
  let pedestal_length := default 64 (t_pedestal_length t) in
  let spybuffer_channel := default 63 (t_spybuffer_channel t) in
  let pedestal_code := Z.max 0 (Z.min 31 (pedestal_length / 8)) in
  let spy_code := Z.max 0 (Z.min 63 spybuffer_channel) in
  Z.lor (Z.lor (Z.lor (Z.lor (Z.land filter_mode 0x3)
    (Z.shiftl (Z.land slope_mode 0x1) 8))
    (Z.shiftl (Z.land slope_threshold 0x7F) 9))
    (Z.shiftl (Z.land pedestal_code 0x1F) 16))
    (Z.shiftl (Z.land spy_code 0x3F) 21).

(** [compute_self_trigger_xcorr] *)
Definition compute_self_trigger_xcorr (corr disc : option Z) : Z :=
  Z.lor (Z.shiftl (Z.land (default 0 disc) 0x3FFF) 28) (Z.land (default 0 corr) 0x0FFFFFFF).

(** ** [build_request_from_seed] *)

(** [_ensure_channel]: the position of the first channel with that id, appended if there is
    none. *)
Fixpoint ensure_channel (cs : list ChannelConfig) (id : Z) : result (list ChannelConfig * nat) :=
  match cs with
  | [] => u <-! set_u32 id ;; Ok ([Chan u 0 0 0], 0%nat)
  | c :: cs' =>
      if ch_id c =? id then Ok (cs, 0%nat)
      else '(cs'', i) <-! ensure_channel cs' id ;; Ok (c :: cs'', S i)
  end.

Definition empty_afe (id : Z) : AFEConfig :=
  Afe id 0 0 (Adc false false false) (Pga 0 false false) (Lna 0 0 false).

(** [_ensure_afe] *)
Fixpoint ensure_afe (l : list AFEConfig) (id : Z) : result (list AFEConfig * nat) :=
  match l with
  | [] => u <-! set_u32 id ;; Ok ([empty_afe u], 0%nat)
  | a :: l' =>
      if afe_id a =? id then Ok (l, 0%nat)
      else '(l'', i) <-! ensure_afe l' id ;; Ok (a :: l'', S i)
  end.

(** One iteration of the channel loop. *)
Definition overlay_channel (offsets trims gains : pyval) (idx : nat) (c : ChannelConfig)
    : result ChannelConfig :=
  o <-! maybe_get offsets idx (PyInt (ch_offset c)) ;; offset <-! assign_u32 o ;;
  t <-! maybe_get trims idx (PyInt (ch_trim c)) ;; trim <-! assign_u32 t ;;
  g <-! maybe_get gains idx (PyInt (ch_gain c)) ;; gain <-! assign_u32 g ;;
  Ok (Chan (ch_id c) trim offset gain).

Definition channel_step (offsets trims gains : pyval) (cs : list ChannelConfig)
    (item : nat * pyval) : result (list ChannelConfig) :=
  let '(idx, ch) := item in
  id <-! py_int ch ;;
  '(cs', i) <-! ensure_channel cs id ;;
  match cs' !! i with
  | Some c => c' <-! overlay_channel offsets trims gains idx c ;; Ok (<[i := c']> cs')
  | None => Raise (Exn IndexError "list index out of range")
  end.

(** The per-AFE lists of the seed, read once. *)
Record afe_seed : Type := {
  s_attenuators : pyval; s_v_biases : pyval;
  s_adc_res : pyval; s_adc_fmt : pyval; s_adc_sb : pyval;
  s_pga_cut : pyval; s_pga_int : pyval; s_pga_gain : pyval;
  s_lna_clamp : pyval; s_lna_gain : pyval; s_lna_int : pyval }.

(** [if l is not None: field = bool(_maybe_get(l, idx, field))] *)
Definition seed_bool (l : pyval) (idx : nat) (old : bool) : result bool :=
  match l with
  | PyNone => Ok old
  | _ => v <-! maybe_get l idx (PyBool old) ;; Ok (truthy v)
  end.

Definition seed_u32 (l : pyval) (idx : nat) (old : Z) : result Z :=
  match l with
  | PyNone => Ok old
  | _ => v <-! maybe_get l idx (PyInt old) ;; assign_u32 v
  end.

(** One iteration of the AFE loop. *)
Definition overlay_afe (prefer_seed_common : bool) (s : afe_seed) (idx : nat) (a : AFEConfig)
    : result AFEConfig :=
  at_ <-! maybe_get (s_attenuators s) idx (PyInt (attenuators a)) ;; att <-! assign_u32 at_ ;;
  vb <-! maybe_get (s_v_biases s) idx (PyInt (v_bias a)) ;; bias <-! assign_u32 vb ;;
  if prefer_seed_common then
    res <-! seed_bool (s_adc_res s) idx (resolution (adc a)) ;;
    fmt <-! seed_bool (s_adc_fmt s) idx (output_format (adc a)) ;;
    sb <-! seed_bool (s_adc_sb s) idx (sb_first (adc a)) ;;
    cut <-! seed_u32 (s_pga_cut s) idx (lpf_cut_frequency (pga a)) ;;
    pint <-! seed_bool (s_pga_int s) idx (pga_integrator_disable (pga a)) ;;
    pgain <-! seed_bool (s_pga_gain s) idx (pga_gain (pga a)) ;;
    cl <-! seed_u32 (s_lna_clamp s) idx (clamp (lna a)) ;;
    lg <-! seed_u32 (s_lna_gain s) idx (lna_gain (lna a)) ;;
    lint <-! seed_bool (s_lna_int s) idx (lna_integrator_disable (lna a)) ;;
    Ok (Afe (afe_id a) att bias (Adc res fmt sb) (Pga cut pint pgain) (Lna cl lg lint))
  else Ok (Afe (afe_id a) att bias (adc a) (pga a) (lna a)).

Definition afe_step (prefer_seed_common : bool) (s : afe_seed) (l : list AFEConfig)
    (item : nat * pyval) : result (list AFEConfig) :=
  let '(idx, v) := item in
  id <-! py_int v ;;
  '(l', i) <-! ensure_afe l id ;;
  match l' !! i with
  | Some a => a' <-! overlay_afe prefer_seed_common s idx a ;; Ok (<[i := a']> l')
  | None => Raise (Exn IndexError "list index out of range")
  end.

(** [enumerate] *)
Definition enumerate {A : Type} (l : list A) : list (nat * A) := imap pair l.

(** The AFE lists: [adcs.get("SB_first") or adcs.get("sb_first")] takes the first true one. *)
Definition read_afe_seed (afes : pyval) : result afe_seed :=
  att <-! dict_get afes "attenuators" (PyList []) ;;
  vb <-! dict_get afes "v_biases" (PyList []) ;;
  adcs <-! dict_get afes "adcs" (PyDict []) ;;
  pgas <-! dict_get afes "pgas" (PyDict []) ;;
  lnas <-! dict_get afes "lnas" (PyDict []) ;;
  res <-! dict_get adcs "resolution" PyNone ;;
  fmt <-! dict_get adcs "output_format" PyNone ;;
  sb1 <-! dict_get adcs "SB_first" PyNone ;;
  sb <-! (if truthy sb1 then Ok sb1 else dict_get adcs "sb_first" PyNone) ;;
  cut <-! dict_get pgas "lpf_cut_frequency" PyNone ;;
  pint <-! dict_get pgas "integrator_disable" PyNone ;;
  pgain <-! dict_get pgas "gain" PyNone ;;
  cl <-! dict_get lnas "clamp" PyNone ;;
  lg <-! dict_get lnas "gain" PyNone ;;
  lint <-! dict_get lnas "integrator_disable" PyNone ;;
  Ok {| s_attenuators := att; s_v_biases := vb; s_adc_res := res; s_adc_fmt := fmt;
        s_adc_sb := sb; s_pga_cut := cut; s_pga_int := pint; s_pga_gain := pgain;
        s_lna_clamp := cl; s_lna_gain := lg; s_lna_int := lint |}.

Definition build_request_from_seed (seed_cfg : pyval) (d : ConfigureRequest)
    (prefer_seed_common : bool) : result ConfigureRequest :=
  v <-! dict_get seed_cfg "slot_id" (PyInt (slot d)) ;; sl <-! assign_u32 v ;;
  v <-! dict_get seed_cfg "bias_ctrl" (PyInt (biasctrl d)) ;; bc <-! assign_u32 v ;;
  v <-! dict_get seed_cfg "self_trigger_threshold" (PyInt (self_trigger_threshold d)) ;;
  th <-! assign_u64 v ;;
  v <-! dict_get seed_cfg "self_trigger_xcorr" (PyInt (self_trigger_xcorr d)) ;; xc <-! assign_u64 v ;;
  v <-! dict_get seed_cfg "tp_conf" (PyInt (tp_conf d)) ;; tp <-! assign_u64 v ;;
  v <-! dict_get seed_cfg "compensator" (PyInt (compensator d)) ;; co <-! assign_u64 v ;;
  w <-! dict_get seed_cfg "inverters" (PyInt (inverters d)) ;;
  v <-! dict_get seed_cfg "inverter" w ;; inv <-! assign_u64 v ;;
  v <-! dict_get seed_cfg "full_stream_channels" (PyList []) ;;
  fs <-! py_iter v ;; full <-! rmap assign_u32 fs ;;
  chan_cfg <-! dict_get seed_cfg "channel_analog_conf" (PyDict []) ;;
  ch_ids <-! dict_get chan_cfg "ids" (PyList []) ;;
  offsets <-! dict_get chan_cfg "offsets" (PyList []) ;;
  trims <-! dict_get chan_cfg "trims" (PyList []) ;;
  gains <-! dict_get chan_cfg "gains" (PyList []) ;;
  ids <-! py_iter ch_ids ;;
  chs <-! rfold (channel_step offsets trims gains) (enumerate ids) (channels d) ;;
  afes_v <-! dict_get seed_cfg "afes" (PyDict []) ;;
  afe_ids <-! dict_get afes_v "ids" (PyList []) ;;
  s <-! read_afe_seed afes_v ;;
  aids <-! py_iter afe_ids ;;
  afs <-! rfold (afe_step prefer_seed_common s) (enumerate aids) (afes d) ;;
  Ok (ConfReq (daphne_address d) sl (timeout_ms d) bc th xc tp co inv chs afs full).

(** [build_defaults_from_args] *)
Definition build_defaults_from_args (ip : string) (slot per_ch_offset vgain lpf_cutoff pga_gain
    lna_gain lna_clamp : Z) : result ConfigureRequest :=
  let d := default_params in
  make_default_config {|
    p_ip := ip; p_slot := slot; p_timeout_ms := p_timeout_ms d; p_biasctrl := p_biasctrl d;
    p_threshold := p_threshold d; p_xcorr := p_xcorr d; p_tp_conf := p_tp_conf d;
    p_compensator := p_compensator d; p_inverters := p_inverters d;
    p_per_ch_trim := p_per_ch_trim d; p_per_ch_offset := per_ch_offset; p_vgain := vgain;
    p_lpf_cutoff := lpf_cutoff; p_pga_clamp_level := p_pga_clamp_level d;
    p_pga_gain := pga_gain; p_lna_gain := lna_gain; p_lna_clamp := lna_clamp |}.

(** ** Lemmas *)

Lemma field_range v n : 0 <= n -> 0 <= Z.land v (Z.ones n) < 2 ^ n.
Proof. intros Hn. rewrite Z.land_ones by done. apply Z.mod_pos_bound. lia. Qed.

Lemma field_at q r v n w : 0 <= n -> 0 <= r < 2 ^ n -> 0 <= v < 2 ^ w -> 0 <= w ->
  Z.land (Z.shiftr (r + (v + q * 2 ^ w) * 2 ^ n) n) (Z.ones w) = v.
Proof.
  intros Hn Hr Hv Hw. rewrite Z.shiftr_div_pow2, Z.land_ones by done.
  rewrite Z.div_add by lia. rewrite (Z.div_small r) by done. rewrite Z.add_0_l.
  rewrite Z.mod_add by lia. by apply Z.mod_small.
Qed.

Lemma filter_mode_range k :
  0 <= match assoc filter_modes k "" with Ok m => m | Raise _ => 1 end < 4.
Proof.
  destruct (assoc filter_modes k "") as [m|] eqn:Ha; [|lia].
  unfold assoc in Ha. destruct (find _ filter_modes) as [[k' w]|] eqn:Hf; [|done].
  injection Ha as <-. apply find_some in Hf as [Hin _].
  repeat (destruct Hin as [[= <- <-]|Hin]; [lia|]). done.
Qed.

Lemma bitmask_from l acc m :
  rfold (fun mask idx => if idx <? 0 then Raise (Exn ValueError "negative shift count")
    else Ok (Z.lor mask (Z.shiftl 1 idx))) l acc = Ok m ->
  Forall (fun i => 0 <= i) l /\
  forall k, 0 <= k -> Z.testbit m k = Z.testbit acc k || bool_decide (k ∈ l).
Proof.
  revert acc. induction l as [|i l IH]; intros acc H; cbn in H.
  - simplify_eq. split; [constructor|]. intros k Hk.
    by rewrite bool_decide_eq_false_2, orb_false_r by (apply not_elem_of_nil).
  - destruct (Z.ltb_spec i 0); [done|]. apply IH in H as [Hl Hm]. split; [by constructor|].
    intros k Hk. rewrite Hm, Z.lor_spec, Z.shiftl_spec by done.
    rewrite <- orb_assoc. f_equal.
    destruct (Z.eq_dec k i) as [->|Hne].
    + rewrite Z.sub_diag. symmetry. apply bool_decide_eq_true_2, list_elem_of_here.
    + assert (H1 : Z.testbit 1 (k - i) = false).
      { destruct (Z.ltb_spec k i); [by apply Z.testbit_neg_r; lia|].
        apply Z.bits_above_log2; simpl; lia. }
      rewrite H1. apply bool_decide_ext. rewrite elem_of_cons. tauto.
Qed.

Lemma bitmask_raises l acc e :
  rfold (fun mask idx => if idx <? 0 then Raise (Exn ValueError "negative shift count")
    else Ok (Z.lor mask (Z.shiftl 1 idx))) l acc = Raise e ->
  Exists (fun i => i < 0) l /\ exn_class e = ValueError.
Proof.
  revert acc. induction l as [|i l IH]; intros acc H; cbn in H; [done|].
  destruct (Z.ltb_spec i 0); cbn in H.
  - injection H as <-. split; [by left|done].
  - apply IH in H as [He Hc]. split; [by right|done].
Qed.

(** [_ensure_channel] adds at most one channel, with the id asked for. *)
Lemma ensure_channel_ok cs id cs' i :
  ensure_channel cs id = Ok (cs', i) ->
  (exists c, cs' !! i = Some c /\ ch_id c = id) /\
  ((id ∈ ch_id <$> cs /\ cs' = cs) \/
   (~ id ∈ ch_id <$> cs /\ cs' = cs ++ [Chan id 0 0 0] /\ i = length cs)).
Proof.
  revert cs' i. induction cs as [|c cs IH]; intros cs' i H; cbn in H.
  - apply rbind_ok in H as (u & [-> _]%set_uint_ok & [= <- <-]). split; [by eexists|].
    right. split_and!; [apply not_elem_of_nil|done|done].
  - destruct (Z.eqb_spec (ch_id c) id) as [<-|Hne].
    + injection H as <- <-. split; [by eexists|]. left. split; [apply list_elem_of_here|done].
    + apply rbind_ok in H as ([cs1 j] & H1 & [= <- <-]).
      destruct (IH _ _ H1) as [(c' & Hc & Hid) Hcase]. split; [by exists c'|].
      destruct Hcase as [[Hin ->]|(Hout & -> & ->)].
      * left. split; [by apply list_elem_of_further|done].
      * right. split_and!; [|done|done]. cbn. rewrite not_elem_of_cons. split; [congruence|done].
Qed.

Lemma channel_step_ids offsets trims gains cs item cs' :
  channel_step offsets trims gains cs item = Ok cs' ->
  exists id, py_int (snd item) = Ok id /\
  (NoDup (ch_id <$> cs) -> NoDup (ch_id <$> cs')) /\
  (forall k, k ∈ ch_id <$> cs' <-> k ∈ ch_id <$> cs \/ k = id) /\
  (forall c, c ∈ cs -> ch_id c <> id -> c ∈ cs').
Proof.
  unfold channel_step. destruct item as [idx v]. cbn [snd]. intros H.
  apply rbind_ok in H as (id & Hid & H). apply rbind_ok in H as ([cs1 i] & He & H).
  destruct (cs1 !! i) as [c|] eqn:Hi; [|done].
  apply rbind_ok in H as (c' & Hc & [= <-]). exists id. split; [done|].
  assert (Hcid : ch_id c' = ch_id c).
  { unfold overlay_channel in Hc. do 6 apply rbind_ok in Hc as (? & _ & Hc). by injection Hc as <-. }
  apply ensure_channel_ok in He as [(c0 & Hc0 & Hcid0) Hcase].
  assert (c0 = c) as -> by congruence.
  assert (Hmap : ch_id <$> <[i:=c']> cs1 = ch_id <$> cs1).
  { rewrite list_fmap_insert, Hcid. apply list_insert_id. by rewrite list_lookup_fmap, Hi. }
  rewrite Hmap. split_and!.
  - intros Hnd. destruct Hcase as [[_ ->]|(Hout & -> & _)]; [done|].
    rewrite fmap_app. apply NoDup_app. split_and!; [done| |apply NoDup_singleton].
    intros k Hk ->%list_elem_of_singleton. done.
  - intros k. destruct Hcase as [[Hin ->]|(Hout & -> & _)].
    + split; [by left|]. by intros [?| ->].
    + rewrite fmap_app, elem_of_app. cbn. rewrite list_elem_of_singleton. done.
  - intros x Hx Hne. apply list_elem_of_lookup_1 in Hx as [j Hj].
    apply list_elem_of_lookup_2 with j.
    assert (Hj1 : cs1 !! j = Some x).
    { destruct Hcase as [[_ ->]|(_ & -> & _)]; [done|]. by apply lookup_app_l_Some. }
    rewrite list_lookup_insert_ne; [done|]. intros ->. congruence.
Qed.

Lemma channel_fold offsets trims gains items cs cs' :
  rfold (channel_step offsets trims gains) items cs = Ok cs' ->
  (NoDup (ch_id <$> cs) -> NoDup (ch_id <$> cs')) /\
  (forall k, k ∈ ch_id <$> cs' <->
     k ∈ (ch_id <$> cs) \/ exists v, v ∈ (snd <$> items) /\ py_int v = Ok k) /\
  (forall c, c ∈ cs -> (forall v, v ∈ snd <$> items -> py_int v <> Ok (ch_id c)) -> c ∈ cs').
Proof.
  revert cs. induction items as [|it items IH]; intros cs H; cbn [rfold] in H.
  - injection H as <-. split_and!; [done| |done]. intros k. split; [by left|].
    intros [?|(v & Hv & _)]; [done|by apply not_elem_of_nil in Hv].
  - apply rbind_ok in H as (cs1 & H1 & H).
    apply channel_step_ids in H1 as (id & Hid & Hnd & Hin & Hkeep).
    apply IH in H as (Hnd' & Hin' & Hkeep'). split_and!; [auto| |].
    + intros k. rewrite Hin', Hin. cbn [fmap list_fmap]. split.
      * intros [[?| ->]|(v & Hv & Hk)]; [by left| |].
        -- right. exists (snd it). split; [apply list_elem_of_here|done].
        -- right. exists v. split; [by apply list_elem_of_further|done].
      * intros [?|(v & [->|Hv]%elem_of_cons & Hk)]; [by left; left| |].
        -- left. right. congruence.
        -- right. by exists v.
    + intros c Hc Hv. apply Hkeep'.
      * apply Hkeep; [done|]. intros He. apply (Hv (snd it)); [apply list_elem_of_here|congruence].
      * intros v Hin2. apply Hv. by apply list_elem_of_further.
Qed.

Lemma enumerate_snd {A : Type} (l : list A) : snd <$> enumerate l = l.
Proof.
  unfold enumerate. apply list_eq. intros i.
  rewrite list_lookup_fmap, list_lookup_imap. by destruct (l !! i).
Qed.

(** ** Properties *)

(** [bitmask] sets exactly the bits of its indices, and raises on a negative one. *)
Theorem bitmask_correct l :
  match bitmask l with
  | Ok m => Forall (fun i => 0 <= i) l /\
            forall k, 0 <= k -> Z.testbit m k = bool_decide (k ∈ l)
  | Raise e => Exists (fun i => i < 0) l /\ exn_class e = ValueError
  end.
Proof.
  destruct (bitmask l) as [m|e] eqn:H.
  - apply bitmask_from in H as [Hl Hm]. split; [done|]. intros k Hk.
    by rewrite Hm, Z.bits_0 by done.
  - by eapply bitmask_raises.
Qed.

(** [assemble_tp_conf] packs its parameters without overlap: the value fits 27 bits, and
    the fields read back are the filter mode, the slope mode, the low seven bits of the slope
    threshold, the pedestal length in eights clipped to 31 and the spy channel clipped to 63. *)
Theorem assemble_tp_conf_fields t :
  let v := assemble_tp_conf t in
  0 <= v < 2 ^ 27 /\
  Z.land v 0x3 = match assoc filter_modes (default "inverted" (t_filter_mode t)) "" with
                 | Ok m => m | Raise _ => 1 end /\
  Z.land (Z.shiftr v 8) 0x1 = (if decide (default "16" (t_slope_mode t) = "16") then 0 else 1) /\
  Z.land (Z.shiftr v 9) 0x7F = default 12 (t_slope_threshold t) mod 128 /\
  Z.land (Z.shiftr v 16) 0x1F = Z.max 0 (Z.min 31 (default 64 (t_pedestal_length t) / 8)) /\
  Z.land (Z.shiftr v 21) 0x3F = Z.max 0 (Z.min 63 (default 63 (t_spybuffer_channel t))).
Proof.
  intros v. unfold assemble_tp_conf in v. cbv zeta in v.
  set (fm := match assoc _ _ _ with Ok m => m | Raise _ => 1 end) in *.
  set (sm := if decide _ then 0 else 1) in *.
  assert (Hfm : 0 <= fm < 4) by apply filter_mode_range.
  assert (Hsm : 0 <= sm < 2) by (unfold sm; destruct (decide _); lia).
  set (ped := Z.max 0 (Z.min 31 _)) in *. set (spy := Z.max 0 (Z.min 63 _)) in *.
  assert (Hped : 0 <= ped < 32) by lia. assert (Hspy : 0 <= spy < 64) by lia.
  set (st := default 12 (t_slope_threshold t)) in *.
  set (w := Z.land st 0x7F) in *.
  assert (Hw : w = st mod 128) by (apply (Z.land_ones st 7); lia).
  assert (Hst : 0 <= w < 128) by (rewrite Hw; apply Z.mod_pos_bound; lia).
  assert (Hv : v = fm + sm * 2 ^ 8 + w * 2 ^ 9 + ped * 2 ^ 16 + spy * 2 ^ 21).
  { unfold v. clearbody w. clear v Hw.
    change 0x3 with (Z.ones 2). change (Z.land sm 0x1) with (Z.land sm (Z.ones 1)).
    change 0x1F with (Z.ones 5). change 0x3F with (Z.ones 6). clearbody fm sm ped spy.
    rewrite !Z.land_ones by lia.
    rewrite (Z.mod_small fm), (Z.mod_small sm), (Z.mod_small ped), (Z.mod_small spy) by lia.
    rewrite (lor_field fm), (lor_field (fm + _)) by lia.
    rewrite (lor_field (fm + _ + _)), (lor_field (fm + _ + _ + _)) by lia. done. }
  clearbody v w fm sm ped spy. rewrite <- Hw.
  split; [lia|]. split.
  { change 0x3 with (Z.ones 2). rewrite Z.land_ones by lia. symmetry. apply (Z.mod_unique_pos _ _
      (sm * 2 ^ 6 + w * 2 ^ 7 + ped * 2 ^ 14 + spy * 2 ^ 19)); lia. }
  split_and!.
  - etransitivity; [|apply (field_at (w + ped * 2 ^ 7 + spy * 2 ^ 12) fm sm 8 1); lia].
    rewrite Hv. do 2 f_equal. lia.
  - etransitivity; [|apply (field_at (ped + spy * 2 ^ 5) (fm + sm * 2 ^ 8) w 9 7); lia].
    rewrite Hv. do 2 f_equal. lia.
  - etransitivity; [|apply (field_at spy (fm + sm * 2 ^ 8 + w * 2 ^ 9) ped 16 5); lia].
    rewrite Hv. do 2 f_equal. lia.
  - etransitivity; [|apply (field_at 0 (fm + sm * 2 ^ 8 + w * 2 ^ 9 + ped * 2 ^ 16) spy 21 6); lia].
    rewrite Hv. do 2 f_equal. lia.
Qed.

(** [build_request_from_seed] never duplicates a channel: distinct channel ids stay
    distinct, the channels afterwards are the default ones and those the seed names, and a
    channel the seed does not name is kept as it was. *)
Theorem seed_overlay_channels seed d prefer cfg :
  build_request_from_seed seed d prefer = Ok cfg ->
  exists named : list pyval,
    (NoDup (ch_id <$> channels d) -> NoDup (ch_id <$> channels cfg)) /\
    (forall k, k ∈ ch_id <$> channels cfg <->
       k ∈ (ch_id <$> channels d) \/ exists v, v ∈ named /\ py_int v = Ok k) /\
    (forall c, c ∈ channels d -> (forall v, v ∈ named -> py_int v <> Ok (ch_id c)) ->
       c ∈ channels cfg) /\
    (forall conf ids, dict_get seed "channel_analog_conf" (PyDict []) = Ok conf ->
       dict_get conf "ids" (PyList []) = Ok (PyList ids) -> named = ids).
Proof.
  unfold build_request_from_seed. intros H.
  do 15 apply rbind_ok in H as (? & _ & H).
  do 3 apply rbind_ok in H as (? & _ & H).
  apply rbind_ok in H as (conf & Hconf & H). apply rbind_ok in H as (idsv & Hids & H).
  do 3 apply rbind_ok in H as (? & _ & H).
  apply rbind_ok in H as (ids & Hit & H). apply rbind_ok in H as (chs & Hch & H).
  do 4 apply rbind_ok in H as (? & _ & H). apply rbind_ok in H as (afs & _ & [= <-]).
  cbn [channels]. apply channel_fold in Hch as (Hnd & Hin & Hkeep).
  rewrite enumerate_snd in Hin, Hkeep. exists ids. split_and!; [done|done|done|].
  intros conf' ids' Hc Hi. rewrite Hconf in Hc. injection Hc as <-. rewrite Hids in Hi.
  injection Hi as ->. cbn in Hit. by injection Hit as <-.
Qed.

Definition example_seed : pyval :=
  PyDict [("slot_id", PyInt 1);
          ("channel_analog_conf", PyDict
             [("ids", PyList [PyInt 3; PyStr "41"; PyBool true]); ("offsets", PyList [PyInt 2000]);
              ("trims", PyList []); ("gains", PyNone)]);
          ("afes", PyDict [("ids", PyList [PyInt 2]); ("v_biases", PyList [PyInt 900])])].

Definition example_defaults : ConfigureRequest :=
  match build_defaults_from_args "127.0.0.1" 0 2275 1600 4 0 2 0 with
  | Ok d => d
  | Raise _ => ConfReq "" 0 0 0 0 0 0 0 0 [] [] []
  end.

Lemma seed_overlay_channels_witness :
  match build_request_from_seed example_seed example_defaults false with
  | Ok cfg => length (channels cfg) = 41%nat /\
      exists named : list pyval,
        forall k, k ∈ ch_id <$> channels cfg <->
          k ∈ (ch_id <$> channels example_defaults) \/ exists v, v ∈ named /\ py_int v = Ok k
  | Raise _ => False
  end.
Proof.
  assert (Hrun : match build_request_from_seed example_seed example_defaults false with
                 | Ok cfg => length (channels cfg) = 41%nat | Raise _ => False end)
    by (vm_compute; reflexivity).
  destruct (build_request_from_seed example_seed example_defaults false) as [cfg|e] eqn:H;
    [|done].
  split; [done|].
  destruct (seed_overlay_channels example_seed example_defaults false cfg H) as (named & _ & Hk & _).
  by exists named.
Defined.

(** ** Types *)

Definition u32 (v : Z) : Prop := 0 <= v < 2 ^ 32.
Definition u64 (v : Z) : Prop := 0 <= v < 2 ^ 64.

Definition typed_channel (c : ChannelConfig) : Prop :=
  u32 (ch_id c) /\ u32 (ch_trim c) /\ u32 (ch_offset c) /\ u32 (ch_gain c).

Definition typed_afe (a : AFEConfig) : Prop :=
  u32 (afe_id a) /\ u32 (attenuators a) /\ u32 (v_bias a) /\ u32 (lpf_cut_frequency (pga a)) /\
  u32 (clamp (lna a)) /\ u32 (lna_gain (lna a)).

(** The messages the protobuf runtime accepts: every integer fits its field. *)
Definition well_typed (c : ConfigureRequest) : Prop :=
  u32 (slot c) /\ u32 (timeout_ms c) /\ u32 (biasctrl c) /\ u64 (self_trigger_threshold c) /\
  u64 (self_trigger_xcorr c) /\ u64 (tp_conf c) /\ u64 (compensator c) /\ u64 (inverters c) /\
  Forall typed_channel (channels c) /\ Forall typed_afe (afes c) /\
  Forall u32 (full_stream_channels c).

Create HintDb typed.

Lemma set_u32_typed v u : set_u32 v = Ok u -> u32 u.
Proof. by intros [-> ?]%set_uint_ok. Qed.
Lemma set_u64_typed v u : set_u64 v = Ok u -> u64 u.
Proof. by intros [-> ?]%set_uint_ok. Qed.
Lemma assign_u32_typed v u : assign_u32 v = Ok u -> u32 u.
Proof. intros (z & _ & H)%rbind_ok. by eapply set_u32_typed. Qed.
Lemma assign_u64_typed v u : assign_u64 v = Ok u -> u64 u.
Proof. intros (z & _ & H)%rbind_ok. by eapply set_u64_typed. Qed.
#[export] Hint Resolve set_u32_typed set_u64_typed assign_u32_typed assign_u64_typed : typed.

Lemma seed_u32_typed l idx old u : u32 old -> seed_u32 l idx old = Ok u -> u32 u.
Proof.
  intros Ho H. destruct l; cbn [seed_u32] in H; [by injection H as <-|..];
    apply rbind_ok in H as (y & _ & H); eauto with typed.
Qed.

(** The values of a computation, one field after the other. *)
Ltac run_fields H :=
  repeat match type of H with
  | rbind ?r ?k = Ok ?b =>
      let x := fresh "x" in let Hx := fresh "Hx" in
      apply rbind_ok in H as (x & Hx & H)
  end.

Lemma rmap_typed {A C : Type} (f : A -> result C) (Q : C -> Prop) l bs :
  (forall a b, f a = Ok b -> Q b) -> rmap f l = Ok bs -> Forall Q bs.
Proof.
  intros Hf. revert bs. induction l as [|a l IH]; intros bs H; cbn in H; [by injection H as <-|].
  run_fields H. injection H as <-. constructor; eauto.
Qed.

Lemma default_config_typed p cfg : make_default_config p = Ok cfg -> well_typed cfg.
Proof.
  intros H. unfold make_default_config in H. run_fields H. injection H as <-.
  unfold well_typed. cbn. split_and!; eauto with typed.
  - eapply rmap_typed; [|eassumption]. intros ch c Hc. unfold default_channel in Hc.
    run_fields Hc. injection Hc as <-. split_and!; cbn; eauto with typed.
  - eapply rmap_typed; [|eassumption]. intros i a Ha. unfold default_afe in Ha.
    run_fields Ha. injection Ha as <-. split_and!; cbn; eauto with typed.
Qed.

Lemma ensure_channel_typed cs id cs' i :
  ensure_channel cs id = Ok (cs', i) -> Forall typed_channel cs -> Forall typed_channel cs'.
Proof.
  revert cs' i. induction cs as [|c cs IH]; intros cs' i H Hcs; cbn in H.
  - run_fields H. injection H as <- <-. constructor; [|done].
    split_and!; cbn; eauto with typed; unfold u32; lia.
  - destruct (_ =? _); [by injection H as <- _|]. run_fields H. destruct x as [cs1 j].
    injection H as <- <-. apply Forall_cons in Hcs as [Hc Hcs]. constructor; eauto.
Qed.

Lemma ensure_afe_typed l id l' i :
  ensure_afe l id = Ok (l', i) -> Forall typed_afe l -> Forall typed_afe l'.
Proof.
  revert l' i. induction l as [|a l IH]; intros l' i H Hl; cbn in H.
  - run_fields H. injection H as <- <-. constructor; [|done].
    split_and!; cbn; eauto with typed; unfold u32; lia.
  - destruct (_ =? _); [by injection H as <- _|]. run_fields H. destruct x as [l1 j].
    injection H as <- <-. apply Forall_cons in Hl as [Ha Hl]. constructor; eauto.
Qed.

Lemma channel_step_typed offsets trims gains cs item cs' :
  channel_step offsets trims gains cs item = Ok cs' -> Forall typed_channel cs ->
  Forall typed_channel cs'.
Proof.
  intros H Hcs. unfold channel_step in H. destruct item as [idx v]. run_fields H.
  destruct x0 as [cs1 i]. apply ensure_channel_typed in Hx0; [|done].
  destruct (cs1 !! i) as [c|] eqn:Hi; [|done]. run_fields H. injection H as <-.
  apply Forall_insert; [done|]. rewrite Forall_lookup in Hx0. destruct (Hx0 _ _ Hi) as (Hc & _).
  unfold overlay_channel in Hx1. run_fields Hx1. injection Hx1 as <-.
  split_and!; cbn; eauto with typed.
Qed.

Lemma afe_step_typed prefer s l item l' :
  afe_step prefer s l item = Ok l' -> Forall typed_afe l -> Forall typed_afe l'.
Proof.
  intros H Hl. unfold afe_step in H. destruct item as [idx v]. run_fields H.
  destruct x0 as [l1 i]. apply ensure_afe_typed in Hx0; [|done].
  destruct (l1 !! i) as [a|] eqn:Hi; [|done]. run_fields H. injection H as <-.
  apply Forall_insert; [done|]. rewrite Forall_lookup in Hx0.
  destruct (Hx0 _ _ Hi) as (Ha & _ & _ & Hcut & Hcl & Hg).
  unfold overlay_afe in Hx1. run_fields Hx1. destruct prefer; run_fields Hx1; injection Hx1 as <-;
    split_and!; cbn; eauto using seed_u32_typed with typed.
Qed.

Lemma with_overrides_typed biases trims res cfg :
  is_dac biases -> is_dac trims -> well_typed cfg -> well_typed (with_overrides biases trims res cfg).
Proof.
  intros Hb Ht (H1 & H2 & H3 & H4 & H5 & H6 & H7 & H8 & Hc & Ha & Hf).
  assert (Hdac : forall m k old, is_dac m -> u32 old -> u32 (default old (m !! k))).
  { intros m k old Hm Ho. destruct (m !! k) as [d|] eqn:Hk; cbn; [|done].
    specialize (Hm _ _ Hk). cbn in Hm. unfold BIAS_DAC_MAX in Hm. unfold u32. lia. }
  unfold well_typed, with_overrides. cbn. split_and!; try done; apply Forall_fmap.
  - eapply Forall_impl; [exact Hc|]. intros c (? & ? & ? & ?). split_and!; cbn; auto.
  - eapply Forall_impl; [exact Ha|]. intros a (? & ? & ? & ? & ? & ?). split_and!; cbn; auto.
Qed.

Lemma seed_request_typed seed d prefer cfg :
  well_typed d -> build_request_from_seed seed d prefer = Ok cfg -> well_typed cfg.
Proof.
  intros (H1 & H2 & H3 & H4 & H5 & H6 & H7 & H8 & Hc & Ha & Hf) H.
  unfold build_request_from_seed in H. run_fields H. injection H as <-.
  unfold well_typed. cbn. split_and!; eauto with typed.
  - eapply (rfold_invariant _ (Forall typed_channel)); [|exact Hc|eassumption].
    intros. by eapply channel_step_typed.
  - eapply (rfold_invariant _ (Forall typed_afe)); [|exact Ha|eassumption].
    intros. by eapply afe_step_typed.
  - eapply rmap_typed; [|eassumption]. eauto with typed.
Qed.

(** ** The values of a seed *)

(** What a seed document holds: the registers, then per channel and per AFE the ids and the lists
    that go with them. *)
Record seed_values : Type := {
  v_slot : option Z; v_biasctrl : option Z; v_threshold : option Z; v_xcorr : option Z;
  v_tp_conf : option Z; v_compensator : option Z; v_inverter : option Z; v_inverters : option Z;
  v_full_stream : option (list Z);
  v_channel_ids : option (list Z); v_offsets : option (list Z); v_trims : option (list Z);
  v_gains : option (list Z);
  v_afe_ids : option (list Z); v_attenuators : option (list Z); v_biases : option (list Z);
  v_resolution : option (list Z); v_format : option (list Z); v_sb_first : option (list Z);
  v_lpf : option (list Z); v_pga_integrator : option (list Z); v_pga_gain : option (list Z);
  v_clamp : option (list Z); v_lna_gain : option (list Z); v_lna_integrator : option (list Z) }.

Definition says_int (d : list (string * pyval)) (k : string) (o : option Z) : Prop :=
  lookup_key d k = PyInt <$> o.

Definition says_list (d : list (string * pyval)) (k : string) (o : option (list Z)) : Prop :=
  lookup_key d k = (fun l => PyList (PyInt <$> l)) <$> o.

(** A part of a document, empty when it is absent. *)
Definition says_part (d : list (string * pyval)) (k : string) (part : list (string * pyval)) : Prop :=
  default (PyDict []) (lookup_key d k) = PyDict part.

(** The document says those values, under the keys the tool reads; it may say more. *)
Record seed_says (seed chan afe adcs pgas lnas : list (string * pyval)) (v : seed_values) : Prop := {
  ss_slot : says_int seed "slot_id" (v_slot v);
  ss_biasctrl : says_int seed "bias_ctrl" (v_biasctrl v);
  ss_threshold : says_int seed "self_trigger_threshold" (v_threshold v);
  ss_xcorr : says_int seed "self_trigger_xcorr" (v_xcorr v);
  ss_tp : says_int seed "tp_conf" (v_tp_conf v);
  ss_compensator : says_int seed "compensator" (v_compensator v);
  ss_inverter : says_int seed "inverter" (v_inverter v);
  ss_inverters : says_int seed "inverters" (v_inverters v);
  ss_full : says_list seed "full_stream_channels" (v_full_stream v);
  ss_chan : says_part seed "channel_analog_conf" chan;
  ss_ids : says_list chan "ids" (v_channel_ids v);
  ss_offsets : says_list chan "offsets" (v_offsets v);
  ss_trims : says_list chan "trims" (v_trims v);
  ss_gains : says_list chan "gains" (v_gains v);
  ss_afes : says_part seed "afes" afe;
  ss_afe_ids : says_list afe "ids" (v_afe_ids v);
  ss_attenuators : says_list afe "attenuators" (v_attenuators v);
  ss_biases : says_list afe "v_biases" (v_biases v);
  ss_adcs : says_part afe "adcs" adcs;
  ss_pgas : says_part afe "pgas" pgas;
  ss_lnas : says_part afe "lnas" lnas;
  ss_resolution : says_list adcs "resolution" (v_resolution v);
  ss_format : says_list adcs "output_format" (v_format v);
  ss_sb : says_list adcs "SB_first" (v_sb_first v);
  ss_sb_only : lookup_key adcs "sb_first" = None;
  ss_sb_some : v_sb_first v <> Some [];
  ss_lpf : says_list pgas "lpf_cut_frequency" (v_lpf v);
  ss_pga_int : says_list pgas "integrator_disable" (v_pga_integrator v);
  ss_pga_gain : says_list pgas "gain" (v_pga_gain v);
  ss_clamp : says_list lnas "clamp" (v_clamp v);
  ss_lna_gain : says_list lnas "gain" (v_lna_gain v);
  ss_lna_int : says_list lnas "integrator_disable" (v_lna_integrator v) }.

(** The [idx]-th value of a list that has one, else the old one. *)
Definition over (l : option (list Z)) (idx : nat) (old : Z) : Z :=
  default old (default [] l !! idx).

Definition over_flag (l : option (list Z)) (idx : nat) (old : bool) : bool :=
  match default [] l !! idx with Some z => bool_of z | None => old end.

(** A channel, an AFE with the values at its position in the ids. *)
Definition channel_over (v : seed_values) (idx : nat) (c : ChannelConfig) : ChannelConfig :=
  Chan (ch_id c) (over (v_trims v) idx (ch_trim c)) (over (v_offsets v) idx (ch_offset c))
    (over (v_gains v) idx (ch_gain c)).

Definition afe_over (common : bool) (v : seed_values) (idx : nat) (a : AFEConfig) : AFEConfig :=
  let adc' := Adc (over_flag (v_resolution v) idx (resolution (adc a)))
                (over_flag (v_format v) idx (output_format (adc a)))
                (over_flag (v_sb_first v) idx (sb_first (adc a))) in
  let pga' := Pga (over (v_lpf v) idx (lpf_cut_frequency (pga a)))
                (over_flag (v_pga_integrator v) idx (pga_integrator_disable (pga a)))
                (over_flag (v_pga_gain v) idx (pga_gain (pga a))) in
  let lna' := Lna (over (v_clamp v) idx (clamp (lna a))) (over (v_lna_gain v) idx (lna_gain (lna a)))
                (over_flag (v_lna_integrator v) idx (lna_integrator_disable (lna a))) in
  Afe (afe_id a) (over (v_attenuators v) idx (attenuators a)) (over (v_biases v) idx (v_bias a))
    (if common then adc' else adc a) (if common then pga' else pga a)
    (if common then lna' else lna a).

Section overlay.
Context {A : Type} (key : A -> Z) (empty : Z -> A) (ov : nat -> A -> A).

(** What is named is laid over; what is not stays. *)
Definition over_at (ids : list Z) (x : A) : A :=
  match list_find (fun k => k = key x) ids with
  | Some (idx, _) => ov idx x
  | None => x
  end.

(** The elements that were there, then those named that were not, in their order. *)
Definition overlaid (ids : list Z) (l : list A) : list A :=
  over_at ids <$> (l ++ (empty <$> filter (fun k => ~ k ∈ key <$> l) ids)).

(** The element with an id: the first one there is, or a new one at the end. *)
Definition ensured (cs : list A) (id : Z) (cs1 : list A) (i : nat) : Prop :=
  (exists c, cs1 !! i = Some c /\ key c = id) /\
  ((id ∈ key <$> cs /\ cs1 = cs) \/ (~ id ∈ key <$> cs /\ cs1 = cs ++ [empty id] /\ i = length cs)).

Context (Hempty : forall id, key (empty id) = id) (Hov : forall idx x, key (ov idx x) = key x).

Lemma over_at_key ids x : key (over_at ids x) = key x.
Proof using Hov. unfold over_at. destruct (list_find _ ids) as [[i k]|]; [apply Hov|done]. Qed.

Lemma over_at_keys ids (l : list A) : key <$> (over_at ids <$> l) = key <$> l.
Proof using Hov. rewrite <- list_fmap_compose. apply list_fmap_ext. intros i x _. apply over_at_key. Qed.

Lemma over_at_new ids id x : ~ id ∈ ids -> key x = id ->
  over_at ids x = x /\ over_at (ids ++ [id]) x = ov (length ids) x.
Proof using Type.
  intros Hid Hk. unfold over_at.
  assert (Hnone : list_find (fun k => k = key x) ids = None).
  { apply list_find_None, Forall_forall. intros k Hin ->. congruence. }
  rewrite Hnone. split; [done|].
  rewrite (list_find_app_r _ _ _ Hnone). cbn. rewrite decide_True by done. done.
Qed.

Lemma over_at_other ids id x : key x <> id -> over_at (ids ++ [id]) x = over_at ids x.
Proof using Type.
  intros Hk. unfold over_at. destruct (list_find (fun k => k = key x) ids) as [[i k]|] eqn:Hf.
  - by rewrite (list_find_app_l _ _ _ _ _ Hf).
  - rewrite (list_find_app_r _ _ _ Hf). cbn. by rewrite decide_False.
Qed.

(** Changing the element with an id, when ids are distinct. *)
Lemma insert_by_key (f g : A -> A) (l : list A) i x :
  NoDup (key <$> l) -> l !! i = Some x ->
  (forall y, key y = key x -> g y = f y) -> (forall y, key y <> key x -> g y = y) ->
  <[i := f x]> l = g <$> l.
Proof using Type.
  intros Hnd Hi Hf Hg. apply list_eq. intros j. rewrite list_lookup_fmap.
  destruct (decide (j = i)) as [->|Hne].
  - rewrite list_lookup_insert_eq by (by eapply lookup_lt_Some). rewrite Hi. cbn. by rewrite Hf.
  - rewrite list_lookup_insert_ne by done. destruct (l !! j) as [y|] eqn:Hj; [|done]. cbn. f_equal.
    symmetry. apply Hg. intros Hk. apply Hne.
    apply (NoDup_lookup _ _ _ (key x) Hnd); rewrite list_lookup_fmap; [by rewrite Hj; cbn; f_equal|by rewrite Hi].
Qed.

Lemma overlaid_keys ids (l : list A) : NoDup (key <$> l) -> NoDup ids -> NoDup (key <$> overlaid ids l).
Proof using Hempty Hov.
  intros Hl Hids. unfold overlaid. rewrite over_at_keys, fmap_app, <- list_fmap_compose.
  rewrite (list_fmap_ext (key ∘ empty) id) by (intros ? ? _; apply Hempty). rewrite list_fmap_id.
  apply NoDup_app. split_and!; [done| |by apply NoDup_filter].
  intros k Hk [Hn _]%list_elem_of_filter. done.
Qed.

(** One more id laid over. *)
Lemma overlaid_snoc ids id l cs1 i x :
  NoDup (key <$> l) -> NoDup (ids ++ [id]) -> ensured (overlaid ids l) id cs1 i -> cs1 !! i = Some x ->
  <[i := ov (length ids) x]> cs1 = overlaid (ids ++ [id]) l.
Proof using Hempty Hov.
  intros Hl Hids [(c & Hc & Hcid) Hcase] Hx. assert (c = x) as -> by congruence.
  apply NoDup_app in Hids as (Hnd & Hout & _).
  assert (Hid : ~ id ∈ ids) by (intros Hin; apply (Hout id Hin); apply list_elem_of_here).
  pose proof (overlaid_keys ids l Hl Hnd) as Hkeys.
  assert (Hel : forall k, k ∈ key <$> overlaid ids l <-> k ∈ key <$> l \/ (k ∈ ids /\ ~ k ∈ key <$> l)).
  { intros k. unfold overlaid. rewrite over_at_keys, fmap_app, <- list_fmap_compose.
    rewrite (list_fmap_ext (key ∘ empty) Datatypes.id) by (intros ? ? _; apply Hempty).
    rewrite list_fmap_id, elem_of_app, list_elem_of_filter. tauto. }
  destruct Hcase as [[Hin ->]|(Hnin & -> & ->)].
  - assert (Hidl : id ∈ key <$> l) by (apply Hel in Hin as [?|[? _]]; done).
    rewrite (insert_by_key (ov (length ids)) (fun y => if decide (key y = id) then ov (length ids) y else y)
      (overlaid ids l) i x); [|done|done|intros y Hy; by rewrite decide_True by congruence
                              |intros y Hy; by rewrite decide_False by congruence].
    unfold overlaid. rewrite filter_app, (filter_cons_False _ id) by tauto. rewrite filter_nil, app_nil_r.
    rewrite <- list_fmap_compose. apply list_fmap_ext. intros j y _. unfold compose. rewrite over_at_key.
    case_decide as Hk; [|by rewrite over_at_other].
    by destruct (over_at_new ids id y Hid Hk) as [-> ->].
  - rewrite insert_app_r_alt, Nat.sub_diag by done. cbn.
    assert (Hxe : x = empty id).
    { rewrite lookup_app_r, Nat.sub_diag in Hx by done. cbn in Hx. congruence. }
    unfold overlaid. rewrite filter_app, (filter_cons_True _ id) by (intros Hin; apply Hnin, Hel; by left).
    rewrite filter_nil, (fmap_app empty), app_assoc, (fmap_app (over_at (ids ++ [id]))). f_equal.
    + apply list_fmap_ext. intros j y Hy. symmetry. apply over_at_other. intros Hk. apply Hnin.
      unfold overlaid. rewrite over_at_keys. apply list_elem_of_fmap. exists y. split; [done|].
      by eapply list_elem_of_lookup_2.
    + cbn. f_equal. rewrite Hxe.
      by destruct (over_at_new ids id (empty id) Hid (Hempty id)) as [_ ->].
Qed.

(** The whole loop. *)
Lemma overlay_fold (step : list A -> nat * pyval -> result (list A)) ids l l' :
  (forall cs idx id cs', step cs (idx, PyInt id) = Ok cs' ->
     exists cs1 i c, ensured cs id cs1 i /\ cs1 !! i = Some c /\ cs' = <[i := ov idx c]> cs1) ->
  NoDup (key <$> l) -> NoDup ids ->
  rfold step (enumerate (PyInt <$> ids)) l = Ok l' -> l' = overlaid ids l.
Proof using Hempty Hov.
  intros Hstep Hl. revert l'. induction ids as [|id ids IH] using rev_ind; intros l' Hids Hrun.
  - injection Hrun as <-. unfold overlaid. cbn. rewrite app_nil_r. symmetry.
    rewrite <- (list_fmap_id l) at 2. by apply list_fmap_ext.
  - unfold enumerate in Hrun. rewrite fmap_app, imap_app, rfold_app in Hrun.
    apply rbind_ok in Hrun as (cs & Hcs & Hrun). cbn [fmap list_fmap imap rfold] in Hrun.
    apply rbind_ok in Hrun as (cs' & Hs & [= <-]).
    pose proof Hids as (Hnd & _)%NoDup_app. specialize (IH _ Hnd Hcs) as ->.
    cbn in Hs. rewrite length_fmap, Nat.add_0_r in Hs.
    destruct (Hstep _ _ _ _ Hs) as (cs1 & i & c & He & Hc & ->). by apply overlaid_snoc.
Qed.

End overlay.

Lemma ensure_afe_ok l id l' i : ensure_afe l id = Ok (l', i) -> ensured afe_id empty_afe l id l' i.
Proof.
  revert l' i. induction l as [|a l IH]; intros l' i H; cbn in H.
  - apply rbind_ok in H as (u & [-> _]%set_uint_ok & [= <- <-]). split; [by eexists|].
    right. split_and!; [apply not_elem_of_nil|done|done].
  - destruct (Z.eqb_spec (afe_id a) id) as [<-|Hne].
    + injection H as <- <-. split; [by eexists|]. left. split; [apply list_elem_of_here|done].
    + apply rbind_ok in H as ([l1 j] & H1 & [= <- <-]).
      destruct (IH _ _ H1) as [(a' & Ha & Hid) Hcase]. split; [by exists a'|].
      destruct Hcase as [[Hin ->]|(Hout & -> & ->)].
      * left. split; [by apply list_elem_of_further|done].
      * right. split_and!; [|done|done]. cbn. rewrite not_elem_of_cons. split; [congruence|done].
Qed.

Lemma get_int d k o dflt z :
  says_int d k o -> assign_u32 (default (PyInt dflt) (lookup_key d k)) = Ok z \/
    assign_u64 (default (PyInt dflt) (lookup_key d k)) = Ok z -> z = default dflt o.
Proof.
  intros -> H. destruct o as [x|]; cbn in H; destruct H as [[-> _]%set_uint_ok|[-> _]%set_uint_ok]; done.
Qed.

Lemma get_list d k o : says_list d k o ->
  default (PyList []) (lookup_key d k) = PyList (PyInt <$> default [] o).
Proof. intros ->. by destruct o. Qed.

Lemma maybe_get_over o idx old x z :
  maybe_get (PyList (PyInt <$> default [] o)) idx (PyInt old) = Ok x -> assign_u32 x = Ok z ->
  z = over o idx old.
Proof.
  cbn [maybe_get]. rewrite list_lookup_fmap. unfold over. intros [= <-].
  destruct (default [] o !! idx); cbn; by intros [-> _]%set_uint_ok.
Qed.

Lemma seed_u32_over d k o idx old z : says_list d k o ->
  seed_u32 (default PyNone (lookup_key d k)) idx old = Ok z -> z = over o idx old.
Proof.
  intros ->. destruct o as [l|]; cbn [fmap option_fmap option_map default]; [|by intros [= <-]].
  change (default PyNone (Some (PyList (PyInt <$> l)))) with (PyList (PyInt <$> l)).
  cbn [seed_u32]. intros (x & Hx & Hz)%rbind_ok. by apply (maybe_get_over (Some l) idx old x).
Qed.

Lemma seed_flag_over d k o idx old b : says_list d k o ->
  seed_bool (default PyNone (lookup_key d k)) idx old = Ok b -> b = over_flag o idx old.
Proof.
  intros ->. destruct o as [l|]; [|by intros [= <-]].
  change (default PyNone ((fun l => PyList (PyInt <$> l)) <$> Some l)) with (PyList (PyInt <$> l)).
  cbn [seed_bool maybe_get]. rewrite list_lookup_fmap. intros (x & [= <-] & [= <-])%rbind_ok.
  unfold over_flag. change (default [] (Some l)) with l. by case (l !! idx).
Qed.

Lemma channel_step_over v cs idx id cs' :
  channel_step (PyList (PyInt <$> default [] (v_offsets v))) (PyList (PyInt <$> default [] (v_trims v)))
    (PyList (PyInt <$> default [] (v_gains v))) cs (idx, PyInt id) = Ok cs' ->
  exists cs1 i c, ensured ch_id (fun k => Chan k 0 0 0) cs id cs1 i /\ cs1 !! i = Some c /\
    cs' = <[i := channel_over v idx c]> cs1.
Proof.
  unfold channel_step. cbn [py_int rbind]. intros H. apply rbind_ok in H as ([cs1 i] & He & H).
  destruct (cs1 !! i) as [c|] eqn:Hi; [|done]. apply rbind_ok in H as (c' & Hc & [= <-]).
  exists cs1, i, c. split; [by apply ensure_channel_ok|]. split; [done|]. f_equal.
  unfold overlay_channel in Hc. run_fields Hc. injection Hc as <-. unfold channel_over. f_equal.
  - by apply (maybe_get_over _ _ _ x1).
  - by apply (maybe_get_over _ _ _ x).
  - by apply (maybe_get_over _ _ _ x3).
Qed.

(** The lists of the AFEs as [read_afe_seed] finds them. *)
Definition read_lists (afe adcs pgas lnas : list (string * pyval)) (v : seed_values) (s : afe_seed) : Prop :=
  s_attenuators s = PyList (PyInt <$> default [] (v_attenuators v)) /\
  s_v_biases s = PyList (PyInt <$> default [] (v_biases v)) /\
  s_adc_res s = default PyNone (lookup_key adcs "resolution") /\
  s_adc_fmt s = default PyNone (lookup_key adcs "output_format") /\
  s_adc_sb s = default PyNone (lookup_key adcs "SB_first") /\
  s_pga_cut s = default PyNone (lookup_key pgas "lpf_cut_frequency") /\
  s_pga_int s = default PyNone (lookup_key pgas "integrator_disable") /\
  s_pga_gain s = default PyNone (lookup_key pgas "gain") /\
  s_lna_clamp s = default PyNone (lookup_key lnas "clamp") /\
  s_lna_gain s = default PyNone (lookup_key lnas "gain") /\
  s_lna_int s = default PyNone (lookup_key lnas "integrator_disable").

Section says.
Context (seed chan afe adcs pgas lnas : list (string * pyval)) (v : seed_values).
Context (HS : seed_says seed chan afe adcs pgas lnas v).

Lemma read_afe_seed_lists s : read_afe_seed (PyDict afe) = Ok s -> read_lists afe adcs pgas lnas v s.
Proof using HS.
  unfold read_afe_seed. cbn [dict_get rbind].
  rewrite (get_list _ _ _ (ss_attenuators _ _ _ _ _ _ _ HS)), (get_list _ _ _ (ss_biases _ _ _ _ _ _ _ HS)).
  rewrite !(ss_adcs _ _ _ _ _ _ _ HS), !(ss_pgas _ _ _ _ _ _ _ HS), !(ss_lnas _ _ _ _ _ _ _ HS).
  cbn [dict_get rbind]. intros H. apply rbind_ok in H as (sb & Hsb & [= <-]).
  unfold read_lists. cbn. split_and!; try done.
  pose proof (ss_sb _ _ _ _ _ _ _ HS) as Hl. unfold says_list in Hl. rewrite Hl in Hsb |- *.
  rewrite (ss_sb_only _ _ _ _ _ _ _ HS) in Hsb. pose proof (ss_sb_some _ _ _ _ _ _ _ HS) as Hne.
  destruct (v_sb_first v) as [[|z l]|]; [done|by injection Hsb as <-|by injection Hsb as <-].
Qed.

Lemma afe_step_over common s l idx id l' :
  read_lists afe adcs pgas lnas v s ->
  afe_step common s l (idx, PyInt id) = Ok l' ->
  exists l1 i a, ensured afe_id empty_afe l id l1 i /\ l1 !! i = Some a /\
    l' = <[i := afe_over common v idx a]> l1.
Proof using HS.
  intros (Ha & Hb & Hr & Hf & Hsb & Hcut & Hpi & Hpg & Hcl & Hlg & Hli).
  unfold afe_step. cbn [py_int rbind]. intros H. apply rbind_ok in H as ([l1 i] & He & H).
  destruct (l1 !! i) as [a|] eqn:Hi; [|done]. apply rbind_ok in H as (a' & Hov & [= <-]).
  exists l1, i, a. split; [by apply ensure_afe_ok|]. split; [done|]. f_equal.
  unfold overlay_afe in Hov. rewrite Ha, Hb, Hr, Hf, Hsb, Hcut, Hpi, Hpg, Hcl, Hlg, Hli in Hov.
  do 4 (apply rbind_ok in Hov as (? & ? & Hov)). unfold afe_over.
  assert (Hatt : x0 = over (v_attenuators v) idx (attenuators a)) by (by eapply maybe_get_over).
  assert (Hbias : x2 = over (v_biases v) idx (v_bias a)) by (by eapply maybe_get_over).
  subst x0 x2. destruct common; [|by injection Hov as <-]. run_fields Hov. injection Hov as <-.
  destruct HS.
  f_equal; f_equal; first [by eapply seed_flag_over|by eapply seed_u32_over].
Qed.

End says.

(** C37. A request built from a seed document is exactly the document laid over the defaults.  For a
    document whose values are integers and whose ids are distinct, over defaults whose channels and
    AFEs are distinct: each register is the value of the document, or the default when it has none;
    the channels are those of the defaults in their order and then those named only by the document,
    each named one with the trim, offset and gain at the position of its id (or its old value when
    that list is shorter); the AFEs likewise with their attenuators and biases, and with the
    settings of ADC, PGA and LNA unless those of the command line are preferred.  And every integer
    of the request fits the field it goes out in. *)
Theorem seed_overlaid_exactly seed chan afe adcs pgas lnas v d common cfg :
  seed_says seed chan afe adcs pgas lnas v ->
  NoDup (default [] (v_channel_ids v)) -> NoDup (default [] (v_afe_ids v)) ->
  NoDup (ch_id <$> channels d) -> NoDup (afe_id <$> afes d) -> well_typed d ->
  build_request_from_seed (PyDict seed) d common = Ok cfg ->
  cfg = ConfReq (daphne_address d) (default (slot d) (v_slot v)) (timeout_ms d)
    (default (biasctrl d) (v_biasctrl v)) (default (self_trigger_threshold d) (v_threshold v))
    (default (self_trigger_xcorr d) (v_xcorr v)) (default (tp_conf d) (v_tp_conf v))
    (default (compensator d) (v_compensator v))
    (default (default (inverters d) (v_inverters v)) (v_inverter v))
    (overlaid ch_id (fun k => Chan k 0 0 0) (channel_over v) (default [] (v_channel_ids v)) (channels d))
    (overlaid afe_id empty_afe (afe_over common v) (default [] (v_afe_ids v)) (afes d))
    (default [] (v_full_stream v)) /\
  well_typed cfg.
Proof.
  intros HS Hci Hai Hc Ha Hd Hrun. split; [|by eapply seed_request_typed].
  unfold build_request_from_seed in Hrun. cbn [dict_get rbind] in Hrun.
  rewrite (get_list _ _ _ (ss_full _ _ _ _ _ _ _ HS)), (ss_chan _ _ _ _ _ _ _ HS),
    (ss_afes _ _ _ _ _ _ _ HS) in Hrun. cbn [dict_get rbind] in Hrun.
  rewrite (get_list _ _ _ (ss_ids _ _ _ _ _ _ _ HS)), (get_list _ _ _ (ss_offsets _ _ _ _ _ _ _ HS)),
    (get_list _ _ _ (ss_trims _ _ _ _ _ _ _ HS)), (get_list _ _ _ (ss_gains _ _ _ _ _ _ _ HS)),
    (get_list _ _ _ (ss_afe_ids _ _ _ _ _ _ _ HS)) in Hrun. cbn [py_iter rbind] in Hrun.
  run_fields Hrun. injection Hrun as <-. pose proof HS as HS'. destruct HS'.
  f_equal; try (eapply get_int; [|by eauto]; done).
  - unfold says_int in ss_inverters0. eapply get_int; [exact ss_inverter0|]. right.
    rewrite ss_inverters0 in Hx5. by destruct (v_inverters v).
  - eapply (overlay_fold ch_id); [done|done| |done|done|exact Hx7].
    intros cs idx id cs' Hs. by apply channel_step_over.
  - eapply (overlay_fold afe_id); [done|done| |done|done|exact Hx9].
    intros cs idx id cs' Hs. eapply afe_step_over; [done| |done]. by apply (read_afe_seed_lists seed chan).
  - revert Hx6. generalize (default [] (v_full_stream v)). intros l. revert x6.
    induction l as [|z l IH]; intros full H; cbn in H; [by injection H as <-|].
    run_fields H. injection H as <-. apply set_uint_ok in Hx6 as [-> _]. f_equal. by apply IH.
Qed.

Definition plain_values : seed_values := {|
  v_slot := Some 1; v_biasctrl := None; v_threshold := None; v_xcorr := None; v_tp_conf := None;
  v_compensator := None; v_inverter := None; v_inverters := Some 5; v_full_stream := Some [7];
  v_channel_ids := Some [41; 3]; v_offsets := Some [2000; 2100]; v_trims := Some [9]; v_gains := None;
  v_afe_ids := Some [2]; v_attenuators := None; v_biases := Some [900]; v_resolution := Some [0];
  v_format := None; v_sb_first := Some [1]; v_lpf := None; v_pga_integrator := None;
  v_pga_gain := None; v_clamp := None; v_lna_gain := Some [1]; v_lna_integrator := None |}.

Definition plain_chan : list (string * pyval) :=
  [("ids", PyList [PyInt 41; PyInt 3]); ("offsets", PyList [PyInt 2000; PyInt 2100]);
   ("trims", PyList [PyInt 9])].
Definition plain_adcs : list (string * pyval) :=
  [("resolution", PyList [PyInt 0]); ("SB_first", PyList [PyInt 1])].
Definition plain_lnas : list (string * pyval) := [("gain", PyList [PyInt 1])].
Definition plain_afe : list (string * pyval) :=
  [("ids", PyList [PyInt 2]); ("v_biases", PyList [PyInt 900]); ("adcs", PyDict plain_adcs);
   ("lnas", PyDict plain_lnas)].
Definition plain_seed : list (string * pyval) :=
  [("slot_id", PyInt 1); ("inverters", PyInt 5); ("full_stream_channels", PyList [PyInt 7]);
   ("channel_analog_conf", PyDict plain_chan); ("afes", PyDict plain_afe)].

Lemma example_defaults_typed : well_typed example_defaults.
Proof.
  assert (Hrun : build_defaults_from_args "127.0.0.1" 0 2275 1600 4 0 2 0 = Ok example_defaults)
    by (vm_compute; reflexivity).
  by apply default_config_typed in Hrun.
Qed.

(** Channel 3 gets the second offset and keeps its trim; channel 41 is new. *)
Lemma seed_overlaid_exactly_witness :
  match build_request_from_seed (PyDict plain_seed) example_defaults true with
  | Ok cfg => channels cfg !! 3%nat = Some (Chan 3 0 2100 1) /\
              channels cfg !! 40%nat = Some (Chan 41 9 2000 0) /\ well_typed cfg
  | Raise _ => False
  end.
Proof.
  assert (Hok : is_ok (build_request_from_seed (PyDict plain_seed) example_defaults true) = true)
    by (vm_compute; reflexivity).
  destruct (build_request_from_seed (PyDict plain_seed) example_defaults true) as [cfg|e] eqn:H; [|done].
  assert (HS : seed_says plain_seed plain_chan plain_afe plain_adcs [] plain_lnas plain_values)
    by (split; first [reflexivity|discriminate]).
  destruct (seed_overlaid_exactly plain_seed plain_chan plain_afe plain_adcs [] plain_lnas plain_values
    example_defaults true cfg HS) as [-> Ht].
  - change (NoDup [41; 3]). reg_mem.
  - change (NoDup [2]). reg_mem.
  - reg_mem.
  - reg_mem.
  - apply example_defaults_typed.
  - exact H.
  - split; [vm_compute; reflexivity|]. split; [vm_compute; reflexivity|exact Ht].
Defined.
