(* ===== verification/FeMain.v ===== *)
(** [client/configure_fe_min_v2.py], [main]: the configure exchange, the write-back of the
    bias overrides, the alignment and the exit status; and [send_configure_request] of
    [client/pds_configure_utils.py], which makes the first of them. *)
From S2P Require Import Prelude PyStr PyFloat PyVal EnvelopeV2 Requests FeConfig.

(** ** Early returns *)

(** A block of [main]: it goes on with a value or returns an exit status. *)
Inductive flow (A : Type) : Type :=
  | Next (a : A)
  | Return (code : Z).
Arguments Next {A}.
Arguments Return {A}.

Definition fbind {W A C : Type} (m : M W (flow A)) (k : A -> M W (flow C)) : M W (flow C) :=
  r <- m ;;
  match r with
  | Next a => k a
  | Return code => ret (Return code)
  end.

Notation "x <-? m ;; k" := (fbind m (fun x => k))
  (at level 100, m at next level, right associativity) : py_scope.
Notation "' pat <-? m ;; k" := (fbind m (fun x => match x with pat => k end))
  (at level 20, pat pattern, m at level 99, k at level 200) : py_scope.

(** A computation without early return. *)
Definition go {W A : Type} (m : M W A) : M W (flow A) := a <- m ;; ret (Next a).

(** A loop over [l] that collects a value per turn. *)
Fixpoint collect {W A C : Type} (l : list A) (f : A -> M W (flow C)) : M W (flow (list C)) :=
  match l with
  | [] => ret (Next [])
  | a :: l' => c <-? f a ;; cs <-? collect l' f ;; ret (Next (c :: cs))
  end.

(** ** Text *)

Definition nl : ascii := "010".

Definition is_linebreak (c : ascii) : bool :=
  let n := code c in ((10 <=? n) && (n <=? 13)) || ((28 <=? n) && (n <=? 30)).

(** [s.splitlines()] *)
Fixpoint splitlines (s : string) : list string :=
  match s with
  | "" => []
  | String c t =>
      if is_linebreak c then
        match t with
        | String d t' =>
            if Ascii.eqb c "013" && Ascii.eqb d nl then "" :: splitlines t' else "" :: splitlines t
        | "" => [""]
        end
      else match splitlines t with
           | h :: r => String c h :: r
           | [] => [String c ""]
           end
  end.

(** [s.count(c)] *)
Fixpoint count_char (c : ascii) (s : string) : Z :=
  match s with
  | "" => 0
  | String a t => (if Ascii.eqb a c then 1 else 0) + count_char c t
  end.

(** [s.count(ab)] for two distinct characters *)
Fixpoint count_pair (a b : ascii) (s : string) : Z :=
  match s with
  | "" => 0
  | String c t =>
      match t with
      | String d t' => if Ascii.eqb c a && Ascii.eqb d b then 1 + count_pair a b t'
                       else count_pair a b t
      | "" => 0
      end
  end.

Definition lines_of (s : string) : Z := if decide (s = "") then 0 else 1.

(** ** Low-level messages *)

Record cmd_writeAFEBiasSet : Type := WriteBias { wb_afeBlock : Z; wb_biasValue : Z }.

Record cmd_writeAFEBiasSet_response : Type := WriteBiasResp {
  wr_success : bool; wr_message : string; wr_afeBlock : Z; wr_biasValue : Z }.

Inductive cmd_alignAFEs : Type := AlignAFEs.

Record cmd_alignAFEs_response : Type := AlignResp {
  ar_success : bool; ar_delay : list Z; ar_bitslip : list Z; ar_message : string }.

(** The order of items: their keys are distinct. *)
Definition key_le (a b : Z * Z) : Prop := fst a <= fst b.

#[export] Instance key_le_dec : RelDecision key_le.
Proof. intros a b. unfold key_le. apply _. Defined.

#[export] Instance key_le_total : Total key_le.
Proof. intros a b. unfold key_le. lia. Qed.

(** [sorted(d.items())] *)
Definition sorted_items (m : gmap Z Z) : list (Z * Z) := merge_sort key_le (map_to_list m).

(** ** The exchanges *)

Section fe_main.
Context {S B : Type} `{Peer S B, Size B, !Proto B (ControlEnvelopeV2 B)}.
Context `{!Proto B ConfigureRequest, !Proto B ConfigureResponse}.
Context `{!Proto B cmd_writeAFEBiasSet, !Proto B cmd_writeAFEBiasSet_response}.
Context `{!Proto B cmd_alignAFEs, !Proto B cmd_alignAFEs_response}.
Abbreviation Wd := (zworld S B).
Abbreviation envelope := (ControlEnvelopeV2 B).

(** [print(text); return code] *)
Definition leave {A : Type} (texts : list string) (code : Z) : M Wd (flow A) :=
  for_each texts say ;;; ret (Return code).

(** [try: m except zmq.Again: print(texts); return code] *)
Definition on_again {A : Type} (m : M Wd A) (texts : list string) (code : Z) : M Wd (flow A) :=
  try_except (go m) (fun e =>
    if decide (exn_class e = ZmqAgain) then leave texts code else raise e).

(** [if not m.ParseFromString(b): print(text); return code] *)
Definition parse_flow {A : Type} `{!Proto B A} (b : B) (text : string) (code : Z)
    : M Wd (flow A) :=
  a <- lift (parse b) ;;
  if size b =? 0 then leave [text] code else ret (Next a).

(** One exchange, up to the reply envelope: the texts and exit statuses of a send timeout, a
    receive timeout and an empty reply. *)
Definition exchange (name resp_name metrics_name : string) (env : envelope)
    (on_send on_recv : list string * Z) (on_empty : string * Z)
    : M Wd (flow (envelope * (Z * Z * float))) :=
  t_send <-? go time_ns ;;
  _ <-? go (print_envelope name env) ;;
  _ <-? on_again (z_send (ser env)) (fst on_send) (snd on_send) ;;
  frames <-? on_again recv_frames (fst on_recv) (snd on_recv) ;;
  f <-? go (last_frame frames) ;;
  t_recv <-? go time_ns ;;
  rtt <-? go (lift (rtt_of t_send t_recv)) ;;
  reply <-? parse_flow f (fst on_empty) (snd on_empty) ;;
  _ <-? go (print_envelope resp_name reply) ;;
  _ <-? go (show (Metrics metrics_name t_send t_recv rtt (timestamp_ns reply))) ;;
  ret (Next (reply, (t_send, t_recv, rtt))).

(** The checks after the configure and the align exchange. *)
Definition reply_errors (expected_type : Z) (req reply : envelope) : list string :=
  (if negb (dir reply =? DIR_RESPONSE) then ["dir mismatch: got " +:+ str_Z (dir reply)] else [])
  ++ (if negb (mtype reply =? expected_type)
      then ["type mismatch: got " +:+ str_Z (mtype reply) +:+ ", expected "
            +:+ str_Z expected_type] else [])
  ++ (if negb (task_id reply =? task_id req)
      then ["task_id mismatch: got " +:+ str_Z (task_id reply) +:+ ", expected "
            +:+ str_Z (task_id req)] else [])
  ++ (if negb (correl_id reply =? msg_id req)
      then ["correl_id mismatch: got " +:+ str_Z (correl_id reply) +:+ ", expected "
            +:+ str_Z (msg_id req)] else []).

Definition report_errors (title : string) (errors : list string) : M Wd unit :=
  match errors with
  | [] => ret tt
  | _ => say title ;;; for_each errors (fun e => say ("  - " +:+ e)) ;;; say ""
  end.

(** [summarize_configure_response] *)
Definition summarize_configure_response (resp : ConfigureResponse) (full : bool) : M Wd unit :=
  say "ConfigureResponse:" ;;;
  say ("  success : " +:+ str_bool (success resp)) ;;;
  let lines := splitlines (message resp) in
  let cut := negb full && (20 <? Z.of_nat (length lines)) in
  say "  message:" ;;;
  for_each (if cut then take 20 lines else lines) (fun ln => say ("    " +:+ ln)) ;;;
  when cut (say ("    ... (truncated, total " +:+ str_Z (Z.of_nat (length lines)) +:+ " lines)")) ;;;
  say "".

(** The parts of the JSON summary. *)
Definition request_json (env : envelope) : pyval :=
  PyDict [("version", PyInt (version env)); ("dir", PyInt (dir env)); ("type", PyInt (mtype env));
          ("task_id", PyInt (task_id env)); ("msg_id", PyInt (msg_id env));
          ("route", PyStr (route env)); ("timestamp_ns", PyInt (timestamp_ns env));
          ("payload_size", PyInt (size (payload env)))].

Definition response_json (env : envelope) : pyval :=
  PyDict [("version", PyInt (version env)); ("dir", PyInt (dir env)); ("type", PyInt (mtype env));
          ("task_id", PyInt (task_id env)); ("msg_id", PyInt (msg_id env));
          ("correl_id", PyInt (correl_id env)); ("timestamp_ns", PyInt (timestamp_ns env));
          ("payload_size", PyInt (size (payload env)))].

Definition metrics_json (times : Z * Z * float) : pyval :=
  let '(t0, t1, rtt) := times in
  PyDict [("client_send_ns", PyInt t0); ("client_recv_ns", PyInt t1); ("rtt_ms", PyFloat rtt)].

Definition configure_response_json (out : ConfigureResponse) : pyval :=
  PyDict [("success", PyBool (success out));
          ("message_lines", PyInt (count_char nl (message out) + lines_of (message out)))].

(** ** [main] *)

Section run.
Context (pid rand : Z) (args : fe_args).

Definition endpoint : string := "tcp://" +:+ fe_host args +:+ ":" +:+ str_Z (fe_port args).
Definition timeout_text : string := str_Z (fe_timeout args) +:+ " ms".

(** One turn of the bias write-back. *)
Definition bias_write (item : Z * Z) : M Wd (flow pyval) :=
  let '(afe_id, bias_dac) := item in
  let afe := "AFE" +:+ str_Z afe_id in
  block <-? go (lift (set_u32 afe_id)) ;;
  value <-? go (lift (set_u32 bias_dac)) ;;
  wenv <-? go (build_env (next_ids pid rand) MT2_WRITE_AFE_BIAS_SET_REQ
                 (ser (WriteBias block value)) (fe_route args)) ;;
  '(wreply, times) <-? exchange ("BIAS REQUEST " +:+ afe) ("BIAS RESPONSE " +:+ afe)
    ("BIAS_METRICS " +:+ afe) wenv
    (["[timeout] bias write send timed out for " +:+ afe +:+ " after " +:+ timeout_text], 9)
    (["[timeout] no bias write response for " +:+ afe +:+ " after " +:+ timeout_text], 10)
    ("Failed to parse bias write reply envelope for " +:+ afe, 11) ;;
  if negb (dir wreply =? DIR_RESPONSE) then
    leave ["Bias write dir mismatch for " +:+ afe +:+ ": got " +:+ str_Z (dir wreply)] 12
  else if negb (mtype wreply =? MT2_WRITE_AFE_BIAS_SET_RESP) then
    leave ["Bias write type mismatch for " +:+ afe +:+ ": got " +:+ str_Z (mtype wreply)
           +:+ ", expected " +:+ str_Z MT2_WRITE_AFE_BIAS_SET_RESP] 13
  else if negb (task_id wreply =? task_id wenv) || negb (correl_id wreply =? msg_id wenv) then
    leave ["Bias write correlation mismatch for " +:+ afe +:+ ": task " +:+ str_Z (task_id wreply)
           +:+ "/" +:+ str_Z (task_id wenv) +:+ ", correl " +:+ str_Z (correl_id wreply) +:+ "/"
           +:+ str_Z (msg_id wenv)] 14
  else
    wout <-? parse_flow (A := cmd_writeAFEBiasSet_response) (payload wreply)
               ("Failed to parse cmd_writeAFEBiasSet_response for " +:+ afe) 15 ;;
    _ <-? go (say ("  " +:+ afe +:+ ": success=" +:+ str_bool (wr_success wout) +:+ " biasValue="
                   +:+ str_Z (wr_biasValue wout) +:+ " message=" +:+ wr_message wout)) ;;
    ret (Next (PyDict
      [("afe", PyInt afe_id); ("requested_bias_dac", PyInt bias_dac);
       ("request", request_json wenv); ("response", response_json wreply);
       ("metrics", metrics_json times);
       ("write_response", PyDict [("success", PyBool (wr_success wout));
                                  ("message", PyStr (wr_message wout));
                                  ("bias_value", PyInt (wr_biasValue wout))])])).

Definition write_back (biases : gmap Z Z) : M Wd (flow (list pyval)) :=
  match sorted_items biases with
  | [] => ret (Next [])
  | items =>
      _ <-? go (say "[BIAS_WRITEBACK]") ;;
      docs <-? collect items bias_write ;;
      _ <-? go (say "") ;;
      ret (Next docs)
  end.

(** The [-align_afes] block. *)
Definition align : M Wd (flow pyval) :=
  if negb (fe_align_afes args) then ret (Next PyNone)
  else
    env <-? go (build_env (next_ids pid rand) MT2_ALIGN_AFE_REQ (ser AlignAFEs) (fe_route args)) ;;
    '(reply, times) <-? exchange "ALIGN REQUEST" "ALIGN RESPONSE" "ALIGN_METRICS" env
      (["[timeout] align send timed out after " +:+ timeout_text +:+ " to " +:+ endpoint
        +:+ " route=" +:+ fe_route args], 7)
      (["[timeout] no ALIGN_AFE response after " +:+ timeout_text +:+ " from " +:+ endpoint
        +:+ " route=" +:+ fe_route args; "Hint: try --timeout 30000"], 8)
      ("Failed to parse ControlEnvelopeV2 align reply", 7) ;;
    _ <-? go (report_errors "Align correlation/type checks FAILED:"
                (reply_errors MT2_ALIGN_AFE_RESP env reply)) ;;
    out <-? parse_flow (A := cmd_alignAFEs_response) (payload reply)
              "Failed to parse cmd_alignAFEs_response" 8 ;;
    _ <-? go (say "[ALIGN_RESULT]" ;;; say ("  success : " +:+ str_bool (ar_success out)) ;;;
              for_each (splitlines (ar_message out)) (fun ln => say ("  " +:+ ln)) ;;; say "") ;;
    ret (Next (PyDict
      [("request", request_json env); ("response", response_json reply);
       ("metrics", metrics_json times);
       ("align_response", PyDict
          [("success", PyBool (ar_success out));
           ("message_lines", PyInt (count_pair "\" "n" (ar_message out)
                                    + lines_of (ar_message out)))])])).

(** The configure exchange: the request and reply, its times and the decoded response. *)
Definition configure (cfg : ConfigureRequest)
    : M Wd (flow (envelope * envelope * (Z * Z * float) * ConfigureResponse)) :=
  req <-? go (build_env (next_ids pid rand) MT2_CONFIGURE_FE_REQ (ser cfg) (fe_route args)) ;;
  '(reply, times) <-? exchange "REQUEST" "RESPONSE" "METRICS" req
    (["[timeout] send timed out after " +:+ timeout_text +:+ " to " +:+ endpoint +:+ " route="
      +:+ fe_route args], 3)
    (["[timeout] no CONFIGURE_FE response after " +:+ timeout_text +:+ " from " +:+ endpoint
      +:+ " route=" +:+ fe_route args;
      "Hint: try --timeout 30000 and validate route with client/testreg_v2.py"], 4)
    ("Failed to parse ControlEnvelopeV2 reply", 2) ;;
  _ <-? go (report_errors "Correlation/Type checks FAILED:"
              (reply_errors MT2_CONFIGURE_FE_RESP req reply)) ;;
  out <-? parse_flow (A := ConfigureResponse) (payload reply)
            "Failed to parse ConfigureResponse" 6 ;;
  _ <-? go (summarize_configure_response out (fe_full args)) ;;
  ret (Next (req, reply, times, out)).

Definition summary (req reply : envelope) (times : Z * Z * float) (out : ConfigureResponse)
    (align_json : pyval) (bias_writes : list pyval) : pyval :=
  PyDict ([("endpoint", PyStr endpoint); ("request", request_json req);
           ("response", response_json reply); ("metrics", metrics_json times);
           ("configure_response", configure_response_json out)]
    ++ (if truthy align_json then [("align", align_json)] else [])
    ++ (match bias_writes with [] => [] | _ => [("bias_writes", PyList bias_writes)] end)).

Definition main_flow (cfg : ConfigureRequest) (biases : gmap Z Z) : M Wd (flow Z) :=
  '(req, reply, times, out) <-? configure cfg ;;
  bias_writes <-? write_back biases ;;
  align_json <-? align ;;
  _ <-? go (when (fe_json args) (show (Document
              (summary req reply times out align_json bias_writes)))) ;;
  ret (Next (if success out then 0 else 1)).

(** The exit status of [main]; an exception is one the script does not catch. *)
Definition main : M Wd Z :=
  '(cfg, biases) <- lift (build_fe_request args) ;;
  r <- main_flow cfg biases ;;
  match r with
  | Next code => ret code
  | Return code => ret code
  end.

End run.

(** ** [send_configure_request] *)

Definition send_configure_request (pid rand : Z) (cfg : ConfigureRequest) (host : string)
    (port : Z) (route : string) : M Wd pyval :=
  req_env <- build_env (next_ids pid rand) MT2_CONFIGURE_FE_REQ (ser cfg) route ;;
  t_send_ns <- time_ns ;;
  print_envelope "REQUEST" req_env ;;;
  z_send (ser req_env) ;;;
  frames <- recv_frames ;;
  reply_bytes <- last_frame frames ;;
  t_recv_ns <- time_ns ;;
  rtt_ms <- lift (rtt_of t_send_ns t_recv_ns) ;;
  reply <- lift (parse_or reply_bytes (unparsed "Failed to parse ControlEnvelopeV2 reply")) ;;
  print_envelope "RESPONSE" reply ;;;
  show (Metrics "METRICS" t_send_ns t_recv_ns rtt_ms (timestamp_ns reply)) ;;;
  out <- lift (parse_or (payload reply) (unparsed "Failed to parse ConfigureResponse")) ;;
  summarize_configure_response out true ;;;
  ret (PyDict [("endpoint", PyStr ("tcp://" +:+ host +:+ ":" +:+ str_Z port));
               ("request", request_json req_env); ("response", response_json reply);
               ("metrics", metrics_json (t_send_ns, t_recv_ns, rtt_ms));
               ("configure_response", configure_response_json out)]).

End fe_main.

(** ** What is sent

    The requests of a run, by type and payload: the configuration, one write per override in
    the order of the AFEs, the alignment when asked for. *)
Section plan.
Context {B : Type} `{!Proto B ConfigureRequest, !Proto B cmd_writeAFEBiasSet}.
Context `{!Proto B cmd_alignAFEs}.

Definition plan (args : fe_args) (cfg : ConfigureRequest) (biases : gmap Z Z) : list (Z * B) :=
  (MT2_CONFIGURE_FE_REQ, ser cfg)
  :: ((fun kv => (MT2_WRITE_AFE_BIAS_SET_REQ, ser (WriteBias (fst kv) (snd kv))))
        <$> sorted_items biases)
  ++ (if fe_align_afes args then [(MT2_ALIGN_AFE_REQ, ser AlignAFEs)] else []).

End plan.

Section sending.
Context {S B : Type} `{Peer S B, Size B, !Proto B (ControlEnvelopeV2 B)}.
Abbreviation Wd := (zworld S B).
Abbreviation envelope := (ControlEnvelopeV2 B).

(** [m] sends the requests of [p]: all of them when it goes on with a value (of which [V]
    holds), some first ones when it leaves early, with a status of at least 2. *)
Definition sends {A : Type} (V : A -> Prop) (p : list (Z * B)) (m : M Wd (flow A)) : Prop :=
  forall w, exists envs : list envelope,
    sent (snd (m w)) = sent w ++ (ser <$> envs) /\ tag <$> envs `prefix_of` p /\
    (forall a, fst (m w) = Ok (Next a) -> tag <$> envs = p /\ V a) /\
    (forall c, fst (m w) = Ok (Return c) -> 2 <= c <= 15).

Lemma sends_quiet {A : Type} (V : A -> Prop) (m : M Wd A) :
  unsent m -> (forall w a w', m w = (Ok a, w') -> V a) -> sends V [] (go m).
Proof using Type.
  intros Hq HV w. exists []. specialize (Hq w). unfold go, bind. cbn [fmap list_fmap].
  rewrite app_nil_r. destruct (m w) as [[a|e] w'] eqn:Hm; cbn in *.
  - split_and!; [done|done| |done]. intros b [= <-]. split; [done|by eapply HV].
  - split_and!; [done|done|done|done].
Qed.

Lemma sends_weaken {A : Type} (V V' : A -> Prop) p (m : M Wd (flow A)) :
  sends V p m -> (forall a, V a -> V' a) -> sends V' p m.
Proof using Type.
  intros Hm HV w. destruct (Hm w) as (envs & Hs & Hp & Hn & Hr). exists envs.
  split_and!; auto. intros a Ha. destruct (Hn a Ha). auto.
Qed.

Lemma sends_next {A : Type} (V : A -> Prop) a : V a -> sends V [] (ret (Next a)).
Proof using Type.
  intros Ha w. exists []. cbn. rewrite app_nil_r. split_and!; auto; [|done].
  intros b [= <-]. auto.
Qed.

Lemma sends_leave {A : Type} (V : A -> Prop) p texts c :
  2 <= c <= 15 -> sends V p (leave texts c : M Wd (flow A)).
Proof using Type.
  intros Hc w. exists []. cbn [fmap list_fmap]. rewrite app_nil_r.
  unfold leave, bind.
  assert (Hsay : forall w0 : Wd, fst (for_each texts say w0) = Ok tt /\
    sent (snd (for_each texts say w0)) = sent w0).
  { induction texts as [|t texts IH]; intros w0; [done|]. cbn [for_each]. unfold bind.
    destruct (say t w0) as [r w1] eqn:Hs. cbn in Hs. injection Hs as <- <-.
    destruct (IH (snd (say t w0))) as [H1 H2]. split; [exact H1|]. etransitivity; [exact H2|done]. }
  destruct (Hsay w) as [H1 H2]. destruct (for_each texts say w) as [r w1]. cbn in H1, H2. subst r.
  cbn. split_and!; [done|apply prefix_nil|done|]. by intros d [= <-].
Qed.

Lemma sends_bind {A C : Type} (V : A -> Prop) (V' : C -> Prop) p1 p2 (m : M Wd (flow A))
    (k : A -> M Wd (flow C)) :
  sends V p1 m -> (forall a, V a -> sends V' p2 (k a)) -> sends V' (p1 ++ p2) (fbind m k).
Proof using Type.
  intros Hm Hk w. destruct (Hm w) as (e1 & Hs1 & Hp1 & Hn1 & Hr1). unfold fbind, bind.
  destruct (m w) as [[[a|c]|e] w1]; cbn in *.
  - destruct (Hn1 a eq_refl) as [Ht Ha]. destruct (Hk a Ha w1) as (e2 & Hs2 & Hp2 & Hn2 & Hr2).
    exists (e1 ++ e2). rewrite !fmap_app, Ht. split_and!.
    + by rewrite Hs2, Hs1, app_assoc.
    + by apply prefix_app.
    + intros b Hb. destruct (Hn2 b Hb) as [-> ?]. auto.
    + exact Hr2.
  - exists e1. split_and!; [done|by apply prefix_app_r|done|]. intros d [= <-]. auto.
  - exists e1. split_and!; [done|by apply prefix_app_r|done|done].
Qed.

(** A step that sends nothing. *)
Lemma sends_step {A C : Type} (V : A -> Prop) (V' : C -> Prop) p (m : M Wd (flow A))
    (k : A -> M Wd (flow C)) :
  sends V [] m -> (forall a, V a -> sends V' p (k a)) -> sends V' p (fbind m k).
Proof using Type. apply (sends_bind V V' []). Qed.

Lemma sends_last {A C : Type} (V : A -> Prop) (V' : C -> Prop) p (m : M Wd (flow A))
    (k : A -> M Wd (flow C)) :
  sends V p m -> (forall a, V a -> sends V' [] (k a)) -> sends V' p (fbind m k).
Proof using Type. intros Hm Hk. rewrite <- (app_nil_r p). by apply (sends_bind V). Qed.

Lemma unsent_report title errors : unsent (report_errors title errors : M Wd unit).
Proof using Type.
  unfold report_errors. destruct errors as [|e es]; [done|].
  apply unsent_bind; [done|intros _]. apply unsent_bind; [by apply unsent_for_each|done].
Qed.

Lemma unsent_summarize out full : unsent (summarize_configure_response out full : M Wd unit).
Proof using Type.
  unfold summarize_configure_response. cbv zeta. repeat (apply unsent_bind; [|intros _]); try done.
  - by apply unsent_for_each.
  - by apply unsent_when.
Qed.

Lemma sends_on_again_quiet {A : Type} (m : M Wd A) texts code :
  2 <= code <= 15 -> unsent m -> sends (fun _ => True) [] (on_again m texts code).
Proof using Type.
  intros Hc Hq w. unfold on_again, try_except, go, bind. specialize (Hq w).
  destruct (m w) as [[a|e] w1] eqn:Hm; cbn [snd] in Hq.
  - exists []. cbn. rewrite app_nil_r. split_and!; [done|done| |done]. auto.
  - destruct (decide (exn_class e = ZmqAgain)).
    + destruct (sends_leave (A := A) (fun _ => True) [] texts code Hc w1) as (envs & Hs & H').
      exists envs. by rewrite Hs, Hq.
    + exists []. cbn. rewrite app_nil_r. split_and!; done.
Qed.

Lemma sends_send env texts code :
  2 <= code <= 15 ->
  sends (fun _ => True) [tag env] (on_again (z_send (ser env)) texts code : M Wd (flow unit)).
Proof using Type.
  intros Hc w. unfold on_again, try_except, go, bind.
  destruct (z_send (ser env) w) as [[a|e] w1] eqn:Hz.
  - apply z_send_sent in Hz. exists [env]. cbn. split_and!; [done|done| |done]. auto.
  - assert (Hs : sent w1 = sent w).
    { unfold z_send in Hz. destruct (can_send (srv w)); [|by injection Hz as _ <-].
      by destruct (answer (srv w) (ser env)). }
    destruct (decide (exn_class e = ZmqAgain)).
    + destruct (sends_leave (A := unit) (fun _ => True) [tag env] texts code Hc w1)
        as (envs & Hs' & H').
      exists envs. by rewrite Hs', Hs.
    + exists []. cbn. rewrite app_nil_r. split_and!; [done|apply prefix_nil|done|done].
Qed.

Lemma sends_parse {A : Type} `{!Proto B A} (b : B) text code :
  2 <= code <= 15 -> sends (fun a => parse b = Ok a) [] (parse_flow b text code : M Wd (flow A)).
Proof using Type.
  intros Hc w. unfold parse_flow, bind, lift. destruct (parse b) as [a|e].
  - destruct (size b =? 0); [by apply sends_leave|]. by apply (sends_next (fun x => Ok a = Ok x)).
  - exists []. cbn. rewrite app_nil_r. split_and!; done.
Qed.

(** A step that prints, reads the clock or computes. *)
Lemma sends_go {A C : Type} (V : C -> Prop) p (m : M Wd A) (k : A -> M Wd (flow C)) :
  unsent m -> (forall a, sends V p (k a)) -> sends V p (fbind (go m) k).
Proof using Type.
  intros Hq Hk. apply (sends_step (fun _ => True)); [by apply sends_quiet|auto].
Qed.

Lemma sends_exchange n1 n2 n3 env s r e :
  2 <= snd s <= 15 -> 2 <= snd r <= 15 -> 2 <= snd e <= 15 ->
  sends (fun _ => True) [tag env] (exchange n1 n2 n3 env s r e : M Wd (flow _)).
Proof using Type.
  intros Hs Hr He. unfold exchange.
  apply sends_go; [apply unsent_time|intros t0]. apply sends_go; [done|intros _].
  eapply sends_last; [by apply sends_send|intros _ _].
  eapply sends_step; [apply sends_on_again_quiet, recv_frames_quiet; done|intros frames _].
  apply sends_go; [apply unsent_last_frame|intros f]. apply sends_go; [apply unsent_time|intros t1].
  apply sends_go; [done|intros rtt].
  eapply sends_step; [by apply sends_parse|intros reply _].
  do 2 (apply sends_go; [done|intros _]). by apply sends_next.
Qed.

Lemma build_env_run pid rand ty (b : B) rt (w : Wd) env w' :
  build_env (next_ids pid rand) ty b rt w = (Ok env, w') -> tag env = (ty, b).
Proof using Type.
  intros Hr. apply build_env_sent in Hr as (H1 & H2 & _); [by unfold tag; rewrite H1, H2|].
  intros w0 r w1. apply next_ids_sent.
Qed.

Lemma unsent_build_env pid rand ty (b : B) rt : unsent (build_env (next_ids pid rand) ty b rt : M Wd _).
Proof using Type. done. Qed.

(** The common beginning of the three exchanges. *)
Lemma sends_request {C : Type} (V : C -> Prop) pid rand ty (b : B) rt k :
  (forall env, tag env = (ty, b) -> sends V [(ty, b)] (k env)) ->
  sends V [(ty, b)] (fbind (go (build_env (next_ids pid rand) ty b rt)) k).
Proof using Type.
  intros Hk. apply (sends_step (fun env => tag env = (ty, b))); [|auto].
  apply sends_quiet; [apply unsent_build_env|]. intros w a w'. apply build_env_run.
Qed.

Lemma sends_collect {A C : Type} (l : list A) (f : A -> M Wd (flow C)) g :
  (forall a, a ∈ l -> sends (fun _ => True) [g a] (f a)) ->
  sends (fun _ => True) (g <$> l) (collect l f).
Proof using Type.
  induction l as [|a l IH]; intros Hf; [by apply sends_next|]. cbn [collect fmap list_fmap].
  apply (sends_bind (fun _ => True) _ [g a]); [apply Hf, list_elem_of_here|intros c _].
  eapply sends_last; [apply IH; intros b Hb; apply Hf; by apply list_elem_of_further|].
  intros cs _. by apply sends_next.
Qed.

End sending.

Section main_sends.
Context {S B : Type} `{Peer S B, Size B, !Proto B (ControlEnvelopeV2 B)}.
Context `{!Proto B ConfigureRequest, !Proto B ConfigureResponse}.
Context `{!Proto B cmd_writeAFEBiasSet, !Proto B cmd_writeAFEBiasSet_response}.
Context `{!Proto B cmd_alignAFEs, !Proto B cmd_alignAFEs_response}.
Context (pid rand : Z) (args : fe_args).
Abbreviation Wd := (zworld S B).

Lemma sends_u32 {C : Type} (V : C -> Prop) p z (k : Z -> M Wd (flow C)) :
  sends V p (k z) -> sends V p (fbind (go (lift (set_u32 z))) k).
Proof using Type.
  intros Hk. apply (sends_step (fun v => v = z)); [|by intros v ->].
  apply sends_quiet; [done|]. intros w a w' [= Hu _]. by apply set_uint_ok in Hu as [-> _].
Qed.

Lemma sends_bias_write kv :
  sends (fun _ => True) [(MT2_WRITE_AFE_BIAS_SET_REQ, ser (WriteBias (fst kv) (snd kv)))]
    (bias_write pid rand args kv : M Wd (flow pyval)).
Proof using Type.
  destruct kv as [afe dac]. unfold bias_write. cbn [fst snd]. do 2 apply sends_u32.
  apply sends_request. intros env Ht. rewrite <- Ht.
  eapply sends_last; [by apply sends_exchange|]. intros [reply times] _.
  destruct (negb _); [by apply sends_leave|]. destruct (negb _); [by apply sends_leave|].
  destruct (negb _ || negb _); [by apply sends_leave|].
  eapply sends_step; [by apply sends_parse|intros out _].
  apply sends_go; [done|intros _]. by apply sends_next.
Qed.

Lemma sends_write_back biases :
  sends (fun _ => True)
    ((fun kv => (MT2_WRITE_AFE_BIAS_SET_REQ, ser (WriteBias (fst kv) (snd kv))))
       <$> sorted_items biases)
    (write_back pid rand args biases : M Wd (flow (list pyval))).
Proof using Type.
  unfold write_back. destruct (sorted_items biases) as [|kv kvs]; [by apply sends_next|].
  apply sends_go; [done|intros _].
  eapply sends_last; [apply sends_collect; intros x _; apply sends_bias_write|].
  intros docs _. apply sends_go; [done|intros _]. by apply sends_next.
Qed.

Lemma sends_align :
  sends (fun _ => True) (if fe_align_afes args then [(MT2_ALIGN_AFE_REQ, ser AlignAFEs)] else [])
    (align pid rand args : M Wd (flow pyval)).
Proof using Type.
  unfold align. destruct (fe_align_afes args); cbn [negb]; [|by apply sends_next].
  apply sends_request. intros env Ht. rewrite <- Ht.
  eapply sends_last; [by apply sends_exchange|]. intros [reply times] _.
  apply sends_go; [apply unsent_report|intros _].
  eapply sends_step; [by apply sends_parse|intros out _].
  apply sends_go; [|intros _; by apply sends_next].
  repeat (apply unsent_bind; [done|intros _]).
  apply unsent_bind; [by apply unsent_for_each|done].
Qed.

Lemma sends_configure cfg :
  sends (fun r => let '(req, reply, times, out) := r in parse (payload reply) = Ok out)
    [(MT2_CONFIGURE_FE_REQ, ser cfg)] (configure pid rand args cfg : M Wd (flow _)).
Proof using Type.
  unfold configure. apply sends_request. intros env Ht. rewrite <- Ht.
  eapply sends_last; [by apply sends_exchange|]. intros [reply times] _.
  apply sends_go; [apply unsent_report|intros _].
  eapply sends_step; [by apply sends_parse|intros out Hout].
  apply sends_go; [apply unsent_summarize|intros _]. by apply sends_next.
Qed.

Lemma sends_main_flow cfg biases :
  sends (fun code => code = 0 \/ code = 1) (plan args cfg biases)
    (main_flow pid rand args cfg biases : M Wd (flow Z)).
Proof using Type.
  unfold main_flow, plan.
  eapply (sends_bind _ _ [_]); [apply sends_configure|].
  intros [[[req reply] times] out] _.
  eapply sends_bind; [apply sends_write_back|]. intros docs _.
  eapply sends_last; [apply sends_align|]. intros doc _.
  apply sends_go; [by apply unsent_when|intros _]. apply sends_next. destruct (success out); auto.
Qed.

End main_sends.

Lemma strict_keys (l : list (Z * Z)) :
  StronglySorted key_le l -> NoDup (fst <$> l) -> StronglySorted Z.lt (fst <$> l).
Proof.
  induction 1 as [|a l Hs IH Hall]; intros Hnd; [constructor|]. cbn in *.
  apply NoDup_cons in Hnd as [Hni Hnd]. constructor; [by apply IH|].
  rewrite Forall_fmap. apply Forall_forall. intros b Hb. rewrite Forall_forall in Hall.
  specialize (Hall b Hb). unfold key_le in Hall. cbn.
  assert (fst a <> fst b); [|lia]. intros He. apply Hni. rewrite He. by apply list_elem_of_fmap_2.
Qed.

Lemma sorted_items_spec (m : gmap Z Z) :
  (forall k v, (k, v) ∈ sorted_items m <-> m !! k = Some v) /\
  StronglySorted Z.lt (fst <$> sorted_items m).
Proof.
  assert (Hp : sorted_items m ≡ₚ map_to_list m) by apply merge_sort_Permutation.
  split; [intros k v; rewrite Hp; apply elem_of_map_to_list|].
  apply strict_keys; [|by rewrite Hp; apply NoDup_fst_map_to_list].
  apply StronglySorted_merge_sort; [|apply _]. intros a b c. unfold key_le. lia.
Qed.

Lemma build_fe_biases args cfg biases :
  build_fe_request args = Ok (cfg, biases) -> afe_bias_overrides args = Ok biases.
Proof.
  unfold build_fe_request. intros H. do 7 apply rbind_ok in H as (? & _ & H).
  apply rbind_ok in H as (m & Hm & H). do 2 apply rbind_ok in H as (? & _ & H).
  by injection H as _ <-.
Qed.

(** ** A server that answers

    [Serving rep ok text]: a server that takes every request and answers it at once with a
    matching reply; to the configuration with [ok] and [text]. *)
Class Serving {S B : Type} `{Peer S B, Size B, !Proto B (ControlEnvelopeV2 B)}
    `{!Proto B ConfigureResponse, !Proto B cmd_writeAFEBiasSet_response}
    `{!Proto B cmd_alignAFEs_response}
    (rep : ControlEnvelopeV2 B -> ControlEnvelopeV2 B) (ok : bool) (text : string) : Prop := {
  sv_send s : can_send s = true;
  sv_answer s env : exists s', answer s (ser env) = (s', [[ser (rep env)]]);
  sv_size env : size (ser (rep env)) <> 0;
  sv_payload env : size (payload (rep env)) <> 0;
  sv_dir env : dir (rep env) = DIR_RESPONSE;
  sv_type env : mtype (rep env) = mtype env + 1;
  sv_task env : task_id (rep env) = task_id env;
  sv_correl env : correl_id (rep env) = msg_id env;
  sv_conf env : mtype env = MT2_CONFIGURE_FE_REQ -> parse (payload (rep env)) = Ok (ConfResp ok text);
  sv_bias env : mtype env = MT2_WRITE_AFE_BIAS_SET_REQ ->
    exists r : cmd_writeAFEBiasSet_response, parse (payload (rep env)) = Ok r;
  sv_align env : mtype env = MT2_ALIGN_AFE_REQ ->
    exists r : cmd_alignAFEs_response, parse (payload (rep env)) = Ok r }.

Section serving.
Context {S B : Type} `{Peer S B, Size B, !Proto B (ControlEnvelopeV2 B)}.
Context `{!ProtoLaws B (ControlEnvelopeV2 B)}.
Context `{!Proto B ConfigureRequest, !Proto B ConfigureResponse}.
Context `{!Proto B cmd_writeAFEBiasSet, !Proto B cmd_writeAFEBiasSet_response}.
Context `{!Proto B cmd_alignAFEs, !Proto B cmd_alignAFEs_response}.
Context (rep : ControlEnvelopeV2 B -> ControlEnvelopeV2 B) (ok : bool) (text : string).
Context `{!Serving (S := S) rep ok text}.
Context (pid rand : Z) (args : fe_args).
Abbreviation Wd := (zworld S B).
Abbreviation envelope := (ControlEnvelopeV2 B).

(** [m] goes on with a value, from a quiet socket to a quiet socket. *)
Definition finishes {A : Type} (V : A -> Prop) (m : M Wd (flow A)) : Prop :=
  forall w, calm w -> exists a w', m w = (Ok (Next a), w') /\ V a /\ calm w'.

Lemma finishes_bind {A C : Type} (V : A -> Prop) (V' : C -> Prop) (m : M Wd (flow A))
    (k : A -> M Wd (flow C)) :
  finishes V m -> (forall a, V a -> finishes V' (k a)) -> finishes V' (fbind m k).
Proof using Type.
  intros Hm Hk w Hw. destruct (Hm w Hw) as (a & w1 & Hr & Ha & Hw1). unfold fbind, bind.
  rewrite Hr. by apply Hk.
Qed.

Lemma finishes_go {A C : Type} (V : A -> Prop) (V' : C -> Prop) (m : M Wd A)
    (k : A -> M Wd (flow C)) :
  easy V m -> (forall a, V a -> finishes V' (k a)) -> finishes V' (fbind (go m) k).
Proof using Type.
  intros Hm Hk w Hw. destruct (Hm w Hw) as (a & w1 & Hr & Ha & Hw1). unfold fbind, go, bind.
  rewrite Hr. by apply Hk.
Qed.

Lemma finishes_next {A : Type} (V : A -> Prop) a : V a -> finishes V (ret (Next a)).
Proof using Type. intros Ha w Hw. by exists a, w. Qed.

Lemma finishes_parse {A : Type} `{!Proto B A} (b : B) a tx code :
  parse b = Ok a -> size b <> 0 -> finishes (fun x => x = a) (parse_flow b tx code).
Proof using Type.
  intros Hp Hs w Hw. unfold parse_flow, bind, lift. rewrite Hp, (proj2 (Z.eqb_neq _ _)) by done.
  by exists a, w.
Qed.

Lemma finishes_send_recv {C : Type} (V : C -> Prop) env t1 c1 t2 c2
    (k : list B -> M Wd (flow C)) :
  finishes V (k [ser (rep env)]) ->
  finishes V (_ <-? on_again (z_send (ser env)) t1 c1 ;; frames <-? on_again recv_frames t2 c2 ;;
              k frames).
Proof using All.
  intros Hk w [Hc Hi]. unfold fbind at 1, bind, on_again, try_except, go, bind.
  unfold z_send. rewrite sv_send. destruct (sv_answer (srv w) env) as [s' Ha]. rewrite Ha, Hi.
  unfold ret at 1. unfold fbind, bind.
  rewrite (recv_frames_message _ (ser (rep env)) [] []) by done. apply Hk. by split.
Qed.

Lemma finishes_exchange n1 n2 n3 env s r e :
  finishes (fun x => fst x = rep env) (exchange n1 n2 n3 env s r e).
Proof using All.
  unfold exchange. apply (finishes_go (fun _ => True)); [by intros w Hw; eexists _, _|intros t0 _].
  eapply finishes_go; [apply easy_show|intros _ _]. apply finishes_send_recv.
  apply (finishes_go (fun f => f = ser (rep env))); [by intros w Hw; eexists _, _|intros f ->].
  apply (finishes_go (fun _ => True)); [by intros w Hw; eexists _, _|intros t1 _].
  destruct (rtt_ok t0 t1) as [x Hx]. eapply finishes_go; [by apply easy_lift|intros y ->].
  eapply finishes_bind; [apply finishes_parse; [apply parse_ser|apply sv_size]|intros y ->].
  do 2 (eapply finishes_go; [apply easy_show|intros _ _]). by apply finishes_next.
Qed.

Lemma finishes_request {C : Type} (V : C -> Prop) ty (b : B) k :
  (forall env, tag env = (ty, b) -> finishes V (k env)) ->
  finishes V (fbind (go (build_env (next_ids pid rand) ty b (fe_route args))) k).
Proof using Type.
  intros Hk. apply (finishes_go (fun env => tag env = (ty, b))); [|auto].
  intros w Hw. by eexists _, _.
Qed.

Lemma easy_report title : easy (fun _ => True) (report_errors title [] : M Wd unit).
Proof using Type. intros w Hw. by eexists _, _. Qed.

Lemma no_errors ty (env : envelope) : mtype env + 1 = ty -> reply_errors ty env (rep env) = [].
Proof using All.
  intros Ht. unfold reply_errors.
  by rewrite sv_dir, sv_type, sv_task, sv_correl, Ht, !Z.eqb_refl.
Qed.

Lemma easy_summarize out full :
  easy (fun _ => True) (summarize_configure_response out full : M Wd unit).
Proof using Type.
  unfold summarize_configure_response. cbv zeta.
  do 3 (eapply easy_bind; [apply easy_say|intros _ _]).
  eapply easy_bind; [apply easy_for_each; intros a; apply easy_say|intros _ _].
  eapply easy_bind; [|intros _ _; apply easy_say].
  destruct (_ && _); [apply easy_say|]. intros w Hw. by eexists _, _.
Qed.

Lemma finishes_bias_write kv :
  0 <= fst kv < 2 ^ 32 -> 0 <= snd kv < 2 ^ 32 ->
  finishes (fun _ => True) (bias_write pid rand args kv).
Proof using All.
  destruct kv as [afe dac]. cbn [fst snd]. intros Ha Hd. unfold bias_write.
  eapply finishes_go; [apply easy_lift; by apply set_uint_ok|intros x ->].
  eapply finishes_go; [apply easy_lift; by apply set_uint_ok|intros x ->].
  apply finishes_request. intros env Ht. injection Ht as Ht Hp.
  eapply finishes_bind; [apply finishes_exchange|]. intros [reply times]. cbn [fst]. intros ->.
  rewrite sv_dir, sv_type, sv_task, sv_correl, Ht, !Z.eqb_refl. cbn [negb orb].
  destruct (sv_bias env Ht) as [r Hr].
  eapply finishes_bind; [by apply finishes_parse; [exact Hr|apply sv_payload]|intros x ->].
  eapply finishes_go; [apply easy_say|intros _ _]. by apply finishes_next.
Qed.

Lemma finishes_collect {A C : Type} (l : list A) (f : A -> M Wd (flow C)) :
  (forall a, a ∈ l -> finishes (fun _ => True) (f a)) -> finishes (fun _ => True) (collect l f).
Proof using Type.
  induction l as [|a l IH]; intros Hf; [by apply finishes_next|]. cbn [collect].
  eapply finishes_bind; [apply Hf, list_elem_of_here|intros c _].
  eapply finishes_bind; [apply IH; intros b Hb; apply Hf; by apply list_elem_of_further|].
  intros cs _. by apply finishes_next.
Qed.

Lemma finishes_write_back biases :
  (forall k d, biases !! k = Some d -> 0 <= k <= AFE_MAX /\ 0 <= d <= BIAS_DAC_MAX) ->
  finishes (fun _ => True) (write_back pid rand args biases).
Proof using All.
  intros Hb. unfold write_back.
  destruct (sorted_items biases) as [|kv kvs] eqn:Hs; [by apply finishes_next|].
  eapply finishes_go; [apply easy_say|intros _ _].
  eapply finishes_bind.
  - apply finishes_collect. intros [k d] Hin. rewrite <- Hs in Hin.
    apply sorted_items_spec, Hb in Hin. unfold AFE_MAX, BIAS_DAC_MAX in Hin.
    apply finishes_bias_write; cbn; lia.
  - intros docs _. eapply finishes_go; [apply easy_say|intros _ _]. by apply finishes_next.
Qed.

Lemma finishes_align : finishes (fun _ => True) (align pid rand args).
Proof using All.
  unfold align. destruct (fe_align_afes args); cbn [negb]; [|by apply finishes_next].
  apply finishes_request. intros env Ht. injection Ht as Ht Hp.
  eapply finishes_bind; [apply finishes_exchange|]. intros [reply times]. cbn [fst]. intros ->.
  rewrite no_errors by (by rewrite Ht).
  eapply finishes_go; [apply easy_report|intros _ _]. destruct (sv_align env Ht) as [r Hr].
  eapply finishes_bind; [by apply finishes_parse; [exact Hr|apply sv_payload]|intros x ->].
  eapply (finishes_go (fun _ => True)); [|intros _ _; by apply finishes_next].
  do 2 (eapply easy_bind; [apply easy_say|intros _ _]).
  eapply easy_bind; [apply easy_for_each; intros a; apply easy_say|intros _ _; apply easy_say].
Qed.

Lemma finishes_configure cfg :
  finishes (fun x => snd x = ConfResp ok text) (configure pid rand args cfg).
Proof using All.
  unfold configure. apply finishes_request. intros env Ht. injection Ht as Ht Hp.
  eapply finishes_bind; [apply finishes_exchange|]. intros [reply times]. cbn [fst]. intros ->.
  rewrite no_errors by (by rewrite Ht).
  eapply finishes_go; [apply easy_report|intros _ _].
  eapply finishes_bind; [apply finishes_parse; [by apply sv_conf|apply sv_payload]|intros x ->].
  eapply finishes_go; [apply easy_summarize|intros _ _]. by apply finishes_next.
Qed.

Lemma main_serves cfg biases (w : Wd) :
  build_fe_request args = Ok (cfg, biases) -> calm w ->
  exists w', main pid rand args w = (Ok (if ok then 0 else 1), w') /\ calm w'.
Proof using All.
  intros Hreq Hw. unfold main. rewrite (bind_run _ _ w (cfg, biases) w) by (by rewrite Hreq).
  assert (Hm : finishes (fun c => c = if ok then 0 else 1) (main_flow pid rand args cfg biases)).
  { unfold main_flow. eapply finishes_bind; [apply finishes_configure|].
    intros [[[req reply] times] out]. cbn [snd]. intros ->.
    eapply finishes_bind; [apply finishes_write_back|intros docs _].
    { intros k d Hd. apply build_fe_biases, afe_bias_overrides_range in Hreq as [Hdac Hk].
      split; [by apply Hk; eauto|by eapply Hdac]. }
    eapply finishes_bind; [apply finishes_align|intros doc _].
    eapply (finishes_go (fun _ => True)); [|by intros _ _; apply finishes_next].
    destruct (fe_json args); [apply easy_show|]. intros w0 Hw0. by eexists _, _. }
  destruct (Hm w Hw) as (c & w' & Hr & -> & Hw'). rewrite (bind_run _ _ _ _ _ Hr). by exists w'.
Qed.

End serving.

(** ** Properties *)

(** C7. What [configure_fe_min_v2] sends, whatever the peer does: nothing at all when the
    options are wrong; otherwise an initial part of the plan (the configuration, one bias
    write per override in increasing order of the AFEs, the alignment when asked for).  When
    [main] returns, its status is 0 or 1 and the whole plan was sent, or it is between 2 and 15.
    When it raises (a reply that cannot be parsed, for instance), the plan may be cut short too,
    and the process ends with status 1 like a refused configuration: that status alone does not
    tell that all was sent. *)
Theorem fe_main_sends_plan {S B : Type} `{Peer S B, Size B, !Proto B (ControlEnvelopeV2 B)}
    `{!Proto B ConfigureRequest, !Proto B ConfigureResponse}
    `{!Proto B cmd_writeAFEBiasSet, !Proto B cmd_writeAFEBiasSet_response}
    `{!Proto B cmd_alignAFEs, !Proto B cmd_alignAFEs_response} pid rand args (w : zworld S B) :
  match build_fe_request args with
  | Raise e => main pid rand args w = (Raise e, w)
  | Ok (cfg, biases) =>
      StronglySorted Z.lt (fst <$> sorted_items biases) /\
      exists envs : list (ControlEnvelopeV2 B),
        sent (snd (main pid rand args w)) = sent w ++ (ser <$> envs) /\
        tag <$> envs `prefix_of` plan args cfg biases /\
        forall c, fst (main pid rand args w) = Ok c ->
          2 <= c <= 15 \/ (0 <= c <= 1 /\ tag <$> envs = plan args cfg biases)
  end.
Proof.
  destruct (build_fe_request args) as [[cfg biases]|e] eqn:Hreq.
  - split; [apply sorted_items_spec|].
    destruct (sends_main_flow pid rand args cfg biases w) as (envs & Hs & Hp & Hn & Hr).
    unfold main. rewrite (bind_run _ _ w (cfg, biases) w) by (by rewrite Hreq).
    exists envs. unfold bind.
    destruct (main_flow pid rand args cfg biases w) as [[[c|c]|e] w1]; cbn in *.
    + split_and!; [done|done|]. intros d [= <-]. right. destruct (Hn c eq_refl); split; [lia|done].
    + split_and!; [done|done|]. intros d [= <-]. left. auto.
    + split_and!; [done|done|]. intros d Hd. discriminate.
  - unfold main, bind, lift. by rewrite Hreq.
Qed.

(** C23. With a server that answers every request with a matching reply, [main] of
    [configure_fe_min_v2] runs to its end for every valid command line: its exit status is 0
    when the configuration was a success and 1 otherwise, and no message is left over. *)
Theorem fe_main_serves {S B : Type} `{Peer S B, Size B, !Proto B (ControlEnvelopeV2 B)}
    (HL : ProtoLaws B (ControlEnvelopeV2 B))
    `{!Proto B ConfigureRequest, !Proto B ConfigureResponse}
    `{!Proto B cmd_writeAFEBiasSet, !Proto B cmd_writeAFEBiasSet_response}
    `{!Proto B cmd_alignAFEs, !Proto B cmd_alignAFEs_response} rep ok text
    (HS : Serving (S := S) rep ok text) pid rand args cfg biases (w : zworld S B) :
  build_fe_request args = Ok (cfg, biases) -> cur w = [] -> inbox w = [] ->
  exists w', main pid rand args w = (Ok (if ok then 0 else 1), w') /\ cur w' = [] /\ inbox w' = [].
Proof. intros Hreq Hc Hi. by apply (main_serves rep ok text pid rand args cfg biases). Qed.

(** Plain encodings for the examples. *)
Definition no_parse {A : Type} (b : wire) : result A :=
  Raise (Exn DecodeError "Error parsing message").

#[export] Instance wire_config : Proto wire ConfigureRequest := {
  ser c := WMsg [slot c; biasctrl c] (daphne_address c); parse := no_parse }.

#[export] Instance wire_config_resp : Proto wire ConfigureResponse := {
  ser r := WMsg [Z.b2z (success r)] (message r);
  parse b := match b with WMsg [x] s => Ok (ConfResp (bool_of x) s) | _ => no_parse b end }.

#[export] Instance wire_bias : Proto wire cmd_writeAFEBiasSet := {
  ser r := WMsg [wb_afeBlock r; wb_biasValue r] ""; parse := no_parse }.

#[export] Instance wire_bias_resp : Proto wire cmd_writeAFEBiasSet_response := {
  ser r := WMsg [Z.b2z (wr_success r)] (wr_message r);
  parse b := match b with WMsg [x] s => Ok (WriteBiasResp (bool_of x) s 0 0) | _ => no_parse b end }.

#[export] Instance wire_align : Proto wire cmd_alignAFEs := {
  ser _ := WMsg [] ""; parse := no_parse }.

#[export] Instance wire_align_resp : Proto wire cmd_alignAFEs_response := {
  ser r := WMsg [Z.b2z (ar_success r)] (ar_message r);
  parse b := match b with WMsg [x] s => Ok (AlignResp (bool_of x) [] [] s) | _ => no_parse b end }.

#[export] Instance ok_serving : Serving (S := nat) ok_reply true "ok".
Proof. split; try done; try (intros; by eexists). Qed.

Lemma fe_main_serves_witness :
  exists w', main 5 9 example_args (idle []) = (Ok 0, w') /\ cur w' = [] /\ inbox w' = [].
Proof.
  destruct (build_fe_request example_args) as [[cfg biases]|e] eqn:Hreq; [|by vm_compute in Hreq].
  apply (fe_main_serves wire_env_laws ok_reply true "ok" ok_serving 5 9 example_args cfg biases
    (idle []) Hreq); reflexivity.
Defined.

(** A peer whose replies match nothing. *)
Definition stray_peer : Peer nat wire := {|
  can_send _ := true;
  answer n b := (n, [[WEnv (Env 2 DIR_EVENT 999 (WMsg [1] "ok") 0 0 0 "" 0)]]) |}.

Definition plain_args : fe_args := {|
  fe_host := "127.0.0.1"; fe_port := 9876; fe_route := "mezz/0"; fe_timeout := 6000;
  fe_cfg_timeout_ms := None; fe_full := false; fe_json := false; fe_vgain := 1600;
  fe_ch_offset := 2275; fe_align_afes := true; fe_lpf_cutoff := 10;
  fe_pga_clamp_level := "0 dBFS"; fe_pga_gain_control := "24 dB";
  fe_lna_gain_control := "12 dB"; fe_lna_input_clamp := "auto"; fe_adc_resolution := 1;
  fe_biasctrl_dac := 1300; fe_biasctrl_volts := None;
  fe_afe_bias_dac := []; fe_afe_bias_volts := []; fe_ch_trim := [] |}.

(** The checks of the configure and the align reply only print: a reply of another type,
    direction, task and request still gives the exit status 0. *)
Example stray_reply_accepted :
  fst (@main nat wire stray_peer _ _ _ _ _ _ _ _ 5 9 plain_args (idle [])) = Ok 0.
Proof. vm_compute. reflexivity. Qed.

(** The count of message lines of the alignment looks for a backslash. *)
Example align_lines_miscounted :
  count_pair "\" "n" (String "a" (String nl "b")) + lines_of "x" = 1 /\
  count_char nl (String "a" (String nl "b")) + lines_of "x" = 2.
Proof. split; reflexivity. Qed.
