(* ===== verification/SpyAcquire.v ===== *)
(** [client/protobuf_acquire_list_channels.py]: waveforms of several channels, saved as one
    file of 16-bit samples per channel, in the oscilloscope, the single-request and the
    streaming mode; [client/waveparse.py]; the compression of the files.

    The script runs over the socket of [EnvelopeV2] and a file system; the commands given to
    [os.system] and the name [uuid4] returns are parameters.  The printouts of [-debug] and
    the progress bar are left out. *)
From S2P Require Import Prelude PyStr PyFloat PyVal EnvelopeV2 ChannelSpec.

(** ** Messages *)

Definition DUMP_SPYBUFFER : Z := 29.
Definition DUMP_SPYBUFFER_CHUNK : Z := 100.

(** The first-generation [ControlEnvelope]. *)
Record ControlEnvelope (B : Type) : Type := Env1 { v1_type : Z; v1_payload : B }.
Arguments Env1 {B}.
Arguments v1_type {B}.
Arguments v1_payload {B}.

Record DumpSpyBuffersRequest : Type := DumpReq {
  dq_channelList : list Z; dq_numberOfSamples : Z; dq_numberOfWaveforms : Z;
  dq_softwareTrigger : bool }.

Record DumpSpyBuffersResponse : Type := DumpResp {
  dr_success : bool; dr_channelList : list Z; dr_numberOfSamples : Z; dr_numberOfWaveforms : Z;
  dr_softwareTrigger : bool; dr_data : list Z; dr_message : string }.

Record DumpSpyBuffersChunkRequest : Type := ChunkReq {
  cq_channelList : list Z; cq_numberOfSamples : Z; cq_numberOfWaveforms : Z;
  cq_softwareTrigger : bool; cq_requestID : string; cq_chunkSize : Z }.

Record DumpSpyBuffersChunkResponse : Type := ChunkResp {
  cr_success : bool; cr_requestID : string; cr_chunkseq : Z; cr_isFinal : bool;
  cr_waveformStart : Z; cr_waveformCount : Z; cr_requestTotalWaveforms : Z;
  cr_numberOfSamples : Z; cr_channelList : list Z; cr_data : list Z; cr_message : string }.

(** ** Arrays *)

(** [data.reshape((w, c, l))], as rows [y[i, j, :]] by [i] and [j]. *)
Definition row (data : list Z) (c l i j : Z) : list Z :=
  take (Z.to_nat l) (drop (Z.to_nat ((i * c + j) * l)) data).

(** [y[:, j, :]] flattened, as [tofile] writes it. *)
Definition column (data : list Z) (w c l j : Z) : list Z :=
  seqZ 0 w ≫= fun i => row data c l i j.

(** [astype(np.uint16)] *)
Definition to_u16 (l : list Z) : list Z := (fun x => x mod 2 ^ 16) <$> l.

Definition fits (data : list Z) (w c l : Z) : bool := Z.of_nat (length data) =? w * c * l.

(** [waveparse.parse_dump_response]: the data cut to [W * K * N] samples, with [W], [K], [N].
    The view as signed integers does not change the sixteen low bits. *)
Definition parse_dump_response (resp : DumpSpyBuffersResponse) : result (list Z * (Z * Z * Z)) :=
  let k := Z.of_nat (length (dr_channelList resp)) in
  let n := dr_numberOfSamples resp in
  let w := if dr_numberOfWaveforms resp =? 0 then 1 else dr_numberOfWaveforms resp in
  let expected := w * k * n in
  let size := Z.of_nat (length (dr_data resp)) in
  if size <? expected
  then Raise (Exn ValueError ("Payload too short: " +:+ str_Z size +:+ " < expected " +:+ str_Z expected
    +:+ " (W=" +:+ str_Z w +:+ ", K=" +:+ str_Z k +:+ ", N=" +:+ str_Z n +:+ ")"))
  else Ok (take (Z.to_nat expected) (dr_data resp), (w, k, n)).

(** ** The command line *)

Record acquire_args : Type := {
  a_ip : string; a_port : Z; a_foldername : string; a_channel_list : list string; a_N : Z; a_L : Z;
  a_software_trigger : bool; a_append_data : bool; a_timeout_ms : Z; a_route : string;
  a_v2 : bool; a_legacy_only : bool; a_osc_mode : bool; a_legacy : bool; a_chunk : Z;
  a_net_buffer_mb : Z; a_compress : bool; a_compression_format : string;
  a_compression_level : Z }.

(** [compute_credit]: the receive high-water mark. *)
Definition compute_credit (numberOfSamples chunkWaveform nChannels bytes_per_sample budget_mb
    min_credit max_credit : Z) : Z :=
  let chunk_bytes := Z.max 1 (numberOfSamples * chunkWaveform * nChannels * bytes_per_sample) in
  let credit := (budget_mb * 1024 * 1024) / chunk_bytes in
  Z.min (Z.max credit min_credit) max_credit.

(** ** The file system *)

Fixpoint ends_with_slash (s : string) : bool :=
  match s with
  | "" => false
  | String c "" => Ascii.eqb c "/"
  | String _ t => ends_with_slash t
  end.

(** [os.path.join] with a relative second part. *)
Definition path_join (a b : string) : string :=
  if decide (a = "") then b else if ends_with_slash a then a +:+ b else a +:+ "/" +:+ b.

Definition channel_file (foldername : string) (ch : Z) : string :=
  path_join foldername ("channel_" +:+ str_Z ch +:+ ".dat").

(** The process: the socket, the samples in each file, and the directories. *)
Record aworld (S B : Type) : Type := AW {
  net : zworld S B; files : gmap string (list Z); dirs : list string }.
Arguments AW {S B}.
Arguments net {S B}.
Arguments files {S B}.
Arguments dirs {S B}.

Section acquire.
Context {S B : Type} `{Peer S B, Size B, !Proto B (ControlEnvelopeV2 B)}.
Context `{!Proto B (ControlEnvelope B)}.
Context `{!Proto B DumpSpyBuffersRequest, !Proto B DumpSpyBuffersResponse}.
Context `{!Proto B DumpSpyBuffersChunkRequest, !Proto B DumpSpyBuffersChunkResponse}.
(** [os.system], and what [uuid.uuid4()] returns. *)
Context (system : string -> gmap string (list Z) -> Z * gmap string (list Z)) (uuid4 : string).
Abbreviation Wd := (zworld S B).
Abbreviation Wa := (aworld S B).

(** A computation on the socket. *)
Definition zop {A : Type} (m : M Wd A) : M Wa A := fun w =>
  let '(r, z) := m (net w) in (r, AW z (files w) (dirs w)).

Definition set_files (f : gmap string (list Z) -> gmap string (list Z)) : M Wa unit :=
  modify (fun w => AW (net w) (f (files w)) (dirs w)).

Definition makedirs (d : string) : M Wa unit := modify (fun w =>
  if decide (d ∈ dirs w) then w else AW (net w) (files w) (d :: dirs w)).

(** [open(path, mode)]: ["wb"] truncates. *)
Definition open_file (append : bool) (path : string) : M Wa unit := set_files (fun fs =>
  if append then <[path := default [] (fs !! path)]> fs else <[path := []]> fs).

(** [tofile]: the samples are added at the end. *)
Definition write_file (path : string) (data : list Z) : M Wa unit := set_files (fun fs =>
  <[path := default [] (fs !! path) ++ data]> fs).

Definition os_system (cmd : string) : M Wa Z := fun w =>
  let '(rc, fs) := system cmd (files w) in (Ok rc, AW (net w) fs (dirs w)).

Definition exists_file (path : string) : M Wa bool :=
  gets (fun w => match files w !! path with Some _ => true | None => false end).

Definition os_remove (path : string) : M Wa unit := fun w =>
  match files w !! path with
  | Some _ => (Ok tt, AW (net w) (delete path (files w)) (dirs w))
  | None => (Raise (Exn (OSError 2) ("No such file or directory: '" +:+ path +:+ "'")), w)
  end.

(** ** Exchanges *)

(** [v2_request] *)
Definition v2_request (mtype_req : Z) (payload_bytes : B) (route : string)
    : M Wd (ControlEnvelopeV2 B * ControlEnvelopeV2 B) :=
  env <- build_env next_ids_random mtype_req payload_bytes route ;;
  z_send (ser env) ;;;
  frames <- recv_frames ;;
  f <- last_frame frames ;;
  rep <- lift (parse f) ;;
  if negb (dir rep =? DIR_RESPONSE)
  then raise (Exn RuntimeError ("Unexpected dir=" +:+ str_Z (dir rep)))
  else if negb (correl_id rep =? msg_id env)
  then raise (mismatch "Correlation mismatch (correl_id=" (correl_id rep) ", expected "
                       (msg_id env) ")")
  else ret (env, rep).

(** [send_envelope_and_get_reply], of an envelope of either generation *)
Definition send_envelope_and_get_reply (envelope : B) : M Wd B :=
  z_send envelope ;;;
  frames <- recv_frames ;;
  last_frame frames.

Definition timed_out (text : string) (e : exn) : exn :=
  if decide (exn_class e = ZmqAgain) then Exn TimeoutError text else e.

(** One turn of the generator [stream_envelope]: the reply is always read as a
    [ControlEnvelope]. *)
Definition stream_next : M Wd (ControlEnvelope B) :=
  f <- try_except z_recv (fun e => raise (timed_out "Timed out waiting for chunk reply from server" e)) ;;
  n <- gets (fun w => length (cur w)) ;;
  frames <- try_except (recv_more n [f])
    (fun e => raise (timed_out "Timed out receiving multipart chunk from server" e)) ;;
  payload <- last_frame frames ;;
  lift (parse payload).

(** ** The three modes *)

Section modes.
Context (args : acquire_args) (chans : list Z).

Definition n_channels : Z := Z.of_nat (length chans).
Definition file_of (ch : Z) : string := channel_file (a_foldername args) ch.
Definition open_all : M Wa unit := for_each chans (fun ch => open_file (a_append_data args) (file_of ch)).

(** [for idx, ch in enumerate(channels): f idx ch] *)
Definition per_channel (f : Z -> Z -> M Wa unit) : M Wa unit :=
  for_each (imap (fun i ch => (Z.of_nat i, ch)) chans) (fun ic => f (fst ic) (snd ic)).

Definition show_list (l : list Z) : string := "[" +:+ join ", " (str_Z <$> l) +:+ "]".

Definition dump_request (n : Z) : result DumpSpyBuffersRequest :=
  cs <-! rmap set_u32 chans ;;
  w <-! set_u32 n ;;
  l <-! set_u32 (a_L args) ;;
  Ok (DumpReq cs l w (a_software_trigger args)).

(** One request of the oscilloscope mode. *)
Definition osc_reply (req : DumpSpyBuffersRequest) : M Wd DumpSpyBuffersResponse :=
  if a_v2 args then
    '(_, rep) <- v2_request MT2_DUMP_SPYBUFFER_REQ (ser req) (a_route args) ;;
    if negb (mtype rep =? MT2_DUMP_SPYBUFFER_RESP)
    then raise (Exn RuntimeError ("Unexpected V2 response type " +:+ str_Z (mtype rep)))
    else lift (parse (payload rep))
  else
    b <- send_envelope_and_get_reply (ser (Env1 DUMP_SPYBUFFER (ser req))) ;;
    rep <- lift (parse (A := ControlEnvelope B) b) ;;
    if negb (v1_type rep =? DUMP_SPYBUFFER)
    then raise (Exn RuntimeError ("Unexpected V1 response type " +:+ str_Z (v1_type rep)))
    else lift (parse (v1_payload rep)).

(** The first waveform of a response, one row per channel. *)
Definition osc_step (req : DumpSpyBuffersRequest) : M Wa unit :=
  resp <- zop (osc_reply req) ;;
  (if negb (dr_success resp)
   then raise (Exn RuntimeError ("Server error: " +:+ dr_message resp)) else ret tt) ;;;
  '(y, (w, k, n)) <- lift (parse_dump_response resp) ;;
  per_channel (fun idx ch =>
    if k <=? idx
    then raise (Exn IndexError ("index " +:+ str_Z idx +:+ " is out of bounds for axis 0 with size "
                                +:+ str_Z k))
    else write_file (file_of ch) (to_u16 (row y k n 0 idx))).

Definition osc_mode : M Wa unit :=
  req <- lift (dump_request 1) ;;
  zop (say ("Osc-mode: requesting " +:+ str_Z (a_N args) +:+ " triggers (1 wf per channel per request), L="
    +:+ str_Z (a_L args) +:+ ", channels=" +:+ show_list chans)) ;;;
  open_all ;;;
  for_each (seqZ 0 (a_N args)) (fun _ => osc_step req).

(** The single-request mode: each file is opened, and truncated, in its turn. *)
Definition legacy_mode : M Wa unit :=
  req <- lift (dump_request (a_N args)) ;;
  resp <- zop (
    if a_v2 args && negb (a_legacy_only args) then
      env <- build_env next_ids_random MT2_DUMP_SPYBUFFER_REQ (ser req) (a_route args) ;;
      b <- send_envelope_and_get_reply (ser env) ;;
      rep <- lift (parse (A := ControlEnvelopeV2 B) b) ;;
      if negb (mtype rep =? MT2_DUMP_SPYBUFFER_RESP)
      then raise (Exn OtherError ("Unexpected response type: " +:+ str_Z (mtype rep)))
      else lift (parse (A := DumpSpyBuffersResponse) (payload rep))
    else
      b <- send_envelope_and_get_reply (ser (Env1 DUMP_SPYBUFFER (ser req))) ;;
      rep <- lift (parse (A := ControlEnvelope B) b) ;;
      if negb (v1_type rep =? DUMP_SPYBUFFER)
      then raise (Exn OtherError ("Unexpected response type: " +:+ str_Z (v1_type rep)))
      else lift (parse (v1_payload rep))) ;;
  let data := dr_data resp in
  (if fits data (a_N args) n_channels (a_L args) then ret tt
   else raise (Exn RuntimeError ("Data size " +:+ str_Z (Z.of_nat (length data)) +:+ " not compatible with (N="
     +:+ str_Z (a_N args) +:+ ", C=" +:+ str_Z n_channels +:+ ", L=" +:+ str_Z (a_L args) +:+ ")"))) ;;;
  per_channel (fun idx ch =>
    open_file (a_append_data args) (file_of ch) ;;;
    write_file (file_of ch) (to_u16 (column data (a_N args) n_channels (a_L args) idx))).

Definition use_v2_stream : bool := a_v2 args && negb (a_legacy args).

(** The reply types the loop does not skip. *)
Definition chunk_type : Z :=
  if use_v2_stream then MT2_DUMP_SPYBUFFER_CHUNK_RESP else DUMP_SPYBUFFER_CHUNK.

(** The data of one chunk is appended to the files. *)
Definition save_chunk (chunk : DumpSpyBuffersChunkResponse) : M Wa unit :=
  match cr_data chunk with
  | [] => ret tt
  | data =>
      if fits data (cr_waveformCount chunk) n_channels (a_L args) then
        per_channel (fun idx ch =>
          write_file (file_of ch)
            (to_u16 (column data (cr_waveformCount chunk) n_channels (a_L args) idx)))
      else raise (Exn RuntimeError ("Chunk data size " +:+ str_Z (Z.of_nat (length data))
        +:+ " not compatible with (wf_count=" +:+ str_Z (cr_waveformCount chunk) +:+ ", C="
        +:+ str_Z n_channels +:+ ", L=" +:+ str_Z (a_L args) +:+ ")"))
  end.

(** The loop over the replies; the messages that can still arrive bound it. *)
Fixpoint stream_loop (fuel : nat) : M Wa unit :=
  match fuel with
  | O => raise (Exn OtherError "out of fuel")
  | Datatypes.S fuel' =>
      resp_env <- zop stream_next ;;
      if negb (v1_type resp_env =? chunk_type) then stream_loop fuel'
      else
        chunk <- lift (parse (A := DumpSpyBuffersChunkResponse) (v1_payload resp_env)) ;;
        if negb (cr_success chunk) then zop (say ("Server error: " +:+ cr_message chunk))
        else
          save_chunk chunk ;;;
          if cr_isFinal chunk then ret tt else stream_loop fuel'
  end.

Definition chunk_request : result DumpSpyBuffersChunkRequest :=
  cs <-! rmap set_u32 chans ;;
  n <-! set_u32 (a_N args) ;;
  l <-! set_u32 (a_L args) ;;
  size <-! set_u32 (Z.max 1 (Z.min (a_chunk args) (a_N args))) ;;
  Ok (ChunkReq cs l n (a_software_trigger args) uuid4 size).

(** The streaming mode; the files are opened before the request is sent. *)
Definition stream_mode : M Wa unit :=
  creq <- lift chunk_request ;;
  env <- zop (if use_v2_stream
              then env <- build_env next_ids_random MT2_DUMP_SPYBUFFER_CHUNK_REQ (ser creq)
                            (a_route args) ;;
                   ret (ser env)
              else ret (ser (Env1 DUMP_SPYBUFFER_CHUNK (ser creq)))) ;;
  zop (say ("Streaming id=" +:+ cq_requestID creq +:+ " N=" +:+ str_Z (a_N args) +:+ " L="
    +:+ str_Z (a_L args) +:+ " chunk=" +:+ str_Z (cq_chunkSize creq) +:+ " channels="
    +:+ show_list chans)) ;;;
  open_all ;;;
  zop (z_send env) ;;;
  n <- gets (fun w => length (inbox (net w))) ;;
  stream_loop (Datatypes.S n).

(** ** Compression *)

Definition archive_base : string := path_join (a_foldername args) "compressed_channels".

(** The files of the channels, each after a space. *)
Fixpoint file_words (l : list string) : string :=
  match l with
  | [] => ""
  | f :: l' => " " +:+ f +:+ file_words l'
  end.

(** [if args.compress]: the exit status of the script. *)
Definition compress_files : M Wa Z :=
  let names := file_of <$> chans in
  let words := file_words names in
  rc <- os_system (a_compression_format args +:+ " --help") ;;
  if negb (rc =? 0) then
    zop (say (a_compression_format args +:+ " is not installed. Please install it to use "
              +:+ a_compression_format args +:+ " compression.")) ;;;
    ret 1
  else if decide (a_compression_format args = "7z") then
    _ <- os_system ("7z a -mx=" +:+ str_Z (a_compression_level args) +:+ " " +:+ archive_base
                    +:+ ".7z " +:+ words +:+ " -y") ;;
    there <- exists_file (archive_base +:+ ".7z") ;;
    when there (for_each names os_remove) ;;;
    ret 0
  else if decide (a_compression_format args = "tar") then
    _ <- os_system ("tar -czvf " +:+ archive_base +:+ ".tar.gz " +:+ words) ;;
    there <- exists_file (archive_base +:+ ".tar.gz") ;;
    when there (for_each names os_remove) ;;;
    ret 0
  else ret 0.

(** The script after its options are read; the first two modes end it. *)
Definition run_modes : M Wa Z :=
  makedirs (a_foldername args) ;;;
  if a_osc_mode args then osc_mode ;;; ret 0
  else if a_legacy args || a_legacy_only args then legacy_mode ;;; ret 0
  else
    stream_mode ;;;
    if a_compress args then compress_files else ret 0.

End modes.

Definition script (args : acquire_args) : M Wa Z :=
  chans <- lift (acquire_parse_channels (a_channel_list args)) ;;
  run_modes args chans.

End acquire.

(** ** Lemmas: arrays *)

Lemma join_cons {A : Type} (a : list A) (l : list (list A)) : mjoin (a :: l) = a ++ mjoin l.
Proof. done. Qed.

Lemma bind_join {A C : Type} (f : A -> list C) (l : list A) : l ≫= f = mjoin (f <$> l).
Proof. induction l as [|a l IH]; [done|]. cbn. f_equal. exact IH. Qed.

Lemma length_rows (wf : list (list Z)) l :
  Forall (fun r => length r = l) wf -> length (mjoin wf) = (length wf * l)%nat.
Proof. induction 1 as [|r wf Hr H IH]; [done|].
  rewrite join_cons, length_app, IH, Hr. cbn. lia. Qed.

Lemma nth_row (wf : list (list Z)) l j r :
  Forall (fun r => length r = l) wf -> wf !! j = Some r ->
  take l (drop (j * l) (mjoin wf)) = r.
Proof.
  revert j. induction wf as [|r0 wf IH]; intros j Hall Hj; [done|]. inversion_clear Hall.
  destruct j as [|j]; rewrite join_cons.
  - injection Hj as ->. rewrite drop_0. by apply take_app_length'.
  - rewrite <- (IH j) by done. cbn [Nat.mul]. f_equal.
    rewrite <- drop_drop. f_equal. by apply drop_app_length'.
Qed.

(** The waveforms of a chunk, each with [c] channels of [l] samples. *)
Definition shaped (c l : nat) (ws : list (list (list Z))) : Prop :=
  Forall (fun wf => length wf = c /\ Forall (fun r => length r = l) wf) ws.

Definition flat (ws : list (list (list Z))) : list Z := mjoin (mjoin <$> ws).

Lemma length_flat c l ws : shaped c l ws -> length (flat ws) = (length ws * (c * l))%nat.
Proof.
  induction 1 as [|wf ws [Hc Hl] H IH]; [done|]. unfold flat in *.
  rewrite fmap_cons, join_cons, length_app, IH, (length_rows wf l), Hc by done. cbn. lia.
Qed.

Lemma flat_row c l ws i wf j r :
  shaped c l ws -> ws !! i = Some wf -> wf !! j = Some r ->
  row (flat ws) (Z.of_nat c) (Z.of_nat l) (Z.of_nat i) (Z.of_nat j) = r.
Proof.
  intros Hs. unfold row. rewrite Nat2Z.id. 
  replace (Z.to_nat _) with (i * (c * l) + j * l)%nat by lia.
  revert i. induction Hs as [|wf0 ws [Hc Hl] Hs IH]; intros i Hi Hj; [done|].
  unfold flat in *. rewrite fmap_cons, join_cons.
  assert (Hlen : length (mjoin wf0) = (c * l)%nat) by (rewrite <- Hc; by apply length_rows).
  destruct i as [|i].
  - injection Hi as ->. cbn [Nat.mul Nat.add]. apply lookup_lt_Some in Hj as Hlt.
    rewrite drop_app_le by nia. rewrite take_app_le by (rewrite length_drop; nia).
    by apply nth_row.
  - rewrite <- (IH i) by done. f_equal.
    replace (Datatypes.S i * (c * l) + j * l)%nat with (c * l + (i * (c * l) + j * l))%nat by lia.
    rewrite <- drop_drop. f_equal. by apply drop_app_length'.
Qed.

(** The samples of one channel in a list of waveforms. *)
Definition channel_samples (ws : list (list (list Z))) (j : nat) : list Z :=
  mjoin ((fun wf => default [] (wf !! j)) <$> ws).

Lemma seqZ_nat n : seqZ 0 (Z.of_nat n) = Z.of_nat <$> seq 0 n.
Proof. unfold seqZ. rewrite Nat2Z.id. apply list_fmap_ext. intros. lia. Qed.

(** The layout of the chunks: the column of a channel is its samples. *)
Lemma column_flat c l ws j :
  shaped c l ws -> (j < c)%nat ->
  column (flat ws) (Z.of_nat (length ws)) (Z.of_nat c) (Z.of_nat l) (Z.of_nat j)
    = channel_samples ws j.
Proof.
  intros Hs Hj. unfold column, channel_samples. rewrite seqZ_nat.
  assert (Hrows : (fun i => row (flat ws) (Z.of_nat c) (Z.of_nat l) i (Z.of_nat j)) <$>
                  (Z.of_nat <$> seq 0 (length ws)) = (fun wf => default [] (wf !! j)) <$> ws).
  { apply list_eq. intros i. rewrite !list_lookup_fmap.
    destruct (ws !! i) as [wf|] eqn:Hi; cbn.
    - rewrite lookup_seq_lt by (by eapply lookup_lt_Some). cbn. f_equal.
      unfold shaped in Hs. rewrite Forall_lookup in Hs. destruct (Hs i wf Hi) as [Hc Hl].
      destruct (lookup_lt_is_Some_2 wf j ltac:(lia)) as [r Hr]. rewrite Hr. cbn.
      apply (flat_row c l ws i wf j r); [|done|done]. by apply Forall_lookup.
    - rewrite lookup_seq_ge; [done|]. by apply lookup_ge_None. }
  by rewrite bind_join, Hrows.
Qed.

(** ** Lemmas: names of the files *)

Lemma chars_app (s t : string) :
  list_ascii_of_string (s +:+ t) = list_ascii_of_string s ++ list_ascii_of_string t.
Proof. induction s as [|c s IH]; [done|]. cbn. by rewrite <- IH. Qed.

Lemma chars_inj (s t : string) : list_ascii_of_string s = list_ascii_of_string t -> s = t.
Proof.
  intros H. rewrite <- (string_of_list_ascii_of_string s), <- (string_of_list_ascii_of_string t).
  by rewrite H.
Qed.

Lemma string_app_inj_l (p s t : string) : p +:+ s = p +:+ t -> s = t.
Proof.
  intros H. apply (f_equal list_ascii_of_string) in H. rewrite !chars_app in H.
  by apply chars_inj, (app_inv_head (list_ascii_of_string p)).
Qed.

Lemma string_app_inj_r (p s t : string) : s +:+ p = t +:+ p -> s = t.
Proof.
  intros H. apply (f_equal list_ascii_of_string) in H. rewrite !chars_app in H.
  by apply chars_inj, (app_inv_tail (list_ascii_of_string p)).
Qed.

Lemma str_Z_inj x y : str_Z x = str_Z y -> x = y.
Proof.
  intros H. apply (f_equal int10) in H. rewrite !int10_str_Z_all in H. by injection H.
Qed.

Lemma channel_file_inj folder x y : channel_file folder x = channel_file folder y -> x = y.
Proof.
  unfold channel_file, path_join. intros H. apply str_Z_inj.
  apply (string_app_inj_r ".dat"). apply (string_app_inj_l "channel_").
  destruct (decide (folder = "")); [exact H|].
  destruct (ends_with_slash folder); [by apply string_app_inj_l in H|].
  apply string_app_inj_l in H. by apply (string_app_inj_l "/") in H.
Qed.

(** ** Lemmas: the files written *)

Section saving.
Context {S B : Type} `{Peer S B}.
Context (folder : string) (chans : list Z).
Context (HND : NoDup chans).
Abbreviation Wa := (aworld S B).
Abbreviation path := (channel_file folder).

(** [w'] is [w] with [g i] added to the file of the [i]-th channel. *)
Record extends (w : Wa) (g : nat -> list Z) (w' : Wa) : Prop := {
  ex_net : net w' = net w;
  ex_saved i ch : chans !! i = Some ch ->
    files w' !! path ch = Some (default [] (files w !! path ch) ++ g i);
  ex_others p : (forall ch, ch ∈ chans -> p <> path ch) -> files w' !! p = files w !! p }.

Lemma write_file_run p data (w : Wa) :
  write_file p data w = (Ok tt, AW (net w) (<[p := default [] (files w !! p) ++ data]> (files w)) (dirs w)).
Proof using Type. reflexivity. Qed.

(** Writing to each channel in turn. *)
Lemma write_each (g : Z -> list Z) (f : Z -> Z -> M Wa unit) (w : Wa) :
  (forall i ch, chans !! i = Some ch -> f (Z.of_nat i) ch = write_file (path ch) (g (Z.of_nat i))) ->
  exists w', per_channel chans f w = (Ok tt, w') /\ dirs w' = dirs w /\
    extends w (fun i => g (Z.of_nat i)) w'.
Proof using HND.
  unfold per_channel. intros Hf.
  assert (Hgen : forall l k (w0 : Wa), (forall i ch, l !! i = Some ch -> chans !! (k + i)%nat = Some ch) ->
    NoDup l -> exists w',
    for_each (imap (fun i ch => (Z.of_nat (k + i), ch)) l) (fun ic => f (fst ic) (snd ic)) w0
      = (Ok tt, w') /\ dirs w' = dirs w0 /\ net w' = net w0 /\
    (forall i ch, l !! i = Some ch -> files w' !! path ch =
       Some (default [] (files w0 !! path ch) ++ g (Z.of_nat (k + i)))) /\
    (forall p, (forall ch, ch ∈ l -> p <> path ch) -> files w' !! p = files w0 !! p)).
  { induction l as [|c l IH]; intros k w0 Hl Hnd; [by exists w0|].
    apply NoDup_cons in Hnd as [Hc Hnd]. rewrite imap_cons. cbn [for_each fst snd].
    rewrite Hf by (rewrite <- (Hl 0%nat c eq_refl); f_equal; lia).
    rewrite (bind_run _ _ _ _ _ (write_file_run _ _ w0)).
    set (w1 := AW _ _ _).
    destruct (IH (Datatypes.S k) w1) as (w' & Hrun & Hd & Hn & Hs & Ho); [|done|].
    { intros i ch Hi. rewrite <- (Hl (Datatypes.S i) ch Hi). f_equal. lia. }
    exists w'. split_and!; [|done|done| |].
    - rewrite <- Hrun. f_equal. apply imap_ext. intros i x _. cbn. do 2 f_equal. lia.
    - intros [|i] ch Hi; cbn in Hi.
      + injection Hi as ->. rewrite Ho; [by unfold w1; cbn; rewrite lookup_insert_eq, Nat.add_0_r|].
        intros ch' Hch' He. apply channel_file_inj in He as ->. done.
      + rewrite (Hs i ch Hi). unfold w1. cbn. rewrite lookup_insert_ne.
        * do 4 f_equal. lia.
        * intros He. apply channel_file_inj in He as ->. apply Hc. by eapply list_elem_of_lookup_2.
    - intros p Hp. rewrite Ho by (intros ch Hch; apply Hp; by apply list_elem_of_further).
      unfold w1. cbn. rewrite lookup_insert_ne; [done|].
      intros He. eapply Hp; [apply list_elem_of_here|]. by symmetry. }
  destruct (Hgen chans 0%nat w) as (w' & Hrun & Hd & Hn & Hs & Ho); [done|done|].
  exists w'. split_and!; [exact Hrun|done|]. by split.
Qed.

Lemma extends_refl (w : Wa) : (forall ch, ch ∈ chans -> is_Some (files w !! path ch)) ->
  extends w (fun _ => []) w.
Proof using Type.
  intros Hw. split; [done| |done]. intros i ch Hi.
  destruct (Hw ch ltac:(by eapply list_elem_of_lookup_2)) as [x Hx].
  by rewrite Hx, app_nil_r.
Qed.

Lemma extends_trans (w w1 w2 : Wa) z g1 g2 d :
  extends w g1 w1 -> extends (AW z (files w1) d) g2 w2 ->
  extends (AW z (files w) d) (fun i => g1 i ++ g2 i) w2.
Proof using Type.
  intros [Hn1 Hs1 Ho1] [Hn2 Hs2 Ho2]. cbn in *. split; [done| |].
  - intros i ch Hi. cbn. rewrite (Hs2 i ch Hi), (Hs1 i ch Hi). cbn. by rewrite app_assoc.
  - intros p Hp. cbn. by rewrite Ho2, Ho1.
Qed.

Definition base (append : bool) (w : Wa) (ch : Z) : list Z :=
  if append then default [] (files w !! path ch) else [].

(** Opening the files. *)
Lemma open_each append (w : Wa) :
  exists w', for_each chans (fun ch => open_file append (path ch)) w = (Ok tt, w') /\
    net w' = net w /\ dirs w' = dirs w /\
    (forall ch, ch ∈ chans -> files w' !! path ch = Some (base append w ch)) /\
    (forall p, (forall ch, ch ∈ chans -> p <> path ch) -> files w' !! p = files w !! p).
Proof using HND.
  clear -HND. revert w. induction HND as [|c l Hc Hnd IH]; intros w.
  { exists w. split_and!; try done. intros ch Hch. by apply not_elem_of_nil in Hch. }
  cbn [for_each]. unfold bind. unfold open_file at 1, set_files, modify.
  destruct (IH Hnd (AW (net w) ((if append then <[path c := default [] (files w !! path c)]> (files w)
     else <[path c := []]> (files w))) (dirs w))) as (w' & Hrun & Hn & Hd & Hs & Ho).
  exists w'. split_and!; [exact Hrun|done|done| |].
  - intros ch [->|Hch]%elem_of_cons.
    + rewrite Ho; [by unfold base; cbn; destruct append; rewrite lookup_insert_eq|].
      intros ch' Hch' He. apply channel_file_inj in He as ->. done.
    + rewrite Hs by done. f_equal. unfold base. cbn. destruct append; [|done].
      rewrite lookup_insert_ne; [done|]. intros He. apply channel_file_inj in He as ->. done.
  - intros p Hp. rewrite Ho by (intros ch Hch; apply Hp; by apply list_elem_of_further). cbn.
    assert (path c <> p) by (intros He; by eapply Hp; [apply list_elem_of_here|]).
    destruct append; by rewrite lookup_insert_ne.
Qed.

End saving.

(** ** Lemmas: streaming *)

(** The chunks of a whole answer: only the last one is final. *)
Fixpoint ends_final (cs : list DumpSpyBuffersChunkResponse) : Prop :=
  match cs with
  | [] => False
  | [c] => cr_isFinal c = true
  | c :: cs' => cr_isFinal c = false /\ ends_final cs'
  end.

Section streaming.
Context {S B : Type} `{Peer S B, Size B, !Proto B (ControlEnvelopeV2 B)}.
Context `{!Proto B (ControlEnvelope B)}.
Context `{!Proto B DumpSpyBuffersRequest, !Proto B DumpSpyBuffersResponse}.
Context `{!Proto B DumpSpyBuffersChunkRequest, !Proto B DumpSpyBuffersChunkResponse}.
Context (args : acquire_args) (chans : list Z).
Context (HND : NoDup chans) (HL : 0 <= a_L args).
Abbreviation Wd := (zworld S B).
Abbreviation Wa := (aworld S B).
Abbreviation path := (channel_file (a_foldername args)).

Definition chunk_shape (ws : list (list (list Z))) : Prop :=
  shaped (length chans) (Z.to_nat (a_L args)) ws.

(** A successful chunk with the waveforms [ws] in the layout of the server. *)
Definition carries (c : DumpSpyBuffersChunkResponse) (ws : list (list (list Z))) : Prop :=
  cr_success c = true /\ cr_data c = flat ws /\ cr_waveformCount c = Z.of_nat (length ws) /\
  chunk_shape ws.

Lemma stream_next_message (w : Wd) (b : B) ms :
  cur w = [] -> inbox w = [b] :: ms ->
  stream_next w = (parse b, set_reading w ms []).
Proof using Type.
  intros Hc Hi. unfold stream_next, try_except, bind, z_recv. rewrite Hc, Hi.
  unfold gets. cbn. reflexivity.
Qed.

Lemma stream_next_empty (w : Wd) :
  cur w = [] -> inbox w = [] ->
  stream_next w = (Raise (Exn TimeoutError "Timed out waiting for chunk reply from server"), w).
Proof using Type.
  intros Hc Hi. unfold stream_next, try_except, bind, z_recv. rewrite Hc, Hi. reflexivity.
Qed.

Lemma column_nil w c l j : column [] w c l j = [].
Proof using Type.
  unfold column. rewrite bind_join. induction (seqZ 0 w) as [|i l' IH]; [done|].
  rewrite fmap_cons, join_cons, IH. unfold row. by rewrite drop_nil, take_nil.
Qed.

Lemma carries_column c ws j :
  carries c ws -> (j < length chans)%nat ->
  column (cr_data c) (cr_waveformCount c) (n_channels chans) (a_L args) (Z.of_nat j)
    = channel_samples ws j.
Proof using HL.
  intros (_ & -> & -> & Hs) Hj. unfold n_channels. rewrite <- (Z2Nat.id (a_L args)) by done.
  by apply column_flat.
Qed.

Lemma save_chunk_run c ws (w : Wa) :
  carries c ws -> (forall ch, ch ∈ chans -> is_Some (files w !! path ch)) ->
  exists w', save_chunk args chans c w = (Ok tt, w') /\ dirs w' = dirs w /\
    extends (a_foldername args) chans w (fun i => to_u16 (channel_samples ws i)) w'.
Proof using HND HL.
  intros Hc Hw. unfold save_chunk. destruct (cr_data c) as [|x data] eqn:Hd.
  - exists w. split_and!; [done|done|].
    destruct (extends_refl (a_foldername args) chans w Hw) as [Hn Hs Ho]. split; [done| |done].
    intros i ch Hi. rewrite <- (carries_column c ws i) by (first [done | by eapply lookup_lt_Some]).
    rewrite Hd, column_nil. exact (Hs i ch Hi).
  - rewrite <- Hd.
    assert (Hfit : fits (cr_data c) (cr_waveformCount c) (n_channels chans) (a_L args) = true).
    { destruct Hc as (_ & -> & -> & Hs). unfold fits, n_channels.
      rewrite (length_flat _ _ _ Hs). apply Z.eqb_eq. lia. }
    rewrite Hfit.
    destruct (write_each (a_foldername args) chans HND
      (fun i => to_u16 (column (cr_data c) (cr_waveformCount c) (n_channels chans) (a_L args) i))
      (fun idx ch => write_file (path ch) (to_u16 (column (cr_data c) (cr_waveformCount c)
         (n_channels chans) (a_L args) idx))) w) as (w' & Hrun & Hdirs & [Hn Hs Ho]); [done|].
    exists w'. split_and!; [exact Hrun|done|]. split; [done| |done].
    intros i ch Hi. rewrite (Hs i ch Hi).
    by rewrite (carries_column c ws i) by (first [done | by eapply lookup_lt_Some]).
Qed.

Lemma to_u16_app l1 l2 : to_u16 (l1 ++ l2) = to_u16 l1 ++ to_u16 l2.
Proof using Type. apply fmap_app. Qed.

Lemma channel_samples_app ws1 ws2 j :
  channel_samples (ws1 ++ ws2) j = channel_samples ws1 j ++ channel_samples ws2 j.
Proof using Type.
  unfold channel_samples. rewrite fmap_app.
  induction ((fun wf => default [] (wf !! j)) <$> ws1) as [|x l IH]; [done|].
  cbn [app]. by rewrite !join_cons, IH, app_assoc.
Qed.

(** What the loop does with the chunks of an answer. *)
Lemma stream_loop_run cs wss fuel (w : Wa) :
  ProtoLaws B (ControlEnvelope B) -> ProtoLaws B DumpSpyBuffersChunkResponse ->
  Forall2 carries cs wss -> ends_final cs -> (length cs <= fuel)%nat ->
  cur (net w) = [] ->
  inbox (net w) = (fun c => [ser (Env1 (chunk_type args) (ser c))]) <$> cs ->
  (forall ch, ch ∈ chans -> is_Some (files w !! path ch)) ->
  exists w', stream_loop args chans fuel w = (Ok tt, w') /\
    cur (net w') = [] /\ inbox (net w') = [] /\
    (forall i ch, chans !! i = Some ch -> files w' !! path ch =
       Some (default [] (files w !! path ch) ++ to_u16 (channel_samples (mjoin wss) i))) /\
    (forall p, (forall ch, ch ∈ chans -> p <> path ch) -> files w' !! p = files w !! p).
Proof using HND HL.
  intros HL1 HL2 Hcs. revert fuel w. induction Hcs as [|c ws cs wss Hc Hcs IH];
    intros fuel w Hfin Hlen Hcur Hin Hfiles; [done|].
  destruct fuel as [|fuel]; [cbn in Hlen; lia|]. cbn [stream_loop].
  rewrite fmap_cons in Hin. unfold bind at 1, zop at 1.
  rewrite (stream_next_message (net w) _ _ Hcur Hin), parse_ser. cbn [v1_type].
  rewrite Z.eqb_refl. cbn [negb v1_payload]. unfold bind at 1, lift at 1. rewrite parse_ser.
  rewrite (proj1 Hc). cbn [negb].
  set (w1 := AW _ (files w) (dirs w)).
  destruct (save_chunk_run c ws w1 Hc Hfiles) as (w2 & Hrun & _ & [Hn Hs Ho]).
  rewrite (bind_run _ _ _ _ _ Hrun).
  destruct cs as [|c2 cs].
  - cbn in Hfin. rewrite Hfin. inversion Hcs; subst. exists w2. split_and!; [done| | | |].
    + by rewrite Hn.
    + by rewrite Hn.
    + intros i ch Hi. rewrite (Hs i ch Hi). by rewrite join_cons, app_nil_r.
    + exact Ho.
  - destruct Hfin as [Hnf Hfin]. rewrite Hnf.
    destruct (IH fuel w2) as (w3 & Hrun3 & Hc3 & Hi3 & Hs3 & Ho3).
    + done.
    + cbn in *. lia.
    + by rewrite Hn.
    + by rewrite Hn.
    + intros ch Hch. apply list_elem_of_lookup_1 in Hch as [i Hi]. rewrite (Hs i ch Hi). by eexists.
    + exists w3. split_and!; [done|done|done| |].
      * intros i ch Hi. rewrite (Hs3 i ch Hi), (Hs i ch Hi). cbn [default].
        by rewrite join_cons, channel_samples_app, to_u16_app, app_assoc.
      * intros p Hp. by rewrite Ho3, Ho.
Qed.

(** Replies the loop skips are read one by one until none is left. *)
Lemma stream_loop_skips fuel (w : Wa) :
  cur (net w) = [] -> (length (inbox (net w)) < fuel)%nat ->
  Forall (fun m => exists b, m = [b] /\ exists e : ControlEnvelope B, parse b = Ok e /\
                   v1_type e <> chunk_type args) (inbox (net w)) ->
  exists w', stream_loop args chans fuel w =
      (Raise (Exn TimeoutError "Timed out waiting for chunk reply from server"), w') /\
    files w' = files w.
Proof using Type.
  revert w. induction fuel as [|fuel IH]; intros w Hcur Hlen Hall; [lia|]. cbn [stream_loop].
  unfold bind at 1, zop at 1. destruct (inbox (net w)) as [|m ms] eqn:Hin.
  - rewrite (stream_next_empty _ Hcur Hin). by eexists.
  - inversion Hall as [|? ? (b & -> & e & He & Hne) Hms]; subst.
    rewrite (stream_next_message _ _ _ Hcur Hin), He.
    rewrite (proj2 (Z.eqb_neq _ _) Hne). cbn [negb].
    apply (IH (AW (set_reading (net w) ms []) (files w) (dirs w))); [done|cbn in *; lia|done].
Qed.

End streaming.

(** ** Lemmas: the oscilloscope mode *)

Section osc.
Context {S B : Type} `{Peer S B, Size B, !Proto B (ControlEnvelopeV2 B)}.
Context `{!Proto B (ControlEnvelope B)}.
Context `{!Proto B DumpSpyBuffersRequest, !Proto B DumpSpyBuffersResponse}.
Context (args : acquire_args) (chans : list Z).
Context (HND : NoDup chans).
Abbreviation Wa := (aworld S B).
Abbreviation path := (channel_file (a_foldername args)).

(** The first waveform of channel number [j] of a response. *)
Definition first_row (r : DumpSpyBuffersResponse) (j : nat) : list Z :=
  match parse_dump_response r with
  | Ok (y, (w, k, n)) => row y k n 0 (Z.of_nat j)
  | Raise _ => []
  end.

Lemma for_each_ok {W A : Type} (l : list A) (f g : A -> M W unit) (w : W) u w' :
  (forall a, f a = g a \/ forall w0, exists e w1, f a w0 = (Raise e, w1)) ->
  for_each l f w = (Ok u, w') -> for_each l g w = (Ok u, w') /\ Forall (fun a => f a = g a) l.
Proof using Type.
  intros Hf. revert w. induction l as [|a l IH]; intros w Hr; [by split|]. cbn [for_each] in *.
  inv_bind Hr. destruct (Hf a) as [Ha|Ha].
  - apply IH in Hr as [Hr Hall]. rewrite <- Ha. split; [|by constructor].
    by rewrite (bind_run _ _ _ _ _ Hrun).
  - destruct (Ha w) as (e & w1 & He). by rewrite He in Hrun.
Qed.

(** A completed turn saves the first waveform of a successful reply. *)
Lemma osc_step_run req (w w' : Wa) :
  osc_step args chans req w = (Ok tt, w') ->
  exists r z, osc_reply args req (net w) = (Ok r, z) /\ dr_success r = true /\ net w' = z /\
    (forall i ch, chans !! i = Some ch ->
       files w' !! path ch = Some (default [] (files w !! path ch) ++ to_u16 (first_row r i))) /\
    (forall p, (forall ch, ch ∈ chans -> p <> path ch) -> files w' !! p = files w !! p).
Proof using HND.
  unfold osc_step. intros Hr. inv_bind Hr. unfold zop in Hrun.
  destruct (osc_reply args req (net w)) as [r0 z] eqn:Hz. injection Hrun as -> <-.
  exists a, z. split; [done|]. inv_bind Hr. destruct (dr_success a) eqn:Hs; [|done].
  cbn in Hrun. injection Hrun as _ <-. inv_bind Hr. unfold lift in Hrun.
  destruct (parse_dump_response a) as [[y [[wn k] n]]|] eqn:Hp; [|done].
  injection Hrun as <- <-.
  unfold per_channel in Hr. cbn beta in Hr.
  match type of Hr with for_each ?l ?f ?w0 = _ =>
    destruct (for_each_ok l f (fun ic : Z * Z => write_file (path (snd ic))
      (to_u16 (row y k n 0 (fst ic)))) w0 tt w') as [Hr' _]; [|exact Hr|] end.
  { intros [idx ch]. cbn. destruct (k <=? idx); [|by left]. right. intros w0. by eexists _, _. }
  destruct (write_each (a_foldername args) chans HND (fun idx => to_u16 (row y k n 0 idx))
    (fun idx ch => write_file (path ch) (to_u16 (row y k n 0 idx)))
    (AW z (files w) (dirs w))) as (w1 & Hrun1 & _ & [Hn Hsv Ho]); [done|].
  clear Hr. rename Hr' into Hr.
  unfold per_channel in Hrun1. cbn beta in Hrun1. rewrite Hr in Hrun1. injection Hrun1 as <-.
  split_and!; [done|done| |done].
  intros i ch Hi. rewrite (Hsv i ch Hi). unfold first_row. by rewrite Hp.
Qed.

Definition all_rows (rs : list DumpSpyBuffersResponse) (j : nat) : list Z :=
  mjoin ((fun r => to_u16 (first_row r j)) <$> rs).

Lemma osc_steps {A : Type} req (l : list A) (w w' : Wa) :
  for_each l (fun _ => osc_step args chans req) w = (Ok tt, w') ->
  exists rs, calls (length l) (osc_reply args req) (net w) = (Ok <$> rs, net w') /\
    length rs = length l /\ Forall (fun r => dr_success r = true) rs /\
    (forall i ch, chans !! i = Some ch -> is_Some (files w !! path ch) ->
       files w' !! path ch = Some (default [] (files w !! path ch) ++ all_rows rs i)) /\
    (forall p, (forall ch, ch ∈ chans -> p <> path ch) -> files w' !! p = files w !! p).
Proof using HND.
  revert w. induction l as [|a l IH]; intros w Hr.
  - injection Hr as <-. exists []. split_and!; [done|done|constructor| |done].
    intros i ch Hi [x Hx]. unfold all_rows. cbn. by rewrite Hx, app_nil_r.
  - cbn [for_each] in Hr. inv_bind Hr. destruct a0.
    apply osc_step_run in Hrun as (r & z & Hz & Hok & Hn & Hs & Ho).
    apply IH in Hr as (rs & Hcalls & Hlen & Hall & Hs' & Ho').
    exists (r :: rs). cbn [calls length]. rewrite Hz, <- Hn, Hcalls. split_and!.
    + done.
    + by rewrite <- Hlen.
    + by constructor.
    + intros i ch Hi Hx. rewrite (Hs' i ch Hi) by (rewrite (Hs i ch Hi); by eexists).
      rewrite (Hs i ch Hi). unfold all_rows. cbn [default]. by rewrite fmap_cons, join_cons, app_assoc.
    + intros p Hp. by rewrite Ho', Ho.
Qed.

End osc.

(** ** Properties *)

(** The oscilloscope mode saves what the server sent: when it ends normally, the replies
    it read are [N] successful ones and each channel's file is what it held before (nothing,
    unless data are appended) followed by that channel's first waveform of every reply, in
    order; other files are untouched. *)
Theorem osc_mode_saves {S B : Type} `{Peer S B, Size B, !Proto B (ControlEnvelopeV2 B)}
    `{!Proto B (ControlEnvelope B), !Proto B DumpSpyBuffersRequest, !Proto B DumpSpyBuffersResponse}
    args chans (w w' : aworld S B) :
  NoDup chans -> 0 <= a_N args -> osc_mode args chans w = (Ok tt, w') ->
  exists req rs z, calls (Z.to_nat (a_N args)) (osc_reply args req) z = (Ok <$> rs, net w') /\
    dump_request args chans 1 = Ok req /\ length rs = Z.to_nat (a_N args) /\
    Forall (fun r => dr_success r = true) rs /\
    (forall i ch, chans !! i = Some ch -> files w' !! file_of args ch =
       Some (base (a_foldername args) (a_append_data args) w ch ++ all_rows rs i)) /\
    (forall p, (forall ch, ch ∈ chans -> p <> file_of args ch) -> files w' !! p = files w !! p).
Proof.
  intros HND HN Hr. unfold osc_mode in Hr. inv_bind Hr. unfold lift in Hrun.
  injection Hrun as Hreq <-. inv_bind Hr. cbn in Hrun. injection Hrun as _ <-. inv_bind Hr.
  destruct (open_each (a_foldername args) chans HND (a_append_data args)
    (AW (snd (say "" (net w))) (files w) (dirs w))) as (w2 & Hopen & Hn & Hd & Hs & Ho).
  clear Hopen Hn Hd Hs Ho w2.
  match type of Hrun with open_all _ _ ?w0 = _ =>
    destruct (open_each (a_foldername args) chans HND (a_append_data args) w0)
      as (w2 & Hopen & Hn & Hd & Hs & Ho) end.
  unfold open_all in Hrun. unfold file_of in Hrun. rewrite Hopen in Hrun. injection Hrun as _ <-.
  apply (osc_steps args chans HND) in Hr as (rs & Hcalls & Hlen & Hall & Hs' & Ho').
  replace (length (seqZ 0 (a_N args))) with (Z.to_nat (a_N args)) in *
    by (by rewrite length_seqZ).
  exists a, rs, (net w2). split_and!; [done|done|done|done| |].
  - intros i ch Hi. unfold file_of.
    rewrite (Hs' i ch Hi) by (rewrite Hs by (by eapply list_elem_of_lookup_2); by eexists).
    rewrite Hs by (by eapply list_elem_of_lookup_2). done.
  - intros p Hp. by rewrite Ho', Ho.
Qed.

(** C8. The streaming mode over first-generation envelopes ([--no-v2]), with distinct channels and
    a server that answers the request with the whole stream, its last chunk marked as such:
    whatever way it cuts the waveforms into chunks, each channel's file ends up as the samples of
    that channel in all the waveforms, in order and modulo 2^16, after what it held before (nothing,
    unless data are appended); no other file changes and no message is left unread.  The default
    mode, over second-generation envelopes, saves nothing: [stream_v2_never_saves]. *)
Theorem stream_saves_waveforms {S B : Type} `{Peer S B, Size B, !Proto B (ControlEnvelopeV2 B)}
    `{!Proto B (ControlEnvelope B)}
    `{!Proto B DumpSpyBuffersChunkRequest, !Proto B DumpSpyBuffersChunkResponse}
    (HL1 : ProtoLaws B (ControlEnvelope B)) (HL2 : ProtoLaws B DumpSpyBuffersChunkResponse)
    uuid4 args chans creq cs wss s' (w : aworld S B) :
  NoDup chans -> use_v2_stream args = false -> chunk_request uuid4 args chans = Ok creq ->
  cur (net w) = [] -> inbox (net w) = [] -> can_send (srv (net w)) = true ->
  answer (srv (net w)) (ser (Env1 DUMP_SPYBUFFER_CHUNK (ser creq)))
    = (s', (fun c => [ser (Env1 DUMP_SPYBUFFER_CHUNK (ser c))]) <$> cs) ->
  Forall2 (carries args chans) cs wss -> ends_final cs ->
  exists w', stream_mode uuid4 args chans w = (Ok tt, w') /\
    cur (net w') = [] /\ inbox (net w') = [] /\
    (forall i ch, chans !! i = Some ch -> files w' !! file_of args ch =
       Some (base (a_foldername args) (a_append_data args) w ch
             ++ to_u16 (channel_samples (mjoin wss) i))) /\
    (forall p, (forall ch, ch ∈ chans -> p <> file_of args ch) -> files w' !! p = files w !! p).
Proof.
  intros HND Hv2 Hreq Hcur Hin Hsend Hans Hcs Hfin. unfold stream_mode.
  assert (HL : 0 <= a_L args).
  { unfold chunk_request in Hreq. apply rbind_ok in Hreq as (? & _ & Hreq).
    apply rbind_ok in Hreq as (? & _ & Hreq). apply rbind_ok in Hreq as (l & Hl & _).
    unfold set_u32, set_uint in Hl. destruct (Z.leb_spec 0 (a_L args)); [done|]. discriminate. }
  rewrite (bind_run _ _ w creq w) by (by unfold lift; rewrite Hreq). rewrite Hv2.
  unfold bind at 1, zop at 1, ret at 1. unfold bind at 1, zop at 1, say, show, modify.
  match goal with |- context [open_all _ _ ;;; _] =>
    match goal with |- context [bind (open_all args chans) _ ?w0] =>
      destruct (open_each (a_foldername args) chans HND (a_append_data args) w0)
        as (w2 & Hopen & Hn & Hd & Hs & Ho) end end.
  rewrite (bind_run _ _ _ _ _ Hopen).
  unfold bind at 1, zop at 1, z_send. rewrite Hn. cbn [net srv]. rewrite Hsend, Hans.
  unfold bind at 1, gets at 1. cbn [net inbox]. rewrite Hin, app_nil_l, length_fmap.
  match goal with |- exists w', stream_loop _ _ ?fuel ?w3 = _ /\ _ =>
    destruct (stream_loop_run args chans HND HL cs wss fuel w3) as (w' & Hrun & Hc' & Hi' & Hs' & Ho')
  end; try done.
  - lia.
  - cbn. unfold chunk_type. by rewrite Hv2.
  - cbn. intros ch Hch. rewrite Hs by done. by eexists.
  - exists w'. split_and!; [done|done|done| |].
    + intros i ch Hi. unfold file_of. rewrite (Hs' i ch Hi). cbn [files].
      rewrite Hs by (by eapply list_elem_of_lookup_2). done.
    + intros p Hp. rewrite Ho' by done. cbn [files]. by rewrite Ho.
Qed.

(** A peer for the examples: messages are kept as they are, and bytes of a second-generation
    envelope read as a first-generation one give its version as the type. *)
Inductive awire : Type :=
  | AV2 (e : ControlEnvelopeV2 awire)
  | AV1 (e : ControlEnvelope awire)
  | AReq (r : DumpSpyBuffersRequest)
  | AResp (r : DumpSpyBuffersResponse)
  | AChunkReq (r : DumpSpyBuffersChunkRequest)
  | AChunk (r : DumpSpyBuffersChunkResponse)
  | ANothing.

Definition bad {A : Type} : result A := Raise (Exn DecodeError "Error parsing message").

#[export] Instance awire_size : Size awire := {
  size b := match b with ANothing => 0 | _ => 1 end }.
#[export] Instance awire_v2 : Proto awire (ControlEnvelopeV2 awire) := {
  ser := AV2; parse b := match b with AV2 e => Ok e | _ => bad end }.
#[export] Instance awire_v1 : Proto awire (ControlEnvelope awire) := {
  ser := AV1; parse b := match b with
                         | AV1 e => Ok e
                         | AV2 e => Ok (Env1 (version e) ANothing)
                         | _ => bad end }.
#[export] Instance awire_req : Proto awire DumpSpyBuffersRequest := {
  ser := AReq; parse b := match b with AReq r => Ok r | _ => bad end }.
#[export] Instance awire_resp : Proto awire DumpSpyBuffersResponse := {
  ser := AResp; parse b := match b with AResp r => Ok r | _ => bad end }.
#[export] Instance awire_creq : Proto awire DumpSpyBuffersChunkRequest := {
  ser := AChunkReq; parse b := match b with AChunkReq r => Ok r | _ => bad end }.
#[export] Instance awire_chunk : Proto awire DumpSpyBuffersChunkResponse := {
  ser := AChunk; parse b := match b with AChunk r => Ok r | _ => bad end }.

#[export] Instance awire_v1_laws : ProtoLaws awire (ControlEnvelope awire).
Proof. by split. Qed.
#[export] Instance awire_chunk_laws : ProtoLaws awire DumpSpyBuffersChunkResponse.
Proof. by split. Qed.

(** Two chunks: one waveform, then two, of two channels with two samples. *)
Definition example_waves1 : list (list (list Z)) := [[[1; 2]; [11; 12]]].
Definition example_waves2 : list (list (list Z)) := [[[3; 4]; [13; 14]]; [[5; 65542]; [15; 16]]].

Definition example_chunk (final : bool) (ws : list (list (list Z))) : DumpSpyBuffersChunkResponse :=
  ChunkResp true "id" 0 final 0 (Z.of_nat (length ws)) 3 2 [7; 3] (flat ws) "".

Definition example_resp (n : Z) : DumpSpyBuffersResponse :=
  DumpResp true [7; 3] 2 1 false [n; n + 1; n + 10; n + 11] "".

(** A server that streams the two chunks in envelopes of the request's generation, and
    answers single requests with a numbered waveform. *)
#[export] Instance spy_peer : Peer Z awire := {
  can_send _ := true;
  answer n b := match b with
    | AV1 (Env1 100 _) => (n, [[AV1 (Env1 DUMP_SPYBUFFER_CHUNK (AChunk (example_chunk false example_waves1)))];
                               [AV1 (Env1 DUMP_SPYBUFFER_CHUNK (AChunk (example_chunk true example_waves2)))]])
    | AV2 (Env _ _ 300 _ t m _ r _) =>
        (n, [[AV2 (Env 2 DIR_RESPONSE 301 (AChunk (example_chunk false example_waves1)) t 0 m r 0)];
             [AV2 (Env 2 DIR_RESPONSE 301 (AChunk (example_chunk true example_waves2)) t 0 m r 0)]])
    | AV2 (Env _ _ ty _ t m _ r _) =>
        (n + 1, [[AV2 (Env 2 DIR_RESPONSE (ty + 1) (AResp (example_resp n)) t 0 m r 0)]])
    | _ => (n, [])
    end }.

Definition spy_world (fs : gmap string (list Z)) : aworld Z awire :=
  AW (ZW 0 [] [] [] (fun k => 1000 + Z.of_nat k) 0 (fun _ => 7) 0 0 []) fs [].

Definition spy_args (v2 append : bool) : acquire_args := {|
  a_ip := "127.0.0.1"; a_port := 9876; a_foldername := "run"; a_channel_list := ["7,3"]; a_N := 3;
  a_L := 2; a_software_trigger := false; a_append_data := append; a_timeout_ms := 30000;
  a_route := "mezz/0"; a_v2 := v2; a_legacy_only := false; a_osc_mode := false;
  a_legacy := false; a_chunk := 5; a_net_buffer_mb := 128; a_compress := false;
  a_compression_format := "tar"; a_compression_level := 1 |}.

Definition old_files : gmap string (list Z) := {[ "run/channel_7.dat" := [99] ]}.

Lemma stream_saves_waveforms_witness :
  let w := spy_world old_files in
  exists w', stream_mode "id" (spy_args false true) [7; 3] w = (Ok tt, w') /\
    files w' !! "run/channel_7.dat" = Some [99; 1; 2; 3; 4; 5; 6] /\
    files w' !! "run/channel_3.dat" = Some [11; 12; 13; 14; 15; 16].
Proof.
  intros w. edestruct (stream_saves_waveforms awire_v1_laws awire_chunk_laws "id" (spy_args false true)
    [7; 3] (ChunkReq [7; 3] 2 3 false "id" 3)
    [example_chunk false example_waves1; example_chunk true example_waves2]
    [example_waves1; example_waves2] 0 w) as (w' & Hrun & _ & _ & Hs & _);
    try reflexivity.
  - reg_mem.
  - repeat constructor.
  - by split.
  - exists w'. split; [exact Hrun|].
    split; [apply (Hs 0%nat 7)|apply (Hs 1%nat 3)]; reflexivity.
Defined.

Lemma osc_mode_saves_witness :
  let w := spy_world old_files in
  exists w', osc_mode (spy_args true false) [7; 3] w = (Ok tt, w') /\
    exists rs, length rs = 3%nat /\
      files w' !! file_of (spy_args true false) 3
        = Some (base "run" false w 3 ++ all_rows rs 1).
Proof.
  intros w. destruct (osc_mode (spy_args true false) [7; 3] w) as [r w'] eqn:Hr.
  assert (Hok : fst (osc_mode (spy_args true false) [7; 3] w) = Ok tt) by (vm_compute; reflexivity).
  rewrite Hr in Hok. cbn in Hok. subst r. exists w'. split; [done|].
  destruct (osc_mode_saves (spy_args true false) [7; 3] w w') as (req & rs & z & _ & _ & Hlen & _ & Hs & _).
  - reg_mem.
  - by compute.
  - exact Hr.
  - exists rs. split; [exact Hlen|]. by apply (Hs 1%nat 3).
Defined.

(** The streaming mode over second-generation envelopes, which is the default of the
    script, never saves a waveform: the replies, envelopes of version 2, are read as
    first-generation envelopes, whose type is then 2, and skipped until the receive times
    out; the files have been opened, and emptied unless data are appended. *)
Theorem stream_v2_never_saves {S B : Type} `{Peer S B, Size B, !Proto B (ControlEnvelopeV2 B)}
    `{!Proto B (ControlEnvelope B)}
    `{!Proto B DumpSpyBuffersChunkRequest, !Proto B DumpSpyBuffersChunkResponse}
    (HV : forall env : ControlEnvelopeV2 B, exists p,
       parse (ser env) = Ok (Env1 (version env) p)) uuid4 args chans (w : aworld S B) :
  (forall s b, can_send s = true /\ exists s' envs, answer s b = (s', (fun e => [ser e]) <$> envs) /\
     Forall (fun e : ControlEnvelopeV2 B => version e = 2) envs) ->
  NoDup chans -> use_v2_stream args = true -> is_ok (chunk_request uuid4 args chans) = true ->
  cur (net w) = [] -> inbox (net w) = [] ->
  exists w', stream_mode uuid4 args chans w =
      (Raise (Exn TimeoutError "Timed out waiting for chunk reply from server"), w') /\
    forall ch, ch ∈ chans -> files w' !! file_of args ch =
      Some (base (a_foldername args) (a_append_data args) w ch).
Proof.
  intros Hpeer HND Hv2 Hreq Hcur Hin. unfold stream_mode.
  destruct (chunk_request uuid4 args chans) as [creq|] eqn:Hc; [|done].
  rewrite (bind_run _ _ w creq w) by (by unfold lift). rewrite Hv2.
  destruct (build_env_random (S := S) (B := B) (net w) MT2_DUMP_SPYBUFFER_CHUNK_REQ (ser creq)
    (a_route args)) as (task & now & Hb).
  unfold bind at 1, zop at 1. rewrite (bind_run _ _ _ _ _ Hb). unfold ret at 1.
  unfold bind at 1, zop at 1, say, show, modify.
  match goal with |- context [bind (open_all args chans) _ ?w0] =>
    destruct (open_each (a_foldername args) chans HND (a_append_data args) w0)
      as (w2 & Hopen & Hn & Hd & Hs & Ho) end.
  rewrite (bind_run _ _ _ _ _ Hopen).
  unfold bind at 1, zop at 1, z_send. rewrite Hn. cbn [net srv].
  match goal with |- context [can_send ?s] => match goal with |- context [answer s ?b] =>
    destruct (Hpeer s b) as (Hcan & s' & envs & Hans & Hver) end end.
  rewrite Hcan, Hans. unfold bind at 1, gets at 1. cbn [net inbox].
  match goal with |- exists w', stream_loop _ _ ?fuel ?w3 = _ /\ _ =>
    destruct (stream_loop_skips args chans fuel w3) as (w' & Hrun & Hf) end.
  - done.
  - cbn. lia.
  - cbn. rewrite Hin, app_nil_l. apply Forall_fmap, Forall_forall. intros e He. cbn.
    eexists. split; [done|]. destruct (HV e) as [p Hp]. eexists. split; [exact Hp|]. cbn.
    rewrite Forall_forall in Hver. rewrite (Hver e He). unfold chunk_type. by rewrite Hv2.
  - exists w'. split; [exact Hrun|]. intros ch Hch. rewrite Hf. cbn [files]. unfold file_of.
    by rewrite Hs.
Qed.

Lemma awire_reads_v2 (env : ControlEnvelopeV2 awire) :
  exists p : awire, parse (ser env) = Ok (Env1 (version env) p).
Proof. by exists ANothing. Qed.

(** A server whose every answer is a version 2 envelope. *)
Definition v2_peer : Peer Z awire := {|
  can_send _ := true;
  answer n b :=
    (n, (fun e => [ser e]) <$> [Env 2 DIR_RESPONSE 301 (AChunk (example_chunk false example_waves1)) 0 0 0 "" 0;
                                Env 2 DIR_RESPONSE 301 (AChunk (example_chunk true example_waves2)) 0 0 0 "" 0]) |}.

Lemma stream_v2_never_saves_witness :
  let w := spy_world old_files in
  exists w', @stream_mode _ _ v2_peer _ _ _ _ "id" (spy_args true false) [7; 3] w =
      (Raise (Exn TimeoutError "Timed out waiting for chunk reply from server"), w') /\
    files w' !! "run/channel_7.dat" = Some [].
Proof.
  intros w. destruct (@stream_v2_never_saves _ _ v2_peer _ _ _ _ _ awire_reads_v2
    "id" (spy_args true false) [7; 3] w) as (w' & Hrun & Hf); try reflexivity.
  - intros s b. split; [done|]. eexists _, _. split; [reflexivity|]. repeat constructor.
  - reg_mem.
  - exists w'. split; [exact Hrun|]. apply (Hf 7). reg_mem.
Defined.

(** ** Compression *)

Section compression.
Context {S B : Type} `{Peer S B}.
Context (system : string -> gmap string (list Z) -> Z * gmap string (list Z)).
Context (args : acquire_args) (chans : list Z).
Abbreviation Wa := (aworld S B).

Lemma archive_not_channel suffix ch :
  archive_base args +:+ suffix <> file_of args ch.
Proof using Type.
  unfold archive_base, file_of, channel_file, path_join. intros He.
  destruct (decide (a_foldername args = "")); [discriminate|].
  destruct (ends_with_slash (a_foldername args)).
  - apply (f_equal list_ascii_of_string) in He. rewrite !chars_app, <- app_assoc in He.
    apply app_inv_head in He. discriminate.
  - apply (f_equal list_ascii_of_string) in He. rewrite !chars_app, <- app_assoc in He.
    apply app_inv_head in He. discriminate.
Qed.

Lemma remove_others (l : list string) (w : Wa) u w' p :
  for_each l os_remove w = (u, w') -> p ∉ l -> files w' !! p = files w !! p.
Proof using Type.
  revert w. induction l as [|a l IH]; intros w Hr Hp; [by injection Hr as _ <-|].
  apply not_elem_of_cons in Hp as [Hne Hp]. cbn [for_each] in Hr. unfold bind in Hr.
  unfold os_remove at 1 in Hr. destruct (files w !! a); [|by injection Hr as _ <-].
  apply IH in Hr; [|done]. rewrite Hr. cbn. by apply lookup_delete_ne.
Qed.

(** The commands of the script do not touch the channel files. *)
Context (HS : forall cmd fs ch, ch ∈ chans ->
  snd (system cmd fs) !! file_of args ch = fs !! file_of args ch).

(** The removal after the archiver: the files are as they were, or the archive is there. *)
Lemma archive_step suffix cmd (w : Wa) r w' :
  (_ <- os_system system cmd ;;
   there <- exists_file (archive_base args +:+ suffix) ;;
   when there (for_each (file_of args <$> chans) os_remove) ;;; ret 0) w = (r, w') ->
  (forall ch, ch ∈ chans -> files w' !! file_of args ch = files w !! file_of args ch) \/
  is_Some (files w' !! (archive_base args +:+ suffix)).
Proof using HS.
  unfold bind at 1, os_system. destruct (system cmd (files w)) as [rc fs] eqn:Hsys.
  assert (Hfs : forall ch, ch ∈ chans -> fs !! file_of args ch = files w !! file_of args ch).
  { intros ch Hch. rewrite <- (HS cmd (files w) ch Hch). by rewrite Hsys. }
  unfold bind at 1, exists_file, gets. cbn [files].
  destruct (fs !! (archive_base args +:+ suffix)) as [x|] eqn:Ha.
  - unfold bind, when. destruct (for_each _ _ _) as [u w1] eqn:Hrm. intros Hr. right.
    assert (Hw : files w' !! (archive_base args +:+ suffix) = Some x).
    { apply remove_others with (p := archive_base args +:+ suffix) in Hrm.
      - rewrite <- Ha. destruct u; injection Hr as <- <-; exact Hrm.
      - intros Hin. apply list_elem_of_fmap in Hin as (ch & He & _). by apply archive_not_channel in He. }
    by eexists.
  - intros [= <- <-]. left. exact Hfs.
Qed.

Lemma compress_step (w : Wa) r w' :
  compress_files system args chans w = (r, w') ->
  (forall ch, ch ∈ chans -> files w' !! file_of args ch = files w !! file_of args ch) \/
  (exists suffix, suffix ∈ [".7z"; ".tar.gz"] /\ is_Some (files w' !! (archive_base args +:+ suffix))).
Proof using HS.
  unfold compress_files. unfold bind at 1, os_system at 1.
  destruct (system _ (files w)) as [rc fs] eqn:Hsys.
  assert (Hfs : forall ch, ch ∈ chans -> fs !! file_of args ch = files w !! file_of args ch).
  { intros ch Hch. rewrite <- (HS (a_compression_format args +:+ " --help") (files w) ch Hch). by rewrite Hsys. }
  assert (Hgo : forall suffix cmd, suffix ∈ [".7z"; ".tar.gz"] ->
    (_ <- os_system system cmd ;;
     there <- exists_file (archive_base args +:+ suffix) ;;
     when there (for_each (file_of args <$> chans) os_remove) ;;; ret 0) (AW (net w) fs (dirs w)) = (r, w') ->
    (forall ch, ch ∈ chans -> files w' !! file_of args ch = files w !! file_of args ch) \/
    (exists suffix, suffix ∈ [".7z"; ".tar.gz"] /\ is_Some (files w' !! (archive_base args +:+ suffix)))).
  { intros suffix cmd Hsuf Hr. apply archive_step in Hr as [Hk|Hs].
    - left. intros ch Hch. rewrite Hk by done. by apply Hfs.
    - right. by exists suffix. }
  destruct (negb (rc =? 0)).
  { cbv [bind zop say show modify ret]. intros [= <- <-]. left. exact Hfs. }
  destruct (decide (a_compression_format args = "7z")); [apply Hgo; reg_mem|].
  destruct (decide (a_compression_format args = "tar")); [apply Hgo; reg_mem|].
  intros [= <- <-]. left. exact Hfs.
Qed.

End compression.

(** Compression never loses the data without leaving an archive: when the commands leave
    the channel files alone, after the compression step (whatever the exit statuses, and even
    if it raises) either every channel's file is as it was or an archive is present. *)
Theorem compress_keeps_data {S B : Type} `{Peer S B}
    (system : string -> gmap string (list Z) -> Z * gmap string (list Z)) args chans
    (w : aworld S B) :
  (forall cmd fs ch, ch ∈ chans ->
     snd (system cmd fs) !! file_of args ch = fs !! file_of args ch) ->
  let w' := snd (compress_files system args chans w) in
  (forall ch, ch ∈ chans -> files w' !! file_of args ch = files w !! file_of args ch) \/
  (exists suffix, suffix ∈ [".7z"; ".tar.gz"] /\
     is_Some (files w' !! (archive_base args +:+ suffix))).
Proof.
  intros HS. destruct (compress_files system args chans w) as [r w'] eqn:Hr.
  by apply (compress_step system args chans HS w r w').
Qed.

(** A shell whose archiver works. *)
Definition good_shell (cmd : string) (fs : gmap string (list Z)) : Z * gmap string (list Z) :=
  if decide (cmd = "tar --help") then (0, fs)
  else (0, <["run/compressed_channels.tar.gz" := [1]]> fs).

Lemma compress_keeps_data_witness :
  let w' := snd (compress_files (S := Z) (B := awire) good_shell (spy_args true false) [7] (spy_world old_files)) in
  (forall ch, ch ∈ [7] -> files w' !! file_of (spy_args true false) ch
                          = files (spy_world old_files) !! file_of (spy_args true false) ch) \/
  (exists suffix, suffix ∈ [".7z"; ".tar.gz"] /\
     is_Some (files w' !! (archive_base (spy_args true false) +:+ suffix))).
Proof.
  apply compress_keeps_data. intros cmd fs ch ->%list_elem_of_singleton.
  unfold good_shell. destruct (decide (cmd = "tar --help")); [done|].
  by apply lookup_insert_ne.
Defined.

(** An archiver that fails, with the archive of an earlier run in the folder: the new data
    are removed, since only the presence of an archive is looked at. *)
Definition failing_shell (cmd : string) (fs : gmap string (list Z)) : Z * gmap string (list Z) :=
  if decide (cmd = "tar --help") then (0, fs) else (2, fs).

Example stale_archive_loses_data :
  let fs := <["run/compressed_channels.tar.gz" := [1]]> old_files in
  let w' := snd (compress_files (S := Z) (B := awire) failing_shell (spy_args true false) [7] (spy_world fs)) in
  files w' !! "run/channel_7.dat" = None /\
  files w' !! "run/compressed_channels.tar.gz" = Some [1].
Proof. vm_compute. split; reflexivity. Qed.

(** The receive high-water mark lies between its bounds, grows with the budget, and above
    the lower bound the chunks in flight fit the budget. *)
Theorem compute_credit_bounds n c k b budget mn mx :
  mn <= mx ->
  let credit := compute_credit n c k b budget mn mx in
  mn <= credit <= mx /\
  (mn < credit -> credit * Z.max 1 (n * c * k * b) <= budget * 1024 * 1024) /\
  (forall budget', budget <= budget' -> credit <= compute_credit n c k b budget' mn mx).
Proof.
  intros Hm credit. unfold credit, compute_credit.
  set (chunk := Z.max 1 (n * c * k * b)). assert (Hc : 0 < chunk) by lia.
  split; [lia|]. split.
  - intros Hlt. pose proof (Z.mul_div_le (budget * 1024 * 1024) chunk Hc).
    set (q := budget * 1024 * 1024 / chunk) in *. nia.
  - intros budget' Hb. assert (budget * 1024 * 1024 / chunk <= budget' * 1024 * 1024 / chunk)
      by (apply Z.div_le_mono; lia). lia.
Qed.

Lemma compute_credit_bounds_witness :
  32 <= 4096 /\ compute_credit 2048 5 40 4 128 32 4096 = 81 /\ 32 <= compute_credit 2048 5 40 4 128 32 4096 <= 4096.
Proof.
  split; [lia|]. split; [reflexivity|].
  apply (compute_credit_bounds 2048 5 40 4 128 32 4096). lia.
Defined.
