(* ===== verification/AlignAfes.v ===== *)
(** [client/align_all_afes.py]: alignment of the front-ends with [devmem], run on the board.

    The registers are reached through the program [devmem]; what it does with its arguments is
    a parameter (class [Devmem]), where it is found is another (class [OnPath]), and what the
    alignment relies on is class [Registers].  [require_root], which replaces the process by
    [sudo], is left out. *)
From S2P Require Import Prelude PyStr.

(** ** Address map *)

(** [shutil.which("devmem")], which depends on the system *)
Class OnPath : Type := { which_devmem : option string }.

Definition DEVMEM `{OnPath} : string :=
  match which_devmem with
  | Some path => if decide (path = "") then "/sbin/devmem" else path
  | None => "/sbin/devmem"
  end.

Definition FRONTEND_CTRL : Z := 0x88000000.
Definition FRONTEND_TRIGGER : Z := 0x88000008.
Definition AFE_TAP_BASE : Z := 0x8800000C.
Definition AFE_BITSLIP_BASE : Z := 0x88000020.
Definition SPY_FCLK_AFE0 : Z := 0x90008000.
Definition SPY_STRIDE : Z := 0x00009000.
Definition TRIG_MAGIC : Z := 0xBABA.
Definition WANT_PATTERN : Z := 0x00FF00FF.

Definition tap_addr (afe : Z) : Z := AFE_TAP_BASE + 4 * afe.
Definition bitslip_addr (afe : Z) : Z := AFE_BITSLIP_BASE + 4 * afe.
Definition spy_addr (afe : Z) : Z := SPY_FCLK_AFE0 + SPY_STRIDE * afe.

(** [f"0x{z:08x}"] and [f"0x{z:x}"] *)
Definition hex8 (z : Z) : string := "0x" +:+ hex_pad false 8 z.
Definition hex0 (z : Z) : string := "0x" +:+ hex_pad false 1 z.

(** ** The program [devmem] *)

(** Exit status, standard output and standard error of a run, and the board afterwards. *)
Class Devmem (H : Type) : Type := {
  devmem : list string -> H -> (Z * string * string) * H }.

Record hworld (H : Type) : Type := HW { hw : H; printed : list string }.
Arguments HW {H}.
Arguments hw {H}.
Arguments printed {H}.

Definition read_args `{OnPath} (addr : Z) : list string := [DEVMEM; hex8 addr; "32"].
Definition write_args `{OnPath} (addr value : Z) : list string := [DEVMEM; hex8 addr; "32"; hex0 value].

Section align.
Context {H : Type} `{OnPath, Devmem H}.
Abbreviation Wh := (hworld H).

Definition print (s : string) : M Wh unit := modify (fun w => HW (hw w) (printed w ++ [s])).

Definition nl : string := String "010" "".

(** [run] *)
Definition run (args : list string) (desc : string) : M Wh string := fun w =>
  let '((rc, out, err), h) := devmem args (hw w) in
  let w' := HW h (printed w) in
  if rc =? 0 then (Ok (strip out), w')
  else (Raise (Exn RuntimeError (desc +:+ " failed (rc=" +:+ str_Z rc +:+ "): " +:+ join " " args
                                 +:+ nl +:+ strip err)), w').

(** [int(out.split()[0], 16)] *)
Definition parse_word (out : string) : result Z :=
  match split_words out with
  | [] => Raise (Exn IndexError "list index out of range")
  | word :: _ => int16 word
  end.

Definition read32 (addr : Z) (desc : string) : M Wh Z :=
  out <- run (read_args addr) desc ;;
  lift (parse_word out).

Definition write32 (addr value : Z) (desc : string) : M Wh unit :=
  run (write_args addr value) desc ;;; ret tt.

Definition trigger_spy : M Wh unit := write32 FRONTEND_TRIGGER TRIG_MAGIC "trigger spy".

Definition read_fclk (afe : Z) : M Wh Z :=
  trigger_spy ;;;
  read32 (spy_addr afe) ("read AFE" +:+ str_Z afe +:+ " FCLK").

(** ** The longest stable window *)

(** A window [(len, start, end, word)], and the variables of the scan. *)
Record window : Type := Win { w_len : Z; w_start : Z; w_end : Z; w_word : Z }.
Record scan : Type := Scan { longest : window; curr_word : Z; curr_len : Z; start : Z }.

Definition scan_init (base : Z) : scan := Scan (Win 1 0 0 base) base 1 0.

(** The end of a run at tap [e]. *)
Definition close_run (s : scan) (e : Z) : window :=
  if w_len (longest s) <? curr_len s then Win (curr_len s) (start s) e (curr_word s)
  else longest s.

Definition scan_step (s : scan) (i val : Z) : scan :=
  if val =? curr_word s then Scan (longest s) (curr_word s) (curr_len s + 1) (start s)
  else Scan (close_run s (i - 1)) val 1 i.

Definition scan_taps (afe : Z) (s : scan) : M Wh scan :=
  fold_m (seqZ 1 511) (fun s i =>
    write32 (tap_addr afe) i ("AFE" +:+ str_Z afe +:+ " TAP=" +:+ str_Z i) ;;;
    val <- read_fclk afe ;;
    ret (scan_step s i val)) s.

(** The hunt over the bitslips: the first that shows the pattern. *)
Fixpoint bitslip_hunt (afe : Z) (js : list Z) : M Wh (option Z) :=
  match js with
  | [] => ret None
  | j :: js' =>
      write32 (bitslip_addr afe) j ("AFE" +:+ str_Z afe +:+ " bitslip=" +:+ str_Z j) ;;;
      val <- read_fclk afe ;;
      print ("  bitslip " +:+ (if j <? 10 then " " else "") +:+ str_Z j +:+ " → FCLK=" +:+ hex8 val) ;;;
      if val =? WANT_PATTERN then ret (Some j) else bitslip_hunt afe js'
  end.

Definition align_one_afe (afe : Z) : M Wh (Z * option Z) :=
  let name := "AFE" +:+ str_Z afe in
  print (nl +:+ "=== " +:+ name +:+ " ===") ;;;
  write32 FRONTEND_CTRL 0x1 "assert IDELAYCTL_RST" ;;;
  write32 FRONTEND_CTRL 0x2 "assert ISERDES_RST" ;;;
  write32 FRONTEND_CTRL 0x0 "release resets" ;;;
  write32 (tap_addr afe) 0x0 (name +:+ " set TAP=0") ;;;
  base <- read_fclk afe ;;
  s <- scan_taps afe (scan_init base) ;;
  let win := close_run s 511 in
  let mid := w_start win + (w_end win - w_start win) / 2 in
  write32 (tap_addr afe) mid (name +:+ " set TAP mid") ;;;
  print (name +:+ ": window " +:+ str_Z (w_start win) +:+ ".." +:+ str_Z (w_end win) +:+ " (len="
         +:+ str_Z (w_len win) +:+ "), pattern=" +:+ hex8 (w_word win) +:+ " → TAP=" +:+ str_Z mid) ;;;
  write32 FRONTEND_CTRL 0x4 "enable VTC" ;;;
  write32 FRONTEND_CTRL 0x0 "disable VTC" ;;;
  found <- bitslip_hunt afe (seqZ 0 16) ;;
  print (match found with
         | None => name +:+ ": WARNING — " +:+ hex8 WANT_PATTERN
                   +:+ " never observed; keeping TAP=" +:+ str_Z mid +:+ "."
         | Some j => name +:+ ": FOUND " +:+ hex8 WANT_PATTERN +:+ " at bitslip=" +:+ str_Z j
         end) ;;;
  ret (mid, found).

(** [main]: an AFE whose alignment raises is skipped. *)
Definition main : M Wh (list (Z * Z * option Z)) :=
  results <- fold_m (seqZ 0 5) (fun results afe =>
    try_except
      (_ <- read32 (tap_addr afe) ("probe AFE" +:+ str_Z afe +:+ " TAP (readback allowed)") ;;
       '(mid, bs) <- align_one_afe afe ;;
       ret (results ++ [(afe, mid, bs)]))
      (fun e =>
         print ("AFE" +:+ str_Z afe +:+ ": skipped due to access error:" +:+ nl +:+ exn_text e) ;;;
         ret results)) [] ;;
  print (nl +:+ "Summary") ;;;
  for_each results (fun '(afe, mid, bs) =>
    print ("  AFE" +:+ str_Z afe +:+ ": TAP=" +:+ str_Z mid +:+ ", BITSLIP="
           +:+ match bs with None => "-" | Some j => str_Z j end)) ;;;
  ret results.

End align.

(** ** The window found by the scan *)

Section windows.
Context (word : Z -> Z).

(** [a..b] is a run of the same word. *)
Definition stable (a b : Z) : Prop := a <= b /\ forall i, a <= i <= b -> word i = word a.

(** [win] is the first of the longest stable runs that lie in [0..hi] and start before [lim]. *)
Record best (lim hi : Z) (win : window) : Prop := {
  b_len : w_len win = w_end win - w_start win + 1;
  b_range : 0 <= w_start win /\ w_end win <= hi;
  b_stable : stable (w_start win) (w_end win);
  b_word : w_word win = word (w_start win);
  b_longest a b : 0 <= a < lim -> b <= hi -> stable a b -> b - a + 1 <= w_len win;
  b_first a b : 0 <= a < lim -> b <= hi -> stable a b -> b - a + 1 = w_len win -> w_start win <= a }.

(** What the scan knows after tap [n]: the current run, and the best of the closed runs. *)
Record scanned (n : Z) (s : scan) : Prop := {
  sc_start : 0 <= start s <= n;
  sc_len : curr_len s = n - start s + 1;
  sc_word : curr_word s = word (start s);
  sc_run : stable (start s) n;
  sc_begins : start s = 0 \/ word (start s - 1) <> word (start s);
  sc_best : (start s = 0 /\ longest s = Win 1 0 0 (word 0)) \/
            best (start s) (start s - 1) (longest s) }.

Lemma scanned_init : scanned 0 (scan_init (word 0)).
Proof using Type.
  split; cbn; [lia|lia|done| |by left|by left].
  split; [lia|]. intros i Hi. by assert (i = 0) as -> by lia.
Qed.

(** Runs that start before the current one end before it. *)
Lemma run_before n s a b : scanned n s -> 0 <= a < start s -> b <= n -> stable a b -> b <= start s - 1.
Proof using Type.
  intros Hs Ha Hb [Hab Hst]. destruct (Z.le_gt_cases b (start s - 1)) as [|Hgt]; [done|].
  destruct (sc_begins n s Hs) as [|Hne]; [lia|]. destruct Hne.
  by rewrite (Hst (start s - 1)), (Hst (start s)) by lia.
Qed.

(** Closing the current run: the best run of [0..n]. *)
Lemma close_best n s : scanned n s -> best (n + 1) n (close_run s n).
Proof using Type.
  intros Hs. destruct Hs as [Hst Hlen Hword Hrun Hbeg Hbest] eqn:E. clear E.
  unfold close_run. rewrite Hlen.
  assert (Hinside : forall a b, start s <= a -> b <= n -> b - a + 1 <= n - start s + 1) by lia.
  destruct Hbest as [[H0 Hl]|Hb].
  - rewrite Hl. cbn. rewrite H0. destruct (Z.ltb_spec 1 (n - 0 + 1)).
    + split; cbn; [lia|lia|by rewrite H0 in Hrun|by rewrite H0 in Hword|lia|lia].
    + assert (n = 0) as -> by lia. split; cbn; [lia|lia| |done|lia|lia].
      split; [lia|]. intros i Hi. by assert (i = 0) as -> by lia.
  - destruct Hb as [bl [br1 br2] bs bw bl1 bf].
    assert (Hbefore : forall a b, 0 <= a < start s -> b <= n -> stable a b -> b <= start s - 1)
      by (intros a b Ha Hb' Hst'; exact (run_before n s a b Hs Ha Hb' Hst')).
    destruct (Z.ltb_spec (w_len (longest s)) (n - start s + 1)) as [Hlt|Hge].
    + split; cbn; [lia|lia|done|done| |].
      * intros a b Ha Hb Hst'. destruct (Z.lt_ge_cases a (start s)); [|apply Hinside; lia].
        pose proof (Hbefore a b ltac:(lia) Hb Hst'). pose proof (bl1 a b ltac:(lia) ltac:(lia) Hst'). lia.
      * intros a b Ha Hb Hst' Heq. destruct (Z.lt_ge_cases a (start s)); [|lia].
        pose proof (Hbefore a b ltac:(lia) Hb Hst'). pose proof (bl1 a b ltac:(lia) ltac:(lia) Hst'). lia.
    + split; [done|lia|done|done| |].
      * intros a b Ha Hb Hst'. destruct (Z.lt_ge_cases a (start s)).
        -- pose proof (Hbefore a b ltac:(lia) Hb Hst'). apply bl1; [lia|lia|done].
        -- pose proof (Hinside a b ltac:(lia) Hb). lia.
      * intros a b Ha Hb Hst' Heq. destruct (Z.lt_ge_cases a (start s)).
        -- pose proof (Hbefore a b ltac:(lia) Hb Hst'). apply (bf a b); [lia|lia|done|done].
        -- destruct bs. lia.
Qed.

Lemma scanned_step n s : 0 <= n -> scanned n s -> scanned (n + 1) (scan_step s (n + 1) (word (n + 1))).
Proof using Type.
  intros Hn Hs. pose proof (close_best n s Hs) as Hclose.
  destruct Hs as [Hst Hlen Hword [Hab Hrun] Hbeg Hbest]. unfold scan_step.
  destruct (Z.eqb_spec (word (n + 1)) (curr_word s)) as [He|Hne].
  - split; cbn; [lia|lia|done| |done|done]. split; [lia|]. intros i Hi.
    destruct (Z.eq_dec i (n + 1)) as [->|]; [by rewrite He|apply Hrun; lia].
  - split; cbn; [lia|lia|done| |right|right].
    + split; [lia|]. intros i Hi. by assert (i = n + 1) as -> by lia.
    + replace (n + 1 - 1) with n by lia. rewrite (Hrun n) by lia. congruence.
    + replace (n + 1 - 1) with n by lia. exact Hclose.
Qed.

End windows.

(** ** The board *)

(** What the alignment relies on: the tap and bitslip registers take what is written to them,
    a trigger snapshots the frame clock of every AFE, which depends on its tap and bitslip
    only, the control register changes none of these, and [devmem] prints what it reads. *)
Class Registers (H : Type) `{OnPath, Devmem H} : Type := {
  tap : H -> Z -> Z;
  slip : H -> Z -> Z;
  spied : H -> Z -> Z;
  fclk : Z -> Z -> Z -> Z;
  ctrl_law h v : v ∈ [0; 1; 2; 4] -> exists h',
    devmem (write_args FRONTEND_CTRL v) h = ((0, "", ""), h') /\
    (forall a, tap h' a = tap h a) /\ (forall a, slip h' a = slip h a);
  tap_law h afe v : 0 <= afe < 5 -> 0 <= v < 512 -> exists h',
    devmem (write_args (tap_addr afe) v) h = ((0, "", ""), h') /\
    (forall a, tap h' a = if a =? afe then v else tap h a) /\ (forall a, slip h' a = slip h a);
  slip_law h afe v : 0 <= afe < 5 -> 0 <= v < 16 -> exists h',
    devmem (write_args (bitslip_addr afe) v) h = ((0, "", ""), h') /\
    (forall a, tap h' a = tap h a) /\ (forall a, slip h' a = if a =? afe then v else slip h a);
  trigger_law h : exists h',
    devmem (write_args FRONTEND_TRIGGER TRIG_MAGIC) h = ((0, "", ""), h') /\
    (forall a, tap h' a = tap h a) /\ (forall a, slip h' a = slip h a) /\
    (forall a, 0 <= a < 5 -> spied h' a = fclk a (tap h a) (slip h a));
  spy_law h afe : 0 <= afe < 5 -> exists out,
    devmem (read_args (spy_addr afe)) h = ((0, out, ""), h) /\
    parse_word (strip out) = Ok (spied h afe) }.

Section aligning.
Context {H : Type} `{Registers H}.
Abbreviation Wh := (hworld H).

(** [w'] has the taps [t] and bitslips [s]. *)
Definition holds (t s : Z -> Z) (w : Wh) : Prop :=
  (forall a, tap (hw w) a = t a) /\ (forall a, slip (hw w) a = s a).

Definition set (f : Z -> Z) (k v : Z) : Z -> Z := fun a => if a =? k then v else f a.

(** From taps [t] and bitslips [s], [m] ends normally with [Q]'s value, taps and bitslips. *)
Definition does {A : Type} (t s : Z -> Z) (m : M Wh A) (Q : A -> (Z -> Z) -> (Z -> Z) -> Prop) : Prop :=
  forall w, holds t s w -> exists a w' t' s', m w = (Ok a, w') /\ holds t' s' w' /\ Q a t' s'.

Lemma align_bind {A C : Type} t s (m : M Wh A) (k : A -> M Wh C) Q R :
  does t s m Q -> (forall a t' s', Q a t' s' -> does t' s' (k a) R) -> does t s (bind m k) R.
Proof using Type.
  intros Hm Hk w Hw. destruct (Hm w Hw) as (a & w1 & t1 & s1 & Hr & Hw1 & HQ).
  rewrite (bind_run _ _ _ _ _ Hr). by apply (Hk a t1 s1).
Qed.

Lemma align_ret {A : Type} t s (a : A) (Q : A -> _ -> _ -> Prop) : Q a t s -> does t s (ret a) Q.
Proof using Type. intros HQ w Hw. by exists a, w, t, s. Qed.

Lemma does_print t s text : does t s (print text) (fun _ t' s' => t' = t /\ s' = s).
Proof using Type. intros w Hw. by exists tt, (HW (hw w) (printed w ++ [text])), t, s. Qed.

Lemma does_write t s addr v desc t' s' :
  (forall h, (forall a, tap h a = t a) -> (forall a, slip h a = s a) -> exists h',
     devmem (write_args addr v) h = ((0, "", ""), h') /\
     (forall a, tap h' a = t' a) /\ (forall a, slip h' a = s' a)) ->
  does t s (write32 addr v desc) (fun _ t2 s2 => t2 = t' /\ s2 = s').
Proof using Type.
  intros Hl w [Ht Hs]. destruct (Hl (hw w) Ht Hs) as (h' & Hd & Ht' & Hs').
  exists tt, (HW h' (printed w)), t', s'. split; [|done].
  unfold write32, bind, run. by rewrite Hd.
Qed.

Lemma does_ctrl t s v desc :
  v ∈ [0; 1; 2; 4] -> does t s (write32 FRONTEND_CTRL v desc) (fun _ t' s' => t' = t /\ s' = s).
Proof using Type.
  intros Hv. apply does_write. intros h Ht Hs. destruct (ctrl_law h v Hv) as (h' & Hd & Ht' & Hs').
  exists h'. split_and!; [done| |]; intros a; congruence.
Qed.

Lemma does_tap t s afe v desc :
  0 <= afe < 5 -> 0 <= v < 512 ->
  does t s (write32 (tap_addr afe) v desc) (fun _ t' s' => t' = set t afe v /\ s' = s).
Proof using Type.
  intros Ha Hv. apply does_write. intros h Ht Hs.
  destruct (tap_law h afe v Ha Hv) as (h' & Hd & Ht' & Hs').
  exists h'. split_and!; [done| |]; intros a; [|congruence].
  rewrite Ht'. unfold set. by destruct (a =? afe).
Qed.

Lemma does_slip t s afe v desc :
  0 <= afe < 5 -> 0 <= v < 16 ->
  does t s (write32 (bitslip_addr afe) v desc) (fun _ t' s' => t' = t /\ s' = set s afe v).
Proof using Type.
  intros Ha Hv. apply does_write. intros h Ht Hs.
  destruct (slip_law h afe v Ha Hv) as (h' & Hd & Ht' & Hs').
  exists h'. split_and!; [done| |]; intros a; [congruence|].
  rewrite Hs'. unfold set. by destruct (a =? afe).
Qed.

Lemma does_fclk t s afe :
  0 <= afe < 5 ->
  does t s (read_fclk afe) (fun val t' s' => val = fclk afe (t afe) (s afe) /\ t' = t /\ s' = s).
Proof using Type.
  intros Ha w [Ht Hs]. destruct (trigger_law (hw w)) as (h' & Hd & Ht' & Hs' & Hspy).
  destruct (spy_law h' afe Ha) as (out & Hread & Hout).
  exists (fclk afe (t afe) (s afe)), (HW h' (printed w)), t, s. split_and!; try done.
  - unfold read_fclk, trigger_spy, write32, bind, run. rewrite Hd. cbn [hw printed Z.eqb].
    unfold ret, read32, bind, run. cbn [hw printed]. rewrite Hread. cbn [Z.eqb]. unfold lift.
    by rewrite Hout, Hspy, Ht, Hs.
  - split; intros a; [by rewrite <- Ht, <- Ht'|by rewrite <- Hs, <- Hs'].
Qed.

(** Every tap is scanned in turn. *)
Lemma does_scan t s afe l n sc :
  0 <= afe < 5 -> 0 <= n -> n + Z.of_nat (length l) <= 511 ->
  l = seqZ (n + 1) (Z.of_nat (length l)) -> scanned (fun i => fclk afe i (s afe)) n sc ->
  does t s (fold_m l (fun sc i =>
      write32 (tap_addr afe) i ("AFE" +:+ str_Z afe +:+ " TAP=" +:+ str_Z i) ;;;
      val <- read_fclk afe ;;
      ret (scan_step sc i val)) sc)
    (fun sc' t' s' => scanned (fun i => fclk afe i (s afe)) (n + Z.of_nat (length l)) sc' /\
                      (forall a, a <> afe -> t' a = t a) /\ s' = s).
Proof using Type.
  intros Ha. revert t n sc. induction l as [|i l IH]; intros t n sc Hn Hlen Hl Hsc.
  - apply align_ret. rewrite Z.add_0_r. done.
  - cbn [length] in Hl, Hlen |- *. rewrite (seqZ_cons (n + 1)) in Hl by lia. injection Hl as Hi Hl.
    cbn [fold_m]. eapply align_bind.
    + eapply align_bind; [apply does_tap; lia|]. intros _ t1 s1 [-> ->].
      eapply align_bind; [by apply does_fclk|]. intros val t1 s1 (-> & -> & ->).
      apply (align_ret _ _ _ (fun sc' t' s' => sc' = scan_step sc i (fclk afe i (s afe)) /\
        t' = set t afe i /\ s' = s)).
      split; [|done]. unfold set. by rewrite Z.eqb_refl.
    + intros sc1 t1 s1 (-> & -> & ->). subst i.
      intros w Hw. destruct (IH (set t afe (n + 1)) (n + 1) (scan_step sc (n + 1) (fclk afe (n + 1) (s afe))))
        with (w := w) as (a & w' & t' & s' & Hr & Hh & Hs1 & Ht1 & ->); [lia|lia| | |done|].
      * etransitivity; [exact Hl|]. f_equal; lia.
      * by apply (scanned_step (fun i => fclk afe i (s afe))).
      * exists a, w', t', s. split; [exact Hr|]. split; [done|]. split_and!; [| |done].
        -- by replace (n + Z.of_nat (Datatypes.S (length l))) with (n + 1 + Z.of_nat (length l)) by lia.
        -- intros x Hx. rewrite Ht1 by done. unfold set. by rewrite (proj2 (Z.eqb_neq _ _) Hx).
Qed.

(** The hunt stops at the first bitslip that shows the pattern. *)
Lemma does_hunt t s afe js :
  0 <= afe < 5 -> Forall (fun j => 0 <= j < 16) js ->
  does t s (bitslip_hunt afe js) (fun found t' s' =>
    t' = t /\ (forall a, a <> afe -> s' a = s a) /\
    match found with
    | Some j => s' afe = j /\ fclk afe (t afe) j = WANT_PATTERN /\ j ∈ js /\
                exists pre post, js = pre ++ j :: post /\
                  Forall (fun i => fclk afe (t afe) i <> WANT_PATTERN) pre
    | None => Forall (fun i => fclk afe (t afe) i <> WANT_PATTERN) js
    end).
Proof using Type.
  intros Ha. revert s. induction js as [|j js IH]; intros s Hjs.
  { apply align_ret. split_and!; [done|done|constructor]. }
  inversion_clear Hjs as [|? ? Hj Hjs']. cbn [bitslip_hunt].
  eapply align_bind; [by apply does_slip|]. intros _ t1 s1 [-> ->].
  eapply align_bind; [by apply does_fclk|]. intros val t1 s1 (-> & -> & ->).
  eapply align_bind; [apply does_print|]. intros _ t1 s1 [-> ->].
  unfold set at 2. rewrite Z.eqb_refl.
  assert (Hother : forall a, a <> afe -> set s afe j a = s a)
    by (intros a Hne; unfold set; by rewrite (proj2 (Z.eqb_neq _ _) Hne)).
  destruct (Z.eqb_spec (fclk afe (t afe) j) WANT_PATTERN) as [He|Hne].
  - apply align_ret. split_and!; [done|done| |done|apply list_elem_of_here|].
    + unfold set. by rewrite Z.eqb_refl.
    + exists [], js. split; [done|constructor].
  - intros w Hw. destruct (IH (set s afe j) Hjs' w Hw)
      as (found & w' & t' & s' & Hr & Hh & -> & Hs' & Hf).
    exists found, w', t, s'. split; [exact Hr|]. split; [done|]. split_and!; [done| |].
    + intros a Hx. rewrite Hs' by done. by apply Hother.
    + destruct found as [k|]; [|by constructor].
      destruct Hf as (Hk & Hw' & Hin & pre & post & -> & Hpre).
      split_and!; [done|done|by apply list_elem_of_further|]. exists (j :: pre), post.
      split; [done|by constructor].
Qed.

Lemma seqZ_bounds n : Forall (fun j => 0 <= j < n) (seqZ 0 n).
Proof using Type. apply Forall_forall. intros x Hx. apply elem_of_seqZ in Hx. lia. Qed.

(** The alignment of one AFE. *)
Lemma does_align t s afe :
  0 <= afe < 5 ->
  does t s (align_one_afe afe) (fun '(mid, found) t' s' => exists win,
    best (fun i => fclk afe i (s afe)) 512 511 win /\
    mid = w_start win + (w_end win - w_start win) / 2 /\ 
    t' afe = mid /\ (forall a, a <> afe -> t' a = t a /\ s' a = s a) /\
    match found with
    | Some j => s' afe = j /\ fclk afe mid j = WANT_PATTERN /\
                exists pre post, seqZ 0 16 = pre ++ j :: post /\
                  Forall (fun i => fclk afe mid i <> WANT_PATTERN) pre
    | None => Forall (fun i => fclk afe mid i <> WANT_PATTERN) (seqZ 0 16)
    end).
Proof using Type.
  intros Ha. unfold align_one_afe. cbv zeta.
  eapply align_bind; [apply does_print|]. intros _ t1 s1 [-> ->].
  do 3 (eapply align_bind; [apply does_ctrl; reg_mem|]; intros _ t1 s1 [-> ->]).
  eapply align_bind; [apply does_tap; lia|]. intros _ t1 s1 [-> ->].
  eapply align_bind; [by apply does_fclk|]. intros base t1 s1 (-> & -> & ->).
  unfold set at 2. rewrite Z.eqb_refl. unfold scan_taps.
  eapply align_bind.
  { apply (does_scan _ _ afe (seqZ 1 511) 0); [done|lia|by rewrite length_seqZ|by rewrite length_seqZ|].
    apply (scanned_init (fun i => fclk afe i (s afe))). }
  intros sc t1 s1 (Hsc & Ht1 & ->). rewrite length_seqZ in Hsc. change (0 + Z.of_nat (Z.to_nat 511)) with 511 in Hsc.
  pose proof (close_best _ _ _ Hsc) as Hbest. set (win := close_run sc 511) in *.
  set (mid := w_start win + (w_end win - w_start win) / 2).
  assert (Hmid : 0 <= mid < 512).
  { destruct Hbest as [_ [Hb1 Hb2] [Hab _] _ _ _].
    pose proof (Z.div_pos (w_end win - w_start win) 2 ltac:(lia) ltac:(lia)).
    pose proof (Z.div_le_upper_bound (w_end win - w_start win) 2 (w_end win - w_start win)
      ltac:(lia) ltac:(lia)). lia. }
  eapply align_bind; [by apply does_tap|]. intros _ t2 s2 [-> ->].
  eapply align_bind; [apply does_print|]. intros _ t2 s2 [-> ->].
  do 2 (eapply align_bind; [apply does_ctrl; reg_mem|]; intros _ t2 s2 [-> ->]).
  eapply align_bind; [apply does_hunt; [done|apply seqZ_bounds]|].
  intros found t2 s2 (-> & Hs2 & Hf).
  eapply align_bind; [apply does_print|]. intros _ t3 s3 [-> ->].
  assert (Hset : set t1 afe mid afe = mid) by (unfold set; by rewrite Z.eqb_refl).
  rewrite Hset in Hf.
  apply align_ret. exists win. split_and!; [exact Hbest|done|done| |].
  - intros a Hne. split; [|by apply Hs2]. unfold set at 1. rewrite (proj2 (Z.eqb_neq _ _) Hne).
    rewrite Ht1 by done. unfold set. by rewrite (proj2 (Z.eqb_neq _ _) Hne).
  - destruct found as [j|]; [|done]. destruct Hf as (Hj & Hw & _ & Hpre). done.
Qed.

End aligning.

(** ** Properties *)

(** C11. [align_one_afe] on a board that behaves: it ends normally with the tap register of
    the AFE at the middle of the first of the longest windows of taps [0..511] over which the
    frame clock word does not change, and with the bitslip register at the first of the
    sixteen bitslips that shows the training pattern at that tap, if there is one; the
    registers of the other AFEs are not touched. *)
Theorem align_one_afe_correct {H : Type} `{Registers H} afe (w : hworld H) :
  0 <= afe < 5 ->
  exists mid found w' win, align_one_afe afe w = (Ok (mid, found), w') /\
    best (fun i => fclk afe i (slip (hw w) afe)) 512 511 win /\
    mid = w_start win + (w_end win - w_start win) / 2 /\ tap (hw w') afe = mid /\
    (forall a, a <> afe -> tap (hw w') a = tap (hw w) a /\ slip (hw w') a = slip (hw w) a) /\
    match found with
    | Some j => slip (hw w') afe = j /\ fclk afe mid j = WANT_PATTERN /\
                exists pre post, seqZ 0 16 = pre ++ j :: post /\
                  Forall (fun i => fclk afe mid i <> WANT_PATTERN) pre
    | None => Forall (fun i => fclk afe mid i <> WANT_PATTERN) (seqZ 0 16)
    end.
Proof.
  intros Ha. destruct (does_align (tap (hw w)) (slip (hw w)) afe Ha w)
    as ([mid found] & w' & t' & s' & Hr & [Ht Hs] & win & Hbest & Hmid & Htap & Hother & Hf); [done|].
  exists mid, found, w', win. split_and!; [done|done|done|by rewrite Ht| |].
  - intros a Hne. rewrite Ht, Hs. by apply Hother.
  - destruct found as [j|]; [|done]. by rewrite Hs.
Qed.

(** ** A simulated board *)

(** The words its frame clocks show. *)
Inductive sim_value : Type := Low | High | Trained | Shifted.

Definition value_of (v : sim_value) : Z :=
  match v with Low => 0 | High => 1 | Trained => WANT_PATTERN | Shifted => 0x0FF00FF0 end.

Record board : Type := Board { b_tap : Z -> Z; b_slip : Z -> Z; b_spy : Z -> sim_value }.

(** Unstable below tap 100 and from tap 300 on, and shifted by the bitslip in between. *)
Definition sim_word (afe tap slip : Z) : sim_value :=
  if (100 <=? tap) && (tap <? 300) then (if slip =? 5 then Trained else Shifted)
  else if Z.even tap then Low else High.

Definition afe_with (addr_of : Z -> Z) (text : string) : option Z :=
  find (fun a => bool_decide (hex8 (addr_of a) = text)) (seqZ 0 5).

Definition int16_or_0 (text : string) : Z := match int16 text with Ok v => v | Raise _ => 0 end.

#[export] Instance sim_path : OnPath := {| which_devmem := None |}.

#[export] Instance sim_devmem : Devmem board := {
  devmem args b :=
    match args with
    | [_; addr; _; value] =>
        let v := int16_or_0 value in
        if decide (addr = hex8 FRONTEND_TRIGGER) then
          ((0, "", ""), Board (b_tap b) (b_slip b) (fun a => sim_word a (b_tap b a) (b_slip b a)))
        else match afe_with tap_addr addr, afe_with bitslip_addr addr with
             | Some a, _ => ((0, "", ""), Board (set (b_tap b) a v) (b_slip b) (b_spy b))
             | None, Some a => ((0, "", ""), Board (b_tap b) (set (b_slip b) a v) (b_spy b))
             | None, None => ((0, "", ""), b)
             end
    | [_; addr; _] =>
        match afe_with spy_addr addr with
        | Some a => ((0, hex32 (value_of (b_spy b a)) +:+ nl, ""), b)
        | None => ((1, "", "bad address"), b)
        end
    | _ => ((1, "", "usage"), b)
    end }.

(** The five AFEs, one by one. *)
Lemma five (P : Z -> bool) afe : forallb P (seqZ 0 5) = true -> 0 <= afe < 5 -> P afe = true.
Proof.
  intros HP Ha. rewrite forallb_forall in HP. apply HP. apply list_elem_of_In, elem_of_seqZ. lia.
Qed.

Lemma hex_values v : 0 <= v < 512 -> int16_or_0 (hex0 v) = v.
Proof.
  intros Hv. apply Z.eqb_eq. revert v Hv.
  assert (Hall : forallb (fun v => int16_or_0 (hex0 v) =? v) (seqZ 0 512) = true)
    by (vm_compute; reflexivity).
  intros v Hv. rewrite forallb_forall in Hall. apply Hall. apply list_elem_of_In, elem_of_seqZ. lia.
Qed.

Definition finds (addr_of other : Z -> Z) (afe : Z) : bool :=
  bool_decide (afe_with addr_of (hex8 (addr_of afe)) = Some afe) &&
  bool_decide (afe_with other (hex8 (addr_of afe)) = None) &&
  bool_decide (hex8 (addr_of afe) <> hex8 FRONTEND_TRIGGER).

Lemma finds_afe addr_of other afe :
  forallb (finds addr_of other) (seqZ 0 5) = true -> 0 <= afe < 5 ->
  afe_with addr_of (hex8 (addr_of afe)) = Some afe /\
  afe_with other (hex8 (addr_of afe)) = None /\ hex8 (addr_of afe) <> hex8 FRONTEND_TRIGGER.
Proof.
  intros Hall Ha. pose proof (five _ _ Hall Ha) as Hf. unfold finds in Hf. by bool_to_prop.
Qed.

#[export] Instance sim_registers : Registers board.
Proof.
  refine (Build_Registers board sim_path sim_devmem b_tap b_slip (fun b a => value_of (b_spy b a))
    (fun a t s => value_of (sim_word a t s)) _ _ _ _ _).
  - intros b v _. by eexists.
  - intros b afe v Ha Hv.
    destruct (finds_afe tap_addr bitslip_addr afe) as (H1 & H2 & H3); [vm_compute; reflexivity|done|].
    eexists. unfold devmem, sim_devmem, write_args. rewrite decide_False, H1 by done.
    split; [done|]. split; [|done]. intros a. cbn [b_tap]. unfold set. by rewrite hex_values.
  - intros b afe v Ha Hv.
    destruct (finds_afe bitslip_addr tap_addr afe) as (H1 & H2 & H3); [vm_compute; reflexivity|done|].
    eexists. unfold devmem, sim_devmem, write_args. rewrite decide_False, H1, H2 by done.
    split; [done|]. split; [done|]. intros a. cbn [b_slip]. unfold set. by rewrite hex_values by lia.
  - intros b. eexists. unfold devmem, sim_devmem, write_args. rewrite decide_True by done. done.
  - intros b afe Ha.
    destruct (finds_afe spy_addr tap_addr afe) as (H1 & _ & _); [vm_compute; reflexivity|done|].
    exists (hex32 (value_of (b_spy b afe)) +:+ nl). unfold devmem, sim_devmem, read_args. rewrite H1.
    split; [done|]. destruct (b_spy b afe); vm_compute; reflexivity.
Defined.

Lemma align_one_afe_correct_witness :
  let w := HW (Board (fun _ => 0) (fun _ => 0) (fun _ => Low)) [] in
  exists (w' : hworld board) (win : window), align_one_afe 2 w = (Ok (199, Some 5), w') /\
    best (fun i => fclk 2 i 0) 512 511 win /\ tap (hw w') 2 = 199 /\ slip (hw w') 2 = 5.
Proof.
  intros w. destruct (align_one_afe_correct 2 w) as (mid & found & w' & win & Hr & Hb & _ & Ht & _ & Hf);
    [lia|].
  assert (Hv : fst (align_one_afe 2 w) = Ok (199, Some 5)) by (vm_compute; reflexivity).
  rewrite Hr in Hv. injection Hv as -> ->. exists w', win. split; [exact Hr|].
  split; [exact Hb|]. split; [exact Ht|]. exact (proj1 Hf).
Defined.
