(* ===== verification/OscAcq.v ===== *)
(** [client/osc.py]: the acquisition worker and the disk writer of the oscilloscope.

    The two run in threads of their own and share a bounded queue, the error text of the
    writer and the stop event.  Each operation of the code is a function on the state; the
    relation [step] interleaves them in any order.  The spectrum and the plots do not touch
    this state and are in [OscSpectrum] and [OscApp]; here a reply carries whether [_update_fft]
    raises on it, which loses the frame ([OscSpectrum.fft_accepts_frames] says that frames of the
    requested size raise nothing).  Time is abstract: a wait may end at any step, but for the order
    of the closing stated at [step]. *)
From S2P Require Import Prelude PyStr EnvelopeV2 SpyAcquire.

(** One waveform per channel. *)
Abbreviation frame := (list (list Z)).

(** An element of the queue. *)
Inductive item : Type :=
  | Frame (f : frame)
  | Sentinel.

(** The parameters of the writer and of the worker. *)
Record osc_config : Type := {
  o_channels : list Z; o_append : bool; o_queue_frames : Z; o_flush_every : Z;
  o_max_waveforms : Z; o_endpoint : string }.

Definition maxsize (c : osc_config) : Z := Z.max 1 (o_queue_frames c).
Definition flush_every (c : osc_config) : Z := Z.max 1 (o_flush_every c).
Definition max_waveforms (c : osc_config) : Z := Z.max 0 (o_max_waveforms c).

(** ** [WaveformDiskWriter] *)

(** The thread: the files by channel, its counters; [popped] and [taken] are the history of
    the frames it took off the queue and of those it wrote completely. *)
Record writer : Type := Writer {
  alive : bool; ready : bool; w_error : string; disk : gmap Z (list Z);
  written_frames : Z; bytes_written : Z; flushed_frames : Z;
  popped : list frame; taken : list frame }.

(** [run], the opening of the files; [Some text] when it raises. *)
Definition writer_open (c : osc_config) (fault : option string) (w : writer) : writer :=
  match fault with
  | Some text => Writer false true ("writer init failed: " +:+ text) (disk w) 0 0 0 [] []
  | None =>
      Writer true true "" (foldr (fun ch d =>
        if o_append c then <[ch := default [] (disk w !! ch)]> d else <[ch := []]> d)
        (disk w) (o_channels c)) 0 0 0 [] []
  end.

(** The rows of a frame, channel by channel; a fault stops before the channel it names. *)
Fixpoint write_rows (fault : option nat) (chs : list Z) (rows : frame) (d : gmap Z (list Z))
    (bytes : Z) : gmap Z (list Z) * Z * bool :=
  match chs, rows with
  | ch :: chs', r :: rows' =>
      match fault with
      | Some O => (d, bytes, false)
      | _ => write_rows (Nat.pred <$> fault) chs' rows'
               (<[ch := default [] (d !! ch) ++ to_u16 r]> d) (bytes + 2 * Z.of_nat (length r))
      end
  | _, _ => (d, bytes, true)
  end.

(** The end of [run]: every handle is flushed and closed. *)
Definition writer_close (w : writer) : writer :=
  Writer false (ready w) (w_error w) (disk w) (written_frames w) (bytes_written w)
         (written_frames w) (popped w) (taken w).

Definition writer_fail (text : string) (w : writer) : writer :=
  writer_close (Writer (alive w) (ready w) ("writer runtime failed: " +:+ text) (disk w)
    (written_frames w) (bytes_written w) (flushed_frames w) (popped w) (taken w)).

(** One turn of the loop of [run]. *)
Definition writer_turn (c : osc_config) (fault : option nat) (it : item) (w : writer) : writer :=
  match it with
  | Sentinel => writer_close w
  | Frame f =>
      let w0 := Writer (alive w) (ready w) (w_error w) (disk w) (written_frames w)
                       (bytes_written w) (flushed_frames w) (popped w ++ [f]) (taken w) in
      if negb (Nat.eqb (length f) (length (o_channels c))) then
        writer_fail ("Invalid frame shape, expected ("
                     +:+ str_Z (Z.of_nat (length (o_channels c))) +:+ ", N)") w0
      else
        let '(d, bytes, ok) := write_rows fault (o_channels c) f (disk w) 0 in
        if ok : bool then
          let written := written_frames w + 1 in
          Writer (alive w) (ready w) (w_error w) d written (bytes_written w + bytes)
            (if written mod flush_every c =? 0 then written else flushed_frames w)
            (popped w ++ [f]) (taken w ++ [f])
        else writer_fail "write error"
               (Writer (alive w) (ready w) (w_error w) d (written_frames w) (bytes_written w)
                       (flushed_frames w) (popped w ++ [f]) (taken w))
  end.

(** ** The state of both threads *)

(** How far [_cleanup] is: the stop of the worker requested; its thread waited for; the sentinel
    put, not needed because the writer had ended, or given up because the queue stayed full. *)
Inductive phase : Type :=
  | Opened
  | StopRequested
  | WorkerWaited
  | SentinelPut
  | WriterGone
  | StopTimedOut.

#[global] Instance phase_eq_dec : EqDecision phase.
Proof. solve_decision. Defined.

(** The worker: [pushing] is the frame in [_push_save_frame], [putting] that its [put] is under way.
    [arrived] is the history of the frames it counted, each with whether its spectrum raised;
    [unsaved] that of the frames it gave up saving. *)
Record ostate : Type := OState {
  q : list item; wr : writer;
  attached : bool; stop_evt : bool; busy : bool; pushing : option frame; putting : bool;
  frames_acquired : Z; timeouts : Z; save_backpressure : Z; link_open : bool; timer_on : bool;
  finished : bool; closing : phase; statuses : list string;
  arrived : list (frame * bool); unsaved : list frame }.

(** The window was closed. *)
Definition asked (s : ostate) : bool := negb (bool_decide (closing s = Opened)).

Definition full (c : osc_config) (s : ostate) : bool := maxsize c <=? Z.of_nat (length (q s)).

Definition with_writer (s : ostate) (qu : list item) (w : writer) : ostate :=
  OState qu w (attached s) (stop_evt s) (busy s) (pushing s) (putting s) (frames_acquired s)
    (timeouts s) (save_backpressure s) (link_open s) (timer_on s) (finished s) (closing s)
    (statuses s) (arrived s) (unsaved s).

(** ** [AcquisitionWorker] *)

(** What a request and the decoding of its reply came to; with a reply, what [_update_fft] raised
    if it did. *)
Inductive outcome : Type :=
  | Interrupted
  | NoReply
  | Failed (text : string)
  | WrongType (t : Z)
  | Replied (resp : DumpSpyBuffersResponse) (spectrum_fault : option exn).

(** [parse_dump_response] and [y_all[0]]. *)
Definition first_frame (resp : DumpSpyBuffersResponse) : result frame :=
  '(y, (w, k, n)) <-! parse_dump_response resp ;;
  Ok ((fun j => row y k n 0 j) <$> seqZ 0 k).

(** The end of a turn of [_poll_once]: the link closed or not, a count of time-outs, a text. *)
Definition end_turn (s : ostate) (close : bool) (missed : Z) (text : list string) : ostate :=
  OState (q s) (wr s) (attached s) (stop_evt s) false (pushing s) (putting s) (frames_acquired s)
    (timeouts s + missed) (save_backpressure s) (if close then false else link_open s) (timer_on s)
    (finished s) (closing s) (statuses s ++ text) (arrived s) (unsaved s).

(** After the push: [_finish_acquisition] when enough waveforms were acquired. *)
Definition after_push (c : osc_config) (s : ostate) : ostate :=
  if (0 <? max_waveforms c) && (max_waveforms c <=? frames_acquired s) then
    OState (q s) (wr s) (attached s) true false None false (frames_acquired s) (timeouts s)
      (save_backpressure s) (link_open s) false true (closing s)
      (statuses s ++ ["[done] acquired " +:+ str_Z (frames_acquired s) +:+ " waveforms"])
      (arrived s) (unsaved s)
  else
    OState (q s) (wr s) (attached s) (stop_evt s) false None false (frames_acquired s) (timeouts s)
      (save_backpressure s) (link_open s) (timer_on s) (finished s) (closing s) (statuses s)
      (arrived s) (unsaved s).

(** A frame was acquired: it is counted.  When its spectrum raises, the turn ends there: the frame
    is neither saved nor compared with the number of waveforms asked for.  Else it is pushed, if
    there is a queue. *)
Definition got_frame (c : osc_config) (s : ostate) (y : frame) (spectrum_fault : option exn)
    : ostate :=
  let counted push lost :=
    OState (q s) (wr s) (attached s) (stop_evt s) true push false
      (frames_acquired s + 1) (timeouts s) (save_backpressure s) (link_open s) (timer_on s)
      (finished s) (closing s) (statuses s)
      (arrived s ++ [(y, bool_decide (is_Some spectrum_fault))]) (unsaved s ++ lost) in
  match spectrum_fault with
  | Some ex => end_turn (counted None []) true 0 ["[acquisition error] " +:+ exn_text ex]
  | None => if attached s then counted (Some y) [] else after_push c (counted None [y])
  end.

(** [_poll_once], up to the push; it does nothing when busy or stopped. *)
Definition poll_once (c : osc_config) (o : outcome) (s : ostate) : ostate :=
  if busy s || stop_evt s then s
  else
    let s := OState (q s) (wr s) (attached s) (stop_evt s) true (pushing s) (putting s)
               (frames_acquired s) (timeouts s) (save_backpressure s) true (timer_on s) (finished s)
               (closing s)
               (statuses s ++ (if link_open s then [] else ["Connected to " +:+ o_endpoint c]))
               (arrived s) (unsaved s) in
    match o with
    | Interrupted => end_turn s false 0 []
    | NoReply => end_turn s true 1 ["[timeout] No response"]
    | Failed text => end_turn s true 0 ["[acquisition error] " +:+ text]
    | WrongType t => end_turn s true 0 ["[acquisition error] Unexpected V2 type " +:+ str_Z t]
    | Replied resp spectrum_fault =>
        if negb (dr_success resp) then end_turn s false 0 ["[server] " +:+ dr_message resp]
        else match first_frame resp with
             | Raise e => end_turn s true 0 ["[acquisition error] " +:+ exn_text e]
             | Ok y => got_frame c s y spectrum_fault
             end
    end.

(** The pushed frame is given up or handed over. *)
Definition release (s : ostate) (qu : list item) (keep_queue : bool) (lost : list frame)
    (text : list string) : ostate :=
  OState qu (wr s) (keep_queue && attached s) (stop_evt s) (busy s) None false (frames_acquired s)
    (timeouts s) (save_backpressure s) (link_open s) (timer_on s) (finished s) (closing s)
    (statuses s ++ text) (arrived s) (unsaved s ++ lost).

(** The test at the head of the loop of [_push_save_frame]. *)
Definition push_test (c : osc_config) (f : frame) (s : ostate) : ostate :=
  if stop_evt s then after_push c (release s (q s) true [f] [])
  else
    OState (q s) (wr s) (attached s) (stop_evt s) (busy s) (pushing s) true (frames_acquired s)
      (timeouts s) (save_backpressure s) (link_open s) (timer_on s) (finished s) (closing s)
      (statuses s) (arrived s) (unsaved s).

(** The rest of the turn: the [put] succeeds, or finds the queue full until its time is out. *)
Definition push_put (c : osc_config) (f : frame) (s : ostate) : ostate :=
  if negb (full c s) then after_push c (release s (q s ++ [Frame f]) true [] [])
  else if negb (bool_decide (w_error (wr s) = "")) then
    after_push c (release s (q s) false [f] ["[writer disabled] " +:+ w_error (wr s)])
  else
    let n := save_backpressure s + 1 in
    OState (q s) (wr s) (attached s) (stop_evt s) (busy s) (pushing s) false (frames_acquired s)
      (timeouts s) n (link_open s) (timer_on s) (finished s) (closing s)
      (statuses s ++ (if n mod 20 =? 0 then ["[writer backlog] waiting for disk queue"] else []))
      (arrived s) (unsaved s).

Definition push_turn (c : osc_config) (f : frame) (s : ostate) : ostate :=
  if putting s then push_put c f s else push_test c f s.

(** [_cleanup]: [request_stop]; [stop], in the thread of the worker; the wait for that thread; and
    [WaveformDiskWriter.stop], which puts the sentinel once there is room. *)
Definition with_closing (s : ostate) (stopped : bool) (p : phase) : ostate :=
  OState (q s) (wr s) (attached s) stopped (busy s) (pushing s) (putting s) (frames_acquired s)
    (timeouts s) (save_backpressure s) (link_open s) (timer_on s) (finished s) p (statuses s)
    (arrived s) (unsaved s).

Definition request_stop (s : ostate) : ostate := with_closing s true StopRequested.

Definition worker_stop (s : ostate) : ostate :=
  OState (q s) (wr s) (attached s) true (busy s) (pushing s) (putting s) (frames_acquired s)
    (timeouts s) (save_backpressure s) false false (finished s) (closing s) (statuses s) (arrived s)
    (unsaved s).

Definition worker_waited (s : ostate) : ostate := with_closing s (stop_evt s) WorkerWaited.

Definition writer_stop (c : osc_config) (seen_alive : bool) (s : ostate) : ostate :=
  if negb seen_alive then with_closing s (stop_evt s) WriterGone
  else if full c s then with_closing s (stop_evt s) StopTimedOut
  else with_closing (with_writer s (q s ++ [Sentinel]) (wr s)) (stop_evt s) SentinelPut.

(** ** Interleaving *)

(** The wait for the worker's thread lasts up to three seconds, a [put] at most a twentieth of one:
    no push is under way any more when it ends.  The writer may end after [stop] saw it alive. *)
Inductive step (c : osc_config) : ostate -> ostate -> Prop :=
  | step_open s fault :
      ready (wr s) = false -> step c s (with_writer s (q s) (writer_open c fault (wr s)))
  | step_write s fault it q' :
      ready (wr s) = true -> alive (wr s) = true -> q s = it :: q' ->
      step c s (with_writer s q' (writer_turn c fault it (wr s)))
  | step_poll s o :
      timer_on s = true -> pushing s = None -> step c s (poll_once c o s)
  | step_push s f :
      pushing s = Some f -> step c s (push_turn c f s)
  | step_request_stop s : closing s = Opened -> step c s (request_stop s)
  | step_worker_stop s : asked s = true -> pushing s = None -> step c s (worker_stop s)
  | step_worker_waited s :
      closing s = StopRequested -> pushing s = None -> step c s (worker_waited s)
  | step_writer_stop s seen_alive :
      closing s = WorkerWaited -> (alive (wr s) = true -> seen_alive = true) ->
      step c s (writer_stop c seen_alive s).

(** The state when acquisition starts; [saving]: a folder was given. *)
Definition start (saving : bool) (d : gmap Z (list Z)) : ostate :=
  OState [] (Writer true false "" d 0 0 0 [] []) saving false false None false 0 0 0 false true false
         Opened [] [] [].

(** ** Lemmas: the writer *)

Definition base_of (c : osc_config) (d : gmap Z (list Z)) (ch : Z) : list Z :=
  if o_append c then default [] (d !! ch) else [].

(** The samples of the [j]-th channel in a list of frames. *)
Definition samples (fs : list frame) (j : nat) : list Z :=
  mjoin ((fun f => to_u16 (default [] (f !! j))) <$> fs).

Lemma samples_snoc fs f j : samples (fs ++ [f]) j = samples fs j ++ to_u16 (default [] (f !! j)).
Proof.
  unfold samples. rewrite fmap_app. cbn [fmap list_fmap].
  induction ((fun f => to_u16 (default [] (f !! j))) <$> fs) as [|x l IH].
  - cbn [app]. rewrite join_cons. cbn. by rewrite app_nil_r.
  - cbn [app]. by rewrite !join_cons, IH, app_assoc.
Qed.

(** What [writer_turn] keeps true of the thread while no error is reported. *)
Record writer_ok (c : osc_config) (d0 : gmap Z (list Z)) (w : writer) : Prop := {
  wo_popped : popped w = taken w;
  wo_written : written_frames w = Z.of_nat (length (taken w));
  wo_flushed : 0 <= flushed_frames w <= written_frames w;
  wo_recent : written_frames w - flushed_frames w < flush_every c;
  wo_aligned : alive w = true -> flushed_frames w mod flush_every c = 0;
  wo_closed : alive w = false -> flushed_frames w = written_frames w;
  wo_unopened : ready w = false -> taken w = [] /\ disk w = d0;
  wo_disk : ready w = true -> forall j ch, o_channels c !! j = Some ch ->
    disk w !! ch = Some (base_of c d0 ch ++ samples (taken w) j) }.

Definition writer_inv (c : osc_config) (d0 : gmap Z (list Z)) (w : writer) : Prop :=
  taken w `prefix_of` popped w /\
  (w_error w = "" -> writer_ok c d0 w) /\ (w_error w <> "" -> alive w = false /\ ready w = true).

Lemma flush_pos c : 0 < flush_every c.
Proof. unfold flush_every. lia. Qed.

Lemma open_disk (c : osc_config) (d : gmap Z (list Z)) chs ch :
  ch ∈ chs ->
  foldr (fun ch0 d1 => if o_append c then <[ch0 := default [] (d !! ch0)]> d1 else <[ch0 := []]> d1) d chs
    !! ch = Some (base_of c d ch).
Proof.
  unfold base_of. induction chs as [|x chs IH]; intros Hin; [by apply not_elem_of_nil in Hin|].
  cbn [foldr]. destruct (decide (x = ch)) as [->|Hne].
  - destruct (o_append c); by rewrite lookup_insert_eq.
  - apply elem_of_cons in Hin as [->|Hin]; [done|].
    destruct (o_append c); rewrite lookup_insert_ne by done; by apply IH.
Qed.

Lemma writer_open_inv c d0 fault w :
  writer_inv c d0 w -> w_error w = "" -> ready w = false -> writer_inv c d0 (writer_open c fault w).
Proof.
  intros (_ & Hok & _) He Hr. destruct (Hok He) as [_ _ _ _ _ _ Hun _].
  destruct (Hun Hr) as [_ Hd]. pose proof (flush_pos c).
  destruct fault as [text|]; cbn; (split; [done|split; [|done]]); [done|].
  intros _. split; cbn; [done|done|lia|lia|by rewrite Z.mod_0_l by lia|done|done|].
  intros _ j ch Hj. rewrite Hd, open_disk by (by eapply list_elem_of_lookup_2).
  unfold samples. cbn. by rewrite app_nil_r.
Qed.

(** A frame of the right shape that is written without a fault. *)
Lemma write_rows_ok fault chs rows d bytes d' bytes' :
  NoDup chs -> write_rows fault chs rows d bytes = (d', bytes', true) ->
  length rows = length chs ->
  (forall j ch, chs !! j = Some ch ->
     d' !! ch = Some (default [] (d !! ch) ++ to_u16 (default [] (rows !! j)))) /\
  (forall ch, ch ∉ chs -> d' !! ch = d !! ch).
Proof.
  intros Hnd. revert fault rows d bytes. induction Hnd as [|c0 chs Hc Hnd IH];
    intros fault rows d bytes Hw Hlen.
  - destruct rows; [|done]. cbn in Hw. injection Hw as <- <-. by split.
  - destruct rows as [|r rows]; [done|]. cbn [write_rows] in Hw.
    assert (Hw' : write_rows (Nat.pred <$> fault) chs rows
      (<[c0 := default [] (d !! c0) ++ to_u16 r]> d) (bytes + 2 * Z.of_nat (length r)) = (d', bytes', true))
      by (destruct fault as [[|k]|]; [done|exact Hw|exact Hw]).
    apply IH in Hw' as [Hs Ho]; [|by injection Hlen]. split.
    + intros [|j] ch Hj; cbn in Hj.
      * injection Hj as ->. rewrite Ho by done. by rewrite lookup_insert_eq.
      * rewrite (Hs j ch Hj). rewrite lookup_insert_ne; [done|].
        intros ->. apply Hc. by eapply list_elem_of_lookup_2.
    + intros ch Hch. apply not_elem_of_cons in Hch as [Hne Hch]. rewrite Ho by done.
      by rewrite lookup_insert_ne.
Qed.

Lemma writer_fail_inv c d0 text w :
  taken w `prefix_of` popped w -> ready w = true -> writer_inv c d0 (writer_fail text w).
Proof. intros Hp Hr. by split_and!. Qed.

Lemma flush_turn c f w :
  0 <= f <= w -> w - f < flush_every c ->
  let f' := if (w + 1) mod flush_every c =? 0 then w + 1 else f in
  f mod flush_every c = 0 ->
  0 <= f' <= w + 1 /\ w + 1 - f' < flush_every c /\ f' mod flush_every c = 0.
Proof.
  intros Hf Hr f' Hm. unfold f'. pose proof (flush_pos c) as Hp.
  destruct (Z.eqb_spec ((w + 1) mod flush_every c) 0) as [He|Hne]; [split_and!; lia|].
  split_and!; [lia|lia| |done].
  destruct (Z.eq_dec (w + 1 - f) (flush_every c)) as [Heq|]; [|lia].
  exfalso. apply Hne. replace (w + 1) with (f + 1 * flush_every c) by lia.
  by rewrite Z.mod_add by lia.
Qed.

Lemma writer_turn_inv c d0 fault it w :
  NoDup (o_channels c) -> writer_inv c d0 w -> w_error w = "" -> ready w = true -> alive w = true ->
  writer_inv c d0 (writer_turn c fault it w).
Proof.
  intros Hnd (Hp & Hok & _) He Hr Ha. destruct (Hok He) as [Hpop Hwr Hfl Hrec Hal Hcls Hun Hd].
  destruct it as [f|].
  2:{ split; [done|split; [|done]]. intros _. split; cbn; try done; [lia|pose proof (flush_pos c); lia]. }
  cbn [writer_turn].
  assert (Hpre : taken w `prefix_of` popped w ++ [f]) by (by apply prefix_app_r).
  destruct (Nat.eqb_spec (length f) (length (o_channels c))) as [Hlen|]; cbn [negb];
    [|by apply writer_fail_inv].
  destruct (write_rows fault (o_channels c) f (disk w) 0) as [[d bytes] ok] eqn:Hrows.
  destruct ok; [|by apply writer_fail_inv].
  destruct (write_rows_ok fault (o_channels c) f (disk w) 0 d bytes Hnd Hrows Hlen) as [Hs _].
  destruct (flush_turn c (flushed_frames w) (written_frames w) Hfl Hrec (Hal Ha)) as (Hf1 & Hf2 & Hf3).
  split; [cbn; by rewrite Hpop|]. split; [|done]. intros _.
  split; cbn [taken popped written_frames flushed_frames alive ready disk].
  - by rewrite Hpop.
  - rewrite Hwr, length_app. cbn. lia.
  - exact Hf1.
  - exact Hf2.
  - intros _. exact Hf3.
  - congruence.
  - congruence.
  - intros _ j ch Hj. rewrite (Hs j ch Hj), (Hd Hr j ch Hj), samples_snoc.
    cbn [default]. by rewrite app_assoc.
Qed.

(** ** Lemmas: both threads *)

Definition frames_of (l : list item) : list frame :=
  l ≫= fun it => match it with Frame f => [f] | Sentinel => [] end.

Lemma frames_of_snoc l it :
  frames_of (l ++ [it]) = frames_of l ++ match it with Frame f => [f] | Sentinel => [] end.
Proof. unfold frames_of. rewrite bind_app. cbn. by rewrite app_nil_r. Qed.

Definition pending (s : ostate) : list frame := option_list (pushing s).

(** The frames whose spectrum did not raise, and the number of the others. *)
Definition kept (s : ostate) : list frame := (filter (fun x => x.2 = false) (arrived s)).*1.

Definition raised (s : ostate) : Z := Z.of_nat (length (filter (fun x => x.2 = true) (arrived s))).

Arguments kept : simpl never.
Arguments frames_of : simpl never.

Definition sentinel_if (b : bool) : list item := if b then [Sentinel] else [].

Record osc_inv (c : osc_config) (d0 : gmap Z (list Z)) (saving : bool) (s : ostate) : Prop := {
  oi_writer : writer_inv c d0 (wr s);
  oi_ready : ready (wr s) = false -> alive (wr s) = true;
  oi_room : Z.of_nat (length (q s)) <= maxsize c;
  oi_frames : kept s = popped (wr s) ++ frames_of (q s) ++ pending s ++ unsaved s;
  oi_count : frames_acquired s = Z.of_nat (length (arrived s));
  oi_push : is_Some (pushing s) -> unsaved s = [] /\ attached s = true /\ busy s = true;
  oi_put : putting s = true -> is_Some (pushing s);
  oi_lost : attached s = true -> unsaved s <> [] ->
    stop_evt s = true /\ asked s = true /\ length (unsaved s) = 1%nat;
  oi_attached : attached s = true \/ saving = false \/ w_error (wr s) <> "";
  oi_stop : stop_evt s = true -> is_Some (pushing s) -> asked s = true;
  oi_asked : asked s = true -> stop_evt s = true;
  oi_waited : pushing s = None \/ closing s = Opened \/ closing s = StopRequested;
  oi_sentinel : exists b, q s = (Frame <$> frames_of (q s)) ++ sentinel_if b /\
    (b = true -> closing s = SentinelPut) /\
    (closing s = SentinelPut -> alive (wr s) = true -> b = true);
  oi_ended : alive (wr s) = false -> w_error (wr s) = "" -> q s = [] /\ closing s = SentinelPut;
  oi_gone : closing s = WriterGone -> alive (wr s) = false;
  oi_max : 0 < max_waveforms c -> Z.of_nat (length (kept s)) <= max_waveforms c;
  oi_more : 0 < max_waveforms c -> stop_evt s = false -> pushing s = None ->
    Z.of_nat (length (kept s)) < max_waveforms c }.

Lemma start_inv c saving d : osc_inv c d saving (start saving d).
Proof.
  pose proof (flush_pos c).
  split; cbn; try done; try lia; try (by intros [? ?]); try (by left).
  - unfold maxsize. lia.
  - destruct saving; auto.
  - by exists false.
  - change (kept (start saving d)) with (@nil frame). cbn. lia.
Qed.

Lemma kept_raised s : Z.of_nat (length (kept s)) + raised s = Z.of_nat (length (arrived s)).
Proof.
  unfold kept, raised. rewrite length_fmap. induction (arrived s) as [|[f []] l IH]; [done| |];
    rewrite !filter_cons; cbn [snd]; repeat case_decide; try done; cbn [length]; lia.
Qed.

Lemma kept_eq s t : arrived t = arrived s -> kept t = kept s.
Proof. intros Ht. unfold kept. by rewrite Ht. Qed.

Lemma kept_snoc l (y : frame) (b : bool) :
  (filter (fun x : frame * bool => x.2 = false) (l ++ [(y, b)])).*1
    = (filter (fun x : frame * bool => x.2 = false) l).*1 ++ (if b then [] else [y]).
Proof.
  rewrite filter_app, fmap_app. f_equal. rewrite filter_cons, filter_nil. cbn [snd].
  by destruct b; case_decide.
Qed.

Lemma asked_phase s : asked s = true <-> closing s <> Opened.
Proof. unfold asked. case_bool_decide; cbn; naive_solver. Qed.

Section steps.
Context (c : osc_config) (d0 : gmap Z (list Z)) (saving : bool).
Context (HND : NoDup (o_channels c)).

(** Steps of the writer. *)
Lemma popped_turn fault it w :
  popped (writer_turn c fault it w)
    = popped w ++ match it with Frame f => [f] | Sentinel => [] end.
Proof using Type.
  destruct it as [f|]; cbn [writer_turn]; [|by rewrite app_nil_r].
  destruct (negb _); [done|]. destruct (write_rows _ _ _ _ _) as [[d b] ok]. by destruct ok.
Qed.

Lemma ended_turn fault it w :
  w_error w = "" -> alive w = true -> alive (writer_turn c fault it w) = false ->
  w_error (writer_turn c fault it w) = "" -> it = Sentinel.
Proof using Type.
  destruct it as [f|]; [|done]. cbn [writer_turn]. intros He Ha.
  destruct (negb _); [done|]. destruct (write_rows _ _ _ _ _) as [[d b] ok]. destruct ok; [|done].
  cbn. congruence.
Qed.

Lemma ready_turn fault it w : ready (writer_turn c fault it w) = ready w.
Proof using Type.
  destruct it as [f|]; [|done]. cbn [writer_turn].
  destruct (negb _); [done|]. destruct (write_rows _ _ _ _ _) as [[d b] ok]. by destruct ok.
Qed.

Lemma inv_write s fault it q' :
  osc_inv c d0 saving s -> ready (wr s) = true -> alive (wr s) = true -> q s = it :: q' ->
  osc_inv c d0 saving (with_writer s q' (writer_turn c fault it (wr s))).
Proof using HND.
  intros [Hw Hrdy Hr Hf Hc Hp Hpu Hl Hat Hs Has Hwt Hsen Hend Hg Hm Hn] Hrd Hal Hq.
  assert (He : w_error (wr s) = "").
  { destruct (decide (w_error (wr s) = "")) as [|Hne]; [done|]. destruct Hw as (_ & _ & Hbad).
    destruct (Hbad Hne). congruence. }
  destruct Hsen as (b & Hqb & Hb1 & Hb2). rewrite Hq in Hqb.
  assert (Hfr : frames_of (q s) = match it with Frame f => [f] | Sentinel => [] end ++ frames_of q')
    by (rewrite Hq; done).
  assert (Htail : match it with
    | Frame _ => q' = (Frame <$> frames_of q') ++ sentinel_if b
    | Sentinel => q' = [] /\ b = true end).
  { rewrite <- Hq, Hfr in Hqb. rewrite Hq in Hqb. destruct it as [f|]; cbn in Hqb.
    - by injection Hqb.
    - destruct (frames_of q') as [|? ?]; cbn in Hqb; [|done]. destruct b; [|done]. by injection Hqb. }
  split; cbn; try done.
  - by apply writer_turn_inv.
  - rewrite ready_turn. congruence.
  - rewrite Hq in Hr. cbn in Hr. lia.
  - rewrite (kept_eq s) by done. rewrite Hf, popped_turn, Hfr. by rewrite <- !app_assoc.
  - destruct Hat as [?|[?|?]]; auto; done.
  - destruct it as [f|]; [exists b; auto|]. destruct Htail as [-> ->]. exists false.
    split; [done|]. split; [done|]. by cbn.
  - intros Hal' He'. rewrite (ended_turn fault it (wr s) He Hal Hal' He') in Htail.
    destruct Htail as [-> ->]. auto.
  - intros Hcl. by rewrite (Hg Hcl) in Hal.
Qed.

Lemma inv_open s fault :
  osc_inv c d0 saving s -> ready (wr s) = false ->
  osc_inv c d0 saving (with_writer s (q s) (writer_open c fault (wr s))).
Proof using Type.
  intros [Hw Hrdy Hr Hf Hc Hp Hpu Hl Hat Hs Has Hwt Hsen Hend Hg Hm Hn] Hrd.
  destruct (decide (w_error (wr s) = "")) as [He|He];
    [|destruct Hw as (_ & _ & Hbad); destruct (Hbad He); congruence].
  pose proof Hw as (_ & Hok & _).
  assert (Hpop : popped (writer_open c fault (wr s)) = popped (wr s)).
  { rewrite (wo_popped _ _ _ (Hok He)), (proj1 (wo_unopened _ _ _ (Hok He) Hrd)). by destruct fault. }
  split; cbn; try done.
  - by apply writer_open_inv.
  - by destruct fault.
  - change (kept s = popped (writer_open c fault (wr s)) ++ frames_of (q s) ++ pending s ++ unsaved s).
    by rewrite Hpop.
  - destruct Hat as [?|[?|?]]; auto; done.
  - destruct Hsen as (b & Hqb & Hb1 & Hb2). exists b. split; [done|]. split; [done|].
    intros Hcl _. destruct (alive (wr s)) eqn:Ha; [auto|].
    discriminate (Hrdy Hrd).
  - by destruct fault.
  - intros Hcl. by rewrite (Hrdy Hrd) in Hg; specialize (Hg Hcl).
Qed.

(** The end of a turn that kept a frame. *)
Lemma inv_after_push s :
  writer_inv c d0 (wr s) -> (ready (wr s) = false -> alive (wr s) = true) ->
  Z.of_nat (length (q s)) <= maxsize c ->
  kept s = popped (wr s) ++ frames_of (q s) ++ unsaved s ->
  frames_acquired s = Z.of_nat (length (arrived s)) ->
  (attached s = true -> unsaved s <> [] ->
     stop_evt s = true /\ asked s = true /\ length (unsaved s) = 1%nat) ->
  (attached s = true \/ saving = false \/ w_error (wr s) <> "") ->
  (asked s = true -> stop_evt s = true) ->
  (exists b, q s = (Frame <$> frames_of (q s)) ++ sentinel_if b /\
    (b = true -> closing s = SentinelPut) /\
    (closing s = SentinelPut -> alive (wr s) = true -> b = true)) ->
  (alive (wr s) = false -> w_error (wr s) = "" -> q s = [] /\ closing s = SentinelPut) ->
  (closing s = WriterGone -> alive (wr s) = false) ->
  (0 < max_waveforms c -> Z.of_nat (length (kept s)) <= max_waveforms c) ->
  osc_inv c d0 saving (after_push c s).
Proof using Type.
  intros Hw Hrdy Hr Hf Hc Hl Hat Has Hsen Hend Hg Hm. pose proof (kept_raised s) as Hkr.
  assert (0 <= raised s) by (unfold raised; lia).
  assert (Hkept : forall t, arrived t = arrived s -> kept t = kept s) by (intros t Ht; unfold kept; by rewrite Ht).
  unfold after_push.
  destruct (Z.ltb_spec 0 (max_waveforms c)), (Z.leb_spec (max_waveforms c) (frames_acquired s));
    cbn [andb]; (split; cbn; try done; try lia; try (by intros [? ?]); try (by left);
      rewrite ?Hkept by done; try done; try lia).
  all: try (intros Ha Hu; destruct (Hl Ha Hu) as (? & ? & ?); done).
  all: lia.
Qed.

(** A turn that ends without a kept frame. *)
Lemma inv_end_turn s close missed text :
  osc_inv c d0 saving s -> pushing s = None -> osc_inv c d0 saving (end_turn s close missed text).
Proof using Type.
  intros [Hw Hrdy Hr Hf Hc Hp Hpu Hl Hat Hs Has Hwt Hsen Hend Hg Hm Hn] Hpush. split; cbn; try done.
  rewrite Hpush. by intros [? ?].
Qed.

(** A frame arrives while nothing is pushed and nothing stopped. *)
Lemma inv_got y fault s :
  osc_inv c d0 saving s -> pushing s = None -> stop_evt s = false ->
  osc_inv c d0 saving (got_frame c s y fault).
Proof using Type.
  intros Hinv Hpush Hst. pose proof Hinv as [Hw Hrdy Hr Hf Hc Hp Hpu Hl Hat Hs Has Hwt Hsen Hend Hg Hm Hn].
  assert (Hputf : putting s = false) by (destruct (putting s); [by destruct (Hpu eq_refl) as [? ?%eq_sym]; congruence|done]).
  unfold pending in Hf. rewrite Hpush in Hf. cbn [option_list] in Hf. rewrite app_nil_l in Hf.
  assert (Hk : forall t b, arrived t = arrived s ++ [(y, b)] -> kept t = kept s ++ (if b then [] else [y]))
    by (intros t b Ht; unfold kept; by rewrite Ht, kept_snoc).
  assert (Hcnt : frames_acquired s + 1 = Z.of_nat (length (arrived s ++ [(y, bool_decide (is_Some fault))])))
    by (rewrite length_app; cbn; lia).
  assert (Hmore : 0 < max_waveforms c -> Z.of_nat (length (kept s)) < max_waveforms c) by auto.
  unfold got_frame. cbv zeta. destruct fault as [ex|].
  - apply inv_end_turn; [|done]. rewrite app_nil_r.
    split; cbn; try done; try (by intros [? ?]); try (by left); rewrite ?(Hk _ true) by done; try done.
    + by rewrite app_nil_r.
    + by rewrite app_nil_r.
    + intros. rewrite app_nil_r. auto.
  - destruct (attached s) eqn:Ha.
    + assert (Hu : unsaved s = []).
      { destruct (unsaved s) as [|z l] eqn:Hu; [done|]. destruct (Hl eq_refl) as [Hst' _]; congruence. }
      split; cbn; try done; rewrite ?(Hk _ false) by done.
      * by rewrite Hf, Hu, !app_nil_r, <- app_assoc.
      * by rewrite Hu.
      * by rewrite app_nil_r.
      * congruence.
      * destruct (closing s) eqn:Hcl; auto; exfalso; assert (asked s = true) as Hask by
          (unfold asked; by rewrite Hcl); rewrite (Has Hask) in Hst; done.
      * intros Hm0. specialize (Hmore Hm0). rewrite length_app. cbn. lia.
    + apply inv_after_push; cbn; try done; rewrite ?(Hk _ false) by done.
      * by rewrite Hf, <- !app_assoc.
      * intros Hm0. specialize (Hmore Hm0). rewrite length_app. cbn. lia.
Qed.

Lemma inv_poll o s : osc_inv c d0 saving s -> pushing s = None -> osc_inv c d0 saving (poll_once c o s).
Proof using Type.
  intros Hinv Hpush. unfold poll_once. destruct (busy s || stop_evt s) eqn:Hb; [done|].
  apply orb_false_iff in Hb as [Hb Hst].
  pose proof Hinv as [Hw Hrdy Hr Hf Hc Hp Hpu Hl Hat Hs Has Hwt Hsen Hend Hg Hm Hn].
  set (s1 := OState _ _ _ _ _ _ _ _ _ _ _ _ _ _ _ _ _).
  assert (H1 : osc_inv c d0 saving s1) by (split; cbn; try done; rewrite Hpush; by intros [? ?]).
  destruct o as [| |text|t|resp fault]; try (by apply inv_end_turn).
  destruct (negb (dr_success resp)); [by apply inv_end_turn|].
  destruct (first_frame resp) as [y|e]; [by apply inv_got|by apply inv_end_turn].
Qed.

Lemma inv_push f s :
  osc_inv c d0 saving s -> pushing s = Some f -> osc_inv c d0 saving (push_turn c f s).
Proof using Type.
  intros Hinv Hpush. pose proof Hinv as [Hw Hrdy Hr Hf Hc Hp Hpu Hl Hat Hs Has Hwt Hsen Hend Hg Hm Hn].
  destruct (Hp ltac:(by rewrite Hpush)) as (Hu & Ha & Hb).
  assert (Hcl : closing s <> SentinelPut) by (destruct Hwt as [?|[?|?]]; congruence).
  unfold pending in Hf. rewrite Hpush, Hu in Hf. cbn in Hf.
  assert (Hk : forall t, arrived t = arrived s -> kept t = kept s) by (intros t Ht; unfold kept; by rewrite Ht).
  unfold push_turn, push_put, push_test. destruct (putting s) eqn:Hput.
  - unfold full. destruct (Z.leb_spec (maxsize c) (Z.of_nat (length (q s)))) as [Hfull|Hroom]; cbn [negb].
    2:{ apply inv_after_push; cbn; try done; rewrite ?Hk by done.
        - rewrite length_app. cbn. lia.
        - rewrite Hf, Hu, frames_of_snoc. cbn. by rewrite app_nil_r.
        - by rewrite Hu.
        - destruct Hsen as (b & Hqb & Hb1 & Hb2). exists false.
          destruct b; [by destruct Hcl; auto|]. cbn in Hqb |- *. rewrite !app_nil_r in Hqb |- *.
          by rewrite frames_of_snoc, fmap_app, <- Hqb.
        - intros Hal He. by destruct (Hend Hal He). }
    case_bool_decide as He; cbn [negb].
    + split; cbn; try done; rewrite ?Hk by done; try done. by rewrite Hf, Hpush, Hu.
    + apply inv_after_push; cbn; try done; rewrite ?Hk by done; try done; [by rewrite Hf, Hu|auto].
  - destruct (stop_evt s) eqn:Hst.
    + apply inv_after_push; cbn; try done; rewrite ?Hk by done; try done; [by rewrite Hf, Hu|].
      intros _ _. rewrite Hu. split_and!; [done| |done]. apply Hs; [done|by rewrite Hpush].
    + split; cbn; try done; rewrite ?Hk by done; try done.
      unfold pending. cbn [pushing unsaved]. by rewrite Hf, Hpush, Hu.
Qed.

(** Steps of the closing. *)
Lemma inv_closing s p :
  osc_inv c d0 saving s -> p <> Opened -> closing s <> SentinelPut -> p <> SentinelPut ->
  pushing s = None \/ p = StopRequested -> (p = WriterGone -> alive (wr s) = false) ->
  osc_inv c d0 saving (with_closing s true p).
Proof using Type.
  intros [Hw Hrdy Hr Hf Hc Hp Hpu Hl Hat Hs Has Hwt Hsen Hend Hg Hm Hn] Hop Hns Hps Hpush Hgone.
  assert (Hask : asked (with_closing s true p) = true) by by apply asked_phase.
  split; cbn; try done.
  - intros Ha Hu. destruct (Hl Ha Hu) as (? & ? & ?). done.
  - destruct Hpush as [?|?]; auto.
  - destruct Hsen as (b & Hqb & Hb1 & Hb2). exists b. split; [done|]. split; [|done]. intros Hb. by destruct Hns; auto.
  - intros Hal He. by destruct (Hend Hal He).
Qed.

Lemma inv_sentinel s :
  osc_inv c d0 saving s -> closing s = WorkerWaited -> full c s = false ->
  osc_inv c d0 saving (with_closing (with_writer s (q s ++ [Sentinel]) (wr s)) true SentinelPut).
Proof using Type.
  intros [Hw Hrdy Hr Hf Hc Hp Hpu Hl Hat Hs Has Hwt Hsen Hend Hg Hm Hn] Hcl Hfull.
  assert (Hpush : pushing s = None) by (destruct Hwt as [?|[?|?]]; congruence).
  split; cbn; try done.
  - unfold full in Hfull. apply Z.leb_gt in Hfull. rewrite length_app. cbn. lia.
  - change (kept s = popped (wr s) ++ frames_of (q s ++ [Sentinel]) ++ pending s ++ unsaved s).
    by rewrite frames_of_snoc, app_nil_r.
  - intros Ha Hu. destruct (Hl Ha Hu) as (? & ? & ?). done.
  - auto.
  - exists true. destruct Hsen as (b & Hqb & Hb1 & Hb2). destruct b; [by rewrite Hb1 in Hcl|].
    split; [|done]. change (q s ++ [Sentinel] = (Frame <$> frames_of (q s ++ [Sentinel])) ++ [Sentinel]).
    rewrite frames_of_snoc, app_nil_r. cbn in Hqb. rewrite app_nil_r in Hqb. by rewrite <- Hqb.
  - intros Hal He. destruct (Hend Hal He). congruence.
Qed.

Lemma osc_step_inv s s' : osc_inv c d0 saving s -> step c s s' -> osc_inv c d0 saving s'.
Proof using HND.
  intros Hinv Hstep.
  destruct Hstep as [s fault Hr|s fault it q' Hr Ha Hq|s o Ht Hp|s f Hp|s Hcl|s Hask Hp|s Hcl Hp|s seen Hcl Hseen].
  - by apply inv_open.
  - by apply inv_write.
  - by apply inv_poll.
  - by apply inv_push.
  - apply inv_closing; [done|done|congruence|done|by right|done].
  - destruct Hinv as [Hw Hrdy Hr Hf Hc Hp' Hpu Hl Hat Hs Has Hwt Hsen Hend Hg Hm Hn]. split; cbn; try done.
    intros Ha Hu. destruct (Hl Ha Hu) as (? & ? & ?). done.
  - unfold worker_waited. rewrite (oi_asked _ _ _ _ Hinv) by (apply asked_phase; congruence).
    apply inv_closing; [done|done|congruence|done|by left|done].
  - assert (Hst : stop_evt s = true) by (apply (oi_asked _ _ _ _ Hinv), asked_phase; congruence).
    assert (Hpush : pushing s = None) by (destruct (oi_waited _ _ _ _ Hinv) as [?|[?|?]]; congruence).
    unfold writer_stop. rewrite Hst. destruct seen; cbn [negb]; [destruct (full c s) eqn:Hfull|].
    + apply inv_closing; [done|done|congruence|done|by left|done].
    + by apply inv_sentinel.
    + apply inv_closing; [done|done|congruence|done|by left|].
      intros _. destruct (alive (wr s)); [by rewrite Hseen|done].
Qed.

End steps.

Lemma run_inv c d0 saving s :
  NoDup (o_channels c) -> star (step c) (start saving d0) s -> osc_inv c d0 saving s.
Proof.
  intros HND Hstar.
  apply (star_invariant (step c) (osc_inv c d0 saving)) with (start saving d0);
    [|done|apply start_inv]. intros s1 s2 H1 H2. by apply (osc_step_inv c d0 saving HND s1).
Qed.

Lemma sentinel_last s b k :
  q s = (Frame <$> frames_of (q s)) ++ sentinel_if b -> q s !! k = Some Sentinel ->
  S k = length (q s) /\ b = true.
Proof.
  intros Hq Hk. rewrite Hq, lookup_app in Hk. rewrite Hq, length_app, length_fmap.
  rewrite list_lookup_fmap, length_fmap in Hk. destruct (frames_of (q s) !! k) as [f|] eqn:Hf; [done|].
  apply lookup_ge_None_1 in Hf. apply lookup_lt_Some in Hk. destruct b; cbn in *; lia.
Qed.

(** ** Lemmas: the closing *)


Section closing.
Context (c : osc_config) (d0 : gmap Z (list Z)) (saving : bool).







End closing.

(** ** Properties *)

(** C4. Whatever way acquisition, disk writer, time-outs, faults and the closing of the window
    interleave: the queue never exceeds its size; every frame counted is in the history of arrivals,
    and those whose spectrum did not raise are, in order and without gaps, the frames the writer
    took, those queued, the one being pushed and those given up (a frame whose spectrum raises is
    lost, and does not count towards the number of waveforms asked for); as long as the writer
    reports no error each channel's file is what it held before (nothing, unless data are appended)
    followed by that channel's samples of exactly the frames taken, of which fewer than
    [flush_every] are not flushed; with a folder and without an error at most one frame is given
    up, and only because the window was closed, from when on the worker is stopped; the sentinel
    stays behind every frame, so that a writer that ended without error left nothing behind. *)
Theorem osc_no_gaps c saving d0 s :
  NoDup (o_channels c) -> star (step c) (start saving d0) s ->
  Z.of_nat (length (q s)) <= maxsize c /\
  kept s = popped (wr s) ++ frames_of (q s) ++ pending s ++ unsaved s /\
  frames_acquired s = Z.of_nat (length (arrived s)) /\
  (0 < max_waveforms c -> Z.of_nat (length (kept s)) <= max_waveforms c) /\
  (w_error (wr s) = "" ->
     taken (wr s) = popped (wr s) /\
     written_frames (wr s) = Z.of_nat (length (taken (wr s))) /\
     written_frames (wr s) - flushed_frames (wr s) < flush_every c /\
     (ready (wr s) = true -> forall j ch, o_channels c !! j = Some ch ->
        disk (wr s) !! ch = Some (base_of c d0 ch ++ samples (taken (wr s)) j))) /\
  (saving = true -> w_error (wr s) = "" ->
     (length (unsaved s) <= 1)%nat /\ (asked s = false -> unsaved s = [])) /\
  (asked s = true -> stop_evt s = true) /\
  (forall k, q s !! k = Some Sentinel -> S k = length (q s)) /\
  (alive (wr s) = false -> w_error (wr s) = "" -> q s = [] /\ pushing s = None).
Proof.
  intros HND Hstar. pose proof (run_inv c d0 saving s HND Hstar) as Hinv.
  destruct Hinv as [(_ & Hok & _) Hrdy Hr Hf Hc Hp Hpu Hl Hat Hs Has Hwt Hsen Hend Hg Hm Hn].
  split_and!; [done|done|done|done| | |done| |].
  - intros He. destruct (Hok He) as [Hpop Hw Hfl Hrec _ _ _ Hd]. by split_and!.
  - intros Hsv He. assert (Ha : attached s = true) by (destruct Hat as [?|[?|?]]; congruence).
    destruct (unsaved s) as [|y l] eqn:Hu; [split; [cbn; lia|done]|].
    destruct (Hl Ha) as (_ & Hask & Hlen); [done|]. split; [lia|]. congruence.
  - intros k Hk. destruct Hsen as (b & Hqb & _). by apply (sentinel_last s b).
  - intros Ha He. destruct (Hend Ha He) as [Hq Hcl]. split; [done|].
    destruct Hwt as [?|[?|?]]; congruence.
Qed.

Definition example_osc : osc_config := {|
  o_channels := [7; 3]; o_append := false; o_queue_frames := 2; o_flush_every := 128;
  o_max_waveforms := 2; o_endpoint := "tcp://127.0.0.1:9876" |}.

(** Two waveforms are acquired, the writer writes the first. *)
Definition example_steps : ostate :=
  let s := start true ∅ in
  let s := with_writer s (q s) (writer_open example_osc None (wr s)) in
  let s := poll_once example_osc (Replied (example_resp 1) None) s in
  let s := push_turn example_osc [[1; 2]; [11; 12]] (push_turn example_osc [[1; 2]; [11; 12]] s) in
  let s := poll_once example_osc (Replied (example_resp 2) None) s in
  let s := push_turn example_osc [[2; 3]; [12; 13]] (push_turn example_osc [[2; 3]; [12; 13]] s) in
  with_writer s [Frame [[2; 3]; [12; 13]]]
    (writer_turn example_osc None (Frame [[1; 2]; [11; 12]]) (wr s)).

Lemma example_reachable : star (step example_osc) (start true ∅) example_steps.
Proof.
  unfold example_steps. cbv zeta.
  eapply star_step; [apply (step_open _ _ None); reflexivity|].
  eapply star_step; [apply (step_poll _ _ (Replied (example_resp 1) None)); reflexivity|].
  eapply star_step; [apply (step_push _ _ [[1; 2]; [11; 12]]); reflexivity|].
  eapply star_step; [apply (step_push _ _ [[1; 2]; [11; 12]]); reflexivity|].
  eapply star_step; [apply (step_poll _ _ (Replied (example_resp 2) None)); reflexivity|].
  eapply star_step; [apply (step_push _ _ [[2; 3]; [12; 13]]); reflexivity|].
  eapply star_step; [apply (step_push _ _ [[2; 3]; [12; 13]]); reflexivity|].
  apply star_one. by apply (step_write _ _ None (Frame [[1; 2]; [11; 12]])).
Qed.

Lemma osc_no_gaps_witness :
  kept example_steps = [[[1; 2]; [11; 12]]; [[2; 3]; [12; 13]]] /\
  disk (wr example_steps) !! 3 = Some [11; 12] /\ finished example_steps = true /\
  kept example_steps = popped (wr example_steps) ++ frames_of (q example_steps)
    ++ pending example_steps ++ unsaved example_steps.
Proof.
  split; [vm_compute; reflexivity|]. split; [vm_compute; reflexivity|].
  split; [vm_compute; reflexivity|].
  apply (osc_no_gaps example_osc true ∅ example_steps); [reg_mem|apply example_reachable].
Defined.

(** A frame whose spectrum raises is counted and lost, and the turn does not look at the number of
    waveforms asked for: the next frame is a third one where two were asked for. *)
Example spectrum_fault_loses_frame :
  let c := example_osc in
  let s := poll_once c (Replied (example_resp 1) None) (start false ∅) in
  let s := poll_once c (Replied (example_resp 2) (Some (Exn ValueError "x"))) s in
  frames_acquired s = max_waveforms c /\ finished s = false /\ link_open s = false /\
  kept s = [[[1; 2]; [11; 12]]] /\
  let s := poll_once c (Replied (example_resp 1) None) s in
  finished s = true /\ frames_acquired s = max_waveforms c + 1.
Proof. by vm_compute. Qed.




