(* ===== verification/HdMezz.v ===== *)
(** [client/hdmezz_control_v2.py]: the client of the HD mezzanine RPCs, its command line and
    the state of its control panels.

    Floats of messages are kept as the protobuf runtime gives them; [kept] is the value a spin
    box keeps of the one it is given.  Layout, styles and painting are left out; the log holds
    the numbers a text shows next to the text. *)
From S2P Require Import Prelude PyStr PyFloat PyVal EnvelopeV2.

(** ** Messages *)

Definition MT2_SET_HDMEZZ_BLOCK_ENABLE_REQ : Z := 400.
Definition MT2_SET_HDMEZZ_BLOCK_ENABLE_RESP : Z := 401.
Definition MT2_CONFIGURE_HDMEZZ_BLOCK_REQ : Z := 402.
Definition MT2_CONFIGURE_HDMEZZ_BLOCK_RESP : Z := 403.
Definition MT2_READ_HDMEZZ_BLOCK_CONFIG_REQ : Z := 404.
Definition MT2_READ_HDMEZZ_BLOCK_CONFIG_RESP : Z := 405.
Definition MT2_SET_HDMEZZ_POWER_STATES_REQ : Z := 406.
Definition MT2_SET_HDMEZZ_POWER_STATES_RESP : Z := 407.
Definition MT2_READ_HDMEZZ_STATUS_REQ : Z := 408.
Definition MT2_READ_HDMEZZ_STATUS_RESP : Z := 409.
Definition MT2_CLEAR_HDMEZZ_ALERT_FLAG_REQ : Z := 410.
Definition MT2_CLEAR_HDMEZZ_ALERT_FLAG_RESP : Z := 411.

(** The six electrical parameters of a block. *)
Record block_params : Type := Params {
  r_shunt_5V : float; r_shunt_3V3 : float; max_current_5V_scale : float;
  max_current_3V3_scale : float; max_current_5V_shutdown : float;
  max_current_3V3_shutdown : float }.

Record cmd_setHDMezzBlockEnable : Type := SetEnable { se_afeBlock : Z; se_enable : bool }.
Record cmd_setHDMezzBlockEnable_response : Type := SetEnableResp {
  ser_success : bool; ser_message : string; ser_afeBlock : Z; ser_enable : bool }.

Record cmd_configureHDMezzBlock : Type := ConfBlock { cb_afeBlock : Z; cb_params : block_params }.
Record cmd_configureHDMezzBlock_response : Type := ConfBlockResp {
  cbr_success : bool; cbr_message : string; cbr_afeBlock : Z; cbr_params : block_params }.

Record cmd_readHDMezzBlockConfig : Type := ReadConf { rc_afeBlock : Z }.
Record cmd_readHDMezzBlockConfig_response : Type := ReadConfResp {
  rcr_success : bool; rcr_message : string; rcr_afeBlock : Z; rcr_params : block_params;
  max_power_5V : float; max_power_3V3 : float; current_lsb_5V : float; current_lsb_3V3 : float;
  shunt_cal_5V : Z; shunt_cal_3V3 : Z }.

Record cmd_setHDMezzPowerStates : Type := SetPower {
  sp_afeBlock : Z; sp_power5V : bool; sp_power3V3 : bool }.
Record cmd_setHDMezzPowerStates_response : Type := SetPowerResp {
  spr_success : bool; spr_message : string; spr_afeBlock : Z; spr_power5V : bool;
  spr_power3V3 : bool }.

Record cmd_readHDMezzStatus : Type := ReadStatus { rs_afeBlock : Z }.
Record cmd_readHDMezzStatus_response : Type := ReadStatusResp {
  rsr_success : bool; rsr_message : string; rsr_afeBlock : Z; power5V : bool; power3V3 : bool;
  measured_voltage5V : float; measured_voltage3V3 : float; measured_current5V : float;
  measured_current3V3 : float; measured_power5V : float; measured_power3V3 : float;
  alert_5V : bool; alert_3V3 : bool }.

Record cmd_clearHDMezzAlertFlag : Type := ClearAlert { ca_afeBlock : Z }.
Record cmd_clearHDMezzAlertFlag_response : Type := ClearAlertResp {
  car_success : bool; car_message : string; car_afeBlock : Z }.

#[export] Instance enable_status : Status cmd_setHDMezzBlockEnable_response :=
  { st_success := ser_success; st_message := ser_message }.
#[export] Instance configure_status : Status cmd_configureHDMezzBlock_response :=
  { st_success := cbr_success; st_message := cbr_message }.
#[export] Instance config_status : Status cmd_readHDMezzBlockConfig_response :=
  { st_success := rcr_success; st_message := rcr_message }.
#[export] Instance power_status : Status cmd_setHDMezzPowerStates_response :=
  { st_success := spr_success; st_message := spr_message }.
#[export] Instance read_status : Status cmd_readHDMezzStatus_response :=
  { st_success := rsr_success; st_message := rsr_message }.
#[export] Instance alert_status : Status cmd_clearHDMezzAlertFlag_response :=
  { st_success := car_success; st_message := car_message }.

Definition int_bool (b : bool) : string := str_Z (Z.b2z b).

(** The serializations the client uses. *)
Class Messages (B : Type) : Type := {
  m_set_enable :: Proto B cmd_setHDMezzBlockEnable;
  m_set_enable_resp :: Proto B cmd_setHDMezzBlockEnable_response;
  m_configure :: Proto B cmd_configureHDMezzBlock;
  m_configure_resp :: Proto B cmd_configureHDMezzBlock_response;
  m_read_config :: Proto B cmd_readHDMezzBlockConfig;
  m_read_config_resp :: Proto B cmd_readHDMezzBlockConfig_response;
  m_set_power :: Proto B cmd_setHDMezzPowerStates;
  m_set_power_resp :: Proto B cmd_setHDMezzPowerStates_response;
  m_read_status :: Proto B cmd_readHDMezzStatus;
  m_read_status_resp :: Proto B cmd_readHDMezzStatus_response;
  m_clear_alert :: Proto B cmd_clearHDMezzAlertFlag;
  m_clear_alert_resp :: Proto B cmd_clearHDMezzAlertFlag_response }.

Section client.
Context {S B : Type} `{Peer S B, Size B, !Proto B (ControlEnvelopeV2 B), !Messages B}.
Abbreviation Wd := (zworld S B).

(** ** [HDMezzClient] *)

Section operations.
Context (route : string) (afe : Z).

Definition rpc (R : Type) `{!Proto B R} (req_type : Z) (req : B) (resp_type : Z) : M Wd R :=
  v2_rpc R next_ids_random req_type req resp_type route.

Definition set_block_enable (enable : bool) : M Wd cmd_setHDMezzBlockEnable_response :=
  a <- lift (set_u32 afe) ;;
  rpc _ MT2_SET_HDMEZZ_BLOCK_ENABLE_REQ (ser (SetEnable a enable)) MT2_SET_HDMEZZ_BLOCK_ENABLE_RESP.

Definition configure_block (p : block_params) : M Wd cmd_configureHDMezzBlock_response :=
  a <- lift (set_u32 afe) ;;
  rpc _ MT2_CONFIGURE_HDMEZZ_BLOCK_REQ (ser (ConfBlock a p)) MT2_CONFIGURE_HDMEZZ_BLOCK_RESP.

Definition read_block_config : M Wd cmd_readHDMezzBlockConfig_response :=
  a <- lift (set_u32 afe) ;;
  rpc _ MT2_READ_HDMEZZ_BLOCK_CONFIG_REQ (ser (ReadConf a)) MT2_READ_HDMEZZ_BLOCK_CONFIG_RESP.

Definition set_power_states (power_5v power_3v3 : bool) : M Wd cmd_setHDMezzPowerStates_response :=
  a <- lift (set_u32 afe) ;;
  rpc _ MT2_SET_HDMEZZ_POWER_STATES_REQ (ser (SetPower a power_5v power_3v3))
      MT2_SET_HDMEZZ_POWER_STATES_RESP.

Definition client_read_status : M Wd cmd_readHDMezzStatus_response :=
  a <- lift (set_u32 afe) ;;
  rpc _ MT2_READ_HDMEZZ_STATUS_REQ (ser (ReadStatus a)) MT2_READ_HDMEZZ_STATUS_RESP.

Definition clear_alert_flag : M Wd cmd_clearHDMezzAlertFlag_response :=
  a <- lift (set_u32 afe) ;;
  rpc _ MT2_CLEAR_HDMEZZ_ALERT_FLAG_REQ (ser (ClearAlert a)) MT2_CLEAR_HDMEZZ_ALERT_FLAG_RESP.

End operations.

(** ** The command line *)

(** The subcommands with their options; [--enable] and the like are ["0"] or ["1"]. *)
Inductive command : Type :=
  | CSetEnable (enable : string)
  | CConfigure (p : block_params)
  | CReadConfig
  | CSetPower (power_5v power_3v3 : string)
  | CReadStatus
  | CClearAlert.

(** The common options ([add_common_args]), as given on the command line. *)
Record given_args : Type := Given {
  g_ip : option string; g_port : option Z; g_route : option string; g_identity : option string;
  g_timeout : option Z }.

Record common_args : Type := Common {
  c_ip : string; c_port : Z; c_route : string; c_identity : string; c_timeout : Z }.

Definition with_defaults (g : given_args) : common_args :=
  Common (default "127.0.0.1" (g_ip g)) (default 9876 (g_port g)) (default "mezz/0" (g_route g))
    (default "hdmezz-client" (g_identity g)) (default 5000 (g_timeout g)).

(** The parser of a subcommand has the same options with the same defaults, and [argparse]
    copies everything it parsed, defaults included, over what stood before the subcommand. *)
Definition parse_common (before : given_args) (after : option given_args) : common_args :=
  match after with
  | None => with_defaults before
  | Some g => with_defaults g
  end.

(** [bool(int(s))] *)
Definition flag (s : string) : result bool := z <-! int10 s ;; Ok (negb (z =? 0)).

Definition outcome_line {R : Type} `{Status R} (afe : Z) (more : string) (r : R) : string :=
  "success=" +:+ str_bool (st_success r) +:+ " afe=" +:+ str_Z afe +:+ more +:+ " message='"
  +:+ st_message r +:+ "'".

(** The printouts of a configuration and of a status: their first line, and the numbers. *)
Definition show_config (success : bool) (afe : Z) (msg : string) (nums : list (string * pyval))
    : M Wd unit :=
  say ("success=" +:+ str_bool success +:+ " afe=" +:+ str_Z afe +:+ " message='" +:+ msg +:+ "'") ;;;
  show (Document (PyDict nums)).

Definition params_nums (p : block_params) : list (string * pyval) :=
  [("r_shunt_5V", PyFloat (r_shunt_5V p)); ("r_shunt_3V3", PyFloat (r_shunt_3V3 p));
   ("max_current_5V_scale", PyFloat (max_current_5V_scale p));
   ("max_current_3V3_scale", PyFloat (max_current_3V3_scale p));
   ("max_current_5V_shutdown", PyFloat (max_current_5V_shutdown p));
   ("max_current_3V3_shutdown", PyFloat (max_current_3V3_shutdown p))].

(** [print_config_response]: the response to a configuration has no power fields. *)
Definition print_configure (r : cmd_configureHDMezzBlock_response) : M Wd unit :=
  show_config (cbr_success r) (cbr_afeBlock r) (cbr_message r) (params_nums (cbr_params r)).

Definition print_config (r : cmd_readHDMezzBlockConfig_response) : M Wd unit :=
  show_config (rcr_success r) (rcr_afeBlock r) (rcr_message r)
    (params_nums (rcr_params r) ++
     [("max_power_5V", PyFloat (max_power_5V r)); ("max_power_3V3", PyFloat (max_power_3V3 r));
      ("current_lsb_5V", PyFloat (current_lsb_5V r)); ("current_lsb_3V3", PyFloat (current_lsb_3V3 r));
      ("shunt_cal_5V", PyInt (shunt_cal_5V r)); ("shunt_cal_3V3", PyInt (shunt_cal_3V3 r))]).

(** [print_status_response] *)
Definition print_status_response (r : cmd_readHDMezzStatus_response) : M Wd unit :=
  show_config (rsr_success r) (rsr_afeBlock r) (rsr_message r)
    [("power_5V", PyInt (Z.b2z (power5V r))); ("power_3V3", PyInt (Z.b2z (power3V3 r)));
     ("alert_5V", PyInt (Z.b2z (alert_5V r))); ("alert_3V3", PyInt (Z.b2z (alert_3V3 r)));
     ("measured_voltage_5V", PyFloat (measured_voltage5V r));
     ("measured_voltage_3V3", PyFloat (measured_voltage3V3 r));
     ("measured_current_5V", PyFloat (measured_current5V r));
     ("measured_current_3V3", PyFloat (measured_current3V3 r));
     ("measured_power_5V", PyFloat (measured_power5V r));
     ("measured_power_3V3", PyFloat (measured_power3V3 r))].

Definition exit_of {R : Type} `{Status R} (r : R) : Z := if st_success r then 0 else 2.

Definition run_command (route : string) (afe : Z) (c : command) : M Wd Z :=
  match c with
  | CSetEnable e =>
      en <- lift (flag e) ;;
      r <- set_block_enable route afe en ;;
      say (outcome_line (ser_afeBlock r) (" enable=" +:+ int_bool (ser_enable r)) r) ;;;
      ret (exit_of r)
  | CConfigure p =>
      r <- configure_block route afe p ;; print_configure r ;;; ret (exit_of r)
  | CReadConfig =>
      r <- read_block_config route afe ;; print_config r ;;; ret (exit_of r)
  | CSetPower p5 p3 =>
      a <- lift (flag p5) ;; b <- lift (flag p3) ;;
      r <- set_power_states route afe a b ;;
      say (outcome_line (spr_afeBlock r) (" power5V=" +:+ int_bool (spr_power5V r) +:+ " power3V3="
           +:+ int_bool (spr_power3V3 r)) r) ;;;
      ret (exit_of r)
  | CReadStatus =>
      r <- client_read_status route afe ;; print_status_response r ;;; ret (exit_of r)
  | CClearAlert =>
      r <- clear_alert_flag route afe ;;
      say (outcome_line (car_afeBlock r) "" r) ;;;
      ret (exit_of r)
  end.

(** [main] without [--visual]; the socket is closed in any case. *)
Definition main (route : string) (afe : Z) (c : command) : M Wd Z :=
  try_except (run_command route afe c) (fun e =>
    (if decide (exn_class e = ZmqAgain) then say "[timeout] no reply"
     else say ("[error] " +:+ exn_text e)) ;;;
    ret 2).

(** ** [AFEPanel] *)

(** A graph: its series, newest value last, of at most [history_len] values. *)
Definition history_len : nat := 90.

Definition append_history (l : list float) (x : float) : list float :=
  let l' := l ++ [x] in drop (length l' - history_len) l'.

Definition graph : Type := list (string * list float).

(** [append_values] *)
Definition append_values (g : graph) (values : list (string * float)) : graph :=
  (fun s => (fst s, append_history (snd s)
     (default (S754_zero false) (snd <$> find (fun v => bool_decide (fst v = fst s)) values)))) <$> g.

Record panel : Type := Panel {
  p_afe : Z; enable_check : bool; power_5v : bool; power_3v3 : bool;
  power_5v_lamp : bool; power_3v3_lamp : bool; alert_5v_lamp : bool; alert_3v3_lamp : bool;
  knobs : block_params; displays : list float;
  voltage_graph : graph; current_graph : graph; power_graph : graph }.

(** What the panels log: text, and numbers shown with it. *)
Record log_line : Type := LogLine { log_text : string; log_numbers : list float }.

Record pworld : Type := PW { pz : Wd; pn : panel; plog : list log_line }.

Context (route : string) (kept : float -> float).

Definition on_client {A : Type} (m : M Wd A) : M pworld A := fun w =>
  let '(r, z) := m (pz w) in (r, PW z (pn w) (plog w)).

Definition log (text : string) (nums : list float) : M pworld unit :=
  modify (fun w => PW (pz w) (pn w) (plog w ++ [LogLine text nums])).

Definition set_panel (f : panel -> panel) : M pworld unit :=
  modify (fun w => PW (pz w) (f (pn w)) (plog w)).

Definition afe_tag (p : panel) : string := "[AFE " +:+ str_Z (p_afe p) +:+ "] ".

(** [_run]: the outcome is logged; an exception gives [None]. *)
Definition run_op {R : Type} `{Status R} (label : string) (fn : M Wd R) : M pworld (option R) :=
  p <- gets pn ;;
  try_except
    (r <- on_client fn ;;
     log (afe_tag p +:+ label +:+ ": success=" +:+ str_bool (st_success r) +:+ " message='"
          +:+ st_message r +:+ "'") [] ;;;
     ret (Some r))
    (fun e => log (afe_tag p +:+ label +:+ ": ERROR " +:+ exn_text e) [] ;;; ret None).

Definition apply_enable : M pworld unit :=
  p <- gets pn ;;
  r <- run_op "SET_BLOCK_ENABLE" (set_block_enable route (p_afe p) (enable_check p)) ;;
  match r with
  | None => ret tt
  | Some r => set_panel (fun p =>
      Panel (p_afe p) (ser_enable r) (power_5v p) (power_3v3 p) (power_5v_lamp p) (power_3v3_lamp p)
        (alert_5v_lamp p) (alert_3v3_lamp p) (knobs p) (displays p) (voltage_graph p)
        (current_graph p) (power_graph p))
  end.

Definition panel_configure : M pworld unit :=
  p <- gets pn ;;
  _ <- run_op "CONFIGURE_BLOCK" (configure_block route (p_afe p) (knobs p)) ;;
  ret tt.

Definition keep_params (p : block_params) : block_params :=
  Params (kept (r_shunt_5V p)) (kept (r_shunt_3V3 p)) (kept (max_current_5V_scale p))
    (kept (max_current_3V3_scale p)) (kept (max_current_5V_shutdown p))
    (kept (max_current_3V3_shutdown p)).

Definition read_config : M pworld unit :=
  p <- gets pn ;;
  r <- run_op "READ_BLOCK_CONFIG" (read_block_config route (p_afe p)) ;;
  match r with
  | None => ret tt
  | Some r =>
      set_panel (fun p =>
        Panel (p_afe p) (enable_check p) (power_5v p) (power_3v3 p) (power_5v_lamp p)
          (power_3v3_lamp p) (alert_5v_lamp p) (alert_3v3_lamp p) (keep_params (rcr_params r))
          (displays p) (voltage_graph p) (current_graph p) (power_graph p)) ;;;
      log (afe_tag p +:+ "CONFIG values")
        [r_shunt_5V (rcr_params r); r_shunt_3V3 (rcr_params r);
         max_current_5V_scale (rcr_params r); max_current_3V3_scale (rcr_params r)]
  end.

Definition apply_power : M pworld unit :=
  p <- gets pn ;;
  _ <- run_op "SET_POWER_STATES" (set_power_states route (p_afe p) (power_5v p) (power_3v3 p)) ;;
  ret tt.

(** [_read_status_silent] *)
Definition read_status_silent : M pworld (option cmd_readHDMezzStatus_response) :=
  p <- gets pn ;;
  try_except (r <- on_client (client_read_status route (p_afe p)) ;; ret (Some r))
    (fun e => log (afe_tag p +:+ "AUTO_REFRESH: ERROR " +:+ exn_text e) [] ;;; ret None).

(** The measurements of a status, in the order of the displays. *)
Definition readings (r : cmd_readHDMezzStatus_response) : list float :=
  [measured_voltage5V r; measured_voltage3V3 r; measured_current5V r; measured_current3V3 r;
   measured_power5V r; measured_power3V3 r].

Definition show_status (r : cmd_readHDMezzStatus_response) (p : panel) : panel :=
  Panel (p_afe p) (enable_check p) (power5V r) (power3V3 r) (power5V r) (power3V3 r)
    (alert_5V r) (alert_3V3 r) (knobs p) (readings r)
    (append_values (voltage_graph p) [("v5", measured_voltage5V r); ("v3", measured_voltage3V3 r)])
    (append_values (current_graph p) [("i5", measured_current5V r); ("i3", measured_current3V3 r)])
    (append_values (power_graph p) [("p5", measured_power5V r); ("p3", measured_power3V3 r)]).

Definition panel_read_status (log_result : bool) : M pworld unit :=
  p <- gets pn ;;
  r <- (if log_result then run_op "READ_STATUS" (client_read_status route (p_afe p))
        else read_status_silent) ;;
  match r with
  | None => ret tt
  | Some r =>
      set_panel (show_status r) ;;;
      when log_result
        (log (afe_tag p +:+ "STATUS: PW5=" +:+ int_bool (power5V r) +:+ " PW3=" +:+ int_bool (power3V3 r)
              +:+ " AL5=" +:+ int_bool (alert_5V r) +:+ " AL3=" +:+ int_bool (alert_3V3 r))
             (readings r))
  end.

Definition clear_alerts : M pworld unit :=
  p <- gets pn ;;
  r <- run_op "CLEAR_ALERT_FLAG" (clear_alert_flag route (p_afe p)) ;;
  match r with
  | None => ret tt
  | Some _ => panel_read_status true
  end.

(** The buttons of a panel. *)
Inductive button : Type :=
  | CommitEnable | CommitPower | ScanTelemetry | ClearAlerts | RecallConfig | ProgramBlock.

Definition press (b : button) : M pworld unit :=
  match b with
  | CommitEnable => apply_enable
  | CommitPower => apply_power
  | ScanTelemetry => panel_read_status true
  | ClearAlerts => clear_alerts
  | RecallConfig => read_config
  | ProgramBlock => panel_configure
  end.

(** A panel as it is built: knobs at the defaults, everything else off, zero or empty. *)
Definition default_knobs : block_params :=
  Params (f_decimal false 36 (-3)) (f_decimal false 3 (-1)) (f_decimal false 200 (-3))
    (f_decimal false 200 (-3)) (f_decimal false 120 (-3)) (f_decimal false 10 (-3)).

Definition zero : float := S754_zero false.

Definition new_panel (afe : Z) : panel :=
  Panel afe false false false false false false false (keep_params default_knobs)
    [zero; zero; zero; zero; zero; zero]
    [("v5", []); ("v3", [])] [("i5", []); ("i3", [])] [("p5", []); ("p3", [])].

(** ** [HDMezzControlApp] *)

Record app : Type := App {
  az : Wd; panels : list panel; alog : list log_line; auto_refresh : bool }.

(** [refresh_all_now]: the panels one after the other, on the one socket. *)
Fixpoint refresh_panels (ps : list panel) (z : Wd) (l : list log_line)
    : list panel * Wd * list log_line :=
  match ps with
  | [] => ([], z, l)
  | p :: ps' =>
      let w := snd (panel_read_status false (PW z p l)) in
      let '(ps'', z', l') := refresh_panels ps' (pz w) (plog w) in
      (pn w :: ps'', z', l')
  end.

Definition refresh_all_now (a : app) : app :=
  let '(ps, z, l) := refresh_panels (panels a) (az a) (alog a) in App z ps l (auto_refresh a).

(** [_auto_refresh_tick] *)
Definition auto_refresh_tick (a : app) : app := if auto_refresh a then refresh_all_now a else a.

(** A click on a button of panel [i]. *)
Definition press_on (i : nat) (b : button) (a : app) : app :=
  match panels a !! i with
  | None => a
  | Some p =>
      let w := snd (press b (PW (az a) p (alog a))) in
      App (pz w) (<[i:=pn w]> (panels a)) (plog w) (auto_refresh a)
  end.

Definition new_app (z : Wd) : app := App z (new_panel <$> seqZ 0 5) [] false.

(** What happens to the window. *)
Inductive window_event : Type :=
  | Click (i : nat) (b : button)
  | RefreshAll
  | Tick
  | AutoRefresh (on : bool).

Definition handle (a : app) (e : window_event) : app :=
  match e with
  | Click i b => press_on i b a
  | RefreshAll => refresh_all_now a
  | Tick => auto_refresh_tick a
  | AutoRefresh on => App (az a) (panels a) (alog a) on
  end.

End client.

(** ** The command line: which request, which status *)

Section commands.
Context {S B : Type} `{Peer S B, Size B, Proto B (ControlEnvelopeV2 B), Messages B}.
Abbreviation Wd := (zworld S B).

(** The request a subcommand stands for, if its options are in range. *)
Definition request_of (afe : Z) (c : command) : option (Z * B) :=
  let valid := (0 <=? afe) && (afe <? 2 ^ 32) in
  let req (t : Z) (b : B) := if valid then Some (t, b) else None in
  match c with
  | CSetEnable e =>
      match flag e with
      | Ok en => req MT2_SET_HDMEZZ_BLOCK_ENABLE_REQ (ser (SetEnable afe en))
      | Raise _ => None
      end
  | CConfigure p => req MT2_CONFIGURE_HDMEZZ_BLOCK_REQ (ser (ConfBlock afe p))
  | CReadConfig => req MT2_READ_HDMEZZ_BLOCK_CONFIG_REQ (ser (ReadConf afe))
  | CSetPower p5 p3 =>
      match flag p5, flag p3 with
      | Ok a, Ok b => req MT2_SET_HDMEZZ_POWER_STATES_REQ (ser (SetPower afe a b))
      | _, _ => None
      end
  | CReadStatus => req MT2_READ_HDMEZZ_STATUS_REQ (ser (ReadStatus afe))
  | CClearAlert => req MT2_CLEAR_HDMEZZ_ALERT_FLAG_REQ (ser (ClearAlert afe))
  end.

(** Whether a reply to it reports success. *)
Definition succeeded (R : Type) `{!Proto B R, !Status R} (b : B) : bool :=
  match parse b with Ok r => st_success (R := R) r | Raise _ => false end.

Definition reply_success (c : command) : B -> bool :=
  match c with
  | CSetEnable _ => succeeded cmd_setHDMezzBlockEnable_response
  | CConfigure _ => succeeded cmd_configureHDMezzBlock_response
  | CReadConfig => succeeded cmd_readHDMezzBlockConfig_response
  | CSetPower _ _ => succeeded cmd_setHDMezzPowerStates_response
  | CReadStatus => succeeded cmd_readHDMezzStatus_response
  | CClearAlert => succeeded cmd_clearHDMezzAlertFlag_response
  end.

(** A step that only writes to the console. *)
Definition prints {A : Type} (m : M Wd A) (a : A) : Prop :=
  forall w, exists w', m w = (Ok a, w') /\ sent w' = sent w /\ cur w' = cur w /\ inbox w' = inbox w.

Lemma prints_show l : prints (show l) tt.
Proof using Type. intros w. eexists. split; [reflexivity|done]. Qed.

Lemma prints_config b afe msg nums : prints (show_config b afe msg nums) tt.
Proof using Type. intros w. eexists. split; [reflexivity|done]. Qed.

(** One operation of the client, and the status after it. *)
Definition operation (route : string) (afe : Z) (R : Type) `{!Proto B R, !Status R} (t : Z)
    (mk : Z -> B) (out : R -> M Wd unit) : M Wd Z :=
  r <- (a <- lift (set_u32 afe) ;; rpc route R t (mk a) (t + 1)) ;;
  out r ;;; ret (exit_of r).

Lemma set_u32_cases afe :
  (set_u32 afe = Ok afe /\ (0 <=? afe) && (afe <? 2 ^ 32) = true) \/
  (exists e, set_u32 afe = Raise e) /\ (0 <=? afe) && (afe <? 2 ^ 32) = false.
Proof using Type.
  unfold set_u32, set_uint. destruct ((0 <=? afe) && (afe <? 2 ^ 32)); [by left|right; eauto].
Qed.

(** What the six subcommands share. *)
Lemma run_command_shape route afe c :
  match request_of afe c with
  | None => forall w, exists e, run_command route afe c w = (Raise e, w)
  | Some (t, req) => exists (R : Type) (HP : Proto B R) (HS : Status R) mk (out : R -> M Wd unit),
      req = mk afe /\ set_u32 afe = Ok afe /\ (forall r, prints (out r) tt) /\
      reply_success c = succeeded R /\
      meq (run_command route afe c) (operation route afe R t mk out)
  end.
Proof using Type.
  destruct (set_u32_cases afe) as [[Hu Hv]|[[e Hu] Hv]].
  - assert (Hrun : forall (R : Type) (HP : Proto B R) (HS : Status R) t mk out (m : M Wd Z),
      (forall r, prints (out r) tt) -> reply_success c = succeeded R ->
      meq m (operation route afe R t mk out) ->
      exists (R : Type) (HP : Proto B R) (HS : Status R) mk' (out : R -> M Wd unit),
        mk afe = mk' afe /\ set_u32 afe = Ok afe /\ (forall r, prints (out r) tt) /\
        reply_success c = succeeded R /\ meq m (operation route afe R t mk' out)).
    { intros R HP HS t mk out m Hout Hs Hm. by exists R, HP, HS, mk, out. }
    unfold request_of. rewrite Hv.
    destruct c as [e|p| |p5 p3| |]; cbn [run_command];
      [destruct (flag e) as [en|x]| | |destruct (flag p5) as [a|x], (flag p3) as [b|y]| |].
    + apply (Hrun cmd_setHDMezzBlockEnable_response _ _ _ (fun a => ser (SetEnable a en))
        (fun r => say (outcome_line (ser_afeBlock r) (" enable=" +:+ int_bool (ser_enable r)) r)));
        [intros r; apply prints_show|done|by intros w].
    + intros w. by exists x.
    + apply (Hrun cmd_configureHDMezzBlock_response _ _ _ (fun a => ser (ConfBlock a p))
        print_configure); [intros r; apply prints_config|done|by intros w].
    + apply (Hrun cmd_readHDMezzBlockConfig_response _ _ _ (fun a => ser (ReadConf a))
        print_config); [intros r; apply prints_config|done|by intros w].
    + apply (Hrun cmd_setHDMezzPowerStates_response _ _ _ (fun x => ser (SetPower x a b))
        (fun r => say (outcome_line (spr_afeBlock r) (" power5V=" +:+ int_bool (spr_power5V r)
           +:+ " power3V3=" +:+ int_bool (spr_power3V3 r)) r)));
        [intros r; apply prints_show|done|by intros w].
    + intros w. by exists y.
    + intros w. by exists x.
    + intros w. by exists x.
    + apply (Hrun cmd_readHDMezzStatus_response _ _ _ (fun a => ser (ReadStatus a)) print_status_response);
        [intros r; apply prints_config|done|by intros w].
    + apply (Hrun cmd_clearHDMezzAlertFlag_response _ _ _ (fun a => ser (ClearAlert a))
        (fun r => say (outcome_line (car_afeBlock r) "" r)));
        [intros r; apply prints_show|done|by intros w].
  - assert (Hnone : request_of afe c = None).
    { unfold request_of. rewrite Hv. destruct c as [x|p| |x y| |]; try done;
        [by destruct (flag x)|by destruct (flag x), (flag y)]. }
    rewrite Hnone. intros w.
    destruct c as [x|p| |x y| |]; cbn [run_command];
      unfold set_block_enable, configure_block, read_block_config, set_power_states,
        client_read_status, clear_alert_flag, bind, lift; rewrite Hu; eauto.
    + destruct (flag x); eauto.
    + destruct (flag x), (flag y); eauto.
Qed.

(** Successful operations. *)
Lemma operation_ok route afe (R : Type) `{!Proto B R, !Status R} t mk out (w : Wd) st w' :
  set_u32 afe = Ok afe -> (forall r, prints (out r) tt) ->
  operation route afe R t mk out w = (Ok st, w') ->
  exists rep r, exchanged w w' t (mk afe) (t + 1) rep /\ parse (payload rep) = Ok r /\
    st = exit_of r.
Proof using Type.
  intros Hu Hout Hr. unfold operation in Hr. rewrite Hu in Hr. inv_bind Hr. inv_bind Hr.
  destruct (Hout a w0) as (w2 & Hp & Hs & _). rewrite Hp in Hrun0. injection Hrun0 as <- <-.
  injection Hr as <- <-. apply v2_rpc_received in Hrun as (rep & Hx & Hparse).
  exists rep, a. split_and!; [|done|done]. destruct Hx as (env & f & Hx).
  exists env, f. by rewrite Hs.
Qed.

Lemma exit_of_zero {R : Type} `{!Proto B R, !Status R} (b : B) (r : R) :
  parse b = Ok r -> exit_of r = 0 <-> succeeded R b = true.
Proof using Type.
  intros Hp. unfold succeeded, exit_of. rewrite Hp. by destruct (st_success r).
Qed.

Lemma exit_of_cases {R : Type} `{!Status R} (r : R) : exit_of r = 0 \/ exit_of r = 2.
Proof using Type. unfold exit_of. destruct (st_success r); [by left|by right]. Qed.

(** An exception ends in status 2. *)
Lemma main_raises route afe c (w : Wd) e w' :
  run_command route afe c w = (Raise e, w') ->
  exists w2, main route afe c w = (Ok 2, w2) /\ cur w2 = cur w' /\ inbox w2 = inbox w'.
Proof using Type.
  intros Hr. unfold main, try_except. rewrite Hr. unfold bind.
  destruct (decide (exn_class e = ZmqAgain)); eexists; split; try reflexivity; done.
Qed.

Lemma main_returns route afe c (w : Wd) st w' :
  run_command route afe c w = (Ok st, w') -> main route afe c w = (Ok st, w').
Proof using Type. intros Hr. unfold main, try_except. by rewrite Hr. Qed.

End commands.

(** ** Properties of the command line *)

(** C12. Whatever the peer does and whatever waits on the socket, the command line ends with
    status 0 or 2, and with 0 only when it sent exactly the one request of the subcommand and
    accepted a reply to it, of the response type and uncontradicted in its correlation id,
    that reports success. *)
Theorem hdmezz_main_status {S B : Type}
    `{Peer S B, Size B, Proto B (ControlEnvelopeV2 B), Messages B} rt afe c (w : zworld S B) :
  exists st w', main rt afe c w = (Ok st, w') /\ (st = 0 \/ st = 2) /\
    (st = 0 -> exists t req rep, request_of afe c = Some (t, req) /\
       exchanged w w' t req (t + 1) rep /\ reply_success c (payload rep) = true).
Proof.
  destruct (run_command rt afe c w) as [[st|e] w'] eqn:Hr.
  - exists st, w'. split; [by apply main_returns|].
    pose proof (run_command_shape rt afe c) as Hc. destruct (request_of afe c) as [[t req]|].
    + destruct Hc as (R & HP & HS & mk & out & -> & Hu & Hout & Hs & Hm). rewrite Hm in Hr.
      apply operation_ok in Hr as (rep & r & Hx & Hp & ->); [|done|done].
      split; [apply exit_of_cases|]. intros H0'. exists t, (mk afe), rep.
      split_and!; [done|done|]. rewrite Hs. by apply (exit_of_zero _ r).
    + destruct (Hc w) as [e He]. rewrite He in Hr. discriminate.
  - apply main_raises in Hr as (w2 & Hr & _). exists 2, w2. split_and!; [done|by right|done].
Qed.

(** With a server that answers, on a quiet socket, a subcommand whose options are in range
    sends its request and ends with status 0 exactly if the answer is not empty, decodes and
    reports success; the socket is quiet again. *)
Theorem hdmezz_main_serves {S B : Type}
    `{Peer S B, Size B, Proto B (ControlEnvelopeV2 B), Messages B}
    (HL : ProtoLaws B (ControlEnvelopeV2 B)) reply (HA : Answering reply) rt afe c
    (w : zworld S B) t req :
  cur w = [] -> inbox w = [] -> request_of afe c = Some (t, req) ->
  exists env st w', main rt afe c w = (Ok st, w') /\ mtype env = t /\ payload env = req /\
    (st = 0 <-> size (payload (reply env)) <> 0 /\ reply_success c (payload (reply env)) = true) /\
    cur w' = [] /\ inbox w' = [].
Proof.
  intros Hcur Hin Hreq. pose proof (run_command_shape rt afe c) as Hc. rewrite Hreq in Hc.
  destruct Hc as (R & HP & HS & mk & out & -> & Hu & Hout & Hs & Hm).
  destruct (v2_rpc_answered reply R w t (mk afe) rt Hcur Hin)
    as (env & w1 & _ & Ht & Hpl & Hrpc & Hc1 & Hi1).
  assert (Hop : (a <- lift (set_u32 afe) ;; rpc rt R t (mk a) (t + 1)) w =
    (parse_or (payload (reply env)) (unparsed "Failed to parse response payload"), w1)).
  { unfold bind at 1, lift. rewrite Hu. exact Hrpc. }
  exists env. unfold parse_or in Hop. specialize (Hm w). unfold operation in Hm.
  destruct (parse (payload (reply env))) as [r|e] eqn:Hp; cbn [rbind] in Hop;
    [destruct (Z.eqb_spec (size (payload (reply env))) 0) as [Hz|Hz]|].
  - rewrite (bind_run_raise _ _ _ _ _ Hop) in Hm. apply main_raises in Hm as (w2 & Hm & Hc2 & Hi2).
    exists 2, w2. split_and!; try congruence. split; [done|]. by intros [? _].
  - rewrite (bind_run _ _ _ _ _ Hop) in Hm. destruct (Hout r w1) as (w2 & Ho & _ & Hc2 & Hi2).
    rewrite (bind_run _ _ _ _ _ Ho) in Hm. apply main_returns in Hm.
    exists (exit_of r), w2. split_and!; try congruence.
    rewrite Hs. rewrite (exit_of_zero _ r Hp). tauto.
  - rewrite (bind_run_raise _ _ _ _ _ Hop) in Hm. apply main_raises in Hm as (w2 & Hm & Hc2 & Hi2).
    exists 2, w2. split_and!; try congruence. rewrite Hs. unfold succeeded. rewrite Hp.
    split; [done|]. by intros [_ ?].
Qed.


(** ** Panels *)

(** The last values a graph keeps of a series. *)
Definition recent {A : Type} (l : list A) : list A := drop (length l - history_len) l.

Arguments append_history : simpl never.
Arguments recent : simpl never.

Lemma append_recent (l : list float) x : append_history (recent l) x = recent (l ++ [x]).
Proof.
  unfold append_history, recent. cbv zeta. rewrite !length_app, length_drop.
  cbn [length]. destruct (Nat.le_gt_cases history_len (length l)) as [Hl|Hl].
  - replace (length l - (length l - history_len) + 1 - history_len)%nat with 1%nat by lia.
    replace (length l + 1 - history_len)%nat with (length l - history_len + 1)%nat by lia.
    rewrite <- (drop_app_le l [x]), drop_drop by lia. done.
  - replace (length l - history_len)%nat with 0%nat by lia. rewrite drop_0.
    replace (length l - 0 + 1 - history_len)%nat with (length l + 1 - history_len)%nat by lia. done.
Qed.

Lemma length_recent {A : Type} (l : list A) : (length (recent l) <= history_len)%nat.
Proof. unfold recent. rewrite length_drop. lia. Qed.

(** A panel that shows the statuses [rs], oldest first: the lamps and the displays are those
    of the last one, and the six series are in step, each with the last ninety values. *)
Record shows (rs : list cmd_readHDMezzStatus_response) (p : panel) : Prop := Shows {
  sh_voltage : voltage_graph p = [("v5", recent (measured_voltage5V <$> rs));
                                  ("v3", recent (measured_voltage3V3 <$> rs))];
  sh_current : current_graph p = [("i5", recent (measured_current5V <$> rs));
                                  ("i3", recent (measured_current3V3 <$> rs))];
  sh_power : power_graph p = [("p5", recent (measured_power5V <$> rs));
                              ("p3", recent (measured_power3V3 <$> rs))];
  sh_lamps : (power_5v_lamp p, power_3v3_lamp p, alert_5v_lamp p, alert_3v3_lamp p) =
    match last rs with
    | Some r => (power5V r, power3V3 r, alert_5V r, alert_3V3 r)
    | None => (false, false, false, false)
    end;
  sh_displays : displays p =
    match last rs with
    | Some r => readings r
    | None => [zero; zero; zero; zero; zero; zero]
    end }.

Lemma shows_new kept afe : shows [] (new_panel kept afe).
Proof. by split. Qed.

Lemma shows_status rs r p : shows rs p -> shows (rs ++ [r]) (show_status r p).
Proof.
  intros [Hv Hc Hp _ _]. split; cbn; rewrite ?last_snoc; try done.
  all: rewrite ?Hv, ?Hc, ?Hp, !fmap_app; cbn; by rewrite !append_recent.
Qed.

Section panels.
Context {S B : Type} `{Peer S B, Size B, Proto B (ControlEnvelopeV2 B), Messages B}.
Context (route : string) (kept : float -> float).
Abbreviation pworld := (pworld (S:=S) (B:=B)).

(** What a panel may become when something happens to it. *)
Definition evolves (m : M pworld unit) : Prop :=
  forall w, exists w', m w = (Ok tt, w') /\ p_afe (pn w') = p_afe (pn w) /\
    forall rs, shows rs (pn w) -> exists rs', shows (rs ++ rs') (pn w').

Lemma evolves_skip : evolves (ret tt).
Proof using Type.
  intros w. exists w. split_and!; [done|done|]. intros rs Hs. exists []. by rewrite app_nil_r.
Qed.

Lemma evolves_bind m k : evolves m -> evolves k -> evolves (m ;;; k).
Proof using Type.
  intros Hm Hk w. destruct (Hm w) as (w1 & Hr & Ha & Hs).
  destruct (Hk w1) as (w2 & Hr2 & Ha2 & Hs2). exists w2.
  rewrite (bind_run _ _ _ _ _ Hr). split_and!; [done|congruence|].
  intros rs Hrs. destruct (Hs rs Hrs) as [rs1 Hrs1]. destruct (Hs2 _ Hrs1) as [rs2 Hrs2].
  exists (rs1 ++ rs2). by rewrite app_assoc.
Qed.

Lemma evolves_log text nums : evolves (log text nums).
Proof using Type.
  intros w. eexists. split; [reflexivity|]. split; [done|]. intros rs Hs. exists [].
  by rewrite app_nil_r.
Qed.

Lemma evolves_set f :
  (forall p, p_afe (f p) = p_afe p) ->
  (forall rs p, shows rs p -> exists rs', shows (rs ++ rs') (f p)) -> evolves (set_panel f).
Proof using Type. intros Ha Hf w. eexists. split; [reflexivity|]. split; [apply Ha|intros rs Hs; by apply Hf]. Qed.

(** A change of the switches and knobs only. *)
Lemma evolves_controls f :
  (forall p, p_afe (f p) = p_afe p /\ voltage_graph (f p) = voltage_graph p /\
     current_graph (f p) = current_graph p /\ power_graph (f p) = power_graph p /\
     displays (f p) = displays p /\
     (power_5v_lamp (f p), power_3v3_lamp (f p), alert_5v_lamp (f p), alert_3v3_lamp (f p)) =
     (power_5v_lamp p, power_3v3_lamp p, alert_5v_lamp p, alert_3v3_lamp p)) ->
  evolves (set_panel f).
Proof using Type.
  intros Hf. apply evolves_set; intros *; destruct (Hf p) as (Ha & Hv & Hc & Hp & Hd & Hl); [done|].
  intros [? ? ? ? ?]. exists []. rewrite app_nil_r. split; congruence.
Qed.

(** [run_op] and [read_status_silent]: they end normally, with the outcome of the operation,
    the panel as it was and a line of log. *)
Lemma run_op_spec {R : Type} `{!Status R} label (fn : M (zworld S B) R) (w : pworld) :
  run_op label fn w =
    match fn (pz w) with
    | (Ok r, z) => (Ok (Some r), PW z (pn w) (plog w ++ [LogLine (afe_tag (pn w) +:+ label
        +:+ ": success=" +:+ str_bool (st_success r) +:+ " message='" +:+ st_message r +:+ "'") []]))
    | (Raise e, z) => (Ok None, PW z (pn w) (plog w ++ [LogLine (afe_tag (pn w) +:+ label
        +:+ ": ERROR " +:+ exn_text e) []]))
    end.
Proof using Type.
  unfold run_op. unfold bind at 1, gets, try_except. unfold bind at 1, on_client.
  by destruct (fn (pz w)) as [[r|e] z].
Qed.

Lemma silent_spec (w : pworld) :
  read_status_silent route w =
    match client_read_status route (p_afe (pn w)) (pz w) with
    | (Ok r, z) => (Ok (Some r), PW z (pn w) (plog w))
    | (Raise e, z) => (Ok None, PW z (pn w) (plog w ++ [LogLine (afe_tag (pn w)
        +:+ "AUTO_REFRESH: ERROR " +:+ exn_text e) []]))
    end.
Proof using Type.
  unfold read_status_silent. unfold bind at 1, gets, try_except. unfold bind at 1, on_client.
  by destruct (client_read_status route _ (pz w)) as [[r|e] z].
Qed.

(** A computation that gives an optional value and leaves the panel as it was. *)
Definition asks {R : Type} (m : M pworld (option R)) : Prop :=
  forall w, exists r z l, m w = (Ok r, PW z (pn w) l).

Lemma asks_run_op {R : Type} `{!Status R} label (fn : M (zworld S B) R) : asks (run_op label fn).
Proof using Type.
  intros w. rewrite run_op_spec. destruct (fn (pz w)) as [[r|e] z]; eauto.
Qed.

Lemma asks_silent : asks (read_status_silent route).
Proof using Type.
  intros w. rewrite silent_spec. destruct (client_read_status _ _ _) as [[r|e] z]; eauto.
Qed.

Lemma evolves_ask {R : Type} (m : panel -> M pworld (option R)) (k : panel -> option R -> M pworld unit) :
  (forall p, asks (m p)) -> (forall p r, evolves (k p r)) ->
  evolves (p <- gets pn ;; r <- m p ;; k p r).
Proof using Type.
  intros Hm Hk w. unfold bind at 1, gets. destruct (Hm (pn w) w) as (r & z & l & Hr).
  rewrite (bind_run _ _ _ _ _ Hr).
  destruct (Hk (pn w) r (PW z (pn w) l)) as (w' & Hr' & Ha & Hs). by exists w'.
Qed.

Lemma evolves_read_status b : evolves (panel_read_status route b).
Proof using Type.
  apply (evolves_ask (fun p => if b then run_op "READ_STATUS" (client_read_status route (p_afe p))
                               else read_status_silent route)).
  - intros p. destruct b; [apply asks_run_op|apply asks_silent].
  - intros p [r|]; [|apply evolves_skip]. apply evolves_bind.
    + apply evolves_set; [done|]. intros rs q Hs. exists [r]. by apply shows_status.
    + destruct b; [apply evolves_log|apply evolves_skip].
Qed.

Lemma evolves_press b : evolves (press route kept b).
Proof using Type.
  destruct b; [| |apply (evolves_read_status true)| | |];
    (eapply evolves_ask; [intros p; apply asks_run_op|]); intros p [r|]; try apply evolves_skip.
  - by apply evolves_controls.
  - apply (evolves_read_status true).
  - apply evolves_bind; [by apply evolves_controls|apply evolves_log].
Qed.

End panels.

(** ** The window *)

Section window.
Context {S B : Type} `{Peer S B, Size B, Proto B (ControlEnvelopeV2 B), Messages B}.
Context (route : string) (kept : float -> float).
Abbreviation app := (app (S:=S) (B:=B)).

(** The statuses the panels show, one list for each. *)
Definition window_shows (a : app) : Prop :=
  p_afe <$> panels a = seqZ 0 5 /\ exists rss, Forall2 shows rss (panels a).

Lemma refresh_panels_spec ps z l :
  let '(ps', z', l') := refresh_panels route ps z l in
  p_afe <$> ps' = p_afe <$> ps /\
  forall rss, Forall2 shows rss ps -> exists rss', Forall2 shows rss' ps'.
Proof using Type.
  revert z l. induction ps as [|p ps IH]; intros z l; cbn [refresh_panels].
  { split; [done|]. eauto. }
  destruct (evolves_read_status route false (PW z p l)) as (w & Hr & Ha & Hs). rewrite Hr.
  cbn [snd]. specialize (IH (pz w) (plog w)).
  destruct (refresh_panels route ps (pz w) (plog w)) as [[ps' z'] l'].
  destruct IH as [Ha' IH]. split; [rewrite !fmap_cons; by f_equal|].
  intros rss Hrss. apply Forall2_cons_inv_r in Hrss as (rs & rss0 & Hp & Hps & ->).
  destruct (Hs rs Hp) as [rs' Hrs']. destruct (IH _ Hps) as [rss' Hrss'].
  exists ((rs ++ rs') :: rss'). by constructor.
Qed.

Lemma window_refresh (a : app) : window_shows a -> window_shows (refresh_all_now route a).
Proof using Type.
  intros [Ha [rss Hs]]. unfold refresh_all_now.
  pose proof (refresh_panels_spec (panels a) (az a) (alog a)) as Hr.
  destruct (refresh_panels _ _ _ _) as [[ps z] l]. destruct Hr as [Ha' Hs'].
  split; cbn; [congruence|eauto].
Qed.

Lemma window_press i b (a : app) : window_shows a -> window_shows (press_on route kept i b a).
Proof using Type.
  intros [Ha [rss Hs]]. unfold press_on. destruct (panels a !! i) as [p|] eqn:Hi; [|by split; eauto].
  destruct (evolves_press route kept b (PW (az a) p (alog a))) as (w & Hr & Hp & Hev). rewrite Hr.
  cbn [snd pz pn] in *. split; cbn [panels].
  - rewrite list_fmap_insert, Hp. rewrite list_insert_id; [done|]. by rewrite list_lookup_fmap, Hi.
  - destruct (Forall2_lookup_r _ _ _ _ _ Hs Hi) as (rs & Hrs & Hshow).
    destruct (Hev rs Hshow) as [rs' Hrs']. exists (<[i:=rs ++ rs']> rss). by apply Forall2_insert.
Qed.

Lemma window_handle (a : app) e : window_shows a -> window_shows (handle route kept a e).
Proof using Type.
  intros Ha. destruct e as [i b| | |on]; cbn [handle].
  - by apply window_press.
  - by apply window_refresh.
  - unfold auto_refresh_tick. destruct (auto_refresh a); [by apply window_refresh|done].
  - exact Ha.
Qed.

Lemma window_new z : window_shows (new_app kept z).
Proof using Type.
  split; [done|]. exists (replicate 5 []). repeat (constructor; [apply shows_new|]). constructor.
Qed.

(** The exchange a button starts with, and its label in the log. *)
Definition request_by (b : button) (p : panel) : M (zworld S B) unit :=
  match b with
  | CommitEnable => set_block_enable route (p_afe p) (enable_check p) ;;; ret tt
  | CommitPower => set_power_states route (p_afe p) (power_5v p) (power_3v3 p) ;;; ret tt
  | ScanTelemetry => client_read_status route (p_afe p) ;;; ret tt
  | ClearAlerts => clear_alert_flag route (p_afe p) ;;; ret tt
  | RecallConfig => read_block_config route (p_afe p) ;;; ret tt
  | ProgramBlock => configure_block route (p_afe p) (knobs p) ;;; ret tt
  end.

Definition label_of (b : button) : string :=
  match b with
  | CommitEnable => "SET_BLOCK_ENABLE"
  | CommitPower => "SET_POWER_STATES"
  | ScanTelemetry => "READ_STATUS"
  | ClearAlerts => "CLEAR_ALERT_FLAG"
  | RecallConfig => "READ_BLOCK_CONFIG"
  | ProgramBlock => "CONFIGURE_BLOCK"
  end.

Lemma raised_before {R : Type} (m : M (zworld S B) R) z e z' :
  (m ;;; ret tt) z = (Raise e, z') -> m z = (Raise e, z').
Proof using Type. unfold bind. destruct (m z) as [[r|e'] z1]; [done|]. by intros [= -> ->]. Qed.

Lemma run_op_raised {R A : Type} `{!Status R} label (fn : M (zworld S B) R)
    (k : option R -> M (pworld (S:=S) (B:=B)) A) w e z :
  fn (pz w) = (Raise e, z) ->
  bind (run_op label fn) k w = k None (PW z (pn w) (plog w ++ [LogLine (afe_tag (pn w) +:+ label
    +:+ ": ERROR " +:+ exn_text e) []])).
Proof using Type. intros Hr. unfold bind. by rewrite run_op_spec, Hr. Qed.

End window.

(** ** Properties of the panels *)

(** After any clicks, refreshes and timer ticks, whatever the peer does: the panels are
    those of AFE blocks 0 to 4 in order, and each shows the statuses of some list: its lamps and
    displays those of the last status, its six series the last ninety values in step. *)
Theorem hdmezz_panels_in_step {S B : Type}
    `{Peer S B, Size B, Proto B (ControlEnvelopeV2 B), Messages B} rt kept (z : zworld S B) es :
  let a := fold_left (handle rt kept) es (new_app kept z) in
  p_afe <$> panels a = seqZ 0 5 /\ exists rss, Forall2 shows rss (panels a).
Proof.
  pose proof (window_new (S:=S) (B:=B) kept z) as Hw. revert Hw. generalize (new_app kept z).
  induction es as [|e es IH]; intros a Ha; [exact Ha|]. apply (IH (handle rt kept a e)).
  by apply window_handle.
Qed.

(** A click whose request fails (the send or the receive times out, or the reply is refused)
    leaves the panel exactly as it was and logs the error; the window goes on. *)
Theorem hdmezz_failure_leaves_panel {S B : Type}
    `{Peer S B, Size B, Proto B (ControlEnvelopeV2 B), Messages B} rt kept b
    (w : pworld (S:=S) (B:=B)) e z :
  request_by rt b (pn w) (pz w) = (Raise e, z) ->
  press rt kept b w = (Ok tt, PW z (pn w)
    (plog w ++ [LogLine (afe_tag (pn w) +:+ label_of b +:+ ": ERROR " +:+ exn_text e) []])).
Proof.
  intros Hr. destruct b; apply raised_before in Hr; cbn [press];
    unfold apply_enable, apply_power, panel_read_status, clear_alerts, read_config, panel_configure;
    unfold bind at 1, gets; by rewrite (run_op_raised _ _ _ _ _ _ Hr).
Qed.

(** ** A peer for the examples *)

(** Serialized messages as they are. *)
Inductive hwire : Type :=
  | HEmpty
  | HEnv (e : ControlEnvelopeV2 hwire)
  | HSetEnable (m : cmd_setHDMezzBlockEnable)
  | HSetEnableR (m : cmd_setHDMezzBlockEnable_response)
  | HConf (m : cmd_configureHDMezzBlock)
  | HConfR (m : cmd_configureHDMezzBlock_response)
  | HReadConf (m : cmd_readHDMezzBlockConfig)
  | HReadConfR (m : cmd_readHDMezzBlockConfig_response)
  | HPower (m : cmd_setHDMezzPowerStates)
  | HPowerR (m : cmd_setHDMezzPowerStates_response)
  | HStatus (m : cmd_readHDMezzStatus)
  | HStatusR (m : cmd_readHDMezzStatus_response)
  | HClear (m : cmd_clearHDMezzAlertFlag)
  | HClearR (m : cmd_clearHDMezzAlertFlag_response).

Definition bad_message : exn := Exn DecodeError "Error parsing message".

#[export] Instance hwire_size : Size hwire :=
  { size b := match b with HEmpty => 0 | _ => 1 end }.

#[export] Instance hwire_env : Proto hwire (ControlEnvelopeV2 hwire) :=
  { ser := HEnv; parse b := match b with HEnv m => Ok m | _ => Raise bad_message end }.

#[export] Instance hwire_env_laws : ProtoLaws hwire (ControlEnvelopeV2 hwire).
Proof. by split. Qed.

#[export] Instance hwire_messages : Messages hwire := {
  m_set_enable := {| ser := HSetEnable;
    parse b := match b with HSetEnable m => Ok m | _ => Raise bad_message end |};
  m_set_enable_resp := {| ser := HSetEnableR;
    parse b := match b with HSetEnableR m => Ok m | _ => Raise bad_message end |};
  m_configure := {| ser := HConf;
    parse b := match b with HConf m => Ok m | _ => Raise bad_message end |};
  m_configure_resp := {| ser := HConfR;
    parse b := match b with HConfR m => Ok m | _ => Raise bad_message end |};
  m_read_config := {| ser := HReadConf;
    parse b := match b with HReadConf m => Ok m | _ => Raise bad_message end |};
  m_read_config_resp := {| ser := HReadConfR;
    parse b := match b with HReadConfR m => Ok m | _ => Raise bad_message end |};
  m_set_power := {| ser := HPower;
    parse b := match b with HPower m => Ok m | _ => Raise bad_message end |};
  m_set_power_resp := {| ser := HPowerR;
    parse b := match b with HPowerR m => Ok m | _ => Raise bad_message end |};
  m_read_status := {| ser := HStatus;
    parse b := match b with HStatus m => Ok m | _ => Raise bad_message end |};
  m_read_status_resp := {| ser := HStatusR;
    parse b := match b with HStatusR m => Ok m | _ => Raise bad_message end |};
  m_clear_alert := {| ser := HClear;
    parse b := match b with HClear m => Ok m | _ => Raise bad_message end |};
  m_clear_alert_resp := {| ser := HClearR;
    parse b := match b with HClearR m => Ok m | _ => Raise bad_message end |} }.

(** A server that does what it is asked, reports [up] and refuses to read configurations. *)
Definition zero_params : block_params := Params zero zero zero zero zero zero.

Definition hd_answer (b : hwire) : hwire :=
  match b with
  | HSetEnable m => HSetEnableR (SetEnableResp true "enabled" (se_afeBlock m) (se_enable m))
  | HConf m => HConfR (ConfBlockResp true "configured" (cb_afeBlock m) (cb_params m))
  | HReadConf m => HReadConfR (ReadConfResp false "not configured" (rc_afeBlock m) zero_params
                                 zero zero zero zero 0 0)
  | HPower m => HPowerR (SetPowerResp true "done" (sp_afeBlock m) (sp_power5V m) (sp_power3V3 m))
  | HStatus m => HStatusR (ReadStatusResp true "" (rs_afeBlock m) true true (f_decimal false 5 0)
                             (f_decimal false 33 (-1)) zero zero zero zero false true)
  | HClear m => HClearR (ClearAlertResp true "cleared" (ca_afeBlock m))
  | _ => HEmpty
  end.

Definition hd_reply (env : ControlEnvelopeV2 hwire) : ControlEnvelopeV2 hwire :=
  Env 2 DIR_RESPONSE (mtype env + 1) (hd_answer (payload env)) (task_id env) (msg_id env + 1)
      (msg_id env) (route env) 0.

(** The state of the peer: whether it answers. *)
#[export] Instance hd_peer : Peer bool hwire := {
  can_send _ := true;
  answer up b := (up, match b with HEnv env => if up then [[HEnv (hd_reply env)]] else [] | _ => [] end) }.

Definition hd_world (up : bool) : zworld bool hwire :=
  ZW up [] [] [] (fun k => 1000 + Z.of_nat k) 0 (fun _ => 7) 0 0 [].

(** The same server, always up. *)
Definition hd_up_peer : Peer unit hwire := {|
  can_send _ := true;
  answer u b := (u, match b with HEnv env => [[HEnv (hd_reply env)]] | _ => [] end) |}.

Lemma hd_up_answers : Answering (H := hd_up_peer) hd_reply.
Proof. split; try done. intros u env. by exists u. Qed.

Lemma hdmezz_main_serves_witness :
  let w := ZW tt [] [] [] (fun k => 1000 + Z.of_nat k) 0 (fun _ => 7) 0 0 [] in
  request_of 3 (CSetPower "1" "0") = Some (406, HPower (SetPower 3 true false)) /\
  exists env st w', main (H := hd_up_peer) "mezz/0" 3 (CSetPower "1" "0") w = (Ok st, w') /\
    mtype env = 406 /\ payload env = HPower (SetPower 3 true false) /\
    (st = 0 <-> size (payload (hd_reply env)) <> 0 /\
       reply_success (CSetPower "1" "0") (payload (hd_reply env)) = true) /\
    cur w' = [] /\ inbox w' = [].
Proof.
  intros w. split; [reflexivity|].
  apply (hdmezz_main_serves (H := hd_up_peer) hwire_env_laws hd_reply hd_up_answers "mezz/0" 3
    (CSetPower "1" "0") w); reflexivity.
Defined.

Lemma hdmezz_failure_leaves_panel_witness :
  let p := new_panel (fun x => x) 2 in
  let w := PW (hd_world false) p [] in
  exists z, request_by "mezz/0" ScanTelemetry p (hd_world false) = (Raise again, z) /\
    press "mezz/0" (fun x => x) ScanTelemetry w =
      (Ok tt, PW z p ([] ++ [LogLine (afe_tag p +:+ label_of ScanTelemetry +:+ ": ERROR "
                                      +:+ exn_text again) []])).
Proof.
  intros p w.
  exists (snd (request_by "mezz/0" ScanTelemetry p (hd_world false))).
  assert (Hr : request_by "mezz/0" ScanTelemetry p (hd_world false) =
    (Raise again, snd (request_by "mezz/0" ScanTelemetry p (hd_world false)))) by reflexivity.
  split; [exact Hr|].
  exact (hdmezz_failure_leaves_panel "mezz/0" (fun x => x) ScanTelemetry w again _ Hr).
Defined.

(** A response that reports failure is shown like any other: a refused recall sets the knobs
    to the zeros of the empty response, which the next "Program Block" would send. *)
Example refused_recall_zeroes_knobs :
  let a := fold_left (handle "mezz/0" (fun x => x)) [Click 0 RecallConfig]
             (new_app (fun x => x) (hd_world true)) in
  knobs <$> panels a !! 0%nat = Some zero_params.
Proof. vm_compute. reflexivity. Qed.

(** Options in front of the subcommand have no effect. *)
Example options_before_subcommand_ignored :
  c_ip (parse_common (Given (Some "10.73.137.110") None None None None)
                     (Some (Given None None None None None))) = "127.0.0.1".
Proof. reflexivity. Qed.
