(* ===== verification/ReadState.v ===== *)
(** The scripts that only read a board: [client/read_fe_state_v2.py], which makes a snapshot of
    the front end, and [client/vbias_monitor_all.py], which follows the bias monitors.

    [read_fe_state_v2] is modelled from the socket on; of [vbias_monitor_all] the request, the
    rails parser, one pass of the loop and its histories, without the plots. *)
From S2P Require Import Prelude PyStr PyFloat PyVal ChannelSpec EnvelopeV2 Requests.

(** ** Messages *)

Inductive cmd_readTrim_allChannels : Type := ReadTrims.
Record cmd_readTrim_allChannels_response : Type := TrimsResp {
  tr_success : bool; tr_message : string; trimValues : list Z }.
Inductive cmd_readOffset_allChannels : Type := ReadOffsets.
Record cmd_readOffset_allChannels_response : Type := OffsetsResp {
  of_success : bool; of_message : string; offsetValues : list Z }.
Record cmd_readAFEVgain : Type := ReadVgain { vg_afeBlock : Z }.
Record cmd_readAFEVgain_response : Type := VgainResp {
  vg_success : bool; vg_message : string; vgr_afeBlock : Z; vgainValue : Z }.
Record cmd_readAFEBiasSet : Type := ReadBias { bs_afeBlock : Z }.
Record cmd_readAFEBiasSet_response : Type := BiasResp {
  bs_success : bool; bs_message : string; bsr_afeBlock : Z; biasValue : Z }.
Record cmd_readBiasVoltageMonitor : Type := ReadMonitor { bm_afeBlock : Z }.
Record cmd_readBiasVoltageMonitor_response : Type := MonitorResp {
  bm_success : bool; bm_message : string; bmr_afeBlock : Z; biasVoltageValue : Z }.
Inductive cmd_readVbiasControl : Type := ReadVbias.
Record cmd_readVbiasControl_response : Type := VbiasResp {
  vb_success : bool; vb_message : string; vBiasControlValue : Z }.
Record cmd_readAFEReg : Type := ReadReg { rg_afeBlock : Z; regAddress : Z }.
Record cmd_readAFEReg_response : Type := RegResp {
  rg_success : bool; rg_message : string; rgr_afeBlock : Z; rgr_regAddress : Z; regValue : Z }.

#[export] Instance trims_status : Status cmd_readTrim_allChannels_response :=
  { st_success := tr_success; st_message := tr_message }.
#[export] Instance offsets_status : Status cmd_readOffset_allChannels_response :=
  { st_success := of_success; st_message := of_message }.
#[export] Instance vgain_status : Status cmd_readAFEVgain_response :=
  { st_success := vg_success; st_message := vg_message }.
#[export] Instance bias_status : Status cmd_readAFEBiasSet_response :=
  { st_success := bs_success; st_message := bs_message }.
#[export] Instance monitor_status : Status cmd_readBiasVoltageMonitor_response :=
  { st_success := bm_success; st_message := bm_message }.
#[export] Instance vbias_status : Status cmd_readVbiasControl_response :=
  { st_success := vb_success; st_message := vb_message }.
#[export] Instance reg_status : Status cmd_readAFEReg_response :=
  { st_success := rg_success; st_message := rg_message }.

(** The serializations the scripts use. *)
Class ReadMessages (B : Type) : Type := {
  rm_trims :: Proto B cmd_readTrim_allChannels;
  rm_trims_resp :: Proto B cmd_readTrim_allChannels_response;
  rm_offsets :: Proto B cmd_readOffset_allChannels;
  rm_offsets_resp :: Proto B cmd_readOffset_allChannels_response;
  rm_vgain :: Proto B cmd_readAFEVgain;
  rm_vgain_resp :: Proto B cmd_readAFEVgain_response;
  rm_bias :: Proto B cmd_readAFEBiasSet;
  rm_bias_resp :: Proto B cmd_readAFEBiasSet_response;
  rm_monitor :: Proto B cmd_readBiasVoltageMonitor;
  rm_monitor_resp :: Proto B cmd_readBiasVoltageMonitor_response;
  rm_vbias :: Proto B cmd_readVbiasControl;
  rm_vbias_resp :: Proto B cmd_readVbiasControl_response;
  rm_reg :: Proto B cmd_readAFEReg;
  rm_reg_resp :: Proto B cmd_readAFEReg_response }.

(** ** [read_fe_state_v2] *)

Record state_args : Type := ReadArgs {
  ra_endpoint : string; ra_route : string; afe_count : Z; skip_bias_monitor : bool;
  ra_json : bool; afe_reg : list (string * string) }.

(** What is known of an AFE; the monitor is [None] when it was not read or not successful. *)
Record afe_entry : Type := AfeEntry {
  ae_id : Z; ae_attenuators : Z; ae_v_bias : Z; ae_bias_monitor_mV : option Z }.

Section read_state.
Context {S B : Type} `{Peer S B, Size B, !Proto B (ControlEnvelopeV2 B), !ReadMessages B}.
Abbreviation Wd := (zworld S B).
Context (pid rand : Z) (args : state_args).

(** [do_op] *)
Definition do_op (R : Type) `{!Proto B R, !Status R} (req : B) (req_type resp_type : Z)
    (label : string) (verbose : bool) : M Wd R :=
  req_env <- build_env (next_ids pid rand) req_type req (ra_route args) ;;
  reply_env <- send_and_recv req_env resp_type verbose ;;
  resp <- lift (parse_or (payload reply_env) (unparsed ("Failed to parse response for " +:+ label))) ;;
  when verbose (say ("[" +:+ label +:+ "] success=" +:+ str_bool (st_success resp) +:+ " message="
                     +:+ strip (st_message resp))) ;;;
  ret resp.

(** One turn of the loop over the AFEs. *)
Definition read_afe (verbose : bool) (afe : Z) : M Wd afe_entry :=
  let block := "[afe=" +:+ str_Z afe +:+ "]" in
  a <- lift (set_u32 afe) ;;
  resp_vg <- do_op cmd_readAFEVgain_response (ser (ReadVgain a)) MT2_READ_AFE_VGAIN_REQ
               MT2_READ_AFE_VGAIN_RESP ("READ_AFE_VGAIN" +:+ block) verbose ;;
  resp_bias <- do_op cmd_readAFEBiasSet_response (ser (ReadBias a)) MT2_READ_AFE_BIAS_SET_REQ
                 MT2_READ_AFE_BIAS_SET_RESP ("READ_AFE_BIAS_SET" +:+ block) verbose ;;
  monitor <- (if skip_bias_monitor args then ret None else
    resp_mon <- do_op cmd_readBiasVoltageMonitor_response (ser (ReadMonitor a))
                  MT2_READ_BIAS_VOLTAGE_MONITOR_REQ MT2_READ_BIAS_VOLTAGE_MONITOR_RESP
                  ("READ_BIAS_VOLTAGE_MONITOR" +:+ block) verbose ;;
    ret (if bm_success resp_mon then Some (biasVoltageValue resp_mon) else None)) ;;
  ret (AfeEntry afe (vgainValue resp_vg) (biasValue resp_bias) monitor).

(** One [--afe-reg AFE REG]. *)
Definition read_reg (verbose : bool) (spec : string * string) : M Wd unit :=
  afe <- lift (int10 (fst spec)) ;;
  reg_addr <- lift (int0 (snd spec)) ;;
  a <- lift (set_u32 afe) ;;
  r <- lift (set_u32 reg_addr) ;;
  do_op cmd_readAFEReg_response (ser (ReadReg a r)) MT2_READ_AFE_REG_REQ MT2_READ_AFE_REG_RESP
    ("READ_AFE_REG[afe=" +:+ str_Z afe +:+ ",reg=0x" +:+ hex_pad true 1 reg_addr +:+ "]") verbose ;;;
  ret tt.

Definition py_ints (l : list Z) : pyval := PyList (PyInt <$> l).

(** The snapshot. *)
Definition snapshot (offsets trims : list Z) (entries : list afe_entry) (bias_ctrl : Z) : pyval :=
  PyDict
    [("channel_analog_conf",
      PyDict [("ids", py_ints (seqZ 0 40)); ("gains", py_ints (replicate 40 1));
              ("offsets", py_ints offsets); ("trims", py_ints trims)]);
     ("afes",
      PyDict [("ids", py_ints (ae_id <$> entries));
              ("attenuators", py_ints (ae_attenuators <$> entries));
              ("v_biases", py_ints (ae_v_bias <$> entries));
              ("bias_monitors_mV",
               PyList ((fun e => from_option PyInt PyNone (ae_bias_monitor_mV e)) <$> entries))]);
     ("bias_ctrl", PyInt bias_ctrl)].

Definition read_all (verbose : bool) : M Wd pyval :=
  trim_all <- do_op cmd_readTrim_allChannels_response (ser ReadTrims) MT2_READ_TRIM_ALL_CH_REQ
                MT2_READ_TRIM_ALL_CH_RESP "READ_TRIM_ALL_CH" verbose ;;
  offset_all <- do_op cmd_readOffset_allChannels_response (ser ReadOffsets)
                  MT2_READ_OFFSET_ALL_CH_REQ MT2_READ_OFFSET_ALL_CH_RESP "READ_OFFSET_ALL_CH" verbose ;;
  afe_entries <- map_m (read_afe verbose) (seqZ 0 (afe_count args)) ;;
  resp_vbias <- do_op cmd_readVbiasControl_response (ser ReadVbias) MT2_READ_VBIAS_CONTROL_REQ
                  MT2_READ_VBIAS_CONTROL_RESP "READ_VBIAS_CONTROL" verbose ;;
  for_each (afe_reg args) (read_reg verbose) ;;;
  let config := snapshot (offsetValues offset_all) (trimValues trim_all) afe_entries
                  (vBiasControlValue resp_vbias) in
  when verbose (say "=== FE STATE SNAPSHOT (read-only) ===" ;;; show (Document config)) ;;;
  ret config.

(** The script, from the connected socket on; an exception ends it. *)
Definition main : M Wd unit :=
  when (negb (ra_json args))
    (say ("Connected to " +:+ ra_endpoint args +:+ " route=" +:+ ra_route args)) ;;;
  config <- read_all (negb (ra_json args)) ;;
  when (ra_json args) (show (Document config)).

End read_state.

(** ** [vbias_monitor_all] *)

(** The pattern of [parse_rails], a name, a colon, blanks and a number: the text of the name
    and of the number at the start of [s], and what follows. *)
Definition is_rail_char (c : ascii) : bool :=
  is_digit c || ((65 <=? code c) && (code c <=? 90)).

Fixpoint span (p : ascii -> bool) (s : string) : string * string :=
  match s with
  | EmptyString => ("", "")
  | String c s' => if p c then let '(a, b) := span p s' in (String c a, b) else ("", s)
  end.

(** [[-]?\d+(?:\.\d+)?] *)
Definition number_at (s : string) : option (string * string) :=
  let '(sign, s1) := match s with
                     | String c s' => if Ascii.eqb c "-" then ("-", s') else ("", s)
                     | EmptyString => ("", s)
                     end in
  let '(whole, s2) := span is_digit s1 in
  if decide (whole = "") then None else
  match s2 with
  | String c s3 =>
      if Ascii.eqb c "." then
        let '(frac, s4) := span is_digit s3 in
        if decide (frac = "") then Some (sign +:+ whole, s2)
        else Some (sign +:+ whole +:+ "." +:+ frac, s4)
      else Some (sign +:+ whole, s2)
  | EmptyString => Some (sign +:+ whole, s2)
  end.

Definition rail_at (s : string) : option (string * string * string) :=
  let '(name, s1) := span is_rail_char s in
  if decide (name = "") then None else
  match s1 with
  | String c s2 =>
      if Ascii.eqb c ":" then
        '(num, rest) ← number_at (snd (span is_space s2)); Some (name, num, rest)
      else None
  | EmptyString => None
  end.

(** [re.findall]: a failed start moves on by one character; the length bounds the search. *)
Fixpoint find_rails (fuel : nat) (s : string) : list (string * string) :=
  match fuel, s with
  | Datatypes.S fuel', String _ s' =>
      match rail_at s with
      | Some (name, num, rest) => (name, num) :: find_rails fuel' rest
      | None => find_rails fuel' s'
      end
  | _, _ => []
  end.

(** [parse_rails]; a repeated name keeps its last value. *)
Definition parse_rails (msg : string) : result (gmap string float) :=
  rfold (fun rails nv =>
    v <-! py_float (snd nv) ;;
    Ok (<[(if decide (fst nv = "-5VA") then "5VA" else fst nv) := v]> rails))
    (find_rails (String.length msg) msg) ∅.

Definition names_rails : list string := ["3V3PDS"; "1V8PDS"; "3V3A"; "1V8A"; "5VA"].

Definition bias_name (afe : Z) : string := "BIAS" +:+ str_Z afe.

(** A [deque] of bounded length. *)
Definition push (max_points : Z) (l : list float) (x : float) : list float :=
  let l' := l ++ [x] in drop (length l' - Z.to_nat max_points) l'.

Definition history : Type := gmap string (list float).

Record monitor_state : Type := Monitor { hist : history; times : list Z }.

Section monitor.
Context {S B : Type} `{Peer S B, Size B, !Proto B (ControlEnvelopeV2 B), !ReadMessages B}.
Abbreviation Wd := (zworld S B).
Context (mroute : string) (max_points : Z).

(** [read_one]: no identifiers, and neither parse is checked. *)
Definition read_one (afe : Z) : M Wd cmd_readBiasVoltageMonitor_response :=
  a <- lift (set_u32 afe) ;;
  z_send (ser (Env 2 DIR_REQUEST MT2_READ_BIAS_VOLTAGE_MONITOR_REQ (ser (ReadMonitor a)) 0 0 0
                   mroute 0)) ;;;
  frames <- recv_frames ;;
  f <- last_frame frames ;;
  rep <- lift (parse f) ;;
  (if negb (mtype rep =? MT2_READ_BIAS_VOLTAGE_MONITOR_RESP)
   then raise (Exn RuntimeError ("Unexpected reply type " +:+ str_Z (mtype rep)))
   else ret tt) ;;;
  lift (parse (payload rep)).

Definition push_to (name : string) (x : float) (h : history) : history :=
  <[name := push max_points (default [] (h !! name)) x]> h.

(** A successful reading of an AFE enters the histories; the rails are those of the first. *)
Definition note_reading (h : history) (rails_read : bool)
    (out : cmd_readBiasVoltageMonitor_response) : result (history * bool) :=
  bias_volts <-! f_div (f_of_Z (biasVoltageValue out)) (f_of_Z 1000) ;;
  let h1 := push_to (bias_name (bmr_afeBlock out)) bias_volts h in
  if rails_read then Ok (h1, true) else
  rail_vals <-! parse_rails (bm_message out) ;;
  Ok (foldl (fun h name =>
        match rail_vals !! name with Some v => push_to name v h | None => h end) h1 names_rails,
      true).

(** One AFE of a pass. *)
Definition monitor_afe (st : history * bool) (afe : Z) : M Wd (history * bool) :=
  out <- try_except (r <- read_one afe ;; ret (Some r)) (fun e =>
    (if decide (exn_class e = ZmqAgain) then say ("[timeout] afe=" +:+ str_Z afe +:+ " no reply")
     else say ("[error] afe=" +:+ str_Z afe +:+ " " +:+ exn_text e)) ;;;
    ret None) ;;
  match out with
  | None => ret st
  | Some out =>
      if negb (bm_success out)
      then say ("[server error] afe=" +:+ str_Z afe +:+ " message='" +:+ bm_message out +:+ "'") ;;;
           ret st
      else lift (note_reading (fst st) (snd st) out)
  end.

(** One pass of the loop at [loop_time], up to the status line and the plots. *)
Definition monitor_pass (afes : list Z) (loop_time : Z) (m : monitor_state) : M Wd monitor_state :=
  st <- fold_m afes monitor_afe (hist m, false) ;;
  let ts := times m ++ [loop_time] in
  ret (Monitor (fst st) (drop (length ts - Z.to_nat max_points) ts)).

(** The histories at the start. *)
Definition new_monitor (afes : list Z) : monitor_state :=
  Monitor (list_to_map ((fun n => (n, [])) <$> names_rails ++ (bias_name <$> afes))) [].

End monitor.

(** ** What [read_fe_state_v2] sends *)

Section reading.
Context {S B : Type} `{Peer S B, Size B, !Proto B (ControlEnvelopeV2 B), !ReadMessages B}.
Abbreviation Wd := (zworld S B).
Context (pid rand : Z) (args : state_args).

Definition afe_reads (afe : Z) : list (Z * B) :=
  [(MT2_READ_AFE_VGAIN_REQ, ser (ReadVgain afe)); (MT2_READ_AFE_BIAS_SET_REQ, ser (ReadBias afe))]
  ++ if skip_bias_monitor args then []
     else [(MT2_READ_BIAS_VOLTAGE_MONITOR_REQ, ser (ReadMonitor afe))].

Definition reg_read (spec : string * string) : list (Z * B) :=
  match int10 (fst spec), int0 (snd spec) with
  | Ok a, Ok r => [(MT2_READ_AFE_REG_REQ, ser (ReadReg a r))]
  | _, _ => []
  end.

Definition read_plan : list (Z * B) :=
  [(MT2_READ_TRIM_ALL_CH_REQ, ser ReadTrims); (MT2_READ_OFFSET_ALL_CH_REQ, ser ReadOffsets)]
  ++ concat (afe_reads <$> seqZ 0 (afe_count args))
  ++ [(MT2_READ_VBIAS_CONTROL_REQ, ser ReadVbias)]
  ++ concat (reg_read <$> afe_reg args).

(** The types of the requests that read. *)
Definition READS : list Z :=
  [MT2_READ_TRIM_ALL_CH_REQ; MT2_READ_OFFSET_ALL_CH_REQ; MT2_READ_AFE_VGAIN_REQ;
   MT2_READ_AFE_BIAS_SET_REQ; MT2_READ_BIAS_VOLTAGE_MONITOR_REQ; MT2_READ_VBIAS_CONTROL_REQ;
   MT2_READ_AFE_REG_REQ].

Lemma requests_do_op (R : Type) `{!Proto B R, !Status R} req ty resp label v :
  requests (fun _ => True) [(ty, req)] (do_op (S:=S) pid rand args R req ty resp label v).
Proof using Type.
  unfold do_op. apply requests_env; [apply id_next|]. intros env <-.
  eapply requests_then; [apply requests_send_and_recv|]. intros rep.
  apply unsent_bind; [apply unsent_lift|intros r]. apply unsent_bind; [|done].
  by apply unsent_when.
Qed.

Lemma requests_read_afe v afe :
  requests (fun _ => True) (afe_reads afe) (read_afe (S:=S) pid rand args v afe).
Proof using Type.
  unfold read_afe, afe_reads. cbv zeta. apply requests_u32.
  apply (requests_bind (fun _ => True) _ [_] (_ :: _)); [apply requests_do_op|intros vg _].
  apply (requests_bind (fun _ => True) _ [_]); [apply requests_do_op|intros b _].
  eapply requests_then; [|done]. destruct (skip_bias_monitor args); [by apply (requests_ret (fun _ => True))|].
  eapply requests_then; [apply requests_do_op|done].
Qed.

Lemma requests_read_reg v spec :
  requests (fun _ => True) (reg_read spec) (read_reg (S:=S) pid rand args v spec).
Proof using Type.
  unfold read_reg, reg_read. apply requests_lift. intros a ->. apply requests_lift. intros r ->.
  do 2 apply requests_u32. eapply requests_then; [apply requests_do_op|done].
Qed.

Lemma requests_main : requests (fun _ => True) read_plan (main (S:=S) pid rand args).
Proof using Type.
  unfold main. apply requests_step; [by apply unsent_when|intros _].
  eapply requests_then; [|intros config; by apply unsent_when]. unfold read_all, read_plan.
  apply (requests_bind (fun _ => True) _ [_] (_ :: _)); [apply requests_do_op|intros tr _].
  apply (requests_bind (fun _ => True) _ [_]); [apply requests_do_op|intros off _].
  apply (requests_bind (fun _ => True)).
  { apply requests_map_m. intros afe _. apply requests_read_afe. }
  intros es _. apply (requests_bind (fun _ => True) _ [_]); [apply requests_do_op|intros vb _].
  eapply requests_then.
  { apply requests_for_each. intros spec _. apply requests_read_reg. }
  intros _. apply unsent_bind; [by apply unsent_when|done].
Qed.

Lemma plan_reads : Forall (fun tb : Z * B => fst tb ∈ READS) read_plan.
Proof using Type.
  unfold read_plan. repeat rewrite Forall_app. split_and!.
  - repeat constructor; cbn; reg_mem.
  - apply Forall_concat, Forall_fmap, Forall_forall. intros afe _. unfold compose, afe_reads.
    apply Forall_app. split; [repeat constructor; cbn; reg_mem|].
    destruct (skip_bias_monitor args); repeat constructor; cbn; reg_mem.
  - repeat constructor; cbn; reg_mem.
  - apply Forall_concat, Forall_fmap, Forall_forall. intros spec _. unfold compose, reg_read.
    destruct (int10 (fst spec)), (int0 (snd spec)); repeat constructor; cbn; reg_mem.
Qed.

End reading.

(** ** A board that answers *)

Record fe_board : Type := FeBoard {
  b_trims : list Z; b_offsets : list Z; b_vgain : Z -> Z; b_bias : Z -> Z;
  b_monitor : Z -> option Z; b_vbias : Z }.

(** The entry of an AFE in its snapshot. *)
Definition board_entry (skip : bool) (b : fe_board) (afe : Z) : afe_entry :=
  AfeEntry afe (b_vgain b afe) (b_bias b afe) (if skip then None else b_monitor b afe).

Section board.
Context {S B : Type} `{Peer S B, Size B, !Proto B (ControlEnvelopeV2 B), !ReadMessages B}.
Abbreviation Wd := (zworld S B).

Definition decodes {A : Type} `{!Proto B A} (b : B) (a : A) : Prop :=
  parse b = Ok a /\ size b <> 0.

(** The answers are those of the board. *)
Class Board (reply : ControlEnvelopeV2 B -> ControlEnvelopeV2 B) (b : fe_board) : Prop := {
  bd_trims env : tag env = (MT2_READ_TRIM_ALL_CH_REQ, ser ReadTrims) ->
    exists text, decodes (payload (reply env)) (TrimsResp true text (b_trims b));
  bd_offsets env : tag env = (MT2_READ_OFFSET_ALL_CH_REQ, ser ReadOffsets) ->
    exists text, decodes (payload (reply env)) (OffsetsResp true text (b_offsets b));
  bd_vgain env afe : tag env = (MT2_READ_AFE_VGAIN_REQ, ser (ReadVgain afe)) ->
    exists text, decodes (payload (reply env)) (VgainResp true text afe (b_vgain b afe));
  bd_bias env afe : tag env = (MT2_READ_AFE_BIAS_SET_REQ, ser (ReadBias afe)) ->
    exists text, decodes (payload (reply env)) (BiasResp true text afe (b_bias b afe));
  bd_monitor env afe : tag env = (MT2_READ_BIAS_VOLTAGE_MONITOR_REQ, ser (ReadMonitor afe)) ->
    exists ok text mv, decodes (payload (reply env)) (MonitorResp ok text afe mv) /\
      (if ok then Some mv else None) = b_monitor b afe;
  bd_vbias env : tag env = (MT2_READ_VBIAS_CONTROL_REQ, ser ReadVbias) ->
    exists text, decodes (payload (reply env)) (VbiasResp true text (b_vbias b));
  bd_reg env afe reg : tag env = (MT2_READ_AFE_REG_REQ, ser (ReadReg afe reg)) ->
    exists resp : cmd_readAFEReg_response, decodes (payload (reply env)) resp }.

Context `{!ProtoLaws B (ControlEnvelopeV2 B)}.
Context (reply : ControlEnvelopeV2 B -> ControlEnvelopeV2 B) (b : fe_board).
Context `{!Answering reply, !Board reply b}.
Context (pid rand : Z) (args : state_args).

Lemma easy_do_op (R : Type) `{!Proto B R, !Status R} (V : R -> Prop) req ty label v :
  (forall env, tag env = (ty, req) -> exists r, decodes (payload (reply env)) r /\ V r) ->
  easy V (do_op (S:=S) pid rand args R req ty (ty + 1) label v).
Proof using All.
  intros Hans. unfold do_op. eapply easy_bind; [apply easy_env, id_next|intros env Ht].
  destruct (Hans env Ht) as (r & [Hp Hs] & HV). injection Ht as Ht _.
  eapply easy_bind; [apply (easy_send_and_recv reply); by rewrite Ht|intros rep ->].
  eapply (easy_bind (fun x => x = r)).
  { apply easy_lift. unfold parse_or. rewrite Hp. cbn [rbind].
    by rewrite (proj2 (Z.eqb_neq _ _)) by done. }
  intros x ->. eapply easy_bind; [apply easy_when, easy_say|intros _ _]. by apply easy_ret.
Qed.

Lemma easy_read_afe v afe :
  0 <= afe < 2 ^ 32 ->
  easy (fun e => e = board_entry (skip_bias_monitor args) b afe)
    (read_afe (S:=S) pid rand args v afe).
Proof using All.
  intros Ha. unfold read_afe, board_entry. cbv zeta. apply easy_u32; [done|].
  eapply (easy_bind (fun r => vgainValue r = b_vgain b afe)).
  { apply easy_do_op. intros env Ht. destruct (bd_vgain env afe Ht) as [text Hd]. by eexists. }
  intros vg Hvg. eapply (easy_bind (fun r => biasValue r = b_bias b afe)).
  { apply easy_do_op. intros env Ht. destruct (bd_bias env afe Ht) as [text Hd]. by eexists. }
  intros bs Hbs.
  eapply (easy_bind (fun m => m = if skip_bias_monitor args then None else b_monitor b afe)).
  { destruct (skip_bias_monitor args); [by apply easy_ret|].
    eapply (easy_bind (fun r => (if bm_success r then Some (biasVoltageValue r) else None)
                                = b_monitor b afe)).
    - apply easy_do_op. intros env Ht. destruct (bd_monitor env afe Ht) as (ok & text & mv & Hd & He).
      by eexists.
    - intros r Hr. by apply easy_ret. }
  intros m ->. apply easy_ret. by rewrite Hvg, Hbs.
Qed.

(** A register that is asked for by numbers in range. *)
Definition reg_ok (spec : string * string) : Prop :=
  exists a r, int10 (fst spec) = Ok a /\ int0 (snd spec) = Ok r /\
    0 <= a < 2 ^ 32 /\ 0 <= r < 2 ^ 32.

Lemma easy_read_reg v spec :
  reg_ok spec -> easy (fun _ => True) (read_reg (S:=S) pid rand args v spec).
Proof using All.
  intros (a & r & Ha & Hr & Ha' & Hr'). unfold read_reg.
  eapply easy_bind; [by apply easy_lift|intros ? ->].
  eapply easy_bind; [by apply easy_lift|intros ? ->]. do 2 (apply easy_u32; [done|]).
  eapply (easy_bind (fun _ => True)); [|intros _ _; by apply easy_ret].
  apply easy_do_op. intros env Ht. destruct (bd_reg env a r Ht) as [resp Hd]. by exists resp.
Qed.

Lemma easy_read_all v :
  afe_count args <= 2 ^ 32 -> Forall reg_ok (afe_reg args) ->
  easy (fun c => c = snapshot (b_offsets b) (b_trims b)
      (board_entry (skip_bias_monitor args) b <$> seqZ 0 (afe_count args)) (b_vbias b))
    (read_all (S:=S) pid rand args v).
Proof using All.
  intros Hn Hregs. unfold read_all.
  eapply (easy_bind (fun r => trimValues r = b_trims b)).
  { apply easy_do_op. intros env Ht. destruct (bd_trims env Ht) as [text Hd]. by eexists. }
  intros tr Htr. eapply (easy_bind (fun r => offsetValues r = b_offsets b)).
  { apply easy_do_op. intros env Ht. destruct (bd_offsets env Ht) as [text Hd]. by eexists. }
  intros off Hoff. eapply easy_bind.
  { apply (easy_map_m _ _ (board_entry (skip_bias_monitor args) b)). intros afe Hin.
    apply elem_of_seqZ in Hin. apply easy_read_afe. lia. }
  intros es ->. eapply (easy_bind (fun r => vBiasControlValue r = b_vbias b)).
  { apply easy_do_op. intros env Ht. destruct (bd_vbias env Ht) as [text Hd]. by eexists. }
  intros vb Hvb. eapply (easy_bind (fun _ => True)).
  { apply easy_for_each_in. intros spec Hin. apply easy_read_reg.
    rewrite Forall_forall in Hregs. by apply Hregs. }
  intros _ _. cbv zeta. eapply (easy_bind (fun _ => True)).
  { apply easy_when. eapply easy_bind; [apply easy_say|intros _ _; apply easy_show]. }
  intros _ _. apply easy_ret. by rewrite Hoff, Htr, Hvb.
Qed.

End board.

(** ** The histories of the monitor *)

Section histories.
Context (max_points : Z).

Definition bounded (h : history) : Prop :=
  map_Forall (fun _ l => (length l <= Z.to_nat max_points)%nat) h.

Lemma length_push l x : (length (push max_points l x) <= Z.to_nat max_points)%nat.
Proof using Type. unfold push. rewrite length_drop. lia. Qed.

Lemma bounded_push name x h : bounded h -> bounded (push_to max_points name x h).
Proof using Type. intros Hh. apply map_Forall_insert_2; [apply length_push|done]. Qed.

Lemma bounded_rails (rails : gmap string float) ns h :
  bounded h ->
  bounded (foldl (fun h name =>
    match rails !! name with Some v => push_to max_points name v h | None => h end) h ns).
Proof using Type.
  revert h. induction ns as [|n ns IH]; intros h Hh; [exact Hh|]. cbn [foldl]. apply IH.
  destruct (rails !! n); [by apply bounded_push|done].
Qed.

Lemma bounded_note h rr out h' rr' :
  bounded h -> note_reading max_points h rr out = Ok (h', rr') -> bounded h'.
Proof using Type.
  intros Hh Hn. unfold note_reading in Hn. apply rbind_ok in Hn as (v & _ & Hn).
  cbv zeta in Hn. apply (bounded_push (bias_name (bmr_afeBlock out)) v) in Hh.
  destruct rr; [by injection Hn as <- _|]. apply rbind_ok in Hn as (rails & _ & Hn).
  apply (inj Ok), (f_equal fst) in Hn. cbn [fst] in Hn. rewrite <- Hn. by apply bounded_rails.
Qed.

Context {S B : Type} `{Peer S B, Size B, !Proto B (ControlEnvelopeV2 B), !ReadMessages B}.
Context (mroute : string).

Lemma bounded_afes afes st (w : zworld S B) st' w' :
  bounded (fst st) -> fold_m afes (monitor_afe mroute max_points) st w = (Ok st', w') ->
  bounded (fst st').
Proof using Type.
  revert st w. induction afes as [|afe afes IH]; intros st w Hst Hr; cbn [fold_m] in Hr.
  { by injection Hr as <- _. }
  inv_bind Hr. apply IH in Hr; [done|]. unfold monitor_afe in Hrun. inv_bind Hrun.
  destruct a0 as [out|]; [|by injection Hrun as <- _].
  destruct (negb (bm_success out)); [inv_bind Hrun; by injection Hrun as <- _|].
  injection Hrun as Hn _. destruct st as [h rr], a as [h' rr']. by eapply bounded_note.
Qed.

(** No history of the monitor grows beyond its bound. *)
Lemma monitor_pass_bounded afes t m (w : zworld S B) m' w' :
  bounded (hist m) -> monitor_pass mroute max_points afes t m w = (Ok m', w') ->
  bounded (hist m') /\ (length (times m') <= Z.to_nat max_points)%nat.
Proof using Type.
  intros Hm Hr. unfold monitor_pass in Hr. inv_bind Hr. injection Hr as <- _. cbn [hist times].
  split; [by eapply (bounded_afes afes (hist m, false))|]. rewrite length_drop. lia.
Qed.

End histories.

(** ** Properties *)

(** Whatever the peer does, [read_fe_state_v2] changes nothing: every request it sends is
    of a reading type, and they are the first ones of its plan (trims, offsets, the AFEs in
    order, the bias control, the registers asked for), all of them if it ends normally. *)
Theorem read_fe_state_only_reads {S B : Type}
    `{Peer S B, Size B, !Proto B (ControlEnvelopeV2 B), !ReadMessages B} pid rand args
    (w : zworld S B) :
  exists envs : list (ControlEnvelopeV2 B),
    sent (snd (main pid rand args w)) = sent w ++ (ser <$> envs) /\
    tag <$> envs `prefix_of` read_plan args /\
    (fst (main pid rand args w) = Ok tt -> tag <$> envs = read_plan args) /\
    Forall (fun env => mtype env ∈ READS) envs.
Proof.
  destruct (requests_main pid rand args w) as (envs & Hs & Hp & Hn). exists envs.
  split_and!; [done|done|by intros Hok; apply (Hn tt)|].
  destruct Hp as [rest Hp]. pose proof (plan_reads (B:=B) args) as Hr.
  rewrite Hp, Forall_app, Forall_fmap in Hr. destruct Hr as [Hr _].
  eapply Forall_impl; [exact Hr|]. by intros env.
Qed.

(** C15. With a board that answers, on a quiet socket, [read_all] returns the snapshot of the
    board: its offsets and trims, and for each of the AFEs asked for its attenuator, bias and
    bias monitor ([None] where skipped or not available); the socket is quiet again. *)
Theorem read_all_snapshot {S B : Type}
    `{Peer S B, Size B, !Proto B (ControlEnvelopeV2 B), !ReadMessages B}
    (HL : ProtoLaws B (ControlEnvelopeV2 B)) reply b (HA : Answering reply) (HB : Board reply b)
    pid rand args v (w : zworld S B) :
  cur w = [] -> inbox w = [] -> afe_count args <= 2 ^ 32 -> Forall reg_ok (afe_reg args) ->
  exists w', read_all pid rand args v w =
      (Ok (snapshot (b_offsets b) (b_trims b)
             (board_entry (skip_bias_monitor args) b <$> seqZ 0 (afe_count args)) (b_vbias b)), w') /\
    cur w' = [] /\ inbox w' = [].
Proof.
  intros Hc Hi Hn Hregs.
  destruct (easy_read_all reply b pid rand args v Hn Hregs w) as (c & w' & Hr & -> & Hc' & Hi').
  - by split.
  - by exists w'.
Qed.

(** ** An example *)

(** Serialized messages as they are. *)
Inductive rwire : Type :=
  | REmpty
  | REnv (e : ControlEnvelopeV2 rwire)
  | RTrims | RTrimsR (m : cmd_readTrim_allChannels_response)
  | ROffsets | ROffsetsR (m : cmd_readOffset_allChannels_response)
  | RVgain (m : cmd_readAFEVgain) | RVgainR (m : cmd_readAFEVgain_response)
  | RBias (m : cmd_readAFEBiasSet) | RBiasR (m : cmd_readAFEBiasSet_response)
  | RMonitor (m : cmd_readBiasVoltageMonitor) | RMonitorR (m : cmd_readBiasVoltageMonitor_response)
  | RVbias | RVbiasR (m : cmd_readVbiasControl_response)
  | RReg (m : cmd_readAFEReg) | RRegR (m : cmd_readAFEReg_response).

Definition bad_bytes : exn := Exn DecodeError "Error parsing message".

#[export] Instance rwire_size : Size rwire :=
  { size b := match b with REmpty => 0 | _ => 1 end }.

#[export] Instance rwire_env : Proto rwire (ControlEnvelopeV2 rwire) :=
  { ser := REnv; parse b := match b with REnv m => Ok m | _ => Raise bad_bytes end }.

#[export] Instance rwire_env_laws : ProtoLaws rwire (ControlEnvelopeV2 rwire).
Proof. by split. Qed.

#[export] Instance rwire_messages : ReadMessages rwire := {
  rm_trims := {| ser _ := RTrims;
    parse b := match b with RTrims => Ok ReadTrims | _ => Raise bad_bytes end |};
  rm_trims_resp := {| ser := RTrimsR;
    parse b := match b with RTrimsR m => Ok m | _ => Raise bad_bytes end |};
  rm_offsets := {| ser _ := ROffsets;
    parse b := match b with ROffsets => Ok ReadOffsets | _ => Raise bad_bytes end |};
  rm_offsets_resp := {| ser := ROffsetsR;
    parse b := match b with ROffsetsR m => Ok m | _ => Raise bad_bytes end |};
  rm_vgain := {| ser := RVgain;
    parse b := match b with RVgain m => Ok m | _ => Raise bad_bytes end |};
  rm_vgain_resp := {| ser := RVgainR;
    parse b := match b with RVgainR m => Ok m | _ => Raise bad_bytes end |};
  rm_bias := {| ser := RBias;
    parse b := match b with RBias m => Ok m | _ => Raise bad_bytes end |};
  rm_bias_resp := {| ser := RBiasR;
    parse b := match b with RBiasR m => Ok m | _ => Raise bad_bytes end |};
  rm_monitor := {| ser := RMonitor;
    parse b := match b with RMonitor m => Ok m | _ => Raise bad_bytes end |};
  rm_monitor_resp := {| ser := RMonitorR;
    parse b := match b with RMonitorR m => Ok m | _ => Raise bad_bytes end |};
  rm_vbias := {| ser _ := RVbias;
    parse b := match b with RVbias => Ok ReadVbias | _ => Raise bad_bytes end |};
  rm_vbias_resp := {| ser := RVbiasR;
    parse b := match b with RVbiasR m => Ok m | _ => Raise bad_bytes end |};
  rm_reg := {| ser := RReg;
    parse b := match b with RReg m => Ok m | _ => Raise bad_bytes end |};
  rm_reg_resp := {| ser := RRegR;
    parse b := match b with RRegR m => Ok m | _ => Raise bad_bytes end |} }.

Definition small_board : fe_board :=
  FeBoard [100; 200] [2275; 2275] (fun afe => 1600 + afe) (fun _ => 0)
    (fun afe => if afe =? 3 then None else Some (30000 + afe)) 1300.

Definition rails_text : string := "3V3PDS: 3.30 1V8PDS: 1.80 -5VA: -5.0".

Definition board_answer (b : fe_board) (m : rwire) : rwire :=
  match m with
  | RTrims => RTrimsR (TrimsResp true "" (b_trims b))
  | ROffsets => ROffsetsR (OffsetsResp true "" (b_offsets b))
  | RVgain m => RVgainR (VgainResp true "" (vg_afeBlock m) (b_vgain b (vg_afeBlock m)))
  | RBias m => RBiasR (BiasResp true "" (bs_afeBlock m) (b_bias b (bs_afeBlock m)))
  | RMonitor m =>
      match b_monitor b (bm_afeBlock m) with
      | Some mv => RMonitorR (MonitorResp true rails_text (bm_afeBlock m) mv)
      | None => RMonitorR (MonitorResp false "not measured" (bm_afeBlock m) 0)
      end
  | RVbias => RVbiasR (VbiasResp true "" (b_vbias b))
  | RReg m => RRegR (RegResp true "" (rg_afeBlock m) (regAddress m) 0)
  | _ => REmpty
  end.

Definition board_reply (env : ControlEnvelopeV2 rwire) : ControlEnvelopeV2 rwire :=
  Env 2 DIR_RESPONSE (mtype env + 1) (board_answer small_board (payload env)) (task_id env)
      (msg_id env) (msg_id env) (route env) 0.

#[export] Instance board_peer : Peer unit rwire := {
  can_send _ := true;
  answer u b := (u, match b with REnv env => [[REnv (board_reply env)]] | _ => [] end) }.

Lemma board_answers : Answering board_reply.
Proof. split; try done. intros u env. by exists u. Qed.

Lemma board_is_board : Board board_reply small_board.
Proof.
  split; intros *; intros Ht; injection Ht as _ Hp;
    unfold decodes, board_reply; cbn [payload]; rewrite Hp; cbn [board_answer ser].
  1-4,6: by eexists; split.
  - cbn. destruct (afe =? 3); by eexists _, _, _.
  - by eexists; split.
Qed.

Definition read_world : zworld unit rwire :=
  ZW tt [] [] [] (fun k => 1000 + Z.of_nat k) 0 (fun _ => 7) 0 0 [].

Definition read_options : state_args :=
  ReadArgs "tcp://127.0.0.1:9876" "mezz/0" 5 false false [("2", "0x34")].

Lemma read_all_snapshot_witness :
  afe_count read_options <= 2 ^ 32 /\ Forall reg_ok (afe_reg read_options) /\
  exists w', read_all 5 9 read_options true read_world =
      (Ok (snapshot [2275; 2275] [100; 200]
             (board_entry false small_board <$> seqZ 0 5) 1300), w') /\
    cur w' = [] /\ inbox w' = [].
Proof.
  assert (Hregs : Forall reg_ok (afe_reg read_options)).
  { constructor; [|constructor]. exists 2, 52. repeat split; try reflexivity; lia. }
  split; [done|]. split; [exact Hregs|].
  apply (read_all_snapshot rwire_env_laws board_reply small_board board_answers board_is_board
    5 9 read_options true read_world); [reflexivity|reflexivity|done|exact Hregs].
Defined.

(** The regular expression never sees the sign in a name; the rail is found all the same. *)
Example minus_rail_found :
  (fst <$> find_rails 40 rails_text) = ["3V3PDS"; "1V8PDS"; "5VA"].
Proof. vm_compute. reflexivity. Qed.

(** After a reading that did not succeed the time axis is longer than the history that is
    plotted against it. *)
Example history_out_of_step :
  let m := fst (monitor_pass "mezz/0" 300 [2; 3] 17 (new_monitor [2; 3]) read_world) in
  match m with
  | Ok m => (length (times m), length <$> hist m !! "BIAS2", length <$> hist m !! "BIAS3")
            = (1%nat, Some 1%nat, Some 0%nat)
  | Raise _ => False
  end.
Proof. vm_compute. reflexivity. Qed.
