(* ===== verification/V2Config.v ===== *)
(** The scripts that program a board over EnvelopeV2 without the [Configure] message:
    [client/protobuf_configure_daphne_v2.py], one low-level write after the other, and
    [client/afe_function_v2.py], one AFE function. *)
From S2P Require Import Prelude PyStr PyFloat PyVal EnvelopeV2 Requests FeConfig FeMain.

(** ** Messages *)

Record cmd_writeOFFSET_singleChannel : Type := WriteOffset {
  offsetChannel : Z; offsetValue : Z; offsetGain : bool }.
Record cmd_writeOFFSET_singleChannel_response : Type := WriteOffsetResp {
  wo_success : bool; wo_message : string; wo_offsetChannel : Z; wo_offsetValue : Z;
  wo_offsetGain : bool }.
Record cmd_writeAFEVGAIN : Type := WriteVgain { wv_afeBlock : Z; wv_vgainValue : Z }.
Record cmd_writeAFEVGAIN_response : Type := WriteVgainResp {
  wv_success : bool; wv_message : string; wvr_afeBlock : Z; wvr_vgainValue : Z }.
Inductive cmd_doAFEReset : Type := DoReset.
Record cmd_doAFEReset_response : Type := DoResetResp { rs_success : bool; rs_message : string }.
Record cmd_setAFEPowerState : Type := SetPowerState { powerState : bool }.
Record cmd_setAFEPowerState_response : Type := SetPowerStateResp {
  ps_success : bool; ps_message : string; psr_powerState : Z }.
Record cmd_writeAFEFunction : Type := WriteFunction {
  wf_afeBlock : Z; wf_function : string; wf_configValue : Z }.
Record cmd_writeAFEFunction_response : Type := WriteFunctionResp {
  wf_success : bool; wf_message : string; wfr_afeBlock : Z; wfr_function : string;
  wfr_configValue : Z }.

#[export] Instance write_offset_status : Status cmd_writeOFFSET_singleChannel_response :=
  { st_success := wo_success; st_message := wo_message }.
#[export] Instance write_vgain_status : Status cmd_writeAFEVGAIN_response :=
  { st_success := wv_success; st_message := wv_message }.
#[export] Instance reset_status : Status cmd_doAFEReset_response :=
  { st_success := rs_success; st_message := rs_message }.
#[export] Instance power_state_status : Status cmd_setAFEPowerState_response :=
  { st_success := ps_success; st_message := ps_message }.
#[export] Instance function_status : Status cmd_writeAFEFunction_response :=
  { st_success := wf_success; st_message := wf_message }.
#[export] Instance align_status : Status cmd_alignAFEs_response :=
  { st_success := ar_success; st_message := ar_message }.

(** The serializations the scripts use. *)
Class WriteMessages (B : Type) : Type := {
  wm_offset :: Proto B cmd_writeOFFSET_singleChannel;
  wm_offset_resp :: Proto B cmd_writeOFFSET_singleChannel_response;
  wm_vgain :: Proto B cmd_writeAFEVGAIN;
  wm_vgain_resp :: Proto B cmd_writeAFEVGAIN_response;
  wm_reset :: Proto B cmd_doAFEReset;
  wm_reset_resp :: Proto B cmd_doAFEReset_response;
  wm_power :: Proto B cmd_setAFEPowerState;
  wm_power_resp :: Proto B cmd_setAFEPowerState_response;
  wm_function :: Proto B cmd_writeAFEFunction;
  wm_function_resp :: Proto B cmd_writeAFEFunction_response;
  wm_align :: Proto B cmd_alignAFEs;
  wm_align_resp :: Proto B cmd_alignAFEs_response }.

(** ** [protobuf_configure_daphne_v2] *)

(** The command line; the choices of the parser are the keys of the tables. *)
Record v2_args : Type := V2Args {
  v_vgain : Z; v_ch_offset : Z; v_align_afes : bool; v_enable_integrators : bool;
  v_lpf_cutoff : Z; v_pga_clamp_level : string; v_pga_gain_control : string;
  v_lna_gain_control : string; v_lna_input_clamp : string }.

(** The codes of the options: low-pass filter, PGA clamp, PGA gain, LNA gain, LNA clamp. *)
Record v2_codes : Type := V2Codes {
  k_lpf : Z; k_pga_clamp : Z; k_pga_gain : Z; k_lna_gain : Z; k_lna_clamp : Z }.

Definition v2_lookups (args : v2_args) : result v2_codes :=
  lpf <-! assoc lpf_dict (v_lpf_cutoff args) (str_Z (v_lpf_cutoff args)) ;;
  clamp <-! assoc pga_clamp_level_dict (v_pga_clamp_level args) (v_pga_clamp_level args) ;;
  gain <-! assoc pga_gain_control_dict (v_pga_gain_control args) (v_pga_gain_control args) ;;
  lna <-! assoc lna_gain_control_dict (v_lna_gain_control args) (v_lna_gain_control args) ;;
  lna_clamp <-! assoc lna_input_clamp_dict (v_lna_input_clamp args) (v_lna_input_clamp args) ;;
  Ok (V2Codes lpf clamp gain lna lna_clamp).

(** The functions programmed in every AFE, in order. *)
Definition afe_functions (args : v2_args) (k : v2_codes) : list (string * Z) :=
  let no_integrators := Z.b2z (negb (v_enable_integrators args)) in
  [("SERIALIZED_DATA_RATE", 1); ("ADC_OUTPUT_FORMAT", 1); ("LPF_PROGRAMMABILITY", k_lpf k);
   ("PGA_INTEGRATOR_DISABLE", no_integrators); ("PGA_CLAMP_LEVEL", k_pga_clamp k);
   ("ACTIVE_TERMINATION_ENABLE", 0); ("LNA_INPUT_CLAMP_SETTING", k_lna_clamp k);
   ("LNA_GAIN", k_lna_gain k); ("LNA_INTEGRATOR_DISABLE", no_integrators)].

Section configure.
Context {S B : Type} `{Peer S B, Size B, !Proto B (ControlEnvelopeV2 B), !WriteMessages B}.
Abbreviation Wd := (zworld S B).
Context (pid rand : Z) (args : v2_args).

(** One call and its line on the console; the payload is not checked to be non-empty. *)
Definition call (R : Type) `{!Proto B R, !Status R} (ty : Z) (req : B) (label : string) : M Wd unit :=
  '(_, rep) <- v2_rpc_strict (next_ids pid rand) ty req "mezz/0" ;;
  msg <- lift (parse (payload rep)) ;;
  say ("[" +:+ label +:+ "] success=" +:+ str_bool (st_success msg) +:+ " :: " +:+ st_message msg).

Definition write_offset (ch : Z) : M Wd unit :=
  c <- lift (set_u32 ch) ;;
  v <- lift (set_u32 (v_ch_offset args)) ;;
  call cmd_writeOFFSET_singleChannel_response MT2_WRITE_OFFSET_CH_REQ (ser (WriteOffset c v false))
    ("OFFSET ch" +:+ dec_pad 2 ch).

Definition write_vgain (afe : Z) : M Wd unit :=
  a <- lift (set_u32 afe) ;;
  v <- lift (set_u32 (v_vgain args)) ;;
  call cmd_writeAFEVGAIN_response MT2_WRITE_AFE_VGAIN_REQ (ser (WriteVgain a v))
    ("VGAIN AFE" +:+ str_Z afe).

(** [prog_fun] *)
Definition prog_fun (afe : Z) (nv : string * Z) : M Wd unit :=
  a <- lift (set_u32 afe) ;;
  v <- lift (set_u32 (snd nv)) ;;
  call cmd_writeAFEFunction_response MT2_WRITE_AFE_FUNCTION_REQ (ser (WriteFunction a (fst nv) v))
    (fst nv +:+ " AFE" +:+ str_Z afe).

(** The script, from the connected socket on; an exception ends it. *)
Definition configure_v2 : M Wd unit :=
  k <- lift (v2_lookups args) ;;
  for_each (seqZ 0 40) write_offset ;;;
  for_each (seqZ 0 5) write_vgain ;;;
  call cmd_doAFEReset_response MT2_DO_AFE_RESET_REQ (ser DoReset) "AFE DO_RESET" ;;;
  call cmd_setAFEPowerState_response MT2_SET_AFE_POWERSTATE_REQ (ser (SetPowerState true)) "AFE POWER" ;;;
  for_each (seqZ 0 5) (fun afe => for_each (afe_functions args k) (prog_fun afe)) ;;;
  when (v_align_afes args)
    (call cmd_alignAFEs_response MT2_ALIGN_AFE_REQ (ser AlignAFEs) "ALIGN").

End configure.

(** ** [afe_function_v2] *)

(** Two values are a range, more are a list. *)
Definition available_afe_functions : list (string * list Z) :=
  [("SOFTWARE_RESET", [0; 1]); ("REGISTER_READOUT_ENABLE", [0; 1]); ("ADC_COMPLETE_PDN", [0; 1]);
   ("LVDS_OUTPUT_DISABLE", [0; 1]); ("ADC_PDN_CH", [0; 0xFF]); ("PARTIAL_PDN", [0; 1]);
   ("LOW_FREQUENCY_NOISE_SUPPRESSION", [0; 1]); ("EXT_REF", [0; 1]);
   ("LVDS_OUTPUT_RATE_2X", [0; 1]); ("SINGLE-ENDED_CLK_MODE", [0; 1]); ("POWER-DOWN_LDVS", [0; 1]);
   ("AVERAGING_ENABLE", [0; 1]); ("LOW_LATENCY", [0; 1]); ("TEST_PATTERN_MODES", [0; 0x7]);
   ("INVERT_CHANNELS", [0; 0xFF]); ("CHANNEL_OFFSET_SUBSTRACTION_ENABLE", [0; 1]);
   ("DIGITAL_GAIN_ENABLE", [0; 1]); ("SERIALIZED_DATA_RATE", [0; 0x3]);
   ("ENABLE_EXTERNAL_REFERENCE_MODE", [0; 1]); ("ADC_RESOLUTION_RESET", [0; 1]);
   ("ADC_OUTPUT_FORMAT", [0; 1]); ("LSB_MSB_FIRST", [0; 1]); ("CUSTOM_PATTERN", [0; 0x3FFF]);
   ("SYNC_PATTERN", [0; 1]); ("OFFSET_CH1", [0; 0x3FF]); ("DIGITAL_GAIN_CH1", [0; 0x1F]);
   ("OFFSET_CH2", [0; 0x3FF]); ("DIGITAL_GAIN_CH2", [0; 0x1F]); ("OFFSET_CH3", [0; 0x3FF]);
   ("DIGITAL_GAIN_CH3", [0; 0x1F]); ("OFFSET_CH4", [0; 0x3FF]); ("DIGITAL_GAIN_CH4", [0; 0x1F]);
   ("DIGITAL_HPF_FILTER_ENABLE_CH1-4", [0; 1]); ("DIGITAL_HPF_FILTER_K_CH1-4", [2; 10]);
   ("OFFSET_CH8", [0; 0x3FF]); ("DIGITAL_GAIN_CH8", [0; 0x1F]); ("OFFSET_CH7", [0; 0x3FF]);
   ("DIGITAL_GAIN_CH7", [0; 0x1F]); ("OFFSET_CH6", [0; 0x3FF]); ("DIGITAL_GAIN_CH6", [0; 0x1F]);
   ("OFFSET_CH5", [0; 0x3FF]); ("DIGITAL_GAIN_CH5", [0; 0x1F]);
   ("DIGITAL_HPF_FILTER_ENABLE_CH5-8", [0; 1]); ("DIGITAL_HPF_FILTER_K_CH5-8", [2; 10]);
   ("DITHER", [0; 1]); ("PGA_CLAMP_-6dB", [0; 1]); ("LPF_PROGRAMMABILITY", [0; 2; 3; 4]);
   ("PGA_INTEGRATOR_DISABLE", [0; 1]); ("PGA_CLAMP_LEVEL", [0; 7]); ("PGA_GAIN_CONTROL", [0; 1]);
   ("ACTIVE_TERMINATION_INDIVIDUAL_RESISTOR_CNTL", [0; 0x1F]);
   ("ACTIVE_TERMINATION_INDIVIDUAL_RESISTOR_ENABLE", [0; 1]);
   ("PRESET_ACTIVE_TERMINATIONS", [0; 3]); ("ACTIVE_TERMINATION_ENABLE", [0; 1]);
   ("LNA_INPUT_CLAMP_SETTING", [0; 3]); ("LNA_INTEGRATOR_DISABLE", [0; 1]); ("LNA_GAIN", [0; 3]);
   ("LNA_INDIVIDUAL_CH_CNTL", [0; 1]); ("PDN_CH", [0; 0xFF]); ("LOW_POWER", [0; 1]);
   ("MED_POWER", [0; 1]); ("PDN_VCAT_PGA", [0; 1]); ("PDN_LNA", [0; 1]);
   ("VCA_PARTIAL_PDN", [0; 1]); ("VCA_COMPLETE_PDN", [0; 1]);
   ("CW_SUM_AMP_GAIN_CNTL", [0; 1; 2; 4; 8; 16]); ("CW_16X_CLK_SEL", [0; 1]);
   ("CW_1X_CLK_SEL", [0; 1]); ("CW_TGC_SEL", [0; 1]); ("CW_SUM_AMP_ENABLE", [0; 1]);
   ("CW_CLK_MODE_SEL", [0; 3]); ("CH1_CW_MIXER_PHASE", [0; 0xF]); ("CH2_CW_MIXER_PHASE", [0; 0xF]);
   ("CH3_CW_MIXER_PHASE", [0; 0xF]); ("CH4_CW_MIXER_PHASE", [0; 0xF]);
   ("CH5_CW_MIXER_PHASE", [0; 0xF]); ("CH6_CW_MIXER_PHASE", [0; 0xF]);
   ("CH7_CW_MIXER_PHASE", [0; 0xF]); ("CH8_CW_MIXER_PHASE", [0; 0xF]);
   ("CH1_LNA_GAIN_CNTL", [0; 3]); ("CH2_LNA_GAIN_CNTL", [0; 3]); ("CH3_LNA_GAIN_CNTL", [0; 3]);
   ("CH4_LNA_GAIN_CNTL", [0; 3]); ("CH5_LNA_GAIN_CNTL", [0; 3]); ("CH6_LNA_GAIN_CNTL", [0; 3]);
   ("CH7_LNA_GAIN_CNTL", [0; 3]); ("CH8_LNA_GAIN_CNTL", [0; 3]); ("HPF_LNA", [0; 3]);
   ("DIG_TGC_ATT_GAIN", [0; 0x7]); ("DIG_TGC_ATT", [0; 1]); ("CW_SUM_AMP_PDN", [0; 1]);
   ("PGA_TEST_MODE", [0; 1])].

Definition invalid_value (func : string) (value : Z) (expected : string) : exn :=
  Exn ValueError ("Invalid value for " +:+ func +:+ ": " +:+ str_Z value +:+ ". Expected "
                  +:+ expected +:+ ".").

(** [validate_value] *)
Definition validate_value (func : string) (value : Z) : result unit :=
  valid_range <-! assoc available_afe_functions func func ;;
  match valid_range with
  | [lo; hi] =>
      if (lo =? 0) && (hi =? 1) then
        if bool_decide (value ∈ [0; 1]) then Ok tt else Raise (invalid_value func value "0 or 1")
      else
        if (value <? lo) || (hi <? value)
        then Raise (invalid_value func value (str_Z lo +:+ "-" +:+ str_Z hi))
        else Ok tt
  | _ =>
      if bool_decide (value ∈ valid_range) then Ok tt
      else Raise (invalid_value func value ("one of [" +:+ join ", " (str_Z <$> valid_range) +:+ "]"))
  end.

Record function_args : Type := FunctionArgs {
  a_route : string; afeFunction : string; afeNumber : option Z; all_afes : bool; a_value : Z }.

(** The AFEs to write; without one the parser ends the script with status 2. *)
Definition targets (args : function_args) : result (list Z) :=
  if all_afes args then Ok (seqZ 0 5)
  else match afeNumber args with
       | Some afe => Ok [afe]
       | None => Raise (Exn SystemExit "2")
       end.

Section functions.
Context {S B : Type} `{Peer S B, Size B, !Proto B (ControlEnvelopeV2 B), !WriteMessages B}.
Abbreviation Wd := (zworld S B).
Context (args : function_args).

(** One turn of the loop; a reply of another type is reported and the loop goes on. *)
Definition write_function (afe : Z) : M Wd unit :=
  a <- lift (set_u32 afe) ;;
  v <- lift (set_u32 (a_value args)) ;;
  rep <- send_v2_unchecked next_ids_fixed MT2_WRITE_AFE_FUNCTION_REQ
           (ser (WriteFunction a (afeFunction args) v)) (a_route args) ;;
  if negb (mtype rep =? MT2_WRITE_AFE_FUNCTION_RESP)
  then say ("[error] unexpected reply type " +:+ str_Z (mtype rep) +:+ " for AFE" +:+ str_Z afe)
  else
    out <- lift (parse (A := cmd_writeAFEFunction_response) (payload rep)) ;;
    say ("[" +:+ (if wf_success out then "OK" else "FAIL") +:+ "] AFE" +:+ str_Z afe +:+ " "
         +:+ wfr_function out +:+ "=" +:+ str_Z (wfr_configValue out) +:+ " :: " +:+ wf_message out).

Definition set_afe_function : M Wd Z :=
  lift (validate_value (afeFunction args) (a_value args)) ;;;
  afes <- lift (targets args) ;;
  for_each afes write_function ;;;
  ret 0.

End functions.

(** ** The registers of a board *)

(** What the low-level writes set; the function registers are those of the AFE chips. *)
Inductive reg : Type :=
  | ROffset (ch : Z)
  | RVgain (afe : Z)
  | RFunction (afe : Z) (name : string)
  | RPower.

#[export] Instance reg_eq_dec : EqDecision reg.
Proof. solve_decision. Defined.

Definition regs : Type := reg -> option Z.

Definition upd (r : regs) (kv : reg * Z) : regs :=
  fun k => if decide (k = fst kv) then Some (snd kv) else r k.

Section effects.
Context {B : Type} `{!WriteMessages B}.
(** What the function registers hold after a reset. *)
Context (after_reset : Z -> string -> option Z).

(** The effect of a request, by type and payload. *)
Definition apply_request (r : regs) (tb : Z * B) : regs :=
  let '(t, b) := tb in
  if t =? MT2_WRITE_OFFSET_CH_REQ then
    match parse (A := cmd_writeOFFSET_singleChannel) b with
    | Ok m => upd r (ROffset (offsetChannel m), offsetValue m)
    | Raise _ => r
    end
  else if t =? MT2_WRITE_AFE_VGAIN_REQ then
    match parse (A := cmd_writeAFEVGAIN) b with
    | Ok m => upd r (RVgain (wv_afeBlock m), wv_vgainValue m)
    | Raise _ => r
    end
  else if t =? MT2_DO_AFE_RESET_REQ then
    fun k => match k with RFunction afe name => after_reset afe name | _ => r k end
  else if t =? MT2_SET_AFE_POWERSTATE_REQ then
    match parse (A := cmd_setAFEPowerState) b with
    | Ok m => upd r (RPower, Z.b2z (powerState m))
    | Raise _ => r
    end
  else if t =? MT2_WRITE_AFE_FUNCTION_REQ then
    match parse (A := cmd_writeAFEFunction) b with
    | Ok m => upd r (RFunction (wf_afeBlock m) (wf_function m), wf_configValue m)
    | Raise _ => r
    end
  else r.

(** ** The requests of [configure_v2] *)

Context (args : v2_args) (k : v2_codes).

Definition offset_req (ch : Z) : Z * B :=
  (MT2_WRITE_OFFSET_CH_REQ, ser (WriteOffset ch (v_ch_offset args) false)).
Definition vgain_req (afe : Z) : Z * B :=
  (MT2_WRITE_AFE_VGAIN_REQ, ser (WriteVgain afe (v_vgain args))).
Definition function_req (anv : Z * (string * Z)) : Z * B :=
  (MT2_WRITE_AFE_FUNCTION_REQ, ser (WriteFunction (fst anv) (fst (snd anv)) (snd (snd anv)))).

(** The AFEs with their functions, in order. *)
Definition all_functions : list (Z * (string * Z)) :=
  concat ((fun afe => pair afe <$> afe_functions args k) <$> seqZ 0 5).

Definition v2_plan : list (Z * B) :=
  (offset_req <$> seqZ 0 40) ++ (vgain_req <$> seqZ 0 5)
  ++ [(MT2_DO_AFE_RESET_REQ, ser DoReset); (MT2_SET_AFE_POWERSTATE_REQ, ser (SetPowerState true))]
  ++ (function_req <$> all_functions)
  ++ (if v_align_afes args then [(MT2_ALIGN_AFE_REQ, ser AlignAFEs)] else []).

(** ** Lemmas *)

Lemma writes_outside l r q : q ∉ l.*1 -> foldl upd r l q = r q.
Proof using Type.
  revert r. induction l as [|[a v] l IH]; intros r Hq; [done|]. cbn [foldl].
  rewrite fmap_cons, not_elem_of_cons in Hq. destruct Hq as [Hne Hq].
  rewrite IH by done. unfold upd. cbn [fst snd] in *. by rewrite decide_False.
Qed.

Lemma writes_inside l r q v : NoDup l.*1 -> (q, v) ∈ l -> foldl upd r l q = Some v.
Proof using Type.
  revert r. induction l as [|[a x] l IH]; intros r Hnd Hin; [by apply not_elem_of_nil in Hin|].
  cbn [foldl]. rewrite fmap_cons in Hnd. apply NoDup_cons in Hnd as [Hna Hnd].
  apply elem_of_cons in Hin as [[= <- <-]|Hin]; [|by apply IH].
  rewrite writes_outside by done. unfold upd. cbn [fst snd]. by rewrite decide_True.
Qed.

(** A block of requests of one kind is a block of writes. *)
Lemma apply_block {A : Type} (req : A -> Z * B) (wr : A -> reg * Z) l r :
  (forall r a, apply_request r (req a) = upd r (wr a)) ->
  foldl apply_request r (req <$> l) = foldl upd r (wr <$> l).
Proof using Type.
  intros Hone. revert r. induction l as [|a l IH]; intros r; [done|].
  cbn [fmap list_fmap foldl]. by rewrite Hone, IH.
Qed.

Context `{!ProtoLaws B cmd_writeOFFSET_singleChannel, !ProtoLaws B cmd_writeAFEVGAIN}.
Context `{!ProtoLaws B cmd_setAFEPowerState, !ProtoLaws B cmd_writeAFEFunction}.

Lemma apply_offset r ch : apply_request r (offset_req ch) = upd r (ROffset ch, v_ch_offset args).
Proof using Type*. unfold apply_request, offset_req. cbn. by rewrite parse_ser. Qed.

Lemma apply_vgain r afe : apply_request r (vgain_req afe) = upd r (RVgain afe, v_vgain args).
Proof using Type*. unfold apply_request, vgain_req. cbn. by rewrite parse_ser. Qed.

Lemma apply_function r anv :
  apply_request r (function_req anv) = upd r (RFunction (fst anv) (fst (snd anv)), snd (snd anv)).
Proof using Type*. unfold apply_request, function_req. cbn. by rewrite parse_ser. Qed.

Lemma apply_power r :
  apply_request r (MT2_SET_AFE_POWERSTATE_REQ, ser (SetPowerState true)) = upd r (RPower, 1).
Proof using Type*. unfold apply_request. cbn. by rewrite parse_ser. Qed.

Lemma apply_align r :
  foldl apply_request r
    (if v_align_afes args then [(MT2_ALIGN_AFE_REQ, ser AlignAFEs)] else []) = r.
Proof using Type. by destruct (v_align_afes args). Qed.

(** The writes of the blocks. *)
Definition offset_writes : list (reg * Z) := (fun ch => (ROffset ch, v_ch_offset args)) <$> seqZ 0 40.
Definition vgain_writes : list (reg * Z) := (fun afe => (RVgain afe, v_vgain args)) <$> seqZ 0 5.
Definition function_writes : list (reg * Z) :=
  (fun anv : Z * (string * Z) => (RFunction (fst anv) (fst (snd anv)), snd (snd anv)))
    <$> all_functions.

Lemma apply_plan r :
  foldl apply_request r v2_plan =
  foldl upd (upd (apply_request (foldl upd (foldl upd r offset_writes) vgain_writes)
                    (MT2_DO_AFE_RESET_REQ, ser DoReset)) (RPower, 1)) function_writes.
Proof using Type*.
  unfold v2_plan. rewrite !foldl_app, apply_align.
  rewrite (apply_block offset_req _ _ _ apply_offset), (apply_block vgain_req _ _ _ apply_vgain).
  rewrite (apply_block function_req _ _ _ apply_function). cbn [foldl]. by rewrite apply_power.
Qed.

Lemma offset_nodup : NoDup offset_writes.*1.
Proof using Type. reg_mem. Qed.
Lemma vgain_nodup : NoDup vgain_writes.*1.
Proof using Type. reg_mem. Qed.
Lemma function_nodup : NoDup function_writes.*1.
Proof using Type. reg_mem. Qed.

Lemma no_function q : (forall afe name, q <> RFunction afe name) -> q ∉ function_writes.*1.
Proof using Type.
  intros Hq. unfold function_writes. rewrite <- list_fmap_compose. intros Hin.
  apply list_elem_of_fmap in Hin as (anv & -> & _). by apply (Hq (fst anv) (fst (snd anv))).
Qed.

Lemma offset_key q : q ∈ offset_writes.*1 <-> exists ch, q = ROffset ch /\ 0 <= ch < 40.
Proof using Type.
  unfold offset_writes. rewrite <- list_fmap_compose. rewrite list_elem_of_fmap.
  by setoid_rewrite elem_of_seqZ.
Qed.

Lemma vgain_key q : q ∈ vgain_writes.*1 <-> exists afe, q = RVgain afe /\ 0 <= afe < 5.
Proof using Type.
  unfold vgain_writes. rewrite <- list_fmap_compose. rewrite list_elem_of_fmap.
  by setoid_rewrite elem_of_seqZ.
Qed.

Lemma all_functions_in afe nv :
  0 <= afe < 5 -> nv ∈ afe_functions args k -> (afe, nv) ∈ all_functions.
Proof using Type.
  intros Ha Hin. unfold all_functions. apply list_elem_of_In, in_concat.
  exists (pair afe <$> afe_functions args k). split; apply list_elem_of_In.
  - apply (list_elem_of_fmap_2 (fun afe => pair afe <$> afe_functions args k)).
    apply elem_of_seqZ. lia.
  - by apply (list_elem_of_fmap_2 (pair afe)).
Qed.

Lemma function_key afe name :
  RFunction afe name ∈ function_writes.*1 -> name ∈ (afe_functions args k).*1.
Proof using Type.
  unfold function_writes, all_functions. rewrite <- list_fmap_compose.
  intros ([a [n v]] & [= _ ->] & Hin)%list_elem_of_fmap. cbn [fst snd].
  apply list_elem_of_In, in_concat in Hin as (l & Hl%list_elem_of_In & Hin%list_elem_of_In).
  apply list_elem_of_fmap in Hl as (a' & -> & _). apply list_elem_of_fmap in Hin as (nv & [= _ <-] & Hin).
  by apply (list_elem_of_fmap_2 fst) in Hin.
Qed.

(** A register other than the power state and the functions, after the plan. *)
Lemma plan_other r q :
  q <> RPower -> (forall afe name, q <> RFunction afe name) ->
  foldl apply_request r v2_plan q = foldl upd (foldl upd r offset_writes) vgain_writes q.
Proof using Type*.
  intros Hp Hf. rewrite apply_plan, writes_outside by (by apply no_function).
  unfold upd at 1. cbn [fst snd]. rewrite decide_False by done.
  destruct q as [| |afe name|]; [done|done|by destruct (Hf afe name)|done].
Qed.

(** What the plan makes of a board. *)
Lemma plan_registers r :
  let r' := foldl apply_request r v2_plan in
  (forall ch, r' (ROffset ch) = if decide (0 <= ch < 40) then Some (v_ch_offset args) else r (ROffset ch)) /\
  (forall afe, r' (RVgain afe) = if decide (0 <= afe < 5) then Some (v_vgain args) else r (RVgain afe)) /\
  (forall afe name v, 0 <= afe < 5 -> (name, v) ∈ afe_functions args k ->
     r' (RFunction afe name) = Some v) /\
  r' RPower = Some 1 /\
  (forall afe name, ~ name ∈ (afe_functions args k).*1 -> r' (RFunction afe name) = after_reset afe name).
Proof using Type*.
  cbv zeta. split_and!.
  - intros ch. rewrite plan_other, writes_outside by (try done; by rewrite vgain_key; intros (x & ? & _)).
    destruct (decide (0 <= ch < 40)) as [Hch|Hch].
    + apply writes_inside; [apply offset_nodup|].
      apply (list_elem_of_fmap_2 (fun ch => (ROffset ch, v_ch_offset args))), elem_of_seqZ. lia.
    + apply writes_outside. rewrite offset_key. by intros (x & [= ->] & ?).
  - intros afe. rewrite plan_other by done. destruct (decide (0 <= afe < 5)) as [Ha|Ha].
    + apply writes_inside; [apply vgain_nodup|].
      apply (list_elem_of_fmap_2 (fun afe => (RVgain afe, v_vgain args))), elem_of_seqZ. lia.
    + rewrite !writes_outside; [done| |].
      * rewrite offset_key. by intros (x & ? & _).
      * rewrite vgain_key. by intros (x & [= ->] & ?).
  - intros afe name v Ha Hin. rewrite apply_plan. apply writes_inside; [apply function_nodup|].
    apply (list_elem_of_fmap_2' (fun anv : Z * (string * Z) =>
      (RFunction (fst anv) (fst (snd anv)), snd (snd anv))) _ (afe, (name, v))); [|done].
    by apply all_functions_in.
  - rewrite apply_plan, writes_outside by (by apply no_function).
    unfold upd at 1. cbn [fst snd]. by rewrite decide_True.
  - intros afe name Hn. rewrite apply_plan, writes_outside; [done|]. intros Hin. apply Hn.
    by apply function_key in Hin.
Qed.

End effects.

(** ** What the scripts send *)

Section sending_v2.
Context {S B : Type} `{Peer S B, Size B, !Proto B (ControlEnvelopeV2 B), !WriteMessages B}.
Abbreviation Wd := (zworld S B).

Lemma requests_call pid rand (R : Type) `{!Proto B R, !Status R} ty (req : B) label :
  requests (fun _ => True) [(ty, req)] (call (S:=S) pid rand R ty req label).
Proof using Type.
  unfold call. eapply requests_then; [apply requests_strict, id_next|].
  intros [env rep]. apply unsent_bind; [apply unsent_lift|done].
Qed.

Lemma concat_singletons {A C : Type} (f : A -> C) l : concat ((fun a => [f a]) <$> l) = f <$> l.
Proof using Type. induction l as [|a l IH]; [done|]. cbn. by f_equal. Qed.

Lemma requests_each {A : Type} (l : list A) (f : A -> M Wd unit) (g : A -> Z * B) :
  (forall a, a ∈ l -> requests (fun _ => True) [g a] (f a)) ->
  requests (fun _ => True) (g <$> l) (for_each l f).
Proof using Type. intros Hf. rewrite <- concat_singletons. by apply requests_for_each. Qed.

Lemma requests_functions pid rand args k :
  requests (fun _ => True) (function_req <$> all_functions args k)
    (for_each (seqZ 0 5) (fun afe =>
       for_each (afe_functions args k) (prog_fun (S:=S) pid rand afe))).
Proof using Type.
  unfold all_functions.
  replace (function_req <$> concat ((fun afe => pair afe <$> afe_functions args k) <$> seqZ 0 5))
    with (concat ((fun afe => (fun nv => function_req (afe, nv)) <$> afe_functions args k)
                    <$> seqZ 0 5)) by reflexivity.
  apply requests_for_each. intros afe _. apply requests_each. intros nv _.
  unfold prog_fun. do 2 apply requests_u32. apply requests_call.
Qed.

Lemma requests_configure pid rand args k :
  v2_lookups args = Ok k ->
  requests (fun _ => True) (v2_plan args k) (configure_v2 (S:=S) pid rand args).
Proof using Type.
  intros Hk. unfold configure_v2, v2_plan. rewrite Hk. apply requests_lift. intros ? [= <-].
  apply (requests_bind (fun _ => True)).
  { apply requests_each. intros ch _. unfold write_offset. do 2 apply requests_u32.
    apply requests_call. }
  intros _ _. apply (requests_bind (fun _ => True)).
  { apply requests_each. intros afe _. unfold write_vgain. do 2 apply requests_u32.
    apply requests_call. }
  intros _ _. apply (requests_bind (fun _ => True) _ [_] (_ :: _)); [apply requests_call|intros _ _].
  apply (requests_bind (fun _ => True) _ [_]); [apply requests_call|intros _ _].
  apply (requests_bind (fun _ => True)); [apply requests_functions|intros _ _].
  destruct (v_align_afes args); [apply requests_call|by apply requests_ret].
Qed.

Definition function_write (args : function_args) (afe : Z) : Z * B :=
  (MT2_WRITE_AFE_FUNCTION_REQ, ser (WriteFunction afe (afeFunction args) (a_value args))).

Lemma requests_set_function args afes :
  validate_value (afeFunction args) (a_value args) = Ok tt -> targets args = Ok afes ->
  requests (fun z => z = 0) (function_write args <$> afes) (set_afe_function (S:=S) args).
Proof using Type.
  intros Hv Ht. unfold set_afe_function. rewrite Hv, Ht.
  apply requests_lift. intros ? [= <-]. apply requests_lift. intros ? [= <-].
  rewrite <- (app_nil_r (function_write args <$> afes)).
  apply (requests_bind (fun _ => True)); [|intros _ _; by apply requests_ret].
  apply requests_each. intros afe _. unfold write_function. do 2 apply requests_u32.
  eapply requests_then; [apply requests_unchecked, id_fixed|]. intros rep.
  destruct (negb _); [done|]. apply unsent_bind; [apply unsent_lift|done].
Qed.

End sending_v2.

(** ** The values of the AFE functions *)

(** A value in the range, or of the list, of a table entry. *)
Definition allowed (valid_range : list Z) (value : Z) : Prop :=
  match valid_range with
  | [lo; hi] => lo <= value <= hi
  | _ => value ∈ valid_range
  end.

Lemma validate_value_ok func value :
  validate_value func value = Ok tt <->
  exists valid_range, assoc available_afe_functions func func = Ok valid_range /\
    allowed valid_range value.
Proof.
  unfold validate_value. destruct (assoc available_afe_functions func func) as [l|e]; cbn [rbind].
  2: { split; [done|]. by intros (x & ? & _). }
  assert (Hl : forall P : Prop, (exists l', Ok l = Ok l' /\ allowed l' value) <-> allowed l value).
  { intros _. split; [by intros (x & [= <-] & ?)|eauto]. }
  rewrite (Hl True). clear Hl.
  assert (Hother : forall e,
    (if bool_decide (value ∈ l) then Ok tt else Raise e) = Ok tt <-> value ∈ l).
  { intros e. destruct (bool_decide_reflect (value ∈ l)); by split. }
  destruct l as [|lo [|hi [|x l]]]; try apply Hother. cbn [allowed]. clear Hother.
  destruct (Z.eqb_spec lo 0) as [->|Hlo]; [destruct (Z.eqb_spec hi 1) as [->|Hhi]|]; cbn [andb].
  - destruct (bool_decide_reflect (value ∈ [0; 1])) as [Hin|Hin].
    + split; [|done]. intros _. set_unfold in Hin. lia.
    + split; [done|]. intros Hv. exfalso. apply Hin. set_unfold. lia.
  - destruct (Z.ltb_spec value 0), (Z.ltb_spec hi value); cbn [orb]; split; try done; lia.
  - destruct (Z.ltb_spec value lo), (Z.ltb_spec hi value); cbn [orb]; split; try done; lia.
Qed.

(** The entries of the table fit the fields of the chip. *)
Definition small_entry (e : string * list Z) : bool :=
  match snd e with
  | [lo; hi] => (0 <=? lo) && (hi <=? 0x3FFF)
  | l => forallb (fun v => (0 <=? v) && (v <=? 0x3FFF)) l
  end.

Lemma table_small : forallb small_entry available_afe_functions = true.
Proof. vm_compute. reflexivity. Qed.

Lemma allowed_small func l value :
  assoc available_afe_functions func func = Ok l -> allowed l value -> 0 <= value <= 0x3FFF.
Proof.
  intros Hl Ha. unfold assoc in Hl.
  destruct (find _ available_afe_functions) as [[name l']|] eqn:Hf; [|done]. injection Hl as ->.
  apply find_some in Hf as [Hin _]. pose proof table_small as Ht. rewrite forallb_forall in Ht.
  specialize (Ht _ Hin). unfold small_entry in Ht. cbn [snd] in Ht.
  assert (Hother : forallb (fun v => (0 <=? v) && (v <=? 0x3FFF)) l = true -> value ∈ l ->
    0 <= value <= 0x3FFF).
  { intros Hall Hv. rewrite forallb_forall in Hall.
    apply list_elem_of_In, Hall in Hv. lia. }
  destruct l as [|lo [|hi [|x l]]]; [by apply Hother|by apply Hother| |by apply Hother].
  cbn [allowed] in Ha. lia.
Qed.

(** ** Properties *)

(** C36. [protobuf_configure_daphne_v2] on any peer: what it sends is a first part of its plan,
    and when it ends normally the requests it sent bring any board to this state, whatever a reset
    leaves in the AFE chips: every channel has the offset, every AFE the attenuation and the nine
    functions the script writes, with the values of the options, the AFEs are powered; no other
    offset or attenuator has changed, and every other function is what the reset left.  One of these
    is [PGA_GAIN_CONTROL]: [-pga_gain_control] is looked up and never programmed
    ([pga_gain_ignored]). *)
Theorem configure_v2_programs {S B : Type}
    `{Peer S B, Size B, !Proto B (ControlEnvelopeV2 B), !WriteMessages B}
    (HO : ProtoLaws B cmd_writeOFFSET_singleChannel) (HV : ProtoLaws B cmd_writeAFEVGAIN)
    (HP : ProtoLaws B cmd_setAFEPowerState) (HF : ProtoLaws B cmd_writeAFEFunction)
    pid rand args codes after_reset (w : zworld S B) :
  v2_lookups args = Ok codes ->
  exists envs : list (ControlEnvelopeV2 B),
    sent (snd (configure_v2 pid rand args w)) = sent w ++ (ser <$> envs) /\
    tag <$> envs `prefix_of` v2_plan args codes /\
    (fst (configure_v2 pid rand args w) = Ok tt -> forall r,
       let r' := foldl (apply_request after_reset) r (tag <$> envs) in
       (forall ch, r' (ROffset ch) =
          if decide (0 <= ch < 40) then Some (v_ch_offset args) else r (ROffset ch)) /\
       (forall afe, r' (RVgain afe) =
          if decide (0 <= afe < 5) then Some (v_vgain args) else r (RVgain afe)) /\
       (forall afe name v, 0 <= afe < 5 -> (name, v) ∈ afe_functions args codes ->
          r' (RFunction afe name) = Some v) /\
       r' RPower = Some 1 /\
       (forall afe name, ~ name ∈ (afe_functions args codes).*1 ->
          r' (RFunction afe name) = after_reset afe name) /\
       r' (RFunction 0 "PGA_GAIN_CONTROL") = after_reset 0 "PGA_GAIN_CONTROL").
Proof.
  intros Hk. destruct (requests_configure pid rand args codes Hk w) as (envs & Hs & Hp & Hn).
  exists envs. split_and!; [done|done|]. intros Hok r. destruct (Hn tt Hok) as [-> _].
  destruct (plan_registers after_reset args codes r) as (Ho & Hv & Hf & Hw & Hr).
  split_and!; try done. apply Hr. intros Hin. cbn in Hin.
  repeat (apply elem_of_cons in Hin as [[=]|Hin]). by apply not_elem_of_nil in Hin.
Qed.

(** [afe_function_v2] on any peer: a value outside the table or a missing AFE ends it before
    anything is sent; otherwise it writes the value to the AFEs asked for, in order, and ends
    with 0 only after all of them. A value it accepts fits 14 bits. *)
Theorem set_afe_function_writes {S B : Type}
    `{Peer S B, Size B, !Proto B (ControlEnvelopeV2 B), !WriteMessages B} args (w : zworld S B) :
  match validate_value (afeFunction args) (a_value args), targets args with
  | Ok _, Ok afes =>
      0 <= a_value args <= 0x3FFF /\
      exists envs : list (ControlEnvelopeV2 B),
        sent (snd (set_afe_function args w)) = sent w ++ (ser <$> envs) /\
        tag <$> envs `prefix_of` (function_write args <$> afes) /\
        (forall z, fst (set_afe_function args w) = Ok z ->
           z = 0 /\ tag <$> envs = function_write args <$> afes)
  | Raise e, _ | Ok _, Raise e => set_afe_function args w = (Raise e, w)
  end.
Proof.
  destruct (validate_value (afeFunction args) (a_value args)) as [[]|e] eqn:Hv.
  - destruct (targets args) as [afes|e] eqn:Ht.
    + split. { apply validate_value_ok in Hv as (l & Hl & Ha). by eapply allowed_small. }
      destruct (requests_set_function args afes Hv Ht w) as (envs & Hs & Hp & Hn).
      exists envs. split_and!; [done|done|]. intros z Hz. by destruct (Hn z Hz).
    + unfold set_afe_function, bind, lift. by rewrite Hv, Ht.
  - unfold set_afe_function, bind, lift. by rewrite Hv.
Qed.

(** ** An example *)

(** Serialized messages as they are. *)
Inductive vwire : Type :=
  | VEmpty
  | VEnv (e : ControlEnvelopeV2 vwire)
  | VOffset (m : cmd_writeOFFSET_singleChannel) | VOffsetR (m : cmd_writeOFFSET_singleChannel_response)
  | VVgain (m : cmd_writeAFEVGAIN) | VVgainR (m : cmd_writeAFEVGAIN_response)
  | VReset | VResetR (m : cmd_doAFEReset_response)
  | VPower (m : cmd_setAFEPowerState) | VPowerR (m : cmd_setAFEPowerState_response)
  | VFunction (m : cmd_writeAFEFunction) | VFunctionR (m : cmd_writeAFEFunction_response)
  | VAlign | VAlignR (m : cmd_alignAFEs_response).

Definition not_this : exn := Exn DecodeError "Error parsing message".

#[export] Instance vwire_size : Size vwire :=
  { size b := match b with VEmpty => 0 | _ => 1 end }.

#[export] Instance vwire_env : Proto vwire (ControlEnvelopeV2 vwire) :=
  { ser := VEnv; parse b := match b with VEnv m => Ok m | _ => Raise not_this end }.

#[export] Instance vwire_messages : WriteMessages vwire := {
  wm_offset := {| ser := VOffset;
    parse b := match b with VOffset m => Ok m | _ => Raise not_this end |};
  wm_offset_resp := {| ser := VOffsetR;
    parse b := match b with VOffsetR m => Ok m | _ => Raise not_this end |};
  wm_vgain := {| ser := VVgain;
    parse b := match b with VVgain m => Ok m | _ => Raise not_this end |};
  wm_vgain_resp := {| ser := VVgainR;
    parse b := match b with VVgainR m => Ok m | _ => Raise not_this end |};
  wm_reset := {| ser _ := VReset;
    parse b := match b with VReset => Ok DoReset | _ => Raise not_this end |};
  wm_reset_resp := {| ser := VResetR;
    parse b := match b with VResetR m => Ok m | _ => Raise not_this end |};
  wm_power := {| ser := VPower;
    parse b := match b with VPower m => Ok m | _ => Raise not_this end |};
  wm_power_resp := {| ser := VPowerR;
    parse b := match b with VPowerR m => Ok m | _ => Raise not_this end |};
  wm_function := {| ser := VFunction;
    parse b := match b with VFunction m => Ok m | _ => Raise not_this end |};
  wm_function_resp := {| ser := VFunctionR;
    parse b := match b with VFunctionR m => Ok m | _ => Raise not_this end |};
  wm_align := {| ser _ := VAlign;
    parse b := match b with VAlign => Ok AlignAFEs | _ => Raise not_this end |};
  wm_align_resp := {| ser := VAlignR;
    parse b := match b with VAlignR m => Ok m | _ => Raise not_this end |} }.

#[export] Instance vwire_laws :
  ProtoLaws vwire cmd_writeOFFSET_singleChannel.
Proof. by split. Qed.
#[export] Instance vwire_vgain_laws : ProtoLaws vwire cmd_writeAFEVGAIN.
Proof. by split. Qed.
#[export] Instance vwire_power_laws : ProtoLaws vwire cmd_setAFEPowerState.
Proof. by split. Qed.
#[export] Instance vwire_function_laws : ProtoLaws vwire cmd_writeAFEFunction.
Proof. by split. Qed.

(** A server that accepts everything. *)
Definition v_answer (m : vwire) : vwire :=
  match m with
  | VOffset m => VOffsetR (WriteOffsetResp true "" (offsetChannel m) (offsetValue m) (offsetGain m))
  | VVgain m => VVgainR (WriteVgainResp true "" (wv_afeBlock m) (wv_vgainValue m))
  | VReset => VResetR (DoResetResp true "")
  | VPower m => VPowerR (SetPowerStateResp true "" (Z.b2z (powerState m)))
  | VFunction m => VFunctionR (WriteFunctionResp true "" (wf_afeBlock m) (wf_function m) (wf_configValue m))
  | VAlign => VAlignR (AlignResp true [] [] "")
  | _ => VEmpty
  end.

#[export] Instance v_peer : Peer unit vwire := {
  can_send _ := true;
  answer u b := (u, match b with
    | VEnv env => [[VEnv (Env 2 DIR_RESPONSE (mtype env + 1) (v_answer (payload env)) (task_id env)
                              (msg_id env) (msg_id env) (route env) 0)]]
    | _ => []
    end) }.

Definition v_world : zworld unit vwire :=
  ZW tt [] [] [] (fun k => 1000 + Z.of_nat k) 0 (fun _ => 7) 0 0 [].

Definition v_options : v2_args := V2Args 1600 2275 true false 10 "0 dBFS" "24 dB" "12 dB" "auto".

Lemma configure_v2_programs_witness :
  fst (configure_v2 5 9 v_options v_world) = Ok tt /\
  exists envs : list (ControlEnvelopeV2 vwire),
    sent (snd (configure_v2 5 9 v_options v_world)) = [] ++ (ser <$> envs) /\
    let r' := foldl (apply_request (fun _ _ => None)) (fun _ => None) (tag <$> envs) in
    r' (ROffset 39) = Some 2275 /\ r' (ROffset 40) = None /\
    r' (RFunction 4 "LPF_PROGRAMMABILITY") = Some 4.
Proof.
  assert (Hok : fst (configure_v2 5 9 v_options v_world) = Ok tt) by (vm_compute; reflexivity).
  split; [exact Hok|].
  destruct (configure_v2_programs vwire_laws vwire_vgain_laws vwire_power_laws vwire_function_laws
    5 9 v_options (V2Codes 4 2 0 2 0) (fun _ _ => None) v_world eq_refl) as (envs & Hs & _ & Hr).
  exists envs. split; [exact Hs|]. specialize (Hr Hok (fun _ => None)). cbv zeta in Hr |- *.
  destruct Hr as (Ho & _ & Hf & _). split; [exact (Ho 39)|]. split; [exact (Ho 40)|].
  apply (Hf 4 "LPF_PROGRAMMABILITY" 4); [lia|reg_mem].
Defined.

(** The option for the PGA gain is looked up and then not used: the requests do not depend on
    it. *)
Example pga_gain_ignored lpf clamp lna lna_clamp v off al int cut lvl inp lc :
  v2_plan (B := vwire) (V2Args v off al int cut lvl "24 dB" inp lc) (V2Codes lpf clamp 0 lna lna_clamp)
  = v2_plan (V2Args v off al int cut lvl "30 dB" inp lc) (V2Codes lpf clamp 1 lna lna_clamp).
Proof. reflexivity. Qed.
