(* ===== verification/JsonText.v ===== *)
(** [json.loads] of the Python standard library: the text of a document as a [pyval].

    Strings are UTF-8 bytes; a lone surrogate escape is kept as its three bytes.  A document
    is read with fuel: every value takes at least one character, so the length of the text is
    enough. *)
From S2P Require Import Prelude PyStr PyFloat PyVal.

(** A parser returns its value and the text left, or a message and the text at the error. *)
Inductive parsed (A : Type) : Type :=
  | Got (a : A) (rest : string)
  | Bad (msg : string) (at_ : string).
Arguments Got {A}.
Arguments Bad {A}.

Definition pbind {A B : Type} (r : parsed A) (k : A -> string -> parsed B) : parsed B :=
  match r with Got a rest => k a rest | Bad m at_ => Bad m at_ end.

(** [WHITESPACE] *)
Definition json_space (c : ascii) : bool :=
  let n := code c in (n =? 32) || (n =? 9) || (n =? 10) || (n =? 13).

Fixpoint skip_ws (s : string) : string :=
  match s with
  | String c t => if json_space c then skip_ws t else s
  | "" => ""
  end.

(** ** Strings *)

Fixpoint hex_value (s : string) (acc : Z) : option Z :=
  match s with
  | "" => Some acc
  | String c t =>
      match digit_val c with
      | Some d => if d <? 16 then hex_value t (acc * 16 + d) else None
      | None => None
      end
  end.

Definition hex4 (s : string) : option (Z * string) :=
  match s with
  | String a (String b (String c (String d t))) =>
      (fun v => (v, t)) <$> hex_value (String a (String b (String c (String d "")))) 0
  | _ => None
  end.

Definition utf8 (u : Z) : string :=
  if u <? 0x80 then String (char u) ""
  else if u <? 0x800 then
    String (char (0xC0 + Z.shiftr u 6)) (String (char (0x80 + Z.land u 63)) "")
  else if u <? 0x10000 then
    String (char (0xE0 + Z.shiftr u 12))
      (String (char (0x80 + Z.land (Z.shiftr u 6) 63)) (String (char (0x80 + Z.land u 63)) ""))
  else
    String (char (0xF0 + Z.shiftr u 18))
      (String (char (0x80 + Z.land (Z.shiftr u 12) 63))
         (String (char (0x80 + Z.land (Z.shiftr u 6) 63))
            (String (char (0x80 + Z.land u 63)) ""))).

Definition simple_escape (c : ascii) : option ascii :=
  let n := code c in
  if n =? 34 then Some (char 34) else if n =? 92 then Some (char 92)
  else if n =? 47 then Some (char 47) else if n =? 98 then Some (char 8)
  else if n =? 102 then Some (char 12) else if n =? 110 then Some (char 10)
  else if n =? 114 then Some (char 13) else if n =? 116 then Some (char 9)
  else None.

(** The escape after a backslash: its bytes and the text left. *)
Definition escape (s : string) : parsed string :=
  match s with
  | "" => Bad "Unterminated string starting at" s
  | String c t =>
      if Ascii.eqb c "u" then
        match hex4 t with
        | None => Bad "Invalid \uXXXX escape" s
        | Some (u, t1) =>
            if (0xD800 <=? u) && (u <? 0xDC00) then
              match strip_prefix "\u" t1 with
              | Some t2 =>
                  match hex4 t2 with
                  | None => Bad "Invalid \uXXXX escape" t1
                  | Some (v, t3) =>
                      if (0xDC00 <=? v) && (v <? 0xE000)
                      then Got (utf8 (0x10000 + Z.lor (Z.shiftl (u - 0xD800) 10) (v - 0xDC00))) t3
                      else Got (utf8 u) t1
                  end
              | None => Got (utf8 u) t1
              end
            else Got (utf8 u) t1
        end
      else match simple_escape c with
           | Some e => Got (String e "") t
           | None => Bad "Invalid \escape: " s
           end
  end.

(** The rest of a string, after its opening quote. *)
Fixpoint scan_string (fuel : nat) (begin : string) (s : string) : parsed string :=
  match fuel with
  | O => Bad "out of fuel" s
  | S fuel' =>
      match s with
      | "" => Bad "Unterminated string starting at" begin
      | String c t =>
          if code c =? 34 then Got "" t
          else if code c =? 92 then
            pbind (escape t) (fun e t' =>
            pbind (scan_string fuel' begin t') (fun r t'' => Got (e +:+ r) t''))
          else if code c <? 32 then Bad "Invalid control character at" s
          else pbind (scan_string fuel' begin t) (fun r t' => Got (String c r) t')
      end
  end.

(** ** Numbers *)

Fixpoint take_digits (s : string) : string * string :=
  match s with
  | String c t => if is_digit c then let '(d, r) := take_digits t in (String c d, r) else ("", s)
  | "" => ("", "")
  end.

(** A number is an optional sign, an integer part without leading zeros, and optional
    fraction and exponent. *)
Definition int_part (s : string) : option (string * string) :=
  match s with
  | String "0" t => Some ("0", t)
  | _ => match take_digits s with
         | ("", _) => None
         | (d, r) => Some (d, r)
         end
  end.

Definition frac_part (s : string) : string * string :=
  match s with
  | String "." t => match take_digits t with
                    | ("", _) => ("", s)
                    | (d, r) => (String "." d, r)
                    end
  | _ => ("", s)
  end.

Definition exp_part (s : string) : string * string :=
  match s with
  | String c t =>
      if Ascii.eqb (lower c) "e" then
        let '(sign, u) := match t with
                          | String "-" u => ("-", u)
                          | String "+" u => ("+", u)
                          | _ => ("", t)
                          end in
        match take_digits u with
        | ("", _) => ("", s)
        | (d, r) => (String c (sign +:+ d), r)
        end
      else ("", s)
  | "" => ("", s)
  end.

Definition scan_number (s : string) : parsed pyval :=
  let '(sign, t) := match s with String "-" t => ("-", t) | _ => ("", s) end in
  match int_part t with
  | None => Bad "Expecting value" s
  | Some (i, r) =>
      let '(f, r1) := frac_part r in
      let '(e, r2) := exp_part r1 in
      if decide (f = "" /\ e = "") then
        match int10 (sign +:+ i) with
        | Ok z => Got (PyInt z) r
        | Raise _ => Bad "Expecting value" s
        end
      else match py_float (sign +:+ i +:+ f +:+ e) with
           | Ok x => Got (PyFloat x) r2
           | Raise _ => Bad "Expecting value" s
           end
  end.

(** ** Values *)

Definition scan_literal (s : string) : option (pyval * string) :=
  match strip_prefix "null" s with Some r => Some (PyNone, r) | None =>
  match strip_prefix "true" s with Some r => Some (PyBool true, r) | None =>
  match strip_prefix "false" s with Some r => Some (PyBool false, r) | None =>
  match strip_prefix "NaN" s with Some r => Some (PyFloat S754_nan, r) | None =>
  match strip_prefix "Infinity" s with Some r => Some (PyFloat (S754_infinity false), r) | None =>
  match strip_prefix "-Infinity" s with Some r => Some (PyFloat (S754_infinity true), r) | None =>
  None end end end end end end.

(** [d[k] = v]: a key already there keeps its place. *)
Definition dict_put (d : list (string * pyval)) (k : string) (v : pyval) : list (string * pyval) :=
  if lookup_key d k is Some _ then (fun kv => if decide (fst kv = k) then (k, v) else kv) <$> d
  else d ++ [(k, v)].

Fixpoint scan_value (fuel : nat) (s : string) : parsed pyval :=
  match fuel with
  | O => Bad "out of fuel" s
  | S fuel' =>
      match s with
      | "" => Bad "Expecting value" s
      | String c t =>
          if code c =? 34 then pbind (scan_string (String.length s) s t) (fun v r => Got (PyStr v) r)
          else if Ascii.eqb c "[" then
            match skip_ws t with
            | String "]" r => Got (PyList []) r
            | u => scan_items fuel' [] u
            end
          else if Ascii.eqb c "{" then
            match skip_ws t with
            | String "}" r => Got (PyDict []) r
            | u => scan_members fuel' [] u
            end
          else match scan_literal s with
               | Some (v, r) => Got v r
               | None => scan_number s
               end
      end
  end
with scan_items (fuel : nat) (acc : list pyval) (s : string) : parsed pyval :=
  match fuel with
  | O => Bad "out of fuel" s
  | S fuel' =>
      pbind (scan_value fuel' s) (fun v r =>
      match skip_ws r with
      | String "]" r' => Got (PyList (acc ++ [v])) r'
      | String "," r' => scan_items fuel' (acc ++ [v]) (skip_ws r')
      | r' => Bad "Expecting ',' delimiter" r'
      end)
  end
with scan_members (fuel : nat) (acc : list (string * pyval)) (s : string) : parsed pyval :=
  match fuel with
  | O => Bad "out of fuel" s
  | S fuel' =>
      match s with
      | String q t =>
          if code q =? 34 then
            pbind (scan_string (String.length s) s t) (fun k r =>
            match skip_ws r with
            | String ":" r1 =>
                pbind (scan_value fuel' (skip_ws r1)) (fun v r2 =>
                match skip_ws r2 with
                | String "}" r3 => Got (PyDict (dict_put acc k v)) r3
                | String "," r3 => scan_members fuel' (dict_put acc k v) (skip_ws r3)
                | r3 => Bad "Expecting ',' delimiter" r3
                end)
            | r1 => Bad "Expecting ':' delimiter" r1
            end)
          else Bad "Expecting property name enclosed in double quotes" s
      | "" => Bad "Expecting property name enclosed in double quotes" s
      end
  end.

(** Line and column, from 1, of the first character after [pre]. *)
Fixpoint line_col (pre : string) (line col : Z) : Z * Z :=
  match pre with
  | "" => (line, col)
  | String c t => if code c =? 10 then line_col t (line + 1) 1 else line_col t line (col + 1)
  end.

(** [JSONDecodeError] *)
Definition decode_error (doc msg at_ : string) : exn :=
  let pos := (String.length doc - String.length at_)%nat in
  let '(line, col) := line_col (String.substring 0 pos doc) 1 1 in
  Exn ValueError (msg +:+ ": line " +:+ str_Z line +:+ " column " +:+ str_Z col +:+ " (char "
                  +:+ str_Z (Z.of_nat pos) +:+ ")").

(** [json.loads(s)] *)
Definition json_loads (s : string) : result pyval :=
  match scan_value (2 * String.length s + 2) (skip_ws s) with
  | Got v r => match skip_ws r with
               | "" => Ok v
               | r' => Raise (decode_error s "Extra data" r')
               end
  | Bad m at_ => Raise (decode_error s m at_)
  end.

(** ** Checks *)

(** Text with single quotes for the double quotes of JSON. *)
Definition quoted (s : string) : string := replace_char "'" (String (char 34) "") s.

Example loads_object :
  json_loads (quoted " {'a': [1, -2.5e1, true, null], 'b': {}, 'a': '\u00e9\n' } ") =
  Ok (PyDict [("a", PyStr (String (char 195) (String (char 169) (String (char 10) ""))));
              ("b", PyDict [])]).
Proof. vm_compute. reflexivity. Qed.

Example loads_error :
  json_loads (quoted "{'a': 1,}") =
  Raise (Exn ValueError
    "Expecting property name enclosed in double quotes: line 1 column 9 (char 8)").
Proof. vm_compute. reflexivity. Qed.

Example loads_number : json_loads "-012" = Raise (Exn ValueError "Extra data: line 1 column 3 (char 2)").
Proof. vm_compute. reflexivity. Qed.
