(* ===== verification/ScanRuntime.v ===== *)
(** What the LED scans share: [client/dynamic_range_led/scan_runtime.py].

    The scans run other programs ([ssp_led_run], [ssp_led_stop], [read_fe_state_v2.py],
    [vbias_monitor_once.py], [protobuf_acquire_list_channels.py]) and write files.  The machine
    they run on is class [Machine]: what a program prints and returns, and whether a file
    operation succeeds, may depend on everything that happened before; both may raise. *)
From S2P Require Import Prelude PyStr PyFloat PyVal JsonText FeConfig.

(** ** Processes and files *)

(** The contents of a file: text, a document written by [json.dumps], rows of a CSV file, a
    figure. *)
Inductive doc : Type :=
  | DText (s : string)
  | DJson (v : pyval)
  | DCsv (fieldnames : list string) (rows : list (list (string * pyval)))
  | DPlot (title : string)
  | DFigure (title : string) (curves : list (string * list (float * float))).

(** A finished process: its exit status and what it printed. *)
Record proc : Type := Proc { returncode : Z; p_stdout : string; p_stderr : string }.

(** What a scan does outside of itself; the exchange of a configuration goes through the
    socket, the others through the machine. *)
Inductive action : Type :=
  | Run (cmd : list string)
  | Mkdir (path : string)
  | Write (path : string) (d : doc)
  | Sleep (seconds : float)
  | Eprint (text : string)
  | Configure (cfg : ConfigureRequest).

Class Machine (P : Type) : Type := {
  run_program : P -> list string -> P * result proc;
  file_op : P -> action -> P * result unit;
  utc_now : P -> string }.

(** The paths and names the environment gives; [expanduser] is [str(Path(p).expanduser())]. *)
Record paths : Type := Paths {
  expanduser : string -> string; CLIENT_DIR : string; DAPHNE_ROOT : string }.

(** [str(dir / name)] *)
Definition path_join (dir name : string) : string :=
  if decide (dir = "/") then "/" +:+ name else dir +:+ "/" +:+ name.

(** The machine and the actions so far with their outcome: the exit status of a program, 1 for
    a configuration that was accepted, 0 for the others. *)
Record event : Type := Ev { ev_action : action; ev_outcome : result Z }.

Record iow (P : Type) : Type := IOW { mach : P; log : list event }.
Arguments IOW {P}.
Arguments mach {P}.
Arguments log {P}.

(** [inclusive_range] *)
Definition range_values (start stop step : Z) : list Z :=
  (fun k => start + step * k) <$> seqZ 0 (Z.max 0 ((stop + 1 - start + step - 1) / step)).

Definition inclusive_range (start stop step : Z) : result (list Z) :=
  if step <=? 0 then Raise (Exn ValueError "step must be > 0")
  else
    let values := range_values start stop step in
    Ok (match last values with
        | Some v => if v =? stop then values else values ++ [stop]
        | None => [stop]
        end).

(** The text after the last occurrence of [m]. *)
Fixpoint after_last (m s : string) : option string :=
  match s with
  | "" => strip_prefix m ""
  | String _ t => match after_last m t with
                  | Some r => Some r
                  | None => strip_prefix m s
                  end
  end.

Definition marker : string := "=== FE STATE SNAPSHOT (read-only) ===".

(** [extract_fe_state_json] *)
Definition extract_fe_state_json (output : string) : result pyval :=
  match after_last marker output with
  | None => Raise (Exn ValueError "FE state readback did not contain snapshot marker")
  | Some rest =>
      let json_text := strip rest in
      if decide (json_text = "")
      then Raise (Exn ValueError "FE state readback did not contain JSON payload")
      else json_loads json_text
  end.

(** [resolve_led_biases]: the biases at 270 and 367 nm. *)
Definition resolve_led_biases (scan_wavelength : string) (intensity fixed_bias_270nm
    fixed_bias_367nm : Z) : Z * Z :=
  (if decide (scan_wavelength = "270") then intensity else fixed_bias_270nm,
   if decide (scan_wavelength = "367") then intensity else fixed_bias_367nm).

(** [infer_tunnel_board] *)
Definition infer_tunnel_board (port : Z) : string :=
  if port =? 40113 then "daphne-13" else if port =? 40114 then "daphne-14"
  else if port =? 40115 then "daphne-15" else "".

(** What a process printed, the errors last. *)
Definition combined (p : proc) : string :=
  if decide (p_stderr p = "") then p_stdout p
  else p_stdout p +:+ (if decide (p_stdout p = "") then "" else String (char 10) "") +:+ p_stderr p.

Definition with_newline (s : string) : string := s +:+ String (char 10) "".

Definition strs (l : list string) : pyval := PyList (PyStr <$> l).

(** Options of the LED programs; the timeout by the text [str] gives for it. *)
Record led_options : Type := LedOptions {
  led_client : string; led_stop_client : string; led_config : string; led_host : string;
  led_port : Z; led_ssh_tunnel : string; led_ssh_tunnel_remote_host : string;
  led_ssh_tunnel_remote_port : Z; led_timeout_s : string; led_channel_mask : Z;
  led_number_channels : Z; led_pulse_width_ticks : Z }.

(** [x or y] of strings *)
Definition str_or (x y : string) : string := if decide (x = "") then y else x.

(** ** The commands *)

Section commands.
Context (env : paths).

Definition default_led_client_path (name : string) : string := path_join (CLIENT_DIR env) name.

Definition default_led_config_path : string :=
  path_join (path_join (DAPHNE_ROOT env) "configs") "led_run_defaults.json".

Definition tunnel_args (o : led_options) : list string :=
  if decide (led_ssh_tunnel o = "") then []
  else ["--ssh-tunnel"; led_ssh_tunnel o;
        "--ssh-tunnel-remote-host"; led_ssh_tunnel_remote_host o;
        "--ssh-tunnel-remote-port"; str_Z (led_ssh_tunnel_remote_port o)].

Definition led_command (o : led_options) (led_intensity_270nm led_intensity_367nm : Z)
    : list string :=
  [expanduser env (str_or (led_client o) (default_led_client_path "ssp_led_run"));
   "--config"; expanduser env (led_config o); "--host"; led_host o; "--port"; str_Z (led_port o);
   "--timeout"; led_timeout_s o; "--channel-mask"; str_Z (led_channel_mask o);
   "--number-channels"; str_Z (led_number_channels o);
   "--pulse-width-ticks"; str_Z (led_pulse_width_ticks o);
   "--pulse-bias-percent-270nm"; str_Z led_intensity_270nm;
   "--pulse-bias-percent-367nm"; str_Z led_intensity_367nm] ++ tunnel_args o.

Definition led_stop_command (o : led_options) : list string :=
  [expanduser env (str_or (led_stop_client o) (default_led_client_path "ssp_led_stop"));
   "--host"; led_host o; "--port"; str_Z (led_port o); "--timeout"; led_timeout_s o]
  ++ tunnel_args o.

Definition readback_command (python_exe host : string) (port : Z) (route : string)
    (timeout_ms : Z) : list string :=
  [python_exe; path_join (CLIENT_DIR env) "read_fe_state_v2.py"; "--host"; host;
   "--port"; str_Z port; "--route"; route; "--timeout"; str_Z timeout_ms].

Definition bias_monitor_command (python_exe host : string) (port afe timeout_ms : Z)
    (board : string) : list string :=
  let script := path_join (CLIENT_DIR env) "vbias_monitor_once.py" in
  if decide (board = "")
  then [python_exe; script; "--ip"; host; "--port"; str_Z port; "--afe"; str_Z afe;
        "--timeout"; str_Z timeout_ms]
  else [path_join (path_join (DAPHNE_ROOT env) "utils") "run_client_via_tunnel.sh"; board; script;
        "--afe"; str_Z afe; "--timeout"; str_Z timeout_ms].

Definition acquire_command (python_exe host : string) (port : Z) (route raw_dir : string)
    (channels : list Z) (waveforms waveform_len timeout_ms : Z) (software_trigger : bool)
    : list string :=
  [python_exe; path_join (CLIENT_DIR env) "protobuf_acquire_list_channels.py"; "-ip"; host;
   "-port"; str_Z port; "--route"; route; "--osc_mode"; "-foldername"; raw_dir;
   "-channel_list"; join "," (str_Z <$> channels); "-N"; str_Z waveforms;
   "-L"; str_Z waveform_len; "--timeout_ms"; str_Z timeout_ms]
  ++ (if software_trigger then ["-software_trigger"] else []).

End commands.

(** ** Running them *)

Section runtime.
Context {P : Type} `{Machine P}.
Abbreviation Wd := (iow P).

(** [subprocess.run(cmd, text=True, capture_output=True, check=False)] *)
Definition subprocess_run (cmd : list string) : M Wd proc := fun w =>
  let '(p, r) := run_program (mach w) cmd in
  (r, IOW p (log w ++ [Ev (Run cmd) (q <-! r ;; Ok (returncode q))])).

Definition file_action (a : action) : M Wd unit := fun w =>
  let '(p, r) := file_op (mach w) a in
  (r, IOW p (log w ++ [Ev a (_ <-! r ;; Ok 0)])).

Definition write_text (path s : string) : M Wd unit := file_action (Write path (DText s)).
Definition write_json (path : string) (v : pyval) : M Wd unit :=
  file_action (Write path (DJson v)).
Definition write_csv (path : string) (fieldnames : list string)
    (rows : list (list (string * pyval))) : M Wd unit :=
  file_action (Write path (DCsv fieldnames rows)).
Definition mkdir (path : string) : M Wd unit := file_action (Mkdir path).
Definition sleep (x : float) : M Wd unit := file_action (Sleep x).
Definition eprint (text : string) : M Wd unit := file_action (Eprint text).
Definition utc_now_iso : M Wd string := gets (fun w => utc_now (mach w)).

Definition run_cmd (cmd : list string) (log_path : string) (dry_run : bool)
    : M Wd (Z * string) :=
  if dry_run then
    let text := with_newline (join " " cmd) in
    write_text log_path text ;;; ret (0, strip text)
  else
    p <- subprocess_run cmd ;;
    write_text log_path (combined p) ;;;
    ret (returncode p, strip (combined p)).

Definition run_fe_state_readback (env : paths) (python_exe host : string) (port : Z)
    (route : string) (timeout_ms : Z) (log_path json_path : string) (dry_run : bool)
    : M Wd pyval :=
  let cmd := readback_command env python_exe host port route timeout_ms in
  if dry_run then
    write_text log_path (with_newline (join " " cmd)) ;;;
    ret (PyDict [("command", strs cmd); ("dry_run", PyBool true); ("json_path", PyStr json_path)])
  else
    p <- subprocess_run cmd ;;
    write_text log_path (combined p) ;;;
    let payload := [("command", strs cmd); ("returncode", PyInt (returncode p));
                    ("json_path", PyStr json_path)] in
    if returncode p =? 0 then
      extra <- try_except
        (config <- lift (extract_fe_state_json (combined p)) ;;
         write_json json_path config ;;;
         ret ("config", config))
        (fun exc => ret ("parse_error", PyStr (exn_text exc))) ;;
      ret (PyDict (payload ++ [extra]))
    else ret (PyDict payload).

(** The dictionary of a finished command. *)
Definition outcome (cmd : list string) (rc : Z) (output : string) : list (string * pyval) :=
  [("command", strs cmd); ("returncode", PyInt rc); ("output", PyStr output)].

Definition run_led (env : paths) (o : led_options) (led_intensity_270nm led_intensity_367nm : Z)
    (log_path : string) (dry_run : bool) : M Wd (Z * pyval) :=
  let cmd := led_command env o led_intensity_270nm led_intensity_367nm in
  '(rc, output) <- run_cmd cmd log_path dry_run ;;
  ret (rc, PyDict (outcome cmd rc output)).

Definition run_led_stop (env : paths) (o : led_options) (log_path : string) (dry_run : bool)
    : M Wd pyval :=
  let cmd := led_stop_command env o in
  '(rc, output) <- run_cmd cmd log_path dry_run ;;
  ret (PyDict (outcome cmd rc output)).

Definition run_bias_monitor (env : paths) (python_exe host : string) (port afe timeout_ms : Z)
    (log_path : string) (dry_run : bool) (board : string) : M Wd pyval :=
  let cmd := bias_monitor_command env python_exe host port afe timeout_ms board in
  '(rc, output) <- run_cmd cmd log_path dry_run ;;
  ret (PyDict ([("afe", PyInt afe)] ++ outcome cmd rc output
               ++ (if decide (board = "") then [] else [("board", PyStr board)]))).

Definition run_acquire (env : paths) (python_exe host : string) (port : Z) (route raw_dir : string)
    (channels : list Z) (waveforms waveform_len timeout_ms : Z) (software_trigger dry_run : bool)
    (log_path : string) : M Wd (Z * list string) :=
  let cmd := acquire_command env python_exe host port route raw_dir channels waveforms
               waveform_len timeout_ms software_trigger in
  if dry_run then
    write_text log_path (with_newline (join " " cmd)) ;;; ret (0, cmd)
  else
    p <- subprocess_run cmd ;;
    write_text log_path (combined p) ;;;
    ret (returncode p, cmd).

End runtime.

(** ** What a computation does

    A world with a log of events and some variables of interest.  [does m l Q]: from variables
    [l], [m] ends with a result, variables and new events of which [Q] holds. *)
Class Logged (W L : Type) : Type := {
  lc : W -> L;
  lg : W -> list event }.

#[export] Instance iow_logged (P : Type) : Logged (iow P) unit := {
  lc := fun _ => tt; lg := log }.

Section does.
Context {W L : Type} `{!Logged W L}.

Definition does {A : Type} (m : M W A) (l : L)
    (Q : result A -> L -> list event -> Prop) : Prop :=
  forall w, lc w = l -> exists evs, lg (snd (m w)) = lg w ++ evs /\ Q (fst (m w)) (lc (snd (m w))) evs.

Lemma does_run {A : Type} (m : M W A) l Q w :
  does m l Q -> lc w = l ->
  exists r w' evs, m w = (r, w') /\ lg w' = lg w ++ evs /\ Q r (lc w') evs.
Proof using Type.
  intros Hm Hl. destruct (Hm w Hl) as (evs & Hlog & HQ). destruct (m w) as [r w'].
  by exists r, w', evs.
Qed.

Lemma does_weaken {A : Type} (m : M W A) l (Q Q' : result A -> L -> list event -> Prop) :
  does m l Q -> (forall r l' evs, Q r l' evs -> Q' r l' evs) -> does m l Q'.
Proof using Type. intros Hm HQ w Hl. destruct (Hm w Hl) as (evs & ? & ?). eauto. Qed.

Lemma does_quiet {A : Type} (m : M W A) l (Q : result A -> L -> list event -> Prop) r :
  (forall w, m w = (r, w)) -> Q r l [] -> does m l Q.
Proof using Type.
  intros Hm HQ w Hl. exists []. rewrite Hm. cbn. by rewrite app_nil_r, Hl.
Qed.

Lemma does_ret {A : Type} (a : A) l (Q : result A -> L -> list event -> Prop) :
  Q (Ok a) l [] -> does (ret a) l Q.
Proof using Type. by apply does_quiet. Qed.

Lemma does_raise {A : Type} e l (Q : result A -> L -> list event -> Prop) :
  Q (Raise e) l [] -> does (raise e) l Q.
Proof using Type. by apply does_quiet. Qed.

Lemma does_lift {A : Type} (r : result A) l (Q : result A -> L -> list event -> Prop) :
  Q r l [] -> does (lift r) l Q.
Proof using Type. by apply does_quiet. Qed.

Lemma does_gets {A : Type} (f : W -> A) l (Q : result A -> L -> list event -> Prop) :
  (forall w, lc w = l -> Q (Ok (f w)) l []) -> does (gets f) l Q.
Proof using Type. intros HQ w Hl. exists []. cbn. rewrite app_nil_r, Hl. auto. Qed.

Lemma does_modify (f : W -> W) l (Q : result unit -> L -> list event -> Prop) :
  (forall w, lc w = l -> lg (f w) = lg w /\ Q (Ok tt) (lc (f w)) []) -> does (modify f) l Q.
Proof using Type.
  intros HQ w Hl. exists []. cbn. destruct (HQ w Hl) as [-> HQ']. by rewrite app_nil_r.
Qed.

(** What is left to show of a continuation. *)
Definition after {A C : Type} (k : A -> M W C) (Q : result C -> L -> list event -> Prop)
    (r : result A) (l : L) (evs : list event) : Prop :=
  match r with
  | Ok a => does (k a) l (fun r' l' evs' => Q r' l' (evs ++ evs'))
  | Raise e => Q (Raise e) l evs
  end.

Lemma does_bind {A C : Type} (m : M W A) (k : A -> M W C) l Q :
  does m l (after k Q) -> does (bind m k) l Q.
Proof using Type.
  intros Hm w Hl. destruct (Hm w Hl) as (e1 & Hlog & HQ). unfold bind.
  destruct (m w) as [[a|e] w1]; cbn in *; [|by exists e1].
  destruct (HQ w1 eq_refl) as (e2 & Hlog2 & HQ2). exists (e1 ++ e2).
  by rewrite Hlog2, Hlog, app_assoc.
Qed.

Lemma does_when (b : bool) (m : M W unit) l Q :
  (b = true -> does m l Q) -> (b = false -> Q (Ok tt) l []) -> does (when b m) l Q.
Proof using Type. destruct b; intros H1 H2; cbn; [auto|]. apply does_ret. auto. Qed.

Lemma does_try_finally {A : Type} (m : M W A) (f : M W unit) l Q :
  does m l (fun r l1 e1 => does f l1 (fun r' l2 e2 =>
    Q (match r' with Ok _ => r | Raise e => Raise e end) l2 (e1 ++ e2))) ->
  does (try_finally m f) l Q.
Proof using Type.
  intros Hm w Hl. destruct (Hm w Hl) as (e1 & Hlog & HQ). unfold try_finally.
  destruct (m w) as [r w1]; cbn in *. destruct (HQ w1 eq_refl) as (e2 & Hlog2 & HQ2).
  exists (e1 ++ e2). destruct (f w1) as [[?|e] w2]; cbn in *; by rewrite Hlog2, Hlog, app_assoc.
Qed.

Lemma does_try_except {A : Type} (m : M W A) (h : exn -> M W A) l Q :
  does m l (fun r l1 e1 => match r with
    | Ok a => Q (Ok a) l1 e1
    | Raise e => does (h e) l1 (fun r' l2 e2 => Q r' l2 (e1 ++ e2)) end) ->
  does (try_except m h) l Q.
Proof using Type.
  intros Hm w Hl. destruct (Hm w Hl) as (e1 & Hlog & HQ). unfold try_except.
  destruct (m w) as [[a|e] w1]; cbn in *; [by exists e1|].
  destruct (HQ w1 eq_refl) as (e2 & Hlog2 & HQ2). exists (e1 ++ e2).
  by rewrite Hlog2, Hlog, app_assoc.
Qed.

(** A lifted result that is a value, before the others. *)
Lemma does_lift_bind {A C : Type} (r : result A) (k : A -> M W C) l
    (Q : result C -> L -> list event -> Prop) :
  (forall e, Q (Raise e) l []) -> (forall a, r = Ok a -> does (k a) l Q) ->
  does (bind (lift r) k) l Q.
Proof using Type.
  intros He Hk. apply does_bind, does_lift. destruct r as [a|e]; cbn; [|apply He].
  eapply does_weaken; [by apply Hk|]. done.
Qed.

(** [m] leaves what [f] tells of the variables alone and emits only events of [E]. *)
Definition emits {A X : Type} (f : L -> X) (E : event -> Prop) (m : M W A) : Prop :=
  forall l, does m l (fun _ l' evs => f l' = f l /\ Forall E evs).

Section emits.
Context {X : Type} (f : L -> X) (E : event -> Prop).

Lemma emits_ret {A : Type} (a : A) : emits f E (ret a).
Proof using Type. intros l. by apply does_ret. Qed.

Lemma emits_raise {A : Type} e : emits f E (raise e : M W A).
Proof using Type. intros l. by apply does_raise. Qed.

Lemma emits_lift {A : Type} (r : result A) : emits f E (lift r).
Proof using Type. intros l. by apply does_lift. Qed.

Lemma emits_gets {A : Type} (g : W -> A) : emits f E (gets g).
Proof using Type. intros l. by apply does_gets. Qed.

Lemma emits_bind {A C : Type} (m : M W A) (k : A -> M W C) :
  emits f E m -> (forall a, emits f E (k a)) -> emits f E (bind m k).
Proof using Type.
  intros Hm Hk l. apply does_bind. eapply does_weaken; [apply Hm|].
  intros [a|e] l1 e1 [Hf1 HE1]; cbn; [|done].
  eapply does_weaken; [apply Hk|]. intros r l2 e2 [Hf2 HE2]. rewrite Hf2.
  split; [done|]. by apply Forall_app.
Qed.

Lemma emits_when (b : bool) (m : M W unit) : emits f E m -> emits f E (when b m).
Proof using Type. intros Hm. destruct b; [apply Hm|apply emits_ret]. Qed.

Lemma emits_for_each {A : Type} (xs : list A) (g : A -> M W unit) :
  (forall a, emits f E (g a)) -> emits f E (for_each xs g).
Proof using Type.
  intros Hg. induction xs as [|x xs IH]; cbn; [apply emits_ret|]. by apply emits_bind.
Qed.

Lemma emits_map_m {A C : Type} (xs : list A) (g : A -> M W C) :
  (forall a, emits f E (g a)) -> emits f E (map_m g xs).
Proof using Type.
  intros Hg. induction xs as [|x xs IH]; cbn; [apply emits_ret|].
  apply emits_bind; [done|]. intros c. apply emits_bind; [done|]. intros. apply emits_ret.
Qed.

Lemma emits_try_except {A : Type} (m : M W A) (h : exn -> M W A) :
  emits f E m -> (forall e, emits f E (h e)) -> emits f E (try_except m h).
Proof using Type.
  intros Hm Hh l. apply does_try_except. eapply does_weaken; [apply Hm|].
  intros [a|e] l1 e1 [Hf1 HE1]; [done|]. eapply does_weaken; [apply Hh|].
  intros r l2 e2 [Hf2 HE2]. rewrite Hf2. split; [done|]. by apply Forall_app.
Qed.

End emits.
End does.

(** The event of a program. *)
Definition is_run (e : event) : bool := match ev_action e with Run _ => true | _ => false end.

Definition not_run (e : event) : Prop := is_run e = false.

Create HintDb scan.
#[export] Hint Resolve emits_ret emits_raise emits_lift emits_gets emits_bind emits_when
  emits_for_each emits_map_m emits_try_except : scan.

(** A step that leaves the variables alone and emits only events of [E], before the others. *)
Lemma does_emits {W L A C : Type} `{!Logged W L} (E : event -> Prop) (m : M W A) (k : A -> M W C) l
    (Q : result C -> L -> list event -> Prop) :
  emits (fun l => l) E m ->
  (forall pre r l' evs, Forall E pre -> Q r l' evs -> Q r l' (pre ++ evs)) ->
  (forall e l' evs, Forall E evs -> Q (Raise e) l' evs) ->
  (forall a, does (k a) l Q) -> does (bind m k) l Q.
Proof.
  intros Hm Hpre He Hk. apply does_bind. eapply does_weaken; [apply Hm|].
  intros [a|e] l1 e1 [-> HE]; cbn; [|by apply He].
  eapply does_weaken; [apply Hk|]. intros r l2 e2. by apply Hpre.
Qed.

(** ** The events of the operations *)

Section runtime_events.
Context {P : Type} `{Machine P}.
Abbreviation Wd := (iow P).
Implicit Types (l : unit).

Lemma does_file a l (Q : result unit -> unit -> list event -> Prop) :
  Q (Ok tt) tt [Ev a (Ok 0)] -> (forall e, Q (Raise e) tt [Ev a (Raise e)]) ->
  does (W := Wd) (L := unit) (file_action a) l Q.
Proof using Type.
  intros H1 H2 w _. unfold file_action. destruct (file_op (mach w) a) as [p [[]|e]];
    eexists; (split; [reflexivity|]); cbn; auto.
Qed.

Lemma does_subprocess cmd l (Q : result proc -> unit -> list event -> Prop) :
  (forall p, Q (Ok p) tt [Ev (Run cmd) (Ok (returncode p))]) ->
  (forall e, Q (Raise e) tt [Ev (Run cmd) (Raise e)]) ->
  does (W := Wd) (L := unit) (subprocess_run cmd) l Q.
Proof using Type.
  intros H1 H2 w _. unfold subprocess_run. destruct (run_program (mach w) cmd) as [p [r|e]];
    eexists; (split; [reflexivity|]); cbn; auto.
Qed.

(** A program that is really run: its exit status, or the failure to start it or to write its
    log file. *)
Lemma does_run_cmd cmd path l (Q : result (Z * string) -> unit -> list event -> Prop) :
  (forall p, Q (Ok (returncode p, strip (combined p))) tt
     [Ev (Run cmd) (Ok (returncode p)); Ev (Write path (DText (combined p))) (Ok 0)]) ->
  (forall p e, Q (Raise e) tt
     [Ev (Run cmd) (Ok (returncode p)); Ev (Write path (DText (combined p))) (Raise e)]) ->
  (forall e, Q (Raise e) tt [Ev (Run cmd) (Raise e)]) ->
  does (W := Wd) (L := unit) (run_cmd cmd path false) l Q.
Proof using Type.
  intros H1 H2 H3. apply does_bind, does_subprocess; [|done]. intros p. cbn.
  apply does_bind, does_file; [by apply does_ret|]. intros e. apply H2.
Qed.

Section kinds.
Context {X : Type} (f : unit -> X) (E : event -> Prop).

Lemma emits_file a : (forall o, E (Ev a o)) -> emits (W := Wd) (L := unit) f E (file_action a).
Proof using Type. intros HE l. apply does_file; destruct l; auto. Qed.

Lemma emits_subprocess cmd : (forall o, E (Ev (Run cmd) o)) -> emits (W := Wd) (L := unit) f E (subprocess_run cmd).
Proof using Type. intros HE l. apply does_subprocess; destruct l; auto. Qed.

Context (Hwrite : forall p d o, E (Ev (Write p d) o)).

(** The events of running [cmd], unless nothing is run. *)
Definition runs (dry : bool) (cmd : list string) : Prop :=
  dry = false -> forall o, E (Ev (Run cmd) o).

Lemma emits_run_cmd cmd path dry : runs dry cmd -> emits (W := Wd) (L := unit) f E (run_cmd cmd path dry).
Proof using Hwrite.
  intros Hrun. destruct dry; (apply emits_bind; [|intros; auto with scan]).
  - by apply emits_file.
  - by apply emits_subprocess, Hrun.
  - apply emits_bind; [by apply emits_file|auto with scan].
Qed.

Lemma emits_readback env py host port route tm lp jp dry :
  runs dry (readback_command env py host port route tm) ->
  emits (W := Wd) (L := unit) f E (run_fe_state_readback env py host port route tm lp jp dry).
Proof using Hwrite.
  intros Hrun. unfold run_fe_state_readback, write_text, write_json. destruct dry.
  - apply emits_bind; [by apply emits_file|auto with scan].
  - apply emits_bind; [by apply emits_subprocess, Hrun|]. intros p.
    apply emits_bind; [by apply emits_file|]. intros _.
    destruct (returncode p =? 0); [|apply emits_ret].
    apply emits_bind; [|auto with scan]. apply emits_try_except; [|auto with scan].
    apply emits_bind; [auto with scan|]. intros c.
    apply emits_bind; [by apply emits_file|auto with scan].
Qed.

Lemma emits_bias_monitor env py host port afe tm lp dry board :
  runs dry (bias_monitor_command env py host port afe tm board) ->
  emits (W := Wd) (L := unit) f E (run_bias_monitor env py host port afe tm lp dry board).
Proof using Hwrite.
  intros Hrun. apply emits_bind; [by apply emits_run_cmd|]. intros [rc o]. apply emits_ret.
Qed.

Lemma emits_acquire env py host port route raw chs n len tm trig dry lp :
  runs dry (acquire_command env py host port route raw chs n len tm trig) ->
  emits (W := Wd) (L := unit) f E (run_acquire env py host port route raw chs n len tm trig dry lp).
Proof using Hwrite.
  intros Hrun. unfold run_acquire, write_text. destruct dry.
  - apply emits_bind; [by apply emits_file|auto with scan].
  - apply emits_bind; [by apply emits_subprocess, Hrun|]. intros p.
    apply emits_bind; [by apply emits_file|auto with scan].
Qed.

End kinds.
End runtime_events.

#[export] Hint Resolve emits_file emits_subprocess emits_run_cmd emits_readback emits_bias_monitor
  emits_acquire : scan.
#[export] Hint Unfold runs : scan.

(** ** [inclusive_range] *)

Definition count (start stop step : Z) : Z := (stop + 1 - start + step - 1) / step.

Lemma count_bounds start stop step :
  0 < step -> start <= stop ->
  1 <= count start stop step /\ step * (count start stop step - 1) <= stop - start /\
  stop - start < step * count start stop step.
Proof.
  intros Hs Hle. unfold count. replace (stop + 1 - start + step - 1) with (stop - start + 1 * step) by lia.
  rewrite Z.div_add by lia.
  pose proof (Z.div_mod (stop - start) step ltac:(lia)).
  pose proof (Z.mod_pos_bound (stop - start) step Hs).
  pose proof (Z.div_pos (stop - start) step ltac:(lia) Hs). nia.
Qed.

Lemma range_values_lookup start stop step i v :
  range_values start stop step !! i = Some v <->
  v = start + step * Z.of_nat i /\ Z.of_nat i < Z.max 0 (count start stop step).
Proof.
  unfold range_values. rewrite list_lookup_fmap, fmap_Some. fold (count start stop step). split.
  - intros (k & Hk & ->). apply lookup_seqZ in Hk as [-> Hk]. split; [f_equal; lia|lia].
  - intros [-> Hi]. exists (Z.of_nat i). split; [|done]. apply lookup_seqZ. lia.
Qed.

Lemma range_values_last start stop step :
  0 < step -> start <= stop ->
  last (range_values start stop step) = Some (start + step * (count start stop step - 1)).
Proof.
  intros Hs Hle. pose proof (count_bounds start stop step Hs Hle) as (Hc & _ & _).
  rewrite last_lookup.
  assert (Hlen : length (range_values start stop step) = Z.to_nat (count start stop step)).
  { unfold range_values. rewrite length_fmap, length_seqZ. f_equal. fold (count start stop step). lia. }
  rewrite Hlen. apply range_values_lookup. split; [|lia]. f_equal. f_equal. lia.
Qed.

(** [inclusive_range] goes from [start] to [stop] whatever the step: the values increase,
    begin with the one and end with the other, and no two neighbours are further apart than
    [step]; an empty range is the single value [stop] and a step below 1 is refused. *)
Theorem inclusive_range_correct start stop step :
  match inclusive_range start stop step with
  | Raise e => step <= 0 /\ exn_class e = ValueError
  | Ok vs =>
      0 < step /\ last vs = Some stop /\
      (stop < start -> vs = [stop]) /\
      (start <= stop -> head vs = Some start /\
         forall i a b, vs !! i = Some a -> vs !! S i = Some b -> a < b <= a + step)
  end.
Proof.
  unfold inclusive_range. destruct (Z.leb_spec step 0) as [Hs|Hs]; [done|].
  destruct (Z.leb_spec start stop) as [Hle|Hgt].
  - pose proof (count_bounds start stop step Hs Hle) as (Hc & Hlo & Hhi).
    rewrite range_values_last by done.
    set (n := count start stop step) in *. set (vs := range_values start stop step).
    assert (Hhead : forall k, head (vs ++ k) = Some start).
    { intros k. rewrite head_lookup, lookup_app_l_Some with (x := start); [done|].
      apply range_values_lookup. fold n. split; lia. }
    destruct (Z.eqb_spec (start + step * (n - 1)) stop) as [He|Hne].
    + split; [done|]. split_and!; [|lia|].
      * unfold vs. rewrite range_values_last by done. fold n. by rewrite He.
      * intros _. split; [by rewrite <- (app_nil_r vs)|]. intros i a b.
        unfold vs. rewrite !range_values_lookup. fold n. intros [-> _] [-> _]. lia.
    + split; [done|]. split_and!; [by rewrite last_snoc|lia|].
      intros _. split; [by apply Hhead|]. intros i a b Ha Hb.
      apply lookup_app_Some in Hb as [Hb|[Hlen Hb]].
      * rewrite lookup_app_l in Ha by (apply lookup_lt_Some in Hb; lia).
        unfold vs in Ha, Hb. rewrite range_values_lookup in Ha, Hb. destruct Ha as [-> _], Hb as [-> _]. lia.
      * assert (Hi : (S i - length vs = 0)%nat /\ b = stop).
        { destruct (S i - length vs)%nat eqn:Hd; cbn in Hb; [split; congruence|done]. }
        destruct Hi as [Hi ->].
        assert (Hlast : vs !! i = Some (start + step * (n - 1))).
        { pose proof (range_values_last start stop step Hs Hle) as Hl. fold vs in Hl.
          rewrite last_lookup in Hl. replace (Nat.pred (length vs)) with i in Hl by lia. done. }
        rewrite lookup_app_l in Ha by (apply lookup_lt_Some in Hlast; lia). simplify_eq. nia.
  - assert (Hnil : range_values start stop step = []).
    { unfold range_values. fold (count start stop step).
      assert (Hn : count start stop step <= 0).
      { unfold count. assert ((stop + 1 - start + step - 1) / step < 1); [|lia].
        apply Z.div_lt_upper_bound; lia. }
      by rewrite Z.max_l by done. }
    rewrite Hnil. cbn [last]. split; [done|]. split_and!; [done|done|lia].
Qed.
