(* ===== verification/VgainSweep.v ===== *)
(** The VGAIN sweep under LED light: [client/dynamic_range_led/scan_led_vgain_sweep.py]. *)
From S2P Require Import Prelude PyStr PyFloat PyVal ChannelSpec EnvelopeV2 FeConfig PdsSeed.
From S2P Require Import FeMain ScanRuntime.

(** ** Settings *)

Definition CHANNEL_ORDER : list Z := [4; 5; 6; 7; 12; 13; 14; 15; 18; 19; 21].
Definition AFE_IDS : list Z := [0; 1; 2; 3; 4].
Definition AFE_BIAS_DAC : list Z := [1195; 916; 0; 0; 0].
Definition ADC_RESOLUTION : Z := 0.
Definition ADC_OUTPUT_FORMAT : Z := 1.
Definition ADC_SB_FIRST : Z := 0.
Definition LPF_CUTOFF_CODE : Z := 4.
Definition PGA_GAIN_CODE : Z := 0.
Definition LNA_GAIN_CODE : Z := 2.
Definition LNA_CLAMP_CODE : Z := 0.
Definition BOARD_ID : string := "61".

(** ** Offsets *)

Definition subscript (d : list (string * pyval)) (k : string) : result pyval :=
  match lookup_key d k with
  | Some v => Ok v
  | None => Raise (Exn KeyError ("'" +:+ k +:+ "'"))
  end.

(** [load_anchor_offsets], of the rows [csv.DictReader] gives. *)
Definition anchor_row (anchors : gmap Z (gmap Z Z)) (row : list (string * pyval))
    : result (gmap Z (gmap Z Z)) :=
  v <-! subscript row "vgain" ;; vgain <-! py_int v ;;
  v <-! subscript row "channel" ;; channel <-! py_int v ;;
  v <-! subscript row "closest_offset_to_2000" ;; offset <-! py_int v ;;
  Ok (<[channel := <[vgain := offset]> (default ∅ (anchors !! channel))]> anchors).

Definition load_anchor_offsets (csv_path : string) (rows : result (list (list (string * pyval))))
    : result (gmap Z (gmap Z Z)) :=
  rs <-! rows ;;
  anchors <-! rfold anchor_row rs ∅ ;;
  match filter (fun ch => anchors !! ch = None) CHANNEL_ORDER with
  | [] => Ok anchors
  | missing => Raise (Exn ValueError ("Missing anchor channels in " +:+ csv_path +:+ ": ["
                                      +:+ join ", " (str_Z <$> missing) +:+ "]"))
  end.

(** [a / b] of integers: the nearest float. *)
Definition int_truediv (a b : Z) : result float :=
  match b, a with
  | 0, _ => Raise (Exn OtherError "division by zero")
  | _, 0 => Ok (S754_zero false)
  | _, _ => Ok (f_of_ratio (xorb (a <? 0) (b <? 0)) (Z.to_pos (Z.abs a)) (Z.to_pos (Z.abs b)))
  end.

(** [interpolate_channel_offset]: between two anchors, by a float; [value] rounded. *)
Definition interpolated (vgain : Z) (left right : Z * Z) : result Z :=
  let '(left_vgain, left_offset) := left in
  let '(right_vgain, right_offset) := right in
  let span := right_vgain - left_vgain in
  frac <-! (if span =? 0 then Ok (S754_zero false) else int_truediv (vgain - left_vgain) span) ;;
  f_round (f_add (f_of_Z left_offset) (f_mul frac (f_of_Z (right_offset - left_offset)))).

Definition anchor_value (vgain : Z) (points : list (Z * Z)) : result Z :=
  match points, last points with
  | (first_vgain, first_offset) :: _, Some (last_vgain, last_offset) =>
      if vgain <=? first_vgain then Ok first_offset
      else if last_vgain <=? vgain then Ok last_offset
      else
        match find (fun '(l, r) => (fst l <=? vgain) && (vgain <=? fst r))
                   (zip points (drop 1 points)) with
        | Some (l, r) => interpolated vgain l r
        | None => Ok first_offset
        end
  | _, _ => Raise (Exn IndexError "list index out of range")
  end.

Definition interpolate_channel_offset (channel vgain : Z) (anchor_offsets : gmap Z (gmap Z Z))
    (offset_subtract offset_min offset_max : Z) : result Z :=
  match anchor_offsets !! channel with
  | None => Raise (Exn KeyError (str_Z channel))
  | Some m =>
      value <-! anchor_value vgain (sorted_items m) ;;
      let adjusted := value - offset_subtract in
      Ok (Z.max offset_min (Z.min offset_max adjusted))
  end.

(** ** The configuration of a point *)

Definition ints (l : list Z) : pyval := PyList (PyInt <$> l).

Definition repeated (v : Z) (l : list Z) : pyval := ints ((fun _ => v) <$> l).

(** The inner dictionary of [build_seed_config]; [offsets] are those of [CHANNEL_ORDER]. *)
Definition board_config (vgain : Z) (offsets : list Z) : list (string * pyval) :=
  [("bias_ctrl", PyInt 1300);
   ("channel_analog_conf", PyDict
      [("ids", ints CHANNEL_ORDER); ("gains", repeated 1 CHANNEL_ORDER);
       ("offsets", ints offsets); ("trims", repeated 0 CHANNEL_ORDER)]);
   ("afes", PyDict
      [("ids", ints AFE_IDS); ("attenuators", repeated vgain AFE_IDS);
       ("v_biases", ints AFE_BIAS_DAC);
       ("adcs", PyDict [("resolution", repeated ADC_RESOLUTION AFE_IDS);
                        ("output_format", repeated ADC_OUTPUT_FORMAT AFE_IDS);
                        ("SB_first", repeated ADC_SB_FIRST AFE_IDS)]);
       ("pgas", PyDict [("lpf_cut_frequency", repeated LPF_CUTOFF_CODE AFE_IDS);
                        ("integrator_disable", repeated 1 AFE_IDS);
                        ("gain", repeated PGA_GAIN_CODE AFE_IDS)]);
       ("lnas", PyDict [("clamp", repeated LNA_CLAMP_CODE AFE_IDS);
                        ("integrator_disable", repeated 1 AFE_IDS);
                        ("gain", repeated LNA_GAIN_CODE AFE_IDS)])])].

Definition offset_text (ch : Z) : string := str_Z ch.

(** [build_seed_config]; a missing channel is a [KeyError]. *)
Definition build_seed_config (vgain : Z) (offsets_by_channel : list (Z * Z))
    : result (list (string * pyval)) :=
  offsets <-! rmap (fun ch => assoc offsets_by_channel ch (offset_text ch)) CHANNEL_ORDER ;;
  Ok [(BOARD_ID, PyDict (board_config vgain offsets))].

Definition with_address (host : string) (timeout_ms : Z) (c : ConfigureRequest)
    : ConfigureRequest :=
  ConfReq host (slot c) timeout_ms (biasctrl c) (self_trigger_threshold c) (self_trigger_xcorr c)
    (tp_conf c) (compensator c) (inverters c) (channels c) (afes c) (full_stream_channels c).

Definition make_config_request (host : string) (timeout_ms : Z) (seed_cfg : pyval)
    : result ConfigureRequest :=
  v <-! dict_get seed_cfg "slot_id" (PyInt 1) ;;
  sl <-! py_int v ;;
  let d := default_params in
  defaults <-! make_default_config {|
    p_ip := host; p_slot := sl; p_timeout_ms := timeout_ms; p_biasctrl := p_biasctrl d;
    p_threshold := p_threshold d; p_xcorr := p_xcorr d; p_tp_conf := p_tp_conf d;
    p_compensator := p_compensator d; p_inverters := p_inverters d;
    p_per_ch_trim := p_per_ch_trim d; p_per_ch_offset := 2275; p_vgain := 1600;
    p_lpf_cutoff := LPF_CUTOFF_CODE; p_pga_clamp_level := p_pga_clamp_level d;
    p_pga_gain := PGA_GAIN_CODE; p_lna_gain := LNA_GAIN_CODE; p_lna_clamp := LNA_CLAMP_CODE |} ;;
  cfg <-! build_request_from_seed seed_cfg defaults true ;;
  tm <-! set_u32 timeout_ms ;;
  Ok (with_address host tm cfg).

(** ** The command line *)

Record sweep_args : Type := SweepArgs {
  anchor_csv : string; output_dir : string; host : string; port : Z; sw_route : string;
  vgain_start : Z; vgain_stop : Z; vgain_step : Z; offset_subtract : Z; offset_min : Z;
  offset_max : Z; waveforms : Z; waveform_len : Z; sw_timeout_ms : Z;
  bias_monitor_timeout_ms : Z; settle_s : float; software_trigger : bool;
  bias_monitor_afes : string; python_exe : string; no_led_start : bool; led : led_options;
  led_intensity_270nm : Z; led_intensity_367nm : Z; skip_fe_readback : bool; dry_run : bool }.

(** [[int(item.strip()) for item in spec.split(",") if item.strip()]] *)
Definition monitor_ids (spec : string) : result (list Z) :=
  rmap int10 (filter (fun item => strip item <> "") (split_on "," spec)).

(** The world of a sweep: its socket, the machine, and the variables of [main] that its
    [finally] block and its end read. *)
Record sweep (S B P : Type) : Type := Sweep {
  net : zworld S B; io : iow P; led_started : bool; manifest : list (string * pyval);
  summary_rows : list (list (string * pyval)) }.
Arguments Sweep {S B P}.
Arguments net {S B P}.
Arguments io {S B P}.
Arguments led_started {S B P}.
Arguments manifest {S B P}.
Arguments summary_rows {S B P}.

Section sweep_main.
Context {S B P : Type} `{Peer S B, Size B, !Proto B (ControlEnvelopeV2 B)}.
Context `{!Proto B ConfigureRequest, !Proto B ConfigureResponse, Machine P}.
Abbreviation Wd := (sweep S B P).

Definition set_io (w : Wd) (i : iow P) : Wd :=
  Sweep (net w) i (led_started w) (manifest w) (summary_rows w).

Definition with_io {A : Type} (m : M (iow P) A) : M Wd A := fun w =>
  let '(r, i) := m (io w) in (r, set_io w i).

Definition set_manifest (k : string) (v : pyval) : M Wd unit := modify (fun w =>
  Sweep (net w) (io w) (led_started w) (JsonText.dict_put (manifest w) k v) (summary_rows w)).

Definition start_led : M Wd unit := modify (fun w =>
  Sweep (net w) (io w) true (manifest w) (summary_rows w)).

Definition append_row (row : list (string * pyval)) : M Wd unit := modify (fun w =>
  Sweep (net w) (io w) (led_started w) (manifest w) (summary_rows w ++ [row])).

(** [configure_ok] of a summary *)
Definition configure_ok (summary : pyval) : result bool :=
  s <-! dict_get summary "success" (PyBool false) ;;
  if truthy s then Ok true
  else
    c <-! dict_get summary "configure_response" PyNone ;;
    t <-! dict_get (if truthy c then c else PyDict []) "success" (PyBool false) ;;
    Ok (truthy t).

(** The exchange of a configuration, on a socket of its own. *)
Definition new_socket (n : zworld S B) : zworld S B := set_reading n [] [].

Definition send_configuration (pid rand : Z) (cfg : ConfigureRequest) (host : string) (port : Z)
    (route : string) : M Wd pyval := fun w =>
  let '(r, n) := send_configure_request pid rand cfg host port route (new_socket (net w)) in
  let ok := s <-! r ;; b <-! configure_ok s ;; Ok (Z.b2z b) in
  (r, Sweep n (IOW (mach (io w)) (log (io w) ++ [Ev (Configure cfg) ok])) (led_started w)
            (manifest w) (summary_rows w)).

Section run.
Context (env : paths) (pid rand : Z) (args : sweep_args).

(** A file below the (resolved) output directory. *)
Definition out (name : string) : string := path_join (output_dir args) name.

Definition point_dir_of (vgain : Z) : string :=
  path_join (out "points") ("vgain_" +:+ dec_pad 4 vgain).

Definition pause : M Wd unit :=
  when (negb (dry_run args) && f_ltb (S754_zero false) (settle_s args))
    (with_io (sleep (settle_s args))).

Definition write_manifest : M Wd unit :=
  m <- gets manifest ;; with_io (write_json (out "scan_manifest.json") (PyDict m)).

Definition initial_manifest (now : string) (vgain_values afes : list Z) : list (string * pyval) :=
  [("created_utc", PyStr now); ("anchor_csv", PyStr (anchor_csv args)); ("host", PyStr (host args));
   ("port", PyInt (port args)); ("route", PyStr (sw_route args));
   ("vgain_values", ints vgain_values); ("channels", ints CHANNEL_ORDER);
   ("offset_subtract", PyInt (offset_subtract args)); ("offset_min", PyInt (offset_min args));
   ("offset_max", PyInt (offset_max args)); ("waveforms", PyInt (waveforms args));
   ("waveform_len", PyInt (waveform_len args)); ("settle_s", PyFloat (settle_s args));
   ("software_trigger", PyBool (software_trigger args)); ("bias_monitor_afes", ints afes);
   ("led_auto_start", PyBool (negb (no_led_start args)));
   ("led_settings", PyDict
      [("client", PyStr (led_client (led args))); ("stop_client", PyStr (led_stop_client (led args)));
       ("config", PyStr (led_config (led args))); ("host", PyStr (led_host (led args)));
       ("port", PyInt (led_port (led args))); ("ssh_tunnel", PyStr (led_ssh_tunnel (led args)));
       ("ssh_tunnel_remote_host", PyStr (led_ssh_tunnel_remote_host (led args)));
       ("ssh_tunnel_remote_port", PyInt (led_ssh_tunnel_remote_port (led args)));
       ("channel_mask", PyInt (led_channel_mask (led args)));
       ("number_channels", PyInt (led_number_channels (led args)));
       ("pulse_width_ticks", PyInt (led_pulse_width_ticks (led args)));
       ("pulse_bias_percent_270nm", PyInt (led_intensity_270nm args));
       ("pulse_bias_percent_367nm", PyInt (led_intensity_367nm args))]);
   ("fe_state_readback", PyDict [("mode", PyStr "per_point");
                                 ("skipped", PyBool (skip_fe_readback args))]);
   ("dry_run", PyBool (dry_run args)); ("notes", PyStr "No AFE align after configure.")].

(** The block that starts the pulser. *)
Definition led_start_block : M Wd unit :=
  when (negb (no_led_start args))
    ('(rc, info) <- with_io (run_led env (led args) (led_intensity_270nm args)
                               (led_intensity_367nm args) (out "led_start.log") (dry_run args)) ;;
     set_manifest "led_start" info ;;;
     write_manifest ;;;
     when (negb (rc =? 0))
       (raise (Exn RuntimeError ("Failed to start SSP LED: " +:+ str_Z rc))) ;;;
     start_led ;;;
     pause).

(** The offsets of a point, in the order of [CHANNEL_ORDER]. *)
Definition offsets_at (anchors : gmap Z (gmap Z Z)) (vgain : Z) : result (list (Z * Z)) :=
  rmap (fun ch =>
    o <-! interpolate_channel_offset ch vgain anchors (offset_subtract args) (offset_min args)
            (offset_max args) ;;
    Ok (ch, o)) CHANNEL_ORDER.

(** [min(d.values())], [max(d.values())] *)
Definition min_value (l : list (Z * Z)) : Z :=
  match snd <$> l with x :: t => foldr Z.min x t | [] => 0 end.
Definition max_value (l : list (Z * Z)) : Z :=
  match snd <$> l with x :: t => foldr Z.max x t | [] => 0 end.

Definition initial_meta (now : string) (vgain : Z) (offsets : list (Z * Z)) (seed_path : string)
    (led_start : pyval) : list (string * pyval) :=
  [("created_utc", PyStr now); ("vgain", PyInt vgain);
   ("offsets_by_channel", PyDict ((fun kv => (str_Z (fst kv), PyInt (snd kv))) <$> offsets));
   ("config_applied_json", PyStr seed_path); ("fe_state_readback", PyDict []);
   ("led_start", led_start); ("configure", PyDict []); ("bias_monitor", PyList []);
   ("acquire", PyDict []); ("status", PyStr "started")].

(** The configuration of a point: the contents of [configure.json] and whether it worked. *)
Definition configure_point (cfg : ConfigureRequest) : M Wd (pyval * bool) :=
  if dry_run args then
    ret (PyDict [("dry_run", PyBool true);
                 ("summary", PyDict [("host", PyStr (host args)); ("port", PyInt (port args));
                                     ("route", PyStr (sw_route args));
                                     ("timeout_ms", PyInt (sw_timeout_ms args))])], true)
  else
    summary <- send_configuration pid rand cfg (host args) (port args) (sw_route args) ;;
    ok <- lift (configure_ok summary) ;;
    ret (PyDict [("summary", summary)], ok).

(** What follows a configuration that worked: readback, bias monitor, acquisition. *)
Definition capture_point (afes : list Z) (vgain : Z) (offsets : list (Z * Z))
    (meta : list (string * pyval)) : M Wd unit :=
  let point_dir := point_dir_of vgain in
  let put := JsonText.dict_put in
  pause ;;;
  readback <- (if skip_fe_readback args then ret (PyDict [("skipped", PyBool true)])
               else with_io (run_fe_state_readback env (python_exe args) (host args) (port args)
                      (sw_route args) (sw_timeout_ms args)
                      (path_join point_dir "fe_state_readback.log")
                      (path_join point_dir "fe_state_readback.json") (dry_run args))) ;;
  let meta := put meta "fe_state_readback" readback in
  monitors <- map_m (fun afe => with_io (run_bias_monitor env (python_exe args) (host args)
                (port args) afe (bias_monitor_timeout_ms args)
                (path_join point_dir ("bias_monitor_afe" +:+ str_Z afe +:+ ".log"))
                (dry_run args) "")) afes ;;
  let meta := put meta "bias_monitor" (PyList monitors) in
  '(rc, cmd) <- with_io (run_acquire env (python_exe args) (host args) (port args) (sw_route args)
                 (path_join point_dir "raw") CHANNEL_ORDER (waveforms args) (waveform_len args)
                 (sw_timeout_ms args) (software_trigger args) (dry_run args)
                 (path_join point_dir "acquire.log")) ;;
  let meta := put meta "acquire" (PyDict [("command", strs cmd); ("returncode", PyInt rc)]) in
  let status := if dry_run args then "dry_run"
                else if rc =? 0 then "captured" else "acquire_failed" in
  append_row [("vgain", PyInt vgain); ("status", PyStr status); ("output_dir", PyStr point_dir);
              ("min_offset", PyInt (min_value offsets)); ("max_offset", PyInt (max_value offsets))] ;;;
  with_io (write_json (path_join point_dir "metadata.json")
             (PyDict (put meta "status" (PyStr status)))).

(** One turn of the loop over the VGAIN values. *)
Definition sweep_point (anchors : gmap Z (gmap Z Z)) (afes : list Z) (vgain : Z) : M Wd unit :=
  offsets <- lift (offsets_at anchors vgain) ;;
  let point_dir := point_dir_of vgain in
  with_io (mkdir point_dir) ;;;
  with_io (mkdir (path_join point_dir "raw")) ;;;
  seed_cfg <- lift (build_seed_config vgain offsets) ;;
  let seed_path := path_join point_dir "config_applied.json" in
  with_io (write_json seed_path (PyDict seed_cfg)) ;;;
  now <- with_io utc_now_iso ;;
  led_start <- gets (fun w => default (PyDict []) (lookup_key (manifest w) "led_start")) ;;
  let meta := initial_meta now vgain offsets seed_path led_start in
  with_io (write_json (path_join point_dir "metadata.json") (PyDict meta)) ;;;
  board <- lift (subscript seed_cfg BOARD_ID) ;;
  cfg <- lift (make_config_request (host args) (sw_timeout_ms args) board) ;;
  '(conf, ok) <- configure_point cfg ;;
  let meta := JsonText.dict_put meta "configure" conf in
  with_io (write_json (path_join point_dir "configure.json") conf) ;;;
  if negb ok then
    append_row [("vgain", PyInt vgain); ("status", PyStr "configure_failed");
                ("output_dir", PyStr point_dir)] ;;;
    with_io (write_json (path_join point_dir "metadata.json")
               (PyDict (JsonText.dict_put meta "status" (PyStr "configure_failed"))))
  else capture_point afes vgain offsets meta.

(** The [finally] block. *)
Definition led_stop_block : M Wd unit :=
  started <- gets led_started ;;
  when started
    (info <- with_io (run_led_stop env (led args) (out "led_stop.log") (dry_run args)) ;;
     set_manifest "led_stop" info ;;;
     write_manifest).

Definition main (rows : result (list (list (string * pyval)))) : M Wd Z :=
  with_io (mkdir (output_dir args)) ;;;
  with_io (mkdir (out "points")) ;;;
  anchors <- lift (load_anchor_offsets (anchor_csv args) rows) ;;
  afes <- lift (monitor_ids (bias_monitor_afes args)) ;;
  vgain_values <- lift (inclusive_range (vgain_start args) (vgain_stop args) (vgain_step args)) ;;
  now <- with_io utc_now_iso ;;
  modify (fun w => Sweep (net w) (io w) false (initial_manifest now vgain_values afes) []) ;;;
  write_manifest ;;;
  try_finally
    (led_start_block ;;; for_each vgain_values (sweep_point anchors afes))
    led_stop_block ;;;
  rows <- gets summary_rows ;;
  with_io (write_csv (out "scan_summary.csv")
             ["vgain"; "status"; "output_dir"; "min_offset"; "max_offset"] rows) ;;;
  ret 0.

End run.
End sweep_main.

(** ** What a sweep does *)

#[export] Instance sweep_logged (S B P : Type) : Logged (sweep S B P) (bool * list (list (string * pyval))) := {
  lc := fun w => (led_started w, summary_rows w);
  lg := fun w => log (io w) }.

Definition is_configure (e : event) : bool :=
  match ev_action e with Configure _ => true | _ => false end.

Definition any (_ : event) : Prop := True.

Section sweep_events.
Context {S B P : Type} `{Peer S B, Size B, !Proto B (ControlEnvelopeV2 B)}.
Context `{!Proto B ConfigureRequest, !Proto B ConfigureResponse, Machine P}.
Abbreviation Wd := (sweep S B P).
Abbreviation vars := (bool * list (list (string * pyval)))%type.
Implicit Types (l : vars).

Lemma does_with_io {A : Type} (m : M (iow P) A) l (Q : result A -> vars -> list event -> Prop) :
  does (W := iow P) (L := unit) m tt (fun r _ evs => Q r l evs) -> does (W := Wd) (L := vars) (with_io m) l Q.
Proof using Type.
  intros Hm w <-. unfold with_io. destruct (Hm (io w) eq_refl) as (evs & Hlog & HQ).
  destruct (m (io w)) as [r i]. by exists evs.
Qed.

Lemma does_send pid rand cfg host port route l (Q : result pyval -> vars -> list event -> Prop) :
  (forall r, Q r l [Ev (Configure cfg) (s <-! r ;; b <-! configure_ok s ;; Ok (Z.b2z b))]) ->
  does (W := Wd) (L := vars) (send_configuration pid rand cfg host port route) l Q.
Proof using Type.
  intros HQ w <-. unfold send_configuration. destruct (send_configure_request _ _ _ _ _ _ _) as [r n].
  eexists. split; [reflexivity|]. apply HQ.
Qed.

Lemma emits_with_io {A X : Type} (f : vars -> X) (E : event -> Prop) (m : M (iow P) A) :
  emits (W := iow P) (L := unit) (fun _ : unit => tt) E m -> emits (W := Wd) (L := vars) f E (with_io m).
Proof using Type.
  intros Hm l. apply does_with_io. eapply does_weaken; [apply Hm|]. by intros r [] evs [_ HE].
Qed.

Lemma emits_send {X : Type} (f : vars -> X) (E : event -> Prop) pid rand cfg host port route :
  (forall c o, E (Ev (Configure c) o)) ->
  emits (W := Wd) (L := vars) f E (send_configuration pid rand cfg host port route).
Proof using Type. intros HE l. apply does_send. intros r. auto. Qed.

Lemma emits_set_manifest {X : Type} (f : vars -> X) (E : event -> Prop) k v :
  emits (W := Wd) (L := vars) f E (set_manifest k v).
Proof using Type. intros l. apply does_modify. intros w <-. auto. Qed.

Lemma emits_append_row (E : event -> Prop) row :
  emits (W := Wd) (L := vars) (fun l : vars => fst l) E (append_row row).
Proof using Type. intros l. apply does_modify. intros w <-. auto. Qed.

Context (env : paths) (pid rand : Z) (args : sweep_args).

Lemma emits_pause {X : Type} (f : vars -> X) : emits (W := Wd) (L := vars) f any (pause args).
Proof using Type. apply emits_when, emits_with_io, emits_file. done. Qed.

Lemma emits_write_manifest {X : Type} (f : vars -> X) (E : event -> Prop) :
  (forall p d o, E (Ev (Write p d) o)) -> emits (W := Wd) (L := vars) f E (write_manifest args).
Proof using Type.
  intros HE. apply emits_bind; [apply emits_gets|]. intros m. by apply emits_with_io, emits_file.
Qed.

Lemma emits_utc {X : Type} (f : unit -> X) (E : event -> Prop) :
  emits (W := iow P) (L := unit) f E utc_now_iso.
Proof using Type. apply emits_gets. Qed.

(** Neither a program nor a configuration. *)
Definition still (e : event) : Prop := is_run e = false /\ is_configure e = false.

(** A program of a point: the readback, a bias monitor or the acquisition. *)
Definition acquire_cmd (vgain : Z) : action :=
  Run (acquire_command env (python_exe args) (host args) (port args) (sw_route args)
         (path_join (point_dir_of args vgain) "raw") CHANNEL_ORDER (waveforms args)
         (waveform_len args) (sw_timeout_ms args) (software_trigger args)).

Definition point_program (e : event) : Prop :=
  ev_action e = Run (readback_command env (python_exe args) (host args) (port args) (sw_route args)
                       (sw_timeout_ms args)) \/
  (exists afe, ev_action e = Run (bias_monitor_command env (python_exe args) (host args) (port args)
                                    afe (bias_monitor_timeout_ms args) "")) \/
  (exists vgain, ev_action e = acquire_cmd vgain).

(** A point leaves the pulser flag alone, and runs only its programs. *)
Lemma emits_point (E : event -> Prop) anchors afes vgain :
  (forall e, still e -> E e) ->
  (dry_run args = false -> forall e, point_program e \/ is_configure e = true -> E e) ->
  emits (W := Wd) (L := vars) (fun l : vars => fst l) E (sweep_point env pid rand args anchors afes vgain).
Proof using Type.
  intros Hs Hp. assert (Hfile : forall a o, is_run (Ev a o) = false -> is_configure (Ev a o) = false -> E (Ev a o))
    by (intros; by apply Hs).
  assert (Hconf : emits (W := Wd) (L := vars) (fun l : vars => fst l) E (pause args))
    by (apply emits_when, emits_with_io, emits_file; intros; by apply Hfile).
  assert (Hw : forall p d o, E (Ev (Write p d) o)) by (intros; by apply Hfile).
  unfold sweep_point, capture_point, configure_point.
  repeat match goal with
  | |- emits _ _ (bind _ _) => apply emits_bind; [|intros]
  | |- emits _ _ (with_io (file_action _)) => apply emits_with_io, emits_file; intros; by apply Hfile
  | |- emits _ _ (with_io (mkdir _)) => apply emits_with_io, emits_file; intros; by apply Hfile
  | |- emits _ _ (with_io (write_json _ _)) => apply emits_with_io, emits_file; intros; by apply Hfile
  | |- emits _ _ (with_io _) => apply emits_with_io
  | |- emits _ _ (match ?x with _ => _ end) => destruct x eqn:?
  | |- emits _ _ (map_m _ _) => apply emits_map_m; intros
  end; auto using emits_append_row, emits_utc with scan.
  - apply emits_send. intros. apply Hp; [done|by right].
  - apply emits_readback; [done|]. intros Hd o. apply Hp; [done|left; by left].
  - apply emits_bias_monitor; [done|]. intros Hd o. apply Hp; [done|left; right; left; by eexists].
  - apply emits_acquire; [done|]. intros Hd o. apply Hp; [done|left; right; right; by eexists].
Qed.

Definition led_start_cmd : action :=
  Run (led_command env (led args) (led_intensity_270nm args) (led_intensity_367nm args)).

Definition led_stop_cmd : action := Run (led_stop_command env (led args)).

(** The pulser was started first and stopped last. *)
Definition bracketed (evs : list event) : Prop :=
  exists pre mid o post,
    evs = pre ++ Ev led_start_cmd (Ok 0) :: mid ++ Ev led_stop_cmd o :: post /\
    Forall still pre /\ Forall still post.

(** The pulser was not recorded as started: nothing else was done, and if the program did
    succeed, one of the two files that record it could not be written. *)
Definition not_started (evs : list event) : Prop :=
  Forall (fun e => still e \/ ev_action e = led_start_cmd) evs /\
  (Ev led_start_cmd (Ok 0) ∈ evs ->
   exists p d e, Ev (Write p d) (Raise e) ∈ evs /\
                 p ∈ [out args "led_start.log"; out args "scan_manifest.json"]).

Lemma bracketed_prefix pre evs : Forall still pre -> bracketed evs -> bracketed (pre ++ evs).
Proof using Type.
  intros Hp (pre' & mid & o & post & -> & Hp' & Hpost). exists (pre ++ pre'), mid, o, post.
  rewrite app_assoc. split_and!; [done| |done]. by apply Forall_app.
Qed.

Lemma bracketed_suffix post evs : Forall still post -> bracketed evs -> bracketed (evs ++ post).
Proof using Type.
  intros Hp (pre & mid & o & post' & -> & Hpre & Hpost). exists pre, mid, o, (post' ++ post).
  rewrite <- !app_assoc. cbn. rewrite <- app_assoc. split_and!; [done|done|]. by apply Forall_app.
Qed.

Lemma still_not_start e o : still e -> e <> Ev led_start_cmd o.
Proof using Type. intros [Hr _] ->. done. Qed.

Lemma not_started_prefix pre evs : Forall still pre -> not_started evs -> not_started (pre ++ evs).
Proof using Type.
  intros Hp [He Hs]. split.
  - apply Forall_app. split; [|done]. eapply Forall_impl; [exact Hp|]. by left.
  - intros [Hin|Hin]%elem_of_app.
    + exfalso. rewrite Forall_forall in Hp. by eapply still_not_start; [apply Hp|].
    + destruct (Hs Hin) as (p & d & e & Hw & Hm). exists p, d, e. split; [|done].
      apply elem_of_app. by right.
Qed.

Lemma not_started_still evs : Forall still evs -> not_started evs.
Proof using Type.
  intros He. rewrite <- (app_nil_r evs). apply not_started_prefix; [done|].
  split; [constructor|]. by intros ?%not_elem_of_nil.
Qed.

Context (Hdry : dry_run args = false) (Hled : no_led_start args = false).

Lemma not_started_led p d e evs :
  Forall still evs ->
  p ∈ [out args "led_start.log"; out args "scan_manifest.json"] ->
  not_started (Ev led_start_cmd (Ok 0) :: evs ++ [Ev (Write p d) (Raise e)]).
Proof using Type.
  intros He Hp. split.
  - constructor; [by right|]. apply Forall_app. split; [|constructor; [by left|constructor]].
    eapply Forall_impl; [exact He|]. by left.
  - intros _. exists p, d, e. split; [|done]. apply list_elem_of_further, elem_of_app. right.
    apply list_elem_of_here.
Qed.

Lemma not_started_failed o evs :
  o <> Ok 0 -> Forall still evs -> not_started (Ev led_start_cmd o :: evs).
Proof using Type.
  intros Ho He. split.
  - constructor; [by right|]. eapply Forall_impl; [exact He|]. by left.
  - intros [[= <-]|Hin]%elem_of_cons; [done|]. rewrite Forall_forall in He.
    exfalso. by eapply still_not_start; [apply He|].
Qed.

Lemma does_write_manifest l (Q : result unit -> vars -> list event -> Prop) :
  (forall m, Q (Ok tt) l [Ev (Write (out args "scan_manifest.json") (DJson (PyDict m))) (Ok 0)]) ->
  (forall m e, Q (Raise e) l
     [Ev (Write (out args "scan_manifest.json") (DJson (PyDict m))) (Raise e)]) ->
  does (W := Wd) (L := vars) (write_manifest args) l Q.
Proof using Type.
  intros H1' H2'. apply does_bind, does_gets. intros w _. cbn.
  apply does_with_io, does_file; [apply H1'|apply H2'].
Qed.

(** The block that starts the pulser. *)
Lemma does_led_start rows :
  does (W := Wd) (L := vars) (led_start_block env args) (false, rows) (fun r l' evs =>
    snd l' = rows /\
    ((fst l' = true /\ exists mid, evs = Ev led_start_cmd (Ok 0) :: mid) \/
     (fst l' = false /\ (exists e, r = Raise e) /\ not_started evs))).
Proof using Hdry Hled.
  unfold led_start_block. rewrite Hled. cbn [negb when].
  apply does_bind, does_with_io, does_bind. rewrite Hdry. apply does_run_cmd.
  - intros p. cbn. apply does_ret. cbn. apply does_bind, does_modify. intros w Hw.
    split; [done|]. cbn in Hw. injection Hw as Hs Hr. cbn. rewrite Hs, Hr.
    apply does_bind, does_write_manifest.
    + intros m. cbn. apply does_bind, does_when.
      * intros Hrc. apply does_raise. cbn. split; [done|]. right. split; [done|].
        split; [by eexists|]. apply not_started_failed; [|by repeat constructor].
        intros [= H0']. by rewrite H0' in Hrc.
      * intros Hrc%negb_false_iff%Z.eqb_eq. cbn. apply does_bind, does_modify.
        intros w' Hw'. split; [done|]. injection Hw' as _ Hr'. cbn. rewrite Hr'.
        eapply does_weaken; [apply (emits_pause (fun l : vars => l))|].
        intros r l' evs [-> _]. cbn. split; [done|]. left. split; [done|].
        rewrite Hrc. by eexists.
    + intros m e. cbn. split; [done|]. right. split; [done|]. split; [by eexists|].
      destruct (Z.eq_dec (returncode p) 0) as [->|Hne].
      * apply (not_started_led _ _ _ [_]); [by repeat constructor|].
        apply list_elem_of_further, list_elem_of_here.
      * apply not_started_failed; [congruence|]. by repeat constructor.
  - intros p e. cbn. split; [done|]. right. split; [done|]. split; [by eexists|].
    destruct (Z.eq_dec (returncode p) 0) as [->|Hne].
    + apply (not_started_led _ _ _ []); [constructor|apply list_elem_of_here].
    + apply not_started_failed; [congruence|]. by repeat constructor.
  - intros e. cbn. split; [done|]. right. split; [done|]. split; [by eexists|].
    apply not_started_failed; [done|constructor].
Qed.

(** The [finally] block. *)
Lemma does_led_stop b rows :
  does (W := Wd) (L := vars) (led_stop_block env args) (b, rows) (fun r l' evs =>
    snd l' = rows /\
    (b = true -> exists o post, evs = Ev led_stop_cmd o :: post /\ Forall still post) /\
    (b = false -> r = Ok tt /\ evs = [])).
Proof using Hdry.
  apply does_bind, does_gets. intros w Hw. injection Hw as Hb Hr. cbn. rewrite Hb.
  apply does_when; [|by intros ->].
  intros ->. apply does_bind, does_with_io, does_bind. rewrite Hdry. apply does_run_cmd.
  - intros p. cbn. apply does_ret. cbn. apply does_bind, does_modify. intros w' Hw'.
    split; [done|]. injection Hw' as _ Hr'. cbn. rewrite Hr'. apply does_write_manifest.
    + intros m. cbn. split_and!; [done| |done]. intros _. do 2 eexists. split; [done|].
      by repeat constructor.
    + intros m e. cbn. split_and!; [done| |done]. intros _. do 2 eexists. split; [done|].
      by repeat constructor.
  - intros p e. cbn. split_and!; [done| |done]. intros _. do 2 eexists. split; [done|].
    by repeat constructor.
  - intros e. cbn. split_and!; [done| |done]. intros _. do 2 eexists. split; [done|constructor].
Qed.

Definition led_story (evs : list event) : Prop := bracketed evs \/ not_started evs.

(** The [try] block with its [finally]. *)
Lemma does_try vgains anchors afes rows :
  does (W := Wd) (L := vars)
    (try_finally (led_start_block env args ;;;
                  for_each vgains (sweep_point env pid rand args anchors afes))
                 (led_stop_block env args))
    (false, rows) (fun _ _ evs => led_story evs).
Proof using Hdry Hled.
  apply does_try_finally, does_bind. eapply does_weaken; [apply does_led_start|].
  intros r [b rows1] e1 [_ [[Hb [mid ->]]|(Hb & [e ->] & Hn)]]; cbn in Hb; subst b.
  - assert (Hstop : forall rows2 mid2,
      does (W := Wd) (L := vars) (led_stop_block env args) (true, rows2) (fun _ _ evs =>
        led_story ((Ev led_start_cmd (Ok 0) :: mid2) ++ evs))).
    { intros rows2 mid2. eapply does_weaken; [apply does_led_stop|].
      intros r' l' e2 (_ & Hs & _). destruct (Hs eq_refl) as (o & post & -> & Hp). left.
      exists [], mid2, o, post. by split_and!. }
    destruct r as [[]|e]; cbn; [|by apply Hstop].
    eapply does_weaken; [by apply (emits_for_each (fun l : vars => fst l) any); intros; apply emits_point|].
    intros r [b2 rows2] e2 [Hf _]. cbn in Hf. subst b2.
    apply (Hstop rows2 (mid ++ e2)).
  - cbn. eapply does_weaken; [apply does_led_stop|]. intros r' l' e2 (_ & _ & Hs).
    destruct (Hs eq_refl) as [_ ->]. right. by rewrite app_nil_r.
Qed.

(** A step that neither runs a program nor configures, before the others. *)
Lemma does_still {A C : Type} (m : M Wd A) (k : A -> M Wd C) l :
  emits (W := Wd) (L := vars) (fun l => l) still m ->
  (forall a, does (W := Wd) (L := vars) (k a) l (fun _ _ evs => led_story evs)) ->
  does (W := Wd) (L := vars) (bind m k) l (fun _ _ evs => led_story evs).
Proof using Type.
  intros Hm Hk. apply (does_emits still); [done| | |done].
  - intros pre r l' evs Hp [Hb|Hn]; [left; by apply bracketed_prefix|].
    right. by apply not_started_prefix.
  - intros e l' evs He. right. by apply not_started_still.
Qed.

Lemma does_csv path fields (k : Z) l :
  does (W := Wd) (L := vars) (A := Z) (rows <- gets summary_rows ;;
     with_io (write_csv path fields rows) ;;; ret k) l (fun _ _ evs => Forall still evs).
Proof using Type.
  assert (Hany : emits (W := Wd) (L := vars) (fun l => l) still
    (rows <- gets summary_rows ;; with_io (write_csv path fields rows) ;;; (ret k : M Wd Z))).
  { apply emits_bind; [apply emits_gets|]. intros rs. apply emits_bind; [|intros; apply emits_ret].
    by apply emits_with_io, emits_file. }
  eapply does_weaken; [apply Hany|]. by intros r l' evs [_ ?].
Qed.

Lemma story_suffix evs post : Forall still post -> led_story evs -> led_story (evs ++ post).
Proof using Type.
  intros Hp [Hb|[He Hs]]; [left; by apply bracketed_suffix|]. right. split.
  - apply Forall_app. split; [done|]. eapply Forall_impl; [exact Hp|]. by left.
  - intros [Hin|Hin]%elem_of_app.
    + destruct (Hs Hin) as (p & d & e & Hw & Hm). exists p, d, e. split; [|done].
      apply elem_of_app. by left.
    + exfalso. rewrite Forall_forall in Hp. by eapply still_not_start; [apply Hp|].
Qed.

Lemma sweep_brackets rows w :
  exists evs, log (io (snd (main env pid rand args rows w))) = log (io w) ++ evs /\ led_story evs.
Proof using Hdry Hled.
  enough (Hm : does (W := Wd) (L := vars) (main env pid rand args rows) (lc w)
                 (fun _ _ evs => led_story evs)) by exact (Hm w eq_refl).
  unfold main.
  apply does_still; [by apply emits_with_io, emits_file|intros _].
  apply does_still; [by apply emits_with_io, emits_file|intros _].
  apply does_still; [apply emits_lift|intros anchors].
  apply does_still; [apply emits_lift|intros afes].
  apply does_still; [apply emits_lift|intros vgains].
  apply does_still; [by apply emits_with_io, emits_utc|intros now].
  apply does_bind, does_modify. intros w1 _. split; [done|]. cbn.
  apply does_still; [by apply emits_write_manifest|intros _].
  apply does_bind. eapply does_weaken; [apply does_try|]. intros [[]|e] l8 evs Hs; [|done].
  eapply does_weaken; [apply does_csv|]. intros r l9 post Hp. by apply story_suffix.
Qed.

(** ** The summary *)

Definition row_head (vgain : Z) (status : string) : list (string * pyval) :=
  [("vgain", PyInt vgain); ("status", PyStr status);
   ("output_dir", PyStr (point_dir_of args vgain))].

(** What one point did and the row it adds: its configuration was sent; when it was accepted
    the acquisition was run, and the status is its exit status. *)
Definition point_story (anchors : gmap Z (gmap Z Z)) (vgain : Z) (evs : list event)
    (row : list (string * pyval)) : Prop :=
  exists offsets cfg pre post,
    offsets_at args anchors vgain = Ok offsets /\
    make_config_request (host args) (sw_timeout_ms args)
      (PyDict (board_config vgain (snd <$> offsets))) = Ok cfg /\
    Forall still pre /\ Forall still post /\
    ((row = row_head vgain "configure_failed" /\ evs = pre ++ Ev (Configure cfg) (Ok 0) :: post) \/
     exists mid rc,
       Forall (fun e => is_configure e = false) mid /\
       evs = pre ++ Ev (Configure cfg) (Ok 1) :: mid ++ Ev (acquire_cmd vgain) (Ok rc) :: post /\
       row = row_head vgain (if rc =? 0 then "captured" else "acquire_failed")
             ++ [("min_offset", PyInt (min_value offsets));
                 ("max_offset", PyInt (max_value offsets))]).

Lemma point_story_prefix anchors vgain pre evs row :
  Forall still pre -> point_story anchors vgain evs row ->
  point_story anchors vgain (pre ++ evs) row.
Proof using Type.
  intros Hp (offsets & cfg & pre' & post & Ho & Hc & Hpre & Hpost & Hcase).
  exists offsets, cfg, (pre ++ pre'), post. split_and!; [done|done|by apply Forall_app|done|].
  destruct Hcase as [[-> ->]|(mid & rc & Hmid & -> & ->)].
  - left. by rewrite app_assoc.
  - right. exists mid, rc. by rewrite app_assoc.
Qed.

Lemma does_append_row row l (Q : result unit -> vars -> list event -> Prop) :
  Q (Ok tt) (fst l, snd l ++ [row]) [] -> does (W := Wd) (L := vars) (append_row row) l Q.
Proof using Type. intros HQ. apply does_modify. intros w <-. auto. Qed.

Definition no_configure (e : event) : Prop := is_configure e = false.

(** A capture that ends normally. *)
Definition capture_story (vgain : Z) (offsets : list (Z * Z)) (l : vars) (r : result unit)
    (l' : vars) (evs : list event) : Prop :=
  r = Ok tt -> exists mid rc post,
    Forall no_configure mid /\ Forall still post /\
    evs = mid ++ Ev (acquire_cmd vgain) (Ok rc) :: post /\
    l' = (fst l, snd l ++ [row_head vgain (if rc =? 0 then "captured" else "acquire_failed")
            ++ [("min_offset", PyInt (min_value offsets));
                ("max_offset", PyInt (max_value offsets))]]).

Lemma does_capture afes vgain offsets meta l :
  does (W := Wd) (L := vars) (capture_point env args afes vgain offsets meta) l
    (capture_story vgain offsets l).
Proof using Hdry.
  assert (Hpre : forall pre (r : result unit) l' evs, Forall no_configure pre ->
    capture_story vgain offsets l r l' evs -> capture_story vgain offsets l r l' (pre ++ evs)).
  { intros pre r l' evs Hp HQ Hr. destruct (HQ Hr) as (mid & rc & post & Hm & Hpost & -> & ->).
    exists (pre ++ mid), rc, post. rewrite app_assoc. split_and!; try done. by apply Forall_app. }
  unfold capture_point. rewrite Hdry.
  apply (does_emits no_configure); [|exact Hpre|done|intros _].
  { apply emits_when, emits_with_io. by apply emits_file. }
  apply (does_emits no_configure); [|exact Hpre|done|intros readback].
  { destruct (skip_fe_readback args); [apply emits_ret|]. apply emits_with_io.
    by apply emits_readback; [|intros _ o]. }
  apply (does_emits no_configure); [|exact Hpre|done|intros monitors].
  { apply emits_map_m. intros afe. apply emits_with_io. by apply emits_bias_monitor; [|intros _ o]. }
  apply does_bind, does_with_io, does_bind, does_subprocess; [|done]. intros p. cbn.
  apply does_bind, does_file; [|done]. cbn. apply does_ret. cbn.
  apply does_bind, does_append_row. cbn.
  apply does_with_io, does_file; [|done]. intros _. exists [], (returncode p). eexists.
  split_and!; [constructor| |reflexivity|done]. by repeat constructor.
Qed.

Lemma rmap_assoc_id (l : list (Z * Z)) (text : Z -> string) :
  NoDup (fst <$> l) -> rmap (fun ch => assoc l ch (text ch)) (fst <$> l) = Ok (snd <$> l).
Proof using Type.
  intros Hnd. assert (Hgen : forall pre suf, l = pre ++ suf ->
    rmap (fun ch => assoc l ch (text ch)) (fst <$> suf) = Ok (snd <$> suf)).
  { intros pre suf. revert pre. induction suf as [|[k v] suf IH]; intros pre Hl; [done|].
    cbn [fmap list_fmap rmap]. rewrite (IH (pre ++ [(k, v)])) by (by rewrite <- app_assoc).
    assert (Hk : assoc l k (text k) = Ok v); [|cbn; by rewrite Hk].
    unfold assoc. rewrite Hl in Hnd |- *. rewrite fmap_app in Hnd.
    apply NoDup_app in Hnd as (_ & Hout & _).
    clear IH Hl. induction pre as [|[k' v'] pre IH]; cbn.
    - by rewrite bool_decide_eq_true_2.
    - rewrite bool_decide_eq_false_2; [apply IH|].
      + intros x Hx. apply Hout. by apply list_elem_of_further.
      + intros ->. apply (Hout k); apply list_elem_of_here. }
  by apply (Hgen []).
Qed.

Lemma offsets_at_keys anchors vgain offsets :
  offsets_at args anchors vgain = Ok offsets -> fst <$> offsets = CHANNEL_ORDER.
Proof using Type.
  unfold offsets_at. generalize CHANNEL_ORDER. intros order. revert offsets.
  induction order as [|ch order IH]; intros offsets Ho; cbn [rmap] in Ho; [by injection Ho as <-|].
  apply rbind_ok in Ho as ([k v] & Hk & Ho). apply rbind_ok in Ho as (rest & Hr & [= <-]).
  apply rbind_ok in Hk as (o & _ & [= <- <-]). cbn. by rewrite (IH _ Hr).
Qed.

Lemma build_seed_config_ok anchors vgain offsets :
  offsets_at args anchors vgain = Ok offsets ->
  build_seed_config vgain offsets = Ok [(BOARD_ID, PyDict (board_config vgain (snd <$> offsets)))].
Proof using Type.
  intros Ho. unfold build_seed_config. rewrite <- (offsets_at_keys _ _ _ Ho).
  rewrite rmap_assoc_id; [done|]. rewrite (offsets_at_keys _ _ _ Ho).
  apply (bool_decide_unpack _). vm_compute. exact I.
Qed.

(** A point that ends normally. *)
Definition turn_story (anchors : gmap Z (gmap Z Z)) (vgain : Z) (l : vars) (r : result unit)
    (l' : vars) (evs : list event) : Prop :=
  r = Ok tt -> exists row, l' = (fst l, snd l ++ [row]) /\ point_story anchors vgain evs row.

Lemma turn_story_prefix anchors vgain l pre r l' evs :
  Forall still pre -> turn_story anchors vgain l r l' evs ->
  turn_story anchors vgain l r l' (pre ++ evs).
Proof using Type.
  intros Hp Hq Hr. destruct (Hq Hr) as (row & -> & Hs). exists row. split; [done|].
  by apply point_story_prefix.
Qed.

Lemma does_configure cfg l (Q : result (pyval * bool) -> vars -> list event -> Prop) :
  (forall c ok, Q (Ok (c, ok)) l [Ev (Configure cfg) (Ok (Z.b2z ok))]) ->
  (forall e o, Q (Raise e) l [Ev (Configure cfg) o]) ->
  does (W := Wd) (L := vars) (configure_point pid rand args cfg) l Q.
Proof using Hdry.
  intros H1' H2'. unfold configure_point. rewrite Hdry. apply does_bind, does_send.
  intros [s|e]; cbn; [|apply H2']. apply does_lift_bind; cbn.
  - intros e. apply H2'.
  - intros ok ->. cbn. apply does_ret. apply H1'.
Qed.

Lemma does_point anchors afes vgain l :
  does (W := Wd) (L := vars) (sweep_point env pid rand args anchors afes vgain) l
    (turn_story anchors vgain l).
Proof using Hdry.
  assert (Hraise : forall e l' evs, Forall still evs -> turn_story anchors vgain l (Raise e) l' evs)
    by done.
  pose proof (turn_story_prefix anchors vgain l) as Hpre.
  unfold sweep_point. apply does_lift_bind; [done|]. intros offsets Ho.
  apply (does_emits still); [by apply emits_with_io, emits_file|exact Hpre|done|intros _].
  apply (does_emits still); [by apply emits_with_io, emits_file|exact Hpre|done|intros _].
  rewrite (build_seed_config_ok _ _ _ Ho). apply does_bind, does_lift. cbn [after].
  eapply does_weaken; [|intros r l' evs HQ; exact HQ].
  apply (does_emits still); [by apply emits_with_io, emits_file|exact Hpre|done|intros _].
  apply (does_emits still); [by apply emits_with_io, emits_utc|exact Hpre|done|intros now].
  apply (does_emits still); [apply emits_gets|exact Hpre|done|intros led_start].
  apply (does_emits still); [by apply emits_with_io, emits_file|exact Hpre|done|intros _].
  apply does_lift_bind; [done|]. intros board Hb. injection Hb as <-.
  apply does_lift_bind; [done|]. intros cfg Hcfg.
  apply does_bind, does_configure; [|done]. intros conf ok. cbn [after].
  apply does_bind, does_with_io, does_file; [|done]. cbn [after].
  destruct ok; cbn [negb].
  - eapply does_weaken; [apply does_capture|]. intros r l' evs HQ Hr.
    destruct (HQ Hr) as (mid & rc & post & Hm & Hpost & -> & ->). eexists. split; [done|].
    exists offsets, cfg, [], post. split_and!; try done. right. eexists (_ :: mid), rc.
    split_and!; [|reflexivity|done]. by constructor.
  - apply does_bind, does_append_row. cbn [after].
    apply does_with_io, does_file; [|done]. intros _. eexists. split; [done|].
    exists offsets, cfg, []. eexists. split_and!; [done|done|constructor| |left; split; reflexivity].
    by repeat constructor.
Qed.

(** The loop over the VGAIN values. *)
Lemma does_points anchors afes vgains l :
  does (W := Wd) (L := vars) (for_each vgains (sweep_point env pid rand args anchors afes)) l
    (fun r l' evs => r = Ok tt -> exists segs rows,
       evs = mjoin segs /\ l' = (fst l, snd l ++ rows) /\
       Forall3 (point_story anchors) vgains segs rows).
Proof using Hdry.
  revert l. induction vgains as [|v vgains IH]; intros l; cbn [for_each].
  - apply does_ret. intros _. exists [], []. rewrite app_nil_r. split_and!; [done|by destruct l|constructor].
  - apply does_bind. eapply does_weaken; [apply does_point|]. intros [[]|e] l1 e1 Ht; [|done].
    destruct (Ht eq_refl) as (row & -> & Hrow). cbn [after].
    eapply does_weaken; [apply IH|]. intros r l2 e2 HQ Hr.
    destruct (HQ Hr) as (segs & rows & -> & -> & Hall). exists (e1 :: segs), (row :: rows).
    cbn. rewrite <- app_assoc. split_and!; [done|done|by constructor].
Qed.

Lemma emits_led_start : emits (W := Wd) (L := vars) snd no_configure (led_start_block env args).
Proof using Type.
  apply emits_when, emits_bind; [|intros [rc info]].
  { apply emits_with_io, emits_bind; [by apply emits_run_cmd; [|intros _ ?]|]. intros [rc o]. apply emits_ret. }
  apply emits_bind; [apply emits_set_manifest|intros _].
  apply emits_bind; [by apply emits_write_manifest|intros _].
  apply emits_bind; [apply emits_when, emits_raise|intros _].
  apply emits_bind; [|intros _; apply emits_when, emits_with_io; by apply emits_file].
  intros l. apply does_modify. intros w <-. by repeat split.
Qed.

Lemma emits_led_stop : emits (W := Wd) (L := vars) snd no_configure (led_stop_block env args).
Proof using Type.
  apply emits_bind; [apply emits_gets|intros b]. apply emits_when, emits_bind; [|intros info].
  { apply emits_with_io, emits_bind; [by apply emits_run_cmd; [|intros _ ?]|]. intros [rc o]. apply emits_ret. }
  apply emits_bind; [apply emits_set_manifest|intros _]. by apply emits_write_manifest.
Qed.

Definition summary_fields : list string :=
  ["vgain"; "status"; "output_dir"; "min_offset"; "max_offset"].

Definition summary_written (rows : list (list (string * pyval))) : event :=
  Ev (Write (out args "scan_summary.csv") (DCsv summary_fields rows)) (Ok 0).

(** What a run that ends normally did. *)
Definition sweep_story (csv : result (list (list (string * pyval)))) (r : result Z)
    (evs : list event) : Prop :=
  r = Ok 0 -> exists anchors vgains pre segs mid rows,
    load_anchor_offsets (anchor_csv args) csv = Ok anchors /\
    inclusive_range (vgain_start args) (vgain_stop args) (vgain_step args) = Ok vgains /\
    evs = pre ++ mjoin segs ++ mid ++ [summary_written rows] /\
    Forall3 (point_story anchors) vgains segs rows /\
    Forall no_configure pre /\ Forall no_configure mid.

Lemma sweep_story_prefix csv pre r evs :
  Forall no_configure pre -> sweep_story csv r evs -> sweep_story csv r (pre ++ evs).
Proof using Type.
  intros Hp HQ Hr. destruct (HQ Hr) as (anchors & vs & pre' & segs & mid & rows & Ha & Hv & -> & Hs).
  exists anchors, vs, (pre ++ pre'), segs, mid, rows. rewrite app_assoc.
  split_and!; [done|done|done|tauto| |tauto]. apply Forall_app. tauto.
Qed.

(** A sweep that returns wrote a summary with exactly one row per VGAIN value, in order.
    The row of a value belongs to its point: the point sent the configuration built from its
    offsets, and the row says [configure_failed] when the answer refused it; otherwise the
    acquisition ran after it with the channels of the scan, and the row says [captured] or
    [acquire_failed] by its exit status.  Nothing else was configured. *)
Theorem sweep_summary csv w w' :
  main env pid rand args csv w = (Ok 0, w') ->
  exists evs, log (io w') = log (io w) ++ evs /\ sweep_story csv (Ok 0) evs.
Proof using Hdry.
  intros Hrun.
  enough (Hm : does (W := Wd) (L := vars) (main env pid rand args csv) (lc w)
                 (fun r _ evs => sweep_story csv r evs)).
  { destruct (Hm w eq_refl) as (evs & Hl & Hs). rewrite Hrun in Hl, Hs. by exists evs. }
  assert (Hpre : forall pre r (l' : vars) evs, Forall no_configure pre ->
    sweep_story csv r evs -> sweep_story csv r (pre ++ evs))
    by (intros; by apply sweep_story_prefix).
  unfold main.
  apply (does_emits no_configure); [by apply emits_with_io, emits_file|exact Hpre|done|intros _].
  apply (does_emits no_configure); [by apply emits_with_io, emits_file|exact Hpre|done|intros _].
  apply does_lift_bind; [done|]. intros anchors Ha.
  apply does_lift_bind; [done|]. intros afes _.
  apply does_lift_bind; [done|]. intros vgains Hv.
  apply (does_emits no_configure); [by apply emits_with_io, emits_utc|exact Hpre|done|intros now].
  apply does_bind, does_modify. intros w1 _. split; [done|]. cbn [after app].
  apply (does_emits no_configure); [by apply emits_write_manifest|exact Hpre|done|intros _].
  apply does_bind, does_try_finally, does_bind.
  eapply does_weaken; [apply emits_led_start|]. intros [[]|e] [b rows1] pre [Hf Hp];
    cbn in Hf; subst rows1; cbn [after];
    [|eapply does_weaken; [apply emits_led_stop|]; by intros [[]|e'] l2 e2 _].
  eapply does_weaken; [apply does_points|]. intros r l2 e2 HQ.
  eapply does_weaken; [apply emits_led_stop|]. intros r' l3 e3 [Hsnd Hmid].
  destruct r' as [[]|e]; [|done]. destruct r as [[]|e]; [|done].
  destruct (HQ eq_refl) as (segs & rows & -> & -> & Hall). cbn [after].
  apply does_bind, does_gets. intros w2 Hw2. cbn [after].
  apply does_bind, does_with_io, does_file; [|done]. cbn [after]. apply does_ret. intros _.
  exists anchors, vgains, pre, segs, e3, rows. cbn in Hsnd.
  assert (Hrows : summary_rows w2 = rows) by (rewrite <- Hw2 in Hsnd; exact Hsnd).
  rewrite Hrows. split_and!; try done. by rewrite <- !app_assoc.
Qed.

End sweep_events.

(** ** The pulser *)

Section pulser.
Context {S B P : Type} `{Peer S B, Size B, !Proto B (ControlEnvelopeV2 B)}.
Context `{!Proto B ConfigureRequest, !Proto B ConfigureResponse, Machine P}.
Abbreviation Wd := (sweep S B P).
Abbreviation vars := (bool * list (list (string * pyval)))%type.
Context (env : paths) (pid rand : Z) (args : sweep_args).

(** A sweep that does not start the pulser: the block that stops it does nothing. *)
Lemma does_unstarted (E : event -> Prop) rows (l : vars) :
  dry_run args = true \/ no_led_start args = true ->
  (forall e, still e -> E e) ->
  (dry_run args = false -> forall e, point_program env args e \/ is_configure e = true -> E e) ->
  does (W := Wd) (L := vars) (main env pid rand args rows) l (fun _ _ evs => Forall E evs).
Proof using Type.
  intros Hargs Hs Hp.
  assert (Hw : forall p d o, E (Ev (Write p d) o)) by (intros; by apply Hs).
  assert (Hm : forall p o, E (Ev (Mkdir p) o)) by (intros; by apply Hs).
  assert (Hz : forall x o, E (Ev (Sleep x) o)) by (intros; by apply Hs).
  assert (Hmk : forall p, emits (W := Wd) (L := vars) (fun l => l) E (with_io (mkdir p)))
    by (intros p; by apply emits_with_io, emits_file).
  assert (Hseq : forall (A C : Type) (m : M Wd A) (k : A -> M Wd C) l0,
    emits (W := Wd) (L := vars) (fun l => l) E m ->
    (forall a, does (W := Wd) (L := vars) (k a) l0 (fun _ _ evs => Forall E evs)) ->
    does (W := Wd) (L := vars) (bind m k) l0 (fun _ _ evs => Forall E evs)).
  { intros A C m k l0 Hem Hk. apply (does_emits E); [done| |done|done].
    intros pre r l' evs Hpre Hevs. by apply Forall_app. }
  unfold main. apply Hseq; [done|intros _]. apply Hseq; [done|intros _].
  apply Hseq; [apply emits_lift|intros anchors]. apply Hseq; [apply emits_lift|intros afes].
  apply Hseq; [apply emits_lift|intros vgains]. apply Hseq; [by apply emits_with_io, emits_utc|intros now].
  apply does_bind, does_modify. intros w1 _. split; [done|]. cbn [after app].
  apply Hseq; [by apply emits_write_manifest|intros _].
  assert (Hloop : emits (W := Wd) (L := vars) (fun l : vars => fst l) E
    (for_each vgains (sweep_point env pid rand args anchors afes)))
    by (apply emits_for_each; intros; by apply emits_point).
  assert (Hstop : forall b rows0, (b = true -> dry_run args = true) ->
    does (W := Wd) (L := vars) (led_stop_block env args) (b, rows0) (fun _ _ evs => Forall E evs)).
  { intros b rows0 Hb. apply does_bind, does_gets. intros w Hw2. injection Hw2 as Hb2 _. cbn [after]. rewrite Hb2.
    apply does_when; [|by constructor]. intros ->.
    eapply does_weaken; [apply (emits_bind (fun _ : vars => tt) E); [|intros info]|by intros ? ? ? [_ ?]].
    - apply emits_with_io, emits_bind; [apply emits_run_cmd; [done|]|intros [rc o]; apply emits_ret].
      intros Hd. by rewrite (Hb eq_refl) in Hd.
    - apply emits_bind; [apply emits_set_manifest|intros _]. by apply emits_write_manifest. }
  assert (Hstart : forall rows0, does (W := Wd) (L := vars) (led_start_block env args) (false, rows0)
    (fun _ l' evs => (fst l' = true -> dry_run args = true) /\ Forall E evs)).
  { intros rows0. apply does_when; [|by repeat constructor]. intros Hn%negb_true_iff.
    assert (Hd : dry_run args = true) by (destruct Hargs; congruence).
    eapply does_weaken; [apply (emits_bind (fun _ : vars => tt) E); [|intros [rc info]]|by intros ? ? ? [_ ?]].
    - apply emits_with_io, emits_bind; [apply emits_run_cmd; [done|congruence]|intros [rc o]; apply emits_ret].
    - apply emits_bind; [apply emits_set_manifest|intros _]. apply emits_bind; [by apply emits_write_manifest|intros _].
      apply emits_bind; [apply emits_when, emits_raise|intros _].
      apply emits_bind; [|intros _; apply emits_when, emits_with_io; by apply emits_file].
      intros l1. apply does_modify. intros w <-. by repeat split. }
  apply does_bind, does_try_finally, does_bind. eapply does_weaken; [apply Hstart|].
  intros r [b rows1] e1 [Hb He1]. cbn [fst] in Hb.
  assert (Hend : forall r1 rows2 e2, Forall E e2 -> does (W := Wd) (L := vars) (led_stop_block env args) (b, rows2)
    (fun r' l2 e3 => after (W := Wd) (fun _ : unit => rows <- gets summary_rows ;;
       with_io (write_csv (out args "scan_summary.csv")
         ["vgain"; "status"; "output_dir"; "min_offset"; "max_offset"] rows) ;;; ret 0)
       (fun _ _ evs => Forall E evs) (match r' with Ok _ => r1 | Raise e => Raise e end) l2 (e2 ++ e3))).
  { intros r1 rows2 e2 He2. eapply does_weaken; [by apply Hstop|]. intros r' l2 e3 He3.
    assert (He23 : Forall E (e2 ++ e3)) by by apply Forall_app.
    destruct r' as [[]|e]; [destruct r1 as [[]|e]|]; cbn [after]; [|done..].
    eapply does_weaken; [apply does_csv|]. intros r2 l3 e4 He4. apply Forall_app. split; [done|].
    eapply Forall_impl; [exact He4|exact Hs]. }
  destruct r as [[]|e]; cbn [after]; [|by apply Hend].
  eapply does_weaken; [apply Hloop|]. intros r [b2 rows2] e2 [Hf He2]. cbn in Hf. subst b2.
  apply Hend. by apply Forall_app.
Qed.

(** What the events of a sweep say of the pulser: nothing is run or configured in a dry run; with
    [--no-led-start] only the programs of the points are run; else it is started and stopped. *)
Definition pulser_story (evs : list event) : Prop :=
  if dry_run args then Forall still evs
  else if no_led_start args
       then Forall (fun e => still e \/ point_program env args e \/ is_configure e = true) evs
       else led_story env args evs.

(** C6. The sweep never leaves the pulser on by itself.  On every path, exceptions included and
    whatever the programs, the files and the server do: either the pulser is started before
    anything else is run or configured and the last program run is the one that stops it; or it was
    never recorded as started, nothing else was run or configured, and if the start program had
    succeeded then its log or the manifest could not be written.  With [--no-led-start] neither
    program is run, only the readbacks, monitors and acquisitions of the points; a dry run runs and
    configures nothing. *)
Theorem sweep_stops_led rows w :
  exists evs, log (io (snd (main env pid rand args rows w))) = log (io w) ++ evs /\ pulser_story evs.
Proof using Type.
  assert (Hdoes : forall E : event -> Prop,
    does (W := Wd) (L := vars) (main env pid rand args rows) (lc w) (fun _ _ evs => Forall E evs) ->
    exists evs, log (io (snd (main env pid rand args rows w))) = log (io w) ++ evs /\ Forall E evs)
    by (intros E Hm; exact (Hm w eq_refl)).
  unfold pulser_story. destruct (dry_run args) eqn:Hdry; [|destruct (no_led_start args) eqn:Hled].
  - apply Hdoes, does_unstarted; [by left|done|congruence].
  - apply Hdoes, does_unstarted; [by right|by left|]. intros _ e [He|He]; auto.
  - exact (sweep_brackets env pid rand args Hdry Hled rows w).
Qed.

End pulser.

(** ** The configuration of a point *)

Definition sweep_channel (offsets : list Z) (ch : Z) : ChannelConfig :=
  match list_find (fun c => c = ch) CHANNEL_ORDER with
  | Some (i, _) => Chan ch 0 (default 0 (offsets !! i)) 1
  | None => Chan ch 0 2275 1
  end.

Definition sweep_afe (vgain : Z) (i : nat) (bias : Z) : AFEConfig :=
  Afe (Z.of_nat i) vgain bias (Adc false true false) (Pga 4 true false) (Lna 0 2 true).

(** The request of a point. *)
Definition sweep_request (host : string) (timeout_ms vgain : Z) (offsets : list Z)
    : ConfigureRequest :=
  let d := default_params in
  ConfReq host 1 timeout_ms 1300 (p_threshold d) (p_xcorr d) (p_tp_conf d) (p_compensator d)
    (p_inverters d) (sweep_channel offsets <$> seqZ 0 40) (imap (sweep_afe vgain) AFE_BIAS_DAC) [].

Lemma set_u32_id v : 0 <= v < 2 ^ 32 -> set_u32 v = Ok v.
Proof. intros Hv. by apply set_uint_ok. Qed.
Lemma set_u64_id v : 0 <= v < 2 ^ 64 -> set_u64 v = Ok v.
Proof. intros Hv. by apply set_uint_ok. Qed.


Definition sweep_params (host : string) (timeout_ms : Z) : config_params :=
  let d := default_params in {|
    p_ip := host; p_slot := 1; p_timeout_ms := timeout_ms; p_biasctrl := p_biasctrl d;
    p_threshold := p_threshold d; p_xcorr := p_xcorr d; p_tp_conf := p_tp_conf d;
    p_compensator := p_compensator d; p_inverters := p_inverters d;
    p_per_ch_trim := p_per_ch_trim d; p_per_ch_offset := 2275; p_vgain := 1600;
    p_lpf_cutoff := LPF_CUTOFF_CODE; p_pga_clamp_level := p_pga_clamp_level d;
    p_pga_gain := PGA_GAIN_CODE; p_lna_gain := LNA_GAIN_CODE; p_lna_clamp := LNA_CLAMP_CODE |}.

Definition sweep_defaults (host : string) (timeout_ms : Z) : ConfigureRequest :=
  let d := default_params in
  ConfReq host 1 timeout_ms (p_biasctrl d) (p_threshold d) (p_xcorr d) (p_tp_conf d)
    (p_compensator d) (p_inverters d) ((fun ch => Chan ch 0 2275 1) <$> seqZ 0 40)
    ((fun i => Afe i 1600 0 (Adc true true false) (Pga 4 true false) (Lna 0 2 true)) <$> seqZ 0 5) [].

Lemma sweep_defaults_ok host timeout_ms :
  0 <= timeout_ms < 2 ^ 32 ->
  make_default_config (sweep_params host timeout_ms) = Ok (sweep_defaults host timeout_ms).
Proof.
  intros Ht. unfold make_default_config. cbn [p_timeout_ms p_ip p_slot sweep_params].
  rewrite (set_u32_id timeout_ms) by done. vm_compute. reflexivity.
Qed.

(** The seed of a point is accepted and gives that request. *)
Lemma sweep_config host timeout_ms vgain offsets :
  0 <= timeout_ms < 2 ^ 32 -> 0 <= vgain < 2 ^ 32 -> length offsets = 11%nat ->
  Forall (fun o => 0 <= o < 2 ^ 32) offsets ->
  make_config_request host timeout_ms (PyDict (board_config vgain offsets)) =
  Ok (sweep_request host timeout_ms vgain offsets).
Proof.
  intros Ht Hv Hlen Hoff.
  do 11 (destruct offsets as [|? offsets]; [done|]). destruct offsets; [|done].
  repeat match goal with H : Forall _ (_ :: _) |- _ => apply Forall_cons in H as [? H] end.
  unfold make_config_request. cbn [dict_get].
  change (lookup_key (board_config vgain _) "slot_id") with (@None pyval).
  cbn [default rbind py_int].
  change (make_default_config _) with (make_default_config (sweep_params host timeout_ms)).
  rewrite sweep_defaults_ok by done. cbn [rbind].
  rewrite (set_u32_id timeout_ms) by done.
  lazy -[set_u32 set_u64].
  repeat (rewrite set_u32_id by (assumption || lia)
          || rewrite set_u64_id by (assumption || lia); lazy iota).
  reflexivity.
Qed.

(** ** The offsets *)

(** Neighbours of a sorted list around a value. *)
Lemma find_neighbours vgain (points : list (Z * Z)) first last_ :
  head points = Some first -> last points = Some last_ ->
  fst first < vgain < fst last_ ->
  exists i l r, points !! i = Some l /\ points !! S i = Some r /\ fst l <= vgain <= fst r /\
    find (fun '(l, r) => (fst l <=? vgain) && (vgain <=? fst r)) (zip points (drop 1 points))
    = Some (l, r).
Proof.
  revert first. induction points as [|p points IH]; intros first Hh Hl Hv; [done|].
  cbn in Hh. injection Hh as ->. destruct points as [|p2 points]; [cbn in Hl; injection Hl as ->; lia|].
  cbn [drop zip zip_with find]. destruct (Z.leb_spec (fst first) vgain); [|lia]. cbn [andb].
  destruct (Z.leb_spec vgain (fst p2)) as [Hle|Hgt].
  - exists 0%nat, first, p2. by split_and!.
  - destruct (IH p2 eq_refl) as (i & l & r & Hi & Hsi & Hlr & Hf); [done|lia|].
    exists (S i), l, r. split_and!; [done|done|lia|lia|]. done.
Qed.

(** The value before the subtraction: constant outside the anchors, and between them the
    interpolation of two neighbours around [vgain]. *)
Lemma anchor_value_spec vgain points value :
  anchor_value vgain points = Ok value ->
  exists first last_, head points = Some first /\ last points = Some last_ /\
    ((vgain <= fst first /\ value = snd first) \/
     (fst last_ <= vgain /\ value = snd last_) \/
     exists i l r, points !! i = Some l /\ points !! S i = Some r /\
       fst l <= vgain <= fst r /\ interpolated vgain l r = Ok value).
Proof.
  unfold anchor_value. destruct points as [|[v0 o0] points]; [done|].
  destruct (last ((v0, o0) :: points)) as [[vn on]|] eqn:Hl; [|done]. intros H.
  exists (v0, o0), (vn, on). split_and!; [done|done|].
  destruct (Z.leb_spec vgain v0); [left; by simplify_eq|].
  destruct (Z.leb_spec vn vgain); [right; left; by simplify_eq|]. right. right.
  destruct (find_neighbours vgain ((v0, o0) :: points) (v0, o0) (vn, on))
    as (i & l & r & Hi & Hsi & Hlr & Hf); [done|done|cbn; lia|].
  rewrite Hf in H. by exists i, l, r.
Qed.

Definition clamp_offset (offset_subtract offset_min offset_max value : Z) : Z :=
  Z.max offset_min (Z.min offset_max (value - offset_subtract)).

(** The offset of a channel at a gain: never outside the limits asked for; below the first
    anchor and above the last one it is theirs, and in between it interpolates two neighbouring
    anchors around the gain; in each case lowered by the given count and then limited. *)
Theorem interpolate_channel_offset_correct channel vgain anchors sub lo hi o :
  interpolate_channel_offset channel vgain anchors sub lo hi = Ok o ->
  exists m points first last_ value,
    anchors !! channel = Some m /\ points = sorted_items m /\
    head points = Some first /\ last points = Some last_ /\
    o = clamp_offset sub lo hi value /\ lo <= o <= Z.max lo hi /\
    ((vgain <= fst first /\ value = snd first) \/
     (fst last_ <= vgain /\ value = snd last_) \/
     exists i l r, points !! i = Some l /\ points !! S i = Some r /\
       fst l <= vgain <= fst r /\ interpolated vgain l r = Ok value).
Proof.
  unfold interpolate_channel_offset. destruct (anchors !! channel) as [m|] eqn:Hm; [|done].
  intros H. apply rbind_ok in H as (value & Hv & [= <-]).
  destruct (anchor_value_spec _ _ _ Hv) as (first & last_ & Hh & Hl & Hcase).
  exists m, (sorted_items m), first, last_, value. unfold clamp_offset.
  split_and!; [done|done|done|done|done|lia|lia|done].
Qed.

Definition example_anchors : gmap Z (gmap Z Z) :=
  {[ 4 := {[ 500 := 2000; 1000 := 2200; 3000 := 2250 ]} ]}.

Lemma interpolate_channel_offset_correct_witness :
  interpolate_channel_offset 4 750 example_anchors 100 0 1990 = Ok 1990 /\
  interpolate_channel_offset 4 600 example_anchors 100 0 2550 = Ok 1940 /\
  exists m points first last_ value,
    example_anchors !! 4 = Some m /\ points = sorted_items m /\
    head points = Some first /\ last points = Some last_ /\
    1940 = clamp_offset 100 0 2550 value /\ 0 <= 1940 <= Z.max 0 2550 /\
    ((600 <= fst first /\ value = snd first) \/ (fst last_ <= 600 /\ value = snd last_) \/
     exists i l r, points !! i = Some l /\ points !! S i = Some r /\
       fst l <= 600 <= fst r /\ interpolated 600 l r = Ok value).
Proof.
  split_and!; [vm_compute; reflexivity|vm_compute; reflexivity|].
  apply (interpolate_channel_offset_correct 4 600 example_anchors 100 0 2550 1940).
  vm_compute. reflexivity.
Defined.

(** ** The request of a point *)

Lemma offsets_at_bounds args anchors vgain offsets :
  offsets_at args anchors vgain = Ok offsets ->
  Forall (fun kv => interpolate_channel_offset (fst kv) vgain anchors (offset_subtract args)
            (offset_min args) (offset_max args) = Ok (snd kv) /\
          offset_min args <= snd kv <= Z.max (offset_min args) (offset_max args)) offsets.
Proof.
  unfold offsets_at. generalize CHANNEL_ORDER. intros order. revert offsets.
  induction order as [|ch order IH]; intros offsets Ho; cbn [rmap] in Ho;
    [injection Ho as <-; constructor|].
  apply rbind_ok in Ho as ([k v] & Hk & Ho). apply rbind_ok in Ho as (rest & Hr & [= <-]).
  apply rbind_ok in Hk as (o & Hi & [= <- <-]). constructor; [|by apply IH].
  cbn. split; [done|]. unfold interpolate_channel_offset in Hi.
  destruct (anchors !! ch); [|done]. apply rbind_ok in Hi as (x & _ & [= <-]). lia.
Qed.

(** For limits that fit the fields, the configuration a point sends is exactly this one:
    the offsets computed for the eleven channels of the scan, with gain 1 and trim 0, the
    default offset 2275 for every other channel, the gain of the point for the five AFEs with
    their fixed biases, and the defaults for the rest.  The dictionary built for it is never
    refused. *)
Theorem sweep_point_request args anchors vgain offsets :
  0 <= sw_timeout_ms args < 2 ^ 32 -> 0 <= vgain < 2 ^ 32 -> 0 <= offset_min args < 2 ^ 32 ->
  offset_max args < 2 ^ 32 ->
  offsets_at args anchors vgain = Ok offsets ->
  exists seed cfg,
    build_seed_config vgain offsets = Ok seed /\
    (b <-! subscript seed BOARD_ID ;; make_config_request (host args) (sw_timeout_ms args) b)
      = Ok cfg /\
    daphne_address cfg = host args /\ timeout_ms cfg = sw_timeout_ms args /\ slot cfg = 1 /\
    biasctrl cfg = 1300 /\ ch_id <$> channels cfg = seqZ 0 40 /\
    (forall c, c ∈ channels cfg ->
       ch_trim c = 0 /\ ch_gain c = 1 /\
       (ch_id c ∈ CHANNEL_ORDER -> interpolate_channel_offset (ch_id c) vgain anchors
          (offset_subtract args) (offset_min args) (offset_max args) = Ok (ch_offset c)) /\
       (~ ch_id c ∈ CHANNEL_ORDER -> ch_offset c = 2275)) /\
    afes cfg = imap (sweep_afe vgain) AFE_BIAS_DAC.
Proof.
  intros Ht Hv Hlo Hhi Ho. pose proof (offsets_at_keys _ _ _ _ Ho) as Hkeys.
  pose proof (offsets_at_bounds _ _ _ _ Ho) as Hb.
  eexists. exists (sweep_request (host args) (sw_timeout_ms args) vgain (snd <$> offsets)).
  split; [by eapply build_seed_config_ok|]. split.
  { cbn. apply sweep_config; [done|done| |].
    - rewrite length_fmap, <- (length_fmap fst), Hkeys. done.
    - apply Forall_fmap. eapply Forall_impl; [exact Hb|]. intros [k o] [_ Hr]. cbn in *. lia. }
  split_and!; [done|done|done|done|reflexivity| |done].
  intros c [ch [-> Hin]]%list_elem_of_fmap. unfold sweep_channel.
  destruct (list_find (fun c0 => c0 = ch) CHANNEL_ORDER) as [[i x]|] eqn:Hf; cbn.
  - apply list_find_Some in Hf as (Hi & -> & _).
    split_and!; [done|done| |].
    + intros _. rewrite <- Hkeys, list_lookup_fmap, fmap_Some in Hi.
      destruct Hi as ([k o] & Hi & ->). rewrite list_lookup_fmap, Hi. cbn.
      rewrite Forall_lookup in Hb. by destruct (Hb i _ Hi).
    + intros Hn. exfalso. apply Hn. by eapply list_elem_of_lookup_2.
  - split_and!; [done|done| |done]. intros Hc. apply list_find_None in Hf.
    rewrite Forall_forall in Hf. by destruct (Hf ch Hc).
Qed.

(** ** Examples *)

Definition example_env : paths := Paths (fun p => p) "/daphne/client" "/daphne".

Definition example_led : led_options := {|
  led_client := ""; led_stop_client := ""; led_config := "led.json"; led_host := "127.0.0.1";
  led_port := 55001; led_ssh_tunnel := ""; led_ssh_tunnel_remote_host := "10.73.137.61";
  led_ssh_tunnel_remote_port := 55002; led_timeout_s := "5.0"; led_channel_mask := 7;
  led_number_channels := 12; led_pulse_width_ticks := 100 |}.

Definition example_sweep : sweep_args := {|
  anchor_csv := "/a.csv"; output_dir := "/out"; host := "127.0.0.1"; port := 9876;
  sw_route := "mezz/0"; vgain_start := 500; vgain_stop := 580; vgain_step := 50;
  offset_subtract := 100; offset_min := 0; offset_max := 2550; waveforms := 64;
  waveform_len := 2048; sw_timeout_ms := 30000; bias_monitor_timeout_ms := 4000;
  settle_s := f_decimal false 5 (-1); software_trigger := false; bias_monitor_afes := "0,1";
  python_exe := "python3"; no_led_start := false; led := example_led;
  led_intensity_270nm := 4094; led_intensity_367nm := 0; skip_fe_readback := false;
  dry_run := false |}.

(** Every program succeeds but the acquisitions of some points; every file can be written. *)
#[local] Instance counting_machine : Machine nat := {
  run_program n cmd := (S n, Ok (Proc (if (Nat.eqb n 8) then 1 else 0) "done" ""));
  file_op n _ := (n, Ok tt);
  utc_now _ := "2025-01-01T00:00:00+00:00" }.

Definition example_rows : list (list (string * pyval)) :=
  (fun ch => [("vgain", PyStr "500"); ("channel", PyStr (str_Z ch));
              ("closest_offset_to_2000", PyStr "2100")]) <$> CHANNEL_ORDER.

Definition fresh_sweep : sweep nat wire nat := Sweep (idle []) (IOW 0%nat []) false [] [].

(** The status of each row of the example: two of the three points are captured. *)
Definition statuses (rows : list (list (string * pyval))) : list pyval :=
  (fun row => default PyNone (lookup_key row "status")) <$> rows.

Lemma sweep_stops_led_witness :
  (exists evs, log (io (snd (main example_env 5 9 example_sweep (Ok example_rows) fresh_sweep)))
     = [] ++ evs /\ led_story example_env example_sweep evs) /\
  (exists evs, log (io (snd (main example_env 5 9 example_sweep (Raise again) fresh_sweep)))
     = [] ++ evs /\ led_story example_env example_sweep evs).
Proof.
  split.
  - apply (sweep_stops_led example_env 5 9 example_sweep (Ok example_rows) fresh_sweep).
  - apply (sweep_stops_led example_env 5 9 example_sweep (Raise again) fresh_sweep).
Defined.

Lemma sweep_summary_witness :
  exists w' evs, main example_env 5 9 example_sweep (Ok example_rows) fresh_sweep = (Ok 0, w') /\
    statuses (summary_rows w') = [PyStr "captured"; PyStr "acquire_failed"; PyStr "captured"] /\
    log (io w') = [] ++ evs /\ sweep_story example_env example_sweep (Ok example_rows) (Ok 0) evs.
Proof.
  assert (Hpair : forall (A C : Type) (p : A * C) a, fst p = a -> p = (a, snd p))
    by (by intros A C [x y] a <-).
  assert (Hrun : main example_env 5 9 example_sweep (Ok example_rows) fresh_sweep
    = (Ok 0, snd (main example_env 5 9 example_sweep (Ok example_rows) fresh_sweep)))
    by (apply Hpair; vm_compute; reflexivity).
  destruct (sweep_summary example_env 5 9 example_sweep eq_refl (Ok example_rows) fresh_sweep _ Hrun)
    as (evs & Hl & Hs).
  eexists _, evs. split; [exact Hrun|]. split; [vm_compute; reflexivity|]. by split.
Defined.

Lemma sweep_point_request_witness :
  exists offsets seed cfg,
    offsets_at example_sweep
      (match load_anchor_offsets "" (Ok example_rows) with Ok a => a | Raise _ => ∅ end) 550
      = Ok offsets /\
    build_seed_config 550 offsets = Ok seed /\
    (b <-! subscript seed BOARD_ID ;;
     make_config_request (host example_sweep) (sw_timeout_ms example_sweep) b) = Ok cfg /\
    afes cfg = imap (sweep_afe 550) AFE_BIAS_DAC.
Proof.
  set (anchors := match load_anchor_offsets "" (Ok example_rows) with Ok a => a | Raise _ => ∅ end).
  assert (Ho : offsets_at example_sweep anchors 550 = Ok ((fun ch => (ch, 2000)) <$> CHANNEL_ORDER))
    by (vm_compute; reflexivity).
  destruct (sweep_point_request example_sweep anchors 550 _ ltac:(cbn; lia) ltac:(lia)
              ltac:(cbn; lia) ltac:(cbn; lia) Ho)
    as (seed & cfg & Hs & Hc & _ & _ & _ & _ & _ & _ & Ha).
  exact (ex_intro _ _ (ex_intro _ seed (ex_intro _ cfg (conj Ho (conj Hs (conj Hc Ha)))))).
Defined.

(** When the log of the start cannot be written, the pulser is left on: the program that
    started it had succeeded, and nothing stops it. *)
#[local] Instance full_disk : Machine unit := {
  run_program _ cmd := (tt, Ok (Proc 0 "" ""));
  file_op _ a := (tt, match a with
                      | Write p (DText _) => Raise (Exn (OSError 28) "No space left on device")
                      | _ => Ok tt
                      end);
  utc_now _ := "" }.

Theorem led_left_on_when_log_fails :
  let w' := snd (main (P := unit) example_env 5 9 example_sweep (Ok example_rows)
                   (Sweep (idle []) (IOW tt []) false [] [])) in
  Ev (led_start_cmd example_env example_sweep) (Ok 0) ∈ log (io w') /\
  Forall (fun e => ev_action e <> led_stop_cmd example_env example_sweep) (log (io w')).
Proof.
  match goal with |- let w' := ?w in _ => set (w0 := w) end. cbv zeta.
  assert (Hlog : exists pre e, log (io w0) =
    pre ++ [Ev (led_start_cmd example_env example_sweep) (Ok 0); e] /\
    Forall (fun e => is_run e = false) pre /\ is_run e = false).
  { vm_compute. eexists [_; _; _], _. split; [reflexivity|]. split; [by repeat constructor|done]. }
  destruct Hlog as (pre & e & -> & Hpre & He). split.
  - apply elem_of_app. right. apply list_elem_of_here.
  - assert (Hq : forall x, is_run x = false -> ev_action x <> led_stop_cmd example_env example_sweep).
    { intros [a o] Hx. cbn. intros ->. done. }
    apply Forall_app. split; [eapply Forall_impl; [exact Hpre|apply Hq]|].
    constructor; [by vm_compute|]. constructor; [by apply Hq|constructor].
Qed.
