(* ===== verification/ChargeWindows.v ===== *)
(** Integration windows and charges of LED waveforms: [client/led_charge.py].

    Waveforms are integers, charges binary64.  A sum of integer samples is exact whatever its
    order (records are far shorter than 2^53 / 2^16), so means of samples are divisions of
    exact sums; the reductions of floats, whose order numpy chooses, and its histogram are
    class [Numpy]. *)
From S2P Require Import Prelude PyStr PyFloat PyVal ChannelSpec JsonText SpyAcquire.

Class Numpy : Type := {
  np_sum : list float -> float;
  np_mean : list float -> float;
  np_std : list float -> float;
  np_median : list float -> float;
  np_quantile : list float -> float -> float;
  np_hypot : float -> float -> float;
  np_linspace : float -> float -> Z -> list float;
  np_histogram : list float -> list float -> list Z }.

(** ** Windows *)

Record ChargeWindow : Type := Window {
  channel : Z; baseline_start : Z; baseline_stop : Z; search_start : Z; search_stop : Z;
  onset_index : Z; peak_index : Z; integrate_start : Z; integrate_stop : Z }.

#[export] Instance window_eq_dec : EqDecision ChargeWindow.
Proof. solve_decision. Defined.

Definition as_dict (w : ChargeWindow) : list (string * pyval) :=
  [("channel", PyInt (channel w)); ("baseline_start", PyInt (baseline_start w));
   ("baseline_stop", PyInt (baseline_stop w)); ("search_start", PyInt (search_start w));
   ("search_stop", PyInt (search_stop w)); ("onset_index", PyInt (onset_index w));
   ("peak_index", PyInt (peak_index w)); ("integrate_start", PyInt (integrate_start w));
   ("integrate_stop", PyInt (integrate_stop w))].

Definition value_error (text : string) : exn := Exn ValueError text.

(** [normalize_bounds] *)
Definition normalize_bounds (n_samples : Z) (start stop : option Z) : Z * Z :=
  let lo := match start with None => 0 | Some s => Z.max 0 (Z.min n_samples s) end in
  let hi := match stop with None => n_samples | Some s => Z.max 0 (Z.min n_samples s) end in
  if hi <? lo then (hi, lo) else (lo, hi).

Definition pedestal_window_for_charge (w : ChargeWindow) (n_samples : Z) (window_len : option Z)
    : result (Z * Z) :=
  let use_len := default (integrate_stop w - integrate_start w) window_len in
  if use_len <=? 0 then Raise (value_error "window_len must be > 0")
  else
    let ped_start := Z.max (baseline_start w) (baseline_stop w - use_len) in
    let ped_stop := Z.min n_samples (ped_start + use_len) in
    if ped_stop <=? ped_start
    then Raise (value_error ("Invalid pedestal window for channel " +:+ str_Z (channel w)))
    else Ok (ped_start, ped_stop).

Definition with_integration (w : ChargeWindow) (start stop : Z) : ChargeWindow :=
  Window (channel w) (baseline_start w) (baseline_stop w) (search_start w) (search_stop w)
    (onset_index w) (peak_index w) start stop.

Definition reanchor_charge_window (w : ChargeWindow) (n_samples : Z) (anchor : string)
    (pre_samples post_samples : Z) : result ChargeWindow :=
  let pre := Z.max 0 pre_samples in
  let post := Z.max 1 post_samples in
  let anchor_mode := lower_str (strip anchor) in
  anchor_index <-! (if decide (anchor_mode = "peak") then Ok (peak_index w)
                    else if decide (anchor_mode = "onset") then Ok (onset_index w)
                    else Raise (value_error ("Unsupported charge window anchor: " +:+ anchor))) ;;
  let start := Z.max 0 (Z.min n_samples (anchor_index - pre)) in
  let stop := Z.max (start + 1) (Z.min n_samples (anchor_index + post)) in
  Ok (with_integration w start stop).

(** ** Waveforms *)

(** A two-dimensional array: its number of columns and its rows. *)
Record waves : Type := Waves { cols : Z; rows : list (list Z) }.

Definition view_int16 (v : Z) : Z := if v <? 2 ^ 15 then v else v - 2 ^ 16.

Fixpoint reshape (n_rows n : nat) (l : list Z) : list (list Z) :=
  match n_rows with
  | O => []
  | S k => take n l :: reshape k n (drop n l)
  end.

(** [load_channel_waves]; [file] are the 16-bit words of the file. *)
Definition load_channel_waves (path : string) (file : result (list Z)) (n_samples max_waves : Z)
    (interpret : string) : result waves :=
  raw <-! file ;;
  if n_samples =? 0 then Raise (Exn OtherError "integer modulo by zero")
  else
    let size := Z.of_nat (length raw) in
    if negb (size mod n_samples =? 0)
    then Raise (value_error (path +:+ ": size " +:+ str_Z size +:+ " is not divisible by L="
                             +:+ str_Z n_samples))
    else
      let n_total := size / n_samples in
      let n_use := if max_waves <=? 0 then n_total else Z.min n_total max_waves in
      vals <-! (if decide (interpret = "signed") then Ok (view_int16 <$> raw)
                else if decide (interpret = "unsigned") then Ok raw
                else Raise (value_error ("Unsupported interpret mode: " +:+ interpret))) ;;
      if n_samples <? 0 then Raise (value_error "cannot reshape array")
      else Ok (Waves n_samples (reshape (Z.to_nat n_use) (Z.to_nat n_samples)
                 (take (Z.to_nat (n_use * n_samples)) vals))).

(** [l[lo:hi]] for [0 <= lo <= hi] *)
Definition slice {A : Type} (lo hi : Z) (l : list A) : list A :=
  take (Z.to_nat (hi - lo)) (drop (Z.to_nat lo) l).

Definition f_zero : float := S754_zero false.

(** The mean of integer samples; of none, not a number. *)
Definition mean_ints (l : list Z) : float :=
  match f_div (f_of_Z (foldr Z.add 0 l)) (f_of_Z (Z.of_nat (length l))) with
  | Ok x => x
  | Raise _ => S754_nan
  end.

Definition compute_baseline (ws : waves) (start stop : Z) : result (list float) :=
  let '(lo, hi) := normalize_bounds (cols ws) (Some start) (Some stop) in
  if hi <=? lo
  then Raise (value_error ("Invalid baseline window [" +:+ str_Z start +:+ ", " +:+ str_Z stop
                           +:+ ")"))
  else Ok ((fun r => mean_ints (slice lo hi r)) <$> rows ws).

(** [np.maximum(x, 0.0)] *)
Definition clip_zero (x : float) : float := if f_ltb x f_zero then f_zero else x.

Definition compute_charge `{Numpy} (ws : waves) (integrate_start integrate_stop baseline_start
    baseline_stop : Z) (clip_negative : bool) : result (list float) :=
  let '(lo, hi) := normalize_bounds (cols ws) (Some integrate_start) (Some integrate_stop) in
  base <-! compute_baseline ws baseline_start baseline_stop ;;
  Ok (zip_with (fun r b =>
        let seg := (fun x => f_sub (f_of_Z x) b) <$> slice lo hi r in
        np_sum (if clip_negative then clip_zero <$> seg else seg)) (rows ws) base).

(** [mean_waveform] *)
Definition mean_waveform (ws : waves) : list float :=
  (fun j => mean_ints ((fun r => default 0 (r !! Z.to_nat j)) <$> rows ws)) <$> seqZ 0 (cols ws).

(** ** Calibration *)

Definition is_nan (x : float) : bool := match x with S754_nan => true | _ => false end.

(** [np.argmax]: the first maximum; the first value that is not a number counts as one. *)
Fixpoint argmax_from (best : float) (at_ i : nat) (l : list float) : nat :=
  match l with
  | [] => at_
  | x :: t =>
      if negb (is_nan best) && (is_nan x || f_ltb best x) then argmax_from x i (S i) t
      else argmax_from best at_ (S i) t
  end.

Definition argmax (l : list float) : result nat :=
  match l with
  | [] => Raise (value_error "attempt to get argmax of an empty sequence")
  | x :: t => Ok (argmax_from x 0 1 t)
  end.

(** [np.diff(l, prepend=l[0])] *)
Definition differences (l : list float) : list float :=
  match l with
  | [] => []
  | x :: t => zip_with (fun b a => f_sub b a) l (x :: l)
  end.

(** [max(x, y)] and [min(x, y)] of floats: the first unless the second is beyond it. *)
Definition py_max (x y : float) : float := if f_ltb x y then y else x.
Definition py_min (x y : float) : float := if f_ltb y x then y else x.

Definition calibrate_window_from_mean `{Numpy} (mean_wf : list float) (channel baseline_start
    baseline_stop search_start search_stop : Z) (onset_fraction : float)
    (integrate_offset integrate_len : Z) : result ChargeWindow :=
  let n_samples := Z.of_nat (length mean_wf) in
  let '(b_lo, b_hi) := normalize_bounds n_samples (Some baseline_start) (Some baseline_stop) in
  let '(s_lo, s_hi) := normalize_bounds n_samples (Some search_start) (Some search_stop) in
  if b_hi <=? b_lo then
    Raise (value_error ("Invalid baseline window [" +:+ str_Z baseline_start +:+ ", "
                        +:+ str_Z baseline_stop +:+ ")"))
  else if s_hi <=? s_lo then
    Raise (value_error ("Invalid search window [" +:+ str_Z search_start +:+ ", "
                        +:+ str_Z search_stop +:+ ")"))
  else if integrate_len <=? 0 then Raise (value_error "integrate_len must be > 0")
  else
    let baseline := np_mean (slice b_lo b_hi mean_wf) in
    let signal := (fun x => f_sub x baseline) <$> slice s_lo s_hi mean_wf in
    peak_rel <-! argmax signal ;;
    let peak_index := s_lo + Z.of_nat peak_rel in
    let amplitude := default f_zero (signal !! peak_rel) in
    if f_leb amplitude f_zero then
      Raise (value_error ("Channel " +:+ str_Z channel
                          +:+ ": no positive LED signal found in calibration window"))
    else
      let frac := py_min (py_max onset_fraction (f_decimal false 1 (-2))) (f_decimal false 95 (-2)) in
      let threshold := f_mul amplitude frac in
      onset_index <-! (match list_find (fun x => f_leb threshold x = true) signal with
                       | Some (i, _) => Ok (s_lo + Z.of_nat i)
                       | None => d <-! argmax (differences signal) ;; Ok (s_lo + Z.of_nat d)
                       end) ;;
      let integrate_start := Z.max 0 (Z.min n_samples (onset_index + integrate_offset)) in
      let integrate_stop := Z.max (integrate_start + 1)
                              (Z.min n_samples (integrate_start + integrate_len)) in
      Ok (Window channel b_lo b_hi s_lo s_hi onset_index peak_index integrate_start integrate_stop).

(** [folder / f"channel_{ch}.dat"] *)
Definition channel_path (folder : string) (ch : Z) : string :=
  folder +:+ "/channel_" +:+ str_Z ch +:+ ".dat".

(** [calibrate_windows_from_folder]; [read] are the files. *)
Definition calibrate_windows_from_folder `{Numpy} (read : string -> result (list Z))
    (folder : string) (channels : list Z) (n_samples baseline_start baseline_stop search_start
    search_stop : Z) (onset_fraction : float) (integrate_offset integrate_len max_waves : Z)
    (interpret : string) : result (gmap Z ChargeWindow) :=
  rfold (fun out ch =>
    let path := channel_path folder ch in
    ws <-! load_channel_waves path (read path) n_samples max_waves interpret ;;
    w <-! calibrate_window_from_mean (mean_waveform ws) ch baseline_start baseline_stop
            search_start search_stop onset_fraction integrate_offset integrate_len ;;
    Ok (<[ch := w]> out)) channels ∅.

(** ** Window files *)

Definition entry_le {A : Type} (a b : Z * A) : Prop := fst a <= fst b.

#[export] Instance entry_le_dec {A : Type} : RelDecision (@entry_le A).
Proof. intros a b. unfold entry_le. apply _. Defined.

(** [sorted(d.items())] *)
Definition sorted_entries {A : Type} (m : gmap Z A) : list (Z * A) :=
  merge_sort entry_le (map_to_list m).

(** The document of [save_charge_windows]. *)
Definition save_charge_windows (windows : gmap Z ChargeWindow) (metadata : list (string * pyval))
    : pyval :=
  PyDict [("metadata", PyDict metadata);
          ("windows", PyDict ((fun cw => (str_Z (fst cw), PyDict (as_dict (snd cw))))
                                <$> sorted_entries windows))].

(** [d[k]] and [d.items()] of a decoded value *)
Definition item (v : pyval) (k : string) : result pyval :=
  match v with
  | PyDict d => match lookup_key d k with
                | Some x => Ok x
                | None => Raise (Exn KeyError ("'" +:+ k +:+ "'"))
                end
  | _ => Raise (type_error "object is not subscriptable")
  end.

Definition items_of (v : pyval) : result (list (string * pyval)) :=
  match v with
  | PyDict d => Ok d
  | _ => Raise (Exn OtherError "object has no attribute 'items'")
  end.

Definition int_item (v : pyval) (k : string) : result Z := x <-! item v k ;; py_int x.

(** [int(value.get(k, value[k']))] *)
Definition int_get (v : pyval) (k k' : string) : result Z :=
  d <-! item v k' ;; x <-! dict_get v k d ;; py_int x.

Definition load_window (out : gmap Z ChargeWindow) (kv : string * pyval)
    : result (gmap Z ChargeWindow) :=
  let '(key, value) := kv in
  c <-! dict_get value "channel" (PyStr key) ;; ch <-! py_int c ;;
  b0 <-! int_item value "baseline_start" ;;
  b1 <-! int_item value "baseline_stop" ;;
  s0 <-! int_get value "search_start" "integrate_start" ;;
  s1 <-! int_get value "search_stop" "integrate_stop" ;;
  o <-! int_get value "onset_index" "integrate_start" ;;
  p <-! int_get value "peak_index" "integrate_start" ;;
  i0 <-! int_item value "integrate_start" ;;
  i1 <-! int_item value "integrate_stop" ;;
  Ok (<[ch := Window ch b0 b1 s0 s1 o p i0 i1]> out).

Definition load_charge_windows (raw : result pyval) : result (gmap Z ChargeWindow) :=
  doc <-! raw ;;
  windows_raw <-! dict_get doc "windows" doc ;;
  items <-! items_of windows_raw ;;
  rfold load_window items ∅.

(** ** Summaries *)

Definition f_dec (n e : Z) : float := f_decimal false n e.
Definition f_abs (x : float) : float := SFabs x.

(** [x / y] of numpy floats: no exception. *)
Definition np_div (x y : float) : float := SFdiv 53 1024 x y.

Definition opt_float (o : option float) : pyval :=
  match o with Some x => PyFloat x | None => PyNone end.

(** The fields of a summary the scans read. *)
Record summary : Type := Summary {
  n_waveforms : Z; threshold_charge : option float; signal_fraction : option float;
  balance_error : option float; pedestal_mean : option float; pedestal_sigma : option float;
  signal_mean : option float; snr_estimate : option float }.

(** [float(np.mean(selected))] of booleans: an exact count over the size. *)
Definition fraction (count size : Z) : float := np_div (f_of_Z count) (f_of_Z size).

(** [summarize_charge_vs_pedestal] *)
Definition summarize_charge_vs_pedestal `{Numpy} (charges pedestal_charges : list float)
    (target_signal_fraction threshold_sigma threshold_quantile : float) : summary :=
  let n := Z.of_nat (length charges) in
  if (length charges =? 0)%nat || (length pedestal_charges =? 0)%nat
  then Summary n None None None None None None None
  else
    let ped_median := np_median pedestal_charges in
    let ped_mean := np_mean pedestal_charges in
    let ped_mad := np_median ((fun x => f_abs (f_sub x ped_median)) <$> pedestal_charges) in
    let ped_sigma := py_max (f_dec 1 (-12)) (f_mul (f_dec 14826 (-4)) ped_mad) in
    let q_hi := np_quantile pedestal_charges
                  (py_min (py_max threshold_quantile (f_dec 5 (-1))) (f_dec 9999 (-4))) in
    let threshold := py_max (f_add ped_median (f_mul threshold_sigma ped_sigma)) q_hi in
    let selected := filter (fun x => f_ltb threshold x = true) charges in
    let signal_fraction := fraction (Z.of_nat (length selected)) n in
    let balance_error := f_abs (f_sub signal_fraction target_signal_fraction) in
    let '(signal_mean, snr_estimate) :=
      match selected with
      | [] => (None, None)
      | _ =>
          let m := np_mean selected in
          let denom := np_hypot ped_sigma (np_std selected) in
          (Some m, if f_ltb f_zero denom then Some (np_div (f_sub m ped_mean) denom) else None)
      end in
    Summary n (Some threshold) (Some signal_fraction) (Some balance_error) (Some ped_mean)
      (Some ped_sigma) signal_mean snr_estimate.

Definition summary_dict (s : summary) : list (string * pyval) :=
  [("n_waveforms", PyInt (n_waveforms s)); ("threshold_charge", opt_float (threshold_charge s));
   ("signal_fraction", opt_float (signal_fraction s)); ("balance_error", opt_float (balance_error s));
   ("pedestal_mean", opt_float (pedestal_mean s)); ("pedestal_sigma", opt_float (pedestal_sigma s));
   ("signal_mean", opt_float (signal_mean s)); ("snr_estimate", opt_float (snr_estimate s));
   ("threshold_source", PyStr "pedestal_ref")].

(** ** The running monitor *)

Record monitor : Type := Monitor {
  m_channels : list Z; m_n_samples : Z; m_windows : gmap Z ChargeWindow; m_history : Z;
  m_hist_bins : Z; m_clip_negative : bool; m_series : gmap Z (list float) }.

(** [FixedWindowChargeMonitor.__init__] *)
Definition new_monitor (channels : list Z) (n_samples : Z) (windows : gmap Z ChargeWindow)
    (history hist_bins : Z) (clip_negative : bool) : result monitor :=
  match filter (fun ch => windows !! ch = None) channels with
  | [] => Ok (Monitor channels n_samples windows (Z.max 16 history) (Z.max 8 hist_bins)
                clip_negative (list_to_map ((fun ch => (ch, [])) <$> channels)))
  | missing => Raise (value_error ("Missing charge windows for channels: ["
                                   +:+ join ", " (str_Z <$> missing) +:+ "]"))
  end.

(** [deque.append] with a [maxlen] *)
Definition deque_append (maxlen : Z) (x : float) (l : list float) : list float :=
  let l' := l ++ [x] in drop (length l' - Z.to_nat maxlen) l'.

Definition set_series (m : monitor) (s : gmap Z (list float)) : monitor :=
  Monitor (m_channels m) (m_n_samples m) (m_windows m) (m_history m) (m_hist_bins m)
    (m_clip_negative m) s.

(** One channel of [update]: its row of the frame. *)
Definition update_channel `{Numpy} (item : Z * list Z) : M monitor (Z * float) :=
  let '(ch, r) := item in
  m <- get ;;
  w <- match m_windows m !! ch with
       | Some w => ret w
       | None => raise (Exn KeyError (str_Z ch))
       end ;;
  qs <- lift (compute_charge (Waves (m_n_samples m) [r]) (integrate_start w) (integrate_stop w)
                (baseline_start w) (baseline_stop w) (m_clip_negative m)) ;;
  q <- match qs with
       | q :: _ => ret q
       | [] => raise (Exn IndexError "index 0 is out of bounds for axis 0 with size 0")
       end ;;
  modify (fun m => set_series m
    (<[ch := deque_append (m_history m) q (default [] (m_series m !! ch))]> (m_series m))) ;;;
  ret (ch, q).

(** [update]: the latest charges; the windows it also returns are those of the state. *)
Definition update `{Numpy} (yk : waves) : M monitor (list (Z * float)) :=
  m <- get ;;
  if negb (Nat.eqb (length (rows yk)) (length (m_channels m))) || negb (cols yk =? m_n_samples m)
  then raise (value_error "Invalid waveform frame shape")
  else map_m update_channel (zip (m_channels m) (rows yk)).

Definition history_for_channel (m : monitor) (ch : Z) : result (list float) :=
  match m_series m !! ch with
  | Some l => Ok l
  | None => Raise (Exn KeyError (str_Z ch))
  end.

(** The smallest and the largest of a non-empty list. *)
Definition np_min (l : list float) : float :=
  match l with x :: t => foldl (fun a b => if is_nan a then a else if is_nan b then b
                                           else if f_ltb b a then b else a) x t
             | [] => S754_nan end.
Definition np_max (l : list float) : float :=
  match l with x :: t => foldl (fun a b => if is_nan a then a else if is_nan b then b
                                           else if f_ltb a b then b else a) x t
             | [] => S754_nan end.

(** [0.5 * (edges[:-1] + edges[1:])] *)
Definition centers (edges : list float) : list float :=
  zip_with (fun a b => f_mul (f_dec 5 (-1)) (f_add a b)) edges (drop 1 edges).

(** [histogram_series]: one binning for all the channels that have a history. *)
Definition histogram_series `{Numpy} (m : monitor)
    : result (list (Z * (list float * list Z))) :=
  histories <-! rmap (fun ch => h <-! history_for_channel m ch ;; Ok (ch, h)) (m_channels m) ;;
  let non_empty := filter (fun ch => snd ch <> []) histories in
  match non_empty with
  | [] => Ok []
  | _ =>
      let combined := mjoin (snd <$> non_empty) in
      let lo := np_min combined in
      let hi := if f_leb (np_max combined) lo then f_add lo (f_of_Z 1) else np_max combined in
      let edges := np_linspace lo hi (m_hist_bins m + 1) in
      Ok ((fun ch => (fst ch, (centers edges, np_histogram (snd ch) edges))) <$> non_empty)
  end.

(** ** Lemmas *)

Lemma normalize_bounds_spec n start stop lo hi :
  0 <= n -> normalize_bounds n start stop = (lo, hi) -> 0 <= lo <= hi /\ hi <= n.
Proof.
  unfold normalize_bounds. intros Hn. destruct start as [a|], stop as [b|];
    case Z.ltb_spec; intros ? [= <- <-]; lia.
Qed.

Lemma view_int16_wrap v : - 2 ^ 15 <= v < 2 ^ 15 -> view_int16 (v mod 2 ^ 16) = v.
Proof.
  intros Hv. unfold view_int16. destruct (Z.ltb_spec v 0).
  - replace (v mod 2 ^ 16) with (v + 2 ^ 16); [case Z.ltb_spec; lia|].
    apply (Z.mod_unique_pos _ _ (-1)); lia.
  - rewrite Z.mod_small by lia. case Z.ltb_spec; lia.
Qed.

Lemma view_to_u16 l :
  Forall (fun v => - 2 ^ 15 <= v < 2 ^ 15) l -> view_int16 <$> to_u16 l = l.
Proof.
  unfold to_u16. induction 1 as [|v l Hv Hl IH]; [done|]. cbn [fmap list_fmap]. f_equal; [|exact IH].
  by apply view_int16_wrap.
Qed.

Lemma reshape_all (k n : nat) (l : list Z) : length l = (k * n)%nat -> mjoin (reshape k n l) = l /\
  length (reshape k n l) = k /\ Forall (fun r => length r = n) (reshape k n l).
Proof.
  revert l. induction k as [|k IH]; intros l Hl; cbn [reshape]; [by destruct l|].
  destruct (IH (drop n l)) as (Hj & Hk & Hr); [rewrite length_drop; lia|]. split_and!.
  - change (take n l ++ mjoin (reshape k n (drop n l)) = l). by rewrite Hj, take_drop.
  - cbn. by rewrite Hk.
  - constructor; [rewrite length_take; lia|done].
Qed.

Lemma reshape_join n rs rest :
  Forall (fun r => length r = n) rs -> reshape (length rs) n (mjoin rs ++ rest) = rs.
Proof.
  induction 1 as [|r rs Hr Hrs IH]; [done|]. change (mjoin (r :: rs)) with (r ++ mjoin rs).
  cbn [reshape length]. rewrite <- app_assoc, take_app_length', drop_app_length' by done. by rewrite IH.
Qed.

Lemma join_length (n : nat) (rs : list (list Z)) :
  Forall (fun r => length r = n) rs -> length (mjoin rs) = (length rs * n)%nat.
Proof.
  induction 1 as [|r rs Hr Hrs IH]; [done|]. change (mjoin (r :: rs)) with (r ++ mjoin rs).
  rewrite length_app, Hr, IH. cbn. lia.
Qed.

(** What the acquisition saves is what the analysis loads: a channel file that holds the
    samples of some waveforms as 16-bit words is read back, signed, as exactly those waveforms,
    or as the first [max_waves] of them when that is positive. *)
Theorem load_channel_waves_saved path rs n max_waves :
  (0 < n)%nat -> Forall (fun r => length r = n) rs ->
  Forall (Forall (fun v => - 2 ^ 15 <= v < 2 ^ 15)) rs ->
  load_channel_waves path (Ok (to_u16 (mjoin rs))) (Z.of_nat n) max_waves "signed" =
  Ok (Waves (Z.of_nat n) (if max_waves <=? 0 then rs else take (Z.to_nat max_waves) rs)).
Proof.
  intros Hn Hlen Hrange. unfold load_channel_waves. cbn [rbind].
  destruct (Z.eqb_spec (Z.of_nat n) 0); [lia|].
  assert (Hsize : Z.of_nat (length (to_u16 (mjoin rs))) = Z.of_nat (length rs) * Z.of_nat n).
  { unfold to_u16. rewrite length_fmap, (join_length n) by done. lia. }
  rewrite Hsize, Z.mod_mul, Z.div_mul by lia. cbn [negb Z.eqb].
  rewrite decide_True by done. cbn [rbind]. destruct (Z.ltb_spec (Z.of_nat n) 0); [lia|].
  rewrite view_to_u16 by (by apply Forall_join). do 2 f_equal.
  set (k := if max_waves <=? 0 then length rs else Nat.min (length rs) (Z.to_nat max_waves)).
  assert (Hk : (if max_waves <=? 0 then Z.of_nat (length rs)
                else Z.min (Z.of_nat (length rs)) max_waves) = Z.of_nat k).
  { unfold k. destruct (Z.leb_spec max_waves 0); lia. }
  rewrite Hk. clear Hk.
  assert (Htake : (if max_waves <=? 0 then rs else take (Z.to_nat max_waves) rs) = take k rs).
  { unfold k. destruct (max_waves <=? 0); [by rewrite firstn_all|].
    destruct (Nat.le_ge_cases (Z.to_nat max_waves) (length rs)) as [Hle|Hge].
    - by rewrite Nat.min_r.
    - rewrite Nat.min_l by done. rewrite firstn_all. by rewrite take_ge. }
  rewrite Htake.
  assert (Hkl : (k <= length rs)%nat) by (unfold k; destruct (max_waves <=? 0); lia).
  rewrite <- (take_drop k rs) at 1. rewrite join_app.
  replace (Z.to_nat (Z.of_nat k * Z.of_nat n)) with (k * n)%nat by lia.
  rewrite !Nat2Z.id.
  assert (Hl : length (mjoin (take k rs)) = (k * n)%nat).
  { rewrite (join_length n) by (by apply Forall_take). rewrite length_take. by rewrite Nat.min_l. }
  rewrite <- Hl, take_app_length, <- (app_nil_r (mjoin (take k rs))).
  replace k with (length (take k rs)) at 1 by (rewrite length_take; lia).
  apply reshape_join. by apply Forall_take.
Qed.

Lemma load_channel_waves_saved_witness :
  load_channel_waves "channel_4.dat" (Ok (to_u16 (mjoin [[8000; -3; 5]; [-32768; 0; 1]; [2; 2; 2]])))
    (Z.of_nat 3) 2 "signed" = Ok (Waves 3 [[8000; -3; 5]; [-32768; 0; 1]]).
Proof.
  apply (load_channel_waves_saved "channel_4.dat" [[8000; -3; 5]; [-32768; 0; 1]; [2; 2; 2]] 3 2).
  - lia.
  - by repeat constructor.
  - repeat constructor; lia.
Defined.

(** ** Window files *)

#[export] Instance entry_le_total {A : Type} : Total (@entry_le A).
Proof. intros a b. unfold entry_le. lia. Qed.

Lemma sorted_entries_perm {A : Type} (m : gmap Z A) : sorted_entries m ≡ₚ map_to_list m.
Proof. apply merge_sort_Permutation. Qed.

Lemma StronglySorted_filter {A : Type} (R : relation A) (Q : A -> Prop) `{!forall x, Decision (Q x)}
    (l : list A) : StronglySorted R l -> StronglySorted R (filter Q l).
Proof.
  induction 1 as [|x l Hl IH Hx]; [constructor|]. rewrite filter_cons.
  destruct (decide (Q x)); [|done]. constructor; [done|].
  apply Forall_forall. intros y [_ Hy]%list_elem_of_filter. rewrite Forall_forall in Hx. by apply Hx.
Qed.

(** The keys are strictly increasing. *)
Lemma sorted_entries_keys {A : Type} (m : gmap Z A) : StronglySorted Z.lt (fst <$> sorted_entries m).
Proof.
  apply sorted_NoDup_strict.
  - apply (StronglySorted_fmap fst entry_le); [done|].
    apply StronglySorted_merge_sort; [|apply _]. intros a b c. unfold entry_le. lia.
  - rewrite sorted_entries_perm. apply NoDup_fst_map_to_list.
Qed.

Lemma elem_of_sorted_entries {A : Type} (m : gmap Z A) k v :
  (k, v) ∈ sorted_entries m <-> m !! k = Some v.
Proof. rewrite sorted_entries_perm. apply elem_of_map_to_list. Qed.

Lemma lookup_key_field (d : list (string * pyval)) k v :
  lookup_key d k = Some v -> item (PyDict d) k = Ok v /\ forall dflt, dict_get (PyDict d) k dflt = Ok v.
Proof. intros Hk. cbn. by rewrite Hk. Qed.

Lemma load_saved_window out c w :
  channel w = c ->
  load_window out (str_Z c, PyDict (as_dict w)) = Ok (<[c := w]> out).
Proof. intros <-. by destruct w. Qed.

(** A window file is read back as it was saved, whatever its metadata. *)
Theorem charge_windows_roundtrip windows metadata :
  map_Forall (fun ch w => channel w = ch) windows ->
  load_charge_windows (Ok (save_charge_windows windows metadata)) = Ok windows.
Proof.
  intros Hch. unfold load_charge_windows, save_charge_windows. cbn [rbind dict_get lookup_key find].
  cbn [fst snd bool_decide fmap option_fmap option_map].
  change (default _ _) with (PyDict ((fun cw => (str_Z (fst cw), PyDict (as_dict (snd cw))))
    <$> sorted_entries windows)). cbn [rbind items_of].
  assert (Hgen : forall l out, Forall (fun cw => channel (snd cw) = fst cw) l ->
    rfold load_window ((fun cw => (str_Z (fst cw), PyDict (as_dict (snd cw)))) <$> l) out
    = Ok (foldl (fun m cw => <[fst cw := snd cw]> m) out l)).
  { induction l as [|[c w] l IH]; intros out Hl; [done|]. apply Forall_cons in Hl as [Hc Hl].
    cbn [fmap list_fmap rfold fst snd]. rewrite load_saved_window by done. cbn [rbind].
    by apply IH. }
  rewrite Hgen.
  - f_equal. rewrite <- (list_to_map_to_list windows).
    assert (Hfold : forall l (m : gmap Z ChargeWindow), NoDup (fst <$> l) ->
      foldl (fun m cw => <[fst cw := snd cw]> m) m l = list_to_map l ∪ m).
    { induction l as [|[c w] l IH]; intros m Hnd; cbn; [by rewrite map_empty_union|].
      apply NoDup_cons in Hnd as [Hout Hnd]. rewrite IH by done.
      rewrite <- insert_union_r; [by rewrite insert_union_l|].
      by apply not_elem_of_list_to_map_1. }
    rewrite Hfold.
    + rewrite map_union_empty. apply list_to_map_proper; [|].
      * rewrite sorted_entries_perm. apply NoDup_fst_map_to_list.
      * by rewrite sorted_entries_perm, list_to_map_to_list.
    + rewrite sorted_entries_perm. apply NoDup_fst_map_to_list.
  - rewrite sorted_entries_perm. apply Forall_forall. intros [c w] Hin%elem_of_map_to_list.
    by apply Hch.
Qed.

Definition example_window : ChargeWindow := Window 4 0 100 96 220 101 110 106 122.

Lemma charge_windows_roundtrip_witness :
  load_charge_windows (Ok (save_charge_windows {[ 4 := example_window ]} [("source", PyStr "x")])) =
  Ok {[ 4 := example_window ]}.
Proof.
  apply (charge_windows_roundtrip {[ 4 := example_window ]} [("source", PyStr "x")]).
  apply map_Forall_singleton. reflexivity.
Defined.

(** ** Calibration *)

(** Maxima of floats. *)

Lemma f_ltb_some x y : f_ltb x y = true ->
  exists a b, f_key x = Some a /\ f_key y = Some b /\ key_lt a b.
Proof.
  intros H. destruct (f_key x) as [a|] eqn:Ha; [destruct (f_key y) as [b|] eqn:Hb|].
  - exists a, b. split_and!; [done..|]. by apply (f_ltb_key x y a b).
  - unfold f_ltb in H. rewrite f_compare_key, Ha, Hb in H. by destruct a as [[? ?] ?].
  - unfold f_ltb in H. by rewrite f_compare_key, Ha in H.
Qed.

Lemma f_ltb_trans x y z : f_ltb x y = true -> f_ltb y z = true -> f_ltb x z = true.
Proof.
  intros (a & b & Ha & Hb & Hab)%f_ltb_some (b' & c & Hb' & Hc & Hbc)%f_ltb_some.
  assert (b' = b) as -> by congruence. apply (f_ltb_key x z a c Ha Hc). by eapply key_lt_trans.
Qed.

Lemma f_ltb_irrefl x : f_ltb x x = false.
Proof.
  destruct (f_ltb x x) eqn:H; [|done]. apply f_ltb_some in H as (a & b & Ha & Hb & H).
  assert (b = a) as -> by congruence. by apply key_lt_irrefl in H.
Qed.

Lemma nan_not_less x y : is_nan x = true -> f_ltb x y = false.
Proof. by destruct x. Qed.

(** A larger maximum keeps what the smaller one was not below. *)
Lemma f_ltb_above best y x : f_ltb best y = true -> f_ltb best x = false -> f_ltb y x = false.
Proof.
  intros H1 H2. destruct (f_ltb y x) eqn:H3; [|done]. by rewrite (f_ltb_trans _ _ _ H1 H3) in H2.
Qed.

Lemma argmax_from_max all seen l best at_ :
  all = seen ++ l -> all !! at_ = Some best -> Forall (fun x => f_ltb best x = false) seen ->
  exists v, all !! argmax_from best at_ (length seen) l = Some v /\
    Forall (fun x => f_ltb v x = false) all.
Proof.
  revert seen best at_. induction l as [|x l IH]; intros seen best at_ Hall Hat Hseen; cbn [argmax_from].
  - exists best. split; [done|]. by rewrite Hall, app_nil_r.
  - assert (Hx : all !! length seen = Some x) by (by rewrite Hall, list_lookup_middle).
    assert (Hall' : all = (seen ++ [x]) ++ l) by (by rewrite <- app_assoc).
    replace (S (length seen)) with (length (seen ++ [x])) by (rewrite length_app; cbn; lia).
    destruct (negb (is_nan best) && (is_nan x || f_ltb best x)) eqn:Hc; apply IH; try done.
    + apply andb_prop in Hc as [_ Hc]. apply Forall_app. split.
      * eapply Forall_impl; [exact Hseen|]. cbn. intros y Hy.
        apply orb_prop in Hc as [Hn|Hlt]; [by apply nan_not_less|by eapply f_ltb_above].
      * apply Forall_singleton, f_ltb_irrefl.
    + apply Forall_app. split; [done|]. apply Forall_singleton.
      destruct (is_nan best) eqn:Hn; [by apply nan_not_less|].
      by destruct (orb_false_elim _ _ Hc).
Qed.

(** Nothing is above what [np.argmax] finds. *)
Lemma argmax_max l k : argmax l = Ok k ->
  exists v, l !! k = Some v /\ Forall (fun x => f_ltb v x = false) l.
Proof.
  destruct l as [|x l]; [done|]. intros [= <-].
  apply (argmax_from_max (x :: l) [x] l x 0); [done..|]. apply Forall_singleton, f_ltb_irrefl.
Qed.

Lemma argmax_from_bound best at_ i l : (at_ < i)%nat -> (argmax_from best at_ i l < i + length l)%nat.
Proof.
  revert best at_ i. induction l as [|x l IH]; intros best at_ i Hi; cbn; [lia|].
  destruct (_ && _); [specialize (IH x i (S i) ltac:(lia))|specialize (IH best at_ (S i) ltac:(lia))];
    lia.
Qed.

Lemma argmax_bound l k : argmax l = Ok k -> (k < length l)%nat.
Proof.
  destruct l as [|x l]; [done|]. intros [= <-]. pose proof (argmax_from_bound x 0 1 l ltac:(lia)).
  cbn. lia.
Qed.

Lemma slice_length {A : Type} lo hi (l : list A) :
  0 <= lo <= hi -> hi <= Z.of_nat (length l) -> length (slice lo hi l) = Z.to_nat (hi - lo).
Proof. intros H1 H2. unfold slice. rewrite length_take, length_drop. lia. Qed.

Lemma differences_length l : length (differences l) = length l.
Proof. destruct l as [|x l]; [done|]. unfold differences. rewrite length_zip_with. cbn. lia. Qed.

(** A window as the charge computation uses it: inside the record, the integration not empty.
    The end is one past the record only when the start is at its end. *)
Definition window_ok (n : Z) (w : ChargeWindow) : Prop :=
  0 <= integrate_start w <= n /\ integrate_start w < integrate_stop w <= n + 1 /\
  (integrate_start w < n -> integrate_stop w <= n).

(** A calibrated window lies inside the record: baseline and search regions are not empty,
    the peak and the onset lie in the search region, every sample before the onset is below the
    threshold (a fraction of the peak between 1% and 95%) or the threshold is never reached,
    the amplitude is not zero or negative, and the integration is not empty.  Moving the window
    to another anchor keeps all of it but the integration, which again is inside the record. *)
Theorem calibrated_window_ok `{Numpy} mean_wf ch b0 b1 s0 s1 fr off len w :
  calibrate_window_from_mean mean_wf ch b0 b1 s0 s1 fr off len = Ok w ->
  let n := Z.of_nat (length mean_wf) in
  channel w = ch /\ window_ok n w /\
  0 <= baseline_start w < baseline_stop w /\ baseline_stop w <= n /\
  0 <= search_start w /\ search_stop w <= n /\
  search_start w <= peak_index w < search_stop w /\
  search_start w <= onset_index w < search_stop w /\
  (exists baseline amplitude threshold,
     let signal := (fun x => f_sub x baseline) <$> slice (search_start w) (search_stop w) mean_wf in
     signal !! Z.to_nat (peak_index w - search_start w) = Some amplitude /\
     f_leb amplitude f_zero = false /\
     threshold = f_mul amplitude (py_min (py_max fr (f_decimal false 1 (-2)))
                                         (f_decimal false 95 (-2))) /\
     (Forall (fun x => f_leb threshold x <> true) signal \/
      (exists x, signal !! Z.to_nat (onset_index w - search_start w) = Some x /\
                 f_leb threshold x = true) /\
      forall j y, signal !! j = Some y -> search_start w + Z.of_nat j < onset_index w ->
        f_leb threshold y <> true)) /\
  forall anchor pre post w', reanchor_charge_window w n anchor pre post = Ok w' ->
    window_ok n w' /\ w' = with_integration w (integrate_start w') (integrate_stop w').
Proof.
  unfold calibrate_window_from_mean. set (n := Z.of_nat (length mean_wf)).
  destruct (normalize_bounds n (Some b0) (Some b1)) as [blo bhi] eqn:Hb.
  destruct (normalize_bounds n (Some s0) (Some s1)) as [slo shi] eqn:Hs.
  apply normalize_bounds_spec in Hb as [Hb Hbn]; [|lia].
  apply normalize_bounds_spec in Hs as [Hs Hsn]; [|lia].
  destruct (Z.leb_spec bhi blo) as [|Hblt]; [done|].
  destruct (Z.leb_spec shi slo) as [|Hslt]; [done|].
  destruct (Z.leb_spec len 0); [done|].
  set (bl := np_mean _). set (sig := _ <$> slice slo shi mean_wf). intros Hrun.
  assert (Hlen : length sig = Z.to_nat (shi - slo)).
  { unfold sig. rewrite length_fmap. apply slice_length; lia. }
  apply rbind_ok in Hrun as (pk & Hpk%argmax_bound & Hrun).
  destruct (lookup_lt_is_Some_2 sig pk Hpk) as [amp Hamp]. rewrite Hamp in Hrun.
  change (default f_zero (Some amp)) with amp in Hrun.
  destruct (f_leb amp f_zero) eqn:Ha; [done|].
  set (thr := f_mul amp _) in *.
  apply rbind_ok in Hrun as (onset & Honset & [= <-]). cbn.
  assert (Hon : slo <= onset < shi /\
    (Forall (fun x => f_leb thr x <> true) sig \/
     (exists x, sig !! Z.to_nat (onset - slo) = Some x /\ f_leb thr x = true) /\
     forall j y, sig !! j = Some y -> slo + Z.of_nat j < onset -> f_leb thr y <> true)).
  { destruct (list_find _ sig) as [[i x]|] eqn:Hf.
    - injection Honset as <-. apply list_find_Some in Hf as (Hi & Hx & Hbefore).
      pose proof (lookup_lt_Some _ _ _ Hi). split; [lia|]. right.
      replace (Z.to_nat (slo + Z.of_nat i - slo)) with i by lia. split; [by exists x|].
      intros j y Hj Hlt. apply (Hbefore j y Hj). lia.
    - apply rbind_ok in Honset as (d & Hd%argmax_bound & [= <-]).
      rewrite differences_length in Hd. split; [lia|]. left.
      apply list_find_None in Hf. exact Hf. }
  destruct Hon as [Hon1 Hon2].
  unfold window_ok. cbn. split_and!; try lia; try done.
  - exists bl, amp, thr. replace (Z.to_nat (slo + Z.of_nat pk - slo)) with pk by lia.
    by split_and!.
  - intros anchor pre post w' Hre. unfold reanchor_charge_window in Hre. cbn in Hre.
    apply rbind_ok in Hre as (ai & _ & [= <-]). unfold with_integration; cbn. split; [lia|done].
Qed.

(** Sums from the left, for the examples. *)
Definition plain_sum (l : list float) : float := foldl f_add f_zero l.
Definition plain_mean (l : list float) : float := np_div (plain_sum l) (f_of_Z (Z.of_nat (length l))).

#[local] Instance plain_numpy : Numpy := {
  np_sum := plain_sum; np_mean := plain_mean; np_std := fun _ => f_zero;
  np_median := fun l => default f_zero (l !! (length l / 2)%nat);
  np_quantile := fun l _ => default f_zero (last l); np_hypot := f_add;
  np_linspace := fun a b n => (fun k => f_add a (np_div (f_mul (f_of_Z k) (f_sub b a))
                                                    (f_of_Z (n - 1)))) <$> seqZ 0 n;
  np_histogram := fun l edges => (fun _ => Z.of_nat (length l)) <$> drop 1 edges }.

Definition example_pulse : list float :=
  f_of_Z <$> [100; 100; 101; 99; 100; 100; 150; 400; 700; 500; 200; 120].

Lemma calibrated_window_ok_witness :
  calibrate_window_from_mean example_pulse 4 0 5 4 12 (f_decimal false 2 (-1)) (-1) 6
    = Ok (Window 4 0 5 4 12 7 8 6 12) /\
  window_ok 12 (Window 4 0 5 4 12 7 8 6 12).
Proof.
  assert (Hc : calibrate_window_from_mean example_pulse 4 0 5 4 12 (f_decimal false 2 (-1)) (-1) 6
    = Ok (Window 4 0 5 4 12 7 8 6 12)) by (vm_compute; reflexivity).
  split; [exact Hc|]. exact (proj1 (proj2 (calibrated_window_ok _ _ _ _ _ _ _ _ _ _ Hc))).
Defined.

(** ** Pedestals *)

(** The window of the pedestal charge never starts before the baseline or ends after the
    record and is not longer than the charge window.  It ends with the baseline when the
    baseline is at least as long as the charge window; a shorter baseline is exceeded. *)
Theorem pedestal_window_correct w n a b :
  pedestal_window_for_charge w n None = Ok (a, b) ->
  let len := integrate_stop w - integrate_start w in
  0 < len /\ baseline_start w <= a < b /\ b <= n /\ b - a <= len /\
  (baseline_stop w <= n -> len <= baseline_stop w - baseline_start w ->
     b = baseline_stop w /\ b - a = len) /\
  (baseline_stop w - baseline_start w < len -> a = baseline_start w /\ b = Z.min n (a + len)).
Proof.
  unfold pedestal_window_for_charge. cbn [default].
  change (default ?x None) with x. cbv zeta.
  case Z.leb_spec; [done|]. intros Hlen. case Z.leb_spec; [done|]. intros Hab [= <- <-]. lia.
Qed.

Lemma pedestal_window_correct_witness :
  pedestal_window_for_charge example_window 2048 None = Ok (84, 100) /\
  0 < integrate_stop example_window - integrate_start example_window /\
  baseline_start example_window <= 84 < 100.
Proof.
  assert (H : pedestal_window_for_charge example_window 2048 None = Ok (84, 100)) by reflexivity.
  split; [exact H|]. destruct (pedestal_window_correct example_window 2048 84 100 H) as (? & ? & _).
  by split.
Defined.

(** A baseline shorter than the window: the pedestal window reaches into the pulse. *)
Example pedestal_covers_pulse :
  pedestal_window_for_charge (Window 4 0 10 8 40 12 15 11 31) 2048 None = Ok (0, 20).
Proof. reflexivity. Qed.

(** ** The running monitor *)

(** The last [k] elements. *)
Definition last_n {A : Type} (k : Z) (l : list A) : list A := drop (length l - Z.to_nat k) l.

Lemma last_n_length {A : Type} k (l : list A) : (length (last_n k l) <= Z.to_nat k)%nat.
Proof. unfold last_n. rewrite length_drop. lia. Qed.

Lemma last_n_app {A : Type} k (l1 l2 : list A) : last_n k (last_n k l1 ++ l2) = last_n k (l1 ++ l2).
Proof.
  unfold last_n. rewrite !length_app, length_drop.
  destruct (Nat.le_gt_cases (length l1) (Z.to_nat k)) as [Hle|Hgt].
  - replace (length l1 - Z.to_nat k)%nat with 0%nat by lia. by rewrite drop_0, Nat.sub_0_r.
  - rewrite <- drop_app_le by lia. rewrite drop_drop. f_equal. lia.
Qed.

Section monitor.
Context `{Numpy}.

(** What stays of a monitor. *)
Definition same_setup (m m' : monitor) : Prop := m' = set_series m (m_series m').

(** The charge of a channel in a row of samples. *)
Definition charge_of (m : monitor) (ch : Z) (r : list Z) (q : float) : Prop :=
  exists w rest, m_windows m !! ch = Some w /\
    compute_charge (Waves (m_n_samples m) [r]) (integrate_start w) (integrate_stop w)
      (baseline_start w) (baseline_stop w) (m_clip_negative m) = Ok (q :: rest).

Definition history (m : monitor) (ch : Z) : list float := default [] (m_series m !! ch).

Definition bounded (m : monitor) : Prop :=
  forall ch, (length (history m ch) <= Z.to_nat (m_history m))%nat.

(** The charges of a channel. *)
Definition of_channel (ch : Z) (kqs : list (Z * float)) : list float :=
  snd <$> filter (fun kq => fst kq = ch) kqs.

Lemma last_n_id {A : Type} k (l : list A) : (length l <= Z.to_nat k)%nat -> last_n k l = l.
Proof using Type. intros Hl. unfold last_n. by replace (length l - Z.to_nat k)%nat with 0%nat by lia. Qed.

Lemma update_channel_ok ch r m kq m' :
  update_channel (ch, r) m = (Ok kq, m') ->
  fst kq = ch /\ charge_of m ch r (snd kq) /\
  m' = set_series m (<[ch := last_n (m_history m) (history m ch ++ [snd kq])]> (m_series m)).
Proof using Type.
  unfold update_channel, charge_of, bind, get. intros Hrun.
  destruct (m_windows m !! ch) as [w|]; [|done]. cbn [ret] in Hrun. unfold lift in Hrun.
  destruct (compute_charge _ _ _ _ _ _) as [[|q qs]|] eqn:Hq; cbn in Hrun; try discriminate.
  injection Hrun as <- <-. cbn. split_and!; [done| |done]. by exists w, qs.
Qed.

(** One frame. *)
Lemma update_channels_ok items m kqs m' :
  map_m update_channel items m = (Ok kqs, m') -> bounded m ->
  m' = set_series m (m_series m') /\ bounded m' /\
  Forall2 (fun it kq => fst kq = fst it /\ charge_of m (fst it) (snd it) (snd kq)) items kqs /\
  (forall ch, history m' ch = last_n (m_history m) (history m ch ++ of_channel ch kqs)).
Proof using Type.
  revert m kqs. induction items as [|[ch r] items IH]; intros m kqs Hrun Hb; cbn [map_m] in Hrun.
  - injection Hrun as <- <-. split_and!; [by destruct m|done|constructor|].
    intros ch. cbn. by rewrite app_nil_r, last_n_id.
  - inv_bind Hrun. apply update_channel_ok in Hrun0 as (Hch & Hq & Hm1). inv_bind Hrun.
    injection Hrun as <- ->. destruct a as [k q]. cbn in Hch, Hq, Hm1. subst k.
    assert (Hh : forall c, history w c = if decide (c = ch)
      then last_n (m_history m) (history m ch ++ [q]) else history m c).
    { intros c. rewrite Hm1. unfold history. cbn. destruct (decide (c = ch)) as [->|Hne].
      - by rewrite lookup_insert_eq.
      - by rewrite lookup_insert_ne. }
    assert (Hbw : bounded w).
    { intros c. rewrite Hh, Hm1. cbn. destruct (decide (c = ch)); [apply last_n_length|apply Hb]. }
    destruct (IH w a0 Hrun0 Hbw) as (Hs & Hb' & Hall & Hhist).
    split_and!; [by rewrite Hs, Hm1|done| |].
    + constructor; [done|]. eapply Forall2_impl; [exact Hall|]. intros it kq. by rewrite Hm1.
    + intros c. rewrite Hhist, Hh. replace (m_history w) with (m_history m) by (by rewrite Hm1).
      unfold of_channel. rewrite filter_cons. cbn [fst].
      destruct (decide (c = ch)) as [->|Hne].
      * rewrite decide_True by done. cbn [fmap list_fmap snd].
        rewrite last_n_app, <- app_assoc. done.
      * by rewrite decide_False by congruence.
Qed.

(** The histories of the charge monitor: after any number of frames that were accepted,
    the history of each channel is its latest charges, oldest first, at most the configured
    number of them; what was configured has not changed, and each charge that was returned is
    the charge of its channel in its row of the frame. *)
Theorem monitor_histories frames m outs m' :
  map_m update frames m = (Ok outs, m') -> bounded m ->
  m' = set_series m (m_series m') /\ bounded m' /\
  (forall ch, history m' ch = last_n (m_history m) (history m ch ++ of_channel ch (mjoin outs))) /\
  Forall2 (fun yk kqs =>
    Forall2 (fun it kq => fst kq = fst it /\ charge_of m (fst it) (snd it) (snd kq))
      (zip (m_channels m) (rows yk)) kqs) frames outs.
Proof using Type.
  revert m outs. induction frames as [|yk frames IH]; intros m outs Hrun Hb; cbn [map_m] in Hrun.
  - injection Hrun as <- <-. split_and!; [by destruct m|done| |constructor].
    intros ch. cbn. by rewrite app_nil_r, last_n_id.
  - inv_bind Hrun. unfold update in Hrun0. inv_bind Hrun0. unfold get in Hrun1.
    injection Hrun1 as <- <-. destruct (_ || _); [done|].
    apply update_channels_ok in Hrun0 as (Hs & Hbw & Hall & Hh); [|done].
    inv_bind Hrun. injection Hrun as <- ->.
    destruct (IH w a0 Hrun0 Hbw) as (Hs' & Hb' & Hh' & Hall').
    split_and!; [by rewrite Hs', Hs|done| |].
    + intros ch. rewrite Hh', Hh. replace (m_history w) with (m_history m) by (by rewrite Hs).
      rewrite last_n_app. change (mjoin (a :: a0)) with (a ++ mjoin a0).
      unfold of_channel. by rewrite filter_app, fmap_app, app_assoc.
    + constructor; [done|]. eapply Forall2_impl; [exact Hall'|]. intros yk' kqs. by rewrite Hs.
Qed.

End monitor.

Definition example_monitor : monitor :=
  match new_monitor [4] 6 {[ 4 := Window 4 0 2 2 6 2 3 2 5 ]} 0 0 false with
  | Ok m => m
  | Raise _ => Monitor [] 0 ∅ 0 0 false ∅
  end.

Definition example_frame : waves := Waves 6 [[10; 10; 30; 50; 20; 10]].

Lemma monitor_histories_witness :
  exists outs m', map_m update [example_frame; example_frame] example_monitor = (Ok outs, m') /\
    bounded m' /\ length (history m' 4) = 2%nat.
Proof.
  assert (Hpair : forall (A C : Type) (p : A * C) a, fst p = a -> p = (a, snd p))
    by (by intros A C [x y] a <-).
  assert (Hb : bounded example_monitor).
  { intros ch. assert (Hh : history example_monitor ch = []); [|by rewrite Hh; cbn; lia].
    unfold history. change (m_series example_monitor) with ({[ 4 := [] ]} : gmap Z (list float)).
    destruct (decide (ch = 4)) as [->|Hne]; [by rewrite lookup_singleton_eq|].
    by rewrite lookup_singleton_ne. }
  eexists _, _. split; [apply Hpair; vm_compute; reflexivity|]. split; [|vm_compute; reflexivity].
  apply (monitor_histories [example_frame; example_frame] example_monitor _ _
           (Hpair _ _ _ _ eq_refl) Hb).
Defined.
