(* ===== verification/IntensityScan.v ===== *)
(** The LED intensity scan: [client/dynamic_range_led/scan_led_intensity_charge.py]. *)
From S2P Require Import Prelude PyStr PyFloat PyVal JsonText ChannelSpec FeConfig FeMain.
From S2P Require Import ScanRuntime ChargeWindows.

(** ** The analysis of a point *)

(** Reading files on the machine. *)
Class Reader (P : Type) : Type := {
  read_words : P -> string -> result (list Z);
  read_doc : P -> string -> result string }.

(** What is known of a channel at a point: the document and the parts its rows use. *)
Record channel_analysis : Type := Analysis {
  an_doc : pyval; an_metrics : summary; an_window : ChargeWindow }.

(** [l[i]] with Python's negative indices. *)
Definition py_index_list {A : Type} (l : list A) (i : Z) : result A :=
  let n := Z.of_nat (length l) in
  match l !! Z.to_nat (if i <? 0 then i + n else i) with
  | Some x => if (i <? - n) then Raise (Exn IndexError "index is out of bounds") else Ok x
  | None => Raise (Exn IndexError "index is out of bounds")
  end.

(** [l[a:b]] *)
Definition py_slice {A : Type} (a b : Z) (l : list A) : list A :=
  let n := Z.of_nat (length l) in
  let clip i := Z.max 0 (Z.min n (if i <? 0 then i + n else i)) in
  slice (clip a) (Z.max (clip a) (clip b)) l.

Definition floats (l : list float) : pyval := PyList (PyFloat <$> l).

Definition analyze_channel `{Numpy} (ch : Z) (ws : waves) (win : ChargeWindow) (n_samples : Z)
    (clip_negative : bool) (target_signal_fraction : float) : result channel_analysis :=
  charges <-! compute_charge ws (integrate_start win) (integrate_stop win) (baseline_start win)
                (baseline_stop win) clip_negative ;;
  '(ped_start, ped_stop) <-! pedestal_window_for_charge win n_samples None ;;
  pedestal_charges <-! compute_charge ws ped_start ped_stop (baseline_start win)
                         (baseline_stop win) clip_negative ;;
  let metrics := summarize_charge_vs_pedestal charges pedestal_charges target_signal_fraction
                   (f_of_Z 4) (f_decimal false 995 (-3)) in
  let mean_wf := mean_waveform ws in
  peak <-! py_index_list mean_wf (peak_index win) ;;
  onset <-! py_index_list mean_wf (onset_index win) ;;
  _ <-! (if (length charges =? 0)%nat
         then Raise (value_error "zero-size array to reduction operation minimum which has no identity")
         else Ok tt) ;;
  let half := f_decimal false 5 (-1) in
  Ok (Analysis (PyDict
    [("channel", PyInt ch); ("n_waveforms", PyInt (Z.of_nat (length (rows ws))));
     ("baseline_mean", PyFloat (np_mean (py_slice (baseline_start win) (baseline_stop win) mean_wf)));
     ("mean_peak_value", PyFloat peak); ("mean_onset_value", PyFloat onset);
     ("integrate_start", PyInt (integrate_start win)); ("integrate_stop", PyInt (integrate_stop win));
     ("peak_index", PyInt (peak_index win)); ("onset_index", PyInt (onset_index win));
     ("pedestal_integrate_start", PyInt ped_start); ("pedestal_integrate_stop", PyInt ped_stop);
     ("charge_min", PyFloat (np_min charges)); ("charge_max", PyFloat (np_max charges));
     ("charge_p50", PyFloat (np_quantile charges half));
     ("charge_p90", PyFloat (np_quantile charges (f_decimal false 9 (-1))));
     ("charge_mean", PyFloat (np_mean charges)); ("charge_std", PyFloat (np_std charges));
     ("pedestal_charge_p50", PyFloat (np_quantile pedestal_charges half));
     ("pedestal_charge_std", PyFloat (np_std pedestal_charges));
     ("charges", floats charges); ("pedestal_charges", floats pedestal_charges);
     ("metrics", PyDict (summary_dict metrics))]) metrics win).

(** [windows[ch]] *)
Definition window_of (windows : gmap Z ChargeWindow) (ch : Z) : result ChargeWindow :=
  match windows !! ch with
  | Some w => Ok w
  | None => Raise (Exn KeyError (str_Z ch))
  end.

(** [analyze_raw_dir]; [read] are the files. *)
Definition analyze_raw_dir `{Numpy} (read : string -> result (list Z)) (raw_dir : string)
    (channels : list Z) (n_samples : Z) (windows : gmap Z ChargeWindow) (interpret : string)
    (max_waves : Z) (clip_negative : bool) (target_signal_fraction : float)
    : result (gmap Z channel_analysis) :=
  rfold (fun out ch =>
    let path := channel_path raw_dir ch in
    ws <-! load_channel_waves path (read path) n_samples max_waves interpret ;;
    win <-! window_of windows ch ;;
    a <-! analyze_channel ch ws win n_samples clip_negative target_signal_fraction ;;
    Ok (<[ch := a]> out)) channels ∅.

(** ** The best point of each channel *)

Definition row : Type := list (string * pyval).

Definition row_get (r : row) (k : string) (dflt : pyval) : pyval := default dflt (lookup_key r k).

(** [float(v)] *)
Definition to_float (v : pyval) : result float :=
  match v with
  | PyFloat x => Ok x
  | PyInt z => Ok (f_of_Z z)
  | PyBool b => Ok (f_of_Z (Z.b2z b))
  | PyStr s => py_float s
  | _ => Raise (type_error "float() argument must be a string or a real number")
  end.

Definition f_1e9 : float := f_of_Z 1000000000.

(** The key of a row: the balance error, then the larger signal-to-noise ratio. *)
Definition row_rank (r : row) : result (float * float) :=
  e <-! to_float (row_get r "balance_error" (PyFloat f_1e9)) ;;
  s <-! to_float (match row_get r "snr_estimate" PyNone with
                  | PyNone => PyFloat (SFopp f_1e9)
                  | v => v
                  end) ;;
  Ok (e, SFopp s).

(** [a < b] of pairs *)
Definition rank_lt (a b : float * float) : bool :=
  if f_eqb (fst a) (fst b) then f_ltb (snd a) (snd b) else f_ltb (fst a) (fst b).

(** [min(rows, key=...)]: the first of the smallest. *)
Fixpoint min_row (best : row) (rank : float * float) (l : list row) : result row :=
  match l with
  | [] => Ok best
  | r :: t =>
      k <-! row_rank r ;;
      if rank_lt k rank then min_row r k t else min_row best rank t
  end.

Definition best_row (valid : list row) : result row :=
  match valid with
  | [] => Raise (Exn ValueError "min() iterable argument is empty")
  | r :: t => k <-! row_rank r ;; min_row r k t
  end.

Definition is_valid (r : row) : Prop := row_get r "signal_fraction" PyNone <> PyNone.

#[export] Instance is_valid_dec r : Decision (is_valid r).
Proof. unfold is_valid. destruct (row_get r "signal_fraction" PyNone); first [by left|by right; intros Hn; apply Hn]. Defined.

(** [int(row["channel"])] *)
Definition channel_of (r : row) : result Z :=
  match lookup_key r "channel" with
  | None => Raise (Exn KeyError "'channel'")
  | Some v => py_int v
  end.

(** [grouped.setdefault(int(row["channel"]), []).append(row)] *)
Definition group_row (grouped : gmap Z (list row)) (r : row) : result (gmap Z (list row)) :=
  ch <-! channel_of r ;; Ok (<[ch := default [] (grouped !! ch) ++ [r]]> grouped).

Definition choose_best_by_channel (point_rows : list row) : result (list row) :=
  grouped <-! rfold group_row point_rows ∅ ;;
  rfold (fun out cr =>
    match filter is_valid (snd cr) with
    | [] => Ok out
    | valid => best <-! best_row valid ;; Ok (out ++ [best])
    end) (sorted_entries grouped) [].

(** ** The command line *)

Record scan_args : Type := ScanArgs {
  output_dir : string; sc_channels : string; host : string; port : Z; sc_route : string;
  waveforms : Z; calibration_waveforms : Z; waveform_len : Z; sc_timeout_ms : Z;
  software_trigger : bool; scan_wavelength : string; intensity_start : Z; intensity_stop : Z;
  intensity_step : Z; calibration_intensity : Z; target_signal_fraction : float;
  led : led_options; fixed_bias_270nm : Z; fixed_bias_367nm : Z; settle_s : float;
  bias_monitor_afes : string; bias_monitor_board : string; bias_monitor_timeout_ms : Z;
  charge_windows_json : string; charge_baseline_start : Z; charge_baseline_stop : Z;
  charge_search_start : Z; charge_search_stop : Z; charge_onset_fraction : float;
  charge_window_anchor : string; charge_pre_samples : Z; charge_post_samples : Z;
  charge_window_offset : Z; charge_window_len : Z; charge_clip_negative : bool;
  charge_hist_bins : Z; interpret : string; skip_fe_readback : bool; dry_run : bool }.

Section scan_main.
Context `{NP : Numpy} {P : Type} `{MA : Machine P, RE : Reader P}.
Abbreviation Wd := (iow P).

Section run.
Context (env : paths) (python_exe : string) (plt : bool) (args : scan_args).

(** A file below the (resolved) output directory. *)
Definition out (name : string) : string := path_join (output_dir args) name.

Definition pause : M Wd unit :=
  when (negb (dry_run args) && f_ltb (S754_zero false) (settle_s args)) (sleep (settle_s args)).

Definition monitor_board : string := str_or (bias_monitor_board args) (infer_tunnel_board (port args)).

Definition ints (l : list Z) : pyval := PyList (PyInt <$> l).

Definition scan_manifest (now : string) (channels afes intensity_values : list Z) : row :=
  [("created_utc", PyStr now); ("host", PyStr (host args)); ("port", PyInt (port args));
   ("route", PyStr (sc_route args)); ("channels", ints channels);
   ("waveforms", PyInt (waveforms args));
   ("calibration_waveforms", PyInt (calibration_waveforms args));
   ("waveform_len", PyInt (waveform_len args)); ("intensity_values", ints intensity_values);
   ("scan_wavelength", PyStr (scan_wavelength args));
   ("calibration_intensity", PyInt (calibration_intensity args));
   ("target_signal_fraction", PyFloat (target_signal_fraction args));
   ("pulse_width_ticks", PyInt (led_pulse_width_ticks (led args)));
   ("led_channel_mask", PyInt (led_channel_mask (led args)));
   ("led_ssh_tunnel", PyStr (led_ssh_tunnel (led args)));
   ("led_ssh_tunnel_remote_host", PyStr (led_ssh_tunnel_remote_host (led args)));
   ("led_ssh_tunnel_remote_port", PyInt (led_ssh_tunnel_remote_port (led args)));
   ("bias_monitor_afes", ints afes); ("bias_monitor_board", PyStr monitor_board);
   ("bias_monitor_timeout_ms", PyInt (bias_monitor_timeout_ms args));
   ("charge_window_anchor", PyStr (charge_window_anchor args));
   ("charge_pre_samples", PyInt (charge_pre_samples args));
   ("charge_post_samples", PyInt (charge_post_samples args));
   ("charge_window_len_legacy", PyInt (charge_window_len args));
   ("charge_window_offset_legacy", PyInt (charge_window_offset args));
   ("charge_baseline_start", PyInt (charge_baseline_start args));
   ("charge_baseline_stop", PyInt (charge_baseline_stop args));
   ("charge_search_start", PyInt (charge_search_start args));
   ("charge_search_stop", PyInt (charge_search_stop args)); ("dry_run", PyBool (dry_run args))].

(** The biases of a point and its LED command. *)
Definition biases_at (intensity : Z) : Z * Z :=
  resolve_led_biases (scan_wavelength args) intensity (fixed_bias_270nm args) (fixed_bias_367nm args).

Definition biases_json (b : Z * Z) : pyval :=
  PyDict [("pulse_bias_percent_270nm", PyInt (fst b)); ("pulse_bias_percent_367nm", PyInt (snd b))].

Definition start_led (intensity : Z) (dir : string) : M Wd (Z * pyval) :=
  let b := biases_at intensity in
  run_led env (led args) (fst b) (snd b) (path_join dir "led.log") (dry_run args).

Definition monitor_bias (afes : list Z) (dir : string) : M Wd (list pyval) :=
  map_m (fun afe => run_bias_monitor env python_exe (host args) (port args) afe
           (bias_monitor_timeout_ms args)
           (path_join dir ("bias_monitor_afe" +:+ str_Z afe +:+ ".log")) (dry_run args)
           monitor_board) afes.

Definition acquire (channels : list Z) (count : Z) (dir : string) : M Wd (Z * list string) :=
  run_acquire env python_exe (host args) (port args) (sc_route args) (path_join dir "raw") channels
    count (waveform_len args) (sc_timeout_ms args) (software_trigger args) (dry_run args)
    (path_join dir "acquire.log").

(** [{ch: reanchor_charge_window(windows[ch], ...) for ch in channels}] *)
Definition reanchor_all (windows : gmap Z ChargeWindow) (channels : list Z)
    : result (gmap Z ChargeWindow) :=
  rfold (fun acc ch =>
    w <-! window_of windows ch ;;
    w' <-! reanchor_charge_window w (waveform_len args) (charge_window_anchor args)
             (charge_pre_samples args) (charge_post_samples args) ;;
    Ok (<[ch := w']> acc)) channels ∅.

(** [save_calibration_persistence_plot]: what can fail before the figure is written. *)
Definition persistence_plot (read : string -> result (list Z)) (path raw_dir : string)
    (channels : list Z) (windows : gmap Z ChargeWindow) : M Wd unit :=
  when plt
    (_ <- lift (rmap (fun ch =>
       let p := channel_path raw_dir ch in
       _ <-! load_channel_waves p (read p) (waveform_len args) (calibration_waveforms args)
               (interpret args) ;;
       w <-! window_of windows ch ;;
       pedestal_window_for_charge w (waveform_len args) None) channels) ;;
     file_action (Write path (DPlot "Calibration Persistence With Charge Windows"))).

(** [save_histogram_grid] *)
Definition histogram_grid (path : string) (analysis : gmap Z channel_analysis) (title : string)
    : M Wd unit :=
  when (plt && negb (bool_decide (analysis = ∅))) (file_action (Write path (DPlot title))).

Definition window_fields : list string :=
  ["channel"; "baseline_start"; "baseline_stop"; "search_start"; "search_stop"; "onset_index";
   "peak_index"; "integrate_start"; "integrate_stop"].

Definition point_fields : list string :=
  ["channel"; "intensity"; "scan_wavelength"; "signal_fraction"; "balance_error"; "snr_estimate";
   "threshold_charge"; "integrate_start"; "integrate_stop"; "peak_index"; "onset_index";
   "output_dir"].

Definition put := dict_put.

(** The windows of the calibration capture, saved and drawn. *)
Definition calibrate_windows (channels : list Z) (cal_dir : string) : M Wd (gmap Z ChargeWindow) :=
  let cal_raw := path_join cal_dir "raw" in
  read <- gets (fun w => read_words (mach w)) ;;
  windows <- lift (calibrate_windows_from_folder read cal_raw channels (waveform_len args)
               (charge_baseline_start args) (charge_baseline_stop args) (charge_search_start args)
               (charge_search_stop args) (charge_onset_fraction args) (charge_window_offset args)
               (charge_window_len args) (calibration_waveforms args) (interpret args)) ;;
  windows <- lift (reanchor_all windows channels) ;;
  now <- utc_now_iso ;;
  write_json (path_join cal_dir "charge_windows.json")
    (save_charge_windows windows
       [("created_utc", PyStr now); ("source", PyStr cal_raw);
        ("led_biases", biases_json (biases_at (calibration_intensity args)))]) ;;;
  rows <- lift (rmap (fun ch => w <-! window_of windows ch ;; Ok (as_dict w)) channels) ;;
  write_csv (path_join cal_dir "charge_windows_summary.csv") window_fields rows ;;;
  persistence_plot read (path_join cal_dir "calibration_persistence_windows.png") cal_raw channels
    windows ;;;
  ret windows.

Definition started_meta (now kind : string) (intensity : Z) : row :=
  [("created_utc", PyStr now); ("type", PyStr kind); ("intensity", PyInt intensity);
   ("scan_wavelength", PyStr (scan_wavelength args));
   ("fe_state_readback_json", PyStr (out "fe_state_readback.json"));
   ("bias_monitor", PyList []); ("status", PyStr "started")].

Definition finish_meta (dir : string) (meta : row) (status : string) : M Wd unit :=
  write_json (path_join dir "metadata.json") (PyDict (put meta "status" (PyStr status))).

Definition with_led (meta : row) (intensity : Z) (info : pyval) (rc : Z) : row :=
  put (put (put meta "led_biases" (biases_json (biases_at intensity))) "led_start" info)
    "led_returncode" (PyInt rc).

(** The calibration block: it may leave [main]. *)
Definition calibration (channels afes : list Z) : M Wd (flow (gmap Z ChargeWindow)) :=
  let cal_dir := out "calibration" in
  mkdir cal_dir ;;;
  mkdir (path_join cal_dir "raw") ;;;
  now <- utc_now_iso ;;
  let meta := started_meta now "calibration" (calibration_intensity args) in
  '(led_rc, info) <- start_led (calibration_intensity args) cal_dir ;;
  let meta := with_led meta (calibration_intensity args) info led_rc in
  if negb (led_rc =? 0) then
    finish_meta cal_dir meta "led_failed" ;;;
    eprint "Calibration LED command failed" ;;;
    ret (Return 1)
  else
    pause ;;;
    monitors <- monitor_bias afes cal_dir ;;
    '(rc, _) <- acquire channels (calibration_waveforms args) cal_dir ;;
    let meta := put (put meta "bias_monitor" (PyList monitors)) "acquire_returncode" (PyInt rc) in
    if negb (rc =? 0) then
      finish_meta cal_dir meta "acquire_failed" ;;;
      eprint "Calibration acquire failed" ;;;
      ret (Return 1)
    else if dry_run args then
      finish_meta cal_dir meta "dry_run" ;;; ret (Next ∅)
    else
      windows <- calibrate_windows channels cal_dir ;;
      finish_meta cal_dir
        (put meta "charge_windows_json" (PyStr (path_join cal_dir "charge_windows.json")))
        "calibrated" ;;;
      ret (Next windows).

(** The windows: of a file, or of a calibration. *)
Definition get_windows (channels afes : list Z) : M Wd (flow (gmap Z ChargeWindow)) :=
  if decide (charge_windows_json args = "") then calibration channels afes
  else
    text <- gets (fun w => read_doc (mach w) (charge_windows_json args)) ;;
    windows <- lift (load_charge_windows (t <-! text ;; json_loads t)) ;;
    windows <- lift (reanchor_all windows channels) ;;
    ret (Next windows).

(** The row of a channel at a point. *)
Definition point_row (intensity : Z) (point_dir : string) (ch : Z) (a : channel_analysis) : row :=
  let m := an_metrics a in
  let w := an_window a in
  [("channel", PyInt ch); ("intensity", PyInt intensity);
   ("scan_wavelength", PyStr (scan_wavelength args));
   ("signal_fraction", opt_float (signal_fraction m));
   ("balance_error", opt_float (balance_error m)); ("snr_estimate", opt_float (snr_estimate m));
   ("threshold_charge", opt_float (threshold_charge m));
   ("integrate_start", PyInt (integrate_start w)); ("integrate_stop", PyInt (integrate_stop w));
   ("peak_index", PyInt (peak_index w)); ("onset_index", PyInt (onset_index w));
   ("output_dir", PyStr point_dir)].

Definition point_dir_of (intensity : Z) : string :=
  path_join (out "points") ("intensity_" +:+ dec_pad 4 intensity).

(** The analysis of a point that was captured: its rows. *)
Definition analyze_point (channels : list Z) (windows : gmap Z ChargeWindow) (intensity : Z)
    (meta : row) : M Wd (list row) :=
  let dir := point_dir_of intensity in
  read <- gets (fun w => read_words (mach w)) ;;
  analysis <- lift (analyze_raw_dir read (path_join dir "raw") channels (waveform_len args) windows
                (interpret args) (waveforms args) (charge_clip_negative args)
                (target_signal_fraction args)) ;;
  now <- utc_now_iso ;;
  write_json (path_join dir "analysis.json") (PyDict
    [("created_utc", PyStr now); ("intensity", PyInt intensity);
     ("scan_wavelength", PyStr (scan_wavelength args));
     ("led_biases", biases_json (biases_at intensity));
     ("analysis", PyDict ((fun ca => (str_Z (fst ca), an_doc (snd ca))) <$> sorted_entries analysis))]) ;;;
  finish_meta dir
    (put (put meta "analysis_json" (PyStr (path_join dir "analysis.json"))) "channels" (ints channels))
    "analyzed" ;;;
  histogram_grid (path_join dir "charge_histograms.png") analysis
    (scan_wavelength args +:+ "nm intensity " +:+ str_Z intensity) ;;;
  lift (rmap (fun ch => match analysis !! ch with
                        | Some a => Ok (point_row intensity dir ch a)
                        | None => Raise (Exn KeyError (str_Z ch))
                        end) channels).

(** One turn of the loop: the rows it adds. *)
Definition scan_point (channels afes : list Z) (windows : gmap Z ChargeWindow) (intensity : Z)
    : M Wd (list row) :=
  let dir := point_dir_of intensity in
  mkdir dir ;;;
  mkdir (path_join dir "raw") ;;;
  now <- utc_now_iso ;;
  let meta := started_meta now "scan_point" intensity in
  '(led_rc, info) <- start_led intensity dir ;;
  let meta := with_led meta intensity info led_rc in
  if negb (led_rc =? 0) then finish_meta dir meta "led_failed" ;;; ret []
  else
    pause ;;;
    monitors <- monitor_bias afes dir ;;
    '(rc, cmd) <- acquire channels (waveforms args) dir ;;
    let meta := put (put (put meta "bias_monitor" (PyList monitors)) "acquire_returncode" (PyInt rc))
                  "acquire_command" (strs cmd) in
    if negb (rc =? 0) then finish_meta dir meta "acquire_failed" ;;; ret []
    else if dry_run args then finish_meta dir meta "dry_run" ;;; ret []
    else analyze_point channels windows intensity meta.

(** The end of [main]: the pulser is stopped and the tables are written. *)
Definition finish (point_rows : list row) : M Wd Z :=
  _ <- run_led_stop env (led args) (out "led_stop.log") (dry_run args) ;;
  match point_rows with
  | [] => ret 0
  | _ =>
      write_csv (out "summary_by_point.csv") point_fields point_rows ;;;
      best_rows <- lift (choose_best_by_channel point_rows) ;;
      write_csv (out "best_by_channel.csv") point_fields best_rows ;;;
      ret 0
  end.

Definition main : M Wd Z :=
  channels <- lift (scan_parse_channels (sc_channels args)) ;;
  afes <- lift (scan_parse_channels (bias_monitor_afes args)) ;;
  intensity_values <- lift (inclusive_range (intensity_start args) (intensity_stop args)
                              (intensity_step args)) ;;
  mkdir (output_dir args) ;;;
  mkdir (out "points") ;;;
  now <- utc_now_iso ;;
  readback <- (if skip_fe_readback args then ret (PyDict [("skipped", PyBool true)])
               else run_fe_state_readback env python_exe (host args) (port args) (sc_route args)
                      (sc_timeout_ms args) (out "fe_state_readback.log")
                      (out "fe_state_readback.json") (dry_run args)) ;;
  write_json (out "scan_manifest.json")
    (PyDict (put (scan_manifest now channels afes intensity_values) "fe_state_readback" readback)) ;;;
  r <- get_windows channels afes ;;
  match r with
  | Return code => ret code
  | Next windows =>
      rows <- map_m (scan_point channels afes windows) intensity_values ;;
      finish (mjoin rows)
  end.

End run.
End scan_main.

(** ** The best rows *)

Definition ranked (r : row) (k : float * float) : Prop :=
  row_rank r = Ok k /\ is_Some (f_key (fst k)) /\ is_Some (f_key (snd k)).

Lemma rank_lt_key a b ka kb ka' kb' :
  f_key (fst a) = Some ka -> f_key (snd a) = Some ka' ->
  f_key (fst b) = Some kb -> f_key (snd b) = Some kb' ->
  rank_lt a b = true <-> key_lt ka kb \/ (ka = kb /\ key_lt ka' kb').
Proof.
  intros H1 H2 H3 H4. unfold rank_lt.
  destruct (f_eqb (fst a) (fst b)) eqn:He.
  - apply (f_eqb_key _ _ _ _ H1 H3) in He as ->. rewrite (f_ltb_key _ _ _ _ H2 H4).
    pose proof (key_lt_irrefl kb). tauto.
  - rewrite (f_ltb_key _ _ _ _ H1 H3).
    assert (ka <> kb) by (intros Hk; apply (f_eqb_key _ _ _ _ H1 H3) in Hk; congruence). tauto.
Qed.

Lemma rank_lt_asym r1 r2 k1 k2 :
  ranked r1 k1 -> ranked r2 k2 -> rank_lt k1 k2 = true -> rank_lt k2 k1 = false.
Proof.
  intros (_ & [a1 Ha1] & [b1 Hb1]) (_ & [a2 Ha2] & [b2 Hb2]) H12.
  destruct (rank_lt k2 k1) eqn:H21; [exfalso|done].
  apply (rank_lt_key _ _ _ _ _ _ Ha1 Hb1 Ha2 Hb2) in H12.
  apply (rank_lt_key _ _ _ _ _ _ Ha2 Hb2 Ha1 Hb1) in H21.
  destruct H12 as [H12|[-> H12]], H21 as [H21|[? H21]]; simplify_eq;
    first [by apply key_lt_irrefl in H12 | by apply key_lt_irrefl in H21
          | by apply (key_lt_irrefl _ (key_lt_trans _ _ _ H12 H21))].
Qed.

Lemma rank_not_lt a b ka kb ka' kb' :
  f_key (fst a) = Some ka -> f_key (snd a) = Some ka' ->
  f_key (fst b) = Some kb -> f_key (snd b) = Some kb' ->
  rank_lt a b = false <-> key_lt kb ka \/ (kb = ka /\ (key_lt kb' ka' \/ kb' = ka')).
Proof.
  intros H1 H2 H3 H4. rewrite <- not_true_iff_false, (rank_lt_key _ _ _ _ _ _ H1 H2 H3 H4).
  pose proof (key_lt_irrefl ka) as Ia. pose proof (key_lt_irrefl ka') as Ia'.
  pose proof (key_lt_trans ka kb ka) as Ta. pose proof (key_lt_trans ka' kb' ka') as Ta'.
  destruct (key_lt_total ka kb) as [L|[->|L]].
  - split; [tauto|]. intros [?|[-> ?]]; tauto.
  - destruct (key_lt_total ka' kb') as [L|[->|L]]; split; try tauto.
    intros [?|[_ [?| <-]]]; tauto.
  - split; [tauto|]. intros _ [?|[-> ?]]; tauto.
Qed.

(** Not being better is transitive. *)
Lemma rank_not_lt_trans r1 r2 r3 k1 k2 k3 :
  ranked r1 k1 -> ranked r2 k2 -> ranked r3 k3 ->
  rank_lt k1 k2 = false -> rank_lt k2 k3 = false -> rank_lt k1 k3 = false.
Proof.
  intros (_ & [a1 Ha1] & [b1 Hb1]) (_ & [a2 Ha2] & [b2 Hb2]) (_ & [a3 Ha3] & [b3 Hb3]).
  rewrite (rank_not_lt _ _ _ _ _ _ Ha1 Hb1 Ha2 Hb2), (rank_not_lt _ _ _ _ _ _ Ha2 Hb2 Ha3 Hb3),
    (rank_not_lt _ _ _ _ _ _ Ha1 Hb1 Ha3 Hb3).
  intros [?|[-> [?| ->]]] [?|[-> [?| ->]]]; eauto using key_lt_trans.
Qed.

(** [min] returns a row none of the others is better than. *)
Lemma min_row_spec best k l b :
  ranked best k -> Forall (fun r => exists k, ranked r k) l -> min_row best k l = Ok b ->
  b ∈ best :: l /\ exists kb, ranked b kb /\ rank_lt k kb = false /\
    Forall (fun r => forall kr, row_rank r = Ok kr -> rank_lt kr kb = false) l.
Proof.
  revert best k. induction l as [|r l IH]; intros best k Hk Hl H; cbn in H.
  - injection H as <-. split; [apply list_elem_of_here|]. exists k. split_and!; [done| |constructor].
    destruct (rank_lt k k) eqn:Hkk; [|done]. by rewrite (rank_lt_asym _ _ _ _ Hk Hk Hkk) in Hkk.
  - apply Forall_cons in Hl as [[kr Hr] Hl]. apply rbind_ok in H as (kr' & Hkr' & H).
    assert (kr' = kr) as -> by (destruct Hr; congruence).
    destruct (rank_lt kr k) eqn:Hlt; apply IH in H as (Hin & kb & Hb & Hfirst & Hall); try done.
    + split; [by apply list_elem_of_further|]. exists kb. split_and!; [done| |].
      * eapply (rank_not_lt_trans best r b); [done|done|done| |done]. by apply (rank_lt_asym r best).
      * constructor; [|done]. intros k' Hk'. assert (k' = kr) as -> by (destruct Hr; congruence). done.
    + split; [apply elem_of_cons in Hin as [->|Hin];
        [apply list_elem_of_here|by do 2 apply list_elem_of_further]|].
      exists kb. split_and!; [done|done|]. constructor; [|done].
      intros k' Hk'. assert (k' = kr) as -> by (destruct Hr; congruence).
      by apply (rank_not_lt_trans r best b kr k kb).
Qed.

(** The valid rows of a channel. *)
Definition valid_of (ch : Z) (rs : list row) : list row :=
  filter (fun r => channel_of r = Ok ch /\ is_valid r) rs.

Lemma group_rows_spec rs grouped :
  rfold group_row rs ∅ = Ok grouped ->
  forall ch, grouped !! ch = match filter (fun r => channel_of r = Ok ch) rs with
                             | [] => None
                             | l => Some l
                             end.
Proof.
  revert grouped. induction rs as [|r rs IH] using rev_ind; intros grouped H ch.
  - injection H as <-. apply lookup_empty.
  - rewrite rfold_app in H. apply rbind_ok in H as (g & Hg & H). cbn in H.
    apply rbind_ok in H as (g' & H & [= ->]). unfold group_row in H.
    apply rbind_ok in H as (c & Hc & [= <-]). specialize (IH g Hg).
    rewrite filter_app, filter_cons, filter_nil, Hc.
    destruct (decide (Ok c = Ok ch)) as [[= ->]|Hne].
    + rewrite lookup_insert_eq, (IH ch). by destruct (filter _ rs).
    + rewrite lookup_insert_ne by congruence. by rewrite app_nil_r, (IH ch).
Qed.

Lemma filter_filter_valid ch (rs : list row) :
  filter is_valid (filter (fun r => channel_of r = Ok ch) rs) = valid_of ch rs.
Proof.
  unfold valid_of. rewrite list_filter_filter. apply list_filter_iff. intros r. tauto.
Qed.

(** The best of its channel: valid, and no valid row of the channel is better. *)
Definition best_of (rs : list row) (ch : Z) (b : row) : Prop :=
  b ∈ valid_of ch rs /\ exists kb, ranked b kb /\
    forall r k, r ∈ valid_of ch rs -> row_rank r = Ok k -> rank_lt k kb = false.

Lemma best_row_spec rs ch b :
  Forall (fun r => exists k, ranked r k) (valid_of ch rs) -> best_row (valid_of ch rs) = Ok b ->
  best_of rs ch b.
Proof.
  unfold best_of. destruct (valid_of ch rs) as [|r l]; [done|]. cbn.
  intros [[k Hk] Hl]%Forall_cons H. apply rbind_ok in H as (k' & Hk' & H).
  assert (k' = k) as -> by (destruct Hk; congruence).
  apply min_row_spec in H as (Hin & kb & Hb & Hfirst & Hall); [|done|done].
  split; [done|]. exists kb. split; [done|]. intros r' k' [->|Hr']%elem_of_cons Hr.
  - assert (k' = k) as -> by (destruct Hk; congruence). done.
  - rewrite Forall_forall in Hall. by apply (Hall r').
Qed.

Lemma choose_fold rs l out best :
  Forall (fun cr => filter is_valid (snd cr) = valid_of (fst cr) rs) l ->
  Forall (fun r => is_valid r -> exists k, ranked r k) rs ->
  rfold (fun out (cr : Z * list row) =>
    match filter is_valid (snd cr) with
    | [] => Ok out
    | valid => best <-! best_row valid ;; Ok (out ++ [best])
    end) l out = Ok best ->
  exists chosen : list (Z * row), best = out ++ (snd <$> chosen) /\
    fst <$> chosen = filter (fun ch => valid_of ch rs <> []) (fst <$> l) /\
    Forall (fun cb => best_of rs (fst cb) (snd cb)) chosen.
Proof.
  intros Hl Hrs. revert out. induction l as [|[ch grp] l IH]; intros out H; cbn [rfold fst snd] in H.
  - injection H as <-. exists []. cbn. by rewrite app_nil_r.
  - apply Forall_cons in Hl as [Hg Hl]. cbn in Hg. rewrite Hg in H.
    assert (Hv : Forall (fun r => exists k, ranked r k) (valid_of ch rs)).
    { apply Forall_forall. intros r [[_ Hr] Hin]%list_elem_of_filter.
      rewrite Forall_forall in Hrs. by apply Hrs. }
    pose proof (best_row_spec rs ch) as Hbest. cbn [fmap list_fmap fst]. rewrite filter_cons.
    destruct (valid_of ch rs) as [|r0 valid] eqn:Hval.
    + cbn [rbind] in H. destruct (IH Hl out H) as (chosen & -> & Hk & Hall). exists chosen.
      split_and!; [done| |done]. rewrite decide_False by tauto. exact Hk.
    + apply rbind_ok in H as (out' & H' & H). apply rbind_ok in H' as (b & Hb & [= <-]).
      destruct (IH Hl _ H) as (chosen & -> & Hk & Hall). exists ((ch, b) :: chosen).
      rewrite <- app_assoc. split_and!; [done| |].
      * rewrite decide_True by done. cbn. f_equal. exact Hk.
      * constructor; [|done]. by apply Hbest.
Qed.

(** The best point of each channel: the table has one row per channel that has a valid row
    (one with a signal fraction), in increasing order of the channels; the row is one of the
    channel's, and no valid row of the channel has a smaller balance error, or the same one
    with a larger signal-to-noise ratio.  It is assumed that the figures of valid rows are
    numbers. *)
Theorem choose_best_by_channel_correct rs best :
  Forall (fun r => is_valid r -> exists k, ranked r k) rs ->
  choose_best_by_channel rs = Ok best ->
  exists chosen : list (Z * row),
    best = snd <$> chosen /\ StronglySorted Z.lt (fst <$> chosen) /\
    (forall ch, ch ∈ fst <$> chosen <-> exists r, r ∈ valid_of ch rs) /\
    Forall (fun cb => best_of rs (fst cb) (snd cb)) chosen.
Proof.
  intros Hrs H. unfold choose_best_by_channel in H.
  apply rbind_ok in H as (grouped & Hg & H). pose proof (group_rows_spec rs grouped Hg) as Hspec.
  apply (choose_fold rs) in H as (chosen & -> & Hk & Hall); [|  |done].
  - exists chosen. rewrite Hk. split_and!; [done| | |done].
    + apply StronglySorted_filter, sorted_entries_keys.
    + intros ch. rewrite list_elem_of_filter. split.
      * intros [Hne _]. destruct (valid_of ch rs) as [|r l] eqn:Hv; [done|].
        exists r. apply list_elem_of_here.
      * intros [r Hr]. split; [by intros Hn; rewrite Hn in Hr; apply not_elem_of_nil in Hr|].
        apply list_elem_of_filter in Hr as [[Hc Hr] Hin].
        specialize (Hspec ch).
        destruct (filter (fun r => channel_of r = Ok ch) rs) as [|r0 l] eqn:Hf.
        -- assert (Hin' : r ∈ filter (fun r => channel_of r = Ok ch) rs)
             by (by apply list_elem_of_filter).
           rewrite Hf in Hin'. by apply not_elem_of_nil in Hin'.
        -- apply list_elem_of_fmap. exists (ch, r0 :: l). split; [done|].
           by apply elem_of_sorted_entries.
  - apply Forall_forall. intros [ch grp] Hin. cbn. apply elem_of_sorted_entries in Hin.
    rewrite Hspec in Hin. rewrite <- filter_filter_valid.
    destruct (filter (fun r => channel_of r = Ok ch) rs) eqn:Hf; [done|]. by injection Hin as <-.
Qed.

(** ** What a scan does *)

Section scan_events.
Context `{NP : Numpy} {P : Type} `{MA : Machine P, RE : Reader P}.
Abbreviation Wd := (iow P).
Context (env : paths) (python_exe : string) (plt : bool) (args : scan_args).
Context (Hdry : dry_run args = false).
Implicit Types (l : unit).

Definition led_cmd (intensity : Z) : action :=
  let b := biases_at args intensity in Run (led_command env (led args) (fst b) (snd b)).

Definition stop_cmd : action := Run (led_stop_command env (led args)).

Definition acquire_cmd (channels : list Z) (intensity : Z) : action :=
  Run (acquire_command env python_exe (host args) (port args) (sc_route args)
         (path_join (point_dir_of args intensity) "raw") channels (waveforms args)
         (waveform_len args) (sc_timeout_ms args) (software_trigger args)).

(** The programs between the pulser and the acquisition only read the bias monitor. *)
Definition only_monitors (e : event) : Prop :=
  forall cmd, ev_action e = Run cmd ->
    exists afe, cmd = bias_monitor_command env python_exe (host args) (port args) afe
                        (bias_monitor_timeout_ms args) (monitor_board args).

Definition row_point (r : row) : option pyval * option pyval :=
  (lookup_key r "channel", lookup_key r "intensity").

(** What one point did and the rows it adds: the pulser was set to its biases; only when that
    worked was the acquisition run, last; only when that worked there are rows, one per channel
    in the order of the channels. *)
Definition point_story (channels : list Z) (intensity : Z) (evs : list event) (rs : list row) : Prop :=
  exists pre led_rc rest,
    evs = pre ++ Ev (led_cmd intensity) (Ok led_rc) :: rest /\ Forall not_run pre /\
    ((led_rc <> 0 /\ Forall not_run rest /\ rs = []) \/
     (led_rc = 0 /\ exists mid rc post,
        rest = mid ++ Ev (acquire_cmd channels intensity) (Ok rc) :: post /\
        Forall only_monitors mid /\ Forall not_run post /\
        ((rc <> 0 /\ rs = []) \/
         (rc = 0 /\ row_point <$> rs =
            (fun ch => (Some (PyInt ch), Some (PyInt intensity))) <$> channels)))).

Lemma scan_point_prefix channels i pre evs rs :
  Forall not_run pre -> point_story channels i evs rs -> point_story channels i (pre ++ evs) rs.
Proof using Type.
  intros Hp (pre' & rc & rest & -> & Hpre & Hcase). exists (pre ++ pre'), rc, rest.
  rewrite app_assoc. split_and!; [done| |done]. by apply Forall_app.
Qed.

Lemma not_run_monitors e : not_run e -> only_monitors e.
Proof using Type. intros He cmd Hc. unfold not_run, is_run in He. by rewrite Hc in He. Qed.

Lemma emits_monitors afes dir :
  emits (W := Wd) (L := unit) (fun l => l) only_monitors
    (monitor_bias env python_exe args afes dir).
Proof using Hdry.
  apply emits_map_m. intros afe. apply emits_bind; [|intros [rc o]; apply emits_ret].
  rewrite Hdry. apply emits_bind; [apply emits_subprocess|].
  - intros o cmd [= <-]. by exists afe.
  - intros p. apply emits_bind; [by apply emits_file|intros; apply emits_ret].
Qed.

Lemma emits_finish_meta dir meta st :
  emits (W := Wd) (L := unit) (fun l => l) not_run (finish_meta dir meta st).
Proof using Type. by apply emits_file. Qed.

(** The rows of an analysis. *)
Lemma does_analyze channels windows i meta l :
  does (W := Wd) (L := unit) (analyze_point plt args channels windows i meta) l
    (fun r _ evs => Forall not_run evs /\ forall rs, r = Ok rs ->
       row_point <$> rs = (fun ch => (Some (PyInt ch), Some (PyInt i))) <$> channels).
Proof using Type.
  assert (Hpre : forall pre (r : result (list row)) l' evs, Forall not_run pre ->
    (Forall not_run evs /\ forall rs, r = Ok rs ->
       row_point <$> rs = (fun ch => (Some (PyInt ch), Some (PyInt i))) <$> channels) ->
    Forall not_run (pre ++ evs) /\ forall rs, r = Ok rs ->
       row_point <$> rs = (fun ch => (Some (PyInt ch), Some (PyInt i))) <$> channels).
  { intros pre r l' evs Hp [He Hr]. split; [|done]. by apply Forall_app. }
  unfold analyze_point.
  apply (does_emits not_run); [apply emits_gets|exact Hpre|done|intros read].
  apply does_lift_bind; [intros e; by split|]. intros analysis _.
  apply (does_emits not_run); [apply emits_gets|exact Hpre|done|intros now].
  apply (does_emits not_run); [by apply emits_file|exact Hpre|done|intros _].
  apply (does_emits not_run); [apply emits_finish_meta|exact Hpre|done|intros _].
  apply (does_emits not_run); [apply emits_when; by apply emits_file|exact Hpre|done|intros _].
  apply does_lift. split; [constructor|]. clear Hpre.
  induction channels as [|ch channels IH]; intros rs Hrs; cbn [rmap] in Hrs; [by injection Hrs as <-|].
  apply rbind_ok in Hrs as (row & Hrow & Hrs). apply rbind_ok in Hrs as (rest & Hrest & [= <-]).
  cbn [fmap list_fmap]. f_equal; [|by apply IH]. destruct (analysis !! ch); [|done].
  by injection Hrow as <-.
Qed.

(** After the pulser was set: monitor, acquisition, analysis. *)
Definition capture_story (channels : list Z) (intensity : Z) (r : result (list row))
    (evs : list event) : Prop :=
  forall rs, r = Ok rs -> exists mid rc post,
    evs = mid ++ Ev (acquire_cmd channels intensity) (Ok rc) :: post /\
    Forall only_monitors mid /\ Forall not_run post /\
    ((rc <> 0 /\ rs = []) \/
     (rc = 0 /\ row_point <$> rs = (fun ch => (Some (PyInt ch), Some (PyInt intensity))) <$> channels)).

Lemma capture_story_prefix channels i pre r (l' : unit) evs :
  Forall only_monitors pre -> capture_story channels i r evs -> capture_story channels i r (pre ++ evs).
Proof using Type.
  intros Hp HQ rs Hr. destruct (HQ rs Hr) as (mid & rc & post & -> & Hm & Hpost & Hc).
  exists (pre ++ mid), rc, post. rewrite app_assoc. split_and!; [done| |done|done].
  by apply Forall_app.
Qed.

Lemma does_scan_capture channels afes windows i meta l :
  let dir := point_dir_of args i in
  does (W := Wd) (L := unit)
    (pause args ;;;
     monitors <- monitor_bias env python_exe args afes dir ;;
     '(rc, cmd) <- acquire env python_exe args channels (waveforms args) dir ;;
     let meta := put (put (put meta "bias_monitor" (PyList monitors)) "acquire_returncode" (PyInt rc))
                   "acquire_command" (strs cmd) in
     if negb (rc =? 0) then finish_meta dir meta "acquire_failed" ;;; ret []
     else if dry_run args then finish_meta dir meta "dry_run" ;;; ret []
     else analyze_point plt args channels windows i meta)
    l (fun r _ evs => capture_story channels i r evs).
Proof using Hdry.
  intros dir.
  assert (Hpre : forall pre r (l' : unit) evs, Forall only_monitors pre ->
    capture_story channels i r evs -> capture_story channels i r (pre ++ evs))
    by (intros; by apply capture_story_prefix).
  apply (does_emits only_monitors); [|exact Hpre|done|intros _].
  { apply emits_when, emits_file. intros o. by apply not_run_monitors. }
  apply (does_emits only_monitors); [apply emits_monitors|exact Hpre|done|intros monitors].
  unfold acquire, run_acquire. rewrite Hdry.
  apply does_bind, does_bind, does_subprocess; [|done]. intros p. cbn [after].
  apply does_bind, does_file; [|done]. cbn [after]. apply does_ret. cbn [after].
  destruct (Z.eqb_spec (returncode p) 0) as [Hz|Hnz]; cbn [negb].
  - eapply does_weaken; [apply does_analyze|]. intros r l' evs [He Hr] rs ->.
    exists [], (returncode p). eexists. split; [reflexivity|]. split_and!; [constructor| |].
    + by constructor.
    + right. split; [done|]. by apply Hr.
  - apply does_bind, does_file; [|done]. cbn [after]. apply does_ret. intros rs [= <-].
    exists [], (returncode p). eexists. split; [reflexivity|].
    split_and!; [constructor|by repeat constructor|by left].
Qed.

Definition turn_story (channels : list Z) (intensity : Z) (r : result (list row))
    (evs : list event) : Prop :=
  forall rs, r = Ok rs -> point_story channels intensity evs rs.

Lemma does_scan_point channels afes windows i l :
  does (W := Wd) (L := unit) (scan_point env python_exe plt args channels afes windows i) l
    (fun r _ evs => turn_story channels i r evs).
Proof using Hdry.
  assert (Hpre : forall pre r (l' : unit) evs, Forall not_run pre ->
    turn_story channels i r evs -> turn_story channels i r (pre ++ evs)).
  { intros pre r l' evs Hp HQ rs Hr. apply scan_point_prefix; auto. }
  unfold scan_point.
  apply (does_emits not_run); [by apply emits_file|exact Hpre|done|intros _].
  apply (does_emits not_run); [by apply emits_file|exact Hpre|done|intros _].
  apply (does_emits not_run); [apply emits_gets|exact Hpre|done|intros now].
  unfold start_led, run_led. rewrite Hdry at 1.
  apply does_bind, does_bind, does_run_cmd; [|done|done]. intros p. cbn [after].
  apply does_ret. cbn [after]. fold (led_cmd i).
  destruct (Z.eqb_spec (returncode p) 0) as [Hz|Hnz]; cbn [negb].
  - eapply does_weaken; [apply does_scan_capture|]. intros r l' evs HQ rs Hr.
    destruct (HQ rs Hr) as (mid & rc & post & -> & Hm & Hpost & Hc).
    exists [], (returncode p). eexists. split; [reflexivity|]. split; [constructor|]. right.
    split; [done|]. eexists (_ :: mid), rc, post. split; [reflexivity|].
    split; [|done]. constructor; [by apply not_run_monitors|done].
  - apply does_bind, does_file; [|done]. cbn [after]. apply does_ret. intros rs [= <-].
    exists [], (returncode p). eexists. split; [reflexivity|]. split; [constructor|]. left.
    split; [done|]. split; [by repeat constructor|done].
Qed.

Lemma does_scan_points channels afes windows vs l :
  does (W := Wd) (L := unit) (map_m (scan_point env python_exe plt args channels afes windows) vs) l
    (fun r _ evs => forall rss, r = Ok rss -> exists segs,
       evs = mjoin segs /\ Forall3 (point_story channels) vs segs rss).
Proof using Hdry.
  induction vs as [|v vs IH]; cbn [map_m].
  - apply does_ret. intros rss [= <-]. exists []. split; [done|constructor].
  - apply does_bind. eapply does_weaken; [apply does_scan_point|].
    intros [rs|e] [] e1 Ht; [|done]. cbn [after]. apply does_bind. destruct l.
    eapply does_weaken; [apply IH|]. intros [rss|e] [] e2 HQ; [|done]. cbn [after].
    apply does_ret. intros rss' [= <-]. destruct (HQ rss eq_refl) as (segs & -> & Hall).
    exists (e1 :: segs). rewrite app_nil_r. split; [done|]. constructor; [by apply Ht|done].
Qed.

Definition any (_ : event) : Prop := True.

Lemma forall_any evs : Forall any evs.
Proof using Type. by apply Forall_forall. Qed.

(** The only status a block leaves with. *)
Definition leaves {A : Type} (code : Z) (m : M Wd (flow A)) : Prop :=
  forall w c, fst (m w) = Ok (Return c) -> c = code.

Lemma leaves_bind {A C : Type} code (m : M Wd A) (k : A -> M Wd (flow C)) :
  (forall a, leaves code (k a)) -> leaves code (bind m k).
Proof using Type. intros Hk w c. unfold bind. destruct (m w) as [[a|e] w1]; [apply Hk|done]. Qed.

Lemma leaves_next {A : Type} code (a : A) : leaves code (ret (Next a)).
Proof using Type. by intros w c. Qed.

Lemma leaves_return {A : Type} code : leaves (A := A) code (ret (Return code)).
Proof using Type. intros w c [= <-]. done. Qed.

Lemma windows_leave channels afes :
  leaves 1 (get_windows env python_exe plt args channels afes).
Proof using Type.
  clear Hdry. unfold get_windows, calibration.
  repeat match goal with
  | |- leaves _ (bind _ _) => apply leaves_bind; intros
  | |- leaves _ (ret (Next _)) => apply leaves_next
  | |- leaves _ (ret (Return _)) => apply leaves_return
  | |- leaves _ (match ?x with _ => _ end) => destruct x
  end.
Qed.

Lemma emits_windows channels afes :
  emits (W := Wd) (L := unit) (fun l => l) any (get_windows env python_exe plt args channels afes).
Proof using Type.
  clear Hdry. assert (Hany : forall e, any e) by done.
  unfold get_windows, calibration, calibrate_windows, persistence_plot, start_led, run_led,
    monitor_bias, acquire, finish_meta, pause, mkdir, write_json, write_csv, eprint, sleep.
  repeat match goal with
  | |- emits _ _ (bind _ _) => apply emits_bind; [|intros]
  | |- emits _ _ (file_action _) => apply emits_file
  | |- emits _ _ utc_now_iso => apply emits_gets
  | |- emits _ _ (match ?x with _ => _ end) => destruct x
  | |- emits _ _ (map_m _ _) => apply emits_map_m; intros
  | |- emits _ _ (when _ _) => apply emits_when
  end; auto with scan.
Qed.

Lemma does_with {A : Type} (m : M Wd A) l Q (R : result A -> Prop) :
  does (W := Wd) (L := unit) m l Q -> (forall w, R (fst (m w))) ->
  does (W := Wd) (L := unit) m l (fun r l' evs => Q r l' evs /\ R r).
Proof using Type.
  intros Hm HR w Hw. destruct (Hm w Hw) as (evs & Hl & HQ). exists evs. split_and!; auto.
Qed.

Definition table (name : string) (rs : list row) : event :=
  Ev (Write (out args name) (DCsv point_fields rs)) (Ok 0).

(** What a scan that ends with status 0 did. *)
Definition scan_story (r : result Z) (evs : list event) : Prop :=
  r = Ok 0 -> exists channels vs pre segs rss o post,
    scan_parse_channels (sc_channels args) = Ok channels /\
    inclusive_range (intensity_start args) (intensity_stop args) (intensity_step args) = Ok vs /\
    evs = pre ++ mjoin segs ++ Ev stop_cmd o :: post /\
    Forall3 (point_story channels) vs segs rss /\ Forall not_run post /\
    (mjoin rss <> [] -> exists best pre', choose_best_by_channel (mjoin rss) = Ok best /\
       post = pre' ++ [table "summary_by_point.csv" (mjoin rss); table "best_by_channel.csv" best]).

Lemma scan_story_prefix pre r (l' : unit) evs : scan_story r evs -> scan_story r (pre ++ evs).
Proof using Type.
  intros HQ Hr. destruct (HQ Hr) as (chs & vs & pre' & segs & rss & o & post & Hc & Hv & -> & Hs).
  exists chs, vs, (pre ++ pre'), segs, rss, o, post. by rewrite app_assoc.
Qed.

Lemma does_finish point_rows l :
  does (W := Wd) (L := unit) (finish env args point_rows) l (fun r _ evs => r = Ok 0 ->
    exists o post, evs = Ev stop_cmd o :: post /\ Forall not_run post /\
      (point_rows <> [] -> exists best pre', choose_best_by_channel point_rows = Ok best /\
         post = pre' ++ [table "summary_by_point.csv" point_rows; table "best_by_channel.csv" best])).
Proof using Hdry.
  unfold finish, run_led_stop. rewrite Hdry.
  apply does_bind, does_bind, does_run_cmd; [|done|done]. intros p. cbn [after].
  apply does_ret. cbn [after]. destruct point_rows as [|r0 rs].
  - apply does_ret. intros _. do 2 eexists. split; [reflexivity|]. split; [by repeat constructor|done].
  - apply does_bind, does_file; [|done]. cbn [after].
    apply does_lift_bind; [done|]. intros best Hb.
    apply does_bind, does_file; [|done]. cbn [after]. apply does_ret. intros _.
    do 2 eexists. split; [reflexivity|]. split; [by repeat constructor|]. intros _.
    exists best. eexists [_]. split; [done|reflexivity].
Qed.

Lemma scan_complete w w' :
  main env python_exe plt args w = (Ok 0, w') ->
  exists evs, log w' = log w ++ evs /\ scan_story (Ok 0) evs.
Proof using Hdry.
  intros Hrun.
  enough (Hm : does (W := Wd) (L := unit) (main env python_exe plt args) tt
                 (fun r _ evs => scan_story r evs)).
  { destruct (Hm w eq_refl) as (evs & Hl & Hs). rewrite Hrun in Hl, Hs. by exists evs. }
  assert (Hpre : forall pre r (l' : unit) evs, Forall any pre ->
    scan_story r evs -> scan_story r (pre ++ evs)) by (intros; by apply (scan_story_prefix _ _ tt)).
  unfold main.
  apply does_lift_bind; [done|]. intros channels Hch.
  apply does_lift_bind; [done|]. intros afes _.
  apply does_lift_bind; [done|]. intros vs Hvs.
  apply (does_emits any); [by apply emits_file|exact Hpre|done|intros _].
  apply (does_emits any); [by apply emits_file|exact Hpre|done|intros _].
  apply (does_emits any); [apply emits_gets|exact Hpre|done|intros now].
  apply (does_emits any); [|exact Hpre|done|intros readback].
  { destruct (skip_fe_readback args); [apply emits_ret|by apply emits_readback; [|intros _ ?]]. }
  apply (does_emits any); [by apply emits_file|exact Hpre|done|intros _].
  apply does_bind. eapply does_weaken.
  { eapply (does_with _ _ _ (fun r => forall c, r = Ok (Return c) -> c = 1));
      [apply emits_windows|]. intros w0 c. apply windows_leave. }
  intros [[windows|code]|e] [] e1 [_ Hleave]; [| |done]; cbn [after].
  - apply does_bind. eapply does_weaken; [apply does_scan_points|].
    intros [rss|e] [] e2 HQ; [|done]. cbn [after].
    eapply does_weaken; [apply does_finish|]. intros r [] e3 Hf Hr.
    destruct (HQ rss eq_refl) as (segs & -> & Hall). destruct (Hf Hr) as (o & post & -> & Hp & Ht).
    by exists channels, vs, e1, segs, rss, o, post.
  - apply does_ret. intros [= ->]. by specialize (Hleave 0 eq_refl).
Qed.

End scan_events.

(** ** A dry run *)

Section dry_scan.
Context `{NP : Numpy} {P : Type} `{MA : Machine P, RE : Reader P}.
Abbreviation Wd := (iow P).
Context (env : paths) (python_exe : string) (plt : bool) (args : scan_args).
Context (Hdry : dry_run args = true).
Implicit Types (l : unit).

(** The command of the pulser at a point is only written to its log. *)
Definition led_logged (intensity : Z) : event :=
  let b := biases_at args intensity in
  Ev (Write (path_join (point_dir_of args intensity) "led.log")
        (DText (with_newline (join " " (led_command env (led args) (fst b) (snd b)))))) (Ok 0).

(** Nothing is run, and what is returned satisfies [R]. *)
Definition quiet {A : Type} (R : A -> list event -> Prop) (r : result A) (evs : list event) : Prop :=
  Forall not_run evs /\ forall a, r = Ok a -> R a evs.

Lemma quiet_seq {A C : Type} (m : M Wd A) (k : A -> M Wd C) l (R : C -> list event -> Prop) :
  (forall a pre evs, R a evs -> R a (pre ++ evs)) ->
  emits (W := Wd) (L := unit) (fun l => l) not_run m ->
  (forall a, does (W := Wd) (L := unit) (k a) l (fun r _ evs => quiet R r evs)) ->
  does (W := Wd) (L := unit) (bind m k) l (fun r _ evs => quiet R r evs).
Proof using Type.
  intros Hpre Hm Hk. apply (does_emits not_run); [done| |by split|done].
  intros pre r l' evs Hp [He Hr]. split; [by apply Forall_app|]. intros a Ha. by apply Hpre, Hr.
Qed.

Lemma dry_start i dir : emits (W := Wd) (L := unit) (fun l => l) not_run (start_led env args i dir).
Proof using Hdry.
  apply emits_bind; [|intros [rc o]; apply emits_ret]. apply emits_run_cmd; [done|]. congruence.
Qed.

Lemma dry_monitors afes dir :
  emits (W := Wd) (L := unit) (fun l => l) not_run (monitor_bias env python_exe args afes dir).
Proof using Hdry. apply emits_map_m. intros afe. apply emits_bias_monitor; [done|]. congruence. Qed.

Lemma dry_acquire channels n dir l (Q : result (Z * list string) -> unit -> list event -> Prop) :
  (forall cmd path d, Q (Ok (0, cmd)) tt [Ev (Write path d) (Ok 0)]) ->
  (forall e path d, Q (Raise e) tt [Ev (Write path d) (Raise e)]) ->
  does (W := Wd) (L := unit) (acquire env python_exe args channels n dir) l Q.
Proof using Hdry.
  intros H1 H2. unfold acquire, run_acquire. rewrite Hdry.
  apply does_bind, does_file; [cbn [after]; apply does_ret; apply H1|intros e; apply H2].
Qed.

Lemma dry_point channels afes windows i l :
  does (W := Wd) (L := unit) (scan_point env python_exe plt args channels afes windows i) l
    (fun r _ evs => quiet (fun rs evs => rs = [] /\ led_logged i ∈ evs) r evs).
Proof using Hdry.
  assert (Hpre : forall (rs : list row) pre evs, rs = [] /\ led_logged i ∈ evs -> rs = [] /\ led_logged i ∈ pre ++ evs).
  { intros rs pre evs [? ?]. split; [done|]. apply elem_of_app. by right. }
  unfold scan_point. apply quiet_seq; [done|by apply emits_file|intros _].
  apply quiet_seq; [done|by apply emits_file|intros _]. apply quiet_seq; [done|apply emits_gets|intros now].
  unfold start_led, run_led. rewrite Hdry at 1.
  apply does_bind, does_bind, does_bind, does_file; [|by repeat constructor]. cbn [after].
  apply does_ret. cbn [after]. apply does_ret. cbn [after negb Z.eqb].
  assert (Hrest : forall (m : M Wd (list row)), does (W := Wd) (L := unit) m l (fun r _ evs => quiet (fun rs _ => rs = []) r evs) ->
    does (W := Wd) (L := unit) m l (fun r _ evs =>
      quiet (fun rs evs => rs = [] /\ led_logged i ∈ evs) r (([led_logged i] ++ []) ++ evs))).
  { intros m Hm. eapply does_weaken; [exact Hm|]. intros r l' evs [He Hr]. split; [by constructor|].
    intros rs Hrs. split; [by apply Hr|]. apply list_elem_of_here. }
  destruct l. eapply Hrest.
  apply quiet_seq; [done|apply emits_when; by apply emits_file|intros _].
  apply quiet_seq; [done|apply dry_monitors|intros monitors].
  apply does_bind, dry_acquire; [|intros ex path d; by repeat constructor]. intros cmd path d. cbn [after negb Z.eqb]. rewrite Hdry.
  apply does_bind, does_file; [|by repeat constructor]. cbn [after]. apply does_ret.
  split; [by repeat constructor|]. by intros rs [= <-].
Qed.

Lemma dry_points channels afes windows vs l :
  does (W := Wd) (L := unit) (map_m (scan_point env python_exe plt args channels afes windows) vs) l
    (fun r _ evs => quiet (fun rss evs => mjoin rss = [] /\ Forall (fun v => led_logged v ∈ evs) vs) r evs).
Proof using Hdry.
  induction vs as [|v vs IH]; cbn [map_m].
  - apply does_ret. split; [constructor|]. by intros rss [= <-].
  - apply does_bind. eapply does_weaken; [apply dry_point|]. intros [rs|e] [] e1 [He1 Hr]; [|by split].
    cbn [after]. apply does_bind. destruct l. eapply does_weaken; [apply IH|].
    intros [rss|e] [] e2 [He2 Hrs]; cbn [after]; [|split; [by apply Forall_app|done]].
    apply does_ret. rewrite app_nil_r. split; [by apply Forall_app|]. intros rss' [= <-].
    destruct (Hr rs eq_refl) as [-> Hin], (Hrs rss eq_refl) as [Hj Hall]. split; [exact Hj|]. constructor.
    + apply elem_of_app. by left.
    + eapply Forall_impl; [exact Hall|]. intros v' Hv. apply elem_of_app. by right.
Qed.

Lemma dry_windows channels afes l :
  does (W := Wd) (L := unit) (get_windows env python_exe plt args channels afes) l
    (fun r _ evs => quiet (fun f _ => exists ws, f = Next ws) r evs).
Proof using Hdry.
  unfold get_windows. destruct (decide _).
  - unfold calibration. apply quiet_seq; [done|by apply emits_file|intros _].
    apply quiet_seq; [done|by apply emits_file|intros _]. apply quiet_seq; [done|apply emits_gets|intros now].
    unfold start_led, run_led. rewrite Hdry at 1.
    apply does_bind, does_bind, does_bind, does_file; [|by repeat constructor]. cbn [after].
    apply does_ret. cbn [after]. apply does_ret. cbn [after negb Z.eqb].
    match goal with |- context [Ev ?a (Ok 0)] => set (ev := Ev a (Ok 0)) end.
    eapply (does_weaken (W := Wd) (L := unit) _ _ (fun r _ evs => quiet (fun f _ => exists ws, f = Next ws) r evs)).
    2:{ intros r l' evs [He Hr]. split; [by constructor|]. intros f Hf. by apply Hr. }
    destruct l. apply quiet_seq; [done|apply emits_when; by apply emits_file|intros _].
    apply quiet_seq; [done|apply dry_monitors|intros monitors].
    apply does_bind, dry_acquire; [|intros ex path d; by repeat constructor]. intros cmd path d. cbn [after negb Z.eqb]. rewrite Hdry.
    apply does_bind, does_file; [|by repeat constructor]. cbn [after]. apply does_ret.
    split; [by repeat constructor|]. intros f [= <-]. by eexists.
  - apply quiet_seq; [done|apply emits_gets|intros text]. apply quiet_seq; [done|apply emits_lift|intros ws].
    apply quiet_seq; [done|apply emits_lift|intros ws']. apply does_ret. split; [constructor|].
    intros f [= <-]. by eexists.
Qed.

(** What a dry run that ends with status [0] did. *)
Definition dry_story (r : Z) (evs : list event) : Prop :=
  r = 0 /\ exists vs, inclusive_range (intensity_start args) (intensity_stop args) (intensity_step args) = Ok vs /\
    Forall (fun v => led_logged v ∈ evs) vs.

Lemma dry_scan_complete w r w' :
  main env python_exe plt args w = (r, w') ->
  exists evs, log w' = log w ++ evs /\ quiet dry_story r evs.
Proof using Hdry.
  intros Hrun.
  enough (Hm : does (W := Wd) (L := unit) (main env python_exe plt args) tt (fun r _ evs => quiet dry_story r evs)).
  { destruct (Hm w eq_refl) as (evs & Hl & Hs). rewrite Hrun in Hl, Hs. by exists evs. }
  assert (Hpre : forall r pre evs, dry_story r evs -> dry_story r (pre ++ evs)).
  { intros r0 pre evs (Hr & vs & Hvs & Hall). split; [done|]. exists vs. split; [done|].
    eapply Forall_impl; [exact Hall|]. intros v Hv. apply elem_of_app. by right. }
  unfold main. apply quiet_seq; [done|apply emits_lift|intros channels].
  apply quiet_seq; [done|apply emits_lift|intros afes].
  apply does_lift_bind; [by split|]. intros vs Hvs.
  apply quiet_seq; [done|by apply emits_file|intros _]. apply quiet_seq; [done|by apply emits_file|intros _].
  apply quiet_seq; [done|apply emits_gets|intros now].
  apply quiet_seq; [done| |intros readback].
  { destruct (skip_fe_readback args); [apply emits_ret|]. apply emits_readback; [done|]. congruence. }
  apply quiet_seq; [done|by apply emits_file|intros _].
  apply does_bind. eapply does_weaken; [apply dry_windows|].
  intros [f|e] [] e1 [He1 Hf]; [|by split]. destruct (Hf f eq_refl) as [ws ->]. cbn [after].
  apply does_bind. eapply does_weaken; [apply dry_points|].
  intros [rss|e] [] e2 [He2 Hrss]; cbn [after]; [|split; [by apply Forall_app|done]].
  destruct (Hrss rss eq_refl) as [-> Hall]. unfold finish, run_led_stop. rewrite Hdry.
  apply does_bind, does_bind, does_bind, does_file.
  - cbn [after]. apply does_ret. cbn [after]. apply does_ret. cbn [after]. apply does_ret.
    split; [apply Forall_app; split; [done|]; apply Forall_app; split; [done|by repeat constructor]|].
    intros r0 [= <-]. split; [done|]. exists vs. split; [done|]. eapply Forall_impl; [exact Hall|].
    intros v Hv. apply elem_of_app. right. apply elem_of_app. by left.
  - intros e. split; [|done]. apply Forall_app; split; [done|]; apply Forall_app; split; [done|by repeat constructor].
Qed.

End dry_scan.

(** C16. A scan that ends with status 0 went through every intensity in order: each point first
    set the pulser to its biases, acquired only when that succeeded, and added rows, one per
    channel, only when the acquisition succeeded too.  After the last point the last program
    run is the one that stops the pulser.  The tables hold all the rows and the best of each
    channel.  With [--dry-run] no program is run at all, not even the one that stops the pulser; the
    status is 0, and the command of the pulser at each intensity is in its log. *)
Theorem intensity_scan_correct `{NP : Numpy} {P : Type} `{MA : Machine P, RE : Reader P}
    env python_exe plt args (w w' : iow P) :
  main env python_exe plt args w = (Ok 0, w') ->
  exists evs, log w' = log w ++ evs /\
    (dry_run args = false -> scan_story env python_exe args (Ok 0) evs) /\
    (dry_run args = true -> Forall not_run evs /\ dry_story env args 0 evs).
Proof.
  intros Hrun. destruct (dry_run args) eqn:Hdry.
  - destruct (dry_scan_complete env python_exe plt args Hdry w (Ok 0) w' Hrun) as (evs & Hl & He & Hs).
    exists evs. split_and!; [done|done|]. intros _. split; [done|]. by apply Hs.
  - destruct (scan_complete env python_exe plt args Hdry w w' Hrun) as (evs & Hl & Hs). by exists evs.
Qed.

(** ** Examples *)

#[local] Existing Instance plain_numpy.

Definition example_led : led_options := {|
  led_client := "/bin/led_run"; led_stop_client := "/bin/led_stop"; led_config := "led.json";
  led_host := "127.0.0.1"; led_port := 55001; led_ssh_tunnel := "";
  led_ssh_tunnel_remote_host := "10.73.137.61"; led_ssh_tunnel_remote_port := 55002;
  led_timeout_s := "5.0"; led_channel_mask := 1; led_number_channels := 12;
  led_pulse_width_ticks := 1 |}.

Definition example_scan : scan_args := {|
  output_dir := "/out"; sc_channels := "4,5"; host := "127.0.0.1"; port := 40113;
  sc_route := "mezz/0"; waveforms := 3; calibration_waveforms := 2; waveform_len := 12;
  sc_timeout_ms := 30000; software_trigger := false; scan_wavelength := "270";
  intensity_start := 50; intensity_stop := 120; intensity_step := 50;
  calibration_intensity := 1500; target_signal_fraction := f_decimal false 5 (-1);
  led := example_led; fixed_bias_270nm := 0; fixed_bias_367nm := 7;
  settle_s := f_decimal false 5 (-1); bias_monitor_afes := "0"; bias_monitor_board := "";
  bias_monitor_timeout_ms := 4000; charge_windows_json := ""; charge_baseline_start := 0;
  charge_baseline_stop := 5; charge_search_start := 4; charge_search_stop := 12;
  charge_onset_fraction := f_decimal false 2 (-1); charge_window_anchor := "peak";
  charge_pre_samples := 1; charge_post_samples := 3; charge_window_offset := 0;
  charge_window_len := 4; charge_clip_negative := false; charge_hist_bins := 120;
  interpret := "signed"; skip_fe_readback := true; dry_run := false |}.

(** Every program succeeds but the one with the number [bad]; every channel file holds the same
    three pulses. *)
Definition lab (bad : nat) : Machine nat := {|
  run_program n cmd := (S n, Ok (Proc (if (Nat.eqb n bad) then 1 else 0) "done" ""));
  file_op n _ := (n, Ok tt);
  utc_now _ := "2025-01-01T00:00:00+00:00" |}.

#[local] Instance same_files : Reader nat := {
  read_words _ _ := Ok (mjoin (replicate 3
    [100; 100; 101; 99; 100; 100; 150; 400; 700; 500; 200; 120]));
  read_doc _ _ := Ok "{}" }.

Definition example_paths : paths := Paths (fun p => p) "/daphne/client" "/daphne".

(** The second of three points is not acquired (program 8). *)
Definition example_run : result Z * iow nat :=
  main (MA := lab 8) example_paths "python3" false example_scan (IOW 0%nat []).

Lemma pair_fst {A C : Type} (p : A * C) a : fst p = a -> p = (a, snd p).
Proof. by destruct p; intros <-. Qed.

Lemma intensity_scan_correct_witness :
  dry_run example_scan = false /\ length (log (snd example_run)) = 51%nat /\
  exists evs, log (snd example_run) = [] ++ evs /\
    (dry_run example_scan = false -> scan_story example_paths "python3" example_scan (Ok 0) evs) /\
    (dry_run example_scan = true -> Forall not_run evs /\ dry_story example_paths example_scan 0 evs).
Proof.
  split; [reflexivity|]. split; [vm_compute; reflexivity|].
  apply (intensity_scan_correct (MA := lab 8) example_paths "python3" false example_scan
           (IOW 0%nat [])).
  apply pair_fst. vm_compute. reflexivity.
Defined.

(** The calibration capture fails (program 2, after the pulser and the bias monitor): the scan
    gives up with status 1 and leaves the pulser on, which the sweep over VGAIN would not. *)
Theorem failed_calibration_leaves_led_on :
  let '(r, w') := main (MA := lab 2) example_paths "python3" false example_scan (IOW 0%nat []) in
  r = Ok 1 /\ Ev (led_cmd example_paths example_scan 1500) (Ok 0) ∈ log w' /\
  Forall (fun e => ev_action e <> stop_cmd example_paths example_scan) (log w').
Proof.
  set (m := main _ _ _ _ _).
  assert (Hm : fst m = Ok 1 /\ exists pre post,
    log (snd m) = pre ++ Ev (led_cmd example_paths example_scan 1500) (Ok 0) :: post /\
    Forall (fun e => head (match ev_action e with Run cmd => cmd | _ => [] end)
                     <> Some "/bin/led_stop") (log (snd m))).
  { vm_compute. split; [reflexivity|]. eexists [_; _; _; _; _], _. split; [reflexivity|].
    by repeat constructor. }
  destruct m as [r w']. destruct Hm as (Hr & pre & post & Hl & Hall). cbn [fst snd] in *.
  split_and!; [done|rewrite Hl; apply elem_of_app; right; apply list_elem_of_here|].
  eapply Forall_impl; [exact Hall|]. intros [a o] Hh Ha. cbn in *. by rewrite Ha in Hh.
Qed.

Definition example_table : list row :=
  [[("channel", PyInt 4); ("signal_fraction", PyFloat (f_of_Z 1));
    ("balance_error", PyFloat (f_decimal false 2 (-1))); ("snr_estimate", PyFloat (f_of_Z 3))];
   [("channel", PyInt 4); ("signal_fraction", PyFloat (f_of_Z 1));
    ("balance_error", PyFloat (f_decimal false 1 (-1))); ("snr_estimate", PyNone)];
   [("channel", PyStr "5"); ("signal_fraction", PyNone)];
   [("channel", PyInt 4); ("signal_fraction", PyFloat (f_of_Z 1));
    ("balance_error", PyFloat (f_decimal false 1 (-1))); ("snr_estimate", PyFloat (f_of_Z 2))]].

Lemma choose_best_by_channel_correct_witness :
  exists best, choose_best_by_channel example_table = Ok best /\ best = drop 3 example_table /\
    exists chosen : list (Z * row),
      best = snd <$> chosen /\ StronglySorted Z.lt (fst <$> chosen) /\
      (forall ch, ch ∈ fst <$> chosen <-> exists r, r ∈ valid_of ch example_table) /\
      Forall (fun cb => best_of example_table (fst cb) (snd cb)) chosen.
Proof.
  exists (drop 3 example_table). split; [vm_compute; reflexivity|]. split; [reflexivity|].
  apply (choose_best_by_channel_correct example_table).
  - repeat constructor; intros Hv;
      first [by vm_compute in Hv
            |eexists; split; [vm_compute; reflexivity|split; eexists; vm_compute; reflexivity]].
  - vm_compute. reflexivity.
Defined.
