(* ===== verification/RunFiles.v ===== *)
(** The run directories of the LED scans: [client/dynamic_range_led/merge_led_intensity_runs.py]
    and [client/dynamic_range_led/monitor_led_run.py].

    A run directory holds a manifest, the point directories and other files.  A symbolic link to
    a point shares its contents, which no script changes after the scan.  [str] of decoded
    values other than integers, strings, booleans and [None], and [f"{x:5.1f}"], are parameters. *)
From S2P Require Import Prelude PyStr PyFloat PyVal ChannelSpec JsonText FeConfig FeMain.
From S2P Require Import ScanRuntime ChargeWindows IntensityScan.

(** ** Directories *)

(** A point directory: the text of [metadata.json] with its modification time, and the text of
    [analysis.json], when they exist. *)
Record point_files : Type := Point {
  metadata_json : option (string * float); analysis_json : option string }.

Record run_files : Type := RunDir {
  manifest_json : option string; points : gmap string point_files; others : gmap string doc }.

Abbreviation disk := (gmap string run_files).

Definition not_found (path : string) : exn :=
  Exn (OSError 2) ("No such file or directory: '" +:+ path +:+ "'").

(** [load_json] of a text that may be missing. *)
Definition load_json (path : string) (text : option string) : result pyval :=
  match text with
  | Some s => json_loads s
  | None => Raise (not_found path)
  end.

Definition is_complete_point (p : point_files) : bool :=
  match metadata_json p, analysis_json p with
  | Some _, Some _ => true
  | _, _ => false
  end.

(** ** Order and equality of Python values *)

(** [a <= b] of strings *)
Definition str_le (a b : string) : Prop := String.leb a b = true.

#[export] Instance str_le_dec : RelDecision str_le.
Proof. intros a b. unfold str_le. apply _. Defined.

#[export] Instance str_le_total : Total str_le.
Proof. intros a b. apply String.leb_total. Qed.

Lemma str_le_cons c a d b :
  str_le (String c a) (String d b) <->
  (N_of_ascii c < N_of_ascii d)%N \/ (c = d /\ str_le a b).
Proof.
  unfold str_le, String.leb. cbn [String.compare]. unfold Ascii.compare.
  destruct (N.compare_spec (N_of_ascii c) (N_of_ascii d)) as [He|Hlt|Hgt].
  - split; [intros H; right; split; [|done]|].
    + by rewrite <- (ascii_N_embedding c), He, ascii_N_embedding.
    + intros [H|[_ H]]; [lia|done].
  - split; [by left|done].
  - split; [done|]. intros [H|[-> _]]; lia.
Qed.

#[export] Instance str_le_trans : Transitive str_le.
Proof.
  intros a. induction a as [|c a IH]; intros [|d b] [|e x] H1 H2; try done.
  rewrite str_le_cons in *. destruct H1 as [H1|[-> H1]], H2 as [H2|[-> H2]].
  - left. lia.
  - by left.
  - by left.
  - right. split; [done|]. by apply (IH b).
Qed.

(** The integer [z] equals the float [x]. *)
Definition int_eq_float (z : Z) (x : float) : bool :=
  match x with
  | S754_zero _ => z =? 0
  | S754_finite s m e =>
      let v := if s then Zneg m else Zpos m in
      if 0 <=? e then z =? v * 2 ^ e else z * 2 ^ (- e) =? v
  | _ => false
  end.

Definition num_of (v : pyval) : option (Z + float) :=
  match v with
  | PyInt z => Some (inl z)
  | PyBool b => Some (inl (Z.b2z b))
  | PyFloat x => Some (inr x)
  | _ => None
  end.

Definition num_eqb (a b : Z + float) : bool :=
  match a, b with
  | inl x, inl y => x =? y
  | inl x, inr y | inr y, inl x => int_eq_float x y
  | inr x, inr y => f_eqb x y
  end.

(** [a == b] *)
Fixpoint py_eqb (a b : pyval) {struct a} : bool :=
  match a, b with
  | PyNone, PyNone => true
  | PyStr s, PyStr t => bool_decide (s = t)
  | PyList la, PyList lb =>
      (fix go (xs ys : list pyval) : bool :=
         match xs, ys with
         | [], [] => true
         | x :: xs', y :: ys' => py_eqb x y && go xs' ys'
         | _, _ => false
         end) la lb
  | PyDict da, PyDict db =>
      Nat.eqb (length da) (length db) &&
      (fix go (d : list (string * pyval)) : bool :=
         match d with
         | [] => true
         | (k, v) :: d' => match lookup_key db k with
                           | Some w => py_eqb v w && go d'
                           | None => false
                           end
         end) da
  | _, _ => match num_of a, num_of b with
            | Some x, Some y => num_eqb x y
            | _, _ => false
            end
  end.

(** ** [merge_led_intensity_runs] *)

Definition config_keys : list string :=
  ["channels"; "scan_wavelength"; "waveforms"; "waveform_len"; "led_channel_mask";
   "pulse_width_ticks"; "host"; "port"; "route"].

(** The keys on which two manifests differ. *)
Definition mismatches (base manifest : pyval) : result (list string) :=
  ms <-! rmap (fun k => a <-! dict_get manifest k PyNone ;; b <-! dict_get base k PyNone ;;
                        Ok (k, py_eqb a b)) config_keys ;;
  Ok (fst <$> filter (fun kb => snd kb = false) ms).

Definition ensure_same_config (manifests : list pyval) : result unit :=
  match manifests with
  | [] => Raise (Exn IndexError "list index out of range")
  | base :: rest =>
      _ <-! rmap (fun im =>
        ms <-! mismatches base (snd im) ;;
        match ms with
        | [] => Ok tt
        | _ => Raise (Exn ValueError ("Run #" +:+ str_Z (Z.of_nat (fst im) + 2)
                        +:+ " has incompatible manifest fields: " +:+ join ", " ms))
        end) (imap pair rest) ;;
      Ok tt
  end.

(** [sorted(points.glob("intensity_*"))] *)
Definition is_intensity (name : string) : Prop := is_Some (strip_prefix "intensity_" name).

#[export] Instance is_intensity_dec name : Decision (is_intensity name).
Proof. unfold is_intensity. apply _. Defined.

Definition name_le (a b : string * point_files) : Prop := str_le (fst a) (fst b).

#[export] Instance name_le_dec : RelDecision name_le.
Proof. intros a b. unfold name_le. apply _. Defined.

Definition intensity_dirs (ps : gmap string point_files) : list (string * point_files) :=
  merge_sort name_le
    (filter (fun np => is_intensity (fst np)) (map_to_list ps)).

(** [int(name.split("_", 1)[1])] *)
Definition intensity_of (name : string) : result Z :=
  match split_once "_" name with
  | Some (_, suffix) => int10 suffix
  | None => Raise (Exn IndexError "list index out of range")
  end.

(** The points chosen so far: the name, the run they come from and their contents; and the
    complete intensities of each run. *)
Record selection : Type := Selection {
  selected : gmap Z (string * string * point_files); complete : list Z }.

Definition select_point (run_dir : string) (s : selection) (np : string * point_files)
    : result selection :=
  intensity <-! intensity_of (fst np) ;;
  if is_complete_point (snd np)
  then Ok (Selection (<[intensity := (fst np, run_dir, snd np)]> (selected s))
             (complete s ++ [intensity]))
  else Ok s.

(** One run: its complete points replace those of the runs before it. *)
Definition select_run (acc : gmap Z (string * string * point_files) * list (string * list Z))
    (run : string * run_files)
    : result (gmap Z (string * string * point_files) * list (string * list Z)) :=
  s <-! rfold (select_point (fst run)) (intensity_dirs (points (snd run)))
          (Selection (fst acc) []) ;;
  Ok (selected s, snd acc ++ [(fst run, complete s)]).

Definition merged_name (intensity : Z) : string := "intensity_" +:+ dec_pad 4 intensity.

Section merge.
Context (str_other : pyval -> string).

(** [str(v)] *)
Definition py_str (v : pyval) : string :=
  match v with
  | PyInt z => str_Z z
  | PyStr s => s
  | PyBool b => if b then "True" else "False"
  | PyNone => "None"
  | _ => str_other v
  end.

(** The row of a channel in [build_point_rows]. *)
Definition merged_row (analysis : pyval) (intensity : Z) (scan_wavelength point_dir : string)
    (ch : pyval) : result row :=
  ch_data <-! ChargeWindows.item analysis (py_str ch) ;;
  metrics <-! ChargeWindows.item ch_data "metrics" ;;
  sf <-! dict_get metrics "signal_fraction" PyNone ;;
  be <-! dict_get metrics "balance_error" PyNone ;;
  sn <-! dict_get metrics "snr_estimate" PyNone ;;
  th <-! dict_get metrics "threshold_charge" PyNone ;;
  i0 <-! ChargeWindows.item ch_data "integrate_start" ;;
  i1 <-! ChargeWindows.item ch_data "integrate_stop" ;;
  pk <-! ChargeWindows.item ch_data "peak_index" ;;
  on <-! ChargeWindows.item ch_data "onset_index" ;;
  Ok [("channel", ch); ("intensity", PyInt intensity); ("scan_wavelength", PyStr scan_wavelength);
      ("signal_fraction", sf); ("balance_error", be); ("snr_estimate", sn);
      ("threshold_charge", th); ("integrate_start", i0); ("integrate_stop", i1);
      ("peak_index", pk); ("onset_index", on); ("output_dir", PyStr point_dir)].

Definition build_point_rows (points_dir : string) (ps : gmap string point_files)
    (channels : list pyval) (scan_wavelength : string) : result (list row) :=
  rows <-! rmap (fun np =>
    if is_complete_point (snd np) then
      intensity <-! intensity_of (fst np) ;;
      let dir := path_join points_dir (fst np) in
      doc <-! load_json (path_join dir "analysis.json") (analysis_json (snd np)) ;;
      analysis <-! ChargeWindows.item doc "analysis" ;;
      rmap (merged_row analysis intensity scan_wavelength dir) channels
    else Ok []) (intensity_dirs ps) ;;
  Ok (mjoin rows).

(** Reading and changing the disk. *)
Definition run_at (path : string) : M disk run_files :=
  d <- get ;;
  match d !! path with
  | Some r => ret r
  | None => raise (not_found path)
  end.

Definition update_run (path : string) (f : run_files -> run_files) : M disk unit :=
  modify (fun d => alter f path d).

Definition put_file (path name : string) (c : doc) : M disk unit :=
  update_run path (fun r => RunDir (manifest_json r) (points r) (<[name := c]> (others r))).

(** The manifest of the merged run; its text is what [json.dumps] gives. *)
Definition merged_manifest (dumps : pyval -> string) (base : list (string * pyval))
    (now : string) (run_dirs : list string) (intensities : list Z) : string :=
  let vs := PyList (PyInt <$> intensities) in
  dumps (PyDict (dict_put (dict_put (dict_put (dict_put base "intensity_values" vs)
    "created_utc" (PyStr now)) "merged_from_runs" (PyList (PyStr <$> run_dirs)))
    "merged_complete_intensities" vs)).

Definition link_points (sel : gmap Z (string * string * point_files)) : gmap string point_files :=
  list_to_map ((fun e => (merged_name (fst e), snd (snd e))) <$> sorted_entries sel).

Definition main (dumps : pyval -> string) (now output_dir : string) (run_dirs : list string)
    : M disk Z :=
  manifests <- map_m (fun d =>
    w <- get ;;
    lift (load_json (path_join d "scan_manifest.json")
            (r ← w !! d; manifest_json r))) run_dirs ;;
  lift (ensure_same_config manifests) ;;;
  exists_ <- gets (fun d => bool_decide (is_Some (d !! output_dir))) ;;
  when exists_ (raise (Exn FileExistsError ("Output directory already exists: " +:+ output_dir))) ;;;
  modify (<[output_dir := RunDir None ∅ ∅]>) ;;;
  base <- lift (match manifests with
                | PyDict d :: _ => Ok d
                | _ => Raise (type_error "cannot convert to a dict")
                end) ;;
  runs <- gets (fun d => (fun p => (p, default (RunDir None ∅ ∅) (d !! p))) <$> run_dirs) ;;
  '(sel, sources) <- lift (rfold select_run runs (∅, [])) ;;
  update_run output_dir (fun r => RunDir (manifest_json r) (link_points sel) (others r)) ;;;
  let intensities := fst <$> sorted_entries sel in
  update_run output_dir (fun r =>
    RunDir (Some (merged_manifest dumps base now run_dirs intensities)) (points r) (others r)) ;;;
  put_file output_dir "merge_info.json" (DJson (PyDict
    [("created_utc", PyStr now); ("output_dir", PyStr output_dir);
     ("sources", PyList ((fun rc => PyDict [("run_dir", PyStr (fst rc));
        ("complete_intensities", PyList (PyInt <$> snd rc))]) <$> sources));
     ("selected_sources", PyDict ((fun e => (str_Z (fst e), PyStr (snd (fst (snd e)))))
        <$> sorted_entries sel))])) ;;;
  for_each ["fe_state_readback.json"; "fe_state_readback.log"] (fun name =>
    src <- gets (fun d => p ← head run_dirs; r ← d !! p; others r !! name) ;;
    match src with Some c => put_file output_dir name c | None => ret tt end) ;;;
  stop <- gets (fun d => head (omap (fun p => r ← d !! p; others r !! "led_stop.log") (reverse run_dirs))) ;;
  match stop with Some c => put_file output_dir "led_stop.log" c | None => ret tt end ;;;
  channels_v <- lift (ChargeWindows.item (PyDict base) "channels") ;;
  channels <- lift (py_iter channels_v) ;;
  wavelength <- lift (ChargeWindows.item (PyDict base) "scan_wavelength") ;;
  merged <- run_at output_dir ;;
  rows <- lift (build_point_rows (path_join output_dir "points") (points merged) channels
                  (py_str wavelength)) ;;
  match rows with
  | [] => ret 0
  | _ =>
      put_file output_dir "summary_by_point.csv" (DCsv point_fields rows) ;;;
      best <- lift (choose_best_by_channel rows) ;;
      put_file output_dir "best_by_channel.csv" (DCsv point_fields best) ;;;
      ret 0
  end.

End merge.

(** ** [monitor_led_run] *)

(** [planned_points] *)
Fixpoint first_list (manifest : pyval) (keys : list string) : result (option Z) :=
  match keys with
  | [] => Ok None
  | k :: keys' =>
      v <-! dict_get manifest k PyNone ;;
      match v with
      | PyList l => Ok (Some (Z.of_nat (length l)))
      | _ => first_list manifest keys'
      end
  end.

Definition planned_points (manifest : pyval) : result (option Z) :=
  first_list manifest ["intensity_values"; "vgain_values"; "offset_values"; "points"].

Definition maxsize : Z := 2 ^ 63 - 1.

(** [point_sort_key] *)
Definition last_part (name : string) : string := default "" (last (split_on "_" name)).

Definition point_sort_key (name : string) : Z * string :=
  match int10 (last_part name) with
  | Ok n => (n, name)
  | Raise _ => (maxsize, name)
  end.

Definition key_order (a b : string * point_files) : Prop :=
  let '(n, s) := point_sort_key (fst a) in
  let '(m, t) := point_sort_key (fst b) in
  n < m \/ (n = m /\ str_le s t).

#[export] Instance key_order_dec : RelDecision key_order.
Proof.
  intros a b. unfold key_order. destruct (point_sort_key (fst a)), (point_sort_key (fst b)).
  apply _.
Defined.

(** What the loop over the points has gathered. *)
Record progress : Type := Progress {
  counts : gmap string Z; latest_point : string; latest_status : string;
  newest_mtime : float; newest_file : string }.

Definition bump (c : gmap string Z) (k : string) : gmap string Z :=
  <[k := default 0 (c !! k) + 1]> c.

Definition done_status : string := "analyzed".
Definition active_statuses : list string := ["started"; "captured"].

Definition is_active (s : string) : bool := bool_decide (s ∈ active_statuses).
Definition is_done (s : string) : bool := bool_decide (s = done_status).

Record snapshot : Type := Snapshot {
  sn_run_dir : string; sn_planned : option Z; seen_points : Z; done_points : Z;
  active_points : Z; failed_points : Z; status_counts : list (string * Z);
  sn_latest_point : string; sn_latest_status : string; most_recent : string;
  sn_created_utc : pyval; sn_scan_type : pyval; sn_active : list string }.

(** The sum of the counts a predicate selects. *)
Definition count_if (p : string -> bool) (c : gmap string Z) : Z :=
  foldr Z.add 0 (snd <$> filter (fun kv => p (fst kv) = true) (map_to_list c)).

Definition status_le (a b : string * Z) : Prop := str_le (fst a) (fst b).

#[export] Instance status_le_dec : RelDecision status_le.
Proof. intros a b. unfold status_le. apply _. Defined.

(** [a or b] *)
Definition py_or (a b : pyval) : pyval := if truthy a then a else b.

Section watch.
Context (str_other : pyval -> string).

Definition visit (run_dir : string) (s : progress) (np : string * point_files) : result progress :=
  let '(name, p) := np in
  match metadata_json p with
  | None => Ok (Progress (bump (counts s) "no_metadata") name "no_metadata" (newest_mtime s)
                  (newest_file s))
  | Some (text, mtime) =>
      data <-! json_loads text ;;
      v <-! dict_get data "status" (PyStr "unknown") ;;
      let status := py_str str_other v in
      let newer := f_ltb (newest_mtime s) mtime in
      Ok (Progress (bump (counts s) status) name status
            (if newer then mtime else newest_mtime s) (if newer then name else newest_file s))
  end.

Definition collect (run_dir : string) (r : run_files) : result snapshot :=
  manifest <-! (match manifest_json r with
                | Some text => json_loads text
                | None => Ok (PyDict [])
                end) ;;
  s <-! rfold (visit run_dir) (merge_sort key_order (map_to_list (points r)))
          (Progress ∅ "-" "-" (S754_zero false) "-") ;;
  planned <-! planned_points manifest ;;
  created <-! dict_get manifest "created_utc" PyNone ;;
  wl <-! dict_get manifest "scan_wavelength" PyNone ;;
  ty <-! dict_get manifest "type" PyNone ;;
  let c := counts s in
  let statuses := merge_sort status_le (map_to_list c) in
  Ok {| sn_run_dir := run_dir; sn_planned := planned; seen_points := count_if (fun _ => true) c;
        done_points := default 0 (c !! done_status);
        active_points := default 0 (c !! "started") + default 0 (c !! "captured");
        failed_points := count_if (fun k => negb (is_done k || is_active k)) c;
        status_counts := statuses; sn_latest_point := latest_point s;
        sn_latest_status := latest_status s; most_recent := newest_file s;
        sn_created_utc := created; sn_scan_type := py_or wl (py_or ty (PyStr "unknown"));
        sn_active := filter (fun k => is_active k = true) (fst <$> statuses) |}.

Definition snapshot_json (s : snapshot) : pyval :=
  PyDict [("run_dir", PyStr (sn_run_dir s));
          ("planned_points", match sn_planned s with Some n => PyInt n | None => PyNone end);
          ("seen_points", PyInt (seen_points s)); ("done_points", PyInt (done_points s));
          ("active_points", PyInt (active_points s)); ("failed_points", PyInt (failed_points s));
          ("status_counts", PyDict ((fun kn => (fst kn, PyInt (snd kn))) <$> status_counts s));
          ("latest_point", PyStr (sn_latest_point s)); ("latest_status", PyStr (sn_latest_status s));
          ("most_recent_metadata_point", PyStr (most_recent s));
          ("created_utc", sn_created_utc s); ("scan_type", sn_scan_type s);
          ("active_statuses", PyList (PyStr <$> sn_active s))].

Fixpoint spaces (n : nat) : string := match n with O => "" | S k => String " " (spaces k) end.

(** [f"{s:>12}"] *)
Definition align12 (s : string) : string := spaces (12 - String.length s) +:+ s.

(** [render_text]; [fixed51] is [f"{x:5.1f}"]. *)
Definition render_text (fixed51 : float -> string) (s : snapshot) : result string :=
  percent <-! match sn_planned s with
              | Some n => if n =? 0 then Ok ""
                          else x <-! f_div (f_mul (f_of_Z 100) (f_of_Z (done_points s))) (f_of_Z n) ;;
                               Ok (" (" +:+ fixed51 x +:+ "%)")
              | None => Ok ""
              end ;;
  Ok (join (String (char 10) "")
    (["run_dir: " +:+ sn_run_dir s;
      "planned: " +:+ match sn_planned s with Some n => str_Z n | None => "-" end;
      "seen:    " +:+ str_Z (seen_points s);
      "done:    " +:+ str_Z (done_points s) +:+ percent;
      "active:  " +:+ str_Z (active_points s);
      "failed:  " +:+ str_Z (failed_points s);
      "latest:  " +:+ sn_latest_point s +:+ " [" +:+ sn_latest_status s +:+ "]";
      "recent:  " +:+ most_recent s; "statuses:"]
     ++ match status_counts s with
        | [] => ["  (no points yet)"]
        | l => (fun kn => "  " +:+ align12 (fst kn) +:+ ": " +:+ str_Z (snd kn)) <$> l
        end)).

(** [main] with [--once] on a directory that may not exist: its output and exit status. *)
Definition watch_once (fixed51 : float -> string) (as_json : bool) (run_dir : string)
    (r : option run_files) : result ((string + pyval) * Z) :=
  match r with
  | None => Ok (inl ("run directory not found: " +:+ run_dir), 2)
  | Some r =>
      s <-! collect run_dir r ;;
      if as_json then Ok (inr (snapshot_json s), 0)
      else t <-! render_text fixed51 s ;; Ok (inl t, 0)
  end.

End watch.

(** ** Names of points *)

Lemma zeros_digits n s : str_all is_digit s = true -> str_all is_digit (zeros n +:+ s) = true.
Proof. induction n as [|n IH]; intros Hs; [done|]. cbn. by apply IH. Qed.

Lemma digits_zeros n s :
  s <> "" -> str_all is_digit s = true -> digits 10 (zeros n +:+ s) 0 true = digits 10 s 0 true.
Proof.
  intros Hne Hs. assert (Hus : digits 10 s 0 false = digits 10 s 0 true).
  { destruct s as [|c t]; [done|]. cbn in Hs. apply andb_prop in Hs as [Hc _]. cbn [digits].
    destruct (Ascii.eqb_spec c "_") as [->|]; [done|done]. }
  induction n as [|n IH]; [done|].
  change (digits 10 (zeros n +:+ s) 0 false = digits 10 s 0 true).
  destruct n as [|n]; [exact Hus|]. exact IH.
Qed.

Lemma unsigned10_pad n z : 0 <= z -> unsigned10 (zeros n +:+ str_Z z) = Some z.
Proof.
  intros Hz. unfold unsigned10. rewrite digits_zeros by auto with py.
  destruct (str_Z_nonneg_uint z Hz) as (d & Hd & -> & Hz'). rewrite digits_uint by done. by rewrite Hz'.
Qed.

(** [int(f"{z:0wd}") == z] *)
Lemma int10_dec_pad w z : int10 (dec_pad w z) = Ok z.
Proof.
  unfold dec_pad. destruct (Z.ltb_spec z 0) as [Hz|Hz].
  - set (n := (w - 1 - _)%nat). unfold int10, int_of. rewrite strip_id.
    + change (signed unsigned10 ("-" +:+ zeros n +:+ str_Z (- z)))
        with (Z.opp <$> unsigned10 (zeros n +:+ str_Z (- z))).
      rewrite unsigned10_pad by lia. cbn. by rewrite Z.opp_involutive.
    + rewrite str_all_app. apply andb_true_intro. split; [done|].
      eapply str_all_impl; [apply digit_not_space|]. apply zeros_digits, str_Z_digits. lia.
  - apply int10_digits; [by apply zeros_digits, str_Z_digits|]. by apply unsigned10_pad.
Qed.

(** The name of a merged point tells its intensity. *)
Lemma intensity_of_merged i : intensity_of (merged_name i) = Ok i.
Proof. unfold intensity_of, merged_name. cbn. apply int10_dec_pad. Qed.

#[export] Instance merged_name_inj : Inj (=) (=) merged_name.
Proof.
  intros i j He. pose proof (intensity_of_merged i) as Hi. rewrite He, intensity_of_merged in Hi.
  by injection Hi.
Qed.

Lemma is_intensity_merged i : is_intensity (merged_name i).
Proof. unfold is_intensity, merged_name. cbn. by eexists. Qed.

(** ** Counting *)

Lemma count_if_perm p (l l' : list (string * Z)) :
  l ≡ₚ l' ->
  foldr Z.add 0 (snd <$> filter (fun kv => p (fst kv) = true) l) =
  foldr Z.add 0 (snd <$> filter (fun kv => p (fst kv) = true) l').
Proof.
  induction 1 as [|[k v] l l' Hl IH|[k v] [k' v'] l|l l' l'' H1 IH1 H2 IH2]; try done.
  - rewrite !filter_cons. destruct (decide _); cbn; by rewrite IH.
  - rewrite !filter_cons. destruct (decide _), (decide _); cbn; lia.
  - by rewrite IH1.
Qed.

Lemma count_if_insert p m k n :
  m !! k = None -> count_if p (<[k := n]> m) = count_if p m + (if p k then n else 0).
Proof.
  intros Hk. unfold count_if. rewrite (count_if_perm p _ _ (map_to_list_insert m k n Hk)).
  rewrite filter_cons. cbn [fst].
  destruct (p k); [rewrite decide_True by done|rewrite decide_False by done]; cbn; lia.
Qed.

Lemma count_if_bump p m k : count_if p (bump m k) = count_if p m + (if p k then 1 else 0).
Proof.
  unfold bump. destruct (m !! k) as [n|] eqn:Hk; cbn.
  - rewrite <- insert_delete_eq, count_if_insert by apply lookup_delete_eq.
    assert (Hm : m = <[k := n]> (delete k m)) by (by rewrite insert_delete_eq, insert_id).
    rewrite Hm at 2. rewrite count_if_insert by apply lookup_delete_eq. destruct (p k); lia.
  - rewrite count_if_insert by done. destruct (p k); lia.
Qed.

Lemma lookup_bump m k j : default 0 (bump m k !! j) = default 0 (m !! j) + (if decide (k = j) then 1 else 0).
Proof.
  unfold bump. destruct (decide (k = j)) as [->|Hne].
  - by rewrite lookup_insert_eq.
  - rewrite lookup_insert_ne by done. lia.
Qed.

Lemma count_if_split p q1 q2 m :
  (forall k, p k = q1 k || q2 k) -> (forall k, q1 k && q2 k = false) ->
  count_if p m = count_if q1 m + count_if q2 m.
Proof.
  intros Hp Hq. unfold count_if. induction (map_to_list m) as [|[k n] l IH]; [done|].
  rewrite !filter_cons. cbn [fst]. rewrite (Hp k). specialize (Hq k).
  destruct (q1 k), (q2 k); try done; cbn [orb] in *;
    repeat first [rewrite (decide_True (P := true = true)) by done
                 |rewrite (decide_False (P := false = true)) by done]; cbn; lia.
Qed.

Lemma count_if_single m k : count_if (fun j => bool_decide (j = k)) m = default 0 (m !! k).
Proof.
  induction m as [|j n m Hj IH] using map_ind; [done|].
  rewrite count_if_insert by done. destruct (decide (j = k)) as [->|Hne].
  - rewrite lookup_insert_eq, bool_decide_eq_true_2, IH, Hj by done. cbn. lia.
  - rewrite lookup_insert_ne, bool_decide_eq_false_2, IH by done. lia.
Qed.

Section counting.
Context (str_other : pyval -> string).

Lemma is_active_or k : is_active k = bool_decide (k = "started") || bool_decide (k = "captured").
Proof using Type.
  apply eq_true_iff_eq. unfold is_active, active_statuses.
  rewrite orb_true_iff, !bool_decide_eq_true, !elem_of_cons, elem_of_nil. tauto.
Qed.

Lemma list_filter_all {A : Type} (Q : A -> Prop) `{!forall x, Decision (Q x)} (l : list A) :
  Forall Q l -> filter Q l = l.
Proof using Type.
  induction 1 as [|x l Hx Hl IH]; [done|]. by rewrite filter_cons_True, IH.
Qed.

Lemma list_filter_none {A : Type} (Q : A -> Prop) `{!forall x, Decision (Q x)} (l : list A) :
  Forall (fun x => ~ Q x) l -> filter Q l = [].
Proof using Type.
  induction 1 as [|x l Hx Hl IH]; [done|]. by rewrite filter_cons_False, IH.
Qed.

(** The status of a point as the monitor reads it. *)
Definition point_status (p : point_files) : result string :=
  match metadata_json p with
  | None => Ok "no_metadata"
  | Some (text, _) =>
      data <-! json_loads text ;;
      v <-! dict_get data "status" (PyStr "unknown") ;;
      Ok (py_str str_other v)
  end.

Definition has (p : string -> bool) (np : string * point_files) : bool :=
  match point_status (snd np) with Ok st => p st | Raise _ => false end.

(** The number of points whose status satisfies [p]. *)
Definition number (p : string -> bool) (ps : gmap string point_files) : Z :=
  Z.of_nat (length (filter (fun np => has p np = true) (map_to_list ps))).

Lemma visit_ok run_dir s np s' :
  visit str_other run_dir s np = Ok s' ->
  exists st, point_status (snd np) = Ok st /\ counts s' = bump (counts s) st.
Proof using Type.
  unfold visit, point_status. destruct np as [name p]. cbn [snd].
  destruct (metadata_json p) as [[text mt]|]; intros H.
  - apply rbind_ok in H as (data & -> & H). apply rbind_ok in H as (v & Hv & [= <-]).
    cbn [rbind]. rewrite Hv. by eexists.
  - injection H as <-. by eexists.
Qed.

Definition positive (c : gmap string Z) : Prop := map_Forall (fun _ n => 0 < n) c.

Lemma bump_positive c k : positive c -> positive (bump c k).
Proof using Type.
  intros Hc. apply map_Forall_insert_2; [|done].
  destruct (c !! k) as [n|] eqn:Hk; cbn; [specialize (Hc k n Hk); cbn in Hc|]; lia.
Qed.

Lemma visit_counts run_dir l s s' :
  rfold (visit str_other run_dir) l s = Ok s' -> positive (counts s) ->
  positive (counts s') /\
  Forall (fun np => is_ok (point_status (snd np)) = true) l /\
  forall p, count_if p (counts s') =
    count_if p (counts s) + Z.of_nat (length (filter (fun np => has p np = true) l)).
Proof using Type.
  revert s. induction l as [|np l IH]; intros s H Hpos; cbn [rfold] in H.
  - injection H as <-. split_and!; [done|constructor|]. intros p. cbn. lia.
  - apply rbind_ok in H as (s1 & H1 & H). apply visit_ok in H1 as (st & Hst & Hc).
    destruct (IH s1 H) as (Hpos' & Hall & Hcount); [rewrite Hc; by apply bump_positive|].
    split_and!; [done|constructor; [by rewrite Hst|done]|].
    intros p. rewrite Hcount, Hc, count_if_bump, filter_cons.
    assert (Hh : has p np = p st) by (unfold has; by rewrite Hst). rewrite Hh.
    destruct (p st); [rewrite decide_True by done|rewrite decide_False by done]; cbn [length]; lia.
Qed.

Lemma number_perm p (l l' : list (string * point_files)) :
  l ≡ₚ l' -> length (filter (fun np => has p np = true) l)
             = length (filter (fun np => has p np = true) l').
Proof using Type. intros Hp. by rewrite Hp. Qed.

(** The progress report counts every point directory exactly once: as done, as active or as
    failed according to its status, and the counts per status are those of the points.  A
    report is only made when every metadata file could be read. *)
Theorem collect_counts run_dir r s :
  collect str_other run_dir r = Ok s ->
  seen_points s = Z.of_nat (size (points r)) /\
  done_points s = number is_done (points r) /\
  active_points s = number is_active (points r) /\
  failed_points s = number (fun k => negb (is_done k || is_active k)) (points r) /\
  done_points s + active_points s + failed_points s = seen_points s /\
  (forall k n, (k, n) ∈ status_counts s ->
     0 < n /\ n = number (fun j => bool_decide (j = k)) (points r)) /\
  map_Forall (fun _ p => is_ok (point_status p) = true) (points r).
Proof using Type.
  unfold collect. intros H. apply rbind_ok in H as (manifest & _ & H).
  apply rbind_ok in H as (pr & Hpr & H). do 4 apply rbind_ok in H as (? & _ & H).
  injection H as <-. cbn.
  destruct (visit_counts _ _ _ _ Hpr) as (Hpos & Hall & Hcount); [apply map_Forall_empty|].
  set (c := counts pr) in *.
  assert (Hp : merge_sort key_order (map_to_list (points r)) ≡ₚ map_to_list (points r))
    by apply merge_sort_Permutation.
  assert (Hn : forall p, count_if p c = number p (points r)).
  { intros p. rewrite Hcount. unfold number. rewrite (number_perm p _ _ Hp). reflexivity. }
  assert (Hd : default 0 (c !! done_status) = count_if is_done c) by (symmetry; apply count_if_single).
  assert (Ha : default 0 (c !! "started") + default 0 (c !! "captured") = count_if is_active c).
  { rewrite <- !count_if_single. symmetry. apply count_if_split; intros k.
    - apply is_active_or.
    - case_bool_decide; [subst; by rewrite bool_decide_eq_false_2|done]. }
  assert (Hall1 : count_if (fun _ => true) c = Z.of_nat (size (points r))).
  { rewrite Hn. unfold number.
    assert (Hok : Forall (fun np => has (fun _ => true) np = true) (map_to_list (points r))).
    { rewrite <- Hp. eapply Forall_impl; [exact Hall|]. intros np. unfold has.
      by destruct (point_status (snd np)). }
    rewrite list_filter_all by done. by rewrite length_map_to_list. }
  rewrite Hd, Ha, Hall1, !Hn. split_and!; try done.
  - rewrite <- !Hn, <- Hall1.
    rewrite (count_if_split (fun _ => true) (fun k => is_done k || is_active k)
               (fun k => negb (is_done k || is_active k))), (count_if_split
               (fun k => is_done k || is_active k) is_done is_active); [lia|done| | |].
    + intros k. unfold is_done, is_active. case_bool_decide; [subst|done].
      by rewrite bool_decide_eq_false_2 by (unfold active_statuses; rewrite !elem_of_cons,
        elem_of_nil; intros [|[|]]; done).
    + intros k. by destruct (is_done k || is_active k).
    + intros k. by destruct (is_done k || is_active k).
  - intros k n Hin. rewrite merge_sort_Permutation, elem_of_map_to_list in Hin.
    split; [by apply (Hpos k n)|]. rewrite <- Hn, count_if_single, Hin. done.
  - intros k p Hk. rewrite Hp in Hall. rewrite Forall_forall in Hall.
    apply (Hall (k, p)). by apply elem_of_map_to_list.
Qed.

(** A finished VGAIN sweep, whose points end as captured, is never reported as done. *)
Lemma sweep_never_done run_dir r s :
  collect str_other run_dir r = Ok s ->
  map_Forall (fun _ p => point_status p = Ok "captured") (points r) ->
  number is_done (points r) = 0 /\ number is_active (points r) = Z.of_nat (size (points r)).
Proof using Type.
  intros _ Hc. unfold number.
  assert (Hh : forall p, Forall (fun np => has p np = p "captured") (map_to_list (points r))).
  { intros p. apply Forall_forall. intros [k pt] Hin%elem_of_map_to_list. unfold has. cbn.
    by rewrite (Hc k pt Hin). }
  split.
  - rewrite list_filter_none; [done|]. eapply Forall_impl; [apply (Hh is_done)|].
    intros np ->. done.
  - rewrite list_filter_all; [by rewrite length_map_to_list|].
    eapply Forall_impl; [apply (Hh is_active)|]. intros np ->. done.
Qed.

End counting.

(** ** Merging *)

(** The complete points of a list with their intensities, in order. *)
Definition complete_points (run_dir : string) (l : list (string * point_files))
    : list (Z * (string * string * point_files)) :=
  omap (fun np => if is_complete_point (snd np)
                  then match intensity_of (fst np) with
                       | Ok i => Some (i, (fst np, run_dir, snd np))
                       | Raise _ => None
                       end
                  else None) l.

(** Those of several runs, in the order of the command line. *)
Definition candidates (runs : list (string * run_files))
    : list (Z * (string * string * point_files)) :=
  mjoin ((fun run => complete_points (fst run) (intensity_dirs (points (snd run)))) <$> runs).

Definition last_of {A : Type} (i : Z) (l : list (Z * A)) : option A :=
  snd <$> last (filter (fun c => fst c = i) l).

Lemma last_of_app {A : Type} i (l1 l2 : list (Z * A)) :
  last_of i (l1 ++ l2) = match last_of i l2 with Some x => Some x | None => last_of i l1 end.
Proof.
  unfold last_of. rewrite filter_app, last_app. by destruct (last (filter _ l2)).
Qed.

Lemma last_of_snoc {A : Type} i j (x : A) l :
  last_of i (l ++ [(j, x)]) = if decide (j = i) then Some x else last_of i l.
Proof.
  rewrite last_of_app. unfold last_of at 1. rewrite filter_cons, filter_nil. cbn [fst].
  by destruct (decide (j = i)).
Qed.

Definition or_old {A : Type} (new old : option A) : option A :=
  match new with Some x => Some x | None => old end.

Lemma select_points_ok run_dir l s s' :
  rfold (select_point run_dir) l s = Ok s' ->
  (forall i, selected s' !! i = or_old (last_of i (complete_points run_dir l)) (selected s !! i)) /\
  complete s' = complete s ++ (fst <$> complete_points run_dir l).
Proof.
  revert s s'. induction l as [|np l IH] using rev_ind; intros s s' H.
  - injection H as <-. split; [done|]. cbn. by rewrite app_nil_r.
  - rewrite rfold_app in H. apply rbind_ok in H as (s1 & H1 & H). cbn [rfold] in H.
    apply rbind_ok in H as (s2 & H & [= ->]). destruct (IH _ _ H1) as [Hsel Hcom].
    unfold select_point in H. apply rbind_ok in H as (i & Hi & H).
    unfold complete_points. rewrite omap_app. cbn [omap list_omap].
    fold (complete_points run_dir l). rewrite Hi.
    destruct (is_complete_point (snd np)); injection H as <-; cbn [selected complete].
    + split.
      * intros j. rewrite last_of_snoc. destruct (decide (i = j)) as [->|Hne].
        -- by rewrite lookup_insert_eq.
        -- by rewrite lookup_insert_ne, Hsel.
      * by rewrite Hcom, fmap_app, app_assoc.
    + by rewrite app_nil_r.
Qed.

Lemma select_runs_ok runs acc acc' :
  rfold select_run runs acc = Ok acc' ->
  (forall i, fst acc' !! i = or_old (last_of i (candidates runs)) (fst acc !! i)) /\
  snd acc' = snd acc ++
    ((fun run => (fst run, fst <$> complete_points (fst run) (intensity_dirs (points (snd run)))))
       <$> runs).
Proof.
  revert acc. induction runs as [|run runs IH]; intros acc H; cbn [rfold] in H.
  - injection H as <-. split; [done|]. cbn. by rewrite app_nil_r.
  - apply rbind_ok in H as (acc1 & H1 & H). unfold select_run in H1.
    apply rbind_ok in H1 as (s & Hs & [= <-]). apply select_points_ok in Hs as [Hsel Hcom].
    cbn in Hsel, Hcom. destruct (IH _ H) as [Hf Hs]. cbn [fst snd] in Hf, Hs. split.
    + intros i. rewrite Hf, Hsel. unfold candidates. cbn [fmap list_fmap].
      change (mjoin (?x :: ?y)) with (x ++ mjoin y). rewrite last_of_app.
      fold (candidates runs). by destruct (last_of i (candidates runs)).
    + rewrite Hs, Hcom. cbn. by rewrite <- app_assoc.
Qed.

Lemma strict_nodup (l : list Z) : StronglySorted Z.lt l -> NoDup l.
Proof.
  induction 1 as [|x l Hl IH Hx]; constructor; [|done].
  intros Hin. rewrite Forall_forall in Hx. specialize (Hx x Hin). lia.
Qed.

(** The merged points are those selected. *)
Lemma link_points_spec sel name p :
  link_points sel !! name = Some p <->
  exists i x, name = merged_name i /\ sel !! i = Some x /\ p = snd x.
Proof.
  unfold link_points. set (l := (fun e : Z * (string * string * point_files) =>
    (merged_name (fst e), snd (snd e))) <$> sorted_entries sel).
  assert (Hnd : NoDup (fst <$> l)).
  { unfold l. rewrite <- list_fmap_compose.
    change (fst ∘ _) with (merged_name ∘ (fst : Z * (string * string * point_files) -> Z)).
    rewrite list_fmap_compose. apply (NoDup_fmap_2 _), (strict_nodup _), sorted_entries_keys. }
  rewrite <- elem_of_list_to_map by done. unfold l. rewrite list_elem_of_fmap. split.
  - intros ([i x] & [= -> ->] & Hin). exists i, x. by rewrite <- elem_of_sorted_entries.
  - intros (i & x & -> & Hx & ->). exists (i, x). split; [done|]. by apply elem_of_sorted_entries.
Qed.

Lemma link_points_lookup sel i : link_points sel !! merged_name i = snd <$> (sel !! i).
Proof.
  apply option_eq. intros p. rewrite link_points_spec. split.
  - intros (j & x & Hj%merged_name_inj & Hx & ->). subst j. by rewrite Hx.
  - intros H. destruct (sel !! i) as [x|] eqn:Hx; [|done]. injection H as <-. by exists i, x.
Qed.

Lemma update_run_at path f m (d : disk) :
  update_run path f (<[path := m]> d) = (Ok tt, <[path := f m]> d).
Proof.
  unfold update_run, modify. f_equal. apply map_eq. intros j. cbv beta.
  destruct (decide (j = path)) as [->|Hne].
  - by rewrite lookup_alter_eq, !lookup_insert_eq.
  - by rewrite lookup_alter_ne, !lookup_insert_ne.
Qed.

Lemma put_file_at path name c m (d : disk) :
  put_file path name c (<[path := m]> d) =
  (Ok tt, <[path := RunDir (manifest_json m) (points m) (<[name := c]> (others m))]> d).
Proof. unfold put_file. by rewrite update_run_at. Qed.

Section merging.
Context (str_other : pyval -> string) (dumps : pyval -> string) (now output_dir : string).

(** The disk has changed below the output directory only, and its points are [ps]. *)
Definition only_output (w : disk) (ps : gmap string point_files) (w' : disk) : Prop :=
  exists m, w' = <[output_dir := m]> w /\ points m = ps.

Lemma only_output_put w ps w1 name c r w2 :
  only_output w ps w1 -> put_file output_dir name c w1 = (r, w2) ->
  r = Ok tt /\ only_output w ps w2 /\ forall m, w2 !! output_dir = Some m -> others m !! name = Some c.
Proof using Type.
  intros (m & -> & Hm). rewrite put_file_at. intros [= <- <-]. split; [done|]. split.
  - eexists. split; [reflexivity|done].
  - intros m2. rewrite lookup_insert_eq. intros [= <-]. cbn. by rewrite lookup_insert_eq.
Qed.

(** Copies of optional files. *)
Definition copies (m : M disk unit) : Prop :=
  forall w ps w1 r w2, only_output w ps w1 -> m w1 = (r, w2) -> r = Ok tt /\ only_output w ps w2.

Lemma copies_ret : copies (ret tt).
Proof using Type. by intros w ps w1 r w2 Ho [= <- <-]. Qed.

Lemma copies_put name c : copies (put_file output_dir name c).
Proof using Type. intros w ps w1 r w2 Ho Hp. by destruct (only_output_put _ _ _ _ _ _ _ Ho Hp) as (? & ? & _). Qed.

Lemma copies_gets {A : Type} (f : disk -> A) k : (forall a, copies (k a)) -> copies (bind (gets f) k).
Proof using Type. intros Hk w ps w1 r w2 Ho. unfold bind, gets. by apply Hk. Qed.

Lemma copies_bind m k : copies m -> copies k -> copies (bind m (fun _ => k)).
Proof using Type.
  intros Hm Hk w ps w1 r w2 Ho. unfold bind. destruct (m w1) as [r1 w3] eqn:H1.
  destruct (Hm _ _ _ _ _ Ho H1) as [-> Ho']. by apply Hk.
Qed.

Lemma copies_for_each {A : Type} (l : list A) f : (forall a, copies (f a)) -> copies (for_each l f).
Proof using Type. intros Hf. induction l as [|a l IH]; [apply copies_ret|]. by apply copies_bind. Qed.

Lemma copies_option name (c : option doc) :
  copies (match c with Some c => put_file output_dir name c | None => ret tt end).
Proof using Type. destruct c; [apply copies_put|apply copies_ret]. Qed.

Lemma copies_state_files run_dirs :
  copies (for_each ["fe_state_readback.json"; "fe_state_readback.log"] (fun name =>
    src <- gets (fun d : disk => p ← head run_dirs; r ← d !! p; others r !! name) ;;
    match src with Some c => put_file output_dir name c | None => ret tt end)).
Proof using Type. apply copies_for_each. intros name. apply copies_gets. intros c. apply copies_option. Qed.

Lemma manifests_read run_dirs (w : disk) ms w' :
  map_m (fun d => w <- get ;; lift (load_json (path_join d "scan_manifest.json")
           (r ← w !! d; manifest_json r))) run_dirs w = (Ok ms, w') ->
  w' = w /\ Forall (fun d => is_Some (w !! d)) run_dirs /\
  Forall2 (fun d m => load_json (path_join d "scan_manifest.json")
             (r ← w !! d; manifest_json r) = Ok m) run_dirs ms.
Proof using Type.
  revert ms. induction run_dirs as [|d ds IH]; intros ms H; cbn [map_m] in H.
  - injection H as <- <-. split_and!; [done|done|constructor].
  - inv_bind H. inv_bind Hrun. injection Hrun0 as <- <-. unfold lift in Hrun.
    injection Hrun as Hd <-. inv_bind H. injection H as <- ->.
    destruct (IH _ Hrun) as (-> & Hall & H2). split_and!; [done| |by constructor].
    constructor; [|done]. destruct (w !! d); [done|]. done.
Qed.

(** The runs as they are read. *)
Definition runs_of (w : disk) (run_dirs : list string) : list (string * run_files) :=
  (fun p => (p, default (RunDir None ∅ ∅) (w !! p))) <$> run_dirs.

Lemma runs_unchanged w run_dirs m :
  w !! output_dir = None -> Forall (fun d => is_Some (w !! d)) run_dirs ->
  runs_of (<[output_dir := m]> w) run_dirs = runs_of w run_dirs.
Proof using Type.
  intros Ho Hall. unfold runs_of. apply list_fmap_ext. intros i d Hd.
  rewrite Forall_lookup in Hall. specialize (Hall i d Hd).
  rewrite lookup_insert_ne; [done|]. intros <-. rewrite Ho in Hall. by destruct Hall.
Qed.

Lemma tables_written (m : run_files) (w w' : disk) rows :
  match rows with
  | [] => ret 0
  | _ =>
      put_file output_dir "summary_by_point.csv" (DCsv point_fields rows) ;;;
      best <- lift (choose_best_by_channel rows) ;;
      put_file output_dir "best_by_channel.csv" (DCsv point_fields best) ;;;
      ret 0
  end (<[output_dir := m]> w) = (Ok 0, w') ->
  exists m', w' = <[output_dir := m']> w /\ points m' = points m /\
    (rows <> [] -> exists best, choose_best_by_channel rows = Ok best /\
       others m' !! "summary_by_point.csv" = Some (DCsv point_fields rows) /\
       others m' !! "best_by_channel.csv" = Some (DCsv point_fields best)).
Proof using Type.
  destruct rows as [|row rows].
  - intros [= <-]. exists m. by split_and!.
  - generalize (row :: rows) as l. intros l H. inv_bind H. rewrite put_file_at in Hrun.
    injection Hrun as _ <-. inv_bind H. injection Hrun as Hbest <-. inv_bind H.
    rewrite put_file_at in Hrun. injection Hrun as _ <-. injection H as <-.
    eexists. split_and!; [reflexivity|done|]. intros _. exists a0. split_and!; [done| |].
    + cbn. by rewrite lookup_insert_ne, lookup_insert_eq.
    + cbn. by rewrite lookup_insert_eq.
Qed.

(** Merging runs: a merge that ends normally made a new directory and changed nothing else.
    Its points are, for each intensity that is complete in some run, the point of the last such
    run on the command line, under the name of its intensity, and no others; the tables hold
    the rows of exactly these points and the best row of each channel.  An output directory
    that exists is never touched. *)
Theorem merge_correct run_dirs w w' :
  main str_other dumps now output_dir run_dirs w = (Ok 0, w') ->
  w !! output_dir = None /\ (forall p, p <> output_dir -> w' !! p = w !! p) /\
  exists m rows first base cs channels wl,
    w' !! output_dir = Some m /\
    head run_dirs = Some first /\
    load_json (path_join first "scan_manifest.json") (r ← w !! first; manifest_json r)
      = Ok (PyDict base) /\
    ChargeWindows.item (PyDict base) "channels" = Ok cs /\ py_iter cs = Ok channels /\
    ChargeWindows.item (PyDict base) "scan_wavelength" = Ok wl /\
    (forall i, points m !! merged_name i = snd <$> last_of i (candidates (runs_of w run_dirs))) /\
    (forall name p, points m !! name = Some p -> exists i, name = merged_name i) /\
    build_point_rows str_other (path_join output_dir "points") (points m) channels
      (py_str str_other wl) = Ok rows /\
    (rows <> [] -> exists best, choose_best_by_channel rows = Ok best /\
       others m !! "summary_by_point.csv" = Some (DCsv point_fields rows) /\
       others m !! "best_by_channel.csv" = Some (DCsv point_fields best)).
Proof using Type.
  unfold main. intros H. inv_bind H. apply manifests_read in Hrun as (-> & Hall & Hms).
  inv_bind H. injection Hrun as _ <-. inv_bind H. injection Hrun as <- <-.
  case_bool_decide as Hex; cbn [when] in H; inv_bind H; [discriminate|].
  injection Hrun as <- <-.
  assert (Ho : w !! output_dir = None) by (by apply eq_None_not_Some).
  inv_bind H. injection Hrun as <- <-. inv_bind H. injection Hrun as Hbase <-.
  inv_bind H. injection Hrun as <- <-. fold (runs_of (<[output_dir := RunDir None ∅ ∅]> w) run_dirs) in H.
  rewrite runs_unchanged in H by done. inv_bind H.
  unfold lift in Hrun. injection Hrun as Hsel <-. apply select_runs_ok in Hsel as [Hsel _].
  destruct a2 as [sel sources]. cbn [fst] in Hsel.
  assert (Hsel' : forall i, sel !! i = last_of i (candidates (runs_of w run_dirs))).
  { intros i. rewrite Hsel, lookup_empty. by destruct (last_of i _). }
  clear Hsel Hex.
  destruct a as [|[| | | | | |base] ms]; try discriminate Hbase. injection Hbase as <-.
  inversion Hms as [|first ? ds ? Hfirst _]; subst. inv_bind H. rewrite update_run_at in Hrun. injection Hrun as _ <-.
  inv_bind H. rewrite update_run_at in Hrun. injection Hrun as _ <-. cbn [points manifest_json others] in H.
  assert (Hout : only_output w (link_points sel)
    (<[output_dir := RunDir (Some (merged_manifest dumps base now (first :: ds) (fst <$> sorted_entries sel)))
         (link_points sel) ∅]> w)) by (by eexists).
  inv_bind H. apply (copies_put _ _ _ _ _ _ _ Hout) in Hrun as [_ Hout1].
  inv_bind H. apply (copies_state_files _ _ _ _ _ _ Hout1) in Hrun as [_ Hout2].
  inv_bind H. injection Hrun as <- <-.
  inv_bind H. apply (copies_option _ _ _ _ _ _ _ Hout2) in Hrun as [_ Hout3].
  inv_bind H. injection Hrun as Hcs <-. inv_bind H. injection Hrun as Hch <-.
  inv_bind H. injection Hrun as Hwl <-. inv_bind H. destruct Hout3 as (m & -> & Hm).
  unfold run_at in Hrun. inv_bind Hrun. injection Hrun0 as <- <-.
  rewrite lookup_insert_eq in Hrun. injection Hrun as <- <-. inv_bind H. injection Hrun as Hrows <-.
  destruct (tables_written m w w' a8 H) as (m' & -> & Hpm & Htab). split; [done|]. split.
  { intros p Hp. by rewrite lookup_insert_ne. }
  rewrite Hm in Hpm, Hrows. eexists m', a8, first, base, _, _, _.
  rewrite lookup_insert_eq, Hpm. split_and!; try done.
  - intros i. by rewrite link_points_lookup, Hsel'.
  - intros name p (i & x & -> & _)%link_points_spec. by exists i.
Qed.

End merging.

(** ** Sample directories *)

Definition sample_manifest : string :=
  quoted "{'channels': [4], 'scan_wavelength': '270nm', 'waveforms': 100}".

Definition sample_analysis : string :=
  quoted "{'analysis': {'4': {'metrics': {'signal_fraction': 0.5, 'balance_error': 0.1, 'snr_estimate': 3.0, 'threshold_charge': 7.5}, 'integrate_start': 10, 'integrate_stop': 30, 'peak_index': 14, 'onset_index': 12}}}".

Definition sample_point (status : string) : point_files :=
  Point (Some (quoted ("{'status': '" +:+ status +:+ "'}"), f_of_Z 1)) (Some sample_analysis).

(** Two runs: point 10 is complete in both, 20 in the first and 30 in none. *)
Definition sample_disk : disk :=
  <["/a" := RunDir (Some sample_manifest)
      (<["intensity_0010" := sample_point "analyzed"]>
       (<["intensity_0020" := sample_point "analyzed"]> ∅))
      (<["fe_state_readback.log" := DJson (PyDict [])]> ∅)]>
  (<["/b" := RunDir (Some sample_manifest)
      (<["intensity_10" := sample_point "redone"]>
       (<["intensity_0030" := Point (Some (quoted "{'status': 'started'}", f_of_Z 2)) None]> ∅))
      ∅]> ∅).

Definition sample_other (v : pyval) : string := "?".

Definition sample_merge : result Z * disk :=
  main sample_other sample_other "2024-01-01T00:00:00Z" "/out" ["/a"; "/b"] sample_disk.

Definition sample_merged : gmap string point_files :=
  default ∅ (points <$> (snd sample_merge !! "/out")).

Lemma merge_correct_witness :
  fst <$> map_to_list sample_merged ≡ₚ ["intensity_0010"; "intensity_0020"] /\
  sample_merged !! "intensity_0010" = Some (sample_point "redone") /\
  (forall p, p <> "/out" -> snd sample_merge !! p = sample_disk !! p).
Proof.
  split; [vm_compute; apply perm_swap || reflexivity|]. split; [vm_compute; reflexivity|].
  apply (merge_correct sample_other sample_other "2024-01-01T00:00:00Z" "/out" ["/a"; "/b"]).
  apply pair_fst. vm_compute. reflexivity.
Defined.

(** A run with a finished, a started, a failed and an unreadable point. *)
Definition sample_run : run_files :=
  RunDir (Some (quoted "{'intensity_values': [10, 20, 30, 40]}"))
    (<["intensity_0010" := sample_point "analyzed"]>
     (<["intensity_0020" := sample_point "started"]>
      (<["intensity_0030" := sample_point "acquire_failed"]>
       (<["intensity_0040" := Point None None]> ∅)))) ∅.

Lemma collect_counts_witness :
  exists s, collect sample_other "/a" sample_run = Ok s /\
    done_points s + active_points s + failed_points s = seen_points s /\
    seen_points s = 4 /\ failed_points s = 2.
Proof.
  destruct (collect sample_other "/a" sample_run) as [s|e] eqn:Hs; [|by vm_compute in Hs].
  exists s. split; [done|]. split; [apply (collect_counts sample_other "/a" sample_run s Hs)|].
  vm_compute in Hs. injection Hs as <-. by split.
Defined.

Example sample_text :
  (s <-! collect sample_other "/a" sample_run ;; render_text (fun _ => " 25.0") s) =
  Ok (join (String (char 10) "") ["run_dir: /a"; "planned: 4"; "seen:    4"; "done:    1 ( 25.0%)";
     "active:  1"; "failed:  2"; "latest:  intensity_0040 [no_metadata]";
     "recent:  intensity_0010"; "statuses:"; "  acquire_failed: 1"; "      analyzed: 1";
     "   no_metadata: 1"; "       started: 1"]).
Proof. vm_compute. reflexivity. Qed.
