(* ===== verification/SmokeMessages.v ===== *)
(** What the two smoke tests share: the messages they add to those of the other scripts, the
    report of a response ([print_status]) and [load_config_request], which both
    [client/protobuf_full_smoketest_v2.py] and [client/slowcontrol_smoketest.py] have. *)
From S2P Require Import Prelude PyStr PyFloat PyVal JsonText EnvelopeV2 FeConfig PdsSeed FeMain.
From S2P Require Import SpyAcquire ReadState V2Config ChargeWindows.

(** ** Message types *)

Definition MT2_CONFIGURE_CLKS_REQ : Z := 200.
Definition MT2_CONFIGURE_CLKS_RESP : Z := 201.
Definition MT2_WRITE_AFE_REG_REQ : Z := 204.
Definition MT2_WRITE_AFE_REG_RESP : Z := 205.
Definition MT2_WRITE_AFE_VGAIN_RESP : Z := 207.
Definition MT2_WRITE_TRIM_ALL_CH_REQ : Z := 210.
Definition MT2_WRITE_TRIM_ALL_CH_RESP : Z := 211.
Definition MT2_WRITE_TRIM_ALL_AFE_REQ : Z := 212.
Definition MT2_WRITE_TRIM_ALL_AFE_RESP : Z := 213.
Definition MT2_WRITE_TRIM_CH_REQ : Z := 214.
Definition MT2_WRITE_TRIM_CH_RESP : Z := 215.
Definition MT2_WRITE_OFFSET_ALL_CH_REQ : Z := 216.
Definition MT2_WRITE_OFFSET_ALL_CH_RESP : Z := 217.
Definition MT2_WRITE_OFFSET_ALL_AFE_REQ : Z := 218.
Definition MT2_WRITE_OFFSET_ALL_AFE_RESP : Z := 219.
Definition MT2_WRITE_OFFSET_CH_RESP : Z := 221.
Definition MT2_WRITE_VBIAS_CONTROL_REQ : Z := 222.
Definition MT2_WRITE_VBIAS_CONTROL_RESP : Z := 223.
Definition MT2_READ_TRIM_ALL_AFE_REQ : Z := 232.
Definition MT2_READ_TRIM_ALL_AFE_RESP : Z := 233.
Definition MT2_READ_TRIM_CH_REQ : Z := 234.
Definition MT2_READ_TRIM_CH_RESP : Z := 235.
Definition MT2_READ_OFFSET_ALL_AFE_REQ : Z := 238.
Definition MT2_READ_OFFSET_ALL_AFE_RESP : Z := 239.
Definition MT2_READ_OFFSET_CH_REQ : Z := 240.
Definition MT2_READ_OFFSET_CH_RESP : Z := 241.
Definition MT2_READ_CURRENT_MONITOR_REQ : Z := 244.
Definition MT2_READ_CURRENT_MONITOR_RESP : Z := 245.
Definition MT2_SET_AFE_RESET_REQ : Z := 248.
Definition MT2_SET_AFE_RESET_RESP : Z := 249.
Definition MT2_DO_AFE_RESET_RESP : Z := 251.
Definition MT2_SET_AFE_POWERSTATE_RESP : Z := 253.
Definition MT2_WRITE_AFE_ATTENUATION_REQ : Z := 254.
Definition MT2_WRITE_AFE_ATTENUATION_RESP : Z := 255.
Definition MT2_DO_SOFTWARE_TRIGGER_REQ : Z := 262.
Definition MT2_DO_SOFTWARE_TRIGGER_RESP : Z := 263.
Definition MT2_READ_TEST_REG_RESP : Z := 305.
Definition MT2_READ_GENERAL_INFO_RESP : Z := 323.

(** ** High-level messages *)

Inductive TestRegRequest : Type := TestRegReq.
Record TestRegResponse : Type := TestRegResp { tt_value : Z; tt_message : string }.
Record InfoRequest : Type := InfoReq { level : Z }.
Record GeneralInfo : Type := Info {
  v_bias_0 : float; v_bias_1 : float; v_bias_2 : float; v_bias_3 : float; v_bias_4 : float;
  power_minus5v : float; power_plus2p5v : float; power_ce : float; temperature : float }.
Record TriggerChannelSnapshot : Type := TriggerSnap {
  tc_channel : Z; tc_threshold : Z; record_count : Z; busy_count : Z; full_count : Z }.
Record ReadTriggerCountersRequest : Type := CountersReq { cn_channels : list Z; base_addr : Z }.
Record ReadTriggerCountersResponse : Type := CountersResp {
  cn_success : bool; cn_message : string; snapshots : list TriggerChannelSnapshot }.
Record ConfigureCLKsRequest : Type := ClksReq {
  ck_id : Z; ctrl_ep_clk : bool; reset_MMCM1 : bool; reset_endpoint : bool }.
Record ConfigureCLKsResponse : Type := ClksResp { ck_success : bool; ck_message : string }.

(** ** Low-level messages *)

Record cmd_readCurrentMonitor : Type := ReadCurrent { currentMonitorChannel : Z }.
Record cmd_readCurrentMonitor_response : Type := CurrentResp {
  cm_success : bool; cm_message : string; cm_channel : Z; currentValue : Z }.
Record cmd_readTrim_allAFE : Type := ReadTrimAfe { rt_afeBlock : Z }.
Record cmd_readTrim_allAFE_response : Type := TrimAfeResp {
  ta_success : bool; ta_message : string; ta_afeBlock : Z; ta_trimValues : list Z }.
Record cmd_readOffset_allAFE : Type := ReadOffsetAfe { ro_afeBlock : Z }.
Record cmd_readOffset_allAFE_response : Type := OffsetAfeResp {
  oa_success : bool; oa_message : string; oa_afeBlock : Z; oa_offsetValues : list Z }.
Record cmd_readTrim_singleChannel : Type := ReadTrim { rt_trimChannel : Z }.
Record cmd_readTrim_singleChannel_response : Type := TrimResp {
  ts_success : bool; ts_message : string; ts_trimChannel : Z; ts_trimValue : Z }.
Record cmd_readOffset_singleChannel : Type := ReadOffset { ro_offsetChannel : Z }.
Record cmd_readOffset_singleChannel_response : Type := OffsetResp {
  os_success : bool; os_message : string; os_offsetChannel : Z; os_offsetValue : Z }.
Record cmd_writeTrim_singleChannel : Type := WriteTrim {
  wt_trimChannel : Z; wt_trimValue : Z; wt_trimGain : bool }.
Record cmd_writeTrim_singleChannel_response : Type := WriteTrimResp {
  wts_success : bool; wts_message : string; wts_trimChannel : Z; wts_trimValue : Z;
  wts_trimGain : bool }.
Record cmd_writeAFEReg : Type := WriteReg { wg_afeBlock : Z; wg_regAddress : Z; wg_regValue : Z }.
Record cmd_writeAFEReg_response : Type := WriteRegResp {
  wgr_success : bool; wgr_message : string; wgr_afeBlock : Z; wgr_regAddress : Z;
  wgr_regValue : Z }.
Record cmd_writeTRIM_allChannels : Type := WriteTrimAll { wtc_trimValue : Z; wtc_trimGain : bool }.
Record cmd_writeTRIM_allChannels_response : Type := WriteTrimAllResp {
  wta_success : bool; wta_message : string; wta_trimValue : Z; wta_trimGain : bool }.
Record cmd_writeOFFSET_allChannels : Type := WriteOffsetAll {
  woc_offsetValue : Z; woc_offsetGain : bool }.
Record cmd_writeOFFSET_allChannels_response : Type := WriteOffsetAllResp {
  woa_success : bool; woa_message : string; woa_offsetValue : Z; woa_offsetGain : bool }.
Record cmd_writeTrim_allAFE : Type := WriteTrimAfe {
  wtb_afeBlock : Z; wtb_trimValue : Z; wtb_trimGain : bool }.
Record cmd_writeTrim_allAFE_response : Type := WriteTrimAfeResp {
  wtr_success : bool; wtr_message : string; wtr_afeBlock : Z; wtr_trimValue : Z;
  wtr_trimGain : bool }.
Record cmd_writeOFFSET_allAFE : Type := WriteOffsetAfe {
  wob_afeBlock : Z; wob_offsetValue : Z; wob_offsetGain : bool }.
Record cmd_writeOFFSET_allAFE_response : Type := WriteOffsetAfeResp {
  wor_success : bool; wor_message : string; wor_afeBlock : Z; wor_offsetValue : Z;
  wor_offsetGain : bool }.
Record cmd_writeAFEAttenuation : Type := WriteAttenuation {
  wn_afeBlock : Z; wn_attenuation : Z }.
Record cmd_writeAFEAttenuation_response : Type := WriteAttenuationResp {
  wnr_success : bool; wnr_message : string; wnr_afeBlock : Z; wnr_attenuation : Z }.
Record cmd_writeVbiasControl : Type := WriteVbias { wvc_vBiasControlValue : Z; wvc_enable : bool }.
Record cmd_writeVbiasControl_response : Type := WriteVbiasResp {
  wvr_success : bool; wvr_message : string; wvr_vBiasControlValue : Z }.
Record cmd_setAFEReset : Type := SetReset { resetValue : bool }.
Record cmd_setAFEReset_response : Type := SetResetResp {
  sr_success : bool; sr_message : string; sr_resetValue : bool }.
Inductive cmd_doSoftwareTrigger : Type := DoTrigger.
Record cmd_doSoftwareTrigger_response : Type := DoTriggerResp {
  dt_success : bool; dt_message : string }.

(** ** What is reported of a response *)

(** [getattr(resp, "success", None)] and [getattr(resp, "message", "")] *)
Class Reported (R : Type) : Type := {
  rp_success : R -> option bool; rp_message : R -> string }.

Definition with_status {R : Type} (s : R -> bool) (t : R -> string) : Reported R :=
  {| rp_success r := Some (s r); rp_message := t |}.

#[export] Instance status_reported {R : Type} `{Status R} : Reported R := with_status st_success st_message.
#[export] Instance test_reg_reported : Reported TestRegResponse :=
  {| rp_success _ := None; rp_message := tt_message |}.
#[export] Instance info_reported : Reported GeneralInfo :=
  {| rp_success _ := None; rp_message _ := "" |}.
#[export] Instance counters_reported : Reported ReadTriggerCountersResponse := with_status cn_success cn_message.
#[export] Instance clks_reported : Reported ConfigureCLKsResponse := with_status ck_success ck_message.
#[export] Instance configure_reported : Reported ConfigureResponse := with_status success message.
#[export] Instance dump_reported : Reported DumpSpyBuffersResponse := with_status dr_success dr_message.
#[export] Instance chunk_reported : Reported DumpSpyBuffersChunkResponse := with_status cr_success cr_message.
#[export] Instance current_reported : Reported cmd_readCurrentMonitor_response := with_status cm_success cm_message.
#[export] Instance trim_afe_reported : Reported cmd_readTrim_allAFE_response := with_status ta_success ta_message.
#[export] Instance offset_afe_reported : Reported cmd_readOffset_allAFE_response := with_status oa_success oa_message.
#[export] Instance trim_reported : Reported cmd_readTrim_singleChannel_response := with_status ts_success ts_message.
#[export] Instance offset_reported : Reported cmd_readOffset_singleChannel_response := with_status os_success os_message.
#[export] Instance write_trim_reported : Reported cmd_writeTrim_singleChannel_response := with_status wts_success wts_message.
#[export] Instance write_bias_reported : Reported cmd_writeAFEBiasSet_response := with_status wr_success wr_message.
#[export] Instance write_reg_reported : Reported cmd_writeAFEReg_response := with_status wgr_success wgr_message.
#[export] Instance write_trims_reported : Reported cmd_writeTRIM_allChannels_response := with_status wta_success wta_message.
#[export] Instance write_offsets_reported : Reported cmd_writeOFFSET_allChannels_response := with_status woa_success woa_message.
#[export] Instance write_trim_afe_reported : Reported cmd_writeTrim_allAFE_response := with_status wtr_success wtr_message.
#[export] Instance write_offset_afe_reported : Reported cmd_writeOFFSET_allAFE_response := with_status wor_success wor_message.
#[export] Instance attenuation_reported : Reported cmd_writeAFEAttenuation_response := with_status wnr_success wnr_message.
#[export] Instance write_vbias_reported : Reported cmd_writeVbiasControl_response := with_status wvr_success wvr_message.
#[export] Instance set_reset_reported : Reported cmd_setAFEReset_response := with_status sr_success sr_message.
#[export] Instance trigger_reported : Reported cmd_doSoftwareTrigger_response := with_status dt_success dt_message.

(** [print_status]: the line it prints. *)
Definition status_line {R : Type} `{Reported R} (label : string) (resp : R) (extra : string) : string :=
  let status := match rp_success resp with Some false => "FAIL" | _ => "OK" end in
  let msg := strip (rp_message resp) in
  let suffix := if decide (msg = "") then "" else " :: " +:+ msg in
  let suffix := if decide (extra = "") then suffix else strip (suffix +:+ " " +:+ extra) in
  "[" +:+ status +:+ "] " +:+ label +:+ suffix.

(** The serializations the smoke tests use. *)
Class SmokeMessages (B : Type) : Type := {
  sm_read :: ReadMessages B; sm_write :: WriteMessages B;
  sm_test :: Proto B TestRegRequest; sm_test_resp :: Proto B TestRegResponse;
  sm_info :: Proto B InfoRequest; sm_info_resp :: Proto B GeneralInfo;
  sm_counters :: Proto B ReadTriggerCountersRequest;
  sm_counters_resp :: Proto B ReadTriggerCountersResponse;
  sm_clks :: Proto B ConfigureCLKsRequest; sm_clks_resp :: Proto B ConfigureCLKsResponse;
  sm_conf :: Proto B ConfigureRequest; sm_conf_resp :: Proto B ConfigureResponse;
  sm_dump :: Proto B DumpSpyBuffersRequest; sm_dump_resp :: Proto B DumpSpyBuffersResponse;
  sm_chunk :: Proto B DumpSpyBuffersChunkRequest;
  sm_chunk_resp :: Proto B DumpSpyBuffersChunkResponse;
  sm_current :: Proto B cmd_readCurrentMonitor;
  sm_current_resp :: Proto B cmd_readCurrentMonitor_response;
  sm_trim_afe :: Proto B cmd_readTrim_allAFE; sm_trim_afe_resp :: Proto B cmd_readTrim_allAFE_response;
  sm_offset_afe :: Proto B cmd_readOffset_allAFE;
  sm_offset_afe_resp :: Proto B cmd_readOffset_allAFE_response;
  sm_trim :: Proto B cmd_readTrim_singleChannel;
  sm_trim_resp :: Proto B cmd_readTrim_singleChannel_response;
  sm_offset :: Proto B cmd_readOffset_singleChannel;
  sm_offset_resp :: Proto B cmd_readOffset_singleChannel_response;
  sm_write_trim :: Proto B cmd_writeTrim_singleChannel;
  sm_write_trim_resp :: Proto B cmd_writeTrim_singleChannel_response;
  sm_bias :: Proto B cmd_writeAFEBiasSet; sm_bias_resp :: Proto B cmd_writeAFEBiasSet_response;
  sm_reg :: Proto B cmd_writeAFEReg; sm_reg_resp :: Proto B cmd_writeAFEReg_response;
  sm_trims :: Proto B cmd_writeTRIM_allChannels;
  sm_trims_resp :: Proto B cmd_writeTRIM_allChannels_response;
  sm_offsets :: Proto B cmd_writeOFFSET_allChannels;
  sm_offsets_resp :: Proto B cmd_writeOFFSET_allChannels_response;
  sm_wtrim_afe :: Proto B cmd_writeTrim_allAFE;
  sm_wtrim_afe_resp :: Proto B cmd_writeTrim_allAFE_response;
  sm_woffset_afe :: Proto B cmd_writeOFFSET_allAFE;
  sm_woffset_afe_resp :: Proto B cmd_writeOFFSET_allAFE_response;
  sm_att :: Proto B cmd_writeAFEAttenuation; sm_att_resp :: Proto B cmd_writeAFEAttenuation_response;
  sm_vbias :: Proto B cmd_writeVbiasControl; sm_vbias_resp :: Proto B cmd_writeVbiasControl_response;
  sm_reset :: Proto B cmd_setAFEReset; sm_reset_resp :: Proto B cmd_setAFEReset_response;
  sm_trigger :: Proto B cmd_doSoftwareTrigger;
  sm_trigger_resp :: Proto B cmd_doSoftwareTrigger_response }.

(** ** [load_config_request] *)

(** Assigning to a [bool] or [string] field. *)
Definition assign_bool (v : pyval) : result bool := z <-! py_index v ;; Ok (bool_of z).

Definition assign_string (v : pyval) : result string :=
  match v with
  | PyStr s => Ok s
  | _ => Raise (type_error "bad argument type for built-in operation")
  end.

(** One turn of the loop over the channels. *)
Definition load_channel (cgot : pyval * pyval * pyval * pyval) : result ChannelConfig :=
  let '(cid, gain, offset, trim) := cgot in
  i <-! assign_u32 cid ;; g <-! assign_u32 gain ;; o <-! assign_u32 offset ;;
  t <-! assign_u32 trim ;;
  Ok (Chan i t o g).

(** [adc["resolution"]] and the like: an AFE is an object of its own here. *)
Definition load_afe (x : pyval * pyval * pyval * (pyval * pyval * pyval)) : result AFEConfig :=
  let '(idx, att, vbias, (a, p, l)) := x in
  i <-! assign_u32 idx ;; at_ <-! assign_u32 att ;; vb <-! assign_u32 vbias ;;
  v <-! item a "resolution" ;; res <-! assign_bool v ;;
  v <-! item a "output_format" ;; fmt <-! assign_bool v ;;
  sb0 <-! dict_get a "sb_first" (PyBool false) ;; sb1 <-! dict_get a "SB_first" sb0 ;;
  sb <-! assign_bool sb1 ;;
  v <-! item p "lpf_cut_frequency" ;; cut <-! assign_u32 v ;;
  v <-! item p "integrator_disable" ;; pint <-! assign_bool v ;;
  v <-! item p "gain" ;; pg <-! assign_bool v ;;
  v <-! item l "clamp" ;; cl <-! assign_u32 v ;;
  v <-! item l "integrator_disable" ;; lint <-! assign_bool v ;;
  v <-! item l "gain" ;; lg <-! assign_u32 v ;;
  Ok (Afe i at_ vb (Adc res fmt sb) (Pga cut pint pg) (Lna cl lg lint)).

(** [next(iter(cfg.values()))] *)
Definition first_value (cfg : pyval) : result pyval :=
  match cfg with
  | PyDict ((_, v) :: _) => Ok v
  | PyDict [] => Raise (Exn OtherError "StopIteration")
  | _ => Raise (Exn OtherError "object has no attribute 'values'")
  end.

Definition items4 (v : pyval) (k1 k2 k3 k4 : string)
    : result (list (pyval * pyval * pyval * pyval)) :=
  a <-! item v k1 ;; b <-! item v k2 ;; c <-! item v k3 ;; d <-! item v k4 ;;
  la <-! py_iter a ;; lb <-! py_iter b ;; lc <-! py_iter c ;; ld <-! py_iter d ;;
  Ok (zip (zip (zip la lb) lc) ld).

Definition afe_items (v : pyval) : result (list (pyval * pyval * pyval * (pyval * pyval * pyval))) :=
  a <-! item v "ids" ;; b <-! item v "attenuators" ;; c <-! item v "v_biases" ;;
  d <-! item v "adcs" ;; e <-! item v "pgas" ;; f <-! item v "lnas" ;;
  la <-! py_iter a ;; lb <-! py_iter b ;; lc <-! py_iter c ;;
  ld <-! py_iter d ;; le <-! py_iter e ;; lf <-! py_iter f ;;
  Ok (zip (zip (zip la lb) lc) (zip (zip ld le) lf)).

Definition config_request (first : pyval) : result ConfigureRequest :=
  v <-! dict_get first "daphne_address" (PyStr "0.0.0.0") ;; addr <-! assign_string v ;;
  v <-! item first "slot" ;; sl <-! assign_u32 v ;;
  v <-! dict_get first "timeout_ms" (PyInt 500) ;; z <-! py_int v ;; tmo <-! set_u32 z ;;
  v <-! item first "bias_ctrl" ;; bc <-! assign_u32 v ;;
  v <-! item first "self_trigger_threshold" ;; z <-! py_int v ;; th <-! set_u64 z ;;
  v <-! item first "self_trigger_xcorr" ;; z <-! py_int v ;; xc <-! set_u64 z ;;
  v <-! item first "tp_conf" ;; z <-! py_int v ;; tp <-! set_u64 z ;;
  v <-! item first "compensator" ;; z <-! py_int v ;; co <-! set_u64 z ;;
  v <-! item first "inverter" ;; z <-! py_int v ;; inv <-! set_u64 z ;;
  ch_conf <-! item first "channel_analog_conf" ;;
  cs <-! items4 ch_conf "ids" "gains" "offsets" "trims" ;;
  chs <-! rmap load_channel cs ;;
  afe_conf <-! item first "afes" ;;
  xs <-! afe_items afe_conf ;;
  afs <-! rmap load_afe xs ;;
  full <-! (match first with
            | PyDict d => match lookup_key d "full_stream_channels" with
                          | Some v => l <-! py_iter v ;; rmap assign_u32 l
                          | None => Ok []
                          end
            | _ => Ok []
            end) ;;
  Ok (ConfReq addr sl tmo bc th xc tp co inv chs afs full).

(** [text] is what the file holds; [None] when it cannot be read. *)
Definition load_config_request (json_path : string) (text : option string)
    : result ConfigureRequest :=
  match text with
  | None => Raise (Exn (OSError 2) ("No such file or directory: '" +:+ json_path +:+ "'"))
  | Some s => cfg <-! json_loads s ;; first <-! first_value cfg ;; config_request first
  end.

(** ** The layout of the shipped configuration *)

(** The value under a key is iterable and not empty. *)
Definition filled (v : pyval) (k : string) : Prop :=
  exists x y l, item v k = Ok x /\ py_iter x = Ok (y :: l).

(** [load_config_request] cannot read the layout of [np02-daphne-running.json], although its
    comment says it reuses it: in a document whose ADC settings are an object of lists (as that
    file and the seeds of [configure_fe_min_v2] have them), with at least one AFE, the settings
    of an AFE are taken to be the name of a setting, and the request is never made. *)
Theorem seed_layout_refused first afe_conf kv rest :
  item first "afes" = Ok afe_conf ->
  item afe_conf "adcs" = Ok (PyDict (kv :: rest)) ->
  Forall (filled afe_conf) ["ids"; "attenuators"; "v_biases"; "pgas"; "lnas"] ->
  exists e, config_request first = Raise e.
Proof.
  intros Hafes Hadcs Hfull.
  assert (Hx : exists i a v p l xs,
    afe_items afe_conf = Ok ((i, a, v, (PyStr (fst kv), p, l)) :: xs)).
  { repeat match goal with
    | H : Forall _ (_ :: _) |- _ => apply Forall_cons in H as [(? & ? & ? & ? & ?) H]
    end.
    unfold afe_items. rewrite Hadcs.
    repeat match goal with H : item afe_conf _ = Ok _ |- _ => rewrite H; clear H; cbn [rbind] end.
    repeat match goal with H : py_iter _ = Ok _ |- _ => rewrite H; clear H; cbn [rbind] end.
    by eexists _, _, _, _, _, _. }
  destruct Hx as (i & a & v & p & l & xs & Hx).
  destruct (config_request first) as [r|e] eqn:Hr; [exfalso|by exists e].
  unfold config_request in Hr.
  repeat match type of Hr with
  | rbind (item first "afes") _ = _ => fail 1
  | _ => apply rbind_ok in Hr as (? & _ & Hr)
  end.
  rewrite Hafes in Hr. cbn [rbind] in Hr. rewrite Hx in Hr. cbn [rbind rmap] in Hr.
  apply rbind_ok in Hr as (afs & Ha & _). apply rbind_ok in Ha as (a0 & Ha & _).
  unfold load_afe in Ha. do 3 apply rbind_ok in Ha as (? & _ & Ha). discriminate Ha.
Qed.

(** The configuration as the repository has it, for one channel and one AFE. *)
Definition seed_text : string :=
  quoted "{'np02': {'slot': 7, 'bias_ctrl': 4095, 'self_trigger_threshold': 9000, 'full_stream_channels': [], 'channel_analog_conf': {'ids': [0], 'gains': [1], 'offsets': [2100], 'trims': [0]}, 'afes': {'ids': [0], 'attenuators': [1995], 'v_biases': [800], 'adcs': {'resolution': [0], 'output_format': [1], 'SB_first': [1]}, 'pgas': {'lpf_cut_frequency': [4], 'integrator_disable': [1], 'gain': [0]}, 'lnas': {'clamp': [0], 'integrator_disable': [1], 'gain': [2]}}, 'self_trigger_xcorr': 2199291691658, 'tp_conf': 1104693, 'compensator': 1099511627775, 'inverter': 1099511627775}}".

(** The same with an object per AFE, which is what the loop expects. *)
Definition per_afe_text : string :=
  quoted "{'np02': {'slot': 7, 'bias_ctrl': 4095, 'self_trigger_threshold': 9000, 'channel_analog_conf': {'ids': [0], 'gains': [1], 'offsets': [2100], 'trims': [0]}, 'afes': {'ids': [0], 'attenuators': [1995], 'v_biases': [800], 'adcs': [{'resolution': 0, 'output_format': 1, 'SB_first': 1}], 'pgas': [{'lpf_cut_frequency': 4, 'integrator_disable': 1, 'gain': 0}], 'lnas': [{'clamp': 0, 'integrator_disable': 1, 'gain': 2}]}, 'self_trigger_xcorr': 2199291691658, 'tp_conf': 1104693, 'compensator': 1099511627775, 'inverter': 1099511627775}}".

Definition seed_first : result pyval := cfg <-! json_loads seed_text ;; first_value cfg.

Definition or_none (r : result pyval) : pyval := match r with Ok v => v | Raise _ => PyNone end.

Lemma seed_layout_refused_witness :
  seed_first = Ok (or_none seed_first) /\
  exists e, config_request (or_none seed_first) = Raise e.
Proof.
  split; [vm_compute; reflexivity|].
  eapply seed_layout_refused.
  - vm_compute. reflexivity.
  - vm_compute. reflexivity.
  - repeat constructor; eexists _, _, _; split; vm_compute; reflexivity.
Defined.

Example per_afe_layout_read :
  load_config_request "conf.json" (Some per_afe_text) =
  Ok (ConfReq "0.0.0.0" 7 500 4095 9000 2199291691658 1104693 1099511627775 1099511627775
        [Chan 0 0 2100 1]
        [Afe 0 1995 800 (Adc false true true) (Pga 4 true false) (Lna 0 2 true)] []).
Proof. vm_compute. reflexivity. Qed.
