(* ===== verification/FullSmoke.v ===== *)
(** The full smoke test: [client/protobuf_full_smoketest_v2.py], which exercises every handler of
    the server.  Readings come first; with [--do-writes] the values read are written back; the
    intrusive operations are asked for one by one.

    The texts [f"{x:.3f}"] and [f"{x:.2f}"] and [uuid.uuid4()] are parameters, the files are a
    function from paths to texts.  A DEALER socket queues what it sends; the poll of a reply that
    does not come in time finds nothing. *)
From S2P Require Import Prelude PyStr PyFloat PyVal ChannelSpec EnvelopeV2 Requests FeConfig.
From S2P Require Import FeMain SpyAcquire ReadState V2Config SmokeMessages.

(** ** The command line *)

(** [--set-afe-reset] and [--set-afe-powerstate] take 0 or 1. *)
Record smoke_args : Type := SmokeArgs {
  ma_route : string; ma_timeout_ms : Z; ma_channels : list string;
  ma_counter_channels : list string; ma_afes : list string; ma_afe_count : Z;
  ma_skip_bias_monitor : bool; current_monitor_channel : Z; ma_afe_reg : list (string * string);
  do_writes : bool; force_trim_all : option Z; force_offset_all : option Z;
  force_trim_afe : option (list string); force_offset_afe : option (list string);
  attenuation : option Z; vbias_control : option Z; vbias_enable : bool;
  configure_json : option string; configure_clks : bool; clks_id : Z; ma_ctrl_ep_clk : bool;
  reset_mmcm1 : bool; ma_reset_endpoint : bool; ma_align_afes : bool;
  set_afe_reset : option bool; do_afe_reset : bool; set_afe_powerstate : option bool;
  do_software_trigger : bool; spybuffer : bool; spybuffer_waveforms : Z; spybuffer_samples : Z;
  spybuffer_software_trigger : bool }.

(** What was read, for the write-backs; the registers in the order of their first reading. *)
Record readings : Type := Readings {
  trim_single : gmap Z Z; offset_single : gmap Z Z;
  trim_all_afe : gmap Z (list Z); offset_all_afe : gmap Z (list Z);
  afe_vgain : gmap Z Z; afe_bias : gmap Z Z; afe_reg_vals : list (Z * Z * Z) }.

Definition no_readings : readings := Readings ∅ ∅ ∅ ∅ ∅ ∅ [].

(** [d[(afe, reg)] = value] *)
Fixpoint put_reg (l : list (Z * Z * Z)) (afe reg value : Z) : list (Z * Z * Z) :=
  match l with
  | [] => [(afe, reg, value)]
  | (a, r, v) :: l' => if (a =? afe) && (r =? reg) then (a, r, value) :: l'
                       else (a, r, v) :: put_reg l' afe reg value
  end.

(** [values and len(set(values)) == 1], with [values[0]] *)
Definition uniform (values : list Z) : option Z :=
  match values with
  | v :: vs => if forallb (Z.eqb v) vs then Some v else None
  | [] => None
  end.

Definition bracket (label : string) (z : Z) : string := label +:+ "[" +:+ str_Z z +:+ "]".

Definition reg_label (label : string) (afe reg : Z) : string :=
  label +:+ "[" +:+ str_Z afe +:+ ",0x" +:+ hex_pad true 1 reg +:+ "]".

(** The process: the socket and console of the other scripts, and the list [failures]. *)
Record fworld (S B : Type) : Type := FW { fz : zworld S B; failures : list string }.
Arguments FW {S B}.
Arguments fz {S B}.
Arguments failures {S B}.

Section script.
Context {S B : Type} `{Peer S B, Size B, !Proto B (ControlEnvelopeV2 B), !SmokeMessages B}.
Abbreviation Wd := (zworld S B).
Abbreviation Fd := (fworld S B).
Context (fixed : nat -> float -> string) (uuid : string) (files : string -> option string)
  (args : smoke_args).

Definition on_z {A : Type} (m : M Wd A) : M Fd A :=
  fun w => let '(r, z) := m (fz w) in (r, FW z (failures w)).

Definition tell (s : string) : M Fd unit := on_z (say s).

(** [v2_rpc] after the request was sent. *)
Definition await (mtype_req : Z) (env : ControlEnvelopeV2 B) : M Wd (ControlEnvelopeV2 B) :=
  ready <- gets (fun w => match cur w, inbox w with [], [] => false | _, _ => true end) ;;
  (if negb ready
   then raise (Exn TimeoutError ("Timeout waiting for response to type=" +:+ str_Z mtype_req))
   else ret tt) ;;;
  frames <- recv_frames ;;
  f <- last_frame frames ;;
  rep <- lift (parse_or f (unparsed "Failed to parse ControlEnvelopeV2 reply")) ;;
  (if negb (dir rep =? DIR_RESPONSE)
   then raise (mismatch "Unexpected dir=" (dir rep) " for type=" mtype_req "")
   else ret tt) ;;;
  lift (check_correl (mismatch "Correlation mismatch (got " (correl_id rep) ", expected "
                               (msg_id env) ")") env rep) ;;;
  ret rep.

(** [v2_rpc] *)
Definition v2_rpc (mtype_req : Z) (req : B) : M Wd (ControlEnvelopeV2 B) :=
  env <- build_env next_ids_random mtype_req req (ma_route args) ;;
  z_send (ser env) ;;;
  await mtype_req env.

(** The body of the functions that make one request and report its response. *)
Definition checked (R : Type) `{!Proto B R, !Reported R} (ty : Z) (req : B) (resp_ty : Z)
    (label : string) (extra : R -> string) : M Wd R :=
  rep <- v2_rpc ty req ;;
  (if negb (mtype rep =? resp_ty)
   then raise (Exn RuntimeError ("type mismatch " +:+ str_Z (mtype rep))) else ret tt) ;;;
  resp <- lift (parse (payload rep)) ;;
  say (status_line label resp (extra resp)) ;;;
  ret resp.

Definition run {A : Type} (label : string) (fn : M Wd A) : M Fd (option A) :=
  try_except (a <- on_z fn ;; ret (Some a)) (fun e =>
    modify (fun w => FW (fz w) (failures w ++ [label +:+ ": " +:+ exn_text e])) ;;;
    tell ("[FAIL] " +:+ label +:+ ": " +:+ exn_text e) ;;;
    ret None).

(** ** Readings *)

Definition do_test_reg : M Wd TestRegResponse :=
  checked TestRegResponse MT2_READ_TEST_REG_REQ (ser TestRegReq) MT2_READ_TEST_REG_RESP
    "READ_TEST_REG" (fun r => "value=0x" +:+ hex_pad true 8 (tt_value r)).

Definition do_general_info : M Wd GeneralInfo :=
  checked GeneralInfo MT2_READ_GENERAL_INFO_REQ (ser (InfoReq 0)) MT2_READ_GENERAL_INFO_RESP
    "READ_GENERAL_INFO" (fun r => "vbias0=" +:+ fixed 3 (v_bias_0 r) +:+ " vbias1="
      +:+ fixed 3 (v_bias_1 r) +:+ " temp=" +:+ fixed 2 (temperature r)).

Definition do_trigger_counters (counter_channels : list Z) : M Wd ReadTriggerCountersResponse :=
  chs <- lift (rmap set_u32 counter_channels) ;;
  checked ReadTriggerCountersResponse MT2_READ_TRIGGER_COUNTERS_REQ (ser (CountersReq chs 0))
    MT2_READ_TRIGGER_COUNTERS_RESP "READ_TRIGGER_COUNTERS"
    (fun r => "channels=" +:+ str_Z (Z.of_nat (length (snapshots r)))).

Definition do_read_current_monitor : M Wd cmd_readCurrentMonitor_response :=
  ch <- lift (set_u32 (current_monitor_channel args)) ;;
  checked cmd_readCurrentMonitor_response MT2_READ_CURRENT_MONITOR_REQ (ser (ReadCurrent ch))
    MT2_READ_CURRENT_MONITOR_RESP "READ_CURRENT_MONITOR" (fun r => "ch=" +:+ str_Z (cm_channel r)).

Definition count_of (l : list Z) : string := "n=" +:+ str_Z (Z.of_nat (length l)).
Definition value_of (z : Z) : string := "value=" +:+ str_Z z.
Definition hex_value (z : Z) : string := "value=0x" +:+ hex_pad true 1 z.

Definition read_trim_all_ch : M Wd cmd_readTrim_allChannels_response :=
  checked cmd_readTrim_allChannels_response MT2_READ_TRIM_ALL_CH_REQ (ser ReadTrims)
    MT2_READ_TRIM_ALL_CH_RESP "READ_TRIM_ALL_CH" (fun r => count_of (trimValues r)).

Definition read_offset_all_ch : M Wd cmd_readOffset_allChannels_response :=
  checked cmd_readOffset_allChannels_response MT2_READ_OFFSET_ALL_CH_REQ (ser ReadOffsets)
    MT2_READ_OFFSET_ALL_CH_RESP "READ_OFFSET_ALL_CH" (fun r => count_of (offsetValues r)).

Definition read_trim_all_afe (afe : Z) : M Wd cmd_readTrim_allAFE_response :=
  a <- lift (set_u32 afe) ;;
  checked cmd_readTrim_allAFE_response MT2_READ_TRIM_ALL_AFE_REQ (ser (ReadTrimAfe a))
    MT2_READ_TRIM_ALL_AFE_RESP (bracket "READ_TRIM_ALL_AFE" afe)
    (fun r => count_of (ta_trimValues r)).

Definition read_offset_all_afe (afe : Z) : M Wd cmd_readOffset_allAFE_response :=
  a <- lift (set_u32 afe) ;;
  checked cmd_readOffset_allAFE_response MT2_READ_OFFSET_ALL_AFE_REQ (ser (ReadOffsetAfe a))
    MT2_READ_OFFSET_ALL_AFE_RESP (bracket "READ_OFFSET_ALL_AFE" afe)
    (fun r => count_of (oa_offsetValues r)).

Definition read_trim_single (ch : Z) : M Wd cmd_readTrim_singleChannel_response :=
  c <- lift (set_u32 ch) ;;
  checked cmd_readTrim_singleChannel_response MT2_READ_TRIM_CH_REQ (ser (ReadTrim c))
    MT2_READ_TRIM_CH_RESP (bracket "READ_TRIM_CH" ch) (fun r => value_of (ts_trimValue r)).

Definition read_offset_single (ch : Z) : M Wd cmd_readOffset_singleChannel_response :=
  c <- lift (set_u32 ch) ;;
  checked cmd_readOffset_singleChannel_response MT2_READ_OFFSET_CH_REQ (ser (ReadOffset c))
    MT2_READ_OFFSET_CH_RESP (bracket "READ_OFFSET_CH" ch) (fun r => value_of (os_offsetValue r)).

Definition read_vbias_control : M Wd cmd_readVbiasControl_response :=
  checked cmd_readVbiasControl_response MT2_READ_VBIAS_CONTROL_REQ (ser ReadVbias)
    MT2_READ_VBIAS_CONTROL_RESP "READ_VBIAS_CONTROL" (fun r => value_of (vBiasControlValue r)).

Definition read_afe_reg (afe reg : Z) : M Wd cmd_readAFEReg_response :=
  a <- lift (set_u32 afe) ;;
  r <- lift (set_u32 reg) ;;
  checked cmd_readAFEReg_response MT2_READ_AFE_REG_REQ (ser (ReadReg a r)) MT2_READ_AFE_REG_RESP
    (reg_label "READ_AFE_REG" afe reg) (fun r => hex_value (regValue r)).

Definition read_afe_vgain (afe : Z) : M Wd cmd_readAFEVgain_response :=
  a <- lift (set_u32 afe) ;;
  checked cmd_readAFEVgain_response MT2_READ_AFE_VGAIN_REQ (ser (ReadVgain a))
    MT2_READ_AFE_VGAIN_RESP (bracket "READ_AFE_VGAIN" afe) (fun r => value_of (vgainValue r)).

Definition read_afe_bias (afe : Z) : M Wd cmd_readAFEBiasSet_response :=
  a <- lift (set_u32 afe) ;;
  checked cmd_readAFEBiasSet_response MT2_READ_AFE_BIAS_SET_REQ (ser (ReadBias a))
    MT2_READ_AFE_BIAS_SET_RESP (bracket "READ_AFE_BIAS_SET" afe) (fun r => value_of (biasValue r)).

Definition read_bias_monitor (afe : Z) : M Wd cmd_readBiasVoltageMonitor_response :=
  a <- lift (set_u32 afe) ;;
  checked cmd_readBiasVoltageMonitor_response MT2_READ_BIAS_VOLTAGE_MONITOR_REQ (ser (ReadMonitor a))
    MT2_READ_BIAS_VOLTAGE_MONITOR_RESP (bracket "READ_BIAS_VOLTAGE_MONITOR" afe)
    (fun r => value_of (biasVoltageValue r)).

(** [if resp: d[k] = resp.value] *)
Definition note {R V : Type} (resp : option R) (f : R -> V) (k : Z) (d : gmap Z V) : gmap Z V :=
  match resp with Some r => <[k := f r]> d | None => d end.

(** One AFE. *)
Definition read_afe_block (d : readings) (afe : Z) : M Fd readings :=
  t <- run (bracket "READ_TRIM_ALL_AFE" afe) (read_trim_all_afe afe) ;;
  o <- run (bracket "READ_OFFSET_ALL_AFE" afe) (read_offset_all_afe afe) ;;
  g <- run (bracket "READ_AFE_VGAIN" afe) (read_afe_vgain afe) ;;
  b <- run (bracket "READ_AFE_BIAS_SET" afe) (read_afe_bias afe) ;;
  (if ma_skip_bias_monitor args then ret tt
   else run (bracket "READ_BIAS_VOLTAGE_MONITOR" afe) (read_bias_monitor afe) ;;; ret tt) ;;;
  ret (Readings (trim_single d) (offset_single d)
         (note t ta_trimValues afe (trim_all_afe d)) (note o oa_offsetValues afe (offset_all_afe d))
         (note g vgainValue afe (afe_vgain d)) (note b biasValue afe (afe_bias d)) (afe_reg_vals d)).

(** One channel. *)
Definition read_channel (d : readings) (ch : Z) : M Fd readings :=
  t <- run (bracket "READ_TRIM_CH" ch) (read_trim_single ch) ;;
  o <- run (bracket "READ_OFFSET_CH" ch) (read_offset_single ch) ;;
  ret (Readings (note t ts_trimValue ch (trim_single d)) (note o os_offsetValue ch (offset_single d))
         (trim_all_afe d) (offset_all_afe d) (afe_vgain d) (afe_bias d) (afe_reg_vals d)).

(** One [--afe-reg AFE REG]; numbers that cannot be read end the script. *)
Definition read_reg (d : readings) (spec : string * string) : M Fd readings :=
  afe <- lift (int0 (fst spec)) ;;
  reg <- lift (int0 (snd spec)) ;;
  resp <- run (reg_label "READ_AFE_REG" afe reg) (read_afe_reg afe reg) ;;
  ret (match resp with
       | Some r => Readings (trim_single d) (offset_single d) (trim_all_afe d) (offset_all_afe d)
                     (afe_vgain d) (afe_bias d) (put_reg (afe_reg_vals d) afe reg (regValue r))
       | None => d
       end).

(** ** Write-backs *)

Definition write_trim_single (ch value : Z) : M Wd cmd_writeTrim_singleChannel_response :=
  c <- lift (set_u32 ch) ;;
  v <- lift (set_u32 value) ;;
  checked cmd_writeTrim_singleChannel_response MT2_WRITE_TRIM_CH_REQ (ser (WriteTrim c v false))
    MT2_WRITE_TRIM_CH_RESP (bracket "WRITE_TRIM_CH" ch) (fun r => value_of (wts_trimValue r)).

Definition write_offset_single (ch value : Z) : M Wd cmd_writeOFFSET_singleChannel_response :=
  c <- lift (set_u32 ch) ;;
  v <- lift (set_u32 value) ;;
  checked cmd_writeOFFSET_singleChannel_response MT2_WRITE_OFFSET_CH_REQ
    (ser (WriteOffset c v false)) MT2_WRITE_OFFSET_CH_RESP (bracket "WRITE_OFFSET_CH" ch)
    (fun r => value_of (wo_offsetValue r)).

Definition write_afe_vgain (afe value : Z) : M Wd cmd_writeAFEVGAIN_response :=
  a <- lift (set_u32 afe) ;;
  v <- lift (set_u32 value) ;;
  checked cmd_writeAFEVGAIN_response MT2_WRITE_AFE_VGAIN_REQ (ser (WriteVgain a v))
    MT2_WRITE_AFE_VGAIN_RESP (bracket "WRITE_AFE_VGAIN" afe) (fun r => value_of (wvr_vgainValue r)).

Definition write_afe_bias (afe value : Z) : M Wd cmd_writeAFEBiasSet_response :=
  a <- lift (set_u32 afe) ;;
  v <- lift (set_u32 value) ;;
  checked cmd_writeAFEBiasSet_response MT2_WRITE_AFE_BIAS_SET_REQ (ser (WriteBias a v))
    MT2_WRITE_AFE_BIAS_SET_RESP (bracket "WRITE_AFE_BIAS_SET" afe)
    (fun r => value_of (wr_biasValue r)).

Definition write_afe_reg (afe reg value : Z) : M Wd cmd_writeAFEReg_response :=
  a <- lift (set_u32 afe) ;;
  r <- lift (set_u32 reg) ;;
  v <- lift (set_u32 value) ;;
  checked cmd_writeAFEReg_response MT2_WRITE_AFE_REG_REQ (ser (WriteReg a r v))
    MT2_WRITE_AFE_REG_RESP (reg_label "WRITE_AFE_REG" afe reg) (fun r => hex_value (wgr_regValue r)).

Definition write_trim_all (value : Z) : M Wd cmd_writeTRIM_allChannels_response :=
  v <- lift (set_u32 value) ;;
  checked cmd_writeTRIM_allChannels_response MT2_WRITE_TRIM_ALL_CH_REQ (ser (WriteTrimAll v false))
    MT2_WRITE_TRIM_ALL_CH_RESP "WRITE_TRIM_ALL_CH" (fun r => value_of (wta_trimValue r)).

Definition write_offset_all (value : Z) : M Wd cmd_writeOFFSET_allChannels_response :=
  v <- lift (set_u32 value) ;;
  checked cmd_writeOFFSET_allChannels_response MT2_WRITE_OFFSET_ALL_CH_REQ
    (ser (WriteOffsetAll v false)) MT2_WRITE_OFFSET_ALL_CH_RESP "WRITE_OFFSET_ALL_CH"
    (fun r => value_of (woa_offsetValue r)).

Definition write_trim_all_afe (afe value : Z) : M Wd cmd_writeTrim_allAFE_response :=
  a <- lift (set_u32 afe) ;;
  v <- lift (set_u32 value) ;;
  checked cmd_writeTrim_allAFE_response MT2_WRITE_TRIM_ALL_AFE_REQ (ser (WriteTrimAfe a v false))
    MT2_WRITE_TRIM_ALL_AFE_RESP (bracket "WRITE_TRIM_ALL_AFE" afe)
    (fun r => value_of (wtr_trimValue r)).

Definition write_offset_all_afe (afe value : Z) : M Wd cmd_writeOFFSET_allAFE_response :=
  a <- lift (set_u32 afe) ;;
  v <- lift (set_u32 value) ;;
  checked cmd_writeOFFSET_allAFE_response MT2_WRITE_OFFSET_ALL_AFE_REQ
    (ser (WriteOffsetAfe a v false)) MT2_WRITE_OFFSET_ALL_AFE_RESP
    (bracket "WRITE_OFFSET_ALL_AFE" afe) (fun r => value_of (wor_offsetValue r)).

(** [run(label, ...)] whose result is not used. *)
Definition run_ {A : Type} (label : string) (fn : M Wd A) : M Fd unit := run label fn ;;; ret tt.

(** [if k in d: run(label, lambda: write(d[k]))] *)
Definition write_known {A : Type} (label : string) (v : option Z) (write : Z -> M Wd A) : M Fd unit :=
  match v with Some v => run_ label (write v) | None => ret tt end.

Definition write_channel (d : readings) (ch : Z) : M Fd unit :=
  write_known (bracket "WRITE_TRIM_CH" ch) (trim_single d !! ch) (write_trim_single ch) ;;;
  write_known (bracket "WRITE_OFFSET_CH" ch) (offset_single d !! ch) (write_offset_single ch).

Definition write_afe (d : readings) (afe : Z) : M Fd unit :=
  write_known (bracket "WRITE_AFE_VGAIN" afe) (afe_vgain d !! afe) (write_afe_vgain afe) ;;;
  write_known (bracket "WRITE_AFE_BIAS_SET" afe) (afe_bias d !! afe) (write_afe_bias afe).

Definition write_reg (arv : Z * Z * Z) : M Fd unit :=
  let '(afe, reg, value) := arv in
  run_ (reg_label "WRITE_AFE_REG" afe reg) (write_afe_reg afe reg value).

(** A write to all: the forced value, else the value all readings agree on, else nothing. *)
Definition write_uniform {A : Type} (label : string) (forced : option Z) (values : list Z)
    (write : Z -> M Wd A) (option_text : string) : M Fd unit :=
  match forced with
  | Some v => run_ label (write v)
  | None =>
      match uniform values with
      | Some v => run_ label (write v)
      | None => tell ("[SKIP] " +:+ label +:+ " (not uniform; use " +:+ option_text +:+ ")")
      end
  end.

Definition write_afe_all (d : readings) (forced_trim forced_offset : gmap Z Z) (afe : Z)
    : M Fd unit :=
  write_uniform (bracket "WRITE_TRIM_ALL_AFE" afe) (forced_trim !! afe)
    (default [] (trim_all_afe d !! afe)) (write_trim_all_afe afe) "--force-trim-afe AFE:VAL" ;;;
  write_uniform (bracket "WRITE_OFFSET_ALL_AFE" afe) (forced_offset !! afe)
    (default [] (offset_all_afe d !! afe)) (write_offset_all_afe afe) "--force-offset-afe AFE:VAL".

(** One AFE of [--attenuation]: outside [run]. *)
Definition write_attenuation (value afe : Z) : M Fd unit :=
  a <- lift (set_u32 afe) ;;
  v <- lift (set_u32 value) ;;
  rep <- on_z (v2_rpc MT2_WRITE_AFE_ATTENUATION_REQ (ser (WriteAttenuation a v))) ;;
  if negb (mtype rep =? MT2_WRITE_AFE_ATTENUATION_RESP)
  then tell ("[FAIL] " +:+ bracket "WRITE_AFE_ATTENUATION" afe +:+ " type mismatch "
             +:+ str_Z (mtype rep))
  else
    resp <- lift (parse (A := cmd_writeAFEAttenuation_response) (payload rep)) ;;
    tell (status_line (bracket "WRITE_AFE_ATTENUATION" afe) resp (value_of (wnr_attenuation resp))).

Definition write_vbias (value : Z) : M Fd unit :=
  v <- lift (set_u32 value) ;;
  rep <- on_z (v2_rpc MT2_WRITE_VBIAS_CONTROL_REQ (ser (WriteVbias v (vbias_enable args)))) ;;
  if negb (mtype rep =? MT2_WRITE_VBIAS_CONTROL_RESP)
  then tell ("[FAIL] WRITE_VBIAS_CONTROL type mismatch " +:+ str_Z (mtype rep))
  else
    resp <- lift (parse (A := cmd_writeVbiasControl_response) (payload rep)) ;;
    tell (status_line "WRITE_VBIAS_CONTROL" resp (value_of (wvr_vBiasControlValue resp))).

(** The part under [--do-writes]. *)
Definition write_back (channels afe_list trim_values offset_values : list Z)
    (forced_trim forced_offset : gmap Z Z) (d : readings) : M Fd unit :=
  for_each channels (write_channel d) ;;;
  for_each afe_list (write_afe d) ;;;
  for_each (afe_reg_vals d) write_reg ;;;
  write_uniform "WRITE_TRIM_ALL_CH" (force_trim_all args) trim_values write_trim_all
    "--force-trim-all to override" ;;;
  write_uniform "WRITE_OFFSET_ALL_CH" (force_offset_all args) offset_values write_offset_all
    "--force-offset-all to override" ;;;
  for_each afe_list (write_afe_all d forced_trim forced_offset) ;;;
  (match attenuation args with
   | Some v => for_each afe_list (write_attenuation v)
   | None => tell "[SKIP] WRITE_AFE_ATTENUATION (requires --attenuation)"
   end) ;;;
  match vbias_control args with
  | Some v => write_vbias v
  | None => tell "[SKIP] WRITE_VBIAS_CONTROL (requires --vbias-control)"
  end.

(** ** Explicit operations *)

(** [rep = run(...)], and a report if the type of the reply is the one expected. *)
Definition request_op (R : Type) `{!Proto B R, !Reported R} (label : string) (ty : Z) (req : B)
    (resp_ty : Z) (extra : R -> string) : M Fd unit :=
  rep <- run label (v2_rpc ty req) ;;
  match rep with
  | Some rep =>
      if mtype rep =? resp_ty
      then resp <- lift (parse (payload rep)) ;; tell (status_line label resp (extra resp))
      else ret tt
  | None => ret tt
  end.

Definition plain {R : Type} (_ : R) : string := "".

Definition spybuffer_channels (channels : list Z) : list Z :=
  match channels with ch :: _ => [ch] | [] => [0] end.

Definition dump_spybuffers (channels : list Z) : M Fd unit :=
  chs <- lift (rmap set_u32 (spybuffer_channels channels)) ;;
  wf <- lift (set_u32 (spybuffer_waveforms args)) ;;
  ns <- lift (set_u32 (spybuffer_samples args)) ;;
  request_op DumpSpyBuffersResponse "DUMP_SPYBUFFER" MT2_DUMP_SPYBUFFER_REQ
    (ser (DumpReq chs ns wf (spybuffer_software_trigger args))) MT2_DUMP_SPYBUFFER_RESP
    (fun r => "wf=" +:+ str_Z (dr_numberOfWaveforms r) +:+ " samples="
              +:+ str_Z (dr_numberOfSamples r)) ;;;
  size_ <- lift (set_u32 (Z.max 1 (spybuffer_waveforms args))) ;;
  request_op DumpSpyBuffersChunkResponse "DUMP_SPYBUFFER_CHUNK" MT2_DUMP_SPYBUFFER_CHUNK_REQ
    (ser (ChunkReq chs ns wf (spybuffer_software_trigger args) ("full-" +:+ uuid) size_))
    MT2_DUMP_SPYBUFFER_CHUNK_RESP
    (fun r => "wf=" +:+ str_Z (cr_waveformCount r) +:+ " samples=" +:+ str_Z (cr_numberOfSamples r)).

Definition explicit_ops (channels : list Z) : M Fd unit :=
  when (configure_clks args)
    (id <- lift (set_u32 (clks_id args)) ;;
     request_op ConfigureCLKsResponse "CONFIGURE_CLKS" MT2_CONFIGURE_CLKS_REQ
       (ser (ClksReq id (ma_ctrl_ep_clk args) (reset_mmcm1 args) (ma_reset_endpoint args)))
       MT2_CONFIGURE_CLKS_RESP plain) ;;;
  (match configure_json args with
   | Some path =>
       when (negb (bool_decide (path = "")))
         (req <- lift (load_config_request path (files path)) ;;
          request_op ConfigureResponse "CONFIGURE_FE" MT2_CONFIGURE_FE_REQ (ser req)
            MT2_CONFIGURE_FE_RESP plain)
   | None => ret tt
   end) ;;;
  when (ma_align_afes args)
    (request_op cmd_alignAFEs_response "ALIGN_AFE" MT2_ALIGN_AFE_REQ (ser AlignAFEs)
       MT2_ALIGN_AFE_RESP plain) ;;;
  (match set_afe_reset args with
   | Some b => request_op cmd_setAFEReset_response "SET_AFE_RESET" MT2_SET_AFE_RESET_REQ
                 (ser (SetReset b)) MT2_SET_AFE_RESET_RESP
                 (fun r => "value=" +:+ str_bool (sr_resetValue r))
   | None => ret tt
   end) ;;;
  when (do_afe_reset args)
    (request_op cmd_doAFEReset_response "DO_AFE_RESET" MT2_DO_AFE_RESET_REQ (ser DoReset)
       MT2_DO_AFE_RESET_RESP plain) ;;;
  (match set_afe_powerstate args with
   | Some b => request_op cmd_setAFEPowerState_response "SET_AFE_POWERSTATE"
                 MT2_SET_AFE_POWERSTATE_REQ (ser (SetPowerState b)) MT2_SET_AFE_POWERSTATE_RESP
                 (fun r => value_of (psr_powerState r))
   | None => ret tt
   end) ;;;
  when (do_software_trigger args)
    (request_op cmd_doSoftwareTrigger_response "DO_SOFTWARE_TRIGGER" MT2_DO_SOFTWARE_TRIGGER_REQ
       (ser DoTrigger) MT2_DO_SOFTWARE_TRIGGER_RESP plain) ;;;
  when (spybuffer args) (dump_spybuffers channels).

(** ** The script *)

(** All the readings, after the connection. *)
Definition read_everything (channels counter_channels afe_list : list Z)
    : M Fd (list Z * list Z * readings) :=
  run_ "READ_TEST_REG" do_test_reg ;;;
  run_ "READ_GENERAL_INFO" do_general_info ;;;
  run_ "READ_TRIGGER_COUNTERS" (do_trigger_counters counter_channels) ;;;
  run_ "READ_CURRENT_MONITOR" do_read_current_monitor ;;;
  trim_all <- run "READ_TRIM_ALL_CH" read_trim_all_ch ;;
  offset_all <- run "READ_OFFSET_ALL_CH" read_offset_all_ch ;;
  let trim_values := from_option trimValues [] trim_all in
  let offset_values := from_option offsetValues [] offset_all in
  d <- fold_m afe_list read_afe_block no_readings ;;
  d <- fold_m channels read_channel d ;;
  run_ "READ_VBIAS_CONTROL" read_vbias_control ;;;
  d <- fold_m (ma_afe_reg args) read_reg d ;;
  ret (trim_values, offset_values, d).

Definition newline : string := String (Ascii.ascii_of_nat 10) "".

Definition report : M Fd Z :=
  fs <- gets failures ;;
  match fs with
  | [] => ret 0
  | _ => tell (newline +:+ "Failures:") ;;; for_each fs (fun item => tell ("- " +:+ item)) ;;; ret 1
  end.

Definition main : M Fd Z :=
  channels <- lift (parse_int_tokens (ma_channels args)) ;;
  counter_channels <- lift (parse_int_tokens (ma_counter_channels args)) ;;
  afe_list <- lift (match ma_afes args with
                    | [] => Ok (seqZ 0 (ma_afe_count args))
                    | l => parse_int_tokens l
                    end) ;;
  forced_trim <- lift (parse_kv_list (force_trim_afe args)) ;;
  forced_offset <- lift (parse_kv_list (force_offset_afe args)) ;;
  '(trim_values, offset_values, d) <- read_everything channels counter_channels afe_list ;;
  when (do_writes args)
    (write_back channels afe_list trim_values offset_values forced_trim forced_offset d) ;;;
  explicit_ops channels ;;;
  report.

End script.

(** ** What the script may send *)

(** The types of requests that only read. *)
Definition READ_TYPES : list Z :=
  [MT2_READ_TEST_REG_REQ; MT2_READ_GENERAL_INFO_REQ; MT2_READ_TRIGGER_COUNTERS_REQ;
   MT2_READ_CURRENT_MONITOR_REQ; MT2_READ_TRIM_ALL_CH_REQ; MT2_READ_OFFSET_ALL_CH_REQ;
   MT2_READ_TRIM_ALL_AFE_REQ; MT2_READ_OFFSET_ALL_AFE_REQ; MT2_READ_AFE_VGAIN_REQ;
   MT2_READ_AFE_BIAS_SET_REQ; MT2_READ_BIAS_VOLTAGE_MONITOR_REQ; MT2_READ_TRIM_CH_REQ;
   MT2_READ_OFFSET_CH_REQ; MT2_READ_VBIAS_CONTROL_REQ; MT2_READ_AFE_REG_REQ].

Definition WRITE_TYPES : list Z :=
  [MT2_WRITE_TRIM_CH_REQ; MT2_WRITE_OFFSET_CH_REQ; MT2_WRITE_AFE_VGAIN_REQ;
   MT2_WRITE_AFE_BIAS_SET_REQ; MT2_WRITE_AFE_REG_REQ; MT2_WRITE_TRIM_ALL_CH_REQ;
   MT2_WRITE_OFFSET_ALL_CH_REQ; MT2_WRITE_TRIM_ALL_AFE_REQ; MT2_WRITE_OFFSET_ALL_AFE_REQ].

Definition only_if {A : Type} (b : bool) (l : list A) : list A := if b then l else [].

Definition given {A : Type} (o : option A) : bool := match o with Some _ => true | None => false end.

(** The types the options allow. *)
Definition permitted (args : smoke_args) : list Z :=
  READ_TYPES
  ++ only_if (do_writes args)
       (WRITE_TYPES
        ++ only_if (given (attenuation args)) [MT2_WRITE_AFE_ATTENUATION_REQ]
        ++ only_if (given (vbias_control args)) [MT2_WRITE_VBIAS_CONTROL_REQ])
  ++ only_if (configure_clks args) [MT2_CONFIGURE_CLKS_REQ]
  ++ only_if (given (configure_json args)) [MT2_CONFIGURE_FE_REQ]
  ++ only_if (ma_align_afes args) [MT2_ALIGN_AFE_REQ]
  ++ only_if (given (set_afe_reset args)) [MT2_SET_AFE_RESET_REQ]
  ++ only_if (do_afe_reset args) [MT2_DO_AFE_RESET_REQ]
  ++ only_if (given (set_afe_powerstate args)) [MT2_SET_AFE_POWERSTATE_REQ]
  ++ only_if (do_software_trigger args) [MT2_DO_SOFTWARE_TRIGGER_REQ]
  ++ only_if (spybuffer args) [MT2_DUMP_SPYBUFFER_REQ; MT2_DUMP_SPYBUFFER_CHUNK_REQ].

Lemma elem_of_only_if {A : Type} b (l : list A) x : b = true -> x ∈ l -> x ∈ only_if b l.
Proof. by intros ->. Qed.

Section sending.
Context {S B : Type} `{Peer S B, Size B, !Proto B (ControlEnvelopeV2 B), !SmokeMessages B}.
Abbreviation Wd := (zworld S B).
Abbreviation Fd := (fworld S B).
Context (fixed : nat -> float -> string) (uuid : string) (files : string -> option string)
  (args : smoke_args).

(** A request the script may make. *)
Definition proper (ts : list Z) (env : ControlEnvelopeV2 B) : Prop :=
  mtype env ∈ ts /\ version env = 2 /\ dir env = DIR_REQUEST /\ route env = ma_route args.

Definition sends_z {A : Type} (ts : list Z) (m : M Wd A) : Prop :=
  forall w, exists envs, sent (snd (m w)) = sent w ++ (ser <$> envs) /\ Forall (proper ts) envs.

Definition sends {A : Type} (ts : list Z) (m : M Fd A) : Prop :=
  forall w, exists envs, sent (fz (snd (m w))) = sent (fz w) ++ (ser <$> envs)
                         /\ Forall (proper ts) envs.

Lemma sends_z_unsent {A : Type} ts (m : M Wd A) : unsent m -> sends_z ts m.
Proof using Type. intros Hm w. exists []. cbn. rewrite app_nil_r. split; [apply Hm|constructor]. Qed.

Lemma sends_z_bind {A C : Type} ts (m : M Wd A) (k : A -> M Wd C) :
  sends_z ts m -> (forall a, sends_z ts (k a)) -> sends_z ts (bind m k).
Proof using Type.
  intros Hm Hk w. destruct (Hm w) as (e1 & Hs1 & Hp1). unfold bind.
  destruct (m w) as [[a|e] w1]; cbn in *; [|by exists e1].
  destruct (Hk a w1) as (e2 & Hs2 & Hp2). exists (e1 ++ e2). split; [|by apply Forall_app].
  by rewrite Hs2, Hs1, fmap_app, app_assoc.
Qed.

Lemma await_unsent ty (env : ControlEnvelopeV2 B) : unsent (await ty env : M Wd _).
Proof using Type. unfold await. unsent_steps. Qed.

Lemma sends_z_rpc ts ty (req : B) : ty ∈ ts -> sends_z ts (v2_rpc args ty req).
Proof using Type.
  intros Hty w. unfold v2_rpc.
  assert (He : exists env w1, build_env next_ids_random ty req (ma_route args) w = (Ok env, w1) /\
    proper ts env /\ sent w1 = sent w) by (by eexists _, _).
  destruct He as (env & w1 & Hr & Henv & Hs). rewrite (bind_run _ _ _ _ _ Hr), <- Hs.
  clear Hr Hs. revert w1. change (sends_z ts (z_send (ser env) ;;; await ty env)).
  apply sends_z_bind; [|intros _; apply sends_z_unsent, await_unsent].
  intros w1. unfold z_send. destruct (can_send (srv w1)); [destruct (answer (srv w1) (ser env))|].
  - exists [env]. split; [done|]. by constructor.
  - exists []. cbn. rewrite app_nil_r. split; [done|constructor].
Qed.

Lemma sends_z_checked ts (R : Type) `{!Proto B R, !Reported R} ty (req : B) resp label extra :
  ty ∈ ts -> sends_z ts (checked args R ty req resp label extra).
Proof using Type.
  intros Hty. apply sends_z_bind; [by apply sends_z_rpc|intros rep].
  apply sends_z_unsent. unsent_steps.
Qed.

Lemma sends_z_field {A C : Type} ts (r : result A) (k : A -> M Wd C) :
  (forall a, sends_z ts (k a)) -> sends_z ts (bind (lift r) k).
Proof using Type. intros Hk. apply sends_z_bind; [by apply sends_z_unsent|done]. Qed.

Lemma smoke_quiet {A : Type} ts (m : M Fd A) :
  (forall w, sent (fz (snd (m w))) = sent (fz w)) -> sends ts m.
Proof using Type. intros Hm w. exists []. cbn. rewrite app_nil_r. split; [apply Hm|constructor]. Qed.

Lemma smoke_bind {A C : Type} ts (m : M Fd A) (k : A -> M Fd C) :
  sends ts m -> (forall a, sends ts (k a)) -> sends ts (bind m k).
Proof using Type.
  intros Hm Hk w. destruct (Hm w) as (e1 & Hs1 & Hp1). unfold bind.
  destruct (m w) as [[a|e] w1]; cbn in *; [|by exists e1].
  destruct (Hk a w1) as (e2 & Hs2 & Hp2). exists (e1 ++ e2). split; [|by apply Forall_app].
  by rewrite Hs2, Hs1, fmap_app, app_assoc.
Qed.

Lemma sends_on_z {A : Type} ts (m : M Wd A) : sends_z ts m -> sends ts (on_z m).
Proof using Type.
  intros Hm w. destruct (Hm (fz w)) as (envs & Hs & Hp). exists envs. unfold on_z.
  destruct (m (fz w)) as [r z]. by split.
Qed.

Lemma sends_run {A : Type} ts label (m : M Wd A) : sends_z ts m -> sends ts (run label m).
Proof using Type.
  intros Hm w. destruct (Hm (fz w)) as (envs & Hs & Hp). exists envs.
  unfold run, try_except, bind, on_z. by destruct (m (fz w)) as [[a|e] z].
Qed.

Lemma sends_run_ {A : Type} ts label (m : M Wd A) : sends_z ts m -> sends ts (run_ label m).
Proof using Type. intros Hm. apply smoke_bind; [by apply sends_run|]. intros _. by apply smoke_quiet. Qed.

Lemma sends_for_each {A : Type} ts (l : list A) (f : A -> M Fd unit) :
  (forall a, sends ts (f a)) -> sends ts (for_each l f).
Proof using Type.
  intros Hf. induction l as [|a l IH]; [by apply smoke_quiet|]. cbn [for_each]. by apply smoke_bind.
Qed.

Lemma sends_fold_m {A T : Type} ts (l : list A) (f : T -> A -> M Fd T) s :
  (forall s a, sends ts (f s a)) -> sends ts (fold_m l f s).
Proof using Type.
  intros Hf. revert s. induction l as [|a l IH]; intros s; [by apply smoke_quiet|].
  cbn [fold_m]. apply smoke_bind; [apply Hf|apply IH].
Qed.

(** An option that is set allows its operation. *)
Ltac permitted_mem :=
  unfold permitted;
  repeat match goal with
  | Hb : ?b = true |- context [?b] => rewrite Hb; clear Hb
  | Ho : ?o = Some _ |- context [?o] => rewrite Ho; clear Ho
  end;
  cbn [only_if given];
  repeat first [apply elem_of_app; left; reg_mem | reg_mem | apply elem_of_app; right].

(** One branch after the other. *)
Ltac sends_steps :=
  repeat first
    [ progress intros
    | assumption
    | apply sends_run_ | apply sends_run | apply sends_on_z | apply sends_for_each
    | apply sends_fold_m
    | match goal with
      | |- sends _ (bind _ _) => apply smoke_bind
      | |- sends _ (when ?b _) => destruct b eqn:?; cbn [when]
      | |- sends _ (match ?x with _ => _ end) => destruct x eqn:?
      | |- sends _ (ret _) => by apply smoke_quiet
      | |- sends _ (lift _) => by apply smoke_quiet
      | |- sends _ (tell _) => by apply smoke_quiet
      | |- sends _ (gets _) => by apply smoke_quiet
      | |- sends_z _ (say _) => by apply sends_z_unsent
      | |- sends_z _ (bind (lift _) _) => apply sends_z_field
      | |- sends_z _ (checked _ _ _ _ _ _ _) => apply sends_z_checked
      | |- sends_z _ (v2_rpc _ _ _) => apply sends_z_rpc
      end ].

Lemma sends_read_everything ts channels counter_channels afe_list :
  READ_TYPES ⊆ ts ->
  sends ts (read_everything fixed args channels counter_channels afe_list).
Proof using Type.
  intros Hts. unfold read_everything, read_afe_block, read_channel, read_reg. cbv zeta.
  unfold do_test_reg, do_general_info, do_trigger_counters, do_read_current_monitor,
    read_trim_all_ch, read_offset_all_ch, read_trim_all_afe, read_offset_all_afe,
    read_trim_single, read_offset_single, read_vbias_control, read_afe_reg, read_afe_vgain,
    read_afe_bias, read_bias_monitor.
  sends_steps.
  all: apply Hts; reg_mem.
Qed.

Lemma smoke_sends_back ts channels afe_list tv ov ft fo d :
  WRITE_TYPES ⊆ ts ->
  (attenuation args <> None -> MT2_WRITE_AFE_ATTENUATION_REQ ∈ ts) ->
  (vbias_control args <> None -> MT2_WRITE_VBIAS_CONTROL_REQ ∈ ts) ->
  sends ts (write_back args channels afe_list tv ov ft fo d).
Proof using Type.
  intros Hts Hatt Hvb. unfold write_back, write_channel, write_afe, write_reg, write_afe_all,
    write_known, write_uniform, write_attenuation, write_vbias, write_trim_single,
    write_offset_single, write_afe_vgain, write_afe_bias, write_afe_reg, write_trim_all,
    write_offset_all, write_trim_all_afe, write_offset_all_afe.
  sends_steps.
  all: try (apply Hts; reg_mem).
  all: first [apply Hatt; congruence|apply Hvb; congruence].
Qed.
Lemma permitted_options t :
  (t ∈ READ_TYPES -> t ∈ permitted args) /\
  (do_writes args = true -> t ∈ WRITE_TYPES \/ (attenuation args <> None /\
     t = MT2_WRITE_AFE_ATTENUATION_REQ) \/ (vbias_control args <> None /\
     t = MT2_WRITE_VBIAS_CONTROL_REQ) -> t ∈ permitted args).
Proof using Type.
  clear fixed uuid files. unfold permitted. split; intros Ht; [by apply elem_of_app; left|]. intros Hw.
  rewrite Ht. cbn [only_if]. rewrite !elem_of_app.
  destruct Hw as [Hw|[[Hw ->]|[Hw ->]]]; [tauto| |].
  - destruct (attenuation args); [|done]. cbn [given only_if]. rewrite list_elem_of_singleton. tauto.
  - destruct (vbias_control args); [|done]. cbn [given only_if]. rewrite !list_elem_of_singleton.
    tauto.
Qed.

Lemma sends_request_op ts (R : Type) `{!Proto B R, !Reported R} label ty (req : B) resp extra :
  ty ∈ ts -> sends ts (request_op args R label ty req resp extra).
Proof using Type. intros Hty. unfold request_op. sends_steps. Qed.

Lemma sends_explicit channels :
  sends (permitted args) (explicit_ops uuid files args channels).
Proof using Type.
  unfold explicit_ops, dump_spybuffers. sends_steps; apply sends_request_op; permitted_mem.
Qed.

(** C39. Whatever the server does, every request the smoke test sends is a version 2 request to
    its route, of a type its options allow: without [--do-writes] and without the flag of an
    intrusive operation only readings are sent. *)
Theorem smoke_sends_permitted w :
  exists envs,
    sent (fz (snd (main fixed uuid files args w))) = sent (fz w) ++ (ser <$> envs) /\
    Forall (fun env : ControlEnvelopeV2 B => mtype env ∈ permitted args /\ version env = 2 /\
      dir env = DIR_REQUEST /\ route env = ma_route args) envs.
Proof using Type.
  revert w. change (sends (permitted args) (main fixed uuid files args)).
  assert (Hr : READ_TYPES ⊆ permitted args) by (intros t; apply (permitted_options t)).
  unfold main. sends_steps;
    first [by apply sends_read_everything|apply sends_explicit|apply smoke_sends_back|idtac].
  - intros t Ht. apply (permitted_options t); auto.
  - intros Ha. apply (permitted_options _); auto.
  - intros Hv. apply (permitted_options _); auto.
  - unfold report. sends_steps.
Qed.

End sending.

(** ** The readings are all made *)

(** No write-backs and no explicit operation. *)
Record read_only (args : smoke_args) : Prop := {
  ro_writes : do_writes args = false; ro_clks : configure_clks args = false;
  ro_json : configure_json args = None; ro_align : ma_align_afes args = false;
  ro_reset : set_afe_reset args = None; ro_do_reset : do_afe_reset args = false;
  ro_power : set_afe_powerstate args = None; ro_trigger : do_software_trigger args = false;
  ro_spy : spybuffer args = false }.

(** The explicit operations alone. *)
Definition no_explicit (args : smoke_args) : Prop :=
  configure_clks args = false /\ configure_json args = None /\ ma_align_afes args = false /\
  set_afe_reset args = None /\ do_afe_reset args = false /\ set_afe_powerstate args = None /\
  do_software_trigger args = false /\ spybuffer args = false.

Definition u32 (z : Z) : Prop := 0 <= z < 2 ^ 32.

(** What the command line stands for. *)
Record parsed (args : smoke_args) (channels counters afes : list Z) (regs : list (Z * Z))
    (ft fo : gmap Z Z) : Prop := {
  pa_channels : parse_int_tokens (ma_channels args) = Ok channels;
  pa_counters : parse_int_tokens (ma_counter_channels args) = Ok counters;
  pa_afes : (match ma_afes args with [] => Ok (seqZ 0 (ma_afe_count args))
             | l => parse_int_tokens l end) = Ok afes;
  pa_ft : parse_kv_list (force_trim_afe args) = Ok ft;
  pa_fo : parse_kv_list (force_offset_afe args) = Ok fo;
  pa_regs : Forall2 (fun sp ar => int0 (fst sp) = Ok (fst ar) /\ int0 (snd sp) = Ok (snd ar))
              (ma_afe_reg args) regs;
  pa_range : Forall u32 channels /\ Forall u32 counters /\ Forall u32 afes /\
             Forall (fun ar => u32 (fst ar) /\ u32 (snd ar)) regs /\
             u32 (current_monitor_channel args) }.

Lemma set_u32_in z : u32 z -> set_u32 z = Ok z.
Proof.
  intros [H1 H2]. unfold set_u32, set_uint.
  by rewrite (proj2 (Z.leb_le _ _)), (proj2 (Z.ltb_lt _ _)).
Qed.

Lemma set_u32_all l : Forall u32 l -> rmap set_u32 l = Ok l.
Proof. induction 1 as [|z l Hz Hl IH]; [done|]. cbn [rmap]. by rewrite set_u32_in, IH. Qed.

Section plan.
Context {S B : Type} `{Peer S B, Size B, !Proto B (ControlEnvelopeV2 B), !SmokeMessages B}.
Context (args : smoke_args) (channels counters afes : list Z) (regs : list (Z * Z)).

Definition afe_plan (afe : Z) : list (Z * B) :=
  [(MT2_READ_TRIM_ALL_AFE_REQ, ser (ReadTrimAfe afe));
   (MT2_READ_OFFSET_ALL_AFE_REQ, ser (ReadOffsetAfe afe));
   (MT2_READ_AFE_VGAIN_REQ, ser (ReadVgain afe)); (MT2_READ_AFE_BIAS_SET_REQ, ser (ReadBias afe))]
  ++ only_if (negb (ma_skip_bias_monitor args))
       [(MT2_READ_BIAS_VOLTAGE_MONITOR_REQ, ser (ReadMonitor afe))].

Definition channel_plan (ch : Z) : list (Z * B) :=
  [(MT2_READ_TRIM_CH_REQ, ser (ReadTrim ch)); (MT2_READ_OFFSET_CH_REQ, ser (ReadOffset ch))].

Definition reg_plan (ar : Z * Z) : list (Z * B) :=
  [(MT2_READ_AFE_REG_REQ, ser (ReadReg (fst ar) (snd ar)))].

(** The readings, in order. *)
Definition reading_plan : list (Z * B) :=
  [(MT2_READ_TEST_REG_REQ, ser TestRegReq); (MT2_READ_GENERAL_INFO_REQ, ser (InfoReq 0));
   (MT2_READ_TRIGGER_COUNTERS_REQ, ser (CountersReq counters 0));
   (MT2_READ_CURRENT_MONITOR_REQ, ser (ReadCurrent (current_monitor_channel args)));
   (MT2_READ_TRIM_ALL_CH_REQ, ser ReadTrims); (MT2_READ_OFFSET_ALL_CH_REQ, ser ReadOffsets)]
  ++ concat (afe_plan <$> afes) ++ concat (channel_plan <$> channels)
  ++ [(MT2_READ_VBIAS_CONTROL_REQ, ser ReadVbias)] ++ concat (reg_plan <$> regs).

End plan.

Section exercising.
Context {S B : Type} `{Peer S B, Size B, !Proto B (ControlEnvelopeV2 B), !SmokeMessages B}.
Abbreviation Wd := (zworld S B).
Abbreviation Fd := (fworld S B).
Context (fixed : nat -> float -> string) (uuid : string) (files : string -> option string)
  (args : smoke_args).
Context (Hopen : forall s : S, can_send s = true).

(** [m] sends the requests [p], whatever comes of them. *)
Definition attempts {A : Type} (p : list (Z * B)) (m : M Wd A) : Prop :=
  forall w, exists envs : list (ControlEnvelopeV2 B),
    sent (snd (m w)) = sent w ++ (ser <$> envs) /\ tag <$> envs = p.

(** So does [m], and the script goes on. *)
Definition goes_on {A : Type} (p : list (Z * B)) (m : M Fd A) : Prop :=
  forall w, exists a w' (envs : list (ControlEnvelopeV2 B)), m w = (Ok a, w') /\
    sent (fz w') = sent (fz w) ++ (ser <$> envs) /\ tag <$> envs = p.

Lemma attempts_then {A C : Type} p (m : M Wd A) (k : A -> M Wd C) :
  attempts p m -> (forall a, unsent (k a)) -> attempts p (bind m k).
Proof using Type.
  intros Hm Hk w. destruct (Hm w) as (envs & Hs & Ht). exists envs. split; [|done].
  unfold bind. destruct (m w) as [[a|e] w1]; [|done]. by rewrite (Hk a w1).
Qed.

Lemma attempts_checked (R : Type) `{!Proto B R, !Reported R} ty (req : B) resp label extra :
  attempts [(ty, req)] (checked args R ty req resp label extra).
Proof using Hopen.
  apply attempts_then; [|intros rep; unsent_steps]. intros w. unfold v2_rpc.
  destruct (build_env_ok next_ids_random ty req (ma_route args) w id_random)
    as (env & w1 & Hr & Ht & Hs & _ & _).
  rewrite (bind_run _ _ _ _ _ Hr), <- Hs. exists [env]. split; [|by cbn; rewrite Ht].
  unfold bind at 1, z_send. rewrite Hopen. destruct (answer (srv w1) (ser env)) as [s ms].
  apply await_unsent.
Qed.

Lemma attempts_u32 {A : Type} p z (k : Z -> M Wd A) :
  u32 z -> attempts p (k z) -> attempts p (bind (lift (set_u32 z)) k).
Proof using Type. intros Hz Hk. by rewrite set_u32_in. Qed.

Lemma goes_on_run {A : Type} p label (m : M Wd A) : attempts p m -> goes_on p (run label m).
Proof using Type.
  intros Hm w. destruct (Hm (fz w)) as (envs & Hs & Ht). unfold run, try_except, bind, on_z.
  destruct (m (fz w)) as [[a|e] z]; by eexists _, _, envs.
Qed.

Lemma goes_on_bind {A C : Type} p1 p2 (m : M Fd A) (k : A -> M Fd C) :
  goes_on p1 m -> (forall a, goes_on p2 (k a)) -> goes_on (p1 ++ p2) (bind m k).
Proof using Type.
  intros Hm Hk w. destruct (Hm w) as (a & w1 & e1 & Hr & Hs1 & Ht1).
  rewrite (bind_run _ _ _ _ _ Hr). destruct (Hk a w1) as (c & w2 & e2 & Hr2 & Hs2 & Ht2).
  exists c, w2, (e1 ++ e2). rewrite Hr2, Hs2, Hs1, !fmap_app, app_assoc, Ht1, Ht2. done.
Qed.

Lemma goes_on_ret {A : Type} (a : A) : goes_on [] (ret a : M Fd A).
Proof using Type. intros w. exists a, w, []. cbn. by rewrite app_nil_r. Qed.

Lemma goes_on_then {A C : Type} p (m : M Fd A) (k : A -> M Fd C) :
  goes_on p m -> (forall a, goes_on [] (k a)) -> goes_on p (bind m k).
Proof using Type. intros Hm Hk. rewrite <- (app_nil_r p). by apply goes_on_bind. Qed.

Lemma goes_on_run_ {A : Type} p label (m : M Wd A) : attempts p m -> goes_on p (run_ label m).
Proof using Type. intros Hm. apply goes_on_then; [by apply goes_on_run|intros a; apply goes_on_ret]. Qed.

Lemma goes_on_known {A C : Type} (r : result A) a p (k : A -> M Fd C) :
  r = Ok a -> goes_on p (k a) -> goes_on p (bind (lift r) k).
Proof using Type. by intros ->. Qed.

Lemma goes_on_fold_m {A T : Type} (l : list A) (f : T -> A -> M Fd T) (g : A -> list (Z * B)) s :
  (forall s a, a ∈ l -> goes_on (g a) (f s a)) -> goes_on (concat (g <$> l)) (fold_m l f s).
Proof using Type.
  revert s. induction l as [|a l IH]; intros s Hf; [apply goes_on_ret|].
  cbn [fold_m fmap list_fmap concat]. apply goes_on_bind; [apply Hf, list_elem_of_here|].
  intros s'. apply IH. intros s'' b Hb. apply Hf. by apply list_elem_of_further.
Qed.

(** The requests of one check, its fields being in range. *)
Ltac attempt_check :=
  repeat (apply attempts_u32; [done|]); apply attempts_checked.

Lemma goes_on_afe d afe : u32 afe -> goes_on (afe_plan args afe) (read_afe_block args d afe).
Proof using Hopen.
  intros Ha. unfold read_afe_block, afe_plan.
  apply (goes_on_bind [_] (_ :: _)); [apply goes_on_run; attempt_check|intros t].
  apply (goes_on_bind [_] (_ :: _)); [apply goes_on_run; attempt_check|intros o].
  apply (goes_on_bind [_] (_ :: _)); [apply goes_on_run; attempt_check|intros g].
  apply (goes_on_bind [_]); [apply goes_on_run; attempt_check|intros b].
  apply goes_on_then; [|intros _; apply goes_on_ret].
  destruct (ma_skip_bias_monitor args); [apply goes_on_ret|]. apply goes_on_run_. attempt_check.
Qed.

Lemma goes_on_channel d ch : u32 ch -> goes_on (channel_plan ch) (read_channel args d ch).
Proof using Hopen.
  intros Hc. unfold read_channel, channel_plan.
  apply (goes_on_bind [_] [_]); [apply goes_on_run; attempt_check|intros t].
  apply goes_on_then; [apply goes_on_run; attempt_check|intros o; apply goes_on_ret].
Qed.

Lemma goes_on_regs specs regs d :
  Forall2 (fun sp ar => int0 (fst sp) = Ok (fst ar) /\ int0 (snd sp) = Ok (snd ar)) specs regs ->
  Forall (fun ar => u32 (fst ar) /\ u32 (snd ar)) regs ->
  goes_on (concat (reg_plan <$> regs)) (fold_m specs (read_reg args) d).
Proof using Hopen.
  intros H2. revert d. induction H2 as [|sp [a r] specs regs [Ha Hr] H2 IH]; intros d Hu;
    [apply goes_on_ret|].
  apply Forall_cons in Hu as [[Hua Hur] Hu]. cbn [fold_m fmap list_fmap concat fst snd] in *.
  apply goes_on_bind; [|intros d'; by apply IH]. unfold read_reg.
  apply (goes_on_known _ a); [done|]. apply (goes_on_known _ r); [done|].
  apply (goes_on_then [_]); [|intros o; destruct o; apply goes_on_ret].
  apply goes_on_run. attempt_check.
Qed.

Lemma goes_on_readings channels counters afes regs ft fo :
  parsed args channels counters afes regs ft fo ->
  goes_on (reading_plan args channels counters afes regs)
    (read_everything fixed args channels counters afes).
Proof using Hopen.
  intros Hp. destruct (pa_range _ _ _ _ _ _ _ Hp) as (Hch & Hcn & Haf & Hrg & Hcm).
  unfold read_everything, reading_plan.
  apply (goes_on_bind [_] (_ :: _)); [apply goes_on_run_; attempt_check|intros _].
  apply (goes_on_bind [_] (_ :: _)); [apply goes_on_run_; attempt_check|intros _].
  apply (goes_on_bind [_] (_ :: _)); [apply goes_on_run_|intros _].
  { unfold do_trigger_counters. rewrite set_u32_all by done. apply attempts_checked. }
  apply (goes_on_bind [_] (_ :: _)); [apply goes_on_run_; attempt_check|intros _].
  apply (goes_on_bind [_] (_ :: _)); [apply goes_on_run; attempt_check|intros ta].
  apply (goes_on_bind [_]); [apply goes_on_run; attempt_check|intros oa]. cbv zeta.
  rewrite Forall_forall in Haf, Hch.
  apply goes_on_bind; [apply goes_on_fold_m; intros d a Ha; apply goes_on_afe; auto|intros d].
  apply goes_on_bind; [apply goes_on_fold_m; intros d' c Hc; apply goes_on_channel; auto|intros d'].
  apply (goes_on_bind [_]); [apply goes_on_run_; attempt_check|intros _].
  apply goes_on_then; [|intros d''; apply goes_on_ret].
  apply goes_on_regs; [apply Hp|done].
Qed.

Lemma report_outcome (w : Fd) :
  exists w', report w = (Ok (if decide (failures w = []) then 0 else 1), w') /\
    failures w' = failures w /\ sent (fz w') = sent (fz w) /\ cur (fz w') = cur (fz w) /\
    inbox (fz w') = inbox (fz w) /\ srv (fz w') = srv (fz w).
Proof using Type.
  unfold report. unfold bind at 1, gets. destruct (failures w) as [|f fs] eqn:Hf.
  - exists w. rewrite decide_True by done. by rewrite Hf.
  - rewrite decide_False by done. unfold bind at 1, tell, on_z, say, show, modify. cbn [fst snd].
    assert (Hp : forall l (v : Fd), exists v', for_each l (fun item => tell ("- " +:+ item)) v = (Ok tt, v') /\
      failures v' = failures v /\ sent (fz v') = sent (fz v) /\ cur (fz v') = cur (fz v) /\
      inbox (fz v') = inbox (fz v) /\ srv (fz v') = srv (fz v)).
    { intros l. induction l as [|x l IH]; intros v; [by exists v|]. cbn [for_each].
      edestruct IH as (v' & Hv & Hrest). eexists. split.
      - unfold bind, tell, on_z, say, show, modify. cbn [fst snd]. exact Hv.
      - exact Hrest. }
    edestruct (Hp (f :: fs)) as (v' & Hv & Hrest). exists v'. split.
    + unfold bind. unfold tell, on_z, say, show, modify in Hv. rewrite Hv. reflexivity.
    + destruct Hrest as (-> & Hrest). split; [exact Hf|exact Hrest].
Qed.

(** A smoke test that only reads makes every reading it plans, in order, each exactly once,
    whatever the server answers to any of them, and ends with status 0 or 1; the status is 0
    exactly when no check failed. *)
Theorem smoke_exercises_all channels counters afes regs ft fo w :
  read_only args -> parsed args channels counters afes regs ft fo ->
  exists st w' (envs : list (ControlEnvelopeV2 B)),
    main fixed uuid files args w = (Ok st, w') /\
    sent (fz w') = sent (fz w) ++ (ser <$> envs) /\
    tag <$> envs = reading_plan args channels counters afes regs /\
    (st = 0 /\ failures w' = [] \/ st = 1 /\ failures w' <> []).
Proof using Hopen.
  intros Hro Hp. unfold main.
  rewrite (bind_run _ _ _ _ _ (f_equal (fun r => (r, w)) (pa_channels _ _ _ _ _ _ _ Hp))).
  rewrite (bind_run _ _ _ _ _ (f_equal (fun r => (r, w)) (pa_counters _ _ _ _ _ _ _ Hp))).
  rewrite (bind_run _ _ _ _ _ (f_equal (fun r => (r, w)) (pa_afes _ _ _ _ _ _ _ Hp))).
  rewrite (bind_run _ _ _ _ _ (f_equal (fun r => (r, w)) (pa_ft _ _ _ _ _ _ _ Hp))).
  rewrite (bind_run _ _ _ _ _ (f_equal (fun r => (r, w)) (pa_fo _ _ _ _ _ _ _ Hp))).
  destruct (goes_on_readings _ _ _ _ _ _ Hp w) as ([[tv ov] d] & w1 & envs & Hr & Hs & Ht).
  rewrite (bind_run _ _ _ _ _ Hr). rewrite (ro_writes _ Hro).
  destruct (report_outcome w1) as (w' & Hrep & Hf & Hs' & _).
  unfold explicit_ops. destruct Hro as [_ -> -> -> -> -> -> -> ->].
  change (exists st w0 (envs : list (ControlEnvelopeV2 B)), report w1 = (Ok st, w0) /\
    sent (fz w0) = sent (fz w) ++ (ser <$> envs) /\
    tag <$> envs = reading_plan args channels counters afes regs /\
    (st = 0 /\ failures w0 = [] \/ st = 1 /\ failures w0 <> [])).
  eexists _, w', envs. rewrite Hrep, Hs', Hs, Hf. split_and!; [done|done|done|].
  destruct (decide _); [by left|by right].
Qed.

End exercising.

(** ** Writing back what was read *)

(** What a board holds: trims and offsets by channel, attenuations and biases by AFE, registers
    by AFE and address. *)
Record fe_values : Type := FeValues {
  x_trim : Z -> Z; x_offset : Z -> Z; x_vgain : Z -> Z; x_bias : Z -> Z; x_reg : Z -> Z -> Z }.

(** The channels of a board and of an AFE. *)
Definition all_channels : list Z := seqZ 0 40.
Definition afe_channels (afe : Z) : list Z := seqZ (8 * afe) 8.

Section board.
Context {S B : Type} `{Peer S B, Size B, !Proto B (ControlEnvelopeV2 B), !SmokeMessages B}.
Abbreviation envelope := (ControlEnvelopeV2 B).
Context (x : fe_values).

(** The requests that leave a board as it is: readings, and writes of the values it holds, with
    the gain flags clear as they are. *)
Inductive harmless : Z * B -> Prop :=
  | hm_read t b : t ∈ READ_TYPES -> harmless (t, b)
  | hm_trim ch : harmless (MT2_WRITE_TRIM_CH_REQ, ser (WriteTrim ch (x_trim x ch) false))
  | hm_offset ch : harmless (MT2_WRITE_OFFSET_CH_REQ, ser (WriteOffset ch (x_offset x ch) false))
  | hm_vgain afe : harmless (MT2_WRITE_AFE_VGAIN_REQ, ser (WriteVgain afe (x_vgain x afe)))
  | hm_bias afe : harmless (MT2_WRITE_AFE_BIAS_SET_REQ, ser (WriteBias afe (x_bias x afe)))
  | hm_reg afe r : harmless (MT2_WRITE_AFE_REG_REQ, ser (WriteReg afe r (x_reg x afe r)))
  | hm_trims v : Forall (fun ch => x_trim x ch = v) all_channels ->
      harmless (MT2_WRITE_TRIM_ALL_CH_REQ, ser (WriteTrimAll v false))
  | hm_offsets v : Forall (fun ch => x_offset x ch = v) all_channels ->
      harmless (MT2_WRITE_OFFSET_ALL_CH_REQ, ser (WriteOffsetAll v false))
  | hm_trim_afe afe v : Forall (fun ch => x_trim x ch = v) (afe_channels afe) ->
      harmless (MT2_WRITE_TRIM_ALL_AFE_REQ, ser (WriteTrimAfe afe v false))
  | hm_offset_afe afe v : Forall (fun ch => x_offset x ch = v) (afe_channels afe) ->
      harmless (MT2_WRITE_OFFSET_ALL_AFE_REQ, ser (WriteOffsetAfe afe v false)).

(** The replies to a type of request decode, to a response of which [V] holds of the request. *)
Definition answers {Q R : Type} `{!Proto B Q, !Proto B R} (reply : envelope -> envelope) (t : Z)
    (V : Q -> R -> Prop) : Prop :=
  forall env q, tag env = (t, ser q) -> exists r, parse (payload (reply env)) = Ok r /\ V q r.

(** A server in state [s], whose board holds [x]: it answers harmless requests without changing
    its state, readings with what the board holds. *)
Class Faithful (s : S) (reply : envelope -> envelope) : Prop := {
  ff_send : can_send s = true;
  ff_answer env : harmless (tag env) -> answer s (ser env) = (s, [[ser (reply env)]]);
  ff_size env : size (ser (reply env)) <> 0;
  ff_dir env : dir (reply env) = DIR_RESPONSE;
  ff_type env : mtype (reply env) = mtype env + 1;
  ff_correl env : correl_id (reply env) = msg_id env;
  ff_test : answers reply MT2_READ_TEST_REG_REQ
    (fun (_ : TestRegRequest) (_ : TestRegResponse) => True);
  ff_info : answers reply MT2_READ_GENERAL_INFO_REQ
    (fun (_ : InfoRequest) (_ : GeneralInfo) => True);
  ff_counters : answers reply MT2_READ_TRIGGER_COUNTERS_REQ
    (fun (_ : ReadTriggerCountersRequest) (_ : ReadTriggerCountersResponse) => True);
  ff_current : answers reply MT2_READ_CURRENT_MONITOR_REQ
    (fun (_ : cmd_readCurrentMonitor) (_ : cmd_readCurrentMonitor_response) => True);
  ff_trims : answers reply MT2_READ_TRIM_ALL_CH_REQ
    (fun (_ : cmd_readTrim_allChannels) r => trimValues r = x_trim x <$> all_channels);
  ff_offsets : answers reply MT2_READ_OFFSET_ALL_CH_REQ
    (fun (_ : cmd_readOffset_allChannels) r => offsetValues r = x_offset x <$> all_channels);
  ff_trim_afe : answers reply MT2_READ_TRIM_ALL_AFE_REQ
    (fun q r => ta_trimValues r = x_trim x <$> afe_channels (rt_afeBlock q));
  ff_offset_afe : answers reply MT2_READ_OFFSET_ALL_AFE_REQ
    (fun q r => oa_offsetValues r = x_offset x <$> afe_channels (ro_afeBlock q));
  ff_trim : answers reply MT2_READ_TRIM_CH_REQ
    (fun q r => ts_trimValue r = x_trim x (rt_trimChannel q));
  ff_offset : answers reply MT2_READ_OFFSET_CH_REQ
    (fun q r => os_offsetValue r = x_offset x (ro_offsetChannel q));
  ff_vbias : answers reply MT2_READ_VBIAS_CONTROL_REQ
    (fun (_ : cmd_readVbiasControl) (_ : cmd_readVbiasControl_response) => True);
  ff_reg : answers reply MT2_READ_AFE_REG_REQ
    (fun q r => regValue r = x_reg x (rg_afeBlock q) (regAddress q));
  ff_vgain : answers reply MT2_READ_AFE_VGAIN_REQ
    (fun q r => vgainValue r = x_vgain x (vg_afeBlock q));
  ff_bias : answers reply MT2_READ_AFE_BIAS_SET_REQ
    (fun q r => biasValue r = x_bias x (bs_afeBlock q));
  ff_monitor : answers reply MT2_READ_BIAS_VOLTAGE_MONITOR_REQ
    (fun (_ : cmd_readBiasVoltageMonitor) (_ : cmd_readBiasVoltageMonitor_response) => True);
  ff_w_trim : answers reply MT2_WRITE_TRIM_CH_REQ
    (fun (_ : cmd_writeTrim_singleChannel) (_ : cmd_writeTrim_singleChannel_response) => True);
  ff_w_offset : answers reply MT2_WRITE_OFFSET_CH_REQ
    (fun (_ : cmd_writeOFFSET_singleChannel) (_ : cmd_writeOFFSET_singleChannel_response) => True);
  ff_w_vgain : answers reply MT2_WRITE_AFE_VGAIN_REQ
    (fun (_ : cmd_writeAFEVGAIN) (_ : cmd_writeAFEVGAIN_response) => True);
  ff_w_bias : answers reply MT2_WRITE_AFE_BIAS_SET_REQ
    (fun (_ : cmd_writeAFEBiasSet) (_ : cmd_writeAFEBiasSet_response) => True);
  ff_w_reg : answers reply MT2_WRITE_AFE_REG_REQ
    (fun (_ : cmd_writeAFEReg) (_ : cmd_writeAFEReg_response) => True);
  ff_w_trims : answers reply MT2_WRITE_TRIM_ALL_CH_REQ
    (fun (_ : cmd_writeTRIM_allChannels) (_ : cmd_writeTRIM_allChannels_response) => True);
  ff_w_offsets : answers reply MT2_WRITE_OFFSET_ALL_CH_REQ
    (fun (_ : cmd_writeOFFSET_allChannels) (_ : cmd_writeOFFSET_allChannels_response) => True);
  ff_w_trim_afe : answers reply MT2_WRITE_TRIM_ALL_AFE_REQ
    (fun (_ : cmd_writeTrim_allAFE) (_ : cmd_writeTrim_allAFE_response) => True);
  ff_w_offset_afe : answers reply MT2_WRITE_OFFSET_ALL_AFE_REQ
    (fun (_ : cmd_writeOFFSET_allAFE) (_ : cmd_writeOFFSET_allAFE_response) => True) }.

End board.

Section keeping.
Context {S B : Type} `{Peer S B, Size B, !Proto B (ControlEnvelopeV2 B), !SmokeMessages B}.
Context `{!ProtoLaws B (ControlEnvelopeV2 B)}.
Abbreviation Wd := (zworld S B).
Abbreviation Fd := (fworld S B).
Context (fixed : nat -> float -> string) (uuid : string) (files : string -> option string)
  (args : smoke_args).
Context (x : fe_values) (s : S) (reply : ControlEnvelopeV2 B -> ControlEnvelopeV2 B).
Context (FA : Faithful x s reply).

(** Nothing is waiting and the server is in its state. *)
Definition rests (w : Wd) : Prop := cur w = [] /\ inbox w = [] /\ srv w = s.

Definition steady_z {A : Type} (V : A -> Prop) (m : M Wd A) : Prop :=
  forall w, rests w -> exists a w', m w = (Ok a, w') /\ V a /\ rests w'.

Definition steady {A : Type} (V : A -> Prop) (m : M Fd A) : Prop :=
  forall w, rests (fz w) -> exists a w', m w = (Ok a, w') /\ V a /\ rests (fz w') /\
    failures w' = failures w.

Lemma steady_rpc ty (req : B) :
  harmless x (ty, req) ->
  steady_z (fun rep => exists env, tag env = (ty, req) /\ rep = reply env) (v2_rpc args ty req).
Proof using All.
  intros Hh w (Hc & Hi & Hsv). unfold v2_rpc.
  assert (He : exists env w1, build_env next_ids_random ty req (ma_route args) w = (Ok env, w1) /\
    tag env = (ty, req) /\ cur w1 = [] /\ inbox w1 = [] /\ srv w1 = s).
  { eexists _, _. by split_and!. }
  destruct He as (env & w1 & Hr & Ht & Hc1 & Hi1 & Hs1). rewrite (bind_run _ _ _ _ _ Hr).
  unfold bind at 1, z_send. rewrite Hs1, (ff_send x (Faithful:=FA)), (ff_answer x (Faithful:=FA)) by (by rewrite Ht).
  rewrite Hi1, Hc1. cbn [app]. set (w2 := ZW _ _ _ _ _ _ _ _ _ _).
  unfold await. unfold bind at 1, gets. change (cur w2) with (@nil B).
  change (inbox w2) with [[ser (reply env)]]. cbn [negb].
  change (bind (ret tt) ?k w2) with (k tt w2). cbv beta.
  erewrite bind_run; [|apply (recv_frames_message w2 (ser (reply env)) [] []); done].
  unfold last_frame. cbn [last]. unfold bind at 1, ret at 1. unfold bind at 1, lift at 1, parse_or.
  rewrite parse_ser. cbn [rbind].
  rewrite (proj2 (Z.eqb_neq _ _) (ff_size x (Faithful:=FA) env)).
  eexists (reply env), _. split.
  { unfold bind, ret, lift. rewrite (ff_dir x (Faithful:=FA)).
    unfold check_correl. rewrite (ff_correl x (Faithful:=FA)), !Z.eqb_refl, andb_false_r. reflexivity. }
  split; [by exists env|done].
Qed.

Lemma steady_z_bind {A C : Type} (V : A -> Prop) (V' : C -> Prop) (m : M Wd A) (k : A -> M Wd C) :
  steady_z V m -> (forall a, V a -> steady_z V' (k a)) -> steady_z V' (bind m k).
Proof using Type.
  intros Hm Hk w Hw. destruct (Hm w Hw) as (a & w1 & Hr & Ha & Hw1).
  rewrite (bind_run _ _ _ _ _ Hr). by apply Hk.
Qed.

Lemma steady_checked {Q R : Type} `{!Proto B Q, !Proto B R, !Reported R} ty (q : Q) resp label extra
    (V : Q -> R -> Prop) :
  answers reply ty V -> harmless x (ty, ser q) -> ty + 1 = resp ->
  steady_z (V q) (checked args R ty (ser q) resp label extra).
Proof using All.
  intros Ha Hh Hty. unfold checked. eapply steady_z_bind; [by apply steady_rpc|].
  intros rep (env & Ht & ->). destruct (Ha env q Ht) as (r & Hr & Hv).
  assert (Hm : mtype env = ty) by (by injection Ht).
  rewrite (ff_type x (Faithful:=FA)), Hm, Hty, Z.eqb_refl. cbn [negb].
  intros w Hw. eexists r, _. split; [|split; [exact Hv|]].
  - unfold bind at 1, ret at 1. unfold bind at 1, lift. rewrite Hr. reflexivity.
  - exact Hw.
Qed.

Lemma steady_u32 {A : Type} (V : A -> Prop) z (k : Z -> M Wd A) :
  u32 z -> steady_z V (k z) -> steady_z V (bind (lift (set_u32 z)) k).
Proof using Type. intros Hz Hk. by rewrite set_u32_in. Qed.

Lemma steady_ret {A : Type} (V : A -> Prop) a : V a -> steady V (ret a : M Fd A).
Proof using Type. intros Ha w Hw. by exists a, w. Qed.

Lemma steady_tell t : steady (fun _ => True) (tell t : M Fd unit).
Proof using Type. intros w Hw. by eexists _, _. Qed.

Lemma steady_bind {A C : Type} (V : A -> Prop) (V' : C -> Prop) (m : M Fd A) (k : A -> M Fd C) :
  steady V m -> (forall a, V a -> steady V' (k a)) -> steady V' (bind m k).
Proof using Type.
  intros Hm Hk w Hw. destruct (Hm w Hw) as (a & w1 & Hr & Ha & Hw1 & Hf).
  rewrite (bind_run _ _ _ _ _ Hr). rewrite <- Hf. by apply Hk.
Qed.

Lemma steady_run {A : Type} (V : A -> Prop) label (m : M Wd A) :
  steady_z V m -> steady (fun o => exists a, o = Some a /\ V a) (run label m).
Proof using Type.
  intros Hm w Hw. destruct (Hm (fz w) Hw) as (a & z & Hr & Ha & Hz).
  unfold run, try_except, bind, on_z. rewrite Hr. eexists _, _. split; [reflexivity|].
  split_and!; [by exists a|done|done].
Qed.

Lemma steady_run_ {A : Type} (V : A -> Prop) label (m : M Wd A) :
  steady_z V m -> steady (fun _ => True) (run_ label m).
Proof using Type.
  intros Hm. eapply steady_bind; [by apply (steady_run V)|]. intros o _. by apply steady_ret.
Qed.

Lemma steady_for_each {A : Type} (l : list A) (f : A -> M Fd unit) :
  (forall a, a ∈ l -> steady (fun _ => True) (f a)) -> steady (fun _ => True) (for_each l f).
Proof using Type.
  induction l as [|a l IH]; intros Hf; [by apply steady_ret|]. cbn [for_each].
  eapply steady_bind; [apply Hf, list_elem_of_here|]. intros _ _. apply IH.
  intros b Hb. apply Hf. by apply list_elem_of_further.
Qed.

Lemma steady_fold_m {A T : Type} (V : T -> Prop) (l : list A) (f : T -> A -> M Fd T) t :
  V t -> (forall t a, a ∈ l -> V t -> steady V (f t a)) -> steady V (fold_m l f t).
Proof using Type.
  revert t. induction l as [|a l IH]; intros t Ht Hf; [by apply steady_ret|]. cbn [fold_m].
  eapply steady_bind; [apply Hf; [apply list_elem_of_here|done]|]. intros t' Ht'. apply IH; [done|].
  intros t2 b Hb. apply Hf. by apply list_elem_of_further.
Qed.

(** A check of a faithful server, by the law of its answers: the fields are in range. *)
Ltac check_with law :=
  repeat (apply steady_u32; [by auto|]);
  eapply (steady_checked _ _ _ _ _ _ law); [|reflexivity].

(** ** The readings agree with the board *)

Record agrees (d : readings) : Prop := {
  ag_trim : map_Forall (fun ch v => v = x_trim x ch) (trim_single d);
  ag_offset : map_Forall (fun ch v => v = x_offset x ch) (offset_single d);
  ag_trims : map_Forall (fun afe l => l = x_trim x <$> afe_channels afe) (trim_all_afe d);
  ag_offsets : map_Forall (fun afe l => l = x_offset x <$> afe_channels afe) (offset_all_afe d);
  ag_vgain : map_Forall (fun afe v => v = x_vgain x afe) (afe_vgain d);
  ag_bias : map_Forall (fun afe v => v = x_bias x afe) (afe_bias d);
  ag_regs : Forall (fun arv => u32 (fst (fst arv)) /\ u32 (snd (fst arv)) /\
              snd arv = x_reg x (fst (fst arv)) (snd (fst arv))) (afe_reg_vals d) }.

Lemma agrees_none : agrees no_readings.
Proof using Type. split; try apply map_Forall_empty. constructor. Qed.

Lemma note_agrees {R V : Type} (P : Z -> V -> Prop) (o : option R) (f : R -> V) k d :
  (forall r, o = Some r -> P k (f r)) -> map_Forall P d -> map_Forall P (note o f k d).
Proof using Type.
  intros Hr Hd. destruct o as [r|]; [|done]. by apply map_Forall_insert_2; [apply Hr|].
Qed.

Lemma put_reg_agrees (P : Z * Z * Z -> Prop) l a r v :
  P (a, r, v) -> Forall P l -> Forall P (put_reg l a r v).
Proof using Type.
  intros Hp. induction 1 as [|[[a' r'] v'] l Hx Hl IH]; cbn [put_reg]; [by constructor|].
  destruct (Z.eqb_spec a' a) as [->|], (Z.eqb_spec r' r) as [->|]; cbn [andb]; by constructor.
Qed.

Ltac read_step law :=
  eapply steady_bind;
  [ eapply steady_run; check_with law; apply hm_read; reg_mem | intros ? (? & -> & ?) ].

(** The same where the answer is not used. *)
Ltac probe law := eapply steady_run_; check_with law; apply hm_read; reg_mem.

Lemma steady_read_afe d afe :
  u32 afe -> agrees d -> steady agrees (read_afe_block args d afe).
Proof using All.
  intros Hu Hd. unfold read_afe_block.
  read_step (ff_trim_afe x (Faithful:=FA)). read_step (ff_offset_afe x (Faithful:=FA)).
  read_step (ff_vgain x (Faithful:=FA)). read_step (ff_bias x (Faithful:=FA)).
  apply (steady_bind (fun _ => True)).
  { destruct (ma_skip_bias_monitor args); [by apply steady_ret|].
    probe (ff_monitor x (Faithful:=FA)). }
  intros _ _. apply steady_ret. destruct Hd. cbn in *.
  split; try done; cbn; by apply map_Forall_insert_2.
Qed.

Lemma steady_read_channel d ch :
  u32 ch -> agrees d -> steady agrees (read_channel args d ch).
Proof using All.
  intros Hu Hd. unfold read_channel.
  read_step (ff_trim x (Faithful:=FA)). read_step (ff_offset x (Faithful:=FA)).
  apply steady_ret. destruct Hd. cbn in *. split; try done; cbn; by apply map_Forall_insert_2.
Qed.

Lemma steady_known {A C : Type} (V : C -> Prop) (r : result A) a (k : A -> M Fd C) :
  r = Ok a -> steady V (k a) -> steady V (bind (lift r) k).
Proof using Type. by intros ->. Qed.

Lemma steady_read_regs specs regs d :
  Forall2 (fun sp ar => int0 (fst sp) = Ok (fst ar) /\ int0 (snd sp) = Ok (snd ar)) specs regs ->
  Forall (fun ar => u32 (fst ar) /\ u32 (snd ar)) regs -> agrees d ->
  steady agrees (fold_m specs (read_reg args) d).
Proof using All.
  intros H2. revert d. induction H2 as [|sp [a r] specs regs [Ha Hr] H2 IH]; intros d Hu Hd;
    [by apply steady_ret|].
  apply Forall_cons in Hu as [[Hua Hur] Hu]. cbn [fst snd fold_m] in *.
  apply (steady_bind agrees); [|intros d' Hd'; by apply IH]. unfold read_reg.
  apply (steady_known _ _ a); [done|]. apply (steady_known _ _ r); [done|].
  read_step (ff_reg x (Faithful:=FA)). apply steady_ret. destruct Hd. cbn in *.
  split; try done. cbn. by apply put_reg_agrees.
Qed.

Lemma steady_readings channels counters afes regs ft fo :
  parsed args channels counters afes regs ft fo ->
  steady (fun tod => fst (fst tod) = x_trim x <$> all_channels /\
                     snd (fst tod) = x_offset x <$> all_channels /\ agrees (snd tod))
    (read_everything fixed args channels counters afes).
Proof using All.
  intros Hp. destruct (pa_range _ _ _ _ _ _ _ Hp) as (Hch & Hcn & Haf & Hrg & Hcm).
  rewrite Forall_forall in Haf, Hch. unfold read_everything.
  eapply steady_bind; [probe (ff_test x (Faithful:=FA))|intros _ _].
  eapply steady_bind; [probe (ff_info x (Faithful:=FA))|intros _ _].
  eapply steady_bind; [|intros _ _].
  { eapply steady_run_. unfold do_trigger_counters. rewrite set_u32_all by done.
    check_with (ff_counters x (Faithful:=FA)). apply hm_read. reg_mem. }
  eapply steady_bind; [probe (ff_current x (Faithful:=FA))|intros _ _].
  read_step (ff_trims x (Faithful:=FA)). read_step (ff_offsets x (Faithful:=FA)). cbv zeta.
  apply (steady_bind agrees).
  { apply steady_fold_m; [apply agrees_none|]. intros t a Ha. apply steady_read_afe. auto. }
  intros d Hd. apply (steady_bind agrees).
  { apply steady_fold_m; [done|]. intros t a Ha. apply steady_read_channel. auto. }
  intros d1 Hd1. eapply steady_bind; [probe (ff_vbias x (Faithful:=FA))|intros _ _].
  apply (steady_bind agrees); [eapply steady_read_regs; [apply Hp|done|done]|].
  intros d2 Hd2. by apply steady_ret.
Qed.

(** ** The write-backs *)

(** What the board holds fits the fields. *)
Definition fitting : Prop :=
  (forall k, u32 (x_trim x k) /\ u32 (x_offset x k) /\ u32 (x_vgain x k) /\ u32 (x_bias x k)) /\
  (forall a r, u32 (x_reg x a r)).

Context (Hfit : fitting).

Lemma trim_u32 ch : u32 (x_trim x ch). Proof using Hfit. apply Hfit. Qed.
Lemma offset_u32 ch : u32 (x_offset x ch). Proof using Hfit. apply Hfit. Qed.
Lemma vgain_u32 afe : u32 (x_vgain x afe). Proof using Hfit. apply Hfit. Qed.
Lemma bias_u32 afe : u32 (x_bias x afe). Proof using Hfit. apply Hfit. Qed.
Lemma reg_u32 a r : u32 (x_reg x a r). Proof using Hfit. apply Hfit. Qed.
Hint Resolve trim_u32 offset_u32 vgain_u32 bias_u32 reg_u32 : core.

Lemma uniform_of (f : Z -> Z) l v :
  uniform (f <$> l) = Some v -> Forall (fun k => f k = v) l /\ exists k, v = f k.
Proof using Type.
  destruct l as [|k l]; [done|]. cbn [fmap list_fmap uniform].
  destruct (forallb (Z.eqb (f k)) (f <$> l)) eqn:Hall; [|done]. intros [= <-].
  split; [|by exists k]. constructor; [done|]. rewrite Forall_forall. intros j Hj.
  rewrite forallb_forall in Hall. symmetry. apply Z.eqb_eq, Hall, list_elem_of_In.
  apply list_elem_of_fmap. by exists j.
Qed.

Lemma steady_write_channel d ch :
  u32 ch -> agrees d -> steady (fun _ => True) (write_channel args d ch).
Proof using All.
  intros Hu Hd. unfold write_channel, write_known.
  apply (steady_bind (fun _ => True)); [|intros _ _].
  - destruct (trim_single d !! ch) as [v|] eqn:Hv; [|by apply steady_ret].
    apply (ag_trim _ Hd) in Hv. subst v. eapply steady_run_.
    check_with (ff_w_trim x (Faithful:=FA)). apply hm_trim.
  - destruct (offset_single d !! ch) as [v|] eqn:Hv; [|by apply steady_ret].
    apply (ag_offset _ Hd) in Hv. subst v. eapply steady_run_.
    check_with (ff_w_offset x (Faithful:=FA)). apply hm_offset.
Qed.

Lemma steady_write_afe d afe :
  u32 afe -> agrees d -> steady (fun _ => True) (write_afe args d afe).
Proof using All.
  intros Hu Hd. unfold write_afe, write_known.
  apply (steady_bind (fun _ => True)); [|intros _ _].
  - destruct (afe_vgain d !! afe) as [v|] eqn:Hv; [|by apply steady_ret].
    apply (ag_vgain _ Hd) in Hv. subst v. eapply steady_run_.
    check_with (ff_w_vgain x (Faithful:=FA)). apply hm_vgain.
  - destruct (afe_bias d !! afe) as [v|] eqn:Hv; [|by apply steady_ret].
    apply (ag_bias _ Hd) in Hv. subst v. eapply steady_run_.
    check_with (ff_w_bias x (Faithful:=FA)). apply hm_bias.
Qed.

Lemma steady_write_reg arv :
  u32 (fst (fst arv)) -> u32 (snd (fst arv)) -> snd arv = x_reg x (fst (fst arv)) (snd (fst arv)) ->
  steady (fun _ => True) (write_reg args arv).
Proof using All.
  destruct arv as [[a r] v]. cbn. intros Ha Hr ->. eapply steady_run_.
  check_with (ff_w_reg x (Faithful:=FA)). apply hm_reg.
Qed.

(** A write to all of values the board holds everywhere. *)
Lemma steady_uniform {A : Type} (V : A -> Prop) label (f : Z -> Z) l (write : Z -> M Wd A) text :
  (forall v, Forall (fun k => f k = v) l -> (exists k, v = f k) -> steady_z V (write v)) ->
  steady (fun _ => True) (write_uniform label None (f <$> l) write text).
Proof using Type.
  intros Hw. unfold write_uniform. destruct (uniform (f <$> l)) as [v|] eqn:Hu.
  - apply uniform_of in Hu as [Hall Hex]. eapply steady_run_. by apply Hw.
  - apply steady_tell.
Qed.

Lemma steady_write_afe_all d afe :
  u32 afe -> agrees d -> steady (fun _ => True) (write_afe_all args d ∅ ∅ afe).
Proof using All.
  intros Hu Hd. unfold write_afe_all. rewrite !lookup_empty.
  apply (steady_bind (fun _ => True)); [|intros _ _].
  - destruct (trim_all_afe d !! afe) as [l|] eqn:Hl; cbn [default]; [|apply steady_tell].
    apply (ag_trims _ Hd) in Hl. change (default [] (Some l)) with l. rewrite Hl.
    apply (steady_uniform (fun _ => True)). intros v Hall [k ->].
    check_with (ff_w_trim_afe x (Faithful:=FA)). by apply hm_trim_afe.
  - destruct (offset_all_afe d !! afe) as [l|] eqn:Hl; [|apply steady_tell].
    apply (ag_offsets _ Hd) in Hl. change (default [] (Some l)) with l. rewrite Hl.
    apply (steady_uniform (fun _ => True)). intros v Hall [k ->].
    check_with (ff_w_offset_afe x (Faithful:=FA)). by apply hm_offset_afe.
Qed.

Lemma steady_write_back channels afes d :
  Forall u32 channels -> Forall u32 afes -> agrees d ->
  force_trim_all args = None -> force_offset_all args = None ->
  attenuation args = None -> vbias_control args = None ->
  steady (fun _ => True) (write_back args channels afes (x_trim x <$> all_channels)
                            (x_offset x <$> all_channels) ∅ ∅ d).
Proof using All.
  intros Hch Haf Hd Hft Hfo Hat Hvb. rewrite Forall_forall in Hch, Haf.
  unfold write_back. rewrite Hft, Hfo, Hat, Hvb.
  apply (steady_bind (fun _ => True));
    [apply steady_for_each; intros ch Hc; apply steady_write_channel; auto|intros _ _].
  apply (steady_bind (fun _ => True));
    [apply steady_for_each; intros afe Ha; apply steady_write_afe; auto|intros _ _].
  apply (steady_bind (fun _ => True)).
  { apply steady_for_each. intros arv Ha. pose proof (ag_regs _ Hd) as Hr.
    rewrite Forall_forall in Hr. destruct (Hr arv Ha) as (? & ? & ?). by apply steady_write_reg. }
  intros _ _. apply (steady_bind (fun _ => True)); [|intros _ _].
  { apply (steady_uniform (fun _ => True)). intros v Hall [k ->].
    check_with (ff_w_trims x (Faithful:=FA)). by apply hm_trims. }
  apply (steady_bind (fun _ => True)); [|intros _ _].
  { apply (steady_uniform (fun _ => True)). intros v Hall [k ->].
    check_with (ff_w_offsets x (Faithful:=FA)). by apply hm_offsets. }
  apply (steady_bind (fun _ => True));
    [apply steady_for_each; intros afe Ha; apply steady_write_afe_all; auto|intros _ _].
  apply (steady_bind (fun _ => True)); [apply steady_tell|intros _ _]. apply steady_tell.
Qed.

(** C5. Writing back is safe: on a board whose readings are what it holds, a smoke test with
    [--do-writes], without forced values and without the options of single operations, leaves
    the board exactly as it was and ends with status 0. *)
Theorem smoke_write_back_safe channels counters afes regs w :
  parsed args channels counters afes regs ∅ ∅ -> no_explicit args ->
  force_trim_all args = None -> force_offset_all args = None ->
  attenuation args = None -> vbias_control args = None ->
  rests (fz w) -> failures w = [] ->
  exists w', main fixed uuid files args w = (Ok 0, w') /\ srv (fz w') = s /\ failures w' = [].
Proof using All.
  intros Hp Hne Hft Hfo Hat Hvb Hw Hfl. unfold main.
  rewrite (bind_run _ _ _ _ _ (f_equal (fun r => (r, w)) (pa_channels _ _ _ _ _ _ _ Hp))).
  rewrite (bind_run _ _ _ _ _ (f_equal (fun r => (r, w)) (pa_counters _ _ _ _ _ _ _ Hp))).
  rewrite (bind_run _ _ _ _ _ (f_equal (fun r => (r, w)) (pa_afes _ _ _ _ _ _ _ Hp))).
  rewrite (bind_run _ _ _ _ _ (f_equal (fun r => (r, w)) (pa_ft _ _ _ _ _ _ _ Hp))).
  rewrite (bind_run _ _ _ _ _ (f_equal (fun r => (r, w)) (pa_fo _ _ _ _ _ _ _ Hp))).
  destruct (steady_readings _ _ _ _ _ _ Hp w Hw) as ([[tv ov] d] & w1 & Hr & (Htv & Hov & Hd) & Hw1 & Hf1).
  rewrite (bind_run _ _ _ _ _ Hr). cbn [fst snd] in *. subst tv ov.
  destruct (pa_range _ _ _ _ _ _ _ Hp) as (Hch & _ & Haf & _).
  assert (Hwb : steady (fun _ => True) (when (do_writes args)
    (write_back args channels afes (x_trim x <$> all_channels) (x_offset x <$> all_channels) ∅ ∅ d))).
  { destruct (do_writes args); [by apply steady_write_back|by apply steady_ret]. }
  destruct (Hwb w1 Hw1) as ([] & w2 & Hr2 & _ & Hw2 & Hf2). rewrite (bind_run _ _ _ _ _ Hr2).
  unfold explicit_ops. destruct Hne as (-> & -> & -> & -> & -> & -> & -> & ->).
  change (exists w', report w2 = (Ok 0, w') /\ srv (fz w') = s /\ failures w' = []).
  destruct (report_outcome w2) as (w' & Hrep & Hf & _ & _ & _ & Hs).
  rewrite Hf2, Hf1, Hfl in Hrep, Hf. exists w'. rewrite Hs. split_and!; [done|apply Hw2|done].
Qed.

End keeping.

(** ** A sample board *)

(** Serialized messages as they are. *)
Inductive swire : Type :=
  | WEmpty
  | WEnv (e : ControlEnvelopeV2 swire)
  | Wr_trims (m : cmd_readTrim_allChannels)
  | Wr_trims_resp (m : cmd_readTrim_allChannels_response)
  | Wr_offsets (m : cmd_readOffset_allChannels)
  | Wr_offsets_resp (m : cmd_readOffset_allChannels_response) | Wr_vgain (m : cmd_readAFEVgain)
  | Wr_vgain_resp (m : cmd_readAFEVgain_response) | Wr_bias (m : cmd_readAFEBiasSet)
  | Wr_bias_resp (m : cmd_readAFEBiasSet_response) | Wr_monitor (m : cmd_readBiasVoltageMonitor)
  | Wr_monitor_resp (m : cmd_readBiasVoltageMonitor_response)
  | Wr_vbias (m : cmd_readVbiasControl) | Wr_vbias_resp (m : cmd_readVbiasControl_response)
  | Wr_reg (m : cmd_readAFEReg) | Wr_reg_resp (m : cmd_readAFEReg_response)
  | Ww_offset (m : cmd_writeOFFSET_singleChannel)
  | Ww_offset_resp (m : cmd_writeOFFSET_singleChannel_response) | Ww_vgain (m : cmd_writeAFEVGAIN)
  | Ww_vgain_resp (m : cmd_writeAFEVGAIN_response) | Ww_reset (m : cmd_doAFEReset)
  | Ww_reset_resp (m : cmd_doAFEReset_response) | Ww_power (m : cmd_setAFEPowerState)
  | Ww_power_resp (m : cmd_setAFEPowerState_response) | Ww_function (m : cmd_writeAFEFunction)
  | Ww_function_resp (m : cmd_writeAFEFunction_response) | Ww_align (m : cmd_alignAFEs)
  | Ww_align_resp (m : cmd_alignAFEs_response) | Ws_test (m : TestRegRequest)
  | Ws_test_resp (m : TestRegResponse) | Ws_info (m : InfoRequest)
  | Ws_info_resp (m : GeneralInfo) | Ws_counters (m : ReadTriggerCountersRequest)
  | Ws_counters_resp (m : ReadTriggerCountersResponse) | Ws_clks (m : ConfigureCLKsRequest)
  | Ws_clks_resp (m : ConfigureCLKsResponse) | Ws_conf (m : ConfigureRequest)
  | Ws_conf_resp (m : ConfigureResponse) | Ws_dump (m : DumpSpyBuffersRequest)
  | Ws_dump_resp (m : DumpSpyBuffersResponse) | Ws_chunk (m : DumpSpyBuffersChunkRequest)
  | Ws_chunk_resp (m : DumpSpyBuffersChunkResponse) | Ws_current (m : cmd_readCurrentMonitor)
  | Ws_current_resp (m : cmd_readCurrentMonitor_response) | Ws_trim_afe (m : cmd_readTrim_allAFE)
  | Ws_trim_afe_resp (m : cmd_readTrim_allAFE_response)
  | Ws_offset_afe (m : cmd_readOffset_allAFE)
  | Ws_offset_afe_resp (m : cmd_readOffset_allAFE_response)
  | Ws_trim (m : cmd_readTrim_singleChannel)
  | Ws_trim_resp (m : cmd_readTrim_singleChannel_response)
  | Ws_offset (m : cmd_readOffset_singleChannel)
  | Ws_offset_resp (m : cmd_readOffset_singleChannel_response)
  | Ws_write_trim (m : cmd_writeTrim_singleChannel)
  | Ws_write_trim_resp (m : cmd_writeTrim_singleChannel_response)
  | Ws_bias (m : cmd_writeAFEBiasSet) | Ws_bias_resp (m : cmd_writeAFEBiasSet_response)
  | Ws_reg (m : cmd_writeAFEReg) | Ws_reg_resp (m : cmd_writeAFEReg_response)
  | Ws_trims (m : cmd_writeTRIM_allChannels)
  | Ws_trims_resp (m : cmd_writeTRIM_allChannels_response)
  | Ws_offsets (m : cmd_writeOFFSET_allChannels)
  | Ws_offsets_resp (m : cmd_writeOFFSET_allChannels_response)
  | Ws_wtrim_afe (m : cmd_writeTrim_allAFE)
  | Ws_wtrim_afe_resp (m : cmd_writeTrim_allAFE_response)
  | Ws_woffset_afe (m : cmd_writeOFFSET_allAFE)
  | Ws_woffset_afe_resp (m : cmd_writeOFFSET_allAFE_response)
  | Ws_att (m : cmd_writeAFEAttenuation) | Ws_att_resp (m : cmd_writeAFEAttenuation_response)
  | Ws_vbias (m : cmd_writeVbiasControl) | Ws_vbias_resp (m : cmd_writeVbiasControl_response)
  | Ws_reset (m : cmd_setAFEReset) | Ws_reset_resp (m : cmd_setAFEReset_response)
  | Ws_trigger (m : cmd_doSoftwareTrigger) | Ws_trigger_resp (m : cmd_doSoftwareTrigger_response).

#[export] Instance swire_size : Size swire :=
  { size b := match b with WEmpty => 0 | _ => 1 end }.

#[export] Instance swire_env : Proto swire (ControlEnvelopeV2 swire) :=
  { ser := WEnv; parse b := match b with WEnv m => Ok m | _ => Raise bad_bytes end }.

#[export] Instance swire_env_laws : ProtoLaws swire (ControlEnvelopeV2 swire).
Proof. by split. Qed.

#[export] Instance swire_read : ReadMessages swire := {
  rm_trims := {| ser := Wr_trims; parse b := match b with Wr_trims m => Ok m | _ => Raise bad_bytes end |};
  rm_trims_resp := {| ser := Wr_trims_resp; parse b := match b with Wr_trims_resp m => Ok m | _ => Raise bad_bytes end |};
  rm_offsets := {| ser := Wr_offsets; parse b := match b with Wr_offsets m => Ok m | _ => Raise bad_bytes end |};
  rm_offsets_resp := {| ser := Wr_offsets_resp; parse b := match b with Wr_offsets_resp m => Ok m | _ => Raise bad_bytes end |};
  rm_vgain := {| ser := Wr_vgain; parse b := match b with Wr_vgain m => Ok m | _ => Raise bad_bytes end |};
  rm_vgain_resp := {| ser := Wr_vgain_resp; parse b := match b with Wr_vgain_resp m => Ok m | _ => Raise bad_bytes end |};
  rm_bias := {| ser := Wr_bias; parse b := match b with Wr_bias m => Ok m | _ => Raise bad_bytes end |};
  rm_bias_resp := {| ser := Wr_bias_resp; parse b := match b with Wr_bias_resp m => Ok m | _ => Raise bad_bytes end |};
  rm_monitor := {| ser := Wr_monitor; parse b := match b with Wr_monitor m => Ok m | _ => Raise bad_bytes end |};
  rm_monitor_resp := {| ser := Wr_monitor_resp; parse b := match b with Wr_monitor_resp m => Ok m | _ => Raise bad_bytes end |};
  rm_vbias := {| ser := Wr_vbias; parse b := match b with Wr_vbias m => Ok m | _ => Raise bad_bytes end |};
  rm_vbias_resp := {| ser := Wr_vbias_resp; parse b := match b with Wr_vbias_resp m => Ok m | _ => Raise bad_bytes end |};
  rm_reg := {| ser := Wr_reg; parse b := match b with Wr_reg m => Ok m | _ => Raise bad_bytes end |};
  rm_reg_resp := {| ser := Wr_reg_resp; parse b := match b with Wr_reg_resp m => Ok m | _ => Raise bad_bytes end |} }.

#[export] Instance swire_write : WriteMessages swire := {
  wm_offset := {| ser := Ww_offset; parse b := match b with Ww_offset m => Ok m | _ => Raise bad_bytes end |};
  wm_offset_resp := {| ser := Ww_offset_resp; parse b := match b with Ww_offset_resp m => Ok m | _ => Raise bad_bytes end |};
  wm_vgain := {| ser := Ww_vgain; parse b := match b with Ww_vgain m => Ok m | _ => Raise bad_bytes end |};
  wm_vgain_resp := {| ser := Ww_vgain_resp; parse b := match b with Ww_vgain_resp m => Ok m | _ => Raise bad_bytes end |};
  wm_reset := {| ser := Ww_reset; parse b := match b with Ww_reset m => Ok m | _ => Raise bad_bytes end |};
  wm_reset_resp := {| ser := Ww_reset_resp; parse b := match b with Ww_reset_resp m => Ok m | _ => Raise bad_bytes end |};
  wm_power := {| ser := Ww_power; parse b := match b with Ww_power m => Ok m | _ => Raise bad_bytes end |};
  wm_power_resp := {| ser := Ww_power_resp; parse b := match b with Ww_power_resp m => Ok m | _ => Raise bad_bytes end |};
  wm_function := {| ser := Ww_function; parse b := match b with Ww_function m => Ok m | _ => Raise bad_bytes end |};
  wm_function_resp := {| ser := Ww_function_resp; parse b := match b with Ww_function_resp m => Ok m | _ => Raise bad_bytes end |};
  wm_align := {| ser := Ww_align; parse b := match b with Ww_align m => Ok m | _ => Raise bad_bytes end |};
  wm_align_resp := {| ser := Ww_align_resp; parse b := match b with Ww_align_resp m => Ok m | _ => Raise bad_bytes end |} }.

#[export] Instance swire_smoke : SmokeMessages swire := {
  sm_read := swire_read; sm_write := swire_write;
  sm_test := {| ser := Ws_test; parse b := match b with Ws_test m => Ok m | _ => Raise bad_bytes end |};
  sm_test_resp := {| ser := Ws_test_resp; parse b := match b with Ws_test_resp m => Ok m | _ => Raise bad_bytes end |};
  sm_info := {| ser := Ws_info; parse b := match b with Ws_info m => Ok m | _ => Raise bad_bytes end |};
  sm_info_resp := {| ser := Ws_info_resp; parse b := match b with Ws_info_resp m => Ok m | _ => Raise bad_bytes end |};
  sm_counters := {| ser := Ws_counters; parse b := match b with Ws_counters m => Ok m | _ => Raise bad_bytes end |};
  sm_counters_resp := {| ser := Ws_counters_resp; parse b := match b with Ws_counters_resp m => Ok m | _ => Raise bad_bytes end |};
  sm_clks := {| ser := Ws_clks; parse b := match b with Ws_clks m => Ok m | _ => Raise bad_bytes end |};
  sm_clks_resp := {| ser := Ws_clks_resp; parse b := match b with Ws_clks_resp m => Ok m | _ => Raise bad_bytes end |};
  sm_conf := {| ser := Ws_conf; parse b := match b with Ws_conf m => Ok m | _ => Raise bad_bytes end |};
  sm_conf_resp := {| ser := Ws_conf_resp; parse b := match b with Ws_conf_resp m => Ok m | _ => Raise bad_bytes end |};
  sm_dump := {| ser := Ws_dump; parse b := match b with Ws_dump m => Ok m | _ => Raise bad_bytes end |};
  sm_dump_resp := {| ser := Ws_dump_resp; parse b := match b with Ws_dump_resp m => Ok m | _ => Raise bad_bytes end |};
  sm_chunk := {| ser := Ws_chunk; parse b := match b with Ws_chunk m => Ok m | _ => Raise bad_bytes end |};
  sm_chunk_resp := {| ser := Ws_chunk_resp; parse b := match b with Ws_chunk_resp m => Ok m | _ => Raise bad_bytes end |};
  sm_current := {| ser := Ws_current; parse b := match b with Ws_current m => Ok m | _ => Raise bad_bytes end |};
  sm_current_resp := {| ser := Ws_current_resp; parse b := match b with Ws_current_resp m => Ok m | _ => Raise bad_bytes end |};
  sm_trim_afe := {| ser := Ws_trim_afe; parse b := match b with Ws_trim_afe m => Ok m | _ => Raise bad_bytes end |};
  sm_trim_afe_resp := {| ser := Ws_trim_afe_resp; parse b := match b with Ws_trim_afe_resp m => Ok m | _ => Raise bad_bytes end |};
  sm_offset_afe := {| ser := Ws_offset_afe; parse b := match b with Ws_offset_afe m => Ok m | _ => Raise bad_bytes end |};
  sm_offset_afe_resp := {| ser := Ws_offset_afe_resp; parse b := match b with Ws_offset_afe_resp m => Ok m | _ => Raise bad_bytes end |};
  sm_trim := {| ser := Ws_trim; parse b := match b with Ws_trim m => Ok m | _ => Raise bad_bytes end |};
  sm_trim_resp := {| ser := Ws_trim_resp; parse b := match b with Ws_trim_resp m => Ok m | _ => Raise bad_bytes end |};
  sm_offset := {| ser := Ws_offset; parse b := match b with Ws_offset m => Ok m | _ => Raise bad_bytes end |};
  sm_offset_resp := {| ser := Ws_offset_resp; parse b := match b with Ws_offset_resp m => Ok m | _ => Raise bad_bytes end |};
  sm_write_trim := {| ser := Ws_write_trim; parse b := match b with Ws_write_trim m => Ok m | _ => Raise bad_bytes end |};
  sm_write_trim_resp := {| ser := Ws_write_trim_resp; parse b := match b with Ws_write_trim_resp m => Ok m | _ => Raise bad_bytes end |};
  sm_bias := {| ser := Ws_bias; parse b := match b with Ws_bias m => Ok m | _ => Raise bad_bytes end |};
  sm_bias_resp := {| ser := Ws_bias_resp; parse b := match b with Ws_bias_resp m => Ok m | _ => Raise bad_bytes end |};
  sm_reg := {| ser := Ws_reg; parse b := match b with Ws_reg m => Ok m | _ => Raise bad_bytes end |};
  sm_reg_resp := {| ser := Ws_reg_resp; parse b := match b with Ws_reg_resp m => Ok m | _ => Raise bad_bytes end |};
  sm_trims := {| ser := Ws_trims; parse b := match b with Ws_trims m => Ok m | _ => Raise bad_bytes end |};
  sm_trims_resp := {| ser := Ws_trims_resp; parse b := match b with Ws_trims_resp m => Ok m | _ => Raise bad_bytes end |};
  sm_offsets := {| ser := Ws_offsets; parse b := match b with Ws_offsets m => Ok m | _ => Raise bad_bytes end |};
  sm_offsets_resp := {| ser := Ws_offsets_resp; parse b := match b with Ws_offsets_resp m => Ok m | _ => Raise bad_bytes end |};
  sm_wtrim_afe := {| ser := Ws_wtrim_afe; parse b := match b with Ws_wtrim_afe m => Ok m | _ => Raise bad_bytes end |};
  sm_wtrim_afe_resp := {| ser := Ws_wtrim_afe_resp; parse b := match b with Ws_wtrim_afe_resp m => Ok m | _ => Raise bad_bytes end |};
  sm_woffset_afe := {| ser := Ws_woffset_afe; parse b := match b with Ws_woffset_afe m => Ok m | _ => Raise bad_bytes end |};
  sm_woffset_afe_resp := {| ser := Ws_woffset_afe_resp; parse b := match b with Ws_woffset_afe_resp m => Ok m | _ => Raise bad_bytes end |};
  sm_att := {| ser := Ws_att; parse b := match b with Ws_att m => Ok m | _ => Raise bad_bytes end |};
  sm_att_resp := {| ser := Ws_att_resp; parse b := match b with Ws_att_resp m => Ok m | _ => Raise bad_bytes end |};
  sm_vbias := {| ser := Ws_vbias; parse b := match b with Ws_vbias m => Ok m | _ => Raise bad_bytes end |};
  sm_vbias_resp := {| ser := Ws_vbias_resp; parse b := match b with Ws_vbias_resp m => Ok m | _ => Raise bad_bytes end |};
  sm_reset := {| ser := Ws_reset; parse b := match b with Ws_reset m => Ok m | _ => Raise bad_bytes end |};
  sm_reset_resp := {| ser := Ws_reset_resp; parse b := match b with Ws_reset_resp m => Ok m | _ => Raise bad_bytes end |};
  sm_trigger := {| ser := Ws_trigger; parse b := match b with Ws_trigger m => Ok m | _ => Raise bad_bytes end |};
  sm_trigger_resp := {| ser := Ws_trigger_resp; parse b := match b with Ws_trigger_resp m => Ok m | _ => Raise bad_bytes end |} }.
(** The registers of a board; readings of the trims of the channels [b_broken] fail. *)
Record sboard : Type := SBoard {
  b_trims : list Z; b_offsets : list Z; b_vgains : list Z; b_biases : list Z;
  b_regs : gmap (Z * Z) Z; b_broken : list Z }.

Definition at_ (l : list Z) (k : Z) : Z := default 0 (l !! Z.to_nat k).

Definition set_all (v : Z) (l : list Z) (ks : list Z) : list Z :=
  foldl (fun l k => <[Z.to_nat k := v]> l) l ks.

(** The effect of a request; what does not exist is not written. *)
Definition board_apply (b : sboard) (t : Z) (m : swire) : sboard :=
  let '(SBoard ts os vs bs rs br) := b in
  if t =? MT2_WRITE_TRIM_CH_REQ then
    match m with Ws_write_trim q =>
      SBoard (<[Z.to_nat (wt_trimChannel q) := wt_trimValue q]> ts) os vs bs rs br | _ => b end
  else if t =? MT2_WRITE_OFFSET_CH_REQ then
    match m with Ww_offset q =>
      SBoard ts (<[Z.to_nat (offsetChannel q) := offsetValue q]> os) vs bs rs br | _ => b end
  else if t =? MT2_WRITE_AFE_VGAIN_REQ then
    match m with Ww_vgain q =>
      SBoard ts os (<[Z.to_nat (wv_afeBlock q) := wv_vgainValue q]> vs) bs rs br | _ => b end
  else if t =? MT2_WRITE_AFE_BIAS_SET_REQ then
    match m with Ws_bias q =>
      SBoard ts os vs (<[Z.to_nat (wb_afeBlock q) := wb_biasValue q]> bs) rs br | _ => b end
  else if t =? MT2_WRITE_AFE_REG_REQ then
    match m with Ws_reg q =>
      SBoard ts os vs bs (alter (fun _ => wg_regValue q) (wg_afeBlock q, wg_regAddress q) rs) br
    | _ => b end
  else if t =? MT2_WRITE_TRIM_ALL_CH_REQ then
    match m with Ws_trims q => SBoard (set_all (wtc_trimValue q) ts all_channels) os vs bs rs br
    | _ => b end
  else if t =? MT2_WRITE_OFFSET_ALL_CH_REQ then
    match m with Ws_offsets q => SBoard ts (set_all (woc_offsetValue q) os all_channels) vs bs rs br
    | _ => b end
  else if t =? MT2_WRITE_TRIM_ALL_AFE_REQ then
    match m with Ws_wtrim_afe q =>
      SBoard (set_all (wtb_trimValue q) ts (afe_channels (wtb_afeBlock q))) os vs bs rs br
    | _ => b end
  else if t =? MT2_WRITE_OFFSET_ALL_AFE_REQ then
    match m with Ws_woffset_afe q =>
      SBoard ts (set_all (wob_offsetValue q) os (afe_channels (wob_afeBlock q))) vs bs rs br
    | _ => b end
  else b.

Definition board_payload (b : sboard) (m : swire) : swire :=
  match m with
  | Ws_test _ => Ws_test_resp (TestRegResp 0xDEADBEEF "ok")
  | Ws_info _ => let z := S754_zero false in Ws_info_resp (Info z z z z z z z z z)
  | Ws_counters _ => Ws_counters_resp (CountersResp true "" [])
  | Ws_current q => Ws_current_resp (CurrentResp true "" (currentMonitorChannel q) 17)
  | Wr_trims _ => Wr_trims_resp (TrimsResp true "" (at_ (b_trims b) <$> all_channels))
  | Wr_offsets _ => Wr_offsets_resp (OffsetsResp true "" (at_ (b_offsets b) <$> all_channels))
  | Ws_trim_afe q => Ws_trim_afe_resp (TrimAfeResp true "" (rt_afeBlock q)
                       (at_ (b_trims b) <$> afe_channels (rt_afeBlock q)))
  | Ws_offset_afe q => Ws_offset_afe_resp (OffsetAfeResp true "" (ro_afeBlock q)
                         (at_ (b_offsets b) <$> afe_channels (ro_afeBlock q)))
  | Ws_trim q =>
      if bool_decide (rt_trimChannel q ∈ b_broken b)
      then Ws_trim_resp (TrimResp false "not read" (rt_trimChannel q) 0)
      else Ws_trim_resp (TrimResp true "" (rt_trimChannel q) (at_ (b_trims b) (rt_trimChannel q)))
  | Ws_offset q => Ws_offset_resp (OffsetResp true "" (ro_offsetChannel q)
                     (at_ (b_offsets b) (ro_offsetChannel q)))
  | Wr_vbias _ => Wr_vbias_resp (VbiasResp true "" 1300)
  | Wr_reg q => Wr_reg_resp (RegResp true "" (rg_afeBlock q) (regAddress q)
                  (default 0 (b_regs b !! (rg_afeBlock q, regAddress q))))
  | Wr_vgain q => Wr_vgain_resp (VgainResp true "" (vg_afeBlock q) (at_ (b_vgains b) (vg_afeBlock q)))
  | Wr_bias q => Wr_bias_resp (BiasResp true "" (bs_afeBlock q) (at_ (b_biases b) (bs_afeBlock q)))
  | Wr_monitor q => Wr_monitor_resp (MonitorResp true "" (bm_afeBlock q) 30000)
  | Ws_write_trim q => Ws_write_trim_resp (WriteTrimResp true "" (wt_trimChannel q) (wt_trimValue q) false)
  | Ww_offset q => Ww_offset_resp (WriteOffsetResp true "" (offsetChannel q) (offsetValue q) false)
  | Ww_vgain q => Ww_vgain_resp (WriteVgainResp true "" (wv_afeBlock q) (wv_vgainValue q))
  | Ws_bias q => Ws_bias_resp (WriteBiasResp true "" (wb_afeBlock q) (wb_biasValue q))
  | Ws_reg q => Ws_reg_resp (WriteRegResp true "" (wg_afeBlock q) (wg_regAddress q) (wg_regValue q))
  | Ws_trims q => Ws_trims_resp (WriteTrimAllResp true "" (wtc_trimValue q) false)
  | Ws_offsets q => Ws_offsets_resp (WriteOffsetAllResp true "" (woc_offsetValue q) false)
  | Ws_wtrim_afe q => Ws_wtrim_afe_resp (WriteTrimAfeResp true "" (wtb_afeBlock q) (wtb_trimValue q) false)
  | Ws_woffset_afe q =>
      Ws_woffset_afe_resp (WriteOffsetAfeResp true "" (wob_afeBlock q) (wob_offsetValue q) false)
  | _ => WEmpty
  end.

Definition sboard_reply (b : sboard) (env : ControlEnvelopeV2 swire) : ControlEnvelopeV2 swire :=
  Env 2 DIR_RESPONSE (mtype env + 1) (board_payload b (payload env)) (task_id env)
      (msg_id env) (msg_id env) (route env) 0.

#[export] Instance sboard_peer : Peer sboard swire := {
  can_send _ := true;
  answer b m := match m with
                | WEnv env => (board_apply b (mtype env) (payload env), [[WEnv (sboard_reply b env)]])
                | _ => (b, [])
                end }.

Definition board_values (b : sboard) : fe_values :=
  FeValues (at_ (b_trims b)) (at_ (b_offsets b)) (at_ (b_vgains b)) (at_ (b_biases b))
    (fun a r => default 0 (b_regs b !! (a, r))).

Lemma insert_at l k : <[Z.to_nat k := at_ l k]> l = l.
Proof.
  unfold at_. destruct (l !! Z.to_nat k) as [v|] eqn:Hv.
  - by apply list_insert_id.
  - apply list_insert_ge. by apply lookup_ge_None_1.
Qed.

Lemma set_all_at l v ks : Forall (fun k => at_ l k = v) ks -> set_all v l ks = l.
Proof.
  unfold set_all. induction 1 as [|k ks Hk Hks IH]; [done|]. cbn [foldl].
  by rewrite <- Hk, insert_at, Hk.
Qed.

Lemma alter_at (m : gmap (Z * Z) Z) k : alter (fun _ => default 0 (m !! k)) k m = m.
Proof.
  apply map_eq. intros j. destruct (decide (j = k)) as [->|Hne].
  - rewrite lookup_alter_eq. by destruct (m !! k).
  - by rewrite lookup_alter_ne.
Qed.

Lemma board_apply_harmless b t m : harmless (board_values b) (t, m) -> board_apply b t m = b.
Proof.
  intros Hh. destruct b as [ts os vs bs rs br]. inversion Hh; subst; cbn.
  - unfold READ_TYPES in *. repeat match goal with
      | Ht : _ ∈ _ :: _ |- _ => apply elem_of_cons in Ht as [->|Ht]; [done|]
      end. by apply not_elem_of_nil in H0.
  - by rewrite insert_at.
  - by rewrite insert_at.
  - by rewrite insert_at.
  - by rewrite insert_at.
  - by rewrite alter_at.
  - by rewrite set_all_at.
  - by rewrite set_all_at.
  - by rewrite set_all_at.
  - by rewrite set_all_at.
Qed.

Lemma sboard_faithful b : b_broken b = [] -> Faithful (board_values b) b (sboard_reply b).
Proof.
  intros Hb. split; try done.
  { intros env Hh. cbn. by rewrite board_apply_harmless. }
  all: intros env q Ht; injection Ht as _ Hq; unfold sboard_reply; cbn [payload]; rewrite Hq; cbn.
  all: try (rewrite Hb; cbn).
  all: eexists; split; reflexivity || done.
Qed.

Definition sample_board : sboard :=
  SBoard (seqZ 100 40) (replicate 40 2275) [1600; 1601; 1602; 1603; 1604] (replicate 5 800)
    {[(2, 52) := 7]} [].

Definition smoke_world (b : sboard) : fworld sboard swire :=
  FW (ZW b [] [] [] (fun k => 1000 + Z.of_nat k) 0 (fun _ => 7) 0 0 []) [].

Definition smoke_options (writes : bool) : smoke_args :=
  SmokeArgs "mezz/0" 5000 ["0,3"] [] [] 5 false 0 [("2", "0x34")] writes None None None None None
    None false None false 0 false false false false None false None false false 1 32 false.

Definition two_digits (n : nat) (f : float) : string := "0.00".

Definition smoke_run (b : sboard) (writes : bool) : result Z * fworld sboard swire :=
  main two_digits "uuid" (fun _ => None) (smoke_options writes) (smoke_world b).

Lemma smoke_parsed writes :
  parsed (smoke_options writes) [0; 3] [] [0; 1; 2; 3; 4] [(2, 52)] ∅ ∅.
Proof.
  split; try reflexivity.
  - by repeat constructor.
  - repeat split; repeat constructor; cbn; lia.
Qed.

Lemma smoke_exercises_all_witness :
  exists st w' (envs : list (ControlEnvelopeV2 swire)),
    smoke_run sample_board false = (Ok st, w') /\
    sent (fz w') = [] ++ (ser <$> envs) /\
    tag <$> envs = reading_plan (smoke_options false) [0; 3] [] [0; 1; 2; 3; 4] [(2, 52)] /\
    (st = 0 /\ failures w' = [] \/ st = 1 /\ failures w' <> []).
Proof.
  apply (smoke_exercises_all (H := sboard_peer) two_digits "uuid" (fun _ => None) (smoke_options false)
           (fun _ : sboard => eq_refl) [0; 3] [] [0; 1; 2; 3; 4] [(2, 52)] ∅ ∅ (smoke_world sample_board)).
  - by split.
  - apply smoke_parsed.
Defined.

Lemma sample_fits : fitting (board_values sample_board).
Proof.
  assert (Hat : forall l k, Forall u32 l -> u32 (at_ l k)).
  { intros l k Hl. unfold at_. destruct (l !! Z.to_nat k) as [v|] eqn:Hv; [|done].
    rewrite Forall_lookup in Hl. by apply (Hl _ _ Hv). }
  split.
  - intros k. split_and!; apply Hat; apply (bool_decide_unpack _); vm_compute; exact I.
  - intros a r. cbn. destruct (decide ((2, 52) = (a, r))) as [<-|Hne].
    + by rewrite lookup_singleton_eq.
    + by rewrite lookup_singleton_ne.
Qed.

Lemma smoke_write_back_safe_witness :
  do_writes (smoke_options true) = true /\
  exists w', smoke_run sample_board true = (Ok 0, w') /\ srv (fz w') = sample_board /\
    failures w' = [].
Proof.
  split; [reflexivity|].
  apply (smoke_write_back_safe two_digits "uuid" (fun _ => None) (smoke_options true)
    (board_values sample_board) sample_board (sboard_reply sample_board)
    (sboard_faithful sample_board eq_refl) sample_fits
    [0; 3] [] [0; 1; 2; 3; 4] [(2, 52)] (smoke_world sample_board));
    first [apply smoke_parsed | by repeat split].
Defined.

(** A reading that the server reports as failed is taken for a value: the board whose trim of
    channel 3 could not be read ends with that trim cleared, and the smoke test reports
    success. *)
Theorem failed_reading_written_back :
  let b := SBoard (seqZ 100 40) (replicate 40 2275) [1600] [800] ∅ [3] in
  let '(r, w') := smoke_run b true in
  r = Ok 0 /\ b_trims b !! 3%nat = Some 103 /\ b_trims (srv (fz w')) !! 3%nat = Some 0.
Proof. vm_compute. split_and!; reflexivity. Qed.
