(* ===== verification/SmallTools.v ===== *)
(** Three small clients of the server: [client/slowcontrol_smoketest.py], the end-to-end check of
    the main paths, [client/test_counters.py], which prints the trigger counters, and
    [client/test_threshold_14bit_v2.py], which configures a threshold and reads it back.

    The texts [f"{x:.3f}"], [f"{x:.2f}"] and [uuid.uuid4()] are parameters. *)
From S2P Require Import Prelude PyStr PyFloat PyVal ChannelSpec EnvelopeV2 Requests FeConfig.
From S2P Require Import FeMain SpyAcquire ReadState V2Config SmokeMessages FullSmoke.

(** [f"{l}"] of a list of integers *)
Definition str_list (l : list Z) : string := "[" +:+ join ", " (str_Z <$> l) +:+ "]".

(** The order of snapshots by channel. *)
Definition snap_le (a b : TriggerChannelSnapshot) : Prop := tc_channel a <= tc_channel b.

#[export] Instance snap_le_dec : RelDecision snap_le.
Proof. intros a b. unfold snap_le. apply _. Defined.

#[export] Instance snap_le_trans : Transitive snap_le.
Proof. intros a b c. unfold snap_le. lia. Qed.

#[export] Instance snap_le_total : Total snap_le.
Proof. intros a b. unfold snap_le. lia. Qed.

Definition sorted_snapshots (l : list TriggerChannelSnapshot) : list TriggerChannelSnapshot :=
  merge_sort snap_le l.

(** ** [slowcontrol_smoketest] *)

Record slow_args : Type := SlowArgs {
  sl_route : string; sl_timeout_ms : Z; run_align : bool; run_configure : option string;
  run_spybuffer : bool; sl_spybuffer_channels : list string; sl_waveforms : Z; sl_samples : Z;
  sl_counter_channels : list Z }.

Section slowcontrol.
Context {S B : Type} `{Peer S B, Size B, !Proto B (ControlEnvelopeV2 B), !SmokeMessages B}.
Abbreviation Wd := (zworld S B).
Context (fixed : nat -> float -> string) (uuid : string) (files : string -> option string)
  (args : slow_args).
(** [general_info] of a payload read as an [InfoResponse]. *)
Context (legacy_info : B -> result GeneralInfo).

Definition pretty_status (name : string) (success : bool) (message : string) : M Wd unit :=
  say ("[" +:+ (if success then "OK" else "FAIL") +:+ "] " +:+ name +:+ ": " +:+ message).

Definition do_test_reg : M Wd unit :=
  rep <- send_v2 next_ids_random MT2_READ_TEST_REG_REQ (ser TestRegReq) (sl_route args) ;;
  p <- lift (parse (A := TestRegResponse) (payload rep)) ;;
  pretty_status "test_reg" true ("value=0x" +:+ hex_pad true 8 (tt_value p) +:+ " msg='"
    +:+ tt_message p +:+ "'").

(** An empty payload is read as the older message. *)
Definition do_general_info : M Wd unit :=
  rep <- send_v2 next_ids_random MT2_READ_GENERAL_INFO_REQ (ser (InfoReq 0)) (sl_route args) ;;
  gi <- lift (parse (A := GeneralInfo) (payload rep)) ;;
  gi <- (if size (payload rep) =? 0 then lift (legacy_info (payload rep)) else ret gi) ;;
  pretty_status "general_info" true
    ("vbias0=" +:+ fixed 3 (v_bias_0 gi) +:+ " vbias1=" +:+ fixed 3 (v_bias_1 gi) +:+ " temp="
     +:+ fixed 2 (temperature gi) +:+ "C p(-5V)=" +:+ fixed 3 (power_minus5v gi) +:+ " p(2p5V)="
     +:+ fixed 3 (power_plus2p5v gi)).

Definition do_trigger_counters : M Wd unit :=
  chs <- lift (rmap set_u32 (sl_counter_channels args)) ;;
  rep <- send_v2 next_ids_random MT2_READ_TRIGGER_COUNTERS_REQ (ser (CountersReq chs 0))
           (sl_route args) ;;
  p <- lift (parse (A := ReadTriggerCountersResponse) (payload rep)) ;;
  pretty_status "trigger_counters" (cn_success p)
    (cn_message p +:+ match snapshots p with
                      | s :: _ => " first channel " +:+ str_Z (tc_channel s) +:+ " trig="
                          +:+ str_Z (record_count s) +:+ " busy=" +:+ str_Z (busy_count s)
                      | [] => ""
                      end).

Definition do_align : M Wd unit :=
  rep <- send_v2 next_ids_random MT2_ALIGN_AFE_REQ (ser AlignAFEs) (sl_route args) ;;
  p <- lift (parse (A := cmd_alignAFEs_response) (payload rep)) ;;
  pretty_status "align_afe" (ar_success p)
    ("delays=" +:+ str_list (ar_delay p) +:+ " bitslip=" +:+ str_list (ar_bitslip p) +:+ " msg='"
     +:+ ar_message p +:+ "'").

Definition do_configure (json_path : string) : M Wd unit :=
  req <- lift (load_config_request json_path (files json_path)) ;;
  rep <- send_v2 next_ids_random MT2_CONFIGURE_FE_REQ (ser req) (sl_route args) ;;
  p <- lift (parse (A := ConfigureResponse) (payload rep)) ;;
  pretty_status "configure_fe" (success p) (message p).

Definition do_spybuffer : M Wd unit :=
  chs <- lift (rmap (fun ch => z <-! int10 ch ;; set_u32 z) (sl_spybuffer_channels args)) ;;
  ns <- lift (set_u32 (sl_samples args)) ;;
  wf <- lift (set_u32 (sl_waveforms args)) ;;
  chunk <- lift (set_u32 (Z.max 1 (sl_waveforms args))) ;;
  rep <- send_v2 next_ids_random MT2_DUMP_SPYBUFFER_CHUNK_REQ
           (ser (ChunkReq chs ns wf false ("smoke-" +:+ uuid) chunk)) (sl_route args) ;;
  p <- lift (parse (A := DumpSpyBuffersChunkResponse) (payload rep)) ;;
  pretty_status "spybuffer_chunk" (cr_success p)
    (cr_message p +:+ " waveforms=" +:+ str_Z (cr_waveformCount p) +:+ "/"
     +:+ str_Z (cr_requestTotalWaveforms p) +:+ " channels=" +:+ str_list (cr_channelList p)
     +:+ " samples=" +:+ str_Z (cr_numberOfSamples p)).

Definition slow_main : M Wd unit :=
  do_test_reg ;;;
  do_general_info ;;;
  do_trigger_counters ;;;
  when (run_align args) do_align ;;;
  (match run_configure args with
   | Some path => when (negb (bool_decide (path = ""))) (do_configure path)
   | None => ret tt
   end) ;;;
  when (run_spybuffer args) do_spybuffer.

End slowcontrol.

(** ** [test_counters] *)

Record counter_args : Type := CounterArgs {
  ct_endpoint : string; ct_route : string; ct_channels : string; ct_base : option string }.

(** [fmt]: [f"{n:,}"] with underscores. *)
Fixpoint group3 (digits : list ascii) (n : nat) : list ascii :=
  match digits with
  | [] => []
  | d :: ds => d :: match ds with
                    | [] => []
                    | _ => if Nat.eqb (n mod 3) 2 then "_"%char :: group3 ds (Datatypes.S n)
                           else group3 ds (Datatypes.S n)
                    end
  end.

Definition fmt (n : Z) : string :=
  let digits := list_ascii_of_string (str_Z (Z.abs n)) in
  (if n <? 0 then "-" else "") +:+ string_of_list_ascii (reverse (group3 (reverse digits) 0)).

(** [f"{v:>w}"] *)
Fixpoint blanks (n : nat) : string := match n with O => "" | Datatypes.S k => String " " (blanks k) end.

Definition rjust (w : nat) (v : string) : string := blanks (w - String.length v) +:+ v.

Definition table_row (vals : list string) : string :=
  join " " (zip_with rjust [4%nat; 9%nat; 16%nat; 16%nat; 16%nat] vals).

Definition snapshot_row (s : TriggerChannelSnapshot) : string :=
  table_row [str_Z (tc_channel s); str_Z (tc_threshold s); fmt (record_count s);
             fmt (busy_count s); fmt (full_count s)].

Definition zero_snapshot (ch : Z) : result TriggerChannelSnapshot :=
  c <-! set_u32 ch ;; Ok (TriggerSnap c 0 0 0 0).

(** [sub in s] *)
Fixpoint contains (sub s : string) : bool :=
  match strip_prefix sub s with
  | Some _ => true
  | None => match s with String _ s' => contains sub s' | EmptyString => false end
  end.

Definition dashes (w : nat) : string := string_of_list_ascii (replicate w "-"%char).

Section counters.
Context {S B : Type} `{Peer S B, Size B, !Proto B (ControlEnvelopeV2 B), !SmokeMessages B}.
Abbreviation Wd := (zworld S B).
Context (args : counter_args).

(** [make_msg_id], also the task id *)
Definition counter_ids : M Wd (Z * Z) :=
  now <- time_ns ;; ret (Z.land now 0x7FFFFFFF, Z.land now 0x7FFFFFFF).

Definition request (channels : list Z) (base_addr : option Z) : M Wd ReadTriggerCountersResponse :=
  chs <- lift (rmap set_u32 channels) ;;
  b <- lift (match base_addr with Some b => set_u32 b | None => Ok 0 end) ;;
  env <- build_env counter_ids MT2_READ_TRIGGER_COUNTERS_REQ (ser (CountersReq chs b))
           (ct_route args) ;;
  z_send (ser env) ;;;
  data <- z_recv ;;
  resp_env <- lift (parse_or (A := ControlEnvelopeV2 B) data (unparsed "Bad V2 response envelope")) ;;
  (if size (payload resp_env) =? 0 then raise (unparsed "Bad V2 response envelope") else ret tt) ;;;
  lift (parse_or (payload resp_env) (unparsed "Bad counters payload")).

(** The answer to show: the server's, or zeros for the channels asked for. *)
Definition counters_or_zeros (chans : list Z) (base : option Z)
    : M Wd (bool * string * list TriggerChannelSnapshot) :=
  try_except
    (resp <- request chans base ;; ret (cn_success resp, cn_message resp, snapshots resp))
    (fun e =>
       let msg := if contains "Resource temporarily unavailable" (exn_text e)
                  then "Timeout waiting for server reply (check server running, port reachable, and that it speaks V2)."
                  else exn_text e in
       snaps <- lift (rmap zero_snapshot (match chans with [] => seqZ 0 40 | l => l end)) ;;
       ret (false, "Client-side fallback: " +:+ msg, snaps)).

Definition counters_main : M Wd unit :=
  chans <- lift (counters_parse_channels (ct_channels args)) ;;
  base <- lift (match ct_base args with Some b => z <-! int0 b ;; Ok (Some z) | None => Ok None end) ;;
  '(success, message, snaps) <- counters_or_zeros chans base ;;
  say (newline +:+ "Endpoint: " +:+ ct_endpoint args) ;;;
  say ("Route   : " +:+ ct_route args) ;;;
  (match base with Some b => say ("Base    : 0x" +:+ hex_pad true 8 b) | None => ret tt end) ;;;
  say ("Result  : " +:+ (if success : bool then "SUCCESS" else "FAIL")) ;;;
  when (negb (bool_decide (message = ""))) (say ("Message : " +:+ message)) ;;;
  match snaps with
  | [] => say "No snapshots returned."
  | _ =>
      say (newline +:+ table_row ["CH"; "THR(28b)"; "REC_CNT"; "BSY_CNT"; "FUL_CNT"]) ;;;
      say (table_row (dashes <$> [4%nat; 9%nat; 16%nat; 16%nat; 16%nat])) ;;;
      for_each (sorted_snapshots snaps) (fun s => say (snapshot_row s))
  end.

End counters.

(** ** [test_threshold_14bit_v2] *)

Definition TRIG_BASE : Z := 0xA0010000.
Definition TRIG_STRIDE : Z := 0x20.

Record threshold_args : Type := ThresholdArgs {
  th_endpoint : string; th_route : string; threshold : Z; th_channels : string; th_timeout : Z }.

(** The configuration it sends: the defaults with the threshold, and the channels asked for. *)
Definition threshold_config (args : threshold_args) (channels : list Z) : result ConfigureRequest :=
  let d := default_params in
  cfg <-! make_default_config {|
    p_ip := p_ip d; p_slot := p_slot d; p_timeout_ms := Z.min (th_timeout args) 60000;
    p_biasctrl := p_biasctrl d; p_threshold := threshold args; p_xcorr := p_xcorr d;
    p_tp_conf := p_tp_conf d; p_compensator := p_compensator d; p_inverters := p_inverters d;
    p_per_ch_trim := p_per_ch_trim d; p_per_ch_offset := p_per_ch_offset d;
    p_vgain := p_vgain d; p_lpf_cutoff := p_lpf_cutoff d;
    p_pga_clamp_level := p_pga_clamp_level d; p_pga_gain := p_pga_gain d;
    p_lna_gain := p_lna_gain d; p_lna_clamp := p_lna_clamp d |} ;;
  chs <-! rmap (fun ch => c <-! set_u32 ch ;; Ok (Chan c 0 2275 1)) channels ;;
  Ok (ConfReq (daphne_address cfg) (slot cfg) (timeout_ms cfg) (biasctrl cfg)
        (self_trigger_threshold cfg) (self_trigger_xcorr cfg) (tp_conf cfg) (compensator cfg)
        (inverters cfg) chs (afes cfg) (full_stream_channels cfg)).

(** [s.rstrip()] is [PyStr.rstrip]. *)
Definition hex8 (z : Z) : string := "0x" +:+ hex_pad true 8 z.

Section threshold.
Context {S B : Type} `{Peer S B, Size B, !Proto B (ControlEnvelopeV2 B), !SmokeMessages B}.
Abbreviation Wd := (zworld S B).
Context (pid rand : Z) (args : threshold_args).

(** An exchange and its response. *)
Definition ask (R : Type) `{!Proto B R} (ty : Z) (req : B) (resp_ty : Z) (e : string) : M Wd R :=
  env <- build_env (next_ids pid rand) ty req (th_route args) ;;
  rep <- send_recv env resp_ty ;;
  lift (parse_or (payload rep) (unparsed e)).

Definition threshold_main : M Wd Z :=
  channels <- lift (threshold_parse_channels (th_channels args)) ;;
  cfg <- lift (threshold_config args channels) ;;
  rep <- ask ConfigureResponse MT2_CONFIGURE_FE_REQ (ser cfg) MT2_CONFIGURE_FE_RESP
           "failed to parse ConfigureResponse" ;;
  say ("Endpoint  : " +:+ th_endpoint args) ;;;
  say ("Route     : " +:+ th_route args) ;;;
  say ("Channels  : " +:+ str_list channels) ;;;
  say ("Requested : " +:+ str_Z (threshold args) +:+ " (0x" +:+ hex_pad true 1 (threshold args) +:+ ")") ;;;
  say ("Configure : success=" +:+ str_bool (success rep)) ;;;
  when (negb (bool_decide (message rep = ""))) (say "Message:" ;;; say (rstrip (message rep))) ;;;
  say "" ;;;
  chs <- lift (rmap set_u32 channels) ;;
  cnt <- ask ReadTriggerCountersResponse MT2_READ_TRIGGER_COUNTERS_REQ (ser (CountersReq chs 0))
           MT2_READ_TRIGGER_COUNTERS_RESP "failed to parse ReadTriggerCountersResponse" ;;
  say ("Counters  : success=" +:+ str_bool (cn_success cnt)) ;;;
  when (negb (bool_decide (cn_message cnt = ""))) (say ("Message   : " +:+ strip (cn_message cnt))) ;;;
  say "" ;;;
  say "Counter snapshot thresholds:" ;;;
  for_each (sorted_snapshots (snapshots cnt)) (fun snap =>
    say ("  ch=" +:+ dec_pad 2 (tc_channel snap) +:+ " threshold_field=" +:+ str_Z (tc_threshold snap)
         +:+ " (0x" +:+ hex_pad true 1 (tc_threshold snap) +:+ ")")) ;;;
  say "" ;;;
  say "Important: READ_TRIGGER_COUNTERS currently masks threshold readback to 10 bits on the server." ;;;
  say "That means the snapshot above is not sufficient to prove full 14-bit storage for values > 0x3FF." ;;;
  say "" ;;;
  say "Raw register checks on the remote:" ;;;
  for_each channels (fun ch =>
    let addr := TRIG_BASE + ch * TRIG_STRIDE in
    say ("  ch=" +:+ dec_pad 2 ch +:+ " addr=" +:+ hex8 addr +:+ "  devmem " +:+ hex8 addr +:+ " 32")) ;;;
  ret 0.

End threshold.

(** ** What the scripts send *)

Section sending.
Context {S B : Type} `{Peer S B, Size B, !Proto B (ControlEnvelopeV2 B), !SmokeMessages B}.
Abbreviation Wd := (zworld S B).

Section slow.
Context (fixed : nat -> float -> string) (uuid : string) (files : string -> option string)
  (args : slow_args) (legacy_info : B -> result GeneralInfo).

(** The configuration that is asked for, if any. *)
Definition asked_config : result (option ConfigureRequest) :=
  match run_configure args with
  | Some path =>
      if bool_decide (path = "") then Ok None
      else r <-! load_config_request path (files path) ;; Ok (Some r)
  | None => Ok None
  end.

Definition spy_channels : result (list Z) :=
  rmap (fun ch => z <-! int10 ch ;; set_u32 z) (sl_spybuffer_channels args).

Definition slow_reads : list (Z * B) :=
  [(MT2_READ_TEST_REG_REQ, ser TestRegReq); (MT2_READ_GENERAL_INFO_REQ, ser (InfoReq 0));
   (MT2_READ_TRIGGER_COUNTERS_REQ, ser (CountersReq (sl_counter_channels args) 0))]
  ++ only_if (run_align args) [(MT2_ALIGN_AFE_REQ, ser AlignAFEs)].

Definition configure_req (req : option ConfigureRequest) : list (Z * B) :=
  match req with Some r => [(MT2_CONFIGURE_FE_REQ, ser r)] | None => [] end.

Definition chunk_req (chs : result (list Z)) : list (Z * B) :=
  match chs with
  | Ok l => only_if (run_spybuffer args)
      [(MT2_DUMP_SPYBUFFER_CHUNK_REQ,
        ser (ChunkReq l (sl_samples args) (sl_waveforms args) false ("smoke-" +:+ uuid)
               (Z.max 1 (sl_waveforms args))))]
  | Raise _ => []
  end.

(** The requests of [m] are the one of its exchange. *)
Lemma requests_exchange {A : Type} ty (req : B) (k : ControlEnvelopeV2 B -> M Wd A) :
  (forall rep, unsent (k rep)) ->
  requests (fun _ => True) [(ty, req)] (bind (send_v2 next_ids_random ty req (sl_route args)) k).
Proof using Type. intros Hk. eapply requests_then; [apply requests_send_v2, id_random|done]. Qed.

Lemma set_u32_ok z a : set_u32 z = Ok a -> a = z.
Proof using Type. intros Ha. by apply set_uint_ok in Ha as [-> _]. Qed.

Lemma set_u32_map l l' : rmap set_u32 l = Ok l' -> l' = l.
Proof using Type.
  intros Hl%rmap_ok. induction Hl as [|z z' l l' Hz Hl IH]; [done|]. by apply set_u32_ok in Hz as ->; subst.
Qed.

(** The readings and the alignment, and what follows. *)
Lemma slow_reads_sent (V : unit -> Prop) p (k : M Wd unit) :
  requests V p k ->
  requests V (slow_reads ++ p)
    (do_test_reg args ;;; do_general_info fixed args legacy_info ;;; do_trigger_counters args ;;;
     when (run_align args) (do_align args) ;;; k).
Proof using Type.
  intros Hk. unfold slow_reads. rewrite <- app_assoc.
  apply (requests_bind (fun _ => True) V [_] (_ :: _));
    [apply requests_exchange; intros rep; unsent_steps|intros _ _].
  apply (requests_bind (fun _ => True) V [_] (_ :: _)).
  { apply requests_exchange. intros rep. apply unsent_bind; [done|intros gi].
    apply unsent_bind; [by destruct (size (payload rep) =? 0)|intros g]. done. }
  intros _ _. apply (requests_bind (fun _ => True) V [_]).
  { unfold do_trigger_counters. apply requests_lift. intros chs Hc%set_u32_map. subst chs.
    apply requests_exchange. intros rep. unsent_steps. }
  intros _ _. apply (requests_bind (fun _ => True)); [|done].
  destruct (run_align args); [|by apply requests_ret].
  apply requests_exchange. intros rep. unsent_steps.
Qed.

Lemma chunk_sent :
  requests (fun _ => True) (chunk_req spy_channels)
    (when (run_spybuffer args) (do_spybuffer uuid args) : M Wd unit).
Proof using Type.
  unfold chunk_req. destruct (run_spybuffer args); cbn [when only_if].
  - unfold do_spybuffer. fold spy_channels. apply requests_lift. intros chs ->.
    apply requests_u32, requests_u32, requests_u32. apply requests_exchange.
    intros rep. unsent_steps.
  - destruct spy_channels; by apply requests_ret.
Qed.

(** Whatever the server does, [slowcontrol_smoketest] sends the readings, then the
    alignment, the configuration of the file and one chunk request as far as they are asked
    for, in this order and nothing else: some first ones if it raises, all if it returns.  When
    the configuration cannot be read, as the one the repository ships, the script always
    raises, after the readings and the alignment at the latest. *)
Theorem slow_sends_plan :
  match asked_config with
  | Ok req => requests (fun _ => True) (slow_reads ++ configure_req req ++ chunk_req spy_channels)
                (slow_main (S := S) fixed uuid files args legacy_info)
  | Raise _ => requests (fun _ => False) slow_reads
                 (slow_main (S := S) fixed uuid files args legacy_info)
  end.
Proof using Type.
  unfold asked_config. change (slow_main fixed uuid files args legacy_info) with
    (do_test_reg args ;;; do_general_info fixed args legacy_info ;;; do_trigger_counters args ;;;
     when (run_align args) (do_align args) ;;;
     (match run_configure args with
      | Some path => when (negb (bool_decide (path = ""))) (do_configure files args path)
      | None => ret tt
      end) ;;;
     when (run_spybuffer args) (do_spybuffer uuid args) : M Wd unit).
  destruct (run_configure args) as [path|]; [|].
  - destruct (bool_decide (path = "")); cbn [negb when].
    + apply slow_reads_sent, (requests_bind (fun _ => True) _ []); [by apply requests_ret|].
      intros _ _. apply chunk_sent.
    + unfold do_configure. destruct (load_config_request path (files path)) as [req|e]; cbn [rbind].
      * apply slow_reads_sent, (requests_bind (fun _ => True)); [|intros _ _; apply chunk_sent].
        apply requests_exchange. intros rep. unsent_steps.
      * rewrite <- (app_nil_r slow_reads). apply slow_reads_sent. apply (requests_raise _ _ e).
  - apply slow_reads_sent, (requests_bind (fun _ => True) _ []); [by apply requests_ret|].
    intros _ _. apply chunk_sent.
Qed.

End slow.
(** ** The table of counters *)

Section table.
Context (args : counter_args).

(** The channels the fallback shows. *)
Definition shown_channels (chans : list Z) : list Z :=
  match chans with [] => seqZ 0 40 | l => l end.

Lemma zeros_for chans :
  Forall u32 chans ->
  rmap zero_snapshot (shown_channels chans) =
    Ok ((fun ch => TriggerSnap ch 0 0 0 0) <$> shown_channels chans).
Proof using Type.
  intros Hu. apply rmap_ok. apply Forall2_fmap_r, Forall_Forall2_diag.
  assert (Hs : Forall u32 (shown_channels chans)).
  { destruct chans; [|done]. apply (bool_decide_unpack _). vm_compute. exact I. }
  eapply Forall_impl; [exact Hs|]. intros ch Hch. unfold zero_snapshot.
  by rewrite set_u32_in.
Qed.

(** [m] prints [lines] and does nothing else that is seen. *)
Definition prints (lines : list string) (m : M Wd unit) : Prop :=
  forall w, exists w', m w = (Ok tt, w') /\ console w' = console w ++ (Text <$> lines).

Lemma prints_ret : prints [] (ret tt).
Proof using Type. intros w. exists w. cbn. by rewrite app_nil_r. Qed.

Lemma prints_say s : prints [s] (say s).
Proof using Type. intros w. by eexists. Qed.

Lemma prints_bind l1 l2 (m k : M Wd unit) :
  prints l1 m -> prints l2 k -> prints (l1 ++ l2) (m ;;; k).
Proof using Type.
  intros Hm Hk w. destruct (Hm w) as (w1 & Hr & Hc1). destruct (Hk w1) as (w2 & Hr2 & Hc2).
  exists w2. rewrite (bind_run _ _ _ _ _ Hr). split; [done|].
  by rewrite Hc2, Hc1, fmap_app, app_assoc.
Qed.

Lemma prints_for_each {A : Type} (f : A -> string) l :
  prints (f <$> l) (for_each l (fun a => say (f a))).
Proof using Type.
  induction l as [|a l IH]; [apply prints_ret|]. by apply (prints_bind [_]); [apply prints_say|].
Qed.

(** A line that is not always printed. *)
Lemma prints_if (b : bool) s : prints (only_if b [s]) (if b then say s else ret tt).
Proof using Type. destruct b; [apply prints_say|apply prints_ret]. Qed.

(** [test_counters] always prints its table: whatever the server does, the script returns,
    and its last lines are the rows of the snapshots in increasing order of channels; they are
    those of the server, or, when the exchange failed in any way, one row of zeros for each
    channel asked for (all forty by default) under the result FAIL. *)
Theorem counters_table chans base (w : Wd) :
  counters_parse_channels (ct_channels args) = Ok chans ->
  (match ct_base args with Some b => z <-! int0 b ;; Ok (Some z) | None => Ok None end) = Ok base ->
  Forall u32 chans ->
  exists ok msg snaps w1 w' lines,
    (request args chans base w = (Ok (CountersResp ok msg snaps), w1) \/
     (exists e, request args chans base w = (Raise e, w1)) /\ ok = false /\
       snaps = (fun ch => TriggerSnap ch 0 0 0 0) <$> shown_channels chans) /\
    counters_main args w = (Ok tt, w') /\
    console w' = console w1 ++ (Text <$> lines ++
      match snaps with
      | [] => ["No snapshots returned."]
      | _ => snapshot_row <$> sorted_snapshots snaps
      end) /\
    ("Result  : " +:+ (if ok : bool then "SUCCESS" else "FAIL")) ∈ lines /\
    StronglySorted snap_le (sorted_snapshots snaps) /\ sorted_snapshots snaps ≡ₚ snaps.
Proof using Type.
  intros Hch Hbase Hu.
  assert (Hc : exists ok msg snaps w1,
    counters_or_zeros args chans base w = (Ok (ok, msg, snaps), w1) /\
    ((exists m, request args chans base w = (Ok (CountersResp ok m snaps), w1) /\ m = msg) \/
     (exists e, request args chans base w = (Raise e, w1)) /\ ok = false /\
       snaps = (fun ch => TriggerSnap ch 0 0 0 0) <$> shown_channels chans)).
  { unfold counters_or_zeros, try_except, bind.
    destruct (request args chans base w) as [[[ok msg snaps]|e] w1] eqn:Hr.
    - eexists _, _, _, _. split; [reflexivity|]. left. by eexists.
    - fold (shown_channels chans). rewrite zeros_for by done. eexists _, _, _, _.
      split; [reflexivity|]. right. split_and!; [by eexists|done|done]. }
  destruct Hc as (ok & msg & snaps & w1 & Hc & Hcase).
  set (lines := [newline +:+ "Endpoint: " +:+ ct_endpoint args] ++ ["Route   : " +:+ ct_route args]
    ++ (match base with Some b => ["Base    : 0x" +:+ hex_pad true 8 b] | None => [] end)
    ++ ["Result  : " +:+ (if ok : bool then "SUCCESS" else "FAIL")]
    ++ only_if (negb (bool_decide (msg = ""))) ["Message : " +:+ msg]).
  set (titles := [newline +:+ table_row ["CH"; "THR(28b)"; "REC_CNT"; "BSY_CNT"; "FUL_CNT"]]
    ++ [table_row (dashes <$> [4%nat; 9%nat; 16%nat; 16%nat; 16%nat])]).
  set (more := match snaps with [] => [] | _ => titles end).
  assert (Hp : exists w', counters_main args w = (Ok tt, w') /\
    console w' = console w1 ++ (Text <$> ((lines ++ more) ++ match snaps with
      | [] => ["No snapshots returned."] | _ => snapshot_row <$> sorted_snapshots snaps end))).
  { unfold counters_main.
    rewrite (bind_run _ _ _ _ _ (f_equal (fun r => (r, w)) Hch)).
    rewrite (bind_run _ _ _ _ _ (f_equal (fun r => (r, w)) Hbase)).
    rewrite (bind_run _ _ _ _ _ Hc). revert w1 Hc Hcase. intros w1 _ _. revert w1.
    unfold lines. rewrite <- !app_assoc.
    apply prints_bind; [apply prints_say|]. apply prints_bind; [apply prints_say|].
    apply prints_bind; [destruct base; [apply prints_say|apply prints_ret]|].
    apply prints_bind; [apply prints_say|]. apply prints_bind; [apply prints_if|].
    unfold more, titles. destruct snaps as [|sn snaps]; [apply prints_say|].
    rewrite <- app_assoc. apply prints_bind; [apply prints_say|].
    apply prints_bind; [apply prints_say|]. apply prints_for_each. }
  destruct Hp as (w' & Hr & Hcons). eexists ok, msg, snaps, w1, w', _.
  split_and!; [|exact Hr|exact Hcons| | |].
  - destruct Hcase as [(m & Hm & ->)|Hcase]; [by left|by right].
  - apply elem_of_app. left. unfold lines. rewrite !elem_of_app, !list_elem_of_singleton. tauto.
  - apply StronglySorted_merge_sort; apply _.
  - apply merge_sort_Permutation.
Qed.

End table.

(** ** The threshold test *)

(** A line or several of them. *)
Ltac quiet_step :=
  first [ done | apply unsent_say | apply unsent_when; unsent_steps
        | apply unsent_for_each; intros; apply unsent_say ].

Section threshold_test.
Context (pid rand : Z) (args : threshold_args).

Lemma requests_ask (R : Type) `{!Proto B R} ty (req : B) resp e :
  requests (fun _ => True) [(ty, req)] (ask (S := S) pid rand args R ty req resp e).
Proof using Type.
  unfold ask. apply requests_env; [apply id_next|]. intros env <-.
  eapply requests_then; [apply requests_send_recv|]. intros rep. apply unsent_lift.
Qed.

(** [test_threshold_14bit_v2] sends the configuration it means to, with the threshold asked
    for and exactly the channels asked for at their default settings, and then asks for the
    counters of these channels; it returns 0 only after both, and sends nothing when its
    arguments cannot be used. *)
Theorem threshold_sends channels cfg :
  threshold_parse_channels (th_channels args) = Ok channels ->
  threshold_config args channels = Ok cfg ->
  requests (fun st => st = 0)
    [(MT2_CONFIGURE_FE_REQ, ser cfg); (MT2_READ_TRIGGER_COUNTERS_REQ, ser (CountersReq channels 0))]
    (threshold_main (S := S) pid rand args) /\
  self_trigger_threshold cfg = threshold args /\
  FeConfig.channels cfg = (fun ch => Chan ch 0 2275 1) <$> channels /\
  length (afes cfg) = 5%nat.
Proof using Type.
  intros Hch Hcfg. split.
  - unfold threshold_main. apply requests_lift. intros chs Hc. rewrite Hch in Hc.
    injection Hc as <-. apply requests_lift. intros c Hc. rewrite Hcfg in Hc. injection Hc as <-.
    apply (requests_bind (fun _ => True) _ [_] [_]); [apply requests_ask|intros rep _].
    repeat (apply requests_step; [quiet_step|intros _]).
    apply requests_lift. intros chs Hs%set_u32_map. subst chs.
    apply (requests_bind (fun _ => True) _ [_] []); [apply requests_ask|intros cnt _].
    repeat (apply requests_step; [quiet_step|intros _]). by apply requests_ret.
  - unfold threshold_config in Hcfg. apply rbind_ok in Hcfg as (c & Hc & Hcfg).
    apply rbind_ok in Hcfg as (chs & Hchs & [= <-]).
    unfold make_default_config in Hc.
    do 8 (apply rbind_ok in Hc as (? & [-> _]%set_uint_ok & Hc)).
    apply rbind_ok in Hc as (c0 & _ & Hc). apply rbind_ok in Hc as (af & Haf & [= <-]).
    cbn. split_and!; [done| |].
    + apply rmap_ok in Hchs. clear -Hchs. induction Hchs as [|z c l l' Hz Hl IH]; [done|].
      apply rbind_ok in Hz as (z' & [-> _]%set_uint_ok & [= <-]). by rewrite IH.
    + apply rmap_ok, Forall2_length in Haf. by rewrite length_seqZ in Haf.
Qed.

(** The correlation threshold it sends is the default one, whatever threshold is asked for. *)
Lemma threshold_xcorr channels cfg :
  threshold_config args channels = Ok cfg -> self_trigger_xcorr cfg = 0x68.
Proof using Type.
  intros Hcfg. unfold threshold_config in Hcfg. apply rbind_ok in Hcfg as (c & Hc & Hcfg).
  apply rbind_ok in Hcfg as (chs & _ & [= <-]). unfold make_default_config in Hc.
  do 8 (apply rbind_ok in Hc as (? & [-> _]%set_uint_ok & Hc)).
  apply rbind_ok in Hc as (c0 & _ & Hc). by apply rbind_ok in Hc as (af & _ & [= <-]).
Qed.

End threshold_test.
End sending.

(** ** Examples *)

Example fmt_groups : fmt 1234567 = "1_234_567" /\ fmt 999 = "999" /\ fmt (-1000) = "-1_000".
Proof. vm_compute. split_and!; reflexivity. Qed.

Definition sample_zworld (b : sboard) : zworld sboard swire := fz (smoke_world b).

Definition counter_options : counter_args := CounterArgs "tcp://127.0.0.1:9876" "mezz/0" "5,2-3" None.

Lemma counters_table_witness :
  counters_parse_channels (ct_channels counter_options) = Ok [5; 2; 3] /\
  exists ok msg snaps w1 w' lines,
    (request counter_options [5; 2; 3] None (sample_zworld sample_board) =
       (Ok (CountersResp ok msg snaps), w1) \/
     (exists e, request counter_options [5; 2; 3] None (sample_zworld sample_board) = (Raise e, w1)) /\
       ok = false /\ snaps = (fun ch => TriggerSnap ch 0 0 0 0) <$> shown_channels [5; 2; 3]) /\
    counters_main counter_options (sample_zworld sample_board) = (Ok tt, w') /\
    console w' = console w1 ++ (Text <$> lines ++
      match snaps with
      | [] => ["No snapshots returned."]
      | _ => snapshot_row <$> sorted_snapshots snaps
      end) /\
    ("Result  : " +:+ (if ok : bool then "SUCCESS" else "FAIL")) ∈ lines /\
    StronglySorted snap_le (sorted_snapshots snaps) /\ sorted_snapshots snaps ≡ₚ snaps.
Proof.
  split; [vm_compute; reflexivity|].
  apply (counters_table counter_options [5; 2; 3] None (sample_zworld sample_board)).
  - vm_compute. reflexivity.
  - reflexivity.
  - unfold u32. reg_mem.
Defined.

(** With a server that does not answer the table is one of zeros. *)
#[export] Instance silent_peer : Peer unit swire := {
  can_send _ := true; answer u _ := (u, []) }.

Example counters_fallback :
  console (snd (counters_main counter_options (S := unit)
    (ZW tt [] [] [] (fun _ => 0) 0 (fun _ => 0) 0 0 []))) =
  Text <$> [newline +:+ "Endpoint: tcp://127.0.0.1:9876"; "Route   : mezz/0"; "Result  : FAIL";
    "Message : Client-side fallback: Timeout waiting for server reply (check server running, port reachable, and that it speaks V2).";
    newline +:+ "  CH  THR(28b)          REC_CNT          BSY_CNT          FUL_CNT";
    "---- --------- ---------------- ---------------- ----------------";
    "   2         0                0                0                0";
    "   3         0                0                0                0";
    "   5         0                0                0                0"].
Proof. vm_compute. reflexivity. Qed.

Definition threshold_options : threshold_args :=
  ThresholdArgs "tcp://127.0.0.1:9876" "mezz/0" 0x1200 "0,2" 15000.

Definition threshold_sample : result ConfigureRequest := threshold_config threshold_options [0; 2].

Lemma threshold_sends_witness :
  exists cfg, threshold_sample = Ok cfg /\
    requests (S := sboard) (B := swire) (fun st => st = 0)
      [(MT2_CONFIGURE_FE_REQ, ser cfg); (MT2_READ_TRIGGER_COUNTERS_REQ, ser (CountersReq [0; 2] 0))]
      (threshold_main 5 9 threshold_options) /\
    self_trigger_threshold cfg = 0x1200 /\
    FeConfig.channels cfg = (fun ch => Chan ch 0 2275 1) <$> [0; 2] /\
    length (afes cfg) = 5%nat.
Proof.
  destruct threshold_sample as [cfg|e] eqn:Hc; [|by vm_compute in Hc].
  exists cfg. split; [reflexivity|].
  apply (threshold_sends (S := sboard) (B := swire) 5 9 threshold_options [0; 2] cfg).
  - vm_compute. reflexivity.
  - exact Hc.
Defined.
