(* ===== verification/SpiDev.v ===== *)
(** The SPI device test of the mezzanine: [client/mezz0_spidev_test.py], which works on a
    [/dev/spidev] node through ioctls.

    The kernel is a parameter (class [SpiKernel]): opening the node, its ioctls, closing it,
    sleeping.  The message ioctl is given the packed [spi_ioc_transfer] and the bytes of the
    transmit buffer, and returns the bytes of the receive buffer; the addresses of the buffers
    and the entries of sysfs are parameters too, and the device path is a normalized one.  A loop
    without end is run for a number of turns and then interrupted by an exception.  The message
    that ends the process on an [OSError] is left out. *)
From Stdlib Require Import Btauto.
From S2P Require Import Prelude PyStr PyFloat ScanRuntime.

(** ** Request numbers *)

Definition SPI_IOC_MAGIC : Z := 107.   (* [ord("k")] *)
Definition SPI_CPHA : Z := 0x01.
Definition SPI_CPOL : Z := 0x02.

Definition IOC_NRBITS : Z := 8.
Definition IOC_TYPEBITS : Z := 8.
Definition IOC_SIZEBITS : Z := 14.
Definition IOC_DIRBITS : Z := 2.

Definition IOC_NRSHIFT : Z := 0.
Definition IOC_TYPESHIFT : Z := IOC_NRSHIFT + IOC_NRBITS.
Definition IOC_SIZESHIFT : Z := IOC_TYPESHIFT + IOC_TYPEBITS.
Definition IOC_DIRSHIFT : Z := IOC_SIZESHIFT + IOC_SIZEBITS.

Definition IOC_WRITE : Z := 1.
Definition IOC_READ : Z := 2.

Definition ioc (direction type_ nr size : Z) : Z :=
  Z.lor (Z.lor (Z.lor (Z.shiftl direction IOC_DIRSHIFT) (Z.shiftl type_ IOC_TYPESHIFT))
               (Z.shiftl nr IOC_NRSHIFT))
        (Z.shiftl size IOC_SIZESHIFT).

Definition iow (type_ nr size : Z) : Z := ioc IOC_WRITE type_ nr size.
Definition ior (type_ nr size : Z) : Z := ioc IOC_READ type_ nr size.

Definition SPI_IOC_WR_MODE : Z := iow SPI_IOC_MAGIC 1 1.
Definition SPI_IOC_RD_MODE : Z := ior SPI_IOC_MAGIC 1 1.
Definition SPI_IOC_WR_BITS_PER_WORD : Z := iow SPI_IOC_MAGIC 3 1.
Definition SPI_IOC_RD_BITS_PER_WORD : Z := ior SPI_IOC_MAGIC 3 1.
Definition SPI_IOC_WR_MAX_SPEED_HZ : Z := iow SPI_IOC_MAGIC 4 4.
Definition SPI_IOC_RD_MAX_SPEED_HZ : Z := ior SPI_IOC_MAGIC 4 4.

Definition SPI_IOC_TRANSFER_SIZE : Z := 32.

Definition spi_ioc_message (count : Z) : Z := iow SPI_IOC_MAGIC 0 (SPI_IOC_TRANSFER_SIZE * count).

(** ** Bytes *)

(** [s.replace(old, new)] for a non-empty [old]; the length of [s] bounds the search. *)
Fixpoint replace_fuel (fuel : nat) (old new s : string) : string :=
  match fuel, s with
  | S fuel', String c t =>
      match strip_prefix old s with
      | Some rest => new +:+ replace_fuel fuel' old new rest
      | None => String c (replace_fuel fuel' old new t)
      end
  | _, _ => s
  end.

Definition replace_str (old new s : string) : string := replace_fuel (String.length s) old new s.

Definition backslash_x : string := String (char 92) "x".

Definition parse_hex_bytes (text : string) : result (list Z) :=
  let cleaned := replace_str backslash_x " " (replace_str "0x" "" (replace_str "," " " text)) in
  values <-! rmap (fun token =>
    value <-! int16 token ;;
    if negb ((0 <=? value) && (value <=? 0xFF))
    then Raise (Exn ArgumentTypeError ("byte out of range: " +:+ token))
    else Ok value) (split_words cleaned) ;;
  match values with
  | [] => Raise (Exn ArgumentTypeError "empty byte pattern")
  | _ => Ok values
  end.

Definition adc1283_control_byte (channel : Z) : result Z :=
  if negb ((0 <=? channel) && (channel <=? 7))
  then Raise (Exn ValueError "ADC1283 channel must be in range 0..7")
  else Ok (Z.shiftl channel 3).

(** [for index in range(0, len(rx) - 1, 2)]: an odd byte at the end is not used. *)
Fixpoint decode_adc1283_words (rx : list Z) : list Z :=
  match rx with
  | hi :: lo :: rest => Z.land (Z.lor (Z.shiftl hi 8) lo) 0x0FFF :: decode_adc1283_words rest
  | _ => []
  end.

Definition format_bytes (values : list Z) : string := join " " (hex_pad true 2 <$> values).

(** ** The packed transfer *)

(** A field of [n] bytes, little-endian; a value that does not fit is an error. *)
Fixpoint le_bytes (n : nat) (v : Z) : list Z :=
  match n with O => [] | S n' => Z.land v 255 :: le_bytes n' (Z.shiftr v 8) end.

Definition pack_field (n : nat) (v : Z) : result (list Z) :=
  if (0 <=? v) && (v <? 2 ^ (8 * Z.of_nat n)) then Ok (le_bytes n v)
  else Raise (Exn StructError "argument out of range").

(** [struct.pack("<QQIIHBBBBBB", ...)] *)
Definition pack_transfer (tx_addr rx_addr len speed_hz bits_per_word : Z) : result (list Z) :=
  fields <-! rmap (fun nv => pack_field (fst nv) (snd nv))
    [(8%nat, tx_addr); (8%nat, rx_addr); (4%nat, len); (4%nat, speed_hz); (2%nat, 0);
     (1%nat, bits_per_word); (1%nat, 0); (1%nat, 0); (1%nat, 0); (1%nat, 0); (1%nat, 0)] ;;
  Ok (concat fields).

(** ** The device *)

Class SpiKernel (K : Type) : Type := {
  k_open : K -> string -> result Z * K;
  k_ioctl : K -> Z -> Z -> list Z -> result unit * K;
  k_message : K -> Z -> Z -> list Z -> list Z -> result (list Z) * K;
  k_close : K -> Z -> result unit * K;
  k_sleep : K -> float -> result unit * K }.

(** What was done to the device, in order. *)
Inductive op : Type :=
  | Opened (fd : Z)
  | Ioctl (fd request : Z) (data : list Z)
  | Message (fd : Z) (tx : list Z) (speed bits : Z)
  | Closed (fd : Z).

#[export] Instance op_eq_dec : EqDecision op.
Proof. solve_decision. Defined.

Record spi_world (K : Type) : Type := SpiW { kernel : K; ops : list op; lines : list string }.
Arguments SpiW {K}.
Arguments kernel {K}.
Arguments ops {K}.
Arguments lines {K}.

Record spi_args : Type := SpiArgs {
  device : string; speed : Z; mode : Z; bits : Z; sp_tx : list Z; burst_bytes : Z;
  loop : Z; delay_ms : float; quiet : bool; status_every : Z; adc1283_channel : option Z;
  adc1283_clocks : Z; decode_adc1283 : bool }.

Section device.
Context {K : Type} `{SpiKernel K}.
Abbreviation Wk := (spi_world K).
Context (exists_ : string -> bool) (realpath : string -> result string) (tx_addr rx_addr : Z).

Definition record (o : op) : M Wk unit :=
  modify (fun w => SpiW (kernel w) (ops w ++ [o]) (lines w)).

Definition print_line (s : string) : M Wk unit :=
  modify (fun w => SpiW (kernel w) (ops w) (lines w ++ [s])).

(** A call of the kernel. *)
Definition syscall {A : Type} (f : K -> result A * K) : M Wk A :=
  fun w => let '(r, k) := f (kernel w) in (r, SpiW k (ops w) (lines w)).

Definition os_open (path : string) : M Wk Z :=
  fd <- syscall (fun k => k_open k path) ;; record (Opened fd) ;;; ret fd.

Definition os_close (fd : Z) : M Wk unit :=
  record (Closed fd) ;;; syscall (fun k => k_close k fd).

Definition ioctl (fd request : Z) (data : list Z) : M Wk unit :=
  record (Ioctl fd request data) ;;; syscall (fun k => k_ioctl k fd request data).

Definition set_u8 (fd request value : Z) : M Wk unit := ioctl fd request (le_bytes 1 (Z.land value 0xFF)).

Definition set_u32_ (fd request value : Z) : M Wk unit :=
  ioctl fd request (le_bytes 4 (Z.land value 0xFFFFFFFF)).

(** [SpiDev.__init__]: the descriptor is closed when the settings are refused. *)
Definition spi_init (dev : string) (mode speed_hz bits_per_word : Z) : M Wk Z :=
  fd <- os_open dev ;;
  try_except
    (set_u8 fd SPI_IOC_WR_MODE mode ;;;
     set_u8 fd SPI_IOC_WR_BITS_PER_WORD bits_per_word ;;;
     set_u32_ fd SPI_IOC_WR_MAX_SPEED_HZ speed_hz ;;;
     ret fd)
    (fun e => os_close fd ;;; raise e).

(** [SpiDev.close] on a descriptor that may have been closed. *)
Definition spi_close (fd : Z) : M Wk unit := if 0 <=? fd then os_close fd else ret tt.

(** [array.array("B", tx)] *)
Definition byte_array (l : list Z) : result (list Z) :=
  rmap (fun b => if (0 <=? b) && (b <? 256) then Ok b
                 else Raise (Exn OverflowError "unsigned byte integer is greater than maximum")) l.

Definition transfer (fd : Z) (tx : list Z) (speed_hz bits_per_word : Z) : M Wk (list Z) :=
  tx_buf <- lift (byte_array tx) ;;
  packed <- lift (pack_transfer tx_addr rx_addr (Z.of_nat (length tx)) speed_hz bits_per_word) ;;
  record (Message fd tx_buf speed_hz bits_per_word) ;;;
  syscall (fun k => k_message k fd (spi_ioc_message 1) packed tx_buf).

(** ** The script *)

(** [Path(p).name]: empty parts and [.] are not parts of a path. *)
Definition path_part (s : string) : bool := negb ((s =? "")%string || (s =? ".")%string).
Definition path_name (p : string) : string := default "" (last (filter path_part (split_on "/" p))).

Definition describe_spidev (dev : string) : M Wk unit :=
  let name := path_name dev in
  let not_found := print_line ("sysfs_spidev=<not found for " +:+ name +:+ ">") in
  match strip_prefix "spidev" name with
  | Some spi_name =>
      let spi_dev_dir := path_join "/sys/bus/spi/devices" ("spi" +:+ spi_name) in
      if exists_ spi_dev_dir then
        print_line ("sysfs_device=" +:+ spi_dev_dir) ;;;
        try_except
          (p <- lift (realpath (path_join spi_dev_dir "driver")) ;;
           print_line ("driver=" +:+ path_name p))
          (fun e => match exn_class e with
                    | OSError _ => print_line "driver=<none>"
                    | _ => raise e
                    end) ;;;
        p <- lift (realpath spi_dev_dir) ;;
        print_line ("resolved=" +:+ p)
      else not_found
  | None => not_found
  end.

(** The bytes to send. *)
Definition tx_bytes (args : spi_args) : result (list Z) :=
  match adc1283_channel args with
  | Some ch =>
      control <-! adc1283_control_byte ch ;;
      Ok (control :: replicate (Z.to_nat (adc1283_clocks args / 8 - 1)) 0)
  | None =>
      if burst_bytes args =? 0 then Ok (sp_tx args)
      else Ok (replicate (Z.to_nat (burst_bytes args)) 0xAA)
  end.

Definition again_ (args : spi_args) (count : Z) : bool := (loop args =? 0) || (count <? loop args).

Definition report_line (args : spi_args) (count : Z) (rx : list Z) : M Wk unit :=
  if quiet args then
    when (negb (status_every args =? 0) && (count mod status_every args =? 0))
      (print_line ("transfers=" +:+ str_Z count))
  else
    print_line ("rx=" +:+ format_bytes rx +:+
      if decode_adc1283 args
      then " adc1283=" +:+ join " " ((fun sample => dec_pad 4 sample +:+ "/0x" +:+ hex_pad true 3 sample)
             <$> decode_adc1283_words rx)
      else "").

(** The loop, from [count] transfers on. *)
Fixpoint transfer_loop (fuel : nat) (args : spi_args) (fd : Z) (tx : list Z) (count : Z) : M Wk unit :=
  if again_ args count then
    match fuel with
    | O => raise (Exn OtherError "interrupted")
    | S fuel' =>
        rx <- transfer fd tx (speed args) (bits args) ;;
        let count := count + 1 in
        report_line args count rx ;;;
        when (again_ args count)
          (secs <- lift (f_div (delay_ms args) (f_of_Z 1000)) ;; syscall (fun k => k_sleep k secs)) ;;;
        transfer_loop fuel' args fd tx count
    end
  else ret tt.

Definition main (fuel : nat) (args : spi_args) : M Wk Z :=
  tx <- lift (tx_bytes args) ;;
  print_line ("device=" +:+ device args +:+ " speed=" +:+ str_Z (speed args) +:+ "Hz mode="
              +:+ str_Z (mode args) +:+ " bits=" +:+ str_Z (bits args)) ;;;
  (if exists_ (device args) then describe_spidev (device args) else print_line "device_exists=False") ;;;
  print_line ("tx=" +:+ format_bytes tx) ;;;
  fd <- spi_init (device args) (mode args) (speed args) (bits args) ;;
  try_finally (transfer_loop fuel args fd tx 0) (spi_close fd) ;;;
  ret 0.

End device.

(** ** Request numbers decode *)

Lemma ioc_sum direction type_ nr size :
  0 <= direction < 4 -> 0 <= type_ < 256 -> 0 <= nr < 256 -> 0 <= size < 2 ^ 14 ->
  ioc direction type_ nr size = nr + type_ * 2 ^ 8 + size * 2 ^ 16 + direction * 2 ^ 30.
Proof.
  intros Hd Ht Hn Hs. rewrite <- !lor_field by lia. unfold ioc.
  change IOC_DIRSHIFT with 30. change IOC_TYPESHIFT with 8. change IOC_NRSHIFT with 0.
  change IOC_SIZESHIFT with 16. rewrite Z.shiftl_0_r. apply Z.bits_inj'. intros k Hk.
  rewrite !Z.lor_spec. btauto.
Qed.

(** The field of width [w] at [n] of a sum. *)
Lemma sum_field q r v n w :
  0 <= n -> 0 <= w -> 0 <= r < 2 ^ n -> 0 <= v < 2 ^ w ->
  Z.land (Z.shiftr (r + v * 2 ^ n + q * 2 ^ (n + w)) n) (Z.ones w) = v.
Proof.
  intros Hn Hw Hr Hv. rewrite Z.shiftr_div_pow2, Z.land_ones by done. rewrite Z.pow_add_r by done.
  replace (r + v * 2 ^ n + q * (2 ^ n * 2 ^ w)) with (r + (v + q * 2 ^ w) * 2 ^ n) by ring.
  rewrite Z.div_add by lia. rewrite (Z.div_small r) by done. rewrite Z.add_0_l, Z.mod_add by lia.
  by apply Z.mod_small.
Qed.

Lemma le_bytes_length n v : length (le_bytes n v) = n.
Proof. revert v. induction n as [|n IH]; intros v; cbn; [done|]. by rewrite IH. Qed.

Lemma pack_field_length n v l : pack_field n v = Ok l -> length l = n.
Proof. unfold pack_field. destruct (_ && _); [|done]. intros [= <-]. apply le_bytes_length. Qed.

(** The fields of a request number do not overlap: the number fits 32 bits and each field is
    read back by its shift and width; and the structure that is packed for a transfer has the
    size that the number of the message ioctl announces. *)
Theorem ioc_fields direction type_ nr size :
  0 <= direction < 4 -> 0 <= type_ < 256 -> 0 <= nr < 256 -> 0 <= size < 2 ^ 14 ->
  let r := ioc direction type_ nr size in
  0 <= r < 2 ^ 32 /\
  Z.land (Z.shiftr r IOC_DIRSHIFT) (Z.ones IOC_DIRBITS) = direction /\
  Z.land (Z.shiftr r IOC_TYPESHIFT) (Z.ones IOC_TYPEBITS) = type_ /\
  Z.land (Z.shiftr r IOC_NRSHIFT) (Z.ones IOC_NRBITS) = nr /\
  Z.land (Z.shiftr r IOC_SIZESHIFT) (Z.ones IOC_SIZEBITS) = size /\
  (forall a b len speed bits packed, pack_transfer a b len speed bits = Ok packed ->
     Z.land (Z.shiftr (spi_ioc_message 1) IOC_SIZESHIFT) (Z.ones IOC_SIZEBITS)
     = Z.of_nat (length packed)).
Proof.
  intros Hd Ht Hn Hs r. assert (Hr : r = _) by (by apply ioc_sum).
  change IOC_DIRSHIFT with 30. change IOC_TYPESHIFT with 8. change IOC_NRSHIFT with 0.
  change IOC_SIZESHIFT with 16. change IOC_DIRBITS with 2. change IOC_TYPEBITS with 8.
  change IOC_NRBITS with 8. change IOC_SIZEBITS with 14. split_and!; [lia|lia| | | | |].
  - replace r with ((nr + type_ * 2 ^ 8 + size * 2 ^ 16) + direction * 2 ^ 30 + 0 * 2 ^ (30 + 2))
      by lia. apply sum_field; lia.
  - replace r with (nr + type_ * 2 ^ 8 + (size + direction * 2 ^ 14) * 2 ^ (8 + 8)) by lia.
    apply sum_field; lia.
  - replace r with (0 + nr * 2 ^ 0 + (type_ + size * 2 ^ 8 + direction * 2 ^ 22) * 2 ^ (0 + 8)) by lia.
    apply sum_field; lia.
  - replace r with ((nr + type_ * 2 ^ 8) + size * 2 ^ 16 + direction * 2 ^ (16 + 14)) by lia.
    apply sum_field; lia.
  - intros a b len speed bits packed Hp. unfold pack_transfer in Hp.
    apply rbind_ok in Hp as (fs & Hf & [= <-]). apply rmap_ok in Hf.
    change (Z.land _ _) with 32.
    repeat match goal with
    | Hx : Forall2 _ (_ :: _) _ |- _ =>
        apply Forall2_cons_inv_l in Hx as (? & ? & Hx%pack_field_length & ? & ->)
    | Hx : Forall2 _ [] _ |- _ => apply Forall2_nil_inv_l in Hx as ->
    end.
    cbn [concat fst] in *. rewrite !length_app. cbn [length]. lia.
Qed.

(** ** Byte patterns *)

Definition not_char (c a : ascii) : bool := negb (Ascii.eqb a c).

Lemma strip_prefix_missing c old s :
  has_char c old = true -> str_all (not_char c) s = true -> strip_prefix old s = None.
Proof.
  revert s. induction old as [|a old IH]; intros s Ho Hs; [done|].
  destruct s as [|b s]; [done|]. cbn in *. apply andb_prop in Hs as [Hb Hs].
  destruct (Ascii.eqb_spec a b) as [->|]; [|done]. apply IH; [|done].
  unfold not_char in Hb. by destruct (Ascii.eqb b c).
Qed.

(** A text without a character of [old] is left alone. *)
Lemma replace_str_missing c old new s :
  has_char c old = true -> str_all (not_char c) s = true -> replace_str old new s = s.
Proof.
  intros Ho. unfold replace_str. generalize (String.length s) as fuel. intros fuel. revert s.
  induction fuel as [|fuel IH]; intros s Hs; [done|]. destruct s as [|a s]; [done|].
  cbn [replace_fuel]. rewrite (strip_prefix_missing c) by done.
  cbn in Hs. apply andb_prop in Hs as [_ Hs]. by rewrite IH.
Qed.

Definition not_space (c : ascii) : bool := negb (is_space c).

Lemma words_aux_token cur t rest :
  str_all not_space t = true -> words_aux cur (t +:+ rest) = words_aux (cur +:+ t) rest.
Proof.
  revert cur. induction t as [|a t IH]; intros cur Ht.
  - cbn. by rewrite append_nil_r.
  - cbn in Ht. apply andb_prop in Ht as [Ha Ht]. unfold not_space in Ha.
    change (String a t +:+ rest) with (String a (t +:+ rest)). cbn [words_aux].
    destruct (is_space a); [done|]. rewrite IH by done. f_equal.
    by rewrite append_assoc.
Qed.

Definition is_word (t : string) : Prop := t <> "" /\ str_all not_space t = true.

(** [" ".join(l).split() == l] *)
Lemma split_join_words l : Forall is_word l -> split_words (join " " l) = l.
Proof.
  unfold split_words. induction 1 as [|t l [Hne Ht] Hl IH]; [done|].
  destruct l as [|t2 l].
  - cbn [join]. rewrite <- (append_nil_r t) at 1. rewrite words_aux_token by done.
    change ("" +:+ t) with t. cbn. by destruct t.
  - change (join " " (t :: t2 :: l)) with (t +:+ String " " (join " " (t2 :: l))).
    rewrite words_aux_token by done. change ("" +:+ t) with t. cbn [words_aux].
    change (is_space " ") with true. destruct t as [|a t]; [done|]. by rewrite IH.
Qed.

Definition byte_ok (b : Z) : bool :=
  let t := hex_pad true 2 b in
  negb (bool_decide (t = "")) && str_all not_space t && str_all (not_char ",") t &&
  str_all (not_char "x") t &&
  match int16 t with Ok z => z =? b | Raise _ => false end.

Lemma byte_text b : 0 <= b < 256 -> byte_ok b = true.
Proof.
  intros Hb. assert (Hall : forallb byte_ok (seqZ 0 256) = true) by (vm_compute; reflexivity).
  rewrite forallb_forall in Hall. apply Hall, list_elem_of_In, elem_of_seqZ. lia.
Qed.

Lemma str_all_join p sep l :
  str_all p sep = true -> Forall (fun t => str_all p t = true) l -> str_all p (join sep l) = true.
Proof.
  intros Hs. induction 1 as [|t l Ht Hl IH]; [done|]. destruct l as [|t2 l]; [done|].
  change (join sep (t :: t2 :: l)) with (t +:+ sep +:+ join sep (t2 :: l)).
  by rewrite !str_all_app, Ht, Hs, IH.
Qed.

(** A byte pattern that is printed reads back as itself: [parse_hex_bytes] inverts
    [format_bytes] on every non-empty list of bytes, and whatever it accepts is one. *)
Theorem hex_bytes_roundtrip l :
  (l <> [] -> Forall (fun b => 0 <= b < 256) l -> parse_hex_bytes (format_bytes l) = Ok l) /\
  (forall text, parse_hex_bytes text = Ok l -> l <> [] /\ Forall (fun b => 0 <= b < 256) l).
Proof.
  split.
  - intros Hne Hl.
    assert (Hok : Forall (fun b => byte_ok b = true) l).
    { eapply Forall_impl; [exact Hl|]. intros b. apply byte_text. }
    assert (Hc : forall c, c = ","%char \/ c = "x"%char ->
      str_all (not_char c) (format_bytes l) = true).
    { intros c Hc. apply str_all_join; [by destruct Hc as [->| ->]|]. apply Forall_fmap.
      eapply Forall_impl; [exact Hok|]. intros b Hb. unfold byte_ok in Hb. bool_to_prop. cbn.
      by destruct Hc as [->| ->]. }
    unfold parse_hex_bytes.
    rewrite (replace_str_missing "," ","), (replace_str_missing "x" "0x"),
      (replace_str_missing "x" backslash_x) by (done || (apply Hc; auto)).
    unfold format_bytes. rewrite split_join_words.
    + assert (Hm : rmap (fun token => value <-! int16 token ;;
        if negb ((0 <=? value) && (value <=? 255))
        then Raise (Exn ArgumentTypeError ("byte out of range: " +:+ token)) else Ok value)
        (hex_pad true 2 <$> l) = Ok l).
      { apply rmap_ok, Forall2_fmap_l. apply Forall_Forall2_diag. rewrite Forall_forall in *.
        intros b Hb. specialize (Hok b Hb). specialize (Hl b Hb). unfold byte_ok in Hok.
        bool_to_prop. unfold compose. destruct (int16 (hex_pad true 2 b)) as [z|]; [|done].
        bool_to_prop. subst z.
        cbn [rbind]. by rewrite (proj2 (Z.leb_le _ _)), (proj2 (Z.leb_le _ _)) by lia. }
      rewrite Hm. cbn. by destruct l.
    + apply Forall_fmap. eapply Forall_impl; [exact Hok|]. intros b Hb. unfold byte_ok in Hb.
      bool_to_prop. by split.
  - intros text H. unfold parse_hex_bytes in H. apply rbind_ok in H as (vs & Hv & H).
    destruct vs as [|v vs]; [done|]. injection H as <-. split; [done|]. apply rmap_ok in Hv.
    revert Hv. generalize (v :: vs) as bs. intros bs Hv.
    induction Hv as [|t b ts bs Hb Hv IH]; constructor; [|done].
    apply rbind_ok in Hb as (z & _ & Hz).
    destruct ((0 <=? z) && (z <=? 255)) eqn:Hr; [|done]. injection Hz as <-. bool_to_prop. lia.
Qed.

(** ** Samples *)

(** A word as the two bytes it comes in. *)
Definition be_word (w : Z) : list Z := [w / 256; w mod 256].

(** The samples of a frame are the low twelve bits of its 16-bit words, in order, one for
    each complete word; they are below 4096 for any bytes, and the control byte of a channel is
    read back by the three bits the ADC looks at. *)
Theorem adc1283_samples :
  (forall ws odd, Forall (fun w => 0 <= w < 2 ^ 16) ws -> (length odd <= 1)%nat ->
     decode_adc1283_words (concat (be_word <$> ws) ++ odd) = (fun w => w mod 4096) <$> ws) /\
  (forall rx, Forall (fun s => 0 <= s < 4096) (decode_adc1283_words rx) /\
     length (decode_adc1283_words rx) = (length rx / 2)%nat) /\
  (forall ch b, adc1283_control_byte ch = Ok b <-> 0 <= ch < 8 /\ 0 <= b < 256 /\
     Z.land (Z.shiftr b 3) 7 = ch /\ Z.land b 7 = 0 /\ b < 64).
Proof.
  split; [|split].
  - intros ws odd Hws Hodd. induction Hws as [|w ws Hw Hws IH].
    + destruct odd as [|a [|b odd]]; [done|done|]. cbn in Hodd. lia.
    + cbn [fmap list_fmap concat be_word app decode_adc1283_words]. rewrite IH. f_equal.
      rewrite Z.lor_comm, lor_field by (try lia; apply Z.mod_pos_bound; lia).
      change 4095 with (Z.ones 12). rewrite Z.land_ones by lia. change (2 ^ 12) with 4096.
      f_equal. change (2 ^ 8) with 256. pose proof (Z.div_mod w 256). lia.
  - assert (Hind : forall n rx, (length rx <= n)%nat ->
      Forall (fun s => 0 <= s < 4096) (decode_adc1283_words rx) /\
      length (decode_adc1283_words rx) = (length rx / 2)%nat).
    { induction n as [|n IH]; intros rx Hn.
      - destruct rx; [|cbn in Hn; lia]. split; [constructor|done].
      - destruct rx as [|hi [|lo rx]]; [split; [constructor|done]|split; [constructor|done]|].
        cbn [decode_adc1283_words length] in *. destruct (IH rx) as [Hf Hl]; [lia|]. split.
        + constructor; [|done]. change 4095 with (Z.ones 12). rewrite Z.land_ones by lia.
          by apply Z.mod_pos_bound.
        + rewrite Hl. replace (Datatypes.S (Datatypes.S (length rx))) with (1 * 2 + length rx)%nat by lia.
          rewrite Nat.div_add_l by lia. lia. }
    intros rx. by apply (Hind (length rx)).
  - intros ch b. unfold adc1283_control_byte.
    destruct ((0 <=? ch) && (ch <=? 7)) eqn:Hr; cbn [negb].
    + bool_to_prop. split.
      * intros [= <-]. rewrite Z.shiftl_mul_pow2 by lia. change (2 ^ 3) with 8.
        change 7 with (Z.ones 3). rewrite Z.shiftr_div_pow2, !Z.land_ones by lia.
        change (2 ^ 3) with 8. rewrite Z.div_mul, Z.mod_mul by lia.
        rewrite Z.mod_small by lia. lia.
      * intros (Hc & Hb & Hs & Hl & Hb6). f_equal. rewrite Z.shiftl_mul_pow2 by lia.
        change 7 with (Z.ones 3) in Hs, Hl. rewrite Z.shiftr_div_pow2, Z.land_ones in Hs by lia.
        rewrite Z.land_ones in Hl by lia. change (2 ^ 3) with 8 in *.
        rewrite (Z.mod_small (b / 8)) in Hs by (split; [apply Z.div_pos; lia|apply Z.div_lt_upper_bound; lia]).
        pose proof (Z.div_mod b 8). lia.
    + split; [done|]. intros (Hc & _). apply andb_false_iff in Hr as [Hr|Hr]; bool_to_prop; lia.
Qed.

(** ** The descriptor *)

Section closing.
Context {K : Type} `{SpiKernel K}.
Abbreviation Wk := (spi_world K).
Context (exists_ : string -> bool) (realpath : string -> result string) (tx_addr rx_addr : Z).

(** [m] does only operations of which [P] holds. *)
Definition only {A : Type} (P : op -> Prop) (m : M Wk A) : Prop :=
  forall w, exists l, ops (snd (m w)) = ops w ++ l /\ Forall P l.

Lemma only_silent {A : Type} P (m : M Wk A) : (forall w, ops (snd (m w)) = ops w) -> only P m.
Proof using Type. intros Hm w. exists []. rewrite app_nil_r. by split. Qed.

Lemma only_bind {A C : Type} P (m : M Wk A) (k : A -> M Wk C) :
  only P m -> (forall a, only P (k a)) -> only P (bind m k).
Proof using Type.
  intros Hm Hk w. destruct (Hm w) as (l1 & Ho1 & Hp1). unfold bind.
  destruct (m w) as [[a|e] w1]; cbn in *; [|by exists l1].
  destruct (Hk a w1) as (l2 & Ho2 & Hp2). exists (l1 ++ l2).
  rewrite Ho2, Ho1, app_assoc. split; [done|by apply Forall_app].
Qed.

Lemma only_try {A : Type} P (m : M Wk A) h :
  only P m -> (forall e, only P (h e)) -> only P (try_except m h).
Proof using Type.
  intros Hm Hh w. destruct (Hm w) as (l1 & Ho1 & Hp1). unfold try_except.
  destruct (m w) as [[a|e] w1]; cbn in *; [by exists l1|].
  destruct (Hh e w1) as (l2 & Ho2 & Hp2). exists (l1 ++ l2).
  rewrite Ho2, Ho1, app_assoc. split; [done|by apply Forall_app].
Qed.

Lemma only_record P o : P o -> only P (record o : M Wk unit).
Proof using Type. intros Ho w. exists [o]. split; [done|by constructor]. Qed.

Lemma only_syscall {A : Type} P (f : K -> result A * K) : only P (syscall f).
Proof using Type. apply only_silent. intros w. unfold syscall. by destruct (f (kernel w)). Qed.

Lemma only_print P s : only P (print_line s : M Wk unit).
Proof using Type. by apply only_silent. Qed.

Lemma only_lift {A : Type} P (r : result A) : only P (lift r : M Wk A).
Proof using Type. by apply only_silent. Qed.

(** The uses of an open descriptor. *)
Definition uses (fd : Z) (o : op) : Prop :=
  match o with
  | Ioctl f _ _ | Message f _ _ _ => f = fd
  | _ => False
  end.

Lemma only_transfer fd tx sp b : only (uses fd) (transfer tx_addr rx_addr fd tx sp b : M Wk _).
Proof using Type.
  unfold transfer. apply only_bind; [apply only_lift|intros buf].
  apply only_bind; [apply only_lift|intros packed].
  apply only_bind; [by apply only_record|intros _]. apply only_syscall.
Qed.

Lemma only_loop fuel args fd tx count :
  only (uses fd) (transfer_loop tx_addr rx_addr fuel args fd tx count : M Wk unit).
Proof using Type.
  revert count. induction fuel as [|fuel IH]; intros count; cbn [transfer_loop];
    (destruct (again_ args count); [|by apply only_silent]); [by apply only_silent|].
  apply only_bind; [apply only_transfer|intros rx]. cbv zeta.
  apply only_bind; [|intros _].
  { unfold report_line. destruct (quiet args); [|apply only_print].
    destruct (_ && _); [apply only_print|by apply only_silent]. }
  apply only_bind; [|intros _; apply IH]. destruct (again_ args (count + 1)); [|by apply only_silent].
  apply only_bind; [apply only_lift|intros secs; apply only_syscall].
Qed.

Lemma only_ioctl fd r data : only (uses fd) (ioctl fd r data : M Wk unit).
Proof using Type. apply only_bind; [by apply only_record|intros _; apply only_syscall]. Qed.

(** The operations on the device are none, or opening it, uses, and closing it at the end. *)
Definition closed_story (l : list op) : Prop :=
  l = [] \/ exists fd mid, l = Opened fd :: mid ++ [Closed fd] /\ Forall (uses fd) mid.

(** The part of [main] before the device, and what it does with the device. *)
Definition on_device (args : spi_args) (fuel : nat) (tx : list Z) : M Wk Z :=
  fd <- spi_init (device args) (mode args) (speed args) (bits args) ;;
  try_finally (transfer_loop tx_addr rx_addr fuel args fd tx 0) (spi_close fd) ;;;
  ret 0.

Context (Hfd : forall k p fd k', k_open k p = (Ok fd, k') -> 0 <= fd).

Lemma os_close_ops fd (w : Wk) : ops (snd (os_close fd w)) = ops w ++ [Closed fd].
Proof using Type. unfold os_close, bind, record, modify, syscall. by destruct (k_close _ _). Qed.

Lemma on_device_story args fuel tx (w : Wk) :
  exists l, ops (snd (on_device args fuel tx w)) = ops w ++ l /\ closed_story l.
Proof using Hfd.
  unfold on_device, spi_init. unfold bind at 1 2, os_open. unfold bind at 1, syscall.
  destruct (k_open (kernel w) (device args)) as [[fd|e] k] eqn:Ho; cbn [fst snd].
  2: { exists []. rewrite app_nil_r. split; [done|by left]. }
  apply Hfd in Ho. unfold bind at 1, record, modify, ret at 1. cbn [kernel ops lines].
  set (w1 := SpiW k (ops w ++ [Opened fd]) (lines w)).
  unfold try_except at 1. set (settings := bind (set_u8 fd _ _) _).
  assert (Hs : only (uses fd) settings /\ forall v a v', settings v = (Ok a, v') -> a = fd).
  { split.
    - unfold settings. do 3 (apply only_bind; [apply only_ioctl|intros _]). by apply only_silent.
    - intros v a v' Hv. unfold settings in Hv. do 3 inv_bind Hv. by injection Hv. }
  destruct Hs as [Hs Hret]. destruct (Hs w1) as (l1 & Ho1 & Hl1).
  destruct (settings w1) as [[a|e] w2] eqn:Hset; cbn [fst snd] in Ho1.
  - apply Hret in Hset as ->. unfold bind at 1, try_finally.
    destruct (only_loop fuel args fd tx 0 w2) as (l2 & Ho2 & Hl2).
    destruct (transfer_loop tx_addr rx_addr fuel args fd tx 0 w2) as [r w3]. cbn [snd] in Ho2.
    unfold spi_close. rewrite (proj2 (Z.leb_le _ _) Ho).
    pose proof (os_close_ops fd w3) as Hc. destruct (os_close fd w3) as [r4 w4]. cbn [snd] in Hc.
    exists (Opened fd :: (l1 ++ l2) ++ [Closed fd]). split.
    + assert (Hw4 : ops w4 = ops w ++ Opened fd :: (l1 ++ l2) ++ [Closed fd]).
      { rewrite Hc, Ho2, Ho1. unfold w1. cbn [ops]. by rewrite <- !app_assoc. }
      by destruct r4, r.
    + right. exists fd, (l1 ++ l2). split; [done|by apply Forall_app].
  - unfold bind at 1. pose proof (os_close_ops fd w2) as Hc.
    destruct (os_close fd w2) as [r4 w4]. cbn [snd] in Hc.
    exists (Opened fd :: l1 ++ [Closed fd]). split.
    + assert (Hw4 : ops w4 = ops w ++ Opened fd :: l1 ++ [Closed fd]).
      { rewrite Hc, Ho1. unfold w1. cbn [ops]. by rewrite <- !app_assoc. }
      by destruct r4.
    + right. by exists fd, l1.
Qed.

Lemma only_describe P dev : only P (describe_spidev exists_ realpath dev : M Wk unit).
Proof using Type.
  unfold describe_spidev. cbv zeta. destruct (strip_prefix _ _) as [name|]; [|apply only_print].
  destruct (exists_ _); [|apply only_print].
  apply only_bind; [apply only_print|intros _]. apply only_bind; [|intros _].
  - apply only_try; [apply only_bind; [apply only_lift|intros p; apply only_print]|].
    intros e. destruct (exn_class e); first [apply only_print|by apply only_silent].
  - apply only_bind; [apply only_lift|intros p; apply only_print].
Qed.

Lemma no_ops l : Forall (fun _ : op => False) l -> l = [].
Proof using Type. by destruct 1. Qed.

(** A part that does not touch the device first. *)
Lemma story_after {A : Type} (m : M Wk A) (k : A -> M Wk Z) w :
  only (fun _ => False) m ->
  (forall a w, exists l, ops (snd (k a w)) = ops w ++ l /\ closed_story l) ->
  exists l, ops (snd (bind m k w)) = ops w ++ l /\ closed_story l.
Proof using Type.
  intros Hm Hk. destruct (Hm w) as (l0 & Ho & ->%no_ops). rewrite app_nil_r in Ho.
  unfold bind. destruct (m w) as [[a|e] w1]; cbn [snd] in *.
  - rewrite <- Ho. apply Hk.
  - exists []. rewrite app_nil_r. split; [done|by left].
Qed.

(** The device test leaves no descriptor open: on every path, with any failure of the kernel
    and any interruption of the loop, either the node could not be opened and nothing was done,
    or it was opened once, used only by the descriptor it got, and closed once at the end. *)
Theorem spi_closes fuel args w :
  exists l, ops (snd (main exists_ realpath tx_addr rx_addr fuel args w)) = ops w ++ l /\
    closed_story l.
Proof using Hfd.
  unfold main. apply story_after; [apply only_lift|intros tx w1].
  apply story_after; [apply only_print|intros _ w2].
  apply story_after; [|intros _ w3].
  { destruct (exists_ (device args)); [apply only_describe|apply only_print]. }
  apply story_after; [apply only_print|intros _ w4]. apply on_device_story.
Qed.

End closing.

(** ** The transfers *)

(** A kernel on which every call succeeds, apart from a sleep of a negative time. *)
Class Working (K : Type) `{SpiKernel K} (fd : Z) : Prop := {
  wk_open k p : exists k', k_open k p = (Ok fd, k');
  wk_ioctl k f r d : exists k', k_ioctl k f r d = (Ok tt, k');
  wk_message k f r p tx : exists rx k', k_message k f r p tx = (Ok rx, k');
  wk_close k f : exists k', k_close k f = (Ok tt, k');
  wk_sleep k s : f_leb (f_of_Z 0) s = true -> exists k', k_sleep k s = (Ok tt, k') }.

(** The time between two transfers is not negative. *)
Definition delay_ok (args : spi_args) : Prop :=
  exists secs, f_div (delay_ms args) (f_of_Z 1000) = Ok secs /\ f_leb (f_of_Z 0) secs = true.

Section transfers.
Context {K : Type} `{SpiKernel K} (fd : Z) `{!Working K fd}.
Abbreviation Wk := (spi_world K).
Context (exists_ : string -> bool) (realpath : string -> result string) (tx_addr rx_addr : Z).
Context (Hreal : forall p, exists q, realpath p = Ok q) (Hfd : 0 <= fd).

(** [m] returns and does the operations [l]. *)
Definition performs {A : Type} (l : list op) (V : A -> Prop) (m : M Wk A) : Prop :=
  forall w, exists a w', m w = (Ok a, w') /\ V a /\ ops w' = ops w ++ l.

Lemma performs_bind {A C : Type} l1 l2 (V : A -> Prop) (V' : C -> Prop) (m : M Wk A) (k : A -> M Wk C) :
  performs l1 V m -> (forall a, V a -> performs l2 V' (k a)) -> performs (l1 ++ l2) V' (bind m k).
Proof using Type.
  intros Hm Hk w. destruct (Hm w) as (a & w1 & Hr & Ha & Ho). destruct (Hk a Ha w1) as (c & w2 & Hr2 & Hc & Ho2).
  exists c, w2. rewrite (bind_run _ _ _ _ _ Hr). split_and!; [done|done|]. by rewrite Ho2, Ho, app_assoc.
Qed.

Lemma performs_ret {A : Type} (V : A -> Prop) a : V a -> performs [] V (ret a : M Wk A).
Proof using Type. intros Ha w. exists a, w. by rewrite app_nil_r. Qed.

Lemma performs_print s : performs [] (fun _ => True) (print_line s : M Wk unit).
Proof using Type. intros w. eexists _, _. cbn. by rewrite app_nil_r. Qed.

Lemma performs_lift {A : Type} (V : A -> Prop) (r : result A) a :
  r = Ok a -> V a -> performs [] V (lift r : M Wk A).
Proof using Type. intros -> Ha. by apply performs_ret. Qed.

Lemma performs_call {A : Type} (V : A -> Prop) o (f : K -> result A * K) :
  (forall k, exists a k', f k = (Ok a, k') /\ V a) ->
  performs [o] V (record o ;;; syscall f : M Wk A).
Proof using Type.
  intros Hf w. unfold bind, record, modify, syscall. cbn [kernel ops lines].
  destruct (Hf (kernel w)) as (a & k' & -> & Ha). by eexists _, _.
Qed.

Lemma performs_ioctl r d : performs [Ioctl fd r d] (fun _ => True) (ioctl fd r d : M Wk unit).
Proof using Working0. apply performs_call. intros k. destruct (wk_ioctl k fd r d) as [k' Hk]. eauto. Qed.

Lemma performs_init dev md sp b :
  performs [Opened fd; Ioctl fd SPI_IOC_WR_MODE [Z.land md 255];
            Ioctl fd SPI_IOC_WR_BITS_PER_WORD [Z.land b 255];
            Ioctl fd SPI_IOC_WR_MAX_SPEED_HZ (le_bytes 4 (Z.land sp 0xFFFFFFFF))]
    (fun f => f = fd) (spi_init dev md sp b : M Wk Z).
Proof using Working0.
  unfold spi_init. apply (performs_bind [_] _ (fun f => f = fd)).
  - intros w. unfold os_open, bind, syscall, record, modify, ret.
    destruct (wk_open (kernel w) dev) as [k' ->]. by eexists _, _.
  - intros f ->. set (settings := bind (set_u8 fd _ md) _).
    assert (Hs : performs [Ioctl fd SPI_IOC_WR_MODE [Z.land md 255];
            Ioctl fd SPI_IOC_WR_BITS_PER_WORD [Z.land b 255];
            Ioctl fd SPI_IOC_WR_MAX_SPEED_HZ (le_bytes 4 (Z.land sp 0xFFFFFFFF))]
        (fun f => f = fd) settings).
    { assert (H255 : forall z, le_bytes 1 (Z.land z 0xFF) = [Z.land z 255]).
      { intros z. cbn. f_equal. change 255 with (Z.ones 8). rewrite !Z.land_ones by lia.
        apply Z.mod_mod. lia. }
      unfold settings, set_u8, set_u32_. rewrite !H255.
      apply (performs_bind [_] [_; _] (fun _ => True)); [apply performs_ioctl|intros _ _].
      apply (performs_bind [_] [_] (fun _ => True)); [apply performs_ioctl|intros _ _].
      apply (performs_bind [_] [] (fun _ => True)); [apply performs_ioctl|intros _ _].
      by apply performs_ret. }
    intros w. destruct (Hs w) as (a & w' & Hr & Ha & Ho). exists a, w'. unfold try_except.
    by rewrite Hr.
Qed.

(** What is sent fits the packed structure. *)
Record packable (tx : list Z) (sp b : Z) : Prop := {
  pk_tx : Forall (fun x => 0 <= x < 256) tx; pk_len : Z.of_nat (length tx) < 2 ^ 32;
  pk_speed : 0 <= sp < 2 ^ 32; pk_bits : 0 <= b < 256;
  pk_addr : 0 <= tx_addr < 2 ^ 64 /\ 0 <= rx_addr < 2 ^ 64 }.

Lemma pack_field_ok n v : 0 <= v < 2 ^ (8 * Z.of_nat n) -> pack_field n v = Ok (le_bytes n v).
Proof using Type.
  intros Hv. unfold pack_field. by rewrite (proj2 (Z.leb_le _ _)), (proj2 (Z.ltb_lt _ _)) by lia.
Qed.

Lemma pack_transfer_ok tx sp b :
  packable tx sp b -> exists l, pack_transfer tx_addr rx_addr (Z.of_nat (length tx)) sp b = Ok l.
Proof using Type.
  intros [_ Hl Hs Hb [Ha Hr]]. unfold pack_transfer. cbn [rmap fst snd].
  rewrite !pack_field_ok; [by eexists|..];
    match goal with |- _ <= _ < 2 ^ ?e => let e' := eval vm_compute in e in change e with e' end; lia.
Qed.

Lemma performs_transfer tx sp b :
  packable tx sp b ->
  performs [Message fd tx sp b] (fun _ => True) (transfer tx_addr rx_addr fd tx sp b : M Wk _).
Proof using Working0.
  intros Hp. unfold transfer.
  apply (performs_bind [] [_] (fun buf => buf = tx)).
  { apply (performs_lift _ _ tx); [|done]. unfold byte_array. apply rmap_ok, Forall_Forall2_diag.
    eapply Forall_impl; [apply (pk_tx _ _ _ Hp)|]. intros x Hx. cbv beta in Hx |- *.
    by rewrite (proj2 (Z.leb_le _ _)), (proj2 (Z.ltb_lt _ _)) by lia. }
  intros buf ->. destruct (pack_transfer_ok tx sp b Hp) as [l Hl].
  apply (performs_bind [] [_] (fun _ => True)); [by apply (performs_lift _ _ l)|intros p _].
  apply performs_call. intros k. destruct (wk_message k fd (spi_ioc_message 1) p tx) as (rx & k' & Hk).
  eauto.
Qed.

(** [m] ends with [r] after the operations [l]. *)
Definition ends {A : Type} (r : result A) (l : list op) (m : M Wk A) : Prop :=
  forall w, exists w', m w = (r, w') /\ ops w' = ops w ++ l.

Lemma ends_after {A C : Type} l1 l2 (V : A -> Prop) (r : result C) (m : M Wk A) (k : A -> M Wk C) :
  performs l1 V m -> (forall a, V a -> ends r l2 (k a)) -> ends r (l1 ++ l2) (bind m k).
Proof using Type.
  intros Hm Hk w. destruct (Hm w) as (a & w1 & Hr & Ha & Ho). destruct (Hk a Ha w1) as (w2 & Hr2 & Ho2).
  exists w2. rewrite (bind_run _ _ _ _ _ Hr). split; [done|]. by rewrite Ho2, Ho, app_assoc.
Qed.

(** The transfers made from [count] on when at most [fuel] turns are let run, and the result. *)
Definition turns (args : spi_args) (fuel : nat) (count : Z) : nat :=
  if loop args =? 0 then fuel else Nat.min fuel (Z.to_nat (loop args - count)).
Definition loop_result {A : Type} (args : spi_args) (fuel : nat) (count : Z) (a : A) : result A :=
  if again_ args (count + Z.of_nat fuel) then Raise (Exn OtherError "interrupted") else Ok a.

(** There is a sleep between two transfers only. *)
Definition sleeps_ok (args : spi_args) : Prop := loop args = 0 \/ 1 < loop args -> delay_ok args.

Lemma again_stays args count m : 0 <= m -> again_ args count = false -> again_ args (count + m) = false.
Proof using Type.
  unfold again_. intros Hm. rewrite !orb_false_iff, !Z.ltb_ge. intros [Hz Hle]. split; [done|lia].
Qed.

Lemma turns_again args fuel count :
  again_ args count = true -> turns args (S fuel) count = S (turns args fuel (count + 1)).
Proof using Type.
  unfold again_, turns. destruct (Z.eqb_spec (loop args) 0) as [_|_]; [done|].
  intros ?%Z.ltb_lt. lia.
Qed.

Lemma turns_done args fuel count : again_ args count = false -> turns args fuel count = O.
Proof using Type.
  unfold again_, turns. destruct (Z.eqb_spec (loop args) 0) as [_|_]; [done|].
  intros ?%Z.ltb_ge. lia.
Qed.

Lemma performs_turn_end args count :
  sleeps_ok args -> 0 < count ->
  performs [] (fun _ => True)
    (when (again_ args count) (secs <- lift (f_div (delay_ms args) (f_of_Z 1000)) ;;
       syscall (fun k => k_sleep k secs)) : M Wk unit).
Proof using Working0.
  intros Hd Hc. destruct (again_ args count) eqn:Ha; [|by apply performs_ret]. cbn [when].
  unfold again_ in Ha. apply orb_true_iff in Ha. rewrite Z.eqb_eq, Z.ltb_lt in Ha.
  destruct Hd as (x & Hx & Hle); [lia|]. intros w. unfold bind at 1, lift. rewrite Hx.
  unfold syscall. destruct (wk_sleep (kernel w) x Hle) as [k' ->].
  eexists _, _. split_and!; [reflexivity|done|]. cbn. by rewrite app_nil_r.
Qed.

Lemma ends_loop args tx fuel count :
  sleeps_ok args -> packable tx (speed args) (bits args) -> 0 <= count ->
  ends (loop_result args fuel count tt)
    (replicate (turns args fuel count) (Message fd tx (speed args) (bits args)))
    (transfer_loop tx_addr rx_addr fuel args fd tx count : M Wk unit).
Proof using Working0.
  intros Hd Hp. revert count. induction fuel as [|fuel IH]; intros count Hc;
    cbn [transfer_loop]; destruct (again_ args count) eqn:Ha.
  - unfold loop_result, turns. rewrite Z.add_0_r, Ha.
    intros w. exists w. rewrite Nat.min_0_l. by destruct (_ =? _); rewrite app_nil_r.
  - unfold loop_result. rewrite Z.add_0_r, Ha, turns_done by done.
    intros w. exists w. by rewrite app_nil_r.
  - rewrite turns_again by done. cbn [replicate].
    apply (ends_after [_] _ (fun _ => True)); [by apply performs_transfer|intros rx _].
    apply (ends_after [] _ (fun _ => True)); [|intros _ _].
    { unfold report_line. destruct (quiet args); [|apply performs_print].
      destruct (_ && _); [apply performs_print|by apply performs_ret]. }
    apply (ends_after [] _ (fun _ => True)); [apply performs_turn_end; [done|lia]|intros _ _].
    replace (loop_result args (S fuel) count tt) with (loop_result args fuel (count + 1) tt)
      by (unfold loop_result; by replace (count + 1 + Z.of_nat fuel) with (count + Z.of_nat (S fuel)) by lia).
    apply IH. lia.
  - unfold loop_result. rewrite (again_stays _ _ (Z.of_nat (S fuel)) ltac:(lia) Ha), turns_done by done.
    intros w. exists w. by rewrite app_nil_r.
Qed.

Lemma performs_describe dev :
  performs [] (fun _ => True) (describe_spidev exists_ realpath dev : M Wk unit).
Proof using Hreal.
  unfold describe_spidev. cbv zeta. destruct (strip_prefix _ _) as [name|]; [|apply performs_print].
  destruct (exists_ _); [|apply performs_print].
  apply (performs_bind [] [] (fun _ => True)); [apply performs_print|intros _ _].
  apply (performs_bind [] [] (fun _ => True)); [|intros _ _].
  - destruct (Hreal (path_join (path_join "/sys/bus/spi/devices" ("spi" +:+ name)) "driver")) as [q ->].
    intros w. eexists _, _. split_and!; [reflexivity|done|]. cbn. by rewrite app_nil_r.
  - destruct (Hreal (path_join "/sys/bus/spi/devices" ("spi" +:+ name))) as [q ->].
    apply (performs_bind [] [] (fun _ => True)); [by apply performs_ret|intros p _].
    apply performs_print.
Qed.

(** C40. On a kernel that works, for bytes, a speed of 32 bits, a word size of 8 bits and, where
    there is more than one transfer, a delay that is not negative: whatever number [fuel] of turns
    the run is given, it opens the node, makes its three settings, makes its transfers, each of
    the bytes asked for at the settings asked for, and closes the node. With --loop [n] for
    another [n] than 0 the transfers are max(0, n), and the run returns 0, as soon as [fuel] is
    enough for them; with --loop 0 the loop never ends of itself: there is a transfer for each
    turn, and what ends it is the interruption that comes when the turns are used up. *)
Theorem spi_transfers args tx fuel w :
  tx_bytes args = Ok tx -> packable tx (speed args) (bits args) -> sleeps_ok args ->
  let n := if loop args =? 0 then fuel else Nat.min fuel (Z.to_nat (loop args)) in
  exists w',
    main exists_ realpath tx_addr rx_addr fuel args w =
      (if (loop args =? 0) || (Z.of_nat fuel <? loop args)
       then Raise (Exn OtherError "interrupted") else Ok 0, w') /\
    ops w' = ops w ++
      [Opened fd; Ioctl fd SPI_IOC_WR_MODE [Z.land (mode args) 255];
       Ioctl fd SPI_IOC_WR_BITS_PER_WORD [Z.land (bits args) 255];
       Ioctl fd SPI_IOC_WR_MAX_SPEED_HZ (le_bytes 4 (Z.land (speed args) 0xFFFFFFFF))]
      ++ replicate n (Message fd tx (speed args) (bits args)) ++ [Closed fd].
Proof using All.
  intros Htx Hp Hd n. revert w. fold (again_ args (Z.of_nat fuel)).
  match goal with |- forall w, exists w', main _ _ _ _ _ _ w = (?r, w') /\ ops w' = ops w ++ ?l =>
    change (ends r l (main exists_ realpath tx_addr rx_addr fuel args)) end.
  unfold main. apply (ends_after [] _ (fun t => t = tx)); [by apply (performs_lift _ _ tx)|].
  intros t ->. apply (ends_after [] _ (fun _ => True)); [apply performs_print|intros _ _].
  apply (ends_after [] _ (fun _ => True)); [|intros _ _].
  { destruct (exists_ (device args)); [apply performs_describe|apply performs_print]. }
  apply (ends_after [] _ (fun _ => True)); [apply performs_print|intros _ _].
  apply (ends_after [_; _; _; _] _ (fun f => f = fd)); [apply performs_init|intros f ->].
  intros v. destruct (ends_loop args tx fuel 0 Hd Hp ltac:(lia) v) as (v1 & Hr & Ho).
  unfold bind at 1, try_finally. rewrite Hr. unfold spi_close. rewrite (proj2 (Z.leb_le _ _) Hfd).
  unfold os_close, bind, record, modify, syscall. cbn [kernel ops lines].
  destruct (wk_close (kernel v1) fd) as [k' ->]. unfold loop_result. rewrite Z.add_0_l.
  exists (SpiW k' (ops v1 ++ [Closed fd]) (lines v1)).
  split; [by destruct (again_ _ _)|]. cbn [ops]. rewrite Ho, <- app_assoc.
  unfold turns, n. by rewrite Z.sub_0_r.
Qed.

End transfers.

(** ** An example *)

(** A node that answers with what it is sent. *)
#[export] Instance loopback : SpiKernel unit := {
  k_open k _ := (Ok 3, k);
  k_ioctl k _ _ _ := (Ok tt, k);
  k_message k _ _ _ tx := (Ok tx, k);
  k_close k _ := (Ok tt, k);
  k_sleep k s := if f_leb (f_of_Z 0) s then (Ok tt, k)
                 else (Raise (Exn ValueError "sleep length must be non-negative"), k) }.

Lemma loopback_works : Working unit 3.
Proof.
  split; [by eauto ..|]. intros k s Hs. exists k. unfold k_sleep, loopback. by rewrite Hs.
Qed.

Definition spi_sample : spi_args :=
  SpiArgs "/dev/spidev4.0" 100000 0 8 [0xAA; 0x55; 0; 0xFF] 0 2 (f_of_Z 100) false 0 (Some 5) 32 true.

Example spi_sample_lines :
  lines (snd (main (fun _ => false) (fun p => Ok p) 4096 8192 2 spi_sample (SpiW tt [] []))) =
  ["device=/dev/spidev4.0 speed=100000Hz mode=0 bits=8"; "device_exists=False"; "tx=28 00 00 00";
   "rx=28 00 00 00 adc1283=2048/0x800 0000/0x000"; "rx=28 00 00 00 adc1283=2048/0x800 0000/0x000"].
Proof. vm_compute. reflexivity. Qed.

(** Two transfers end of themselves; for ever goes on until the fifth turn is cut off. *)
Definition spi_forever : spi_args :=
  SpiArgs "/dev/spidev4.0" 100000 0 8 [0xAA; 0x55] 0 0 (f_of_Z 0) true 0 None 32 false.

Lemma spi_transfers_witness :
  (exists w', main (fun _ => false) (fun p => Ok p) 4096 8192 9 spi_sample (SpiW tt [] []) = (Ok 0, w') /\
    ops w' = [] ++
      [Opened 3; Ioctl 3 SPI_IOC_WR_MODE [0]; Ioctl 3 SPI_IOC_WR_BITS_PER_WORD [8];
       Ioctl 3 SPI_IOC_WR_MAX_SPEED_HZ [160; 134; 1; 0]]
      ++ replicate 2 (Message 3 [40; 0; 0; 0] 100000 8) ++ [Closed 3]) /\
  (exists w', main (fun _ => false) (fun p => Ok p) 4096 8192 5 spi_forever (SpiW tt [] []) =
      (Raise (Exn OtherError "interrupted"), w') /\
    ops w' = [] ++
      [Opened 3; Ioctl 3 SPI_IOC_WR_MODE [0]; Ioctl 3 SPI_IOC_WR_BITS_PER_WORD [8];
       Ioctl 3 SPI_IOC_WR_MAX_SPEED_HZ [160; 134; 1; 0]]
      ++ replicate 5 (Message 3 [0xAA; 0x55] 100000 8) ++ [Closed 3]).
Proof.
  split.
  - apply (spi_transfers 3 (Working0 := loopback_works) (fun _ => false) (fun p => Ok p) 4096 8192
             (fun p => ex_intro _ p eq_refl) ltac:(lia) spi_sample [40; 0; 0; 0] 9 (SpiW tt [] [])).
    + reflexivity.
    + split; [repeat constructor; lia|cbn; lia|cbn; lia|cbn; lia|lia].
    + intros _. eexists. split; vm_compute; reflexivity.
  - apply (spi_transfers 3 (Working0 := loopback_works) (fun _ => false) (fun p => Ok p) 4096 8192
             (fun p => ex_intro _ p eq_refl) ltac:(lia) spi_forever [0xAA; 0x55] 5 (SpiW tt [] [])).
    + reflexivity.
    + split; [repeat constructor; lia|cbn; lia|cbn; lia|cbn; lia|lia].
    + intros _. eexists. split; vm_compute; reflexivity.
Defined.

Lemma spi_closes_witness :
  exists l, ops (snd (main (fun _ => false) (fun p => Ok p) 4096 8192 1 spi_sample (SpiW tt [] [])))
            = [] ++ l /\ closed_story l.
Proof.
  apply (spi_closes (fun _ => false) (fun p => Ok p) 4096 8192).
  intros k p fd k' Ho. injection Ho as <- _. lia.
Defined.

Lemma ioc_fields_witness :
  SPI_IOC_WR_MODE = 0x40016B01 /\ 0 <= ioc 1 107 1 1 < 2 ^ 32 /\
  Z.land (Z.shiftr (ioc 1 107 1 1) IOC_SIZESHIFT) (Z.ones IOC_SIZEBITS) = 1.
Proof.
  split; [reflexivity|]. split.
  - apply (ioc_fields 1 107 1 1); lia.
  - apply (ioc_fields 1 107 1 1); lia.
Defined.

Lemma hex_bytes_roundtrip_witness :
  parse_hex_bytes (format_bytes [0xAA; 0x55; 0; 0xFF]) = Ok [0xAA; 0x55; 0; 0xFF].
Proof. apply hex_bytes_roundtrip; [done|repeat constructor; lia]. Defined.

(** Prefixes are dropped; without separators the bytes run together. *)
Example hex_prefixes :
  parse_hex_bytes "0xAA,0x55 1" = Ok [0xAA; 0x55; 1] /\
  parse_hex_bytes "0xAA0x55" = Raise (Exn ArgumentTypeError "byte out of range: AA55").
Proof. vm_compute. by split. Qed.
