(* ===== verification/SeedConfigure.v ===== *)
(** Configuring boards from a document: [client/configure_fe_from_output.py], which takes a seed
    document, and [client/configure_fe_from_detail.py], which has one generated from a detail
    document.

    The scripts talk to one server per board.  A fleet is the process, the servers by host, and
    what was sent to which host; each request opens a socket of its own.  The generator of seed
    documents ([pds.core.seed], another repository), the texts of the files and the check of an
    address by [connect] are parameters. *)
From S2P Require Import Prelude PyStr PyFloat PyVal JsonText EnvelopeV2 Requests FeConfig PdsSeed.
From S2P Require Import FeMain SmokeMessages.

(** ** The command line *)

Record seed_args : Type := SeedArgs {
  se_path : string; se_config_name : string; se_board_id : option string;
  se_host : option string; se_port : Z; se_route : string; se_timeout : Z;
  se_prefer_cli_common : bool; se_json : bool; se_vgain : Z; se_ch_offset : Z;
  se_lpf_cutoff : Z; se_pga_gain_control : string; se_lna_gain_control : string;
  se_lna_input_clamp : string }.

(** An optional argument that is given and not empty. *)
Definition given_text (o : option string) : option string :=
  match o with Some s => if decide (s = "") then None else Some s | None => None end.

(** ** Documents *)

Definition load_seed_from_output (path : string) (text : option string) : result pyval :=
  match text with
  | None => Raise (Exn (OSError 2) ("No such file or directory: '" +:+ path +:+ "'"))
  | Some s => json_loads s
  end.

(** [generate] is [generate_configuration], or the directory [pds.core.seed] was not found in. *)
Definition load_seed_from_detail (generate : string + (pyval -> string -> result pyval))
    (path : string) (text : option string) (config_name : string) : result pyval :=
  match generate with
  | inl pds_src => Raise (Exn RuntimeError ("Unable to import pds.core.seed from " +:+ pds_src
                     +:+ ". Make sure the pds repo is present."))
  | inr generate_configuration =>
      detail_data <-! load_seed_from_output path text ;;
      generate_configuration detail_data config_name
  end.

(** [seed_cfgs.items()] *)
Definition dict_items (v : pyval) : result (list (string * pyval)) :=
  match v with
  | PyDict d => Ok d
  | _ => Raise (Exn OtherError "object has no attribute 'items'")
  end.

(** A document with the keys of a detail. *)
Definition looks_like_detail (v : pyval) : bool :=
  match v with
  | PyDict d => forallb (fun k => bool_decide (is_Some (lookup_key d k)))
                  ["metadata"; "common_conf"; "devices"]
  | _ => false
  end.

(** ** The request of a board *)

(** [args.board_id and str(args.board_id) != str(board_id)] is the case of [continue]. *)
Definition selected (args : seed_args) (board_id : string) : bool :=
  match given_text (se_board_id args) with
  | Some b => bool_decide (b = board_id)
  | None => true
  end.

Definition target_ip (args : seed_args) (seed_cfg : pyval) : result pyval :=
  match given_text (se_host args) with
  | Some h => Ok (PyStr h)
  | None => dict_get seed_cfg "ip" (PyStr "127.0.0.1")
  end.

(** [cfg.daphne_address = ...] and [cfg.timeout_ms = ...] *)
Definition with_target (cfg : ConfigureRequest) (address : string) (timeout : Z)
    : ConfigureRequest :=
  ConfReq address (slot cfg) timeout (biasctrl cfg) (self_trigger_threshold cfg)
    (self_trigger_xcorr cfg) (tp_conf cfg) (compensator cfg) (inverters cfg) (channels cfg)
    (afes cfg) (full_stream_channels cfg).

(** The host of a board and its request. *)
Definition board_request (args : seed_args) (seed_cfg : pyval) : result (string * ConfigureRequest) :=
  target <-! target_ip args seed_cfg ;;
  slot_id <-! dict_get seed_cfg "slot_id" (PyInt 0) ;;
  lpf <-! assoc lpf_dict (se_lpf_cutoff args) (str_Z (se_lpf_cutoff args)) ;;
  pga <-! assoc pga_gain_control_dict (se_pga_gain_control args) (se_pga_gain_control args) ;;
  lna <-! assoc lna_gain_control_dict (se_lna_gain_control args) (se_lna_gain_control args) ;;
  cl <-! assoc lna_input_clamp_dict (se_lna_input_clamp args) (se_lna_input_clamp args) ;;
  host <-! assign_string target ;;
  sl <-! assign_u32 slot_id ;;
  defaults <-! build_defaults_from_args host sl (se_ch_offset args) (se_vgain args) lpf pga lna cl ;;
  cfg <-! build_request_from_seed seed_cfg defaults (negb (se_prefer_cli_common args)) ;;
  ip <-! dict_get seed_cfg "ip" target ;;
  address <-! assign_string ip ;;
  timeout <-! set_u32 (se_timeout args) ;;
  Ok (host, with_target cfg address timeout).

(** ** The fleet *)

Record fleet (S B : Type) : Type := Fleet {
  process : zworld S B; servers : string -> S; posted : list (string * B) }.
Arguments Fleet {S B}.
Arguments process {S B}.
Arguments servers {S B}.
Arguments posted {S B}.

Section script.
Context {S B : Type} `{Peer S B, Size B, !Proto B (ControlEnvelopeV2 B)}.
Context `{!Proto B ConfigureRequest, !Proto B ConfigureResponse}.
Abbreviation Wd := (zworld S B).
Abbreviation Fl := (fleet S B).
Context (generate : string + (pyval -> string -> result pyval)) (files : string -> option string)
  (connect : string -> result unit) (pid rand : Z) (args : seed_args).

(** A new socket, connected to [host]. *)
Definition fresh_socket (s : S) (w : Wd) : Wd :=
  ZW s [] [] [] (clock w) (ticks w) (random w) (draws w) (seqno w) (console w).

(** [m] on a socket of its own. *)
Definition on_host {A : Type} (host : string) (m : M Wd A) : M Fl A := fun w =>
  match connect host with
  | Raise e => (Raise e, w)
  | Ok _ =>
      let '(r, z) := m (fresh_socket (servers w host) (process w)) in
      (r, Fleet z (fun h => if decide (h = host) then srv z else servers w h)
            (posted w ++ (pair host <$> sent z)))
  end.

(** [print] *)
Definition output (l : line B) : M Fl unit := fun w =>
  let '(r, z) := show l (process w) in (r, Fleet z (servers w) (posted w)).

(** One board that is selected. *)
Definition configure_board (seed_cfg : pyval) : M Fl pyval :=
  '(host, cfg) <- lift (board_request args seed_cfg) ;;
  on_host host (send_configure_request pid rand cfg host (se_port args) (se_route args)).

(** One turn of the loop over the boards. *)
Definition board_turn (summaries : list (string * pyval)) (item : string * pyval)
    : M Fl (list (string * pyval)) :=
  if selected args (fst item) then
    summary <- configure_board (snd item) ;;
    ret (summaries ++ [(fst item, summary)])
  else ret summaries.

(** The loop and the summary. *)
Definition configure_boards (seed_cfgs : pyval) : M Fl (list (string * pyval)) :=
  boards <- lift (dict_items seed_cfgs) ;;
  summaries <- fold_m boards board_turn [] ;;
  when (se_json args && negb (bool_decide (summaries = []))) (output (Document (PyDict summaries))) ;;;
  ret summaries.

(** [configure_fe_from_detail.main] *)
Definition detail_main : M Fl Z :=
  seed_cfgs <- lift (load_seed_from_detail generate (se_path args) (files (se_path args))
                       (se_config_name args)) ;;
  configure_boards seed_cfgs ;;;
  ret 0.

(** [configure_fe_from_output.main] *)
Definition output_main : M Fl Z :=
  seed_cfgs <- lift (load_seed_from_output (se_path args) (files (se_path args))) ;;
  (if looks_like_detail seed_cfgs
   then raise (Exn SystemExit
     "This looks like a PDS *detail* JSON (has metadata/common_conf/devices).
Use: python3 client/configure_fe_from_detail.py <detail.json> [--config-name ...]")
   else ret tt) ;;;
  summaries <- configure_boards seed_cfgs ;;
  match given_text (se_board_id args), summaries with
  | Some b, [] =>
      output (Text ("ERROR: no boards matched --board-id " +:+ b +:+ " in " +:+ se_path args)) ;;;
      ret 2
  | _, _ => ret 0
  end.

End script.

(** ** What is sent to which host *)

(** The boards of a document that are asked for: those named by [--board-id], or all. *)
Definition chosen (args : seed_args) (boards : list (string * pyval)) : list (string * pyval) :=
  match given_text (se_board_id args) with
  | Some b => filter (fun kv => fst kv = b) boards
  | None => boards
  end.

Lemma chosen_cons args kv boards :
  chosen args (kv :: boards) =
  if selected args (fst kv) then kv :: chosen args boards else chosen args boards.
Proof.
  unfold chosen, selected. destruct (given_text (se_board_id args)) as [b|]; [|done].
  rewrite filter_cons. case_bool_decide as Hb.
  - by rewrite decide_True.
  - by rewrite decide_False by (intros He; by apply Hb).
Qed.

(** Their requests in order, up to a board whose request cannot be built. *)
Fixpoint planned (args : seed_args) (boards : list (string * pyval))
    : list (string * ConfigureRequest) :=
  match boards with
  | [] => []
  | (_, seed_cfg) :: rest =>
      match board_request args seed_cfg with
      | Ok hc => hc :: planned args rest
      | Raise _ => []
      end
  end.

Lemma board_request_typed args seed_cfg host cfg :
  board_request args seed_cfg = Ok (host, cfg) -> well_typed cfg.
Proof.
  unfold board_request. intros H. run_fields H. injection H as <- <-.
  assert (Hd : well_typed x7) by (by eapply default_config_typed).
  apply (seed_request_typed _ _ _ _ Hd) in Hx8 as (H1 & _ & H3).
  split; [done|]. split; [eauto with typed|exact H3].
Qed.

Lemma planned_typed args boards : Forall (fun hc => well_typed (snd hc)) (planned args boards).
Proof.
  induction boards as [|[id seed] rest IH]; [done|]. cbn [planned].
  destruct (board_request args seed) as [[h c]|] eqn:Hb; [|done].
  constructor; [|done]. by eapply board_request_typed.
Qed.

(** Where the request of a board goes, what it names as its target, and its slot: the host of
    [--host] when given, else the address of the seed, else the local one. *)
Definition seed_address (d : list (string * pyval)) (dflt : string) : string :=
  match lookup_key d "ip" with Some (PyStr s) => s | _ => dflt end.

Definition sent_right (args : seed_args) (kv : string * pyval) (hc : string * ConfigureRequest) : Prop :=
  exists d, snd kv = PyDict d /\
    fst hc = match se_host args with
             | Some h => if decide (h = "") then seed_address d "127.0.0.1" else h
             | None => seed_address d "127.0.0.1"
             end /\
    daphne_address (snd hc) = seed_address d (fst hc) /\ timeout_ms (snd hc) = se_timeout args /\
    py_index (default (PyInt 0) (lookup_key d "slot_id")) = Ok (slot (snd hc)).

Lemma address_ok d dflt host :
  assign_string (default (PyStr dflt) (lookup_key d "ip")) = Ok host -> host = seed_address d dflt.
Proof.
  unfold seed_address. destruct (lookup_key d "ip") as [v|]; cbn; [|by intros [= <-]].
  by destruct v; intros [= <-].
Qed.

Lemma default_slot p cfg : make_default_config p = Ok cfg -> slot cfg = p_slot p.
Proof.
  intros H. unfold make_default_config in H. run_fields H. injection H as <-.
  by apply set_uint_ok in Hx as [-> _].
Qed.

Lemma board_request_right args id seed_cfg hc :
  board_request args seed_cfg = Ok hc -> sent_right args (id, seed_cfg) hc.
Proof.
  unfold board_request. intros H. run_fields H. injection H as <-.
  unfold target_ip, given_text in Hx. destruct seed_cfg as [| | | | | |d];
    try (destruct (se_host args) as [h|]; [destruct (decide (h = "")); done|done]);
    try (cbn in Hx0; done).
  exists d. cbn [snd fst]. split; [done|]. cbn [dict_get] in Hx0, Hx9. injection Hx0 as <-. injection Hx9 as <-.
  assert (Hhost : x5 = match se_host args with
    | Some h => if decide (h = "") then seed_address d "127.0.0.1" else h
    | None => seed_address d "127.0.0.1" end /\ x = PyStr x5).
  { assert (Hip : forall v, assign_string v = Ok x5 -> v = PyStr x5) by (by intros [] [= <-]).
    destruct (se_host args) as [h|]; [destruct (decide (h = ""))|]; cbn [dict_get] in Hx; injection Hx as <-;
      (split; [|by apply Hip]); first [by apply address_ok|by injection Hx5]. }
  destruct Hhost as [Hh ->]. split; [exact Hh|]. cbn [daphne_address timeout_ms slot with_target].
  split; [by apply address_ok|]. split; [by apply set_uint_ok in Hx11 as [-> _]|].
  apply default_slot in Hx7. cbn in Hx7.
  unfold build_request_from_seed in Hx8. cbn [dict_get rbind] in Hx8.
  apply rbind_ok in Hx6 as (z & Hz & [-> _]%set_uint_ok).
  apply rbind_ok in Hx8 as (sl & Hsl & Hx8). run_fields Hx8. injection Hx8 as <-. cbn [slot].
  revert Hz Hsl. destruct (lookup_key d "slot_id") as [v|]; cbn [default].
  - intros Hz (z' & Hz' & [-> _]%set_uint_ok)%rbind_ok. exact Hz'.
  - intros [= <-] (z' & [= <-] & [-> _]%set_uint_ok)%rbind_ok. by rewrite Hx7.
Qed.

Lemma planned_right args boards :
  Forall2 (sent_right args) (take (length (planned args boards)) boards) (planned args boards).
Proof.
  induction boards as [|[id seed] rest IH]; [constructor|]. cbn [planned].
  destruct (board_request args seed) as [hc|] eqn:Hb; [|constructor].
  cbn. constructor; [by apply board_request_right|done].
Qed.

Section sending.
Context {S B : Type} `{Peer S B, Size B, !Proto B (ControlEnvelopeV2 B)}.
Context `{!Proto B ConfigureRequest, !Proto B ConfigureResponse}.
Abbreviation Fl := (fleet S B).
Abbreviation envelope := (ControlEnvelopeV2 B).
Context (generate : string + (pyval -> string -> result pyval)) (files : string -> option string)
  (connect : string -> result unit) (pid rand : Z) (args : seed_args).

(** The request of a board as it is sent. *)
Definition configures (hc : string * ConfigureRequest) : string * (Z * B) :=
  (fst hc, (MT2_CONFIGURE_FE_REQ, ser (snd hc))).

Definition on_wire (he : string * envelope) : string * B := (fst he, ser (snd he)).
Definition shown (he : string * envelope) : string * (Z * B) := (fst he, tag (snd he)).

(** [m] posts [p]: all of it when it returns, some first ones when it raises. *)
Definition posts {A : Type} (V : A -> Prop) (p : list (string * (Z * B))) (m : M Fl A) : Prop :=
  forall w, exists envs : list (string * envelope),
    posted (snd (m w)) = posted w ++ (on_wire <$> envs) /\ shown <$> envs `prefix_of` p /\
    (forall a, fst (m w) = Ok a -> shown <$> envs = p /\ V a).

Lemma posts_still {A : Type} (V : A -> Prop) (m : M Fl A) :
  (forall w, posted (snd (m w)) = posted w /\ forall a, fst (m w) = Ok a -> V a) -> posts V [] m.
Proof using Type.
  intros Hm w. exists []. cbn. rewrite app_nil_r. split_and!; [apply Hm|done|].
  intros a Ha. split; [done|]. by apply (Hm w).
Qed.

Lemma posts_ret {A : Type} (V : A -> Prop) a : V a -> posts V [] (ret a : M Fl A).
Proof using Type. intros Ha. apply posts_still. intros w. split; [done|]. by intros b [= <-]. Qed.

Lemma posts_raise {A : Type} (V : A -> Prop) p e : posts V p (raise e : M Fl A).
Proof using Type.
  intros w. exists []. cbn. rewrite app_nil_r. split_and!; [done|apply prefix_nil|done].
Qed.

Lemma posts_bind {A C : Type} (V : A -> Prop) (V' : C -> Prop) p1 p2 (m : M Fl A) (k : A -> M Fl C) :
  posts V p1 m -> (forall a, V a -> posts V' p2 (k a)) -> posts V' (p1 ++ p2) (bind m k).
Proof using Type.
  intros Hm Hk w. destruct (Hm w) as (e1 & Hs1 & Hp1 & Hn1). unfold bind.
  destruct (m w) as [[a|e] w1]; cbn in *.
  - destruct (Hn1 a eq_refl) as [Ht Ha]. destruct (Hk a Ha w1) as (e2 & Hs2 & Hp2 & Hn2).
    exists (e1 ++ e2). rewrite !fmap_app, Ht. split_and!.
    + by rewrite Hs2, Hs1, app_assoc.
    + by apply prefix_app.
    + intros b Hb. destruct (Hn2 b Hb) as [-> ?]. auto.
  - exists e1. split_and!; [done|by apply prefix_app_r|done].
Qed.

Lemma posts_then {A C : Type} (V : A -> Prop) (V' : C -> Prop) p (m : M Fl A) (k : A -> M Fl C) :
  posts V p m -> (forall a, V a -> posts V' [] (k a)) -> posts V' p (bind m k).
Proof using Type. rewrite <- (app_nil_r p) at 2. apply posts_bind. Qed.

Lemma posts_lift {A C : Type} (V : C -> Prop) p (r : result A) (k : A -> M Fl C) :
  (forall a, r = Ok a -> posts V p (k a)) -> posts V p (bind (lift r) k).
Proof using Type. intros Hk. destruct r as [a|e]; [by apply (Hk a)|]. apply (posts_raise V p e). Qed.

Lemma posts_output l : posts (fun _ => True) [] (output l : M Fl unit).
Proof using Type. by apply posts_still. Qed.

Lemma requests_seed cfg host port route :
  requests (fun _ => True) [(MT2_CONFIGURE_FE_REQ, ser cfg)]
    (send_configure_request pid rand cfg host port route : M (zworld S B) pyval).
Proof using Type.
  apply requests_env; [apply id_next|]. intros env <-.
  apply requests_step; [done|intros t]. apply requests_step; [done|intros _].
  apply requests_sent. unsent_steps. by apply unsent_for_each.
Qed.

Lemma posts_on_host {A : Type} (V : A -> Prop) host p (m : M (zworld S B) A) :
  requests V p m -> posts V (pair host <$> p) (on_host connect host m : M Fl A).
Proof using Type.
  intros Hm w. unfold on_host. destruct (connect host) as [[]|e]; [|by apply posts_raise].
  destruct (Hm (fresh_socket (servers w host) (process w))) as (envs & Hs & Hp & Hn).
  destruct (m _) as [r z]. cbn in *. exists (pair host <$> envs).
  assert (Hshow : shown <$> (pair host <$> envs) = pair host <$> (tag <$> envs)).
  { rewrite <- !list_fmap_compose. done. }
  rewrite Hshow. split_and!.
  - rewrite Hs. cbn. f_equal. rewrite <- !list_fmap_compose. done.
  - destruct Hp as [q ->]. exists (pair host <$> q). apply fmap_app.
  - intros a Ha. destruct (Hn a Ha) as [-> ?]. done.
Qed.

Lemma posts_turns boards s0 :
  posts (fun s => fst <$> s = (fst <$> s0) ++ (fst <$> chosen args boards) /\
                  length (planned args (chosen args boards)) = length (chosen args boards))
    (configures <$> planned args (chosen args boards))
    (fold_m boards (board_turn connect pid rand args) s0 : M Fl _).
Proof using Type.
  revert s0. induction boards as [|[id seed] rest IH]; intros s0; cbn [fold_m].
  { unfold chosen. replace (match _ with Some _ => _ | None => _ end) with (@nil (string * pyval))
      by (by destruct (given_text _)). apply posts_ret. cbn. by rewrite app_nil_r. }
  rewrite chosen_cons. unfold board_turn at 1. cbn [fst snd].
  destruct (selected args id); cbn [planned].
  2: { apply (posts_bind (fun s => s = s0) _ []); [by apply posts_ret|]. intros s ->. apply IH. }
  unfold configure_board. destruct (board_request args seed) as [[host cfg]|e] eqn:Hb.
  - change (configures <$> (host, cfg) :: ?l) with ((pair host <$> [(MT2_CONFIGURE_FE_REQ, ser (B := B) cfg)])
      ++ (configures <$> l)).
    apply (posts_bind (fun s => fst <$> s = (fst <$> s0) ++ [id])).
    + apply (posts_then (fun _ => True)).
      * apply posts_lift. intros hc [= <-]. apply posts_on_host, requests_seed.
      * intros summary _. apply posts_ret. by rewrite fmap_app.
    + intros s Hs. intros w. destruct (IH s w) as (envs & Hp & Hpre & Hn). exists envs.
      split_and!; [done|done|]. intros a Ha. destruct (Hn a Ha) as (? & Hids & Hlen).
      split_and!; [done| |cbn; by rewrite Hlen].
      rewrite Hids, Hs, <- app_assoc. done.
  - intros w. exists []. cbn. rewrite app_nil_r. split_and!; [done|apply prefix_nil|done].
Qed.

Lemma posts_boards seed_cfgs boards :
  (forall d, dict_items seed_cfgs = Ok d -> d = boards) ->
  posts (fun s => fst <$> s = (fst <$> chosen args boards) /\
                  length (planned args (chosen args boards)) = length (chosen args boards))
    (configures <$> planned args (chosen args boards))
    (configure_boards connect pid rand args seed_cfgs : M Fl _).
Proof using Type.
  intros Hd. unfold configure_boards. apply posts_lift. intros d <-%Hd.
  eapply posts_then; [apply posts_turns|].
  intros s [Hs Hl]. cbn in Hs. apply (posts_bind (fun _ => True) _ []).
  - destruct (_ && _); [apply posts_output|by apply posts_ret].
  - intros _ _. by apply posts_ret.
Qed.

(** The boards of a document that is accepted. *)
Definition boards_of (refused : pyval -> bool) (doc : result pyval) : list (string * pyval) :=
  match doc with
  | Ok (PyDict d) => if refused (PyDict d) then [] else d
  | _ => []
  end.

(** C30. Whatever the servers answer, each script posts a first part of its plan, and all of it
    when it ends normally: for every board of the document that is selected, in the order of the
    document and to the host of that board, one request to configure, built from the seed of
    that board and within the widths of its fields; no other host hears from it.  The host is
    [--host] when it is given, else the address of the seed, else the local one; the request names
    the address of the seed, or that host, the time-out of the command line and the slot of the seed.
    [configure_fe_from_output] then ends with status 2 exactly when [--board-id] names no board
    of the document, and with 0 otherwise; [configure_fe_from_detail] ends with 0 also then. *)
Theorem seed_configures_selected :
  let outputs := chosen args (boards_of looks_like_detail
    (load_seed_from_output (se_path args) (files (se_path args)))) in
  let details := chosen args (boards_of (fun _ => false)
    (load_seed_from_detail generate (se_path args) (files (se_path args)) (se_config_name args))) in
  posts (fun st => length (planned args outputs) = length outputs /\
           st = if decide (is_Some (given_text (se_board_id args)) /\ outputs = []) then 2 else 0)
    (configures <$> planned args outputs) (output_main files connect pid rand args : M Fl Z) /\
  posts (fun st => length (planned args details) = length details /\ st = 0)
    (configures <$> planned args details)
    (detail_main generate files connect pid rand args : M Fl Z) /\
  (forall boards, boards ∈ [outputs; details] ->
     Forall2 (sent_right args) (take (length (planned args boards)) boards) (planned args boards) /\
     Forall (fun hc => well_typed (snd hc)) (planned args boards)).
Proof using Type.
  intros ob db. split; [|split; [|intros; split; [apply planned_right|apply planned_typed]]].
  - unfold output_main. apply posts_lift. intros v Hv. unfold ob. rewrite Hv.
    destruct (looks_like_detail v) eqn:Hl; [apply (posts_raise _ _ _)|].
    assert (Hb : forall d, dict_items v = Ok d -> d = boards_of looks_like_detail (Ok v)).
    { intros d Hd. destruct v; try done. injection Hd as ->. cbn [boards_of]. by rewrite Hl. }
    apply (posts_bind (fun _ => True) _ []); [by apply posts_ret|intros _ _].
    eapply posts_then; [by apply posts_boards|].
    intros s [Hs Hlen]. destruct (given_text (se_board_id args)) as [b|] eqn:Hg.
    2: { apply posts_ret. rewrite decide_False by (by intros [[? ?] ?]). done. }
    destruct s as [|x s].
    + apply (posts_bind (fun _ => True) _ []); [apply posts_output|intros _ _]. apply posts_ret.
      symmetry in Hs. apply fmap_nil_inv in Hs. rewrite decide_True by (split; [by eexists|done]). done.
    + apply posts_ret. rewrite decide_False; [done|]. intros [_ Hc]. rewrite Hc in Hs. done.
  - unfold detail_main. apply posts_lift. intros v Hv. unfold db. rewrite Hv.
    assert (Hb : forall d, dict_items v = Ok d -> d = boards_of (fun _ => false) (Ok v)).
    { intros d Hd. destruct v; try done. by injection Hd as ->. }
    eapply posts_then; [by apply posts_boards|].
    intros s [Hs Hlen]. by apply posts_ret.
Qed.

End sending.

(** ** An example *)

Definition two_boards : string := quoted
  "{'60': {'ip': '10.73.137.60', 'slot_id': 1, 'bias_ctrl': 1300},
    '61': {'ip': '10.73.137.61', 'slot_id': 2}}".

Definition seed_options (board : option string) : seed_args :=
  SeedArgs "boards.json" "" board None 9876 "mezz/0" 6000 false false 1600 2275 10 "24 dB" "12 dB"
    "auto".

Definition idle_fleet : fleet nat wire := Fleet (idle []) (fun _ => 0%nat) [].

(** A server that refuses every configuration. *)
Definition refusing : Peer nat wire := {|
  can_send _ := true;
  answer n b := match b with
                | WEnv e => (n, [[WEnv (Env 2 DIR_RESPONSE MT2_CONFIGURE_FE_RESP (WMsg [0] "refused")
                                          0 0 (msg_id e) "" 0)]])
                | _ => (n, [])
                end |}.

Definition seed_run (board : option string) : result Z * fleet nat wire :=
  output_main (H := refusing) (fun _ => Some two_boards) (fun _ => Ok tt) 5 9 (seed_options board)
    idle_fleet.

(** A refused configuration: the script reports it and ends with status 0. *)
Example refused_configuration_status_zero :
  fst (seed_run None) = Ok 0 /\ fst <$> posted (snd (seed_run None)) = ["10.73.137.60"; "10.73.137.61"] /\
  fst <$> posted (snd (seed_run (Some "61"))) = ["10.73.137.61"] /\
  fst (seed_run (Some "62")) = Ok 2.
Proof. vm_compute. by split_and!. Qed.
