(* ===== verification/ReadTools.v ===== *)
(** The scripts that make one reading request: [client/testreg_v2.py],
    [client/read_general_info_v2.py] and [client/vbias_monitor_once.py].

    The text of a float with a number of digits is a parameter. *)
From S2P Require Import Prelude PyStr PyFloat PyVal EnvelopeV2 Requests FeConfig FeMain ReadState.
From S2P Require Import SpyAcquire V2Config SmokeMessages FullSmoke.

Section scripts.
Context {S B : Type} `{Peer S B, Size B, !Proto B (ControlEnvelopeV2 B), !SmokeMessages B}.
Abbreviation Wd := (zworld S B).
Context (fixed : nat -> float -> string) (rt : string).

(** The envelope: the same identifier twice, and no time stamp. *)
Definition plain_env (ty id : Z) (req : B) : ControlEnvelopeV2 B :=
  Env 2 DIR_REQUEST ty req id id 0 rt 0.

(** The send and the receive; [ParseFromString] of the last frame comes after. *)
Definition exchange_frames (env : ControlEnvelopeV2 B) : M Wd (list B) :=
  z_send (ser env) ;;; recv_frames.

Definition last_reply (frames : list B) : M Wd (ControlEnvelopeV2 B) :=
  f <- last_frame frames ;; lift (parse f).

(** [testreg_v2.main] *)
Definition testreg_main : M Wd Z :=
  frames <- exchange_frames (plain_env MT2_READ_TEST_REG_REQ 0 (ser TestRegReq)) ;;
  rep <- last_reply frames ;;
  if negb (mtype rep =? MT2_READ_TEST_REG_RESP) then
    say ("[FAIL] unexpected type " +:+ str_Z (mtype rep)) ;;; ret 2
  else
    out <- lift (parse (A := TestRegResponse) (payload rep)) ;;
    say ("[OK] test-reg value = 0x" +:+ hex_pad false 8 (tt_value out) +:+ "  (" +:+ tt_message out
         +:+ ")") ;;;
    ret 0.

(** [read_general_info_v2.main]: the lines of its report. *)
Definition info_lines (g : GeneralInfo) : list string :=
  let volts name x := "  " +:+ name +:+ fixed 5 x +:+ " V" in
  ["GeneralInfo:"; volts "v_bias_0:     " (v_bias_0 g); volts "v_bias_1:     " (v_bias_1 g);
   volts "v_bias_2:     " (v_bias_2 g); volts "v_bias_3:     " (v_bias_3 g);
   volts "v_bias_4:     " (v_bias_4 g); volts "power_minus5v:" (power_minus5v g) +:+ " (rail)";
   volts "power_plus2p5v:" (power_plus2p5v g) +:+ " (rail)";
   volts "power_ce:     " (power_ce g) +:+ " (rail)";
   "  temperature:  " +:+ fixed 5 (temperature g) +:+ " C"].

Definition info_main (lvl : Z) : M Wd unit :=
  l <- lift (set_u32 lvl) ;;
  frames <- exchange_frames (plain_env MT2_READ_GENERAL_INFO_REQ 1 (ser (InfoReq l))) ;;
  rep <- last_reply frames ;;
  (if negb (mtype rep =? MT2_READ_GENERAL_INFO_RESP)
   then raise (Exn RuntimeError ("Unexpected reply type " +:+ str_Z (mtype rep))) else ret tt) ;;;
  g <- lift (parse (A := GeneralInfo) (payload rep)) ;;
  for_each (info_lines g) say.

(** [vbias_monitor_once.main], the line of a reading and what follows the exchange. *)
Definition bias_line (out : cmd_readBiasVoltageMonitor_response) (volts : float) : string :=
  "AFE " +:+ str_Z (bmr_afeBlock out) +:+ " bias = " +:+ fixed 3 volts +:+ " V ("
  +:+ str_Z (biasVoltageValue out) +:+ " mV)   message='" +:+ bm_message out +:+ "'".

Definition monitor_report (rep : ControlEnvelopeV2 B) : M Wd Z :=
  if negb (mtype rep =? MT2_READ_BIAS_VOLTAGE_MONITOR_RESP) then
    say ("[error] unexpected reply type " +:+ str_Z (mtype rep)) ;;; ret 2
  else
    out <- lift (parse (A := cmd_readBiasVoltageMonitor_response) (payload rep)) ;;
    if negb (bm_success out) then say ("[server error] " +:+ bm_message out) ;;; ret 2
    else
      volts <- lift (f_div (f_of_Z (biasVoltageValue out)) f1000) ;;
      say (bias_line out volts) ;;; ret 0.

Definition monitor_once (afe : Z) : M Wd Z :=
  a <- lift (set_u32 afe) ;;
  frames <- try_except
    (fs <- exchange_frames (plain_env MT2_READ_BIAS_VOLTAGE_MONITOR_REQ 0 (ser (ReadMonitor a))) ;;
     ret (Some fs))
    (fun e => match exn_class e with
              | ZmqAgain => say "[timeout] no reply" ;;; ret None
              | _ => raise e
              end) ;;
  match frames with
  | None => ret 2
  | Some fs => rep <- last_reply fs ;; monitor_report rep
  end.

End scripts.

(** ** What a monitor reading does *)

Section monitor.
Context {S B : Type} `{Peer S B, Size B, !Proto B (ControlEnvelopeV2 B), !SmokeMessages B}.
Abbreviation Wd := (zworld S B).
Context (fixed : nat -> float -> string) (rt : string).

(** The status and the line of a reply. *)
Definition monitor_outcome (rep : ControlEnvelopeV2 B) : result (Z * string) :=
  if mtype rep =? MT2_READ_BIAS_VOLTAGE_MONITOR_RESP then
    out <-! parse (A := cmd_readBiasVoltageMonitor_response) (payload rep) ;;
    if bm_success out then
      volts <-! f_div (f_of_Z (biasVoltageValue out)) f1000 ;; Ok (0, bias_line fixed out volts)
    else Ok (2, "[server error] " +:+ bm_message out)
  else Ok (2, "[error] unexpected reply type " +:+ str_Z (mtype rep)).

Lemma monitor_report_run rep (w : Wd) :
  monitor_report fixed rep w =
  match monitor_outcome rep with
  | Ok (st, text) => (Ok st, snd (say text w))
  | Raise e => (Raise e, w)
  end.
Proof using Type.
  unfold monitor_report, monitor_outcome. destruct (_ =? _); [|done]. cbn [negb].
  unfold bind at 1, lift. destruct (parse (payload rep)) as [out|e]; [|done]. cbn [rbind].
  destruct (bm_success out); [|done]. cbn [negb]. unfold bind at 1.
  by destruct (f_div (f_of_Z (biasVoltageValue out)) f1000).
Qed.

Lemma exchange_cases env (w : Wd) :
  cur w = [] ->
  let '(s, arrived) := answer (srv w) (ser env) in
  if can_send (srv w) then
    match inbox w ++ arrived with
    | (f :: fs) :: _ =>
        exists w', exchange_frames env w = (Ok (f :: fs), w') /\ sent w' = sent w ++ [ser env]
    | _ => exists w', exchange_frames env w = (Raise again, w') /\ sent w' = sent w ++ [ser env]
    end
  else exchange_frames env w = (Raise again, w).
Proof using Type.
  intros Hc. destruct (answer (srv w) (ser env)) as [s arrived] eqn:Ha.
  unfold exchange_frames. destruct (can_send (srv w)) eqn:Hcan.
  2: { apply bind_run_raise. unfold z_send. by rewrite Hcan. }
  set (w1 := ZW s (inbox w ++ arrived) (cur w) (sent w ++ [ser env]) (clock w) (ticks w) (random w)
               (draws w) (seqno w) (console w)).
  assert (Hrun : forall k : unit -> M Wd (list B), bind (z_send (ser env)) k w = k tt w1).
  { intros k. apply bind_run. unfold z_send. by rewrite Hcan, Ha. }
  rewrite Hrun. change (inbox w ++ arrived) with (inbox w1).
  assert (Hc1 : cur w1 = []) by done.
  destruct (inbox w1) as [|[|f fs] ms] eqn:Hi.
  1, 2: exists w1; split; [|done]; change (recv_frames w1 = (Raise again, w1));
    unfold recv_frames, z_recv, bind; by rewrite Hc1, Hi.
  exists (set_reading w1 ms []). split; [|done]. by apply recv_frames_message.
Qed.

(** One reading of the bias monitor.  The request sent, if any, is the one for the AFE asked
    for.  When nothing comes back in time the status is 2.  When a message is there, its last
    frame decides: status 0 exactly for a reply of the right type that reports success, with the
    line of its values, and 2 with the reason otherwise; the only exceptions are those of parsing
    the reply and its payload. *)
Theorem monitor_once_correct afe (w : Wd) :
  0 <= afe < 2 ^ 32 -> cur w = [] ->
  let req := ser (plain_env rt MT2_READ_BIAS_VOLTAGE_MONITOR_REQ 0 (ser (ReadMonitor afe))) in
  let '(s, arrived) := answer (srv w) req in
  if can_send (srv w) then
    sent (snd (monitor_once fixed rt afe w)) = sent w ++ [req] /\
    match inbox w ++ arrived with
    | (f :: fs) :: _ =>
        exists f_last w', last (f :: fs) = Some f_last /\ sent w' = sent w ++ [req] /\
          monitor_once fixed rt afe w =
          match rep <-! parse f_last ;; monitor_outcome rep with
          | Ok (st, text) => (Ok st, snd (say text w'))
          | Raise e => (Raise e, w')
          end
    | _ => fst (monitor_once fixed rt afe w) = Ok 2
    end
  else
    fst (monitor_once fixed rt afe w) = Ok 2 /\ sent (snd (monitor_once fixed rt afe w)) = sent w.
Proof using Type.
  intros Ha Hc req. destruct (answer (srv w) req) as [s arrived] eqn:Hans.
  assert (Hu : set_u32 afe = Ok afe).
  { unfold set_u32, set_uint. by rewrite (proj2 (Z.leb_le _ _)), (proj2 (Z.ltb_lt _ _)) by lia. }
  unfold monitor_once. rewrite Hu.
  change (bind (lift (Ok afe)) ?k w) with (k afe w). cbv beta.
  pose proof (exchange_cases (plain_env rt MT2_READ_BIAS_VOLTAGE_MONITOR_REQ 0
    (ser (ReadMonitor afe))) w Hc) as Hx. fold req in Hx. rewrite Hans in Hx.
  set (m := exchange_frames _) in *. set (caught := try_except _ _).
  assert (Hlate : forall w', m w = (Raise again, w') ->
    caught w = (Ok None, snd (say "[timeout] no reply" w'))).
  { intros w' Hm. unfold caught, try_except, bind. by rewrite Hm. }
  assert (Hgot : forall fs w', m w = (Ok fs, w') -> caught w = (Ok (Some fs), w')).
  { intros fs w' Hm. unfold caught, try_except, bind. by rewrite Hm. }
  destruct (can_send (srv w)).
  2: { apply Hlate in Hx. by rewrite (bind_run _ _ _ _ _ Hx). }
  destruct (inbox w ++ arrived) as [|[|f fs] ms].
  1, 2: destruct Hx as (w' & Hm & Hs); apply Hlate in Hm; by rewrite (bind_run _ _ _ _ _ Hm).
  destruct Hx as (w' & Hm & Hs). apply Hgot in Hm. rewrite (bind_run _ _ _ _ _ Hm).
  destruct (last (f :: fs)) as [fl|] eqn:Hl; [|by apply last_None in Hl].
  set (r := bind (last_reply _) _ _).
  assert (Hr : r = match rep <-! parse fl ;; monitor_outcome rep with
                   | Ok (st, text) => (Ok st, snd (say text w'))
                   | Raise e => (Raise e, w')
                   end).
  { unfold r, last_reply, last_frame. rewrite Hl. unfold bind, lift, ret at 1.
    destruct (parse fl) as [rep|e]; [|done]. apply monitor_report_run. }
  rewrite Hr. split; [|by exists fl, w'].
  by destruct (rep <-! parse fl ;; monitor_outcome rep) as [[st text]|e].
Qed.

End monitor.
(** ** Examples, on the board of [FullSmoke] *)

Definition board_world : zworld sboard swire := fz (smoke_world sample_board).

Lemma monitor_once_correct_witness :
  sent (snd (monitor_once two_digits "mezz/0" 2 board_world))
  = [ser (plain_env "mezz/0" MT2_READ_BIAS_VOLTAGE_MONITOR_REQ 0 (ser (ReadMonitor 2)))].
Proof.
  exact (proj1 (monitor_once_correct two_digits "mezz/0" 2 board_world ltac:(lia) eq_refl)).
Defined.

Example monitor_once_line :
  let '(st, w) := monitor_once two_digits "mezz/0" 2 board_world in
  st = Ok 0 /\ console w = [Text "AFE 2 bias = 0.00 V (30000 mV)   message=''"].
Proof. vm_compute. by split. Qed.

Example testreg_line :
  let '(st, w) := testreg_main "mezz/0" board_world in
  st = Ok 0 /\ console w = [Text "[OK] test-reg value = 0xdeadbeef  (ok)"].
Proof. vm_compute. by split. Qed.
