(* ===== verification/FirstGen.v ===== *)
(** The first-generation clients, which exchange the old [ControlEnvelope]: the exchange, and the
    scripts that write one kind of register: [client/protobuf_configure_offset.py],
    [client/protobuf_configure_vgain.py], [client/protobuf_configure_vbias_trim.py],
    [client/protobuf_configure_afeFunction.py], [client/protobuf_client_trim_test.py],
    [client/protobuf_client_test.py] and [client/configure_fe_min.py].

    The scripts set no timeout: a send or a receive that finds nothing, which is the exception
    [ZmqAgain] here, means that the script waits for ever. *)
From S2P Require Import Prelude PyStr PyFloat PyVal JsonText EnvelopeV2 Requests FeConfig PdsSeed FeMain.
From S2P Require Import SpyAcquire V2Config ChargeWindows SmokeMessages.

(** ** Message types *)

Definition CONFIGURE_CLKS : Z := 1.
Definition CONFIGURE_FE : Z := 2.
Definition WRITE_AFE_VGAIN : Z := 4.
Definition WRITE_AFE_BIAS_SET : Z := 5.
Definition WRITE_TRIM_CH : Z := 8.
Definition WRITE_OFFSET_CH : Z := 11.
Definition WRITE_VBIAS_CONTROL : Z := 12.
Definition DO_AFE_RESET : Z := 26.
Definition SET_AFE_POWERSTATE : Z := 27.
Definition ALIGN_AFE : Z := 30.
Definition WRITE_AFE_FUNCTION : Z := 31.

#[export] Instance write_trim_status : Status cmd_writeTrim_singleChannel_response :=
  { st_success := wts_success; st_message := wts_message }.
#[export] Instance write_bias_status : Status cmd_writeAFEBiasSet_response :=
  { st_success := wr_success; st_message := wr_message }.
#[export] Instance write_vbias_status : Status cmd_writeVbiasControl_response :=
  { st_success := wvr_success; st_message := wvr_message }.
#[export] Instance configure_status : Status ConfigureResponse :=
  { st_success := success; st_message := message }.
#[export] Instance clks_status : Status ConfigureCLKsResponse :=
  { st_success := ck_success; st_message := ck_message }.

(** A name a module or a message does not have, and a variable that was never assigned. *)
Definition no_attribute (name : string) : exn :=
  Exn AttributeError ("module 'srcs.protobuf.daphneV3_low_level_confs_pb2' has no attribute '"
                      +:+ name +:+ "'").

Definition no_field (msg name : string) : exn :=
  Exn AttributeError (quoted ("Protocol message " +:+ msg +:+ " has no '" +:+ name +:+ "' field.")).

Definition not_defined (name : string) : exn :=
  Exn NameError ("name '" +:+ name +:+ "' is not defined").

(** ** The exchange *)

Section exchange_v1.
Context {S B : Type} `{Peer S B, !Proto B (ControlEnvelope B)}.
Abbreviation Wd := (zworld S B).

(** [print("Success:", ...)] and [print("Message:", ...)] *)
Definition print_reply {R : Type} `{!Status R} (r : R) : M Wd unit :=
  say ("Success: " +:+ str_bool (st_success r)) ;;;
  say ("Message: " +:+ st_message r).

(** What every script does with a reply: one of another type is passed over in silence. *)
Definition report (R : Type) `{!Proto B R, !Status R} (ty : Z) (response_bytes : B) : M Wd unit :=
  responseEnvelope <- lift (parse (A := ControlEnvelope B) response_bytes) ;;
  if v1_type responseEnvelope =? ty then
    response <- lift (parse (A := R) (v1_payload responseEnvelope)) ;;
    print_reply response
  else ret tt.

Definition request_v1 (R : Type) `{!Proto B R, !Status R} (ty : Z) (payload : B) : M Wd unit :=
  response_bytes <- send_envelope_and_get_reply (ser (Env1 ty payload)) ;;
  report R ty response_bytes.

(** The same where the class of the response is misspelt. *)
Definition report_missing (cls : string) (ty : Z) (response_bytes : B) : M Wd unit :=
  responseEnvelope <- lift (parse (A := ControlEnvelope B) response_bytes) ;;
  if v1_type responseEnvelope =? ty then raise (no_attribute cls) else ret tt.

(** ** [protobuf_configure_offset] *)

Record offset_args : Type := OffsetArgs {
  oa_channel : Z; oa_offset_value : Z; oa_configure_all : bool }.

Context `{!WriteMessages B}.

Definition configure_offset (args : offset_args) : M Wd unit :=
  let channels := if oa_configure_all args then seqZ 0 40 else [oa_channel args] in
  for_each channels (fun channel =>
    c <- lift (set_u32 channel) ;;
    v <- lift (set_u32 (oa_offset_value args)) ;;
    request_v1 cmd_writeOFFSET_singleChannel_response WRITE_OFFSET_CH (ser (WriteOffset c v false))).

(** ** [protobuf_configure_vgain] *)

Record vgain_args : Type := VgainArgs {
  va_afe : Z; va_vgain_value : Z; va_configure_all : bool }.

(** One attenuator; the generated class of the response is [cmd_writeAFEVGAIN_response]. *)
Definition write_vgain_misspelt (afe vgain_value : Z) : M Wd unit :=
  a <- lift (set_u32 afe) ;;
  v <- lift (set_u32 vgain_value) ;;
  response_bytes <- send_envelope_and_get_reply (ser (Env1 WRITE_AFE_VGAIN (ser (WriteVgain a v)))) ;;
  report_missing "cmd_writeAFEVgain_response" WRITE_AFE_VGAIN response_bytes.

Definition configure_vgain (args : vgain_args) : M Wd unit :=
  let afe_blocks := if va_configure_all args then seqZ 0 5 else [va_afe args] in
  for_each afe_blocks (fun afe => write_vgain_misspelt afe (va_vgain_value args)).

(** ** [protobuf_client_trim_test] *)

Context `{!Proto B cmd_writeTrim_singleChannel, !Proto B cmd_writeTrim_singleChannel_response}.

Definition trim_test : M Wd unit :=
  for_each (seqZ 0 40) (fun trimCH =>
    c <- lift (set_u32 trimCH) ;;
    v <- lift (set_u32 0) ;;
    request_v1 cmd_writeTrim_singleChannel_response WRITE_TRIM_CH (ser (WriteTrim c v false))).

(** ** [protobuf_configure_vbias_trim] *)

Record vbias_args : Type := VbiasArgs {
  vb_channel : Z; vb_bias : float; vb_bias_control : float; vb_trim : Z; vb_set_as_DAC : bool }.

(** [biasVolts2DAC]: [int] truncates. *)
Definition biasVolts2DAC (volts : list float) : result (list Z) :=
  rmap (fun v => q <-! f_div f26_1 (f_add f26_1 f1000) ;; f_trunc (f_mul (f_mul q f1000) v)) volts.

Definition biasControlVolts2DAC (volts : float) : result float :=
  q <-! f_div (f_of_Z 1) (f_of_Z 74) ;; Ok (f_mul (f_mul q volts) f1000).

(** The two DAC codes; with [-set_as_DAC] the names are never bound. *)
Definition vbias_dacs (args : vbias_args) : result (option (list Z * Z)) :=
  let afeNumber := Z.to_nat (vb_channel args `div` 8) in
  let biasAFE_Volts := <[afeNumber := vb_bias args]> (replicate 5 (f_of_Z 0)) in
  if vb_set_as_DAC args then Ok None
  else
    biasAFE_DAC <-! biasVolts2DAC biasAFE_Volts ;;
    c <-! biasControlVolts2DAC (vb_bias_control args) ;;
    biasControlDAC <-! f_trunc c ;;
    Ok (Some (biasAFE_DAC, biasControlDAC)).

Context `{!Proto B cmd_writeVbiasControl, !Proto B cmd_writeVbiasControl_response}.
Context `{!Proto B cmd_writeAFEBiasSet, !Proto B cmd_writeAFEBiasSet_response}.

Definition configure_vbias_trim (args : vbias_args) : M Wd unit :=
  let channel := vb_channel args in
  let afeNumber := channel `div` 8 in
  dacs <- lift (vbias_dacs args) ;;
  match dacs with
  | None => raise (not_defined "biasControlDAC")
  | Some (biasAFE_DAC, biasControlDAC) =>
      c <- lift (set_u32 biasControlDAC) ;;
      request_v1 cmd_writeVbiasControl_response WRITE_VBIAS_CONTROL (ser (WriteVbias c true)) ;;;
      a <- lift (set_u32 afeNumber) ;;
      d <- lift (match biasAFE_DAC !! Z.to_nat afeNumber with
                 | Some d => set_u32 d
                 | None => Raise (Exn IndexError "list index out of range")
                 end) ;;
      request_v1 cmd_writeAFEBiasSet_response WRITE_AFE_BIAS_SET (ser (WriteBias a d)) ;;;
      ch <- lift (set_u32 channel) ;;
      t <- lift (set_u32 (vb_trim args)) ;;
      request_v1 cmd_writeTrim_singleChannel_response WRITE_TRIM_CH (ser (WriteTrim ch t false))
  end.

(** ** [protobuf_configure_afeFunction] *)

Record afe_function_args : Type := AfeFunctionArgs {
  af_afeFunction : string; af_afeNumber : Z; af_value : Z }.

(** The check of the value, as it is written. *)
Definition check_afe_value (afe_function : string) (value : Z) : result unit :=
  valid_range <-! assoc available_afe_functions afe_function afe_function ;;
  match valid_range with
  | [lo; hi] =>
      if (lo =? 0) && (hi =? 1) then
        if bool_decide (value ∈ [0; 1]) then Ok tt
        else Raise (invalid_value afe_function value "0 or 1")
      else
        if (value <=? lo) && (hi <=? value)
        then Raise (invalid_value afe_function value (str_Z lo +:+ "-" +:+ str_Z hi))
        else Ok tt
  | _ =>
      if bool_decide (value ∈ valid_range) then Ok tt
      else Raise (invalid_value afe_function value
                    ("one of [" +:+ join ", " (str_Z <$> valid_range) +:+ "]"))
  end.

Definition configure_afeFunction (args : afe_function_args) : M Wd unit :=
  lift (check_afe_value (af_afeFunction args) (af_value args)) ;;;
  a <- lift (set_u32 (af_afeNumber args)) ;;
  v <- lift (set_u32 (af_value args)) ;;
  request_v1 cmd_writeAFEFunction_response WRITE_AFE_FUNCTION
    (ser (WriteFunction a (af_afeFunction args) v)).

(** ** [configure_fe_min] *)

(** The parameters of [make_default_config]; [main] gives the address only. *)
Record min_params : Type := MinParams {
  mp_ip : string; mp_slot : Z; mp_timeout_ms : Z; mp_biasctrl : Z; mp_threshold : Z;
  mp_xcorr : Z; mp_tp_conf : Z; mp_compensator : Z; mp_inverters : Z; mp_per_ch_trim : Z;
  mp_per_ch_offset : Z }.

Definition min_defaults (ip : string) : min_params :=
  MinParams ip 0 500 0 0x1F40 0x68 0x0010DB35 0xFFFFFFFFFF 0xFF00000000 0 2275.

Definition min_channel (p : min_params) (ch : Z) : result ChannelConfig :=
  id <-! set_u32 ch ;;
  trim <-! set_u32 (mp_per_ch_trim p) ;;
  offset <-! set_u32 (mp_per_ch_offset p) ;;
  gain <-! set_u32 1 ;;
  Ok (Chan id trim offset gain).

Definition min_afe (afe : Z) : result AFEConfig :=
  id <-! set_u32 afe ;;
  att <-! set_u32 1600 ;;
  bias <-! set_u32 0 ;;
  let adc := set_adc_fields true true false in
  lpf <-! set_u32 4 ;;
  cl <-! set_u32 0 ;;
  lg <-! set_u32 2 ;;
  Ok (Afe id att bias adc (Pga lpf true (bool_of 0)) (Lna cl lg true)).

Definition min_config (p : min_params) : result ConfigureRequest :=
  sl <-! set_u32 (mp_slot p) ;;
  tm <-! set_u32 (mp_timeout_ms p) ;;
  bc <-! set_u32 (mp_biasctrl p) ;;
  th <-! set_u64 (mp_threshold p) ;;
  xc <-! set_u64 (mp_xcorr p) ;;
  tp <-! set_u64 (mp_tp_conf p) ;;
  co <-! set_u64 (mp_compensator p) ;;
  inv <-! set_u64 (mp_inverters p) ;;
  chs <-! rmap (min_channel p) (seqZ 0 40) ;;
  af <-! rmap min_afe (seqZ 0 5) ;;
  Ok (ConfReq (mp_ip p) sl tm bc th xc tp co inv chs af []).

Context `{!Proto B ConfigureRequest, !Proto B ConfigureResponse}.

(** [main]: the exit status. *)
Definition fe_min_main (host : string) : M Wd Z :=
  cfg <- lift (min_config (min_defaults host)) ;;
  reply_bytes <- send_envelope_and_get_reply (ser (Env1 CONFIGURE_FE (ser cfg))) ;;
  reply_env <- lift (parse (A := ControlEnvelope B) reply_bytes) ;;
  if negb (v1_type reply_env =? CONFIGURE_FE) then
    say ("Unexpected reply type: " +:+ str_Z (v1_type reply_env)) ;;;
    ret 1
  else
    out <- lift (parse (A := ConfigureResponse) (v1_payload reply_env)) ;;
    say ("Success: " +:+ str_bool (success out)) ;;;
    say ("Message:" +:+ String (char 10) " " +:+ message out) ;;;
    ret 0.

(** The arguments after the name of the script: the endpoint, and the run. *)
Definition fe_min_argv (argv : list string) : result (string * Z) :=
  let host := default "127.0.0.1" (argv !! 0%nat) in
  port <-! match argv !! 1%nat with Some s => int10 s | None => Ok 9876 end ;;
  Ok (host, port).

Definition fe_min (argv : list string) : M Wd Z :=
  '(host, _) <- lift (fe_min_argv argv) ;; fe_min_main host.

(** ** [protobuf_client_test] *)

(** [l[i]] and [len(l)] of a decoded value *)
Definition index_of (v : pyval) (i : nat) : result pyval :=
  match v with
  | PyList l => match l !! i with
                | Some x => Ok x
                | None => Raise (Exn IndexError "list index out of range")
                end
  | PyStr s => match String.get i s with
               | Some c => Ok (PyStr (String c ""))
               | None => Raise (Exn IndexError "string index out of range")
               end
  | PyDict _ => Raise (Exn KeyError (str_Z (Z.of_nat i)))
  | _ => Raise (type_error "object is not subscriptable")
  end.

Definition py_len (v : pyval) : result nat :=
  match v with
  | PyList l => Ok (length l)
  | PyStr s => Ok (String.length s)
  | PyDict d => Ok (length d)
  | _ => Raise (type_error "object has no len()")
  end.

Definition test_channel (ids gains offsets trims : pyval) (i : nat) : result ChannelConfig :=
  v <-! index_of ids i ;; id <-! assign_u32 v ;;
  v <-! index_of trims i ;; trim <-! assign_u32 v ;;
  v <-! index_of offsets i ;; offset <-! assign_u32 v ;;
  v <-! index_of gains i ;; gain <-! assign_u32 v ;;
  Ok (Chan id trim offset gain).

(** One AFE: the field of [ADCConfig] is [sb_first], so the assignment to [SB_first] ends the
    turn, and the script with it. *)
Definition test_afe (ids atts vbiases resolutions formats sbs : pyval) (i : nat)
    : result AFEConfig :=
  v <-! index_of ids i ;; _ <-! assign_u32 v ;;
  v <-! index_of atts i ;; _ <-! assign_u32 v ;;
  v <-! index_of vbiases i ;; _ <-! assign_u32 v ;;
  v <-! index_of resolutions i ;; _ <-! assign_bool v ;;
  v <-! index_of formats i ;; _ <-! assign_bool v ;;
  _ <-! index_of sbs i ;;
  Raise (no_field "ADCConfig" "SB_first").

Definition test_afes (afes : pyval) : result (list AFEConfig) :=
  ids <-! item afes "ids" ;; atts <-! item afes "attenuators" ;;
  vbiases <-! item afes "v_biases" ;; adcs <-! item afes "adcs" ;;
  pgas <-! item afes "pgas" ;; lnas <-! item afes "lnas" ;;
  resolutions <-! item adcs "resolution" ;; formats <-! item adcs "output_format" ;;
  sbs <-! item adcs "SB_first" ;;
  _ <-! item pgas "lpf_cut_frequency" ;; _ <-! item pgas "integrator_disable" ;;
  _ <-! item pgas "gain" ;;
  _ <-! item lnas "clamp" ;; _ <-! item lnas "integrator_disable" ;; _ <-! item lnas "gain" ;;
  n <-! py_len ids ;;
  rmap (test_afe ids atts vbiases resolutions formats sbs) (seq 0 n).

Definition test_channels (conf : pyval) : result (list ChannelConfig) :=
  ids <-! item conf "ids" ;; gains <-! item conf "gains" ;;
  offsets <-! item conf "offsets" ;; trims <-! item conf "trims" ;;
  n <-! py_len ids ;;
  rmap (test_channel ids gains offsets trims) (seq 0 n).

(** The request for one device. *)
Definition test_request (device : pyval) : result ConfigureRequest :=
  v <-! item device "slot" ;; sl <-! assign_u32 v ;;
  v <-! item device "bias_ctrl" ;; bc <-! assign_u32 v ;;
  v <-! item device "self_trigger_threshold" ;; th <-! assign_u64 v ;;
  v <-! item device "self_trigger_xcorr" ;; xc <-! assign_u64 v ;;
  v <-! item device "tp_conf" ;; tp <-! assign_u64 v ;;
  v <-! item device "compensator" ;; co <-! assign_u64 v ;;
  v <-! item device "inverter" ;; inv <-! assign_u64 v ;;
  conf <-! item device "channel_analog_conf" ;;
  chs <-! test_channels conf ;;
  afes <-! item device "afes" ;;
  afs <-! test_afes afes ;;
  Ok (ConfReq "192.168.0.10" sl 500 bc th xc tp co inv chs afs []).

Context `{!Proto B ConfigureCLKsResponse}.
(** The text format of an envelope is that of the protobuf runtime. *)
Context (show_env : ControlEnvelope B -> string).

(** One turn of the loop; the variable [response] keeps its value from one turn to the next. *)
Definition test_device (response : option (bool * string)) (device : pyval)
    : M Wd (option (bool * string)) :=
  request <- lift (test_request device) ;;
  response_bytes <- send_envelope_and_get_reply (ser (Env1 CONFIGURE_FE (ser request))) ;;
  env <- lift (parse (A := ControlEnvelope B) response_bytes) ;;
  say (show_env env) ;;;
  response' <-
    (if v1_type env =? CONFIGURE_FE then
       r <- lift (parse (A := ConfigureResponse) (v1_payload env)) ;;
       ret (Some (success r, message r))
     else if v1_type env =? CONFIGURE_CLKS then
       r <- lift (parse (A := ConfigureCLKsResponse) (v1_payload env)) ;;
       ret (Some (ck_success r, ck_message r))
     else ret response) ;;
  match response' with
  | None => raise (not_defined "response")
  | Some (ok, msg) =>
      say ("Success: " +:+ str_bool ok) ;;;
      say ("Message: " +:+ msg) ;;;
      ret response'
  end.

(** The script; [text] is what the file holds. *)
Definition client_test (text : option string) : M Wd unit :=
  np02_config <- lift (match text with
                       | Some s => json_loads s
                       | None => Raise (Exn (OSError 2)
                           "No such file or directory: '../srcs/protobuf/np02-daphne-running.json'")
                       end) ;;
  devices_list <- lift (match np02_config with
                        | PyDict d => Ok (snd <$> d)
                        | _ => Raise (Exn AttributeError "object has no attribute 'keys'")
                        end) ;;
  _ <- fold_m devices_list test_device None ;;
  ret tt.

End exchange_v1.

(** ** What a script sends, on any peer *)

Section sends.
Context {S B : Type} `{Peer S B}.
Abbreviation Wd := (zworld S B).

(** Whatever the peer does, [m] sends a first part of the messages [p], and all of them if it
    returns, with a value of which [V] holds. *)
Definition sends {A : Type} (V : A -> Prop) (p : list B) (m : M Wd A) : Prop :=
  forall w, exists q, sent (snd (m w)) = sent w ++ q /\ q `prefix_of` p /\
    (forall a, fst (m w) = Ok a -> q = p /\ V a).

Lemma sends_ret {A : Type} (V : A -> Prop) a : V a -> sends V [] (ret a).
Proof using Type.
  intros Ha w. exists []. cbn. rewrite app_nil_r. split_and!; [done|done|]. by intros b [= <-].
Qed.

Lemma sends_unsent {A : Type} (m : M Wd A) : unsent m -> sends (fun _ => True) [] m.
Proof using Type.
  intros Hm w. exists []. cbn. rewrite app_nil_r. split_and!; [apply Hm|done|done].
Qed.

Lemma sends_raise {A : Type} (V : A -> Prop) p e : sends V p (raise e : M Wd A).
Proof using Type.
  intros w. exists []. cbn. rewrite app_nil_r. split_and!; [done|apply prefix_nil|done].
Qed.

Lemma v1_sends_bind {A C : Type} (V : A -> Prop) (V' : C -> Prop) p1 p2 (m : M Wd A)
    (k : A -> M Wd C) :
  sends V p1 m -> (forall a, V a -> sends V' p2 (k a)) -> sends V' (p1 ++ p2) (bind m k).
Proof using Type.
  intros Hm Hk w. destruct (Hm w) as (q1 & Hs1 & Hp1 & Hn1). unfold bind.
  destruct (m w) as [[a|e] w1]; cbn in *.
  - destruct (Hn1 a eq_refl) as [-> Ha]. destruct (Hk a Ha w1) as (q2 & Hs2 & Hp2 & Hn2).
    exists (p1 ++ q2). split_and!.
    + by rewrite Hs2, Hs1, app_assoc.
    + by apply prefix_app.
    + intros b Hb. destruct (Hn2 b Hb) as [-> ?]. auto.
  - exists q1. split_and!; [done|by apply prefix_app_r|done].
Qed.

Lemma v1_sends_step {A C : Type} (V' : C -> Prop) p (m : M Wd A) (k : A -> M Wd C) :
  unsent m -> (forall a, sends V' p (k a)) -> sends V' p (bind m k).
Proof using Type.
  intros Hm Hk. apply (v1_sends_bind (fun _ => True) V' [] p); [by apply sends_unsent|auto].
Qed.

Lemma sends_then {A C : Type} (V : A -> Prop) p (m : M Wd A) (k : A -> M Wd C) :
  sends V p m -> (forall a, unsent (k a)) -> sends (fun _ => True) p (bind m k).
Proof using Type.
  intros Hm Hk. rewrite <- (app_nil_r p). apply (v1_sends_bind V); [done|].
  intros a _. by apply sends_unsent.
Qed.

(** A value is computed and checked before the message is made. *)
Lemma sends_lift {A C : Type} (V : C -> Prop) p (r : result A) (k : A -> M Wd C) :
  (forall a, r = Ok a -> sends V p (k a)) -> sends V p (bind (lift r) k).
Proof using Type.
  intros Hk. destruct r as [a|e]; [by apply (Hk a)|]. apply (sends_raise V p e).
Qed.

Lemma v1_sends_u32 {C : Type} (V : C -> Prop) p z (k : Z -> M Wd C) :
  sends V p (k z) -> sends V p (bind (lift (set_u32 z)) k).
Proof using Type.
  intros Hk. apply sends_lift. intros a Ha. apply set_uint_ok in Ha as [-> _]. exact Hk.
Qed.

Lemma sends_each {A : Type} (l : list A) (f : A -> M Wd unit) (g : A -> B) :
  (forall a, a ∈ l -> sends (fun _ => True) [g a] (f a)) ->
  sends (fun _ => True) (g <$> l) (for_each l f).
Proof using Type.
  induction l as [|a l IH]; intros Hf; [by apply sends_ret|].
  cbn [for_each fmap list_fmap]. apply (v1_sends_bind (fun _ => True) _ [_]).
  - apply Hf, list_elem_of_here.
  - intros _ _. apply IH. intros b Hb. apply Hf. by apply list_elem_of_further.
Qed.

Lemma sends_each_concat {A : Type} (l : list A) (f : A -> M Wd unit) (g : A -> list B) :
  (forall a, a ∈ l -> sends (fun _ => True) (g a) (f a)) ->
  sends (fun _ => True) (concat (g <$> l)) (for_each l f).
Proof using Type.
  induction l as [|a l IH]; intros Hf; [by apply sends_ret|].
  cbn [for_each fmap list_fmap concat]. apply (v1_sends_bind (fun _ => True)).
  - apply Hf, list_elem_of_here.
  - intros _ _. apply IH. intros b Hb. apply Hf. by apply list_elem_of_further.
Qed.

Lemma v1_sends_send b : sends (fun _ => True) [b] (z_send b : M Wd unit).
Proof using Type.
  intros w. unfold z_send. destruct (can_send (srv w)); [destruct (answer (srv w) b)|].
  - by exists [b].
  - exists []. cbn. rewrite app_nil_r. split_and!; [done|apply prefix_nil|done].
Qed.

Lemma v1_sends_exchange b : sends (fun _ => True) [b] (send_envelope_and_get_reply b : M Wd B).
Proof using Type.
  eapply sends_then; [apply v1_sends_send|]. intros _. unsent_steps.
Qed.

Context `{!Proto B (ControlEnvelope B)}.

Lemma v1_unsent_report (R : Type) `{!Proto B R, !Status R} ty b : unsent (report R ty b : M Wd unit).
Proof using Type. unfold report, print_reply. unsent_steps. Qed.

Lemma v1_sends_request (R : Type) `{!Proto B R, !Status R} ty b :
  sends (fun _ => True) [ser (Env1 ty b)] (request_v1 R ty b : M Wd unit).
Proof using Type.
  eapply sends_then; [apply v1_sends_exchange|]. intros f. apply v1_unsent_report.
Qed.

End sends.

(** ** A server of the first generation that answers *)

Section answers.
Context {S B : Type} `{Peer S B, !Proto B (ControlEnvelope B)}.
Abbreviation Wd := (zworld S B).

(** It takes every message and answers each request with one message of its type. *)
Class Answering1 (resp : Z -> B -> B) : Prop := {
  a1_send s : can_send s = true;
  a1_answer s ty b : exists s',
    answer s (ser (Env1 ty b)) = (s', [[ser (Env1 ty (resp ty b))]]) }.

(** From a quiet socket [m] sends the messages [p], ends with [r] and leaves the socket quiet. *)
Definition ends {A : Type} (p : list B) (r : result A) (m : M Wd A) : Prop :=
  forall w, calm w -> exists w', m w = (r, w') /\ calm w' /\ sent w' = sent w ++ p.

Lemma ends_ret {A : Type} (a : A) : ends [] (Ok a) (ret a).
Proof using Type. intros w Hw. exists w. by rewrite app_nil_r. Qed.

Lemma ends_raise {A : Type} e : ends [] (Raise e) (raise e : M Wd A).
Proof using Type. intros w Hw. exists w. by rewrite app_nil_r. Qed.

Lemma ends_lift {A : Type} (r : result A) : ends [] r (lift r).
Proof using Type. intros w Hw. exists w. by rewrite app_nil_r. Qed.

Lemma ends_say s : ends [] (Ok tt) (say s).
Proof using Type. intros w Hw. eexists. split; [reflexivity|]. split; [done|]. cbn. by rewrite app_nil_r. Qed.

Lemma ends_bind {A C : Type} p1 p2 a (r : result C) (m : M Wd A) (k : A -> M Wd C) :
  ends p1 (Ok a) m -> ends p2 r (k a) -> ends (p1 ++ p2) r (bind m k).
Proof using Type.
  intros Hm Hk w Hw. destruct (Hm w Hw) as (w1 & Hr1 & Hw1 & Hs1).
  destruct (Hk w1 Hw1) as (w2 & Hr2 & Hw2 & Hs2). exists w2.
  rewrite (bind_run _ _ _ _ _ Hr1). split_and!; [done|done|]. by rewrite Hs2, Hs1, app_assoc.
Qed.

Lemma ends_bind_raise {A C : Type} p e (m : M Wd A) (k : A -> M Wd C) :
  ends p (Raise e) m -> ends p (Raise e) (bind m k).
Proof using Type.
  intros Hm w Hw. destruct (Hm w Hw) as (w1 & Hr1 & Hw1 & Hs1). exists w1.
  by rewrite (bind_run_raise _ _ _ _ _ Hr1).
Qed.

(** A step that sends nothing. *)
Lemma ends_step {A C : Type} p a (r : result C) (m : M Wd A) (k : A -> M Wd C) :
  ends [] (Ok a) m -> ends p r (k a) -> ends p r (bind m k).
Proof using Type. intros Hm Hk. by apply (ends_bind [] p a). Qed.

Lemma ends_u32 {C : Type} p z (r : result C) (k : Z -> M Wd C) :
  0 <= z < 2 ^ 32 -> ends p r (k z) -> ends p r (bind (lift (set_u32 z)) k).
Proof using Type.
  intros Hz Hk. apply (ends_step p z); [|done].
  replace (Ok z) with (set_u32 z) by (by apply set_uint_ok). apply ends_lift.
Qed.

Lemma ends_each {A : Type} (l : list A) (f : A -> M Wd unit) (g : A -> B) :
  (forall a, a ∈ l -> ends [g a] (Ok tt) (f a)) -> ends (g <$> l) (Ok tt) (for_each l f).
Proof using Type.
  induction l as [|a l IH]; intros Hf; [apply ends_ret|]. cbn [for_each fmap list_fmap].
  apply (ends_bind [_] _ tt); [apply Hf, list_elem_of_here|].
  apply IH. intros b Hb. apply Hf. by apply list_elem_of_further.
Qed.

Context (resp : Z -> B -> B) `{!Answering1 resp, !ProtoLaws B (ControlEnvelope B)}.

Lemma ends_exchange ty b :
  ends [ser (Env1 ty b)] (Ok (ser (Env1 ty (resp ty b)))) (send_envelope_and_get_reply (ser (Env1 ty b))).
Proof using All.
  intros w [Hc Hi]. unfold send_envelope_and_get_reply.
  destruct (a1_answer (srv w) ty b) as [s' Hs].
  set (w1 := ZW s' [[ser (Env1 ty (resp ty b))]] [] (sent w ++ [ser (Env1 ty b)]) (clock w)
               (ticks w) (random w) (draws w) (seqno w) (console w)).
  assert (Hsend : z_send (ser (Env1 ty b)) w = (Ok tt, w1)).
  { unfold z_send. rewrite (a1_send (srv w)), Hs, Hi, Hc. reflexivity. }
  rewrite (bind_run _ _ _ _ _ Hsend).
  rewrite (bind_run _ _ _ _ _ (recv_frames_message w1 (ser (Env1 ty (resp ty b))) [] [] eq_refl eq_refl)).
  eexists. split; [reflexivity|]. by split.
Qed.

(** Its answers to requests of one type are of the class [R]. *)
Definition answers_with (R : Type) `{!Proto B R} (ty : Z) : Prop :=
  forall b, exists r : R, parse (resp ty b) = Ok r.

Lemma ends_report (R : Type) `{!Proto B R, !Status R} ty b :
  answers_with R ty -> ends [] (Ok tt) (report R ty (ser (Env1 ty (resp ty b))) : M Wd unit).
Proof using All.
  intros HR. unfold report. rewrite parse_ser.
  apply (ends_step [] (Env1 ty (resp ty b))); [apply ends_lift|].
  cbn [v1_type v1_payload]. rewrite Z.eqb_refl. destruct (HR b) as [r Hr]. rewrite Hr.
  apply (ends_step [] r); [apply ends_lift|]. apply (ends_step [] tt); apply ends_say.
Qed.

Lemma ends_request (R : Type) `{!Proto B R, !Status R} ty b :
  answers_with R ty -> ends [ser (Env1 ty b)] (Ok tt) (request_v1 R ty b).
Proof using All.
  intros HR. apply (ends_bind [_] [] (ser (Env1 ty (resp ty b)))); [apply ends_exchange|].
  by apply ends_report.
Qed.

(** The same where the class of the response is misspelt. *)
Lemma ends_report_missing cls ty b :
  ends [] (Raise (no_attribute cls))
    (report_missing cls ty (ser (Env1 ty (resp ty b))) : M Wd unit).
Proof using All.
  unfold report_missing. rewrite parse_ser.
  apply (ends_step [] (Env1 ty (resp ty b))); [apply ends_lift|].
  cbn [v1_type]. rewrite Z.eqb_refl. apply ends_raise.
Qed.

Lemma ends_missing cls ty b :
  ends [ser (Env1 ty b)] (Raise (no_attribute cls))
    (f <- send_envelope_and_get_reply (ser (Env1 ty b)) ;; report_missing cls ty f).
Proof using All.
  apply (ends_bind [_] [] (ser (Env1 ty (resp ty b)))); [apply ends_exchange|].
  apply ends_report_missing.
Qed.

End answers.

(** ** The messages of the scripts *)

Section plans_v1.
Context {B : Type} `{!Proto B (ControlEnvelope B), !WriteMessages B}.
Context `{!Proto B cmd_writeTrim_singleChannel, !Proto B cmd_writeVbiasControl}.
Context `{!Proto B cmd_writeAFEBiasSet}.

Definition offset_message (value ch : Z) : B :=
  ser (Env1 WRITE_OFFSET_CH (ser (WriteOffset ch value false))).

Definition vgain_message (value afe : Z) : B :=
  ser (Env1 WRITE_AFE_VGAIN (ser (WriteVgain afe value))).

Definition trim_message (value ch : Z) : B :=
  ser (Env1 WRITE_TRIM_CH (ser (WriteTrim ch value false))).

Definition function_message (afe : Z) (nv : string * Z) : B :=
  ser (Env1 WRITE_AFE_FUNCTION (ser (WriteFunction afe (fst nv) (snd nv)))).

Definition offset_channels (args : offset_args) : list Z :=
  if oa_configure_all args then seqZ 0 40 else [oa_channel args].

(** The three messages for a channel, with the DAC codes of its AFE. *)
Definition vbias_plan (args : vbias_args) (bias control : Z) : list B :=
  [ser (Env1 WRITE_VBIAS_CONTROL (ser (WriteVbias control true)));
   ser (Env1 WRITE_AFE_BIAS_SET (ser (WriteBias (vb_channel args `div` 8) bias)));
   trim_message (vb_trim args) (vb_channel args)].

End plans_v1.

(** The DAC codes of the two voltages. *)
Definition bias_code (v : float) : result Z :=
  q <-! f_div f26_1 (f_add f26_1 f1000) ;; f_trunc (f_mul (f_mul q f1000) v).

Definition control_code (v : float) : result Z := c <-! biasControlVolts2DAC v ;; f_trunc c.

Lemma zero_code : bias_code (f_of_Z 0) = Ok 0.
Proof. vm_compute. reflexivity. Qed.

Lemma rmap_insert {A C : Type} (f : A -> result C) l i a c cs :
  rmap f l = Ok cs -> f a = Ok c -> rmap f (<[i := a]> l) = Ok (<[i := c]> cs).
Proof.
  rewrite !rmap_ok. intros Hl Ha. by apply Forall2_insert.
Qed.

Lemma rmap_insert_raise {A C : Type} (f : A -> result C) l i a cs e :
  rmap f l = Ok cs -> (i < length l)%nat -> f a = Raise e -> rmap f (<[i := a]> l) = Raise e.
Proof.
  revert i cs. induction l as [|b l IH]; intros i cs Hl Hi Ha; [cbn in Hi; lia|].
  cbn in Hl. apply rbind_ok in Hl as (c & Hc & Hl). apply rbind_ok in Hl as (cs' & Hcs & _).
  destruct i as [|i]; [cbn; by rewrite Ha|].
  change (rmap f (<[Datatypes.S i := a]> (b :: l))) with
    (rbind (f b) (fun c => rbind (rmap f (<[i := a]> l)) (fun cs => Ok (c :: cs)))).
  rewrite Hc. cbn [rbind]. by rewrite (IH i cs') by (try done; cbn in Hi; lia).
Qed.

Lemma zeros_code : rmap bias_code (replicate 5 (f_of_Z 0)) = Ok [0; 0; 0; 0; 0].
Proof. vm_compute. reflexivity. Qed.

(** The two codes decide what [configure_vbias_trim] goes on with. *)
Lemma vbias_dacs_run args :
  0 <= vb_channel args < 40 -> vb_set_as_DAC args = false ->
  match bias_code (vb_bias args), control_code (vb_bias_control args) with
  | Ok d, Ok c => exists dacs, vbias_dacs args = Ok (Some (dacs, c)) /\
      dacs !! Z.to_nat (vb_channel args `div` 8) = Some d
  | Raise e, _ | Ok _, Raise e => vbias_dacs args = Raise e
  end.
Proof.
  intros Hch Hset. unfold vbias_dacs. rewrite Hset. cbv zeta.
  change (biasVolts2DAC ?l) with (rmap bias_code l).
  assert (Hi : (Z.to_nat (vb_channel args `div` 8) < 5)%nat).
  { assert (0 <= vb_channel args `div` 8 < 5); [|lia].
    split; [apply Z.div_pos; lia|apply Z.div_lt_upper_bound; lia]. }
  destruct (bias_code (vb_bias args)) as [d|e] eqn:Hd.
  - rewrite (rmap_insert _ _ _ _ d [0; 0; 0; 0; 0] zeros_code Hd). cbn [rbind].
    unfold control_code. destruct (biasControlVolts2DAC (vb_bias_control args)) as [x|e]; [|done].
    cbn [rbind]. destruct (f_trunc x) as [c|e]; [|done]. cbn [rbind].
    eexists. split; [reflexivity|]. by apply list_lookup_insert_eq.
  - by rewrite (rmap_insert_raise _ _ _ _ [0; 0; 0; 0; 0] e zeros_code Hi Hd).
Qed.

(** The values the check of [protobuf_configure_afeFunction] lets through. *)
Definition accepted (valid_range : list Z) (value : Z) : Prop :=
  match valid_range with
  | [lo; hi] => lo = 0 /\ hi = 1 -> value = 0 \/ value = 1
  | _ => value ∈ valid_range
  end.

Definition proper_entry (e : string * list Z) : bool :=
  match snd e with [lo; hi] => lo <? hi | _ => true end.

Lemma table_proper : forallb proper_entry available_afe_functions = true.
Proof. vm_compute. reflexivity. Qed.

Lemma range_proper func lo hi :
  assoc available_afe_functions func func = Ok [lo; hi] -> lo < hi.
Proof.
  unfold assoc. destruct (find _ available_afe_functions) as [[name l]|] eqn:Hf; [|done].
  intros [= ->]. apply find_some in Hf as [Hin _]. pose proof table_proper as Ht.
  rewrite forallb_forall in Ht. apply Ht in Hin. unfold proper_entry in Hin. cbn in Hin. lia.
Qed.

(** ** Properties *)

(** [protobuf_configure_offset] and [protobuf_client_trim_test] on any peer: the messages sent
    are a first part of one write per channel, in order, and all of them when the script ends
    normally; with a server that answers it does. *)
Theorem configure_offset_sends {S B : Type} `{Peer S B, !Proto B (ControlEnvelope B)}
    `{!WriteMessages B} args :
  let plan := offset_message (oa_offset_value args) <$> offset_channels args in
  sends (S := S) (fun _ => True) plan (configure_offset args) /\
  (forall resp, Answering1 (S := S) resp -> ProtoLaws B (ControlEnvelope B) ->
     answers_with resp cmd_writeOFFSET_singleChannel_response WRITE_OFFSET_CH ->
     0 <= oa_offset_value args < 2 ^ 32 -> 0 <= oa_channel args < 40 ->
     ends (S := S) plan (Ok tt) (configure_offset args)).
Proof.
  intros plan. unfold configure_offset. fold (offset_channels args). split.
  - apply sends_each. intros ch _. do 2 apply v1_sends_u32. apply v1_sends_request.
  - intros resp HA HL HR Hv Hc. apply ends_each. intros ch Hch. apply ends_u32.
    { unfold offset_channels in Hch. destruct (oa_configure_all args).
      - apply elem_of_seqZ in Hch. lia.
      - apply list_elem_of_singleton in Hch as ->. lia. }
    apply ends_u32; [done|]. by apply (ends_request resp).
Qed.

(** [protobuf_configure_vgain] with a server that answers: the script ends with
    [AttributeError] at the first answer, so that [-configure_all] programs AFE 0 only. *)
Theorem configure_vgain_stops {S B : Type} `{Peer S B, !Proto B (ControlEnvelope B)}
    `{!WriteMessages B} resp (HA : Answering1 (S := S) resp) (HL : ProtoLaws B (ControlEnvelope B))
    args :
  0 <= va_vgain_value args < 2 ^ 32 -> 0 <= va_afe args < 5 ->
  ends (S := S)
    [vgain_message (va_vgain_value args) (if va_configure_all args then 0 else va_afe args)]
    (Raise (no_attribute "cmd_writeAFEVgain_response")) (configure_vgain args).
Proof.
  intros Hv Ha. unfold configure_vgain.
  assert (Hstep : forall afe, 0 <= afe < 5 -> ends (S := S) [vgain_message (va_vgain_value args) afe]
    (Raise (no_attribute "cmd_writeAFEVgain_response"))
    (write_vgain_misspelt afe (va_vgain_value args))).
  { intros afe Hafe. do 2 (apply ends_u32; [lia|]). by apply (ends_missing resp). }
  destruct (va_configure_all args).
  - apply (ends_bind_raise _ _ _ (fun _ => for_each (seqZ 1 4) _)). apply Hstep. lia.
  - apply (ends_bind_raise _ _ _ (fun _ => ret tt)). by apply Hstep.
Qed.

(** [protobuf_configure_vbias_trim] on any peer: with [-set_as_DAC] it ends with [NameError]
    before anything is sent, a voltage without a DAC code is an error before anything is sent,
    and otherwise the messages are those of the two codes and the trim, in this order. *)
Theorem configure_vbias_trim_sends {S B : Type} `{Peer S B, !Proto B (ControlEnvelope B)}
    `{!Proto B cmd_writeTrim_singleChannel, !Proto B cmd_writeTrim_singleChannel_response}
    `{!Proto B cmd_writeVbiasControl, !Proto B cmd_writeVbiasControl_response}
    `{!Proto B cmd_writeAFEBiasSet, !Proto B cmd_writeAFEBiasSet_response} args :
  0 <= vb_channel args < 40 ->
  if vb_set_as_DAC args then
    forall w : zworld S B,
      configure_vbias_trim args w = (Raise (not_defined "biasControlDAC"), w)
  else
    match bias_code (vb_bias args), control_code (vb_bias_control args) with
    | Ok d, Ok c => sends (S := S) (fun _ => True) (vbias_plan args d c) (configure_vbias_trim args)
    | Raise e, _ | Ok _, Raise e =>
        forall w : zworld S B, configure_vbias_trim args w = (Raise e, w)
    end.
Proof.
  intros Hch. pose proof (vbias_dacs_run args Hch) as Hd. unfold configure_vbias_trim.
  destruct (vb_set_as_DAC args) eqn:Hset.
  { intros w. unfold vbias_dacs, bind, lift. by rewrite Hset. }
  specialize (Hd eq_refl).
  destruct (bias_code (vb_bias args)) as [d|e]; [destruct (control_code (vb_bias_control args)) as [c|e]|];
    try (intros w; by rewrite Hd).
  destruct Hd as (dacs & Hd & Hi). rewrite Hd. apply sends_lift. intros ? [= <-]. cbn beta iota.
  rewrite Hi. apply v1_sends_u32. apply (v1_sends_bind (fun _ => True) _ [_]); [apply v1_sends_request|].
  intros _ _. do 2 apply v1_sends_u32. apply (v1_sends_bind (fun _ => True) _ [_]); [apply v1_sends_request|].
  intros _ _. do 2 apply v1_sends_u32. apply v1_sends_request.
Qed.

(** The check of [protobuf_configure_afeFunction] refuses a value outside a list, or that is not
    0 or 1 for a flag, but no value at all for a function with a range of integers: the two
    comparisons are joined by [and]. *)
Theorem check_afe_value_ok func value :
  check_afe_value func value = Ok tt <->
  exists valid_range, assoc available_afe_functions func func = Ok valid_range /\
    accepted valid_range value.
Proof.
  unfold check_afe_value. pose proof (range_proper func) as Hp.
  destruct (assoc available_afe_functions func func) as [l|e]; cbn [rbind].
  2: { split; [done|]. by intros (x & ? & _). }
  assert (Hl : forall P : Prop, (P <-> accepted l value) ->
    (P <-> exists l', Ok l = Ok l' /\ accepted l' value)).
  { intros P ->. split; [eauto|by intros (x & [= <-] & ?)]. }
  apply Hl. clear Hl.
  assert (Hother : forall e,
    (if bool_decide (value ∈ l) then Ok tt else Raise e) = Ok tt <-> value ∈ l).
  { intros e. destruct (bool_decide_reflect (value ∈ l)); by split. }
  destruct l as [|lo [|hi [|x l]]]; try apply Hother. cbn [accepted]. clear Hother.
  specialize (Hp lo hi eq_refl).
  destruct (Z.eqb_spec lo 0) as [->|Hlo]; [destruct (Z.eqb_spec hi 1) as [->|Hhi]|]; cbn [andb].
  - destruct (bool_decide_reflect (value ∈ [0; 1])) as [Hin|Hin]; set_unfold in Hin.
    + split; [|done]. intros _ _. lia.
    + split; [done|]. intros Hv. lia.
  - destruct (Z.leb_spec value 0), (Z.leb_spec hi value); cbn [andb]; split; try done; lia.
  - destruct (Z.leb_spec value lo), (Z.leb_spec hi value); cbn [andb]; split; try done; lia.
Qed.

(** Every value [afe_function_v2] accepts is accepted, and of the others those that miss the range
    of a function that has one. *)
Theorem check_afe_value_weaker func value :
  (validate_value func value = Ok tt -> check_afe_value func value = Ok tt) /\
  (check_afe_value func value = Ok tt -> validate_value func value <> Ok tt ->
   exists lo hi, assoc available_afe_functions func func = Ok [lo; hi] /\
     (lo <> 0 \/ hi <> 1) /\ (value < lo \/ hi < value)).
Proof.
  rewrite validate_value_ok, check_afe_value_ok. split.
  - intros (l & Hl & Ha). exists l. split; [done|].
    destruct l as [|lo [|hi [|x l]]]; try done. cbn in *. lia.
  - intros (l & Hl & Ha) Hn. destruct l as [|lo [|hi [|x l]]]; try (by destruct Hn; eexists).
    exists lo, hi. split; [done|]. destruct (decide (lo <= value <= hi)) as [Hr|Hr].
    { destruct Hn. by exists [lo; hi]. }
    cbn in Ha. split; lia.
Qed.

(** [protobuf_configure_afeFunction] on any peer: one write, or nothing and an error. *)
Theorem configure_afeFunction_sends {S B : Type} `{Peer S B, !Proto B (ControlEnvelope B)}
    `{!WriteMessages B} args :
  match check_afe_value (af_afeFunction args) (af_value args) with
  | Ok _ => sends (S := S) (fun _ => True)
      [function_message (af_afeNumber args) (af_afeFunction args, af_value args)]
      (configure_afeFunction args)
  | Raise e => forall w : zworld S B, configure_afeFunction args w = (Raise e, w)
  end.
Proof.
  unfold configure_afeFunction.
  destruct (check_afe_value (af_afeFunction args) (af_value args)) as [u|e]; [|done].
  apply sends_lift. intros _ _. do 2 apply v1_sends_u32. apply v1_sends_request.
Qed.

(** The request of [configure_fe_min] is that of [configure_fe_min_v2] with another threshold of
    the self trigger and without the bias control. *)
Theorem min_config_agrees ip :
  min_config (min_defaults ip) = make_default_config {|
    p_ip := ip; p_slot := p_slot default_params; p_timeout_ms := p_timeout_ms default_params;
    p_biasctrl := 0; p_threshold := 0x1F40; p_xcorr := p_xcorr default_params;
    p_tp_conf := p_tp_conf default_params; p_compensator := p_compensator default_params;
    p_inverters := p_inverters default_params; p_per_ch_trim := p_per_ch_trim default_params;
    p_per_ch_offset := p_per_ch_offset default_params; p_vgain := p_vgain default_params;
    p_lpf_cutoff := p_lpf_cutoff default_params; p_pga_clamp_level := p_pga_clamp_level default_params;
    p_pga_gain := p_pga_gain default_params; p_lna_gain := p_lna_gain default_params;
    p_lna_clamp := p_lna_clamp default_params |}.
Proof. vm_compute. reflexivity. Qed.

(** [configure_fe_min] on any peer sends its one request and ends with 0 or 1. *)
Theorem fe_min_main_sends {S B : Type} `{Peer S B, !Proto B (ControlEnvelope B)}
    `{!Proto B ConfigureRequest, !Proto B ConfigureResponse} host cfg :
  min_config (min_defaults host) = Ok cfg ->
  sends (S := S) (fun z => z = 0 \/ z = 1) [ser (Env1 CONFIGURE_FE (ser cfg))] (fe_min_main host).
Proof.
  intros Hcfg. unfold fe_min_main. rewrite Hcfg. apply sends_lift. intros ? [= <-].
  apply (v1_sends_bind (fun _ => True) _ [_] []); [apply v1_sends_exchange|]. intros f _.
  apply v1_sends_step; [apply unsent_lift|]. intros env. destruct (negb _).
  - apply v1_sends_step; [done|]. intros _. apply sends_ret. auto.
  - apply v1_sends_step; [apply unsent_lift|]. intros out. do 2 (apply v1_sends_step; [done|]; intros _).
    apply sends_ret. auto.
Qed.

(** [protobuf_client_test] sends nothing at all when the first device of the file has an AFE: the
    field [SB_first] does not exist. *)
Theorem client_test_sends_nothing {S B : Type} `{Peer S B, !Proto B (ControlEnvelope B)}
    `{!Proto B ConfigureRequest, !Proto B ConfigureResponse, !Proto B ConfigureCLKsResponse}
    show_env text name device rest afes ids n (w : zworld S B) :
  json_loads text = Ok (PyDict ((name, device) :: rest)) ->
  item device "afes" = Ok afes -> item afes "ids" = Ok ids -> py_len ids = Ok (Datatypes.S n) ->
  exists e, client_test show_env (Some text) w = (Raise e, w).
Proof.
  intros Hj Ha Hi Hn.
  assert (He : exists e, test_request device = Raise e).
  { destruct (test_request device) as [r|e] eqn:Hr; [exfalso|eauto]. unfold test_request in Hr.
    run_fields Hr. rewrite Ha in *. simplify_eq. 
    match goal with H : test_afes _ = Ok _ |- _ => rename H into Ht end.
    unfold test_afes in Ht. run_fields Ht. rewrite Hi in *. simplify_eq.
    rewrite Hn in *. simplify_eq. cbn in Ht. apply rbind_ok in Ht as (a & Ht & _).
    unfold test_afe in Ht. run_fields Ht. done. }
  destruct He as [e He]. exists e. unfold client_test. rewrite Hj. unfold bind, lift. cbn.
  unfold test_device, bind, lift. by rewrite He.
Qed.
