(* ===== verification/FirstGenDaphne.v ===== *)
(** The two first-generation scripts that bring up a whole board:
    [client/protobuf_configure_daphne.py], and [client/protobuf_client_spybuffer_dump.py], which
    means to take a waveform afterwards.  The first programs the same registers as its successor
    [protobuf_configure_daphne_v2] ([V2Config]); the second never gets to the waveform. *)
From S2P Require Import Prelude PyStr PyFloat PyVal EnvelopeV2 Requests FeConfig FeMain.
From S2P Require Import SpyAcquire V2Config SmokeMessages FirstGen.

Section daphne.
Context {S B : Type} `{Peer S B, !Proto B (ControlEnvelope B), !WriteMessages B}.
Abbreviation Wd := (zworld S B).

(** ** [protobuf_configure_daphne] *)

(** The options and the tables are those of the second generation ([v2_args], [v2_lookups]). *)
Context (args : v2_args).

Definition write_offset_v1 (offsetCH : Z) : M Wd unit :=
  c <- lift (set_u32 offsetCH) ;;
  v <- lift (set_u32 (v_ch_offset args)) ;;
  request_v1 cmd_writeOFFSET_singleChannel_response WRITE_OFFSET_CH (ser (WriteOffset c v false)).

Definition write_vgain_v1 (afe : Z) : M Wd unit :=
  a <- lift (set_u32 afe) ;;
  v <- lift (set_u32 (v_vgain args)) ;;
  request_v1 cmd_writeAFEVGAIN_response WRITE_AFE_VGAIN (ser (WriteVgain a v)).

Definition do_reset_v1 : M Wd unit :=
  request_v1 cmd_doAFEReset_response DO_AFE_RESET (ser DoReset).

Definition set_power_v1 (on : bool) : M Wd unit :=
  request_v1 cmd_setAFEPowerState_response SET_AFE_POWERSTATE (ser (SetPowerState on)).

(** One block of the loop over the AFEs. *)
Definition write_function_v1 (afe : Z) (nv : string * Z) : M Wd unit :=
  a <- lift (set_u32 afe) ;;
  v <- lift (set_u32 (snd nv)) ;;
  request_v1 cmd_writeAFEFunction_response WRITE_AFE_FUNCTION (ser (WriteFunction a (fst nv) v)).

(** The functions of the loop: those of the converter, of the PGA and of the LNA. *)
Definition adc_functions_v1 (k : v2_codes) : list (string * Z) :=
  [("SERIALIZED_DATA_RATE", 1); ("ADC_OUTPUT_FORMAT", 1); ("LPF_PROGRAMMABILITY", k_lpf k)].

Definition pga_functions_v1 (k : v2_codes) : list (string * Z) :=
  [("PGA_INTEGRATOR_DISABLE", Z.b2z (negb (v_enable_integrators args)));
   ("PGA_CLAMP_LEVEL", k_pga_clamp k); ("ACTIVE_TERMINATION_ENABLE", 0)].

Definition lna_functions_v1 (k : v2_codes) : list (string * Z) :=
  [("LNA_INPUT_CLAMP_SETTING", k_lna_clamp k);
   ("LNA_INTEGRATOR_DISABLE", Z.b2z (negb (v_enable_integrators args)));
   ("LNA_GAIN", k_lna_gain k)].

Definition functions_v1 (k : v2_codes) : list (string * Z) :=
  adc_functions_v1 k ++ pga_functions_v1 k ++ lna_functions_v1 k.

Definition align_v1 : M Wd unit :=
  request_v1 cmd_alignAFEs_response ALIGN_AFE (ser AlignAFEs).

(** The script, from the connected socket on. *)
Definition configure_daphne : M Wd unit :=
  k <- lift (v2_lookups args) ;;
  for_each (seqZ 0 40) write_offset_v1 ;;;
  for_each (seqZ 0 5) write_vgain_v1 ;;;
  do_reset_v1 ;;;
  set_power_v1 true ;;;
  for_each (seqZ 0 5) (fun afe => for_each (functions_v1 k) (write_function_v1 afe)) ;;;
  set_power_v1 true ;;;
  when (v_align_afes args) align_v1.

End daphne.

(** ** [protobuf_client_spybuffer_dump] *)

Section dump.
Context {S B : Type} `{Peer S B, !Proto B (ControlEnvelope B), !WriteMessages B}.
Context `{!Proto B cmd_doSoftwareTrigger, !Proto B cmd_doSoftwareTrigger_response}.
Abbreviation Wd := (zworld S B).

Definition DO_SOFTWARE_TRIGGER : Z := 32.

#[export] Instance trigger_status : Status cmd_doSoftwareTrigger_response :=
  { st_success := dt_success; st_message := dt_message }.

(** A new [REQ] socket for every request: what still came for the socket before is lost, and of
    the reply the first frame is read. *)
Definition fresh_request (envelope : B) : M Wd B :=
  modify (fun w => set_reading w [] []) ;;;
  z_send envelope ;;;
  z_recv.

Definition dump_request_v1 (R : Type) `{!Proto B R, !Status R} (ty : Z) (payload : B) : M Wd unit :=
  response_bytes <- fresh_request (ser (Env1 ty payload)) ;;
  report R ty response_bytes.

Definition dump_offset (offsetCH : Z) : M Wd unit :=
  c <- lift (set_u32 offsetCH) ;;
  v <- lift (set_u32 2275) ;;
  dump_request_v1 cmd_writeOFFSET_singleChannel_response WRITE_OFFSET_CH (ser (WriteOffset c v false)).

Definition dump_vgain (afe : Z) : M Wd unit :=
  a <- lift (set_u32 afe) ;;
  v <- lift (set_u32 1600) ;;
  response_bytes <- fresh_request (ser (Env1 WRITE_AFE_VGAIN (ser (WriteVgain a v)))) ;;
  report_missing "cmd_writeAFEVgain_response" WRITE_AFE_VGAIN response_bytes.

Definition dump_reset : M Wd unit :=
  dump_request_v1 cmd_doAFEReset_response DO_AFE_RESET (ser DoReset).

Definition dump_power (on : bool) : M Wd unit :=
  dump_request_v1 cmd_setAFEPowerState_response SET_AFE_POWERSTATE (ser (SetPowerState on)).

(** The functions written to each AFE, one block of the loop each. *)
Definition dump_adc_functions : list (string * Z) :=
  [("SERIALIZED_DATA_RATE", 1); ("ADC_OUTPUT_FORMAT", 1); ("LPF_PROGRAMMABILITY", 4)].

Definition dump_pga_functions : list (string * Z) :=
  [("PGA_INTEGRATOR_DISABLE", 1); ("PGA_CLAMP_LEVEL", 2); ("ACTIVE_TERMINATION_ENABLE", 0)].

Definition dump_lna_functions : list (string * Z) :=
  [("LNA_INPUT_CLAMP_SETTING", 2); ("LNA_INTEGRATOR_DISABLE", 1); ("LNA_GAIN", 2)].

Definition dump_functions : list (string * Z) :=
  dump_adc_functions ++ dump_pga_functions ++ dump_lna_functions.

Definition dump_function (afe : Z) (nv : string * Z) : M Wd unit :=
  a <- lift (set_u32 afe) ;;
  v <- lift (set_u32 (snd nv)) ;;
  dump_request_v1 cmd_writeAFEFunction_response WRITE_AFE_FUNCTION (ser (WriteFunction a (fst nv) v)).

Definition dump_align : M Wd unit :=
  dump_request_v1 cmd_alignAFEs_response ALIGN_AFE (ser AlignAFEs).

Definition dump_trigger : M Wd unit :=
  dump_request_v1 cmd_doSoftwareTrigger_response DO_SOFTWARE_TRIGGER (ser DoTrigger).

(** [request.channel = 0]: the field of the request is [channelList], so the script ends here and
    what follows (the dump and its plot) is never run. *)
Definition dump_waveform : M Wd unit :=
  raise (no_field "DumpSpyBuffersRequest" "channel").

Definition spybuffer_dump : M Wd unit :=
  for_each (seqZ 0 40) dump_offset ;;;
  for_each (seqZ 0 5) dump_vgain ;;;
  dump_reset ;;;
  dump_power false ;;;
  for_each (seqZ 0 5) (fun afe => for_each dump_functions (dump_function afe)) ;;;
  dump_power true ;;;
  dump_align ;;;
  dump_trigger ;;;
  dump_waveform.

End dump.

(** ** The messages *)

Section daphne_plan.
Context {B : Type} `{!Proto B (ControlEnvelope B), !WriteMessages B}.
Context (args : v2_args) (k : v2_codes).

Definition reset_message : B := ser (Env1 DO_AFE_RESET (ser DoReset)).
Definition power_message (on : bool) : B := ser (Env1 SET_AFE_POWERSTATE (ser (SetPowerState on))).
Definition align_message : B := ser (Env1 ALIGN_AFE (ser AlignAFEs)).

(** The functions of all AFEs, in order. *)
Definition functions_of (l : list (string * Z)) : list (Z * (string * Z)) :=
  concat ((fun afe => pair afe <$> l) <$> seqZ 0 5).

Definition function_messages (l : list (string * Z)) : list B :=
  (fun anv => function_message (fst anv) (snd anv)) <$> functions_of l.

Definition v1_plan : list B :=
  (offset_message (v_ch_offset args) <$> seqZ 0 40)
  ++ (vgain_message (v_vgain args) <$> seqZ 0 5)
  ++ [reset_message; power_message true]
  ++ function_messages (functions_v1 args k)
  ++ power_message true :: (if v_align_afes args then [align_message] else []).

(** The messages of [spybuffer_dump] up to the first answer about an attenuator. *)
Definition dump_plan : list B :=
  (offset_message 2275 <$> seqZ 0 40) ++ [vgain_message 1600 0].

(** ** What they do to a board *)

(** The request of the second generation with the same meaning. *)
Definition modern_type (t : Z) : Z :=
  if t =? WRITE_OFFSET_CH then MT2_WRITE_OFFSET_CH_REQ
  else if t =? WRITE_AFE_VGAIN then MT2_WRITE_AFE_VGAIN_REQ
  else if t =? DO_AFE_RESET then MT2_DO_AFE_RESET_REQ
  else if t =? SET_AFE_POWERSTATE then MT2_SET_AFE_POWERSTATE_REQ
  else if t =? WRITE_AFE_FUNCTION then MT2_WRITE_AFE_FUNCTION_REQ
  else if t =? ALIGN_AFE then MT2_ALIGN_AFE_REQ
  else 0.

Context (after_reset : Z -> string -> option Z).

Definition apply_message (r : regs) (b : B) : regs :=
  match parse (A := ControlEnvelope B) b with
  | Ok env => apply_request after_reset r (modern_type (v1_type env), v1_payload env)
  | Raise _ => r
  end.

Context `{!ProtoLaws B (ControlEnvelope B)}.
Context `{!ProtoLaws B cmd_writeOFFSET_singleChannel, !ProtoLaws B cmd_writeAFEVGAIN}.
Context `{!ProtoLaws B cmd_setAFEPowerState, !ProtoLaws B cmd_writeAFEFunction}.

Lemma message_block {A : Type} (msg : A -> B) (wr : A -> reg * Z) l r :
  (forall r a, apply_message r (msg a) = upd r (wr a)) ->
  foldl apply_message r (msg <$> l) = foldl upd r (wr <$> l).
Proof using Type.
  intros Hone. revert r. induction l as [|a l IH]; intros r; [done|].
  cbn [fmap list_fmap foldl]. by rewrite Hone, IH.
Qed.

Lemma message_offset r ch :
  apply_message r (offset_message (v_ch_offset args) ch) = upd r (ROffset ch, v_ch_offset args).
Proof using Type*. unfold apply_message, offset_message. rewrite parse_ser. by apply apply_offset. Qed.

Lemma message_vgain r afe :
  apply_message r (vgain_message (v_vgain args) afe) = upd r (RVgain afe, v_vgain args).
Proof using Type*. unfold apply_message, vgain_message. rewrite parse_ser. by apply apply_vgain. Qed.

Lemma message_power r : apply_message r (power_message true) = upd r (RPower, 1).
Proof using Type*. unfold apply_message, power_message. rewrite parse_ser. by apply apply_power. Qed.

Lemma message_reset r :
  apply_message r reset_message = apply_request after_reset r (MT2_DO_AFE_RESET_REQ, ser DoReset).
Proof using Type*. unfold apply_message, reset_message. by rewrite parse_ser. Qed.

Lemma message_align r : apply_message r align_message = r.
Proof using Type*. unfold apply_message, align_message. by rewrite parse_ser. Qed.

(** A write of a function of an AFE. *)
Definition function_write_of (anv : Z * (string * Z)) : reg * Z :=
  (RFunction (fst anv) (fst (snd anv)), snd (snd anv)).

Lemma message_function r anv :
  apply_message r (function_message (fst anv) (snd anv)) = upd r (function_write_of anv).
Proof using Type*.
  unfold apply_message, function_message. rewrite parse_ser.
  by apply (apply_function after_reset r anv).
Qed.

End daphne_plan.

(** Writes to different registers commute. *)
Lemma writes_permuted l l' (r : regs) q :
  l ≡ₚ l' -> NoDup l.*1 -> foldl upd r l q = foldl upd r l' q.
Proof.
  intros Hp Hnd. destruct (decide (q ∈ l.*1)) as [Hq|Hq].
  - apply list_elem_of_fmap in Hq as ([a v] & -> & Hin). cbn.
    rewrite !(writes_inside _ _ a v); [done| | |done|done].
    + by rewrite <- Hp.
    + by rewrite <- Hp.
  - rewrite !writes_outside; [done| |done]. by rewrite <- Hp.
Qed.

(** The last two functions are swapped between the generations. *)
Lemma functions_permuted args k : functions_v1 args k ≡ₚ afe_functions args k.
Proof. unfold functions_v1, afe_functions. cbn. do 7 apply perm_skip. apply perm_swap. Qed.

Lemma functions_of_permuted l l' : l ≡ₚ l' -> functions_of l ≡ₚ functions_of l'.
Proof.
  intros Hp. unfold functions_of. induction (seqZ 0 5) as [|afe s IH]; [done|].
  cbn [fmap list_fmap concat]. apply Permutation_app; [|done]. by rewrite Hp.
Qed.

(** ** Lemmas *)

Section bring_up.
Context {S B : Type} `{Peer S B, !Proto B (ControlEnvelope B), !WriteMessages B}.
Abbreviation Wd := (zworld S B).

(** The two loops over the AFEs and their functions. *)
Lemma functions_messages (f : Z -> string * Z -> M Wd unit) l :
  (forall afe nv, sends (fun _ => True) [function_message afe nv] (f afe nv)) ->
  sends (fun _ => True) (function_messages l)
    (for_each (seqZ 0 5) (fun afe => for_each l (f afe))).
Proof using Type.
  intros Hf. unfold function_messages, functions_of.
  replace (_ <$> concat ((fun afe => pair afe <$> l) <$> seqZ 0 5))
    with (concat ((fun afe => function_message afe <$> l) <$> seqZ 0 5)).
  - apply sends_each_concat. intros afe _. by apply sends_each.
  - induction (seqZ 0 5) as [|afe s IH]; [done|]. cbn [fmap list_fmap concat].
    rewrite fmap_app, <- IH. f_equal. by rewrite <- list_fmap_compose.
Qed.

Lemma sends_configure_daphne args k :
  v2_lookups args = Ok k ->
  sends (fun _ => True) (v1_plan args k) (configure_daphne (S := S) args).
Proof using Type.
  intros Hk. unfold configure_daphne, v1_plan. rewrite Hk. apply sends_lift. intros ? [= <-].
  apply (v1_sends_bind (fun _ => True)).
  { apply sends_each. intros ch _. do 2 apply v1_sends_u32. apply v1_sends_request. }
  intros _ _. apply (v1_sends_bind (fun _ => True)).
  { apply sends_each. intros afe _. do 2 apply v1_sends_u32. apply v1_sends_request. }
  intros _ _. apply (v1_sends_bind (fun _ => True) _ [_] (_ :: _)); [apply v1_sends_request|intros _ _].
  apply (v1_sends_bind (fun _ => True) _ [_]); [apply v1_sends_request|intros _ _].
  apply (v1_sends_bind (fun _ => True)).
  { apply functions_messages. intros afe nv. do 2 apply v1_sends_u32. apply v1_sends_request. }
  intros _ _. apply (v1_sends_bind (fun _ => True) _ [_]); [apply v1_sends_request|intros _ _].
  destruct (v_align_afes args); [apply v1_sends_request|by apply sends_ret].
Qed.

(** A quiet run of the loops. *)
Lemma functions_end (f : Z -> string * Z -> M Wd unit) l :
  (forall afe nv, 0 <= afe < 5 -> nv ∈ l -> ends [function_message afe nv] (Ok tt) (f afe nv)) ->
  ends (function_messages l) (Ok tt) (for_each (seqZ 0 5) (fun afe => for_each l (f afe))).
Proof using Type.
  intros Hf. unfold function_messages, functions_of.
  assert (Hs : forall s, (forall afe, afe ∈ s -> 0 <= afe < 5) ->
    ends ((fun anv => function_message (fst anv) (snd anv)) <$>
            concat ((fun afe => pair afe <$> l) <$> s)) (Ok tt)
      (for_each s (fun afe => for_each l (f afe)))).
  { induction s as [|afe s IH]; intros Hin; [apply ends_ret|].
    cbn [for_each fmap list_fmap concat]. rewrite fmap_app, <- list_fmap_compose.
    apply (ends_bind _ _ tt).
    - apply ends_each. intros nv Hnv. apply Hf; [|done]. apply Hin, list_elem_of_here.
    - apply IH. intros b Hb. apply Hin. by apply list_elem_of_further. }
  apply Hs. intros afe Hafe. apply elem_of_seqZ in Hafe. lia.
Qed.

Context (resp : Z -> B -> B) `{!Answering1 (S := S) resp, !ProtoLaws B (ControlEnvelope B)}.

Lemma lookups_small args k : v2_lookups args = Ok k ->
  Forall (fun nv => 0 <= snd nv < 2 ^ 32) (functions_v1 args k).
Proof using Type.
  intros Hk. unfold v2_lookups in Hk. repeat apply rbind_ok in Hk as (? & ? & Hk). simplify_eq.
  assert (Hsmall : forall {K} `{EqDecision K} (d : list (K * Z)) key text v,
    forallb (fun kv => (0 <=? snd kv) && (snd kv <=? 7)) d = true ->
    assoc d key text = Ok v -> 0 <= v < 2 ^ 32).
  { intros K HK d key text v Hd Ha. unfold assoc in Ha.
    destruct (find _ d) as [[key' v']|] eqn:Hf; [|done]. injection Ha as ->.
    apply find_some in Hf as [Hin _]. rewrite forallb_forall in Hd. apply Hd in Hin. cbn in Hin. lia. }
  repeat match goal with H : assoc _ _ _ = Ok _ |- _ => apply Hsmall in H; [|reflexivity] end.
  unfold functions_v1, adc_functions_v1, pga_functions_v1, lna_functions_v1. cbn [app].
  rewrite !Forall_cons, Forall_nil. destruct (v_enable_integrators args); cbn; split_and!; try done; lia.
Qed.

Lemma ends_configure_daphne args k :
  v2_lookups args = Ok k -> 0 <= v_ch_offset args < 2 ^ 32 -> 0 <= v_vgain args < 2 ^ 32 ->
  answers_with resp cmd_writeOFFSET_singleChannel_response WRITE_OFFSET_CH ->
  answers_with resp cmd_writeAFEVGAIN_response WRITE_AFE_VGAIN ->
  answers_with resp cmd_doAFEReset_response DO_AFE_RESET ->
  answers_with resp cmd_setAFEPowerState_response SET_AFE_POWERSTATE ->
  answers_with resp cmd_writeAFEFunction_response WRITE_AFE_FUNCTION ->
  answers_with resp cmd_alignAFEs_response ALIGN_AFE ->
  ends (v1_plan args k) (Ok tt) (configure_daphne (S := S) args).
Proof using All.
  intros Hk Ho Hv A1 A2 A3 A4 A5 A6. pose proof (lookups_small args k Hk) as Hsmall.
  unfold configure_daphne, v1_plan. rewrite Hk. apply (ends_step _ k); [apply ends_lift|].
  apply (ends_bind _ _ tt).
  { apply ends_each. intros ch Hch. apply elem_of_seqZ in Hch. do 2 (apply ends_u32; [lia|]).
    by apply (ends_request resp). }
  apply (ends_bind _ _ tt).
  { apply ends_each. intros afe Ha. apply elem_of_seqZ in Ha. do 2 (apply ends_u32; [lia|]).
    by apply (ends_request resp). }
  apply (ends_bind [_] (_ :: _) tt); [by apply (ends_request resp)|].
  apply (ends_bind [_] _ tt); [by apply (ends_request resp)|].
  apply (ends_bind _ (_ :: _) tt).
  { apply functions_end. intros afe nv Ha Hin. rewrite Forall_forall in Hsmall.
    specialize (Hsmall nv Hin). cbv beta in Hsmall. unfold write_function_v1.
    do 2 (apply ends_u32; [lia|]). by apply (ends_request resp). }
  apply (ends_bind [_] _ tt); [by apply (ends_request resp)|].
  destruct (v_align_afes args); [by apply (ends_request resp)|apply ends_ret].
Qed.

(** A request on a socket of its own. *)
Lemma sends_fresh b : sends (fun _ => True) [b] (fresh_request b : M Wd B).
Proof using Type.
  apply v1_sends_step; [done|]. intros _. eapply sends_then; [apply v1_sends_send|]. intros _.
  apply unsent_recv.
Qed.

Lemma sends_dump_request (R : Type) `{!Proto B R, !Status R} ty b :
  sends (fun _ => True) [ser (Env1 ty b)] (dump_request_v1 R ty b : M Wd unit).
Proof using Type. eapply sends_then; [apply sends_fresh|]. intros f. apply v1_unsent_report. Qed.

Lemma ends_fresh ty b :
  ends [ser (Env1 ty b)] (Ok (ser (Env1 ty (resp ty b)))) (fresh_request (ser (Env1 ty b)) : M Wd B).
Proof using All.
  intros w Hw. unfold fresh_request.
  destruct (a1_answer (srv w) ty b) as [s' Hs].
  unfold modify, bind, z_send, set_reading. cbn. rewrite (a1_send (srv w)), Hs.
  unfold z_recv. cbn. eexists. split; [reflexivity|]. by split.
Qed.

Lemma ends_dump_request (R : Type) `{!Proto B R, !Status R} ty b :
  answers_with resp R ty -> ends [ser (Env1 ty b)] (Ok tt) (dump_request_v1 R ty b : M Wd unit).
Proof using All.
  intros HR. apply (ends_bind [_] [] (ser (Env1 ty (resp ty b)))); [apply ends_fresh|].
  by apply (ends_report resp).
Qed.

End bring_up.

(** The registers after the plan of the first generation. *)
Lemma plans_agree {B : Type} `{!Proto B (ControlEnvelope B), !WriteMessages B}
    `{!ProtoLaws B (ControlEnvelope B)}
    `{!ProtoLaws B cmd_writeOFFSET_singleChannel, !ProtoLaws B cmd_writeAFEVGAIN}
    `{!ProtoLaws B cmd_setAFEPowerState, !ProtoLaws B cmd_writeAFEFunction}
    args k after_reset (r : regs) q :
  foldl (apply_message (B := B) after_reset) r (v1_plan args k) q =
  foldl (apply_request (B := B) after_reset) r (v2_plan args k) q.
Proof.
  rewrite apply_plan by done. unfold v1_plan. rewrite !foldl_app.
  rewrite (message_block _ _ _ (seqZ 0 40) _ (fun r ch => message_offset args after_reset r ch)).
  rewrite (message_block _ _ _ (seqZ 0 5) _ (fun r afe => message_vgain args after_reset r afe)).
  unfold function_messages.
  rewrite (message_block _ _ _ (functions_of _) _ (message_function after_reset)).
  cbn [foldl]. rewrite !message_power, message_reset by done.
  assert (Hal : forall r', foldl (apply_message after_reset) r'
    (if v_align_afes args then [align_message] else []) = r').
  { intros r'. destruct (v_align_afes args); [by apply message_align|done]. }
  rewrite Hal. clear Hal. set (r1 := upd (apply_request _ _ _) _).
  assert (Hp : forall q', foldl upd r1 (function_write_of <$> functions_of (functions_v1 args k)) q' =
                       foldl upd r1 (function_writes args k) q').
  { intros q'. symmetry. apply writes_permuted; [|apply function_nodup].
    unfold function_writes, all_functions. apply fmap_Permutation. symmetry.
    apply functions_of_permuted, functions_permuted. }
  unfold upd at 1. cbn [fst snd]. destruct (decide (q = RPower)) as [->|Hq]; [|apply Hp].
  rewrite writes_outside by (by apply no_function). unfold r1, upd. cbn [fst snd].
  by rewrite decide_True.
Qed.

(** ** Properties *)

(** C19. [protobuf_configure_daphne] and its successor agree: on any peer the first generation
    sends a first part of its plan, and when it ends normally its messages bring any board to the
    very registers the requests of [protobuf_configure_daphne_v2] bring it to with the same
    options, although the two send them in different orders and the first powers the AFEs
    twice. *)
Theorem configure_daphne_matches_v2 {S B : Type} `{Peer S B, !Proto B (ControlEnvelope B)}
    `{!WriteMessages B} (HE : ProtoLaws B (ControlEnvelope B))
    (HO : ProtoLaws B cmd_writeOFFSET_singleChannel) (HV : ProtoLaws B cmd_writeAFEVGAIN)
    (HP : ProtoLaws B cmd_setAFEPowerState) (HF : ProtoLaws B cmd_writeAFEFunction)
    args codes after_reset (w : zworld S B) :
  v2_lookups args = Ok codes ->
  exists q : list B,
    sent (snd (configure_daphne args w)) = sent w ++ q /\ q `prefix_of` v1_plan args codes /\
    (fst (configure_daphne args w) = Ok tt -> forall r reg,
       foldl (apply_message after_reset) r q reg =
       foldl (apply_request after_reset) r (v2_plan (B := B) args codes) reg).
Proof.
  intros Hk. destruct (sends_configure_daphne (S := S) args codes Hk w) as (q & Hs & Hp & Hn).
  exists q. split_and!; [done|done|]. intros Hok r reg. destruct (Hn tt Hok) as [-> _].
  by apply plans_agree.
Qed.

(** With a server of its generation that answers, the script sends the whole plan and ends. *)
Theorem configure_daphne_completes {S B : Type} `{Peer S B, !Proto B (ControlEnvelope B)}
    `{!WriteMessages B} resp (HA : Answering1 (S := S) resp) (HE : ProtoLaws B (ControlEnvelope B))
    args codes (w : zworld S B) :
  v2_lookups args = Ok codes -> 0 <= v_ch_offset args < 2 ^ 32 -> 0 <= v_vgain args < 2 ^ 32 ->
  answers_with resp cmd_writeOFFSET_singleChannel_response WRITE_OFFSET_CH ->
  answers_with resp cmd_writeAFEVGAIN_response WRITE_AFE_VGAIN ->
  answers_with resp cmd_doAFEReset_response DO_AFE_RESET ->
  answers_with resp cmd_setAFEPowerState_response SET_AFE_POWERSTATE ->
  answers_with resp cmd_writeAFEFunction_response WRITE_AFE_FUNCTION ->
  answers_with resp cmd_alignAFEs_response ALIGN_AFE ->
  calm w ->
  exists w', configure_daphne args w = (Ok tt, w') /\ calm w' /\
    sent w' = sent w ++ v1_plan args codes.
Proof. intros. by apply (ends_configure_daphne resp). Qed.

(** [protobuf_client_spybuffer_dump] never takes a waveform. On any peer it ends with an
    exception, and no message it sends is a dump request: they are a first part of the
    configuration, the alignment and the trigger. With a server that answers it does not get past
    the first attenuator: the forty offsets are written, the AFEs are neither reset nor powered. *)
Theorem spybuffer_dump_never_dumps {S B : Type} `{Peer S B, !Proto B (ControlEnvelope B)}
    `{!WriteMessages B, !Proto B cmd_doSoftwareTrigger, !Proto B cmd_doSoftwareTrigger_response}
    (HE : ProtoLaws B (ControlEnvelope B)) (w : zworld S B) :
  (exists e, fst (spybuffer_dump w) = Raise e) /\
  (exists q : list B, sent (snd (spybuffer_dump w)) = sent w ++ q /\
     Forall (fun b => exists env, parse b = Ok env /\ v1_type env <> DUMP_SPYBUFFER) q) /\
  (forall resp, Answering1 (S := S) resp ->
     answers_with resp cmd_writeOFFSET_singleChannel_response WRITE_OFFSET_CH ->
     calm w ->
     exists w', spybuffer_dump w = (Raise (no_attribute "cmd_writeAFEVgain_response"), w') /\
       sent w' = sent w ++ dump_plan).
Proof.
  set (plan := (offset_message 2275 <$> seqZ 0 40) ++ (vgain_message 1600 <$> seqZ 0 5)
    ++ reset_message :: power_message false :: function_messages dump_functions
    ++ [power_message true; align_message; ser (Env1 DO_SOFTWARE_TRIGGER (ser DoTrigger))]).
  assert (Hs : sends (S := S) (fun _ => False) plan spybuffer_dump).
  { unfold spybuffer_dump, plan. apply (v1_sends_bind (fun _ => True)).
    { apply sends_each. intros ch _. do 2 apply v1_sends_u32. apply sends_dump_request. }
    intros _ _. apply (v1_sends_bind (fun _ => True)).
    { apply sends_each. intros afe _. do 2 apply v1_sends_u32.
      eapply sends_then; [apply sends_fresh|]. intros f. unfold report_missing. unsent_steps. }
    intros _ _. apply (v1_sends_bind (fun _ => True) _ [_]); [apply sends_dump_request|intros _ _].
    apply (v1_sends_bind (fun _ => True) _ [_]); [apply sends_dump_request|intros _ _].
    apply (v1_sends_bind (fun _ => True)).
    { apply functions_messages. intros afe nv. do 2 apply v1_sends_u32. apply sends_dump_request. }
    intros _ _. do 2 (apply (v1_sends_bind (fun _ => True) _ [_]); [apply sends_dump_request|intros _ _]).
    apply (v1_sends_bind (fun _ => True) _ [_] []); [apply sends_dump_request|intros _ _].
    apply sends_raise. }
  destruct (Hs w) as (q & Hq & [rest Hp] & Hn). split_and!.
  - destruct (fst (spybuffer_dump w)) as [u|e]; [by destruct (Hn u eq_refl)|by exists e].
  - exists q. split; [done|].
    assert (Hall : Forall (fun b => exists env, parse b = Ok env /\ v1_type env <> DUMP_SPYBUFFER) plan).
    { unfold plan, function_messages.
      rewrite !Forall_app, !Forall_cons, !Forall_app, !Forall_cons.
      split_and!; try rewrite Forall_fmap; try apply Forall_nil_2;
        unfold compose, offset_message, vgain_message, function_message, reset_message,
          power_message, align_message; try (apply Forall_true; intros x);
        rewrite parse_ser; eexists; by split. }
    rewrite Hp in Hall. by apply Forall_app in Hall as [? _].
  - intros resp HA Ho Hw.
    assert (Hends : ends (S := S) (dump_plan (B := B))
      (Raise (no_attribute "cmd_writeAFEVgain_response")) spybuffer_dump).
    { unfold spybuffer_dump, dump_plan. apply (ends_bind _ _ tt).
      { apply ends_each. intros ch Hch. apply elem_of_seqZ in Hch. do 2 (apply ends_u32; [lia|]).
        by apply (ends_dump_request resp). }
      apply ends_bind_raise. change (seqZ 0 5) with (0 :: seqZ 1 4). cbn [for_each].
      apply ends_bind_raise. do 2 (apply ends_u32; [lia|]).
      eapply (ends_bind [_] []); [apply (ends_fresh resp)|]. by apply (ends_report_missing resp). }
    destruct (Hends w Hw) as (w' & Hr & _ & Hsent). eauto.
Qed.

(** ** An example *)

(** First-generation envelopes over the messages of the second. *)
Inductive fwire : Type :=
  | FEnv (t : Z) (b : fwire)
  | FMsg (b : vwire)
  | FTrigger.

#[export] Instance fwire_env : Proto fwire (ControlEnvelope fwire) := {
  ser e := FEnv (v1_type e) (v1_payload e);
  parse b := match b with FEnv t b => Ok (Env1 t b) | _ => Raise not_this end }.

#[export] Instance fwire_env_laws : ProtoLaws fwire (ControlEnvelope fwire).
Proof. split. by intros []. Qed.

Definition lifted {A : Type} (P : Proto vwire A) : Proto fwire A :=
  {| ser a := FMsg (ser a); parse b := match b with FMsg v => parse v | _ => Raise not_this end |}.

Lemma lifted_laws {A : Type} (P : Proto vwire A) : ProtoLaws vwire A -> @ProtoLaws fwire A (lifted P).
Proof. intros HP. split. intros a. cbn. apply parse_ser. Qed.

#[export] Instance fwire_messages : WriteMessages fwire := {
  wm_offset := lifted _; wm_offset_resp := lifted _; wm_vgain := lifted _;
  wm_vgain_resp := lifted _; wm_reset := lifted _; wm_reset_resp := lifted _;
  wm_power := lifted _; wm_power_resp := lifted _; wm_function := lifted _;
  wm_function_resp := lifted _; wm_align := lifted _; wm_align_resp := lifted _ }.

#[export] Instance fwire_trigger : Proto fwire cmd_doSoftwareTrigger :=
  {| ser _ := FTrigger; parse b := match b with FTrigger => Ok DoTrigger | _ => Raise not_this end |}.
#[export] Instance fwire_trigger_resp : Proto fwire cmd_doSoftwareTrigger_response :=
  {| ser _ := FTrigger; parse b := match b with FTrigger => Ok (DoTriggerResp true "") | _ => Raise not_this end |}.

(** A server that accepts everything. *)
Definition f_answer (t : Z) (_ : fwire) : fwire :=
  FMsg (if t =? WRITE_OFFSET_CH then VOffsetR (WriteOffsetResp true "" 0 0 false)
        else if t =? WRITE_AFE_VGAIN then VVgainR (WriteVgainResp true "" 0 0)
        else if t =? DO_AFE_RESET then VResetR (DoResetResp true "")
        else if t =? SET_AFE_POWERSTATE then VPowerR (SetPowerStateResp true "" 1)
        else if t =? WRITE_AFE_FUNCTION then VFunctionR (WriteFunctionResp true "" 0 "" 0)
        else VAlignR (AlignResp true [] [] "")).

#[export] Instance f_peer : Peer unit fwire := {
  can_send _ := true;
  answer u b := (u, match b with FEnv t b => [[FEnv t (f_answer t b)]] | _ => [] end) }.

#[export] Instance f_answering : Answering1 (S := unit) f_answer.
Proof. split; [done|]. intros [] t b. by exists tt. Qed.

Definition f_world : zworld unit fwire :=
  ZW tt [] [] [] (fun k => 1000 + Z.of_nat k) 0 (fun _ => 7) 0 0 [].

Lemma configure_daphne_matches_v2_witness :
  fst (configure_daphne v_options f_world) = Ok tt /\
  exists q : list fwire, sent (snd (configure_daphne v_options f_world)) = [] ++ q /\
    foldl (apply_message (fun _ _ => None)) (fun _ => None) q (RFunction 4 "LNA_GAIN") = Some 2.
Proof.
  assert (Hok : fst (configure_daphne v_options f_world) = Ok tt) by (vm_compute; reflexivity).
  split; [exact Hok|].
  destruct (configure_daphne_matches_v2 (WriteMessages0 := fwire_messages) fwire_env_laws (lifted_laws _ vwire_laws)
    (lifted_laws _ vwire_vgain_laws) (lifted_laws _ vwire_power_laws)
    (lifted_laws _ vwire_function_laws) v_options (V2Codes 4 2 0 2 0) (fun _ _ => None) f_world
    eq_refl) as (q & Hs & _ & Hr).
  exists q. split; [exact Hs|]. rewrite (Hr Hok). vm_compute. reflexivity.
Defined.

Lemma configure_daphne_completes_witness :
  exists w', configure_daphne v_options f_world = (Ok tt, w') /\ calm w' /\
    sent w' = [] ++ v1_plan v_options (V2Codes 4 2 0 2 0).
Proof.
  apply (configure_daphne_completes f_answer f_answering fwire_env_laws v_options
    (V2Codes 4 2 0 2 0) f_world); try reflexivity; try (split; reflexivity || discriminate);
    try (intros b; eexists; reflexivity).
Defined.

Lemma spybuffer_dump_never_dumps_witness :
  exists w', spybuffer_dump f_world = (Raise (no_attribute "cmd_writeAFEVgain_response"), w') /\
    sent w' = [] ++ dump_plan.
Proof.
  destruct (spybuffer_dump_never_dumps fwire_env_laws f_world) as (_ & _ & Hr).
  apply (Hr f_answer f_answering); [intros b; eexists; reflexivity|by split].
Defined.
