(* ===== verification/FirstGenAcquire.v ===== *)
(** The first-generation acquisition scripts: [client/protobuf_acquire_channel.py], which saves the
    waveforms of one channel, and [client/protobuf_oscilloscope.py], which shows them one by one.

    The first runs in the world of [SpyAcquire] (socket, files, directories, [os.system]); its
    printouts with [-debug] and the progress bar are left out.  The numerical part of the second
    (windows, Fourier transform, averages over numpy arrays) is a parameter; its figures are
    reduced to the values given to them. *)
From S2P Require Import Prelude PyStr PyFloat PyVal EnvelopeV2 Requests FeConfig SpyAcquire FirstGen.

(** ** Paths *)

(** [s[:s.rfind("/") + 1]] *)
Fixpoint upto_slash (s : string) : string :=
  match s with
  | "" => ""
  | String c t => if Ascii.eqb c "/" || has_char "/" t then String c (upto_slash t) else ""
  end.

(** [s.rstrip("/")] *)
Fixpoint rstrip_slash (s : string) : string :=
  match s with
  | "" => ""
  | String c t =>
      let r := rstrip_slash t in
      if Ascii.eqb c "/" && bool_decide (r = "") then "" else String c r
  end.

(** [os.path.dirname]: the slashes at the end of the head are dropped unless it is all slashes. *)
Definition dirname (p : string) : string :=
  let head := upto_slash p in
  let r := rstrip_slash head in
  if bool_decide (r = "") then head else r.

(** ** [protobuf_acquire_channel] *)

Record channel_args : Type := {
  c_channel : Z; c_foldername : string; c_N : Z; c_L : Z; c_software_trigger : bool;
  c_append_data : bool; c_compress : bool; c_compression_format : string;
  c_compression_level : Z; c_legacy : bool; c_chunk : Z }.

Section acquire_channel.
Context {S B : Type} `{Peer S B, !Proto B (ControlEnvelope B)}.
Context `{!Proto B DumpSpyBuffersRequest, !Proto B DumpSpyBuffersResponse}.
Context `{!Proto B DumpSpyBuffersChunkRequest, !Proto B DumpSpyBuffersChunkResponse}.
(** [os.system], and what [uuid.uuid4()] returns. *)
Context (system : string -> gmap string (list Z) -> Z * gmap string (list Z)) (uuid4 : string).
Context (args : channel_args).
Abbreviation Wd := (zworld S B).
Abbreviation Wa := (aworld S B).

Definition channel_filename : string :=
  path_join (dirname (c_foldername args)) ("channel_" +:+ str_Z (c_channel args) +:+ ".dat").

(** The single-request mode; the success of the response is not looked at. *)
Definition channel_legacy : M Wa unit :=
  c <- lift (set_u32 (c_channel args)) ;;
  n <- lift (set_u32 (c_N args)) ;;
  l <- lift (set_u32 (c_L args)) ;;
  let req := DumpReq [c] l n (c_software_trigger args) in
  zop (say ("Requesting " +:+ str_Z (c_N args) +:+ " waveforms (L=" +:+ str_Z (c_L args) +:+ ") on ch"
    +:+ str_Z (c_channel args) +:+ "; SW_TRG=" +:+ str_bool (c_software_trigger args))) ;;;
  resp_bytes <- zop (send_envelope_and_get_reply (ser (Env1 DUMP_SPYBUFFER (ser req)))) ;;
  resp_env <- lift (parse (A := ControlEnvelope B) resp_bytes) ;;
  (if negb (v1_type resp_env =? DUMP_SPYBUFFER)
   then raise (Exn AssertionError "Unexpected response type") else ret tt) ;;;
  resp <- lift (parse (A := DumpSpyBuffersResponse) (v1_payload resp_env)) ;;
  open_file (c_append_data args) channel_filename ;;;
  write_file channel_filename (to_u16 (dr_data resp)).

(** The next reply of [stream_envelope]. *)
Definition channel_next : M Wd (ControlEnvelope B) :=
  frames <- recv_frames ;;
  payload <- last_frame frames ;;
  lift (parse payload).

(** The loop over the replies with the number of waveforms written; the messages that can still
    arrive bound it. *)
Fixpoint channel_loop (fuel : nat) (wf_written : Z) : M Wa Z :=
  match fuel with
  | O => raise (Exn OtherError "out of fuel")
  | Datatypes.S fuel' =>
      resp_env <- zop channel_next ;;
      if negb (v1_type resp_env =? DUMP_SPYBUFFER_CHUNK) then channel_loop fuel' wf_written
      else
        chunk <- lift (parse (A := DumpSpyBuffersChunkResponse) (v1_payload resp_env)) ;;
        if negb (cr_success chunk) then
          zop (say ("Server reported error: " +:+ cr_message chunk)) ;;;
          ret wf_written
        else
          (match cr_data chunk with
           | [] => ret tt
           | data => write_file channel_filename (to_u16 data)
           end) ;;;
          let wf_written' := wf_written + cr_waveformCount chunk in
          if cr_isFinal chunk then ret wf_written' else channel_loop fuel' wf_written'
  end.

Definition channel_chunk_request : result DumpSpyBuffersChunkRequest :=
  c <-! set_u32 (c_channel args) ;;
  n <-! set_u32 (c_N args) ;;
  l <-! set_u32 (c_L args) ;;
  size <-! set_u32 (Z.max 1 (Z.min (c_chunk args) (c_N args))) ;;
  Ok (ChunkReq [c] l n (c_software_trigger args) uuid4 size).

(** The streaming mode; the file is opened before the request is sent. *)
Definition channel_stream : M Wa Z :=
  creq <- lift channel_chunk_request ;;
  zop (say ("Streaming request id=" +:+ cq_requestID creq +:+ " N=" +:+ str_Z (c_N args) +:+ " L="
    +:+ str_Z (c_L args) +:+ " chunk=" +:+ str_Z (cq_chunkSize creq) +:+ " ch="
    +:+ str_Z (c_channel args) +:+ " SW_TRG=" +:+ str_bool (c_software_trigger args))) ;;;
  open_file (c_append_data args) channel_filename ;;;
  zop (z_send (ser (Env1 DUMP_SPYBUFFER_CHUNK (ser creq)))) ;;;
  n <- gets (fun w => length (inbox (net w))) ;;
  channel_loop (Datatypes.S n) 0.

(** [filename[:-4]] of a name that ends with [.dat] *)
Definition channel_archive : string :=
  substring 0 (String.length channel_filename - 4) channel_filename.

Definition channel_compress : M Wa unit :=
  let archive ext := channel_archive +:+ ext in
  let finish ext :=
    there <- exists_file (archive ext) ;;
    when there (os_remove channel_filename) in
  if decide (c_compression_format args = "7z") then
    _ <- os_system system ("7z a -mx=" +:+ str_Z (c_compression_level args) +:+ " " +:+ archive ".7z"
                    +:+ " " +:+ channel_filename +:+ " -y") ;;
    finish ".7z"
  else if decide (c_compression_format args = "tar") then
    _ <- os_system system ("tar -czvf " +:+ archive ".tar.gz" +:+ " " +:+ channel_filename) ;;
    finish ".tar.gz"
  else ret tt.

(** The script; [np.zeros] of the plot refuses a negative length first. *)
Definition acquire_channel : M Wa unit :=
  (if c_L args <? 0 then raise (Exn ValueError "negative dimensions are not allowed")
   else ret tt) ;;;
  makedirs (c_foldername args) ;;;
  if c_legacy args then channel_legacy
  else
    _ <- channel_stream ;;
    when (c_compress args) channel_compress.

End acquire_channel.

(** ** [protobuf_oscilloscope] *)

(** The largest and the smallest sample, and the first place of each. *)
Definition list_max (x : Z) (l : list Z) : Z := foldl Z.max x l.
Definition list_min (x : Z) (l : list Z) : Z := foldl Z.min x l.

Fixpoint index_from (v : Z) (l : list Z) : nat :=
  match l with
  | [] => 0
  | x :: l' => if x =? v then 0 else Datatypes.S (index_from v l')
  end.

Record scope_args : Type := {
  s_channel : Z; s_L : Z; s_software_trigger : bool; s_enable_info : bool; s_enable_fft : bool;
  s_fft_avg_waves : Z; s_fft_window_function : string }.

(** What one turn of the loop shows: the samples, the extremes with their places, the figures of
    [-enable_info] and the averaged spectrum of [-enable_fft]. *)
Record shown_frame (F : Type) : Type := Frame {
  sf_y : list Z; sf_max : Z; sf_min : Z; sf_max_index : nat; sf_min_index : nat;
  sf_info : option (F * F * Z); sf_spectrum : option (list F) }.
Arguments Frame {F}.
Arguments sf_y {F}.
Arguments sf_max {F}.
Arguments sf_min {F}.
Arguments sf_max_index {F}.
Arguments sf_min_index {F}.
Arguments sf_info {F}.
Arguments sf_spectrum {F}.

(** The variables of the loop: the last response, the number of spectra taken, the ring of
    spectra, and the frames shown so far. *)
Record scope_world (S B F : Type) : Type := ScopeW {
  sc_net : zworld S B; sc_response : option DumpSpyBuffersResponse; acquired_wave_number : Z;
  Y_mag : list (list F); sc_frames : list (shown_frame F) }.
Arguments ScopeW {S B F}.
Arguments sc_net {S B F}.
Arguments sc_response {S B F}.
Arguments acquired_wave_number {S B F}.
Arguments Y_mag {S B F}.
Arguments sc_frames {S B F}.

Section oscilloscope.
Context {S B F : Type} `{Peer S B, !Proto B (ControlEnvelope B)}.
Context `{!Proto B DumpSpyBuffersRequest, !Proto B DumpSpyBuffersResponse}.
(** The magnitudes of the transform of the windowed samples (by window and [args.L]), the mean of
    the rows and its decibels; the two RMS values. *)
Context (magnitudes : string -> Z -> list Z -> list F) (mean_rows : list (list F) -> list F)
  (to_dbfs : list F -> list F) (rms rms_b : list Z -> F).
Context (args : scope_args).
Abbreviation Ws := (scope_world S B F).

Definition scope_zop {A : Type} (m : M (zworld S B) A) : M Ws A := fun w =>
  let '(r, z) := m (sc_net w) in
  (r, ScopeW z (sc_response w) (acquired_wave_number w) (Y_mag w) (sc_frames w)).

(** The request of a turn; a reply of another type leaves the last response as it was. *)
Definition scope_acquire : M Ws DumpSpyBuffersResponse :=
  c <- lift (set_u32 (s_channel args)) ;;
  n <- lift (set_u32 1) ;;
  l <- lift (set_u32 (s_L args)) ;;
  let request := DumpReq [c] l n (s_software_trigger args) in
  response_bytes <- scope_zop (send_envelope_and_get_reply (ser (Env1 DUMP_SPYBUFFER (ser request)))) ;;
  env <- lift (parse (A := ControlEnvelope B) response_bytes) ;;
  (if v1_type env =? DUMP_SPYBUFFER then
     r <- lift (parse (A := DumpSpyBuffersResponse) (v1_payload env)) ;;
     modify (fun w => ScopeW (sc_net w) (Some r) (acquired_wave_number w) (Y_mag w) (sc_frames w))
   else ret tt) ;;;
  last <- gets sc_response ;;
  match last with
  | Some r => ret r
  | None => raise (not_defined "response")
  end.

(** The row of the ring this spectrum replaces, and the new mean; a row of another length is
    refused, one of length 1 is repeated. *)
Definition scope_fft (y : list Z) : M Ws (list F) :=
  let Y_mag_local := magnitudes (s_fft_window_function args) (s_L args) y in
  w <- get ;;
  if s_fft_avg_waves args =? 0
  then raise (Exn ZeroDivisionError "integer modulo by zero")
  else
    let row := Z.to_nat (acquired_wave_number w mod s_fft_avg_waves args) in
    row_values <-
      (if Z.of_nat (length Y_mag_local) =? s_L args then ret Y_mag_local
       else match Y_mag_local with
            | [x] => ret (replicate (Z.to_nat (s_L args)) x)
            | _ => raise (Exn ValueError ("could not broadcast input array from shape ("
                     +:+ str_Z (Z.of_nat (length Y_mag_local)) +:+ ",) into shape ("
                     +:+ str_Z (s_L args) +:+ ",)"))
            end) ;;
    let ring := <[row := row_values]> (Y_mag w) in
    modify (fun w => ScopeW (sc_net w) (sc_response w) (acquired_wave_number w + 1) ring
                       (sc_frames w)) ;;;
    ret (to_dbfs (mean_rows ring)).

(** One turn of the loop. *)
Definition scope_turn : M Ws unit :=
  response <- scope_acquire ;;
  match dr_data response with
  | [] => raise (Exn ValueError "zero-size array to reduction operation maximum which has no identity")
  | x :: rest =>
      let y := x :: rest in
      let max_y := list_max x rest in
      let min_y := list_min x rest in
      let info := if s_enable_info args
                  then Some (rms y, rms_b y, (max_y - min_y) mod 2 ^ 32) else None in
      spectrum <- (if s_enable_fft args then s <- scope_fft y ;; ret (Some s) else ret None) ;;
      modify (fun w => ScopeW (sc_net w) (sc_response w) (acquired_wave_number w) (Y_mag w)
        (sc_frames w ++ [Frame y max_y min_y (index_from max_y y) (index_from min_y y) info spectrum]))
  end.

(** The endless loop, by its turns. *)
Fixpoint scope_loop (turns : nat) : M Ws unit :=
  match turns with
  | O => ret tt
  | Datatypes.S n => scope_turn ;;; scope_loop n
  end.

End oscilloscope.

(** ** Lemmas: paths *)

Lemma upto_slash_none s : has_char "/" s = false -> upto_slash s = "".
Proof.
  destruct s as [|c t]; [done|]. cbn. intros [Hc Ht]%orb_false_iff. by rewrite Hc, Ht.
Qed.

Lemma has_char_here (p s : string) : has_char "/" (p +:+ String "/" s) = true.
Proof.
  induction p as [|c p IH]; [done|].
  change (String c p +:+ String "/" s) with (String c (p +:+ String "/" s)). cbn [has_char].
  by rewrite IH, orb_true_r.
Qed.

Lemma upto_slash_last p name :
  has_char "/" name = false -> upto_slash (p +:+ String "/" name) = p +:+ "/".
Proof.
  intros Hn. induction p as [|c p IH].
  - change (upto_slash (String "/" name) = "/"). cbn. by rewrite upto_slash_none.
  - change (String c p +:+ String "/" name) with (String c (p +:+ String "/" name)).
    cbn [upto_slash]. rewrite has_char_here, orb_true_r, IH. done.
Qed.

Lemma rstrip_slash_id s : ends_with_slash s = false -> rstrip_slash s = s.
Proof.
  induction s as [|c s IH]; [done|]. destruct s as [|d s].
  - cbn. by intros ->.
  - intros Hs. change (ends_with_slash (String c (String d s))) with (ends_with_slash (String d s)) in Hs.
    cbn [rstrip_slash] in *. rewrite (IH Hs). by rewrite andb_false_r.
Qed.

Lemma rstrip_slash_one s : ends_with_slash s = false -> rstrip_slash (s +:+ "/") = s.
Proof.
  induction s as [|c s IH]; [done|]. destruct s as [|d s].
  - change (String c "" +:+ "/") with (String c "/"). cbn. by intros ->.
  - intros Hs. change (ends_with_slash (String c (String d s))) with (ends_with_slash (String d s)) in Hs.
    specialize (IH Hs).
    change (String c (String d s) +:+ "/") with (String c (String d s +:+ "/")).
    remember (String d s +:+ "/") as u eqn:Hu. cbn [rstrip_slash]. rewrite IH.
    by rewrite andb_false_r.
Qed.

Lemma dirname_join d name :
  has_char "/" name = false -> d <> "" -> ends_with_slash d = false ->
  dirname (d +:+ "/" +:+ name) = d.
Proof.
  intros Hn Hd Hs. unfold dirname. change ("/" +:+ name) with (String "/" name).
  rewrite (upto_slash_last d name Hn), (rstrip_slash_one d Hs). by rewrite bool_decide_false.
Qed.

Lemma dirname_slash d : d <> "" -> ends_with_slash d = false -> dirname (d +:+ "/") = d.
Proof. intros Hd Hs. apply (dirname_join d ""); done. Qed.

(** ** Lemmas: the stream *)

Section stream_channel.
Context {S B : Type} `{Peer S B, !Proto B (ControlEnvelope B)}.
Context `{!Proto B DumpSpyBuffersChunkRequest, !Proto B DumpSpyBuffersChunkResponse}.
Context `{!ProtoLaws B (ControlEnvelope B), !ProtoLaws B DumpSpyBuffersChunkResponse}.
Context (args : channel_args).
Abbreviation Wd := (zworld S B).
Abbreviation Wa := (aworld S B).

Lemma channel_next_message (w : Wd) (b : B) ms :
  cur w = [] -> inbox w = [b] :: ms -> channel_next w = (parse b, set_reading w ms []).
Proof using Type.
  intros Hc Hi. unfold channel_next.
  rewrite (bind_run _ _ _ _ _ (recv_frames_message w b [] ms Hc Hi)). reflexivity.
Qed.

(** The waveforms the chunks announce. *)
Definition counted (cs : list DumpSpyBuffersChunkResponse) : Z :=
  foldr (fun c n => cr_waveformCount c + n) 0 cs.

Definition samples_of (cs : list DumpSpyBuffersChunkResponse) : list Z := mjoin (cr_data <$> cs).

Lemma channel_loop_run cs fuel n (w : Wa) old :
  ends_final cs -> Forall (fun c => cr_success c = true) cs -> (length cs <= fuel)%nat ->
  cur (net w) = [] -> inbox (net w) = (fun c => [ser (Env1 DUMP_SPYBUFFER_CHUNK (ser c))]) <$> cs ->
  files w !! channel_filename args = Some old ->
  exists w', channel_loop args fuel n w = (Ok (n + counted cs), w') /\
    cur (net w') = [] /\ inbox (net w') = [] /\
    files w' = <[channel_filename args := old ++ to_u16 (samples_of cs)]> (files w).
Proof using All.
  revert cs n w old. induction fuel as [|fuel IH]; intros cs n w old Hfin Hall Hlen Hc Hi Hf.
  { destruct cs; [done|]. cbn in Hlen. lia. }
  destruct cs as [|c cs]; [done|]. apply Forall_cons in Hall as [Hok Hall].
  rewrite fmap_cons in Hi. cbn [channel_loop]. unfold zop at 1. unfold bind at 1.
  rewrite (channel_next_message _ _ _ Hc Hi), parse_ser. cbn [v1_type v1_payload].
  rewrite Z.eqb_refl. cbn [negb]. unfold bind at 1, lift at 1. rewrite parse_ser, Hok. cbn [negb].
  set (w1 := AW _ _ _).
  assert (Hw : (match cr_data c with [] => ret tt
                | data => write_file (channel_filename args) (to_u16 data) end) w1 =
    (Ok tt, AW (net w1) (<[channel_filename args := old ++ to_u16 (cr_data c)]> (files w)) (dirs w))).
  { destruct (cr_data c) as [|x data].
    - unfold ret, w1. cbn [net]. rewrite app_nil_r. by rewrite insert_id.
    - unfold write_file, set_files, modify, w1. cbn [net files dirs]. by rewrite Hf. }
  rewrite (bind_run _ _ _ _ _ Hw). clear Hw. cbv zeta.
  destruct cs as [|c2 cs].
  - cbn in Hfin. rewrite Hfin. eexists. split; [unfold ret, counted; cbn; do 2 f_equal; lia|].
    split_and!; [done|done|]. cbn. unfold samples_of. cbn. by rewrite app_nil_r.
  - destruct Hfin as [Hnf Hfin]. rewrite Hnf.
    destruct (IH (c2 :: cs) (n + cr_waveformCount c)
      (AW (net w1) (<[channel_filename args := old ++ to_u16 (cr_data c)]> (files w)) (dirs w))
      (old ++ to_u16 (cr_data c))) as (w' & Hrun & Hc' & Hi' & Hf');
      [done|done|cbn in *; lia|done|done|cbn [files]; by rewrite lookup_insert_eq|].
    exists w'. rewrite Hrun. split_and!; [by rewrite <- Z.add_assoc|done|done|].
    rewrite Hf'. cbn [files]. rewrite insert_insert_eq. f_equal.
    change (samples_of (c :: c2 :: cs)) with (cr_data c ++ samples_of (c2 :: cs)).
    by rewrite to_u16_app, app_assoc.
Qed.

End stream_channel.

(** ** Properties *)

(** The file of [protobuf_acquire_channel] is in the folder asked for only when its name ends with
    a slash; otherwise it is beside the folder, where runs with other folders of the same parent
    write theirs. *)
Theorem channel_filename_place args d name :
  has_char "/" name = false -> d <> "" -> name <> "" -> ends_with_slash d = false ->
  let file := "channel_" +:+ str_Z (c_channel args) +:+ ".dat" in
  (c_foldername args = d +:+ "/" +:+ name -> channel_filename args = d +:+ "/" +:+ file) /\
  (c_foldername args = (d +:+ "/" +:+ name) +:+ "/" ->
     channel_filename args = (d +:+ "/" +:+ name) +:+ "/" +:+ file).
Proof.
  intros Hn Hd Hname Hs file. unfold channel_filename, path_join. fold file.
  assert (Hend : ends_with_slash (d +:+ "/" +:+ name) = false).
  { clear -Hn Hname. induction d as [|c d IH].
    - clear -Hn Hname. destruct name as [|c name]; [done|]. change (ends_with_slash (String c name) = false).
      clear Hname. revert c Hn. induction name as [|c' name IH]; intros c Hn; cbn in *.
      + by rewrite orb_false_r in Hn.
      + apply IH. apply orb_false_iff in Hn as [_ Hn]. exact Hn.
    - change (ends_with_slash (String c (d +:+ "/" +:+ name)) = false).
      destruct (d +:+ "/" +:+ name) as [|c' s] eqn:He; [by destruct d|]. exact IH. }
  split; intros ->.
  - rewrite dirname_join by done. rewrite decide_False by done. by rewrite Hs.
  - rewrite dirname_slash; [|by destruct d|done].
    rewrite decide_False by (by destruct d). by rewrite Hend.
Qed.

(** [protobuf_acquire_channel] in streaming mode: whatever way the server cuts the waveforms
    into chunks, the file of the channel ends up as all their samples in order, modulo 2^16, after
    what it held before when data are appended; no other file changes, no message is left unread
    and the count of waveforms is the sum of those of the chunks. *)
Theorem channel_stream_saves {S B : Type} `{Peer S B, !Proto B (ControlEnvelope B)}
    `{!Proto B DumpSpyBuffersChunkRequest, !Proto B DumpSpyBuffersChunkResponse}
    (HL1 : ProtoLaws B (ControlEnvelope B)) (HL2 : ProtoLaws B DumpSpyBuffersChunkResponse)
    uuid4 args creq cs s' (w : aworld S B) :
  channel_chunk_request uuid4 args = Ok creq ->
  cur (net w) = [] -> inbox (net w) = [] -> can_send (srv (net w)) = true ->
  answer (srv (net w)) (ser (Env1 DUMP_SPYBUFFER_CHUNK (ser creq)))
    = (s', (fun c => [ser (Env1 DUMP_SPYBUFFER_CHUNK (ser c))]) <$> cs) ->
  Forall (fun c => cr_success c = true) cs -> ends_final cs ->
  let file := channel_filename args in
  let old := if c_append_data args then default [] (files w !! file) else [] in
  exists w', channel_stream uuid4 args w = (Ok (counted cs), w') /\
    cur (net w') = [] /\ inbox (net w') = [] /\
    files w' = <[file := old ++ to_u16 (samples_of cs)]> (files w).
Proof.
  intros Hreq Hcur Hin Hsend Hans Hok Hfin file old. unfold channel_stream.
  rewrite (bind_run _ _ w creq w) by (by unfold lift; rewrite Hreq).
  unfold bind at 1, zop at 1, say, show, modify.
  unfold bind at 1. unfold open_file at 1, set_files, modify. cbn [net files dirs].
  unfold bind at 1, zop at 1, z_send. cbn [net srv]. rewrite Hsend, Hans.
  unfold bind at 1, gets at 1. cbn [net inbox]. rewrite Hin, app_nil_l, length_fmap.
  match goal with |- exists w', channel_loop _ ?fuel ?n ?w3 = _ /\ _ =>
    destruct (channel_loop_run args cs fuel n w3 old) as (w' & Hrun & Hc & Hi & Hf) end; try done.
  - lia.
  - cbn [files]. subst old file. destruct (c_append_data args); by rewrite lookup_insert_eq.
  - exists w'. split_and!; [done|done|done|]. rewrite Hf. cbn [files]. subst old file.
    destruct (c_append_data args); by rewrite insert_insert_eq.
Qed.

(** ** The oscilloscope *)

Lemma list_max_ge x l y : y = x \/ y ∈ l -> y <= list_max x l.
Proof.
  unfold list_max. revert x y. induction l as [|z l IH]; intros x y Hy; cbn.
  - destruct Hy as [->|Hy]; [lia|by apply not_elem_of_nil in Hy].
  - destruct Hy as [->|[->|Hy]%elem_of_cons].
    + specialize (IH (Z.max x z) (Z.max x z) (or_introl eq_refl)). lia.
    + specialize (IH (Z.max x z) (Z.max x z) (or_introl eq_refl)). lia.
    + apply IH. by right.
Qed.

Lemma list_max_in x l : list_max x l ∈ x :: l.
Proof.
  unfold list_max. revert x. induction l as [|z l IH]; intros x; cbn; [apply list_elem_of_here|].
  specialize (IH (Z.max x z)). apply elem_of_cons in IH as [->|Hin]; [|by do 2 apply list_elem_of_further].
  destruct (Z.max_spec x z) as [[_ ->]|[_ ->]]; [|apply list_elem_of_here].
  apply list_elem_of_further, list_elem_of_here.
Qed.

Lemma list_min_le x l y : y = x \/ y ∈ l -> list_min x l <= y.
Proof.
  unfold list_min. revert x y. induction l as [|z l IH]; intros x y Hy; cbn.
  - destruct Hy as [->|Hy]; [lia|by apply not_elem_of_nil in Hy].
  - destruct Hy as [->|[->|Hy]%elem_of_cons].
    + specialize (IH (Z.min x z) (Z.min x z) (or_introl eq_refl)). lia.
    + specialize (IH (Z.min x z) (Z.min x z) (or_introl eq_refl)). lia.
    + apply IH. by right.
Qed.

Lemma list_min_in x l : list_min x l ∈ x :: l.
Proof.
  unfold list_min. revert x. induction l as [|z l IH]; intros x; cbn; [apply list_elem_of_here|].
  specialize (IH (Z.min x z)). apply elem_of_cons in IH as [->|Hin]; [|by do 2 apply list_elem_of_further].
  destruct (Z.min_spec x z) as [[_ ->]|[_ ->]]; [apply list_elem_of_here|].
  apply list_elem_of_further, list_elem_of_here.
Qed.

(** The place found is the first one. *)
Lemma index_from_first v l :
  v ∈ l -> l !! index_from v l = Some v /\ forall j, (j < index_from v l)%nat -> l !! j <> Some v.
Proof.
  induction l as [|x l IH]; intros Hv; [by apply not_elem_of_nil in Hv|]. cbn.
  destruct (Z.eqb_spec x v) as [->|Hne]; [split; [done|lia]|].
  apply elem_of_cons in Hv as [->|Hv]; [done|]. destruct (IH Hv) as [Hi Hf]. split; [done|].
  intros [|j] Hj; cbn; [congruence|]. apply Hf. lia.
Qed.

(** The extremes of a frame are those of its samples, each at its first place. *)
Definition frame_ok {F : Type} (f : shown_frame F) : Prop :=
  Forall (fun s => sf_min f <= s <= sf_max f) (sf_y f) /\
  sf_y f !! sf_max_index f = Some (sf_max f) /\
  (forall j, (j < sf_max_index f)%nat -> sf_y f !! j <> Some (sf_max f)) /\
  sf_y f !! sf_min_index f = Some (sf_min f) /\
  (forall j, (j < sf_min_index f)%nat -> sf_y f !! j <> Some (sf_min f)).

Lemma frame_of_ok {F : Type} x rest (info : option (F * F * Z)) spectrum :
  let y := x :: rest in
  frame_ok (Frame y (list_max x rest) (list_min x rest) (index_from (list_max x rest) y)
              (index_from (list_min x rest) y) info spectrum).
Proof.
  intros y. unfold frame_ok. cbn [sf_y sf_max sf_min sf_max_index sf_min_index].
  destruct (index_from_first _ y (list_max_in x rest)), (index_from_first _ y (list_min_in x rest)).
  split_and!; try done. apply Forall_forall. intros s Hs. unfold y in Hs.
  rewrite elem_of_cons in Hs. split; [by apply list_min_le|by apply list_max_ge].
Qed.

Section ring.
Context {S B F : Type} `{Peer S B, !Proto B (ControlEnvelope B)}.
Context `{!Proto B DumpSpyBuffersRequest, !Proto B DumpSpyBuffersResponse}.
Context (magnitudes : string -> Z -> list Z -> list F) (mean_rows : list (list F) -> list F)
  (to_dbfs : list F -> list F) (rms rms_b : list Z -> F).
Context (args : scope_args) (k : nat) (zero : list F).
Abbreviation Ws := (scope_world S B F).

(** The ring after the spectra [specs]. *)
Record ring_inv (specs : list (list F)) (w : Ws) : Prop := {
  ri_count : acquired_wave_number w = Z.of_nat (length specs);
  ri_rows : ring_holds k zero specs (Y_mag w) }.

Lemma ring_start z r n : ring_inv [] (ScopeW z r 0 (replicate k zero) n).
Proof using Type. split; [done|apply ring_new]. Qed.

Lemma ring_push specs x (w w' : Ws) :
  (0 < k)%nat -> ring_inv specs w ->
  acquired_wave_number w' = acquired_wave_number w + 1 ->
  Y_mag w' = <[(length specs mod k)%nat := x]> (Y_mag w) ->
  ring_inv (specs ++ [x]) w'.
Proof using Type.
  intros Hk [Hc Hr] Hc' Hy. split.
  - rewrite Hc', Hc, length_app. cbn. lia.
  - rewrite Hy. by apply ring_put.
Qed.

(** A row as it is stored. *)
Definition stored (l : list F) : list F :=
  if Z.of_nat (length l) =? s_L args then l
  else match l with [x] => replicate (Z.to_nat (s_L args)) x | _ => l end.

Lemma scope_fft_run specs y (w w' : Ws) s :
  (0 < k)%nat -> s_fft_avg_waves args = Z.of_nat k -> ring_inv specs w ->
  scope_fft magnitudes mean_rows to_dbfs args y w = (Ok s, w') ->
  ring_inv (specs ++ [stored (magnitudes (s_fft_window_function args) (s_L args) y)]) w' /\
  s = to_dbfs (mean_rows (Y_mag w')) /\ sc_frames w' = sc_frames w.
Proof using Type.
  intros Hk Havg Hinv Hr. unfold scope_fft in Hr. set (m := magnitudes _ _ y) in *.
  inv_bind Hr. injection Hrun as <- <-. rewrite Havg in Hr.
  destruct (Z.eqb_spec (Z.of_nat k) 0); [lia|]. inv_bind Hr.
  assert (Hrow : a = stored m /\ w0 = w).
  { unfold stored. destruct (Z.of_nat (length m) =? s_L args).
    - by injection Hrun as <- <-.
    - destruct m as [|x [|]]; [done| |done]. by injection Hrun as <- <-. }
  destruct Hrow as [-> ->]. inv_bind Hr. injection Hrun0 as _ <-. injection Hr as <- <-.
  split_and!; [|done|done]. eapply ring_push; [done|exact Hinv|done|].
  cbn [Y_mag]. f_equal. rewrite (ri_count _ _ Hinv), <- Nat2Z.inj_mod. apply Nat2Z.id.
Qed.

Lemma scope_acquire_same (w w' : Ws) r :
  scope_acquire args w = (Ok r, w') ->
  acquired_wave_number w' = acquired_wave_number w /\ Y_mag w' = Y_mag w /\
  sc_frames w' = sc_frames w.
Proof using Type.
  intros Hr. unfold scope_acquire in Hr.
  do 3 (inv_bind Hr; unfold lift in Hrun; injection Hrun as _ <-).
  inv_bind Hr. unfold scope_zop in Hrun. destruct (send_envelope_and_get_reply _ _) as [r0 z].
  injection Hrun as _ <-. inv_bind Hr. unfold lift in Hrun. injection Hrun as _ <-.
  inv_bind Hr. inv_bind Hr. injection Hrun0 as <- <-.
  assert (Hw : w' = w0) by (destruct (sc_response w0); [by injection Hr as _ <-|done]).
  subst w'. clear Hr.
  destruct (v1_type _ =? DUMP_SPYBUFFER).
  - inv_bind Hrun. unfold lift in Hrun0. injection Hrun0 as _ <-. by injection Hrun as _ <-.
  - by injection Hrun as _ <-.
Qed.

Lemma scope_turn_run specs (w w' : Ws) :
  (0 < k)%nat -> s_fft_avg_waves args = Z.of_nat k -> s_enable_fft args = true -> ring_inv specs w ->
  scope_turn magnitudes mean_rows to_dbfs rms rms_b args w = (Ok tt, w') ->
  exists f, sc_frames w' = sc_frames w ++ [f] /\ frame_ok f /\
    ring_inv (specs ++ [stored (magnitudes (s_fft_window_function args) (s_L args) (sf_y f))]) w' /\
    sf_spectrum f = Some (to_dbfs (mean_rows (Y_mag w'))).
Proof using Type.
  intros Hk Havg Hfft Hinv Hr. unfold scope_turn in Hr. inv_bind Hr.
  apply scope_acquire_same in Hrun as (Hc & Hy & Hf).
  assert (Hinv0 : ring_inv specs w0).
  { destruct Hinv as [H1 H2]. split; [by rewrite Hc|by rewrite Hy]. }
  destruct (dr_data a) as [|x rest] eqn:Hd; [done|]. cbv zeta in Hr. rewrite Hfft in Hr.
  inv_bind Hr. inv_bind Hrun. injection Hrun as <- <-.
  destruct (scope_fft_run _ _ _ _ _ Hk Havg Hinv0 Hrun0) as (Hinv' & -> & Hf').
  injection Hr as <-. eexists. cbn [sc_frames Y_mag]. split_and!.
  - by rewrite Hf', Hf.
  - apply frame_of_ok.
  - cbn [sf_y]. destruct Hinv' as [H1 H2]. by split.
  - done.
Qed.

End ring.

(** [protobuf_oscilloscope] with [-enable_fft], over any number of turns on any peer: every
    turn shows one frame whose extremes are those of its samples, each at its first place, and
    the ring from which the shown spectrum is averaged holds the spectra of the last
    [fft_avg_waves] frames, and nothing but the zeros it started with in the rows not reached
    yet (so until then the mean is too low). *)
Theorem scope_averages_last {S B F : Type} `{Peer S B, !Proto B (ControlEnvelope B)}
    `{!Proto B DumpSpyBuffersRequest, !Proto B DumpSpyBuffersResponse}
    magnitudes mean_rows to_dbfs rms rms_b args k zero specs turns (w w' : scope_world S B F) :
  (0 < k)%nat -> s_fft_avg_waves args = Z.of_nat k -> s_enable_fft args = true ->
  ring_inv k zero specs w ->
  scope_loop magnitudes mean_rows to_dbfs rms rms_b args turns w = (Ok tt, w') ->
  exists shown, sc_frames w' = sc_frames w ++ shown /\ length shown = turns /\
    Forall frame_ok shown /\
    ring_inv k zero (specs ++ ((fun f => stored args
      (magnitudes (s_fft_window_function args) (s_L args) (sf_y f))) <$> shown)) w' /\
    (forall f, last shown = Some f -> sf_spectrum f = Some (to_dbfs (mean_rows (Y_mag w')))).
Proof.
  intros Hk Havg Hfft. revert specs w. induction turns as [|n IH]; intros specs w Hinv Hr.
  - injection Hr as <-. exists []. cbn. rewrite !app_nil_r. by split_and!.
  - cbn [scope_loop] in Hr. inv_bind Hr. destruct a.
    destruct (scope_turn_run _ _ _ _ _ _ _ _ _ _ _ Hk Havg Hfft Hinv Hrun) as (f & Hf & Hok & Hi & Hs).
    destruct (IH _ _ Hi Hr) as (shown & Hsh & Hlen & Hall & Hinv' & Hlast).
    exists (f :: shown). split_and!.
    + by rewrite Hsh, Hf, <- app_assoc.
    + cbn. by f_equal.
    + by constructor.
    + rewrite fmap_cons. by rewrite <- app_assoc in Hinv'.
    + intros g Hg. destruct shown as [|g' shown]; [|by apply Hlast].
      injection Hg as <-. cbn in Hlen. subst n. injection Hr as <-. exact Hs.
Qed.

(** ** Examples *)

Definition ex_channel (folder : string) : channel_args := {|
  c_channel := 7; c_foldername := folder; c_N := 3; c_L := 4; c_software_trigger := false;
  c_append_data := true; c_compress := false; c_compression_format := "tar";
  c_compression_level := 1; c_legacy := false; c_chunk := 10 |}.

Lemma channel_stream_saves_witness :
  let w := spy_world old_files in
  exists w', channel_stream "id" (ex_channel "run/") w = (Ok 3, w') /\
    files w' !! "run/channel_7.dat" = Some [99; 1; 2; 11; 12; 3; 4; 13; 14; 5; 6; 15; 16].
Proof.
  intros w. destruct (channel_stream_saves awire_v1_laws awire_chunk_laws "id" (ex_channel "run/")
    (ChunkReq [7] 4 3 false "id" 3)
    [example_chunk false example_waves1; example_chunk true example_waves2] 0 w)
    as (w' & Hrun & _ & _ & Hf); try reflexivity.
  - repeat constructor.
  - by split.
  - exists w'. split; [exact Hrun|]. rewrite Hf. reflexivity.
Defined.

Lemma channel_filename_place_witness :
  channel_filename (ex_channel "data/run1") = "data/channel_7.dat" /\
  channel_filename (ex_channel "data/run1/") = "data/run1/channel_7.dat".
Proof.
  split.
  - apply (channel_filename_place (ex_channel "data/run1") "data" "run1"); done.
  - apply (channel_filename_place (ex_channel "data/run1/") "data" "run1"); done.
Defined.

(** A server that answers every request with the samples 3, [n], 1. *)
Definition scope_peer : Peer Z awire := {|
  can_send _ := true;
  answer n _ := (n + 1, [[AV1 (Env1 DUMP_SPYBUFFER (AResp (DumpResp true [7] 3 1 false [3; n; 1] "")))]]) |}.

Definition scope_options : scope_args := {|
  s_channel := 7; s_L := 3; s_software_trigger := false; s_enable_info := true;
  s_enable_fft := true; s_fft_avg_waves := 2; s_fft_window_function := "NONE" |}.

Definition scope_start : scope_world Z awire Z :=
  ScopeW (ZW 8 [] [] [] (fun k => 1000 + Z.of_nat k) 0 (fun _ => 7) 0 0 []) None 0
    [[0; 0; 0]; [0; 0; 0]] [].

Definition scope_run (turns : nat) : result unit * scope_world Z awire Z :=
  scope_loop (H := scope_peer) (fun _ _ y => y) (fun rows => concat rows) (fun x => x)
    (fun _ => 0) (fun _ => 0) scope_options turns scope_start.

Lemma scope_averages_last_witness :
  exists shown, sc_frames (snd (scope_run 3)) = [] ++ shown /\ length shown = 3%nat /\
    Forall frame_ok shown /\
    (forall f, last shown = Some f -> sf_spectrum f = Some [3; 10; 1; 3; 9; 1]).
Proof.
  destruct (scope_averages_last (H := scope_peer) (fun _ _ y => y) (fun rows => concat rows)
    (fun x => x) (fun _ => 0) (fun _ => 0) scope_options 2 [0; 0; 0] [] 3 scope_start
    (snd (scope_run 3))) as (shown & Hs & Hl & Hok & _ & Hlast).
  - lia.
  - reflexivity.
  - reflexivity.
  - apply (ring_start 2 [0; 0; 0]).
  - vm_compute. reflexivity.
  - exists shown. split_and!; [exact Hs|exact Hl|exact Hok|]. intros f Hf. rewrite (Hlast f Hf).
    vm_compute. reflexivity.
Defined.
