(* ===== verification/CompareEnvelopes.v ===== *)
(** [client/compare_configure_envelopes.py]: the configuration request of the command line and the
    one of a seed document, saved, compared and sent one after the other.

    The JSON text of a message ([MessageToDict] of the protobuf runtime) and the lines of
    [difflib.unified_diff] are parameters; the directory of the files is made when it is missing. *)
From S2P Require Import Prelude PyStr PyFloat PyVal JsonText EnvelopeV2 Requests FeConfig PdsSeed.
From S2P Require Import FeMain SmokeMessages ChargeWindows SpyAcquire SeedConfigure FirstGen.

(** ** The command line *)

Record compare_args : Type := CompareArgs {
  co_host : string; co_route : string; co_timeout : Z; co_json_path : string;
  co_board_id : string; co_out_dir : string; co_prefer_cli_common : bool; co_vgain : Z;
  co_ch_offset : Z; co_lpf_cutoff : Z; co_pga_clamp_level : string; co_pga_gain_control : string;
  co_lna_gain_control : string; co_lna_input_clamp : string; co_biasctrl : Z; co_threshold : Z;
  co_xcorr : Z; co_tp_conf : Z; co_compensator : Z; co_inverters : Z }.

(** ** The two requests *)

Definition build_cli_cfg (args : compare_args) : result ConfigureRequest :=
  lpf <-! assoc lpf_dict (co_lpf_cutoff args) (str_Z (co_lpf_cutoff args)) ;;
  pga_clamp <-! assoc pga_clamp_level_dict (co_pga_clamp_level args) (co_pga_clamp_level args) ;;
  pga_gain <-! assoc pga_gain_control_dict (co_pga_gain_control args) (co_pga_gain_control args) ;;
  lna_gain <-! assoc lna_gain_control_dict (co_lna_gain_control args) (co_lna_gain_control args) ;;
  lna_clamp <-! assoc lna_input_clamp_dict (co_lna_input_clamp args) (co_lna_input_clamp args) ;;
  make_default_config {|
    p_ip := co_host args; p_slot := 0; p_timeout_ms := co_timeout args;
    p_biasctrl := co_biasctrl args; p_threshold := co_threshold args; p_xcorr := co_xcorr args;
    p_tp_conf := co_tp_conf args; p_compensator := co_compensator args;
    p_inverters := co_inverters args; p_per_ch_trim := 0; p_per_ch_offset := co_ch_offset args;
    p_vgain := co_vgain args; p_lpf_cutoff := lpf; p_pga_clamp_level := pga_clamp;
    p_pga_gain := pga_gain; p_lna_gain := lna_gain; p_lna_clamp := lna_clamp |}.

(** [text] is what the seed file holds. *)
Definition build_seed_cfg (args : compare_args) (text : option string) : result ConfigureRequest :=
  seed_cfgs <-! load_seed_from_output (co_json_path args) text ;;
  seed_cfg <-! item seed_cfgs (co_board_id args) ;;
  ip <-! (if decide (co_host args = "") then dict_get seed_cfg "ip" (PyStr "127.0.0.1")
          else Ok (PyStr (co_host args))) ;;
  slot_id <-! dict_get seed_cfg "slot_id" (PyInt 0) ;;
  lpf <-! assoc lpf_dict (co_lpf_cutoff args) (str_Z (co_lpf_cutoff args)) ;;
  pga_gain <-! assoc pga_gain_control_dict (co_pga_gain_control args) (co_pga_gain_control args) ;;
  lna_gain <-! assoc lna_gain_control_dict (co_lna_gain_control args) (co_lna_gain_control args) ;;
  lna_clamp <-! assoc lna_input_clamp_dict (co_lna_input_clamp args) (co_lna_input_clamp args) ;;
  host <-! assign_string ip ;;
  sl <-! assign_u32 slot_id ;;
  defaults <-! build_defaults_from_args host sl (co_ch_offset args) (co_vgain args) lpf pga_gain
                 lna_gain lna_clamp ;;
  cfg <-! build_request_from_seed seed_cfg defaults (negb (co_prefer_cli_common args)) ;;
  addr <-! dict_get seed_cfg "ip" (PyStr (co_host args)) ;;
  address <-! assign_string addr ;;
  timeout <-! set_u32 (co_timeout args) ;;
  Ok (with_target cfg address timeout).

(** ** The script *)

(** A file is what was written to it: bytes or text. *)
Inductive saved (B : Type) : Type :=
  | SavedBytes (b : B)
  | SavedText (s : string).
Arguments SavedBytes {B}.
Arguments SavedText {B}.

Record cworld (S B : Type) : Type := CW { cnet : zworld S B; cfiles : gmap string (saved B) }.
Arguments CW {S B}.
Arguments cnet {S B}.
Arguments cfiles {S B}.

Section compare.
Context {S B : Type} `{Peer S B, Size B, !Proto B (ControlEnvelopeV2 B)}.
Context `{!Proto B ConfigureRequest, !Proto B ConfigureResponse}.
Context (msg_to_sorted_json : ConfigureRequest -> string)
  (unified_diff : list string -> list string -> list string).
Context (pid rand : Z) (args : compare_args).
Abbreviation Wd := (zworld S B).
Abbreviation Wc := (cworld S B).

Definition cnet_op {A : Type} (m : M Wd A) : M Wc A := fun w =>
  let '(r, z) := m (cnet w) in (r, CW z (cfiles w)).

(** [save_bytes] and [write_text] *)
Definition save (name : string) (x : saved B) : M Wc unit := modify (fun w =>
  CW (cnet w) (<[path_join (co_out_dir args) name := x]> (cfiles w))).

(** [send_envelope]: a socket of its own; neither the type nor the correlation of the reply is
    checked. *)
Definition send_envelope (env : ControlEnvelopeV2 B) (label : string) : M Wd unit :=
  modify (fun w => set_reading w [] []) ;;;
  z_send (ser env) ;;;
  frames <- recv_frames ;;
  f <- last_frame frames ;;
  reply <- lift (parse (A := ControlEnvelopeV2 B) f) ;;
  resp <- lift (parse (A := ConfigureResponse) (payload reply)) ;;
  say ("[" +:+ label +:+ "] reply type=" +:+ str_Z (mtype reply) +:+ " success="
       +:+ str_bool (success resp)) ;;;
  summarize_configure_response resp true.

Definition title (s : string) : M Wd unit := say (String nl s).

(** The part of [main] that prints the differences and sends the envelopes. *)
Definition diff_and_send (cfg_cli cfg_seed : ConfigureRequest)
    (env_cli env_seed : ControlEnvelopeV2 B) : M Wd Z :=
  title "=== REQUEST DIFF (cli vs seed) ===" ;;;
  for_each (unified_diff (splitlines (msg_to_sorted_json cfg_cli))
                         (splitlines (msg_to_sorted_json cfg_seed))) say ;;;
  title "=== SENDING CLI REQUEST ===" ;;;
  send_envelope env_cli "cli" ;;;
  title "=== SENDING SEED REQUEST ===" ;;;
  send_envelope env_seed "seed" ;;;
  title ("Saved envelopes/requests under: " +:+ co_out_dir args) ;;;
  ret 0.

Definition compare_main (text : option string) : M Wc Z :=
  cfg_cli <- lift (build_cli_cfg args) ;;
  cfg_seed <- lift (build_seed_cfg args text) ;;
  env_cli <- cnet_op (build_env (next_ids pid rand) MT2_CONFIGURE_FE_REQ (ser cfg_cli) (co_route args)) ;;
  env_seed <- cnet_op (build_env (next_ids pid rand) MT2_CONFIGURE_FE_REQ (ser cfg_seed) (co_route args)) ;;
  save "cli_configure_env.bin" (SavedBytes (ser env_cli)) ;;;
  save "seed_configure_env.bin" (SavedBytes (ser env_seed)) ;;;
  save "cli_configure_request.json" (SavedText (msg_to_sorted_json cfg_cli)) ;;;
  save "seed_configure_request.json" (SavedText (msg_to_sorted_json cfg_seed)) ;;;
  cnet_op (diff_and_send cfg_cli cfg_seed env_cli env_seed).

End compare.

(** ** Lemmas *)

Section compare_lemmas.
Context {S B : Type} `{Peer S B, Size B, !Proto B (ControlEnvelopeV2 B)}.
Context `{!Proto B ConfigureRequest, !Proto B ConfigureResponse}.
Abbreviation Wd := (zworld S B).

Lemma sends_envelope env label :
  sends (fun _ => True) [ser env] (send_envelope env label : M Wd unit).
Proof using Type.
  apply v1_sends_step; [done|]. intros _. eapply sends_then; [apply v1_sends_send|]. intros _.
  apply unsent_bind; [apply recv_frames_quiet|intros frames].
  apply unsent_bind; [apply unsent_last_frame|intros f].
  do 2 (apply unsent_bind; [apply unsent_lift|intros ?]).
  apply unsent_bind; [apply unsent_say|intros _]. apply unsent_summarize.
Qed.

(** The two envelopes, in order, and nothing else. *)
Lemma sends_both to_json diff args c1 c2 e1 e2 :
  sends (fun z => z = 0) [ser e1; ser e2]
    (diff_and_send to_json diff args c1 c2 e1 e2 : M Wd Z).
Proof using Type.
  unfold diff_and_send, title. apply v1_sends_step; [done|intros _].
  apply v1_sends_step; [by apply unsent_for_each|intros _]. apply v1_sends_step; [done|intros _].
  apply (v1_sends_bind (fun _ => True) _ [_] [_]); [apply sends_envelope|intros _ _].
  apply v1_sends_step; [done|intros _].
  apply (v1_sends_bind (fun _ => True) _ [_] []); [apply sends_envelope|intros _ _].
  apply v1_sends_step; [done|intros _]. by apply sends_ret.
Qed.

End compare_lemmas.

(** ** Properties *)

(** [compare_configure_envelopes] on any peer: when one of the requests cannot be built nothing
    is sent and no file changes; otherwise the four files hold the two requests and the very
    envelopes that are sent, first the one of the command line, and only those are sent (both when
    the script ends normally, with status 0); no other file changes, and both requests fit the
    fields of the message. *)
Theorem compare_saves_what_it_sends {S B : Type} `{Peer S B, Size B, !Proto B (ControlEnvelopeV2 B)}
    `{!Proto B ConfigureRequest, !Proto B ConfigureResponse}
    to_json diff pid rand args text (w : cworld S B) :
  let main := compare_main to_json diff pid rand args text in
  match build_cli_cfg args, build_seed_cfg args text with
  | Ok cfg_cli, Ok cfg_seed =>
      well_typed cfg_cli /\ well_typed cfg_seed /\
      exists env_cli env_seed : ControlEnvelopeV2 B,
        tag env_cli = (MT2_CONFIGURE_FE_REQ, ser cfg_cli) /\
        tag env_seed = (MT2_CONFIGURE_FE_REQ, ser cfg_seed) /\
        cfiles (snd (main w)) =
          <[path_join (co_out_dir args) "seed_configure_request.json" := SavedText (to_json cfg_seed)]>
          (<[path_join (co_out_dir args) "cli_configure_request.json" := SavedText (to_json cfg_cli)]>
          (<[path_join (co_out_dir args) "seed_configure_env.bin" := SavedBytes (ser env_seed)]>
          (<[path_join (co_out_dir args) "cli_configure_env.bin" := SavedBytes (ser env_cli)]>
          (cfiles w)))) /\
        exists q, sent (cnet (snd (main w))) = sent (cnet w) ++ q /\
          q `prefix_of` [ser env_cli; ser env_seed] /\
          (forall z, fst (main w) = Ok z -> z = 0 /\ q = [ser env_cli; ser env_seed])
  | Raise e, _ | Ok _, Raise e => main w = (Raise e, w)
  end.
Proof.
  cbv zeta. unfold compare_main.
  destruct (build_cli_cfg args) as [c1|e] eqn:H1; [|done].
  destruct (build_seed_cfg args text) as [c2|e] eqn:H2; [|done].
  split; [|split].
  { unfold build_cli_cfg in H1. run_fields H1. by eapply default_config_typed. }
  { unfold build_seed_cfg in H2. run_fields H2. injection H2 as <-.
    match goal with H : build_defaults_from_args _ _ _ _ _ _ _ _ = Ok _ |- _ =>
      apply default_config_typed in H as Hd end.
    match goal with H : build_request_from_seed _ _ _ = Ok _ |- _ =>
      apply (seed_request_typed _ _ _ _ Hd) in H as (Ha & _ & Hc) end.
    split; [done|]. split; [eauto with typed|exact Hc]. }
  destruct (build_env_ok (next_ids pid rand) MT2_CONFIGURE_FE_REQ (ser c1) (co_route args) (cnet w)
    (id_next pid rand)) as (e1 & w1 & Hr1 & Ht1 & Hs1 & _).
  destruct (build_env_ok (next_ids pid rand) MT2_CONFIGURE_FE_REQ (ser c2) (co_route args) w1
    (id_next pid rand)) as (e2 & w2 & Hr2 & Ht2 & Hs2 & _).
  exists e1, e2. split; [done|]. split; [done|].
  destruct (sends_both to_json diff args c1 c2 e1 e2 w2) as (q & Hq & Hp & Hn).
  unfold bind, lift, save, modify, cnet_op. cbn [cnet cfiles]. rewrite Hr1. cbn [cnet cfiles].
  rewrite Hr2. cbn [cnet cfiles].
  destruct (diff_and_send _ _ _ _ _ _ _ w2) as [r z]. cbn [fst snd cnet cfiles] in *.
  split; [done|]. exists q. split_and!; [by rewrite Hq, Hs2, Hs1|done|].
  intros a Ha. destruct (Hn a Ha). done.
Qed.
