(* ===== verification/OscSpectrum.v ===== *)
(** [client/osc.py]: the window functions, the averaged spectrum the acquisition worker keeps of
    one channel, and the signals it sends to the window.

    Arithmetic on arrays is binary64 element by element, with numpy's broadcasting of arrays of
    one element; the Fourier transform, the logarithm, the window functions and the sums of floats
    are classes [Spectral] and [Numpy]. *)
From S2P Require Import Prelude PyStr PyFloat FloatExact EnvelopeV2 SpyAcquire ChargeWindows OscAcq.

(** [np.fft.rfft] (real and imaginary parts), [np.log10], the windows of numpy, and those of
    scipy where it is installed. *)
Class Spectral : Type := {
  rfft : list float -> list (float * float);
  np_log10 : float -> float;
  np_hanning : Z -> list float;
  np_hamming : Z -> list float;
  np_blackman : Z -> list float;
  blackmanharris : option (Z -> list float);
  tukey : option (Z -> list float) }.

Definition ensure_scipy {A : Type} (f : option A) : result A :=
  match f with
  | Some g => Ok g
  | None => Raise (Exn RuntimeError ("SciPy is required for BLACKMAN-HARRIS/TUKEY windows. "
      +:+ "Install with `pip install scipy` or choose HANNING/HAMMING/BLACKMAN/NONE."))
  end.

(** [name.upper()] *)
Definition upper (c : ascii) : ascii :=
  if (97 <=? code c) && (code c <=? 122) then char (code c - 32) else c.

Fixpoint upper_str (s : string) : string :=
  match s with "" => "" | String c t => String (upper c) (upper_str t) end.

Definition get_window `{Spectral} (name : string) (n_samples : Z) : result (list float) :=
  let name := upper_str name in
  if decide (name = "NONE") then Ok (replicate (Z.to_nat n_samples) (f_of_Z 1))
  else if decide (name = "HANNING") then Ok (np_hanning n_samples)
  else if decide (name = "HAMMING") then Ok (np_hamming n_samples)
  else if decide (name = "BLACKMAN") then Ok (np_blackman n_samples)
  else if decide (name = "BLACKMAN-HARRIS")
  then w <-! ensure_scipy blackmanharris ;; Ok (w n_samples)
  else if decide (name = "TUKEY") then w <-! ensure_scipy tukey ;; Ok (w n_samples)
  else Raise (value_error ("Unknown window function: " +:+ name)).

(** ** Arrays *)

Definition size {A : Type} (l : list A) : Z := Z.of_nat (length l).

Definition broadcast_error (n m : Z) : exn :=
  value_error ("operands could not be broadcast together with shapes (" +:+ str_Z n +:+ ",) ("
               +:+ str_Z m +:+ ",) ").

(** [f(x, y)] element by element *)
Definition broadcast (f : float -> float -> float) (x y : list float) : result (list float) :=
  if size x =? size y then Ok (zip_with f x y)
  else match x, y with
       | [a], _ => Ok (f a <$> y)
       | _, [b] => Ok ((fun a => f a b) <$> x)
       | _, _ => Raise (broadcast_error (size x) (size y))
       end.

(** [x op= y], which keeps the shape of [x] *)
Definition in_place (f : float -> float -> float) (x y : list float) : result (list float) :=
  if size x =? size y then Ok (zip_with f x y)
  else match y with
       | [b] => Ok ((fun a => f a b) <$> x)
       | _ => Raise (broadcast_error (size x) (size y))
       end.

(** ** The average *)

(** The dictionary [fft_config]. *)
Record fft_config : Type := {
  fc_enabled : bool; fc_channel_index : Z; fc_window : option (list float); fc_avg_waves : Z;
  fc_emit_every : Z; fc_adc_full_scale : float; fc_remove_dc : bool }.

Definition fft_emit_every (c : fft_config) : Z := Z.max 1 (fc_emit_every c).
Definition fft_avg_count (c : fft_config) : Z := Z.max 1 (fc_avg_waves c).
Definition fft_adc_full_scale (c : fft_config) : float := py_max (f_of_Z 1) (fc_adc_full_scale c).

(** What the worker tells the window. *)
Inductive signal : Type :=
  | FftUpdate (y_dbfs : list float) (navg : Z)
  | StatusText (text : string)
  | PlotUpdate (yk : frame) (rtt_ms : float) (frame_id t_ns : Z).

(** The state of the average; a ring or a sum that is [None] is the empty list here. *)
Record spectrum : Type := Spectrum {
  fft_enabled : bool; fft_channel_index : Z; fft_window : list float; fft_window_power : float;
  fft_ring : list (list float); fft_sum : list float; fft_frames : Z; signals : list signal }.

Definition off (c : fft_config) : spectrum :=
  Spectrum false (fc_channel_index c) [] (f_of_Z 1) [] [] 0 [].

(** [_setup_fft], for requests of [n_samples] samples. *)
Definition setup_fft `{Numpy} (c : fft_config) (n_samples : Z) : spectrum :=
  if negb (fc_enabled c) then off c
  else if n_samples <=? 0 then off c
  else
    match fc_window c with
    | None => off c
    | Some w =>
        if negb (size w =? n_samples) then off c
        else
          let n_bins := Z.to_nat (n_samples / 2 + 1) in
          Spectrum true (fc_channel_index c) w
            (py_max (f_of_Z 1) (np_sum (zip_with f_mul w w)))
            (replicate (Z.to_nat (fft_avg_count c)) (replicate n_bins f_zero))
            (replicate n_bins f_zero) 0 []
    end.

Definition zeros (l : list float) : list float := (fun _ => f_zero) <$> l.

(** [fill(0.0)] of the ring and of the sum, and a channel. *)
Definition cleared (index : Z) (s : spectrum) : spectrum :=
  Spectrum (fft_enabled s) index (fft_window s) (fft_window_power s)
    (zeros <$> fft_ring s) (zeros (fft_sum s)) 0
    (signals s).

Definition say_signal (x : signal) (s : spectrum) : spectrum :=
  Spectrum (fft_enabled s) (fft_channel_index s) (fft_window s) (fft_window_power s) (fft_ring s)
    (fft_sum s) (fft_frames s) (signals s ++ [x]).

Definition set_average (ring : list (list float)) (sum : list float) (frames : Z) (s : spectrum)
    : spectrum :=
  Spectrum (fft_enabled s) (fft_channel_index s) (fft_window s) (fft_window_power s) ring sum frames
    (signals s).

(** [set_fft_channel_index], for the channels of the request. *)
Definition set_fft_channel_index (channelList : list Z) (channel_index : Z) (s : spectrum)
    : spectrum :=
  if negb (fft_enabled s) then s
  else if (channel_index <? 0) || (size channelList <=? channel_index)
  then say_signal (StatusText ("[fft] invalid channel index " +:+ str_Z channel_index)) s
  else if channel_index =? fft_channel_index s then s
  else
    say_signal (StatusText (match channelList !! Z.to_nat channel_index with
                            | Some ch => "[fft] source channel set to " +:+ str_Z ch
                            | None => "[fft] source channel changed"
                            end)) (cleared channel_index s).

Definition reset_fft_average (s : spectrum) : spectrum :=
  if negb (fft_enabled s) then s
  else say_signal (StatusText "[fft] average reset") (cleared (fft_channel_index s) s).

Section update.
Context `{Spectral} (c : fft_config).

(** The power spectrum of one waveform. *)
Definition power_spectrum (s : spectrum) (waveform : list Z) : result (list float) :=
  let y0 := f_of_Z <$> waveform in
  let y := if fc_remove_dc c then (fun x => f_sub x (mean_ints waveform)) <$> y0 else y0 in
  y_windowed <-! broadcast f_mul y (fft_window s) ;;
  y_fft <-! (match y_windowed with
             | [] => Raise (value_error "Invalid number of FFT data points (0) specified.")
             | _ => Ok (rfft y_windowed)
             end) ;;
  Ok ((fun z => np_div (f_add (f_mul (fst z) (fst z)) (f_mul (snd z) (snd z))) (fft_window_power s))
        <$> y_fft).

(** [10.0 * np.log10(mean / full_scale ** 2 + 1e-24)] of the sum of [navg] spectra. *)
Definition dbfs (sum : list float) (navg : Z) : list float :=
  (fun x => f_mul (f_of_Z 10) (np_log10 (f_add
     (np_div (np_div x (f_of_Z navg)) (f_mul (fft_adc_full_scale c) (fft_adc_full_scale c)))
     (f_dec 1 (-24))))) <$> sum.

(** [_update_fft] *)
Definition update_fft (yk : frame) : M spectrum unit :=
  s <- get ;;
  if negb (fft_enabled s) then ret tt
  else
    match (if fft_channel_index s <? 0 then None else yk !! Z.to_nat (fft_channel_index s)) with
    | None => ret tt
    | Some waveform =>
        power <- lift (power_spectrum s waveform) ;;
        let slot := Z.to_nat (fft_frames s mod fft_avg_count c) in
        let oldest := default [] (fft_ring s !! slot) in
        (if fft_avg_count c <=? fft_frames s then
           sum <- lift (in_place f_sub (fft_sum s) oldest) ;;
           modify (fun s => set_average (fft_ring s) sum (fft_frames s) s)
         else ret tt) ;;;
        row <- lift (in_place (fun _ p => p) oldest power) ;;
        modify (fun s => set_average (<[slot := row]> (fft_ring s)) (fft_sum s) (fft_frames s) s) ;;;
        sum0 <- gets fft_sum ;;
        sum <- lift (in_place f_add sum0 power) ;;
        let frames := fft_frames s + 1 in
        modify (fun s => set_average (fft_ring s) sum frames s) ;;;
        if negb (frames mod fft_emit_every c =? 0) then ret tt
        else
          let navg := if fft_avg_count c <=? frames then fft_avg_count c else frames in
          if navg <=? 0 then ret tt
          else modify (say_signal (FftUpdate (dbfs sum navg) navg))
    end.

End update.

(** ** Lemmas: sums of integer vectors *)

Abbreviation add_vec := (zip_with Z.add).
Abbreviation sub_vec := (zip_with Z.sub).

(** The sum of vectors of [n] entries. *)
Definition vsum (n : nat) (vs : list (list Z)) : list Z := foldr add_vec (replicate n 0) vs.

Definition sized (n : nat) (vs : list (list Z)) : Prop := Forall (fun v => length v = n) vs.

Lemma vsum_length n vs : sized n vs -> length (vsum n vs) = n.
Proof.
  induction 1 as [|v vs Hv _ IH]; cbn; [by rewrite length_replicate|].
  rewrite length_zip_with. unfold vsum in IH. lia.
Qed.

Lemma add_vec_comm v1 v2 : add_vec v1 v2 = add_vec v2 v1.
Proof.
  revert v2. induction v1 as [|a v1 IH]; intros [|b v2]; cbn; try done. rewrite IH. f_equal. lia.
Qed.

Lemma add_vec_assoc v1 v2 v3 : add_vec v1 (add_vec v2 v3) = add_vec (add_vec v1 v2) v3.
Proof.
  revert v2 v3. induction v1 as [|a v1 IH]; intros [|b v2] [|d v3]; cbn; try done.
  rewrite IH. f_equal. lia.
Qed.

Lemma vsum_snoc n vs v : vsum n (vs ++ [v]) = add_vec (vsum n vs) v.
Proof.
  induction vs as [|u vs IH]; cbn; [apply add_vec_comm|].
  unfold vsum in *. by rewrite IH, add_vec_assoc.
Qed.

Lemma sub_add_vec v u : length v = length u -> sub_vec (add_vec v u) v = u.
Proof.
  revert u. induction v as [|a v IH]; intros [|b u]; cbn; try done. intros [=Hl].
  rewrite IH by done. f_equal. lia.
Qed.

(** Entries of bounded vectors *)
Definition within (m : Z) (v : list Z) : Prop := Forall (fun k => 0 <= k <= m) v.

Lemma add_vec_within m1 m2 v1 v2 : within m1 v1 -> within m2 v2 -> within (m1 + m2) (add_vec v1 v2).
Proof.
  intros H1. revert v2. induction H1 as [|a v1 Ha _ IH]; intros v2 H2; [constructor|].
  destruct H2 as [|b v2 Hb H2]; cbn; constructor; [lia|by apply IH].
Qed.

Lemma vsum_within m n vs : 0 <= m -> Forall (within m) vs -> within (m * size vs) (vsum n vs).
Proof.
  intros Hm. induction 1 as [|v vs Hv _ IH]; cbn.
  - apply Forall_replicate. unfold size. cbn. lia.
  - replace (m * size (v :: vs)) with (m + m * size vs) by (unfold size; cbn [length]; lia).
    by apply add_vec_within.
Qed.

Lemma add_vec_exact e m v1 v2 :
  -1074 <= e <= 971 -> m < 2 ^ 53 -> within m (add_vec v1 v2) -> length v1 = length v2 ->
  within m v1 -> within m v2 ->
  zip_with f_add (fx e <$> v1) (fx e <$> v2) = fx e <$> add_vec v1 v2.
Proof.
  intros He Hm Hs Hl H1 H2. revert v2 Hs Hl H2. induction H1 as [|a v1 Ha _ IH]; intros [|b v2]; cbn; try done.
  intros [Hab Hs]%Forall_cons [=Hl] [Hb H2]%Forall_cons. f_equal; [|by apply IH].
  apply add_exact; unfold exact; lia.
Qed.

Lemma sub_vec_exact e m v u :
  -1074 <= e <= 971 -> m < 2 ^ 53 -> within m (add_vec v u) -> within m v -> within m u ->
  length v = length u ->
  zip_with f_sub (fx e <$> add_vec v u) (fx e <$> v) = fx e <$> u.
Proof.
  intros He Hm Hs Hv. revert u Hs. induction Hv as [|a v Ha _ IH]; intros [|b u]; cbn; try done.
  intros [Hab Hs]%Forall_cons [Hb Hu]%Forall_cons [=Hl]. f_equal; [|by apply IH].
  rewrite sub_exact by (unfold exact; lia). f_equal. lia.
Qed.

(** The last [k + 1] of a list that has them: the oldest first. *)
Lemma last_n_cons {A : Type} (k : Z) (l : list A) x :
  0 < k -> k <= size l -> l !! (length l - Z.to_nat k)%nat = Some x ->
  last_n k l = x :: last_n (k - 1) l.
Proof.
  unfold last_n, size. intros Hk Hl Hx.
  rewrite (drop_S l x (length l - Z.to_nat k)) by done. do 2 f_equal. lia.
Qed.

Lemma last_n_snoc {A : Type} (k : Z) (l : list A) x : 0 < k -> last_n k (l ++ [x]) = last_n (k - 1) l ++ [x].
Proof.
  unfold last_n. intros Hk. rewrite length_app. cbn.
  rewrite drop_app_le by lia. do 2 f_equal. lia.
Qed.

(** ** Lemmas: the shapes of the average *)

Lemma in_place_length f x y z : in_place f x y = Ok z -> length z = length x.
Proof.
  unfold in_place, size. case Z.eqb_spec; intros Hl.
  - intros [= <-]. rewrite length_zip_with. lia.
  - destruct y as [|b [|]]; intros [= <-]. by rewrite length_fmap.
Qed.

Lemma in_place_same f x y : length x = length y -> in_place f x y = Ok (zip_with f x y).
Proof. intros Hl. unfold in_place, size. by rewrite Hl, Z.eqb_refl. Qed.

Section average.
Context `{Numpy, Spectral} (c : fft_config).

(** The ring and the sum have the shapes [_setup_fft] gave them. *)
Record shaped (bins : nat) (s : spectrum) : Prop := {
  sh_ring : size (fft_ring s) = fft_avg_count c;
  sh_rows : Forall (fun r => length r = bins) (fft_ring s);
  sh_sum : length (fft_sum s) = bins }.

(** What no operation changes. *)
Definition same_fft (s s' : spectrum) : Prop :=
  fft_enabled s' = fft_enabled s /\ fft_window s' = fft_window s /\
  fft_window_power s' = fft_window_power s.

Lemma avg_pos : 0 < fft_avg_count c.
Proof using Type. unfold fft_avg_count. lia. Qed.

Lemma setup_shaped n : fft_enabled (setup_fft c n) = true ->
  shaped (Z.to_nat (n / 2 + 1)) (setup_fft c n).
Proof using Type.
  unfold setup_fft. destruct (negb (fc_enabled c)); [done|]. destruct (n <=? 0); [done|].
  destruct (fc_window c) as [w|]; [|done]. destruct (negb _); [done|]. intros _. cbn. split; cbn.
  - unfold size. rewrite length_replicate. pose proof avg_pos. lia.
  - apply Forall_replicate. apply length_replicate.
  - apply length_replicate.
Qed.

Lemma cleared_zero bins index s : shaped bins s ->
  fft_ring (cleared index s) = replicate (Z.to_nat (fft_avg_count c)) (replicate bins f_zero) /\
  fft_sum (cleared index s) = replicate bins f_zero.
Proof using Type.
  intros [Hr Hrows Hs]. unfold cleared, zeros. cbn [fft_ring fft_sum]. split.
  - unfold size in Hr. replace (Z.to_nat (fft_avg_count c)) with (length (fft_ring s)) by lia.
    clear Hr. induction Hrows as [|r rows Hr _ IH]; [done|]. cbn. f_equal; [|done].
    rewrite <- Hr. clear. induction r; cbn; congruence.
  - rewrite <- Hs. generalize (fft_sum s) as l. clear. intros l. induction l; cbn; congruence.
Qed.

Lemma cleared_shaped bins index s : shaped bins s -> shaped bins (cleared index s).
Proof using Type.
  intros Hs. destruct (cleared_zero bins index s Hs) as [Hr Hsum]. split.
  - rewrite Hr. unfold size. rewrite length_replicate. pose proof avg_pos. lia.
  - rewrite Hr. apply Forall_replicate. apply length_replicate.
  - rewrite Hsum. apply length_replicate.
Qed.

Lemma set_average_shaped bins s ring sum frames :
  shaped bins s -> length ring = length (fft_ring s) -> Forall (fun r => length r = bins) ring ->
  length sum = bins -> shaped bins (set_average ring sum frames s).
Proof using Type. intros [Hr _ _] Hlen Hrows Hsum. split; cbn; [unfold size in *; lia|done|done]. Qed.

(** An update keeps the shapes; it raises only when the spectrum of its waveform raises or has
    another number of bins. *)
Lemma update_shaped bins yk s r s' :
  shaped bins s -> update_fft c yk s = (r, s') ->
  shaped bins s' /\ same_fft s s' /\ fft_channel_index s' = fft_channel_index s /\
  ((forall w, fft_enabled s = true -> w ∈ yk ->
     exists p, power_spectrum c s w = Ok p /\ length p = bins) -> r = Ok tt).
Proof using Type.
  intros Hs. unfold update_fft. unfold bind at 1, get.
  destruct (negb (fft_enabled s)) eqn:Hen; [by intros [= <- <-]|]. apply negb_false_iff in Hen.
  destruct (if _ : bool then _ else _) as [w|] eqn:Hw; [|by intros [= <- <-]].
  assert (Hin : w ∈ yk) by (destruct (_ <? _); [done|by eapply list_elem_of_lookup_2]).
  unfold bind at 1, lift at 1. destruct (power_spectrum c s w) as [power|] eqn:Hp;
    [|intros [= <- <-]; split; [done|]; split; [done|]; split; [done|]; intros Hok;
     destruct (Hok w Hen Hin) as (? & ? & ?); congruence].
  assert (Hlen : (forall w, fft_enabled s = true -> w ∈ yk ->
     exists p, power_spectrum c s w = Ok p /\ length p = bins) -> length power = bins)
    by (intros Hok; destruct (Hok w Hen Hin) as (? & ? & ?); congruence).
  cbv zeta. set (slot := Z.to_nat _). set (oldest := default [] _).
  assert (Hslot : (slot < length (fft_ring s))%nat).
  { destruct Hs as [Hr _ _]. unfold size in Hr. pose proof avg_pos.
    pose proof (Z.mod_pos_bound (fft_frames s) (fft_avg_count c)). unfold slot. lia. }
  destruct (lookup_lt_is_Some_2 _ _ Hslot) as [o Ho].
  assert (Hold : length oldest = bins).
  { destruct Hs as [_ Hrows _]. unfold oldest. rewrite Ho. by apply (Forall_lookup_1 _ _ _ _ Hrows Ho). }
  assert (Hfirst : exists s1, (if fft_avg_count c <=? fft_frames s
    then sum <- lift (in_place f_sub (fft_sum s) oldest) ;;
         modify (fun s => set_average (fft_ring s) sum (fft_frames s) s)
    else ret tt) s = (Ok tt, s1) /\ shaped bins s1 /\ same_fft s s1 /\
      fft_ring s1 = fft_ring s /\ fft_channel_index s1 = fft_channel_index s).
  { destruct (_ <=? _); [|by exists s].
    rewrite in_place_same by (by rewrite Hold, (sh_sum _ _ Hs)). eexists. split; [reflexivity|].
    split_and!; [|done|done|done]. apply set_average_shaped; [done|done|apply Hs|].
    rewrite length_zip_with, Hold, (sh_sum _ _ Hs). lia. }
  destruct Hfirst as (s1 & Hrun & Hs1 & Hsame & Hring & Hidx). rewrite (bind_run _ _ _ _ _ Hrun).
  unfold bind at 1, lift at 1. destruct (in_place _ oldest power) as [row|] eqn:Hrow;
    [|intros [= <- <-]; split; [exact Hs1|]; split; [exact Hsame|]; split; [exact Hidx|];
      intros Hok; rewrite in_place_same in Hrow by (rewrite (Hlen Hok); done); done].
  apply in_place_length in Hrow. unfold bind at 1, modify at 1. unfold bind at 1, gets.
  set (s2 := set_average _ _ _ s1).
  assert (Hs2 : shaped bins s2).
  { apply set_average_shaped; [done|by rewrite length_insert| |apply Hs1].
    apply Forall_insert; [apply Hs1|congruence]. }
  unfold bind at 1, lift at 1. destruct (in_place f_add _ power) as [sum|] eqn:Hsum;
    [|intros [= <- <-]; split; [exact Hs2|]; split; [exact Hsame|]; split; [exact Hidx|];
      intros Hok; rewrite in_place_same in Hsum by (rewrite (Hlen Hok); apply Hs2); done].
  apply in_place_length in Hsum. unfold bind at 1, modify at 1.
  set (s3 := set_average _ _ _ s2).
  assert (Hs3 : shaped bins s3).
  { apply set_average_shaped; [done|done|apply Hs2|]. rewrite Hsum. apply Hs2. }
  assert (Hsame3 : same_fft s s3) by exact Hsame.
  assert (Hidx3 : fft_channel_index s3 = fft_channel_index s) by exact Hidx.
  destruct (negb _); [by intros [= <- <-]|]. destruct (_ <=? 0); [by intros [= <- <-]|].
  intros [= <- <-]. split; [destruct Hs3; by split|]. split; [exact Hsame3|]. by split.
Qed.

(** The running sum, in the arithmetic of floats: each spectrum is added, after the oldest was
    subtracted when the ring is full.  The state is what was seen and the sum. *)
Context (bins : nat).

Definition running_turn (st : list (list float) * list float) (p : list float)
    : list (list float) * list float :=
  let '(seen, sum) := st in
  (seen ++ [p],
   zip_with f_add
     (if fft_avg_count c <=? size seen
      then zip_with f_sub sum (default [] (seen !! (length seen - Z.to_nat (fft_avg_count c))%nat))
      else sum) p).

Definition running_sum (ps : list (list float)) : list float :=
  snd (foldl running_turn ([], replicate bins f_zero) ps).

Lemma running_seen ps : fst (foldl running_turn ([], replicate bins f_zero) ps) = ps.
Proof using Type.
  induction ps as [|p ps IH] using rev_ind; [done|]. rewrite foldl_app. cbn [foldl].
  destruct (foldl running_turn _ ps) as [seen sum]. cbn in *. by subst.
Qed.

Lemma running_snoc ps p :
  running_sum (ps ++ [p]) =
  zip_with f_add
    (if fft_avg_count c <=? size ps
     then zip_with f_sub (running_sum ps) (default [] (ps !! (length ps - Z.to_nat (fft_avg_count c))%nat))
     else running_sum ps) p.
Proof using Type.
  pose proof (running_seen ps) as Hseen. unfold running_sum. rewrite foldl_app. cbn [foldl].
  destruct (foldl running_turn _ ps) as [seen sum]. cbn in *. by subst.
Qed.

Definition all_bins (ps : list (list float)) : Prop := Forall (fun p => length p = bins) ps.

Lemma running_length ps : all_bins ps -> length (running_sum ps) = bins.
Proof using Type.
  induction ps as [|p ps IH] using rev_ind; intros Hps; [apply length_replicate|].
  apply Forall_app in Hps as [Hps Hp]. apply Forall_cons in Hp as [Hp _].
  rewrite running_snoc, length_zip_with, Hp. pose proof avg_pos. case Z.leb_spec; intros Hle.
  - destruct (lookup_lt_is_Some_2 ps (length ps - Z.to_nat (fft_avg_count c))) as [x Hx];
      [unfold size in *; lia|].
    rewrite Hx. change (default [] (Some x)) with x. rewrite length_zip_with, (IH Hps), (Forall_lookup_1 _ _ _ _ Hps Hx). lia.
  - rewrite (IH Hps). lia.
Qed.

Record avg_inv (seen : list (list float)) (s : spectrum) : Prop := {
  ai_frames : fft_frames s = size seen;
  ai_ring : ring_holds (Z.to_nat (fft_avg_count c)) (replicate bins f_zero) seen (fft_ring s);
  ai_sum : fft_sum s = running_sum seen;
  ai_seen : all_bins seen }.

Lemma cleared_inv index s : shaped bins s -> avg_inv [] (cleared index s).
Proof using Type.
  intros Hs. destruct (cleared_zero bins index s Hs) as [Hr Hz]. split.
  - done.
  - rewrite Hr. apply ring_new.
  - exact Hz.
  - constructor.
Qed.

Lemma say_inv seen x s : avg_inv seen s -> avg_inv seen (say_signal x s).
Proof using Type. intros [H1 H2 H3 H4]. by split. Qed.

(** The signals one more spectrum brings: the running sum by the number of spectra, every so
    many. *)
Definition emitted (seen : list (list float)) : list signal :=
  let n := size seen in
  let navg := Z.min (fft_avg_count c) n in
  if n mod fft_emit_every c =? 0 then [FftUpdate (dbfs c (running_sum seen) navg) navg] else [].

(** The slot of the next spectrum holds the oldest one. *)
Lemma oldest_slot seen s :
  avg_inv seen s ->
  let oldest := default [] (fft_ring s !! Z.to_nat (fft_frames s mod fft_avg_count c)) in
  length oldest = bins /\
  (fft_avg_count c <= size seen ->
   oldest = default [] (seen !! (length seen - Z.to_nat (fft_avg_count c))%nat)).
Proof using Type.
  intros [Hf Hr Hs Hok]. pose proof avg_pos as Hpos. rewrite Hf.
  destruct (Z.le_gt_cases (fft_avg_count c) (size seen)) as [Hn|Hn].
  - set (j := (length seen - Z.to_nat (fft_avg_count c))%nat).
    assert (Hj : (j < length seen)%nat) by (unfold size in Hn; lia).
    destruct (lookup_lt_is_Some_2 seen j Hj) as [x Hx].
    assert (Hslot : Z.to_nat (size seen mod fft_avg_count c) = (j mod Z.to_nat (fft_avg_count c))%nat).
    { apply Nat2Z.inj. rewrite Z2Nat.id by (apply Z.mod_pos_bound; lia). rewrite Nat2Z.inj_mod, Z2Nat.id by lia.
      replace (size seen) with (Z.of_nat j + 1 * fft_avg_count c) by (unfold size in *; lia).
      by rewrite Z_mod_plus_full. }
    rewrite Hslot, (ring_last _ _ _ _ Hr j x Hx) by (unfold size in Hn; lia). change (default [] (Some x)) with x.
    split; [apply (Forall_lookup_1 _ _ _ _ Hok Hx)|]. intros _. by rewrite Hx.
  - split; [|lia]. rewrite Z.mod_small by (unfold size in *; lia).
    rewrite (ring_unused _ _ _ _ Hr) by (unfold size in *; lia). apply length_replicate.
Qed.

(** The oldest of the last spectra leaves the sum. *)
Lemma drop_oldest seen s :
  avg_inv seen s ->
  let oldest := default [] (fft_ring s !! Z.to_nat (fft_frames s mod fft_avg_count c)) in
  let rest := if fft_avg_count c <=? size seen
    then zip_with f_sub (running_sum seen) (default [] (seen !! (length seen - Z.to_nat (fft_avg_count c))%nat))
    else running_sum seen in
  length rest = bins /\
  (if fft_avg_count c <=? fft_frames s
   then sum <- lift (in_place f_sub (fft_sum s) oldest) ;;
        modify (fun s => set_average (fft_ring s) sum (fft_frames s) s)
   else ret tt) s = (Ok tt, set_average (fft_ring s) rest (fft_frames s) s).
Proof using Type.
  intros Hinv oldest rest. destruct (oldest_slot seen s Hinv) as [Hlo Heq]. fold oldest in Hlo, Heq.
  destruct Hinv as [Hf Hr Hs Hok]. pose proof (running_length seen Hok) as Hlen. rewrite Hf. unfold rest.
  case Z.leb_spec; intros Hn.
  - rewrite <- (Heq Hn). split; [rewrite length_zip_with; lia|].
    rewrite in_place_same by congruence. unfold bind, lift, modify. by rewrite Hs, Hf.
  - split; [done|]. rewrite <- Hs, <- Hf. by destruct s.
Qed.

Lemma update_run seen p w yk s :
  avg_inv seen s -> fft_enabled s = true -> 0 <= fft_channel_index s ->
  yk !! Z.to_nat (fft_channel_index s) = Some w -> power_spectrum c s w = Ok p -> length p = bins ->
  exists s', update_fft c yk s = (Ok tt, s') /\ avg_inv (seen ++ [p]) s' /\ same_fft s s' /\
    fft_channel_index s' = fft_channel_index s /\ signals s' = signals s ++ emitted (seen ++ [p]).
Proof using Type.
  intros Hinv Hen Hidx Hw Hp Hpl. pose proof avg_pos as Hpos.
  unfold update_fft. unfold bind at 1, get. rewrite Hen. cbn [negb].
  rewrite (proj2 (Z.ltb_ge _ _)) by lia. rewrite Hw, Hp. unfold bind at 1, lift at 1. cbv zeta.
  destruct (oldest_slot seen s Hinv) as [Hold _].
  destruct (drop_oldest seen s Hinv) as [Hrest Hdrop]. rewrite (bind_run _ _ _ _ _ Hdrop).
  destruct Hinv as [Hf Hr Hs Hok]. set (slot := Z.to_nat (fft_frames s mod _)) in *.
  set (rest := if _ <=? _ then _ else _) in Hrest |- *.
  unfold bind at 1, lift at 1. rewrite in_place_same by congruence.
  replace (zip_with (fun _ p : float => p) _ p) with p
    by (revert Hold Hpl; generalize (default [] (fft_ring s !! slot)), p; clear;
        intros l l' <-; revert l'; induction l; intros [|]; cbn; intros [=]; f_equal; eauto).
  unfold bind at 1, modify at 1. unfold bind at 1, gets. cbn [fft_sum set_average fft_ring fft_frames].
  rewrite in_place_same by congruence.
  replace (zip_with f_add rest p) with (running_sum (seen ++ [p])) by (by rewrite running_snoc).
  unfold bind at 1, lift at 1. unfold bind at 1, modify at 1. set (s3 := set_average _ _ _ _).
  assert (Hsize : size (seen ++ [p]) = size seen + 1) by (unfold size; rewrite length_app; cbn; lia).
  assert (Hinv3 : avg_inv (seen ++ [p]) s3).
  { split; [cbn; lia| |done|by apply Forall_app; repeat constructor]. cbn [fft_ring s3 set_average].
    replace slot with (length seen mod Z.to_nat (fft_avg_count c))%nat; [apply ring_put; [lia|done]|].
    unfold slot. rewrite Hf. unfold size. apply Nat2Z.inj.
    rewrite Nat2Z.inj_mod, !Z2Nat.id by (try apply Z.mod_pos_bound; lia). done. }
  unfold emitted. rewrite Hsize, <- Hf.
  destruct (_ mod _ =? 0) eqn:Hmod; cbn [negb].
  - replace (if fft_avg_count c <=? fft_frames s + 1 then fft_avg_count c else fft_frames s + 1)
      with (Z.min (fft_avg_count c) (fft_frames s + 1)) by (case Z.leb_spec; lia).
    rewrite (proj2 (Z.leb_gt _ _)) by (rewrite Hf; unfold size; lia).
    eexists. split; [reflexivity|]. split; [by apply say_inv|]. by split_and!.
  - eexists. split; [reflexivity|]. split; [done|]. rewrite app_nil_r. by split_and!.
Qed.

(** Spectra that are multiples of [2 ^ e], small enough for their sums to be exact. *)
Definition floats (e : Z) (v : list Z) : list float := fx e <$> v.

Definition spectrum_ok (m : Z) (ks : list Z) : Prop := length ks = bins /\ within m ks.

Lemma last_ok m k seen : Forall (spectrum_ok m) seen ->
  sized bins (last_n k seen) /\ Forall (within m) (last_n k seen).
Proof using Type.
  intros Hs. unfold last_n, sized. split; apply Forall_drop; eapply Forall_impl; [done| |done|];
    by intros ks [].
Qed.

Lemma sum_bounded m k seen : 0 <= m -> 0 <= k <= fft_avg_count c -> Forall (spectrum_ok m) seen ->
  within (m * fft_avg_count c) (vsum bins (last_n k seen)).
Proof using Type.
  intros Hm Hk Hs. destruct (last_ok m k seen Hs) as [_ Hw].
  pose proof (vsum_within m bins _ Hm Hw) as Hv. eapply Forall_impl; [exact Hv|].
  intros x Hx. cbn in Hx. unfold size in Hx. pose proof (last_n_length k seen). nia.
Qed.

(** Then taking spectra out of the sum leaves no trace of them: it is the sum of the last ones. *)
Lemma running_exact e m kss :
  -1074 <= e <= 971 -> 0 <= m -> m * fft_avg_count c < 2 ^ 53 -> Forall (spectrum_ok m) kss ->
  running_sum (floats e <$> kss) = floats e (vsum bins (last_n (fft_avg_count c) kss)).
Proof using Type.
  intros He Hm Hsum. pose proof avg_pos as Hpos.
  induction kss as [|ks kss IH] using rev_ind; intros Hok.
  { change (replicate bins f_zero = floats e (replicate bins 0)). unfold floats. by rewrite fmap_replicate. }
  apply Forall_app in Hok as [Hok Hks]. apply Forall_cons in Hks as [[Hks Hwi] _]. specialize (IH Hok).
  set (rest := vsum bins (last_n (fft_avg_count c - 1) kss)).
  destruct (last_ok m (fft_avg_count c - 1) kss Hok) as [Hsz _].
  assert (Hrest : length rest = bins) by (by apply vsum_length).
  assert (Hv : add_vec rest ks = vsum bins (last_n (fft_avg_count c) (kss ++ [ks])))
    by (rewrite last_n_snoc, vsum_snoc by lia; done).
  assert (Hok' : Forall (spectrum_ok m) (kss ++ [ks])) by (apply Forall_app; by repeat constructor).
  rewrite fmap_app. cbn [fmap list_fmap]. rewrite running_snoc, IH.
  replace (if _ <=? _ then _ else _) with (floats e rest).
  - unfold floats. rewrite (add_vec_exact e (m * fft_avg_count c)); [by rewrite Hv|done|done|..].
    + rewrite Hv. apply sum_bounded; [done|lia|done].
    + congruence.
    + apply sum_bounded; [done|lia|done].
    + eapply Forall_impl; [exact Hwi|]. intros z Hz. cbn in Hz. nia.
  - unfold size. rewrite length_fmap. case Z.leb_spec; intros Hn.
    2:{ unfold rest. rewrite !last_n_id; [done|unfold size in *; lia..]. }
    destruct (lookup_lt_is_Some_2 kss (length kss - Z.to_nat (fft_avg_count c))) as [x Hx]; [lia|].
    rewrite list_lookup_fmap, Hx. change (default [] (floats e <$> Some x)) with (floats e x).
    destruct (Forall_lookup_1 _ _ _ _ Hok Hx) as [Hlx Hwx].
    assert (Hv2 : vsum bins (last_n (fft_avg_count c) kss) = add_vec x rest)
      by (by rewrite (last_n_cons _ _ x) by (unfold size; lia || done)).
    rewrite Hv2. unfold floats. rewrite (sub_vec_exact e (m * fft_avg_count c)); [done|done|done|..].
    + rewrite <- Hv2. apply sum_bounded; [done|lia|done].
    + eapply Forall_impl; [exact Hwx|]. intros z Hz. cbn in Hz. nia.
    + apply sum_bounded; [done|lia|done].
    + congruence.
Qed.

End average.

(** ** Properties *)

(** What can happen to the average: a frame, whatever comes of it, another channel, a reset; the
    worker sends other signals between them. *)
Inductive fft_step `{Spectral} (c : fft_config) (chs : list Z) : spectrum -> spectrum -> Prop :=
  | fft_step_frame s yk r s' : update_fft c yk s = (r, s') -> fft_step c chs s s'
  | fft_step_select s i : fft_step c chs s (set_fft_channel_index chs i s)
  | fft_step_reset s : fft_step c chs s (reset_fft_average s)
  | fft_step_signal s x : fft_step c chs s (say_signal x s).

(** The signals of the spectra [todo] after those [seen]. *)
Fixpoint averages `{Spectral} (c : fft_config) (bins : nat) (seen todo : list (list float))
    : list signal :=
  match todo with
  | [] => []
  | p :: rest => emitted c bins (seen ++ [p]) ++ averages c bins (seen ++ [p]) rest
  end.

Section reachable.
Context `{Numpy, Spectral} (c : fft_config) (chs : list Z) (n : Z).

Lemma power_same s s' w : same_fft s s' -> power_spectrum c s' w = power_spectrum c s w.
Proof using Type. intros (_ & H1 & H2). unfold power_spectrum. by rewrite H1, H2. Qed.

Lemma reachable_shaped s :
  star (fft_step c chs) (setup_fft c n) s -> fft_enabled s = true ->
  shaped c (Z.to_nat (n / 2 + 1)) s /\ same_fft (setup_fft c n) s.
Proof using Type.
  intros Hstar.
  refine (star_invariant _ (fun s => fft_enabled s = true ->
    shaped c (Z.to_nat (n / 2 + 1)) s /\ same_fft (setup_fft c n) s) _ _ _ Hstar _);
    [|intros He; split; [by apply setup_shaped|done]].
  clear. intros s s' HI Hstep Hen. destruct Hstep as [s yk r s' Hrun|s i|s|s x].
  - destruct (fft_enabled s) eqn:He.
    + destruct (HI eq_refl) as [Hs Hsame]. destruct (update_shaped _ _ _ _ _ _ Hs Hrun) as (H1 & H2 & _ & _).
      split; [done|]. destruct Hsame as (? & ? & ?), H2 as (? & ? & ?). split_and!; congruence.
    + exfalso. unfold update_fft, bind, get in Hrun. rewrite He in Hrun. injection Hrun as _ <-. congruence.
  - unfold set_fft_channel_index in *. destruct (negb (fft_enabled s)) eqn:He; [by apply HI|].
    apply negb_false_iff in He. destruct (HI He) as [Hs Hsame].
    destruct (_ || _); [split; [destruct Hs; by split|exact Hsame]|].
    destruct (_ =? _); [done|]. destruct (cleared_shaped c _ i _ Hs). split; [by split|exact Hsame].
  - unfold reset_fft_average in *. destruct (negb (fft_enabled s)) eqn:He; [by apply HI|].
    apply negb_false_iff in He. destruct (HI He) as [Hs Hsame].
    destruct (cleared_shaped c _ (fft_channel_index s) _ Hs). split; [by split|exact Hsame].
  - destruct (HI Hen) as [[] Hsame]. split; [by split|exact Hsame].
Qed.

Lemma averages_run bins fs ps seen s :
  avg_inv c bins seen s -> fft_enabled s = true -> 0 <= fft_channel_index s ->
  Forall2 (fun f p => exists w, f !! Z.to_nat (fft_channel_index s) = Some w /\
    power_spectrum c s w = Ok p /\ length p = bins) fs ps ->
  exists s', for_each fs (update_fft c) s = (Ok tt, s') /\ avg_inv c bins (seen ++ ps) s' /\
    signals s' = signals s ++ averages c bins seen ps.
Proof using Type.
  intros Hinv Hen Hidx Hall. revert ps seen s Hinv Hen Hidx Hall.
  induction fs as [|f fs IH]; intros ps seen s Hinv Hen Hidx Hall.
  - inversion Hall; subst. exists s. split; [done|]. cbn. by rewrite !app_nil_r.
  - apply Forall2_cons_inv_l in Hall as (p & ps' & (w & Hw & Hp & Hok) & Hrest & ->). cbn [for_each averages].
    destruct (update_run c bins seen p w f s Hinv Hen Hidx Hw Hp Hok)
      as (s1 & Hrun & Hinv1 & Hsame & Hi1 & Hsig). rewrite (bind_run _ _ _ _ _ Hrun).
    destruct (IH ps' (seen ++ [p]) s1) as (s' & Hrun' & Hinv' & Hsig'); [done|by destruct Hsame as [-> _]|lia| |].
    + eapply Forall2_impl; [exact Hrest|]. intros g p' (w' & Hw' & Hp' & Hok'). exists w'.
      split; [congruence|]. split; [by rewrite (power_same _ _ _ Hsame)|done].
    + exists s'. split; [done|]. rewrite <- app_assoc in Hinv'. split; [exact Hinv'|].
      by rewrite Hsig', Hsig, <- app_assoc.
Qed.

(** The window of a running average has the samples of a request. *)
Lemma setup_window : fft_enabled (setup_fft c n) = true -> 0 < n /\ size (fft_window (setup_fft c n)) = n.
Proof using Type.
  unfold setup_fft. destruct (negb (fc_enabled c)); [done|]. case Z.leb_spec; intros Hn; [done|].
  destruct (fc_window c) as [w|]; [|done]. case Z.eqb_spec; intros Hw; [|done]. intros _. by split.
Qed.

End reachable.

(** C10. The average of the oscilloscope's spectrum, after a reset and whatever frames, failures and
    changes of channel came before.  For frames whose spectra have the bins of the transform: all
    are counted; the ring holds the last [fft_avg_count] spectra, the [j]-th in slot
    [j mod fft_avg_count]; the sum is what adding each spectrum, and subtracting the one that leaves
    the ring, gives in the arithmetic of floats; and the window is sent, at every
    [fft_emit_every]-th frame and at no other, that sum at that time divided by
    [min(frames, fft_avg_count)], and this number.  In general rounding leaves a residue in the sum;
    for spectra that are multiples of a power of two small enough for sums to be exact, it is the
    sum of the last [fft_avg_count] spectra. *)
Theorem fft_averages_last `{Numpy, Spectral} c chs n s fs ps :
  star (fft_step c chs) (setup_fft c n) s -> fft_enabled s = true -> 0 <= fft_channel_index s ->
  let bins := Z.to_nat (n / 2 + 1) in
  Forall2 (fun f p => exists w, f !! Z.to_nat (fft_channel_index s) = Some w /\
    power_spectrum c s w = Ok p /\ length p = bins) fs ps ->
  (exists s', for_each fs (update_fft c) (reset_fft_average s) = (Ok tt, s') /\
    fft_frames s' = size ps /\ size (fft_ring s') = fft_avg_count c /\
    (forall j p, ps !! j = Some p -> size ps <= Z.of_nat j + fft_avg_count c ->
       fft_ring s' !! (j mod Z.to_nat (fft_avg_count c))%nat = Some p) /\
    fft_sum s' = running_sum c bins ps /\
    signals s' = signals s ++ [StatusText "[fft] average reset"] ++ averages c bins [] ps) /\
  forall e m kss, ps = floats e <$> kss -> -1074 <= e <= 971 -> 0 <= m ->
    m * fft_avg_count c < 2 ^ 53 -> Forall (spectrum_ok bins m) kss ->
    forall k, running_sum c bins (take k ps)
      = floats e (vsum bins (last_n (fft_avg_count c) (take k kss))).
Proof.
  intros Hstar Hen Hidx bins Hall. split.
  - destruct (reachable_shaped c chs n s Hstar Hen) as [Hs _].
    assert (Hr : reset_fft_average s =
      say_signal (StatusText "[fft] average reset") (cleared (fft_channel_index s) s))
      by (unfold reset_fft_average; by rewrite Hen). rewrite Hr.
    destruct (averages_run c bins fs ps [] (say_signal (StatusText "[fft] average reset")
      (cleared (fft_channel_index s) s))) as (s' & Hrun & [Hf Hring Hsum _] & Hsig); try done.
    { by apply say_inv, cleared_inv. }
    exists s'. pose proof (avg_pos c) as Hpos. split_and!; [exact Hrun|exact Hf| | |exact Hsum|].
    + unfold size. rewrite (ring_size _ _ _ _ Hring). lia.
    + intros j p Hj Hle. apply (ring_last _ _ _ _ Hring); [exact Hj|]. unfold size in Hle. cbn. lia.
    + rewrite Hsig. cbn [signals say_signal cleared]. by rewrite <- app_assoc.
  - intros e m kss -> He Hm Hsum Hok k. rewrite <- fmap_take.
    apply (running_exact c bins e m); [done|done|done|]. by apply Forall_take.
Qed.

(** No frame of the requested number of samples makes the spectrum raise, so the acquisition goes
    on to show it and to save it; this needs only that the transform of [n] samples has
    [n // 2 + 1] bins. *)
Theorem fft_accepts_frames `{Numpy, Spectral} c chs n s yk :
  (forall l, length (rfft l) = (length l / 2 + 1)%nat) ->
  star (fft_step c chs) (setup_fft c n) s ->
  Forall (fun r => size r = n) yk ->
  exists s', update_fft c yk s = (Ok tt, s').
Proof.
  intros Hrfft Hstar Hyk. destruct (fft_enabled s) eqn:Hen.
  - destruct (reachable_shaped c chs n s Hstar Hen) as [Hs Hsame].
    pose proof Hsame as (H1 & Hwin & _). destruct (setup_window c n) as [Hn Hw]; [congruence|].
    destruct (update_fft c yk s) as [r s'] eqn:Hrun.
    destruct (update_shaped _ _ _ _ _ _ Hs Hrun) as (_ & _ & _ & Hok).
    exists s'. f_equal. apply Hok. intros w _ Hin.
    assert (Hlw : size w = n) by (by apply (proj1 (Forall_forall _ _) Hyk)).
    unfold power_spectrum. cbv zeta.
    set (y := if fc_remove_dc c then _ else _).
    assert (Hy : size y = n).
    { unfold y, size in *. destruct (fc_remove_dc c); by rewrite ?length_fmap. }
    unfold broadcast. rewrite (proj2 (Z.eqb_eq _ _)) by congruence. cbn [rbind].
    destruct (zip_with f_mul y (fft_window s)) as [|a l] eqn:Hz.
    { apply (f_equal length) in Hz. rewrite length_zip_with in Hz. cbn in Hz.
      rewrite Hwin in Hz. unfold size in *. lia. }
    cbn [rbind]. eexists. split; [done|]. rewrite length_fmap, Hrfft, <- Hz, length_zip_with, Hwin.
    unfold size in *. apply Nat2Z.inj. rewrite Z2Nat.id by (pose proof (Z.div_pos n 2); lia).
    rewrite Nat2Z.inj_add, Nat2Z.inj_div. do 2 f_equal. lia.
  - exists s. unfold update_fft, bind, get. by rewrite Hen.
Qed.

(** ** Examples *)

(** A transform that keeps the first samples. *)
Definition plain_spectral : Spectral := {|
  rfft l := take (length l / 2 + 1) ((fun x => (x, f_zero)) <$> l ++ [f_zero]);
  np_log10 x := x;
  np_hanning n := replicate (Z.to_nat n) (f_of_Z 1);
  np_hamming n := replicate (Z.to_nat n) (f_of_Z 1);
  np_blackman n := replicate (Z.to_nat n) (f_of_Z 1);
  blackmanharris := None;
  tukey := None |}.

Lemma plain_rfft_length l : length (rfft (Spectral := plain_spectral) l) = (length l / 2 + 1)%nat.
Proof.
  cbn [rfft plain_spectral]. rewrite length_take, length_fmap, length_app. cbn [length].
  pose proof (Nat.Div0.div_le_upper_bound (length l) 2 (length l)). lia.
Qed.

(** Two samples, averages of two, sent every frame. *)
Definition example_fft : fft_config := {|
  fc_enabled := true; fc_channel_index := 0; fc_window := Some [f_of_Z 1; f_of_Z 1];
  fc_avg_waves := 2; fc_emit_every := 1; fc_adc_full_scale := f_of_Z 1; fc_remove_dc := false |}.

#[local] Existing Instance ChargeWindows.plain_numpy.
#[local] Existing Instance plain_spectral.

(** After another frame and a change of channel. *)
Definition example_before : spectrum :=
  set_fft_channel_index [7; 9] 1 (snd (update_fft example_fft [[2; 2]; [0; 0]]
    (setup_fft example_fft 2))).

Lemma fft_averages_last_witness :
  let ps := floats 0 <$> [[8; 2]; [2; 0]; [18; 2]] in
  (exists s', for_each [[[0; 0]; [4; 2]]; [[0; 0]; [2; 0]]; [[0; 0]; [6; 2]]] (update_fft example_fft)
      (reset_fft_average example_before) = (Ok tt, s') /\
    fft_frames s' = 3 /\ fft_sum s' = running_sum example_fft 2 ps /\
    signals s' = signals example_before ++ [StatusText "[fft] average reset"] ++
      averages example_fft 2 [] ps) /\
  running_sum example_fft 2 ps = floats 0 [20; 2].
Proof.
  intros ps.
  assert (Hstar : star (fft_step example_fft [7; 9]) (setup_fft example_fft 2) example_before).
  { eapply star_step.
    { eapply (fft_step_frame example_fft [7; 9] _ [[2; 2]; [0; 0]]). apply surjective_pairing. }
    apply star_one, fft_step_select. }
  destruct (fft_averages_last example_fft [7; 9] 2 example_before
    [[[0; 0]; [4; 2]]; [[0; 0]; [2; 0]]; [[0; 0]; [6; 2]]] ps Hstar) as [(s' & Hrun & Hf & _ & _ & Hsum & Hsig) Hex].
  - reflexivity.
  - by vm_compute.
  - repeat apply List.Forall2_cons; try apply List.Forall2_nil; (eexists; split; [reflexivity|];
      split; [vm_compute; reflexivity|reflexivity]).
  - split; [by exists s'|].
    apply (Hex 0 100 [[8; 2]; [2; 0]; [18; 2]] eq_refl ltac:(lia) ltac:(lia) ltac:(reflexivity)) with (k := 3%nat).
    repeat constructor; lia.
Defined.

Lemma fft_accepts_frames_witness :
  exists s', update_fft example_fft [[4; 2]; [1; 3]] (setup_fft example_fft 2) = (Ok tt, s').
Proof.
  apply (fft_accepts_frames example_fft [7; 9] 2).
  - apply plain_rfft_length.
  - apply star_refl.
  - repeat constructor.
Defined.
