(* ===== verification/OscApp.v ===== *)
(** [client/osc.py: DaphneOscApp]: what the window of the oscilloscope keeps of the frames, spectra and
    reports the worker sends, and what it shows of them.

    A handler is a function on the state of the window; [env] is what it reads outside: the
    snapshot of the disk writer and the clock.  Curves are the samples they were last given; the
    drawing itself, its context menus and its layout are Qt and pyqtgraph code, of which only the
    data a curve shows after the transforms of its plot ([CurveData]) is used. *)
From S2P Require Import Prelude PyStr PyFloat FloatExact PyVal EnvelopeV2 SpyAcquire ChargeWindows OscAcq OscSpectrum.

(** ** The state *)

(** The check boxes of a plot, by name, and its down-sampling box. *)
Record controls : Type := Controls {
  checks : list (string * bool); downsample : option Z }.

(** [curve.getData()] on a curve that was given samples: the values shown, or none. *)
Class CurveData : Type := {
  get_data : option controls -> list Z -> result (option (list float)) }.

Record rms_state : Type := Rms {
  enable_rms : bool; rms_window : Z; rms_history : gmap Z (list float); rms_latest : gmap Z float;
  rms_rolling : gmap Z float; rms_transform_signature : option (list (string * Z)) }.

(** [packet] is [_latest_plot_packet]: the frame, its identifier, the round trip, the time. *)
Record plot_state : Type := PlotState {
  frames_rendered : Z; last_seen_frame_id : Z; last_rendered_frame_id : Z; plot_drops_ui : Z;
  packet : option (Z * waves * float * Z); last_rtt_ms : float; last_render_ns : Z;
  last_render_error : string; curves : list (list Z); y_range : option (float * float) }.

Record fft_view : Type := FftView {
  fft_channel : Z; ui_channel_index : Z; fft_log_x : bool; fft_samples_averaged : Z;
  latest_fft : option (list float * list float); curve_fft : option (list float * list float) }.

(** What the window sends the worker. *)
Inductive command : Type :=
  | ChannelIndexChanged (index : Z)
  | ResetRequested.

Record app : Type := App {
  rms : rms_state; plot : plot_state; view : fft_view; charge_monitor : option monitor;
  charge_info : option (list (Z * float)); charge_curves : list (option (list float * list Z));
  autoscale : bool; worker_msg : string; telemetry : Z * Z * Z; rms_text : option string;
  status_label : string; commands : list command; quitting : bool }.

(** What does not change while the window is open. *)
Record ui_config : Type := {
  u_channels : list Z; u_n_samples : Z; u_software_trigger : bool; u_enable_fft : bool;
  u_f_axis : list float }.

(** The snapshot of the writer (frames written, error, queue), if there is one; the clock. *)
Record env : Type := Env { snapshot : option (Z * string * Z); time_ns : Z }.

Definition set_rms (r : rms_state) (a : app) : app :=
  App r (plot a) (view a) (charge_monitor a) (charge_info a) (charge_curves a) (autoscale a)
    (worker_msg a) (telemetry a) (rms_text a) (status_label a) (commands a) (quitting a).
Definition set_plot (p : plot_state) (a : app) : app :=
  App (rms a) p (view a) (charge_monitor a) (charge_info a) (charge_curves a) (autoscale a)
    (worker_msg a) (telemetry a) (rms_text a) (status_label a) (commands a) (quitting a).
Definition set_view (v : fft_view) (a : app) : app :=
  App (rms a) (plot a) v (charge_monitor a) (charge_info a) (charge_curves a) (autoscale a)
    (worker_msg a) (telemetry a) (rms_text a) (status_label a) (commands a) (quitting a).
Definition set_charge (m : option monitor) (i : option (list (Z * float))) (a : app) : app :=
  App (rms a) (plot a) (view a) m i (charge_curves a) (autoscale a) (worker_msg a) (telemetry a)
    (rms_text a) (status_label a) (commands a) (quitting a).
Definition set_charge_curves (cs : list (option (list float * list Z))) (a : app) : app :=
  App (rms a) (plot a) (view a) (charge_monitor a) (charge_info a) cs (autoscale a) (worker_msg a)
    (telemetry a) (rms_text a) (status_label a) (commands a) (quitting a).
Definition set_msg (text : string) (a : app) : app :=
  App (rms a) (plot a) (view a) (charge_monitor a) (charge_info a) (charge_curves a) (autoscale a)
    text (telemetry a) (rms_text a) (status_label a) (commands a) (quitting a).
Definition set_telemetry (t : Z * Z * Z) (a : app) : app :=
  App (rms a) (plot a) (view a) (charge_monitor a) (charge_info a) (charge_curves a) (autoscale a)
    (worker_msg a) t (rms_text a) (status_label a) (commands a) (quitting a).
Definition set_rms_text (t : option string) (a : app) : app :=
  App (rms a) (plot a) (view a) (charge_monitor a) (charge_info a) (charge_curves a) (autoscale a)
    (worker_msg a) (telemetry a) t (status_label a) (commands a) (quitting a).
Definition set_label (t : string) (a : app) : app :=
  App (rms a) (plot a) (view a) (charge_monitor a) (charge_info a) (charge_curves a) (autoscale a)
    (worker_msg a) (telemetry a) (rms_text a) t (commands a) (quitting a).
Definition send_command (c : command) (a : app) : app :=
  App (rms a) (plot a) (view a) (charge_monitor a) (charge_info a) (charge_curves a) (autoscale a)
    (worker_msg a) (telemetry a) (rms_text a) (status_label a) (commands a ++ [c]) (quitting a).
Definition set_autoscale (b : bool) (a : app) : app :=
  App (rms a) (plot a) (view a) (charge_monitor a) (charge_info a) (charge_curves a) b (worker_msg a)
    (telemetry a) (rms_text a) (status_label a) (commands a) (quitting a).
Definition set_quitting (a : app) : app :=
  App (rms a) (plot a) (view a) (charge_monitor a) (charge_info a) (charge_curves a) (autoscale a)
    (worker_msg a) (telemetry a) (rms_text a) (status_label a) (commands a) true.

Definition is_finite (x : float) : bool :=
  match x with S754_zero _ | S754_finite _ _ _ => true | _ => false end.

Section handlers.
Context `{Numpy, CurveData} (u : ui_config) (e : env).

(** ** The status line *)

(** [_format_rms_status] *)
Definition format_rms_status (r : rms_state) : string :=
  if negb (enable_rms r) || bool_decide (rms_rolling r = ∅) then ""
  else
    let shown := omap (fun ch =>
      match rms_rolling r !! ch with
      | Some v => if is_finite v then Some (str_Z ch +:+ ":" +:+ f_fixed 1 v) else None
      | None => None
      end) (take 4 (u_channels u)) in
    match shown with
    | [] => ""
    | _ =>
        " rms" +:+ str_Z (rms_window r) +:+ "=[" +:+ join "," shown
          +:+ (if 4 <? size (u_channels u) then ",..." else "") +:+ "]"
    end.

(** The charge of the first channel and its window. *)
Definition charge_status (a : app) : string :=
  match charge_monitor a, charge_info a with
  | Some m, Some latest =>
      let ch0 := default 0 (head (u_channels u)) in
      (match list_find (fun cq => fst cq = ch0) latest with
       | Some (_, (_, q)) => " qCh=" +:+ str_Z ch0 +:+ " q=" +:+ f_fixed 1 q
       | None => ""
       end) +:+
      (match m_windows m !! ch0 with
       | Some w => " qWin=" +:+ str_Z (integrate_start w) +:+ ":" +:+ str_Z (integrate_stop w)
       | None => ""
       end)
  | _, _ => ""
  end.

(** [_refresh_status_line] *)
Definition refresh_status_line (extra : string) (a : app) : app :=
  let '(writer_frames, writer_error, writer_queue) := default (0, "", 0) (snapshot e) in
  let p := plot a in
  let render_age_ms :=
    if 0 <? last_render_ns p
    then np_div (f_of_Z (time_ns e - last_render_ns p)) (f_dec 1 6) else f_of_Z (-1) in
  let '(acq, timeouts, _) := telemetry a in
  set_label
    (worker_msg a +:+ " | ch=[" +:+ join "," (str_Z <$> u_channels u) +:+ "] N="
     +:+ str_Z (u_n_samples u) +:+ " trig=" +:+ (if u_software_trigger u then "SW" else "EXT")
     +:+ " RTT=" +:+ f_fixed 2 (last_rtt_ms p) +:+ "ms acq=" +:+ str_Z acq +:+ " saved="
     +:+ str_Z writer_frames +:+ " saveQ=" +:+ str_Z writer_queue +:+ " dropPlot="
     +:+ str_Z (plot_drops_ui p) +:+ " timeouts=" +:+ str_Z timeouts +:+ " rendered="
     +:+ str_Z (frames_rendered p) +:+ " renderAgeMs=" +:+ f_fixed 0 render_age_ms
     +:+ (if u_enable_fft u
          then " fftCh=" +:+ str_Z (fft_channel (view a)) +:+ " fftAvg="
               +:+ str_Z (fft_samples_averaged (view a)) +:+ " fftX="
               +:+ (if fft_log_x (view a) then "log" else "lin")
          else "")
     +:+ format_rms_status (rms a) +:+ charge_status a
     +:+ (if decide (writer_error = "") then "" else " writerError=" +:+ writer_error)
     +:+ (if decide (last_render_error p = "") then "" else " renderError=" +:+ last_render_error p)
     +:+ (if decide (extra = "") then "" else " | " +:+ extra)) a.

(** [_update_rms_text]; [None]: hidden. *)
Definition update_rms_text (a : app) : app :=
  let r := rms a in
  set_rms_text
    (if negb (enable_rms r) then None
     else
       let title := "<b>RMS</b> N=" +:+ str_Z (rms_window r) in
       if bool_decide (rms_rolling r = ∅) then Some (title +:+ "<br>waiting...")
       else
         let lines := omap (fun ch =>
           match rms_rolling r !! ch with
           | Some v => if is_finite v then Some ("ch " +:+ str_Z ch +:+ ": " +:+ f_fixed 2 v) else None
           | None => None
           end) (u_channels u) in
         Some (join "<br>" (title :: (match lines with [] => ["waiting..."] | _ => lines end)))) a.

(** ** The rolling RMS *)

(** [{ch: deque(maxlen=...) for ch in channels}] *)
Definition new_history : gmap Z (list float) := list_to_map ((fun ch => (ch, [])) <$> u_channels u).

(** [_reset_rms_metrics] *)
Definition reset_rms_metrics (r : rms_state) : rms_state :=
  Rms (enable_rms r) (rms_window r) ((fun _ => []) <$> rms_history r) ∅ ∅ (rms_transform_signature r).

(** [_set_rms_enabled], [_set_rms_window] and [_reset_rms_from_menu] *)
Definition set_rms_enabled (checked : bool) (a : app) : app :=
  let r := rms a in
  let r := reset_rms_metrics (Rms checked (rms_window r) (rms_history r) (rms_latest r)
                                (rms_rolling r) (rms_transform_signature r)) in
  refresh_status_line ("RMS " +:+ (if checked then "ON" else "OFF")) (update_rms_text (set_rms r a)).

Definition set_rms_window (window : Z) (a : app) : app :=
  let r := rms a in
  let w := Z.max 1 window in
  let r := reset_rms_metrics (Rms (enable_rms r) w new_history (rms_latest r) (rms_rolling r)
                                (rms_transform_signature r)) in
  refresh_status_line ("RMS window " +:+ str_Z w) (update_rms_text (set_rms r a)).

Definition reset_rms_from_menu (a : app) : app :=
  refresh_status_line "RMS reset" (update_rms_text (set_rms (reset_rms_metrics (rms a)) a)).

(** [_waveform_transform_signature], with 1 and 0 for true and false; [None]: the plot has no
    controls. *)
Definition waveform_transform_signature (ctrl : option controls) : option (list (string * Z)) :=
  (fun c =>
     omap (fun name => (fun kb => (name, Z.b2z (snd (snd kb))))
                         <$> list_find (fun kb => fst kb = name) (checks c))
       ["subtractMeanCheck"; "derivativeCheck"; "phasemapCheck"; "fftCheck"; "logXCheck"; "logYCheck";
        "downsampleCheck"; "autoDownsampleCheck"; "clipToViewCheck"]
     ++ (match downsample c with Some v => [("downsampleSpin", v)] | None => [] end)) <$> ctrl.

(** One channel of [_update_rms_metrics] and the samples of its curve. *)
Definition update_channel_rms (ctrl : option controls) (r : rms_state) (ch : Z) (samples : list Z)
    : rms_state :=
  match get_data ctrl samples with
  | Ok (Some y) =>
      match filter (fun x => is_finite x = true) y with
      | [] => Rms (enable_rms r) (rms_window r) (rms_history r) (<[ch := S754_nan]> (rms_latest r))
                (<[ch := S754_nan]> (rms_rolling r)) (rms_transform_signature r)
      | finite =>
          let mean_square := np_mean ((fun x => f_mul x x) <$> finite) in
          let history := deque_append (rms_window r) mean_square (default [] (rms_history r !! ch)) in
          Rms (enable_rms r) (rms_window r) (<[ch := history]> (rms_history r))
            (<[ch := SFsqrt 53 1024 mean_square]> (rms_latest r))
            (<[ch := SFsqrt 53 1024 (np_mean history)]> (rms_rolling r)) (rms_transform_signature r)
      end
  | _ => r
  end.

(** [_update_rms_metrics] *)
Definition update_rms_metrics (ctrl : option controls) (cs : list (list Z)) (r : rms_state)
    : rms_state :=
  if negb (enable_rms r) then r
  else
    let signature := waveform_transform_signature ctrl in
    let r := if decide (signature = rms_transform_signature r) then r
             else reset_rms_metrics (Rms (enable_rms r) (rms_window r) (rms_history r) (rms_latest r)
                                       (rms_rolling r) signature) in
    foldl (fun r chc => update_channel_rms ctrl r (fst chc) (snd chc)) r (zip (u_channels u) cs).

(** ** Signals of the worker *)

Definition on_worker_status (msg : string) (a : app) : app :=
  refresh_status_line "" (set_msg msg a).

Definition on_worker_telemetry (t : Z * Z * Z) (a : app) : app :=
  refresh_status_line "" (set_telemetry t a).

Definition on_acquisition_finished (msg : string) (a : app) : app :=
  set_quitting (refresh_status_line "" (set_msg msg a)).

Definition as_waves (yk : frame) : waves :=
  Waves (match yk with r :: _ => size r | [] => 0 end) yk.

(** [_on_plot_update] *)
Definition on_plot_update (yk : frame) (rtt_ms : float) (frame_id timestamp_ns : Z) (a : app) : app :=
  let p := plot a in
  let drops := if last_seen_frame_id p + 1 <? frame_id
               then frame_id - last_seen_frame_id p - 1 else 0 in
  let a := set_plot (PlotState (frames_rendered p) frame_id (last_rendered_frame_id p)
             (plot_drops_ui p + drops) (packet p) (last_rtt_ms p) (last_render_ns p)
             (last_render_error p) (curves p) (y_range p)) a in
  let a := match charge_monitor a with
           | None => a
           | Some m =>
               match update (as_waves yk) m with
               | (Ok info, m') => set_charge (Some m') (Some info) a
               | (Raise ex, m') =>
                   set_msg ("[charge error] " +:+ exn_text ex) (set_charge (Some m') (charge_info a) a)
               end
           end in
  let p := plot a in
  set_plot (PlotState (frames_rendered p) (last_seen_frame_id p) (last_rendered_frame_id p)
    (plot_drops_ui p) (Some (frame_id, as_waves yk, rtt_ms, timestamp_ns)) (last_rtt_ms p)
    (last_render_ns p) (last_render_error p) (curves p) (y_range p)) a.

(** [_on_fft_update]; [log_check] is the check box of the logarithmic axis, if there is one.  The
    spectrum has as many bins as the axis. *)
Definition on_fft_update (log_check : option bool) (y_dbfs : list float) (navg : Z) (a : app) : app :=
  if negb (u_enable_fft u) then a
  else
    let v := view a in
    let log_x := default (fft_log_x v) log_check in
    let k0 := if 4 <? size (u_f_axis u) then 4 else 0 in
    let k0 := Z.to_nat (if log_x then Z.max k0 1 else k0) in
    let a := set_view (FftView (fft_channel v) (ui_channel_index v) log_x (fft_samples_averaged v)
               (latest_fft v) (curve_fft v)) a in
    let xy := zip (drop k0 (u_f_axis u)) (drop k0 y_dbfs) in
    let xy := if log_x
              then filter (fun xy => is_finite (fst xy) && is_finite (snd xy)
                                     && f_ltb f_zero (fst xy) = true) xy
              else xy in
    if log_x && (match xy with [] => true | _ => false end)
    then refresh_status_line "" (set_msg "[fft] no positive finite bins for log-x" a)
    else
      let data := Some (fst <$> xy, snd <$> xy) in
      refresh_status_line "" (set_view (FftView (fft_channel v) (ui_channel_index v) log_x navg
        data data) a).

(** ** Menus *)

Definition select_fft_channel (channel channel_index : Z) (a : app) : app :=
  if negb (u_enable_fft u) then a
  else
    let v := view a in
    let a := set_view (FftView channel channel_index (fft_log_x v) 0 (latest_fft v) None) a in
    refresh_status_line ("FFT source ch " +:+ str_Z channel)
      (send_command (ChannelIndexChanged channel_index) a).

(** The entries of [_populate_fft_source_menu]: each channel with its index. *)
Definition fft_menu_entries : list (Z * Z) := zip (u_channels u) (seqZ 0 (size (u_channels u))).

Definition reset_fft (a : app) : app :=
  if negb (u_enable_fft u) then a
  else
    let v := view a in
    let a := set_view (FftView (fft_channel v) (ui_channel_index v) (fft_log_x v) 0 None None) a in
    refresh_status_line "FFT reset" (send_command ResetRequested a).

Definition on_fft_log_x_changed (checked : bool) (a : app) : app :=
  let v := view a in
  refresh_status_line "" (set_view (FftView (fft_channel v) (ui_channel_index v) checked
    (fft_samples_averaged v) (latest_fft v) (curve_fft v)) a).

Definition toggle_autoscale (a : app) : app :=
  let on := negb (autoscale a) in
  refresh_status_line ("Autoscale " +:+ (if on then "ON" else "OFF")) (set_autoscale on a).

(** ** Rendering *)

(** [yk.min()] and [yk.max()] of a frame with samples *)
Definition frame_min (yk : list (list Z)) : Z :=
  match mjoin yk with x :: t => foldl Z.min x t | [] => 0 end.
Definition frame_max (yk : list (list Z)) : Z :=
  match mjoin yk with x :: t => foldl Z.max x t | [] => 0 end.

(** The charge curves, from the histograms of the channels that have one. *)
Definition show_histograms (series : list (Z * (list float * list Z)))
    : list (option (list float * list Z)) :=
  (fun ch => (fun x => snd (snd x)) <$> list_find (fun cs => fst cs = ch) series) <$> u_channels u.

(** The error of [_render_latest_frame]. *)
Definition render_failed (ex : exn) (a : app) : app :=
  let p := plot a in
  refresh_status_line "" (set_msg ("[render error] " +:+ exn_text ex)
    (set_plot (PlotState (frames_rendered p) (last_seen_frame_id p) (last_rendered_frame_id p)
       (plot_drops_ui p) (packet p) (last_rtt_ms p) (last_render_ns p) (exn_text ex) (curves p)
       (y_range p)) a)).

(** The drawing of a frame of the right shape. *)
Definition draw (ctrl : option controls) (frame_id : Z) (yk : waves) : M app unit :=
  modify (fun a =>
    let p := plot a in
    set_rms (update_rms_metrics ctrl (rows yk) (rms a))
      (set_plot (PlotState (frames_rendered p) (last_seen_frame_id p) (last_rendered_frame_id p)
         (plot_drops_ui p) (packet p) (last_rtt_ms p) (last_render_ns p) (last_render_error p)
         (rows yk) (y_range p)) a)) ;;;
  a <- get ;;
  (match charge_monitor a with
   | None => ret tt
   | Some m => series <- lift (histogram_series m) ;; modify (set_charge_curves (show_histograms series))
   end) ;;;
  (if autoscale a then
     y_min <- (match mjoin (rows yk) with
               | [] => raise (value_error "zero-size array to reduction operation minimum which has no identity")
               | _ => ret (f_of_Z (frame_min (rows yk)))
               end) ;;
     let y_max := f_of_Z (frame_max (rows yk)) in
     let pad := py_max (f_of_Z 50) (f_mul (f_dec 1 (-1)) (py_max (f_of_Z 1) (f_sub y_max y_min))) in
     modify (fun a =>
       let p := plot a in
       set_plot (PlotState (frames_rendered p) (last_seen_frame_id p) (last_rendered_frame_id p)
         (plot_drops_ui p) (packet p) (last_rtt_ms p) (last_render_ns p) (last_render_error p)
         (curves p) (Some (f_sub y_min pad, f_add y_max pad))) a)
   else ret tt) ;;;
  modify update_rms_text ;;;
  modify (fun a =>
    let p := plot a in
    refresh_status_line "" (set_plot (PlotState (frames_rendered p + 1) (last_seen_frame_id p) frame_id
      (plot_drops_ui p) (packet p) (last_rtt_ms p) (time_ns e) "" (curves p) (y_range p)) a)).

(** [_render_latest_frame] *)
Definition render_latest_frame (ctrl : option controls) (a : app) : app :=
  let p := plot a in
  match packet p with
  | None => a
  | Some (frame_id, yk, rtt_ms, _) =>
      if frame_id =? last_rendered_frame_id p then a
      else
        let a := set_plot (PlotState (frames_rendered p) (last_seen_frame_id p)
                   (last_rendered_frame_id p) (plot_drops_ui p) (packet p) rtt_ms (last_render_ns p)
                   (last_render_error p) (curves p) (y_range p)) a in
        if negb (size (rows yk) =? size (curves p)) || negb (cols yk =? u_n_samples u)
        then refresh_status_line "" (set_msg ("[shape mismatch] got (" +:+ str_Z (size (rows yk))
               +:+ ", " +:+ str_Z (cols yk) +:+ "), expected (" +:+ str_Z (size (curves p)) +:+ ", "
               +:+ str_Z (u_n_samples u) +:+ ")") a)
        else match draw ctrl frame_id yk a with
             | (Ok _, a') => a'
             | (Raise ex, a') => render_failed ex a'
             end
  end.

End handlers.

(** The window as [_build_ui] leaves it: a curve per channel, nothing shown yet. *)
Definition new_app (u : ui_config) (enable_rms : bool) (window fft_channel fft_index : Z)
    (log_x autoscale : bool) (m : option monitor) (msg : string) : app :=
  update_rms_text u
    (App (Rms enable_rms window (new_history u) ∅ ∅ None)
       (PlotState 0 0 0 0 None f_zero 0 "" ((fun _ => []) <$> u_channels u)
          (if autoscale then None else Some (f_of_Z (-32768), f_of_Z 32767)))
       (FftView fft_channel fft_index log_x 0 None None) m None
       (match m with Some _ => (fun _ => None) <$> u_channels u | None => [] end) autoscale msg
       (0, 0, 0) None "Ready" [] false).

(** ** Lemmas *)

Section app_lemmas.
Context `{Numpy, CurveData} (u : ui_config).

Lemma refresh_label e extra a : exists t, refresh_status_line u e extra a = set_label t a.
Proof using Type.
  unfold refresh_status_line. destruct (default _ _) as [[wf we] wq], (telemetry a) as [[acq to] bp].
  by eexists.
Qed.

(** What a monitor must keep for its histograms. *)
Definition covers (m : monitor) : Prop := forall ch, ch ∈ m_channels m -> is_Some (m_series m !! ch).

Definition monitor_ok (o : option monitor) : Prop := forall m, o = Some m -> covers m.

Lemma update_covers yk m r m' : update yk m = (r, m') -> covers m -> covers m'.
Proof using Type.
  unfold update, bind at 1, get. destruct (_ || _); [by intros [= _ <-]|].
  generalize (zip (m_channels m) (rows yk)) as l. intros l Hrun Hc. revert m r Hrun Hc.
  induction l as [|[ch row] l IH]; intros m r Hrun Hc; [by injection Hrun as _ <-|].
  cbn [map_m] in Hrun. unfold bind at 1 in Hrun. destruct (update_channel _ m) as [[x|ex] m1] eqn:Hch.
  - assert (Hc1 : covers m1).
    { unfold update_channel, bind, get in Hch. destruct (m_windows m !! ch) as [w|]; [|done].
      cbn in Hch. destruct (compute_charge _ _ _ _ _ _) as [[|q qs]|]; [done| |done].
      injection Hch as _ <-. intros c Hin. cbn in *. destruct (decide (c = ch)) as [->|Hne].
      - by rewrite lookup_insert_eq.
      - rewrite lookup_insert_ne by done. by apply Hc. }
    unfold bind in Hrun. destruct (map_m update_channel l m1) as [[xs|ex] m2] eqn:Hl.
    + injection Hrun as _ <-. by apply (IH m1 (Ok xs)).
    + injection Hrun as _ <-. by apply (IH m1 (Raise ex)).
  - injection Hrun as _ <-. unfold update_channel, bind, get in Hch.
    destruct (m_windows m !! ch) as [w|]; [|by injection Hch as _ <-].
    cbn in Hch. destruct (compute_charge _ _ _ _ _ _) as [[|q qs]|];
      [by injection Hch as _ <-|done|by injection Hch as _ <-].
Qed.

Lemma histogram_ok m : covers m -> exists s, histogram_series m = Ok s.
Proof using Type.
  intros Hc. unfold histogram_series.
  assert (Hr : exists hs, rmap (fun ch => h <-! history_for_channel m ch ;; Ok (ch, h)) (m_channels m) = Ok hs).
  { unfold covers in Hc. induction (m_channels m) as [|ch l IH]; [by eexists|].
    destruct (Hc ch (list_elem_of_here _ _)) as [h Hh]. destruct IH as [hs Hhs].
    { intros c Hin. apply Hc. by apply list_elem_of_further. }
    cbn. unfold history_for_channel at 1. rewrite Hh. cbn. rewrite Hhs. by eexists. }
  destruct Hr as [hs ->]. cbn [rbind]. destruct (filter _ hs); by eexists.
Qed.

(** ** Lemmas: the rolling RMS *)

Record rms_ok (r : rms_state) : Prop := {
  ro_window : 1 <= rms_window r;
  ro_keys ch : is_Some (rms_history r !! ch) <-> ch ∈ u_channels u;
  ro_bounded ch h : rms_history r !! ch = Some h -> size h <= rms_window r;
  ro_rolling ch x : rms_rolling r !! ch = Some x ->
    x = S754_nan \/ exists h, rms_history r !! ch = Some h /\ h <> [] /\ x = SFsqrt 53 1024 (np_mean h) }.

Lemma new_history_keys ch : is_Some (new_history u !! ch) <-> ch ∈ u_channels u.
Proof using Type.
  unfold new_history. split.
  - intros [h Hh]. apply elem_of_list_to_map_2 in Hh. apply list_elem_of_fmap in Hh as (c & [= -> _] & Hc).
    exact Hc.
  - intros Hch. destruct (list_to_map _ !! ch) eqn:Hl; [by eexists|].
    apply not_elem_of_list_to_map_2 in Hl. exfalso. apply Hl.
    apply list_elem_of_fmap. exists (ch, []). split; [done|]. apply list_elem_of_fmap. by exists ch.
Qed.

Lemma new_history_empty ch h : new_history u !! ch = Some h -> h = [].
Proof using Type.
  unfold new_history. intros Hh. apply elem_of_list_to_map_2 in Hh.
  by apply list_elem_of_fmap in Hh as (c & [= _ ->] & _).
Qed.

Lemma new_history_ok b w latest sig : 1 <= w -> rms_ok (Rms b w (new_history u) latest ∅ sig).
Proof using Type.
  intros Hw. split; cbn [rms_window rms_history rms_rolling]; [done|apply new_history_keys| |].
  - intros ch h ->%new_history_empty. unfold size. cbn. lia.
  - intros ch x. by rewrite lookup_empty.
Qed.

Lemma reset_rms_ok r : 1 <= rms_window r ->
  (forall ch, is_Some (rms_history r !! ch) <-> ch ∈ u_channels u) -> rms_ok (reset_rms_metrics r).
Proof using Type.
  intros Hw Hk. split; cbn [reset_rms_metrics rms_window rms_history rms_rolling];
    [done| | |intros ch x; by rewrite lookup_empty].
  - intros ch. rewrite lookup_fmap, fmap_is_Some. apply Hk.
  - intros ch h. rewrite lookup_fmap. destruct (rms_history r !! ch); [|done].
    intros [= <-]. unfold size. cbn. lia.
Qed.

Lemma update_channel_rms_ok ctrl r ch samples :
  ch ∈ u_channels u -> rms_ok r -> rms_ok (update_channel_rms ctrl r ch samples).
Proof using Type.
  intros Hch [Hw Hk Hb Hroll]. unfold update_channel_rms.
  destruct (get_data ctrl samples) as [[y|]|]; [|by split..].
  destruct (filter _ y) as [|x xs].
  { split; cbn [rms_window rms_history rms_rolling]; [done..|]. intros c z.
    destruct (decide (c = ch)) as [->|Hne]; [rewrite lookup_insert_eq; intros [= <-]; by left|].
    rewrite lookup_insert_ne by done. apply Hroll. }
  split; cbn [rms_window rms_history rms_rolling]; [done| | |].
  - intros c. destruct (decide (c = ch)) as [->|Hne].
    + rewrite lookup_insert_eq. split; [done|by eexists].
    + rewrite lookup_insert_ne by done. apply Hk.
  - intros c h. destruct (decide (c = ch)) as [->|Hne].
    + rewrite lookup_insert_eq. intros [= <-]. unfold size, deque_append. rewrite length_drop. lia.
    + rewrite lookup_insert_ne by done. apply Hb.
  - intros c z. destruct (decide (c = ch)) as [->|Hne].
    + rewrite !lookup_insert_eq. intros [= <-]. right. eexists. split; [done|]. split; [|done].
      unfold deque_append. intros Hnil. apply (f_equal length) in Hnil.
      rewrite length_drop, length_app in Hnil. cbn in Hnil. lia.
    + rewrite !lookup_insert_ne by done. apply Hroll.
Qed.

Lemma update_rms_ok ctrl cs r : rms_ok r -> rms_ok (update_rms_metrics u ctrl cs r).
Proof using Type.
  intros Hr. unfold update_rms_metrics. destruct (negb (enable_rms r)); [done|].
  assert (Hr1 : rms_ok (if decide (waveform_transform_signature ctrl = rms_transform_signature r)
    then r else reset_rms_metrics (Rms (enable_rms r) (rms_window r) (rms_history r) (rms_latest r)
      (rms_rolling r) (waveform_transform_signature ctrl)))).
  { destruct (decide _); [done|]. apply reset_rms_ok; apply Hr. }
  revert Hr1. match goal with |- rms_ok ?x -> _ => generalize x end. clear r Hr.
  assert (Hin : Forall (fun chc => fst chc ∈ u_channels u) (zip (u_channels u) cs)).
  { apply Forall_forall. intros [ch c] Hc. by apply elem_of_zip_l in Hc. }
  induction Hin as [|[ch c] l Hch _ IH]; intros r Hr; [done|]. cbn [foldl fst snd] in *.
  apply IH. by apply update_channel_rms_ok.
Qed.

(** ** Lemmas: the frames *)

(** What the window knows of the frames with identifiers [ids]. *)
Record plot_ok (ids : list Z) (p : plot_state) : Prop := {
  po_drops : plot_drops_ui p + size ids = last_seen_frame_id p;
  po_rendered : frames_rendered p
    + (if last_rendered_frame_id p =? last_seen_frame_id p then 0 else 1) <= size ids;
  po_positive : 0 <= frames_rendered p;
  po_last : last_rendered_frame_id p <= last_seen_frame_id p;
  po_packet : match packet p with
              | None => ids = [] /\ last_seen_frame_id p = 0
              | Some (id, _, _, _) => id = last_seen_frame_id p /\ last ids = Some id
              end;
  po_curves : size (curves p) = size (u_channels u) }.

Record view_ok (v : fft_view) (cs : list command) : Prop := {
  vo_channel : u_enable_fft u = true -> 0 <= ui_channel_index v /\
    u_channels u !! Z.to_nat (ui_channel_index v) = Some (fft_channel v);
  vo_commands : Forall (fun c => match c with
                                 | ChannelIndexChanged i => 0 <= i < size (u_channels u)
                                 | ResetRequested => True
                                 end) cs }.

Record app_ok (ids : list Z) (a : app) : Prop := {
  ao_plot : plot_ok ids (plot a);
  ao_rms : rms_ok (rms a);
  ao_view : view_ok (view a) (commands a);
  ao_monitor : monitor_ok (charge_monitor a) }.

Lemma refresh_ok e extra ids a : app_ok ids a -> app_ok ids (refresh_status_line u e extra a).
Proof using Type. intros [H1 H2 H3 H4]. destruct (refresh_label e extra a) as [t ->]. by split. Qed.

Lemma rms_step_ok ids r a : rms_ok r -> app_ok ids a -> app_ok ids (update_rms_text u (set_rms r a)).
Proof using Type. intros Hr [H1 H2 H3 H4]. by split. Qed.

Lemma on_plot_update_eq yk rtt id t a :
  exists m info msg, on_plot_update yk rtt id t a =
    set_msg msg (set_charge m info (set_plot
      (PlotState (frames_rendered (plot a)) id (last_rendered_frame_id (plot a))
         (plot_drops_ui (plot a) + (if last_seen_frame_id (plot a) + 1 <? id
                                    then id - last_seen_frame_id (plot a) - 1 else 0))
         (Some (id, as_waves yk, rtt, t)) (last_rtt_ms (plot a)) (last_render_ns (plot a))
         (last_render_error (plot a)) (curves (plot a)) (y_range (plot a))) a)) /\
    (monitor_ok (charge_monitor a) -> monitor_ok m).
Proof using Type.
  unfold on_plot_update. cbn [plot set_plot charge_monitor].
  destruct (charge_monitor a) as [m|] eqn:Hm.
  - destruct (update (as_waves yk) m) as [[info|ex] m'] eqn:Hu.
    + exists (Some m'), (Some info), (worker_msg a). split; [done|]. intros Hc m0 [= <-].
      eapply update_covers; [exact Hu|]. by apply Hc.
    + exists (Some m'), (charge_info a), ("[charge error] " +:+ exn_text ex). split; [done|].
      intros Hc m0 [= <-]. eapply update_covers; [exact Hu|]. by apply Hc.
  - exists None, (charge_info a), (worker_msg a). split; [|done]. destruct a. cbn in *. by subst.
Qed.

Lemma plot_update_ok yk rtt id t ids a :
  app_ok ids a -> last_seen_frame_id (plot a) < id ->
  app_ok (ids ++ [id]) (on_plot_update yk rtt id t a).
Proof using Type.
  intros [[H1 H2 H3 H4 H5 H6] Hr Hv Hm] Hid.
  destruct (on_plot_update_eq yk rtt id t a) as (m & info & msg & -> & Hm').
  assert (Hsz : size (ids ++ [id]) = size ids + 1) by (unfold size; rewrite length_app; cbn; lia).
  split; [|done|done|by apply Hm'].
  cbn [plot set_plot set_msg set_charge]. split;
    cbn [plot_drops_ui last_seen_frame_id frames_rendered last_rendered_frame_id packet curves].
  - rewrite Hsz. case Z.ltb_spec; lia.
  - rewrite Hsz. destruct (_ =? id); destruct (_ =? _) in H2; lia.
  - done.
  - lia.
  - split; [done|]. by rewrite last_snoc.
  - done.
Qed.

(** The samples of a frame are on the curves and in the RMS. *)
Definition shown (ctrl : option controls) (yk : waves) (rendered last_id ns : Z) (text : string)
    (range : option (float * float)) (a : app) : app :=
  let p := plot a in
  set_rms (update_rms_metrics u ctrl (rows yk) (rms a))
    (set_plot (PlotState rendered (last_seen_frame_id p) last_id (plot_drops_ui p) (packet p)
       (last_rtt_ms p) ns text (rows yk) range) a).

Lemma draw_eq e ctrl id yk a :
  monitor_ok (charge_monitor a) ->
  exists cc range,
    (exists label text, draw u e ctrl id yk a =
      (Ok tt, set_label label (set_rms_text text (set_charge_curves cc
        (shown ctrl yk (frames_rendered (plot a) + 1) id (time_ns e) "" range a))))) \/
    (mjoin (rows yk) = [] /\ exists ex, draw u e ctrl id yk a =
      (Raise ex, set_charge_curves cc (shown ctrl yk (frames_rendered (plot a))
        (last_rendered_frame_id (plot a)) (last_render_ns (plot a)) (last_render_error (plot a))
        (y_range (plot a)) a))).
Proof using Type.
  intros Hm. remember (draw u e ctrl id yk a) as res eqn:Hres.
  unfold draw, bind at 1, modify at 1, bind at 1, get in Hres.
  set (a1 := set_rms _ (set_plot _ a)) in Hres.
  assert (Hh : exists cc, (match charge_monitor a1 with
    | None => ret tt
    | Some m => series <- lift (histogram_series m) ;; modify (set_charge_curves (show_histograms u series))
    end) a1 = (Ok tt, set_charge_curves cc a1)).
  { change (charge_monitor a1) with (charge_monitor a). destruct (charge_monitor a) as [m|].
    - destruct (histogram_ok m (Hm m eq_refl)) as [s Hs]. rewrite Hs. by eexists.
    - exists (charge_curves a1). by destruct a. }
  destruct Hh as [cc Hh]. exists cc. rewrite (bind_run _ _ _ _ _ Hh) in Hres. clear Hh.
  change (autoscale a1) with (autoscale a) in Hres. destruct (autoscale a).
  - destruct (mjoin (rows yk)) as [|x l] eqn:Hrows.
    + exists None. right. split; [done|]. eexists. exact Hres.
    + eexists. left. unfold bind, ret, modify in Hres.
      match type of Hres with context [refresh_status_line u e "" ?x] =>
        destruct (refresh_label e "" x) as [label Hl] end.
      rewrite Hl in Hres. exists label. eexists. exact Hres.
  - exists (y_range (plot a)). left. unfold bind, ret, modify in Hres.
    match type of Hres with context [refresh_status_line u e "" ?x] =>
      destruct (refresh_label e "" x) as [label Hl] end.
    rewrite Hl in Hres. exists label. eexists. exact Hres.
Qed.

Lemma render_ok e ctrl ids a : app_ok ids a -> app_ok ids (render_latest_frame u e ctrl a).
Proof using Type.
  intros Hok. pose proof Hok as [[H1 H2 H3 H4 H5 H6] Hr Hv Hm]. unfold render_latest_frame.
  destruct (packet (plot a)) as [[[[id yk] rtt] t]|] eqn:Hp; [|done]. destruct H5 as [-> Hlast].
  case Z.eqb_spec; intros Hne; [done|]. rewrite (proj2 (Z.eqb_neq _ _)) in H2 by congruence.
  set (a1 := set_plot _ a). assert (Hok1 : app_ok ids a1).
  { split; [|done..]. cbn. split; cbn; try done. by rewrite (proj2 (Z.eqb_neq _ _)) by congruence. }
  destruct (_ || _) eqn:Hshape.
  { apply refresh_ok. by destruct Hok1. }
  bool_to_prop.
  destruct (draw_eq e ctrl (last_seen_frame_id (plot a)) yk a1 Hm) as (cc & range & [(l & t0 & ->)|(_ & ex & ->)]).
  - split; [|by apply update_rms_ok|done|done]. cbn. split; cbn; try done.
    all: rewrite ?Z.eqb_refl; unfold size in *; lia.
  - unfold render_failed. apply refresh_ok. split; [|by apply update_rms_ok|done|done]. cbn.
    split; cbn; try done.
    all: rewrite ?(proj2 (Z.eqb_neq _ _)) by congruence; unfold size in *; lia.
Qed.

End app_lemmas.

(** ** Properties *)

(** What can happen to the window: a signal of the worker, a menu, the render timer.  [ids] are the
    identifiers of the frames it got; those of the worker only grow. *)
Inductive ui_step `{Numpy, CurveData} (u : ui_config) : app * list Z -> app * list Z -> Prop :=
  | ui_plot yk rtt id t a ids : last_seen_frame_id (plot a) < id ->
      ui_step u (a, ids) (on_plot_update yk rtt id t a, ids ++ [id])
  | ui_fft e chk y navg a ids : ui_step u (a, ids) (on_fft_update u e chk y navg a, ids)
  | ui_status e msg a ids : ui_step u (a, ids) (on_worker_status u e msg a, ids)
  | ui_telemetry e t a ids : ui_step u (a, ids) (on_worker_telemetry u e t a, ids)
  | ui_finished e msg a ids : ui_step u (a, ids) (on_acquisition_finished u e msg a, ids)
  | ui_render e ctrl a ids : ui_step u (a, ids) (render_latest_frame u e ctrl a, ids)
  | ui_rms_enabled e b a ids : ui_step u (a, ids) (set_rms_enabled u e b a, ids)
  | ui_rms_window e w a ids : ui_step u (a, ids) (set_rms_window u e w a, ids)
  | ui_rms_reset e a ids : ui_step u (a, ids) (reset_rms_from_menu u e a, ids)
  | ui_select e ch i a ids : (ch, i) ∈ fft_menu_entries u ->
      ui_step u (a, ids) (select_fft_channel u e ch i a, ids)
  | ui_reset_fft e a ids : ui_step u (a, ids) (reset_fft u e a, ids)
  | ui_log_x e b a ids : ui_step u (a, ids) (on_fft_log_x_changed u e b a, ids)
  | ui_autoscale e a ids : ui_step u (a, ids) (toggle_autoscale u e a, ids).

Section steps.
Context `{Numpy, CurveData} (u : ui_config).

Lemma menu_entry_ok ch i :
  (ch, i) ∈ fft_menu_entries u -> 0 <= i < size (u_channels u) /\ u_channels u !! Z.to_nat i = Some ch.
Proof using Type.
  intros (k & Hk)%list_elem_of_lookup. unfold fft_menu_entries in Hk.
  apply lookup_zip_with_Some in Hk as (c & j & [= <- <-] & Hc & Hj).
  apply lookup_seqZ in Hj as [-> Hj]. rewrite Z.add_0_l, Nat2Z.id. split; [lia|done].
Qed.

Lemma ui_step_ok s s' : ui_step u s s' -> app_ok u (snd s) (fst s) -> app_ok u (snd s') (fst s').
Proof using Type.
  intros Hstep. destruct Hstep; cbn [fst snd]; intros Hok; pose proof Hok as [Hp Hr Hv Hm].
  - by apply plot_update_ok.
  - unfold on_fft_update. destruct (negb _); [done|]. cbv zeta.
    destruct (_ && _); apply refresh_ok; (split; [done|done| |done]); destruct Hv; by split.
  - by apply refresh_ok.
  - by apply refresh_ok.
  - unfold on_acquisition_finished. pose proof (refresh_ok u e "" ids (set_msg msg a)) as Hx.
    destruct Hx as [H1 H2 H3 H4]; by split.
  - by apply render_ok.
  - apply refresh_ok, rms_step_ok; [|done]. apply reset_rms_ok; apply Hr.
  - apply refresh_ok, rms_step_ok; [|done].
    apply reset_rms_ok; cbn [rms_window rms_history]; [lia|apply new_history_keys].
  - apply refresh_ok, rms_step_ok; [|done]. apply reset_rms_ok; apply Hr.
  - unfold select_fft_channel. destruct (negb _); [done|]. apply refresh_ok. split; [done|done| |done].
    apply menu_entry_ok in H1 as [Hi Hch]. cbn. destruct Hv as [Hv1 Hv2]. split; cbn.
    + intros _. split; [lia|done].
    + apply Forall_app. split; [done|]. constructor; [exact Hi|constructor].
  - unfold reset_fft. destruct (negb _); [done|]. apply refresh_ok. split; [done|done| |done].
    destruct Hv as [Hv1 Hv2]. cbn. split; cbn; [done|].
    apply Forall_app. split; [done|]. by constructor.
  - apply refresh_ok. split; [done|done| |done]. destruct Hv. by split.
  - by apply refresh_ok.
Qed.

Lemma new_app_ok b w ch i log_x auto m msg :
  1 <= w -> (u_enable_fft u = true -> 0 <= i /\ u_channels u !! Z.to_nat i = Some ch) -> monitor_ok m ->
  app_ok u [] (new_app u b w ch i log_x auto m msg).
Proof using Type.
  intros Hw Hi Hm. unfold new_app. split; cbn.
  - split; cbn; try done. unfold size. by rewrite length_fmap.
  - by apply new_history_ok.
  - split; cbn; [done|constructor].
  - done.
Qed.

End steps.

(** C13. The window of the oscilloscope, whatever signals, menus and timer ticks it handled: the frames it
    got and the drops it reports add up to the last identifier it saw, it renders no frame twice
    and none out of order, and the frame it would render next is the last one it got; each RMS it shows is
    the root of the mean of a history of at most [rms_window] frames; the channel it names as the source
    of the spectrum is the one whose index it keeps, and every index it sent is one of a channel. *)
Theorem window_accounts_for_frames `{Numpy, CurveData} u b w ch i log_x auto m msg a ids :
  1 <= w -> (u_enable_fft u = true -> 0 <= i /\ u_channels u !! Z.to_nat i = Some ch) -> monitor_ok m ->
  star (ui_step u) (new_app u b w ch i log_x auto m msg, []) (a, ids) ->
  plot_ok u ids (plot a) /\ rms_ok u (rms a) /\ view_ok u (view a) (commands a).
Proof.
  intros Hw Hi Hm Hstar.
  destruct (star_invariant (ui_step u) (fun s => app_ok u (snd s) (fst s))
    (fun s s' Hs Hst => ui_step_ok u s s' Hst Hs) _ _ Hstar) as [H1 H2 H3 _]; [|done].
  by apply new_app_ok.
Qed.

(** What a frame adds to the history of a channel: the mean square of what its curve shows. *)
Definition frame_mean_square `{Numpy, CurveData} (ctrl : option controls) (samples : list Z)
    : option float :=
  match get_data ctrl samples with
  | Ok (Some y) =>
      match filter (fun x => is_finite x = true) y with
      | [] => None
      | finite => Some (np_mean ((fun x => f_mul x x) <$> finite))
      end
  | _ => None
  end.

(** A frame is received and rendered. *)
Definition show_frame `{Numpy, CurveData} (u : ui_config) (e : env) (ctrl : option controls) (a : app)
    (f : frame * float * Z * Z) : app :=
  let '(yk, rtt, id, t) := f in render_latest_frame u e ctrl (on_plot_update yk rtt id t a).

Fixpoint growing (last_id : Z) (fs : list (frame * float * Z * Z)) : Prop :=
  match fs with
  | [] => True
  | (_, _, id, _) :: rest => last_id < id /\ growing id rest
  end.

(** A frame of one row per channel with the samples of a request. *)
Definition fits_window (u : ui_config) (f : frame * float * Z * Z) : Prop :=
  let '(yk, _, _, _) := f in
  length yk = length (u_channels u) /\ Forall (fun r => size r = u_n_samples u) yk.

Section shown_frames.
Context `{Numpy, CurveData} (u : ui_config) (e : env) (ctrl : option controls).

Definition pushed (w : Z) (h : list float) (o : option float) : list float :=
  last_n w (h ++ option_list o).

(** What the RMS of one channel of a frame keeps and changes. *)
Lemma channel_history r ch samples h :
  rms_ok u r -> rms_history r !! ch = Some h ->
  let r' := update_channel_rms ctrl r ch samples in
  enable_rms r' = enable_rms r /\ rms_window r' = rms_window r /\
  rms_transform_signature r' = rms_transform_signature r /\
  rms_history r' !! ch = Some (pushed (rms_window r) h (frame_mean_square ctrl samples)) /\
  forall c, c <> ch -> rms_history r' !! c = rms_history r !! c.
Proof using Type.
  intros [_ _ Hb _] Hh. pose proof (Hb ch h Hh) as Hlen.
  assert (Hid : pushed (rms_window r) h None = h).
  { unfold pushed. cbn. rewrite app_nil_r, last_n_id; [done|]. unfold size in Hlen. lia. }
  unfold update_channel_rms, frame_mean_square.
  destruct (get_data ctrl samples) as [[y|]|]; [|rewrite Hid; by split_and!..].
  destruct (filter _ y) as [|x xs]; [rewrite Hid; by split_and!|]. cbv zeta.
  cbn [enable_rms rms_window rms_transform_signature rms_history].
  do 3 (split; [done|]). split.
  - by rewrite lookup_insert_eq, Hh.
  - intros c Hc. by rewrite lookup_insert_ne.
Qed.

Lemma channels_history l r :
  rms_ok u r -> NoDup (fst <$> l) -> Forall (fun chc => fst chc ∈ u_channels u) l ->
  let r' := foldl (fun r chc => update_channel_rms ctrl r (fst chc) (snd chc)) r l in
  enable_rms r' = enable_rms r /\ rms_window r' = rms_window r /\
  rms_transform_signature r' = rms_transform_signature r /\
  (forall ch samples h, (ch, samples) ∈ l -> rms_history r !! ch = Some h ->
     rms_history r' !! ch = Some (pushed (rms_window r) h (frame_mean_square ctrl samples))) /\
  forall c, c ∉ fst <$> l -> rms_history r' !! c = rms_history r !! c.
Proof using Type.
  intros Hr Hnd Hin. revert r Hr. induction l as [|[ch s] l IH]; intros r Hr; cbn [foldl fst snd].
  { split_and!; [done..|by intros ? ? ? ?%not_elem_of_nil|done]. }
  apply NoDup_cons in Hnd as [Hni Hnd]. apply Forall_cons in Hin as [Hch Hin]. cbn [fst] in *.
  destruct (proj2 (ro_keys _ _ Hr ch) Hch) as [h Hh].
  destruct (channel_history r ch s h Hr Hh) as (E1 & E2 & E3 & E4 & E5).
  destruct (IH Hnd Hin _ (update_channel_rms_ok u ctrl r ch s Hch Hr)) as (F1 & F2 & F3 & F4 & F5).
  split; [congruence|]. split; [congruence|]. split; [congruence|]. split.
  - intros c s' h' Hc Hh'. apply elem_of_cons in Hc as [[= -> ->]|Hc].
    + rewrite F5, E4 by done. congruence.
    + rewrite (F4 c s' h' Hc); [by rewrite E2|]. rewrite E5; [done|]. intros ->.
      apply Hni. apply list_elem_of_fmap. by exists (ch, s').
  - intros c Hc. rewrite fmap_cons, not_elem_of_cons in Hc. rewrite F5 by apply Hc. apply E5. apply Hc.
Qed.

(** One frame that fits is rendered, and feeds every history. *)
Lemma show_frame_run f ids a :
  app_ok u ids a -> NoDup (u_channels u) -> u_channels u <> [] -> 0 < u_n_samples u ->
  enable_rms (rms a) = true -> rms_transform_signature (rms a) = waveform_transform_signature ctrl ->
  fits_window u f -> last_seen_frame_id (plot a) < snd (fst f) ->
  let a' := show_frame u e ctrl a f in
  app_ok u (ids ++ [snd (fst f)]) a' /\ frames_rendered (plot a') = frames_rendered (plot a) + 1 /\
  last_seen_frame_id (plot a') = snd (fst f) /\ curves (plot a') = fst (fst (fst f)) /\
  enable_rms (rms a') = true /\ rms_window (rms a') = rms_window (rms a) /\
  rms_transform_signature (rms a') = waveform_transform_signature ctrl /\
  (forall i ch h, u_channels u !! i = Some ch -> rms_history (rms a) !! ch = Some h ->
     rms_history (rms a') !! ch = Some (pushed (rms_window (rms a)) h
       (frame_mean_square ctrl (default [] (fst (fst (fst f)) !! i))))).
Proof using Type.
  destruct f as [[[yk rtt] id] t]. cbn [fst snd]. intros Hok Hnd Hne Hn Hen Hsig [Hrows Hcols] Hid.
  pose proof (plot_update_ok u yk rtt id t ids a Hok Hid) as Hok1.
  split; [by apply render_ok|].
  destruct (on_plot_update_eq yk rtt id t a) as (m & info & msg & Ha1 & Hm).
  assert (Hcurves : size (curves (plot a)) = size (u_channels u)) by apply Hok.
  destruct yk as [|r0 yk]; [destruct (u_channels u); [done|cbn in Hrows; lia]|].
  assert (Hr0 : size r0 = u_n_samples u) by (by apply Forall_cons in Hcols as [? _]).
  cbn [show_frame]. rewrite Ha1 in *. unfold render_latest_frame.
  cbn [plot set_plot set_msg set_charge packet last_rendered_frame_id curves].
  rewrite (proj2 (Z.eqb_neq _ _)) by (pose proof (po_last _ _ _ (ao_plot _ _ _ Hok)); lia).
  cbn [as_waves rows cols]. rewrite Hr0, Z.eqb_refl.
  rewrite (proj2 (Z.eqb_eq _ _)) by (rewrite Hcurves; unfold size; by rewrite Hrows). cbn [negb orb].
  set (a2 := set_plot _ _).
  destruct (draw_eq u e ctrl id (as_waves (r0 :: yk)) a2) as (cc & range & [(l & t0 & Hd)|(Hnil & _)]).
  { apply Hm, Hok. }
  2: { exfalso. cbn in Hnil. apply app_eq_nil in Hnil as [-> _]. unfold size in Hr0. cbn in Hr0. lia. }
  rewrite Hd.
  do 3 (split; [done|]).
  assert (Hup : update_rms_metrics u ctrl (r0 :: yk) (rms a) =
    foldl (fun r chc => update_channel_rms ctrl r (fst chc) (snd chc)) (rms a)
      (zip (u_channels u) (r0 :: yk))).
  { unfold update_rms_metrics. rewrite Hen. cbn [negb]. by rewrite decide_True by done. }
  assert (Hrms : forall x, rms (set_label l (set_rms_text t0 (set_charge_curves cc
    (shown u ctrl (as_waves (r0 :: yk)) x id (time_ns e) "" range a2))))
    = update_rms_metrics u ctrl (r0 :: yk) (rms a)) by done.
  rewrite Hrms, Hup.
  assert (Hfst : fst <$> zip (u_channels u) (r0 :: yk) = u_channels u) by (apply fst_zip; lia).
  destruct (channels_history (zip (u_channels u) (r0 :: yk)) (rms a)) as (F1 & F2 & F3 & F4 & _);
    [apply Hok|by rewrite Hfst| |].
  { apply Forall_forall. intros [c s] Hc. by apply elem_of_zip_l in Hc. }
  split; [congruence|]. split; [done|]. split; [congruence|].
  intros i ch h Hch Hh. apply F4; [|done].
  destruct (lookup_lt_is_Some_2 (r0 :: yk) i) as [s Hs].
  { rewrite Hrows. by eapply lookup_lt_Some. }
  rewrite Hs. eapply list_elem_of_lookup_2. apply lookup_zip_with_Some. by exists ch, s.
Qed.

End shown_frames.

(** The live RMS of the oscilloscope: frames that arrive in order and fit the window are all
    rendered, the curves hold the last one, and the history of each channel becomes the last
    [rms_window] mean squares of what its curve showed, frames without a finite value left out. *)
Theorem rms_follows_frames `{Numpy, CurveData} u e ctrl fs ids a :
  app_ok u ids a -> NoDup (u_channels u) -> u_channels u <> [] -> 0 < u_n_samples u ->
  enable_rms (rms a) = true -> rms_transform_signature (rms a) = waveform_transform_signature ctrl ->
  Forall (fits_window u) fs -> growing (last_seen_frame_id (plot a)) fs ->
  let a' := foldl (show_frame u e ctrl) a fs in
  frames_rendered (plot a') = frames_rendered (plot a) + size fs /\
  curves (plot a') = default (curves (plot a)) ((fun f => fst (fst (fst f))) <$> last fs) /\
  forall i ch h, u_channels u !! i = Some ch -> rms_history (rms a) !! ch = Some h ->
    rms_history (rms a') !! ch = Some (last_n (rms_window (rms a))
      (h ++ omap (fun f => frame_mean_square ctrl (default [] (fst (fst (fst f)) !! i))) fs)).
Proof.
  intros Hok Hnd Hne Hn. revert ids a Hok.
  induction fs as [|f fs IH]; intros ids a Hok Hen Hsig Hfit Hgrow a'.
  - split; [unfold size; cbn; lia|]. split; [done|]. intros i ch h _ Hh. cbn. rewrite app_nil_r, last_n_id; [done|].
    pose proof (ro_bounded _ _ (ao_rms _ _ _ Hok) ch h Hh). unfold size in *. lia.
  - apply Forall_cons in Hfit as [Hf Hfit].
    assert (Hid : last_seen_frame_id (plot a) < snd (fst f) /\ growing (snd (fst f)) fs)
      by (by destruct f as [[[yk rtt] id] t]).
    destruct Hid as [Hid Hg].
    destruct (show_frame_run u e ctrl f ids a Hok Hnd Hne Hn Hen Hsig Hf Hid)
      as (Hok1 & Hr1 & Hl1 & Hc1 & Hen1 & Hw1 & Hs1 & Hh1).
    destruct (IH _ _ Hok1 Hen1 Hs1 Hfit ltac:(by rewrite Hl1)) as (Hr & Hc & Hh).
    subst a'. cbn [foldl]. split; [rewrite Hr, Hr1; unfold size; cbn [length]; lia|]. split.
    + rewrite Hc. destruct fs as [|g fs]; [exact Hc1|]. rewrite last_cons_cons.
      destruct (last (g :: fs)) eqn:Hlast; [done|]. by apply last_None in Hlast.
    + intros i ch h Hch Hh0. rewrite (Hh i ch _ Hch (Hh1 i ch h Hch Hh0)), Hw1. cbn [omap list_omap].
      unfold pushed. rewrite last_n_app, <- app_assoc. do 2 f_equal. f_equal.
      cbn [list_omap omap]. by destruct (frame_mean_square _ _).
Qed.

(** ** The worker and the window *)

(** What a signal does to the window. *)
Definition deliver `{Numpy} (u : ui_config) (e : env) (chk : option bool) (a : app)
    (s : signal) : app :=
  match s with
  | FftUpdate y navg => on_fft_update u e chk y navg a
  | StatusText text => on_worker_status u e text a
  | PlotUpdate yk rtt id t => on_plot_update yk rtt id t a
  end.

(** A frame in [_poll_once], up to the push: it is counted, then its spectrum, then its plot; what
    raises is caught by the turn. *)
Definition acquire_frame `{Spectral} (c : fft_config) (f : frame * float * Z) : M (Z * spectrum) unit :=
  fun ns =>
    let '(yk, rtt, t) := f in
    let n := fst ns + 1 in
    match update_fft c yk (snd ns) with
    | (Ok _, s) => (Ok tt, (n, say_signal (PlotUpdate yk rtt n t) s))
    | (Raise ex, s) => (Raise ex, (n, s))
    end.

(** Several turns: the frames that raised are counted. *)
Fixpoint acquire_frames `{Spectral} (c : fft_config) (fs : list (frame * float * Z))
    (ns : Z * spectrum) (failed : Z) : (Z * spectrum) * Z :=
  match fs with
  | [] => (ns, failed)
  | f :: rest =>
      match acquire_frame c f ns with
      | (Ok _, ns') => acquire_frames c rest ns' failed
      | (Raise _, ns') => acquire_frames c rest ns' (failed + 1)
      end
  end.

Section worker_window.
Context `{Numpy, Spectral} (u : ui_config) (e : env) (chk : option bool) (c : fft_config).

Lemma update_signals yk s r s' :
  update_fft c yk s = (r, s') ->
  exists new, signals s' = signals s ++ new /\ Forall (fun x => exists y n, x = FftUpdate y n) new.
Proof using Type.
  assert (Hnil : signals s = signals s ++ []) by by rewrite app_nil_r.
  unfold update_fft, bind, get. intros Hrun.
  destruct (negb (fft_enabled s)); [injection Hrun as _ <-; by exists []|].
  destruct (if _ : bool then _ else _) as [w|]; [|injection Hrun as _ <-; by exists []].
  unfold lift, gets, modify, ret in Hrun.
  destruct (power_spectrum c s w) as [power|]; [|injection Hrun as _ <-; by exists []].
  destruct (if _ <=? _ then _ else _) as [[[]|] s1] eqn:Hs1.
  - assert (H1 : signals s1 = signals s).
    { destruct (_ <=? _); [destruct (in_place f_sub _ _)|]; by simplify_eq/=. }
    destruct (in_place _ _ power) as [row|]; [|injection Hrun as _ <-; exists []; by rewrite app_nil_r].
    destruct (in_place f_add _ power) as [sum|]; [|injection Hrun as _ <-; exists []; by rewrite app_nil_r].
    destruct (negb _); [injection Hrun as _ <-; exists []; by rewrite app_nil_r|].
    destruct (_ <=? 0); injection Hrun as _ <-; [exists []; by rewrite app_nil_r|].
    eexists [_]. split; [cbn; by rewrite H1|]. constructor; [by eexists _, _|constructor].
  - injection Hrun as _ <-. exists []. rewrite app_nil_r. split; [|done].
    destruct (_ <=? _); [destruct (in_place f_sub _ _)|]; by simplify_eq/=.
Qed.

Lemma fft_signals_keep_plot new a :
  Forall (fun x => exists y n, x = FftUpdate y n) new ->
  plot (foldl (deliver u e chk) a new) = plot a.
Proof using Type.
  intros Hnew. revert a. induction Hnew as [|x new (y & n & ->) _ IH]; intros a; [done|].
  cbn [foldl deliver]. rewrite IH. unfold on_fft_update. destruct (negb _); [done|]. cbv zeta.
  destruct (_ && _); [destruct (refresh_label u e "" (set_msg "[fft] no positive finite bins for log-x"
    (set_view (FftView (fft_channel (view a)) (ui_channel_index (view a))
      (default (fft_log_x (view a)) chk) (fft_samples_averaged (view a)) (latest_fft (view a))
      (curve_fft (view a))) a))) as [t ->]; done|].
  match goal with |- plot (refresh_status_line u e "" ?x) = _ =>
    destruct (refresh_label u e "" x) as [t ->] end. done.
Qed.

Lemma plot_update_counts yk rtt id t a :
  last_seen_frame_id (plot a) < id ->
  let p := plot (on_plot_update yk rtt id t a) in
  last_seen_frame_id p = id /\
  plot_drops_ui p = plot_drops_ui (plot a) + (id - last_seen_frame_id (plot a) - 1).
Proof using Type.
  intros Hid. destruct (on_plot_update_eq yk rtt id t a) as (m & info & msg & -> & _).
  split; [done|]. cbn. case Z.ltb_spec; lia.
Qed.

End worker_window.

Lemma frames_counted `{Numpy, Spectral} u e chk c chs n s fs n0 a f0 :
  (forall l, length (rfft l) = (length l / 2 + 1)%nat) ->
  star (fft_step c chs) (setup_fft c n) s -> last_seen_frame_id (plot a) <= n0 ->
  let '((n', s'), failed) := acquire_frames c fs (n0, s) f0 in
  exists new, signals s' = signals s ++ new /\ n' = n0 + size fs /\
    (let p := plot (foldl (deliver u e chk) a new) in
     plot_drops_ui p + (n' - last_seen_frame_id p) =
     plot_drops_ui (plot a) + (n0 - last_seen_frame_id (plot a)) + (failed - f0)) /\
    (Forall (fun f => Forall (fun r => size r = n) (fst (fst f))) fs -> failed = f0).
Proof.
  intros Hrfft. revert f0 n0 s a.
  induction fs as [|[[yk rtt] t] fs IH]; intros f0 n0 s a Hs Hl; cbn [acquire_frames].
  { exists []. rewrite app_nil_r. cbn. unfold size. cbn. split_and!; [done|lia|lia|done]. }
  unfold acquire_frame. cbn [fst snd]. destruct (update_fft c yk s) as [r s1] eqn:Hu.
  destruct (update_signals c yk s r s1 Hu) as (new1 & Hn1 & Hf1).
  pose proof (fft_signals_keep_plot u e chk new1 a Hf1) as Hp1.
  assert (Hs1 : star (fft_step c chs) (setup_fft c n) s1)
    by (eapply star_trans; [exact Hs|]; by eapply star_one, fft_step_frame).
  assert (Hsize : size ((yk, rtt, t) :: fs) = size fs + 1) by (unfold size; cbn [length]; lia).
  destruct r as [[]|ex].
  - set (s2 := say_signal (PlotUpdate yk rtt (n0 + 1) t) s1).
    assert (Hs2 : star (fft_step c chs) (setup_fft c n) s2)
      by (eapply star_trans; [exact Hs1|]; apply star_one, fft_step_signal).
    set (a1 := on_plot_update yk rtt (n0 + 1) t (foldl (deliver u e chk) a new1)).
    destruct (plot_update_counts yk rtt (n0 + 1) t (foldl (deliver u e chk) a new1)) as [Hl1 Hd1];
      [rewrite Hp1; lia|]. fold a1 in Hl1, Hd1. rewrite Hp1 in Hd1.
    specialize (IH f0 (n0 + 1) s2 a1 Hs2 ltac:(lia)).
    destruct (acquire_frames _ _ _ _) as [[n' s'] failed].
    destruct IH as (new & H1 & H2 & H3 & H4).
    exists (new1 ++ PlotUpdate yk rtt (n0 + 1) t :: new).
    split; [rewrite H1; cbn [signals s2 say_signal]; by rewrite Hn1, <- !app_assoc|].
    split; [lia|]. split; [|intros [_ Hall]%Forall_cons; by apply H4].
    rewrite foldl_app. cbn [foldl deliver]. fold a1. cbv zeta in *. lia.
  - specialize (IH (f0 + 1) (n0 + 1) s1 (foldl (deliver u e chk) a new1) Hs1 ltac:(rewrite Hp1; lia)).
    destruct (acquire_frames _ _ _ _) as [[n' s'] failed].
    destruct IH as (new & H1 & H2 & H3 & H4). exists (new1 ++ new).
    split; [by rewrite H1, Hn1, app_assoc|]. split; [lia|]. split.
    + rewrite foldl_app. rewrite Hp1 in H3. cbv zeta in *. lia.
    + intros [Hyk Hall]%Forall_cons. exfalso.
      destruct (fft_accepts_frames c chs n s yk Hrfft Hs Hyk) as [s3 Hs3]. congruence.
Qed.

(** The worker and the window together: over any frames, what the window counts as dropped, with
    the frames after the last one it saw, grows by exactly the number of frames whose spectrum
    raised; frames of the requested number of samples make it grow by nothing, so frames that
    come faster than they are rendered are never counted as dropped. *)
Theorem drops_are_failed_spectra `{Numpy, Spectral} u e chk c chs n s fs n0 a :
  (forall l, length (rfft l) = (length l / 2 + 1)%nat) ->
  star (fft_step c chs) (setup_fft c n) s -> last_seen_frame_id (plot a) <= n0 ->
  let '((n', s'), failed) := acquire_frames c fs (n0, s) 0 in
  exists new, signals s' = signals s ++ new /\ n' = n0 + size fs /\
    (let p := plot (foldl (deliver u e chk) a new) in
     plot_drops_ui p + (n' - last_seen_frame_id p) =
     plot_drops_ui (plot a) + (n0 - last_seen_frame_id (plot a)) + failed) /\
    (Forall (fun f => Forall (fun r => size r = n) (fst (fst f))) fs -> failed = 0).
Proof.
  intros Hrfft Hs Hl. pose proof (frames_counted u e chk c chs n s fs n0 a 0 Hrfft Hs Hl) as Hc.
  destruct (acquire_frames _ _ _ _) as [[n' s'] failed]. destruct Hc as (new & H1 & H2 & H3 & H4).
  exists new. split; [done|]. split; [done|]. split; [cbv zeta in *; lia|done].
Qed.

(** ** Examples *)

#[local] Existing Instance ChargeWindows.plain_numpy.
#[local] Existing Instance plain_spectral.

Definition plain_curves : CurveData := {| get_data _ l := Ok (Some (f_of_Z <$> l)) |}.
#[local] Existing Instance plain_curves.

Definition example_ui : ui_config := {|
  u_channels := [7; 9]; u_n_samples := 2; u_software_trigger := true; u_enable_fft := true;
  u_f_axis := [f_of_Z 0; f_of_Z 31] |}.

Definition example_env : env := Env (Some (3, "", 0)) 2000000.

Definition example_window : app := new_app example_ui true 2 7 0 true false None "Ready".

(** Two frames, the second with a gap before it, one of them rendered, and another source. *)
Definition example_first : app := on_plot_update [[1; 1]; [2; 2]] (f_of_Z 1) 1 10 example_window.

Definition example_used : app :=
  select_fft_channel example_ui example_env 9 1
    (render_latest_frame example_ui example_env None
       (on_plot_update [[3; 5]; [0; 2]] (f_of_Z 1) 3 20 example_first)).

Lemma window_accounts_for_frames_witness :
  plot_ok example_ui [1; 3] (plot example_used) /\ rms_ok example_ui (rms example_used) /\
  view_ok example_ui (view example_used) (commands example_used).
Proof.
  apply (window_accounts_for_frames example_ui true 2 7 0 true false None "Ready").
  - lia.
  - intros _. split; [lia|reflexivity].
  - intros m [=].
  - eapply star_step; [apply (ui_plot example_ui [[1; 1]; [2; 2]] (f_of_Z 1) 1 10 example_window []); reflexivity|].
    eapply star_step; [apply (ui_plot example_ui [[3; 5]; [0; 2]] (f_of_Z 1) 3 20 example_first [1]); reflexivity|].
    eapply star_step; [apply (ui_render example_ui example_env None)|].
    apply star_one, ui_select. apply (bool_decide_unpack _). vm_compute. exact I.
Defined.

Definition example_frames : list (frame * float * Z * Z) :=
  [([[1; 1]; [2; 2]], f_of_Z 1, 1, 10); ([[3; 5]; [0; 2]], f_of_Z 1, 2, 20);
   ([[2; 2]; [4; 4]], f_of_Z 1, 5, 30)].

Lemma rms_follows_frames_witness :
  let a' := foldl (show_frame example_ui example_env None) example_window example_frames in
  frames_rendered (plot a') = 3 /\ curves (plot a') = [[2; 2]; [4; 4]] /\
  rms_history (rms a') !! 7 = Some [f_of_Z 17; f_of_Z 4].
Proof.
  cbv zeta. destruct (rms_follows_frames example_ui example_env None example_frames []
    example_window) as (H1 & H2 & H3).
  - apply new_app_ok; [lia|by intros _; split|by intros m].
  - apply (bool_decide_unpack _). vm_compute. exact I.
  - discriminate.
  - reflexivity.
  - reflexivity.
  - reflexivity.
  - repeat constructor.
  - repeat constructor.
  - split; [rewrite H1; reflexivity|]. split; [rewrite H2; reflexivity|].
    rewrite (H3 0%nat 7 []) by reflexivity. vm_compute. reflexivity.
Defined.

Definition example_acquired : (Z * spectrum) * Z :=
  acquire_frames example_fft [([[4; 2]; [1; 3]], f_of_Z 1, 10); ([[4; 2; 2]; [1; 3; 3]], f_of_Z 1, 20);
    ([[0; 2]; [1; 3]], f_of_Z 1, 30)] (0, setup_fft example_fft 2) 0.

Lemma drops_are_failed_spectra_witness :
  exists new, signals (snd (fst example_acquired)) = [] ++ new /\ fst (fst example_acquired) = 0 + 3 /\
    (let p := plot (foldl (deliver example_ui example_env None) example_window new) in
     plot_drops_ui p + (fst (fst example_acquired) - last_seen_frame_id p) = 0 + (0 - 0) + 1).
Proof.
  pose proof (drops_are_failed_spectra example_ui example_env None example_fft [7; 9] 2
    (setup_fft example_fft 2) [([[4; 2]; [1; 3]], f_of_Z 1, 10); ([[4; 2; 2]; [1; 3; 3]], f_of_Z 1, 20);
    ([[0; 2]; [1; 3]], f_of_Z 1, 30)] 0 example_window plain_rfft_length (star_refl _ _)
    (Z.le_refl 0)) as Hd.
  fold example_acquired in Hd.
  replace example_acquired with (fst (fst example_acquired), snd (fst example_acquired), snd example_acquired)
    in Hd by (by destruct example_acquired as [[? ?] ?]).
  destruct Hd as (new & H1 & H2 & H3 & _). exists new. split; [exact H1|]. split; [exact H2|].
  cbv zeta in *. rewrite H3. vm_compute. reflexivity.
Defined.
