(* ===== verification/OscStart.v ===== *)
(** [client/osc.py]: the options [main] refuses, the construction of the window with its writer, its
    monitor and its worker, the description of the run it writes, and the closing.

    Paths and the clock are parameters; the channel files are those of [OscAcq]. *)
From S2P Require Import Prelude PyStr PyFloat FloatExact PyVal ChannelSpec EnvelopeV2 SpyAcquire ChargeWindows OscAcq OscSpectrum OscApp.

(** ** Options *)

Record osc_args : Type := OscArgs {
  g_ip : string; g_port : Z; g_channel : Z; g_channels : string; g_L : Z; g_software_trigger : bool;
  g_enable_fft : bool; g_fft_avg_waves : Z; g_fft_window_function : string;
  g_fft_channel : option Z; g_fft_full_scale_counts : float; g_fft_keep_dc : bool;
  g_fft_linear_x : bool; g_period_ms : Z; g_max_waveforms : Z; g_ui_period_ms : Z; g_fft_every : Z;
  g_autoscale : bool; g_timeout_ms : Z; g_identity : string; g_route : string;
  g_sampling_rate_hz : float; g_rms_window : Z; g_disable_rms : bool; g_enable_charge_hist : bool;
  g_charge_windows_json : string; g_charge_start : Z; g_charge_stop : Z;
  g_charge_baseline_start : Z; g_charge_baseline_stop : Z; g_charge_hist_bins : Z;
  g_charge_history : Z; g_charge_clip_negative : bool; g_save_dir : string; g_run_label : string;
  g_run_notes : string; g_append_data : bool; g_save_queue_frames : Z; g_flush_every_frames : Z }.

(** What [main] goes on with: the channels and the channel of the spectrum. *)
Inductive checked : Type :=
  | Refused (text : string)
  | Accepted (channels : list Z) (fft_channel : option Z).

(** The channels; none is refused. *)
Definition chosen_channels (g : osc_args) : result (option (list Z)) :=
  if decide (g_channels g = "") then Ok (Some [g_channel g])
  else
    channels <-! osc_parse_channels (g_channels g) ;;
    Ok (match channels with [] => None | _ => Some channels end).

(** The checks of [main]: the text printed before it returns 2. *)
Definition check_options (g : osc_args) : result checked :=
  chosen <-! chosen_channels g ;;
  Ok (match chosen with
  | None => Refused "No valid channels parsed from --channels"
  | Some channels =>
      if existsb (fun ch => (ch <? 0) || (39 <? ch)) channels
      then Refused "Channels must be in [0..39]"
      else if negb ((1 <=? g_L g) && (g_L g <=? 2048)) then Refused "L must be in [1..2048]"
      else if g_ui_period_ms g <? 1 then Refused "ui_period_ms must be >= 1"
      else if g_max_waveforms g <? 0 then Refused "max_waveforms must be >= 0"
      else if g_fft_every g <? 1 then Refused "fft_every must be >= 1"
      else if f_leb (g_fft_full_scale_counts g) f_zero
      then Refused "fft_full_scale_counts must be > 0"
      else if g_rms_window g <? 1 then Refused "rms_window must be >= 1"
      else
        let fft_channel := if g_enable_fft g
                           then Some (default (default 0 (head channels)) (g_fft_channel g))
                           else g_fft_channel g in
        if g_enable_fft g && negb (bool_decide (default 0 fft_channel ∈ channels))
        then Refused "fft_channel must be included in --channels"
        else if g_enable_charge_hist g && (g_charge_baseline_stop g <=? g_charge_baseline_start g)
        then Refused "charge_baseline_stop must be greater than charge_baseline_start"
        else if g_enable_charge_hist g && bool_decide (g_charge_windows_json g = "")
                && (g_charge_stop g <=? g_charge_start g)
        then Refused "charge_stop must be greater than charge_start"
        else Accepted channels fft_channel
  end).

(** ** The run *)

(** The writer, if there is one, and the document of [run_metadata.json]. *)
Record run_world : Type := RunWorld {
  r_files : gmap Z (list Z); r_writer : option writer; r_metadata : option pyval }.

(** What happens outside: how the opening of the files ended within two seconds, if it did; whether
    [run_metadata.json] could be written; the files of charge windows. *)
Record surroundings : Type := Surroundings {
  opened : option (option string); metadata_fault : option exn; now_utc : string;
  windows_file : string -> result pyval }.

(** The parts that are built. *)
Record built : Type := Built {
  b_ui : ui_config; b_app : app; b_fft : fft_config; b_osc : osc_config; b_saving : bool;
  b_period_ms : Z; b_ui_period_ms : Z }.

(** [np.fft.rfftfreq], which raises when the spacing is zero. *)
Class FreqAxis : Type := { rfftfreq : Z -> float -> result (list float) }.

(** [channels.index(ch)] *)
Fixpoint index_of (ch : Z) (l : list Z) : option Z :=
  match l with
  | [] => None
  | c :: t => if c =? ch then Some 0 else (fun i => i + 1) <$> index_of ch t
  end.

(** [1.0 / self.fs_hz] *)
Definition sample_spacing (fs : float) : result float :=
  match fs with
  | S754_zero _ => Raise (Exn ZeroDivisionError "float division by zero")
  | _ => f_div (f_of_Z 1) fs
  end.

Section construction.
Context `{Numpy, Spectral, FreqAxis} (g : osc_args) (channels : list Z) (sur : surroundings).

(** [f"tcp://{args.ip}:{args.port}"] *)
Definition endpoint : string := "tcp://" +:+ g_ip g +:+ ":" +:+ str_Z (g_port g).

Definition osc_config_of : osc_config := {|
  o_channels := channels; o_append := g_append_data g; o_queue_frames := g_save_queue_frames g;
  o_flush_every := g_flush_every_frames g; o_max_waveforms := g_max_waveforms g;
  o_endpoint := endpoint |}.

(** [_write_run_metadata]: the document, its keys in the order they are set. *)
Definition run_metadata (fft_channel : Z) (fft_log_x : bool) : list (string * pyval) :=
  [("created_utc", PyStr (now_utc sur)); ("endpoint", PyStr endpoint); ("route", PyStr (g_route g));
   ("channels", PyList (PyInt <$> channels)); ("samples_per_waveform", PyInt (g_L g));
   ("software_trigger", PyBool (g_software_trigger g)); ("acq_period_ms", PyInt (g_period_ms g));
   ("max_waveforms", PyInt (g_max_waveforms g)); ("ui_period_ms", PyInt (g_ui_period_ms g));
   ("fft_every", PyInt (g_fft_every g)); ("autoscale", PyBool (g_autoscale g));
   ("fft_enabled", PyBool (g_enable_fft g));
   ("fft_channel", if g_enable_fft g then PyInt fft_channel else PyNone);
   ("fft_keep_dc", PyBool (g_fft_keep_dc g));
   ("fft_log_x", PyBool (g_enable_fft g && fft_log_x));
   ("fft_full_scale_counts", PyFloat (g_fft_full_scale_counts g));
   ("fft_window_function", PyStr (g_fft_window_function g));
   ("sampling_rate_hz", PyFloat (g_sampling_rate_hz g));
   ("rms_enabled", PyBool (negb (g_disable_rms g)));
   ("rms_window", PyInt (Z.max 1 (g_rms_window g)));
   ("charge_hist_enabled", PyBool (g_enable_charge_hist g))]
  ++ (if g_enable_charge_hist g then
        [("charge_windows_json", PyStr (g_charge_windows_json g));
         ("charge_start", PyInt (g_charge_start g)); ("charge_stop", PyInt (g_charge_stop g));
         ("charge_baseline_start", PyInt (g_charge_baseline_start g));
         ("charge_baseline_stop", PyInt (g_charge_baseline_stop g));
         ("charge_hist_bins", PyInt (g_charge_hist_bins g));
         ("charge_history", PyInt (g_charge_history g));
         ("charge_clip_negative", PyBool (g_charge_clip_negative g))]
      else [])
  ++ (if decide (g_run_label g = "") then [] else [("run_label", PyStr (g_run_label g))])
  ++ (if decide (g_run_notes g = "") then [] else [("run_notes", PyStr (g_run_notes g))]).

(** The writer is started and waited for; its error disables it, else the run is described.  The
    result says whether frames are saved, and the text of the status. *)
Definition start_writer (fft_channel : Z) (fft_log_x : bool) : M run_world (bool * string) :=
  if decide (g_save_dir g = "") then ret (false, "Ready")
  else
    w0 <- get ;;
    let w := Writer true false "" (r_files w0) 0 0 0 [] [] in
    let w := match opened sur with
             | Some fault => writer_open osc_config_of fault w
             | None => w
             end in
    modify (fun s => RunWorld (disk w) (Some w) (r_metadata s)) ;;;
    if decide (w_error w = "") then
      (match metadata_fault sur with Some ex => raise ex | None => ret tt end) ;;;
      modify (fun s => RunWorld (r_files s) (r_writer s)
                         (Some (PyDict (run_metadata fft_channel fft_log_x)))) ;;;
      ret (true, "Ready")
    else ret (false, "[writer disabled] " +:+ w_error w).

(** [_build_charge_windows] *)
Definition build_charge_windows : result (gmap Z ChargeWindow) :=
  if decide (g_charge_windows_json g = "") then
    let start := g_charge_start g in
    let stop := g_charge_stop g in
    if stop <=? start then Raise (value_error "charge_stop must be greater than charge_start")
    else Ok (foldl (fun out ch =>
      <[ch := Window ch (g_charge_baseline_start g) (g_charge_baseline_stop g) start stop start start
                start stop]> out) ∅ channels)
  else
    windows <-! load_charge_windows (windows_file sur (g_charge_windows_json g)) ;;
    match filter (fun ch => windows !! ch = None) channels with
    | [] => Ok (foldl (fun out ch => match windows !! ch with
                                     | Some w => <[ch := w]> out
                                     | None => out
                                     end) ∅ channels)
    | missing => Raise (value_error ("Missing charge windows for channels [" +:+ join ", " (str_Z <$> missing)
                                     +:+ "] in " +:+ g_charge_windows_json g))
    end.

(** [DaphneOscApp.__init__], up to the start of the worker thread. *)
Definition init (fft_channel_arg : option Z) : M run_world built :=
  let n_samples := g_L g in
  let fft_channel := default (default 0 (head channels)) fft_channel_arg in
  fft_index <- (if g_enable_fft g
                then match index_of fft_channel channels with
                     | Some i => ret i
                     | None => raise (value_error (str_Z fft_channel +:+ " is not in list"))
                     end
                else ret 0) ;;
  let fft_log_x := g_enable_fft g && negb (g_fft_linear_x g) in
  '(saving, msg) <- start_writer fft_channel fft_log_x ;;
  '(f_axis, win) <-
    (if g_enable_fft g then
       d <- lift (sample_spacing (g_sampling_rate_hz g)) ;;
       axis <- lift (rfftfreq n_samples d) ;;
       win <- lift (get_window (g_fft_window_function g) n_samples) ;;
       ret (axis, Some win)
     else ret ([], None)) ;;
  m <- (if g_enable_charge_hist g then
          windows <- lift build_charge_windows ;;
          m <- lift (new_monitor channels n_samples windows (g_charge_history g) (g_charge_hist_bins g)
                       (g_charge_clip_negative g)) ;;
          ret (Some m)
        else ret None) ;;
  let u := {| u_channels := channels; u_n_samples := n_samples;
              u_software_trigger := g_software_trigger g; u_enable_fft := g_enable_fft g;
              u_f_axis := f_axis |} in
  ret (Built u
         (new_app u (negb (g_disable_rms g)) (Z.max 1 (g_rms_window g)) fft_channel fft_index fft_log_x
            (g_autoscale g) m msg)
         {| fc_enabled := g_enable_fft g; fc_channel_index := fft_index; fc_window := win;
            fc_avg_waves := if g_enable_fft g then Z.max 1 (g_fft_avg_waves g) else 1;
            fc_emit_every := Z.max 1 (g_fft_every g);
            fc_adc_full_scale := g_fft_full_scale_counts g; fc_remove_dc := negb (g_fft_keep_dc g) |}
         osc_config_of saving (Z.max 1 (g_period_ms g)) (Z.max 5 (g_ui_period_ms g))).

End construction.

(** [main]: refused options, an exception, or a window. *)
Definition main `{Numpy, Spectral, FreqAxis} (g : osc_args) (sur : surroundings)
    : M run_world (string + built) :=
  c <- lift (check_options g) ;;
  match c with
  | Refused text => ret (inl text)
  | Accepted channels fft_channel => b <- init g channels sur fft_channel ;; ret (inr b)
  end.

(** ** Telemetry *)

(** [_emit_telemetry]: the counters are sent unless some were less than half a second ago. *)
Definition emit_telemetry (force : bool) (now_s last_s : float) (counters : Z * Z * Z)
    : option (Z * Z * Z) * float :=
  if negb force && f_ltb (f_sub now_s last_s) (f_dec 5 (-1)) then (None, last_s)
  else (Some counters, now_s).

(** ** Closing *)

Inductive closing : Type :=
  | StopRenderTimer
  | RequestWorkerStop
  | QueueWorkerStop
  | QuitThread
  | WaitThread (ms : Z)
  | StopWriter
  | JoinWriter.

(** [_cleanup]: what it does, once. *)
Definition cleanup (has_writer : bool) (cleaned : bool) (acts : list closing) : bool * list closing :=
  if cleaned then (true, acts)
  else (true, acts ++ [StopRenderTimer; RequestWorkerStop; QueueWorkerStop; QuitThread; WaitThread 3000]
                   ++ (if has_writer then [StopWriter; JoinWriter] else [])).

(** ** Lemmas *)

Lemma index_of_spec ch l : ch ∈ l ->
  exists i, index_of ch l = Some i /\ 0 <= i /\ l !! Z.to_nat i = Some ch.
Proof.
  induction l as [|c l IH]; intros Hin; [by apply not_elem_of_nil in Hin|]. cbn.
  case Z.eqb_spec; intros Hc; [subst; exists 0; done|].
  apply elem_of_cons in Hin as [->|Hin]; [done|]. destruct (IH Hin) as (i & -> & Hi & Hl).
  exists (i + 1). split; [done|]. split; [lia|].
  replace (Z.to_nat (i + 1)) with (S (Z.to_nat i)) by lia. done.
Qed.

Lemma existsb_range (l : list Z) :
  existsb (fun ch => (ch <? 0) || (39 <? ch)) l = false <-> Forall (fun ch => 0 <= ch <= 39) l.
Proof.
  induction l as [|c l IH]; cbn; [split; constructor|].
  rewrite orb_false_iff, IH, Forall_cons, orb_false_iff, Z.ltb_ge, Z.ltb_ge. intuition lia.
Qed.

(** ** Properties *)

(** The options [main] goes on with. *)
Record valid_options (g : osc_args) (channels : list Z) (fft_channel : option Z) : Prop := {
  vo_chosen : chosen_channels g = Ok (Some channels);
  vo_range : Forall (fun ch => 0 <= ch <= 39) channels;
  vo_samples : 1 <= g_L g <= 2048;
  vo_ui_period : 1 <= g_ui_period_ms g;
  vo_max : 0 <= g_max_waveforms g;
  vo_every : 1 <= g_fft_every g;
  vo_full_scale : f_leb (g_fft_full_scale_counts g) f_zero = false;
  vo_rms : 1 <= g_rms_window g;
  vo_fft : fft_channel = (if g_enable_fft g
                          then Some (default (default 0 (head channels)) (g_fft_channel g))
                          else g_fft_channel g);
  vo_fft_in : g_enable_fft g = true -> default 0 fft_channel ∈ channels;
  vo_baseline : g_enable_charge_hist g = true ->
    g_charge_baseline_start g < g_charge_baseline_stop g;
  vo_charge : g_enable_charge_hist g = true -> g_charge_windows_json g = "" ->
    g_charge_start g < g_charge_stop g }.

(** [main] of the oscilloscope goes on exactly with valid options, and refuses the others before
    it starts or touches anything. *)
Theorem options_checked `{Numpy, Spectral, FreqAxis} g sur w :
  (forall channels fft_channel,
     check_options g = Ok (Accepted channels fft_channel) <-> valid_options g channels fft_channel) /\
  (forall text, check_options g = Ok (Refused text) -> main g sur w = (Ok (inl text), w)).
Proof.
  split; [|intros text Hc; unfold main, bind, lift; by rewrite Hc].
  intros channels fc. unfold check_options. split.
  - intros Hc. apply rbind_ok in Hc as (chosen & Hch & [=Hc]).
    destruct chosen as [chs|]; [|done].
    destruct (existsb _ chs) eqn:H2; [done|]. destruct (negb _) eqn:H3; [done|].
    destruct (g_ui_period_ms g <? 1) eqn:H4; [done|]. destruct (g_max_waveforms g <? 0) eqn:H5; [done|].
    destruct (g_fft_every g <? 1) eqn:H6; [done|]. destruct (f_leb _ _) eqn:H7; [done|].
    destruct (g_rms_window g <? 1) eqn:H8; [done|]. cbv zeta in Hc.
    set (fc0 := if g_enable_fft g then _ else _) in Hc.
    destruct (g_enable_fft g && _) eqn:H9; [done|]. destruct (g_enable_charge_hist g && (_ <=? _)) eqn:H10; [done|].
    destruct (_ && _ && _) eqn:H11; [done|]. injection Hc as <- <-.
    bool_to_prop. split; try done; try lia.
    + by apply existsb_range.
    + intros He. rewrite He in H9. cbn in H9. apply negb_false_iff in H9. by apply bool_decide_eq_true in H9.
    + intros He. rewrite He in H10. by apply Z.leb_gt in H10.
    + intros He Hj. rewrite He, Hj in H11. by apply Z.leb_gt in H11.
  - intros []. rewrite vo_chosen0. cbn [rbind]. f_equal.
    rewrite (proj2 (existsb_range _) vo_range0).
    rewrite (proj2 (Z.leb_le _ _)), (proj2 (Z.leb_le _ _)) by lia. cbn [negb andb].
    rewrite !(proj2 (Z.ltb_ge _ _)) by lia. rewrite vo_full_scale0. cbv zeta. rewrite <- vo_fft0.
    destruct (g_enable_fft g); cbn [andb]; [rewrite bool_decide_true by auto; cbn [negb]|];
      (destruct (g_enable_charge_hist g); cbn [andb]; [|done];
       rewrite (proj2 (Z.leb_gt _ _)) by auto; case_bool_decide; cbn [andb]; [|done];
       by rewrite (proj2 (Z.leb_gt _ _)) by auto).
Qed.

Section start_lemmas.
Context `{Numpy, Spectral, FreqAxis} (g : osc_args) (channels : list Z) (sur : surroundings).

(** The writer is ready, with its files open, or disabled, or absent. *)
Lemma start_writer_run ch log_x w :
  metadata_fault sur = None ->
  exists saving msg w', start_writer g channels sur ch log_x w = (Ok (saving, msg), w') /\
    (saving = true <-> g_save_dir g <> "" /\ forall text, opened sur <> Some (Some text)) /\
    (g_save_dir g <> "" -> opened sur = Some None ->
       r_files w' = disk (writer_open (osc_config_of g channels) None
         (Writer true false "" (r_files w) 0 0 0 [] [])) /\ is_Some (r_metadata w')).
Proof using Type.
  intros Hm. unfold start_writer. destruct (decide (g_save_dir g = "")) as [Hd|Hd].
  - exists false, "Ready", w. split; [done|]. by split; [split; [done|intros [? _]]|].
  - unfold bind, get, modify. rewrite Hm. destruct (opened sur) as [[text|]|] eqn:Ho.
    + cbn [writer_open w_error]. rewrite decide_False by done. do 3 eexists. split; [reflexivity|].
      split; [split; [done|]|done]. intros [_ Hn]. by destruct (Hn text).
    + cbn [writer_open w_error]. rewrite decide_True by done. unfold ret. do 3 eexists. split; [reflexivity|].
      split; [done|]. intros _ _. by split.
    + cbn [w_error]. rewrite decide_True by done. unfold ret. do 3 eexists. split; [reflexivity|]. by split.
Qed.

Lemma windows_built (f : Z -> option ChargeWindow) chs (ws0 : gmap Z ChargeWindow) :
  (forall ch, ch ∈ chs -> is_Some (f ch)) ->
  forall ch, ch ∈ chs \/ is_Some (ws0 !! ch) -> is_Some (foldl (fun (out : gmap Z ChargeWindow) ch => match f ch with
    | Some w => <[ch := w]> out | None => out end) ws0 chs !! ch).
Proof using Type.
  revert ws0. induction chs as [|c chs IH]; intros ws0 Hf ch Hch; cbn [foldl].
  { destruct Hch as [Hch|Hch]; [by apply not_elem_of_nil in Hch|done]. }
  apply IH; [intros x Hx; apply Hf; by apply list_elem_of_further|].
  destruct (Hf c (list_elem_of_here _ _)) as [w Hw]. rewrite Hw.
  destruct (decide (ch = c)) as [->|Hne]; [right; by rewrite lookup_insert_eq|].
  destruct Hch as [[->|Hch]%elem_of_cons|Hch]; [done|by left|right; by rewrite lookup_insert_ne].
Qed.

Lemma none_missing (ws : gmap Z ChargeWindow) :
  (forall ch, ch ∈ channels -> is_Some (ws !! ch)) -> filter (fun ch => ws !! ch = None) channels = [].
Proof using Type.
  intros Hcov. apply elem_of_nil_inv. intros ch [Hch Hin]%list_elem_of_filter.
  destruct (Hcov ch Hin). congruence.
Qed.

(** Every channel has a window. *)
Lemma charge_windows_cover :
  (g_charge_windows_json g = "" -> g_charge_start g < g_charge_stop g) ->
  (g_charge_windows_json g <> "" -> exists ws,
     load_charge_windows (windows_file sur (g_charge_windows_json g)) = Ok ws /\
     forall ch, ch ∈ channels -> is_Some (ws !! ch)) ->
  exists ws, build_charge_windows g channels sur = Ok ws /\ forall ch, ch ∈ channels -> is_Some (ws !! ch).
Proof using Type.
  intros Hr Hj. unfold build_charge_windows. destruct (decide (g_charge_windows_json g = "")) as [He|He].
  - rewrite (proj2 (Z.leb_gt _ _)) by auto. eexists. split; [done|]. intros ch Hch.
    apply (windows_built (fun ch => Some (Window ch (g_charge_baseline_start g) (g_charge_baseline_stop g)
      (g_charge_start g) (g_charge_stop g) (g_charge_start g) (g_charge_start g) (g_charge_start g)
      (g_charge_stop g)))); [by eexists|by left].
  - destruct (Hj He) as (ws & Hws & Hcov). rewrite Hws. cbn [rbind].
    rewrite (none_missing ws Hcov). eexists. split; [done|]. intros ch Hch.
    apply (windows_built (fun ch => ws !! ch)); [done|by left].
Qed.

Lemma new_monitor_covers n ws history bins clip :
  (forall ch, ch ∈ channels -> is_Some (ws !! ch)) ->
  exists m, new_monitor channels n ws history bins clip = Ok m /\ covers m.
Proof using Type.
  intros Hcov. unfold new_monitor.
  rewrite (none_missing ws Hcov). eexists. split; [done|]. intros ch Hch. cbn [m_channels m_series] in *.
  apply (new_history_keys (Build_ui_config channels 0 false false [])). done.
Qed.

End start_lemmas.

(** What the run needs besides valid options. *)
Record can_start `{Spectral, FreqAxis} (g : osc_args) (channels : list Z) (sur : surroundings)
    : Prop := {
  cs_metadata : metadata_fault sur = None;
  cs_fft : g_enable_fft g = true -> exists d axis win,
    sample_spacing (g_sampling_rate_hz g) = Ok d /\ rfftfreq (g_L g) d = Ok axis /\
    get_window (g_fft_window_function g) (g_L g) = Ok win /\ size win = g_L g;
  cs_charge : g_enable_charge_hist g = true -> g_charge_windows_json g <> "" -> exists ws,
    load_charge_windows (windows_file sur (g_charge_windows_json g)) = Ok ws /\
    forall ch, ch ∈ channels -> is_Some (ws !! ch) }.

(** The index of the source of the spectrum. *)
Lemma fft_index_run g channels fft_channel (w : run_world) :
  valid_options g channels fft_channel ->
  let fch := default (default 0 (head channels)) fft_channel in
  exists i, (if g_enable_fft g then match index_of fch channels with
      | Some i => ret i | None => raise (value_error (str_Z fch +:+ " is not in list")) end
      else ret 0) w = (Ok i, w) /\
    (g_enable_fft g = true -> 0 <= i /\ channels !! Z.to_nat i = Some fch).
Proof.
  intros Hv fch. destruct (g_enable_fft g) eqn:He; [|by exists 0].
  destruct (index_of_spec fch channels) as (i & -> & Hi); [|by exists i].
  pose proof (vo_fft_in _ _ _ Hv He) as Hin. pose proof (vo_fft _ _ _ Hv) as Hf. rewrite He in Hf.
  unfold fch. rewrite Hf in Hin |- *. exact Hin.
Qed.

(** The axis and the window of the spectrum. *)
Lemma spectrum_run `{Spectral, FreqAxis} g channels sur (w : run_world) :
  can_start g channels sur ->
  exists axis win, (if g_enable_fft g then
       d <- lift (sample_spacing (g_sampling_rate_hz g)) ;;
       axis <- lift (rfftfreq (g_L g) d) ;;
       win <- lift (get_window (g_fft_window_function g) (g_L g)) ;; ret (axis, Some win)
     else ret ([], None)) w = (Ok (axis, win), w) /\
     (g_enable_fft g = true -> exists l, win = Some l /\ size l = g_L g).
Proof.
  intros Hs. destruct (g_enable_fft g) eqn:He; [|by exists [], None].
  destruct (cs_fft _ _ _ Hs He) as (d & axis & win & Hd & Hax & Hwin & Hsz).
  exists axis, (Some win). unfold bind, lift. rewrite Hd, Hax, Hwin. split; [done|]. intros _. by exists win.
Qed.

(** The monitor of the charges. *)
Lemma monitor_run `{Numpy, Spectral, FreqAxis} g channels fft_channel sur (w : run_world) :
  valid_options g channels fft_channel -> can_start g channels sur ->
  exists m, (if g_enable_charge_hist g then
       windows <- lift (build_charge_windows g channels sur) ;;
       m <- lift (new_monitor channels (g_L g) windows (g_charge_history g) (g_charge_hist_bins g)
                    (g_charge_clip_negative g)) ;; ret (Some m)
     else ret None) w = (Ok m, w) /\ monitor_ok m.
Proof.
  intros Hv Hs. destruct (g_enable_charge_hist g) eqn:He; [|by exists None].
  destruct (charge_windows_cover g channels sur) as (ws & Hws & Hcov).
  - by apply (vo_charge _ _ _ Hv).
  - by apply (cs_charge _ _ _ Hs).
  - destruct (new_monitor_covers channels (g_L g) ws (g_charge_history g) (g_charge_hist_bins g)
      (g_charge_clip_negative g) Hcov) as (m & Hm & Hcm).
    exists (Some m). unfold bind, lift. rewrite Hws, Hm. split; [done|]. by intros m' [= <-].
Qed.

(** With valid options, a usable axis and window of the spectrum and a charge window per channel,
    [main] builds the oscilloscope: the window starts in the state its invariant describes, for the
    channels that were chosen, the spectrum of the worker is on exactly when it was asked for,
    and frames are saved exactly when a folder was given and no file failed to open. *)
Theorem main_builds `{Numpy, Spectral, FreqAxis} g channels fft_channel sur w :
  valid_options g channels fft_channel -> can_start g channels sur ->
  exists b w', main g sur w = (Ok (inr b), w') /\
    app_ok (b_ui b) [] (b_app b) /\ u_channels (b_ui b) = channels /\ o_channels (b_osc b) = channels /\
    fft_enabled (setup_fft (b_fft b) (g_L g)) = g_enable_fft g /\
    (b_saving b = true <-> g_save_dir g <> "" /\ forall text, opened sur <> Some (Some text)).
Proof.
  intros Hv Hs. destruct (options_checked g sur w) as [Hc _]. pose proof (proj2 (Hc _ _) Hv) as Hck.
  unfold main, bind at 1, lift at 1. rewrite Hck. unfold init. cbv zeta.
  destruct (fft_index_run g channels fft_channel w Hv) as (i & Hi & Hich).
  destruct (start_writer_run g channels sur (default (default 0 (head channels)) fft_channel)
    (g_enable_fft g && negb (g_fft_linear_x g)) w) as (saving & msg & w' & Hw & Hsav & _); [apply Hs|].
  destruct (spectrum_run g channels sur w' Hs) as (axis & win & Hfft & Hwin).
  destruct (monitor_run g channels fft_channel sur w' Hv Hs) as (m & Hm & Hmok).
  eexists _, w'. split.
  { unfold bind at 1. rewrite (bind_run _ _ _ _ _ Hi). rewrite (bind_run _ _ _ _ _ Hw).
    rewrite (bind_run _ _ _ _ _ Hfft). rewrite (bind_run _ _ _ _ _ Hm). reflexivity. }
  cbn [b_ui b_app b_osc b_fft b_saving u_channels osc_config_of o_channels].
  split; [|split; [done|split; [done|split; [|exact Hsav]]]].
  - apply new_app_ok; [lia|exact Hich|exact Hmok].
  - unfold setup_fft. cbn [fc_enabled fc_window]. destruct (g_enable_fft g); [|done]. cbn [negb].
    rewrite (proj2 (Z.leb_gt _ _)) by (pose proof (vo_samples _ _ _ Hv); lia).
    destruct (Hwin eq_refl) as (l & -> & Hl). by rewrite Hl, Z.eqb_refl.
Qed.

(** The charge windows are read only after the files were opened: with valid options and a file
    of charge windows that lacks a channel, the oscilloscope does not start, but by then the
    samples of every channel of an earlier run in the folder are gone, and its description is
    replaced. *)
Theorem missing_windows_lose_run `{Numpy, Spectral, FreqAxis} g channels fft_channel sur w ws :
  valid_options g channels fft_channel -> g_enable_fft g = false -> g_enable_charge_hist g = true ->
  g_charge_windows_json g <> "" ->
  load_charge_windows (windows_file sur (g_charge_windows_json g)) = Ok ws ->
  (exists ch, ch ∈ channels /\ ws !! ch = None) ->
  g_save_dir g <> "" -> g_append_data g = false -> opened sur = Some None -> metadata_fault sur = None ->
  exists text w', main g sur w = (Raise (Exn ValueError text), w') /\
    (forall ch, ch ∈ channels -> r_files w' !! ch = Some []) /\ is_Some (r_metadata w').
Proof.
  intros Hv Hf He Hj Hws (c & Hc & Hnone) Hd Ha Ho Hm.
  destruct (options_checked g sur w) as [Hck _]. pose proof (proj2 (Hck _ _) Hv) as Hok.
  unfold main, bind at 1, lift at 1. rewrite Hok. unfold init. rewrite Hf. cbv zeta.
  set (fch := default (default 0 (head channels)) fft_channel).
  destruct (start_writer_run g channels sur fch (false && negb (g_fft_linear_x g)) w Hm)
    as (saving & msg & w' & Hw & _ & Hfiles).
  destruct (Hfiles Hd Ho) as [Hr Hmeta].
  assert (Hbad : exists text, build_charge_windows g channels sur = Raise (value_error text)).
  { unfold build_charge_windows. rewrite decide_False by done. rewrite Hws. cbn [rbind].
    assert (Hin : c ∈ filter (fun ch => ws !! ch = None) channels) by (by apply list_elem_of_filter).
    destruct (filter _ channels) as [|x l]; [by apply not_elem_of_nil in Hin|]. by eexists. }
  destruct Hbad as [text Hbad]. exists text, w'. split.
  - unfold bind at 1, bind at 1, ret at 1. rewrite (bind_run _ _ _ _ _ Hw).
    unfold bind at 1, ret at 1. rewrite He. unfold bind, lift. by rewrite Hbad.
  - split; [|exact Hmeta]. intros ch Hch. rewrite Hr. cbn [writer_open disk].
    pose proof (open_disk (osc_config_of g channels) (r_files w) channels ch Hch) as Hopen.
    cbn [osc_config_of o_append o_channels] in *. rewrite Hopen. unfold base_of.
    cbn [osc_config_of o_append]. by rewrite Ha.
Qed.

(** Closing the window twice, by the close event and by the end of the application, does nothing
    the second time. *)
Lemma cleanup_once has_writer acts :
  let '(cleaned, acts') := cleanup has_writer false acts in
  cleanup has_writer cleaned acts' = (true, acts').
Proof. done. Qed.

(** ** Examples *)

#[local] Existing Instance ChargeWindows.plain_numpy.
#[local] Existing Instance plain_spectral.

Definition plain_axis : FreqAxis := {| rfftfreq n _ := Ok (f_of_Z <$> seqZ 0 (n / 2 + 1)) |}.
#[local] Existing Instance plain_axis.

Definition example_args (channels : string) (fft charge : bool) (json : string) : osc_args := {|
  g_ip := "127.0.0.1"; g_port := 9876; g_channel := 0; g_channels := channels; g_L := 4;
  g_software_trigger := true; g_enable_fft := fft; g_fft_avg_waves := 10;
  g_fft_window_function := "NONE"; g_fft_channel := None;
  g_fft_full_scale_counts := f_of_Z 16384; g_fft_keep_dc := false; g_fft_linear_x := false;
  g_period_ms := 20; g_max_waveforms := 0; g_ui_period_ms := 33; g_fft_every := 2;
  g_autoscale := false; g_timeout_ms := 1000; g_identity := "osc-client"; g_route := "mezz/0";
  g_sampling_rate_hz := f_of_Z 62500000; g_rms_window := 100; g_disable_rms := false;
  g_enable_charge_hist := charge; g_charge_windows_json := json; g_charge_start := 1;
  g_charge_stop := 3; g_charge_baseline_start := 0; g_charge_baseline_stop := 1;
  g_charge_hist_bins := 120; g_charge_history := 2000; g_charge_clip_negative := false;
  g_save_dir := "run1"; g_run_label := ""; g_run_notes := ""; g_append_data := false;
  g_save_queue_frames := 512; g_flush_every_frames := 128 |}.

(** Windows for channel 7 only. *)
Definition example_windows : pyval :=
  PyDict [("7", PyDict [("baseline_start", PyInt 0); ("baseline_stop", PyInt 1);
                        ("integrate_start", PyInt 1); ("integrate_stop", PyInt 3)])].

Definition example_surroundings : surroundings :=
  Surroundings (Some None) None "2026-01-01T00:00:00Z" (fun _ => Ok example_windows).

Definition example_run : run_world := RunWorld {[7 := [1; 2; 3]; 9 := [4]]} None None.

Lemma example_valid fft charge json ch :
  ch = (if fft : bool then Some 7 else None) ->
  valid_options (example_args "7,9" fft charge json) [7; 9] ch.
Proof.
  intros ->. split; [vm_compute; reflexivity|..]; try done; try (cbn; lia).
  - repeat constructor; lia.
  - destruct fft; cbn; [|done]. intros _. apply list_elem_of_here.
Qed.

Lemma main_builds_witness :
  exists b w', main (example_args "7,9" true true "") example_surroundings example_run = (Ok (inr b), w') /\
    app_ok (b_ui b) [] (b_app b) /\ u_channels (b_ui b) = [7; 9] /\ o_channels (b_osc b) = [7; 9] /\
    fft_enabled (setup_fft (b_fft b) 4) = true /\
    (b_saving b = true <-> "run1" <> "" /\
       forall text, opened example_surroundings <> Some (Some text)).
Proof.
  apply (main_builds (example_args "7,9" true true "") [7; 9] (Some 7) example_surroundings example_run).
  - by apply example_valid.
  - split; [done| |done]. intros _. do 3 eexists. split; [vm_compute; reflexivity|].
    split; [reflexivity|]. split; reflexivity.
Defined.

Lemma missing_windows_lose_run_witness :
  exists text w', main (example_args "7,9" false true "windows.json") example_surroundings example_run
      = (Raise (Exn ValueError text), w') /\
    (forall ch, ch ∈ [7; 9] -> r_files w' !! ch = Some []) /\ is_Some (r_metadata w').
Proof.
  eapply (missing_windows_lose_run (example_args "7,9" false true "windows.json") [7; 9] None
    example_surroundings example_run).
  - by apply example_valid.
  - reflexivity.
  - reflexivity.
  - discriminate.
  - vm_compute. reflexivity.
  - exists 9. split; [|vm_compute; reflexivity]. apply list_elem_of_further, list_elem_of_here.
  - discriminate.
  - reflexivity.
  - reflexivity.
  - reflexivity.
Defined.
