(* ===== verification/Pools.v ===== *)
(** Tasks run by pools of workers, as the fits of [client/dynamic_range_led/] run them
    ([reanalyze_led_charge_run.py], [fit_cpp_histograms_parallel.py]).

    A task reads one file, writes files of its own and returns a row.  A worker process runs one
    task at a time, so a pool is a sequence of whole tasks in the order in which they ran, with
    the order in which their results were received ([plan]).  The files the scripts write are
    the state; a document read back is the one that was written ([json.loads] inverts
    [json.dumps], floats included). *)
From S2P Require Import Prelude PyStr PyFloat PyVal ChannelSpec JsonText FeConfig SpyAcquire.
From S2P Require Import ScanRuntime ChargeWindows IntensityScan RunFiles.

Inductive executor : Type := NoExecutor | Serial | Process | Thread.

#[export] Instance executor_eq_dec : EqDecision executor.
Proof. solve_decision. Defined.

Definition executor_name (e : executor) : string :=
  match e with NoExecutor => "none" | Serial => "serial" | Process => "process" | Thread => "thread" end.

(** What a pool did with the tasks: which ran, in order; whose result was received, in order; and
    the exception, if one came from the pool itself. *)
Record plan : Type := Plan { ran : list nat; received : list nat; broken : option exn }.

(** The machine: whether a path can be created or written, figures, processors and pools. *)
Class Host : Type := {
  file_ok : string -> result unit;
  matplotlib : bool;
  cpu_count : option Z;
  pool : executor -> Z -> nat -> plan }.

Abbreviation files := (gmap string doc).

Definition put `{Host} (path : string) (d : doc) : M files unit :=
  lift (file_ok path) ;;; modify (<[path := d]>).

(** [json.loads(path.read_text())] *)
Definition read_json (path : string) : M files pyval :=
  w <- get ;;
  lift (match w !! path with
        | Some (DJson v) => Ok v
        | Some (DText s) => json_loads s
        | Some _ => Raise (value_error "Expecting value: line 1 column 1 (char 0)")
        | None => Raise (not_found path)
        end).

(** [sorted(...)] of the paths of a directory *)
Definition sorted_names (names : gset string) : list string := merge_sort str_le (elements names).

(** [path.name] *)
Definition path_name (path : string) : string := default path (after_last "/" path).

(** [_resolve_jobs], the same in both scripts *)
Definition _resolve_jobs (cpu_count : option Z) (requested_jobs n_tasks : Z) : Z :=
  if n_tasks <=? 1 then 1
  else if 0 <? requested_jobs then Z.max 1 (Z.min requested_jobs n_tasks)
  else
    let cpus := match cpu_count with Some (Zpos n) => Zpos n | Some (Zneg n) => Zneg n | _ => 1 end in
    Z.max 1 (Z.min n_tasks (if 1 <? cpus then cpus - 1 else 1)).

(** [rows.sort(key=lambda row: (int(row["channel"]), int(row["intensity"])))] *)
Definition row_key (r : row) : result (Z * Z) :=
  c <-! item (PyDict r) "channel" ;; ch <-! py_int c ;;
  i <-! item (PyDict r) "intensity" ;; n <-! py_int i ;;
  Ok (ch, n).

Definition key_le (a b : (Z * Z) * row) : Prop :=
  let '(ch, i, _) := a in
  let '(ch', i', _) := b in
  ch < ch' \/ (ch = ch' /\ i <= i').

#[export] Instance key_le_dec : RelDecision key_le.
Proof. intros [[ch i] r] [[ch' i'] r']. unfold key_le. apply _. Defined.

Definition sort_rows (rows : list row) : result (list row) :=
  ks <-! rmap row_key rows ;; Ok (snd <$> merge_sort key_le (zip ks rows)).

(** [csv.DictWriter(f, fieldnames)] and [writerows]: a row with a field that has no column raises,
    after the rows before it. *)
Fixpoint fitting (fieldnames : list string) (rows : list row) : list row * bool :=
  match rows with
  | [] => ([], true)
  | r :: rows' =>
      if forallb (fun k => bool_decide (k ∈ fieldnames)) (fst <$> r)
      then let '(ok, all) := fitting fieldnames rows' in (r :: ok, all)
      else ([], false)
  end.

Definition write_table `{Host} (path : string) (fieldnames : list string) (rows : list row)
    : M files unit :=
  let '(ok, all) := fitting fieldnames rows in
  put path (DCsv fieldnames ok) ;;;
  if all then ret tt else raise (value_error "dict contains fields not in fieldnames").

(** The columns of the first row. *)
Definition write_rows `{Host} (path : string) (rows : list row) : M files unit :=
  write_table path (fst <$> default [] (head rows)) rows.

Section pools.
Context `{HO : Host} {T : Type} (run : T -> M files row).

(** The tasks a pool ran, with their outcomes. *)
Definition run_one (tasks : list T) (done : gmap nat (result row)) (i : nat)
    : M files (gmap nat (result row)) := fun w =>
  match tasks !! i with
  | Some t => let '(r, w') := run t w in (Ok (<[i := r]> done), w')
  | None => (Ok done, w)
  end.

(** [future.result()] in the order of [as_completed] *)
Definition results (done : gmap nat (result row)) (is_ : list nat) : result (list row) :=
  rmap (fun i => match done !! i with
                 | Some r => r
                 | None => Raise (Exn RuntimeError "a task that never ran")
                 end) is_.

Definition run_pool (e : executor) (jobs : Z) (tasks : list T) : M files (list row) :=
  let p := pool e jobs (length tasks) in
  done <- fold_m (ran p) (run_one tasks) ∅ ;;
  rows <- lift (results done (received p)) ;;
  match broken p with
  | Some exc => raise exc
  | None => ret rows
  end.

(** How the scripts run their tasks: one after the other when [serial]; otherwise in processes
    and, after an exception that is in [fallback], once more in threads. *)
Definition run_either (serial : bool) (fallback : exn -> bool) (jobs : Z) (tasks : list T)
    : M files (executor * list row) :=
  if serial then
    rows <- map_m run tasks ;; ret (Serial, rows)
  else
    try_except (rows <- run_pool Process jobs tasks ;; ret (Process, rows))
      (fun exc => if fallback exc
                  then rows <- run_pool Thread jobs tasks ;; ret (Thread, rows)
                  else raise exc).

End pools.

(** ** Names *)

Lemma elem_of_sorted_names names n : n ∈ sorted_names names <-> n ∈ names.
Proof. unfold sorted_names. by rewrite (merge_sort_Permutation str_le), elem_of_elements. Qed.

Lemma NoDup_sorted_names names : NoDup (sorted_names names).
Proof. unfold sorted_names. rewrite (merge_sort_Permutation str_le). apply NoDup_elements. Qed.

Lemma sorted_names_sorted names : StronglySorted str_le (sorted_names names).
Proof. apply (StronglySorted_merge_sort str_le). Qed.

(** ** Jobs *)

Lemma resolve_jobs_bounds cpus jobs n : 1 <= n -> 1 <= _resolve_jobs cpus jobs n <= n.
Proof.
  intros Hn. unfold _resolve_jobs. destruct (Z.leb_spec n 1); [lia|].
  destruct (0 <? jobs); [lia|]. set (c := match cpus with Some _ => _ | None => _ end). lia.
Qed.

(** ** Lemmas: what a task touches *)

(** [m] depends on the files only through [a], and writes only in [S]. *)
Definition acts {A : Type} (a : string) (S : gset string) (m : M files A) : Prop :=
  forall o, exists r u, dom u ⊆ S /\ forall w, w !! a = o -> m w = (r, u ∪ w).

Section acts.
Context (a : string) (S : gset string) (Ha : a ∉ S).

Lemma acts_lift {A : Type} (r : result A) : acts a S (lift r).
Proof using Type.
  intros o. exists r, ∅. split; [rewrite dom_empty_L; apply empty_subseteq|]. intros w _. unfold lift. by rewrite (left_id_L ∅ (∪)).
Qed.

Lemma acts_bind {A B : Type} (m : M files A) (k : A -> M files B) :
  acts a S m -> (forall x, acts a S (k x)) -> acts a S (bind m k).
Proof using Ha.
  intros Hm Hk o. destruct (Hm o) as (r & u & Hu & Hw). destruct r as [x|e].
  - destruct (Hk x o) as (r2 & u2 & Hu2 & Hw2). exists r2, (u2 ∪ u). split; [set_solver|].
    intros w Ho. unfold bind. rewrite (Hw w Ho), Hw2, (assoc_L (∪)); [done|].
    rewrite lookup_union_r; [done|]. apply not_elem_of_dom. set_solver.
  - exists (Raise e), u. split; [done|]. intros w Ho. unfold bind. by rewrite (Hw w Ho).
Qed.

Lemma acts_try {A : Type} (m : M files A) (h : exn -> M files A) :
  acts a S m -> (forall e, acts a S (h e)) -> acts a S (try_except m h).
Proof using Ha.
  intros Hm Hh o. destruct (Hm o) as (r & u & Hu & Hw). destruct r as [x|e].
  - exists (Ok x), u. split; [done|]. intros w Ho. unfold try_except. by rewrite (Hw w Ho).
  - destruct (Hh e o) as (r2 & u2 & Hu2 & Hw2). exists r2, (u2 ∪ u). split; [set_solver|].
    intros w Ho. unfold try_except. rewrite (Hw w Ho), Hw2, (assoc_L (∪)); [done|].
    rewrite lookup_union_r; [done|]. apply not_elem_of_dom. set_solver.
Qed.

Lemma acts_when b (m : M files unit) : acts a S m -> acts a S (when b m).
Proof using Type. destruct b; [done|]. intros _. apply acts_lift. Qed.

Lemma acts_put `{Host} path d : path ∈ S -> acts a S (put path d).
Proof using Type.
  intros Hp o. unfold put, bind, lift, modify. destruct (file_ok path) as [x|e].
  - exists (Ok tt), {[path := d]}. split; [rewrite dom_singleton_L; by apply singleton_subseteq_l|]. intros w _. by rewrite insert_union_singleton_l.
  - exists (Raise e), ∅. split; [rewrite dom_empty_L; apply empty_subseteq|]. intros w _. by rewrite (left_id_L ∅ (∪)).
Qed.

Lemma acts_read : acts a S (read_json a).
Proof using Type.
  intros o. eexists _, ∅. split; [rewrite dom_empty_L; apply empty_subseteq|]. intros w Ho. unfold read_json, bind, get, lift.
  rewrite Ho, (left_id_L ∅ (∪)). done.
Qed.

End acts.

(** ** Lemmas: pools *)

Section scheduling.
Context `{HO : Host} {T : Type} (run : T -> M files row).
Context (reads : T -> string) (outs : T -> gset string).
Context (acts_run : forall t, reads t ∉ outs t -> acts (reads t) (outs t) (run t)).
Context (tasks : list T).

(** No task writes what another one reads or writes. *)
Definition separate : Prop := forall i j t t',
  tasks !! i = Some t -> tasks !! j = Some t' ->
  (reads t' ∉ outs t) /\ (i <> j -> outs t ## outs t').

(** What a task gives on the files before any of them. *)
Definition outcome (w0 : files) (t : T) : result row := fst (run t w0).

(** The files after the tasks [is_], from [w0]. *)
Definition stored (w0 : files) (is_ : list nat) (w : files) : Prop :=
  (forall i t p, i ∈ is_ -> tasks !! i = Some t -> p ∈ outs t -> w !! p = snd (run t w0) !! p) /\
  (forall p, (forall i t, i ∈ is_ -> tasks !! i = Some t -> p ∉ outs t) -> w !! p = w0 !! p).

Lemma stored_start w0 : stored w0 [] w0.
Proof using Type. split; [|done]. intros i t p Hi. by apply not_elem_of_nil in Hi. Qed.

Context (Hsep : separate).

Lemma stored_step w0 is_ w i t :
  stored w0 is_ w -> tasks !! i = Some t ->
  exists w', run t w = (outcome w0 t, w') /\ stored w0 (is_ ++ [i]) w'.
Proof using acts_run Hsep.
  intros [HA HB] Hi. destruct (Hsep i i t t Hi Hi) as [Hat _].
  destruct (acts_run t Hat (w0 !! reads t)) as (r & u & Hu & Hw).
  assert (Hsame : w !! reads t = w0 !! reads t).
  { apply HB. intros j t' _ Hj. by destruct (Hsep j i t' t Hj Hi). }
  unfold outcome. rewrite (Hw w0 eq_refl), (Hw w Hsame). cbn [fst]. exists (u ∪ w). split; [done|]. split.
  - intros j t' p Hj Ht' Hp. destruct (decide (j = i)) as [->|Hne].
    + assert (t' = t) as -> by congruence. rewrite (Hw w0 eq_refl). cbn [snd].
      rewrite !lookup_union. destruct (u !! p) as [d|] eqn:Hd; [by destruct (w !! p), (w0 !! p)|].
      rewrite !(left_id_L None _). destruct (decide (i ∈ is_)) as [Hin|Hout].
      * rewrite (HA i t p Hin Hi Hp), (Hw w0 eq_refl). cbn [snd]. rewrite lookup_union, Hd.
        by rewrite (left_id_L None _).
      * apply HB. intros k t' Hk Ht Hpk. assert (k <> i) as Hki by (by intros ->).
        destruct (Hsep k i t' t Ht Hi) as [_ Hd2]. specialize (Hd2 Hki). set_solver.
    + apply elem_of_app in Hj as [Hj|Hj%list_elem_of_singleton]; [|done].
      rewrite lookup_union_r; [by apply (HA j)|]. apply not_elem_of_dom.
      destruct (Hsep i j t t' Hi Ht') as [_ Hd]. specialize (Hd (not_eq_sym Hne)). set_solver.
  - intros p Hp. rewrite lookup_union_r.
    + apply HB. intros j t' Hj. apply Hp, elem_of_app. by left.
    + apply not_elem_of_dom. assert (p ∉ outs t); [|set_solver].
      apply (Hp i t); [|done]. apply elem_of_app. right. apply list_elem_of_here.
Qed.

(** One after the other: the outcomes, up to the first exception. *)
Lemma serial_outcomes w0 done rest w :
  tasks = done ++ rest -> stored w0 (seq 0 (length done)) w ->
  exists w', map_m run rest w = (rmap (outcome w0) rest, w') /\
    (is_ok (rmap (outcome w0) rest) = true -> stored w0 (seq 0 (length tasks)) w').
Proof using acts_run Hsep.
  revert done w. induction rest as [|t rest IH]; intros done w Ht Hst; cbn [map_m rmap].
  - exists w. split; [done|]. intros _. by rewrite Ht, app_nil_r.
  - assert (Hi : tasks !! length done = Some t) by (by rewrite Ht, list_lookup_middle).
    destruct (stored_step w0 _ w _ t Hst Hi) as (w1 & H1 & Hst1).
    destruct (IH (done ++ [t]) w1) as (w2 & H2 & Hst2).
    + by rewrite Ht, <- app_assoc.
    + rewrite length_app. cbn [length]. by rewrite Nat.add_1_r, seq_S.
    + unfold bind at 1. rewrite H1. destruct (outcome w0 t) as [r|e]; [|by exists w1]. cbn [rbind].
      exists w2. unfold bind at 1. rewrite H2. by destruct (rmap (outcome w0) rest).
Qed.

(** Running the tasks of a list of indices. *)
Lemma ran_stored w0 ran_ is_ done w :
  stored w0 is_ w ->
  (forall i r, done !! i = Some r -> exists t, tasks !! i = Some t /\ r = outcome w0 t) ->
  (forall i, i ∈ ran_ -> (i < length tasks)%nat) ->
  exists done' w', fold_m ran_ (run_one run tasks) done w = (Ok done', w') /\
    stored w0 (is_ ++ ran_) w' /\
    (forall i r, done' !! i = Some r -> exists t, tasks !! i = Some t /\ r = outcome w0 t) /\
    (forall i, i ∈ ran_ \/ is_Some (done !! i) -> is_Some (done' !! i)).
Proof using acts_run Hsep.
  revert is_ done w. induction ran_ as [|i ran_ IH]; intros is_ done w Hst Hdone Hlt; cbn [fold_m].
  - exists done, w. rewrite app_nil_r. split_and!; try done.
    intros i [Hi|Hi]; [by apply not_elem_of_nil in Hi|done].
  - destruct (lookup_lt_is_Some_2 tasks i) as [t Ht]; [apply Hlt, list_elem_of_here|].
    destruct (stored_step w0 _ w i t Hst Ht) as (w1 & H1 & Hst1).
    unfold bind, run_one at 1. rewrite Ht, H1.
    destruct (IH (is_ ++ [i]) (<[i := outcome w0 t]> done) w1) as (d' & w' & H' & Hst' & Hd' & Hin);
      [done| |intros j Hj; by apply Hlt, list_elem_of_further|].
    { intros j r. rewrite lookup_insert_Some. intros [[<- <-]|[_ Hr]]; [by exists t|by apply Hdone]. }
    exists d', w'. rewrite <- app_assoc in Hst'. split_and!; try done.
    intros j Hj. apply Hin. rewrite lookup_insert_is_Some, elem_of_cons in *.
    destruct (decide (i = j)); naive_solver.
Qed.

Lemma results_outcomes w0 done is_ :
  (forall i r, done !! i = Some r -> exists t, tasks !! i = Some t /\ r = outcome w0 t) ->
  (forall i, i ∈ is_ -> is_Some (done !! i)) ->
  exists ts, results done is_ = rmap (outcome w0) ts /\ Forall2 (fun i t => tasks !! i = Some t) is_ ts.
Proof using Type.
  intros Hdone. induction is_ as [|i is_ IH]; intros Hin; [by exists []|].
  destruct IH as (ts & Hts & Hf); [intros j Hj; by apply Hin, list_elem_of_further|].
  destruct (Hin i) as [r Hr]; [apply list_elem_of_here|].
  destruct (Hdone i r Hr) as (t & Ht & ->). exists (t :: ts). split; [|by constructor].
  unfold results in *. cbn [rmap]. by rewrite Hr, Hts.
Qed.

(** A pool that did its work, and one that gave up. *)
Definition completes (p : plan) : Prop :=
  broken p = None /\ ran p ≡ₚ seq 0 (length tasks) /\ received p ≡ₚ seq 0 (length tasks).

Definition gives_up (fallback : exn -> bool) (p : plan) : Prop :=
  (exists e, broken p = Some e /\ fallback e = true) /\
  (forall i, i ∈ ran p -> (i < length tasks)%nat) /\ (forall i, i ∈ received p -> i ∈ ran p).

(** The pools behave, except that the machine may refuse to start processes. *)
Definition pools_work (fallback : exn -> bool) : Prop := forall jobs,
  completes (pool Thread jobs (length tasks)) /\
  (completes (pool Process jobs (length tasks)) \/
   gives_up fallback (pool Process jobs (length tasks))).

Lemma pick_seq (ts : list T) is_ :
  is_ ≡ₚ seq 0 (length tasks) -> Forall2 (fun i t => tasks !! i = Some t) is_ ts -> ts ≡ₚ tasks.
Proof using Type.
  intros Hp Hf. assert (Hts : ts = omap (fun i => tasks !! i) is_).
  { clear Hp. induction Hf as [|i t is_ ts Hi Hf IH]; [done|]. cbn. by rewrite Hi, IH. }
  rewrite Hts, Hp. clear.
  assert (Hgen : forall pre, omap (fun i => (pre ++ tasks) !! i) (seq (length pre) (length tasks)) = tasks);
    [|pose proof (Hgen []) as Hg; cbn [app length] in Hg; by rewrite Hg].
  induction tasks as [|t l IH]; intros pre; [done|]. cbn [length seq].
  cbn [omap list_omap]. rewrite list_lookup_middle by done. f_equal.
  specialize (IH (pre ++ [t])). rewrite length_app, Nat.add_1_r in IH.
  rewrite <- app_assoc in IH. exact IH.
Qed.

Lemma pool_completes w0 is_ w e jobs :
  stored w0 is_ w -> completes (pool e jobs (length tasks)) ->
  exists ts w', run_pool run e jobs tasks w = (rmap (outcome w0) ts, w') /\ ts ≡ₚ tasks /\
    stored w0 (is_ ++ ran (pool e jobs (length tasks))) w'.
Proof using acts_run Hsep.
  intros Hst (Hb & Hran & Hrec). unfold run_pool. set (p := pool e jobs (length tasks)) in *.
  destruct (ran_stored w0 (ran p) is_ ∅ w Hst) as (d & w' & Hd & Hst' & Hrows & Hin).
  { intros i r Hr. by rewrite lookup_empty in Hr. }
  { intros i. rewrite Hran, elem_of_seq. lia. }
  destruct (results_outcomes w0 d (received p) Hrows) as (ts & Hts & Hf).
  { intros i. rewrite Hrec, <- Hran. intros Hi. apply Hin. by left. }
  exists ts, w'. unfold bind, lift. rewrite Hd, Hts, Hb. split_and!; [by destruct (rmap _ ts)| |done].
  by apply (pick_seq ts _ Hrec Hf).
Qed.

Lemma pool_gives_up fallback w0 is_ w e jobs :
  stored w0 is_ w -> gives_up fallback (pool e jobs (length tasks)) ->
  exists exc w', run_pool run e jobs tasks w = (Raise exc, w') /\
    (Forall (fun t => is_ok (outcome w0 t) = true) tasks -> fallback exc = true) /\
    stored w0 (is_ ++ ran (pool e jobs (length tasks))) w'.
Proof using acts_run Hsep.
  intros Hst ([exc [Hb He]] & Hran & Hrec). unfold run_pool. set (p := pool e jobs (length tasks)) in *.
  destruct (ran_stored w0 (ran p) is_ ∅ w Hst) as (d & w' & Hd & Hst' & Hrows & Hin); [|done|].
  { intros i r Hr. by rewrite lookup_empty in Hr. }
  destruct (results_outcomes w0 d (received p) Hrows) as (ts & Hts & Hf).
  { intros i Hi. apply Hin. left. by apply Hrec. }
  unfold bind, lift. rewrite Hd, Hts, Hb. destruct (rmap (outcome w0) ts) as [rows|e'] eqn:Hrm.
  - exists exc, w'. split_and!; done.
  - exists e', w'. split_and!; [done| |done]. intros Hall. exfalso. clear -Hall Hrm Hf.
    revert e' Hrm. induction Hf as [|i t is_ ts Hi Hf IH]; intros e' Hrm; [done|]. cbn in Hrm.
    rewrite Forall_forall in Hall. pose proof (Hall t (list_elem_of_lookup_2 _ _ _ Hi)) as Ht.
    destruct (outcome w0 t); [|done]. cbn in Hrm. destruct (rmap _ ts) eqn:Hr; [done|]. by eapply IH.
Qed.

(** Every task has written the files it writes when it is run alone, and nothing else has. *)
Definition each_wrote (w w' : files) : Prop :=
  (forall t p, t ∈ tasks -> p ∈ outs t -> w' !! p = snd (run t w) !! p) /\
  (forall p, (forall t, t ∈ tasks -> p ∉ outs t) -> w' !! p = w !! p).

Lemma stored_all w is_ w' :
  (forall i, (i < length tasks)%nat -> i ∈ is_) -> stored w is_ w' -> each_wrote w w'.
Proof using Type.
  intros Hall [HA HB]. split.
  - intros t p [i Hi]%list_elem_of_lookup Hp. apply (HA i); [|done|done].
    apply Hall. by eapply lookup_lt_Some.
  - intros p Hp. apply HB. intros i t _ Hi. eapply Hp, list_elem_of_lookup_2, Hi.
Qed.

Lemma in_ran p i is_ : ran p ≡ₚ seq 0 (length tasks) -> (i < length tasks)%nat -> i ∈ is_ ++ ran p.
Proof using Type. intros Hp Hi. apply elem_of_app. right. rewrite Hp, elem_of_seq. lia. Qed.

(** The row of a task that works. *)
Definition task_row (w0 : files) (t : T) : row := match outcome w0 t with Ok r => r | Raise _ => [] end.

Lemma rmap_rows w0 ts :
  Forall (fun t => is_ok (outcome w0 t) = true) ts -> rmap (outcome w0) ts = Ok (task_row w0 <$> ts).
Proof using Type.
  induction 1 as [|t ts Ht _ IH]; [done|]. cbn [rmap]. rewrite IH. unfold task_row at 2. cbn.
  by destruct (outcome w0 t).
Qed.

(** Whatever the schedule: the rows of the tasks in some order, and their files. *)
Lemma either_rows serial fallback jobs w :
  pools_work fallback -> Forall (fun t => is_ok (outcome w t) = true) tasks ->
  exists e ts w', run_either run serial fallback jobs tasks w = (Ok (e, task_row w <$> ts), w') /\
    ts ≡ₚ tasks /\ each_wrote w w' /\ e <> NoExecutor.
Proof using acts_run Hsep.
  intros Hpools Hok. destruct (Hpools jobs) as [Hthread Hprocess].
  pose proof (stored_start w) as H0. unfold run_either. destruct serial.
  - destruct (serial_outcomes w [] tasks w eq_refl H0) as (w' & Hrun & Hst).
    rewrite (rmap_rows w tasks Hok) in *. exists Serial, tasks, w'. unfold bind. rewrite Hrun.
    split_and!; [done..| |done]. eapply stored_all; [|by apply Hst].
    intros i Hi. apply elem_of_seq. lia.
  - destruct Hprocess as [Hp|Hp].
    + destruct (pool_completes w [] w Process jobs H0 Hp) as (ts & w' & Hrun & Hperm & Hst).
      rewrite (rmap_rows w ts) in Hrun by (by rewrite Hperm).
      exists Process, ts, w'. unfold try_except, bind. rewrite Hrun. split_and!; [done..| |done].
      destruct Hp as (_ & Hran & _). eapply stored_all; [|exact Hst]. intros i Hi. by apply (in_ran _ i []).
    + destruct (pool_gives_up fallback w [] w Process jobs H0 Hp) as (exc & w1 & Hrun & Hfall & Hst).
      destruct (pool_completes w _ w1 Thread jobs Hst Hthread) as (ts & w' & Hrun' & Hp' & Hst').
      rewrite (rmap_rows w ts) in Hrun' by (by rewrite Hp').
      exists Thread, ts, w'. unfold try_except, bind at 1. rewrite Hrun, Hfall by done. unfold bind.
      rewrite Hrun'. split_and!; [done..| |done].
      destruct Hthread as (_ & Hran & _). eapply stored_all; [|exact Hst']. intros i Hi. by apply in_ran.
Qed.

Lemma rmap_raises w0 ts t e : t ∈ ts -> outcome w0 t = Raise e -> exists e', rmap (outcome w0) ts = Raise e'.
Proof using Type.
  induction ts as [|t' ts IH]; intros Hin Ht; [by apply not_elem_of_nil in Hin|]. cbn [rmap].
  apply elem_of_cons in Hin as [<-|Hin]; [rewrite Ht; by eexists|].
  destruct (IH Hin Ht) as [e' ->]. destruct (outcome w0 t'); by eexists.
Qed.

(** A task that raises makes every schedule raise. *)
Lemma either_raises serial fallback jobs w t e :
  pools_work fallback -> t ∈ tasks -> outcome w t = Raise e ->
  exists e', fst (run_either run serial fallback jobs tasks w) = Raise e'.
Proof using acts_run Hsep.
  intros Hpools Ht He. destruct (Hpools jobs) as [Hthread Hprocess].
  pose proof (stored_start w) as H0.
  assert (Hboth : exists exc w1 is_, run_pool run Process jobs tasks w = (Raise exc, w1) /\ stored w is_ w1).
  { destruct Hprocess as [Hp|Hp].
    - destruct (pool_completes w [] w Process jobs H0 Hp) as (ts & w1 & Hrun & Hperm & Hst).
      destruct (rmap_raises w ts t e) as [e' He']; [by rewrite Hperm|done|].
      rewrite He' in Hrun. eauto.
    - destruct (pool_gives_up fallback w [] w Process jobs H0 Hp) as (exc & w1 & Hrun & _ & Hst). eauto. }
  unfold run_either. destruct serial.
  - destruct (serial_outcomes w [] tasks w eq_refl H0) as (w' & Hrun & _).
    destruct (rmap_raises w tasks t e Ht He) as [e' He']. exists e'. unfold bind. by rewrite Hrun, He'.
  - destruct Hboth as (exc & w1 & is_ & Hrun & Hst). unfold try_except, bind at 1. rewrite Hrun.
    destruct (fallback exc); [|by exists exc].
    destruct (pool_completes w is_ w1 Thread jobs Hst Hthread) as (ts & w2 & Hrun2 & Hperm & _).
    destruct (rmap_raises w ts t e) as [e' He']; [by rewrite Hperm|done|].
    exists e'. unfold bind. by rewrite Hrun2, He'.
Qed.

(** ** The table of the rows *)

Context (key : T -> Z * Z).

Definition keyed (w : files) (ts : list T) : list ((Z * Z) * row) := (fun t => (key t, task_row w t)) <$> ts.

(** The table that any order of the tasks gives. *)
Definition fit_table (w : files) (ts : list T) : list row := snd <$> merge_sort key_le (keyed w ts).

End scheduling.

Lemma key_le_total a b : key_le a b \/ key_le b a.
Proof. destruct a as [[ch i] r], b as [[ch' i'] r']. cbn. lia. Qed.

#[export] Instance key_le_Total : Total key_le.
Proof. exact key_le_total. Qed.

#[export] Instance key_le_Transitive : Transitive key_le.
Proof. intros [[ch1 i1] r1] [[ch2 i2] r2] [[ch3 i3] r3]. cbn. lia. Qed.

Section table.
Context {T : Type} (run : T -> M files row) (key : T -> Z * Z).
Context (run_key : forall t w r w', run t w = (Ok r, w') -> row_key r = Ok (key t)).

Lemma keyed_antisym w tasks a b :
  NoDup (key <$> tasks) -> a ∈ keyed run key w tasks -> b ∈ keyed run key w tasks ->
  key_le a b -> key_le b a -> a = b.
Proof using Type.
  intros Hnd (t & -> & Ht)%list_elem_of_fmap (t' & -> & Ht')%list_elem_of_fmap H1 H2.
  assert (Hk : key t = key t').
  { cbn in H1, H2. destruct (key t), (key t'). f_equal; lia. }
  apply list_elem_of_lookup in Ht as [i Hi], Ht' as [j Hj].
  assert (i = j) as -> by (eapply (NoDup_lookup _ i j (key t) Hnd);
    rewrite list_lookup_fmap, ?Hi, ?Hj; cbn; by rewrite ?Hk).
  by simplify_eq.
Qed.

Lemma sorted_keyed w ts tasks :
  ts ≡ₚ tasks -> NoDup (key <$> tasks) ->
  merge_sort key_le (keyed run key w ts) = merge_sort key_le (keyed run key w tasks).
Proof using Type.
  intros Hp Hnd. assert (Hk : keyed run key w ts ≡ₚ keyed run key w tasks) by (unfold keyed; by rewrite Hp).
  apply (StronglySorted_unique_strong key_le).
  - intros a b. rewrite !(merge_sort_Permutation key_le), Hk. by apply keyed_antisym.
  - apply (StronglySorted_merge_sort key_le).
  - apply (StronglySorted_merge_sort key_le).
  - by rewrite !(merge_sort_Permutation key_le).
Qed.

Lemma sort_rows_table w ts tasks :
  ts ≡ₚ tasks -> NoDup (key <$> tasks) -> Forall (fun t => is_ok (outcome run w t) = true) tasks ->
  sort_rows (task_row run w <$> ts) = Ok (fit_table run key w tasks).
Proof using run_key.
  intros Hp Hnd Hok. unfold sort_rows.
  assert (Hks : rmap row_key (task_row run w <$> ts) = Ok (key <$> ts)).
  { rewrite <- Hp in Hok. clear Hp Hnd. induction Hok as [|t ts Ht _ IH]; [done|].
    cbn [fmap list_fmap rmap]. unfold task_row at 1, outcome. unfold outcome in Ht.
    destruct (run t w) as [[r|e] w'] eqn:Hr; [|done]. cbn [fst]. rewrite (run_key _ _ _ _ Hr).
    cbn [rbind]. fold (task_row run w <$> ts). by rewrite IH. }
  rewrite Hks. cbn [rbind]. f_equal. unfold fit_table. f_equal.
  rewrite <- (sorted_keyed w ts tasks) by done. f_equal.
  unfold keyed. clear. induction ts as [|t ts IH]; [done|]. cbn. by f_equal.
Qed.

Lemma table_first w tasks t1 :
  NoDup (key <$> tasks) -> t1 ∈ tasks ->
  (forall t, t ∈ tasks -> key_le (key t1, []) (key t, [])) ->
  head (fit_table run key w tasks) = Some (task_row run w t1).
Proof using Type.
  intros Hnd Ht1 Hmin. unfold fit_table.
  pose proof (StronglySorted_merge_sort key_le (keyed run key w tasks)) as Hs.
  assert (Hin1 : (key t1, task_row run w t1) ∈ keyed run key w tasks).
  { apply list_elem_of_fmap. by exists t1. }
  assert (Hperm : forall a, a ∈ merge_sort key_le (keyed run key w tasks) <-> a ∈ keyed run key w tasks)
    by (intros a; by rewrite (merge_sort_Permutation key_le)).
  apply Hperm in Hin1 as Hin. destruct (merge_sort key_le _) as [|a l] eqn:Hl;
    [by apply not_elem_of_nil in Hin|].
  cbn. f_equal. assert (Ha : a ∈ keyed run key w tasks) by (apply Hperm, list_elem_of_here).
  pose proof Ha as (t & Hat & Ht)%list_elem_of_fmap.
  enough (a = (key t1, task_row run w t1)) as -> by done.
  apply (keyed_antisym w tasks); [done..| |].
  - apply StronglySorted_inv in Hs as [_ Hs]. rewrite Forall_forall in Hs.
    apply elem_of_cons in Hin as [<-|Hin]; [|by apply Hs].
    by destruct (key_le_total (key t1, task_row run w t1) (key t1, task_row run w t1)).
  - specialize (Hmin t Ht). subst a. cbn. cbn in Hmin. by destruct (key t1), (key t).
Qed.

Lemma in_table w tasks t : t ∈ tasks -> task_row run w t ∈ fit_table run key w tasks.
Proof using Type.
  intros Ht. unfold fit_table. apply list_elem_of_fmap. exists (key t, task_row run w t). split; [done|].
  rewrite (merge_sort_Permutation key_le). apply list_elem_of_fmap. by exists t.
Qed.

End table.

Lemma fitting_stops fieldnames rows r k :
  r ∈ rows -> k ∈ fst <$> r -> k ∉ fieldnames -> snd (fitting fieldnames rows) = false.
Proof.
  intros Hr Hk Hout. induction rows as [|r0 rows IH]; [by apply not_elem_of_nil in Hr|]. cbn [fitting].
  destruct (forallb _ (fst <$> r0)) eqn:Hall; [|done].
  apply elem_of_cons in Hr as [->|Hr].
  - exfalso. rewrite forallb_forall in Hall. specialize (Hall k).
    rewrite bool_decide_eq_true in Hall. apply Hout, Hall, list_elem_of_In, Hk.
  - specialize (IH Hr). by destruct (fitting fieldnames rows).
Qed.

(** ** Lemmas: files that a computation spares *)

Definition spares {A : Type} (p : string) (m : M files A) : Prop := forall w, snd (m w) !! p = w !! p.

Section spares.
Context (p : string).

Lemma spares_run {A : Type} (m : M files A) w r w' : spares p m -> m w = (r, w') -> w' !! p = w !! p.
Proof using Type. intros Hm Hr. specialize (Hm w). by rewrite Hr in Hm. Qed.

Lemma spares_lift {A : Type} (r : result A) : spares p (lift r).
Proof using Type. done. Qed.

Lemma spares_bind {A B : Type} (m : M files A) (k : A -> M files B) :
  spares p m -> (forall x, spares p (k x)) -> spares p (bind m k).
Proof using Type.
  intros Hm Hk w. specialize (Hm w). unfold bind. destruct (m w) as [[a|e] w1]; [|done].
  rewrite <- Hm. apply Hk.
Qed.

Lemma spares_put `{Host} path d : path <> p -> spares p (put path d).
Proof using Type.
  intros Hne w. unfold put, bind, lift, modify. destruct (file_ok path); [|done]. cbn.
  by rewrite lookup_insert_ne.
Qed.

Lemma spares_when b (m : M files unit) : spares p m -> spares p (when b m).
Proof using Type. by destruct b. Qed.

Lemma spares_try {A : Type} (m : M files A) h :
  spares p m -> (forall e, spares p (h e)) -> spares p (try_except m h).
Proof using Type.
  intros Hm Hh w. specialize (Hm w). unfold try_except. destruct (m w) as [[a|e] w1]; [done|].
  rewrite <- Hm. apply Hh.
Qed.

Lemma spares_fold {A S : Type} (l : list A) (f : S -> A -> M files S) s :
  (forall s x, x ∈ l -> spares p (f s x)) -> spares p (fold_m l f s).
Proof using Type.
  revert s. induction l as [|x l IH]; intros s Hf; [done|]. apply spares_bind.
  - apply Hf, list_elem_of_here.
  - intros s'. apply IH. intros s2 y Hy. by apply Hf, list_elem_of_further.
Qed.

Lemma spares_map {A B : Type} (l : list A) (f : A -> M files B) :
  (forall x, x ∈ l -> spares p (f x)) -> spares p (map_m f l).
Proof using Type.
  induction l as [|x l IH]; intros Hf; [done|]. apply spares_bind; [apply Hf, list_elem_of_here|].
  intros b. apply spares_bind; [|done]. apply IH. intros y Hy. by apply Hf, list_elem_of_further.
Qed.

End spares.

Section pools_spare.
Context `{HO : Host} (p : string).

(** What acts on some files spares the others. *)
Lemma acts_spares {A : Type} a S (m : M files A) : acts a S m -> p ∉ S -> spares p m.
Proof using Type.
  intros Hm Hp w. destruct (Hm (w !! a)) as (r & u & Hu & Hw). rewrite (Hw w eq_refl). cbn [snd].
  rewrite lookup_union_r; [done|]. apply not_elem_of_dom. set_solver.
Qed.

Lemma spares_table path fields rows : path <> p -> spares p (write_table path fields rows).
Proof using Type.
  intros Hne. unfold write_table. destruct (fitting _ _) as [ok all].
  apply spares_bind; [by apply spares_put|]. intros _. by destruct all.
Qed.

Lemma spares_rows path rows : path <> p -> spares p (write_rows path rows).
Proof using Type. apply spares_table. Qed.

Lemma spares_pool {T : Type} (run : T -> M files row) e jobs tasks :
  (forall t, t ∈ tasks -> spares p (run t)) -> spares p (run_pool run e jobs tasks).
Proof using Type.
  intros Hrun. unfold run_pool. apply spares_bind.
  - apply spares_fold. intros d i _ w. unfold run_one. destruct (tasks !! i) as [t|] eqn:Hi; [|done].
    specialize (Hrun t (list_elem_of_lookup_2 _ _ _ Hi) w). by destruct (run t w).
  - intros d. apply spares_bind; [done|]. intros rows. by case_match.
Qed.

Lemma spares_either {T : Type} (run : T -> M files row) serial fallback jobs tasks :
  (forall t, t ∈ tasks -> spares p (run t)) -> spares p (run_either run serial fallback jobs tasks).
Proof using Type.
  intros Hrun. unfold run_either. destruct serial.
  - apply spares_bind; [by apply spares_map|done].
  - apply spares_try; [apply spares_bind; [by apply spares_pool|done]|].
    intros e. case_match; [|done]. apply spares_bind; [by apply spares_pool|done].
Qed.

End pools_spare.

(** ** Lemmas: paths *)

Lemma path_join_inj d a b : path_join d a = path_join d b -> a = b.
Proof.
  unfold path_join. case_decide; intros He.
  - by apply (string_app_inj_l "/") in He.
  - apply string_app_inj_l in He. by apply (string_app_inj_l "/") in He.
Qed.

Lemma path_join_nest d a b : a <> "" -> path_join (path_join d a) b = path_join d (a +:+ "/" +:+ b).
Proof.
  intros Ha. unfold path_join at 1. rewrite decide_False.
  - unfold path_join. case_decide; by rewrite !append_assoc.
  - unfold path_join. case_decide; intros Hn; [by apply (string_app_inj_l "/" a "") in Hn|].
    destruct d as [|c d]; [by apply (string_app_inj_l "/" a "") in Hn|].
    injection Hn as -> Hn. by destruct d.
Qed.

Lemma path_join_suffix d a s : path_join d a +:+ s = path_join d (a +:+ s).
Proof. unfold path_join. case_decide; by rewrite !append_assoc. Qed.

(** The last component of a path. *)
Definition no_slash (s : string) : Prop := str_all (fun c => negb (Ascii.eqb c "/")) s = true.

Lemma after_last_none s : no_slash s -> after_last "/" s = None.
Proof.
  unfold no_slash. induction s as [|c s IH]; [done|]. cbn [str_all]. intros [Hc Hs]%andb_prop.
  cbn [after_last]. rewrite IH by done. cbn [strip_prefix].
  rewrite Ascii.eqb_sym. by destruct (Ascii.eqb c "/").
Qed.

Lemma path_name_join d b : no_slash b -> path_name (path_join d b) = b.
Proof.
  intros Hb. assert (Hlast : forall x, after_last "/" (x +:+ "/" +:+ b) = Some b).
  { induction x as [|c x IH].
    - change (after_last "/" (String "/" b) = Some b). cbn [after_last].
      by rewrite (after_last_none b Hb).
    - change (after_last "/" (String c (x +:+ "/" +:+ b)) = Some b). cbn [after_last]. by rewrite IH. }
  unfold path_name, path_join. case_decide; [exact (f_equal (default _) (Hlast ""))|].
  exact (f_equal (default _) (Hlast d)).
Qed.

(** A text up to a character it does not hold. *)
Lemma until_inj c a a' x y :
  str_all (fun k => negb (Ascii.eqb k c)) a = true ->
  str_all (fun k => negb (Ascii.eqb k c)) a' = true ->
  a +:+ String c x = a' +:+ String c y -> a = a' /\ x = y.
Proof.
  intros Ha Ha' He. apply (f_equal (split_once c)) in He.
  rewrite !split_once_app in He by done. by injection He.
Qed.

Lemma zeros_all p n s : p "0"%char = true -> str_all p s = true -> str_all p (zeros n +:+ s) = true.
Proof.
  intros H0 Hs. induction n as [|n IH]; [done|]. change (p "0"%char && str_all p (zeros n +:+ s) = true).
  by rewrite H0.
Qed.

Lemma dec_pad_chars p w z :
  (forall c, is_int_char c = true -> p c = true) -> str_all p (dec_pad w z) = true.
Proof.
  intros Hp. assert (Hz : forall z, str_all p (str_Z z) = true).
  { intros k. eapply str_all_impl; [exact Hp|apply str_Z_chars]. }
  unfold dec_pad. case_match; [rewrite str_all_app; cbn [str_all]; rewrite (Hp "-"%char) by done; cbn|];
    by apply zeros_all; [apply Hp|].
Qed.

Lemma int_char_not c k : is_int_char k = false -> is_int_char c = true -> negb (Ascii.eqb c k) = true.
Proof. intros Hk Hc. destruct (Ascii.eqb_spec c k) as [->|]; [congruence|done]. Qed.

#[export] Instance dec_pad_inj w : Inj (=) (=) (dec_pad w).
Proof. intros a b He. pose proof (int10_dec_pad w a) as Ha. rewrite He, int10_dec_pad in Ha. by injection Ha. Qed.

(** ** Lemmas: files and tables that were written *)

Lemma put_ok `{HO : Host} path d w r w' : put path d w = (Ok r, w') -> w' = <[path := d]> w.
Proof.
  unfold put, bind, lift, modify. destruct (file_ok path); [|done]. by intros [= _ <-].
Qed.

Lemma fitting_all fields rows ok : fitting fields rows = (ok, true) -> ok = rows.
Proof.
  revert ok. induction rows as [|r rows IH]; intros ok; cbn [fitting]; [by intros [= <-]|].
  case_match; [|done]. destruct (fitting fields rows) as [ok' all]. intros [= <- ->]. f_equal. by apply IH.
Qed.

(** A table that was written holds its rows. *)
Lemma table_written `{HO : Host} path fields rows w r w' :
  write_table path fields rows w = (Ok r, w') -> w' = <[path := DCsv fields rows]> w.
Proof.
  unfold write_table. destruct (fitting _ rows) as [ok all] eqn:Hf. intros H. inv_bind H.
  apply put_ok in Hrun. destruct all; [|done]. injection H as _ <-. apply fitting_all in Hf. by subst.
Qed.

Lemma rows_written `{HO : Host} path rows w r w' :
  write_rows path rows w = (Ok r, w') ->
  w' = <[path := DCsv (fst <$> default [] (head rows)) rows]> w.
Proof. apply table_written. Qed.
