(* ===== verification/PeFit.v ===== *)
(** Fits of photo-electron spectra and their scheduling:
    [client/dynamic_range_led/reanalyze_led_charge_run.py], from [gaussian_sum] to [_run_fit_task],
    and the part of [main] that runs the fits.

    Scipy and the elementary functions are class [Scipy]; the pools that run the tasks are those of
    [Pools]. *)
From S2P Require Import Prelude PyStr PyFloat PyVal ChannelSpec JsonText FeConfig.
From S2P Require Import ScanRuntime ChargeWindows IntensityScan RunFiles Pools.

Class Scipy : Type := {
  np_exp : float -> float;
  math_exp : float -> result float;
  math_pow : float -> Z -> result float;
  savgol_filter : list float -> Z -> Z -> result (list float);
  find_peaks : list float -> float -> Z -> list nat;
  curve_fit : (list float -> list float -> result (list float)) -> list float -> list float ->
              list float -> list float * list float -> Z -> result (list float) }.

(** ** The models *)

Definition micro : float := f_dec 1 (-6).
Definition half : float := f_dec 5 (-1).

(** [np.exp(-0.5 * ((x - mu) / sigma) ** 2)] *)
Definition bell `{Scipy} (mu sigma x : float) : float :=
  let u := np_div (f_sub x mu) sigma in np_exp (f_mul (SFopp half) (f_mul u u)).

Definition add_to (y z : list float) : list float := zip_with f_add y z.

Fixpoint gaussians `{Scipy} (x : list float) (params : list float) (y : list float)
    : result (list float) :=
  match params with
  | [] => Ok y
  | amp :: mu :: sigma :: params' =>
      let sigma := py_max micro sigma in
      gaussians x params' (add_to y ((fun v => f_mul amp (bell mu sigma v)) <$> x))
  | _ => Raise (value_error "not enough values to unpack (expected 3)")
  end.

Definition zeros_like {A : Type} (x : list A) : list float := (fun _ => f_zero) <$> x.

Definition gaussian_sum `{Scipy} (x params : list float) : result (list float) :=
  gaussians x params (zeros_like x).

(** A Python integer used as a float. *)
Definition int_to_float (z : Z) : result float :=
  match f_of_Z z with
  | S754_infinity _ => Raise (Exn OverflowError "int too large to convert to float")
  | x => Ok x
  end.

Fixpoint factorial (n : nat) : Z := match n with O => 1 | S k => Z.of_nat n * factorial k end.

Definition generalized_poisson_pmf `{Scipy} (n : nat) (mu lamb : float) : result float :=
  match n with
  | O => math_exp (SFopp mu)
  | S k =>
      let inner := f_add mu (f_mul lamb (f_of_Z (Z.of_nat n))) in
      if f_leb inner f_zero then Ok f_zero
      else
        p <-! math_pow inner (Z.of_nat k) ;;
        e <-! math_exp (SFopp inner) ;;
        d <-! int_to_float (factorial n) ;;
        f_div (f_mul (f_mul mu p) e) d
  end.

(** [math.sqrt] of what [max(1e-6, _)] returns: positive or infinite *)
Definition f_sqrt (x : float) : float := SFsqrt 53 1024 x.

(** [math.pi] *)
Definition math_pi : float := f_dec 3141592653589793 (-15).

(** The term of [n] photo-electrons. *)
Definition vinogradov_term `{Scipy} (x : list float) (pedestal gain sigma0 sigma1 mu lamb : float)
    (y : list float) (n : nat) : result (list float) :=
  weight <-! generalized_poisson_pmf n mu lamb ;;
  let k := f_of_Z (Z.of_nat n) in
  let sigma_n := f_sqrt (py_max micro (f_add (f_mul sigma0 sigma0) (f_mul (f_mul k sigma1) sigma1))) in
  let norm := f_mul sigma_n (f_sqrt (f_mul (f_of_Z 2) math_pi)) in
  let centre := f_add pedestal (f_mul k gain) in
  Ok (add_to y ((fun v => np_div (f_mul weight (bell centre sigma_n v)) norm) <$> x)).

Definition vinogradov_like_model `{Scipy} (x : list float)
    (amplitude pedestal gain sigma0 sigma1 mu lamb : float) (nmax : Z) : result (list float) :=
  y <-! rfold (vinogradov_term x pedestal gain sigma0 sigma1 mu lamb)
          (seq 0 (Z.to_nat (nmax + 1))) (zeros_like x) ;;
  Ok (f_mul amplitude <$> y).

(** The seven parameters of a list, as [curve_fit] passes them. *)
Definition seven {A : Type} (l : list float)
    (k : float -> float -> float -> float -> float -> float -> float -> result A) : result A :=
  match l with
  | [a; b; c; d; e; f; g] => k a b c d e f g
  | _ => Raise (type_error "missing required positional arguments")
  end.

(** ** [attempt_pe_fit] *)

(** [charges[charges >= 0.0]] *)
Definition non_negative (charges : list float) : list float :=
  filter (fun q => f_leb f_zero q = true) charges.

Definition is_finite (x : float) : bool :=
  match x with S754_zero _ | S754_finite _ _ _ => true | _ => false end.

(** [np.histogram(l, bins=bins, range=(0.0, hi))]: counts and edges; an empty range is widened. *)
Definition histogram_to `{Numpy} (l : list float) (bins : Z) (hi : float)
    : result (list Z * list float) :=
  if negb (is_finite hi) then Raise (value_error "supplied range is not finite")
  else if f_ltb hi f_zero
  then Raise (value_error "max must be larger than min in range parameter.")
  else
    let '(a, b) := if f_eqb hi f_zero then (SFopp half, half) else (f_zero, hi) in
    let edges := np_linspace a b (bins + 1) in
    Ok (np_histogram l edges, edges).

(** [l[i]] of a list and of an array of indices *)
Definition at_index {A : Type} (l : list A) (i : nat) : result A :=
  match l !! i with
  | Some x => Ok x
  | None => Raise (Exn IndexError "index is out of bounds")
  end.

Definition pick {A : Type} (l : list A) (is_ : list nat) : result (list A) := rmap (at_index l) is_.

(** [np.diff(l)] *)
Definition diff (l : list float) : list float := zip_with (fun a b => f_sub b a) l (drop 1 l).

Definition status (s : string) : row := [("status", PyStr s)].
Definition failed (e : exn) : row := [("status", PyStr "failed"); ("error", PyStr (exn_text e))].

(** [try: ... except Exception as exc] around a fit. *)
Definition or_failed (r : result row) : row :=
  match r with Ok d => d | Raise e => failed e end.

Definition max_counts (counts : list Z) : Z := foldr Z.max 0 counts.

Section fit.
Context `{Numpy, Scipy}.

(** The initial values and the bounds of the ladder of Gaussians. *)
Definition ladder (spacing sigma_guess : float) (counts : list Z)
    (guesses : list (Z * float)) : list float * (list float * list float) :=
  let wing := f_mul spacing (f_dec 4 (-1)) in
  (mjoin ((fun am => [py_max (f_of_Z 1) (f_of_Z (fst am)); snd am; sigma_guess]) <$> guesses),
   (mjoin ((fun am => [f_zero; f_sub (snd am) wing; f_mul sigma_guess (f_dec 25 (-2))]) <$> guesses),
    mjoin ((fun am => [f_mul (f_of_Z (max_counts counts)) (f_of_Z 10); f_add (snd am) wing; spacing])
             <$> guesses))).

Definition gaussian_fit (mids : list float) (counts : list Z) (spacing sigma_guess : float)
    (guesses : list (Z * float)) : row :=
  let '(g_init, bounds) := ladder spacing sigma_guess counts guesses in
  or_failed (
    g_popt <-! curve_fit gaussian_sum mids (f_of_Z <$> counts) g_init bounds 50000 ;;
    Ok [("status", PyStr "ok"); ("params", floats g_popt);
        ("n_gaussians", PyInt (Z.of_nat (length g_popt) / 3))]).

Definition vinogradov_fit (mids : list float) (counts : list Z) (edges peak_positions : list float)
    (hi spacing sigma_guess : float) (vinogradov_nmax : Z) : row :=
  let nmax := Z.max 1 vinogradov_nmax in
  or_failed (
    pedestal0 <-! at_index peak_positions 0 ;;
    let gain0 := np_median (diff (take 4 peak_positions)) in
    width <-! at_index (diff edges) 0 ;;
    let amp0 := f_mul (f_of_Z (foldr Z.add 0 counts)) width in
    let one := f_of_Z 1 in
    let v_p0 := [amp0; pedestal0; py_max gain0 one; f_mul sigma_guess (f_dec 7 (-1));
                 f_mul sigma_guess half; f_dec 15 (-1); f_dec 1 (-1)] in
    let v_lo := [f_zero; f_zero; py_max one (f_mul gain0 half); one; one; f_dec 1 (-2); f_zero] in
    let v_hi := [f_mul amp0 (f_of_Z 10); hi;
                 if f_ltb f_zero gain0 then f_mul gain0 (f_dec 15 (-1)) else hi;
                 spacing; spacing; f_of_Z 8; f_dec 95 (-2)] in
    let model x p := seven p (fun a b c d e f g => vinogradov_like_model x a b c d e f g nmax) in
    v_popt <-! curve_fit model mids (f_of_Z <$> counts) v_p0 (v_lo, v_hi) 50000 ;;
    params <-! rmap (fun ik => v <-! at_index v_popt (fst ik) ;; Ok (snd ik, PyFloat v))
                 (imap pair ["amplitude"; "pedestal"; "gain"; "sigma0"; "sigma1"; "mu"; "lambda"]) ;;
    Ok [("status", PyStr "ok"); ("nmax", PyInt nmax); ("params", PyDict params)]).

Definition attempt_pe_fit (charges : list float) (gaussian_max_peaks vinogradov_nmax : Z)
    : result row :=
  let charges := non_negative charges in
  if (length charges <? 100)%nat then Ok (status "insufficient_data")
  else
    let hi := np_quantile charges (f_dec 999 (-3)) in
    '(counts, edges) <-! histogram_to charges 360 hi ;;
    let mids := centers edges in
    if (length counts <? 11)%nat then Ok (status "insufficient_bins")
    else
      smooth <-! savgol_filter (f_of_Z <$> counts) 11 3 ;;
      let peaks := find_peaks smooth (py_max (f_of_Z 3) (f_mul (np_max smooth) (f_dec 1 (-2)))) 8 in
      all_positions <-! pick mids peaks ;;
      if (length all_positions <? 2)%nat
      then Ok (status "no_peak_ladder" ++ [("peak_positions", floats all_positions)])
      else
        let peak_positions := take (Z.to_nat (Z.max 2 gaussian_max_peaks)) all_positions in
        counts_guess <-! pick counts (take (length peak_positions) peaks) ;;
        let spacing := np_median (diff peak_positions) in
        width <-! at_index (diff edges) 0 ;;
        let sigma_guess := py_max (f_mul width (f_of_Z 2)) (np_div spacing (f_of_Z 5)) in
        Ok [("status", PyStr "ok"); ("peak_positions", floats peak_positions);
            ("gaussian_fit", PyDict (gaussian_fit mids counts spacing sigma_guess
                                       (zip counts_guess peak_positions)));
            ("vinogradov_like_fit", PyDict (vinogradov_fit mids counts edges peak_positions hi
                                              spacing sigma_guess vinogradov_nmax));
            ("histogram", PyDict [("bin_centers", floats mids);
                                  ("counts", PyList (PyInt <$> counts))])].

End fit.

(** ** Scheduling of the fits *)

(** [_default_fit_channels] *)
Definition _default_fit_channels (channels requested : list Z) (fit_all_points : bool) : list Z :=
  let requested_unique := sorted_set requested in
  if fit_all_points && bool_decide (requested_unique = [15]) && negb (bool_decide (15 ∈ channels))
  then channels
  else filter (fun ch => ch ∈ channels) requested_unique.

(** [np.asarray(v, dtype=float)] of a list of numbers *)
Definition as_floats (v : pyval) : result (list float) :=
  l <-! py_iter v ;; rmap to_float l.

Record task : Type := Task {
  analysis_json_path : string; t_channel : Z; t_intensity : Z; output_parent : string;
  output_base : string; t_run_name : string; t_max_peaks : Z; t_nmax : Z }.

Section run.
Context `{NP : Numpy, SP : Scipy, HO : Host}.

(** [save_fit_plot]: what can fail before the figure is written. *)
Definition save_fit_plot (path : string) (charges : list float) (fit_result : row) (title : string)
    : M files unit :=
  when matplotlib (
    let charges := non_negative charges in
    '(counts, edges) <- lift (histogram_to charges 360 (np_quantile charges (f_dec 999 (-3)))) ;;
    let mids := centers edges in
    g_fit <- lift (dict_get (PyDict fit_result) "gaussian_fit" (PyDict [])) ;;
    g_params <- lift (dict_get g_fit "params" PyNone) ;;
    when (truthy g_params)
      (lift (ps <-! as_floats g_params ;; y <-! gaussian_sum mids ps ;; Ok tt)) ;;;
    v_fit <- lift (dict_get (PyDict fit_result) "vinogradov_like_fit" (PyDict [])) ;;
    v_status <- lift (dict_get v_fit "status" PyNone) ;;
    when (py_eqb v_status (PyStr "ok"))
      (lift (p <-! item v_fit "params" ;;
             ps <-! rmap (fun k => v <-! item p k ;; to_float v)
                      ["amplitude"; "pedestal"; "gain"; "sigma0"; "sigma1"; "mu"; "lambda"] ;;
             n <-! dict_get v_fit "nmax" (PyInt 8) ;; nmax <-! py_int n ;;
             y <-! seven ps (fun a b c d e f g => vinogradov_like_model mids a b c d e f g nmax) ;;
             Ok tt)) ;;;
    put path (DPlot title)).

Definition json_path (t : task) : string := output_base t +:+ ".json".
Definition png_path (t : task) : string := output_base t +:+ ".png".

(** The fields of a row that do not depend on the outcome. *)
Definition task_fields (t : task) : row :=
  [("channel", PyInt (t_channel t)); ("intensity", PyInt (t_intensity t));
   ("analysis_json", PyStr (analysis_json_path t)); ("json_path", PyStr (json_path t));
   ("png_path", PyStr (png_path t))].

(** [str] of a status *)
Definition status_text (v : pyval) : string := match v with PyStr s => s | _ => "" end.

Definition fit_row (t : task) (fit_result : row) : result row :=
  gaussian_fit <-! dict_get (PyDict fit_result) "gaussian_fit" (PyDict []) ;;
  vinogradov_fit <-! dict_get (PyDict fit_result) "vinogradov_like_fit" (PyDict []) ;;
  positions <-! py_iter (row_get fit_result "peak_positions" (PyList [])) ;;
  g_status <-! dict_get gaussian_fit "status" (PyStr "missing") ;;
  n_g <-! dict_get gaussian_fit "n_gaussians" (PyInt 0) ;;
  n_gaussians <-! py_int n_g ;;
  v_status <-! dict_get vinogradov_fit "status" (PyStr "missing") ;;
  v_n <-! dict_get vinogradov_fit "nmax" (PyInt (t_nmax t)) ;;
  nmax <-! py_int v_n ;;
  Ok (task_fields t ++
    [("status", PyStr (status_text (row_get fit_result "status" (PyStr "ok"))));
     ("n_detected_peaks", PyInt (Z.of_nat (length positions)));
     ("gaussian_status", PyStr (status_text g_status)); ("n_gaussians", PyInt n_gaussians);
     ("vinogradov_status", PyStr (status_text v_status)); ("vinogradov_nmax", PyInt nmax)]).

Definition failed_row (t : task) (e : exn) : row :=
  task_fields t ++
    [("status", PyStr "fit_task_failed"); ("error", PyStr (exn_text e));
     ("n_detected_peaks", PyInt 0); ("gaussian_status", PyStr "failed"); ("n_gaussians", PyInt 0);
     ("vinogradov_status", PyStr "failed"); ("vinogradov_nmax", PyInt (t_nmax t))].

(** The charges of a channel in a document of a point. *)
Definition charges_of (payload : pyval) (ch : Z) : result (list float) :=
  chs <-! item payload "channels" ;;
  data <-! item chs (str_Z ch) ;;
  v <-! item data "charges" ;;
  as_floats v.

Definition fit_title (t : task) : string :=
  t_run_name t +:+ " ch" +:+ str_Z (t_channel t) +:+ " intensity=" +:+ str_Z (t_intensity t)
  +:+ " PE fit".

Definition _run_fit_task (t : task) : M files row :=
  lift (file_ok (output_parent t)) ;;;
  try_except (
    payload <- read_json (analysis_json_path t) ;;
    charges <- lift (charges_of payload (t_channel t)) ;;
    fit_result <- lift (attempt_pe_fit charges (t_max_peaks t) (t_nmax t)) ;;
    put (json_path t) (DJson (PyDict fit_result)) ;;;
    save_fit_plot (png_path t) charges fit_result (fit_title t) ;;;
    lift (fit_row t fit_result))
    (fun exc => ret (failed_row t exc)).

(** [PermissionError] *)
Definition is_permission (e : exn) : bool :=
  bool_decide (exn_class e = OSError 13 \/ exn_class e = OSError 1).

(** How the tasks are run: the executor that gave the results, and the results. *)
Definition run_tasks (fit_jobs : Z) (tasks : list task) : M files (executor * list row) :=
  run_either _run_fit_task (fit_jobs =? 1) is_permission fit_jobs tasks.

(** The fits of [main]: jobs, executor and rows. *)
Definition run_fits (fit_dir : string) (jobs : Z) (tasks : list task)
    : M files (Z * executor * list row) :=
  match tasks with
  | [] => ret (0, NoExecutor, [])
  | _ =>
      let fit_jobs := _resolve_jobs cpu_count jobs (Z.of_nat (length tasks)) in
      '(e, rows) <- run_tasks fit_jobs tasks ;;
      rows <- lift (sort_rows rows) ;;
      write_rows (path_join fit_dir "fit_summary.csv") rows ;;;
      ret (fit_jobs, e, rows)
  end.

End run.

(** ** Lemmas: tasks *)

Section tasks.
Context `{NP : Numpy, SP : Scipy, HO : Host}.

Definition outs (t : task) : gset string := {[json_path t; png_path t]}.

Lemma acts_plot a S path charges r title :
  a ∉ S -> path ∈ S -> acts a S (save_fit_plot path charges r title).
Proof using Type.
  intros Ha Hp. unfold save_fit_plot.
  repeat first
    [ apply acts_when | apply acts_lift | by apply acts_put
    | apply acts_bind; [done| |intros ?]
    | match goal with |- acts _ _ (match ?x with _ => _ end) => destruct x end ].
Qed.

Lemma acts_task t : analysis_json_path t ∉ outs t -> acts (analysis_json_path t) (outs t) (_run_fit_task t).
Proof using Type.
  intros Ha. unfold _run_fit_task. unfold outs in *.
  apply acts_bind; [done|apply acts_lift|intros _].
  apply acts_try; [done| |intros e; apply acts_lift].
  repeat first
    [ apply acts_lift | apply acts_read | apply acts_put; set_solver | apply acts_plot; set_solver
    | apply acts_bind; [done| |intros ?] ].
Qed.

Lemma task_ok t w : file_ok (output_parent t) = Ok tt -> exists r, fst (_run_fit_task t w) = Ok r.
Proof using Type.
  intros Hf. unfold _run_fit_task, bind at 1, lift at 1. rewrite Hf. unfold try_except.
  destruct (bind _ _ w) as [[r|e] w']; by eexists.
Qed.

Definition task_key (t : task) : Z * Z := (t_channel t, t_intensity t).

Lemma fields_key t r : row_key (task_fields t ++ r) = Ok (task_key t).
Proof using Type. done. Qed.

Lemma task_row_fields t w r w' :
  _run_fit_task t w = (Ok r, w') -> exists rest, r = task_fields t ++ rest.
Proof using Type.
  unfold _run_fit_task. intros H. inv_bind H. unfold try_except in H.
  destruct (bind (read_json _) _ _) as [[r'|e] w1] eqn:Hb; [|injection H as <- <-; by eexists].
  injection H as <- <-. inv_bind Hb. inv_bind Hb. inv_bind Hb. inv_bind Hb. inv_bind Hb.
  unfold lift in Hb. injection Hb as Hb _. unfold fit_row in Hb.
  repeat (apply rbind_ok in Hb as (? & ? & Hb)). injection Hb as <-. by eexists.
Qed.

Lemma task_row_key t w r w' : _run_fit_task t w = (Ok r, w') -> row_key r = Ok (task_key t).
Proof using Type. intros [rest ->]%task_row_fields. apply fields_key. Qed.

(** What the theorems on the fits assume of the tasks and of the machine. *)
Record orderly (tasks : list task) : Prop := {
  files_apart : separate analysis_json_path outs tasks;
  keys_apart : NoDup (task_key <$> tasks);
  pools_lawful : pools_work tasks is_permission;
  parents_made : forall t, t ∈ tasks -> file_ok (output_parent t) = Ok tt }.

Lemma orderly_ok tasks w :
  orderly tasks -> Forall (fun t => is_ok (outcome _run_fit_task w t) = true) tasks.
Proof using Type.
  intros Ho. apply Forall_forall. intros t Ht.
  destruct (task_ok t w (parents_made tasks Ho t Ht)) as [r Hr]. unfold outcome. by rewrite Hr.
Qed.

(** The fits, up to the writing of their table. *)
Lemma run_fits_table tasks fit_dir jobs w :
  tasks <> [] -> orderly tasks ->
  exists e w',
    run_fits fit_dir jobs tasks w =
      bind (write_rows (path_join fit_dir "fit_summary.csv") (fit_table _run_fit_task task_key w tasks))
        (fun _ => ret (_resolve_jobs cpu_count jobs (Z.of_nat (length tasks)), e,
                       fit_table _run_fit_task task_key w tasks)) w' /\
    each_wrote _run_fit_task outs tasks w w' /\ e <> NoExecutor.
Proof using Type.
  intros Hne Ho. pose proof (orderly_ok tasks w Ho) as Hok. unfold run_fits.
  set (n := _resolve_jobs _ _ _).
  destruct (either_rows _run_fit_task analysis_json_path outs acts_task tasks (files_apart tasks Ho)
    (n =? 1) is_permission n w (pools_lawful tasks Ho) Hok) as (e & ts & w' & Hrun & Hp & Hwrote & He).
  destruct tasks as [|t0 rest]; [done|]. exists e, w'. split_and!; [|done|done].
  unfold bind at 1, run_tasks. fold n. rewrite Hrun. unfold bind at 1, lift at 1.
  by rewrite (sort_rows_table _run_fit_task task_key task_row_key w ts _ Hp (keys_apart _ Ho) Hok).
Qed.

End tasks.

(** C18. The schedule of the fits does not matter.  Whatever number of jobs is asked for, and
    whether the fits run one after the other, in worker processes or, where the machine does not
    allow those, in threads, in any order: [run_fits] writes the same table, the outcome of each
    task from the files before the fits, sorted by channel and intensity; and every task leaves
    the files it would have written alone, also when the refused pool had run some of the tasks
    before.  It is assumed that the tasks have different channels or intensities, that their
    files are separate and that their directory can be created. *)
Theorem fits_schedule_independent `{NP : Numpy, SP : Scipy, HO : Host} tasks fit_dir jobs w :
  tasks <> [] -> orderly tasks ->
  exists e w',
    run_fits fit_dir jobs tasks w =
      bind (write_rows (path_join fit_dir "fit_summary.csv") (fit_table _run_fit_task task_key w tasks))
        (fun _ => ret (_resolve_jobs cpu_count jobs (Z.of_nat (length tasks)), e,
                       fit_table _run_fit_task task_key w tasks)) w' /\
    (forall t p, t ∈ tasks -> p ∈ outs t -> w' !! p = snd (_run_fit_task t w) !! p) /\
    (forall p, (forall t, t ∈ tasks -> p ∉ outs t) -> w' !! p = w !! p) /\
    (e = Serial \/ e = Process \/ e = Thread).
Proof.
  intros Hne Ho. destruct (run_fits_table tasks fit_dir jobs w Hne Ho) as (e & w' & Hrun & [HA HB] & He).
  exists e, w'. split_and!; [done..|]. destruct e; auto. done.
Qed.

(** ** A failed fit *)

(** One failed fit loses the report.  A task that fails is meant to become a row of the table
    with an error text, and the script to go on; but the columns of [fit_summary.csv] are those of
    its first row, so when the first task (by channel and intensity) worked and any other failed,
    writing the table raises [ValueError] under every schedule, and [main] ends with the table
    cut short and without [report.json]. *)
Theorem failed_fit_aborts `{NP : Numpy, SP : Scipy, HO : Host} tasks fit_dir jobs w t1 t2 :
  orderly tasks -> file_ok (path_join fit_dir "fit_summary.csv") = Ok tt ->
  t1 ∈ tasks -> (forall t, t ∈ tasks -> key_le (task_key t1, []) (task_key t, [])) ->
  "error" ∉ fst <$> task_row _run_fit_task w t1 ->
  t2 ∈ tasks -> "error" ∈ fst <$> task_row _run_fit_task w t2 ->
  fst (run_fits fit_dir jobs tasks w) =
    Raise (value_error "dict contains fields not in fieldnames").
Proof.
  intros Ho Hcsv Ht1 Hmin He1 Ht2 He2.
  assert (Hne : tasks <> []) by (intros ->; by apply not_elem_of_nil in Ht1).
  destruct (run_fits_table tasks fit_dir jobs w Hne Ho) as (e & w' & -> & _).
  unfold bind at 1, write_rows, write_table.
  rewrite (table_first _run_fit_task task_key w tasks t1 (keys_apart _ Ho) Ht1 Hmin). cbn [default].
  pose proof (in_table _run_fit_task task_key w tasks t2 Ht2) as Hin2.
  pose proof (fitting_stops (fst <$> task_row _run_fit_task w t1) _ _ _ Hin2 He2 He1) as Hcut.
  destruct (fitting _ _) as [ok all]. cbn in Hcut. subst all.
  unfold bind, put, lift, modify. cbv beta. unfold bind. by rewrite Hcsv.
Qed.

(** ** The fit ends with a result *)

(** Documented behaviour of numpy and scipy. *)
Class SciLaws `{NP : Numpy, SP : Scipy} : Prop := {
  savgol_length l n d l' : savgol_filter l n d = Ok l' -> length l' = length l;
  savgol_total l n d : 0 <= d < n -> Z.odd n = true -> n <= Z.of_nat (length l) ->
    is_ok (savgol_filter l n d) = true;
  peaks_inside l p d : Forall (fun i => (i < length l)%nat) (find_peaks l p d);
  linspace_length a b n : 0 <= n -> length (np_linspace a b n) = Z.to_nat n;
  histogram_length l edges : length (np_histogram l edges) = (length edges - 1)%nat;
  quantile_between l q : l <> [] ->
    Forall (fun x => is_finite x = true /\ f_leb f_zero x = true) l ->
    is_finite (np_quantile l q) = true /\ f_ltb (np_quantile l q) f_zero = false }.

Section total.
Context `{SL : SciLaws}.

Lemma pick_ok {A : Type} (l : list A) is_ :
  Forall (fun i => (i < length l)%nat) is_ -> exists xs, pick l is_ = Ok xs /\ length xs = length is_.
Proof using Type.
  unfold pick. induction 1 as [|i is_ Hi _ (xs & Hxs & Hlen)]; [by exists []|].
  apply lookup_lt_is_Some_2 in Hi as [x Hx]. exists (x :: xs). cbn [rmap].
  unfold at_index at 1. rewrite Hx. cbn [rbind]. rewrite Hxs. cbn. by rewrite Hlen.
Qed.

(** A fit worked, with its parameters, or failed, with a text. *)
Definition fit_outcome (d : row) : Prop :=
  (lookup_key d "status" = Some (PyStr "ok") /\ is_Some (lookup_key d "params")) \/
  exists text, d = [("status", PyStr "failed"); ("error", PyStr text)].

Lemma or_failed_outcome r :
  (forall d, r = Ok d -> lookup_key d "status" = Some (PyStr "ok") /\ is_Some (lookup_key d "params")) ->
  fit_outcome (or_failed r).
Proof using Type.
  intros H. destruct r as [d|e]; [left; by apply H|right; by eexists].
Qed.

Lemma gaussian_outcome mids counts spacing sg guesses :
  fit_outcome (gaussian_fit mids counts spacing sg guesses).
Proof using Type.
  unfold gaussian_fit. destruct (ladder _ _ _ _) as [g_init bounds]. apply or_failed_outcome.
  intros d Hd. apply rbind_ok in Hd as (p & _ & [= <-]). split; [done|by eexists].
Qed.

Lemma vinogradov_outcome mids counts edges ps hi spacing sg n :
  fit_outcome (vinogradov_fit mids counts edges ps hi spacing sg n).
Proof using Type.
  unfold vinogradov_fit. apply or_failed_outcome. intros d Hd.
  repeat (apply rbind_ok in Hd as (? & _ & Hd)). injection Hd as <-. split; [done|by eexists].
Qed.

Lemma histogram_shape l hi :
  is_finite hi = true -> f_ltb hi f_zero = false ->
  exists counts edges, histogram_to l 360 hi = Ok (counts, edges) /\
    length counts = 360%nat /\ length edges = 361%nat.
Proof using SL.
  intros Hf Hn. unfold histogram_to. rewrite Hf, Hn. cbn [negb].
  destruct (f_eqb hi f_zero); cbv beta iota zeta; eexists _, _; (split; [done|]);
    rewrite histogram_length, !linspace_length by done; done.
Qed.

Lemma diff_first edges : (1 < length edges)%nat -> exists x, at_index (diff edges) 0 = Ok x.
Proof using Type. destruct edges as [|a [|b edges]]; cbn; try lia. intros _. by eexists. Qed.

Lemma centers_length edges : length (centers edges) = (length edges - 1)%nat.
Proof using Type. unfold centers. rewrite length_zip_with, length_drop. lia. Qed.

End total.

(** C28. A fit always ends with a result.  On finite charges [attempt_pe_fit] raises nothing,
    whatever the two fits do: fewer than 100 charges that are not negative are reported as
    insufficient; fewer than two peaks as no ladder, with the peaks; otherwise the result holds at
    least two peaks and at most the number asked for (two, if less is asked for), and each of the
    two fits either with its parameters or with the text of its failure.  Assumed of scipy and
    numpy: the shapes they document, and a quantile of finite positive numbers is one. *)
Theorem pe_fit_contained `{SL : SciLaws} charges k n :
  Forall (fun x => is_finite x = true) charges ->
  exists r, attempt_pe_fit charges k n = Ok r /\
    if (length (non_negative charges) <? 100)%nat then r = status "insufficient_data"
    else exists ps,
      ((length ps < 2)%nat /\ r = status "no_peak_ladder" ++ [("peak_positions", floats ps)]) \/
      (2 <= Z.of_nat (length ps) <= Z.max 2 k /\
       lookup_key r "status" = Some (PyStr "ok") /\
       lookup_key r "peak_positions" = Some (floats ps) /\
       exists g v, lookup_key r "gaussian_fit" = Some (PyDict g) /\
         lookup_key r "vinogradov_like_fit" = Some (PyDict v) /\ fit_outcome g /\ fit_outcome v).
Proof.
  intros Hfin. unfold attempt_pe_fit. set (qs := non_negative charges).
  destruct (Nat.ltb_spec (length qs) 100) as [Hq|Hq]; [by eexists|].
  destruct (quantile_between qs (f_dec 999 (-3))) as [Hf Hn].
  { by intros ->; cbn in Hq; lia. }
  { apply Forall_forall. intros x [Hx Hin]%list_elem_of_filter. rewrite Forall_forall in Hfin.
    split; [by apply Hfin|done]. }
  destruct (histogram_shape qs _ Hf Hn) as (counts & edges & -> & Hc & He). cbn [rbind].
  rewrite Hc. change (360 <? 11)%nat with false. cbv iota.
  pose proof (savgol_total (f_of_Z <$> counts) 11 3 ltac:(lia) eq_refl) as Hsav.
  rewrite length_fmap, Hc in Hsav. specialize (Hsav ltac:(lia)).
  destruct (savgol_filter _ 11 3) as [smooth|] eqn:Hs; [|done]. cbn [rbind].
  apply savgol_length in Hs. rewrite length_fmap, Hc in Hs.
  set (peaks := find_peaks _ _ _). assert (Hpk : Forall (fun i => (i < 360)%nat) peaks).
  { rewrite <- Hs. apply peaks_inside. }
  destruct (pick_ok (centers edges) peaks) as (all & -> & Hall).
  { by rewrite centers_length, He. }
  cbn [rbind]. destruct (Nat.ltb_spec (length all) 2) as [Ha|Ha].
  - eexists. split; [done|]. exists all. by left.
  - destruct (pick_ok counts (take (length (take (Z.to_nat (Z.max 2 k)) all)) peaks)) as (guess & -> & _).
    { rewrite Hc. by apply Forall_take. }
    cbn [rbind]. destruct (diff_first edges) as [width ->]; [lia|]. cbn [rbind].
    eexists. split; [reflexivity|]. exists (take (Z.to_nat (Z.max 2 k)) all). right.
    split; [rewrite length_take; lia|]. split_and!; [done..|]. eexists _, _.
    split_and!; [done|done|apply gaussian_outcome|apply vinogradov_outcome].
Qed.

(** ** Channels *)

Lemma fit_channels_nodup channels requested all :
  NoDup channels -> NoDup (_default_fit_channels channels requested all).
Proof.
  intros Hc. unfold _default_fit_channels. case_match; [done|].
  apply NoDup_filter, NoDup_sorted_set.
Qed.

Lemma fit_channels_sub channels requested all ch :
  ch ∈ _default_fit_channels channels requested all -> ch ∈ channels.
Proof. unfold _default_fit_channels. case_match; [done|]. by intros [? _]%list_elem_of_filter. Qed.

(** [--fit-channel] appends to a list that holds 15: that channel cannot be left out. *)
Lemma default_channel_stays channels given all :
  15 ∈ channels -> 15 ∈ _default_fit_channels channels (15 :: given) all.
Proof.
  intros Hin. unfold _default_fit_channels. case_match; [done|].
  apply list_elem_of_filter. split; [done|]. apply elem_of_sorted_set, list_elem_of_here.
Qed.

(** ** A small instance: two tasks, a machine that refuses processes *)

Definition last_value (l : list float) : float := match last l with Some x => x | None => S754_nan end.

#[local] Instance some_numpy : Numpy := {
  np_sum := plain_sum; np_mean := plain_mean; np_std := fun _ => f_zero;
  np_median := last_value; np_quantile := fun l _ => last_value l; np_hypot := f_add;
  np_linspace := fun a b n => (fun k => f_add a (np_div (f_mul (f_of_Z k) (f_sub b a))
                                                    (f_of_Z (n - 1)))) <$> seqZ 0 n;
  np_histogram := fun l edges => (fun _ => Z.of_nat (length l)) <$> drop 1 edges }.

#[local] Instance some_scipy : Scipy := {
  np_exp := fun x => x; math_exp := fun x => Ok x; math_pow := fun x _ => Ok x;
  savgol_filter := fun l _ _ => Ok l;
  find_peaks := fun l _ _ => filter (fun i => (i < length l)%nat) [20; 60; 100]%nat;
  curve_fit := fun _ _ _ p0 _ _ => Ok p0 }.

#[local] Instance some_laws : SciLaws.
Proof.
  split.
  - by intros l n d l' [= ->].
  - done.
  - intros l p d. apply Forall_forall. by intros i [Hi _]%list_elem_of_filter.
  - intros a b n Hn. cbn. by rewrite length_fmap, length_seqZ.
  - intros l edges. cbn. by rewrite length_fmap, length_drop.
  - intros l q Hne Hl. cbn. unfold last_value. destruct (last l) as [x|] eqn:Hx; [|by apply last_None in Hx].
    apply last_Some in Hx as [l' ->]. apply Forall_app in Hl as [_ Hl].
    apply Forall_singleton in Hl as [Hf Hle]. split; [done|]. unfold f_leb in Hle. unfold f_ltb.
    destruct x as [s|s| |s m e]; try done; by destruct s.
Qed.

#[local] Instance some_host : Host := {
  file_ok := fun _ => Ok tt; matplotlib := true; cpu_count := Some 4;
  pool := fun e _ n => match e with
                       | Process => Plan [] [] (Some (Exn (OSError 13) "Permission denied"))
                       | _ => Plan (reverse (seq 0 n)) (reverse (seq 0 n)) None
                       end }.

Definition some_task (ch : Z) : task :=
  Task "out/points/intensity_1150/analysis.json" ch 1150 "out/pe_fits/intensity_1150"
    ("out/pe_fits/intensity_1150/channel_" +:+ dec_pad 2 ch +:+ "_intensity_1150") "run" 8 10.

(** The document of a point: one positive charge in channel 3, a negative one in channel 15. *)
Definition some_files : files := {[ "out/points/intensity_1150/analysis.json" := DJson (PyDict
  [("channels", PyDict [("3", PyDict [("charges", floats [f_of_Z 1])]);
                        ("15", PyDict [("charges", floats [f_of_Z (-1)])])])]) ]}.

Lemma some_orderly : orderly [some_task 15; some_task 3].
Proof.
  split.
  - intros i j t t' Hi Hj.
    destruct i as [|[|i]], j as [|[|j]]; try discriminate Hi; try discriminate Hj; injection Hi as <-; injection Hj as <-;
      (split; [reg_mem|]); intros Hne; first [by exfalso; apply Hne | reg_mem].
  - apply (bool_decide_unpack _); vm_compute; exact I.
  - intros jobs. split.
    + split_and!; [done| |]; cbn; apply Permutation_swap.
    + right. split_and!; [by eexists| |]; intros i Hi; by apply not_elem_of_nil in Hi.
  - done.
Qed.

Lemma fits_schedule_independent_witness :
  fst (run_fits "out/pe_fits" 0 [some_task 3] some_files) =
    Ok (1, Serial, [task_row _run_fit_task some_files (some_task 3)]) /\
  exists e w', run_fits "out/pe_fits" 0 [some_task 15; some_task 3] some_files =
      bind (write_rows "out/pe_fits/fit_summary.csv"
              (fit_table _run_fit_task task_key some_files [some_task 15; some_task 3]))
        (fun _ => ret (2, e, fit_table _run_fit_task task_key some_files [some_task 15; some_task 3])) w' /\
    (e = Serial \/ e = Process \/ e = Thread).
Proof.
  split; [vm_compute; reflexivity|].
  destruct (fits_schedule_independent [some_task 15; some_task 3] "out/pe_fits" 0 some_files
              ltac:(done) some_orderly) as (e & w' & Hrun & _ & _ & He).
  exists e, w'. split; [exact Hrun|exact He].
Defined.

Lemma failed_fit_aborts_witness :
  lookup_key (task_row _run_fit_task some_files (some_task 3)) "status"
    = Some (PyStr "insufficient_data") /\
  lookup_key (task_row _run_fit_task some_files (some_task 15)) "status"
    = Some (PyStr "fit_task_failed") /\
  fst (run_fits "out/pe_fits" 0 [some_task 15; some_task 3] some_files) =
    Raise (value_error "dict contains fields not in fieldnames").
Proof.
  split; [vm_compute; reflexivity|]. split; [vm_compute; reflexivity|].
  apply (failed_fit_aborts [some_task 15; some_task 3] "out/pe_fits" 0 some_files
           (some_task 3) (some_task 15)).
  - exact some_orderly.
  - done.
  - apply list_elem_of_further, list_elem_of_here.
  - intros t [->|[->|Ht]%elem_of_cons]%elem_of_cons; [cbn; lia|cbn; lia|by apply not_elem_of_nil in Ht].
  - apply (bool_decide_unpack _); vm_compute; exact I.
  - apply list_elem_of_here.
  - apply (bool_decide_unpack _); vm_compute; exact I.
Defined.

Lemma pe_fit_contained_witness :
  length (non_negative (f_of_Z <$> seqZ 0 150)) = 150%nat /\
  exists r, attempt_pe_fit (f_of_Z <$> seqZ 0 150) 2 10 = Ok r.
Proof.
  split; [vm_compute; reflexivity|].
  destruct (pe_fit_contained (f_of_Z <$> seqZ 0 150) 2 10) as (r & Hr & _); [|by exists r].
  apply (bool_decide_unpack _). vm_compute. exact I.
Defined.
