(* ===== verification/HistogramFits.v ===== *)
(** Fits of stored charge histograms:
    [client/dynamic_range_led/fit_cpp_histograms_parallel.py].

    A CSV file that is read is a parameter: its columns and its rows, as [csv.DictReader] gives
    them.  A figure is its title, and what can fail before it is saved; the limits of its axis
    ([--xmin], [--xmax]) are numbers.  Names of files are ASCII. *)
From S2P Require Import Prelude PyStr PyFloat PyVal ChannelSpec JsonText FeConfig SpyAcquire.
From S2P Require Import ScanRuntime ChargeWindows IntensityScan RunFiles Pools PeFit.

(** [math.log] of a positive number, and [curve_fit] with [sigma=]. *)
Class WeightedFit : Type := {
  math_log : float -> float;
  curve_fit_sigma : (list float -> list float -> result (list float)) -> list float -> list float ->
    list float -> list float * list float -> list float -> Z -> result (list float) }.

(** The machine before the script starts: the names of the files of a directory, CSV files, and
    [str(Path(p).expanduser().resolve())]. *)
Class HistInput : Type := {
  dir_files : string -> option (gset string);
  read_csv : string -> result (list string * list row);
  at_path : string -> string }.

(** The options; the filters are the texts of [--channels] and [--intensities]. *)
Record fit_options : Type := FitOptions {
  h_run_dir : string; h_cpp_dir : string; h_output_dir : string; h_jobs : Z; h_max_peaks : Z;
  h_vinogradov_nmax : Z; h_min_area_fraction : float; h_channels : string; h_intensities : string;
  h_xmin : float; h_xmax : float }.

Definition default_fit_options (run_dir : string) : fit_options :=
  {| h_run_dir := run_dir; h_cpp_dir := "cpp_snr_scan_p30"; h_output_dir := ""; h_jobs := 0;
     h_max_peaks := 8; h_vinogradov_nmax := 10; h_min_area_fraction := f_dec 1 (-2);
     h_channels := ""; h_intensities := ""; h_xmin := SFopp (f_of_Z 2500); h_xmax := f_of_Z 20000 |}.

(** [HIST_RE.match(name)]: the digits of the channel and of the intensity. *)
Definition hist_digits (name : string) : option (string * string) :=
  rest ← strip_prefix "ch" name;
  let '(d1, r1) := take_digits rest in
  r2 ← strip_prefix "_intensity_" r1;
  let '(d2, r3) := take_digits r2 in
  if bool_decide (d1 <> "") && bool_decide (d2 <> "") && bool_decide (r3 = "_histogram.csv")
  then Some (d1, d2) else None.

(** The name under which the plotting scripts look for a histogram
    ([plot_all_led_histograms.py]). *)
Definition hist_name (channel intensity : Z) : string :=
  "ch" +:+ dec_pad 2 channel +:+ "_intensity_" +:+ dec_pad 4 intensity +:+ "_histogram.csv".

(** [int(match.group(...))] *)
Definition hist_key (name : string) : option (Z * Z) :=
  '(d1, d2) ← hist_digits name;
  ch ← unsigned10 d1; i ← unsigned10 d2; Some (ch, i).

(** [hist_path.stem] of a name that matches *)
Definition hist_stem (name : string) : string := String.substring 0 (String.length name - 4) name.

Definition parse_int_list (value : string) : result (gset Z) :=
  l <-! rmap int10 (filter (fun t => t <> "") (strip <$> split_on "," value)) ;;
  Ok (list_to_set l).

(** [read_summary]: rows whose channel and intensity ([row_key]) are not integers are skipped; of
    equal keys the last row stays. *)
Definition summary_rows_of (rows : list row) : gmap (Z * Z) row :=
  foldl (fun m r => match row_key r with Ok k => <[k := r]> m | Raise _ => m end) ∅ rows.

(** [_to_float(value)], [_to_float(value, default)] *)
Definition to_float_or (dflt : float) (v : pyval) : float :=
  match v with
  | PyNone => dflt
  | PyStr "" => dflt
  | _ => match to_float v with Ok x => x | Raise _ => dflt end
  end.

Definition _to_float (v : pyval) : float := to_float_or S754_nan v.

Record histogram : Type := Histogram {
  hx : list float; hcount : list float; hcomponents : list (string * list float) }.

Definition column (rows : list row) (k : string) : result (list float) :=
  rmap (fun r => v <-! item (PyDict r) k ;; to_float v) rows.

(** [float(row.get(k, 0.0))] *)
Definition column_or (rows : list row) (k : string) : result (list float) :=
  rmap (fun r => to_float (row_get r k (PyFloat f_zero))) rows.

Definition load_histogram (path : string) (csv : result (list string * list row)) : result histogram :=
  '(fieldnames, rows) <-! csv ;;
  match rows with
  | [] => Raise (Exn RuntimeError ("Empty histogram: " +:+ path))
  | _ =>
      x <-! column rows "x" ;;
      count <-! column rows "count" ;;
      _ <-! column_or rows "total_fit" ;;
      comps <-! rmap (fun k => c <-! column_or rows k ;; Ok (k, c))
                  (remove_dups (filter (fun k => is_Some (strip_prefix "peak_" k)) fieldnames)) ;;
      Ok (Histogram x count comps)
  end.

(** ** The models *)

Definition nano : float := f_dec 1 (-9).
Definition one : float := f_of_Z 1.
Definition two_pi_root : float := f_sqrt (f_mul (f_of_Z 2) math_pi).

Section models.
Context `{NP : Numpy, SP : Scipy}.

Definition area_gaussian (x : list float) (n_events mean sigma bin_width : float) : list float :=
  let sigma := py_max sigma nano in
  let norm := np_div (f_mul n_events bin_width) (f_mul two_pi_root sigma) in
  (fun v => f_mul norm (bell mean sigma v)) <$> x.

Fixpoint ladder_terms (x params : list float) (bin_width : float) (y : list float) : result (list float) :=
  match params with
  | [] => Ok y
  | n_events :: mean :: sigma :: params' =>
      ladder_terms x params' bin_width (add_to y (area_gaussian x n_events mean sigma bin_width))
  | _ => Raise (value_error "not enough values to unpack (expected 3)")
  end.

Definition gaussian_ladder_counts_model (bin_width : float) (x params : list float) : result (list float) :=
  ladder_terms x params bin_width (zeros_like x).

(** The width of the peak of [n] photo-electrons; this copy of the model has its own floor and takes
    at least one photo-electron. *)
Definition sigma_of (sigma0 sigma1 : float) (n : nat) : float :=
  f_sqrt (py_max nano (f_add (f_mul sigma0 sigma0)
    (f_mul (f_mul (f_of_Z (Z.of_nat n)) sigma1) sigma1))).

Definition cpp_term (x : list float) (pedestal gain sigma0 sigma1 mu lamb : float)
    (y : list float) (n : nat) : result (list float) :=
  weight <-! generalized_poisson_pmf n mu lamb ;;
  let s := sigma_of sigma0 sigma1 n in
  let centre := f_add pedestal (f_mul (f_of_Z (Z.of_nat n)) gain) in
  Ok (add_to y ((fun v => np_div (f_mul weight (bell centre s v)) (f_mul s two_pi_root)) <$> x)).

Definition cpp_model (x : list float) (amplitude pedestal gain sigma0 sigma1 mu lamb : float) (nmax : Z)
    : result (list float) :=
  y <-! rfold (cpp_term x pedestal gain sigma0 sigma1 mu lamb)
          (seq 0 (Z.to_nat (Z.max 1 nmax + 1))) (zeros_like x) ;;
  Ok (f_mul amplitude <$> y).

(** ** Seeds *)

(** [np.sum(np.clip(y, 0.0, None))] *)
Definition positive_sum (y : list float) : float := np_sum (clip_zero <$> y).

Definition weighted_mean_sigma (x y : list float) (fallback_sigma : float) : result (float * float * float) :=
  let weights := clip_zero <$> y in
  let total := np_sum weights in
  if f_leb total f_zero then
    idx <-! (match y with [] => Ok 0%nat | _ => argmax y end) ;;
    center <-! (match x with [] => Ok f_zero | _ => at_index x idx end) ;;
    Ok (center, py_max fallback_sigma one, f_zero)
  else
    let center := np_div (np_sum (zip_with f_mul x weights)) total in
    let variance := np_div (np_sum (zip_with (fun v w => let d := f_sub v center in f_mul w (f_mul d d))
                                      x weights)) total in
    Ok (center, f_sqrt (py_max (py_max variance (f_mul fallback_sigma fallback_sigma)) one), total).

Record seed : Type := Seed { s_name : string; n_events : float; mean : float; sigma : float; height : float }.

Definition seed_doc (s : seed) : pyval :=
  PyDict [("name", PyStr (s_name s)); ("n_events", PyFloat (n_events s)); ("mean", PyFloat (mean s));
          ("sigma", PyFloat (sigma s)); ("height", PyFloat (height s))].

Definition ped_doc (s : seed) : pyval :=
  PyDict [("n_events", PyFloat (n_events s)); ("mean", PyFloat (mean s)); ("sigma", PyFloat (sigma s))].

Definition mean_le (a b : seed) : Prop := f_ltb (mean b) (mean a) = false.

#[local] Instance mean_le_dec : RelDecision mean_le.
Proof. intros a b. unfold mean_le. apply _. Defined.

Definition name_order (a b : string * list float) : Prop := str_le (fst a) (fst b).

#[local] Instance name_order_dec : RelDecision name_order.
Proof. intros a b. unfold name_order. apply _. Defined.

Definition component_seeds (x : list float) (components : list (string * list float))
    (total_counts min_area_fraction : float) (max_peaks : Z) (fallback_sigma : float)
    : result (list seed) :=
  let area_cut := py_max (f_of_Z 5) (f_mul min_area_fraction total_counts) in
  seeds <-! rfold (fun seeds nc =>
    let '(name, comp) := nc in
    let area := positive_sum comp in
    if f_ltb area area_cut then Ok seeds
    else
      _ <-! match comp with
            | [] => Raise (value_error "zero-size array to reduction operation maximum which has no identity")
            | _ => Ok tt
            end ;;
      if f_leb (np_max comp) f_zero then Ok seeds
      else
        '(m, s, _) <-! weighted_mean_sigma x comp fallback_sigma ;;
        Ok (seeds ++ [Seed name area m s (np_max comp)])) (merge_sort name_order components) [] ;;
  Ok (take (Z.to_nat max_peaks) (merge_sort mean_le seeds)).

Definition estimate_pedestal_seed (x count : list float) (sigma0 n_clean_waveforms zero_fraction
    bin_width : float) : result seed :=
  let sigma0 := py_max (py_max sigma0 bin_width) one in
  let masked := filter (fun xc => f_leb (f_abs (fst xc)) (f_mul (f_of_Z 4) sigma0) = true) (zip x count) in
  let xs := fst <$> masked in
  let cs := snd <$> masked in
  '(mean, sigma0, n0_from_shape) <-!
    (if negb (bool_decide (masked = [])) && f_ltb f_zero (positive_sum cs)
     then '(m, sigma_est, area) <-! weighted_mean_sigma xs cs sigma0 ;; Ok (m, py_max sigma0 sigma_est, area)
     else Ok (f_zero, sigma0, f_zero)) ;;
  let n0 :=
    if is_finite zero_fraction && is_finite n_clean_waveforms && f_ltb f_zero zero_fraction
       && f_ltb zero_fraction one && f_ltb f_zero n_clean_waveforms
    then f_mul zero_fraction n_clean_waveforms
    else
      let peak0 := match masked with [] => np_max count | _ => np_max cs end in
      np_div (f_mul (f_mul peak0 two_pi_root) sigma0) (py_max bin_width nano) in
  let n0 := if negb (is_finite n0) || f_leb n0 f_zero then py_max n0_from_shape one else n0 in
  Ok (Seed "" n0 mean sigma0 f_zero).

(** [np.clip(l, lo, None)] *)
Definition clip_low (lo : float) (l : list float) : list float :=
  (fun v => if f_ltb v lo then lo else v) <$> l.

Definition reduced_chi2 (observed expected : list float) (n_params : Z) : float :=
  let sigma := f_sqrt <$> clip_low one observed in
  let dof := Z.max 1 (Z.of_nat (length observed) - n_params) in
  np_div (np_sum ((fun u => f_mul u u) <$>
    zip_with np_div (zip_with f_sub observed expected) sigma)) (f_of_Z dof).

End models.

(** ** [fit_histogram] *)

Section fit.
Context `{NP : Numpy, SP : Scipy, WF : WeightedFit}.

(** What the fits start from. *)
Record start : Type := Start {
  bin_width : float; total_counts : float; ped_seed : seed; pe_seeds : list seed; gain0 : float;
  sigma0_seed : float; sigma1_seed : float; zero_fraction : float }.

(** [max(a, b, c)] *)
Definition max3 (a b c : float) : float := py_max (py_max a b) c.

(** The peaks to fit: the components of the file or, when there is none, the first peak of the
    summary. *)
Definition peak_seeds (h : histogram) (width total sigma0 first_mean first_sigma : float)
    (max_peaks : Z) (min_area_fraction : float) : result (list seed) :=
  seeds <-! component_seeds (hx h) (hcomponents h) total min_area_fraction max_peaks
              (py_max (f_mul sigma0 (f_dec 13 (-1))) (f_mul (f_of_Z 2) width)) ;;
  match seeds with
  | [] =>
      if is_finite first_mean && f_ltb (f_mul (f_of_Z 3) sigma0) first_mean then
        let wide := py_max (f_mul sigma0 (f_dec 14 (-1))) (f_mul (f_of_Z 2) width) in
        let guess := if is_finite first_sigma
                     then max3 first_sigma (f_mul sigma0 (f_dec 14 (-1))) (f_mul (f_of_Z 2) width)
                     else wide in
        Ok [Seed "peak_1" (py_max (f_mul total (f_dec 1 (-1))) one) first_mean guess (np_max (hcount h))]
      else Ok []
  | _ => Ok seeds
  end.

(** The first guess of the gain. *)
Definition gain_guess (seeds : list seed) (ped : seed) (width sigma0 first_mean : float) : float :=
  let gaps := filter (fun v => f_ltb f_zero v = true) (diff (mean <$> seeds)) in
  let candidates :=
    (if (2 <=? length seeds)%nat then gaps else [])
    ++ (if is_finite first_mean && f_ltb (mean ped) first_mean then [f_sub first_mean (mean ped)] else []) in
  let gain := match candidates with
              | [] => py_max (f_sub (default f_zero (mean <$> head seeds)) (mean ped)) one
              | _ => np_median candidates
              end in
  max3 gain (f_mul (f_of_Z 3) width) (f_mul sigma0 (f_dec 25 (-1))).

Definition sigma1_guess (seeds : list seed) (width sigma0 first_sigma : float) : float :=
  py_max
    (if is_finite first_sigma && f_ltb sigma0 first_sigma
     then f_sqrt (py_max (f_sub (f_mul first_sigma first_sigma) (f_mul sigma0 sigma0)) (f_mul width width))
     else py_max (default f_zero (sigma <$> head seeds)) sigma0)
    width.

(** The seeds of a histogram; [None] when there is no peak. *)
Definition seeds_of (h : histogram) (summary_row : row) (max_peaks : Z) (min_area_fraction : float)
    : result (option start) :=
  let width := np_median (diff (hx h)) in
  let total := positive_sum (hcount h) in
  let get k := row_get summary_row k PyNone in
  let sigma0 := max3 (to_float_or one (get "pedestal_sigma")) width one in
  let first_mean := _to_float (get "first_peak_mean") in
  let first_sigma := _to_float (get "first_peak_sigma") in
  let zf := _to_float (get "zero_fraction") in
  let clean := to_float_or total (get "n_clean_waveforms") in
  seeds <-! peak_seeds h width total sigma0 first_mean first_sigma max_peaks min_area_fraction ;;
  match seeds with
  | [] => Ok None
  | _ =>
      ped <-! estimate_pedestal_seed (hx h) (hcount h) sigma0 clean zf width ;;
      Ok (Some (Start width total ped seeds (gain_guess seeds ped width sigma0 first_mean) sigma0
                  (sigma1_guess seeds width sigma0 first_sigma) zf))
  end.

(** One Gaussian of the ladder: initial values and bounds; the pedestal comes first. *)
Definition ladder_seed (s : start) (is_first : bool) (p : seed) : list float * (list float * list float) :=
  let n := py_max (n_events p) one in
  let sg := max3 (sigma p) (bin_width s) one in
  let pad := if is_first then f_mul (f_dec 15 (-1)) sg
             else py_max (f_mul (f_dec 35 (-2)) (gain0 s)) (f_mul (f_dec 125 (-2)) sg) in
  let hi := py_max (f_mul (f_of_Z 2) sg) (f_mul (f_dec 65 (-2)) (gain0 s)) in
  ([n; mean p; sg],
   ([f_zero; f_sub (mean p) pad; py_max (f_mul (f_dec 4 (-1)) sg) (f_mul half (bin_width s))],
    [f_mul (total_counts s) (f_of_Z 2); f_add (mean p) pad; hi])).

(** [range(0, len(params), 3)]: the components of a fitted ladder. *)
Fixpoint components_of (params : list float) (index : Z) : result (list pyval) :=
  match params with
  | [] => Ok []
  | n :: m :: s :: params' =>
      rest <-! components_of params' (index + 1) ;;
      Ok (PyDict [("index", PyInt index); ("n_events", PyFloat n); ("mean", PyFloat m);
                  ("sigma", PyFloat s)] :: rest)
  | _ => Raise (value_error "not enough values to unpack (expected 3)")
  end.

Definition ladder_fit (h : histogram) (s : start) : row :=
  let ps := imap (fun i p => ladder_seed s (i =? 0)%nat p) (ped_seed s :: pe_seeds s) in
  or_failed (
    g_popt <-! curve_fit_sigma (gaussian_ladder_counts_model (bin_width s)) (hx h) (hcount h)
                 (mjoin (fst <$> ps)) (mjoin (fst ∘ snd <$> ps), mjoin (snd ∘ snd <$> ps))
                 (f_sqrt <$> clip_low (f_of_Z 4) (hcount h)) 100000 ;;
    g_curve <-! gaussian_ladder_counts_model (bin_width s) (hx h) g_popt ;;
    comps <-! components_of g_popt 0 ;;
    Ok [("status", PyStr "ok"); ("n_components", PyInt (Z.of_nat (length comps)));
        ("params", PyList comps);
        ("reduced_chi2", PyFloat (reduced_chi2 (hcount h) g_curve (Z.of_nat (length g_popt))))]).

(** [min(a, b)] of floats *)
Definition min2 (a b : float) : float := py_min a b.

Definition names7 : list string := ["amplitude"; "pedestal"; "gain"; "sigma0"; "sigma1"; "mu"; "lambda"].

Definition vin_start (s : start) : list float * (list float * list float) :=
  let amp0 := f_mul (total_counts s) (bin_width s) in
  let zf := zero_fraction s in
  let mu_occ := if is_finite zf && f_ltb f_zero zf && f_ltb zf one
                then SFopp (math_log (py_max micro (min2 (f_dec 999999 (-6)) zf))) else f_dec 15 (-1) in
  let ped := mean (ped_seed s) in
  let s0 := sigma0_seed s in
  let s1 := sigma1_seed s in
  let g := gain0 s in
  let two := f_of_Z 2 in
  let hw := f_mul half (bin_width s) in
  ([amp0; ped; g; s0; s1; mu_occ; f_dec 5 (-2)],
   ([f_mul (f_dec 2 (-1)) amp0; f_sub ped (f_mul two s0); f_mul (f_dec 6 (-1)) g;
     py_max hw (f_mul half s0); py_max hw (f_mul (f_dec 2 (-1)) s1); f_dec 1 (-2); f_zero],
    [f_mul (f_of_Z 5) amp0; f_add ped (f_mul two s0); f_mul (f_dec 15 (-1)) g;
     min2 (f_mul (f_dec 6 (-1)) g) (f_mul (f_dec 18 (-1)) s0); min2 g (f_mul two s1); f_of_Z 8;
     f_dec 95 (-2)])).

Definition vin_fit (h : histogram) (s : start) (vinogradov_nmax : Z) : row :=
  let model x p := seven p (fun a b c d e f g => cpp_model x a b c d e f g (Z.max 1 vinogradov_nmax)) in
  let '(v_p0, bounds) := vin_start s in
  or_failed (
    v_popt <-! curve_fit_sigma model (hx h) (hcount h) v_p0 bounds
                 (f_sqrt <$> clip_low (f_of_Z 4) (hcount h)) 100000 ;;
    v_curve <-! model (hx h) v_popt ;;
    params <-! rmap (fun ik => v <-! at_index v_popt (fst ik) ;; Ok (snd ik, PyFloat v)) (imap pair names7) ;;
    Ok [("status", PyStr "ok"); ("nmax", PyInt vinogradov_nmax); ("params", PyDict params);
        ("reduced_chi2", PyFloat (reduced_chi2 (hcount h) v_curve (Z.of_nat (length v_popt))))]).

Definition fit_histogram (h : histogram) (summary_row : row) (max_peaks vinogradov_nmax : Z)
    (min_area_fraction : float) : result row :=
  if (length (hx h) <? 8)%nat || negb (length (hcount h) =? length (hx h))%nat
     || f_leb (np_sum (hcount h)) f_zero
  then Ok (status "empty_histogram")
  else
    so <-! seeds_of h summary_row max_peaks min_area_fraction ;;
    match so with
    | None => Ok (status "no_peak_components")
    | Some s =>
        Ok [("status", PyStr "ok"); ("bin_width", PyFloat (bin_width s));
            ("total_counts", PyFloat (total_counts s)); ("pedestal_seed", ped_doc (ped_seed s));
            ("pe_seeds", PyList (seed_doc <$> pe_seeds s));
            ("gaussian_ladder_fit", PyDict (ladder_fit h s));
            ("vinogradov_like_fit", PyDict (vin_fit h s vinogradov_nmax));
            ("histogram", PyDict [("bin_centers", floats (hx h)); ("counts", floats (hcount h))])]
    end.

End fit.

(** ** A task *)

Record fit_task : Type := FitTask {
  hist_path : string; summary_row : row; f_parent : string; f_base : string; f_run_name : string;
  f_max_peaks : Z; f_nmax : Z; f_min_area : float }.

Section task.
Context `{NP : Numpy, SP : Scipy, WF : WeightedFit, HO : Host, HI : HistInput}.

Definition flat_component (c : pyval) : result (list float) :=
  rmap (fun k => v <-! item c k ;; to_float v) ["n_events"; "mean"; "sigma"].

(** [save_fit_plot]: the curves it draws again, then the figure twice. *)
Definition save_hist_plot (base : string) (h : histogram) (fit_result : row) (title : string)
    : M files unit :=
  when matplotlib (
    width <- lift (to_float (row_get fit_result "bin_width"
               (PyFloat (if (1 <? length (hx h))%nat then np_median (diff (hx h)) else one)))) ;;
    g_fit <- lift (dict_get (PyDict fit_result) "gaussian_ladder_fit" (PyDict [])) ;;
    g_status <- lift (dict_get g_fit "status" PyNone) ;;
    when (py_eqb g_status (PyStr "ok"))
      (lift (ps <-! dict_get g_fit "params" (PyList []) ;; comps <-! py_iter ps ;;
             flat <-! rmap flat_component comps ;;
             _ <-! gaussian_ladder_counts_model width (hx h) (mjoin flat) ;; Ok tt)) ;;;
    v_fit <- lift (dict_get (PyDict fit_result) "vinogradov_like_fit" (PyDict [])) ;;
    v_status <- lift (dict_get v_fit "status" PyNone) ;;
    when (py_eqb v_status (PyStr "ok"))
      (lift (p <-! item v_fit "params" ;;
             ps <-! rmap (fun k => v <-! item p k ;; to_float v) names7 ;;
             n <-! dict_get v_fit "nmax" (PyInt 8) ;; nmax <-! py_int n ;;
             seven ps (fun a b c d e f g =>
               _ <-! cpp_model (hx h) a b c d e f g nmax ;;
               _ <-! rmap (fun k => _ <-! generalized_poisson_pmf k f g ;;
                                    _ <-! math_pow d 2 ;; math_pow e 2) (seq 0 (Z.to_nat (nmax + 1))) ;;
               Ok tt))) ;;;
    put (base +:+ ".png") (DPlot title) ;;;
    put (base +:+ ".pdf") (DPlot title)).

(** The columns of [fit_summary.csv]. *)
Definition fit_fields : list string :=
  ["channel"; "intensity"; "histogram_csv"; "json_path"; "png_path"; "status"; "n_seed_peaks";
   "gaussian_status"; "gaussian_n_components"; "gaussian_reduced_chi2"; "vinogradov_status";
   "vinogradov_reduced_chi2"; "gain"; "sigma0"; "sigma1"; "vinogradov_snr_ped";
   "vinogradov_snr_combined"; "mu"; "lambda"].

Definition snr_ped (gain sigma0 : float) : float :=
  if is_finite gain && is_finite sigma0 && f_ltb f_zero sigma0 then np_div gain sigma0 else S754_nan.

Definition snr_combined (gain sigma0 sigma1 : float) : float :=
  if is_finite gain && is_finite sigma0 && is_finite sigma1
  then np_div gain (f_sqrt (py_max nano (f_add (f_mul sigma0 sigma0) (f_mul sigma1 sigma1))))
  else S754_nan.

Definition hist_row (t : fit_task) (key : Z * Z) (fit_result : row) : result row :=
  g_fit <-! dict_get (PyDict fit_result) "gaussian_ladder_fit" (PyDict []) ;;
  v_fit <-! dict_get (PyDict fit_result) "vinogradov_like_fit" (PyDict []) ;;
  v_params <-! dict_get v_fit "params" (PyDict []) ;;
  param <-! rmap (fun k => v <-! dict_get v_params k PyNone ;; Ok (_to_float v))
              ["gain"; "sigma0"; "sigma1"; "mu"; "lambda"] ;;
  let at_ i := default S754_nan (param !! i) in
  let gain := at_ 0%nat in let sigma0 := at_ 1%nat in let sigma1 := at_ 2%nat in
  seeds <-! py_iter (row_get fit_result "pe_seeds" (PyList [])) ;;
  g_status <-! dict_get g_fit "status" (PyStr "missing") ;;
  n_g <-! dict_get g_fit "n_components" (PyInt 0) ;;
  n_components <-! py_int n_g ;;
  g_chi <-! dict_get g_fit "reduced_chi2" PyNone ;;
  v_status <-! dict_get v_fit "status" (PyStr "missing") ;;
  v_chi <-! dict_get v_fit "reduced_chi2" PyNone ;;
  Ok [("channel", PyInt (fst key)); ("intensity", PyInt (snd key));
      ("histogram_csv", PyStr (hist_path t)); ("json_path", PyStr (f_base t +:+ ".json"));
      ("png_path", PyStr (f_base t +:+ ".png"));
      ("status", PyStr (status_text (row_get fit_result "status" (PyStr "ok"))));
      ("n_seed_peaks", PyInt (Z.of_nat (length seeds)));
      ("gaussian_status", PyStr (status_text g_status));
      ("gaussian_n_components", PyInt n_components);
      ("gaussian_reduced_chi2", PyFloat (_to_float g_chi));
      ("vinogradov_status", PyStr (status_text v_status));
      ("vinogradov_reduced_chi2", PyFloat (_to_float v_chi));
      ("gain", PyFloat gain); ("sigma0", PyFloat sigma0); ("sigma1", PyFloat sigma1);
      ("vinogradov_snr_ped", PyFloat (snr_ped gain sigma0));
      ("vinogradov_snr_combined", PyFloat (snr_combined gain sigma0 sigma1));
      ("mu", PyFloat (at_ 3%nat)); ("lambda", PyFloat (at_ 4%nat))].

Definition hist_title (t : fit_task) (key : Z * Z) : string :=
  f_run_name t +:+ " ch" +:+ dec_pad 2 (fst key) +:+ " intensity=" +:+ str_Z (snd key).

(** [_fit_task]: no exception is caught. *)
Definition _fit_task (t : fit_task) : M files row :=
  lift (file_ok (f_parent t)) ;;;
  match hist_key (path_name (hist_path t)) with
  | None => raise (Exn RuntimeError ("Unexpected histogram filename: " +:+ path_name (hist_path t)))
  | Some key =>
      h <- lift (load_histogram (hist_path t) (read_csv (hist_path t))) ;;
      fit_result <- lift (fit_histogram h (summary_row t) (f_max_peaks t) (f_nmax t) (f_min_area t)) ;;
      put (f_base t +:+ ".json") (DJson (PyDict fit_result)) ;;;
      save_hist_plot (f_base t) h fit_result (hist_title t key) ;;;
      lift (hist_row t key fit_result)
  end.

End task.

(** ** [main] *)

(** [dir / p]: an absolute path replaces the directory. *)
Definition path_div (dir p : string) : string :=
  match p with String "/" _ => p | _ => path_join dir p end.

Section main.
Context `{NP : Numpy, SP : Scipy, WF : WeightedFit, HO : Host, HI : HistInput}.
Context (args : fit_options).

Definition h_run : string := at_path (h_run_dir args).
Definition cpp_dir : string := at_path (path_div h_run (h_cpp_dir args)).
Definition hist_dir : string := path_join cpp_dir "all_histograms".
Definition summary_csv : string := path_join cpp_dir "summary_by_point_channel.csv".
Definition fits_output_dir : string :=
  if decide (h_output_dir args = "") then path_join cpp_dir "vinogradov_reanalysis_parallel"
  else at_path (h_output_dir args).
Definition fits_dir : string := path_join fits_output_dir "fits".

(** An empty filter lets everything pass. *)
Definition passes (filter_ : gset Z) (n : Z) : bool :=
  bool_decide (filter_ = ∅) || bool_decide (n ∈ filter_).

Definition make_task (name : string) (r : row) : fit_task :=
  {| hist_path := path_join hist_dir name; summary_row := r; f_parent := fits_dir;
     f_base := path_join fits_dir (hist_stem name); f_run_name := path_name h_run;
     f_max_peaks := h_max_peaks args; f_nmax := h_vinogradov_nmax args;
     f_min_area := h_min_area_fraction args |}.

(** The histogram files that are fitted, in the order of their names; one that matches the
    pattern ends in [.csv]. *)
Definition select_task (channels intensities : gset Z) (rows : gmap (Z * Z) row) (name : string)
    : option fit_task :=
  key ← hist_key name;
  if passes channels (fst key) && passes intensities (snd key)
  then make_task name <$> rows !! key else None.

Definition hist_tasks (names : gset string) (channels intensities : gset Z) (rows : gmap (Z * Z) row)
    : list fit_task :=
  omap (select_task channels intensities rows) (sorted_names names).

(** The name of the executor in the report: a serial run counts as ["process"]. *)
Definition reported (e : executor) : string :=
  match e with Thread => "thread" | _ => "process" end.

Definition fits_report (n_tasks jobs : Z) (e : executor) : pyval :=
  PyDict [("run_dir", PyStr h_run); ("cpp_dir", PyStr cpp_dir); ("output_dir", PyStr fits_output_dir);
    ("n_tasks", PyInt n_tasks); ("jobs", PyInt jobs); ("executor", PyStr (reported e));
    ("max_peaks", PyInt (h_max_peaks args)); ("vinogradov_nmax", PyInt (h_vinogradov_nmax args));
    ("min_component_area_fraction", PyFloat (h_min_area_fraction args));
    ("xmin", PyFloat (h_xmin args)); ("xmax", PyFloat (h_xmax args));
    ("summary_csv", PyStr (path_join fits_output_dir "fit_summary.csv")); ("fits_dir", PyStr fits_dir)].

(** The checks of [main] and the tasks it makes. *)
Definition plan_tasks : M files (list fit_task) :=
  names <- lift (match dir_files hist_dir with
                 | Some names => Ok names
                 | None => Raise (Exn RuntimeError ("Missing histogram directory: " +:+ hist_dir))
                 end) ;;
  lift (match dir_files cpp_dir with
        | Some fs => if bool_decide ("summary_by_point_channel.csv" ∈ fs) then Ok tt
                     else Raise (Exn RuntimeError ("Missing summary CSV: " +:+ summary_csv))
        | None => Raise (Exn RuntimeError ("Missing summary CSV: " +:+ summary_csv))
        end) ;;;
  channels <- lift (parse_int_list (h_channels args)) ;;
  intensities <- lift (parse_int_list (h_intensities args)) ;;
  csv <- lift (read_csv summary_csv) ;;
  lift (file_ok fits_output_dir) ;;;
  lift (file_ok fits_dir) ;;;
  let tasks := hist_tasks names channels intensities (summary_rows_of (snd csv)) in
  match tasks with
  | [] => raise (Exn RuntimeError "No histogram tasks selected")
  | _ => ret tasks
  end.

(** Any exception of the processes sends the tasks to threads. *)
Definition fit_all (tasks : list fit_task) : M files (Z * executor * list row) :=
  let jobs := _resolve_jobs cpu_count (h_jobs args) (Z.of_nat (length tasks)) in
  '(e, rows) <- run_either _fit_task (jobs <=? 1) (fun _ => true) jobs tasks ;;
  rows <- lift (sort_rows rows) ;;
  write_table (path_join fits_output_dir "fit_summary.csv") fit_fields rows ;;;
  ret (jobs, e, rows).

Definition main : M files Z :=
  tasks <- plan_tasks ;;
  '(jobs, e, _) <- fit_all tasks ;;
  put (path_join fits_output_dir "report.json")
    (DJson (fits_report (Z.of_nat (length tasks)) jobs e)) ;;;
  ret 0.

End main.

(** ** Lemmas: names *)

Lemma take_digits_app d c r :
  str_all is_digit d = true -> is_digit c = false -> take_digits (d +:+ String c r) = (d, String c r).
Proof.
  intros Hd Hc. induction d as [|a d IH].
  - change (take_digits (String c r) = ("", String c r)). cbn [take_digits]. by rewrite Hc.
  - cbn [str_all] in Hd. apply andb_prop in Hd as [Ha Hd].
    change (take_digits (String a (d +:+ String c r)) = (String a d, String c r)).
    cbn [take_digits]. by rewrite Ha, IH.
Qed.

Lemma take_digits_spec s d r : take_digits s = (d, r) -> s = d +:+ r /\ str_all is_digit d = true.
Proof.
  revert d r. induction s as [|c s IH]; intros d r; cbn [take_digits]; [by intros [= <- <-]|].
  destruct (is_digit c) eqn:Hc; [|by intros [= <- <-]].
  destruct (take_digits s) as [d' r'] eqn:Hs. intros [= <- <-].
  destruct (IH d' r' eq_refl) as [-> Hd]. split; [done|]. cbn [str_all]. by rewrite Hc.
Qed.

Lemma strip_prefix_spec p s r : strip_prefix p s = Some r -> s = p +:+ r.
Proof.
  revert s. induction p as [|c p IH]; intros s; [by intros [= ->]|].
  destruct s as [|c' s]; [done|]. cbn [strip_prefix].
  destruct (Ascii.eqb_spec c c') as [->|]; [|done]. intros H. by rewrite (IH s H).
Qed.

Lemma hist_digits_spec name d1 d2 :
  hist_digits name = Some (d1, d2) ->
  name = "ch" +:+ d1 +:+ "_intensity_" +:+ d2 +:+ "_histogram.csv" /\
  str_all is_digit d1 = true /\ str_all is_digit d2 = true /\ d1 <> "" /\ d2 <> "".
Proof.
  unfold hist_digits. intros (rest & Hr & H)%bind_Some.
  destruct (take_digits rest) as [e1 r1] eqn:H1. apply bind_Some in H as (r2 & Hr2 & H).
  destruct (take_digits r2) as [e2 r3] eqn:H2.
  destruct (bool_decide (e1 <> "")) eqn:Hb1, (bool_decide (e2 <> "")) eqn:Hb2,
    (bool_decide (r3 = "_histogram.csv")) eqn:Hb3; try done.
  rewrite bool_decide_eq_true in Hb1, Hb2, Hb3. injection H as <- <-.
  apply strip_prefix_spec in Hr, Hr2. apply take_digits_spec in H1 as [-> Hd1], H2 as [-> Hd2].
  subst. by split_and!.
Qed.

Lemma strip_prefix_app p s : strip_prefix p (p +:+ s) = Some s.
Proof.
  induction p as [|c p IH]; [done|]. change (String c p +:+ s) with (String c (p +:+ s)).
  cbn [strip_prefix]. by rewrite Ascii.eqb_refl.
Qed.

Lemma hist_digits_app d1 d2 :
  str_all is_digit d1 = true -> str_all is_digit d2 = true -> d1 <> "" -> d2 <> "" ->
  hist_digits ("ch" +:+ d1 +:+ "_intensity_" +:+ d2 +:+ "_histogram.csv") = Some (d1, d2).
Proof.
  intros H1 H2 Hn1 Hn2. unfold hist_digits. rewrite strip_prefix_app. cbn [mbind option_bind].
  change ("_intensity_" +:+ d2 +:+ "_histogram.csv")
    with (String "_" ("intensity_" +:+ d2 +:+ "_histogram.csv")).
  rewrite take_digits_app by done. change (String "_" ("intensity_" +:+ d2 +:+ "_histogram.csv"))
    with ("_intensity_" +:+ d2 +:+ "_histogram.csv").
  rewrite strip_prefix_app. cbn [mbind option_bind].
  change "_histogram.csv" with (String "_" "histogram.csv") at 1.
  rewrite take_digits_app by done. by rewrite !bool_decide_eq_true_2.
Qed.

Lemma dec_pad_digits w z : 0 <= z ->
  str_all is_digit (dec_pad w z) = true /\ dec_pad w z <> "" /\ unsigned10 (dec_pad w z) = Some z.
Proof.
  intros Hz. unfold dec_pad. destruct (Z.ltb_spec z 0); [lia|]. split_and!.
  - apply zeros_digits, str_Z_digits, Hz.
  - intros He. destruct (zeros _); [by apply (str_Z_not_empty z)|done].
  - by apply unsigned10_pad.
Qed.

(** A name that is read has the digits of its key; the other scripts look for the padded ones. *)
Lemma hist_key_name c i : 0 <= c -> 0 <= i -> hist_key (hist_name c i) = Some (c, i).
Proof.
  intros Hc Hi. destruct (dec_pad_digits 2 c Hc) as (H1 & H2 & H3).
  destruct (dec_pad_digits 4 i Hi) as (H4 & H5 & H6).
  unfold hist_key, hist_name. rewrite hist_digits_app by done. cbn [mbind option_bind].
  rewrite H3. cbn [mbind option_bind]. by rewrite H6.
Qed.

Lemma hist_key_digits name k :
  hist_key name = Some k ->
  exists d1 d2, name = "ch" +:+ d1 +:+ "_intensity_" +:+ d2 +:+ "_histogram.csv" /\
    str_all is_digit d1 = true /\ str_all is_digit d2 = true.
Proof.
  unfold hist_key. intros ([d1 d2] & Hd & _)%bind_Some.
  apply hist_digits_spec in Hd as (-> & H1 & H2 & _). by exists d1, d2.
Qed.

Lemma substring_front a b : String.substring 0 (String.length a) (a +:+ b) = a.
Proof.
  induction a as [|c a IH]; [by destruct b|]. change (String c a +:+ b) with (String c (a +:+ b)).
  cbn [String.length String.substring]. by rewrite IH.
Qed.

Lemma string_length_app a b : String.length (a +:+ b) = (String.length a + String.length b)%nat.
Proof.
  induction a as [|c a IH]; [done|]. change (String c a +:+ b) with (String c (a +:+ b)).
  cbn [String.length]. by rewrite IH.
Qed.

Lemma hist_key_stem name k : hist_key name = Some k -> name = hist_stem name +:+ ".csv".
Proof.
  intros (d1 & d2 & -> & _)%hist_key_digits. unfold hist_stem.
  set (a := "ch" +:+ d1 +:+ "_intensity_" +:+ d2 +:+ "_histogram").
  replace ("ch" +:+ d1 +:+ "_intensity_" +:+ d2 +:+ "_histogram.csv") with (a +:+ ".csv")
    by (unfold a; by rewrite !append_assoc).
  rewrite string_length_app. cbn [String.length]. rewrite Nat.add_sub. by rewrite substring_front.
Qed.

Lemma hist_key_no_slash name k : hist_key name = Some k -> no_slash name.
Proof.
  intros (d1 & d2 & -> & H1 & H2)%hist_key_digits. unfold no_slash.
  assert (Hd : forall d, str_all is_digit d = true -> str_all (fun c => negb (Ascii.eqb c "/")) d = true).
  { intros d. apply str_all_impl. intros c Hc. by destruct (Ascii.eqb_spec c "/") as [->|]. }
  rewrite !str_all_app. by rewrite (Hd d1 H1), (Hd d2 H2).
Qed.

(** Files of the output directory differ by their extensions. *)
Definition extension (path : string) : string := default "" (after_last "." path).

Lemma extension_app a e :
  str_all (fun c => negb (Ascii.eqb c ".")) e = true -> extension (a +:+ "." +:+ e) = e.
Proof.
  intros He. unfold extension.
  assert (Hno : after_last "." e = None).
  { clear a. induction e as [|c e IH]; [done|]. cbn [str_all] in He. apply andb_prop in He as [Hc He].
    cbn [after_last strip_prefix]. rewrite IH by done. rewrite Ascii.eqb_sym.
    by destruct (Ascii.eqb c "."). }
  enough (after_last "." (a +:+ "." +:+ e) = Some e) as -> by done.
  induction a as [|c a IH].
  - change (after_last "." (String "." e) = Some e). cbn [after_last]. by rewrite Hno.
  - change (after_last "." (String c (a +:+ "." +:+ e)) = Some e). cbn [after_last]. by rewrite IH.
Qed.

(** ** Lemmas: a task *)

Section fit_task.
Context `{NP : Numpy, SP : Scipy, WF : WeightedFit, HO : Host, HI : HistInput}.

Definition fit_outs (t : fit_task) : gset string :=
  {[f_base t +:+ ".json"; f_base t +:+ ".png"; f_base t +:+ ".pdf"]}.

Definition hist_task_key (t : fit_task) : Z * Z := default (0, 0) (hist_key (path_name (hist_path t))).

Lemma elem_of_fit_outs t p :
  p ∈ fit_outs t <-> exists e, e ∈ ["json"; "png"; "pdf"] /\ p = f_base t +:+ "." +:+ e.
Proof using Type.
  unfold fit_outs. rewrite !elem_of_union, !elem_of_singleton. split.
  - intros [[->| ->]| ->]; [exists "json"|exists "png"|exists "pdf"]; (split; [|done]);
      apply (bool_decide_unpack _); vm_compute; exact I.
  - intros (e & He & ->). rewrite !elem_of_cons in He.
    destruct He as [->|[->|[->|He]]]; [auto..|by apply not_elem_of_nil in He].
Qed.

Lemma fit_outs_extension t p : p ∈ fit_outs t -> extension p ∈ ["json"; "png"; "pdf"].
Proof using Type.
  intros (e & He & ->)%elem_of_fit_outs. rewrite extension_app; [done|].
  rewrite !elem_of_cons in He. destruct He as [->|[->|[->|He]]]; [done..|by apply not_elem_of_nil in He].
Qed.

Lemma acts_fit_task t a : a ∉ fit_outs t -> acts a (fit_outs t) (_fit_task t).
Proof using Type.
  intros Ha. unfold _fit_task, save_hist_plot.
  repeat first [ apply acts_lift | apply acts_put; unfold fit_outs; set_solver | apply acts_when
               | apply acts_bind; [done| |intros ?] | case_match ].
Qed.

(** What a task that works returns. *)
Lemma fit_task_row t w r w' :
  _fit_task t w = (Ok r, w') ->
  exists key, hist_key (path_name (hist_path t)) = Some key /\
    row_key r = Ok key /\ fst <$> r = fit_fields.
Proof using Type.
  unfold _fit_task. intros H. inv_bind H. destruct (hist_key _) as [key|]; [|done].
  inv_bind H. inv_bind H. inv_bind H. inv_bind H. exists key. split; [done|].
  unfold lift in H. injection H as H _. unfold hist_row in H.
  repeat (apply rbind_ok in H as (? & ? & H)). injection H as <-. by destruct key.
Qed.

Lemma fit_task_key t w r w' : _fit_task t w = (Ok r, w') -> row_key r = Ok (hist_task_key t).
Proof using Type. intros (k & Hk & Hr & _)%fit_task_row. unfold hist_task_key. by rewrite Hk. Qed.

End fit_task.

(** A table whose rows have the columns of the header is written. *)
Lemma fitting_fits fields (rows : list row) :
  Forall (fun r => fst <$> r = fields) rows -> fitting fields rows = (rows, true).
Proof.
  induction 1 as [|r rows Hr _ IH]; [done|]. cbn [fitting]. rewrite Hr, IH.
  rewrite (proj2 (forallb_forall _ fields)); [done|]. intros k Hk.
  by apply bool_decide_eq_true, list_elem_of_In.
Qed.

Lemma NoDup_omap_key {A B K : Type} (f : A -> option B) (g : B -> K) (l : list A) :
  NoDup l ->
  (forall a a' b b', a ∈ l -> a' ∈ l -> f a = Some b -> f a' = Some b' -> g b = g b' -> a = a') ->
  NoDup (g <$> omap f l).
Proof.
  induction 1 as [|a l Ha Hl IH]; intros Hinj; [constructor|]. cbn [omap list_omap].
  assert (Hrest : NoDup (g <$> omap f l)).
  { apply IH. intros x y b b' Hx Hy. apply Hinj; by apply list_elem_of_further. }
  destruct (f a) as [b|] eqn:Hf; [|done]. cbn [fmap list_fmap]. constructor; [|done].
  intros (b' & Hg & (a' & Ha' & Hf')%list_elem_of_omap)%list_elem_of_fmap. apply Ha.
  rewrite (Hinj a a' b b'); [done|apply list_elem_of_here|by apply list_elem_of_further|done..].
Qed.

(** ** Lemmas: the tasks of a run *)

Section tasks.
Context `{NP : Numpy, SP : Scipy, WF : WeightedFit, HO : Host, HI : HistInput}.
Context (args : fit_options).

(** A file that is fitted: its name, the key the name tells, and the row of the summary. *)
Definition selected (channels intensities : gset Z) (rows : gmap (Z * Z) row) (name : string)
    (key : Z * Z) (r : row) : Prop :=
  hist_key name = Some key /\ passes channels (fst key) = true /\
  passes intensities (snd key) = true /\ rows !! key = Some r.

Lemma select_task_spec chs ints rows name t :
  select_task args chs ints rows name = Some t <->
  exists key r, selected chs ints rows name key r /\ t = make_task args name r.
Proof using Type.
  unfold select_task, selected. split.
  - intros (key & Hk & H)%bind_Some. destruct (passes chs _) eqn:Hc, (passes ints _) eqn:Hi; try done.
    apply fmap_Some in H as (r & Hr & ->). by exists key, r.
  - intros (key & r & (Hk & Hc & Hi & Hr) & ->). rewrite Hk. cbn [mbind option_bind].
    by rewrite Hc, Hi, Hr.
Qed.

Lemma elem_of_hist_tasks names chs ints rows t :
  t ∈ hist_tasks args names chs ints rows <->
  exists name key r, name ∈ names /\ selected chs ints rows name key r /\ t = make_task args name r.
Proof using Type.
  unfold hist_tasks. rewrite list_elem_of_omap. split.
  - intros (name & Hn%elem_of_sorted_names & (key & r & Hs & ->)%select_task_spec). by exists name, key, r.
  - intros (name & key & r & Hn & Hs & ->). exists name. rewrite elem_of_sorted_names, select_task_spec. eauto.
Qed.

Lemma make_task_key name r key : hist_key name = Some key -> hist_task_key (make_task args name r) = key.
Proof using Type.
  intros Hk. unfold hist_task_key, make_task. cbn [hist_path].
  rewrite path_name_join by (by eapply hist_key_no_slash). by rewrite Hk.
Qed.

(** Two tasks write the same file only when they are of the same histogram. *)
Lemma make_task_outs name name' r r' k k' p :
  hist_key name = Some k -> hist_key name' = Some k' ->
  p ∈ fit_outs (make_task args name r) -> p ∈ fit_outs (make_task args name' r') -> name = name'.
Proof using Type.
  intros Hk Hk' Hp Hp'. pose proof Hp as He%fit_outs_extension. pose proof Hp' as He'%fit_outs_extension.
  apply elem_of_fit_outs in Hp as (e & Hin & ->), Hp' as (e' & Hin' & Heq).
  assert (Hee : forall x, x ∈ ["json"; "png"; "pdf"] -> forall a, extension (a +:+ "." +:+ x) = x).
  { intros x Hx a. apply extension_app. rewrite !elem_of_cons in Hx.
    destruct Hx as [->|[->|[->|Hx]]]; [done..|by apply not_elem_of_nil in Hx]. }
  pose proof (f_equal extension Heq) as Hext. rewrite !Hee in Hext by done. subst e'.
  apply string_app_inj_r in Heq. cbn [make_task f_base] in Heq. apply path_join_inj in Heq.
  by rewrite (hist_key_stem name k Hk), (hist_key_stem name' k' Hk'), Heq.
Qed.

Lemma hist_path_apart name r t : hist_key name <> None -> hist_path (make_task args name r) ∉ fit_outs t.
Proof using Type.
  intros Hk Hin%fit_outs_extension. destruct (hist_key name) as [k|] eqn:Hkey; [|done].
  cbn [make_task hist_path] in Hin.
  rewrite (hist_key_stem name k Hkey), <- path_join_suffix in Hin.
  change ".csv" with ("." +:+ "csv") in Hin. rewrite extension_app in Hin by done.
  revert Hin. apply (bool_decide_unpack _). vm_compute. exact I.
Qed.

Lemma hist_paths_apart names chs ints rows : NoDup (hist_path <$> hist_tasks args names chs ints rows).
Proof using Type.
  apply NoDup_omap_key; [apply NoDup_sorted_names|].
  intros n n' t t' _ _ (k & r & _ & ->)%select_task_spec (k' & r' & _ & ->)%select_task_spec.
  apply path_join_inj.
Qed.

(** No task writes what another one reads or writes. *)
Lemma hist_tasks_separate names chs ints rows :
  separate hist_path fit_outs (hist_tasks args names chs ints rows).
Proof using Type.
  intros i j t t' Hi Hj.
  pose proof Hi as (n & k & r & _ & (Hk & _) & Ht)%list_elem_of_lookup_2%elem_of_hist_tasks.
  pose proof Hj as (n' & k' & r' & _ & (Hk' & _) & Ht')%list_elem_of_lookup_2%elem_of_hist_tasks.
  split; [subst t'; apply hist_path_apart; by rewrite Hk'|].
  intros Hne p Hp Hp'. apply Hne. subst t t'.
  pose proof (make_task_outs n n' r r' k k' p Hk Hk' Hp Hp') as <-.
  apply (NoDup_lookup _ i j (path_join (hist_dir args) n) (hist_paths_apart names chs ints rows));
    by rewrite list_lookup_fmap, ?Hi, ?Hj.
Qed.

Lemma hist_tasks_sorted names chs ints rows :
  StronglySorted str_le (path_name <$> (hist_path <$> hist_tasks args names chs ints rows)).
Proof using Type.
  unfold hist_tasks. pose proof (sorted_names_sorted names) as Hs. revert Hs. generalize (sorted_names names) as l.
  assert (Hname : forall n t, select_task args chs ints rows n = Some t -> path_name (hist_path t) = n).
  { intros n t (k & r & (Hk & _) & ->)%select_task_spec. cbn [make_task hist_path].
    apply path_name_join. by eapply hist_key_no_slash. }
  induction l as [|n l IH]; intros Hs; [constructor|]. apply StronglySorted_inv in Hs as [Hs Hn].
  cbn [omap list_omap]. destruct (select_task args chs ints rows n) as [t|] eqn:Ht; [|by apply IH].
  cbn [fmap list_fmap]. constructor; [by apply IH|]. rewrite (Hname n t Ht).
  apply Forall_forall. intros x (y & -> & (t' & -> & (n' & Hn' & Ht')%list_elem_of_omap)%list_elem_of_fmap)%list_elem_of_fmap.
  rewrite (Hname n' t' Ht'). by apply (proj1 (Forall_forall _ _) Hn).
Qed.

(** The files are named as the plotting scripts name them. *)
Definition well_named (names : gset string) : Prop :=
  forall n k, n ∈ names -> hist_key n = Some k -> n = hist_name (fst k) (snd k).

Lemma hist_keys_apart names chs ints rows :
  well_named names -> NoDup (hist_task_key <$> hist_tasks args names chs ints rows).
Proof using Type.
  intros Hw. apply NoDup_omap_key; [apply NoDup_sorted_names|].
  intros n n' t t' Hn%elem_of_sorted_names Hn'%elem_of_sorted_names
    (k & r & (Hk & _) & ->)%select_task_spec (k' & r' & (Hk' & _) & ->)%select_task_spec Heq.
  rewrite (make_task_key n r k Hk), (make_task_key n' r' k' Hk') in Heq. subst k'.
  by rewrite (Hw n k Hn Hk), (Hw n' k Hn' Hk').
Qed.

End tasks.

(** ** Lemmas: the steps of [main] *)

Section steps.
Context `{NP : Numpy, SP : Scipy, WF : WeightedFit, HO : Host, HI : HistInput}.
Context (args : fit_options).

(** The files of the directory that is read. *)
Definition hist_names : gset string := default ∅ (dir_files (hist_dir args)).

(** What [main] found when it had tasks. *)
Lemma plan_tasks_ok w tasks w' :
  plan_tasks args w = (Ok tasks, w') ->
  w' = w /\ tasks <> [] /\
  exists chs ints csv, parse_int_list (h_channels args) = Ok chs /\
    parse_int_list (h_intensities args) = Ok ints /\ read_csv (summary_csv args) = Ok csv /\
    tasks = hist_tasks args hist_names chs ints (summary_rows_of (snd csv)).
Proof using Type.
  unfold plan_tasks. intros H. unfold lift in H. do 7 inv_bind H.
  injection Hrun0 as _ <-. injection Hrun1 as Hc <-. injection Hrun2 as Hi <-.
  injection Hrun3 as Hcsv <-. injection Hrun4 as _ <-. injection Hrun5 as _ <-.
  injection Hrun as Hn <-. cbv zeta in H.
  assert (Ha : hist_names = a) by (unfold hist_names; revert Hn; by destruct (dir_files (hist_dir args)); [intros [= <-]|]).
  rewrite <- Ha in H.
  destruct (hist_tasks args hist_names a1 a2 (summary_rows_of a3.2)) as [|t ts] eqn:Ht; [done|].
  injection H as <- <-. split_and!; [done..|]. exists a1, a2, a3. by rewrite Ht.
Qed.

Definition fit_csv : string := path_join (fits_output_dir args) "fit_summary.csv".
Definition fit_report : string := path_join (fits_output_dir args) "report.json".

(** The tasks of a run and the machine it runs on. *)
Record planned (tasks : list fit_task) : Prop := {
  planned_apart : separate hist_path fit_outs tasks;
  planned_keys : NoDup (hist_task_key <$> tasks);
  planned_pools : pools_work tasks (fun _ => true);
  planned_csv : forall t, t ∈ tasks -> fit_csv ∉ fit_outs t;
  planned_report : forall t, t ∈ tasks -> fit_report ∉ fit_outs t }.

Lemma outs_of_fits name r p :
  p ∈ fit_outs (make_task args name r) -> exists s, p = path_join (fits_output_dir args) ("fits/" +:+ s).
Proof using Type.
  intros (e & _ & ->)%elem_of_fit_outs. exists (hist_stem name +:+ "." +:+ e).
  cbn [make_task f_base]. unfold fits_dir. by rewrite path_join_suffix, path_join_nest by done.
Qed.

Lemma plan_planned w tasks w' :
  plan_tasks args w = (Ok tasks, w') -> well_named hist_names -> pools_work tasks (fun _ => true) ->
  planned tasks.
Proof using Type.
  intros (_ & _ & chs & ints & csv & _ & _ & _ & ->)%plan_tasks_ok Hw Hp. split; [..|exact Hp| |].
  - apply hist_tasks_separate.
  - by apply hist_keys_apart.
  - intros t (n & k & r & _ & _ & ->)%elem_of_hist_tasks [s Hs]%outs_of_fits. by apply path_join_inj in Hs.
  - intros t (n & k & r & _ & _ & ->)%elem_of_hist_tasks [s Hs]%outs_of_fits. by apply path_join_inj in Hs.
Qed.

Definition works (w : files) (t : fit_task) : Prop := is_ok (outcome _fit_task w t) = true.

Lemma works_row w t : works w t -> fst <$> task_row _fit_task w t = fit_fields.
Proof using Type.
  unfold works, task_row, outcome. destruct (_fit_task t w) as [[r|e] w'] eqn:Hr; [|done]. intros _.
  by apply fit_task_row in Hr as (k & _ & _ & Hr).
Qed.

(** The fits of tasks that work: the table of their rows, after all of them. *)
Lemma fit_all_table tasks w :
  planned tasks -> Forall (works w) tasks ->
  let table := fit_table _fit_task hist_task_key w tasks in
  exists e w1,
    fit_all args tasks w =
      bind (put fit_csv (DCsv fit_fields table))
        (fun _ => ret (_resolve_jobs cpu_count (h_jobs args) (Z.of_nat (length tasks)), e, table)) w1 /\
    each_wrote _fit_task fit_outs tasks w w1.
Proof using Type.
  intros Hp Hok table. unfold fit_all. set (n := _resolve_jobs _ _ _).
  destruct (either_rows _fit_task hist_path fit_outs (fun t => acts_fit_task t _) tasks
    (planned_apart _ Hp) (n <=? 1) (fun _ => true) n w (planned_pools _ Hp) Hok)
    as (e & ts & w1 & Hrun & Hperm & Hwrote & _).
  exists e, w1. split; [|done]. unfold bind at 1. rewrite Hrun. unfold bind at 1, lift at 1.
  rewrite (sort_rows_table _fit_task hist_task_key fit_task_key w ts tasks Hperm (planned_keys _ Hp) Hok).
  fold table. fold fit_csv. unfold write_table. rewrite fitting_fits.
  - unfold bind, put, lift. by destruct (file_ok fit_csv).
  - apply Forall_forall. intros r (k & Hr)%list_elem_of_fmap. destruct Hr as [-> Hr].
    rewrite (merge_sort_Permutation key_le) in Hr. apply list_elem_of_fmap in Hr as (t & -> & Ht).
    apply works_row. by apply (proj1 (Forall_forall _ _) Hok).
Qed.

End steps.

(** The histograms that are fitted.  When the checks of [main] pass, it has a task for exactly
    the files of [all_histograms] whose name is that of a histogram, whose channel and intensity
    pass the filters and are in the summary, with their row of it; each file once, in the order of
    the names; a run without any is refused.  Nothing has been written. *)
Theorem planned_tasks_selected `{NP : Numpy, SP : Scipy, WF : WeightedFit, HO : Host, HI : HistInput}
    args w tasks w' :
  plan_tasks args w = (Ok tasks, w') ->
  w' = w /\ tasks <> [] /\
  exists chs ints csv,
    parse_int_list (h_channels args) = Ok chs /\ parse_int_list (h_intensities args) = Ok ints /\
    read_csv (summary_csv args) = Ok csv /\
    (forall t, t ∈ tasks <-> exists name key r, name ∈ hist_names args /\
       selected chs ints (summary_rows_of (snd csv)) name key r /\ t = make_task args name r) /\
    NoDup (hist_path <$> tasks) /\ StronglySorted str_le (path_name <$> (hist_path <$> tasks)).
Proof.
  intros (-> & Hne & chs & ints & csv & Hc & Hi & Hcsv & ->)%plan_tasks_ok. split_and!; [done..|].
  exists chs, ints, csv. split_and!; [done..| | |].
  - intros t. apply elem_of_hist_tasks.
  - apply hist_paths_apart.
  - apply hist_tasks_sorted.
Qed.

(** What a run of the fits leaves. *)
Record fitted `{NP : Numpy, SP : Scipy, WF : WeightedFit, HO : Host, HI : HistInput} (args : fit_options)
    (tasks : list fit_task) (w w' : files) : Prop := {
  table_of_fits : w' !! fit_csv args =
    Some (DCsv fit_fields (fit_table _fit_task hist_task_key w tasks));
  report_of_fits : exists jobs e,
    w' !! fit_report args = Some (DJson (fits_report args (Z.of_nat (length tasks)) jobs e));
  files_of_fits : forall t p, t ∈ tasks -> p ∈ fit_outs t -> w' !! p = snd (_fit_task t w) !! p }.

(** A run over stored histograms does its work.  Let the histograms be named as the plotting
    scripts name them, and let the pools run their tasks, or the process pool fail with any
    exception.  When every selected histogram can be fitted and the table and the report can be
    written, [main] returns 0; [fit_summary.csv] holds, whatever the executor and the order in
    which the workers finished, one row per selected histogram, what its task gives from the
    files before the fits, sorted by channel and intensity; the documents and figures are those
    each task writes alone; and [report.json] counts the tasks. *)
Theorem histogram_fits_complete `{NP : Numpy, SP : Scipy, WF : WeightedFit, HO : Host, HI : HistInput}
    args w tasks w0 :
  plan_tasks args w = (Ok tasks, w0) ->
  well_named (hist_names args) -> pools_work tasks (fun _ => true) ->
  file_ok (fit_csv args) = Ok tt -> file_ok (fit_report args) = Ok tt ->
  Forall (works w) tasks ->
  exists w', main args w = (Ok 0, w') /\ fitted args tasks w w'.
Proof.
  intros Hplan Hnames Hpools Hc Hr Hok. pose proof (plan_planned args w tasks w0 Hplan Hnames Hpools) as Hp.
  destruct (plan_tasks_ok args w tasks w0 Hplan) as (-> & _ & _).
  destruct (fit_all_table args tasks w Hp Hok) as (e & w1 & Hrun & [HA _]).
  unfold main, bind at 1. rewrite Hplan. unfold bind at 1. rewrite Hrun.
  unfold put, bind, lift, modify, ret. rewrite Hc. fold (fit_report args). rewrite Hr.
  eexists. split; [reflexivity|].
  assert (Hne : fit_report args <> fit_csv args) by (by intros He%path_join_inj).
  split.
  - by rewrite lookup_insert_ne, lookup_insert_eq by done.
  - eexists _, e. by rewrite lookup_insert_eq.
  - intros t p Ht Hp'. rewrite !lookup_insert_ne; [by apply HA| |].
    + intros <-. by apply (planned_csv _ _ Hp t).
    + intros <-. by apply (planned_report _ _ Hp t).
Qed.

(** One histogram that cannot be fitted ends the whole run.  [_fit_task] catches nothing: when
    the task of one selected histogram raises - an empty file, a column that is no number - so
    does [main], under every schedule, and neither [fit_summary.csv] nor [report.json] is
    written: the rows of the histograms that could be fitted are lost with it. *)
Theorem one_bad_histogram_aborts `{NP : Numpy, SP : Scipy, WF : WeightedFit, HO : Host, HI : HistInput}
    args w tasks w0 t e :
  plan_tasks args w = (Ok tasks, w0) ->
  well_named (hist_names args) -> pools_work tasks (fun _ => true) ->
  t ∈ tasks -> outcome _fit_task w t = Raise e ->
  exists e' w', main args w = (Raise e', w') /\
    w' !! fit_csv args = w !! fit_csv args /\ w' !! fit_report args = w !! fit_report args.
Proof.
  intros Hplan Hnames Hpools Ht He. pose proof (plan_planned args w tasks w0 Hplan Hnames Hpools) as Hp.
  destruct (plan_tasks_ok args w tasks w0 Hplan) as (-> & _ & _).
  set (n := _resolve_jobs cpu_count (h_jobs args) (Z.of_nat (length tasks))).
  destruct (either_raises _fit_task hist_path fit_outs (fun t => acts_fit_task t _) tasks
    (planned_apart _ _ Hp) (n <=? 1) (fun _ => true) n w t e Hpools Ht He) as [e' He'].
  assert (Hspare : forall p, (forall t, t ∈ tasks -> p ∉ fit_outs t) ->
            spares p (run_either _fit_task (n <=? 1) (fun _ => true) n tasks)).
  { intros p Hout. apply spares_either. intros t' Ht'. eapply acts_spares; [apply acts_fit_task|by apply Hout].
    destruct (list_elem_of_lookup_1 _ _ Ht') as [i Hi]. by apply (planned_apart _ _ Hp i i t' t'). }
  pose proof (Hspare _ (planned_csv _ _ Hp) w) as Hcsv. pose proof (Hspare _ (planned_report _ _ Hp) w) as Hrep.
  unfold main, bind at 1. rewrite Hplan. unfold bind at 1, fit_all. fold n. unfold bind at 1.
  destruct (run_either _ _ _ _ _ w) as [r w'] eqn:Hrun. cbn [fst] in He'. subst r.
  by exists e', w'.
Qed.

(** ** A run with two histograms, on a machine that refuses processes *)

#[local] Existing Instances some_numpy some_scipy some_host.

#[local] Instance some_weighted : WeightedFit := {
  math_log := fun x => x; curve_fit_sigma := fun _ _ _ p0 _ _ _ => Ok p0 }.

Definition some_hist_rows : list row :=
  (fun k => [("x", PyStr (str_Z (100 * k))); ("count", PyStr (str_Z (20 - k)));
             ("peak_1", PyStr (str_Z (k + 1)))]) <$> seqZ 0 8.

Definition some_summary : list row :=
  (fun ch => [("channel", PyStr (str_Z ch)); ("intensity", PyStr "900"); ("pedestal_sigma", PyStr "10");
              ("first_peak_mean", PyStr "250"); ("zero_fraction", PyStr "0.5")]) <$> [3; 15].

(** The files; the histogram of channel 15 is empty when it is [bad]. *)
Definition some_hist_input (bad : bool) : HistInput := {|
  dir_files := fun d =>
    if decide (d = "run/cpp/all_histograms")
    then Some {["notes.csv"; "ch03_intensity_0900_histogram.csv"; "ch15_intensity_0900_histogram.csv";
                "ch15_intensity_1150_histogram.csv"]}
    else if decide (d = "run/cpp") then Some {["summary_by_point_channel.csv"]} else None;
  read_csv := fun p =>
    if decide (p = "run/cpp/summary_by_point_channel.csv") then Ok ([], some_summary)
    else if bad && bool_decide (p = "run/cpp/all_histograms/ch15_intensity_0900_histogram.csv")
    then Ok (["x"; "count"; "peak_1"], [])
    else Ok (["x"; "count"; "peak_1"], some_hist_rows);
  at_path := fun p => p |}.

Definition some_fit_options : fit_options :=
  {| h_run_dir := "run"; h_cpp_dir := "cpp"; h_output_dir := "out"; h_jobs := 2; h_max_peaks := 8;
     h_vinogradov_nmax := 3; h_min_area_fraction := f_dec 1 (-2); h_channels := "3, 15";
     h_intensities := ""; h_xmin := f_zero; h_xmax := f_of_Z 20000 |}.

Definition some_hist_task (bad : bool) (ch : Z) : fit_task :=
  make_task (HI := some_hist_input bad) some_fit_options (hist_name ch 900)
    (default [] (summary_rows_of some_summary !! (ch, 900))).

Lemma some_plan bad :
  plan_tasks (HI := some_hist_input bad) some_fit_options ∅ =
    (Ok [some_hist_task bad 3; some_hist_task bad 15], ∅).
Proof. destruct bad; vm_compute; reflexivity. Qed.

Lemma some_well_named bad : well_named (hist_names (HI := some_hist_input bad) some_fit_options).
Proof.
  intros n k Hn. change (hist_names _) with
    ({["notes.csv"; "ch03_intensity_0900_histogram.csv"; "ch15_intensity_0900_histogram.csv";
       "ch15_intensity_1150_histogram.csv"]} : gset string) in Hn.
  rewrite !elem_of_union, !elem_of_singleton in Hn.
  destruct Hn as [[[->| ->]| ->]| ->]; vm_compute; first [done|by intros [= <-]].
Qed.

Lemma some_pools_work (t t' : fit_task) : pools_work [t; t'] (fun _ => true).
Proof.
  intros jobs. split.
  - split_and!; [done| |]; cbn; apply Permutation_swap.
  - right. split_and!; [by eexists| |]; intros i Hi; by apply not_elem_of_nil in Hi.
Qed.

Lemma planned_tasks_selected_witness :
  StronglySorted str_le (path_name <$> (hist_path <$> [some_hist_task false 3; some_hist_task false 15])).
Proof.
  destruct (planned_tasks_selected (HI := some_hist_input false) some_fit_options ∅ _ _ (some_plan false))
    as (_ & _ & chs & ints & csv & _ & _ & _ & _ & _ & Hs). exact Hs.
Defined.

Lemma histogram_fits_complete_witness :
  exists w', main (HI := some_hist_input false) some_fit_options ∅ = (Ok 0, w') /\
    fitted (HI := some_hist_input false) some_fit_options
      [some_hist_task false 3; some_hist_task false 15] ∅ w'.
Proof.
  apply (histogram_fits_complete (HI := some_hist_input false) some_fit_options ∅ _ _ (some_plan false)
           (some_well_named false) (some_pools_work _ _)); [done|done|].
  repeat constructor; vm_compute; reflexivity.
Defined.

Lemma one_bad_histogram_aborts_witness :
  exists e' w', main (HI := some_hist_input true) some_fit_options ∅ = (Raise e', w') /\
    w' !! "out/fit_summary.csv" = None.
Proof.
  destruct (one_bad_histogram_aborts (HI := some_hist_input true) some_fit_options ∅ _ _
    (some_hist_task true 15)
    (Exn RuntimeError "Empty histogram: run/cpp/all_histograms/ch15_intensity_0900_histogram.csv")
    (some_plan true) (some_well_named true) (some_pools_work _ _)) as (e' & w' & Hm & Hc & _).
  - apply list_elem_of_further, list_elem_of_here.
  - vm_compute. reflexivity.
  - exists e', w'. split; [exact Hm|exact Hc].
Defined.
