(* ===== verification/Reanalysis.v ===== *)
(** Offline reanalysis of an LED intensity run:
    [client/dynamic_range_led/reanalyze_led_charge_run.py] (its fits are in [PeFit]).

    The run directories are those of [RunFiles]; the raw waveforms are a function of the path.
    The files the script writes are its state; a figure is its title, and what can fail before it
    is saved. *)
From S2P Require Import Prelude PyStr PyFloat PyVal ChannelSpec JsonText FeConfig.
From S2P Require Import ScanRuntime ChargeWindows IntensityScan RunFiles PeFit.

(** ** Windows *)

Record ChannelWindow : Type := MkWindow {
  channel : Z; reference_intensity : Z; baseline_start : Z; baseline_stop : Z;
  search_start : Z; search_stop : Z; onset_index : Z; peak_index : Z;
  integrate_start : Z; integrate_stop : Z; threshold : float; peak_amplitude : float }.

Definition as_dict (w : ChannelWindow) : row :=
  [("channel", PyInt (channel w)); ("reference_intensity", PyInt (reference_intensity w));
   ("baseline_start", PyInt (baseline_start w)); ("baseline_stop", PyInt (baseline_stop w));
   ("search_start", PyInt (search_start w)); ("search_stop", PyInt (search_stop w));
   ("onset_index", PyInt (onset_index w)); ("peak_index", PyInt (peak_index w));
   ("integrate_start", PyInt (integrate_start w)); ("integrate_stop", PyInt (integrate_stop w));
   ("threshold", PyFloat (threshold w)); ("peak_amplitude", PyFloat (peak_amplitude w))].

(** The options of [parse_args]; [--fit-channel] appends to a list that starts with 15. *)
Record options : Type := Options {
  r_run_dir : string; r_supplement_run_dir : list string; r_output_dir : string;
  r_channels : string; r_waveform_len : Z; r_interpret : string; r_reference_intensity : Z;
  r_search_start : Z; r_search_stop : Z; r_baseline_margin : Z; r_baseline_len : Z;
  r_pre_samples : Z; r_post_samples : Z; r_threshold_frac : float; r_clip_negative : bool;
  r_hist_bins : Z; r_fit_channel_given : list Z; r_fit_intensity : Z; r_fit_all_points : bool;
  r_jobs : Z; r_gaussian_max_peaks : Z; r_vinogradov_nmax : Z }.

Definition default_options (run_dir : string) : options :=
  {| r_run_dir := run_dir; r_supplement_run_dir := []; r_output_dir := ""; r_channels := "";
     r_waveform_len := 0; r_interpret := "signed"; r_reference_intensity := 0;
     r_search_start := 80; r_search_stop := 220; r_baseline_margin := 12; r_baseline_len := 80;
     r_pre_samples := 6; r_post_samples := 12; r_threshold_frac := f_dec 3 (-2);
     r_clip_negative := true; r_hist_bins := 320; r_fit_channel_given := [];
     r_fit_intensity := 1150; r_fit_all_points := false; r_jobs := 0; r_gaussian_max_peaks := 8;
     r_vinogradov_nmax := 10 |}.

Definition r_fit_channel (o : options) : list Z := 15 :: r_fit_channel_given o.

Definition parse_channels_arg (value : string) (fallback : list Z) : result (list Z) :=
  if decide (strip value = "") then Ok fallback
  else rmap int10 (filter (fun t => t <> "") (strip <$> split_on "," value)).

(** ** The window of a mean waveform *)

Section derive.
Context `{NP : Numpy, SP : Scipy}.

(** [while left > 0 and smooth[left] > threshold: left -= 1] *)
Fixpoint scan_left (smooth : list float) (thr : float) (left : nat) : nat :=
  match left with
  | O => O
  | S k => if f_ltb thr (default f_zero (smooth !! left)) then scan_left smooth thr k else left
  end.

(** [while right < smooth.size - 1 and smooth[right] > threshold: right += 1]; the list is what
    [smooth] holds from [right] on. *)
Fixpoint scan_right (rest : list float) (thr : float) (right : nat) : nat :=
  match rest with
  | [] => right
  | x :: tl =>
      match tl with
      | [] => right
      | _ => if f_ltb thr x then scan_right tl thr (S right) else right
      end
  end.

(** The signal smoothed, by a filter that fits its length. *)
Definition smoothed (signal : list float) : result (list float) :=
  let size := Z.of_nat (length signal) in
  if 11 <=? size then savgol_filter signal 11 3
  else if 5 <=? size
  then savgol_filter signal (Z.max 3 (if size mod 2 =? 1 then size else size - 1)) 2
  else Ok signal.

Definition derive_window_from_mean (mean_wf : list float) (channel reference_intensity : Z)
    (search_start search_stop baseline_margin baseline_len pre_samples post_samples : Z)
    (threshold_frac : float) : result ChannelWindow :=
  let n_samples := Z.of_nat (length mean_wf) in
  let s_lo := Z.max 0 (Z.min (n_samples - 2) search_start) in
  let s_hi := Z.max (s_lo + 2) (Z.min n_samples search_stop) in
  let rough_base_stop := Z.min s_lo (Z.max 32 s_lo) in
  let rough_base := slice 0 rough_base_stop mean_wf in
  let rough_baseline := np_median rough_base in
  let signal := (fun x => f_sub x rough_baseline) <$> slice s_lo s_hi mean_wf in
  smooth <-! smoothed signal ;;
  peak_rel <-! argmax smooth ;;
  let peak_index := s_lo + Z.of_nat peak_rel in
  let peak_amplitude := default f_zero (smooth !! peak_rel) in
  if f_leb peak_amplitude f_zero
  then Raise (value_error ("Channel " +:+ str_Z channel
                           +:+ ": could not find a positive pulse in the mean waveform"))
  else
    let baseline_rms := np_std ((fun x => f_sub x rough_baseline) <$> rough_base) in
    let threshold := py_max (f_mul threshold_frac peak_amplitude) (f_mul (f_of_Z 3) baseline_rms) in
    let left := scan_left smooth threshold peak_rel in
    let right := scan_right (drop peak_rel smooth) threshold peak_rel in
    let onset_index := s_lo + Z.max 0 (Z.of_nat left) in
    let return_index := s_lo + Z.min (Z.of_nat (length smooth) - 1) (Z.of_nat right) in
    let baseline_stop := Z.max 16 (onset_index - baseline_margin) in
    let baseline_start := Z.max 0 (baseline_stop - baseline_len) in
    let integrate_start := Z.max 0 (onset_index - pre_samples) in
    let integrate_stop := Z.min n_samples (return_index + post_samples) in
    let integrate_stop :=
      if integrate_stop <=? integrate_start
      then Z.min n_samples (integrate_start + Z.max 8 post_samples) else integrate_stop in
    Ok (MkWindow channel reference_intensity baseline_start baseline_stop s_lo s_hi onset_index
          peak_index integrate_start integrate_stop threshold peak_amplitude).

(** ** The analysis of a point *)

(** The document of a channel but for its lists, its metrics and its charges. *)
Record channel_data : Type := ChannelData {
  d_fields : row; d_metrics : summary; d_charges : list float; d_pedestal : list float }.

Definition data_doc (d : channel_data) : pyval :=
  PyDict (d_fields d ++ [("charges", floats (d_charges d)); ("pedestal_charges", floats (d_pedestal d));
                         ("metrics", PyDict (summary_dict (d_metrics d)))]).

Definition non_empty (l : list float) (what : string) : result unit :=
  match l with
  | [] => Raise (value_error ("zero-size array to reduction operation " +:+ what
                              +:+ " which has no identity"))
  | _ => Ok tt
  end.

Definition analyze_channel (ch : Z) (ws : waves) (win : ChannelWindow) (clip_negative : bool)
    : result channel_data :=
  charges <-! compute_charge ws (integrate_start win) (integrate_stop win) (baseline_start win)
                (baseline_stop win) clip_negative ;;
  let ped_len := integrate_stop win - integrate_start win in
  let ped_stop := baseline_stop win in
  let ped_start := Z.max (baseline_start win) (ped_stop - ped_len) in
  pedestal <-! compute_charge ws ped_start ped_stop (baseline_start win) (baseline_stop win)
                 clip_negative ;;
  let metrics := summarize_charge_vs_pedestal charges pedestal half (f_of_Z 4) (f_dec 995 (-3)) in
  baseline_values <-! compute_baseline ws (baseline_start win) (baseline_stop win) ;;
  let mean_wf := mean_waveform ws in
  peak <-! py_index_list mean_wf (peak_index win) ;;
  onset <-! py_index_list mean_wf (onset_index win) ;;
  _ <-! non_empty charges "minimum" ;;
  Ok (ChannelData
    [("channel", PyInt ch); ("n_waveforms", PyInt (Z.of_nat (length (rows ws))));
     ("baseline_mean", PyFloat (np_mean baseline_values));
     ("baseline_std", PyFloat (np_std baseline_values));
     ("mean_peak_value", PyFloat peak); ("mean_onset_value", PyFloat onset);
     ("integrate_start", PyInt (integrate_start win)); ("integrate_stop", PyInt (integrate_stop win));
     ("baseline_start", PyInt (baseline_start win)); ("baseline_stop", PyInt (baseline_stop win));
     ("peak_index", PyInt (peak_index win)); ("onset_index", PyInt (onset_index win));
     ("pedestal_integrate_start", PyInt ped_start); ("pedestal_integrate_stop", PyInt ped_stop);
     ("charge_min", PyFloat (np_min charges)); ("charge_max", PyFloat (np_max charges));
     ("charge_p50", PyFloat (np_quantile charges half));
     ("charge_p90", PyFloat (np_quantile charges (f_dec 9 (-1))));
     ("charge_mean", PyFloat (np_mean charges)); ("charge_std", PyFloat (np_std charges));
     ("pedestal_charge_p50", PyFloat (np_quantile pedestal half));
     ("pedestal_charge_std", PyFloat (np_std pedestal))]
    metrics charges pedestal).

(** [d[k] = v] of a dictionary with integer keys *)
Definition zput {A : Type} (d : list (Z * A)) (k : Z) (v : A) : list (Z * A) :=
  if decide (k ∈ fst <$> d) then (fun e => if decide (fst e = k) then (k, v) else e) <$> d
  else d ++ [(k, v)].

Definition the_window (windows : gmap Z ChannelWindow) (ch : Z) : result ChannelWindow :=
  match windows !! ch with
  | Some w => Ok w
  | None => Raise (Exn KeyError (str_Z ch))
  end.

Definition analyze_point (raw : string -> result (list Z)) (point_dir : string)
    (channels : list Z) (waveform_len : Z) (windows : gmap Z ChannelWindow) (interpret : string)
    (clip_negative : bool) : result (list (Z * channel_data)) :=
  rfold (fun out ch =>
    let path := channel_path (path_join point_dir "raw") ch in
    ws <-! load_channel_waves path (raw path) waveform_len 0 interpret ;;
    win <-! the_window windows ch ;;
    d <-! analyze_channel ch ws win clip_negative ;;
    Ok (zput out ch d)) channels [].

End derive.

(** ** The points *)

(** [load_manifest] *)
Definition load_manifest (d : disk) (run_dir : string) : result pyval :=
  match r ← d !! run_dir; manifest_json r with
  | Some text => json_loads text
  | None => Raise (Exn (OSError 2) ("Missing scan_manifest.json in " +:+ run_dir))
  end.

(** A point: its run and its name. *)
Definition point_ref : Type := string * string.

Definition point_path (p : point_ref) : string := path_join (path_join (fst p) "points") (snd p).

(** The intensity of a point that was analyzed. *)
Definition analyzed_intensity (p : point_files) : result (option Z) :=
  match metadata_json p with
  | None => Ok None
  | Some (text, _) =>
      match json_loads text with
      | Raise _ => Ok None
      | Ok meta =>
          st <-! dict_get meta "status" PyNone ;;
          if py_eqb st (PyStr "analyzed")
          then v <-! item meta "intensity" ;; i <-! py_int v ;; Ok (Some i)
          else Ok None
      end
  end.

Definition gather_point (run_dir : string) (chosen : gmap Z point_ref) (np : string * point_files)
    : result (gmap Z point_ref) :=
  i <-! analyzed_intensity (snd np) ;;
  Ok (match i with Some i => <[i := (run_dir, fst np)]> chosen | None => chosen end).

Definition gather_run (d : disk) (chosen : gmap Z point_ref) (run_dir : string)
    : result (gmap Z point_ref) :=
  match d !! run_dir with
  | Some r => rfold (gather_point run_dir) (intensity_dirs (points r)) chosen
  | None => Ok chosen
  end.

Definition gather_analyzed_points (d : disk) (run_dirs : list string) : result (gmap Z point_ref) :=
  rfold (gather_run d) run_dirs ∅.

(** [max(point_dirs)] *)
Definition max_key {A : Type} (m : gmap Z A) : option Z := last (fst <$> sorted_entries m).

(** ** Tables *)

Definition summary_fields : list string :=
  ["baseline_mean"; "baseline_std"; "integrate_start"; "integrate_stop"; "baseline_start";
   "baseline_stop"; "peak_index"; "onset_index"; "charge_mean"; "charge_std";
   "pedestal_charge_std"].

(** The row of a channel in [summary_by_point.csv]. *)
Definition summary_row (intensity : Z) (name : string) (cd : Z * channel_data) : row :=
  let '(ch, d) := cd in
  let m := d_metrics d in
  [("channel", PyInt ch); ("intensity", PyInt intensity); ("point", PyStr name);
   ("snr_estimate", opt_float (snr_estimate m)); ("signal_fraction", opt_float (signal_fraction m));
   ("balance_error", opt_float (balance_error m)); ("threshold_charge", opt_float (threshold_charge m))]
  ++ ((fun k => (k, row_get (d_fields d) k PyNone)) <$> summary_fields).

(** [row[k]] where it is a float; [None] otherwise. *)
Definition float_field (r : row) (k : string) : option float :=
  match row_get r k PyNone with PyFloat x => Some x | _ => None end.

Definition channel_is (ch : Z) (r : row) : Prop := channel_of r = Ok ch.

#[export] Instance channel_is_dec ch r : Decision (channel_is ch r).
Proof. unfold channel_is. apply _. Defined.

Definition positive_snr (r : row) : Prop :=
  exists s, float_field r "snr_estimate" = Some s /\ f_ltb f_zero s = true.

#[export] Instance positive_snr_dec r : Decision (positive_snr r).
Proof.
  unfold positive_snr. destruct (float_field r "snr_estimate") as [s|].
  - destruct (f_ltb f_zero s) eqn:H; [left; by exists s|right; intros (s' & [= <-] & ?); congruence].
  - right. by intros (? & ? & _).
Defined.

Definition balanced (r : row) : Prop :=
  exists f, float_field r "signal_fraction" = Some f /\
    f_leb (f_dec 2 (-1)) f && f_leb f (f_dec 8 (-1)) = true.

#[export] Instance balanced_dec r : Decision (balanced r).
Proof.
  unfold balanced. destruct (float_field r "signal_fraction") as [f|].
  - destruct (f_leb (f_dec 2 (-1)) f && f_leb f (f_dec 8 (-1))) eqn:H;
      [left; by exists f|right; intros (f' & [= <-] & ?); congruence].
  - right. by intros (? & ? & _).
Defined.

Definition snr_of (r : row) : float := default S754_nan (float_field r "snr_estimate").

(** [max(pool, key=lambda row: float(row["snr_estimate"]))]: the first of the largest. *)
Definition max_row (best : row) (l : list row) : row :=
  foldl (fun b r => if f_ltb (snr_of b) (snr_of r) then r else b) best l.

Definition best_of_channel (summary_rows : list row) (ch : Z) : option row :=
  let candidates := filter (channel_is ch) summary_rows in
  let reliable := filter (fun r => balanced r /\ positive_snr r) candidates in
  match (match reliable with [] => filter positive_snr candidates | _ => reliable end) with
  | [] => None
  | r :: t => Some (max_row r t)
  end.

(** ** Lemmas: the pulse around its peak *)

Definition above (smooth : list float) (thr : float) (i : nat) : Prop :=
  f_ltb thr (default f_zero (smooth !! i)) = true.

Lemma scan_left_spec smooth thr k :
  (scan_left smooth thr k <= k)%nat /\
  (forall i, (scan_left smooth thr k < i <= k)%nat -> above smooth thr i) /\
  (scan_left smooth thr k = 0%nat \/ ~ above smooth thr (scan_left smooth thr k)).
Proof.
  induction k as [|k IH]; [cbn; split_and!; [lia|lia|by left]|].
  cbn [scan_left]. destruct (f_ltb thr (default f_zero (smooth !! S k))) eqn:Hk.
  - destruct IH as (Hle & Hab & Hend). split_and!; [lia| |done]. intros i Hi.
    destruct (decide (i = S k)) as [->|]; [done|]. apply Hab. lia.
  - split_and!; [lia|lia|right]. unfold above. by rewrite Hk.
Qed.

Lemma scan_right_spec smooth thr rest k :
  drop k smooth = rest -> rest <> [] ->
  (k <= scan_right rest thr k < length smooth)%nat /\
  (forall i, (k <= i < scan_right rest thr k)%nat -> above smooth thr i) /\
  (scan_right rest thr k = (length smooth - 1)%nat \/ ~ above smooth thr (scan_right rest thr k)).
Proof.
  revert k. induction rest as [|x rest IH]; intros k Hd Hne; [done|].
  assert (Hk : smooth !! k = Some x) by (rewrite <- (Nat.add_0_r k), <- lookup_drop; by rewrite Hd).
  assert (Hd' : drop (S k) smooth = rest).
  { replace (S k) with (k + 1)%nat by lia. by rewrite <- drop_drop, Hd. }
  pose proof (f_equal length Hd) as Hlen. rewrite length_drop in Hlen. cbn [length] in Hlen.
  cbn [scan_right]. destruct rest as [|y rest'] eqn:Hr.
  - cbn in Hlen. split_and!; [lia|lia|lia|left; lia].
  - rewrite <- Hr in *. destruct (f_ltb thr x) eqn:Hx.
    + destruct (IH (S k)) as ((Hle & Hlt) & Hab & Hend); [done|by rewrite Hr|].
      split_and!; [lia|lia| |done]. intros i Hi. destruct (decide (i = k)) as [->|]; [|apply Hab; lia].
      unfold above. by rewrite Hk.
    + split_and!; [lia|lia|lia|right]. unfold above. rewrite Hk. cbn. by rewrite Hx.
Qed.

Section windows.
Context `{SL : SciLaws}.

Lemma smoothed_length signal smooth : smoothed signal = Ok smooth -> length smooth = length signal.
Proof using SL.
  unfold smoothed. repeat case_match; intros Hs; try by eapply savgol_length. by injection Hs as ->.
Qed.

(** The pulse: the samples around the peak that stay above the threshold, with one more sample on
    each side where the search window allows it. *)
Record pulse (smooth : list float) (thr : float) (left peak right : nat) : Prop := {
  pulse_order : (left <= peak <= right /\ right < length smooth)%nat;
  pulse_above i : (left < i < right)%nat -> i <> peak -> above smooth thr i;
  pulse_left : left = 0%nat \/ ~ above smooth thr left;
  pulse_right : right = (length smooth - 1)%nat \/ ~ above smooth thr right }.

Lemma scans_pulse smooth thr peak :
  (peak < length smooth)%nat ->
  pulse smooth thr (scan_left smooth thr peak) peak (scan_right (drop peak smooth) thr peak).
Proof using Type.
  intros Hp. destruct (scan_left_spec smooth thr peak) as (Hl & Hal & Hel).
  destruct (scan_right_spec smooth thr (drop peak smooth) peak eq_refl) as ((Hr & Hr') & Har & Her).
  { intros Hn. apply (f_equal length) in Hn. rewrite length_drop in Hn. cbn in Hn. lia. }
  split; [lia| |done|done]. intros i Hi Hne.
  destruct (decide (i < peak)%nat); [apply Hal|apply Har]; lia.
Qed.

End windows.

(** C24. A derived window holds its pulse.  For a mean waveform of at least two samples, and
    options that leave a sample on the right ([--post-samples] at least 1) and do not cut on the
    left, the window that [derive_window_from_mean] accepts lies in the record, with the pulse
    inside it: search start, onset, peak and search stop are in this order; nothing in the
    smoothed search window is above its peak, which is not zero or below; onset and return are
    the ends of the pulse, the samples around the peak above the threshold; the charge is
    integrated from [pre_samples] before the onset to [post_samples] after the return, clipped to
    the record.  When the margin is at least [pre_samples] and the onset late enough, the
    baseline ends before the integration starts. *)
Theorem derived_window_correct `{SL : SciLaws} mean_wf ch ref s0 s1 margin blen pre post frac w :
  (2 <= length mean_wf)%nat -> 0 <= pre -> 1 <= post -> 0 <= blen ->
  derive_window_from_mean mean_wf ch ref s0 s1 margin blen pre post frac = Ok w ->
  let n := Z.of_nat (length mean_wf) in
  (0 <= search_start w <= onset_index w /\ onset_index w <= peak_index w < search_stop w /\
   search_stop w <= n) /\
  (0 <= integrate_start w <= onset_index w /\ peak_index w < integrate_stop w <= n) /\
  0 <= baseline_start w <= baseline_stop w /\
  (pre <= margin -> 16 + margin <= onset_index w -> baseline_stop w <= integrate_start w) /\
  exists base smooth left right,
    smoothed ((fun x => f_sub x base) <$> slice (search_start w) (search_stop w) mean_wf) = Ok smooth /\
    pulse smooth (threshold w) left (Z.to_nat (peak_index w - search_start w)) right /\
    onset_index w = search_start w + Z.of_nat left /\
    integrate_start w = Z.max 0 (onset_index w - pre) /\
    integrate_stop w = Z.min n (search_start w + Z.of_nat right + post) /\
    smooth !! Z.to_nat (peak_index w - search_start w) = Some (peak_amplitude w) /\
    Forall (fun x => f_ltb (peak_amplitude w) x = false) smooth /\
    f_leb (peak_amplitude w) f_zero = false.
Proof.
  intros Hn Hpre Hpost Hblen H. cbv zeta. unfold derive_window_from_mean in H.
  set (n := Z.of_nat (length mean_wf)) in *.
  set (lo := Z.max 0 _) in H. set (hi := Z.max (lo + 2) _) in H.
  assert (Hlohi : 0 <= lo /\ lo + 2 <= hi /\ hi <= n) by (subst lo hi; lia).
  set (base := np_median _) in H. apply rbind_ok in H as (smooth & Hs & H).
  pose proof (smoothed_length _ _ Hs) as Hlen. rewrite length_fmap, slice_length in Hlen by lia.
  apply rbind_ok in H as (peak & Hpk & H). pose proof (argmax_bound _ _ Hpk) as Hpb.
  destruct (argmax_max _ _ Hpk) as (amp & Hamp & Hmax). rewrite Hamp in H.
  change (default f_zero (Some amp)) with amp in H.
  destruct (f_leb amp f_zero) eqn:Hpos; [done|].
  set (thr := py_max _ _) in H. pose proof (scans_pulse smooth thr peak Hpb) as Hpulse.
  set (left := scan_left _ _ _) in *. set (right := scan_right _ _ _) in *.
  pose proof (pulse_order _ _ _ _ _ Hpulse) as ((Hl & Hr) & Hr').
  set (start := Z.max 0 (lo + Z.max 0 (Z.of_nat left) - pre)) in H.
  set (stop := Z.min n _) in H.
  assert (Hstop : stop = Z.min n (lo + Z.of_nat right + post)) by (subst stop; lia).
  destruct (Z.leb_spec stop start) as [Hbad|Hgood]; [exfalso; subst start; lia|].
  injection H as <-. cbn. replace (lo + Z.of_nat peak - lo) with (Z.of_nat peak) by lia.
  rewrite Nat2Z.id. split_and!; try (subst start; lia).
  exists base, smooth, left, right. split_and!; try done; subst start; lia.
Qed.

(** A search from the first sample has no baseline: whatever the waveform, a window at its start
    is accepted, with a peak that is not a number.  (The median of nothing is not a number, and a
    filter keeps values that are not.) *)
Lemma empty_baseline_accepted `{SL : SciLaws} mean_wf ch ref s1 margin blen pre post frac :
  np_median [] = S754_nan ->
  (forall l n d l', savgol_filter l n d = Ok l' -> Forall (fun x => is_nan x = true) l ->
     Forall (fun x => is_nan x = true) l') ->
  (11 <= length mean_wf)%nat -> 11 <= s1 -> 0 <= pre -> 1 <= post -> 0 <= margin ->
  exists w, derive_window_from_mean mean_wf ch ref 0 s1 margin blen pre post frac = Ok w /\
    peak_index w = 0 /\ is_nan (peak_amplitude w) = true /\ integrate_start w = 0 /\
    integrate_stop w = Z.min (Z.of_nat (length mean_wf)) post.
Proof.
  intros Hmed Hnan Hn Hs1 Hpre Hpost Hm. unfold derive_window_from_mean.
  set (n := Z.of_nat (length mean_wf)). replace (Z.max 0 (Z.min (n - 2) 0)) with 0 by lia.
  set (hi := Z.max (0 + 2) _). replace (Z.min 0 (Z.max 32 0)) with 0 by lia.
  replace (slice 0 0 mean_wf) with (@nil float) by done. rewrite Hmed.
  set (signal := _ <$> slice 0 hi mean_wf).
  assert (Hsig : Z.of_nat (length signal) = hi) by (subst signal; rewrite length_fmap, slice_length; lia).
  assert (Hall : Forall (fun x => is_nan x = true) signal).
  { apply Forall_fmap, Forall_forall. intros x _. cbn. by destruct x. }
  unfold smoothed. rewrite Hsig. destruct (Z.leb_spec 11 hi); [|lia].
  destruct (savgol_filter signal 11 3) as [smooth|] eqn:Hs; [|exfalso].
  2:{ assert (Ht : is_ok (savgol_filter signal 11 3) = true) by (apply savgol_total; [lia|done|lia]).
      by rewrite Hs in Ht. }
  cbn [rbind]. pose proof (savgol_length _ _ _ _ Hs) as Hlen. specialize (Hnan _ _ _ _ Hs Hall).
  destruct smooth as [|x rest]; [cbn in Hlen; lia|].
  apply Forall_cons in Hnan as [Hx Hrest]. destruct x; try done.
  assert (Harg : argmax (S754_nan :: rest) = Ok 0%nat).
  { cbn [argmax]. f_equal. clear. generalize 1%nat. by induction rest as [|y rest IH]; intros i; cbn. }
  rewrite Harg. cbn [rbind lookup list_lookup default]. cbn [f_leb SFcompare].
  set (thr := py_max _ _). replace (scan_right _ thr 0) with 0%nat.
  2:{ cbn [drop scan_right]. destruct rest; [done|]. assert (f_ltb thr S754_nan = false) as -> by (by destruct thr). done. }
  cbn [scan_left]. change (Z.of_nat 0) with 0. rewrite Z.max_id, !Z.add_0_l.
  assert (Hz : Z.min (Z.of_nat (length (S754_nan :: rest)) - 1) 0 = 0) by (cbn [length]; lia).
  rewrite Hz. replace (Z.max 0 (0 - pre)) with 0 by lia.
  destruct (Z.leb_spec (Z.min n (0 + post)) 0); [lia|]. eexists. split; [done|]. cbn. by rewrite ?Z.add_0_l.
Qed.

(** ** The points that are reanalyzed *)

(** The analyzed points of a run, in the order of their names, with their intensities. *)
Definition analyzed_points (run_dir : string) (l : list (string * point_files))
    : list (Z * point_ref) :=
  omap (fun np => match analyzed_intensity (snd np) with
                  | Ok (Some i) => Some (i, (run_dir, fst np))
                  | _ => None
                  end) l.

Definition run_points (d : disk) (run_dir : string) : list (Z * point_ref) :=
  match d !! run_dir with
  | Some r => analyzed_points run_dir (intensity_dirs (points r))
  | None => []
  end.

Definition all_analyzed (d : disk) (run_dirs : list string) : list (Z * point_ref) :=
  mjoin (run_points d <$> run_dirs).

Lemma gather_points_ok run_dir l chosen chosen' :
  rfold (gather_point run_dir) l chosen = Ok chosen' ->
  forall i, chosen' !! i = or_old (last_of i (analyzed_points run_dir l)) (chosen !! i).
Proof.
  revert chosen chosen'. induction l as [|np l IH] using rev_ind; intros chosen chosen' H i.
  - by injection H as <-.
  - rewrite rfold_app in H. apply rbind_ok in H as (c1 & H1 & H). cbn [rfold] in H.
    apply rbind_ok in H as (c2 & H & [= <-]). specialize (IH _ _ H1 i).
    apply rbind_ok in H as (o & Ho & [= <-]).
    unfold analyzed_points. rewrite omap_app. fold (analyzed_points run_dir l).
    cbn [omap list_omap]. rewrite Ho. destruct o as [j|]; [|by rewrite app_nil_r].
    rewrite last_of_snoc. destruct (decide (j = i)) as [->|Hne].
    + by rewrite lookup_insert_eq.
    + by rewrite lookup_insert_ne.
Qed.

Lemma gather_runs_ok d run_dirs chosen chosen' :
  rfold (gather_run d) run_dirs chosen = Ok chosen' ->
  forall i, chosen' !! i = or_old (last_of i (all_analyzed d run_dirs)) (chosen !! i).
Proof.
  revert chosen. induction run_dirs as [|rd rds IH]; intros chosen H i; cbn [rfold] in H.
  - by injection H as <-.
  - apply rbind_ok in H as (c1 & H1 & H). rewrite (IH _ H i).
    assert (Hc : c1 !! i = or_old (last_of i (run_points d rd)) (chosen !! i)).
    { unfold gather_run, run_points in *. destruct (d !! rd); [by apply gather_points_ok|].
      by injection H1 as <-. }
    change (all_analyzed d (rd :: rds)) with (run_points d rd ++ all_analyzed d rds).
    rewrite last_of_app, Hc. by destruct (last_of i (all_analyzed d rds)).
Qed.

Lemma last_of_elem {A : Type} i (l : list (Z * A)) x : last_of i l = Some x -> (i, x) ∈ l.
Proof.
  unfold last_of. intros H. apply fmap_Some in H as ([j y] & Hl & ->).
  apply last_Some in Hl as [l' Hl].
  assert (Hin : (j, y) ∈ filter (fun c => fst c = i) l) by (rewrite Hl; set_solver).
  apply list_elem_of_filter in Hin as [Hj Hin]. cbn in Hj. by subst j.
Qed.

Lemma elem_of_last {A : Type} i (l : list (Z * A)) x : (i, x) ∈ l -> is_Some (last_of i l).
Proof.
  intros Hin. unfold last_of. assert (Hf : (i, x) ∈ filter (fun c => fst c = i) l)
    by (by apply list_elem_of_filter).
  destruct (last _) as [y|] eqn:Hl; [by eexists|]. apply last_None in Hl. rewrite Hl in Hf.
  by apply not_elem_of_nil in Hf.
Qed.

Lemma elem_of_analyzed d run_dirs i p :
  (i, p) ∈ all_analyzed d run_dirs <->
  exists r pf, fst p ∈ run_dirs /\ d !! fst p = Some r /\ points r !! snd p = Some pf /\
    is_intensity (snd p) /\ analyzed_intensity pf = Ok (Some i).
Proof.
  unfold all_analyzed. rewrite list_elem_of_join. split.
  - intros (l & Hin & (rd & -> & Hrd)%list_elem_of_fmap). unfold run_points in Hin.
    destruct (d !! rd) as [r|] eqn:Hd; [|by apply not_elem_of_nil in Hin].
    apply list_elem_of_omap in Hin as ([name pf] & Hnp & Hi). cbn in Hi.
    destruct (analyzed_intensity pf) as [[j|]|] eqn:Ha; simplify_eq. exists r, pf. cbn.
    unfold intensity_dirs in Hnp. rewrite (merge_sort_Permutation name_le) in Hnp.
    apply list_elem_of_filter in Hnp as [Hint Hnp%elem_of_map_to_list]. by split_and!.
  - intros (r & pf & Hrd & Hd & Hp & Hint & Ha). exists (run_points d (fst p)).
    split; [|apply list_elem_of_fmap; by exists (fst p)]. unfold run_points. rewrite Hd.
    apply list_elem_of_omap. exists (snd p, pf). cbn. rewrite Ha. split; [|by destruct p].
    unfold intensity_dirs. rewrite (merge_sort_Permutation name_le).
    apply list_elem_of_filter. split; [done|]. by apply elem_of_map_to_list.
Qed.

(** The points that are reanalyzed.  The points chosen are exactly one per intensity that
    some run directory holds as an analyzed point, and it is the last of them: in the order of
    the command line, the main run first, and by name within a run.  A directory that is missing,
    a point without metadata, with metadata that is not a document, or in another state, is
    passed over. *)
Theorem gathered_points_are_last d run_dirs chosen :
  gather_analyzed_points d run_dirs = Ok chosen ->
  (forall i, chosen !! i = last_of i (all_analyzed d run_dirs)) /\
  (forall i, is_Some (chosen !! i) <->
     exists p r pf, fst p ∈ run_dirs /\ d !! fst p = Some r /\ points r !! snd p = Some pf /\
       is_intensity (snd p) /\ analyzed_intensity pf = Ok (Some i)) /\
  (forall i p, chosen !! i = Some p ->
     exists r pf, fst p ∈ run_dirs /\ d !! fst p = Some r /\ points r !! snd p = Some pf /\
       is_intensity (snd p) /\ analyzed_intensity pf = Ok (Some i)).
Proof.
  intros H. assert (Hlast : forall i, chosen !! i = last_of i (all_analyzed d run_dirs)).
  { intros i. rewrite (gather_runs_ok _ _ _ _ H i), lookup_empty. by destruct (last_of i _). }
  split_and!; [done| |].
  - intros i. rewrite Hlast. split.
    + intros [p Hp%last_of_elem]. exists p. by apply elem_of_analyzed.
    + intros [p Hp]. by apply (elem_of_last i _ p), elem_of_analyzed.
  - intros i p Hp. rewrite Hlast in Hp. by apply last_of_elem, elem_of_analyzed in Hp.
Qed.

(** ** The best row of a channel *)

Lemma not_less_trans x y z :
  is_Some (f_key y) -> f_ltb x y = false -> f_ltb y z = false -> f_ltb x z = false.
Proof.
  intros [b Hb] Hxy Hyz. destruct (f_ltb x z) eqn:Hxz; [|done].
  apply f_ltb_some in Hxz as (a & c & Ha & Hc & Hac).
  rewrite <- not_true_iff_false, (f_ltb_key _ _ _ _ Ha Hb) in Hxy.
  rewrite <- not_true_iff_false, (f_ltb_key _ _ _ _ Hb Hc) in Hyz.
  destruct (key_lt_total a b) as [|[->|]]; [done|done|]. by destruct Hyz; eapply key_lt_trans.
Qed.

Definition has_snr (r : row) : Prop := is_Some (f_key (snr_of r)).

Lemma positive_has_snr r : positive_snr r -> has_snr r.
Proof.
  intros (x & Hx & Hlt). unfold has_snr, snr_of. rewrite Hx. cbn.
  apply f_ltb_some in Hlt as (_ & b & _ & Hb & _). by exists b.
Qed.

(** [max] returns a row that no other is above. *)
Lemma max_row_spec l best :
  Forall has_snr (best :: l) ->
  max_row best l ∈ best :: l /\
  Forall (fun r => f_ltb (snr_of (max_row best l)) (snr_of r) = false) (best :: l).
Proof.
  revert best. induction l as [|r l IH]; intros best Hs.
  - split; [apply list_elem_of_here|apply Forall_singleton, f_ltb_irrefl].
  - apply Forall_cons in Hs as [Hb [Hr Hl]%Forall_cons].
    change (max_row best (r :: l)) with
      (max_row (if f_ltb (snr_of best) (snr_of r) then r else best) l).
    destruct (f_ltb (snr_of best) (snr_of r)) eqn:Hlt.
    + destruct (IH r) as (Hin & Hall); [by constructor|].
      split; [by apply list_elem_of_further|]. constructor; [|done].
      apply Forall_cons in Hall as [Hall _]. apply (not_less_trans _ (snr_of r)); [done..|].
      destruct (f_ltb (snr_of r) (snr_of best)) eqn:Hrb; [|done].
      by pose proof (f_ltb_trans _ _ _ Hlt Hrb) as Hbad; rewrite f_ltb_irrefl in Hbad.
    + destruct (IH best) as (Hin & Hall); [by constructor|]. split; [set_solver|].
      apply Forall_cons in Hall as [Hbest Hall]. constructor; [done|]. constructor; [|done].
      by apply (not_less_trans _ (snr_of best)).
Qed.

(** The best row of a channel.  A channel has one exactly when some row of it has a positive
    signal-to-noise ratio.  It is a row of the channel with such a ratio; it is balanced (a signal
    fraction from 0.2 to 0.8) if any such row is; and no such row, or no balanced one when it is
    balanced, has a larger ratio. *)
Theorem best_of_channel_correct rs ch :
  (best_of_channel rs ch = None <-> forall r, r ∈ rs -> channel_is ch r -> ~ positive_snr r) /\
  forall b, best_of_channel rs ch = Some b ->
    b ∈ rs /\ channel_is ch b /\ positive_snr b /\
    forall r, r ∈ rs -> channel_is ch r -> positive_snr r ->
      (balanced r -> balanced b) /\
      ((balanced b -> balanced r) -> f_ltb (snr_of b) (snr_of r) = false).
Proof.
  unfold best_of_channel. set (cands := filter (channel_is ch) rs).
  set (reliable := filter (fun r => balanced r /\ positive_snr r) cands).
  assert (Hc : forall r, r ∈ cands <-> channel_is ch r /\ r ∈ rs) by (intros r; apply list_elem_of_filter).
  assert (Hr : forall r, r ∈ reliable <-> (balanced r /\ positive_snr r) /\ r ∈ cands)
    by (intros r; unfold reliable; by rewrite list_elem_of_filter).
  assert (Hp : forall r, r ∈ filter positive_snr cands <-> positive_snr r /\ r ∈ cands)
    by (intros r; apply list_elem_of_filter).
  destruct reliable as [|r0 rest] eqn:Hrel.
  - destruct (filter positive_snr cands) as [|p0 ps] eqn:Hpos.
    + split; [split; [|done]|done]. intros _ r Hin Hch Hsnr.
      assert (Hno : r ∈ @nil row) by (by apply Hp; rewrite Hc). by apply not_elem_of_nil in Hno.
    + split; [split; [done|]|].
      * intros Hnone. destruct (Hp p0) as [Hp0 _]. destruct Hp0 as [Hs [Hch Hin]%Hc]; [apply list_elem_of_here|].
        by destruct (Hnone p0 Hin Hch).
      * intros b [= <-]. destruct (max_row_spec ps p0) as [Hin Hmax].
        { apply Forall_forall. intros r [Hs _]%Hp. by apply positive_has_snr. }
        apply Hp in Hin as [Hs [Hch Hin]%Hc]. split_and!; [done..|].
        intros r Hrin Hrch Hrs. split.
        -- intros Hbal. exfalso. assert (Hno : r ∈ @nil row) by (by apply Hr; rewrite Hc).
           by apply not_elem_of_nil in Hno.
        -- intros _. rewrite Forall_forall in Hmax. apply Hmax, Hp. by rewrite Hc.
  - split; [split; [done|]|].
    + intros Hnone. destruct (Hr r0) as [Hr0 _]. destruct Hr0 as [[_ Hs] [Hch Hin]%Hc]; [apply list_elem_of_here|].
      by destruct (Hnone r0 Hin Hch).
    + intros b [= <-]. destruct (max_row_spec rest r0) as [Hin Hmax].
      { apply Forall_forall. intros r [[_ Hs] _]%Hr. by apply positive_has_snr. }
      apply Hr in Hin as [[Hbal Hs] [Hch Hin]%Hc]. split_and!; [done..|].
      intros r Hrin Hrch Hrs. split; [done|]. intros Himp. rewrite Forall_forall in Hmax.
      apply Hmax, Hr. rewrite Hc. auto.
Qed.

(** ** Examples *)

#[local] Existing Instances some_numpy some_scipy some_laws.

Definition pulse_mean : list float :=
  f_of_Z <$> (replicate 24 100 ++ [104; 180; 400; 700; 500; 300; 150; 110; 102] ++ replicate 15 100).

Definition pulse_window : ChannelWindow :=
  MkWindow 4 1150 0 22 20 48 24 27 21 37 (f_mul (f_dec 3 (-2)) (f_of_Z 600)) (f_of_Z 600).

Lemma derived_window_correct_witness :
  derive_window_from_mean pulse_mean 4 1150 20 200 2 80 3 6 (f_dec 3 (-2)) = Ok pulse_window /\
  (0 <= search_start pulse_window <= onset_index pulse_window) /\
  peak_index pulse_window < integrate_stop pulse_window <= 48.
Proof.
  assert (Hw : derive_window_from_mean pulse_mean 4 1150 20 200 2 80 3 6 (f_dec 3 (-2)) = Ok pulse_window)
    by (vm_compute; reflexivity).
  split; [exact Hw|].
  destruct (derived_window_correct pulse_mean 4 1150 20 200 2 80 3 6 (f_dec 3 (-2)) pulse_window
              ltac:(vm_compute; lia) ltac:(lia) ltac:(lia) ltac:(lia) Hw) as ((Hord & _) & (_ & Hin) & _).
  split; [exact Hord|exact Hin].
Defined.

(** A run whose brightest point was taken again in a second run. *)
Definition point_in (status : string) (intensity : Z) : point_files :=
  Point (Some (quoted ("{'status': '" +:+ status +:+ "', 'intensity': " +:+ str_Z intensity +:+ "}"),
               f_zero)) None.

Definition two_runs : disk :=
  {[ "a" := RunDir None {[ "intensity_0900" := point_in "analyzed" 900;
                           "intensity_1750" := point_in "acquire_failed" 1750;
                           "notes" := point_in "analyzed" 1 ]} ∅;
     "b" := RunDir None {[ "intensity_1750" := point_in "analyzed" 1750 ]} ∅ ]}.

Lemma gathered_points_are_last_witness :
  gather_analyzed_points two_runs ["a"; "b"; "c"]
    = Ok {[ 900 := ("a", "intensity_0900"); 1750 := ("b", "intensity_1750") ]} /\
  last_of 1750 (all_analyzed two_runs ["a"; "b"; "c"]) = Some ("b", "intensity_1750").
Proof.
  assert (Hg : gather_analyzed_points two_runs ["a"; "b"; "c"]
    = Ok {[ 900 := ("a", "intensity_0900"); 1750 := ("b", "intensity_1750") ]})
    by (vm_compute; reflexivity).
  split; [exact Hg|].
  destruct (gathered_points_are_last two_runs ["a"; "b"; "c"] _ Hg) as (Hl & _ & _).
  rewrite <- Hl. vm_compute. reflexivity.
Defined.
