(* ===== verification/ReanalysisMain.v ===== *)
(** [main] of [client/dynamic_range_led/reanalyze_led_charge_run.py]: the windows from the
    reference point, the analysis of every point, the tables, the fits and the report. *)
From S2P Require Import Prelude PyStr PyFloat PyVal ChannelSpec JsonText FeConfig SpyAcquire.
From S2P Require Import ScanRuntime ChargeWindows IntensityScan RunFiles Pools PeFit Reanalysis.

(** What the machine holds before the script starts: run directories, raw words by path, and
    [str(Path(p).expanduser().resolve())]. *)
Class Input : Type := {
  runs : disk;
  raw_words : string -> result (list Z);
  resolved : string -> string }.

(** [plt.subplots] of a grid of three columns: without panels there is no row. *)
Definition subplots (panels : nat) : result unit :=
  match panels with
  | O => Raise (value_error "Number of rows must be a positive integer, not 0")
  | _ => Ok tt
  end.

(** [ax.hist(..., bins=hist_bins)] *)
Definition hist_ok (hist_bins : Z) : result unit :=
  if hist_bins <? 1 then Raise (value_error "`bins` must be positive, when an integer") else Ok tt.

Section main.
Context `{NP : Numpy, SP : Scipy, HO : Host, IN : Input}.
Context (args : options).

Definition run_dir : string := resolved (r_run_dir args).
Definition supplement_dirs : list string := resolved <$> r_supplement_run_dir args.
Definition output_dir : string :=
  if decide (r_output_dir args = "") then path_join run_dir "reanalysis_full_hist"
  else resolved (r_output_dir args).

(** A path below the output directory. *)
Definition out (name : string) : string := path_join output_dir name.

Definition mkdir (path : string) : M files unit := lift (file_ok path).

Definition save_window_plot (channels : list Z) : M files unit :=
  when matplotlib
    (lift (subplots (length channels)) ;;;
     put (out "channel_windows.png") (DPlot "Reference Mean Waveforms and Derived Charge Windows")).

Definition save_point_grid (path : string) (point_analysis : list (Z * channel_data)) (title : string)
    : M files unit :=
  when matplotlib
    (lift (subplots (length point_analysis)) ;;; lift (hist_ok (r_hist_bins args)) ;;;
     put path (DPlot title)).

Definition save_channel_overlay (path : string) (rows : list row) (title : string) : M files unit :=
  when (matplotlib && negb (bool_decide (rows = [])))
    (lift (hist_ok (r_hist_bins args)) ;;; put path (DPlot title)).

(** The channels, the length of a waveform: options first, then the manifest. *)
Definition the_channels (manifest : pyval) : result (list Z) :=
  v <-! dict_get manifest "channels" (PyList []) ;;
  l <-! py_iter v ;;
  fallback <-! rmap py_int l ;;
  parse_channels_arg (r_channels args) fallback.

Definition the_waveform_len (manifest : pyval) : result Z :=
  if r_waveform_len args =? 0
  then v <-! dict_get manifest "waveform_len" (PyInt 1024) ;; py_int v
  else Ok (r_waveform_len args).

Definition the_reference (point_dirs : gmap Z point_ref) : result (Z * point_ref) :=
  match (if 0 <? r_reference_intensity args then Some (r_reference_intensity args)
         else max_key point_dirs) with
  | None => Raise (Exn RuntimeError ("No analyzed points found under " +:+ run_dir))
  | Some i => match point_dirs !! i with
              | Some p => Ok (i, p)
              | None => Raise (Exn RuntimeError ("Reference intensity " +:+ str_Z i
                                                 +:+ " not available in analyzed points"))
              end
  end.

(** The windows of the channels, from the reference point. *)
Definition derive_windows (channels : list Z) (waveform_len reference_intensity : Z)
    (reference : point_ref) : result (gmap Z ChannelWindow) :=
  rfold (fun windows ch =>
    let path := channel_path (path_join (point_path reference) "raw") ch in
    ws <-! load_channel_waves path (raw_words path) waveform_len 0 (r_interpret args) ;;
    w <-! derive_window_from_mean (mean_waveform ws) ch reference_intensity
            (r_search_start args) (r_search_stop args) (r_baseline_margin args)
            (r_baseline_len args) (r_pre_samples args) (r_post_samples args)
            (r_threshold_frac args) ;;
    Ok (<[ch := w]> windows)) channels ∅.

Definition analysis_dir (name : string) : string := path_join (out "points") name.
Definition analysis_path (name : string) : string := path_join (analysis_dir name) "analysis.json".

Definition point_payload (intensity : Z) (p : point_ref) (a : list (Z * channel_data)) : pyval :=
  PyDict [("source_point_dir", PyStr (point_path p)); ("intensity", PyInt intensity);
          ("channels", PyDict ((fun cd => (str_Z (fst cd), data_doc (snd cd))) <$> merge_sort entry_le a))].

(** The rows gathered so far: those of the summary, and those of each channel. *)
Record tables : Type := Tables { summary_rows : list row; per_channel : gmap Z (list row) }.

Definition overlay_row (intensity : Z) (d : channel_data) : row :=
  [("intensity", PyInt intensity); ("charges", floats (d_charges d));
   ("snr_estimate", opt_float (snr_estimate (d_metrics d)))].

(** The rows of one channel at one point; [per_channel] has every channel from the start. *)
Definition add_rows (intensity : Z) (name : string) (t : tables) (cd : Z * channel_data) : tables :=
  Tables (summary_rows t ++ [summary_row intensity name cd])
    (alter (fun l => l ++ [overlay_row intensity (snd cd)]) (fst cd) (per_channel t)).

(** One turn of the loop over the points. *)
Definition reanalyze_point (channels : list Z) (waveform_len : Z) (windows : gmap Z ChannelWindow)
    (t : tables) (ip : Z * point_ref) : M files tables :=
  let '(intensity, p) := ip in
  let name := snd p in
  mkdir (analysis_dir name) ;;;
  a <- lift (analyze_point raw_words (point_path p) channels waveform_len windows
               (r_interpret args) (r_clip_negative args)) ;;
  put (analysis_path name) (DJson (point_payload intensity p a)) ;;;
  save_point_grid (path_join (analysis_dir name) "charge_histograms_full.png") a
    (path_name run_dir +:+ " intensity=" +:+ str_Z intensity +:+ " full charge histograms") ;;;
  ret (foldl (add_rows intensity name) t a).

(** [summary_by_point.csv]: its columns are those of its first row. *)
Definition write_summary (rows : list row) : M files unit :=
  match rows with
  | [] => put (out "summary_by_point.csv") (DText "") ;;;
          raise (Exn IndexError "list index out of range")
  | _ => write_rows (out "summary_by_point.csv") rows
  end.

(** The loop over the channels that draws them and chooses their best rows. *)
Definition best_rows (t : tables) : M files (list row) :=
  fold_m (sorted_entries (per_channel t)) (fun best cr =>
    let '(ch, rows) := cr in
    save_channel_overlay (out ("channel_" +:+ dec_pad 2 ch +:+ "_overlay_hist.png")) rows
      (path_name run_dir +:+ " ch" +:+ str_Z ch +:+ " full charge histograms") ;;;
    ret (best ++ match best_of_channel (summary_rows t) ch with Some r => [r] | None => [] end)) [].

(** The points whose charges are fitted. *)
Definition fit_points (point_dirs : gmap Z point_ref) : list (Z * point_ref) :=
  if r_fit_all_points args then sorted_entries point_dirs
  else match point_dirs !! r_fit_intensity args with
       | Some p => [(r_fit_intensity args, p)]
       | None => []
       end.

Definition fit_dir : string := out "pe_fits".

Definition fit_base (ch intensity : Z) : string :=
  "channel_" +:+ dec_pad 2 ch +:+ "_intensity_" +:+ dec_pad 4 intensity.

Definition fit_task (intensity : Z) (p : point_ref) (ch : Z) : task :=
  {| analysis_json_path := analysis_path (snd p); t_channel := ch; t_intensity := intensity;
     output_parent := path_join fit_dir (snd p);
     output_base := path_join (path_join fit_dir (snd p)) (fit_base ch intensity);
     t_run_name := path_name run_dir; t_max_peaks := r_gaussian_max_peaks args;
     t_nmax := r_vinogradov_nmax args |}.

Definition fit_tasks (fit_channels : list Z) (points : list (Z * point_ref)) : list task :=
  mjoin ((fun ip => fit_task (fst ip) (snd ip) <$> fit_channels) <$> points).

Definition report (reference_intensity : Z) (channels : list Z) (waveform_len : Z)
    (point_dirs : gmap Z point_ref) (fit_channels : list Z) (fit_jobs : Z) (fit_executor : executor)
    (n_tasks : Z) : pyval :=
  PyDict [("run_dir", PyStr run_dir); ("supplement_run_dirs", PyList (PyStr <$> supplement_dirs));
    ("reference_intensity", PyInt reference_intensity); ("channels", PyList (PyInt <$> channels));
    ("waveform_len", PyInt waveform_len); ("n_points", PyInt (Z.of_nat (size point_dirs)));
    ("output_dir", PyStr output_dir); ("fit_channel", PyList (PyInt <$> fit_channels));
    ("fit_intensity", PyInt (r_fit_intensity args)); ("fit_all_points", PyBool (r_fit_all_points args));
    ("fit_jobs", PyInt fit_jobs); ("fit_executor", PyStr (executor_name fit_executor));
    ("gaussian_max_peaks", PyInt (r_gaussian_max_peaks args));
    ("vinogradov_nmax", PyInt (r_vinogradov_nmax args)); ("n_fit_tasks", PyInt n_tasks)].

(** The windows, the points and their tables. *)
Definition analyze_run (channels : list Z) (waveform_len : Z) (point_dirs : gmap Z point_ref)
    : M files (Z * tables) :=
  '(reference_intensity, reference) <- lift (the_reference point_dirs) ;;
  windows <- lift (derive_windows channels waveform_len reference_intensity reference) ;;
  put (out "channel_windows.json")
    (DJson (PyDict ((fun cw => (str_Z (fst cw), PyDict (as_dict (snd cw)))) <$> sorted_entries windows))) ;;;
  save_window_plot (sorted_set channels) ;;;
  mkdir (out "points") ;;;
  let start := Tables [] (list_to_map ((fun ch => (ch, [])) <$> channels)) in
  t <- fold_m (sorted_entries point_dirs) (reanalyze_point channels waveform_len windows) start ;;
  ret (reference_intensity, t).

Definition main : M files Z :=
  manifest <- lift (load_manifest runs run_dir) ;;
  channels <- lift (the_channels manifest) ;;
  waveform_len <- lift (the_waveform_len manifest) ;;
  mkdir output_dir ;;;
  point_dirs <- lift (gather_analyzed_points runs (run_dir :: supplement_dirs)) ;;
  when (bool_decide (point_dirs = ∅))
    (raise (Exn RuntimeError ("No analyzed points found under " +:+ run_dir))) ;;;
  '(reference_intensity, t) <- analyze_run channels waveform_len point_dirs ;;
  write_summary (summary_rows t) ;;;
  best <- best_rows t ;;
  match best with
  | [] => ret tt
  | _ => write_rows (out "best_snr_by_channel.csv") best
  end ;;;
  mkdir fit_dir ;;;
  let fit_channels := _default_fit_channels channels (r_fit_channel args) (r_fit_all_points args) in
  let tasks := fit_tasks fit_channels (fit_points point_dirs) in
  '(fit_jobs, fit_executor, _) <- run_fits fit_dir (r_jobs args) tasks ;;
  put (out "report.json") (DJson (report reference_intensity channels waveform_len point_dirs
    fit_channels fit_jobs fit_executor (Z.of_nat (length tasks)))) ;;;
  ret 0.

End main.

(** ** Lemmas: names of the fits *)

(** The name of a fit tells its channel and intensity, whatever comes after the dot. *)
Lemma fit_base_inj ch i ch' i' x y :
  fit_base ch i +:+ String "." x = fit_base ch' i' +:+ String "." y -> ch = ch' /\ i = i' /\ x = y.
Proof.
  unfold fit_base. rewrite !append_assoc. intros He. apply string_app_inj_l in He.
  change ("_intensity_" +:+ (dec_pad 4 i +:+ String "." x))
    with (String "_" ("intensity_" +:+ (dec_pad 4 i +:+ String "." x))) in He.
  change ("_intensity_" +:+ (dec_pad 4 i' +:+ String "." y))
    with (String "_" ("intensity_" +:+ (dec_pad 4 i' +:+ String "." y))) in He.
  apply until_inj in He as [Hch He]; [|by apply dec_pad_chars; intros c; apply int_char_not..].
  apply string_app_inj_l in He.
  apply until_inj in He as [Hi He]; [|by apply dec_pad_chars; intros c; apply int_char_not..].
  split_and!; [by apply (inj (dec_pad 2))|by apply (inj (dec_pad 4))|done].
Qed.

Lemma fit_base_no_slash ch i s : no_slash s -> no_slash (fit_base ch i +:+ s).
Proof.
  unfold no_slash, fit_base. intros Hs. rewrite !str_all_app, Hs.
  rewrite !dec_pad_chars; [done|intros c; by apply int_char_not..].
Qed.

(** ** Lemmas: the tasks of the fits *)

Section tasks.
Context `{NP : Numpy, SP : Scipy, HO : Host, IN : Input}.
Context (args : options).

Lemma fit_file ip p ch s :
  output_base (fit_task args ip p ch) +:+ s =
  path_join (path_join (fit_dir args) (snd p)) (fit_base ch ip +:+ s).
Proof using Type. apply path_join_suffix. Qed.

Lemma fit_file_below ip p ch s :
  output_base (fit_task args ip p ch) +:+ s =
  out args ("pe_fits/" +:+ (snd p +:+ "/" +:+ (fit_base ch ip +:+ s))).
Proof using Type.
  rewrite fit_file. unfold fit_dir, out. rewrite (path_join_nest _ "pe_fits") by done.
  change ("pe_fits" +:+ "/" +:+ snd p) with ("pe_fits/" +:+ snd p).
  rewrite path_join_nest by done. by rewrite !append_assoc.
Qed.

Lemma analysis_below name : analysis_path args name = out args ("points/" +:+ (name +:+ "/analysis.json")).
Proof using Type.
  unfold analysis_path, analysis_dir, out. rewrite (path_join_nest _ "points") by done.
  change ("points" +:+ "/" +:+ name) with ("points/" +:+ name).
  rewrite path_join_nest by done. by rewrite !append_assoc.
Qed.

Lemma outs_below ip p ch f :
  f ∈ outs (fit_task args ip p ch) -> exists s, f = out args ("pe_fits/" +:+ s).
Proof using Type.
  unfold outs, json_path, png_path. rewrite elem_of_union, !elem_of_singleton, !fit_file_below.
  intros [->| ->]; by eexists.
Qed.

(** Two fits write the same file only when they are of the same channel and intensity. *)
Lemma outs_same ip p ch ip' p' ch' f :
  f ∈ outs (fit_task args ip p ch) -> f ∈ outs (fit_task args ip' p' ch') -> ch = ch' /\ ip = ip'.
Proof using Type.
  assert (Hname : forall i q c, f ∈ outs (fit_task args i q c) ->
            exists x, (x = "json" \/ x = "png") /\ path_name f = fit_base c i +:+ String "." x).
  { intros i q c. unfold outs, json_path, png_path. rewrite elem_of_union, !elem_of_singleton, !fit_file.
    intros [->| ->]; [exists "json"|exists "png"]; (split; [auto|]); by apply path_name_join, fit_base_no_slash. }
  intros (x & _ & Hx)%Hname (y & _ & Hy)%Hname. rewrite Hx in Hy.
  apply fit_base_inj in Hy as (-> & -> & _). done.
Qed.

Lemma elem_of_fit_tasks fc pts t :
  t ∈ fit_tasks args fc pts <-> exists ip ch, ip ∈ pts /\ ch ∈ fc /\ t = fit_task args (fst ip) (snd ip) ch.
Proof using Type.
  unfold fit_tasks. rewrite list_elem_of_join. split.
  - intros (l & Hl & (ip & -> & Hip)%list_elem_of_fmap). apply list_elem_of_fmap in Hl as (ch & -> & Hch).
    by exists ip, ch.
  - intros (ip & ch & Hip & Hch & ->). exists (fit_task args (fst ip) (snd ip) <$> fc).
    split; apply list_elem_of_fmap; eauto.
Qed.

Lemma fit_tasks_keys fc pts : NoDup fc -> NoDup (fst <$> pts) -> NoDup (task_key <$> fit_tasks args fc pts).
Proof using Type.
  intros Hfc Hpts. induction pts as [|[i p] pts IH]; [constructor|].
  cbn [fmap list_fmap] in Hpts. apply NoDup_cons in Hpts as [Hi Hpts].
  change (fit_tasks args fc ((i, p) :: pts)) with ((fit_task args i p <$> fc) ++ fit_tasks args fc pts).
  rewrite fmap_app. apply NoDup_app. split_and!.
  - rewrite <- list_fmap_compose. apply (NoDup_fmap_2_strong _ fc); [|done].
    intros a b _ _. cbn. by intros [= ->].
  - intros k (t & -> & (ch & -> & Hch)%list_elem_of_fmap)%list_elem_of_fmap
      (t' & Hk & (ip & ch' & Hip & Hch' & ->)%elem_of_fit_tasks)%list_elem_of_fmap.
    injection Hk as _ Hk. apply Hi. apply list_elem_of_fmap. exists ip. split; [exact Hk|done].
  - by apply IH.
Qed.

End tasks.

(** The fits of a run do not disturb each other.  When no channel is listed twice, the tasks
    [main] makes have pairwise different channels or intensities, no task writes a document that
    a task reads, and no two write the same file: what [orderly] asks of them. *)
Theorem fit_tasks_separate `{NP : Numpy, SP : Scipy, HO : Host, IN : Input} args channels point_dirs :
  NoDup channels ->
  let fc := _default_fit_channels channels (r_fit_channel args) (r_fit_all_points args) in
  let tasks := fit_tasks args fc (fit_points args point_dirs) in
  separate analysis_json_path outs tasks /\ NoDup (task_key <$> tasks).
Proof.
  intros Hnd. cbv zeta. set (fc := _default_fit_channels _ _ _). set (pts := fit_points args point_dirs).
  assert (Hfc : NoDup fc) by (by apply fit_channels_nodup).
  assert (Hpts : NoDup (fst <$> pts)).
  { subst pts. unfold fit_points. case_match; [apply strict_nodup, sorted_entries_keys|].
    case_match; [apply NoDup_singleton|constructor]. }
  pose proof (fit_tasks_keys args fc pts Hfc Hpts) as Hkeys. split; [|done].
  intros i j t t' Hi Hj.
  pose proof Hi as ([n p] & ch & _ & _ & Ht)%list_elem_of_lookup_2%elem_of_fit_tasks.
  pose proof Hj as ([n' p'] & ch' & _ & _ & Ht')%list_elem_of_lookup_2%elem_of_fit_tasks.
  subst t t'. cbn [fst snd] in *. split.
  - intros Hin. apply outs_below in Hin as [s Hs]. cbn in Hs. rewrite analysis_below in Hs.
    by apply path_join_inj in Hs.
  - intros Hne f Hf Hf'. destruct (outs_same args _ _ _ _ _ _ f Hf Hf') as [-> ->]. apply Hne.
    apply (NoDup_lookup _ i j (ch', n') Hkeys); rewrite list_lookup_fmap.
    + by rewrite Hi.
    + by rewrite Hj.
Qed.

(** ** Lemmas: files that the fits spare *)

Section fits_spare.
Context `{NP : Numpy, SP : Scipy, HO : Host}.
Context (p : string).

Lemma spares_task t : analysis_json_path t ∉ outs t -> p ∉ outs t -> spares p (_run_fit_task t).
Proof using Type. intros Ha Hp. exact (acts_spares p _ _ _ (acts_task t Ha) Hp). Qed.

(** The fits touch nothing but their files and their table. *)
Lemma spares_fits fit_dir jobs tasks :
  (forall t, t ∈ tasks -> (analysis_json_path t ∉ outs t) /\ p ∉ outs t) ->
  path_join fit_dir "fit_summary.csv" <> p ->
  spares p (run_fits fit_dir jobs tasks).
Proof using Type.
  intros Hout Hcsv. unfold run_fits. destruct tasks as [|t0 ts] eqn:Ht; [done|]. rewrite <- Ht in *.
  apply spares_bind.
  - apply spares_either. intros t Hin. apply spares_task; by destruct (Hout t Hin).
  - intros [e rows]. apply spares_bind; [done|]. intros rows'.
    apply spares_bind; [by apply spares_rows|done].
Qed.

End fits_spare.

(** ** Lemmas: what the steps of [main] produce *)

Section steps.
Context `{NP : Numpy, SP : Scipy, HO : Host, IN : Input}.
Context (args : options).

(** Writing in the output directory leaves its other files. *)
Lemma spares_out name other d : other <> name -> spares (out args name) (put (out args other) d).
Proof using Type. intros Hne. apply spares_put. by intros He%path_join_inj. Qed.

(** The keys of a dictionary filled in the order of a list. *)
Definition see (seen : list Z) (c : Z) : list Z := if decide (c ∈ seen) then seen else seen ++ [c].

Lemma zput_keys {A : Type} (d : list (Z * A)) k v :
  fst <$> zput d k v = see (fst <$> d) k.
Proof using Type.
  unfold zput, see. case_decide; [|by rewrite fmap_app].
  rewrite <- list_fmap_compose. apply list_fmap_ext. intros i [k' v'] _. cbn. by case_decide.
Qed.

Lemma analyzed_channels raw dir channels len windows interp clip a :
  analyze_point raw dir channels len windows interp clip = Ok a -> fst <$> a = uniq_first channels.
Proof using Type.
  unfold analyze_point. change (uniq_first channels) with (fold_left see channels []).
  change (@nil Z) with (fst <$> (@nil (Z * channel_data))).
  generalize (@nil (Z * channel_data)). induction channels as [|ch chs IH]; intros l H; cbn [rfold fold_left] in *.
  - by injection H as ->.
  - apply rbind_ok in H as (l' & Hl & H). rewrite (IH _ H).
    repeat (apply rbind_ok in Hl as (? & _ & Hl)). injection Hl as <-. by rewrite zput_keys.
Qed.

Lemma add_rows_tables i name a t :
  summary_rows (foldl (add_rows i name) t a) = summary_rows t ++ (summary_row i name <$> a) /\
  dom (per_channel (foldl (add_rows i name) t a)) = dom (per_channel t).
Proof using Type.
  revert t. induction a as [|cd a IH]; intros t; cbn [foldl].
  - split; [by rewrite app_nil_r|done].
  - destruct (IH (add_rows i name t cd)) as [-> ->]. split.
    + cbn [add_rows summary_rows fmap list_fmap]. by rewrite <- app_assoc.
    + cbn [add_rows per_channel]. apply dom_alter_L.
Qed.

(** The channel and the intensity of the rows of a point. *)
Definition point_rows (chs : list Z) (i : Z) : list (option pyval * option pyval) :=
  (fun ch => (Some (PyInt ch), Some (PyInt i))) <$> chs.

Lemma summary_row_points i name (a : list (Z * channel_data)) :
  row_point <$> (summary_row i name <$> a) = point_rows (fst <$> a) i.
Proof using Type.
  unfold point_rows. rewrite <- !list_fmap_compose. apply list_fmap_ext. by intros k [ch d] _.
Qed.

Lemma points_rows channels len windows pts t w t' w' :
  fold_m pts (reanalyze_point args channels len windows) t w = (Ok t', w') ->
  row_point <$> summary_rows t' =
    (row_point <$> summary_rows t) ++ mjoin (point_rows (uniq_first channels) <$> (fst <$> pts)) /\
  dom (per_channel t') = dom (per_channel t).
Proof using Type.
  revert t w. induction pts as [|[i p] pts IH]; intros t w H; cbn [fold_m] in H.
  - injection H as <- _. cbn. by rewrite app_nil_r.
  - inv_bind H. destruct (IH _ _ H) as [-> ->]. unfold reanalyze_point in Hrun.
    inv_bind Hrun. inv_bind Hrun. inv_bind Hrun. inv_bind Hrun. injection Hrun as <- _.
    destruct (add_rows_tables i (snd p) a1 t) as [-> ->]. split; [|done].
    unfold lift in Hrun1. injection Hrun1 as Ha _. apply analyzed_channels in Ha.
    rewrite fmap_app, summary_row_points, Ha, <- app_assoc. done.
Qed.

Lemma best_rows_spec t l best0 w best w' :
  fold_m l (fun best (cr : Z * list row) =>
    let '(ch, rows) := cr in
    save_channel_overlay args (out args ("channel_" +:+ dec_pad 2 ch +:+ "_overlay_hist.png")) rows
      (path_name (run_dir args) +:+ " ch" +:+ str_Z ch +:+ " full charge histograms") ;;;
    ret (best ++ match best_of_channel (summary_rows t) ch with Some r => [r] | None => [] end)) best0 w
    = (Ok best, w') ->
  best = best0 ++ omap (best_of_channel (summary_rows t)) (fst <$> l).
Proof using Type.
  revert best0 w. induction l as [|[ch rows] l IH]; intros best0 w H; cbn [fold_m] in H.
  - injection H as <- _. cbn. by rewrite app_nil_r.
  - inv_bind H. rewrite (IH _ _ H). inv_bind Hrun. injection Hrun as <- _. rewrite <- app_assoc. f_equal.
    cbn [fmap list_fmap omap list_omap fst]. by destruct (best_of_channel (summary_rows t) ch).
Qed.

Lemma spares_overlay name ch rows title :
  "channel_" +:+ dec_pad 2 ch +:+ "_overlay_hist.png" <> name ->
  spares (out args name)
    (save_channel_overlay args (out args ("channel_" +:+ dec_pad 2 ch +:+ "_overlay_hist.png")) rows title).
Proof using Type.
  intros Hne. unfold save_channel_overlay. apply spares_when, spares_bind; [apply spares_lift|].
  intros _. by apply spares_out.
Qed.

Lemma sorted_keys {A : Type} (m : gmap Z A) (l : list Z) :
  (forall k, is_Some (m !! k) <-> k ∈ l) -> fst <$> sorted_entries m = sorted_set l.
Proof using Type.
  intros Hm. apply strict_sorted_unique; [apply sorted_entries_keys|apply sorted_set_strict|].
  intros k. rewrite elem_of_sorted_set, <- Hm, list_elem_of_fmap. split.
  - intros ([k' x] & -> & Hin%elem_of_sorted_entries). cbn. by eexists.
  - intros [x Hx]. exists (k, x). split; [done|]. by apply elem_of_sorted_entries.
Qed.

End steps.

(** What a run with a result leaves: its tables, and its report. *)
Record reanalyzed `{NP : Numpy, SP : Scipy, HO : Host, IN : Input} (args : options) (channels : list Z)
    (point_dirs : gmap Z point_ref) (w' : files) : Prop := {
  some_points : point_dirs <> ∅;
  tables_written : exists fields rows,
    w' !! out args "summary_by_point.csv" = Some (DCsv fields rows) /\
    row_point <$> rows =
      mjoin (point_rows (uniq_first channels) <$> (fst <$> sorted_entries point_dirs)) /\
    let best := omap (best_of_channel rows) (sorted_set channels) in
    (best <> [] -> exists fields', w' !! out args "best_snr_by_channel.csv" = Some (DCsv fields' best));
  report_written : exists ref len jobs e,
    let fc := _default_fit_channels channels (r_fit_channel args) (r_fit_all_points args) in
    w' !! out args "report.json" = Some (DJson (report args ref channels len point_dirs fc jobs e
      (Z.of_nat (length (fit_tasks args fc (fit_points args point_dirs)))))) }.

Section outcome.
Context `{NP : Numpy, SP : Scipy, HO : Host, IN : Input}.
Context (args : options).

(** A name that no file of the overlays and of the fits has. *)
Definition table_name (name : string) : Prop :=
  (forall s, "channel_" +:+ s <> name) /\ (forall s, "pe_fits/" +:+ s <> name).

Lemma spares_best name t : table_name name -> spares (out args name) (best_rows args t).
Proof using Type.
  intros [Hn _]. apply spares_fold. intros best [ch rows] _. apply spares_bind; [|done].
  by apply spares_overlay.
Qed.

Lemma spares_main_fits name fc pts jobs :
  table_name name -> spares (out args name) (run_fits (fit_dir args) jobs (fit_tasks args fc pts)).
Proof using Type.
  intros [_ Hn]. apply spares_fits.
  - intros t (ip & ch & _ & _ & ->)%elem_of_fit_tasks. split.
    + intros [s Hs]%outs_below. cbn in Hs. rewrite analysis_below in Hs. by apply path_join_inj in Hs.
    + intros [s Hs]%outs_below. apply path_join_inj in Hs. by apply (Hn s).
  - unfold fit_dir, out. rewrite (path_join_nest _ "pe_fits") by done.
    intros Hs%path_join_inj. by apply (Hn "fit_summary.csv").
Qed.

Lemma start_channels (channels : list Z) k :
  is_Some ((list_to_map ((fun ch => (ch, [])) <$> channels) : gmap Z (list row)) !! k) <-> k ∈ channels.
Proof using Type.
  induction channels as [|ch chs IH]; cbn.
  - split; [intros [? Hk]; by rewrite lookup_empty in Hk|intros Hk; by apply not_elem_of_nil in Hk].
  - rewrite lookup_insert_is_Some, elem_of_cons. destruct (decide (ch = k)); naive_solver.
Qed.

Lemma analyze_run_rows channels len point_dirs w ref t w' :
  analyze_run args channels len point_dirs w = (Ok (ref, t), w') ->
  row_point <$> summary_rows t =
    mjoin (point_rows (uniq_first channels) <$> (fst <$> sorted_entries point_dirs)) /\
  fst <$> sorted_entries (per_channel t) = sorted_set channels.
Proof using Type.
  unfold analyze_run. intros H. inv_bind H. destruct a as [r p]. do 5 inv_bind H.
  injection H as _ <- _. apply points_rows in Hrun4 as [Hrows Hdom]. split; [exact Hrows|].
  apply sorted_keys. intros k. rewrite <- elem_of_dom, Hdom, elem_of_dom. apply start_channels.
Qed.

Lemma write_summary_ok rows w r w' :
  write_summary args rows w = (Ok r, w') ->
  w' = <[out args "summary_by_point.csv" := DCsv (fst <$> default [] (head rows)) rows]> w.
Proof using Type.
  destruct rows as [|r0 rows]; [|apply rows_written].
  unfold write_summary. intros H. inv_bind H. done.
Qed.

(** The best rows as [main] writes them. *)
Definition write_best (best : list row) : M files unit :=
  match best with
  | [] => ret tt
  | _ => write_rows (out args "best_snr_by_channel.csv") best
  end.

Lemma spares_write_best name best :
  "best_snr_by_channel.csv" <> name -> spares (out args name) (write_best best).
Proof using Type.
  intros Hne. destruct best as [|r0 rs]; [done|]. apply spares_rows. by intros He%path_join_inj.
Qed.

Lemma write_best_ok best w r w' :
  write_best best w = (Ok r, w') -> best <> [] ->
  exists fields, w' !! out args "best_snr_by_channel.csv" = Some (DCsv fields best).
Proof using Type.
  intros H Hne. destruct best as [|r0 rs]; [done|]. apply rows_written in H as ->.
  eexists. by rewrite lookup_insert_eq.
Qed.

(** The end of [main], after the summary: the tables stay. *)
Lemma tables_stay t best fc pts doc_ w7 w8 w9 w10 w11 w12 a5 r6 a7 :
  best_rows args t w7 = (Ok best, w8) -> write_best best w8 = (Ok a5, w9) ->
  mkdir (fit_dir args) w9 = (r6, w10) ->
  run_fits (fit_dir args) (r_jobs args) (fit_tasks args fc pts) w10 = (Ok a7, w11) ->
  put (out args "report.json") doc_ w11 = (Ok tt, w12) ->
  w12 !! out args "summary_by_point.csv" = w7 !! out args "summary_by_point.csv" /\
  w12 !! out args "best_snr_by_channel.csv" = w9 !! out args "best_snr_by_channel.csv" /\
  w12 !! out args "report.json" = Some doc_.
Proof using Type.
  intros Hb Hw Hm Hf Hp.
  assert (Hs : table_name "summary_by_point.csv") by done.
  assert (Hbn : table_name "best_snr_by_channel.csv") by done.
  assert (Hmk : w10 = w9) by (unfold mkdir, lift in Hm; by injection Hm). subst w10.
  split_and!.
  - rewrite (spares_run _ _ _ _ _ (spares_out args "summary_by_point.csv" "report.json" _ ltac:(done)) Hp).
    rewrite (spares_run _ _ _ _ _ (spares_main_fits _ fc pts _ Hs) Hf).
    rewrite (spares_run _ _ _ _ _ (spares_write_best "summary_by_point.csv" best ltac:(done)) Hw).
    by rewrite (spares_run _ _ _ _ _ (spares_best _ t Hs) Hb).
  - rewrite (spares_run _ _ _ _ _ (spares_out args "best_snr_by_channel.csv" "report.json" _ ltac:(done)) Hp).
    by rewrite (spares_run _ _ _ _ _ (spares_main_fits _ fc pts _ Hbn) Hf).
  - apply put_ok in Hp as ->. by rewrite lookup_insert_eq.
Qed.

End outcome.

(** C17. A reanalysis that ends has done its work.  When [main] returns, it returns 0, and there was
    a point to analyze.  [summary_by_point.csv] has exactly one row per chosen point and
    channel: points by increasing intensity, and at each of them the channels in the order of the
    command line or the manifest, each once.  [best_snr_by_channel.csv] holds the best row of each
    channel that has one ([best_of_channel_correct]), by channel.  [report.json] tells the
    points, channels and tasks.  Nothing written later, by the fits under any schedule or for the
    figures, has replaced these files. *)
Theorem reanalysis_complete `{NP : Numpy, SP : Scipy, HO : Host, IN : Input} args w code w' :
  main args w = (Ok code, w') ->
  code = 0 /\
  exists manifest channels point_dirs,
    load_manifest runs (run_dir args) = Ok manifest /\ the_channels args manifest = Ok channels /\
    gather_analyzed_points runs (run_dir args :: supplement_dirs args) = Ok point_dirs /\
    reanalyzed args channels point_dirs w'.
Proof.
  unfold main. intros H. inv_bind H. inv_bind H. inv_bind H. inv_bind H. inv_bind H.
  unfold lift in Hrun, Hrun0, Hrun3. injection Hrun as Hman _. injection Hrun0 as Hch _.
  injection Hrun3 as Hpd _. rename a into manifest, a0 into channels, a3 into point_dirs.
  inv_bind H. inv_bind H. destruct a0 as [ref t]. do 4 inv_bind H.
  inv_bind H. destruct a6 as [[jobs e] rows]. inv_bind H. injection H as <- <-.
  split; [done|]. exists manifest, channels, point_dirs. split_and!; [done..|].
  apply analyze_run_rows in Hrun0 as [Hrows Hkeys]. apply write_summary_ok in Hrun3 as Hw7.
  pose proof (best_rows_spec args t _ _ _ _ _ Hrun4) as Hbest. rewrite Hkeys in Hbest. cbn [app] in Hbest.
  destruct a6. destruct (tables_stay args t _ _ _ _ _ _ _ _ _ _ _ _ _ Hrun4 Hrun5 Hrun6 Hrun7 Hrun8)
    as (Hsum & Hb & Hrep).
  split.
  - intros He. rewrite bool_decide_eq_true_2 in Hrun by exact He. done.
  - eexists _, (summary_rows t). split_and!; [by rewrite Hsum, Hw7, lookup_insert_eq|done|].
    rewrite <- Hbest. intros Hne. rewrite Hb. by apply (write_best_ok args a3 _ _ _ Hrun5).
  - exists ref, a1, jobs, e. exact Hrep.
Qed.

(** ** A run with two points and two channels *)

#[local] Existing Instances some_numpy some_scipy some_laws some_host.

Definition pulse_words (k : Z) : list Z :=
  replicate 24 100 ++ ((fun x => 100 + k * x) <$> [4; 80; 300; 600; 400; 200; 50; 10; 2]) ++ replicate 15 100.

#[local] Instance some_input : Input := {
  runs := <["a" := RunDir (Some (quoted "{'channels': [15, 3], 'waveform_len': 48}"))
                     (default ∅ (points <$> two_runs !! "a")) ∅]> two_runs;
  raw_words := fun _ => Ok (pulse_words 1 ++ pulse_words 2 ++ pulse_words 3);
  resolved := fun p => p }.

Definition some_options : options :=
  {| r_run_dir := "a"; r_supplement_run_dir := ["b"]; r_output_dir := ""; r_channels := "";
     r_waveform_len := 0; r_interpret := "signed"; r_reference_intensity := 0;
     r_search_start := 20; r_search_stop := 200; r_baseline_margin := 2; r_baseline_len := 80;
     r_pre_samples := 3; r_post_samples := 6; r_threshold_frac := f_dec 3 (-2);
     r_clip_negative := true; r_hist_bins := 320; r_fit_channel_given := [3];
     r_fit_intensity := 1150; r_fit_all_points := true; r_jobs := 0; r_gaussian_max_peaks := 8;
     r_vinogradov_nmax := 10 |}.

Lemma fit_tasks_separate_witness :
  NoDup [15; 3] /\
  separate analysis_json_path outs (fit_tasks some_options [3; 15] (fit_points some_options
    {[ 900 := ("a", "intensity_0900"); 1750 := ("b", "intensity_1750") ]})).
Proof.
  assert (Hnd : NoDup [15; 3]) by (apply (bool_decide_unpack _); vm_compute; exact I).
  split; [exact Hnd|].
  exact (proj1 (fit_tasks_separate some_options [15; 3]
    {[ 900 := ("a", "intensity_0900"); 1750 := ("b", "intensity_1750") ]} Hnd)).
Defined.

Lemma reanalysis_complete_witness :
  exists w' channels point_dirs, main some_options ∅ = (Ok 0, w') /\
    reanalyzed some_options channels point_dirs w'.
Proof.
  assert (Hok : is_ok (fst (main some_options ∅)) = true) by (vm_compute; reflexivity).
  destruct (main some_options ∅) as [[code|e] w'] eqn:Hm; [|discriminate Hok].
  destruct (reanalysis_complete some_options ∅ code w' Hm) as (-> & m & chs & pd & _ & _ & _ & Hr).
  exists w', chs, pd. split; [reflexivity|exact Hr].
Defined.
