(* ===== verification/WaveStats.v ===== *)
(** Noise statistics of a run: [client/analyze_waveform_dataset.py].

    Samples are integers, so their means are divisions of exact sums; the reductions of floats,
    percentiles, powers and the Fourier transform are classes.  The histogram of sampled points
    goes into a figure only, and a figure is its title; the page with the metrics is its template
    ([html_page]) applied to what it shows. *)
From S2P Require Import Prelude PyStr PyFloat FloatExact PyVal ChannelSpec JsonText FeConfig EnvelopeV2.
From S2P Require Import SpyAcquire OscAcq OscSpectrum ScanRuntime ChargeWindows IntensityScan RunFiles.
From S2P Require Import Pools PeFit.

(** [np.fft.rfftfreq], [mean(axis=0)] of rows, [np.percentile] and [z ** k]. *)
Class Statistics : Type := {
  np_rfftfreq : Z -> float -> list float;
  mean_rows : list (list float) -> list float;
  np_percentile : list float -> Z -> float;
  np_power : float -> Z -> float }.

(** The files before the script starts: the names in a directory, the text of a file, the 16-bit
    words of a file; [str(Path(p).expanduser().resolve())]; [str()] of JSON values that are
    neither integers, strings, booleans nor null; and the text of the page. *)
Class Tree : Type := {
  listing : string -> option (gset string);
  text_at : string -> option (result string);
  words_at : string -> option (result (list Z));
  at_path : string -> string;
  str_other : pyval -> string;
  html_page : string -> list row -> list string -> string }.

Definition is_dir `{Tree} (path : string) : bool := bool_decide (is_Some (listing path)).

Definition exists_at `{Tree} (path : string) : bool :=
  is_dir path || bool_decide (is_Some (text_at path)) || bool_decide (is_Some (words_at path)).

(** ** Reading a run *)

Definition channel_of_file (name : string) : option Z :=
  rest ← strip_prefix "channel_" name;
  let '(d, r) := take_digits rest in
  if bool_decide (d <> "") && (bool_decide (r = ".dat") || bool_decide (r = ".dat" +:+ String "010" ""))
  then unsigned10 d else None.

Definition discover_channels `{Tree} (folder : string) : result (list Z) :=
  match listing folder with
  | Some names => Ok (sorted_set (omap channel_of_file (elements names)))
  | None => Raise (not_found folder)
  end.

(** [load_metadata]: what is not a readable JSON object counts as empty. *)
Definition load_metadata `{Tree} (folder : string) : list (string * pyval) :=
  match text_at (path_join folder "run_metadata.json") with
  | Some (Ok s) => match json_loads s with Ok (PyDict d) => d | _ => [] end
  | _ => []
  end.

Definition _compose_titles `{Tree} (folder : string) (meta : row) (cli_title cli_subtitle : string)
    : string * string :=
  let title := strip cli_title in
  let title := if decide (title = "") then strip (py_str str_other (row_get meta "run_label" (PyStr "")))
               else title in
  let title := if decide (title = "") then path_name folder else title in
  let subtitle := strip cli_subtitle in
  let subtitle := if decide (subtitle = "")
                  then strip (py_str str_other (row_get meta "run_notes" (PyStr ""))) else subtitle in
  (title, subtitle).

(** This copy takes any interpretation but ["signed"] as unsigned. *)
Definition load_channel_waves (path : string) (file : result (list Z)) (n_samples max_waves : Z)
    (interpret : string) : result waves :=
  raw <-! file ;;
  if n_samples =? 0 then Raise (Exn OtherError "integer modulo by zero")
  else
    let size := Z.of_nat (length raw) in
    if negb (size mod n_samples =? 0)
    then Raise (value_error (path +:+ ": size " +:+ str_Z size +:+ " not divisible by L="
                             +:+ str_Z n_samples))
    else
      let n_waves_total := size / n_samples in
      let n_waves := if max_waves <=? 0 then n_waves_total else Z.min n_waves_total max_waves in
      let vals := if decide (interpret = "signed") then view_int16 <$> raw else raw in
      if n_samples <? 0 then Raise (value_error "cannot reshape array")
      else Ok (Waves n_samples (reshape (Z.to_nat n_waves) (Z.to_nat n_samples)
                 (take (Z.to_nat (n_waves * n_samples)) vals))).

(** ** Statistics *)

Section statistics.
Context `{NP : Numpy, SPE : Spectral, ST : Statistics}.

Definition get_window (name : string) (n_samples : Z) : result (list float) :=
  let name := upper_str name in
  let scipy {A} (f : option A) := match f with
    | Some g => Ok g
    | None => Raise (Exn RuntimeError ("SciPy required for " +:+ name +:+ " window."))
    end in
  if decide (name = "NONE") then Ok (replicate (Z.to_nat n_samples) (f_of_Z 1))
  else if decide (name = "HANNING") then Ok (np_hanning n_samples)
  else if decide (name = "HAMMING") then Ok (np_hamming n_samples)
  else if decide (name = "BLACKMAN") then Ok (np_blackman n_samples)
  else if decide (name = "BLACKMAN-HARRIS") then w <-! scipy blackmanharris ;; Ok (w n_samples)
  else if decide (name = "TUKEY") then w <-! scipy tukey ;; Ok (w n_samples)
  else Raise (value_error ("Unknown window: " +:+ name)).

(** A record less its mean. *)
Definition centered (r : list Z) : list float := let m := mean_ints r in (fun v => f_sub (f_of_Z v) m) <$> r.

Definition compute_avg_fft_dbfs (ws : waves) (fs_hz : float) (window : list float) (avg_waves : Z)
    (full_scale_counts : float) (remove_dc : bool) : result (list float * list float * Z) :=
  let n_waves := Z.of_nat (length (rows ws)) in
  let use_waves := if avg_waves <=? 0 then n_waves else Z.min n_waves avg_waves in
  let x := (fun r => if remove_dc then centered r else f_of_Z <$> r) <$> take (Z.to_nat use_waves) (rows ws) in
  xw <-! rmap (fun r => broadcast f_mul r window) x ;;
  let scale := np_sum (zip_with f_mul window window) in
  let power := (fun r => (fun c => np_div (f_add (f_mul (fst c) (fst c)) (f_mul (snd c) (snd c))) scale)
                           <$> rfft r) <$> xw in
  let square := f_mul full_scale_counts full_scale_counts in
  let dbfs := (fun p => f_mul (f_of_Z 10) (np_log10 (f_add (np_div p square) (f_dec 1 (-24)))))
                <$> mean_rows power in
  d <-! f_div (f_of_Z 1) fs_hz ;;
  Ok (np_rfftfreq (cols ws) d, dbfs, use_waves).

(** The largest and the smallest of integers. *)
Definition max_ints (l : list Z) : Z := match l with [] => 0 | v :: t => foldr Z.max v t end.
Definition min_ints (l : list Z) : Z := match l with [] => 0 | v :: t => foldr Z.min v t end.

(** The peak of a spectrum from bin [k0] on, its floor and their distance; no number where there is
    no bin. *)
Record peak : Type := Peak {
  peak_freq_hz : float; peak_dbfs : float; floor_median_dbfs : float; floor_mean_dbfs : float;
  peak_minus_floor_db : float }.

(** The bins that are neither below [k0] nor next to the peak. *)
Definition floor_bins (fft_dbfs : list float) (k0 peak_idx : nat) : list float :=
  let lo := Nat.max k0 (peak_idx - 1) in
  let hi := Nat.min (length fft_dbfs) (peak_idx + 2) in
  drop k0 (take lo fft_dbfs) ++ drop hi fft_dbfs.

Definition spectrum_peak (freq_hz fft_dbfs : list float) (keep_dc : bool) : result peak :=
  let k0 := if keep_dc then 0%nat else 1%nat in
  if (length fft_dbfs <=? k0)%nat then Ok (Peak S754_nan S754_nan S754_nan S754_nan S754_nan)
  else
    i <-! argmax (drop k0 fft_dbfs) ;;
    let peak_idx := (i + k0)%nat in
    f <-! at_index freq_hz peak_idx ;;
    p <-! at_index fft_dbfs peak_idx ;;
    Ok (match floor_bins fft_dbfs k0 peak_idx with
        | [] => Peak f p S754_nan S754_nan S754_nan
        | bins => Peak f p (np_median bins) (np_mean bins) (f_sub p (np_median bins))
        end).

Definition p2p (r : list Z) : float := f_sub (f_of_Z (max_ints r)) (f_of_Z (min_ints r)).

Definition compute_noise_metrics (ws : waves) (freq_hz fft_dbfs : list float) (keep_dc : bool)
    : result row :=
  let xs := mjoin (rows ws) in
  let xr := f_of_Z <$> xs in
  match xs with
  | [] => Raise (value_error "zero-size array to reduction operation minimum which has no identity")
  | _ =>
      let mean := mean_ints xs in
      let median := np_median xr in
      let std := np_std xr in
      let ac := (fun v => f_sub v mean) <$> xr in
      let ac_rms := f_sqrt (np_mean ((fun v => f_mul v v) <$> ac)) in
      let p2p_global := p2p xs in
      let wf_mean := mean_ints <$> rows ws in
      let wf_std := (fun r => np_std (f_of_Z <$> r)) <$> rows ws in
      let wf_p2p := p2p <$> rows ws in
      let z := (fun v => np_div v std) <$> ac in
      let above := f_ltb f_zero std in
      pk <-! spectrum_peak freq_hz fft_dbfs keep_dc ;;
      Ok [("n_waveforms", PyInt (Z.of_nat (length (rows ws)))); ("n_samples", PyInt (cols ws));
          ("mean_counts", PyFloat mean); ("median_counts", PyFloat median); ("std_counts", PyFloat std);
          ("ac_rms_counts", PyFloat ac_rms);
          ("rms_counts", PyFloat (f_sqrt (np_mean ((fun v => f_mul v v) <$> xr))));
          ("min_counts", PyFloat (f_of_Z (min_ints xs))); ("max_counts", PyFloat (f_of_Z (max_ints xs)));
          ("p2p_global_counts", PyFloat p2p_global);
          ("mad_counts", PyFloat (np_median ((fun v => f_abs (f_sub v median)) <$> xr)));
          ("p01_counts", PyFloat (np_percentile xr 1)); ("p05_counts", PyFloat (np_percentile xr 5));
          ("p95_counts", PyFloat (np_percentile xr 95)); ("p99_counts", PyFloat (np_percentile xr 99));
          ("wf_mean_mean_counts", PyFloat (np_mean wf_mean)); ("wf_mean_std_counts", PyFloat (np_std wf_mean));
          ("wf_std_mean_counts", PyFloat (np_mean wf_std)); ("wf_std_std_counts", PyFloat (np_std wf_std));
          ("wf_p2p_mean_counts", PyFloat (np_mean wf_p2p)); ("wf_p2p_std_counts", PyFloat (np_std wf_p2p));
          ("skewness", PyFloat (if above then np_mean ((fun v => np_power v 3) <$> z) else f_zero));
          ("kurtosis_excess",
             PyFloat (if above then f_sub (np_mean ((fun v => np_power v 4) <$> z)) (f_of_Z 3) else f_zero));
          ("crest_factor",
             PyFloat (if f_ltb f_zero ac_rms then np_div (f_mul p2p_global half) ac_rms else S754_nan));
          ("fft_peak_freq_hz", PyFloat (peak_freq_hz pk)); ("fft_peak_dbfs", PyFloat (peak_dbfs pk));
          ("fft_floor_median_dbfs", PyFloat (floor_median_dbfs pk));
          ("fft_floor_mean_dbfs", PyFloat (floor_mean_dbfs pk));
          ("fft_peak_minus_floor_db", PyFloat (peak_minus_floor_db pk))]
  end.

(** ** Outliers *)

Definition robust_zscore (values : list float) : list float :=
  let med := np_median values in
  let mad := np_median ((fun v => f_abs (f_sub v med)) <$> values) in
  if f_leb mad (f_dec 1 (-18)) then zeros_like values
  else (fun v => np_div (f_mul (f_dec 67448975 (-8)) (f_sub v med)) mad) <$> values.

(** [row[k] = v] *)
Definition row_put (r : row) (k : string) (v : pyval) : row :=
  if decide (k ∈ fst <$> r)
  then (fun kv => if decide (fst kv = k) then (k, v) else kv) <$> r
  else r ++ [(k, v)].

Definition outlier_metrics : list string := ["std_counts"; "wf_p2p_mean_counts"; "fft_floor_median_dbfs"].

Definition row_float (r : row) (k : string) : result float := v <-! item (PyDict r) k ;; to_float v.

(** [f"{x:+.2f}"] *)
Definition f_signed (k : nat) (x : float) : string :=
  match f_fixed k x with String "-" t => String "-" t | t => "+" +:+ t end.

Definition no_outlier (r : row) : row :=
  row_put (row_put (row_put r "outlier_score_max_abs_z" (PyFloat f_zero)) "outlier_flag" (PyBool false))
    "outlier_reasons" (PyStr "").

(** The scores [zs] of one row: the row with them, its reasons and its largest score. *)
Definition score_step (z_threshold : float) (s : row * list string * float) (kz : string * float)
    : row * list string * float :=
  let '(r, reasons, z_max) := s in
  let '(key, z_val) := kz in
  let z_abs := f_abs z_val in
  (row_put r (key +:+ "_robust_z") (PyFloat z_val),
   (if f_leb z_threshold z_abs then reasons ++ [key +:+ ":z=" +:+ f_signed 2 z_val] else reasons),
   py_max z_max z_abs).

Definition score_row (z_threshold : float) (r : row) (zs : list (string * float)) : row * list string :=
  let '(r, reasons, z_max) := foldl (score_step z_threshold) (r, [], f_zero) zs in
  (row_put (row_put (row_put r "outlier_score_max_abs_z" (PyFloat z_max)) "outlier_flag"
     (PyBool (negb (bool_decide (reasons = []))))) "outlier_reasons" (PyStr (join "; " reasons)), reasons).

Definition flag_of (rr : row * list string) : result (list (Z * string)) :=
  match snd rr with
  | [] => Ok []
  | reasons => c <-! item (PyDict (fst rr)) "channel" ;; ch <-! py_int c ;; Ok [(ch, join "; " reasons)]
  end.

Definition mark_outliers (metrics_rows : list row) (z_threshold : float)
    : result (list row * list (Z * string)) :=
  let fresh := no_outlier <$> metrics_rows in
  if f_leb z_threshold f_zero || (length metrics_rows <? 4)%nat then Ok (fresh, [])
  else
    z_map <-! rmap (fun key => vals <-! rmap (fun r => row_float r key) fresh ;;
                               Ok (key, robust_zscore vals)) outlier_metrics ;;
    marked <-! rmap (fun ir => zs <-! rmap (fun kz => z <-! at_index (snd kz) (fst ir) ;; Ok (fst kz, z)) z_map ;;
                               Ok (score_row z_threshold (snd ir) zs)) (imap pair fresh) ;;
    flagged <-! rmap flag_of marked ;;
    Ok (fst <$> marked, mjoin flagged).

End statistics.

(** ** Tables and the page *)

Definition preferred_metrics : list string :=
  ["std_counts"; "ac_rms_counts"; "wf_p2p_mean_counts"; "wf_mean_std_counts"; "fft_floor_median_dbfs";
   "fft_peak_dbfs"; "fft_peak_minus_floor_db"; "skewness"; "kurtosis_excess"; "crest_factor"].

Definition is_number (v : pyval) : bool := match v with PyInt _ | PyFloat _ => true | _ => false end.

Definition metric_order (rows : list row) : list string :=
  match rows with
  | [] => []
  | r :: _ =>
      let keys := fst <$> filter (fun kv => fst kv <> "channel" /\ is_number (snd kv) = true) r in
      let ordered := filter (fun k => k ∈ keys) preferred_metrics in
      ordered ++ filter (fun k => k ∉ ordered) keys
  end.

Definition _json_safe (v : pyval) : pyval :=
  match v with PyFloat x => if is_finite x then v else PyNone | _ => v end.

Definition html_escape (s : string) : string :=
  replace_char ">" "&gt;" (replace_char "<" "&lt;" (replace_char "&" "&amp;" s)).

Definition save_metrics `{Host} (rows : list row) (csv_path json_path : string) : M files unit :=
  match rows with
  | [] => ret tt
  | _ => write_rows csv_path rows ;;; put json_path (DJson (PyList (PyDict <$> rows)))
  end.

Definition write_interactive_html `{Host, Tree} (rows : list row) (html_path dataset_name : string)
    : M files unit :=
  match rows with
  | [] => ret tt
  | _ => put html_path (DText (html_page (html_escape dataset_name)
           ((fun r : row => prod_map id _json_safe <$> r) <$> rows) (metric_order rows)))
  end.

(** ** [main] *)

Record wave_args : Type := WaveArgs {
  wa_folder : string; wa_channels : string; wa_L : Z; wa_fs : float; wa_max_waves : Z;
  wa_fft_avg_waves : Z; wa_fft_window : string; wa_fft_full_scale_counts : float; wa_fft_keep_dc : bool;
  wa_interpret : string; wa_hist_bins : Z; wa_hist_sample_points : Z; wa_outlier_z : float;
  wa_prefix : string; wa_title : string; wa_subtitle : string }.

Section main.
Context `{NP : Numpy, SPE : Spectral, ST : Statistics, HO : Host, TR : Tree}.
Context (args : wave_args).

(** The channels: those asked for, else those of the metadata, else those of the files. *)
Definition wave_channels (folder : string) (meta : row) : result (list Z) :=
  asked <-! (if decide (wa_channels args = "") then Ok [] else parse_channels_expr (wa_channels args)) ;;
  let listed := match asked, row_get meta "channels" PyNone with
                | [], PyList l => match rmap py_int l with Ok cs => sorted_set cs | Raise _ => [] end
                | _, _ => asked
                end in
  match listed with [] => discover_channels folder | _ => Ok listed end.

Definition wave_samples (meta : row) : result Z :=
  if 0 <? wa_L args then Ok (wa_L args)
  else py_int (py_or (row_get meta "samples_per_waveform" (PyInt 0)) (PyInt 0)).

Definition wave_fs (meta : row) : result float :=
  if f_ltb f_zero (wa_fs args) then Ok (wa_fs args)
  else to_float (row_get meta "sampling_rate_hz" (PyFloat (f_of_Z 62500000))).

Definition wave_window (meta : row) : string :=
  if decide (wa_fft_window args = "")
  then py_str str_other (row_get meta "fft_window_function" (PyStr "BLACKMAN-HARRIS"))
  else wa_fft_window args.

(** A channel: its metrics, unless its file is missing or empty. *)
Definition channel_metrics (folder : string) (n_samples : Z) (fs_hz : float) (window : list float) (ch : Z)
    : result (option row) :=
  let path := channel_path folder ch in
  match words_at path with
  | None => Ok None
  | Some file =>
      ws <-! load_channel_waves path file n_samples (wa_max_waves args) (wa_interpret args) ;;
      match mjoin (rows ws) with
      | [] => Ok None
      | _ =>
          '(freq_hz, fft_dbfs, fft_used) <-! compute_avg_fft_dbfs ws fs_hz window (wa_fft_avg_waves args)
             (wa_fft_full_scale_counts args) (negb (wa_fft_keep_dc args)) ;;
          r <-! compute_noise_metrics ws freq_hz fft_dbfs (wa_fft_keep_dc args) ;;
          Ok (Some (row_put (row_put r "channel" (PyInt ch)) "fft_avg_waves_used" (PyInt fft_used)))
      end
  end.

(** The rows of the channels, in their order; [metrics_rows.sort] by [channel]. *)
Definition channel_order (a b : Z * row) : Prop := fst a <= fst b.

#[local] Instance channel_order_dec : RelDecision channel_order.
Proof. intros a b. unfold channel_order. apply _. Defined.

Definition metrics_of (folder : string) (channels : list Z) (n_samples : Z) (fs_hz : float)
    (window : list float) : result (list row) :=
  rs <-! rmap (fun ch => r <-! channel_metrics folder n_samples fs_hz window ch ;;
                         Ok ((fun r => (ch, r)) <$> r)) channels ;;
  Ok (snd <$> merge_sort channel_order (omap id rs)).

(** [folder / f"{prefix}{name}"] *)
Definition wave_out (folder name : string) : string := path_join folder (wa_prefix args +:+ name).

Definition save_figures (folder title : string) : M files unit :=
  put (wave_out folder "fft_overlay.png") (DPlot ("Average FFT Overlay (" +:+ title +:+ ")")) ;;;
  put (wave_out folder "noise_hist_overlay.png") (DPlot ("AC Noise Histogram Overlay (" +:+ title +:+ ")")) ;;;
  put (wave_out folder "noise_summary.png") (DPlot ("Per-Channel Noise Summary (" +:+ title +:+ ")")).

Definition main : M files Z :=
  let folder := at_path (wa_folder args) in
  if negb (exists_at folder) then ret 2
  else if wa_hist_bins args <? 10 then ret 2
  else if wa_hist_sample_points args <? 0 then ret 2
  else
    let meta := load_metadata folder in
    let '(title, subtitle) := _compose_titles folder meta (wa_title args) (wa_subtitle args) in
    channels <- lift (wave_channels folder meta) ;;
    match channels with
    | [] => ret 2
    | _ =>
        n_samples <- lift (wave_samples meta) ;;
        if n_samples <=? 0 then ret 2
        else
          fs_hz <- lift (wave_fs meta) ;;
          window <- lift (get_window (wave_window meta) n_samples) ;;
          metrics_rows <- lift (metrics_of folder channels n_samples fs_hz window) ;;
          match metrics_rows with
          | [] => ret 2
          | _ =>
              '(metrics_rows, flagged) <- lift (mark_outliers metrics_rows (wa_outlier_z args)) ;;
              save_figures folder title ;;;
              save_metrics metrics_rows (wave_out folder "noise_metrics.csv")
                (wave_out folder "noise_metrics.json") ;;;
              write_interactive_html metrics_rows (wave_out folder "noise_metrics_interactive.html")
                (if decide (subtitle = "") then title else title +:+ " — " +:+ subtitle) ;;;
              ret 0
          end
    end.

End main.

(** ** Lemmas: rows *)

Lemma lookup_row_put r k k' v :
  lookup_key (row_put r k v) k' = if decide (k = k') then Some v else lookup_key r k'.
Proof.
  unfold row_put, lookup_key. destruct (decide (k ∈ fst <$> r)) as [Hin|Hout].
  - induction r as [|[k0 v0] r IH]; [by apply not_elem_of_nil in Hin|].
    cbn [fmap list_fmap find fst]. destruct (decide (k0 = k)) as [->|Hne].
    + cbn [fst]. case_bool_decide as Hk; case_decide; try done. cbn [fst].
      clear -Hk. induction r as [|[k1 v1] r IH]; [done|]. cbn [fmap list_fmap find fst].
      destruct (decide (k1 = k)) as [->|]; cbn [fst]; case_bool_decide; done.
    + cbn [fst]. case_bool_decide as Hk.
      * case_decide; [congruence|done].
      * apply IH. cbn [fmap list_fmap fst] in Hin. apply elem_of_cons in Hin as [He|Hin]; [congruence|done].
  - induction r as [|[k0 v0] r IH].
    + cbn. case_bool_decide; case_decide; done.
    + cbn [app find fst]. cbn [fmap list_fmap fst] in Hout. apply not_elem_of_cons in Hout as [Hne Hout].
      case_bool_decide as Hk; [case_decide; [congruence|done]|by apply IH].
Qed.

Lemma row_put_keys r k v : fst <$> row_put r k v = if decide (k ∈ fst <$> r) then fst <$> r else (fst <$> r) ++ [k].
Proof.
  unfold row_put. case_decide as Hin; [|by rewrite fmap_app].
  rewrite <- list_fmap_compose. apply list_fmap_ext. intros i [k' v'] _. cbn. by case_decide.
Qed.

(** ** The two copies of the reader *)

(** Results that are equal, or exceptions of one class. *)
Definition same_outcome {A : Type} (a b : result A) : Prop :=
  match a, b with
  | Ok x, Ok y => x = y
  | Raise e, Raise f => exn_class e = exn_class f
  | _, _ => False
  end.

(** The reader of this script and that of [led_charge.py] are one: on samples that are read as
    signed or unsigned they give the same waveforms, or exceptions of the same class.  They differ
    on any other interpretation: this one reads the samples as unsigned where the other refuses. *)
Theorem readers_agree path file n_samples max_waves interpret :
  (interpret = "signed" \/ interpret = "unsigned" ->
   same_outcome (load_channel_waves path file n_samples max_waves interpret)
     (ChargeWindows.load_channel_waves path file n_samples max_waves interpret)) /\
  (interpret <> "signed" /\ interpret <> "unsigned" ->
   load_channel_waves path file n_samples max_waves interpret
     = load_channel_waves path file n_samples max_waves "unsigned" /\
   exists e, ChargeWindows.load_channel_waves path file n_samples max_waves interpret = Raise e).
Proof.
  unfold load_channel_waves, ChargeWindows.load_channel_waves. destruct file as [raw|e]; cbn [rbind].
  2: { split; [done|]. intros _. split; [done|by eexists]. }
  destruct (n_samples =? 0); [split; [done|]; intros _; split; [done|by eexists]|].
  destruct (negb _); [split; [done|]; intros _; split; [done|by eexists]|]. split.
  - intros [->| ->]; repeat case_decide; try done; cbn [rbind]; by destruct (n_samples <? 0).
  - intros [H1 H2]. split; [by rewrite decide_False by done|]. rewrite !decide_False by done. by eexists.
Qed.

(** ** Lemmas: outliers *)

Lemma rmap_at {A B : Type} (f : A -> result B) l l' :
  rmap f l = Ok l' -> Forall2 (fun a b => f a = Ok b) l l'.
Proof.
  revert l'. induction l as [|a l IH]; intros l' H; cbn [rmap] in H; [by injection H as <-|].
  apply rbind_ok in H as (b & Hb & H). apply rbind_ok in H as (bs & Hbs & H). injection H as <-.
  constructor; [done|by apply IH].
Qed.

Lemma no_outlier_lookup r k :
  k ∉ ["outlier_score_max_abs_z"; "outlier_flag"; "outlier_reasons"] ->
  lookup_key (no_outlier r) k = lookup_key r k.
Proof.
  rewrite !not_elem_of_cons. intros (H1 & H2 & H3 & _). unfold no_outlier.
  rewrite !lookup_row_put. by rewrite !decide_False by done.
Qed.

Section outliers.
Context `{NP : Numpy}.

(** The scores of a metric over the rows, and that of row [i]. *)
Definition scores (rows : list row) (key : string) : list float :=
  match rmap (fun r => row_float r key) rows with Ok vals => robust_zscore vals | Raise _ => [] end.

Definition score (rows : list row) (key : string) (i : nat) : float := default S754_nan (scores rows key !! i).

Definition suspicious (rows : list row) (z_threshold : float) (i : nat) : bool :=
  existsb (fun key => f_leb z_threshold (f_abs (score rows key i))) outlier_metrics.

Definition marks : list string :=
  ["outlier_score_max_abs_z"; "outlier_flag"; "outlier_reasons"]
  ++ ((fun key => key +:+ "_robust_z") <$> outlier_metrics).

Lemma score_row_marks thr r z1 z2 z3 :
  let '(r', reasons) := score_row thr r (zip outlier_metrics [z1; z2; z3]) in
  (forall k, k ∉ marks -> lookup_key r' k = lookup_key r k) /\
  (forall key z, (key, z) ∈ zip outlier_metrics [z1; z2; z3] ->
     lookup_key r' (key +:+ "_robust_z") = Some (PyFloat z)) /\
  lookup_key r' "outlier_flag" = Some (PyBool (existsb (fun z => f_leb thr (f_abs z)) [z1; z2; z3])) /\
  (reasons = [] <-> existsb (fun z => f_leb thr (f_abs z)) [z1; z2; z3] = false).
Proof using Type.
  unfold score_row. cbn [zip zip_with outlier_metrics foldl score_step app].
  set (reasons := if f_leb thr (f_abs z3) then _ else _).
  assert (Hr : reasons = [] <-> existsb (fun z => f_leb thr (f_abs z)) [z1; z2; z3] = false).
  { subst reasons. cbn [existsb]. destruct (f_leb thr (f_abs z1)), (f_leb thr (f_abs z2)), (f_leb thr (f_abs z3)); done. }
  split_and!.
  - intros k. unfold marks. cbn [app fmap list_fmap outlier_metrics]. rewrite !not_elem_of_cons.
    intros (H1 & H2 & H3 & H4 & H5 & H6 & _). rewrite !lookup_row_put. by rewrite !decide_False by congruence.
  - intros key z. rewrite !elem_of_cons. intros [[= -> ->]|[[= -> ->]|[[= -> ->]|H]]];
      [by rewrite !lookup_row_put..|by apply not_elem_of_nil in H].
  - rewrite !lookup_row_put. do 2 f_equal. destruct (existsb _ _) eqn:He.
    + rewrite bool_decide_eq_false_2; [done|]. intros Hn. apply Hr in Hn. by rewrite Hn in He.
    + by rewrite bool_decide_eq_true_2 by by apply Hr.
  - done.
Qed.

Lemma fresh_column rows key :
  key ∈ outlier_metrics ->
  rmap (fun r => row_float r key) (no_outlier <$> rows) = rmap (fun r => row_float r key) rows.
Proof using Type.
  intros Hk. induction rows as [|r rows IH]; [done|]. cbn [fmap list_fmap rmap].
  fold (no_outlier <$> rows). rewrite IH. f_equal. unfold row_float, ChargeWindows.item.
  rewrite no_outlier_lookup; [done|]. unfold outlier_metrics in Hk; rewrite !elem_of_cons in Hk.
  destruct Hk as [->|[->|[->|Hk]]]; [apply (bool_decide_unpack _); vm_compute; exact I..|].
  by apply not_elem_of_nil in Hk.
Qed.

(** The scores of all metrics, for rows that have them. *)
Lemma z_map_scores rows z_map :
  rmap (fun key => rbind (rmap (fun r => row_float r key) (no_outlier <$> rows))
                     (fun vals => Ok (key, robust_zscore vals))) outlier_metrics = Ok z_map ->
  z_map = (fun key => (key, scores rows key)) <$> outlier_metrics.
Proof using Type.
  intros H. apply rmap_at in H.
  assert (Hgen : forall l l', (forall k, k ∈ l -> k ∈ outlier_metrics) ->
    Forall2 (fun key b => rbind (rmap (fun r => row_float r key) (no_outlier <$> rows))
                     (fun vals => Ok (key, robust_zscore vals)) = Ok b) l l' ->
    l' = (fun key => (key, scores rows key)) <$> l); [|by apply Hgen].
  clear. intros l l' Hin H. induction H as [|key b l l' Hb _ IH]; [done|]. cbn [fmap list_fmap].
  rewrite fresh_column in Hb by apply Hin, list_elem_of_here. f_equal.
  - apply rbind_ok in Hb as (vals & Hv & Hb). injection Hb as <-. unfold scores. by rewrite Hv.
  - apply IH. intros k Hk. by apply Hin, list_elem_of_further.
Qed.

Lemma scores_at rows i keys zs :
  rmap (fun kz : string * list float => rbind (at_index (snd kz) i) (fun z => Ok (fst kz, z)))
    ((fun key => (key, scores rows key)) <$> keys) = Ok zs ->
  zs = (fun key => (key, score rows key i)) <$> keys.
Proof using Type.
  revert zs. induction keys as [|key keys IH]; intros zs H; cbn [fmap list_fmap rmap] in H.
  - by injection H as <-.
  - apply rbind_ok in H as (b & Hb & H). apply rbind_ok in H as (bs & Hbs & H). injection H as <-.
    apply rbind_ok in Hb as (z & Hz & Hb). injection Hb as <-. cbn [fmap list_fmap fst snd] in *. f_equal.
    + unfold score. unfold at_index in Hz. by destruct (scores rows key !! i); simplify_eq/=.
    + by apply IH.
Qed.

(** The row [i] of the table that is marked. *)
Lemma marked_row rows thr i r zs :
  rmap (fun kz => rbind (at_index (snd kz) i) (fun z => Ok (fst kz, z)))
    ((fun key => (key, scores rows key)) <$> outlier_metrics) = Ok zs ->
  let '(r', reasons) := score_row thr (no_outlier r) zs in
  (forall k, k ∉ marks -> lookup_key r' k = lookup_key r k) /\
  (forall key, key ∈ outlier_metrics -> lookup_key r' (key +:+ "_robust_z") = Some (PyFloat (score rows key i))) /\
  lookup_key r' "outlier_flag" = Some (PyBool (suspicious rows thr i)) /\
  (reasons = [] <-> suspicious rows thr i = false).
Proof using Type.
  intros H. apply scores_at in H as ->. change ((fun key => (key, score rows key i)) <$> outlier_metrics)
    with (zip outlier_metrics ((fun key => score rows key i) <$> outlier_metrics)).
  pose proof (score_row_marks thr (no_outlier r) (score rows "std_counts" i)
    (score rows "wf_p2p_mean_counts" i) (score rows "fft_floor_median_dbfs" i)) as Hm.
  cbn [fmap list_fmap outlier_metrics]. cbn [outlier_metrics] in Hm.
  destruct (score_row _ _ _) as [r' reasons]. destruct Hm as (H1 & H2 & H3 & H4). split_and!; [| |done|done].
  - intros k Hk. rewrite H1 by done. apply no_outlier_lookup. intros Hin. apply Hk.
    unfold marks. apply elem_of_app. by left.
  - intros key Hk. apply H2. unfold outlier_metrics in Hk; rewrite !elem_of_cons in Hk. cbn. rewrite !elem_of_cons.
    destruct Hk as [->|[->|[->|Hk]]]; [by auto..|by apply not_elem_of_nil in Hk].
Qed.

(** A row with its marks. *)
Definition marked_as (rows : list row) (thr : float) (ir : nat * row) (m : row * list string) : Prop :=
  let '(r', reasons) := m in
  (forall k, k ∉ marks -> lookup_key r' k = lookup_key (snd ir) k) /\
  (forall key, key ∈ outlier_metrics ->
     lookup_key r' (key +:+ "_robust_z") = Some (PyFloat (score rows key (fst ir)))) /\
  lookup_key r' "outlier_flag" = Some (PyBool (suspicious rows thr (fst ir))) /\
  (reasons = [] <-> suspicious rows thr (fst ir) = false).

Lemma flags_of_marked rows thr l ms fl :
  Forall2 (marked_as rows thr) l ms -> rmap flag_of ms = Ok fl ->
  rmap (fun ir => c <-! ChargeWindows.item (PyDict (snd ir)) "channel" ;; py_int c)
    (filter (fun ir => suspicious rows thr (fst ir) = true) l) = Ok (fst <$> mjoin fl).
Proof using Type.
  intros H. revert fl. induction H as [|[i r] [r' reasons] l ms Hm _ IH]; intros fl Hfl; cbn [rmap] in Hfl.
  - by injection Hfl as <-.
  - apply rbind_ok in Hfl as (f & Hf & Hfl). apply rbind_ok in Hfl as (fs & Hfs & Hfl). injection Hfl as <-.
    specialize (IH fs Hfs). destruct Hm as (Hkeep & _ & _ & Hnone). cbn [fst snd] in *.
    unfold flag_of in Hf. cbn [fst snd] in Hf. destruct reasons as [|x reasons].
    + injection Hf as <-. rewrite filter_cons_False; [done|]. intros Hs.
      change (suspicious rows thr i = true) in Hs. by rewrite (proj1 Hnone eq_refl) in Hs.
    + assert (Hs : suspicious rows thr i = true).
      { destruct (suspicious rows thr i) eqn:He; [done|]. discriminate (proj2 Hnone eq_refl). }
      rewrite filter_cons_True by done. cbn [rmap snd]. rewrite IH.
      unfold ChargeWindows.item in *. rewrite <- (Hkeep "channel") by
        (apply (bool_decide_unpack _); vm_compute; exact I).
      apply rbind_ok in Hf as (c & Hc & Hf). rewrite Hc. cbn [rbind].
      apply rbind_ok in Hf as (ch & Hch & Hf). rewrite Hch. by injection Hf as <-.
Qed.

End outliers.

(** The rows that [mark_outliers] marks, when it looks for outliers. *)
Lemma marked_all `{NP : Numpy} rows thr z_map ms :
  z_map = (fun key => (key, scores rows key)) <$> outlier_metrics ->
  rmap (fun ir => zs <-! rmap (fun kz => z <-! at_index (snd kz) (fst ir) ;; Ok (fst kz, z)) z_map ;;
                  Ok (score_row thr (snd ir) zs)) (imap pair (no_outlier <$> rows)) = Ok ms ->
  Forall2 (marked_as rows thr) (imap pair rows) ms.
Proof.
  intros -> Hms. apply rmap_at in Hms. rewrite imap_fmap in Hms.
  replace (imap (fun n => pair n ∘ no_outlier) rows) with (prod_map id no_outlier <$> imap pair rows)
    in Hms by by rewrite fmap_imap.
  apply Forall2_fmap_l in Hms. eapply Forall2_impl; [exact Hms|]. intros [i r] m Hm. cbn in Hm.
  apply rbind_ok in Hm as (zs & Hzs & Hm). injection Hm as <-.
  pose proof (marked_row rows thr i r zs Hzs) as Hr. unfold marked_as. by destruct (score_row _ _ _).
Qed.

(** Marking keeps the other fields. *)
Lemma marks_keep `{NP : Numpy} rows thr out flagged :
  mark_outliers rows thr = Ok (out, flagged) ->
  Forall2 (fun r r' => forall k, k ∉ marks -> lookup_key r' k = lookup_key r k) rows out.
Proof.
  unfold mark_outliers. intros H. destruct (_ || _).
  - injection H as <- _. apply Forall2_fmap_r, Forall_Forall2_diag, Forall_forall. intros r _ k Hk. cbn.
    apply no_outlier_lookup. intros Hin. apply Hk. unfold marks. apply elem_of_app. by left.
  - apply rbind_ok in H as (z_map & Hz & H). apply z_map_scores in Hz.
    apply rbind_ok in H as (ms & Hms & H). apply rbind_ok in H as (fl & Hfl & H). injection H as <- _.
    pose proof (marked_all rows thr z_map ms Hz Hms) as Hall. apply Forall2_fmap_r.
    assert (Hrows : rows = snd <$> imap pair rows).
    { rewrite fmap_imap. apply list_eq. intros i. rewrite list_lookup_imap. by destruct (rows !! i). }
    rewrite Hrows at 1. apply Forall2_fmap_l. eapply Forall2_impl; [exact Hall|].
    intros [i r] [r' reasons] (Hk & _). exact Hk.
Qed.

(** C35. What is marked as an outlier.  When outliers are looked for (a positive threshold, at least
    four channels) and the table is marked, each row keeps all its other fields, has the robust
    score of each of the three metrics over the rows, and is flagged exactly when one of them
    reaches the threshold; the list that is returned names the channels of the flagged rows, in
    their order.  Otherwise no row is flagged. *)
Theorem outliers_marked `{NP : Numpy} rows thr out flagged :
  mark_outliers rows thr = Ok (out, flagged) ->
  if f_leb thr f_zero || (length rows <? 4)%nat then
    flagged = [] /\
    Forall (fun r => lookup_key r "outlier_flag" = Some (PyBool false)) out
  else
    length out = length rows /\
    (forall i r, rows !! i = Some r -> exists r', out !! i = Some r' /\
      (forall k, k ∉ marks -> lookup_key r' k = lookup_key r k) /\
      (forall key, key ∈ outlier_metrics ->
         lookup_key r' (key +:+ "_robust_z") = Some (PyFloat (score rows key i))) /\
      lookup_key r' "outlier_flag" = Some (PyBool (suspicious rows thr i))) /\
    rmap (fun ir => c <-! ChargeWindows.item (PyDict (snd ir)) "channel" ;; py_int c)
      (filter (fun ir => suspicious rows thr (fst ir) = true) (imap pair rows)) = Ok (fst <$> flagged).
Proof.
  unfold mark_outliers. intros H. destruct (_ || _).
  - injection H as <- <-. split; [done|]. apply Forall_fmap, Forall_forall. intros r _. cbn.
    unfold no_outlier. by rewrite !lookup_row_put.
  - apply rbind_ok in H as (z_map & Hz & H). apply z_map_scores in Hz as ->.
    apply rbind_ok in H as (ms & Hms & H). apply rbind_ok in H as (fl & Hfl & H). injection H as <- <-.
    pose proof (marked_all rows thr _ ms eq_refl Hms) as Hall.
    split_and!.
    + rewrite length_fmap. by rewrite <- (Forall2_length _ _ _ Hall), length_imap.
    + intros i r Hr. destruct (Forall2_lookup_l _ _ _ i (i, r) Hall) as ([r' reasons] & Hm & H1 & H2 & H3 & _).
      { rewrite list_lookup_imap. exact (f_equal (fmap (pair i)) Hr). }
      exists r'. rewrite list_lookup_fmap, Hm. by split_and!.
    + by apply (flags_of_marked rows thr _ ms).
Qed.

(** ** The peak of a spectrum *)

Section mask.
Context {A : Type} (P : nat -> bool).

Definition numbered (m : nat) (l : list A) : list (nat * A) := imap (fun n v => ((m + n)%nat, v)) l.

Lemma numbered_cons m x l : numbered m (x :: l) = (m, x) :: numbered (S m) l.
Proof using Type.
  unfold numbered. rewrite imap_cons. rewrite Nat.add_0_r. f_equal. apply imap_ext. intros n v _. cbn.
  f_equal. lia.
Qed.

Lemma numbered_app m l1 l2 : numbered m (l1 ++ l2) = numbered m l1 ++ numbered (m + length l1) l2.
Proof using Type. unfold numbered. rewrite imap_app. f_equal. apply imap_ext. intros n v _. f_equal. lia. Qed.

Lemma mask_all m l :
  (forall j, (m <= j < m + length l)%nat -> P j = true) -> snd <$> filter (fun jv => P (fst jv) = true) (numbered m l) = l.
Proof using Type.
  revert m. induction l as [|x l IH]; intros m Hall; [done|]. rewrite numbered_cons.
  cbn [length] in Hall. rewrite filter_cons_True by (apply Hall; cbn; lia). cbn [fmap list_fmap snd]. f_equal.
  apply IH. intros j Hj. apply Hall. lia.
Qed.

Lemma mask_none m l :
  (forall j, (m <= j < m + length l)%nat -> P j = false) -> snd <$> filter (fun jv => P (fst jv) = true) (numbered m l) = [].
Proof using Type.
  revert m. induction l as [|x l IH]; intros m Hall; [done|]. rewrite numbered_cons.
  cbn [length] in Hall. rewrite filter_cons_False by (cbn [fst]; rewrite Hall by lia; done).
  apply IH. intros j Hj. apply Hall. lia.
Qed.

End mask.

(** The mask of the code: the bins from [k0] on that are not next to the peak. *)
Definition in_floor (k0 peak_idx j : nat) : bool :=
  (k0 <=? j)%nat && negb ((Nat.max k0 (peak_idx - 1) <=? j) && (j <? peak_idx + 2))%nat.

Lemma floor_mask dbfs k0 i :
  (k0 <= i)%nat -> (i < length dbfs)%nat ->
  floor_bins dbfs k0 i = snd <$> filter (fun jv => in_floor k0 i (fst jv) = true) (numbered 0 dbfs).
Proof.
  intros Hk Hi. unfold floor_bins. set (lo := Nat.max k0 (i - 1)). set (hi := Nat.min (length dbfs) (i + 2)).
  assert (Hlo : (k0 <= lo <= hi)%nat) by (unfold lo, hi; lia).
  assert (Hhi : (hi <= length dbfs)%nat) by (unfold hi; lia).
  assert (Hcut : dbfs = take k0 dbfs ++ drop k0 (take lo dbfs) ++ drop lo (take hi dbfs) ++ drop hi dbfs).
  { rewrite <- (take_drop hi dbfs) at 1. rewrite <- (take_drop lo (take hi dbfs)) at 1.
    rewrite take_take, Nat.min_l by lia. rewrite <- (take_drop k0 (take lo dbfs)) at 1.
    rewrite take_take, Nat.min_l by lia. by rewrite <- !app_assoc. }
  rewrite Hcut at 3. rewrite !numbered_app, !filter_app, !fmap_app.
  assert (L1 : length (take k0 dbfs) = k0) by (rewrite length_take; lia).
  assert (L2 : length (drop k0 (take lo dbfs)) = (lo - k0)%nat) by (rewrite length_drop, length_take; lia).
  assert (L3 : length (drop lo (take hi dbfs)) = (hi - lo)%nat) by (rewrite length_drop, length_take; lia).
  rewrite (mask_none (in_floor k0 i) 0), (mask_all (in_floor k0 i) (0 + _)), L1, L2,
    (mask_none (in_floor k0 i) (0 + k0 + (lo - k0))), L3, mask_all; [done|..];
    intros j; rewrite ?L1, ?L2, ?L3, ?length_drop; unfold in_floor, lo, hi in *;
    destruct (Nat.leb_spec k0 j), (Nat.leb_spec (Nat.max k0 (i - 1)) j), (Nat.ltb_spec j (i + 2));
    cbn [andb negb]; intros Hj; first [done|exfalso; lia].
Qed.

(** The peak of a spectrum and its floor.  From the first bin on that counts (DC only when it is
    kept), the peak that is reported is a bin that no bin exceeds, with its frequency, and the
    floor is the median and the mean of the bins that are neither skipped nor next to the peak,
    and the distance of the peak to that median; none of them is a number when there are no bins
    for it. *)
Theorem spectrum_peak_correct `{NP : Numpy} freq_hz dbfs keep_dc pk :
  spectrum_peak freq_hz dbfs keep_dc = Ok pk ->
  let k0 := if keep_dc then 0%nat else 1%nat in
  if (length dbfs <=? k0)%nat then pk = Peak S754_nan S754_nan S754_nan S754_nan S754_nan
  else exists i, (k0 <= i < length dbfs)%nat /\
    dbfs !! i = Some (peak_dbfs pk) /\ freq_hz !! i = Some (peak_freq_hz pk) /\
    (forall j v, (k0 <= j)%nat -> dbfs !! j = Some v -> f_ltb (peak_dbfs pk) v = false) /\
    let bins := snd <$> filter (fun jv => in_floor k0 i (fst jv) = true) (numbered 0 dbfs) in
    (bins = [] -> floor_median_dbfs pk = S754_nan /\ peak_minus_floor_db pk = S754_nan) /\
    (bins <> [] -> floor_median_dbfs pk = np_median bins /\ floor_mean_dbfs pk = np_mean bins /\
       peak_minus_floor_db pk = f_sub (peak_dbfs pk) (np_median bins)).
Proof.
  unfold spectrum_peak. intros H. cbv zeta in *. set (k0 := if keep_dc then 0%nat else 1%nat) in *. destruct (Nat.leb_spec (length dbfs) k0) as [Hl|Hl].
  - by injection H as <-.
  - apply rbind_ok in H as (i & Hi & H). apply rbind_ok in H as (f & Hf & H).
    apply rbind_ok in H as (p & Hp & H). pose proof (argmax_bound _ _ Hi) as Hb. rewrite length_drop in Hb.
    destruct (argmax_max _ _ Hi) as (v & Hv & Hmax). rewrite lookup_drop in Hv.
    unfold at_index in Hf, Hp. rewrite (Nat.add_comm i k0) in *. rewrite Hv in Hp. injection Hp as <-.
    destruct (freq_hz !! (k0 + i)%nat) as [f'|] eqn:Hf'; [|done]. injection Hf as <-.
    exists (k0 + i)%nat. rewrite floor_mask in H by lia. set (bins := snd <$> _) in *.
    assert (Hpk : peak_dbfs pk = v /\ peak_freq_hz pk = f') by (by destruct bins; injection H as <-).
    destruct Hpk as [-> ->]. split_and!; [lia|lia|done|done| | |].
    + intros j x Hj Hx. rewrite Forall_lookup in Hmax. apply (Hmax (j - k0)%nat). rewrite lookup_drop.
      by replace (k0 + (j - k0))%nat with j by lia.
    + intros ->. by injection H as <-.
    + intros Hne. destruct bins as [|b bins]; [done|]. by injection H as <-.
Qed.

(** ** Lemmas: the rows of the channels *)

#[export] Instance channel_order_total : Total channel_order.
Proof. intros [a r] [b r']. unfold channel_order. cbn. lia. Qed.

#[export] Instance channel_order_trans : Transitive channel_order.
Proof. intros [a r] [b r'] [c r'']. unfold channel_order. cbn. lia. Qed.

(** Sorting rows that are in the order of their channels changes nothing. *)
Lemma sort_channels (l : list (Z * row)) : StronglySorted Z.lt (fst <$> l) -> merge_sort channel_order l = l.
Proof.
  intros Hs. apply (StronglySorted_unique_strong channel_order).
  - intros a b. rewrite !(merge_sort_Permutation channel_order). intros Ha Hb H1 H2.
    assert (Hab : fst a = fst b) by (unfold channel_order in *; lia).
    clear H1 H2. induction l as [|x l IH]; [by apply not_elem_of_nil in Ha|].
    cbn [fmap list_fmap] in Hs. apply StronglySorted_inv in Hs as [Hs Hx]. rewrite Forall_fmap, Forall_forall in Hx.
    apply elem_of_cons in Ha as [Ha|Ha], Hb as [Hb|Hb]; [by subst|..|by apply IH].
    + specialize (Hx b Hb). subst a. cbn in Hx. lia.
    + specialize (Hx a Ha). subst b. cbn in Hx. lia.
  - apply (StronglySorted_merge_sort channel_order).
  - induction l as [|x l IH]; [constructor|]. cbn [fmap list_fmap] in Hs.
    apply StronglySorted_inv in Hs as [Hs Hx]. constructor; [by apply IH|].
    rewrite Forall_fmap in Hx. eapply Forall_impl; [exact Hx|]. intros y Hy. unfold channel_order. cbn in Hy. lia.
  - apply (merge_sort_Permutation channel_order).
Qed.

Lemma sorted_filter (P : Z -> Prop) `{forall z, Decision (P z)} l :
  StronglySorted Z.lt l -> StronglySorted Z.lt (filter P l).
Proof.
  induction 1 as [|z l Hl IH Hz]; [constructor|]. destruct (decide (P z)).
  - rewrite filter_cons_True by done. constructor; [done|]. apply Forall_forall. intros y [_ Hy]%list_elem_of_filter.
    by apply (proj1 (Forall_forall _ _) Hz).
  - by rewrite filter_cons_False by done.
Qed.

Section rows.
Context `{NP : Numpy, SPE : Spectral, ST : Statistics, HO : Host, TR : Tree}.
Context (args : wave_args).

(** The channels whose file is there and has a sample in it. *)
Definition holds_samples (folder : string) (ch : Z) : bool :=
  match words_at (channel_path folder ch) with Some (Ok (_ :: _)) => true | _ => false end.

(** The records of a file: its words, read as the interpretation says, cut after every [n]; all of
    them, or as many as are asked for. *)
Record records_in (raw : list Z) (n : Z) (ws : waves) : Prop := {
  rc_total := Z.of_nat (length raw) / n;
  whole_records : Z.of_nat (length raw) = rc_total * n;
  record_count : Z.of_nat (length (rows ws))
                   = if wa_max_waves args <=? 0 then rc_total else Z.min rc_total (wa_max_waves args);
  record_length : cols ws = n /\ Forall (fun r => Z.of_nat (length r) = n) (rows ws);
  record_words : mjoin (rows ws)
    `prefix_of` (if decide (wa_interpret args = "signed") then view_int16 <$> raw else raw) }.

(** The levels of a spectrum: of the mean, over the records, of the power of the record less its
    mean (unless DC is kept) times the window. *)
Definition shown_samples (r : list Z) : list float :=
  if wa_fft_keep_dc args then f_of_Z <$> r else (fun v => f_sub (f_of_Z v) (mean_ints r)) <$> r.

Definition line_power (window : list float) (c : float * float) : float :=
  np_div (f_add (f_mul (fst c) (fst c)) (f_mul (snd c) (snd c))) (np_sum (zip_with f_mul window window)).

Definition dbfs_level (p : float) : float :=
  f_mul (f_of_Z 10) (np_log10 (f_add
    (np_div p (f_mul (wa_fft_full_scale_counts args) (wa_fft_full_scale_counts args))) (f_dec 1 (-24)))).

Definition levels_of (window : list float) (recs : list (list Z)) (fft_dbfs : list float) : Prop :=
  exists windowed, Forall2 (fun r xw => broadcast f_mul (shown_samples r) window = Ok xw) recs windowed /\
    fft_dbfs = dbfs_level <$> mean_rows ((fun xw => line_power window <$> rfft xw) <$> windowed).

(** What the row of some records says of them and of their spectrum. *)
Record row_reports (ws : waves) (freq_hz fft_dbfs : list float) (r : row) : Prop := {
  rr_samples := mjoin (rows ws);
  rr_shape : lookup_key r "n_waveforms" = Some (PyInt (Z.of_nat (length (rows ws)))) /\
             lookup_key r "n_samples" = Some (PyInt (cols ws));
  rr_mean : lookup_key r "mean_counts" = Some (PyFloat (mean_ints rr_samples)) /\
            lookup_key r "std_counts" = Some (PyFloat (np_std (f_of_Z <$> rr_samples)));
  rr_extremes : exists lo hi, lo ∈ rr_samples /\ hi ∈ rr_samples /\ Forall (fun v => lo <= v <= hi) rr_samples /\
    lookup_key r "min_counts" = Some (PyFloat (f_of_Z lo)) /\
    lookup_key r "max_counts" = Some (PyFloat (f_of_Z hi)) /\
    lookup_key r "p2p_global_counts" = Some (PyFloat (f_sub (f_of_Z hi) (f_of_Z lo)));
  rr_peak : exists pk, spectrum_peak freq_hz fft_dbfs (wa_fft_keep_dc args) = Ok pk /\
    lookup_key r "fft_peak_freq_hz" = Some (PyFloat (peak_freq_hz pk)) /\
    lookup_key r "fft_peak_dbfs" = Some (PyFloat (peak_dbfs pk)) /\
    lookup_key r "fft_floor_median_dbfs" = Some (PyFloat (floor_median_dbfs pk)) }.

(** [r0] is the row of the file of [ch], with samples at [fs_hz]: the metrics of its records and of
    the spectrum of the first of them. *)
Definition metrics_of_file (folder : string) (n : Z) (fs_hz : float) (window : list float) (ch : Z)
    (r0 : row) : Prop :=
  exists raw ws d fft_dbfs used metrics,
    words_at (channel_path folder ch) = Some (Ok raw) /\ records_in raw n ws /\
    used = (let k := Z.of_nat (length (rows ws)) in
            if wa_fft_avg_waves args <=? 0 then k else Z.min k (wa_fft_avg_waves args)) /\
    f_div (f_of_Z 1) fs_hz = Ok d /\ levels_of window (take (Z.to_nat used) (rows ws)) fft_dbfs /\
    compute_noise_metrics ws (np_rfftfreq n d) fft_dbfs (wa_fft_keep_dc args) = Ok metrics /\
    row_reports ws (np_rfftfreq n d) fft_dbfs r0 /\
    lookup_key r0 "channel" = Some (PyInt ch) /\ lookup_key r0 "fft_avg_waves_used" = Some (PyInt used) /\
    forall k, k <> "channel" -> k <> "fft_avg_waves_used" -> lookup_key r0 k = lookup_key metrics k.

(** The number of samples, the sampling rate and the window: of the command line where it gives
    them, else of the metadata. *)
Inductive window_named (n : Z) : string -> list float -> Prop :=
  | named_none : window_named n "NONE" (replicate (Z.to_nat n) (f_of_Z 1))
  | named_hanning : window_named n "HANNING" (np_hanning n)
  | named_hamming : window_named n "HAMMING" (np_hamming n)
  | named_blackman : window_named n "BLACKMAN" (np_blackman n)
  | named_harris f : blackmanharris = Some f -> window_named n "BLACKMAN-HARRIS" (f n)
  | named_tukey f : tukey = Some f -> window_named n "TUKEY" (f n).

Record settings_of (meta : row) (n : Z) (fs_hz : float) (window : list float) : Prop := {
  set_samples : if 0 <? wa_L args then n = wa_L args
                else py_int (py_or (row_get meta "samples_per_waveform" (PyInt 0)) (PyInt 0)) = Ok n;
  set_positive : 0 < n;
  set_rate : if f_ltb f_zero (wa_fs args) then fs_hz = wa_fs args
             else to_float (row_get meta "sampling_rate_hz" (PyFloat (f_of_Z 62500000))) = Ok fs_hz;
  set_window : window_named n (upper_str
    (if decide (wa_fft_window args = "")
     then py_str str_other (row_get meta "fft_window_function" (PyStr "BLACKMAN-HARRIS"))
     else wa_fft_window args)) window }.

(** The channels: those asked for, else those the metadata lists, else those of the files; each
    once, by increasing number. *)
Definition listed_in (meta : row) : list Z :=
  match row_get meta "channels" PyNone with
  | PyList l => match rmap py_int l with Ok cs => cs | Raise _ => [] end
  | _ => []
  end.

Record channels_of (folder : string) (meta : row) (channels : list Z) : Prop := {
  ch_order : StronglySorted Z.lt channels;
  ch_chosen : exists asked,
    (if decide (wa_channels args = "") then asked = [] else parse_channels_expr (wa_channels args) = Ok asked) /\
    forall ch, ch ∈ channels <->
      match asked, listed_in meta with
      | [], [] => exists names name, listing folder = Some names /\ name ∈ names /\ channel_of_file name = Some ch
      | [], l => ch ∈ l
      | _, _ => ch ∈ asked
      end }.

Lemma extremes (l : list Z) : l <> [] ->
  min_ints l ∈ l /\ max_ints l ∈ l /\ Forall (fun v => min_ints l <= v <= max_ints l) l.
Proof using Type.
  destruct l as [|v l]; [done|intros _]. unfold min_ints, max_ints.
  assert (H : foldr Z.min v l ∈ v :: l /\ foldr Z.max v l ∈ v :: l /\
    foldr Z.min v l <= v <= foldr Z.max v l /\ Forall (fun x => foldr Z.min v l <= x <= foldr Z.max v l) l).
  { induction l as [|x l (Hlo & Hhi & Hv & Hl)]; cbn [foldr].
    - rewrite !list_elem_of_singleton. split_and!; [done|done|lia|lia|constructor].
    - split_and!; [..|lia|lia|].
      + destruct (Z.min_spec x (foldr Z.min v l)) as [[_ ->]|[_ ->]]; [set_solver|].
        apply elem_of_cons in Hlo as [->|Hlo]; set_solver.
      + destruct (Z.max_spec x (foldr Z.max v l)) as [[_ ->]|[_ ->]]; [|set_solver].
        apply elem_of_cons in Hhi as [->|Hhi]; set_solver.
      + constructor; [lia|]. eapply Forall_impl; [exact Hl|]. intros y Hy. cbv beta in Hy. lia. }
  destruct H as (Hlo & Hhi & Hv & Hl). split_and!; [done|done|]. by constructor.
Qed.

Lemma records_loaded path raw n ws :
  0 < n -> load_channel_waves path (Ok raw) n (wa_max_waves args) (wa_interpret args) = Ok ws ->
  records_in raw n ws.
Proof using Type.
  unfold load_channel_waves. cbn [rbind]. intros Hn. rewrite (proj2 (Z.eqb_neq n 0)) by lia.
  destruct (Z.eqb_spec (Z.of_nat (length raw) mod n) 0) as [Hm|]; [|done]. cbn [negb].
  rewrite (proj2 (Z.ltb_ge n 0)) by lia. set (k := if wa_max_waves args <=? 0 then _ else _).
  set (vals := if decide _ then _ else _). intros [= <-].
  assert (Hd : Z.of_nat (length raw) = Z.of_nat (length raw) / n * n)
    by (pose proof (Z.div_mod (Z.of_nat (length raw)) n); lia).
  assert (Hq : 0 <= Z.of_nat (length raw) / n) by (apply Z.div_pos; lia).
  assert (Hk : 0 <= k <= Z.of_nat (length raw) / n) by (subst k; destruct (Z.leb_spec (wa_max_waves args) 0); lia).
  assert (Hv : length vals = length raw) by (subst vals; case_decide; [apply length_fmap|done]).
  assert (Hlen : length (take (Z.to_nat (k * n)) vals) = (Z.to_nat k * Z.to_nat n)%nat).
  { rewrite length_take, Hv, Z2Nat.inj_mul by lia. apply Nat.min_l. nia. }
  destruct (reshape_all _ _ _ Hlen) as (Hj & Hl & Hr). split; cbn [cols rows].
  - done.
  - rewrite Hl. rewrite Z2Nat.id by lia. done.
  - split; [done|]. eapply Forall_impl; [exact Hr|]. intros r Hr'. cbv beta in Hr'. lia.
  - rewrite Hj. apply prefix_take.
Qed.

Lemma no_samples raw n ws : 0 < n -> records_in raw n ws -> mjoin (rows ws) = [] <-> raw = [].
Proof using Type.
  intros Hn [rc_total Hw Hc [_ Hr] _]. split; intros He.
  - destruct raw as [|x raw]; [done|]. assert (Ht : 1 <= rc_total) by (cbn [length] in Hw; nia).
    destruct (rows ws) as [|r rs]; [destruct (Z.leb_spec (wa_max_waves args) 0); cbn in Hc; lia|].
    inversion Hr as [|? ? Hr0 _]. destruct r; [cbn in Hr0; lia|done].
  - subst raw. assert (rc_total = 0) as -> by (cbn in Hw; nia).
    destruct (rows ws) as [|r rs]; [done|]. destruct (Z.leb_spec (wa_max_waves args) 0); cbn in Hc; lia.
Qed.

Lemma metrics_report ws freq_hz fft_dbfs r :
  compute_noise_metrics ws freq_hz fft_dbfs (wa_fft_keep_dc args) = Ok r -> row_reports ws freq_hz fft_dbfs r.
Proof using Type.
  unfold compute_noise_metrics. destruct (mjoin (rows ws)) as [|x xs] eqn:He; [done|]. cbv zeta.
  rewrite <- He. intros H. apply rbind_ok in H as (pk & Hpk & H). injection H as <-.
  destruct (extremes (mjoin (rows ws))) as (Hlo & Hhi & Hall); [by rewrite He|].
  split; cbv zeta; [done|done|..|by exists pk].
  by exists (min_ints (mjoin (rows ws))), (max_ints (mjoin (rows ws))).
Qed.

Lemma reports_keep ws freq_hz fft_dbfs r r' :
  (forall k, k <> "channel" -> k <> "fft_avg_waves_used" -> lookup_key r' k = lookup_key r k) ->
  row_reports ws freq_hz fft_dbfs r -> row_reports ws freq_hz fft_dbfs r'.
Proof using Type.
  intros Hk [xs Hs Hm (lo & hi & H1 & H2 & H3 & H4) (pk & Hp & H5)].
  split; rewrite ?Hk by done; [done|done|..].
  - by exists lo, hi.
  - by exists pk.
Qed.

Lemma levels_computed ws fs_hz window freq_hz fft_dbfs used :
  compute_avg_fft_dbfs ws fs_hz window (wa_fft_avg_waves args) (wa_fft_full_scale_counts args)
    (negb (wa_fft_keep_dc args)) = Ok (freq_hz, fft_dbfs, used) ->
  used = (let k := Z.of_nat (length (rows ws)) in
          if wa_fft_avg_waves args <=? 0 then k else Z.min k (wa_fft_avg_waves args)) /\
  levels_of window (take (Z.to_nat used) (rows ws)) fft_dbfs /\
  exists d, f_div (f_of_Z 1) fs_hz = Ok d /\ freq_hz = np_rfftfreq (cols ws) d.
Proof using Type.
  unfold compute_avg_fft_dbfs. cbv zeta. set (k := if wa_fft_avg_waves args <=? 0 then _ else _). intros H.
  apply rbind_ok in H as (xw & Hxw & H). apply rbind_ok in H as (d & Hd & H). injection H as <- <- <-.
  split; [done|]. split; [|by exists d]. exists xw. split; [|done].
  apply rmap_at in Hxw. rewrite Forall2_fmap_l in Hxw. eapply Forall2_impl; [exact Hxw|].
  intros r y Hy. cbv beta in Hy. unfold shown_samples. by destruct (wa_fft_keep_dc args).
Qed.

(** What the metrics of a channel are: none where there is no sample, else those of its file. *)
Lemma channel_measured folder n fs_hz window ch o :
  0 < n -> channel_metrics args folder n fs_hz window ch = Ok o ->
  match o with
  | None => holds_samples folder ch = false
  | Some r => holds_samples folder ch = true /\ metrics_of_file folder n fs_hz window ch r
  end.
Proof using Type.
  intros Hn. unfold channel_metrics, holds_samples, metrics_of_file.
  destruct (words_at (channel_path folder ch)) as [[raw|e]|]; [..|by intros [= <-]].
  2: { unfold load_channel_waves. cbn [rbind]. done. }
  intros H. apply rbind_ok in H as (ws & Hload & H). apply records_loaded in Hload as Hrec; [|done].
  pose proof (no_samples raw n ws Hn Hrec) as Hnone. destruct (mjoin (rows ws)) as [|x xs] eqn:He.
  { injection H as <-. by rewrite (proj1 Hnone eq_refl). }
  apply rbind_ok in H as ([[freq_hz fft_dbfs] used] & Hfft & H).
  apply rbind_ok in H as (r & Hr & H). injection H as <-.
  assert (Hraw : raw <> []) by (intros Hraw; by apply Hnone in Hraw).
  destruct (levels_computed _ _ _ _ _ _ Hfft) as (Hused & Hlev & d & Hd & ->).
  rewrite (proj1 (record_length _ _ _ Hrec)) in *. split; [by destruct raw|].
  assert (Hkeep : forall k, k <> "channel" -> k <> "fft_avg_waves_used" ->
    lookup_key (row_put (row_put r "channel" (PyInt ch)) "fft_avg_waves_used" (PyInt used)) k = lookup_key r k).
  { intros k H1 H2. rewrite !lookup_row_put. by rewrite !decide_False by congruence. }
  exists raw, ws, d, fft_dbfs, used, r. split_and!; try done.
  - eapply reports_keep; [exact Hkeep|]. by apply metrics_report.
  - rewrite lookup_row_put, decide_False by done. by rewrite lookup_row_put, decide_True.
  - by rewrite lookup_row_put, decide_True.
Qed.

Lemma metrics_channels folder channels n fs_hz window rs :
  0 < n -> StronglySorted Z.lt channels -> metrics_of args folder channels n fs_hz window = Ok rs ->
  Forall2 (metrics_of_file folder n fs_hz window)
    (filter (fun ch => holds_samples folder ch = true) channels) rs.
Proof using Type.
  intros Hn Hs H. apply rbind_ok in H as (os & Hos & H). injection H as <-. apply rmap_at in Hos.
  assert (Hf : Forall2 (fun ch (cr : Z * row) => fst cr = ch /\
      metrics_of_file folder n fs_hz window ch (snd cr))
    (filter (fun ch => holds_samples folder ch = true) channels) (omap id os)).
  { clear Hs. induction Hos as [|ch o chs os Ho _ IH]; [constructor|].
    apply rbind_ok in Ho as (r & Hr & Ho). injection Ho as <-. apply channel_measured in Hr; [|done].
    destruct r as [r|].
    - destruct Hr as [Hr Hm]. rewrite filter_cons_True by done. by constructor.
    - rewrite filter_cons_False by (by rewrite Hr). done. }
  assert (Hfst : fst <$> omap id os = filter (fun ch => holds_samples folder ch = true) channels).
  { clear -Hf. induction Hf as [|ch cr chs crs [Hc _] _ IH]; [done|]. cbn [fmap list_fmap]. by rewrite Hc, IH. }
  rewrite sort_channels by (rewrite Hfst; by apply sorted_filter).
  apply Forall2_fmap_r. eapply Forall2_impl; [exact Hf|]. by intros ch cr [_ Hr].
Qed.

Lemma window_chosen name n w : get_window name n = Ok w -> window_named n (upper_str name) w.
Proof using Type.
  unfold get_window. cbv zeta. repeat (case_decide as Hw; [rewrite Hw; clear Hw|clear Hw]).
  1-4: intros [= <-]; constructor.
  - destruct blackmanharris as [f|] eqn:Hf; cbn [rbind]; [|done]. intros [= <-]. by constructor.
  - destruct tukey as [f|] eqn:Hf; cbn [rbind]; [|done]. intros [= <-]. by constructor.
  - done.
Qed.

Lemma wave_channels_strict folder meta cs : wave_channels args folder meta = Ok cs -> StronglySorted Z.lt cs.
Proof using Type.
  unfold wave_channels. intros H. apply rbind_ok in H as (asked & Ha & H).
  assert (Hasked : StronglySorted Z.lt asked).
  { destruct (decide (wa_channels args = "")); [injection Ha as <-; constructor|].
    unfold parse_channels_expr in Ha. case_decide; [injection Ha as <-; constructor|].
    apply rbind_ok in Ha as (out & _ & Ha). injection Ha as <-. apply sorted_set_strict. }
  cbv zeta in H. set (listed := match asked with [] => _ | _ => _ end) in H.
  assert (Hlisted : StronglySorted Z.lt listed).
  { subst listed. destruct asked; [|done]. destruct (row_get _ _ _); try constructor.
    destruct (rmap _ _); [apply sorted_set_strict|constructor]. }
  destruct listed; [|by injection H as <-]. unfold discover_channels in H.
  destruct (listing folder); [|done]. injection H as <-. apply sorted_set_strict.
Qed.

Lemma channels_chosen folder meta cs : wave_channels args folder meta = Ok cs -> channels_of folder meta cs.
Proof using Type.
  intros H. split; [by eapply wave_channels_strict|]. unfold wave_channels in H.
  apply rbind_ok in H as (asked & Ha & H). exists asked. split.
  { case_decide; [by injection Ha|done]. }
  cbv zeta in H. intros ch.
  assert (Hfiles : discover_channels folder = Ok cs ->
    ch ∈ cs <-> exists names name, listing folder = Some names /\ name ∈ names /\ channel_of_file name = Some ch).
  { unfold discover_channels. destruct (listing folder) as [names|]; [|done]. intros [= <-].
    rewrite elem_of_sorted_set, list_elem_of_omap. setoid_rewrite elem_of_elements. split.
    - intros (name & Hin & Hc). by exists names, name.
    - intros (? & name & [= <-] & Hin & Hc). by exists name. }
  destruct asked as [|x asked]; [|by injection H as <-]. unfold listed_in.
  destruct (row_get meta "channels" PyNone); try by apply Hfiles.
  destruct (rmap py_int l) as [[|y cs']|e]; try by apply Hfiles.
  assert (Hin : forall z, z ∈ sorted_set (y :: cs') <-> z ∈ y :: cs') by (intros; apply elem_of_sorted_set).
  destruct (sorted_set (y :: cs')) as [|z l'] eqn:He.
  - specialize (Hin y). exfalso. apply (not_elem_of_nil y), Hin, list_elem_of_here.
  - injection H as <-. apply Hin.
Qed.

End rows.

Lemma Forall2_compose {A B C : Type} (P : A -> B -> Prop) (Q : B -> C -> Prop) l1 l2 l3 :
  Forall2 P l1 l2 -> Forall2 Q l2 l3 -> Forall2 (fun a c => exists b, P a b /\ Q b c) l1 l3.
Proof.
  intros H. revert l3. induction H as [|a b l1 l2 Hp _ IH]; intros l3 Hq; inversion_clear Hq; [constructor|].
  constructor; [by exists b|by apply IH].
Qed.

Section written.
Context `{NP : Numpy, SPE : Spectral, ST : Statistics, HO : Host, TR : Tree}.
Context (args : wave_args).

(** What a run that ends with status 0 leaves in its folder. *)
Record analyzed (folder : string) (channels : list Z) (n_samples : Z) (fs_hz : float)
    (window : list float) (w' : files) : Prop := {
  found := filter (fun ch => holds_samples folder ch = true) channels;
  some_found : found <> [];
  in_order : StronglySorted Z.lt found;
  tables : exists fields marked,
    w' !! wave_out args folder "noise_metrics.csv" = Some (DCsv fields marked) /\
    w' !! wave_out args folder "noise_metrics.json" = Some (DJson (PyList (PyDict <$> marked))) /\
    Forall2 (fun ch r => lookup_key r "channel" = Some (PyInt ch) /\
      exists r0, metrics_of_file args folder n_samples fs_hz window ch r0 /\
        forall k, k ∉ marks -> lookup_key r k = lookup_key r0 k) found marked }.

Lemma wave_out_inj folder a b : wave_out args folder a = wave_out args folder b -> a = b.
Proof using Type. intros H%path_join_inj. by apply string_app_inj_l in H. Qed.

(** The tables of rows that are there, and the page after them. *)
Lemma save_tables folder marked name w u1 w1 u2 w2 :
  marked <> [] ->
  save_metrics marked (wave_out args folder "noise_metrics.csv") (wave_out args folder "noise_metrics.json") w
    = (Ok u1, w1) ->
  write_interactive_html marked (wave_out args folder "noise_metrics_interactive.html") name w1 = (Ok u2, w2) ->
  (exists fields, w2 !! wave_out args folder "noise_metrics.csv" = Some (DCsv fields marked)) /\
  w2 !! wave_out args folder "noise_metrics.json" = Some (DJson (PyList (PyDict <$> marked))).
Proof using Type.
  intros Hne H1 H2. destruct marked as [|r rs]; [done|]. unfold save_metrics in H1. inv_bind H1.
  apply rows_written in Hrun as ->. apply put_ok in H1 as ->. apply put_ok in H2 as ->.
  split; [eexists|].
  - rewrite !lookup_insert_ne, lookup_insert_eq by by intros He%wave_out_inj. done.
  - by rewrite lookup_insert_ne, lookup_insert_eq by by intros He%wave_out_inj.
Qed.

End written.

(** C31. The tables of a noise analysis.  [main] ends with status 2 and has written nothing, or with
    status 0; then some channel had samples, and [noise_metrics.csv] and [noise_metrics.json] hold
    the same rows: one per channel whose file is there and holds a sample, of the channels asked for,
    else of the metadata, else of the folder, by increasing channel.  A row has the metrics of the
    records of its file and of their spectrum, for the number of samples, the sampling rate and the
    window of the command line, else of the metadata; the marks of outliers change no metric. *)
Theorem noise_tables_written `{NP : Numpy, SPE : Spectral, ST : Statistics, HO : Host, TR : Tree}
    args w code w' :
  main args w = (Ok code, w') ->
  (code = 2 /\ w' = w) \/
  (code = 0 /\ exists channels n_samples fs_hz window,
    let folder := at_path (wa_folder args) in
    let meta := load_metadata folder in
    channels_of args folder meta channels /\
    settings_of args meta n_samples fs_hz window /\
    analyzed args folder channels n_samples fs_hz window w').
Proof.
  unfold main. cbv zeta. set (folder := at_path _). destruct (negb _); [by intros [= <- <-]; left|].
  destruct (_ <? 10); [by intros [= <- <-]; left|]. destruct (_ <? 0); [by intros [= <- <-]; left|].
  destruct (_compose_titles _ _ _ _) as [title subtitle]. intros H. inv_bind H.
  injection Hrun as Hch <-. rename a into channels. pose proof (wave_channels_strict _ _ _ _ Hch) as Hstrict.
  destruct channels as [|c0 cs]; [by injection H as <- <-; left|]. inv_bind H. injection Hrun as Hns <-.
  destruct (Z.leb_spec a 0) as [Ha|Ha]; [by injection H as <- <-; left|]. rename a into n_samples.
  do 3 inv_bind H. injection Hrun as Hfs <-. injection Hrun0 as Hwin <-. injection Hrun1 as Hms <-.
  destruct a1 as [|r0 rs]; [by injection H as <- <-; left|]. inv_bind H. injection Hrun as Hmark <-.
  destruct a1 as [marked flagged]. do 3 inv_bind H. injection H as <- <-. right. split; [done|].
  exists (c0 :: cs), n_samples, a, a0. split; [by apply channels_chosen|]. split.
  { split; [|done|..|by apply window_chosen].
    - unfold wave_samples in Hns. destruct (0 <? wa_L args); [by injection Hns|done].
    - unfold wave_fs in Hfs. destruct (f_ltb _ _); [by injection Hfs|done]. }
  pose proof (metrics_channels args folder _ _ _ _ _ Ha Hstrict Hms) as Hrows.
  pose proof (marks_keep _ _ _ _ Hmark) as Hkeep.
  assert (Hne : marked <> []) by (intros ->; inversion Hkeep).
  destruct (save_tables args folder marked _ _ _ _ _ _ Hne Hrun0 Hrun1) as [[fields Hcsv] Hjson].
  split.
  - intros He. rewrite He in Hrows. inversion Hrows.
  - by apply sorted_filter.
  - exists fields, marked. split_and!; [done..|].
    eapply Forall2_impl; [exact (Forall2_compose _ _ _ _ _ Hrows Hkeep)|]. intros ch r' (r & Hr & Hk). split.
    + rewrite (Hk "channel") by (apply (bool_decide_unpack _); vm_compute; exact I).
      by destruct Hr as (? & ? & ? & ? & ? & ? & _ & _ & _ & _ & _ & _ & _ & Hc & _).
    + by exists r.
Qed.

(** ** A small run *)

#[local] Existing Instances some_numpy some_host.

#[local] Instance some_spectral : Spectral := {
  rfft := fun l => (fun x => (x, f_zero)) <$> take (length l / 2 + 1)%nat l; np_log10 := fun x => x;
  np_hanning := fun n => replicate (Z.to_nat n) (f_of_Z 1); np_hamming := fun n => replicate (Z.to_nat n) (f_of_Z 1);
  np_blackman := fun n => replicate (Z.to_nat n) (f_of_Z 1); blackmanharris := None; tukey := None }.

#[local] Instance some_statistics : Statistics := {
  np_rfftfreq := fun n d => (fun k => f_mul (f_of_Z k) d) <$> seqZ 0 (n / 2 + 1);
  mean_rows := fun l => default [] (head l); np_percentile := fun l _ => last_value l;
  np_power := fun x _ => x }.

#[local] Instance some_tree : Tree := {
  listing := fun d => if decide (d = "run") then Some {["channel_3.dat"; "channel_15.dat"; "channel_07.dat"; "a.txt"]}
                      else None;
  text_at := fun p => if decide (p = "run/run_metadata.json")
                      then Some (Ok (quoted "{'samples_per_waveform': 4, 'run_label': 'test'}")) else None;
  words_at := fun p => if decide (p = "run/channel_3.dat") then Some (Ok [100; 101; 99; 100; 102; 100; 98; 100])
                       else if decide (p = "run/channel_15.dat") then Some (Ok []) else None;
  at_path := fun p => p; str_other := fun _ => ""; html_page := fun name _ _ => name }.

Definition some_wave_args : wave_args :=
  {| wa_folder := "run"; wa_channels := ""; wa_L := 0; wa_fs := f_zero; wa_max_waves := 0;
     wa_fft_avg_waves := 0; wa_fft_window := "HANNING"; wa_fft_full_scale_counts := f_of_Z 16384;
     wa_fft_keep_dc := false; wa_interpret := "signed"; wa_hist_bins := 180;
     wa_hist_sample_points := 300000; wa_outlier_z := f_dec 35 (-1); wa_prefix := ""; wa_title := "";
     wa_subtitle := "" |}.

Lemma noise_tables_written_witness :
  exists w', main some_wave_args ∅ = (Ok 0, w') /\
    exists channels window, channels_of some_wave_args "run" (load_metadata "run") channels /\
      analyzed some_wave_args "run" channels 4 (f_of_Z 62500000) window w'.
Proof.
  destruct (main some_wave_args ∅) as [r w'] eqn:Hm.
  assert (Hr : r = Ok 0) by (change r with (fst (r, w')); rewrite <- Hm; vm_compute; reflexivity). subst r.
  exists w'. split; [reflexivity|].
  destruct (noise_tables_written some_wave_args ∅ 0 w' Hm)
    as [[Hc _]|(_ & cs & n & fs & win & Hch & [Hn _ Hfs _] & Ha)]; [discriminate Hc|].
  exists cs, win. split; [exact Hch|]. vm_compute in Hn. vm_compute in Hfs. injection Hn as <-.
  injection Hfs as <-. exact Ha.
Defined.

Definition some_metrics (ch std : Z) : row :=
  [("channel", PyInt ch); ("std_counts", PyFloat (f_of_Z std)); ("wf_p2p_mean_counts", PyFloat (f_of_Z 1));
   ("fft_floor_median_dbfs", PyFloat (f_of_Z 1))].

(** The mean in the place of the median. *)
Definition mean_numpy : Numpy := {|
  np_sum := plain_sum; np_mean := plain_mean; np_std := fun _ => f_zero; np_median := plain_mean;
  np_quantile := fun l _ => last_value l; np_hypot := f_add; np_linspace := fun _ _ _ => [];
  np_histogram := fun _ _ => [] |}.

Definition some_table : list row := [some_metrics 0 1; some_metrics 1 9; some_metrics 2 1; some_metrics 3 2].

Lemma outliers_marked_witness :
  exists out flagged, mark_outliers (NP := mean_numpy) some_table (f_of_Z 1) = Ok (out, flagged) /\
    length out = 4%nat /\ fst <$> flagged = [1].
Proof.
  destruct (mark_outliers (NP := mean_numpy) some_table (f_of_Z 1)) as [[out flagged]|e] eqn:Hm;
    [|vm_compute in Hm; discriminate Hm].
  exists out, flagged. split; [reflexivity|].
  pose proof (outliers_marked (NP := mean_numpy) _ _ _ _ Hm) as H. vm_compute in Hm. injection Hm as <- <-.
  split; [exact (proj1 H)|reflexivity].
Defined.

Lemma spectrum_peak_correct_witness :
  exists pk, spectrum_peak (f_of_Z <$> [0; 1; 2; 3; 4]) (f_of_Z <$> [9; 1; 2; 7; 3]) false = Ok pk /\
    peak_freq_hz pk = f_of_Z 3 /\ peak_dbfs pk = f_of_Z 7 /\ floor_mean_dbfs pk = f_of_Z 1.
Proof.
  destruct (spectrum_peak (f_of_Z <$> [0; 1; 2; 3; 4]) (f_of_Z <$> [9; 1; 2; 7; 3]) false) as [pk|e] eqn:Hp;
    [|vm_compute in Hp; discriminate Hp].
  exists pk. split; [reflexivity|]. pose proof (spectrum_peak_correct _ _ _ _ Hp) as H.
  vm_compute in Hp. injection Hp as <-. split_and!; vm_compute; reflexivity.
Defined.
