(* ===== verification/NoiseRuns.v ===== *)
(** The database of runs without bias: [scripts/study_no_bias_noise_runs.py], its reading of the run
    directories, the classification of the runs, and the list of records.

    The directories, texts and documents are those of class [Tree] of [WaveStats]; what
    [rglob] finds under the imports, sorted, is a parameter. *)
From S2P Require Import Prelude PyStr PyFloat PyVal ChannelSpec JsonText FeConfig SpyAcquire FeMain.
From S2P Require Import SmallTools ScanRuntime ChargeWindows IntensityScan RunFiles Pools WaveStats.

(** The directories of the repository that hold runs, and the directories below the imports that
    hold a [run_metadata.json], as paths relative to the imports. *)
Class Roots : Type := {
  DARK_ROOT : string;
  OSC_ROOT : string;
  LED_ROOT : string;
  imported : string -> list string }.

Definition LXPLUS_BASE : string := "/eos/experiment/neutplatform/protodune/experiments/ColdBoxVD/2026March".

(** ** Reading *)

Definition parse_kv_line (data : gmap string string) (line : string) : gmap string string :=
  match split_once "=" line with
  | Some (key, value) => <[strip key := strip value]> data
  | None => data
  end.

Definition parse_kv_text `{Tree} (path : string) : result (gmap string string) :=
  match text_at path with
  | None => Ok ∅
  | Some text => s <-! text ;; Ok (foldl parse_kv_line ∅ (splitlines s))
  end.

(** [meta.get(k, dflt)] *)
Definition get_or (meta : gmap string string) (k dflt : string) : string := default dflt (meta !! k).

Definition split_csv_ints (value : string) : list Z :=
  sorted_set (omap (fun t => match int10 t with Ok z => Some z | Raise _ => None end)
                (filter (fun t => t <> "") (strip <$> split_on "," value))).

Definition parse_group_specs (value : string) : list Z :=
  if decide (value = "") then []
  else sorted_set (mjoin ((fun group => match split_once ":" group with
                                        | Some (channels_part, _) => split_csv_ints channels_part
                                        | None => []
                                        end) <$> split_on ";" value)).

(** ** Classification *)

Definition classify_dark_connection (name : string) : string * string :=
  let has t := contains t (lower_str name) in
  if has "open_channel" then ("open_reference", "Open channels, no mezzanine reference")
  else if has "detector_connected_up" then ("detector_connected_up", "Detector connected, cable up")
  else if has "detector_connected_down" then ("detector_connected_down", "Detector connected, cable down")
  else if has "detector_connected" then ("detector_connected", "Detector connected")
  else if has "afe" && has "connected" then ("single_afe_connection", "Single AFE mezzanine connected")
  else if has "no_choke" then ("open_reference_variant", "Open-channel reference variant without choke")
  else if has "vdmezz" then ("mezzanine_only", "Mezzanine-only study")
  else ("reference_or_unknown", "Reference or unknown dark run").

Definition classify_osc_connection (name notes : string) : string * string :=
  let has t := contains t (lower_str name) in
  if has "not_connected" then ("open_reference", "Detector not connected")
  else if has "ledoff" then ("no_led_capture", "LED disabled osc capture")
  else if has "bias_off" && has "connected" then ("detector_connected_bias_off", "Detector connected, bias off")
  else if has "bias_on" then ("detector_connected_bias_on", "Detector connected, bias on")
  else if has "led" then ("stimulated_capture", "LED stimulation capture")
  else if has "osc_capture" then ("capture_unknown_bias", "Oscilloscope capture with bias not explicit")
  else if contains "bias off" (lower_str notes) then ("detector_connected_bias_off", "Detector connected, bias off")
  else ("osc_unknown", "Oscilloscope capture").

Definition infer_technology_layout (name : string) (channels : list Z) (notes : string) : string :=
  let has t := contains t (lower_str name) in
  let some := negb (bool_decide (channels = [])) in
  if has "vd02_hd13" then "AFE0:VD,AFE1:HD,AFE2:VD,AFE3:HD"
  else if has "vd0_hd13_sof_2" then "AFE0:VD,AFE1:HD,AFE2:SoF,AFE3:HD"
  else if has "sof" && some && (16 <=? min_ints channels) then "AFE2:SoF"
  else if has "hd" && some && (8 <=? min_ints channels) && (max_ints channels <=? 15) then "AFE1:HD"
  else if has "vd" && some && (max_ints channels <=? 7) then "AFE0:VD"
  else if has "vdmezz" then "Mezzanine-study"
  else if has "open_channel" then "Open-reference"
  else if has "daphne" && bool_decide (notes = "") then "Unknown"
  else "Unknown".

Definition zero_texts : list string := ["0"; "0.0"].

Definition is_no_bias_dark (meta : gmap string string) : bool :=
  if bool_decide (get_or meta "biasctrl_dac" "" ∉ zero_texts ++ [""]) then false
  else
    let afe := get_or meta "afe_bias_overrides" "" in
    if decide (afe = "") then true
    else forallb (fun part => bool_decide (strip (default "" (last (split_on ":" part))) ∈ zero_texts))
           (filter (fun part => has_char ":" part = true) (split_on "," afe)).

Definition is_no_bias_led_scan (meta : gmap string string) (name : string) : bool :=
  if contains "nobias" (lower_str name) || contains "no_bias" (lower_str name) then true
  else bool_decide (get_or meta "biasctrl_dac" "" ∈ zero_texts).

Definition is_no_bias_osc (name notes : string) : string :=
  let has t := contains t (lower_str name) in
  let noted t := contains t (lower_str notes) in
  if has "pofon" || has "pof on" || noted "pof on" || noted "power over fiber on" then "no"
  else if noted "0 bias" || has "0bias" then "yes"
  else if has "bias_off" || noted "bias off" then "yes"
  else if noted "connected and open" && has "ledoff" && negb (noted "bias") then "yes"
  else if has "bias_on" || noted "bias on" then "no"
  else if noted "biased" then "no"
  else "unknown".

(** ** The point of a dark scan *)

(** [sorted([p for p in dir.glob("vgain_*") if p.is_dir()])] *)
Definition vgain_dirs `{Tree} (dir : string) : list string :=
  filter (fun n => is_dir (path_join dir n) = true)
    (filter (fun n => is_Some (strip_prefix "vgain_" n)) (sorted_names (default ∅ (listing dir)))).

Definition vgain_of (name : string) : option Z :=
  match int10 (last_part name) with Ok v => Some v | Raise _ => None end.

(** [(abs(v - target), v)] in the order of tuples *)
Definition nearer (target v w : Z) : bool :=
  (Z.abs (v - target) <? Z.abs (w - target))
  || ((Z.abs (v - target) =? Z.abs (w - target)) && (v <? w)).

(** [min(scored, key=...)]: the first of the nearest. *)
Fixpoint nearest (target : Z) (best : Z * string) (l : list (Z * string)) : Z * string :=
  match l with
  | [] => best
  | x :: l' => nearest target (if nearer target (fst x) (fst best) then x else best) l'
  end.

Definition scored_points `{Tree} (run_dir : string) : list (Z * string) :=
  let at_ dir := omap (fun n => (fun v => (v, path_join dir n)) <$> vgain_of n) (vgain_dirs dir) in
  match vgain_dirs run_dir with
  | [] => at_ (path_join run_dir "points")
  | _ => at_ run_dir
  end.

(** The first point of that setting, else the nearest one. *)
Definition best_point (target : Z) (x : Z * string) (l : list (Z * string)) : Z * string :=
  match filter (fun vp => fst vp = target) (x :: l) with
  | exact :: _ => exact
  | [] => nearest target x l
  end.

(** The path, and the kind and the value of the setting. *)
Definition dark_selected_point `{Tree} (run_dir : string) (target_vgain : Z) : option string * string * string :=
  match scored_points run_dir with
  | [] => (None, "", "")
  | x :: l => let best := best_point target_vgain x l in (Some (snd best), "vgain", str_Z (fst best))
  end.

(** ** Records *)

Record RunRecord : Type := Record_ {
  run_name : string; run_kind : string; stimulus : string; no_bias_status : string;
  include_in_noise_analysis : bool; source_root : string; local_path : string; lxplus_path : string;
  present_local : bool; present_on_lxplus : bool; channels : string; waveform_len : Z;
  waveforms_per_point : Z; biasctrl_dac : string; afe_bias_overrides : string; notes : string;
  run_label : string; config_summary : string; connection_mode : string; topology_label : string;
  technology_layout : string; selected_dataset_path : string; selected_setting_kind : string;
  selected_setting_value : string; analysis_status : string }.

(** [asdict(record)] *)
Definition record_row (r : RunRecord) : row :=
  [("run_name", PyStr (run_name r)); ("run_kind", PyStr (run_kind r)); ("stimulus", PyStr (stimulus r));
   ("no_bias_status", PyStr (no_bias_status r));
   ("include_in_noise_analysis", PyBool (include_in_noise_analysis r));
   ("source_root", PyStr (source_root r)); ("local_path", PyStr (local_path r));
   ("lxplus_path", PyStr (lxplus_path r)); ("present_local", PyBool (present_local r));
   ("present_on_lxplus", PyBool (present_on_lxplus r)); ("channels", PyStr (channels r));
   ("waveform_len", PyInt (waveform_len r)); ("waveforms_per_point", PyInt (waveforms_per_point r));
   ("biasctrl_dac", PyStr (biasctrl_dac r)); ("afe_bias_overrides", PyStr (afe_bias_overrides r));
   ("notes", PyStr (notes r)); ("run_label", PyStr (run_label r));
   ("config_summary", PyStr (config_summary r)); ("connection_mode", PyStr (connection_mode r));
   ("topology_label", PyStr (topology_label r)); ("technology_layout", PyStr (technology_layout r));
   ("selected_dataset_path", PyStr (selected_dataset_path r));
   ("selected_setting_kind", PyStr (selected_setting_kind r));
   ("selected_setting_value", PyStr (selected_setting_value r));
   ("analysis_status", PyStr (analysis_status r))].

Definition csv_of (channels : list Z) : string := join "," (str_Z <$> channels).

(** [int(meta.get(k, "0") or 0)] *)
Definition int_or_zero (meta : gmap string string) (k : string) : result Z :=
  let v := get_or meta k "0" in if decide (v = "") then Ok 0 else int10 v.

Section records.
Context `{TR : Tree, RO : Roots}.

(** [append_osc_record]: the record of a run, unless it has no metadata or had a bias. *)
Definition osc_record (run_dir source_root lxplus_path : string) (present_on_lxplus : bool)
    : result (option RunRecord) :=
  match load_metadata run_dir with
  | [] => Ok None
  | meta =>
      let text k := py_str str_other (row_get meta k (PyStr "")) in
      let notes := text "run_notes" in
      let name := path_name run_dir in
      let no_bias := is_no_bias_osc name notes in
      if decide (no_bias = "no") then Ok None
      else
        let yes := bool_decide (no_bias = "yes") in
        chs <-! py_iter (row_get meta "channels" (PyList [])) ;;
        let channels := omap (fun v => match v with
                                       | PyInt z => Some z
                                       | PyBool b => Some (Z.b2z b)
                                       | _ => None
                                       end) chs in
        let '(mode, label) := classify_osc_connection name notes in
        waveform_len <-! py_int (py_or (row_get meta "samples_per_waveform" (PyInt 0)) (PyInt 0)) ;;
        Ok (Some {|
          run_name := name; run_kind := "osc"; stimulus := "osc"; no_bias_status := no_bias;
          include_in_noise_analysis := yes; source_root := source_root; local_path := run_dir;
          lxplus_path := lxplus_path; present_local := true; present_on_lxplus := present_on_lxplus;
          channels := csv_of channels; waveform_len := waveform_len; waveforms_per_point := 0;
          biasctrl_dac := if yes then "0" else ""; afe_bias_overrides := ""; notes := notes;
          run_label := text "run_label";
          config_summary := "osc capture, sw_trigger="
            +:+ (if truthy (row_get meta "software_trigger" (PyBool false)) then "True" else "False")
            +:+ ", route=" +:+ text "route";
          connection_mode := mode; topology_label := label;
          technology_layout := infer_technology_layout name channels notes;
          selected_dataset_path := run_dir; selected_setting_kind := "fixed"; selected_setting_value := "";
          analysis_status := if yes then "pending" else "excluded_unknown_bias" |})
  end.

Definition dark_record (target_vgain : Z) (run_dir : string) : result (option RunRecord) :=
  meta <-! parse_kv_text (path_join run_dir "scan_metadata.txt") ;;
  if decide (meta = ∅) then Ok None
  else
    let channels := split_csv_ints (get_or meta "channels" "") in
    if negb (is_no_bias_dark meta) then Ok None
    else
      let name := path_name run_dir in
      let '(mode, label) := classify_dark_connection name in
      let '(selected_path, selected_kind, selected_value) := dark_selected_point run_dir target_vgain in
      let some := bool_decide (is_Some selected_path) in
      waveform_len <-! int_or_zero meta "waveform_len" ;;
      waveforms_per_point <-! int_or_zero meta "waveforms_per_point" ;;
      Ok (Some {|
        run_name := name; run_kind := "dark_vgain"; stimulus := "dark"; no_bias_status := "yes";
        include_in_noise_analysis := some; source_root := "dark_vgain_runs"; local_path := run_dir;
        lxplus_path := ""; present_local := true; present_on_lxplus := false; channels := csv_of channels;
        waveform_len := waveform_len; waveforms_per_point := waveforms_per_point;
        biasctrl_dac := get_or meta "biasctrl_dac" "";
        afe_bias_overrides := get_or meta "afe_bias_overrides" ""; notes := ""; run_label := name;
        config_summary := "dark scan, offset=" +:+ get_or meta "ch_offset" "" +:+ ", route="
          +:+ get_or meta "route" "";
        connection_mode := mode; topology_label := label;
        technology_layout := infer_technology_layout name channels "";
        selected_dataset_path := default "" selected_path; selected_setting_kind := selected_kind;
        selected_setting_value := selected_value;
        analysis_status := if some then "pending" else "missing_point" |}).

Definition led_record (include_led_stimulus : bool) (run_dir : string) : result (option RunRecord) :=
  meta <-! parse_kv_text (path_join run_dir "scan_metadata.txt") ;;
  meta <-! (if decide (meta = ∅) then parse_kv_text (path_join run_dir "run_metadata.txt") else Ok meta) ;;
  if decide (meta = ∅) then Ok None
  else
    let name := path_name run_dir in
    if negb (is_no_bias_led_scan meta name) then Ok None
    else
      let groups := parse_group_specs (get_or meta "group_specs" "") in
      let channels := match groups with [] => split_csv_ints (get_or meta "channels" "") | _ => groups end in
      waveform_len <-! int_or_zero meta "waveform_len" ;;
      waveforms_per_point <-! int_or_zero meta "waveforms_per_point" ;;
      Ok (Some {|
        run_name := name; run_kind := "led_vgain"; stimulus := "led"; no_bias_status := "yes";
        include_in_noise_analysis := include_led_stimulus; source_root := "dynamic_range_led";
        local_path := run_dir; lxplus_path := ""; present_local := true; present_on_lxplus := false;
        channels := csv_of channels; waveform_len := waveform_len;
        waveforms_per_point := waveforms_per_point; biasctrl_dac := get_or meta "biasctrl_dac" "";
        afe_bias_overrides := get_or meta "fixed_afe_bias_overrides" "";
        notes := "group_specs=" +:+ get_or meta "group_specs" ""; run_label := name;
        config_summary := "LED scan, wavelength=" +:+ get_or meta "scan_wavelength" "" +:+ ", offset="
          +:+ get_or meta "ch_offset" "";
        connection_mode := "stimulated_bias_off"; topology_label := "LED scan with bias off";
        technology_layout := infer_technology_layout name channels ""; selected_dataset_path := "";
        selected_setting_kind := "grouped_scan"; selected_setting_value := "";
        analysis_status := if include_led_stimulus then "not_implemented_for_led" else "database_only" |}).

(** [sorted(root.iterdir())] *)
Definition run_dirs (root : string) : result (list string) :=
  match listing root with
  | Some names => Ok (path_join root <$> sorted_names names)
  | None => Raise (not_found root)
  end.

Definition import_record (import_root rel : string) : result (option RunRecord) :=
  let run_dir := if decide (rel = ".") then import_root else path_join import_root rel in
  osc_record run_dir "lxplus_imports" (LXPLUS_BASE +:+ "/20260323_softwaretriggerchecks_noLED/" +:+ rel) true.

Definition build_local_records (target_vgain : Z) (include_led_stimulus : bool) (import_root : string)
    : result (list RunRecord) :=
  dark_dirs <-! run_dirs DARK_ROOT ;;
  dark <-! rmap (dark_record target_vgain) dark_dirs ;;
  osc_dirs <-! run_dirs OSC_ROOT ;;
  osc <-! rmap (fun d => osc_record d "osc_runs" "" false) osc_dirs ;;
  imports <-! rmap (import_record import_root)
                (if exists_at import_root then imported import_root else []) ;;
  led_dirs <-! run_dirs LED_ROOT ;;
  led <-! rmap (led_record include_led_stimulus) led_dirs ;;
  Ok (omap id (dark ++ osc ++ imports ++ led)).

(** ** The index of lxplus *)

(** [Path(line).name] *)
Definition pure_name (path : string) : string :=
  default "" (last (filter (fun part => part <> "" /\ part <> ".") (split_on "/" path))).

Definition index_line (out : gmap string string) (line : string) : gmap string string :=
  let line := strip line in
  match strip_prefix "/" line with
  | None => out
  | Some _ =>
      let name := pure_name line in
      if bool_decide (name ∈ ["dark_vgain_runs"; "dynamic_range_led"; "osc_runs"]) then out
      else <[name := line]> out
  end.

Definition load_lxplus_index (path : string) : result (gmap string string) :=
  match text_at path with
  | None => Ok ∅
  | Some text => s <-! text ;; Ok (foldl index_line ∅ (splitlines s))
  end.

End records.

Definition seen_on_lxplus (path : string) (r : RunRecord) : RunRecord :=
  {| run_name := run_name r; run_kind := run_kind r; stimulus := stimulus r;
     no_bias_status := no_bias_status r; include_in_noise_analysis := include_in_noise_analysis r;
     source_root := source_root r; local_path := local_path r; lxplus_path := path;
     present_local := present_local r; present_on_lxplus := true; channels := channels r;
     waveform_len := waveform_len r; waveforms_per_point := waveforms_per_point r;
     biasctrl_dac := biasctrl_dac r; afe_bias_overrides := afe_bias_overrides r; notes := notes r;
     run_label := run_label r; config_summary := config_summary r; connection_mode := connection_mode r;
     topology_label := topology_label r; technology_layout := technology_layout r;
     selected_dataset_path := selected_dataset_path r; selected_setting_kind := selected_setting_kind r;
     selected_setting_value := selected_setting_value r; analysis_status := analysis_status r |}.

Definition no_bias_tokens : list string := ["nobias"; "dark"; "bias_off"; "noled"; "not_connected"].

Definition names_no_bias (name : string) : bool :=
  existsb (fun token => contains token (lower_str name)) no_bias_tokens.

Definition lxplus_only (name path : string) : RunRecord :=
  let has t := contains t (lower_str name) in
  let '(kind, stimulus) :=
    if has "osc" then ("osc", "osc") else if has "dark" then ("dark_vgain", "dark")
    else ("unknown", "unknown") in
  {| run_name := name; run_kind := kind; stimulus := stimulus;
     no_bias_status := if names_no_bias name then "yes" else "unknown";
     include_in_noise_analysis := false; source_root := "lxplus_only"; local_path := "";
     lxplus_path := path; present_local := false; present_on_lxplus := true; channels := "";
     waveform_len := 0; waveforms_per_point := 0; biasctrl_dac := ""; afe_bias_overrides := "";
     notes := "Present on lxplus top-level listing only"; run_label := name;
     config_summary := "lxplus-only inventory row"; connection_mode := "unknown";
     topology_label := "lxplus-only"; technology_layout := infer_technology_layout name [] "";
     selected_dataset_path := ""; selected_setting_kind := ""; selected_setting_value := "";
     analysis_status := "lxplus_only_not_local" |}.

(** One entry of the index; the entries have different names, so their order does not matter. *)
Definition merge_entry (by_name : gmap string RunRecord) (entry : string * string) : gmap string RunRecord :=
  let '(name, path) := entry in
  match by_name !! name with
  | Some r => <[name := seen_on_lxplus path r]> by_name
  | None => if names_no_bias name then <[name := lxplus_only name path]> by_name else by_name
  end.

(** [key=lambda row: (row.run_kind, row.run_name)] *)
Definition record_le (a b : RunRecord) : Prop :=
  if decide (run_kind a = run_kind b) then str_le (run_name a) (run_name b)
  else str_le (run_kind a) (run_kind b).

#[local] Instance record_le_dec : RelDecision record_le.
Proof. intros a b. unfold record_le. case_decide; apply _. Defined.

Definition by_name_of (records : list RunRecord) : gmap string RunRecord :=
  foldl (fun m r => <[run_name r := r]> m) ∅ records.

Definition merge_lxplus_index (records : list RunRecord) (lxplus_index : gmap string string)
    : list RunRecord :=
  merge_sort record_le
    (snd <$> map_to_list (foldl merge_entry (by_name_of records) (map_to_list lxplus_index))).

(** ** Manual overrides *)

Inductive change : Type :=
  | SetLayout (layout : string)
  | SetInclude (b : bool)
  | SetStatus (status : string)
  | NotesAppend (extra : string).

Definition MANUAL_RUN_OVERRIDES : list (string * list change) :=
  [("20260319_daphne-13_dark_vgain_scan",
      [SetLayout "AFE0:VD"; NotesAppend "manual override: VD board connected to AFE0"]);
   ("20260319_daphne13_osc_capture",
      [SetLayout "AFE0:VD"; NotesAppend "manual override: VD board connected to AFE0"]);
   ("20260316_090150_daphne-13_dark_vgain_scan",
      [SetInclude false; SetStatus "excluded_manual";
       NotesAppend "manual override: excluded from comparison"])].

Definition set_fields (include : bool) (notes layout status : string) (r : RunRecord) : RunRecord :=
  {| run_name := run_name r; run_kind := run_kind r; stimulus := stimulus r;
     no_bias_status := no_bias_status r; include_in_noise_analysis := include;
     source_root := source_root r; local_path := local_path r; lxplus_path := lxplus_path r;
     present_local := present_local r; present_on_lxplus := present_on_lxplus r; channels := channels r;
     waveform_len := waveform_len r; waveforms_per_point := waveforms_per_point r;
     biasctrl_dac := biasctrl_dac r; afe_bias_overrides := afe_bias_overrides r; notes := notes;
     run_label := run_label r; config_summary := config_summary r; connection_mode := connection_mode r;
     topology_label := topology_label r; technology_layout := layout;
     selected_dataset_path := selected_dataset_path r; selected_setting_kind := selected_setting_kind r;
     selected_setting_value := selected_setting_value r; analysis_status := status |}.

Definition apply_change (r : RunRecord) (c : change) : RunRecord :=
  let include := include_in_noise_analysis r in
  match c with
  | SetLayout layout => set_fields include (notes r) layout (analysis_status r) r
  | SetInclude b => set_fields b (notes r) (technology_layout r) (analysis_status r) r
  | SetStatus status => set_fields include (notes r) (technology_layout r) status r
  | NotesAppend extra =>
      let extra := strip extra in
      if decide (extra = "") then r
      else set_fields include (if decide (notes r = "") then extra else notes r +:+ "; " +:+ extra)
             (technology_layout r) (analysis_status r) r
  end.

Definition override_record (r : RunRecord) : RunRecord :=
  match find (fun no => bool_decide (fst no = run_name r)) MANUAL_RUN_OVERRIDES with
  | Some (_, changes) => foldl apply_change r changes
  | None => r
  end.

Definition apply_manual_overrides (records : list RunRecord) : list RunRecord := override_record <$> records.

(** ** Lemmas: the nearest point *)

(** [v] is as near to the target as [w], and lower where they are equally near. *)
Definition as_near (target v w : Z) : Prop :=
  Z.abs (v - target) < Z.abs (w - target) \/ (Z.abs (v - target) = Z.abs (w - target) /\ v <= w).

Lemma nearer_false target v w : nearer target v w = false -> as_near target w v.
Proof.
  unfold nearer, as_near. intros [H1 H2]%orb_false_elim. apply Z.ltb_ge in H1.
  destruct (Z.eqb_spec (Z.abs (v - target)) (Z.abs (w - target))) as [He|He]; cbn [andb] in H2; [|lia].
  apply Z.ltb_ge in H2. lia.
Qed.

Lemma nearer_true target v w : nearer target v w = true -> as_near target v w.
Proof.
  unfold nearer, as_near. intros [H|[H1 H2]%andb_prop]%orb_prop; [apply Z.ltb_lt in H; lia|].
  apply Z.eqb_eq in H1. apply Z.ltb_lt in H2. lia.
Qed.

Lemma nearest_spec target l best :
  nearest target best l ∈ best :: l /\
  Forall (fun x => as_near target (fst (nearest target best l)) (fst x)) (best :: l).
Proof.
  revert best. induction l as [|x l IH]; intros best; cbn [nearest].
  - split; [apply list_elem_of_here|]. apply Forall_singleton. unfold as_near. lia.
  - destruct (nearer target (fst x) (fst best)) eqn:Hn.
    + destruct (IH x) as [Hin Hall]. split; [by apply list_elem_of_further|]. constructor; [|done].
      apply nearer_true in Hn. apply Forall_inv in Hall. unfold as_near in *. lia.
    + destruct (IH best) as [Hin Hall]. split.
      * apply elem_of_cons in Hin as [->|Hin]; [apply list_elem_of_here|by do 2 apply list_elem_of_further].
      * apply nearer_false in Hn. apply Forall_cons in Hall as [Hb Hl]. constructor; [done|].
        constructor; [|done]. unfold as_near in *. lia.
Qed.

Lemma best_point_spec target x l :
  best_point target x l ∈ x :: l /\
  Forall (fun wq => as_near target (fst (best_point target x l)) (fst wq)) (x :: l).
Proof.
  unfold best_point. destruct (filter _ (x :: l)) as [|y ys] eqn:Hf; [apply nearest_spec|].
  assert (Hy : y ∈ filter (fun vp => fst vp = target) (x :: l)) by (rewrite Hf; apply list_elem_of_here).
  apply list_elem_of_filter in Hy as [He Hin]. split; [done|]. apply Forall_forall. intros w _.
  unfold as_near. lia.
Qed.

(** The point of a dark scan that stands for its run.  There is none exactly when no directory of
    the run is named [vgain_<n>]; else it is one of them, its setting is the number of its name, and
    no other is nearer to the target, nor as near and lower. *)
Theorem dark_point_nearest `{TR : Tree} run_dir target :
  match dark_selected_point run_dir target with
  | (None, kind, value) => scored_points run_dir = [] /\ kind = "" /\ value = ""
  | (Some path, kind, value) => exists v,
      (v, path) ∈ scored_points run_dir /\ kind = "vgain" /\ value = str_Z v /\
      Forall (fun wq => as_near target v (fst wq)) (scored_points run_dir)
  end.
Proof.
  unfold dark_selected_point. destruct (scored_points run_dir) as [|x l]; [done|].
  destruct (best_point_spec target x l) as [Hin Hall]. exists (fst (best_point target x l)).
  split_and!; [by rewrite <- surjective_pairing|done..].
Qed.

(** ** Lemmas: the list of records *)

#[export] Instance record_le_total : Total record_le.
Proof.
  intros a b. unfold record_le. destruct (decide (run_kind a = run_kind b)) as [He|He].
  - rewrite decide_True by done. apply str_le_total.
  - rewrite (decide_False (P := run_kind b = run_kind a)) by congruence. apply str_le_total.
Qed.

Lemma str_le_antisym a b : str_le a b -> str_le b a -> a = b.
Proof. apply String.leb_antisym. Qed.

#[export] Instance record_le_trans : Transitive record_le.
Proof.
  intros a b c. unfold record_le.
  destruct (decide (run_kind a = run_kind b)) as [H1|H1], (decide (run_kind b = run_kind c)) as [H2|H2];
    intros Hab Hbc.
  - rewrite decide_True by congruence. by etrans.
  - rewrite decide_False by congruence. by rewrite H1.
  - rewrite decide_False by congruence. by rewrite <- H2.
  - destruct (decide (run_kind a = run_kind c)) as [H3|H3]; [|by etrans].
    exfalso. apply H1, str_le_antisym; [done|]. by rewrite H3.
Qed.

(** The last record with a name. *)
Definition last_named (records : list RunRecord) (name : string) : option RunRecord :=
  last (filter (fun r => run_name r = name) records).

Lemma by_name_lookup records name : by_name_of records !! name = last_named records name.
Proof.
  unfold by_name_of, last_named. induction records as [|r records IH] using rev_ind; [done|].
  rewrite foldl_app, filter_app. cbn [foldl]. destruct (decide (run_name r = name)) as [He|Hne].
  - rewrite filter_cons_True by done. rewrite He, lookup_insert_eq, filter_nil. by rewrite last_snoc.
  - rewrite filter_cons_False by done. rewrite lookup_insert_ne by done. by rewrite filter_nil, app_nil_r.
Qed.

(** The record of a name after the merge. *)
Definition merged_record (local : option RunRecord) (listed : option string) (name : string)
    : option RunRecord :=
  match local, listed with
  | Some r, Some path => Some (seen_on_lxplus path r)
  | Some r, None => Some r
  | None, Some path => if names_no_bias name then Some (lxplus_only name path) else None
  | None, None => None
  end.

Lemma merge_entries_lookup (l : list (string * string)) m name :
  NoDup (fst <$> l) ->
  foldl merge_entry m l !! name = merged_record (m !! name) ((list_to_map l : gmap string string) !! name) name.
Proof.
  revert m. induction l as [|[n path] l IH]; intros m Hnd.
  - cbn. rewrite lookup_empty. by destruct (m !! name).
  - cbn [fmap list_fmap fst] in Hnd. apply NoDup_cons in Hnd as [Hn Hnd]. cbn [foldl]. rewrite IH by done.
    cbn [list_to_map foldr fst snd]. change (foldr _ ∅ l) with (list_to_map l : gmap string string).
    cbn [merge_entry]. destruct (decide (n = name)) as [->|Hne].
    + apply not_elem_of_list_to_map in Hn. rewrite Hn. change (list_to_map ((name, path) :: l))
        with (<[name := path]> (list_to_map l : gmap string string)). rewrite lookup_insert_eq.
      destruct (m !! name) as [r|] eqn:Hm.
      * by rewrite lookup_insert_eq.
      * cbn [merged_record]. destruct (names_no_bias name) eqn:Hb; [by rewrite lookup_insert_eq|by rewrite Hm].
    + change (list_to_map ((n, path) :: l)) with (<[n := path]> (list_to_map l : gmap string string)).
      rewrite (lookup_insert_ne (list_to_map l) n) by done. f_equal.
      destruct (m !! n); [by rewrite lookup_insert_ne|].
      destruct (names_no_bias n); [by rewrite lookup_insert_ne|done].
Qed.

Definition merged (records : list RunRecord) (index : gmap string string) : gmap string RunRecord :=
  foldl merge_entry (by_name_of records) (map_to_list index).

Lemma merged_lookup records index name :
  merged records index !! name = merged_record (last_named records name) (index !! name) name.
Proof.
  unfold merged. rewrite merge_entries_lookup by apply NoDup_fst_map_to_list.
  by rewrite by_name_lookup, list_to_map_to_list.
Qed.

Lemma merged_named records index name r : merged records index !! name = Some r -> run_name r = name.
Proof.
  rewrite merged_lookup. unfold merged_record, last_named.
  destruct (last _) as [r0|] eqn:Hl.
  - assert (Hr0 : run_name r0 = name).
    { apply last_Some in Hl as [l' Hl]. assert (Hin : r0 ∈ filter (fun r => run_name r = name) records)
        by (rewrite Hl; apply elem_of_app; right; apply list_elem_of_here).
      by apply list_elem_of_filter in Hin as [? _]. }
    destruct (index !! name); by intros [= <-].
  - destruct (index !! name); [|done]. destruct (names_no_bias name); [|done]. intros [= <-].
    unfold lxplus_only. by case_match.
Qed.

Lemma apply_change_name r c : run_name (apply_change r c) = run_name r /\ run_kind (apply_change r c) = run_kind r.
Proof. destruct c; try done. cbn. by case_decide. Qed.

Lemma override_name r : run_name (override_record r) = run_name r /\ run_kind (override_record r) = run_kind r.
Proof.
  unfold override_record. destruct (find _ _) as [[n cs]|]; [|done].
  revert r. induction cs as [|c cs IH]; intros r; [done|]. cbn [foldl].
  destruct (IH (apply_change r c)) as [-> ->]. apply apply_change_name.
Qed.

(** The records of the merge, and their names. *)
Lemma elem_of_merge records index r :
  r ∈ merge_lxplus_index records index <-> exists name, merged records index !! name = Some r.
Proof.
  unfold merge_lxplus_index. fold (merged records index).
  rewrite (merge_sort_Permutation record_le), list_elem_of_fmap. split.
  - intros ([n r'] & -> & Hin%elem_of_map_to_list). by exists n.
  - intros [n Hn]. exists (n, r). by rewrite elem_of_map_to_list.
Qed.

Lemma database_names records index :
  NoDup (run_name <$> apply_manual_overrides (merge_lxplus_index records index)).
Proof.
  unfold apply_manual_overrides, merge_lxplus_index. fold (merged records index).
  rewrite <- list_fmap_compose. rewrite (list_fmap_ext _ run_name) by (intros; apply override_name).
  rewrite (merge_sort_Permutation record_le), <- list_fmap_compose.
  rewrite (list_fmap_ext _ fst); [apply NoDup_fst_map_to_list|].
  intros i [n r] Hi. cbn. apply (merged_named records index).
  by apply elem_of_map_to_list, (list_elem_of_lookup_2 _ i).
Qed.

(** C27. The database of runs.  Whatever the directories and the index hold, the records are sorted by
    kind and name, and there is one per name: for a run that is kept locally, its last record,
    marked with its path when the index lists it; for a run that only the index lists, a
    placeholder when its name says that it had no bias; and the manual overrides of that name on
    top.  No other name has a record. *)
Theorem database_of_runs records index :
  let db := apply_manual_overrides (merge_lxplus_index records index) in
  StronglySorted record_le db /\ NoDup (run_name <$> db) /\
  forall r, r ∈ db <-> exists name r0,
    merged_record (last_named records name) (index !! name) name = Some r0 /\ r = override_record r0.
Proof.
  intros db. split_and!; [|apply database_names|].
  - unfold db, apply_manual_overrides, merge_lxplus_index. fold (merged records index).
    pose proof (StronglySorted_merge_sort record_le (snd <$> map_to_list (merged records index))) as Hs.
    induction Hs as [|r l' _ IH Hr]; [constructor|]. cbn [fmap list_fmap].
    constructor; [done|]. apply Forall_fmap. eapply Forall_impl; [exact Hr|]. intros x Hx. cbn.
    unfold record_le in *. destruct (override_name r) as [-> ->], (override_name x) as [-> ->]. exact Hx.
  - intros r. unfold db, apply_manual_overrides. rewrite list_elem_of_fmap. split.
    + intros (r0 & -> & (name & Hn)%elem_of_merge). exists name, r0. by rewrite <- merged_lookup.
    + intros (name & r0 & Hn & ->). exists r0. split; [done|]. apply elem_of_merge. exists name.
      by rewrite merged_lookup.
Qed.
