(* ===== verification/NoiseStudy.v ===== *)
(** The comparison of runs without bias: [scripts/study_no_bias_noise_runs.py], the analysis of the
    records of [NoiseRuns] and its [main].

    A figure is its title; the labels and ticks of the figures are not modelled. *)
From S2P Require Import Prelude PyStr PyFloat FloatExact PyVal ChannelSpec JsonText FeConfig SpyAcquire.
From S2P Require Import OscSpectrum ScanRuntime ChargeWindows IntensityScan RunFiles Pools PeFit WaveStats NoiseRuns.

(** [np.corrcoef] *)
Class Correlation : Type := { np_corrcoef : list (list float) -> list (list float) }.

Record study_args : Type := StudyArgs {
  sa_output_dir : string; sa_lxplus_index : string; sa_target_vgain : Z; sa_max_waves : Z;
  sa_fft_avg_waves : Z; sa_fft_window : string; sa_fs : float; sa_interpret : string;
  sa_include_led_stimulus : bool }.

Record AnalysisResult : Type := Analysis {
  a_record : RunRecord; a_dataset_path : string; a_channels : list Z; mean_abs_corr_all : float;
  mean_abs_corr_within_afe : float; mean_abs_corr_cross_afe : float; mean_abs_corr_with_afe3 : float;
  max_abs_corr_pair : string; max_abs_corr_value : float; median_fft_floor_dbfs : float;
  median_fft_peak_dbfs : float; median_fft_peak_minus_floor_db : float; median_ac_rms_counts : float;
  top_outlier_channels : string }.

(** [asdict(row)] with the channels as a text *)
Definition result_row (a : AnalysisResult) : row :=
  let r := a_record a in
  [("run_name", PyStr (run_name r)); ("run_kind", PyStr (run_kind r));
   ("connection_mode", PyStr (connection_mode r)); ("topology_label", PyStr (topology_label r));
   ("technology_layout", PyStr (technology_layout r)); ("selected_dataset_path", PyStr (a_dataset_path a));
   ("selected_setting_kind", PyStr (selected_setting_kind r));
   ("selected_setting_value", PyStr (selected_setting_value r)); ("channels", PyStr (csv_of (a_channels a)));
   ("mean_abs_corr_all", PyFloat (mean_abs_corr_all a));
   ("mean_abs_corr_within_afe", PyFloat (mean_abs_corr_within_afe a));
   ("mean_abs_corr_cross_afe", PyFloat (mean_abs_corr_cross_afe a));
   ("mean_abs_corr_with_afe3", PyFloat (mean_abs_corr_with_afe3 a));
   ("max_abs_corr_pair", PyStr (max_abs_corr_pair a)); ("max_abs_corr_value", PyFloat (max_abs_corr_value a));
   ("median_fft_floor_dbfs", PyFloat (median_fft_floor_dbfs a));
   ("median_fft_peak_dbfs", PyFloat (median_fft_peak_dbfs a));
   ("median_fft_peak_minus_floor_db", PyFloat (median_fft_peak_minus_floor_db a));
   ("median_ac_rms_counts", PyFloat (median_ac_rms_counts a));
   ("top_outlier_channels", PyStr (top_outlier_channels a))].

Definition write_csv `{Host} (rows : list row) (path : string) : M files unit :=
  match rows with [] => ret tt | _ => write_rows path rows end.

Definition robust_z `{Numpy} (values : list float) : list float :=
  match values with
  | [] => []
  | _ =>
      let med := np_median values in
      let mad := np_median ((fun v => f_abs (f_sub v med)) <$> values) in
      let scale := f_mul (f_dec 14826 (-4)) mad in
      if f_leb scale f_zero then zeros_like values
      else (fun v => np_div (f_sub v med) scale) <$> values
  end.

Definition channel_to_afe (channel : Z) : Z := channel / 8.

(** The readable records of each channel of a folder. *)
Definition load_dataset_waves `{Tree} (folder : string) (n_samples max_waves : Z) (interpret : string)
    : result (list (Z * waves)) :=
  channels <-! discover_channels folder ;;
  Ok (omap (fun ch =>
    file ← words_at (channel_path folder ch);
    match WaveStats.load_channel_waves (channel_path folder ch) file n_samples max_waves interpret with
    | Ok ws => Some (ch, ws)
    | Raise _ => None
    end) channels).

(** ** Correlations *)

Record correlations : Type := Corr {
  all_vals : list float; within : list float; cross : list float; afe3 : list float;
  best_pair : string; best_value : float }.

Definition no_correlations : correlations := Corr [] [] [] [] "" (SFopp (f_of_Z 1)).

(** [f"ch{a:02d}-ch{b:02d}"] *)
Definition pair_name (a b : Z) : string := "ch" +:+ dec_pad 2 a +:+ "-ch" +:+ dec_pad 2 b.

Definition add_pair (s : correlations) (ch_a ch_b : Z) (value : float) : correlations :=
  let same_afe := channel_to_afe ch_a =? channel_to_afe ch_b in
  let with3 := (channel_to_afe ch_a =? 3) || (channel_to_afe ch_b =? 3) in
  let better := f_ltb (best_value s) value in
  Corr (all_vals s ++ [value])
    (if same_afe then within s ++ [value] else within s)
    (if same_afe then cross s else cross s ++ [value])
    (if with3 then afe3 s ++ [value] else afe3 s)
    (if better then pair_name ch_a ch_b else best_pair s)
    (if better then value else best_value s).

(** [corr[i, j]] *)
Definition entry (corr : list (list float)) (i j : nat) : result float :=
  r <-! at_index corr i ;; at_index r j.

(** The pairs [i < j] of indices with their channels, row by row. *)
Definition index_pairs (channels : list Z) : list ((nat * Z) * (nat * Z)) :=
  let numbered := imap pair channels in
  mjoin (imap (fun i a => (fun b => (a, b)) <$> drop (S i) numbered) numbered).

Definition collect_pairs (channels : list Z) (corr : list (list float)) : result correlations :=
  rfold (fun s (ab : (nat * Z) * (nat * Z)) =>
    let '((i, ch_a), (j, ch_b)) := ab in
    v <-! entry corr i j ;; Ok (add_pair s ch_a ch_b (f_abs v))) (index_pairs channels) no_correlations.

Definition mean_or_nan `{Numpy} (vals : list float) : float :=
  match vals with [] => S754_nan | _ => np_mean vals end.

(** The means of all pairs, within an AFE, across AFEs and with AFE 3; the best pair and its value. *)
Definition corr_summary `{Numpy} (channels : list Z) (corr : list (list float))
    : result (float * float * float * float * string * float) :=
  if bool_decide (mjoin corr = []) || (length channels <? 2)%nat
  then Ok (S754_nan, S754_nan, S754_nan, S754_nan, "", S754_nan)
  else
    s <-! collect_pairs channels corr ;;
    Ok (mean_or_nan (all_vals s), mean_or_nan (within s), mean_or_nan (cross s), mean_or_nan (afe3 s),
        best_pair s, best_value s).

(** ** One record *)

Definition rank_order (a b : float * Z) : Prop :=
  f_ltb (fst b) (fst a) = true \/ (f_ltb (fst a) (fst b) = false /\ snd b <= snd a).

#[local] Instance rank_order_dec : RelDecision rank_order.
Proof. intros a b. unfold rank_order. apply _. Defined.

(** [max(abs(z) for z in zs)] *)
Definition max_abs (zs : list float) : float :=
  match f_abs <$> zs with [] => f_zero | z :: t => foldl py_max z t end.

Section analysis.
Context `{NP : Numpy, SPE : Spectral, ST : Statistics, CO : Correlation, HO : Host, TR : Tree, RO : Roots}.
Context (args : study_args).

(** The metrics of a channel, with its record less its means in one row. *)
Definition study_channel (window : list float) (n_samples : Z) (common_waves : nat) (cw : Z * waves)
    : result (Z * row * list float) :=
  let ws := Waves n_samples (take common_waves (rows (snd cw))) in
  '(freq_hz, fft_dbfs, used) <-! compute_avg_fft_dbfs ws (sa_fs args) window (sa_fft_avg_waves args)
     (f_of_Z 16384) true ;;
  r <-! compute_noise_metrics ws freq_hz fft_dbfs false ;;
  Ok (fst cw, row_put (row_put r "channel" (PyInt (fst cw))) "fft_avg_waves_used" (PyInt used),
      mjoin (centered <$> rows ws)).

(** The score of each channel: the largest of its three robust scores. *)
Definition channel_scores (metrics : list row) : result (list float) :=
  zs <-! rmap (fun field => vals <-! rmap (fun r => row_float r field) metrics ;; Ok (robust_z vals))
           outlier_metrics ;;
  rmap (fun i => zi <-! rmap (fun z => at_index z i) zs ;; Ok (max_abs zi)) (seq 0 (length metrics)).

Definition top_outliers (channels : list Z) (scores : list float) : string :=
  join "," ((fun sc => "ch" +:+ dec_pad 2 (snd sc) +:+ ":" +:+ f_fixed 2 (fst sc))
              <$> take 4 (merge_sort rank_order (zip scores channels))).

Definition median_of (metrics : list row) (field : string) : result float :=
  vals <-! rmap (fun r => row_float r field) metrics ;; Ok (np_median vals).

(** The dataset of a record and the length of its waveforms, if they can be told. *)
Definition dataset_of (record : RunRecord) : result (option (string * Z)) :=
  let path := at_path (selected_dataset_path record) in
  if negb (exists_at path) then Ok None
  else
    n <-! (if waveform_len record <=? 0
           then py_int (py_or (row_get (load_metadata path) "samples_per_waveform" (PyInt 0)) (PyInt 0))
           else Ok (waveform_len record)) ;;
    Ok (if n <=? 0 then None else Some (path, n)).

(** What is computed of a record: its rows and its result. *)
Definition study_record (record : RunRecord) : result (option (list row * AnalysisResult)) :=
  ds <-! dataset_of record ;;
  match ds with
  | None => Ok None
  | Some (path, n_samples) =>
      by_channel <-! load_dataset_waves path n_samples (sa_max_waves args) (sa_interpret args) ;;
      let common_waves := min_ints ((fun cw => Z.of_nat (length (rows (snd cw)))) <$> by_channel) in
      if (length by_channel <? 2)%nat || (common_waves <=? 1) then Ok None
      else
        window <-! WaveStats.get_window (sa_fft_window args) n_samples ;;
        studied <-! rmap (study_channel window n_samples (Z.to_nat common_waves)) by_channel ;;
        let channels := (fun s => fst (fst s)) <$> studied in
        let metrics := (fun s => snd (fst s)) <$> studied in
        '(m_all, m_within, m_cross, m_afe3, max_pair, max_value) <-!
           corr_summary channels (np_corrcoef (snd <$> studied)) ;;
        scores <-! channel_scores metrics ;;
        let metrics := zip_with (fun r z => row_put r "outlier_score_max_abs_z" (PyFloat z)) metrics scores in
        fft_floor <-! median_of metrics "fft_floor_median_dbfs" ;;
        fft_peak <-! median_of metrics "fft_peak_dbfs" ;;
        peak_minus_floor <-! median_of metrics "fft_peak_minus_floor_db" ;;
        ac_rms <-! median_of metrics "ac_rms_counts" ;;
        Ok (Some (metrics, Analysis record path channels m_all m_within m_cross m_afe3 max_pair max_value
                    fft_floor fft_peak peak_minus_floor ac_rms (top_outliers channels scores)))
  end.

Definition study_dir : string := at_path (sa_output_dir args).
Definition study_out (sub name : string) : string := path_join (path_join study_dir sub) name.

(** A figure as [.png] and [.pdf] *)
Definition save_both (base title : string) : M files unit :=
  put (base +:+ ".png") (DPlot title) ;;; put (base +:+ ".pdf") (DPlot title).

Definition analyze_single_record (record : RunRecord) : M files (option AnalysisResult) :=
  found <- lift (study_record record) ;;
  match found with
  | None => ret None
  | Some (metrics, result) =>
      let name := run_name record in
      write_csv metrics (study_out "metrics" (name +:+ "_metrics.csv")) ;;;
      save_both (study_out "plots" (name +:+ "_corr_heatmap"))
        (name +:+ String "010" "Zero-lag AC correlation") ;;;
      save_both (study_out "plots" (name +:+ "_fft_by_afe")) (name +:+ String "010" "Median FFT by AFE") ;;;
      ret (Some result)
  end.

(** ** [main] *)

Definition is_studied (record : RunRecord) : bool :=
  include_in_noise_analysis record && present_local record.

Definition study_all (records : list RunRecord) : M files (list AnalysisResult) :=
  rs <- map_m analyze_single_record (filter (fun r => is_studied r = true) records) ;;
  ret (omap id rs).

Definition result_le (a b : AnalysisResult) : Prop := str_le (run_name (a_record a)) (run_name (a_record b)).

#[export] Instance result_le_dec : RelDecision result_le.
Proof. intros a b. unfold result_le. apply _. Defined.

Definition mark_analyzed (results : list AnalysisResult) (r : RunRecord) : RunRecord :=
  if bool_decide (run_name r ∈ (fun a => run_name (a_record a)) <$> results)
  then set_fields (include_in_noise_analysis r) (notes r) (technology_layout r) "analyzed" r
  else r.

Definition plot_overview (results : list AnalysisResult) : M files unit :=
  match results with
  | [] => ret tt
  | _ => save_both (study_out "plots" "no_bias_correlation_overview") "No-bias correlation overview"
  end.

(** The records of [main]. *)
Definition study_records : result (list RunRecord) :=
  lxplus_index <-! load_lxplus_index (at_path (sa_lxplus_index args)) ;;
  local <-! build_local_records (sa_target_vgain args) (sa_include_led_stimulus args)
              (path_join study_dir "lxplus_imports") ;;
  Ok (apply_manual_overrides (merge_lxplus_index local lxplus_index)).

Definition study_dirs : list string :=
  study_dir :: (path_join study_dir <$> ["database"; "metrics"; "plots"]).

(** The tables: the database and the results. *)
Definition save_study (records : list RunRecord) (results : list AnalysisResult) : M files unit :=
  let record_rows := record_row <$> records in
  write_csv record_rows (study_out "database" "run_database.csv") ;;;
  put (study_out "database" "run_database.json") (DJson (PyList (PyDict <$> record_rows))) ;;;
  let result_rows := result_row <$> results in
  write_csv result_rows (path_join study_dir "crosscorr_summary.csv") ;;;
  put (path_join study_dir "crosscorr_summary.json") (DJson (PyList (PyDict <$> result_rows))).

Definition main : M files Z :=
  for_each study_dirs (fun d => lift (file_ok d)) ;;;
  records <- lift study_records ;;
  results <- study_all records ;;
  let results := merge_sort result_le results in
  let records := mark_analyzed results <$> records in
  save_study records results ;;;
  plot_overview results ;;;
  ret 0.

End analysis.

(** ** Lemmas: pairs of channels *)

Lemma elem_of_index_pairs channels i a j b :
  ((i, a), (j, b)) ∈ index_pairs channels <->
  (i < j)%nat /\ channels !! i = Some a /\ channels !! j = Some b.
Proof.
  unfold index_pairs. rewrite list_elem_of_join. split.
  - intros (l & Hl & (k & x & -> & Hx)%elem_of_lookup_imap_1).
    apply list_elem_of_fmap in Hl as (y & [= <- <-] & Hy). rewrite list_lookup_imap in Hx.
    apply fmap_Some in Hx as (a' & Ha & [= <- <-]).
    apply list_elem_of_lookup in Hy as [m Hm]. rewrite lookup_drop, list_lookup_imap in Hm.
    apply fmap_Some in Hm as (b' & Hb & [= -> ->]). split_and!; [lia|done|done].
  - intros (Hij & Ha & Hb). exists (pair (i, a) <$> drop (S i) (imap pair channels)). split.
    2: { apply (list_elem_of_lookup_2 _ i). rewrite !list_lookup_imap.
         exact (f_equal (fun o => _ <$> (pair i <$> o)) Ha). }
    apply list_elem_of_fmap. exists (j, b). split; [done|].
    apply (list_elem_of_lookup_2 _ (j - S i)%nat). rewrite lookup_drop, list_lookup_imap.
    replace (S i + (j - S i))%nat with j by lia. exact (f_equal (fmap (pair j)) Hb).
Qed.

(** The pairs with the absolute value of their correlation. *)
Definition valued (corr : list (list float)) (ab : (nat * Z) * (nat * Z)) (v : Z * Z * float) : Prop :=
  let '((i, ch_a), (j, ch_b)) := ab in
  fst v = (ch_a, ch_b) /\ exists c, entry corr i j = Ok c /\ snd v = f_abs c.

Definition in_one_afe (v : Z * Z * float) : bool :=
  channel_to_afe (fst (fst v)) =? channel_to_afe (snd (fst v)).
Definition with_afe3 (v : Z * Z * float) : bool :=
  (channel_to_afe (fst (fst v)) =? 3) || (channel_to_afe (snd (fst v)) =? 3).

Definition add_all (vals : list (Z * Z * float)) (s : correlations) : correlations :=
  foldl (fun s v => add_pair s (fst (fst v)) (snd (fst v)) (snd v)) s vals.

Lemma collect_pairs_fold channels corr s :
  collect_pairs channels corr = Ok s ->
  exists vals, Forall2 (valued corr) (index_pairs channels) vals /\ s = add_all vals no_correlations.
Proof.
  unfold collect_pairs. generalize no_correlations. induction (index_pairs channels) as [|[[i a] [j b]] l IH];
    intros s0 H; cbn [rfold] in H.
  - injection H as <-. by exists [].
  - apply rbind_ok in H as (s1 & Hs & H). apply rbind_ok in Hs as (c & Hc & Hs). injection Hs as <-.
    destruct (IH _ H) as (vals & Hf & ->). exists ((a, b, f_abs c) :: vals). split; [|done].
    constructor; [|done]. split; [done|]. by exists c.
Qed.

Lemma add_all_lists vals s :
  all_vals (add_all vals s) = all_vals s ++ (snd <$> vals) /\
  within (add_all vals s) = within s ++ (snd <$> filter (fun v => in_one_afe v = true) vals) /\
  cross (add_all vals s) = cross s ++ (snd <$> filter (fun v => in_one_afe v = false) vals) /\
  afe3 (add_all vals s) = afe3 s ++ (snd <$> filter (fun v => with_afe3 v = true) vals).
Proof.
  revert s. induction vals as [|v vals IH]; intros s; [by rewrite !app_nil_r|].
  cbn [add_all foldl]. fold (add_all vals). destruct (IH (add_pair s (fst (fst v)) (snd (fst v)) (snd v)))
    as (H1 & H2 & H3 & H4). unfold add_all in *. rewrite H1, H2, H3, H4. cbn [add_pair all_vals within cross afe3].
  change (channel_to_afe v.1.1 =? channel_to_afe v.1.2) with (in_one_afe v).
  change ((channel_to_afe v.1.1 =? 3) || (channel_to_afe v.1.2 =? 3)) with (with_afe3 v).
  rewrite !filter_cons. split_and!; [by rewrite <- app_assoc|destruct (in_one_afe v)..|destruct (with_afe3 v)];
    try (rewrite <- app_assoc); done.
Qed.

(** The best pair: its value is not below any other, and it is the first that is above the start,
    or one that is above it. *)
Lemma add_all_best vals s :
  let r := add_all vals s in
  Forall (fun v => f_ltb (best_value r) (snd v) = false) vals /\
  ((best_value r = best_value s /\ best_pair r = best_pair s) \/
   (f_ltb (best_value s) (best_value r) = true /\
    exists v, v ∈ vals /\ best_pair r = pair_name (fst (fst v)) (snd (fst v)) /\ best_value r = snd v)).
Proof.
  cbv zeta. revert s. induction vals as [|v vals IH]; intros s.
  - split; [constructor|by left].
  - cbn [add_all foldl]. fold (add_all vals). set (s1 := add_pair s (fst (fst v)) (snd (fst v)) (snd v)).
    destruct (IH s1) as [H1 H2]. unfold add_all in *.
    assert (Hb : best_value s1 = if f_ltb (best_value s) (snd v) then snd v else best_value s) by done.
    assert (Hp : best_pair s1 = if f_ltb (best_value s) (snd v) then pair_name (fst (fst v)) (snd (fst v))
                                else best_pair s) by done.
    set (r := foldl _ s1 vals) in *. clearbody r s1.
    assert (Hkeep : forall x, f_ltb (best_value s1) x = false -> f_ltb (best_value r) x = false).
    { intros x Hx. destruct H2 as [[He _]|[Hlt _]]; [by rewrite He|].
      destruct (f_ltb (best_value r) x) eqn:Hc; [|done]. by rewrite (f_ltb_trans _ _ _ Hlt Hc) in Hx. }
    destruct (f_ltb (best_value s) (snd v)) eqn:Hlt; rewrite Hb in *; rewrite Hp in *.
    + split; [constructor; [apply Hkeep, f_ltb_irrefl|done]|]. right.
      destruct H2 as [[He Hpe]|(Hlt2 & x & Hx & Hpx & Hvx)].
      * rewrite He. split; [done|]. exists v. split_and!; [apply list_elem_of_here|done..].
      * split; [by eapply f_ltb_trans|]. exists x. split_and!; [by apply list_elem_of_further|done..].
    + split; [constructor; [by apply Hkeep|done]|].
      destruct H2 as [[He Hpe]|(Hlt2 & x & Hx & Hpx & Hvx)]; [by left|]. right. split; [done|].
      exists x. split_and!; [by apply list_elem_of_further|done..].
Qed.

Lemma abs_above_start x : is_nan x = false -> f_ltb (SFopp (f_of_Z 1)) (f_abs x) = true.
Proof. by destruct x. Qed.

(** What a correlation summary says.  Each pair of channels counts once, by its absolute
    correlation; the four means are those of all pairs, of the pairs within one AFE (eight
    channels), of the others, and of the pairs with a channel of AFE 3 (no number when there are
    none); no pair is above the value that is reported as the best, and it belongs to the pair
    that is named with it, unless every correlation is not a number. *)
Theorem corr_summary_correct `{NP : Numpy} channels corr m_all m_within m_cross m_afe3 pair_ value :
  mjoin corr <> [] -> (2 <= length channels)%nat ->
  corr_summary channels corr = Ok (m_all, m_within, m_cross, m_afe3, pair_, value) ->
  (forall i a j b, ((i, a), (j, b)) ∈ index_pairs channels <->
     (i < j)%nat /\ channels !! i = Some a /\ channels !! j = Some b) /\
  exists vals, Forall2 (valued corr) (index_pairs channels) vals /\
    m_all = mean_or_nan (snd <$> vals) /\
    m_within = mean_or_nan (snd <$> filter (fun v => in_one_afe v = true) vals) /\
    m_cross = mean_or_nan (snd <$> filter (fun v => in_one_afe v = false) vals) /\
    m_afe3 = mean_or_nan (snd <$> filter (fun v => with_afe3 v = true) vals) /\
    Forall (fun v => f_ltb value (snd v) = false) vals /\
    (Forall (fun v => is_nan (snd v) = true) vals \/
     exists v, v ∈ vals /\ pair_ = pair_name (fst (fst v)) (snd (fst v)) /\ value = snd v).
Proof.
  intros Hc Hn H. split; [intros; apply elem_of_index_pairs|]. unfold corr_summary in H.
  rewrite (bool_decide_eq_false_2 _ Hc) in H.
  replace (length channels <? 2)%nat with false in H by (symmetry; by apply Nat.ltb_ge). cbn [orb] in H.
  apply rbind_ok in H as (s & Hs & H). injection H as <- <- <- <- <- <-.
  destruct (collect_pairs_fold channels corr s Hs) as (vals & Hf & ->). exists vals.
  destruct (add_all_lists vals no_correlations) as (-> & -> & -> & ->). cbn [no_correlations all_vals within cross afe3 app].
  destruct (add_all_best vals no_correlations) as [Hmax Hbest]. split_and!; try done.
  destruct Hbest as [[He _]|(_ & v & Hv)]; [left|right; by exists v].
  rewrite He in Hmax. apply Forall_forall. intros v Hv. rewrite Forall_forall in Hmax.
  destruct (is_nan (snd v)) eqn:Hnan; [done|]. specialize (Hmax v Hv).
  assert (Hvv : exists c, snd v = f_abs c).
  { apply list_elem_of_lookup in Hv as [k Hk]. destruct (Forall2_lookup_r _ _ _ k v Hf Hk) as ([[i a] [j b]] & _ & Hval).
    destruct Hval as (_ & c & _ & Hval). by exists c. }
  destruct Hvv as [c Hvc]. rewrite Hvc in Hmax, Hnan.
  assert (Hcn : is_nan c = false) by (by destruct c).
  change (f_ltb (SFopp (f_of_Z 1)) (f_abs c) = false) in Hmax.
  by rewrite (abs_above_start c Hcn) in Hmax.
Qed.

(** ** Lemmas: the records that are studied *)

Section study.
Context `{NP : Numpy, SPE : Spectral, ST : Statistics, CO : Correlation, HO : Host, TR : Tree, RO : Roots}.
Context (args : study_args).

Lemma studied_record record metrics a :
  study_record args record = Ok (Some (metrics, a)) -> a_record a = record.
Proof using Type.
  unfold study_record. intros H. apply rbind_ok in H as (ds & _ & H). destruct ds as [[path n]|]; [|done].
  apply rbind_ok in H as (bc & _ & H). cbv zeta in H. case_match; [done|].
  apply rbind_ok in H as (window & _ & H). apply rbind_ok in H as (st & _ & H).
  apply rbind_ok in H as ([[[[[m1 m2] m3] m4] mp] mv] & _ & H).
  repeat (apply rbind_ok in H as (? & _ & H)). by injection H as _ <-.
Qed.

(** The result of a record, written or not. *)
Definition result_of (record : RunRecord) : option AnalysisResult :=
  match study_record args record with Ok (Some (_, a)) => Some a | _ => None end.

Lemma analyze_result record w o w' : analyze_single_record args record w = (Ok o, w') -> o = result_of record.
Proof using Type.
  unfold analyze_single_record, result_of. intros H. inv_bind H. injection Hrun as Hs <-. rewrite Hs.
  destruct a as [[metrics a]|]; [|by injection H as <- _]. do 3 inv_bind H. by injection H as <- _.
Qed.

Lemma map_analyze l w rs w' :
  map_m (analyze_single_record args) l w = (Ok rs, w') -> rs = result_of <$> l.
Proof using Type.
  revert w rs w'. induction l as [|r l IH]; intros w rs w' H; cbn [map_m] in H; [by injection H as <- _|].
  inv_bind H. inv_bind H. injection H as <- _. apply analyze_result in Hrun as ->. 
  by rewrite (IH _ _ _ Hrun0).
Qed.

Lemma study_all_results records w results w' :
  study_all args records w = (Ok results, w') ->
  results = omap result_of (filter (fun r => is_studied r = true) records).
Proof using Type.
  unfold study_all. intros H. inv_bind H. apply map_analyze in Hrun as ->. injection H as <- _.
  generalize (filter (fun r => is_studied r = true) records). intros l. induction l as [|r l IH]; [done|].
  cbn [fmap list_fmap omap list_omap id]. destruct (result_of r); by rewrite <- IH.
Qed.

Lemma study_out_flat sub name : sub <> "" -> study_out args sub name = path_join (study_dir args) (sub +:+ "/" +:+ name).
Proof using Type. intros Hs. unfold study_out. by apply path_join_nest. Qed.

Lemma write_csv_ok (l : list row) path w u w' :
  write_csv l path w = (Ok u, w') ->
  w' = match l with [] => w | _ => <[path := DCsv (fst <$> default [] (head l)) l]> w end.
Proof using Type. destruct l as [|r l]; [by intros [= _ <-]|]. apply rows_written. Qed.

Lemma spares_csv p (l : list row) path : path <> p -> spares p (write_csv l path).
Proof using Type. intros Hne. destruct l; [done|]. by apply spares_rows. Qed.

Lemma spares_both p base title : (forall s, p <> base +:+ s) -> spares p (save_both base title).
Proof using Type. intros Hp. apply spares_bind; [|intros _]; apply spares_put; apply not_eq_sym, Hp. Qed.

Lemma spares_plots p sub title :
  (forall s, p <> study_out args "plots" s) -> spares p (save_both (study_out args "plots" sub) title).
Proof using Type. intros Hp. apply spares_both. intros s. unfold study_out. rewrite path_join_suffix. apply Hp. Qed.

Lemma spares_overview p results :
  (forall s, p <> study_out args "plots" s) -> spares p (plot_overview args results).
Proof using Type. intros Hp. destruct results; [done|]. by apply spares_plots. Qed.

(** The table of the metrics of a record *)
Definition metrics_path (record : RunRecord) : string := study_out args "metrics" (run_name record +:+ "_metrics.csv").

Lemma spares_analyze p record :
  p <> metrics_path record -> (forall s, p <> study_out args "plots" s) ->
  spares p (analyze_single_record args record).
Proof using Type.
  intros Hm Hp. unfold analyze_single_record. apply spares_bind; [apply spares_lift|].
  intros [[metrics a]|]; [|done]. apply spares_bind; [by apply spares_csv, not_eq_sym|]. intros _.
  apply spares_bind; [by apply spares_plots|]. intros _. by apply spares_bind; [apply spares_plots|].
Qed.

(** A study has a row per channel, at least two. *)
Lemma study_rows record metrics a : study_record args record = Ok (Some (metrics, a)) -> metrics <> [].
Proof using Type.
  unfold study_record. intros H. apply rbind_ok in H as (ds & _ & H). destruct ds as [[path n]|]; [|done].
  apply rbind_ok in H as (bc & _ & H). cbv zeta in H. destruct (Nat.ltb_spec (length bc) 2) as [_|Hn]; [done|].
  cbn [orb] in H. case_match; [done|].
  apply rbind_ok in H as (window & _ & H). apply rbind_ok in H as (st & Hst & H).
  apply rbind_ok in H as ([[[[[m1 m2] m3] m4] mp] mv] & _ & H). apply rbind_ok in H as (scores & Hsc & H).
  repeat (apply rbind_ok in H as (? & _ & H)). injection H as <- _.
  apply rmap_length in Hst. unfold channel_scores in Hsc. apply rbind_ok in Hsc as (zs & _ & Hsc).
  apply rmap_length in Hsc. rewrite length_seq, length_fmap in Hsc.
  intros He%(f_equal length). rewrite length_zip_with, length_fmap in He. cbn in He. lia.
Qed.

Lemma result_of_ok record metrics a :
  study_record args record = Ok (Some (metrics, a)) -> result_of record = Some a.
Proof using Type. intros H. unfold result_of. by rewrite H. Qed.

Lemma result_of_some record a : result_of record = Some a -> exists metrics, study_record args record = Ok (Some (metrics, a)).
Proof using Type.
  unfold result_of. destruct (study_record args record) as [[[m a']|]|e]; [|done|done].
  intros [= ->]. by exists m.
Qed.

Lemma metrics_not_plot record s : metrics_path record <> study_out args "plots" s.
Proof using Type. intros He. unfold metrics_path in He. rewrite !study_out_flat in He by done. by apply path_join_inj in He. Qed.

Lemma metrics_of_record record metrics a w o w' :
  study_record args record = Ok (Some (metrics, a)) -> analyze_single_record args record w = (Ok o, w') ->
  exists fields, w' !! metrics_path record = Some (DCsv fields metrics).
Proof using Type.
  intros Hs H. unfold analyze_single_record in H. inv_bind H. injection Hrun as Hs' <-.
  rewrite Hs in Hs'. injection Hs' as <-. do 3 inv_bind H. injection H as _ <-.
  pose proof (metrics_not_plot record) as Hp.
  rewrite (spares_run _ _ _ _ _ (spares_plots _ _ _ Hp) Hrun1), (spares_run _ _ _ _ _ (spares_plots _ _ _ Hp) Hrun0).
  apply write_csv_ok in Hrun as ->. destruct metrics as [|r rs]; [by apply study_rows in Hs|].
  eexists. apply lookup_insert_eq.
Qed.

Lemma metrics_path_inj r1 r2 : metrics_path r1 = metrics_path r2 -> run_name r1 = run_name r2.
Proof using Type. intros H%path_join_inj. by apply string_app_inj_r in H. Qed.

(** The tables of the metrics after all the records, whose names are distinct. *)
Lemma metrics_of_all l w rs w' record metrics a :
  NoDup (run_name <$> l) -> map_m (analyze_single_record args) l w = (Ok rs, w') -> record ∈ l ->
  study_record args record = Ok (Some (metrics, a)) ->
  exists fields, w' !! metrics_path record = Some (DCsv fields metrics).
Proof using Type.
  intros Hnd H Hin Hs. revert w rs w' Hnd H Hin. induction l as [|r l IH]; intros w rs w' Hnd H Hin; [by inversion Hin|].
  cbn [map_m] in H. inv_bind H. inv_bind H. injection H as _ <-.
  cbn [fmap list_fmap] in Hnd. apply NoDup_cons in Hnd as [Hn Hnd].
  apply elem_of_cons in Hin as [->|Hin]; [|by eapply IH].
  destruct (metrics_of_record _ _ _ _ _ _ Hs Hrun) as [fields Hf]. exists fields. rewrite <- Hf.
  eapply spares_run; [|exact Hrun0]. apply spares_map. intros x Hx. apply spares_analyze.
  - intros He%metrics_path_inj. apply Hn. rewrite He. by apply list_elem_of_fmap_2.
  - apply metrics_not_plot.
Qed.

Lemma NoDup_filtered (P : RunRecord -> Prop) `{forall r, Decision (P r)} (l : list RunRecord) :
  NoDup (run_name <$> l) -> NoDup (run_name <$> filter P l).
Proof using Type.
  induction l as [|r l IH]; [done|]. cbn [fmap list_fmap]. intros [Hn Hl]%NoDup_cons. rewrite filter_cons.
  case_decide; [|by apply IH]. cbn [fmap list_fmap]. apply NoDup_cons. split; [|by apply IH].
  intros (r' & He & [_ Hin]%list_elem_of_filter)%list_elem_of_fmap. apply Hn. rewrite He.
  by apply list_elem_of_fmap_2.
Qed.

(** The results of a list of records with distinct names *)
Definition results_of (records : list RunRecord) : list AnalysisResult :=
  merge_sort result_le (omap result_of (filter (fun r => is_studied r = true) records)).

Lemma elem_of_results records a :
  a ∈ results_of records <-> exists r, r ∈ records /\ is_studied r = true /\ result_of r = Some a.
Proof using Type.
  unfold results_of. rewrite (merge_sort_Permutation result_le), list_elem_of_omap. split.
  - intros (r & [Hst Hin]%list_elem_of_filter & Hr). by exists r.
  - intros (r & Hin & Hst & Hr). exists r. by rewrite list_elem_of_filter.
Qed.

Lemma analyzed_status records r :
  NoDup (run_name <$> records) -> r ∈ records ->
  analysis_status (mark_analyzed (results_of records) r) =
  if is_studied r then match result_of r with Some _ => "analyzed" | None => analysis_status r end
  else analysis_status r.
Proof using Type.
  intros Hnd Hin.
  assert (Hres : run_name r ∈ (fun a => run_name (a_record a)) <$> results_of records <->
                 is_studied r = true /\ is_Some (result_of r)).
  { rewrite list_elem_of_fmap. split.
    - intros (a & Hn & (r' & Hin' & Hst & Hr)%elem_of_results). destruct (result_of_some _ _ Hr) as [m Hm].
      rewrite (studied_record _ _ _ Hm) in Hn. apply list_elem_of_lookup in Hin as [i Hi], Hin' as [j Hj].
      assert (i = j) as <-.
      { apply (NoDup_lookup (run_name <$> records) i j (run_name r) Hnd); rewrite list_lookup_fmap.
        - by rewrite Hi.
        - rewrite Hj, Hn. done. }
      rewrite Hi in Hj. injection Hj as <-. split; [done|]. by exists a.
    - intros [Hst [a Ha]]. exists a. destruct (result_of_some _ _ Ha) as [m Hm]. split.
      + by rewrite (studied_record _ _ _ Hm).
      + apply elem_of_results. by exists r. }
  unfold mark_analyzed. case_bool_decide as Hb.
  - apply Hres in Hb as [-> [a ->]]. done.
  - destruct (is_studied r); [|done]. destruct (result_of r) as [a|] eqn:Ha; [|done].
    exfalso. apply Hb, Hres. split; [done|]. by exists a.
Qed.

End study.

(** What a study of the records [records] leaves. *)
Record study_saved `{NP : Numpy, SPE : Spectral, ST : Statistics, CO : Correlation, HO : Host, TR : Tree, RO : Roots}
    (args : study_args) (records : list RunRecord) (w' : files) : Prop := {
  saved_results := results_of args records;
  saved_rows := record_row <$> (mark_analyzed saved_results <$> records);
  one_per_run : NoDup (run_name <$> records);
  database_json : w' !! study_out args "database" "run_database.json" = Some (DJson (PyList (PyDict <$> saved_rows)));
  database_csv : records <> [] -> exists fields,
    w' !! study_out args "database" "run_database.csv" = Some (DCsv fields saved_rows);
  summary_json : w' !! path_join (study_dir args) "crosscorr_summary.json"
    = Some (DJson (PyList (PyDict <$> (result_row <$> saved_results))));
  summary_csv : saved_results <> [] -> exists fields,
    w' !! path_join (study_dir args) "crosscorr_summary.csv" = Some (DCsv fields (result_row <$> saved_results));
  metrics_csv : forall r metrics a, r ∈ records -> is_studied r = true ->
    study_record args r = Ok (Some (metrics, a)) ->
    exists fields, w' !! metrics_path args r = Some (DCsv fields metrics);
  status_analyzed : forall r, r ∈ records ->
    analysis_status (mark_analyzed saved_results r) =
    if is_studied r then match result_of args r with Some _ => "analyzed" | None => analysis_status r end
    else analysis_status r }.

Section saved.
Context `{NP : Numpy, SPE : Spectral, ST : Statistics, CO : Correlation, HO : Host, TR : Tree, RO : Roots}.
Context (args : study_args).

(** The four tables that are written last. *)
Definition study_tables : list string :=
  [study_out args "database" "run_database.csv"; study_out args "database" "run_database.json";
   path_join (study_dir args) "crosscorr_summary.csv"; path_join (study_dir args) "crosscorr_summary.json"].

Lemma tables_distinct : NoDup study_tables.
Proof using Type.
  unfold study_tables. rewrite !study_out_flat by done.
  change (NoDup (path_join (study_dir args) <$> ["database" +:+ "/" +:+ "run_database.csv";
    "database" +:+ "/" +:+ "run_database.json"; "crosscorr_summary.csv"; "crosscorr_summary.json"])).
  apply NoDup_fmap_2; [intros a b; apply path_join_inj|]. reg_mem.
Qed.

Lemma tables_not_below sub name :
  sub = "metrics" \/ sub = "plots" -> study_out args sub name ∉ study_tables.
Proof using Type.
  intros Hs. assert (Hne : sub <> "") by (by destruct Hs as [-> | ->]). unfold study_tables.
  rewrite !study_out_flat by done. rewrite !elem_of_cons.
  intros [H|[H|[H|[H|H]]]]; [| | | |by inversion H]; apply path_join_inj in H; by destruct Hs as [-> | ->].
Qed.

Lemma spares_save p records results : p ∉ study_tables -> spares p (save_study args records results).
Proof using Type.
  intros Hp. unfold study_tables in Hp. rewrite !not_elem_of_cons in Hp. destruct Hp as (H1 & H2 & H3 & H4 & _).
  unfold save_study. apply spares_bind; [by apply spares_csv, not_eq_sym|]. intros _.
  apply spares_bind; [by apply spares_put, not_eq_sym|]. intros _.
  apply spares_bind; [by apply spares_csv, not_eq_sym|]. intros _. by apply spares_put, not_eq_sym.
Qed.

Lemma csv_written (l : list row) path w u w' :
  write_csv l path w = (Ok u, w') -> l <> [] -> exists fields, w' !! path = Some (DCsv fields l).
Proof using Type. intros H%write_csv_ok Hl. destruct l; [done|]. subst w'. eexists. apply lookup_insert_eq. Qed.

(** The tables hold their rows. *)
Lemma save_holds records results w u w' :
  save_study args records results w = (Ok u, w') ->
  w' !! study_out args "database" "run_database.json" = Some (DJson (PyList (PyDict <$> (record_row <$> records)))) /\
  (records <> [] -> exists fields,
     w' !! study_out args "database" "run_database.csv" = Some (DCsv fields (record_row <$> records))) /\
  w' !! path_join (study_dir args) "crosscorr_summary.json"
    = Some (DJson (PyList (PyDict <$> (result_row <$> results)))) /\
  (results <> [] -> exists fields,
     w' !! path_join (study_dir args) "crosscorr_summary.csv" = Some (DCsv fields (result_row <$> results))).
Proof using Type.
  intros H. pose proof tables_distinct as Hd. unfold study_tables in Hd.
  rewrite !NoDup_cons, !not_elem_of_cons in Hd. destruct Hd as ((N1 & N2 & N3 & _) & (N4 & N5 & _) & (N6 & _) & _).
  unfold save_study in H. inv_bind H. inv_bind H. inv_bind H. 
  pose proof (fun p Hne => spares_run p _ _ _ _ (spares_put p _ _ Hne) H) as S4.
  pose proof (fun p Hne => spares_run p _ _ _ _ (spares_csv p _ _ Hne) Hrun1) as S3.
  pose proof (fun p Hne => spares_run p _ _ _ _ (spares_put p _ _ Hne) Hrun0) as S2.
  apply put_ok in H as Hw'. apply put_ok in Hrun0 as Hw1. split_and!.
  - rewrite S4, S3, Hw1 by (by apply not_eq_sym). apply lookup_insert_eq.
  - intros Hr. rewrite S4, S3, S2 by (by apply not_eq_sym). eapply csv_written; [exact Hrun|].
    by destruct records.
  - rewrite Hw'. apply lookup_insert_eq.
  - intros Hr. rewrite S4 by (by apply not_eq_sym). eapply csv_written; [exact Hrun1|]. by destruct results.
Qed.
End saved.

(** C22. The study of the runs without bias, as a whole.  If [main] ends, its status is 0, the records
    are those of the database with one per run name, and the tables agree with them: the database
    (JSON, and CSV when there is a record) holds every record in order; the summary holds the
    results of the records that are kept locally, are included and could be studied, sorted by run
    name; each of these records has the table of the metrics of its channels, which nothing
    written later replaces; and a record is marked as analyzed exactly when it has a result. *)
Theorem study_complete `{NP : Numpy, SPE : Spectral, ST : Statistics, CO : Correlation, HO : Host, TR : Tree, RO : Roots}
    args w code w' :
  main args w = (Ok code, w') ->
  code = 0 /\ exists records, study_records args = Ok records /\ study_saved args records w'.
Proof.
  unfold main. intros H. do 5 inv_bind H. injection H as <- <-. split; [done|].
  injection Hrun0 as Hrec <-. rename a0 into records. exists records. split; [done|].
  assert (Hnd : NoDup (run_name <$> records)).
  { unfold study_records in Hrec. apply rbind_ok in Hrec as (index & _ & Hrec).
    apply rbind_ok in Hrec as (local & _ & Hrec). injection Hrec as <-. apply database_names. }
  pose proof (study_all_results _ _ _ _ _ Hrun1) as ->. fold (results_of args records) in *.
  destruct (save_holds args _ _ _ _ _ Hrun2) as (Hdj & Hdc & Hsj & Hsc).
  assert (Hplot : forall p, p ∈ study_tables args -> w4 !! p = w3 !! p).
  { intros p Hp. eapply spares_run; [|exact Hrun3]. apply spares_overview.
    intros s ->. exact (tables_not_below args "plots" s (or_intror eq_refl) Hp). }
  unfold study_tables in Hplot. split.
  - exact Hnd.
  - rewrite Hplot by set_solver. exact Hdj.
  - intros Hr. rewrite Hplot by set_solver. apply Hdc. by destruct records.
  - rewrite Hplot by set_solver. exact Hsj.
  - intros Hr. rewrite Hplot by set_solver. by apply Hsc.
  - intros r metrics res Hin Hst Hs. unfold study_all in Hrun1. inv_bind Hrun1. injection Hrun1 as _ ->.
    destruct (metrics_of_all args _ _ _ _ r metrics res (NoDup_filtered _ _ Hnd) Hrun0) as [fields Hf]; [|done|].
    { by apply list_elem_of_filter. }
    exists fields. rewrite <- Hf. rewrite (spares_run _ _ _ _ _ (spares_overview _ _ _ (metrics_not_plot args r)) Hrun3).
    eapply spares_run; [|exact Hrun2]. apply spares_save, tables_not_below. by left.
  - intros r Hin. by apply analyzed_status.
Qed.

(** ** A small study *)

#[local] Existing Instances some_numpy some_host some_spectral some_statistics.

#[local] Instance some_correlation : Correlation := {
  np_corrcoef := fun l => (fun _ => replicate (length l) (SFopp (f_dec 5 (-1)))) <$> l }.

#[local] Instance some_roots : Roots := {
  DARK_ROOT := "dark"; OSC_ROOT := "osc"; LED_ROOT := "led"; imported := fun _ => [] }.

(** One dark scan with two points, the second of which has three channels. *)
#[local] Instance study_tree : Tree := {
  listing := fun d =>
    if decide (d = "dark") then Some {["run_a"]}
    else if decide (d = "dark/run_a") then Some {["vgain_500"; "vgain_1000"; "scan_metadata.txt"]}
    else if decide (d = "dark/run_a/vgain_500") then Some ∅
    else if decide (d = "dark/run_a/vgain_1000") then Some {["channel_0.dat"; "channel_3.dat"; "channel_24.dat"]}
    else if bool_decide (d ∈ ["osc"; "led"]) then Some ∅ else None;
  text_at := fun p => if decide (p = "dark/run_a/scan_metadata.txt")
    then Some (Ok ("channels=0,3,24" +:+ String "010" "waveform_len = 4" +:+ String "010" "biasctrl_dac=0"))
    else if decide (p = "index.txt") then Some (Ok "/eos/b_noled") else None;
  words_at := fun p =>
    if bool_decide (p ∈ ["dark/run_a/vgain_1000/channel_0.dat"; "dark/run_a/vgain_1000/channel_3.dat";
                         "dark/run_a/vgain_1000/channel_24.dat"])
    then Some (Ok [100; 101; 99; 100; 102; 100; 98; 100]) else None;
  at_path := fun p => p; str_other := fun _ => ""; html_page := fun name _ _ => name }.

Definition some_study_args : study_args :=
  {| sa_output_dir := "out"; sa_lxplus_index := "index.txt"; sa_target_vgain := 900; sa_max_waves := 512;
     sa_fft_avg_waves := 512; sa_fft_window := "HANNING"; sa_fs := f_of_Z 1; sa_interpret := "signed";
     sa_include_led_stimulus := false |}.

Lemma study_complete_witness :
  exists w', main some_study_args ∅ = (Ok 0, w') /\
    exists records, study_saved some_study_args records w' /\
      (fun r => (run_name r, is_studied r)) <$> records = [("run_a", true); ("b_noled", false)] /\
      (fun a => (a_channels a, max_abs_corr_pair a)) <$> results_of some_study_args records
        = [([0; 3; 24], "ch00-ch03")].
Proof.
  destruct (main some_study_args ∅) as [r w'] eqn:Hm.
  assert (Hr : r = Ok 0) by (change r with (fst (r, w')); rewrite <- Hm; vm_compute; reflexivity). subst r.
  exists w'. split; [reflexivity|].
  destruct (study_complete some_study_args ∅ 0 w' Hm) as (_ & records & Hrec & Hs). exists records.
  split; [exact Hs|]. clear Hs Hm. vm_compute in Hrec. injection Hrec as <-. split; vm_compute; reflexivity.
Defined.

Definition some_corr : list (list float) :=
  [[f_of_Z 1; f_dec 2 (-1); f_dec 1 (-1)]; [f_dec 2 (-1); f_of_Z 1; SFopp (f_dec 9 (-1))];
   [f_dec 1 (-1); SFopp (f_dec 9 (-1)); f_of_Z 1]].

Lemma corr_summary_correct_witness :
  exists m1 m2 m3 m4, corr_summary [0; 3; 24] some_corr = Ok (m1, m2, m3, m4, "ch03-ch24", f_dec 9 (-1)) /\
    exists vals, Forall2 (valued some_corr) (index_pairs [0; 3; 24]) vals /\
      m2 = mean_or_nan (snd <$> filter (fun v => in_one_afe v = true) vals).
Proof.
  destruct (corr_summary [0; 3; 24] some_corr) as [[[[[[m1 m2] m3] m4] mp] mv]|e] eqn:Hc;
    [|vm_compute in Hc; discriminate Hc].
  assert (Hb : (mp, mv) = ("ch03-ch24", f_dec 9 (-1))).
  { change (mp, mv) with (match Ok (m1, m2, m3, m4, mp, mv) with
                          | Ok (_, _, _, _, p, v) => (p, v) | Raise _ => ("", f_zero) end).
    rewrite <- Hc. vm_compute. reflexivity. }
  injection Hb as -> ->. exists m1, m2, m3, m4. split; [reflexivity|].
  destruct (corr_summary_correct [0; 3; 24] some_corr _ _ _ _ _ _ ltac:(vm_compute; discriminate) ltac:(cbn; lia) Hc)
    as (_ & vals & Hf & _ & Hw & _). exists vals. split; [exact Hf|exact Hw].
Defined.
