(* ===== verification/SinglePe.v ===== *)
(** The photo-electron analysis of one channel of an LED scan:
    [client/dynamic_range_led/analyze_single_channel_pe.py].

    The run directories, the raw words and the resolution of paths are those of [ReanalysisMain];
    the search for the pulse and the points of the runs are shared with [Reanalysis], whose code
    is the same.  A figure is its title, and what can fail before it is saved. *)
From S2P Require Import Prelude PyStr PyFloat PyVal ChannelSpec JsonText FeConfig SpyAcquire WaveStats.
From S2P Require Import ScanRuntime ChargeWindows IntensityScan RunFiles Pools PeFit Reanalysis ReanalysisMain.

Record pe_options : Type := PeOptions {
  pe_run_dir : string; pe_channel : Z; pe_supplement_run_dir : list string; pe_output_dir : string;
  pe_waveform_len : Z; pe_interpret : string; pe_reference_intensity : Z; pe_search_start : Z;
  pe_search_stop : Z; pe_baseline_margin : Z; pe_baseline_len : Z; pe_pre_samples : Z;
  pe_post_samples : Z; pe_max_integration_len : Z; pe_threshold_frac : float;
  pe_pre_pulse_reject_sigma : float; pe_target_zero_fraction : float; pe_plot_max_pe : Z;
  pe_hist_bins : Z }.

Definition pe_defaults (run_dir : string) (channel : Z) : pe_options :=
  {| pe_run_dir := run_dir; pe_channel := channel; pe_supplement_run_dir := []; pe_output_dir := "";
     pe_waveform_len := 0; pe_interpret := "signed"; pe_reference_intensity := 0; pe_search_start := 80;
     pe_search_stop := 220; pe_baseline_margin := 12; pe_baseline_len := 100; pe_pre_samples := 4;
     pe_post_samples := 12; pe_max_integration_len := 40; pe_threshold_frac := f_dec 1 (-1);
     pe_pre_pulse_reject_sigma := f_of_Z 5; pe_target_zero_fraction := f_dec 4 (-1); pe_plot_max_pe := 6;
     pe_hist_bins := 240 |}.

(** ** The window *)

Record PeWindow : Type := MkPeWindow {
  w_channel : Z; w_reference : Z; w_baseline_start : Z; w_baseline_stop : Z; w_onset : Z; w_peak : Z;
  w_start : Z; w_stop : Z }.

Definition pe_window_dict (w : PeWindow) : row :=
  [("channel", PyInt (w_channel w)); ("reference_intensity", PyInt (w_reference w));
   ("baseline_start", PyInt (w_baseline_start w)); ("baseline_stop", PyInt (w_baseline_stop w));
   ("onset_index", PyInt (w_onset w)); ("peak_index", PyInt (w_peak w));
   ("integrate_start", PyInt (w_start w)); ("integrate_stop", PyInt (w_stop w))].

Definition tiny : float := f_dec 1 (-9).

Section window.
Context `{NP : Numpy, SP : Scipy}.

Definition finite_part (l : list float) : list float := filter (fun x => is_finite x = true) l.

Definition robust_sigma (values : list float) : float :=
  match finite_part values with
  | [] => f_zero
  | arr =>
      let med := np_median arr in
      let mad := np_median ((fun v => f_abs (f_sub v med)) <$> arr) in
      let sigma := f_mul (f_dec 14826 (-4)) mad in
      py_max (if f_leb sigma f_zero then np_std arr else sigma) tiny
  end.

(** [derive_window_from_mean] of this script: its rough baseline goes at least to sample 32, and
    the integration has a maximal length. *)
Definition pe_window_from_mean (mean_wf : list float) (channel reference_intensity : Z)
    (search_start search_stop baseline_margin baseline_len pre_samples post_samples
     max_integration_len : Z) (threshold_frac : float) : result PeWindow :=
  let n_samples := Z.of_nat (length mean_wf) in
  let s_lo := Z.max 0 (Z.min (n_samples - 2) search_start) in
  let s_hi := Z.max (s_lo + 2) (Z.min n_samples search_stop) in
  let rough_base := slice 0 (Z.max 32 s_lo) mean_wf in
  let rough_baseline := np_median rough_base in
  let signal := (fun x => f_sub x rough_baseline) <$> slice s_lo s_hi mean_wf in
  smooth <-! smoothed signal ;;
  peak_rel <-! argmax smooth ;;
  let peak_index := s_lo + Z.of_nat peak_rel in
  let peak_amplitude := default f_zero (smooth !! peak_rel) in
  if f_leb peak_amplitude f_zero
  then Raise (value_error ("Channel " +:+ str_Z channel
                           +:+ ": could not find a positive pulse in the mean waveform"))
  else
    let baseline_rms := np_std ((fun x => f_sub x rough_baseline) <$> rough_base) in
    let threshold := py_max (f_mul threshold_frac peak_amplitude) (f_mul (f_of_Z 4) baseline_rms) in
    let left := scan_left smooth threshold peak_rel in
    let right := scan_right (drop peak_rel smooth) threshold peak_rel in
    let onset_index := s_lo + Z.of_nat left in
    let return_index := s_lo + Z.of_nat right in
    let baseline_stop := Z.max 24 (onset_index - baseline_margin) in
    let baseline_start := Z.max 0 (baseline_stop - baseline_len) in
    let integrate_start := Z.max 0 (onset_index - pre_samples) in
    let integrate_stop := Z.min n_samples (return_index + post_samples) in
    let integrate_stop := Z.min integrate_stop (integrate_start + Z.max 8 max_integration_len) in
    let integrate_stop :=
      if integrate_stop <=? integrate_start
      then Z.min n_samples (integrate_start + Z.max 8 post_samples) else integrate_stop in
    Ok (MkPeWindow channel reference_intensity baseline_start baseline_stop onset_index peak_index
          integrate_start integrate_stop).

(** ** The charges of a point *)

Definition baseline_subtract_waves (ws : waves) (baseline_start baseline_stop : Z) : list (list float) :=
  (fun r => let baseline := np_median (f_of_Z <$> py_slice baseline_start baseline_stop r) in
            (fun x => f_sub (f_of_Z x) baseline) <$> r) <$> rows ws.

(** Where the pedestal is integrated: as long as the signal, before the end of the baseline. *)
Definition pedestal_bounds (w : PeWindow) : Z * Z :=
  let signal_len := w_stop w - w_start w in
  let ped_start := Z.max (w_baseline_start w) (w_baseline_stop w - signal_len) in
  (ped_start, ped_start + signal_len).

Record charge_info : Type := ChargeInfo {
  signal_charges : list float; pedestal_charges : list float; sample_sigma : float;
  pedestal_sigma : float; pedestal_center : float; n_waveforms : Z; n_clean_waveforms : Z;
  pedestal_start : Z; pedestal_stop : Z }.

(** The waveforms whose baseline stays below [reject_sigma] times its noise; all of them when none
    does. *)
Definition clean_waves (regions waves_bs : list (list float)) (reject_sigma sigma : float)
    : result (list (list float)) :=
  pre_max <-! rmap (fun r => _ <-! non_empty r "maximum" ;; Ok (np_max (f_abs <$> r))) regions ;;
  let clean_mask := (fun m => f_ltb m (f_mul reject_sigma sigma)) <$> pre_max in
  Ok (if existsb id clean_mask
      then snd <$> filter (fun mw => fst mw = true) (zip clean_mask waves_bs) else waves_bs).

Definition measure_charge_distributions (ws : waves) (w : PeWindow) (reject_sigma : float)
    : result charge_info :=
  let waves_bs := baseline_subtract_waves ws (w_baseline_start w) (w_baseline_stop w) in
  let regions := py_slice (w_baseline_start w) (w_baseline_stop w) <$> waves_bs in
  let sigma := robust_sigma (mjoin regions) in
  let sample_sigma := if f_leb sigma f_zero then f_of_Z 1 else sigma in
  waves_sel <-! clean_waves regions waves_bs reject_sigma sample_sigma ;;
  let '(ped_start, ped_stop) := pedestal_bounds w in
  let signal := (fun r => np_sum (py_slice (w_start w) (w_stop w) r)) <$> waves_sel in
  let pedestal := (fun r => np_sum (py_slice ped_start ped_stop r)) <$> waves_sel in
  let center := np_median pedestal in
  let shifted l := (fun q => f_sub q center) <$> l in
  Ok (ChargeInfo (shifted signal) (shifted pedestal) sample_sigma (robust_sigma (shifted pedestal)) center
        (Z.of_nat (length (rows ws))) (Z.of_nat (length waves_sel)) ped_start ped_stop).

(** ** The fit *)

(** The term of [n] photo-electrons and the model, with the pedestal at zero. *)
Definition fixed_pedestal_term (x : list float) (gain sigma1 mu lamb sigma0 : float) (y : list float)
    (n : nat) : result (list float) :=
  weight <-! generalized_poisson_pmf n mu lamb ;;
  let k := f_of_Z (Z.of_nat n) in
  let sigma_n := f_sqrt (py_max tiny (f_add (f_mul sigma0 sigma0) (f_mul (f_mul k sigma1) sigma1))) in
  let norm := f_mul sigma_n (f_sqrt (f_mul (f_of_Z 2) math_pi)) in
  Ok (add_to y ((fun v => np_div (f_mul weight (bell (f_mul k gain) sigma_n v)) norm) <$> x)).

Definition vinogradov_fixed_pedestal_model (x : list float) (amplitude gain sigma1 mu lamb sigma0 : float)
    : result (list float) :=
  y <-! rfold (fixed_pedestal_term x gain sigma1 mu lamb sigma0) (seq 0 9) (zeros_like x) ;;
  Ok (f_mul amplitude <$> y).

(** Five parameters of a list *)
Definition five {A : Type} (l : list float) (k : float -> float -> float -> float -> float -> result A)
    : result A :=
  match l with
  | [a; b; c; d; e] => k a b c d e
  | _ => Raise (value_error "not enough values to unpack (expected 5)")
  end.

(** [np.histogram(l, bins=bins, range=(lo, hi))] *)
Definition histogram_range (l : list float) (bins : Z) (lo hi : float) : result (list Z * list float) :=
  if bins <? 1 then Raise (value_error "`bins` must be positive, when an integer")
  else if f_ltb hi lo then Raise (value_error "max must be larger than min in range parameter.")
  else if negb (is_finite lo && is_finite hi) then Raise (value_error "supplied range is not finite")
  else
    let '(a, b) := if f_eqb lo hi then (f_sub lo half, f_add hi half) else (lo, hi) in
    let edges := np_linspace a b (bins + 1) in
    Ok (np_histogram l edges, edges).

Definition histogram_doc (mids : list float) (counts : list Z) : string * pyval :=
  ("histogram", PyDict [("bin_centers", floats mids); ("counts", PyList (PyInt <$> counts))]).

Definition fixed_pedestal_fit (mids edges : list float) (counts : list Z) (peak_positions : list float)
    (hi sigma0 width : float) : row :=
  let one := f_of_Z 1 in
  let gain0 := np_median (diff peak_positions) in
  let sigma1_0 := py_max (f_mul width (f_of_Z 2)) (np_div gain0 (f_of_Z 5)) in
  let amp0 := f_mul (f_of_Z (foldr Z.add 0 counts)) width in
  let p0 := [amp0; py_max gain0 one; py_max sigma1_0 (f_mul sigma0 half); one; f_dec 1 (-1)] in
  let lo_b := [f_zero; py_max one (f_mul gain0 (f_dec 4 (-1))); one; f_dec 1 (-2); f_zero] in
  let hi_b := [f_mul amp0 (f_of_Z 10); if f_ltb f_zero gain0 then f_mul gain0 (f_dec 18 (-1)) else hi;
               gain0; f_of_Z 8; f_dec 95 (-2)] in
  let model x p := five p (fun a g s m l => vinogradov_fixed_pedestal_model x a g s m l sigma0) in
  or_failed (
    popt <-! curve_fit model mids (f_of_Z <$> counts) p0 (lo_b, hi_b) 50000 ;;
    five popt (fun amplitude gain sigma1 mu lamb =>
      Ok [("status", PyStr "ok");
          ("params", PyDict [("amplitude", PyFloat amplitude); ("pedestal", PyFloat f_zero);
                             ("gain", PyFloat gain); ("sigma0", PyFloat sigma0);
                             ("sigma1", PyFloat sigma1); ("mu", PyFloat mu); ("lambda", PyFloat lamb)])])).

(** [a[mask]] for the samples above a value *)
Definition above_half (mids : list float) {A : Type} (sigma0 : float) (l : list A) : list A :=
  snd <$> filter (fun ml => f_ltb (f_mul half sigma0) (fst ml) = true) (zip mids l).

Definition fit_charge_histogram (all_charges : list float) (pedestal_sigma : float) (hist_bins : Z)
    : result row :=
  let charges := finite_part all_charges in
  if (length charges <? 100)%nat
  then Ok [("status", PyStr "insufficient_data"); ("pedestal_sigma", PyFloat pedestal_sigma)]
  else
    let sigma0 := py_max pedestal_sigma micro in
    let lo := py_min (np_quantile charges (f_dec 1 (-3))) (f_mul (f_of_Z (-4)) sigma0) in
    let hi := py_max (np_quantile charges (f_dec 997 (-3))) (f_mul (f_of_Z 6) sigma0) in
    '(counts, edges) <-! histogram_range charges hist_bins lo hi ;;
    let mids := centers edges in
    let told s rest := ("status", PyStr s) :: ("pedestal_sigma", PyFloat sigma0) :: rest in
    if (max_counts counts <=? 0) || (length counts <? 11)%nat then Ok (told "empty_histogram" [])
    else
      let mids_pos := above_half mids sigma0 mids in
      let counts_pos := above_half mids sigma0 counts in
      if (length counts_pos <? 11)%nat
      then Ok (told "insufficient_positive_histogram" [histogram_doc mids counts])
      else
        smooth <-! savgol_filter (f_of_Z <$> counts_pos) 11 3 ;;
        let peaks := find_peaks smooth (py_max (f_of_Z 3) (f_mul (np_max smooth) (f_dec 1 (-2)))) 6 in
        all_positions <-! pick mids_pos peaks ;;
        if (length all_positions <? 2)%nat
        then Ok (told "no_peak_ladder" [histogram_doc mids counts; ("peak_positions", floats all_positions)])
        else
          let peak_positions := take 6 all_positions in
          counts_guess <-! pick counts_pos (take (length peak_positions) peaks) ;;
          width <-! at_index (diff edges) 0 ;;
          Ok (told "ok" [histogram_doc mids counts; ("peak_positions", floats peak_positions);
                         ("vinogradov_like_fit",
                          PyDict (fixed_pedestal_fit mids edges counts peak_positions hi sigma0 width))]).

End window.

(** ** [main] *)

(** What is found at a point: its row, whether its fit succeeded, its score, its document. *)
Record point_study : Type := PointStudy {
  ps_row : row; ps_fit_ok : bool; ps_score : float; ps_doc : pyval }.

Section pe_main.
Context `{NP : Numpy, SP : Scipy, HO : Host, IN : Input}.
Context (args : pe_options).

Definition pe_run : string := resolved (pe_run_dir args).
Definition pe_supplements : list string := resolved <$> pe_supplement_run_dir args.
Definition pe_output : string :=
  if decide (pe_output_dir args = "")
  then path_join (path_join pe_run "single_channel_pe") ("ch" +:+ dec_pad 2 (pe_channel args))
  else resolved (pe_output_dir args).
Definition pe_out (name : string) : string := path_join pe_output name.

Definition pe_manifest : result pyval :=
  match r ← runs !! pe_run; manifest_json r with
  | Some text => json_loads text
  | None => Raise (not_found (path_join pe_run "scan_manifest.json"))
  end.

Definition pe_length (manifest : pyval) : result Z :=
  if pe_waveform_len args =? 0
  then v <-! dict_get manifest "waveform_len" (PyInt 1024) ;; py_int v
  else Ok (pe_waveform_len args).

Definition pe_reference (point_dirs : gmap Z point_ref) : result (Z * point_ref) :=
  let i := if 0 <? pe_reference_intensity args then pe_reference_intensity args
           else default 0 (max_key point_dirs) in
  match point_dirs !! i with
  | Some p => Ok (i, p)
  | None => Raise (Exn KeyError (str_Z i))
  end.

(** The waveforms of the channel at a point *)
Definition pe_waves (waveform_len : Z) (p : point_ref) : result waves :=
  let path := channel_path (path_join (point_path p) "raw") (pe_channel args) in
  load_channel_waves path (raw_words path) waveform_len 0 (pe_interpret args).

Definition pe_window (waveform_len reference_intensity : Z) (reference : point_ref) : result PeWindow :=
  ws <-! pe_waves waveform_len reference ;;
  pe_window_from_mean (mean_waveform ws) (pe_channel args) reference_intensity (pe_search_start args)
    (pe_search_stop args) (pe_baseline_margin args) (pe_baseline_len args) (pe_pre_samples args)
    (pe_post_samples args) (pe_max_integration_len args) (pe_threshold_frac args).

Definition pe_charges (waveform_len : Z) (w : PeWindow) (p : point_ref) : result charge_info :=
  ws <-! pe_waves waveform_len p ;;
  measure_charge_distributions ws w (pe_pre_pulse_reject_sigma args).

(** [fit_result.get("vinogradov_like_fit", {})] *)
Definition v_fit_of (fit_result : row) : pyval := row_get fit_result "vinogradov_like_fit" (PyDict []).

(** What the parameters of a fit say, in the order of the columns; nothing when it failed. *)
Record fit_numbers : Type := FitNumbers {
  zero_fraction_data : float; zero_fraction_fit : float; separation : float; gain_of : float;
  snr_zero : float; snr_combined : float }.

Definition no_numbers : fit_numbers :=
  FitNumbers S754_nan S754_nan S754_nan S754_nan S754_nan S754_nan.

Definition float_item (v : pyval) (k : string) : result float := x <-! item v k ;; to_float x.

(** [len([q for q in l if q < x]) / len(l)], as [np.mean] of a mask *)
Definition below_fraction (l : list float) (x : float) : float :=
  fraction (Z.of_nat (length (filter (fun q => f_ltb q x = true) l))) (Z.of_nat (length l)).

Definition numbers_of (signal : list float) (fit_result : row) : result fit_numbers :=
  params <-! item (v_fit_of fit_result) "params" ;;
  gain <-! float_item params "gain" ;;
  mu <-! float_item params "mu" ;;
  fraction_fit <-! math_exp (SFopp mu) ;;
  sigma0 <-! float_item params "sigma0" ;;
  let ratio := np_div gain (py_max sigma0 tiny) in
  v0 <-! math_pow sigma0 2 ;;
  sigma1 <-! float_item params "sigma1" ;;
  v1 <-! math_pow sigma1 2 ;;
  Ok (FitNumbers (below_fraction signal (f_mul half gain)) fraction_fit ratio gain ratio
        (np_div gain (f_sqrt (py_max tiny (f_add v0 v1))))).

Definition f_infinity : float := S754_infinity false.

(** How far a point is from the target; the lower the better. *)
Definition score_of (fit_ok : bool) (n : fit_numbers) : float :=
  if fit_ok && is_finite (zero_fraction_data n)
  then f_add (f_abs (f_sub (zero_fraction_data n) (pe_target_zero_fraction args)))
         (py_max f_zero (f_sub (f_dec 15 (-1)) (separation n)))
  else f_infinity.

Definition charge_doc (c : charge_info) : pyval :=
  PyDict [("n_waveforms", PyInt (n_waveforms c)); ("n_clean_waveforms", PyInt (n_clean_waveforms c));
          ("sample_sigma", PyFloat (sample_sigma c)); ("pedestal_sigma", PyFloat (pedestal_sigma c));
          ("pedestal_center_before_shift", PyFloat (pedestal_center c));
          ("pedestal_integrate_start", PyInt (pedestal_start c));
          ("pedestal_integrate_stop", PyInt (pedestal_stop c))].

Definition pe_row (intensity : Z) (p : point_ref) (v_status : pyval) (n : fit_numbers) (c : charge_info)
    (score : float) : row :=
  [("channel", PyInt (pe_channel args)); ("intensity", PyInt intensity); ("point_dir", PyStr (point_path p));
   ("vinogradov_status", v_status); ("zero_fraction_data", PyFloat (zero_fraction_data n));
   ("zero_fraction_fit", PyFloat (zero_fraction_fit n)); ("separation", PyFloat (separation n));
   ("gain", PyFloat (gain_of n)); ("snr", PyFloat (snr_zero n)); ("snr_combined", PyFloat (snr_combined n));
   ("pedestal_sigma", PyFloat (pedestal_sigma c)); ("pedestal_center_before_shift", PyFloat (pedestal_center c));
   ("n_waveforms", PyInt (n_waveforms c)); ("n_clean_waveforms", PyInt (n_clean_waveforms c));
   ("score", PyFloat score); ("selected", PyBool false)].

(** What the loop over the points computes at one of them. *)
Definition study_point (waveform_len : Z) (w : PeWindow) (ip : Z * point_ref) : result point_study :=
  let '(intensity, p) := ip in
  c <-! pe_charges waveform_len w p ;;
  fit_result <-! fit_charge_histogram (signal_charges c) (pedestal_sigma c) (pe_hist_bins args) ;;
  status <-! dict_get (v_fit_of fit_result) "status" PyNone ;;
  v_status <-! dict_get (v_fit_of fit_result) "status" (PyStr "missing") ;;
  let fit_ok := py_eqb status (PyStr "ok") in
  n <-! (if fit_ok then numbers_of (signal_charges c) fit_result else Ok no_numbers) ;;
  let score := score_of fit_ok n in
  Ok (PointStudy (pe_row intensity p v_status n c score) fit_ok score
        (PyDict [("window", PyDict (pe_window_dict w)); ("charge_info", charge_doc c);
                 ("fit_result", PyDict fit_result)])).

Definition pe_fit_path (intensity : Z) : string :=
  pe_out ("fit_intensity_" +:+ dec_pad 4 intensity +:+ ".json").

(** The studies so far, and the best of them: where its row is, and the point. *)
Record pe_state : Type := PeState { studies : list point_study; best : option (nat * (Z * point_ref) * float) }.

Definition keep_best (s : pe_state) (ip : Z * point_ref) (p : point_study) : pe_state :=
  let better := ps_fit_ok p && match best s with None => true | Some (_, score) => f_ltb (ps_score p) score end in
  PeState (studies s ++ [p]) (if better then Some (length (studies s), ip, ps_score p) else best s).

(** One turn of the loop over the points *)
Definition analyze_pe_point (waveform_len : Z) (w : PeWindow) (s : pe_state) (ip : Z * point_ref)
    : M files pe_state :=
  p <- lift (study_point waveform_len w ip) ;;
  put (pe_fit_path (fst ip)) (DJson (ps_doc p)) ;;;
  ret (keep_best s ip p).

(** The rows; the best one, which is an element of the list, is marked in place. *)
Definition final_rows (s : pe_state) : list row :=
  let rows := ps_row <$> studies s in
  match best s with
  | Some (i, _, _) => alter (fun r => row_put r "selected" (PyBool true)) i rows
  | None => rows
  end.

Definition fixed_parameters : list string := ["amplitude"; "gain"; "sigma1"; "mu"; "lambda"; "sigma0"].

(** The curves of a fit that succeeded: what can fail before they are drawn. *)
Definition draw_fit (mids : list float) (params : pyval) : result unit :=
  ps <-! rmap (float_item params) fixed_parameters ;;
  match ps with
  | [a; g; s1; mu; lamb; s0] =>
      _ <-! vinogradov_fixed_pedestal_model mids a g s1 mu lamb s0 ;;
      _ <-! rmap (fun n => _ <-! generalized_poisson_pmf (Z.to_nat n) mu lamb ;;
                           _ <-! math_pow s0 2 ;; math_pow s1 2) (seqZ 1 (pe_plot_max_pe args)) ;;
      Ok tt
  | _ => Ok tt
  end.

Definition save_histogram_plot (path : string) (all_charges : list float) (fit_result : pyval)
    (title : string) : M files unit :=
  when matplotlib (
    let charges := finite_part all_charges in
    let q p := np_quantile charges p in
    sigma0 <- lift (v <-! dict_get fit_result "pedestal_sigma" (PyFloat (robust_sigma charges)) ;; to_float v) ;;
    v_fit <- lift (dict_get fit_result "vinogradov_like_fit" (PyDict [])) ;;
    status <- lift (dict_get v_fit "status" PyNone) ;;
    let ok := py_eqb status (PyStr "ok") in
    xmax <- lift (if ok then params <-! item v_fit "params" ;; gain <-! float_item params "gain" ;;
                    Ok (py_max (f_mul (f_add (f_of_Z (pe_plot_max_pe args)) (f_dec 75 (-2))) gain)
                          (q (f_dec 9 (-1))))
                  else Ok (q (f_dec 98 (-2)))) ;;
    let xmin := py_min (f_mul (f_of_Z (-4)) sigma0) (q (f_dec 1 (-2))) in
    '(counts, edges) <- lift (histogram_range charges 240 xmin xmax) ;;
    when ok (lift (params <-! item v_fit "params" ;; draw_fit (centers edges) params)) ;;;
    put path (DPlot title)).

Definition save_selection_plot (rows : list row) : M files unit :=
  when (matplotlib && negb (bool_decide (rows = [])))
    (put (pe_out "zero_fraction_vs_intensity.png")
       (DPlot ("ch" +:+ str_Z (pe_channel args) +:+ " zero-PE occupancy vs intensity"))).

(** The histogram of the best point: its charges are measured once more, and its fit is read back
    from its document. *)
Definition plot_best (waveform_len : Z) (w : PeWindow) (s : pe_state) : M files unit :=
  match best s with
  | None => ret tt
  | Some (_, (intensity, p), _) =>
      c <- lift (pe_charges waveform_len w p) ;;
      payload <- read_json (pe_fit_path intensity) ;;
      fit_result <- lift (item payload "fit_result") ;;
      save_histogram_plot (pe_out ("selected_histogram_intensity_" +:+ dec_pad 4 intensity +:+ ".png"))
        (signal_charges c) fit_result
        (path_name pe_run +:+ " ch" +:+ str_Z (pe_channel args) +:+ " intensity=" +:+ str_Z intensity
         +:+ " first PE peaks")
  end.

Definition pe_report (reference_intensity waveform_len : Z) (w : PeWindow) (s : pe_state) : pyval :=
  PyDict [("run_dir", PyStr pe_run); ("supplement_run_dirs", PyList (PyStr <$> pe_supplements));
          ("channel", PyInt (pe_channel args)); ("reference_intensity", PyInt reference_intensity);
          ("waveform_len", PyInt waveform_len);
          ("target_zero_fraction", PyFloat (pe_target_zero_fraction args));
          ("selected_intensity", match best s with Some (_, (i, _), _) => PyInt i | None => PyNone end);
          ("window", PyDict (pe_window_dict w))].

Definition pe_main : M files Z :=
  manifest <- lift pe_manifest ;;
  waveform_len <- lift (pe_length manifest) ;;
  lift (file_ok pe_output) ;;;
  point_dirs <- lift (gather_analyzed_points runs (pe_run :: pe_supplements)) ;;
  when (bool_decide (point_dirs = ∅))
    (raise (Exn RuntimeError ("No analyzed points found under " +:+ pe_run))) ;;;
  '(reference_intensity, reference) <- lift (pe_reference point_dirs) ;;
  w <- lift (pe_window waveform_len reference_intensity reference) ;;
  s <- fold_m (sorted_entries point_dirs) (analyze_pe_point waveform_len w) (PeState [] None) ;;
  write_rows (pe_out "summary.csv") (final_rows s) ;;;
  plot_best waveform_len w s ;;;
  save_selection_plot (final_rows s) ;;;
  put (pe_out "channel_window.json") (DJson (PyDict (pe_window_dict w))) ;;;
  put (pe_out "report.json") (DJson (pe_report reference_intensity waveform_len w s)) ;;;
  ret 0.

End pe_main.

(** ** The window *)

(** The window of a single channel.  For a mean waveform of at least two samples and options that
    leave a sample on the right and do not cut on the left, the window that is accepted lies in the
    record: its onset and peak are the start and the top of a pulse above its threshold; the charge
    is integrated from [pre_samples] before the onset, over at most [max_integration_len] samples (8
    at least), beyond the peak if that length allows it; the baseline ends before the integration
    starts when its margin allows it; the pedestal is integrated over as many samples as the signal,
    at the end of the baseline when it is long enough. *)
Theorem pe_window_correct `{SL : SciLaws} mean_wf ch ref s0 s1 margin blen pre post cap frac w :
  (2 <= length mean_wf)%nat -> 0 <= pre -> 1 <= post -> 0 <= blen ->
  pe_window_from_mean mean_wf ch ref s0 s1 margin blen pre post cap frac = Ok w ->
  let n := Z.of_nat (length mean_wf) in
  (0 <= w_start w <= w_onset w /\ w_onset w <= w_peak w < n) /\
  (w_start w < w_stop w <= n /\ w_stop w - w_start w <= Z.max 8 cap) /\
  (w_peak w - w_start w < Z.max 8 cap -> w_peak w < w_stop w) /\
  0 <= w_baseline_start w <= w_baseline_stop w /\
  (pre <= margin -> 24 + margin <= w_onset w -> w_baseline_stop w <= w_start w) /\
  (let '(p0, p1) := pedestal_bounds w in
   w_baseline_start w <= p0 /\ p1 - p0 = w_stop w - w_start w /\
   (w_stop w - w_start w <= w_baseline_stop w - w_baseline_start w -> p1 = w_baseline_stop w)) /\
  exists lo smooth thr left peak right,
    pulse smooth thr left peak right /\ w_onset w = lo + Z.of_nat left /\ w_peak w = lo + Z.of_nat peak /\
    Forall (fun x => f_ltb (default f_zero (smooth !! peak)) x = false) smooth /\
    w_start w = Z.max 0 (w_onset w - pre) /\
    w_stop w = Z.min (Z.min n (lo + Z.of_nat right + post)) (w_start w + Z.max 8 cap).
Proof.
  intros Hn Hpre Hpost Hblen H. cbv zeta. unfold pe_window_from_mean in H.
  set (n := Z.of_nat (length mean_wf)) in *.
  set (lo := Z.max 0 _) in H. set (hi := Z.max (lo + 2) _) in H.
  assert (Hlohi : 0 <= lo /\ lo + 2 <= hi /\ hi <= n) by (subst lo hi; lia).
  set (base := np_median _) in H. apply rbind_ok in H as (smooth & Hs & H).
  pose proof (smoothed_length _ _ Hs) as Hlen. rewrite length_fmap, slice_length in Hlen by lia.
  apply rbind_ok in H as (peak & Hpk & H). pose proof (argmax_bound _ _ Hpk) as Hpb.
  destruct (argmax_max _ _ Hpk) as (amp & Hamp & Hmax).
  destruct (f_leb _ f_zero) eqn:Hpos; [done|].
  set (thr := py_max _ _) in H. pose proof (scans_pulse smooth thr peak Hpb) as Hpulse.
  set (left := scan_left _ _ _) in *. set (right := scan_right _ _ _) in *.
  pose proof (pulse_order _ _ _ _ _ Hpulse) as ((Hl & Hr) & Hr').
  set (start := Z.max 0 (lo + Z.of_nat left - pre)) in H. set (stop := Z.min (Z.min n _) _) in H.
  assert (Hstop : start < stop) by (subst start stop; lia).
  destruct (Z.leb_spec stop start) as [Hbad|_]; [lia|]. injection H as <-. cbn. subst start stop.
  split_and!; try lia. exists lo, smooth, thr, left, peak, right. split_and!; try done.
  rewrite Hamp. exact Hmax.
Qed.

(** The baseline ends at sample 24 or later whatever the onset: that of an earlier pulse runs into
    the pulse. *)
Lemma early_pulse_in_baseline `{NP : Numpy, SP : Scipy} mean_wf ch ref s0 s1 margin blen pre post cap frac w :
  pe_window_from_mean mean_wf ch ref s0 s1 margin blen pre post cap frac = Ok w ->
  0 <= margin -> w_onset w < 24 -> 24 <= blen + w_onset w ->
  w_baseline_start w <= w_onset w < w_baseline_stop w.
Proof.
  intros H Hm Ho Hb. unfold pe_window_from_mean in H. set (lo := Z.max 0 _) in H.
  apply rbind_ok in H as (smooth & _ & H). apply rbind_ok in H as (peak & _ & H).
  destruct (f_leb _ f_zero); [done|]. set (left := scan_left _ _ _) in H.
  injection H as <-. cbn [w_onset w_baseline_start w_baseline_stop] in *. clearbody left. lia.
Qed.

(** ** Lemmas: the loop over the points *)

Section pe_lemmas.
Context `{NP : Numpy, SP : Scipy, HO : Host, IN : Input}.
Context (args : pe_options).

Abbreviation done_t := ((Z * point_ref) * point_study)%type.

(** The best of the points that were studied: its fit succeeded, and no score of a fit that
    succeeded is below its score. *)
Definition best_ok (l : list done_t) (b : option (nat * (Z * point_ref) * float)) : Prop :=
  match b with
  | None => Forall (fun x => ps_fit_ok (snd x) = false) l
  | Some (i, ip, score) => exists p, l !! i = Some (ip, p) /\ ps_fit_ok p = true /\ ps_score p = score /\
      Forall (fun x => ps_fit_ok (snd x) = true -> f_ltb (ps_score (snd x)) score = false) l
  end.

Definition state_of (l : list done_t) (b : option (nat * (Z * point_ref) * float)) : pe_state :=
  PeState (snd <$> l) b.

Lemma keep_best_ok l b ip p :
  best_ok l b -> exists b', keep_best (state_of l b) ip p = state_of (l ++ [(ip, p)]) b' /\ best_ok (l ++ [(ip, p)]) b'.
Proof using Type.
  intros Hb. unfold keep_best, state_of. cbn [studies best]. rewrite fmap_app, length_fmap.
  destruct (ps_fit_ok p) eqn:Hok; cbn [andb].
  2: { exists b. split; [done|]. destruct b as [[[i ip'] sc]|]; cbn [best_ok] in *.
       - destruct Hb as (p' & Hi & Hok' & Hsc & Hall). exists p'. rewrite (lookup_app_l_Some _ _ _ _ Hi).
         split_and!; [done..|]. apply Forall_app. split; [done|]. apply Forall_singleton. cbn. congruence.
       - apply Forall_app. by rewrite Forall_singleton. }
  assert (Hlast : (l ++ [(ip, p)]) !! length l = Some (ip, p)).
  { rewrite lookup_app_r by done. by rewrite Nat.sub_diag. }
  destruct b as [[[i ip'] sc]|]; cbn [best_ok] in *.
  - destruct Hb as (p' & Hi & Hok' & Hsc & Hall). destruct (f_ltb (ps_score p) sc) eqn:Hlt.
    + eexists (Some _). split; [done|]. exists p. split_and!; [done..|]. apply Forall_app. split.
      * eapply Forall_impl; [exact Hall|]. intros x Hx Hxo. specialize (Hx Hxo).
        destruct (f_ltb (ps_score x.2) (ps_score p)) eqn:Hc; [|done].
        by rewrite (f_ltb_trans _ _ _ Hc Hlt) in Hx.
      * apply Forall_singleton. intros _. apply f_ltb_irrefl.
    + eexists (Some _). split; [done|]. exists p'. rewrite (lookup_app_l_Some _ _ _ _ Hi).
      split_and!; [done..|]. apply Forall_app. split; [done|]. by apply Forall_singleton.
  - eexists (Some _). split; [done|]. exists p. split_and!; [done..|]. apply Forall_app. split.
    + eapply Forall_impl; [exact Hb|]. cbn. congruence.
    + apply Forall_singleton. intros _. apply f_ltb_irrefl.
Qed.

Lemma pe_fit_path_inj i j : pe_fit_path args i = pe_fit_path args j -> i = j.
Proof using Type.
  intros H%path_join_inj. apply string_app_inj_l, string_app_inj_r in H. by apply (inj (dec_pad 4)).
Qed.

(** What the loop leaves: the studies of its points, the best of them, and their documents. *)
Lemma pe_loop n win l done_ b s w s' w' :
  best_ok done_ b -> s = state_of done_ b ->
  fold_m l (analyze_pe_point args n win) s w = (Ok s', w') -> NoDup (fst <$> l) ->
  exists more b', fst <$> more = l /\ Forall (fun x => study_point args n win (fst x) = Ok (snd x)) more /\
    s' = state_of (done_ ++ more) b' /\ best_ok (done_ ++ more) b' /\
    Forall (fun x => w' !! pe_fit_path args (fst (fst x)) = Some (DJson (ps_doc (snd x)))) more /\
    (forall p, p ∉ (pe_fit_path args ∘ fst <$> l) -> w' !! p = w !! p).
Proof using Type.
  revert done_ b s w. induction l as [|ip l IH]; intros done_ b s w Hb -> H Hnd; cbn [fold_m] in H.
  - injection H as <- <-. exists [], b. rewrite app_nil_r. split_and!; try done; constructor.
  - inv_bind H. unfold analyze_pe_point in Hrun. do 2 inv_bind Hrun. injection Hrun as <- <-.
    injection Hrun0 as Hst <-. apply put_ok in Hrun1 as ->. cbn [fmap list_fmap] in Hnd.
    apply NoDup_cons in Hnd as [Hip Hnd]. destruct (keep_best_ok done_ b ip a0 Hb) as (b1 & Hk & Hb1).
    destruct (IH _ _ _ _ Hb1 Hk H Hnd) as (more & b' & Hm & Hall & -> & Hb' & Hdocs & Hrest).
    exists ((ip, a0) :: more), b'. rewrite <- app_assoc in *. cbn [app] in *.
    split_and!; [cbn; by rewrite Hm|by constructor|done|done| |].
    + constructor; [|done]. cbn [fst snd]. rewrite Hrest; [by rewrite lookup_insert_eq|].
      intros (ip' & He & Hin)%list_elem_of_fmap. apply pe_fit_path_inj in He. apply Hip.
      apply list_elem_of_fmap. by exists ip'.
    + intros p. cbn [fmap list_fmap compose]. intros [Hp Hrp]%not_elem_of_cons.
      rewrite Hrest by done. by rewrite lookup_insert_ne by done.
Qed.

(** The rows: those of the studies, and the one of the best is marked. *)
Lemma final_rows_marked l b n win :
  Forall (fun x => study_point args n win (fst x) = Ok (snd x)) l -> best_ok l b ->
  length (final_rows (state_of l b)) = length l /\
  forall i x, l !! i = Some x -> exists r, final_rows (state_of l b) !! i = Some r /\
    row_get r "selected" PyNone = PyBool (bool_decide (Some i = (fun z => fst (fst z)) <$> b)) /\
    forall k, k <> "selected" -> row_get r k PyNone = row_get (ps_row (snd x)) k PyNone.
Proof using Type.
  intros Hst Hb. unfold final_rows, state_of. cbn [best studies]. rewrite <- list_fmap_compose.
  assert (Hsel : forall i x, l !! i = Some x -> row_get (ps_row (snd x)) "selected" PyNone = PyBool false).
  { intros i [[inten p] st] Hi. rewrite Forall_forall in Hst. specialize (Hst _ (list_elem_of_lookup_2 _ _ _ Hi)).
    cbn [fst snd] in *. unfold study_point in Hst. apply rbind_ok in Hst as (c & _ & Hst).
    apply rbind_ok in Hst as (f & _ & Hst). apply rbind_ok in Hst as (s1 & _ & Hst).
    apply rbind_ok in Hst as (s2 & _ & Hst). apply rbind_ok in Hst as (nn & _ & Hst). by injection Hst as <-. }
  destruct b as [[[j ip] sc]|]; cbn [fmap option_fmap option_map fst].
  - split; [by rewrite length_alter, length_fmap|]. intros i x Hi. specialize (Hsel i x Hi).
    destruct (decide (i = j)) as [->|Hne].
    + eexists. rewrite list_lookup_alter, decide_True, list_lookup_fmap, Hi by done. split; [reflexivity|].
      rewrite bool_decide_eq_true_2 by done. unfold row_get. split; [by rewrite lookup_row_put|].
      intros k Hk. rewrite lookup_row_put. by rewrite decide_False by congruence.
    + eexists. rewrite list_lookup_alter_ne, list_lookup_fmap, Hi by done. split; [reflexivity|].
      rewrite bool_decide_eq_false_2 by congruence. done.
  - split; [by rewrite length_fmap|]. intros i x Hi. specialize (Hsel i x Hi). eexists.
    rewrite list_lookup_fmap, Hi. split; [reflexivity|]. by rewrite bool_decide_eq_false_2 by done.
Qed.

End pe_lemmas.

Section pe_files.
Context `{NP : Numpy, SP : Scipy, HO : Host, IN : Input}.
Context (args : pe_options).

Lemma spares_histogram_plot p path charges fit title :
  path <> p -> spares p (save_histogram_plot args path charges fit title).
Proof using Type.
  intros Hne. unfold save_histogram_plot. apply spares_when. repeat (apply spares_bind; [by apply spares_lift|intros]).
  case_match. apply spares_bind; [by apply spares_when, spares_lift|]. intros _. by apply spares_put.
Qed.

(** Files that are neither figures nor the window. *)
Definition no_figure (name : string) : Prop :=
  (forall s, "selected_histogram_intensity_" +:+ s <> name) /\ "zero_fraction_vs_intensity.png" <> name /\
  "channel_window.json" <> name.

Lemma spares_plot_best name n win s : no_figure name -> spares (pe_out args name) (plot_best args n win s).
Proof using Type.
  intros (Hs & _). unfold plot_best. destruct (best s) as [[[i [inten p]] sc]|]; [|done].
  repeat (apply spares_bind; [done|intros]). apply spares_histogram_plot. intros He%path_join_inj.
  by apply Hs in He.
Qed.

Lemma spares_selection name rows : no_figure name -> spares (pe_out args name) (save_selection_plot args rows).
Proof using Type.
  intros (_ & Hz & _). unfold save_selection_plot. apply spares_when, spares_put. by intros He%path_join_inj.
Qed.

Lemma spares_window name d : no_figure name -> spares (pe_out args name) (put (pe_out args "channel_window.json") d).
Proof using Type. intros (_ & _ & Hw). apply spares_put. by intros He%path_join_inj. Qed.

Lemma fit_no_figure i : no_figure ("fit_intensity_" +:+ dec_pad 4 i +:+ ".json").
Proof using Type. split_and!; by repeat intros ?. Qed.

End pe_files.

(** C26. An analysis of one channel that ends has done its work.  When the script returns, it returns
    0 and there was a point.  Each point that was chosen has been studied with the one window of the
    reference point, by increasing intensity, and the document of its fit is stored under its
    intensity.  [summary.csv] has a row per point, and the marked row, if any, is that of the point
    that [report.json] names: its fit succeeded and no fit that succeeded has a lower score; no row
    is marked exactly when no fit succeeded. *)
Theorem single_pe_complete `{NP : Numpy, SP : Scipy, HO : Host, IN : Input} args w code w' :
  pe_main args w = (Ok code, w') ->
  code = 0 /\ exists point_dirs n ref win points_ best_,
    gather_analyzed_points runs (pe_run args :: pe_supplements args) = Ok point_dirs /\ point_dirs <> ∅ /\
    (exists p, pe_reference args point_dirs = Ok (ref, p) /\ pe_window args n ref p = Ok win) /\
    fst <$> points_ = sorted_entries point_dirs /\
    Forall (fun x => study_point args n win (fst x) = Ok (snd x)) points_ /\ best_ok points_ best_ /\
    Forall (fun x => w' !! pe_fit_path args (fst (fst x)) = Some (DJson (ps_doc (snd x)))) points_ /\
    (exists fields rows, w' !! pe_out args "summary.csv" = Some (DCsv fields rows) /\
       length rows = length points_ /\
       forall i x, points_ !! i = Some x -> exists r, rows !! i = Some r /\
         row_get r "selected" PyNone = PyBool (bool_decide (Some i = (fun z => fst (fst z)) <$> best_)) /\
         forall k, k <> "selected" -> row_get r k PyNone = row_get (ps_row (snd x)) k PyNone) /\
    w' !! pe_out args "report.json" = Some (DJson (pe_report args ref n win (state_of points_ best_))).
Proof.
  unfold pe_main. intros H. do 6 inv_bind H. destruct a4 as [ref p]. inv_bind H. do 6 inv_bind H.
  injection H as <- <-. split; [done|]. injection Hrun0 as _ <-. injection Hrun1 as _ <-.
  injection Hrun as _ <-. injection Hrun2 as Hpd <-. injection Hrun4 as Href <-. injection Hrun5 as Hwin <-.
  assert (Hne : a2 <> ∅) by (intros He; by rewrite bool_decide_eq_true_2 in Hrun3 by exact He).
  rewrite bool_decide_eq_false_2 in Hrun3 by exact Hne. injection Hrun3 as _ <-.
  rename a2 into point_dirs, a0 into n, a4 into win.
  destruct (pe_loop args n win _ [] None _ _ _ _ (Forall_nil_2 _) eq_refl Hrun6
              (strict_nodup _ (sorted_entries_keys point_dirs)))
    as (more & b & Hm & Hall & -> & Hb & Hdocs & _). cbn [app] in *.
  destruct (final_rows_marked args more b n win Hall Hb) as [Hlen Hrows].
  apply rows_written in Hrun7 as Hw2.
  pose proof (fun name Hnf => spares_run _ _ _ _ _ (spares_plot_best args name n win _ Hnf) Hrun8) as S1.
  pose proof (fun name Hnf => spares_run _ _ _ _ _ (spares_selection args name _ Hnf) Hrun9) as S2.
  pose proof (fun name Hnf => spares_run _ _ _ _ _ (spares_window args name _ Hnf) Hrun10) as S3.
  pose proof (fun q Hq => spares_run q _ _ _ _ (spares_put q _ _ Hq) Hrun11) as S4.
  apply put_ok in Hrun11 as Hlast.
  exists point_dirs, n, ref, win, more, b. split_and!; try done.
  - by exists p.
  - eapply Forall_impl; [exact Hdocs|]. intros x Hx. unfold pe_fit_path in *.
    rewrite S4, S3, S2, S1 by first [apply fit_no_figure | intros He%path_join_inj; discriminate He].
    rewrite Hw2, lookup_insert_ne; [exact Hx|]. intros He%path_join_inj. discriminate He.
  - eexists _, (final_rows (state_of more b)).
    rewrite S4, S3, S2, S1 by first [by split_and!; try intros s | by intros He%path_join_inj].
    rewrite Hw2, lookup_insert_eq. split_and!; [reflexivity|done|done].
  - rewrite Hlast, lookup_insert_eq. done.
Qed.

(** ** A run with two points *)

#[local] Existing Instances some_numpy some_scipy some_laws some_host.

(** A hundred pulses at each point, higher ones in the second run. *)
#[local] Instance pe_input : Input := {
  runs := <["a" := RunDir (Some (quoted "{'waveform_len': 48}")) (default ∅ (points <$> two_runs !! "a")) ∅]> two_runs;
  raw_words := fun p => Ok (mjoin (replicate 100 (pulse_words
    (if bool_decide (p = "b/points/intensity_1750/raw/channel_7.dat") then 3 else 1))));
  resolved := fun p => p }.

Definition some_pe_options : pe_options :=
  {| pe_run_dir := "a"; pe_channel := 7; pe_supplement_run_dir := ["b"]; pe_output_dir := "";
     pe_waveform_len := 0; pe_interpret := "signed"; pe_reference_intensity := 0; pe_search_start := 20;
     pe_search_stop := 220; pe_baseline_margin := 2; pe_baseline_len := 20; pe_pre_samples := 2;
     pe_post_samples := 4; pe_max_integration_len := 40; pe_threshold_frac := f_dec 1 (-1);
     pe_pre_pulse_reject_sigma := f_of_Z 5; pe_target_zero_fraction := f_dec 4 (-1); pe_plot_max_pe := 2;
     pe_hist_bins := 120 |}.

Lemma single_pe_complete_witness :
  exists w', pe_main some_pe_options ∅ = (Ok 0, w') /\
    exists n ref win points_ best_, Forall (fun x => study_point some_pe_options n win (fst x) = Ok (snd x)) points_ /\
      w' !! "a/single_channel_pe/ch07/report.json" = Some (DJson (pe_report some_pe_options ref n win (state_of points_ best_))).
Proof.
  destruct (pe_main some_pe_options ∅) as [r w'] eqn:Hm.
  assert (Hr : r = Ok 0) by (change r with (fst (r, w')); rewrite <- Hm; vm_compute; reflexivity). subst r.
  exists w'. split; [reflexivity|].
  destruct (single_pe_complete some_pe_options ∅ 0 w' Hm)
    as (_ & pd & n & ref & win & pts & b & _ & _ & _ & _ & Hst & _ & _ & _ & Hrep).
  exists n, ref, win, pts, b. split; [exact Hst|exact Hrep].
Defined.

(** The window of [pulse_mean]: its peak is sample 27. *)
Lemma pe_window_correct_witness :
  exists w, pe_window_from_mean pulse_mean 4 1150 20 220 2 20 2 4 40 (f_dec 1 (-1)) = Ok w /\
    w_onset w = 24 /\ w_peak w = 27 /\ w_start w < w_stop w <= 48.
Proof.
  destruct (pe_window_from_mean pulse_mean 4 1150 20 220 2 20 2 4 40 (f_dec 1 (-1))) as [w|e] eqn:Hw;
    [|vm_compute in Hw; discriminate Hw].
  exists w. split; [reflexivity|].
  destruct (pe_window_correct pulse_mean 4 1150 20 220 2 20 2 4 40 _ w ltac:(cbn; lia) ltac:(lia) ltac:(lia) ltac:(lia) Hw)
    as (_ & (Hs & _) & _). cbv zeta in Hs. vm_compute in Hw. injection Hw as <-. split_and!; [reflexivity..|exact (proj1 Hs)|exact (proj2 Hs)].
Defined.
