(* ===== verification/DarkScan.v ===== *)
(** The noise analysis of a dark scan: [scripts/analyze_dark_vgain_scan.py], which runs
    [analyze_waveform_dataset.py] on each point and merges the tables it finds.

    The state is the files that scripts and programs write; the tables of earlier analyses are in
    it from the start.  The directories and texts are those of class [Tree] of [WaveStats]. *)
From S2P Require Import Prelude PyStr PyFloat PyVal ChannelSpec JsonText FeConfig SpyAcquire.
From S2P Require Import OscSpectrum ScanRuntime ChargeWindows IntensityScan RunFiles Pools PeFit WaveStats NoiseRuns NoiseStudy.

(** The analyzer: whether its file is there, and what a run of it does ([CalledProcessError] when
    its status is not 0); the rows of a CSV file as [csv.DictReader] gives them, texts; the time;
    and the interpreter with the script, as a command starts. *)
Class Analyzer : Type := {
  analyzer_there : bool;
  run_analyzer : list string -> files -> result unit * files;
  csv_rows : doc -> result (list row);
  created_utc : string;
  analyzer_command : list string }.

Record dark_args : Type := DarkArgs {
  da_run_dir : string; da_channels : string; da_L : Z; da_fs : float; da_max_waves : Z;
  da_fft_avg_waves : Z; da_fft_window : string; da_fft_log_x : bool; da_fft_keep_dc : bool;
  da_interpret : string; da_prefix : string; da_analysis_dir : string; da_focus_channel : Z;
  da_force : bool }.

(** [sys.maxsize] *)
Definition maxsize : Z := 2 ^ 63 - 1.

(** The number of [point_sort_key], and its order on the names of points. *)
Definition point_vgain (name : string) : Z := default maxsize (vgain_of name).

Definition point_le (a b : string) : Prop :=
  point_vgain a < point_vgain b \/ (point_vgain a = point_vgain b /\ str_le a b).

#[export] Instance point_le_dec : RelDecision point_le.
Proof. intros a b. unfold point_le. apply _. Defined.

(** The points: the directory that holds them, and their names in order. *)
Definition discover_points `{Tree} (run_dir : string) : string * list string :=
  match vgain_dirs run_dir with
  | [] => let points_dir := path_join run_dir "points" in
          (points_dir, merge_sort point_le (vgain_dirs points_dir))
  | candidates => (run_dir, merge_sort point_le candidates)
  end.

(** [parse_scan_manifest]: any JSON value. *)
Definition parse_scan_manifest `{Tree} (path : string) : pyval :=
  match text_at path with
  | Some (Ok s) => match json_loads s with Ok v => v | Raise _ => PyDict [] end
  | _ => PyDict []
  end.

Record scan_cfg : Type := ScanCfg { c_channels : string; c_n_samples : Z; c_fs_hz : float }.

Section dark.
Context `{HO : Host, TR : Tree, AN : Analyzer}.
Context (args : dark_args).

Definition load_config (run_dir : string) : result scan_cfg :=
  meta <-! parse_kv_text (path_join run_dir "scan_metadata.txt") ;;
  let manifest := parse_scan_manifest (path_join run_dir "scan_manifest.json") in
  channels <-! (if negb (bool_decide (da_channels args = "")) then Ok (da_channels args)
                else match meta !! "channels" with
                     | Some cs => Ok cs
                     | None =>
                         v <-! dict_get manifest "channels" PyNone ;;
                         Ok (match v with PyList l => join "," (py_str str_other <$> l) | _ => "" end)
                     end) ;;
  n_samples <-! (if 0 <? da_L args then Ok (da_L args)
                 else match meta !! "waveform_len" with
                      | Some s => int10 s
                      | None => v <-! dict_get manifest "waveform_len" (PyInt 0) ;; py_int v
                      end) ;;
  fs_hz <-! (if f_leb (da_fs args) f_zero
             then v <-! dict_get manifest "sampling_rate_hz" (PyFloat (f_of_Z 62500000)) ;; to_float v
             else Ok (da_fs args)) ;;
  Ok (ScanCfg channels n_samples fs_hz).

(** [build_cmd] for the point [name] of [points_dir] *)
Definition build_cmd (points_dir name : string) (cfg : scan_cfg) : list string :=
  analyzer_command
  ++ ["--folder"; path_join points_dir name; "--channels"; c_channels cfg; "-L"; str_Z (c_n_samples cfg);
      "--fs"; str_other (PyFloat (c_fs_hz cfg)); "--max_waves"; str_Z (da_max_waves args);
      "--fft_avg_waves"; str_Z (da_fft_avg_waves args); "--interpret"; da_interpret args;
      "--prefix"; da_prefix args; "--title"; path_name points_dir; "--subtitle"; name; "--no-show"]
  ++ (if decide (da_fft_window args = "") then [] else ["--fft_window"; da_fft_window args])
  ++ (if da_fft_log_x args then ["--fft_log_x"] else [])
  ++ (if da_fft_keep_dc args then ["--fft_keep_dc"] else []).

(** [point_dir / f"{args.prefix}{name}"] *)
Definition point_file (point_dir name : string) : string := path_join point_dir (da_prefix args +:+ name).

Definition point_csv (point_dir : string) : string := point_file point_dir "noise_metrics.csv".

(** A run of the analyzer, whose output follows the command in the log. *)
Definition run_point_analysis (points_dir name : string) (cfg : scan_cfg) : M files unit :=
  let point_dir := path_join points_dir name in
  w <- get ;;
  if bool_decide (is_Some (w !! point_csv point_dir)) && negb (da_force args) then ret tt
  else
    let cmd := build_cmd points_dir name cfg in
    put (point_file point_dir "analysis.log")
      (DText ("Command:" +:+ String "010" (join " " cmd +:+ String "010" (String "010" "")))) ;;;
    run_analyzer cmd.

(** The rows of a point, with its gain and its name. *)
Definition tagged (name : string) (r : row) : row :=
  row_put (row_put r "vgain" (PyInt (point_vgain name))) "point_dir" (PyStr name).

Definition load_point_rows (points_dir name : string) : M files (list row) :=
  let csv_path := point_csv (path_join points_dir name) in
  w <- get ;;
  rows <- lift (match w !! csv_path with Some d => csv_rows d | None => Raise (not_found csv_path) end) ;;
  ret (tagged name <$> rows).

Definition analyze_points (points_dir : string) (names : list string) (cfg : scan_cfg)
    : M files (list row) :=
  rs <- map_m (fun name => run_point_analysis points_dir name cfg ;;; load_point_rows points_dir name) names ;;
  ret (mjoin rs).

Definition processed_point (points_dir name : string) : pyval :=
  let file n := PyStr (point_file (path_join points_dir name) n) in
  PyDict [("vgain", PyInt (point_vgain name)); ("point_dir", PyStr name);
          ("metrics_csv", file "noise_metrics.csv"); ("metrics_json", file "noise_metrics.json");
          ("fft_overlay_png", file "fft_overlay.png"); ("analysis_log", file "analysis.log")].

(** ** The tables *)

Definition int_field (k : string) (r : row) : result Z := v <-! item (PyDict r) k ;; py_int v.

Definition merge_key (r : row) : result (Z * Z) :=
  v <-! int_field "vgain" r ;; ch <-! int_field "channel" r ;; Ok (v, ch).

(** [merged_rows.sort] by gain and channel *)
Definition sort_merged (rows : list row) : result (list row) :=
  ks <-! rmap merge_key rows ;; Ok (snd <$> merge_sort key_le (zip ks rows)).

(** The rows of the channel in focus; they are in the order of their gains already, and a stable
    sort by the gain keeps it. *)
Definition focus_rows (rows : list row) : result (list row) :=
  cs <-! rmap (int_field "channel") rows ;;
  let chosen := snd <$> filter (fun cr => fst cr = da_focus_channel args) (zip cs rows) in
  vs <-! rmap (int_field "vgain") chosen ;;
  Ok (snd <$> merge_sort key_le (zip ((fun v => (v, 0)) <$> vs) chosen)).

Definition analysis_dir (run_dir : string) : string :=
  if decide (da_analysis_dir args = "") then path_join run_dir "analysis_fft_metrics"
  else at_path (da_analysis_dir args).

Definition rows_doc (rows : list row) : doc := DJson (PyList (PyDict <$> rows)).

Definition write_focus (dir : string) (rows : list row) : M files unit :=
  let base := path_join dir ("channel_" +:+ dec_pad 2 (da_focus_channel args) +:+ "_vs_vgain") in
  when (0 <=? da_focus_channel args)
    (focus <- lift (focus_rows rows) ;;
     match focus with
     | [] => ret tt
     | _ => write_csv focus (base +:+ ".csv") ;;; put (base +:+ ".json") (rows_doc focus)
     end).

Definition dark_manifest (run_dir points_dir : string) (names : list string) (cfg : scan_cfg) : pyval :=
  PyDict [("created_utc", PyStr created_utc); ("type", PyStr "dark_vgain_scan_fft_metrics");
    ("run_dir", PyStr run_dir); ("point_count", PyInt (Z.of_nat (length names)));
    ("channels", PyStr (c_channels cfg)); ("waveform_len", PyInt (c_n_samples cfg));
    ("fs_hz", PyFloat (c_fs_hz cfg)); ("max_waves", PyInt (da_max_waves args));
    ("fft_avg_waves", PyInt (da_fft_avg_waves args)); ("fft_window", PyStr (da_fft_window args));
    ("fft_log_x", PyBool (da_fft_log_x args)); ("fft_keep_dc", PyBool (da_fft_keep_dc args));
    ("interpret", PyStr (da_interpret args)); ("prefix", PyStr (da_prefix args));
    ("focus_channel", PyInt (da_focus_channel args));
    ("processed_points", PyList (processed_point points_dir <$> names))].

Definition save_merged (dir : string) (rows : list row) (manifest : pyval) : M files unit :=
  write_csv rows (path_join dir "all_points_noise_metrics.csv") ;;;
  put (path_join dir "all_points_noise_metrics.json") (rows_doc rows) ;;;
  write_focus dir rows ;;;
  put (path_join dir "analysis_manifest.json") (DJson manifest).

Definition dark_main : M files Z :=
  let run_dir := at_path (da_run_dir args) in
  if negb (exists_at run_dir) || negb analyzer_there then ret 2
  else
    let '(points_dir, names) := discover_points run_dir in
    match names with
    | [] => ret 2
    | _ =>
        cfg <- lift (load_config run_dir) ;;
        if bool_decide (c_channels cfg = "") || (c_n_samples cfg <=? 0) then ret 2
        else
          let dir := analysis_dir run_dir in
          lift (file_ok dir) ;;;
          merged <- analyze_points points_dir names cfg ;;
          rows <- lift (sort_merged merged) ;;
          save_merged dir rows (dark_manifest run_dir points_dir names cfg) ;;;
          ret 0
    end.

End dark.

(** ** Lemmas: the points *)

(** The names of a directory have no slash; a run of the analyzer on a point writes below it. *)
Class Documented `{TR : Tree, AN : Analyzer} : Prop := {
  names_flat d names n : listing d = Some names -> n ∈ names -> no_slash n;
  analyzer_contained args points_dir name cfg w r w' p :
    run_analyzer (build_cmd args points_dir name cfg) w = (r, w') ->
    (forall s, p <> path_join (path_join points_dir name) s) -> w' !! p = w !! p }.

Section points.
Context `{TR : Tree}.

Lemma vgain_dirs_names dir n :
  n ∈ vgain_dirs dir -> n <> "" /\ exists names, listing dir = Some names /\ n ∈ names.
Proof using Type.
  unfold vgain_dirs. rewrite !list_elem_of_filter. intros (_ & [s Hp] & Hn).
  apply elem_of_sorted_names in Hn. split; [by intros ->|].
  destruct (listing dir) as [names|]; cbn [default] in Hn; [by exists names|]. by apply not_elem_of_empty in Hn.
Qed.

Lemma vgain_dirs_nodup dir : NoDup (vgain_dirs dir).
Proof using Type. apply NoDup_filter, NoDup_filter, NoDup_sorted_names. Qed.

Lemma discovered_points run_dir points_dir names :
  discover_points run_dir = (points_dir, names) -> NoDup names /\ forall n, n ∈ names -> n ∈ vgain_dirs points_dir.
Proof using Type.
  unfold discover_points. destruct (vgain_dirs run_dir) as [|n0 l] eqn:Hd; intros [= <- <-];
    rewrite (merge_sort_Permutation point_le).
  - split; [apply vgain_dirs_nodup|]. intros n. by rewrite (merge_sort_Permutation point_le).
  - rewrite <- Hd. split; [apply vgain_dirs_nodup|]. intros n. rewrite (merge_sort_Permutation point_le). by rewrite Hd.
Qed.

End points.

Section dark_lemmas.
Context `{DO : Documented, HO : Host}.
Context (args : dark_args).

Lemma point_files_apart points_dir n1 n2 s1 s2 :
  n1 ∈ vgain_dirs points_dir -> n2 ∈ vgain_dirs points_dir ->
  path_join (path_join points_dir n1) s1 = path_join (path_join points_dir n2) s2 -> n1 = n2.
Proof using DO.
  intros (H1 & l1 & Hl1 & Hin1)%vgain_dirs_names (H2 & l2 & Hl2 & Hin2)%vgain_dirs_names He.
  rewrite !path_join_nest in He by done. apply path_join_inj in He.
  apply (until_inj "/" n1 n2 s1 s2) in He as [He _]; [done|exact (names_flat _ _ _ Hl1 Hin1)|exact (names_flat _ _ _ Hl2 Hin2)].
Qed.

(** What the analysis of a point leaves alone: whatever is not below it. *)
Lemma spares_point points_dir name cfg p :
  (forall s, p <> path_join (path_join points_dir name) s) ->
  spares p (run_point_analysis args points_dir name cfg).
Proof using DO.
  intros Hp. unfold run_point_analysis. apply spares_bind; [done|]. intros w0. case_match; [done|].
  apply spares_bind; [apply spares_put, not_eq_sym, Hp|]. intros _ w.
  destruct (run_analyzer (build_cmd args points_dir name cfg) w) as [r w'] eqn:Hr. cbn [snd].
  exact (analyzer_contained _ _ _ _ _ _ _ _ Hr Hp).
Qed.

(** The rows of a point, from the table that is in the files. *)
Definition rows_at (points_dir : string) (w : files) (name : string) (rs : list row) : Prop :=
  exists d raw, w !! point_csv args (path_join points_dir name) = Some d /\ csv_rows d = Ok raw /\
    rs = tagged name <$> raw.

(** Without [--force], a table that was there stays. *)
Definition table_kept (points_dir : string) (w w' : files) (name : string) : Prop :=
  da_force args = false -> is_Some (w !! point_csv args (path_join points_dir name)) ->
  w' !! point_csv args (path_join points_dir name) = w !! point_csv args (path_join points_dir name).

Lemma point_rows points_dir name cfg w rs w' :
  (run_point_analysis args points_dir name cfg ;;; load_point_rows args points_dir name) w = (Ok rs, w') ->
  rows_at points_dir w' name rs /\ table_kept points_dir w w' name.
Proof using Type.
  intros H. inv_bind H. unfold load_point_rows in H. inv_bind H. unfold get in Hrun0. injection Hrun0 as <- <-.
  inv_bind H. injection H as <- <-. injection Hrun0 as Hr <-. split.
  - unfold rows_at. destruct (w0 !! _) as [d|] eqn:Hd; [|done]. eexists d, _. by split_and!.
  - intros Hf Hs. unfold run_point_analysis in Hrun. inv_bind Hrun. injection Hrun0 as <- <-.
    rewrite (bool_decide_eq_true_2 _ Hs), Hf in Hrun. cbn [andb negb] in Hrun. by injection Hrun as _ <-.
Qed.

Lemma spares_point_rows points_dir name cfg p :
  (forall s, p <> path_join (path_join points_dir name) s) ->
  spares p (run_point_analysis args points_dir name cfg ;;; load_point_rows args points_dir name).
Proof using DO.
  intros Hp. apply spares_bind; [by apply spares_point|]. intros _. unfold load_point_rows.
  apply spares_bind; [done|]. intros w. by apply spares_bind.
Qed.

Lemma analyzed_points_rows points_dir names cfg w rss w' :
  NoDup names -> (forall n, n ∈ names -> n ∈ vgain_dirs points_dir) ->
  map_m (fun name => run_point_analysis args points_dir name cfg ;;; load_point_rows args points_dir name) names w
    = (Ok rss, w') ->
  Forall2 (rows_at points_dir w') names rss /\ Forall (table_kept points_dir w w') names.
Proof using DO.
  revert w rss. induction names as [|n names IH]; intros w rss Hnd Hin H; cbn [map_m] in H.
  { injection H as <- <-. split; constructor. }
  apply NoDup_cons in Hnd as [Hn Hnd]. inv_bind H. inv_bind H. injection H as <- <-.
  apply point_rows in Hrun as Hp. destruct Hp as [Hrows Hkept].
  destruct (IH _ _ Hnd (fun m Hm => Hin m (list_elem_of_further _ _ _ Hm)) Hrun0) as [Hall Hkall].
  assert (Hstay : w1 !! point_csv args (path_join points_dir n) = w0 !! point_csv args (path_join points_dir n)).
  { eapply spares_run; [|exact Hrun0]. apply spares_map. intros m Hm. apply spares_point_rows. intros s He.
    assert (m = n) as ->; [|done]. eapply point_files_apart; [apply Hin; by apply list_elem_of_further
      |apply Hin, list_elem_of_here|by symmetry]. }
  split.
  - constructor; [|done]. destruct Hrows as (d & raw & Hd & Hraw & ->). exists d, raw. by rewrite Hstay.
  - constructor; [intros Hf Hs; rewrite Hstay; by apply Hkept|]. rewrite Forall_forall in Hkall |- *.
    intros m Hm Hf Hs.
    assert (Hstart : w0 !! point_csv args (path_join points_dir m) = w !! point_csv args (path_join points_dir m)).
    { eapply spares_run; [|exact Hrun]. apply spares_point_rows. intros s He.
      assert (m = n) as ->; [|done]. eapply point_files_apart; [apply Hin; by apply list_elem_of_further
        |apply Hin, list_elem_of_here|exact He]. }
    rewrite (Hkall m Hm Hf); [exact Hstart|by rewrite Hstart].
Qed.

End dark_lemmas.

(** ** The merged tables *)

Definition key_pair_le (a b : Z * Z) : Prop := fst a < fst b \/ (fst a = fst b /\ snd a <= snd b).

(** [rows] are those of [merged], by gain and channel. *)
Definition sorted_rows (merged rows : list row) : Prop :=
  rows ≡ₚ merged /\ exists ks, Forall2 (fun k r => merge_key r = Ok k) ks rows /\ StronglySorted key_pair_le ks.

Lemma sort_merged_ok merged rows : sort_merged merged = Ok rows -> sorted_rows merged rows.
Proof.
  unfold sort_merged. intros H. apply rbind_ok in H as (ks & Hks & H). injection H as <-.
  apply rmap_ok in Hks. set (l := zip ks merged).
  assert (Hl : Forall (fun kr => merge_key (snd kr) = Ok (fst kr)) l).
  { subst l. clear -Hks. induction Hks; constructor; done. }
  assert (Hsnd : snd <$> l = merged) by (subst l; apply snd_zip; apply Forall2_length in Hks; lia).
  clearbody l. split; [by rewrite (merge_sort_Permutation key_le), Hsnd|].
  exists (fst <$> merge_sort key_le l). split.
  - rewrite Forall2_fmap. apply Forall_Forall2_diag.
    assert (Hs : Forall (fun kr => merge_key (snd kr) = Ok (fst kr)) (merge_sort key_le l))
      by by rewrite (merge_sort_Permutation key_le).
    exact Hs.
  - pose proof (StronglySorted_merge_sort key_le l) as Hs.
    induction Hs as [|[[v c] r] l' _ IH Hr]; [constructor|]. cbn [fmap list_fmap fst].
    constructor; [done|]. apply Forall_fmap. eapply Forall_impl; [exact Hr|]. by intros [[v' c'] r'].
Qed.

Section tables.
Context `{HO : Host, TR : Tree, AN : Analyzer}.
Context (args : dark_args).

(** The files of a scan that are not those of the channel in focus. *)
Definition not_focus (name : string) : Prop := forall s, "channel_" +:+ s <> name.

Lemma spares_focus dir rows name : not_focus name -> spares (path_join dir name) (write_focus args dir rows).
Proof using Type.
  intros Hn. unfold write_focus. apply spares_when. apply spares_bind; [done|]. intros [|r rs]; [done|].
  rewrite !path_join_suffix.
  apply spares_bind; [apply spares_csv|intros _; apply spares_put]; intros He%path_join_inj;
    rewrite append_assoc in He; by apply Hn in He.
Qed.

(** The tables hold the rows. *)
Lemma save_merged_ok dir rows manifest w u w' :
  save_merged args dir rows manifest w = (Ok u, w') ->
  w' !! path_join dir "all_points_noise_metrics.json" = Some (rows_doc rows) /\
  (rows <> [] -> exists fields, w' !! path_join dir "all_points_noise_metrics.csv" = Some (DCsv fields rows)) /\
  w' !! path_join dir "analysis_manifest.json" = Some (DJson manifest).
Proof using Type.
  unfold save_merged. intros H. do 3 inv_bind H.
  pose proof (fun p Hp => spares_run p _ _ _ _ (spares_put p _ _ Hp) H) as S4.
  pose proof (fun name Hn => spares_run _ _ _ _ _ (spares_focus dir rows name Hn) Hrun1) as S3.
  apply put_ok in H as ->. split_and!.
  - rewrite S4 by by intros He%path_join_inj. rewrite S3 by by intros s.
    apply put_ok in Hrun0 as ->. apply lookup_insert_eq.
  - intros Hr. rewrite S4 by by intros He%path_join_inj. rewrite S3 by by intros s.
    destruct (csv_written _ _ _ _ _ Hrun Hr) as [fields Hf]. exists fields. rewrite <- Hf.
    eapply spares_run; [|exact Hrun0]. apply spares_put. by intros He%path_join_inj.
  - apply lookup_insert_eq.
Qed.

End tables.

(** C25. The noise analysis of a dark scan.  [main] ends with status 2 and has changed nothing, or with
    status 0.  Then every point has its table: that of an earlier analysis, untouched, unless
    [--force] is given, else what the analyzer left.  The merged table holds exactly the rows of
    these tables, each with the gain and the name of its point, by gain and channel; it is stored as
    JSON, and as CSV when it has a row, and the manifest counts the points. *)
Theorem dark_scan_merges `{DO : Documented, HO : Host} args w code w' :
  dark_main args w = (Ok code, w') ->
  (code = 2 /\ w' = w) \/
  (code = 0 /\ exists points_dir names cfg w1 rss rows,
     let run_dir := at_path (da_run_dir args) in
     let dir := analysis_dir args run_dir in
     discover_points run_dir = (points_dir, names) /\ names <> [] /\ load_config args run_dir = Ok cfg /\
     Forall2 (rows_at args points_dir w1) names rss /\ Forall (table_kept args points_dir w w1) names /\
     sorted_rows (mjoin rss) rows /\
     w' !! path_join dir "all_points_noise_metrics.json" = Some (rows_doc rows) /\
     (rows <> [] -> exists fields, w' !! path_join dir "all_points_noise_metrics.csv" = Some (DCsv fields rows)) /\
     w' !! path_join dir "analysis_manifest.json" = Some (DJson (dark_manifest args run_dir points_dir names cfg))).
Proof.
  unfold dark_main. cbv zeta. set (run_dir := at_path _).
  destruct (_ || _); [by intros [= <- <-]; left|].
  destruct (discover_points run_dir) as [points_dir names] eqn:Hd. destruct (discovered_points _ _ _ Hd) as [Hnd Hin].
  destruct names as [|n0 ns]; [by intros [= <- <-]; left|]. intros H. inv_bind H. injection Hrun as Hcfg <-.
  destruct (_ || _) in H; [by injection H as <- <-; left|]. do 4 inv_bind H. injection H as <- <-.
  injection Hrun as _ <-. injection Hrun1 as Hsort <-. right. split; [done|].
  unfold analyze_points in Hrun0. inv_bind Hrun0. injection Hrun0 as <- <-.
  destruct (analyzed_points_rows args points_dir _ _ _ _ _ Hnd Hin Hrun) as [Hrows Hkept].
  exists points_dir, (n0 :: ns), a, w0, a4, a2. split_and!; try done.
  - by apply sort_merged_ok.
  - by apply (save_merged_ok args _ _ _ _ _ _ Hrun2).
  - by apply (save_merged_ok args _ _ _ _ _ _ Hrun2).
  - by apply (save_merged_ok args _ _ _ _ _ _ Hrun2).
Qed.

(** ** A scan with two points, one of which was analyzed before *)

#[local] Instance dark_tree : Tree := {
  listing := fun d => if decide (d = "run") then Some {["vgain_900"; "vgain_1000"; "scan_metadata.txt"]}
    else if bool_decide (d ∈ ["run/vgain_900"; "run/vgain_1000"]) then Some ∅ else None;
  text_at := fun p => if decide (p = "run/scan_metadata.txt")
    then Some (Ok ("channels=3,5" +:+ String "010" "waveform_len=64")) else None;
  words_at := fun _ => None; at_path := fun p => p; str_other := fun _ => "62500000.0";
  html_page := fun name _ _ => name }.

(** An analyzer that leaves a table of two channels. *)
#[local] Instance dark_analyzer : Analyzer := {
  analyzer_there := true;
  run_analyzer := fun cmd w => match cmd with
    | _ :: dir :: _ => (Ok tt, <[path_join dir "m_noise_metrics.csv" := DCsv ["channel"]
                                   [[("channel", PyStr "5")]; [("channel", PyStr "3")]] ]> w)
    | _ => (Raise (Exn CalledProcessError "2"), w)
    end;
  csv_rows := fun d => match d with DCsv _ rows => Ok rows | _ => Raise (value_error "not a table") end;
  created_utc := ""; analyzer_command := [] }.

#[local] Instance dark_documented : Documented.
Proof.
  split.
  - intros d names n Hl Hn. cbn [listing dark_tree] in Hl. case_decide.
    + injection Hl as <-. rewrite !elem_of_union, !elem_of_singleton in Hn. by destruct Hn as [[-> | ->] | ->].
    + case_bool_decide; [|done]. injection Hl as <-. by apply not_elem_of_empty in Hn.
  - intros args points_dir name cfg w r w' p H Hp. cbn in H. injection H as <- <-.
    apply lookup_insert_ne. intros <-. by eapply Hp.
Qed.

#[local] Instance dark_host : Host := {
  file_ok := fun _ => Ok tt; matplotlib := true; cpu_count := None; pool := fun _ _ _ => Plan [] [] None }.

Definition some_dark_args : dark_args :=
  {| da_run_dir := "run"; da_channels := ""; da_L := 0; da_fs := f_zero; da_max_waves := 0;
     da_fft_avg_waves := 2000; da_fft_window := ""; da_fft_log_x := false; da_fft_keep_dc := false;
     da_interpret := "signed"; da_prefix := "m_"; da_analysis_dir := ""; da_focus_channel := 3; da_force := false |}.

Definition earlier_tables : files :=
  {[ "run/vgain_900/m_noise_metrics.csv" := DCsv ["channel"] [[("channel", PyStr "3")]] ]}.

Definition dark_row (ch : string) (vgain : Z) : row :=
  [("channel", PyStr ch); ("vgain", PyInt vgain); ("point_dir", PyStr ("vgain_" +:+ str_Z vgain))].

Lemma dark_scan_merges_witness :
  exists w' fields, dark_main some_dark_args earlier_tables = (Ok 0, w') /\
    w' !! "run/analysis_fft_metrics/all_points_noise_metrics.csv"
      = Some (DCsv fields [dark_row "3" 900; dark_row "3" 1000; dark_row "5" 1000]).
Proof.
  destruct (dark_main some_dark_args earlier_tables) as [r w'] eqn:Hm.
  assert (Hr : r = Ok 0) by (change r with (fst (r, w')); rewrite <- Hm; vm_compute; reflexivity). subst r.
  destruct (dark_scan_merges some_dark_args earlier_tables 0 w' Hm)
    as [[Hc _]|(_ & pd & names & cfg & w1 & rss & rows & _ & _ & _ & _ & _ & _ & Hj & Hcsv & _)]; [discriminate Hc|].
  assert (Hrows : Some (rows_doc rows) = Some (rows_doc [dark_row "3" 900; dark_row "3" 1000; dark_row "5" 1000])).
  { rewrite <- Hj. change w' with (snd (Ok 0, w')). rewrite <- Hm. vm_compute. reflexivity. }
  assert (Hinj : Inj (=) (=) PyDict) by (intros a b He; by injection He).
  injection Hrows as Hrows.
  assert (rows = [dark_row "3" 900; dark_row "3" 1000; dark_row "5" 1000]) as ->
    by exact (list_fmap_eq_inj PyDict Hinj _ [_; _; _] Hrows).
  destruct Hcsv as [fields Hcsv]; [discriminate|]. exists w', fields. split; [reflexivity|exact Hcsv].
Defined.
