(* ===== verification/NoiseBatch.v ===== *)
(** The batch of noise analyses: [scripts/analyze_noise_fft_batch.py], which finds dark scans and
    folders of waveforms under some roots and runs an analyzer on each.

    The state is the commands that ran, in order.  The directories and texts are those of class
    [Tree] of [WaveStats]; all tests of the files come before the first command. *)
From S2P Require Import Prelude PyStr PyFloat PyVal ChannelSpec JsonText FeConfig SpyAcquire SmallTools.
From S2P Require Import ScanRuntime ChargeWindows IntensityScan RunFiles Pools WaveStats NoiseRuns.

(** What [rglob("*")] yields below a directory, files and directories, in its order; what a command
    does ([CalledProcessError] when its status is not 0); the interpreter with each analyzer. *)
Class Batch : Type := {
  rglob : string -> list string;
  run_command : list string -> result unit;
  dark_analyzer_command : list string;
  generic_analyzer_command : list string }.

Definition SKIP_PARTS : list string := [".build"; "__pycache__"; "analysis_fft_metrics"; "cpp_snr_scan_p30"].
Definition SKIP_SUBSTRINGS : list string := ["failed"; "dryrun"].

Record batch_args : Type := BatchArgs {
  b_roots : list string; b_max_waves : Z; b_fft_avg_waves : Z; b_prefix : string; b_interpret : string;
  b_fft_log_x : bool; b_fft_keep_dc : bool; b_fs : float; b_force : bool; b_dry_run : bool }.

Definition should_skip (path : string) : bool :=
  existsb (fun part => bool_decide (part ∈ SKIP_PARTS)) (split_on "/" path)
  || existsb (fun token => contains token (lower_str path)) SKIP_SUBSTRINGS.

(** ** A folder of waveforms *)

Record GenericTarget : Type := Target {
  tg_folder : string; tg_channels : string; tg_n_samples : Z; tg_title : string; tg_subtitle : string }.

(** [path.parent] of an absolute path *)
Definition parent_path (path : string) : string :=
  match join "/" (removelast (split_on "/" path)) with "" => "/" | d => d end.

(** [load_json] *)
Definition load_json `{Tree} (path : string) : row :=
  match text_at path with
  | Some (Ok s) => match json_loads s with Ok (PyDict d) => d | _ => [] end
  | _ => []
  end.

(** What [channel_*.dat] leaves of a name that matches it. *)
Definition channel_glob (name : string) : option string :=
  rest ← strip_prefix "channel_" name;
  let n := (String.length rest - 4)%nat in
  if bool_decide (String.substring n 4 rest = ".dat") then Some (String.substring 0 n rest) else None.

Definition channel_texts `{Tree} (folder : string) : list string :=
  omap channel_glob (elements (default ∅ (listing folder))).

Definition ints_of (l : list (result Z)) : list Z :=
  sorted_set (omap (fun r => match r with Ok z => Some z | Raise _ => None end) l).

Definition discover_channels_from_files `{Tree} (folder : string) : list Z :=
  ints_of (int10 <$> channel_texts folder).

Definition parse_channels_value (value : pyval) : list Z :=
  match value with
  | PyList l => ints_of (py_int <$> l)
  | PyStr s => ints_of (int10 <$> filter (fun t => t <> "") (strip <$> split_on "," s))
  | _ => []
  end.

(** One word of the command, with the one after it. *)
Definition command_token (s : list Z * Z) (tok : string * option string) : list Z * Z :=
  match tok with
  | (t, Some next) =>
      if decide (t = "-channel_list") then (parse_channels_value (PyStr next), snd s)
      else if decide (t = "-L") then (fst s, match int10 next with Ok n => n | Raise _ => snd s end)
      else s
  | _ => s
  end.

Definition infer_from_command_tokens `{Tree} (tokens : pyval) : result (list Z * Z) :=
  l <-! py_iter tokens ;;
  let clean := py_str str_other <$> l in
  Ok (foldl command_token ([], 0) (imap (fun i t => (t, clean !! S i)) clean)).

(** The first list of channels that is not empty, and the first positive length. *)
Definition or_else {A : Type} (r : result (list A)) (next : result (list A)) : result (list A) :=
  l <-! r ;; match l with [] => next | _ => Ok l end.

Definition or_positive (r next : result Z) : result Z := n <-! r ;; if n <=? 0 then next else Ok n.

Definition meta_int (meta : row) (k : string) : result Z :=
  py_int (py_or (row_get meta k (PyInt 0)) (PyInt 0)).

Section batch.
Context `{TR : Tree, BA : Batch}.

Definition target_channels (folder : string) : result (list Z) :=
  let parent_meta := load_json (path_join (parent_path folder) "metadata.json") in
  let of_meta meta := Ok (parse_channels_value (row_get meta "channels" PyNone)) in
  or_else (of_meta (load_json (path_join folder "run_metadata.json")))
    (or_else (of_meta (load_json (path_join folder "metadata.json")))
       (or_else (of_meta parent_meta)
          (or_else (s <-! infer_from_command_tokens (row_get parent_meta "acquire_command" (PyList [])) ;; Ok (fst s))
             (Ok (discover_channels_from_files folder))))).

Definition target_samples (folder : string) : result Z :=
  let parent_meta := load_json (path_join (parent_path folder) "metadata.json") in
  or_positive (meta_int (load_json (path_join folder "run_metadata.json")) "samples_per_waveform")
    (or_positive (meta_int (load_json (path_join folder "metadata.json")) "waveform_len")
       (or_positive (meta_int parent_meta "waveform_len")
          (s <-! infer_from_command_tokens (row_get parent_meta "acquire_command" (PyList [])) ;; Ok (snd s)))).

Definition infer_generic_target (folder : string) : result (option GenericTarget) :=
  channels <-! target_channels folder ;;
  match channels with
  | [] => Ok None
  | _ =>
      n_samples <-! target_samples folder ;;
      if n_samples <=? 0 then Ok None
      else
        let parent := parent_path folder in
        let '(title, subtitle) :=
          if decide (path_name folder = "raw") then (path_name (parent_path parent), path_name parent)
          else (path_name parent, path_name folder) in
        Ok (Some (Target folder (join "," (str_Z <$> channels)) n_samples title subtitle))
  end.

(** ** What is found *)

(** The order of paths: by their parts. *)
Fixpoint parts_leb (a b : list string) : bool :=
  match a, b with
  | [], _ => true
  | _, [] => false
  | x :: a', y :: b' => if decide (x = y) then parts_leb a' b' else String.leb x y
  end.

Definition path_le (a b : string) : Prop := parts_leb (split_on "/" a) (split_on "/" b) = true.

#[local] Instance path_le_dec : RelDecision path_le.
Proof. intros a b. unfold path_le. apply _. Defined.

(** [root.iterdir()] *)
Definition iterdir (root : string) : result (list string) :=
  match listing root with
  | Some names => Ok (path_join root <$> elements names)
  | None => Raise (Exn (OSError 20) ("Not a directory: " +:+ root))
  end.

Definition is_dark_run (candidate : string) : bool :=
  is_dir candidate && negb (should_skip candidate) && negb (bool_decide (vgain_dirs candidate = [])).

Definition discover_dark_runs (roots : list string) : result (list string) :=
  found <-! rmap (fun root => cs <-! iterdir root ;;
                              Ok (at_path <$> filter (fun c => is_dark_run c = true) cs))
              (filter (fun root => exists_at root = true) roots) ;;
  Ok (merge_sort path_le (elements (list_to_set (mjoin found) : gset string))).

(** [path.relative_to(parent)] does not raise. *)
Definition is_under (path parent : string) : bool :=
  bool_decide (path = parent) || bool_decide (is_Some (strip_prefix (path_join parent "") path)).

Definition is_under_any (path : string) (parents : list string) : bool := existsb (is_under path) parents.

(** A folder that is looked at, unless its resolved path was seen. *)
Definition is_candidate (resolved_dark : list string) (folder : string) : bool :=
  is_dir folder && negb (should_skip folder) && negb (is_under_any (at_path folder) resolved_dark)
  && negb (bool_decide (channel_texts folder = [])).

Definition add_target (resolved_dark : list string) (s : list GenericTarget * gset string) (folder : string)
    : result (list GenericTarget * gset string) :=
  let '(targets, seen) := s in
  if bool_decide (at_path folder ∈ seen) || negb (is_candidate resolved_dark folder) then Ok s
  else
    t <-! infer_generic_target folder ;;
    Ok (match t with
        | None => s
        | Some t => (targets ++ [t], {[at_path folder]} ∪ seen)
        end).

Definition walked (roots : list string) : list string :=
  mjoin (rglob <$> filter (fun root => exists_at root = true) roots).

Definition target_le (a b : GenericTarget) : Prop := str_le (tg_folder a) (tg_folder b).

#[local] Instance target_le_dec : RelDecision target_le.
Proof. intros a b. unfold target_le. apply _. Defined.

Definition discover_generic_targets (roots dark_runs : list string) : result (list GenericTarget) :=
  s <-! rfold (add_target (at_path <$> dark_runs)) (walked roots) ([], ∅) ;;
  Ok (merge_sort target_le (fst s)).

Context (args : batch_args).

(** ** The commands *)

Definition generic_output_exists (t : GenericTarget) : bool :=
  exists_at (path_join (tg_folder t) (b_prefix args +:+ "noise_metrics.csv")).

Definition dark_output_exists (run_dir : string) : bool :=
  exists_at (path_join (path_join run_dir "analysis_fft_metrics") "all_points_noise_metrics.csv").

Definition switches : list string :=
  (if b_fft_log_x args then ["--fft_log_x"] else []) ++ (if b_fft_keep_dc args then ["--fft_keep_dc"] else []).

Definition dark_command (run_dir : string) : list string :=
  dark_analyzer_command
  ++ [run_dir; "--max_waves"; str_Z (b_max_waves args); "--fft_avg_waves"; str_Z (b_fft_avg_waves args);
      "--prefix"; b_prefix args; "--interpret"; b_interpret args]
  ++ switches ++ (if b_force args then ["--force"] else []).

Definition generic_command (t : GenericTarget) : list string :=
  generic_analyzer_command
  ++ ["--folder"; tg_folder t; "--channels"; tg_channels t; "-L"; str_Z (tg_n_samples t);
      "--fs"; str_other (PyFloat (b_fs args)); "--max_waves"; str_Z (b_max_waves args);
      "--fft_avg_waves"; str_Z (b_fft_avg_waves args); "--interpret"; b_interpret args;
      "--prefix"; b_prefix args; "--title"; tg_title t; "--subtitle"; tg_subtitle t; "--no-show"]
  ++ switches.

(** [subprocess.run(cmd, check=True)], unless the run is dry. *)
Definition run_analysis (cmd : list string) : M (list (list string)) unit :=
  if b_dry_run args then ret tt else modify (fun w => w ++ [cmd]) ;;; lift (run_command cmd).

Definition pending {A : Type} (output_exists : A -> bool) (l : list A) : list A :=
  filter (fun x => negb (output_exists x) || b_force args = true) l.

Definition batch_main : M (list (list string)) Z :=
  let roots := at_path <$> b_roots args in
  dark_runs <- lift (discover_dark_runs roots) ;;
  targets <- lift (discover_generic_targets roots dark_runs) ;;
  for_each (pending dark_output_exists dark_runs) (fun run_dir => run_analysis (dark_command run_dir)) ;;;
  for_each (pending generic_output_exists targets) (fun t => run_analysis (generic_command t)) ;;;
  ret 0.

End batch.

(** ** Lemmas: what is found *)

Section found.
Context `{TR : Tree, BA : Batch}.

Lemma inferred_target folder t :
  infer_generic_target folder = Ok (Some t) ->
  tg_folder t = folder /\ 0 < tg_n_samples t /\
  exists channels, channels <> [] /\ target_channels folder = Ok channels /\ tg_channels t = join "," (str_Z <$> channels).
Proof using Type.
  unfold infer_generic_target. intros H. apply rbind_ok in H as (cs & Hcs & H).
  destruct cs as [|c cs]; [done|]. apply rbind_ok in H as (n & _ & H). destruct (Z.leb_spec n 0); [done|].
  cbv zeta in H. destruct (decide _); injection H as <-; cbn; (split_and!; [done|done|]); by exists (c :: cs).
Qed.

(** The folders looked at so far, their targets and what was seen. *)
Record scanned (dark l : list string) (s : list GenericTarget * gset string) : Prop := {
  scan_sound t : t ∈ fst s -> tg_folder t ∈ l /\ is_candidate dark (tg_folder t) = true /\
    infer_generic_target (tg_folder t) = Ok (Some t);
  scan_distinct : NoDup ((fun t => at_path (tg_folder t)) <$> fst s);
  scan_seen p : p ∈ snd s <-> p ∈ ((fun t => at_path (tg_folder t)) <$> fst s);
  scan_complete folder t : folder ∈ l -> is_candidate dark folder = true ->
    infer_generic_target folder = Ok (Some t) -> at_path folder ∈ snd s }.

Lemma add_target_scanned dark l s folder s' :
  scanned dark l s -> add_target dark s folder = Ok s' -> scanned dark (l ++ [folder]) s'.
Proof using Type.
  destruct s as [ts seen]. intros [Hs Hd Hseen Hc] H. cbn [fst snd] in *.
  assert (Hmore : forall t, t ∈ ts -> tg_folder t ∈ l ++ [folder] /\ is_candidate dark (tg_folder t) = true /\
            infer_generic_target (tg_folder t) = Ok (Some t)).
  { intros t (H1 & H2 & H3)%Hs. split_and!; [by apply elem_of_app; left|done|done]. }
  assert (Hkeep : (is_candidate dark folder = true -> forall t, infer_generic_target folder = Ok (Some t) ->
                     at_path folder ∈ seen) -> scanned dark (l ++ [folder]) (ts, seen)).
  { intros Hk. split; cbn [fst snd]; [done..|]. intros f t [Hin| ->%list_elem_of_singleton]%elem_of_app Hcand Ht;
      [by eapply Hc|by eapply Hk]. }
  unfold add_target in H. destruct (_ || _) eqn:Hb.
  { injection H as <-. apply Hkeep. intros Hcand t Ht. apply orb_true_iff in Hb as [Hb|Hb].
    - by apply bool_decide_eq_true_1 in Hb.
    - by rewrite Hcand in Hb. }
  apply orb_false_iff in Hb as [Hnew Hcand]. apply bool_decide_eq_false_1 in Hnew. apply negb_false_iff in Hcand.
  apply rbind_ok in H as ([t|] & Ht & H); injection H as <-.
  2: { apply Hkeep. intros _ t Ht'. by rewrite Ht in Ht'. }
  destruct (inferred_target _ _ Ht) as (Hf & _). split; cbn [fst snd].
  - intros t' [Hin| ->%list_elem_of_singleton]%elem_of_app; [by apply Hmore|].
    rewrite Hf. split_and!; [by apply elem_of_app; right; apply list_elem_of_here|done|done].
  - rewrite fmap_app. apply NoDup_app. split_and!; [done| |apply NoDup_singleton].
    intros p Hp%Hseen Hp'%list_elem_of_singleton. rewrite Hf in Hp'. congruence.
  - intros p. rewrite elem_of_union, elem_of_singleton, Hseen, fmap_app, elem_of_app. cbn [fmap list_fmap].
    rewrite Hf, list_elem_of_singleton. tauto.
  - intros f t' [Hin| ->%list_elem_of_singleton]%elem_of_app Hcf Ht'; rewrite elem_of_union, elem_of_singleton;
      [right; by eapply Hc|by left].
Qed.

Lemma all_scanned dark l l0 s s' :
  scanned dark l0 s -> rfold (add_target dark) l s = Ok s' -> scanned dark (l0 ++ l) s'.
Proof using Type.
  revert l0 s. induction l as [|folder l IH]; intros l0 s Hs H; cbn [rfold] in H.
  - injection H as <-. by rewrite app_nil_r.
  - apply rbind_ok in H as (s1 & H1 & H). rewrite cons_middle, app_assoc. eapply IH; [|exact H].
    by eapply add_target_scanned.
Qed.

End found.

#[export] Instance target_le_total : Total target_le.
Proof. intros a b. unfold target_le. apply str_le_total. Qed.

#[export] Instance target_le_trans : Transitive target_le.
Proof. intros a b c. unfold target_le. intros Hab Hbc. by etrans. Qed.

(** What a batch analyzes.  The targets that are found are sorted by folder and no two are the
    same directory.  Each of them is a directory below a root that no rule skips, that is not below a
    dark scan and that holds waveforms; its channels are not empty, those of the first source that
    names any (its run metadata, its own, those of its parent, the command of its parent, its files),
    and its waveforms have a positive length.  No folder with these properties is left out, but for
    those that resolve to a target. *)
Theorem batch_targets `{TR : Tree, BA : Batch} roots dark_runs targets :
  discover_generic_targets roots dark_runs = Ok targets ->
  let dark := at_path <$> dark_runs in
  StronglySorted target_le targets /\ NoDup ((fun t => at_path (tg_folder t)) <$> targets) /\
  (forall t, t ∈ targets -> tg_folder t ∈ walked roots /\ is_candidate dark (tg_folder t) = true /\
     0 < tg_n_samples t /\ exists channels, channels <> [] /\
       target_channels (tg_folder t) = Ok channels /\ tg_channels t = join "," (str_Z <$> channels)) /\
  (forall folder t, folder ∈ walked roots -> is_candidate dark folder = true ->
     infer_generic_target folder = Ok (Some t) -> exists t', t' ∈ targets /\ at_path (tg_folder t') = at_path folder).
Proof.
  unfold discover_generic_targets. intros H. apply rbind_ok in H as (s & Hs & H). injection H as <-.
  assert (Hstart : scanned (at_path <$> dark_runs) [] ([], ∅)).
  { split; cbn; [by intros t Hin%not_elem_of_nil|constructor|intros p; split;
      [by intros Hin%not_elem_of_empty|by intros Hin%not_elem_of_nil]|by intros f t Hin%not_elem_of_nil]. }
  destruct (all_scanned _ _ _ _ _ Hstart Hs) as [Hsound Hdist Hseen Hc]. split_and!.
  - apply (StronglySorted_merge_sort target_le).
  - by rewrite (merge_sort_Permutation target_le).
  - intros t. rewrite (merge_sort_Permutation target_le). intros (Hin & Hcand & Ht)%Hsound.
    destruct (inferred_target _ _ Ht) as (_ & Hn & Hch). by split_and!.
  - intros folder t Hin Hcand Ht. apply (Hc folder t Hin Hcand), Hseen, list_elem_of_fmap in Ht as (t' & He & Hin').
    exists t'. by rewrite (merge_sort_Permutation target_le).
Qed.

(** ** Lemmas: the commands *)

Section commands.
Context `{TR : Tree, BA : Batch}.
Context (args : batch_args).

(** Some commands, run one after the other until one fails. *)
Inductive ran_until (cmds : list (list string)) : list (list string) -> result unit -> Prop :=
  | ran_all : Forall (fun c => run_command c = Ok tt) cmds -> ran_until cmds cmds (Ok tt)
  | ran_failed before c after e : cmds = before ++ c :: after -> Forall (fun c => run_command c = Ok tt) before ->
      run_command c = Raise e -> ran_until cmds (before ++ [c]) (Raise e).

Lemma run_analyses {A : Type} (f : A -> list string) l w r w' :
  b_dry_run args = false ->
  for_each l (fun x => run_analysis args (f x)) w = (r, w') ->
  exists done_, w' = w ++ done_ /\ ran_until (f <$> l) done_ r.
Proof using Type.
  intros Hdry. revert w r. induction l as [|x l IH]; intros w r H; cbn [for_each] in H.
  { injection H as <- <-. exists []. rewrite app_nil_r. split; [done|]. by apply ran_all. }
  unfold bind at 1 in H. unfold run_analysis at 1 in H. rewrite Hdry in H. unfold bind, modify, lift in H.
  destruct (run_command (f x)) as [[]|e] eqn:Hc.
  - destruct (IH _ _ H) as (done_ & -> & Hran). exists (f x :: done_). rewrite <- app_assoc. split; [done|].
    cbn [fmap list_fmap]. inversion Hran as [Hall Hd Hr|before c after e Hcmds Hb He Hd Hr].
    + apply ran_all. by constructor.
    + change (f x :: before ++ [c]) with ((f x :: before) ++ [c]). apply (ran_failed _ _ _ after); [|by constructor|done].
      cbn. by rewrite Hcmds.
  - injection H as <- <-. exists [f x]. split; [done|]. by apply (ran_failed _ [] (f x) (f <$> l)).
Qed.

Lemma run_dry {A : Type} (f : A -> list string) l w :
  b_dry_run args = true -> for_each l (fun x => run_analysis args (f x)) w = (Ok tt, w).
Proof using Type.
  intros Hdry. induction l as [|x l IH]; [done|]. cbn [for_each]. unfold bind at 1, run_analysis at 1.
  by rewrite Hdry.
Qed.

Lemma ran_until_app a b done1 done2 r :
  ran_until a done1 (Ok tt) -> ran_until b done2 r -> ran_until (a ++ b) (done1 ++ done2) r.
Proof using Type.
  intros H1 H2. inversion H1 as [Ha|]; subst. inversion H2 as [Hb|before c after e Hc Hb He]; subst.
  - apply ran_all. by apply Forall_app.
  - rewrite (app_assoc done1 before [c]). apply (ran_failed _ _ _ after);
      [by rewrite <- app_assoc|by apply Forall_app|done].
Qed.

Lemma ran_until_prefix a b done_ e : ran_until a done_ (Raise e) -> ran_until (a ++ b) done_ (Raise e).
Proof using Type.
  intros H. inversion H as [|before c after e' Hc Hb He]; subst.
  apply (ran_failed _ _ _ (after ++ b)); [by rewrite <- app_assoc|done|done].
Qed.

(** The commands of a batch: the dark scans, then the folders, those without output unless
    [--force] is given. *)
Definition batch_commands (dark_runs : list string) (targets : list GenericTarget) : list (list string) :=
  (dark_command args <$> pending args dark_output_exists dark_runs)
  ++ (generic_command args <$> pending args (generic_output_exists args) targets).

End commands.

(** The commands of a batch.  If the search for runs raises, nothing has run.  Otherwise, in a dry
    run nothing runs and the status is 0; else the commands run in order, dark scans first, each
    once, up to the first that fails: then its exception ends the batch and no later command has
    run; and the status is 0 when all of them have succeeded. *)
Theorem batch_runs_in_order `{TR : Tree, BA : Batch} args w r w' :
  batch_main args w = (r, w') ->
  let roots := at_path <$> b_roots args in
  (exists e, r = Raise e /\ w' = w /\
     (discover_dark_runs roots = Raise e \/
      exists dark_runs, discover_dark_runs roots = Ok dark_runs /\
        discover_generic_targets roots dark_runs = Raise e)) \/
  exists dark_runs targets, discover_dark_runs roots = Ok dark_runs /\
    discover_generic_targets roots dark_runs = Ok targets /\
    if b_dry_run args then r = Ok 0 /\ w' = w
    else exists done_ r0, w' = w ++ done_ /\ ran_until (batch_commands args dark_runs targets) done_ r0 /\
           r = rbind r0 (fun _ => Ok 0).
Proof.
  intros H. cbv zeta. unfold batch_main in H. unfold bind at 1, lift at 1 in H.
  destruct (discover_dark_runs _) as [dark_runs|e] eqn:Hd; [|injection H as <- <-; left; eauto].
  unfold bind at 1, lift at 1 in H.
  destruct (discover_generic_targets _ dark_runs) as [targets|e] eqn:Ht;
    [|injection H as <- <-; left; exists e; split_and!; [done|done|right; by exists dark_runs]].
  right. exists dark_runs, targets. split_and!; [done|done|]. unfold bind at 1 in H.
  destruct (b_dry_run args) eqn:Hdry.
  { rewrite run_dry in H by done. unfold bind at 1 in H. rewrite run_dry in H by done. by injection H as <- <-. }
  destruct (for_each (pending args dark_output_exists dark_runs) _ w) as [r1 w1] eqn:H1.
  destruct (run_analyses args (dark_command args) _ _ _ _ Hdry H1) as (done1 & -> & Hran1).
  destruct r1 as [[]|e1].
  - unfold bind at 1 in H. destruct (for_each (pending args (generic_output_exists args) targets) _ _) as [r2 w2] eqn:H2.
    destruct (run_analyses args (generic_command args) _ _ _ _ Hdry H2) as (done2 & -> & Hran2).
    exists (done1 ++ done2), r2. rewrite app_assoc. pose proof (ran_until_app _ _ _ _ _ Hran1 Hran2) as Hran.
    destruct r2 as [[]|e2]; injection H as <- <-; by split_and!.
  - injection H as <- <-. exists done1, (Raise e1). split_and!; [done| |done]. by apply ran_until_prefix.
Qed.

(** ** A batch over one root *)

(** A dark scan, a capture, a capture that failed, and the folder of a point of an LED scan. *)
#[local] Instance batch_tree : Tree := {
  listing := fun d =>
    if decide (d = "/r") then Some {["scan"; "cap"; "cap_failed"; "led"]}
    else if decide (d = "/r/scan") then Some {["vgain_900"]}
    else if bool_decide (d ∈ ["/r/scan/vgain_900"; "/r/cap"; "/r/cap_failed"; "/r/led/raw"])
    then Some {["channel_4.dat"; "channel_11.dat"]}
    else if decide (d = "/r/led") then Some {["raw"; "metadata.json"]} else None;
  text_at := fun p =>
    if bool_decide (p ∈ ["/r/cap/run_metadata.json"; "/r/cap_failed/run_metadata.json"])
    then Some (Ok (quoted "{'channels': [7, '5', 7], 'samples_per_waveform': 64}"))
    else if decide (p = "/r/led/metadata.json")
    then Some (Ok (quoted "{'acquire_command': ['acquire', '-channel_list', '3,1', '-L', '128']}")) else None;
  words_at := fun _ => None; at_path := fun p => p; str_other := fun _ => "62500000.0";
  html_page := fun name _ _ => name }.

(** The analyzer of waveforms fails on the folder of the LED scan. *)
#[local] Instance batch_walk : Batch := {
  rglob := fun _ => ["/r/scan"; "/r/scan/vgain_900"; "/r/cap"; "/r/cap/run_metadata.json"; "/r/cap_failed";
                     "/r/led"; "/r/led/raw"];
  run_command := fun cmd => if bool_decide ("/r/led/raw" ∈ cmd) then Raise (Exn CalledProcessError "2") else Ok tt;
  dark_analyzer_command := ["dark"]; generic_analyzer_command := ["waves"] }.

Definition some_batch_args : batch_args :=
  {| b_roots := ["/r"]; b_max_waves := 0; b_fft_avg_waves := 2000; b_prefix := "m_"; b_interpret := "signed";
     b_fft_log_x := false; b_fft_keep_dc := false; b_fs := f_zero; b_force := false; b_dry_run := false |}.

Lemma batch_targets_witness :
  exists targets, discover_generic_targets ["/r"] ["/r/scan"] = Ok targets /\
    targets = [Target "/r/cap" "5,7" 64 "r" "cap"; Target "/r/led/raw" "1,3" 128 "r" "led"] /\
    StronglySorted target_le targets.
Proof.
  destruct (discover_generic_targets ["/r"] ["/r/scan"]) as [targets|e] eqn:Ht; [|vm_compute in Ht; discriminate Ht].
  exists targets. split; [reflexivity|]. destruct (batch_targets ["/r"] ["/r/scan"] targets Ht) as [Hs _].
  split; [vm_compute in Ht; injection Ht as <-; reflexivity|exact Hs].
Defined.

Lemma batch_runs_in_order_witness :
  exists done_, batch_main some_batch_args [] = (Raise (Exn CalledProcessError "2"), done_) /\
    length done_ = 3%nat /\ exists cmds r0, ran_until cmds done_ r0.
Proof.
  destruct (batch_main some_batch_args []) as [r done_] eqn:Hm.
  assert (Hr : (r, length done_) = (Raise (Exn CalledProcessError "2"), 3%nat)).
  { change r with (fst (r, done_)). change done_ with (snd (r, done_)) at 2. rewrite <- Hm. vm_compute. reflexivity. }
  injection Hr as -> Hlen. exists done_. split; [reflexivity|]. split; [exact Hlen|].
  destruct (batch_runs_in_order some_batch_args [] _ done_ Hm)
    as [(e & _ & He & _)|(dr & ts & _ & _ & done1 & r0 & He & Hran & _)].
  - rewrite He in Hlen. discriminate Hlen.
  - cbn [app] in He. subst done1. exists (batch_commands some_batch_args dr ts), r0. exact Hran.
Defined.
