(* ===== verification/RetroFit.v ===== *)
(** The fit of three Gaussians to a stored histogram:
    [client/dynamic_range_led/retro_charge_fit.py], which the plotting scripts call.

    A histogram is its bin centers and its counts; scipy's fit is class [WeightedFit] of
    [HistogramFits]. *)
From S2P Require Import Prelude PyStr PyFloat PyVal ChannelSpec JsonText FeConfig SpyAcquire.
From S2P Require Import ScanRuntime ChargeWindows IntensityScan RunFiles Pools PeFit HistogramFits Reanalysis.

Section models.
Context `{NP : Numpy, SP : Scipy}.

Definition gauss (x : list float) (amplitude mean sigma : float) : list float :=
  let sigma := py_max sigma nano in (fun v => f_mul amplitude (bell mean sigma v)) <$> x.

Definition triple_gauss (x : list float) (a0 mu0 s0 a1 mu1 s1 a2 mu2 s2 : float) : list float :=
  add_to (add_to (gauss x a0 mu0 s0) (gauss x a1 mu1 s1)) (gauss x a2 mu2 s2).

Definition area_gauss (x : list float) (n_events mean sigma bin_width : float) : list float :=
  let sigma := py_max sigma nano in
  let norm := np_div (f_mul n_events bin_width) (f_mul two_pi_root sigma) in
  (fun v => f_mul norm (bell mean sigma v)) <$> x.

(** The width of [n] photo-electrons with the spread [s_pe] of one. *)
Definition pe_width (s0 s_pe : float) (n : Z) : float :=
  let spread := if n =? 1 then f_mul s_pe s_pe else f_mul (f_mul (f_of_Z n) s_pe) s_pe in
  f_sqrt (py_max (f_add (f_mul s0 s0) spread) nano).

Definition triple_area_gauss (x : list float) (n0 mu0 s0 n1 gain s_pe n2 bin_width : float) : list float :=
  let mu1 := f_add mu0 gain in
  let mu2 := f_add mu0 (f_mul (f_of_Z 2) gain) in
  add_to (add_to (area_gauss x n0 mu0 s0 bin_width) (area_gauss x n1 mu1 (pe_width s0 s_pe 1) bin_width))
    (area_gauss x n2 mu2 (pe_width s0 s_pe 2) bin_width).

(** [np.argmin]: the first minimum, or the first value that is not a number. *)
Definition argmin (l : list float) : result nat :=
  match l with
  | [] => Raise (value_error "attempt to get argmin of an empty sequence")
  | _ => argmax (SFopp <$> l)
  end.

Definition _nearest_count (x y : list float) (target : float) : result float :=
  idx <-! argmin ((fun v => f_abs (f_sub v target)) <$> x) ;;
  c <-! at_index y idx ;;
  Ok (py_max c (f_of_Z 1)).

(** The width of the peak of two photo-electrons: [s0] and twice the excess of [s1]. *)
Definition second_width (s0 s1 : float) : float :=
  let excess_var := py_max (f_sub (f_mul s1 s1) (f_mul s0 s0)) f_zero in
  f_sqrt (py_max (f_add (f_mul s0 s0) (f_mul (f_of_Z 2) excess_var)) nano).

Definition second_mean (mu0 mu1 : float) : float := f_add mu0 (f_mul (f_of_Z 2) (f_sub mu1 mu0)).

Definition constrained_triple_gauss (x : list float) (a0 mu0 s0 a1 mu1 s1 a2 : float) : list float :=
  let s1_eff := py_max s1 nano in
  let s0_eff := py_max s0 nano in
  add_to (add_to (gauss x a0 mu0 s0_eff) (gauss x a1 mu1 s1_eff))
    (gauss x a2 (second_mean mu0 mu1) (second_width s0_eff s1_eff)).

(** ** Seeds *)

(** [x[mask]] and [y[mask]] for the samples from [lo] to [hi] *)
Definition inside (lo hi : float) (xy : float * float) : bool := f_leb lo (fst xy) && f_leb (fst xy) hi.

Definition windowed (lo hi : float) (h : list (float * float)) : list (float * float) :=
  filter (fun xy => inside lo hi xy = true) h.

Definition any_count (h : list (float * float)) : bool := existsb (fun xy => f_ltb f_zero (snd xy)) h.

Definition fwhm_factor : float := f_dec 2355 (-3).

(** The position, the width and the height of the highest bin between [lo] and [hi]. *)
Definition _estimate_peak_width (h : list (float * float)) (lo hi fallback_sigma : float)
    : result (float * float * float) :=
  let one := f_of_Z 1 in
  let w := windowed lo hi h in
  if bool_decide (w = []) || negb (any_count w)
  then Ok (f_mul half (f_add lo hi), py_max fallback_sigma one, one)
  else
    let ys := snd <$> w in
    peak_idx <-! argmax ys ;;
    peak_x <-! at_index (fst <$> w) peak_idx ;;
    y <-! at_index ys peak_idx ;;
    let peak_y := py_max y one in
    let half_height := f_mul half peak_y in
    let left := scan_left ys half_height peak_idx in
    let right := scan_right (drop peak_idx ys) half_height peak_idx in
    sigma <-! (if (right <=? left)%nat then Ok (py_max fallback_sigma one)
               else x_right <-! at_index (fst <$> w) right ;; x_left <-! at_index (fst <$> w) left ;;
                    Ok (py_max (np_div (f_sub x_right x_left) fwhm_factor) one)) ;;
    Ok (peak_x, sigma, peak_y).

Definition bin_width_of (x : list float) : float :=
  if (1 <? length x)%nat then np_median (diff x) else f_of_Z 1.

(** The samples that are fitted. *)
Definition _fit_window (h : list (float * float)) (mu1_guess sigma0_guess : float) : list (float * float) :=
  let x := fst <$> h in
  let sigma0 := max3 sigma0_guess (bin_width_of x) (f_of_Z 1) in
  let counted := fst <$> filter (fun xy => f_ltb f_zero (snd xy) = true) h in
  let first := match counted with [] => np_min x | _ => np_min counted end in
  let lo := py_min first (f_mul (f_of_Z (-4)) sigma0) in
  let hi := py_max (f_add (f_mul (f_dec 235 (-2)) mu1_guess) (f_mul (f_dec 35 (-1)) sigma0))
                   (f_mul (f_of_Z 6) sigma0) in
  windowed lo hi h.

(** [np.maximum] and [np.minimum]: what is not a number stays. *)
Definition np_maximum (a b : float) : float :=
  if is_nan a then a else if is_nan b then b else if f_ltb a b then b else a.
Definition np_minimum (a b : float) : float :=
  if is_nan a then a else if is_nan b then b else if f_ltb b a then b else a.

(** [np.clip] between [lower + 1e-6] and [upper - 1e-6] *)
Definition clip_inside (x : float) (lu : float * float) : float :=
  np_minimum (np_maximum x (f_add (fst lu) micro)) (f_sub (snd lu) micro).

Record seeds : Type := Seeds {
  sd_sigma0 : float; sd_mu1 : float; sd_sigma1 : float; sd_bin_width : float }.

(** The guesses, with the floors that the bin width sets. *)
Definition floors (h : list (float * float)) (mu1_guess sigma0_guess : float) (sigma1_guess : option float) : seeds :=
  let bin_width := bin_width_of (fst <$> h) in
  let wide := f_mul (f_dec 15 (-1)) bin_width in
  let sigma0 := max3 sigma0_guess wide (f_of_Z 1) in
  let mu1 := py_max mu1_guess (f_mul (f_dec 25 (-1)) sigma0) in
  let given := match sigma1_guess with
               | Some s => if truthy (PyFloat s) && is_finite s then s else f_mul sigma0 (f_dec 12 (-1))
               | None => f_mul sigma0 (f_dec 12 (-1))
               end in
  Seeds sigma0 mu1 (py_max given wide) bin_width.

(** The start of the fit and its bounds, from the three peaks. *)
Definition retro_start (w : list (float * float)) (s : seeds)
    : result (list float * (list float * list float)) :=
  let c n e := f_dec n e in
  '(mu0_seed, sigma0_seed, pedestal_height) <-!
     _estimate_peak_width w (f_mul (c (-15) (-1)) (sd_sigma0 s)) (f_mul (c 15 (-1)) (sd_sigma0 s)) (sd_sigma0 s) ;;
  '(mu1_seed, sigma1_seed, one_height) <-!
     _estimate_peak_width w (py_max (f_mul (c 55 (-2)) (sd_mu1 s)) (f_mul (f_of_Z 2) (sd_bin_width s)))
       (f_mul (c 145 (-2)) (sd_mu1 s)) (sd_sigma1 s) ;;
  let gain_seed := py_max (f_sub mu1_seed mu0_seed) (f_mul (c 25 (-1)) (sd_sigma0 s)) in
  let excess := f_sub (f_mul (f_mul (f_of_Z 2) sigma1_seed) sigma1_seed) (f_mul sigma0_seed sigma0_seed) in
  '(mu2_seed, sigma2_seed, two_height) <-!
     _estimate_peak_width w (f_mul (c 155 (-2)) gain_seed) (f_mul (c 255 (-2)) gain_seed)
       (py_max (f_sqrt (py_max excess (f_of_Z 1))) sigma1_seed) ;;
  let reach := py_max (f_mul (f_of_Z 3) sigma0_seed) (f_mul (c 35 (-2)) gain_seed) in
  let near := f_mul (c 15 (-1)) sigma0_seed in
  let mu0_lo := py_max (SFopp reach) (f_sub mu0_seed near) in
  let mu0_hi := py_min reach (f_add mu0_seed near) in
  let half_bin := f_mul half (sd_bin_width s) in
  let top := f_add (f_mul (np_max (snd <$> w)) (c 45 (-1))) (f_of_Z 10) in
  let lower := [f_zero; mu0_lo; py_max half_bin (f_mul half sigma0_seed); f_zero;
                py_max (f_mul (c 75 (-2)) mu1_seed) (f_mul (f_of_Z 2) (sd_bin_width s));
                py_max half_bin (f_mul (c 55 (-2)) sigma1_seed); f_zero] in
  let upper := [top; mu0_hi; py_max (f_mul (c 145 (-2)) sigma0_seed) (f_mul (c 3 (-1)) mu1_seed); top;
                f_mul (c 118 (-2)) mu1_seed;
                py_min (py_max (f_mul (c 135 (-2)) sigma1_seed) (f_mul (c 125 (-2)) sigma0_seed))
                       (f_mul (c 24 (-2)) mu1_seed);
                top] in
  let p0 := [pedestal_height; mu0_seed; sigma0_seed; one_height; mu1_seed; sigma1_seed; two_height] in
  Ok (zip_with clip_inside p0 (zip lower upper), (lower, upper)).

End models.

(** ** The fit *)

Section fit.
Context `{NP : Numpy, SP : Scipy, WF : WeightedFit}.

(** [np.sqrt(np.clip(yf, 9.0, None))] *)
Definition count_error (y : float) : float := f_sqrt (np_maximum y (f_of_Z 9)).

Definition retro_result (w : list (float * float)) (popt : list float) : result row :=
  seven popt (fun a0 mu0 s0 a1 mu1 s1 a2 =>
    let gain := f_sub mu1 mu0 in
    let mu2 := second_mean mu0 mu1 in
    let s2 := second_width s0 s1 in
    let lo := np_min (fst <$> w) in
    let hi := np_max (fst <$> w) in
    let xfit := np_linspace lo hi 1800 in
    let squares := f_add (f_mul s0 s0) (f_mul s1 s1) in
    Ok [("status", PyStr "ok");
        ("params", PyDict [("A0", PyFloat a0); ("mu0", PyFloat mu0); ("s0", PyFloat s0); ("A1", PyFloat a1);
                           ("mu1", PyFloat mu1); ("s1", PyFloat s1); ("A2", PyFloat a2); ("mu2", PyFloat mu2);
                           ("s2", PyFloat s2); ("gain", PyFloat gain)]);
        ("xfit", floats xfit); ("yfit", floats (constrained_triple_gauss xfit a0 mu0 s0 a1 mu1 s1 a2));
        ("components", PyList [floats (gauss xfit a0 mu0 s0); floats (gauss xfit a1 mu1 s1);
                               floats (gauss xfit a2 mu2 s2)]);
        ("snr_ped", PyFloat (np_div gain (py_max s0 nano)));
        ("snr_sep", PyFloat (np_div gain (f_sqrt (py_max nano squares))));
        ("fit_window", floats [lo; hi])]).

(** [h] are the columns [x] and [count] of the frame, row by row. *)
Definition fit_retro_triple_gauss (h : list (float * float)) (mu1_guess sigma0_guess : float)
    (sigma1_guess : option float) : result row :=
  if (length h <? 10)%nat || negb (any_count h) then Ok (status "empty_histogram")
  else
    let s := floors h mu1_guess sigma0_guess sigma1_guess in
    let w := _fit_window h (sd_mu1 s) (sd_sigma0 s) in
    if (length w <? 10)%nat || negb (any_count w) then Ok (status "empty_fit_window")
    else
      '(p0, bounds) <-! retro_start w s ;;
      let model x p := seven p (fun a b c d e f g => Ok (constrained_triple_gauss x a b c d e f g)) in
      let yf := snd <$> w in
      match curve_fit_sigma model (fst <$> w) yf p0 bounds (count_error <$> yf) 40000 with
      | Raise exc => Ok [("status", PyStr "fit_failed"); ("error", PyStr (exn_text exc))]
      | Ok popt => retro_result w popt
      end.

End fit.

(** ** Lemmas: the peak of a window *)

Section peaks.
Context `{NP : Numpy, SP : Scipy}.

Lemma at_index_some {A : Type} (l : list A) i x : l !! i = Some x -> at_index l i = Ok x.
Proof using Type. unfold at_index. by intros ->. Qed.

Lemma windowed_sub lo hi h xy : xy ∈ windowed lo hi h <-> inside lo hi xy = true /\ xy ∈ h.
Proof using Type. unfold windowed. by rewrite list_elem_of_filter. Qed.

(** The seed of a peak: the middle of an empty window; else the highest bin of the window, with the
    distance of the two samples where the counts around it fall to half of its height. *)
Inductive peak_seed (h : list (float * float)) (lo hi fallback : float) : float * float * float -> Prop :=
  | seed_empty : Forall (fun xy => f_ltb f_zero (snd xy) = false) (windowed lo hi h) ->
      peak_seed h lo hi fallback (f_mul half (f_add lo hi), py_max fallback (f_of_Z 1), f_of_Z 1)
  | seed_found i x y left right xl xr :
      windowed lo hi h !! i = Some (x, y) -> Forall (fun xy => f_ltb y (snd xy) = false) (windowed lo hi h) ->
      pulse (snd <$> windowed lo hi h) (f_mul half (py_max y (f_of_Z 1))) left i right ->
      (fst <$> windowed lo hi h) !! left = Some xl -> (fst <$> windowed lo hi h) !! right = Some xr ->
      peak_seed h lo hi fallback
        (x, if decide (left < right)%nat then py_max (np_div (f_sub xr xl) fwhm_factor) (f_of_Z 1)
            else py_max fallback (f_of_Z 1), py_max y (f_of_Z 1)).

Lemma estimate_seed h lo hi fallback :
  exists r, _estimate_peak_width h lo hi fallback = Ok r /\ peak_seed h lo hi fallback r.
Proof using Type.
  unfold _estimate_peak_width. destruct (_ || _) eqn:Hb.
  { eexists. split; [reflexivity|]. apply seed_empty. apply orb_true_iff in Hb as [->%bool_decide_eq_true_1|Hb]; [constructor|].
    apply negb_true_iff in Hb. unfold any_count in Hb. apply Forall_forall. intros xy Hxy.
    destruct (f_ltb f_zero (snd xy)) eqn:Hc; [|done]. exfalso.
    assert (Hex : existsb (fun xy => f_ltb f_zero (snd xy)) (windowed lo hi h) = true); [|congruence].
    apply existsb_exists. exists xy. by rewrite <- list_elem_of_In. }
  apply orb_false_iff in Hb as [Hne%bool_decide_eq_false_1 _].
  set (w := windowed lo hi h) in *.
  destruct (argmax (snd <$> w)) as [i|e] eqn:Hi; [|exfalso; destruct w; [done|discriminate Hi]].
  pose proof (argmax_bound _ _ Hi) as Hlt. destruct (argmax_max _ _ Hi) as (y & Hy & Hmax).
  pose proof Hy as Hy'. rewrite list_lookup_fmap in Hy'. apply fmap_Some in Hy' as ([x y'] & Hxy & Heq). cbn in Heq. subst y'.
  cbn [rbind]. rewrite (at_index_some _ i x) by (by rewrite list_lookup_fmap, Hxy).
  cbn [rbind]. rewrite (at_index_some _ i y Hy). cbn [rbind].
  set (thr := f_mul half (py_max y (f_of_Z 1))). pose proof (scans_pulse (snd <$> w) thr i Hlt) as Hp.
  set (left := scan_left _ _ _) in *. set (right := scan_right _ _ _) in *.
  pose proof (pulse_order _ _ _ _ _ Hp) as ((Hl & Hr) & Hr'). rewrite length_fmap in Hr'.
  destruct (lookup_lt_is_Some_2 (fst <$> w) left) as [xl Hxl]; [rewrite length_fmap; lia|].
  destruct (lookup_lt_is_Some_2 (fst <$> w) right) as [xr Hxr]; [by rewrite length_fmap|].
  assert (Hseed : peak_seed h lo hi fallback
    (x, if decide (left < right)%nat then py_max (np_div (f_sub xr xl) fwhm_factor) (f_of_Z 1)
        else py_max fallback (f_of_Z 1), py_max y (f_of_Z 1))).
  { eapply seed_found; [exact Hxy| |exact Hp|exact Hxl|exact Hxr]. by rewrite Forall_fmap in Hmax. }
  eexists. split; [|exact Hseed]. destruct (Nat.leb_spec right left).
  - cbn [rbind]. by rewrite decide_False by lia.
  - rewrite (at_index_some _ _ _ Hxr). cbn [rbind]. rewrite (at_index_some _ _ _ Hxl). cbn [rbind].
    by rewrite decide_True by lia.
Qed.

End peaks.

(** The fit of three Gaussians always gives a result.  Whatever the histogram and the guesses, and
    when scipy returns as many parameters as it was given, no exception leaves the function: the
    result says that the histogram or the window is empty, that the fit failed, or it is the fit.
    The start of the fit is made of the seeds of three peaks, each the highest bin of its window
    with the width of its half maximum, clipped into the bounds. *)
Theorem retro_fit_contained `{NP : Numpy, SP : Scipy, WF : WeightedFit} h mu1 sigma0 sigma1 :
  (forall f x y p0 b s n popt, curve_fit_sigma f x y p0 b s n = Ok popt -> length popt = length p0) ->
  exists r st, fit_retro_triple_gauss h mu1 sigma0 sigma1 = Ok r /\ row_get r "status" PyNone = PyStr st /\
    (st = "empty_histogram" \/ st = "empty_fit_window" \/
     (st = "fit_failed" \/ st = "ok") /\
     let s := floors h mu1 sigma0 sigma1 in
     let w := _fit_window h (sd_mu1 s) (sd_sigma0 s) in
     exists p0 lower upper x0 w0 h0 x1 w1 h1 x2 w2 h2 lo0 hi0 f0 lo1 hi1 f1 lo2 hi2 f2,
       retro_start w s = Ok (p0, (lower, upper)) /\
       peak_seed w lo0 hi0 f0 (x0, w0, h0) /\ peak_seed w lo1 hi1 f1 (x1, w1, h1) /\
       peak_seed w lo2 hi2 f2 (x2, w2, h2) /\
       p0 = zip_with clip_inside [h0; x0; w0; h1; x1; w1; h2] (zip lower upper)).
Proof.
  intros Hlaw. unfold fit_retro_triple_gauss. cbv zeta. destruct (_ || _); [eexists _, _; split_and!; [done|done|by left]|].
  set (s := floors _ _ _ _). set (w := _fit_window _ _ _).
  destruct (_ || _); [eexists _, _; split_and!; [done|done|by right; left]|].
  unfold retro_start. cbv zeta.
  destruct (estimate_seed w (f_mul (f_dec (-15) (-1)) (sd_sigma0 s)) (f_mul (f_dec 15 (-1)) (sd_sigma0 s)) (sd_sigma0 s))
    as ([[x0 w0] h0] & E0 & S0).
  destruct (estimate_seed w (py_max (f_mul (f_dec 55 (-2)) (sd_mu1 s)) (f_mul (f_of_Z 2) (sd_bin_width s)))
    (f_mul (f_dec 145 (-2)) (sd_mu1 s)) (sd_sigma1 s)) as ([[x1 w1] h1] & E1 & S1).
  rewrite E0. cbn [rbind]. rewrite E1. cbn [rbind].
  set (gain := py_max (f_sub x1 x0) _). set (fb := py_max (f_sqrt _) _).
  destruct (estimate_seed w (f_mul (f_dec 155 (-2)) gain) (f_mul (f_dec 255 (-2)) gain) fb) as ([[x2 w2] h2] & E2 & S2).
  rewrite E2. cbn [rbind]. set (lower := [f_zero; _; _; _; _; _; _]). set (upper := [_; _; _; _; _; _; _]).
  set (p0 := zip_with _ _ _).
  assert (Hlen : length p0 = 7%nat) by done.
  destruct (curve_fit_sigma _ _ _ p0 _ _ _) as [popt|e] eqn:Hfit.
  - apply Hlaw in Hfit. rewrite Hlen in Hfit. do 7 (destruct popt as [|? popt]; [done|]). destruct popt; [|done].
    eexists _, "ok". split_and!; [reflexivity|reflexivity|]. right; right. split; [by right|]. by eauto 30.
  - eexists _, "fit_failed". split_and!; [reflexivity|reflexivity|]. right; right. split; [by left|]. by eauto 30.
Qed.

(** ** A histogram with three peaks *)

#[local] Existing Instances some_numpy some_scipy.

#[local] Instance retro_weighted : WeightedFit := {
  math_log := fun x => x; curve_fit_sigma := fun _ _ _ p0 _ _ _ => Ok p0 }.

Definition three_peaks : list (float * float) :=
  imap (fun i c => (f_of_Z (Z.of_nat i * 2 - 10), f_of_Z c))
    [0; 0; 3; 20; 60; 90; 60; 20; 3; 0; 1; 4; 15; 40; 55; 40; 15; 4; 1; 2; 5; 9; 12; 9; 5; 2; 1; 0].

Lemma retro_fit_contained_witness :
  exists r st, fit_retro_triple_gauss three_peaks (f_of_Z 18) (f_of_Z 3) None = Ok r /\
    row_get r "status" PyNone = PyStr st /\ st = "ok".
Proof.
  destruct (retro_fit_contained three_peaks (f_of_Z 18) (f_of_Z 3) None) as (r & st & Hr & Hst & _).
  { intros f x y p0 b s n popt H. cbn in H. by injection H as <-. }
  exists r, st. split; [exact Hr|]. split; [exact Hst|].
  assert (Hok : (match fit_retro_triple_gauss three_peaks (f_of_Z 18) (f_of_Z 3) None with
                 | Ok d => row_get d "status" PyNone | Raise _ => PyNone end) = PyStr "ok")
    by (vm_compute; reflexivity).
  rewrite Hr in Hok. congruence.
Defined.
