(* ===== verification/Figures.v ===== *)
(** What the scripts that draw figures share: curves, a figure saved under its names, pages of
    panels, and how a loop that writes files leaves them.

    A figure is its title and its curves; colours, axes and layout are not modelled. *)
From S2P Require Import Prelude PyStr PyFloat PyVal ChannelSpec JsonText FeConfig SpyAcquire.
From S2P Require Import ScanRuntime ChargeWindows IntensityScan RunFiles Pools.

Abbreviation points := (list (float * float)).

(** The tables that are there before a script starts, as [csv.DictReader] reads them: the columns of
    each row.  Rows that are shorter than the header are not modelled. *)
Abbreviation text_row := (list (string * string)).

Class Tables : Type := { table_at : string -> option (result (list text_row)) }.

Definition read_csv `{Tables} (path : string) : result (list text_row) :=
  match table_at path with Some r => r | None => Raise (not_found path) end.

Definition text_get (r : text_row) (k : string) : option string := 
  (fun ikv => snd (snd ikv)) <$> list_find (fun kv => fst kv = k) r.

(** [row[k]] *)
Definition text_item (r : text_row) (k : string) : result string :=
  match text_get r k with Some v => Ok v | None => Raise (Exn KeyError ("'" +:+ k +:+ "'")) end.

(** [ax.plot(x, y)]: matplotlib refuses arrays of different lengths. *)
Definition paired (x y : list float) : result points :=
  if (length x =? length y)%nat then Ok (zip x y)
  else Raise (value_error "x and y must have same first dimension").

(** [fig.savefig] as [.png] and as [.pdf] *)
Definition save_figure `{Host} (base : string) (d : doc) : M files unit :=
  put (base +:+ ".png") d ;;; put (base +:+ ".pdf") d.

(** The pages of [n] panels: [l[0:n]], [l[n:2n]], ... *)
Definition pages {A : Type} (n : nat) (l : list A) : list (list A) :=
  (fun i => take n (drop (i * n) l)) <$> seq 0 ((length l + n - 1) / n).

(** [grouped[ch].append(...)] for what [f] finds of a channel, and [{ch: [] for ch in channels}] *)
Definition add_found {S : Type} (f : Z -> result (option S)) (grouped : gmap Z (list S)) (ch : Z)
    : result (gmap Z (list S)) :=
  s <-! f ch ;;
  Ok (match s with
      | None => grouped
      | Some s => alter (fun l => l ++ [s]) ch grouped
      end).

Definition no_series {S : Type} (channels : list Z) : gmap Z (list S) :=
  list_to_map ((fun ch => (ch, [])) <$> channels).

(** [int(row[k])] and [float(row[k])] *)
Definition int_at (r : text_row) (k : string) : result Z := v <-! text_item r k ;; int10 v.
Definition float_at (r : text_row) (k : string) : result float := v <-! text_item r k ;; py_float v.

(** Rows by channel, each list sorted by intensity: a row stays behind those before it with the
    same. *)
Section groups.
Context {R : Type} (read : text_row -> result R) (channel_of intensity : R -> Z).

Fixpoint insert_by (x : R) (l : list R) : list R :=
  match l with
  | [] => [x]
  | y :: l' => if intensity x <=? intensity y then x :: l else y :: insert_by x l'
  end.

(** [rows.sort(key=lambda item: item["intensity"])] *)
Definition sort_by (l : list R) : list R := foldr insert_by [] l.

(** [grouped.setdefault(channel, []).append(...)] *)
Definition add_row (grouped : gmap Z (list R)) (r : text_row) : result (gmap Z (list R)) :=
  s <-! read r ;; Ok (<[channel_of s := default [] (grouped !! channel_of s) ++ [s]]> grouped).

Definition group_rows (l : list text_row) : result (gmap Z (list R)) :=
  g <-! rfold add_row l ∅ ;; Ok (sort_by <$> g).

(** The rows of a channel, in the order of the table. *)
Definition of_channel (ch : Z) (l : list R) : list R := filter (fun s => channel_of s = ch) l.

Definition intensity_le (a b : R) : Prop := intensity a <= intensity b.

(** The sort keeps the rows, orders them by intensity and leaves those of one intensity in their order. *)
Definition sorted_rows (l l' : list R) : Prop :=
  l' ≡ₚ l /\ StronglySorted intensity_le l' /\
  forall i, filter (fun s => intensity s = i) l' = filter (fun s => intensity s = i) l.

End groups.

(** ** Lemmas *)

Lemma paired_ok x y ps : paired x y = Ok ps -> fst <$> ps = x /\ snd <$> ps = y.
Proof.
  unfold paired. destruct (Nat.eqb_spec (length x) (length y)) as [He|]; [|done]. intros [= <-].
  split; [apply fst_zip; lia|apply snd_zip; lia].
Qed.

(** The pages hold the list, in order. *)
Lemma pages_join {A : Type} n (l : list A) : (0 < n)%nat -> mjoin (pages n l) = l.
Proof.
  intros Hn. unfold pages.
  enough (H : forall k i, (length l <= (i + k) * n)%nat ->
            mjoin ((fun i => take n (drop (i * n) l)) <$> seq i k) = drop (i * n) l).
  { rewrite H; [done|]. pose proof (Nat.div_mod_eq (length l + n - 1) n).
    pose proof (Nat.mod_upper_bound (length l + n - 1) n). cbn [Nat.add]. nia. }
  induction k as [|k IH]; intros i Hk.
  - cbn. rewrite drop_ge; [done|]. by rewrite Nat.add_0_r in Hk.
  - change (take n (drop (i * n) l) ++ mjoin ((fun i => take n (drop (i * n) l)) <$> seq (S i) k) = drop (i * n) l).
    rewrite IH by lia.
    replace (S i * n)%nat with (i * n + n)%nat by lia. rewrite <- drop_drop. apply take_drop.
Qed.

Lemma pages_short {A : Type} n (l : list A) page : page ∈ pages n l -> (length page <= n)%nat.
Proof. unfold pages. intros (i & -> & _)%list_elem_of_fmap. rewrite length_take. lia. Qed.

(** ** Lemmas: series by channel *)

Lemma added_channels {S : Type} (f : Z -> result (option S)) channels g g' :
  rfold (add_found f) channels g = Ok g' -> NoDup channels -> forall ch,
  if decide (ch ∈ channels)
  then exists o, f ch = Ok o /\ g' !! ch = (fun l => l ++ omap id [o]) <$> g !! ch
  else g' !! ch = g !! ch.
Proof.
  revert g. induction channels as [|c channels IH]; intros g H Hnd ch.
  { injection H as <-. by rewrite decide_False by apply not_elem_of_nil. }
  apply NoDup_cons in Hnd as [Hc Hnd]. cbn [rfold] in H. apply rbind_ok in H as (g1 & Hg & H).
  specialize (IH _ H Hnd ch). apply rbind_ok in Hg as (o & Ho & Hg). injection Hg as <-.
  destruct (decide (ch = c)) as [->|Hne].
  - rewrite decide_False in IH by done. rewrite decide_True by (by apply list_elem_of_here). exists o.
    split; [done|]. rewrite IH. destruct o as [s|]; cbn.
    + by rewrite lookup_alter_eq.
    + destruct (g !! c); cbn; [by rewrite app_nil_r|done].
  - assert (Hsame : (match o with Some s => alter (fun l => l ++ [s]) c g | None => g end) !! ch = g !! ch).
    { destruct o; [|done]. by apply lookup_alter_ne. }
    rewrite Hsame in IH. destruct (decide (ch ∈ channels)) as [Hin|Hout].
    + by rewrite decide_True by (by apply list_elem_of_further).
    + rewrite decide_False; [done|]. by intros [?|?]%elem_of_cons.
Qed.

(** The loop over points and channels gives each channel what [f] finds of it, point by point. *)
Lemma added_points {P S : Type} (f : P -> Z -> result (option S)) points channels g g' :
  rfold (fun g p => rfold (add_found (f p)) channels g) points g = Ok g' -> NoDup channels -> forall ch,
  if decide (ch ∈ channels)
  then exists ss, rmap (fun p => f p ch) points = Ok ss /\ g' !! ch = (fun l => l ++ omap id ss) <$> g !! ch
  else g' !! ch = g !! ch.
Proof.
  revert g. induction points as [|p points IH]; intros g H Hnd ch; cbn [rfold] in H.
  { injection H as <-. case_decide; [|done]. exists []. split; [done|]. destruct (g !! ch); cbn; [by rewrite app_nil_r|done]. }
  apply rbind_ok in H as (g1 & H1 & H2). specialize (IH _ H2 Hnd ch).
  pose proof (added_channels _ _ _ _ H1 Hnd ch) as Hp. case_decide; [|by rewrite IH].
  destruct Hp as (o & Ho & Hg1), IH as (ss & Hss & Hg'). exists (o :: ss). split.
  - cbn [rmap]. rewrite Ho. cbn [rbind]. by rewrite Hss.
  - rewrite Hg', Hg1. destruct (g !! ch); cbn; [|done]. rewrite <- app_assoc. by destruct o.
Qed.

Lemma no_series_lookup {S : Type} channels ch :
  (no_series channels : gmap Z (list S)) !! ch = if decide (ch ∈ channels) then Some [] else None.
Proof.
  unfold no_series. induction channels as [|c channels IH]; [done|]. rewrite fmap_cons, list_to_map_cons.
  destruct (decide (c = ch)) as [->|Hne].
  - rewrite lookup_insert_eq, decide_True; [done|apply list_elem_of_here].
  - rewrite lookup_insert_ne, IH by done. destruct (decide (ch ∈ channels)) as [Hin|Hout].
    + by rewrite decide_True by (by apply list_elem_of_further).
    + rewrite decide_False; [done|]. by intros [?|?]%elem_of_cons.
Qed.

(** ** Lemmas: rows by channel *)

Section group_lemmas.
Context {R : Type} (read : text_row -> result R) (channel_of intensity : R -> Z).

Lemma insert_by_perm x l : insert_by intensity x l ≡ₚ x :: l.
Proof using Type.
  induction l as [|y l IH]; [done|]. cbn. destruct (_ <=? _); [done|]. rewrite IH. constructor.
Qed.

Lemma insert_by_sorted x l :
  StronglySorted (intensity_le intensity) l -> StronglySorted (intensity_le intensity) (insert_by intensity x l).
Proof using Type.
  induction 1 as [|y l Hl IH Hy]; cbn; [by repeat constructor|].
  destruct (Z.leb_spec (intensity x) (intensity y)) as [Hxy|Hxy].
  - constructor; [by constructor|]. constructor; [done|]. eapply Forall_impl; [exact Hy|].
    unfold intensity_le. lia.
  - constructor; [done|]. rewrite insert_by_perm. constructor; [unfold intensity_le; lia|done].
Qed.

Lemma insert_by_same x l i :
  filter (fun s => intensity s = i) (insert_by intensity x l) = filter (fun s => intensity s = i) (x :: l).
Proof using Type.
  induction l as [|y l IH]; [done|]. cbn [insert_by]. destruct (Z.leb_spec (intensity x) (intensity y)); [done|].
  rewrite (filter_cons _ y), IH, !filter_cons. repeat case_decide; done || lia.
Qed.

Lemma sort_by_ok l : sorted_rows intensity l (sort_by intensity l).
Proof using Type.
  induction l as [|x l (Hp & Hs & Hf)]; [by repeat constructor|]. cbn. split_and!.
  - by rewrite insert_by_perm, Hp.
  - by apply insert_by_sorted.
  - intros i. rewrite insert_by_same, !filter_cons, Hf. done.
Qed.

Lemma added_rows l g0 g : rfold (add_row read channel_of) l g0 = Ok g ->
  exists rs, rmap read l = Ok rs /\
    forall ch, default [] (g !! ch) = default [] (g0 !! ch) ++ of_channel channel_of ch rs /\
      (is_Some (g !! ch) <-> is_Some (g0 !! ch) \/ of_channel channel_of ch rs <> []).
Proof using Type.
  revert g0. induction l as [|r l IH]; intros g0 H; cbn [rfold] in H.
  { injection H as <-. exists []. split; [done|]. intros ch. split; [by rewrite app_nil_r|]. cbn. naive_solver. }
  apply rbind_ok in H as (g1 & H1 & H). apply rbind_ok in H1 as (s & Hs & H1). injection H1 as <-.
  destruct (IH _ H) as (rs & Hrs & Hg). exists (s :: rs). split; [cbn [rmap]; rewrite Hs; cbn [rbind]; by rewrite Hrs|].
  intros ch. destruct (Hg ch) as [Hd Hi]. unfold of_channel in *. rewrite filter_cons. case_decide as Hch.
  - subst ch. rewrite lookup_insert_eq in Hd, Hi. cbn [from_option id] in Hd. rewrite Hd, <- app_assoc. split; [done|].
    rewrite Hi. split; [by right|left; by eexists].
  - by rewrite lookup_insert_ne in Hd, Hi by done.
Qed.

(** A channel has its rows, sorted; a channel without rows is not there. *)
Lemma grouped_rows l g : group_rows read channel_of intensity l = Ok g ->
  exists rs, rmap read l = Ok rs /\
    forall ch, g !! ch = match of_channel channel_of ch rs with [] => None | l' => Some (sort_by intensity l') end.
Proof using Type.
  unfold group_rows. intros H. apply rbind_ok in H as (g' & H & Hg). injection Hg as <-.
  apply added_rows in H as (rs & Hrs & Hg). exists rs. split; [done|]. intros ch. rewrite lookup_fmap.
  destruct (Hg ch) as [Hd Hi]. rewrite lookup_empty in Hd, Hi. cbn [from_option id app] in Hd. rewrite <- Hd in *.
  destruct (g' !! ch) as [l'|]; cbn in *; [|done].
  destruct l'; [|done]. destruct Hi as [Hi _]. destruct Hi as [[? ?]|?]; done.
Qed.

Lemma some_of_channel ch rs : ch ∈ channel_of <$> rs <-> of_channel channel_of ch rs <> [].
Proof using Type.
  split.
  - intros (s & -> & Hs)%list_elem_of_fmap Hnil. by apply (not_elem_of_nil s); rewrite <- Hnil; apply list_elem_of_filter.
  - intros Hne. destruct (of_channel channel_of ch rs) as [|s t] eqn:Hl; [done|]. apply list_elem_of_fmap. exists s.
    pose proof (list_elem_of_here s t) as Hs. rewrite <- Hl in Hs. by apply list_elem_of_filter in Hs as [<- ?].
Qed.

(** The loop over the groups: the channels of the rows in order, each with its rows. *)
Lemma grouped_entries l g : group_rows read channel_of intensity l = Ok g ->
  exists rs, rmap read l = Ok rs /\ StronglySorted Z.lt (fst <$> sorted_entries g) /\
    (forall ch, ch ∈ fst <$> sorted_entries g <-> ch ∈ channel_of <$> rs) /\
    (forall ch l', (ch, l') ∈ sorted_entries g -> sorted_rows intensity (of_channel channel_of ch rs) l') /\
    (rs = [] -> g = ∅).
Proof using Type.
  intros H. destruct (grouped_rows _ _ H) as (rs & Hrs & Hg). exists rs.
  assert (Hin : forall ch l', (ch, l') ∈ sorted_entries g <->
            of_channel channel_of ch rs <> [] /\ l' = sort_by intensity (of_channel channel_of ch rs)).
  { intros ch l'. rewrite elem_of_sorted_entries, Hg. destruct (of_channel channel_of ch rs); naive_solver. }
  split; [done|]. split; [apply sorted_entries_keys|]. split; [|split].
  - intros ch. rewrite list_elem_of_fmap, some_of_channel. split.
    + intros ([c l'] & -> & Hl). by apply Hin in Hl as [? _].
    + intros Hc. exists (ch, sort_by intensity (of_channel channel_of ch rs)). by rewrite Hin.
  - intros ch l' Hl. apply Hin in Hl as [_ ->]. apply sort_by_ok.
  - intros ->. apply map_empty. intros ch. by rewrite Hg.
Qed.

End group_lemmas.

(** Names that hold a number before the character [c]. *)
Lemma numbered_apart c w dir pre a b t t' : is_int_char c = false ->
  path_join dir (pre +:+ dec_pad w a +:+ String c t) = path_join dir (pre +:+ dec_pad w b +:+ String c t') ->
  a = b /\ t = t'.
Proof.
  intros Hc He%path_join_inj%string_app_inj_l.
  apply until_inj in He as [Ha Ht]; [|by apply dec_pad_chars; intros k; apply int_char_not..].
  split; [by apply (inj (dec_pad w))|done].
Qed.

Section writes.
Context `{HO : Host}.

Lemma spares_for_each {A : Type} p (l : list A) (f : A -> M files unit) :
  (forall x, x ∈ l -> spares p (f x)) -> spares p (for_each l f).
Proof using Type.
  induction l as [|x l IH]; intros Hf; [done|]. apply spares_bind; [apply Hf, list_elem_of_here|].
  intros _. apply IH. intros y Hy. by apply Hf, list_elem_of_further.
Qed.

Lemma figure_saved base d w u w' :
  save_figure base d w = (Ok u, w') -> w' !! (base +:+ ".png") = Some d /\ w' !! (base +:+ ".pdf") = Some d.
Proof using Type.
  unfold save_figure. intros H. inv_bind H. apply put_ok in Hrun as ->. apply put_ok in H as ->.
  rewrite lookup_insert_eq. split; [|done]. rewrite lookup_insert_ne, lookup_insert_eq; [done|].
  intros He%string_app_inj_l. discriminate He.
Qed.

Lemma spares_figure p base d : p <> base +:+ ".png" -> p <> base +:+ ".pdf" -> spares p (save_figure base d).
Proof using Type. intros H1 H2. apply spares_bind; [|intros _]; by apply spares_put, not_eq_sym. Qed.

(** A loop keeps what a turn left at [p] when the other turns leave the same there or spare [p]. *)
Lemma loop_keeps {A : Type} (l : list A) (f : A -> M files unit) x p (P : option doc -> Prop) w u w' :
  for_each l f w = (Ok u, w') -> x ∈ l ->
  let leaves y := forall w1 u1 w2, f y w1 = (Ok u1, w2) -> P (w2 !! p) in
  leaves x -> (forall y, y ∈ l -> leaves y \/ spares p (f y)) -> P (w' !! p).
Proof using Type.
  intros H Hx leaves Hf Hl.
  assert (Hkeep : forall l w w', (forall y, y ∈ l -> leaves y \/ spares p (f y)) ->
            for_each l f w = (Ok u, w') -> P (w !! p) -> P (w' !! p)).
  { clear -leaves. induction l as [|y l IH]; intros w w' Hl H Hp; [by injection H as _ <-|].
    cbn [for_each] in H. inv_bind H. apply (IH w0 w'); [intros z Hz; by apply Hl, list_elem_of_further|done|].
    destruct (Hl y (list_elem_of_here _ _)) as [Hy|Hy]; [by apply (Hy w a w0)|].
    by rewrite (spares_run p _ _ _ _ Hy Hrun). }
  revert w H. induction l as [|y l IH]; intros w H; [by apply not_elem_of_nil in Hx|].
  cbn [for_each] in H. inv_bind H. assert (Hl' : forall z, z ∈ l -> leaves z \/ spares p (f z)).
  { intros z Hz. by apply Hl, list_elem_of_further. }
  apply elem_of_cons in Hx as [->|Hx]; [|by apply (IH Hx Hl' w0)].
  apply (Hkeep l w0 w' Hl' H). by apply (Hf w a w0).
Qed.

End writes.
