(* ===== verification/FftOverlays.v ===== *)
(** The spectra of a dark scan: [scripts/plot_dark_vgain_fft_overlays.py], one figure per channel
    with a curve per point.

    Directories, texts and samples are those of class [Tree] of [WaveStats], the transform and the
    windows those of [OscSpectrum] and [WaveStats]. *)
From S2P Require Import Prelude PyStr PyFloat PyVal ChannelSpec JsonText FeConfig SpyAcquire.
From S2P Require Import SmallTools OscSpectrum WaveStats ScanRuntime ChargeWindows IntensityScan RunFiles Pools PeFit.
From S2P Require Import NoiseRuns DarkScan Figures.

Record overlay_args : Type := OverlayArgs {
  oa_run_dir : string; oa_output_dir : string; oa_channels : string; oa_L : Z; oa_fs : float;
  oa_max_waves : Z; oa_fft_avg_waves : Z; oa_fft_window : string; oa_full_scale : float;
  oa_keep_dc : bool; oa_log_x : bool; oa_interpret : string; oa_overview : bool }.

(** A spectrum: the gain of its point, the frequencies, the levels and the waveforms averaged. *)
Record serie : Type := Serie {
  se_vgain : Z; se_freq_hz : list float; se_dbfs : list float; se_used : Z }.

(** ** Inputs *)

Definition parse_scan_metadata `{Tree} (path : string) : result (gmap string string) := parse_kv_text path.
Definition parse_scan_manifest `{Tree} (path : string) : pyval := DarkScan.parse_scan_manifest path.

(** The points: the numbered directories of the run, else those of its [points]. *)
Definition discover_points `{Tree} (run_dir : string) : list (Z * string) :=
  let at_ dir := omap (fun n => (fun v => (v, path_join dir n)) <$> vgain_of n) (vgain_dirs dir) in
  match at_ run_dir with
  | [] => at_ (path_join run_dir "points")
  | l => l
  end.

(** [k in v] *)
Definition py_in (k : string) (v : pyval) : result bool :=
  match v with
  | PyDict d => Ok (bool_decide (is_Some (lookup_key d k)))
  | PyList l => Ok (existsb (fun x => match x with PyStr s => String.eqb s k | _ => false end) l)
  | PyStr s => Ok (contains k s)
  | _ => Raise (type_error "argument is not iterable")
  end.

Section inputs.
Context (args : overlay_args) (manifest : pyval) (meta : gmap string string).

Definition infer_channels : result (list Z) :=
  if negb (bool_decide (oa_channels args = "")) then parse_channels_expr (oa_channels args)
  else
    v <-! dict_get manifest "channels" PyNone ;;
    match v with
    | PyList l => rmap py_int l
    | _ => match meta !! "channels" with
           | Some text => parse_channels_expr text
           | None => Raise (value_error "Channels could not be inferred. Provide --channels.")
           end
    end.

Definition infer_n_samples : result Z :=
  if 0 <? oa_L args then Ok (oa_L args)
  else match meta !! "waveform_len" with
       | Some text => int10 text
       | None =>
           listed <-! py_in "waveform_len" manifest ;;
           if listed then v <-! item manifest "waveform_len" ;; py_int v
           else Raise (value_error "Waveform length could not be inferred. Provide -L.")
       end.

Definition infer_fs : result float :=
  if f_ltb f_zero (oa_fs args) then Ok (oa_fs args)
  else v <-! dict_get manifest "sampling_rate_hz" (PyFloat (f_of_Z 62500000)) ;; to_float v.

End inputs.

(** ** Spectra *)

Section spectra.
Context `{NP : Numpy, SPE : Spectral, ST : Statistics, TR : Tree}.
Context (args : overlay_args).

(** The spectrum of a channel at a point, unless its file is missing or empty. *)
Definition point_serie (n_samples : Z) (fs_hz : float) (window : list float) (point : Z * string) (ch : Z)
    : result (option serie) :=
  let path := channel_path (snd point) ch in
  match words_at path with
  | None => Ok None
  | Some file =>
      ws <-! WaveStats.load_channel_waves path file n_samples (oa_max_waves args) (oa_interpret args) ;;
      if bool_decide (mjoin (rows ws) = []) then Ok None
      else
        '(freq_hz, fft_dbfs, used) <-! compute_avg_fft_dbfs ws fs_hz window (oa_fft_avg_waves args)
           (oa_full_scale args) (negb (oa_keep_dc args)) ;;
        Ok (Some (Serie (fst point) freq_hz fft_dbfs used))
  end.

Definition collect_fft_series (points : list (Z * string)) (channels : list Z) (n_samples : Z) (fs_hz : float)
    : result (gmap Z (list serie)) :=
  window <-! WaveStats.get_window (oa_fft_window args) n_samples ;;
  rfold (fun g p => rfold (add_found (point_serie n_samples fs_hz window p)) channels g) points (no_series channels).

End spectra.

(** ** Figures *)

Section figures.
Context (args : overlay_args).

(** The first bin that is drawn *)
Definition first_bin (s : serie) : nat :=
  let k0 := if oa_keep_dc args then 0%nat else if (4 <? length (se_freq_hz s))%nat then 4%nat else 0%nat in
  if oa_log_x args then Nat.max k0 1 else k0.

(** The points of a curve, in megahertz; on a logarithmic axis those that have a place. *)
Definition curve_points (s : serie) : result (list (float * float)) :=
  let x := (fun f => np_div f (f_of_Z 1000000)) <$> drop (first_bin s) (se_freq_hz s) in
  ps <-! paired x (drop (first_bin s) (se_dbfs s)) ;;
  Ok (if oa_log_x args then filter (fun p => f_ltb f_zero (fst p) = true) ps else ps).

(** The curves of a panel: spectra without points have none. *)
Definition panel_curves (label : serie -> string) (series : list serie)
    : result (list (string * list (float * float))) :=
  cs <-! rmap (fun s => ps <-! curve_points s ;; Ok (label s, ps)) series ;;
  Ok (filter (fun c => snd c <> []) cs).

Definition channel_figure (run_name : string) (channel : Z) (series : list serie) : result doc :=
  curves <-! panel_curves (fun s => str_Z (se_vgain s)) series ;;
  Ok (DFigure (run_name +:+ " | ch" +:+ dec_pad 2 channel +:+ " FFT overlay across vgain") curves).

(** A page of panels: a curve is named by its channel and its gain. *)
Definition page_figure (run_name : string) (panels : list (Z * list serie)) : result doc :=
  curves <-! rmap (fun p => panel_curves (fun s => "ch" +:+ dec_pad 2 (fst p) +:+ " " +:+ str_Z (se_vgain s)) (snd p))
               panels ;;
  Ok (DFigure (run_name +:+ " | FFT overlays by channel across vgain") (mjoin curves)).

Definition channel_base (output_dir : string) (channel : Z) : string :=
  path_join output_dir ("ch" +:+ dec_pad 2 channel +:+ "_fft_overlay_vs_vgain").

Definition save_channel_plot `{Host} (output_dir run_name : string) (grouped : gmap Z (list serie)) (channel : Z)
    : M files unit :=
  match grouped !! channel with
  | Some (s :: l) =>
      d <- lift (channel_figure run_name channel (s :: l)) ;; save_figure (channel_base output_dir channel) d
  | _ => ret tt
  end.

(** The channels that have spectra, in order *)
Definition drawn_channels (grouped : gmap Z (list serie)) : list (Z * list serie) :=
  omap (fun ch => match grouped !! ch with Some (s :: l) => Some (ch, s :: l) | _ => None end)
    (merge_sort Z.le ((map_to_list grouped).*1)).

Definition page_base (output_dir : string) (page : nat) : string :=
  path_join output_dir ("fft_overlay_overview_page_" +:+ dec_pad 2 (Z.of_nat page)).

Definition save_overview_pages `{Host} (output_dir run_name : string) (grouped : gmap Z (list serie)) : M files unit :=
  for_each (imap pair (pages 4 (drawn_channels grouped))) (fun ip =>
    d <- lift (page_figure run_name (snd ip)) ;; save_figure (page_base output_dir (fst ip)) d).

Definition overlay_manifest (run_dir : string) (points : list (Z * string)) (channels : list Z) (n_samples : Z)
    (fs_hz : float) : pyval :=
  PyDict [("channels", PyList (PyInt <$> channels)); ("fft_avg_waves", PyInt (oa_fft_avg_waves args));
          ("fft_full_scale_counts", PyFloat (oa_full_scale args)); ("fft_keep_dc", PyBool (oa_keep_dc args));
          ("fft_log_x", PyBool (oa_log_x args)); ("fft_window", PyStr (oa_fft_window args));
          ("fs_hz", PyFloat fs_hz); ("interpret", PyStr (oa_interpret args));
          ("max_waves", PyInt (oa_max_waves args)); ("run_dir", PyStr run_dir);
          ("type", PyStr "dark_vgain_fft_channel_overlays");
          ("vgain_values", PyList (PyInt <$> points.*1)); ("waveform_len", PyInt n_samples)].

(** ** [main] *)

Context `{NP : Numpy, SPE : Spectral, ST : Statistics, TR : Tree, HO : Host}.

Definition overlay_dir (run_dir : string) : string :=
  if decide (oa_output_dir args = "") then path_join run_dir "fft_channel_overlays_vgain"
  else at_path (oa_output_dir args).

Definition overlay_main : M files Z :=
  let run_dir := at_path (oa_run_dir args) in
  if negb (exists_at run_dir) then ret 2
  else
    let output_dir := overlay_dir run_dir in
    lift (file_ok output_dir) ;;;
    let manifest := parse_scan_manifest (path_join run_dir "scan_manifest.json") in
    meta <- lift (parse_scan_metadata (path_join run_dir "scan_metadata.txt")) ;;
    let points := discover_points run_dir in
    match points with
    | [] => ret 2
    | _ =>
        channels <- lift (infer_channels args manifest meta) ;;
        n_samples <- lift (infer_n_samples args manifest meta) ;;
        fs_hz <- lift (infer_fs args manifest) ;;
        grouped <- lift (collect_fft_series args points channels n_samples fs_hz) ;;
        let run_name := path_name run_dir in
        for_each channels (save_channel_plot output_dir run_name grouped) ;;;
        when (oa_overview args) (save_overview_pages output_dir run_name grouped) ;;;
        put (path_join output_dir "overlay_manifest.json")
          (DJson (overlay_manifest run_dir points channels n_samples fs_hz)) ;;;
        ret 0
    end.

End figures.

(** ** Lemmas: the spectra of a channel *)

Section collected.
Context `{NP : Numpy, SPE : Spectral, ST : Statistics, TR : Tree}.
Context (args : overlay_args) (n_samples : Z) (fs_hz : float) (window : list float).

(** The spectra of one channel, point by point. *)
Definition channel_series (points : list (Z * string)) (ch : Z) : result (list serie) :=
  ss <-! rmap (fun p => point_serie args n_samples fs_hz window p ch) points ;; Ok (omap id ss).

End collected.

(** ** Lemmas: curves *)

Section curves.
Context (args : overlay_args).

(** The bin [k] of a spectrum is drawn as [p]. *)
Definition drawn_bin (s : serie) (p : float * float) : Prop :=
  exists k f l, (first_bin args s <= k)%nat /\ se_freq_hz s !! k = Some f /\ se_dbfs s !! k = Some l /\
    p = (np_div f (f_of_Z 1000000), l) /\ (oa_log_x args = true -> f_ltb f_zero (fst p) = true).

Definition curve_of (label : serie -> string) (s : serie) (c : string * list (float * float)) : Prop :=
  fst c = label s /\ forall p, p ∈ snd c <-> drawn_bin s p.

Lemma in_pairs x y k ps p : paired ((fun f => np_div f (f_of_Z 1000000)) <$> drop k x) (drop k y) = Ok ps ->
  p ∈ ps <-> exists j f l, (k <= j)%nat /\ x !! j = Some f /\ y !! j = Some l /\ p = (np_div f (f_of_Z 1000000), l).
Proof using Type.
  unfold paired. destruct (_ =? _)%nat; [|done]. intros [= <-]. split.
  - intros [i Hi]%list_elem_of_lookup. destruct p as [a b]. apply lookup_zip_Some in Hi as [Hx Hy].
    rewrite list_lookup_fmap, lookup_drop in Hx. apply fmap_Some in Hx as (f & Hf & ->). rewrite lookup_drop in Hy.
    exists (k + i)%nat, f, b. split_and!; [lia|done..].
  - intros (j & f & l & Hj & Hf & Hl & ->). apply (list_elem_of_lookup_2 _ (j - k)%nat). apply lookup_zip_Some.
    rewrite list_lookup_fmap, !lookup_drop. replace (k + (j - k))%nat with j by lia.
    by rewrite Hf, Hl.
Qed.

Lemma curve_drawn label s ps : curve_points args s = Ok ps -> curve_of label s (label s, ps).
Proof using Type.
  unfold curve_points. intros H. apply rbind_ok in H as (all & Hall & H). injection H as <-.
  split; [done|]. intros p. cbn [snd]. destruct (oa_log_x args) eqn:Hlog.
  - rewrite list_elem_of_filter, (in_pairs _ _ _ _ _ Hall). unfold drawn_bin. split.
    + intros (Hpos & k & f & l & H1 & H2 & H3 & ->). by exists k, f, l.
    + intros (k & f & l & H1 & H2 & H3 & -> & Hpos). split; [by apply Hpos|]. by exists k, f, l.
  - rewrite (in_pairs _ _ _ _ _ Hall). unfold drawn_bin. rewrite Hlog.
    split; intros (k & f & l & H1 & H2 & H3 & H4); exists k, f, l; [done|by destruct H4].
Qed.

Lemma panel_drawn label series curves :
  panel_curves args label series = Ok curves ->
  exists cs, Forall2 (curve_of label) series cs /\ curves = filter (fun c => snd c <> []) cs.
Proof using Type.
  unfold panel_curves. intros H. apply rbind_ok in H as (cs & Hcs & H). injection H as <-. exists cs.
  split; [|done]. apply rmap_ok in Hcs. eapply Forall2_impl; [exact Hcs|]. cbv beta. intros s c Hc.
  apply rbind_ok in Hc as (ps & Hps & Hc). injection Hc as <-. by apply curve_drawn.
Qed.

End curves.

(** ** Lemmas: the files of the figures *)

Section saved.
Context `{HO : Host} (args : overlay_args).

Lemma channel_file_name dir ch s :
  channel_base dir ch +:+ s = path_join dir ("ch" +:+ dec_pad 2 ch +:+ String "_" ("fft_overlay_vs_vgain" +:+ s)).
Proof using Type. unfold channel_base. by rewrite path_join_suffix, !append_assoc. Qed.

Lemma page_file_name dir i s :
  page_base dir i +:+ s = path_join dir ("fft_overlay_overview_page_" +:+ dec_pad 2 (Z.of_nat i) +:+ s).
Proof using Type. unfold page_base. by rewrite path_join_suffix, !append_assoc. Qed.

Lemma channels_apart dir a b s s' : a <> b -> channel_base dir a +:+ s <> channel_base dir b +:+ s'.
Proof using Type. intros Hab. rewrite !channel_file_name. by intros [He _]%numbered_apart. Qed.

Lemma spares_channel dir run grouped ch p :
  (forall s, p <> channel_base dir ch +:+ s) -> spares p (save_channel_plot args dir run grouped ch).
Proof using Type.
  intros Hp. unfold save_channel_plot. destruct (grouped !! ch) as [[|s l]|]; [done| |done].
  apply spares_bind; [done|]. intros d. by apply spares_figure.
Qed.

Lemma spares_pages dir run grouped p :
  (forall i s, p <> page_base dir i +:+ s) -> spares p (save_overview_pages args dir run grouped).
Proof using Type.
  intros Hp. apply spares_for_each. intros [i page] _. apply spares_bind; [done|]. intros d. by apply spares_figure.
Qed.

(** What the loop over the channels leaves for a channel with spectra, and for one without. *)
Lemma channel_saved dir run grouped channels ch s l w u w' :
  for_each channels (save_channel_plot args dir run grouped) w = (Ok u, w') -> ch ∈ channels ->
  grouped !! ch = Some (s :: l) -> exists d, channel_figure args run ch (s :: l) = Ok d /\
    w' !! (channel_base dir ch +:+ ".png") = Some d /\ w' !! (channel_base dir ch +:+ ".pdf") = Some d.
Proof using Type.
  intros H Hch Hg.
  assert (Hturn : forall w1 u1 w2, save_channel_plot args dir run grouped ch w1 = (Ok u1, w2) ->
            exists d, channel_figure args run ch (s :: l) = Ok d /\
              w2 !! (channel_base dir ch +:+ ".png") = Some d /\ w2 !! (channel_base dir ch +:+ ".pdf") = Some d).
  { intros w1 u1 w2 H1. unfold save_channel_plot in H1. rewrite Hg in H1. inv_bind H1. injection Hrun as Hd <-.
    exists a. split; [done|]. by apply figure_saved in H1. }
  assert (Hother : forall e y, y ∈ channels -> y <> ch ->
            spares (channel_base dir ch +:+ e) (save_channel_plot args dir run grouped y)).
  { intros e y _ Hy. apply spares_channel. intros s'. by apply channels_apart, not_eq_sym. }
  assert (Hkeep : forall e (P : option doc -> Prop),
            (forall w1 u1 w2, save_channel_plot args dir run grouped ch w1 = (Ok u1, w2) ->
               P (w2 !! (channel_base dir ch +:+ e))) -> P (w' !! (channel_base dir ch +:+ e))).
  { intros e P Hleaves. apply (loop_keeps channels _ ch _ P _ _ _ H Hch); [exact Hleaves|].
    intros y Hy. destruct (decide (y = ch)) as [->|Hne]; [by left|right; by apply Hother]. }
  destruct (channel_figure args run ch (s :: l)) as [d|e] eqn:Hd.
  - exists d. split; [done|].
    split; apply Hkeep; intros w1 u1 w2 H1; by destruct (Hturn _ _ _ H1) as (d' & [= <-] & ? & ?).
  - exfalso. apply (Hkeep "" (fun _ => False)). intros w1 u1 w2 H1. by destruct (Hturn _ _ _ H1) as (d' & ? & _).
Qed.

Lemma no_figure_changed dir run grouped channels ch e w u w' :
  for_each channels (save_channel_plot args dir run grouped) w = (Ok u, w') ->
  grouped !! ch = Some [] -> w' !! (channel_base dir ch +:+ e) = w !! (channel_base dir ch +:+ e).
Proof using Type.
  intros H Hg. eapply spares_run; [|exact H]. apply spares_for_each. intros y _. destruct (decide (y = ch)) as [->|Hy].
  - unfold save_channel_plot. by rewrite Hg.
  - apply spares_channel. intros s'. by apply channels_apart, not_eq_sym.
Qed.

Lemma page_saved dir run grouped i page w u w' :
  save_overview_pages args dir run grouped w = (Ok u, w') -> pages 4 (drawn_channels grouped) !! i = Some page ->
  exists d, page_figure args run page = Ok d /\ w' !! (page_base dir i +:+ ".png") = Some d.
Proof using Type.
  intros H Hp. unfold save_overview_pages in H.
  set (f := fun ip : nat * list (Z * list serie) => _) in H.
  assert (Hin : (i, page) ∈ imap pair (pages 4 (drawn_channels grouped))).
  { apply (list_elem_of_lookup_2 _ i). rewrite list_lookup_imap. exact (f_equal (fmap (pair i)) Hp). }
  assert (Hturn : forall w1 u1 w2, f (i, page) w1 = (Ok u1, w2) ->
            exists d, page_figure args run page = Ok d /\ w2 !! (page_base dir i +:+ ".png") = Some d).
  { intros w1 u1 w2 H1. unfold f in H1. inv_bind H1. injection Hrun as Hd <-. exists a. split; [done|].
    by apply figure_saved in H1 as [? _]. }
  apply (loop_keeps _ f (i, page) (page_base dir i +:+ ".png")
           (fun o => exists d, page_figure args run page = Ok d /\ o = Some d) _ _ _ H Hin); [exact Hturn|].
  intros [j page'] Hy. destruct (decide (j = i)) as [->|Hji].
  - left. apply elem_of_lookup_imap_1 in Hy as (k & x & [= <- <-] & Hx). rewrite Hp in Hx. by injection Hx as <-.
  - right. apply spares_bind; [done|]. intros d.
    apply spares_figure; rewrite !page_file_name; intros [He _]%numbered_apart; try done.
    all: cbn [fst] in He; lia.
Qed.

End saved.

(** C29. The figures of a dark scan.  [main] ends with status 2 and has written no file, or with status
    0.  Then, when no channel is named twice, each channel has its spectra, one per point that has a
    file with samples, in the order of the points, and no other: with spectra, its figure is saved
    twice under its number with their curves, and without any its files are as before.  A curve
    holds exactly the bins of its spectrum from the first one that is drawn, in megahertz, on a
    logarithmic axis those above 0.  With [--overview] each page of four panels is saved, and the
    manifest says what was drawn. *)
Theorem overlays_complete `{NP : Numpy, SPE : Spectral, ST : Statistics, TR : Tree, HO : Host} args w code w' :
  overlay_main args w = (Ok code, w') ->
  (code = 2 /\ w' = w) \/
  (code = 0 /\ exists meta channels n_samples fs_hz window grouped,
     let run_dir := at_path (oa_run_dir args) in
     let dir := overlay_dir args run_dir in
     let manifest := parse_scan_manifest (path_join run_dir "scan_manifest.json") in
     let points := discover_points run_dir in
     points <> [] /\ parse_scan_metadata (path_join run_dir "scan_metadata.txt") = Ok meta /\
     infer_channels args manifest meta = Ok channels /\ infer_n_samples args manifest meta = Ok n_samples /\
     infer_fs args manifest = Ok fs_hz /\ WaveStats.get_window (oa_fft_window args) n_samples = Ok window /\
     (NoDup channels -> forall ch, ch ∈ channels -> exists series,
        channel_series args n_samples fs_hz window points ch = Ok series /\ grouped !! ch = Some series /\
        (series = [] -> forall e, w' !! (channel_base dir ch +:+ e) = w !! (channel_base dir ch +:+ e)) /\
        (series <> [] -> exists title cs,
           Forall2 (curve_of args (fun s => str_Z (se_vgain s))) series cs /\
           let d := DFigure title (filter (fun c => snd c <> []) cs) in
           w' !! (channel_base dir ch +:+ ".png") = Some d /\ w' !! (channel_base dir ch +:+ ".pdf") = Some d)) /\
     (oa_overview args = true -> forall i page, pages 4 (drawn_channels grouped) !! i = Some page ->
        exists d, page_figure args (path_name run_dir) page = Ok d /\ w' !! (page_base dir i +:+ ".png") = Some d) /\
     w' !! path_join dir "overlay_manifest.json"
       = Some (DJson (overlay_manifest args run_dir points channels n_samples fs_hz))).
Proof.
  unfold overlay_main. cbv zeta. set (run_dir := at_path _). destruct (exists_at run_dir); cbn [negb].
  2: { intros [= <- <-]. by left. }
  set (dir := overlay_dir args run_dir). set (manifest := parse_scan_manifest _). intros H. do 2 inv_bind H.
  injection Hrun as _ <-. injection Hrun0 as Hmeta <-. rename a0 into meta.
  destruct (discover_points run_dir) as [|p ps] eqn:Hpts; [injection H as <- <-; by left|].
  right. rewrite <- Hpts in *. assert (Hne : discover_points run_dir <> []) by (rewrite Hpts; discriminate).
  clear p ps Hpts. do 7 inv_bind H. injection H as <- <-. split; [done|].
  injection Hrun as Hch <-. injection Hrun0 as Hn <-. injection Hrun1 as Hfs <-. injection Hrun2 as Hg <-.
  rename a0 into channels, a1 into n_samples, a2 into fs_hz, a3 into grouped, w4 into w1, w5 into w2, w6 into w3.
  unfold collect_fft_series in Hg. apply rbind_ok in Hg as (window & Hwin & Hg).
  exists meta, channels, n_samples, fs_hz, window, grouped. split_and!; try done.
  - intros Hnd ch Hin. pose proof (added_points _ _ _ _ _ Hg Hnd ch) as Hs.
    rewrite no_series_lookup, !decide_True in Hs by done. destruct Hs as (ss & Hs & Hgch).
    set (series := omap id ss). exists series.
    split; [unfold channel_series; by rewrite Hs|]. split; [done|]. change (omap id ss) with series in Hgch.
    cbn [fmap option_fmap option_map app] in Hgch. clearbody series. clear Hs ss.
    assert (Hlate : forall e, w3 !! (channel_base dir ch +:+ e) = w1 !! (channel_base dir ch +:+ e)).
    { intros e. etrans; [eapply spares_run; [|exact Hrun5]|eapply spares_run; [|exact Hrun4]].
      - apply spares_put. rewrite channel_file_name. by intros He%path_join_inj.
      - apply spares_when, spares_pages. intros i s. rewrite channel_file_name, page_file_name. by intros He%path_join_inj. }
    split.
    + intros ->. intros e. rewrite Hlate. by apply (no_figure_changed _ _ _ _ _ _ _ _ _ _ Hrun3).
    + intros Hsome. destruct series as [|s l]; [done|].
      destruct (channel_saved _ _ _ _ _ _ _ _ _ _ _ Hrun3 Hin Hgch) as (d & Hd & Hpng & Hpdf).
      apply rbind_ok in Hd as (cs' & Hcs & Hd). injection Hd as <-.
      destruct (panel_drawn _ _ _ _ Hcs) as (cs & Hf & ->). eexists _, cs. by rewrite !Hlate.
  - intros Hov i page Hp. rewrite Hov in Hrun4. destruct (page_saved _ _ _ _ _ _ _ _ _ Hrun4 Hp) as (d & Hd & Hpng).
    exists d. split; [done|]. etrans; [eapply spares_run; [|exact Hrun5]|exact Hpng]. apply spares_put.
    rewrite page_file_name. by intros He%path_join_inj.
  - apply put_ok in Hrun5 as ->. apply lookup_insert_eq.
Qed.

(** ** Two points of one channel *)

#[local] Existing Instances some_numpy some_host some_spectral some_statistics.

#[local] Instance overlay_tree : Tree := {
  listing := fun d => if decide (d = "run") then Some {["vgain_500"; "vgain_1000"; "vgain_x"; "scan_metadata.txt"]}
    else if bool_decide (d ∈ ["run/vgain_500"; "run/vgain_1000"; "run/vgain_x"]) then Some ∅ else None;
  text_at := fun p => if decide (p = "run/scan_metadata.txt")
    then Some (Ok ("channels=5,3" +:+ String "010" "waveform_len=4")) else None;
  words_at := fun p => if bool_decide (p ∈ ["run/vgain_500/channel_5.dat"; "run/vgain_1000/channel_5.dat"])
    then Some (Ok [100; 101; 99; 100; 102; 100; 98; 100]) else None;
  at_path := fun p => p; str_other := fun _ => ""; html_page := fun name _ _ => name }.

Definition some_overlay_args : overlay_args :=
  {| oa_run_dir := "run"; oa_output_dir := "out"; oa_channels := ""; oa_L := 0; oa_fs := f_zero; oa_max_waves := 0;
     oa_fft_avg_waves := 2000; oa_fft_window := "HANNING"; oa_full_scale := f_of_Z 16384; oa_keep_dc := false;
     oa_log_x := true; oa_interpret := "signed"; oa_overview := true |}.

Lemma overlays_complete_witness :
  exists w' title c1 c2, overlay_main some_overlay_args ∅ = (Ok 0, w') /\
    w' !! "out/ch05_fft_overlay_vs_vgain.pdf" = Some (DFigure title [("1000", c1); ("500", c2)]) /\
    w' !! "out/ch03_fft_overlay_vs_vgain.pdf" = None.
Proof.
  destruct (overlay_main some_overlay_args ∅) as [r w'] eqn:Hm.
  assert (Hr : r = Ok 0) by (change r with (fst (r, w')); rewrite <- Hm; vm_compute; reflexivity). subst r.
  destruct (overlays_complete some_overlay_args ∅ 0 w' Hm) as [[Hc _]|(_ & meta & chs & n & fs & win & g & H)];
    [discriminate Hc|].
  destruct H as (_ & Hmeta & Hch & Hn & Hfs & Hwin & H & _).
  assert (Hm' : meta = match parse_scan_metadata "run/scan_metadata.txt" with Ok m => m | Raise _ => ∅ end).
  { change (parse_scan_metadata "run/scan_metadata.txt" = Ok meta) in Hmeta. by rewrite Hmeta. }
  subst meta. clear Hmeta. vm_compute in Hch. injection Hch as <-.
  vm_compute in Hn. injection Hn as <-. vm_compute in Hfs. injection Hfs as <-. vm_compute in Hwin. injection Hwin as <-.
  assert (Hnd : NoDup [3; 5]) by (apply (bool_decide_unpack _); vm_compute; exact I).
  specialize (H Hnd). destruct (H 5) as (s5 & Hs5 & _ & _ & H5); [apply (bool_decide_unpack _); vm_compute; exact I|].
  destruct (H 3) as (s3 & Hs3 & _ & H3 & _); [apply (bool_decide_unpack _); vm_compute; exact I|].
  vm_compute in Hs5. injection Hs5 as <-. vm_compute in Hs3. injection Hs3 as <-.
  destruct H5 as (title & cs & _ & _ & Hpdf); [discriminate|].
  change (channel_base _ 5 +:+ ".pdf") with "out/ch05_fft_overlay_vs_vgain.pdf" in Hpdf.
  assert (Hcs : exists t c1 c2, w' !! "out/ch05_fft_overlay_vs_vgain.pdf" = Some (DFigure t [("1000", c1); ("500", c2)])).
  { change w' with (snd (Ok 0, w')). rewrite <- Hm. vm_compute. eauto. }
  destruct Hcs as (t & c1 & c2 & Hcs). exists w', t, c1, c2. split; [reflexivity|]. split; [exact Hcs|].
  specialize (H3 eq_refl ".pdf"). rewrite lookup_empty in H3. exact H3.
Defined.
