(* ===== verification/FftSelector.v ===== *)
(** The page of spectra of runs without bias: [scripts/plot_no_bias_fft_selector.py], from the tables
    of [study_no_bias_noise_runs.py] and the waveforms of the runs.

    The page is its template ([selector_page]) applied to what it shows.  The rate of decimation is
    a quotient of lengths; the division of floats gives its ceiling exactly for arrays that fit in
    memory. *)
From S2P Require Import Prelude PyStr PyFloat PyVal ChannelSpec JsonText FeConfig SpyAcquire SpiDev.
From S2P Require Import OscSpectrum WaveStats ScanRuntime ChargeWindows IntensityScan RunFiles Pools PeFit.
From S2P Require Import NoiseRuns NoiseStudy NoiseBatch Figures.

(** The text of the page: its title, the options of the filter, the traces, the runs by name and the
    runs in order. *)
Class SelectorPage : Type := { selector_page : string -> list string -> pyval -> pyval -> pyval -> string }.

Record selector_args : Type := SelectorArgs {
  fa_database_csv : string; fa_summary_csv : string; fa_output_html : string; fa_max_waves : Z;
  fa_fft_avg_waves : Z; fa_fft_window : string; fa_fs : float; fa_interpret : string;
  fa_max_freq_points : Z; fa_title : string }.

(** ** Runs *)

(** [to_float]: what cannot be read is not a number. *)
Definition number_or_nan (value : string) : float :=
  match py_float value with Ok x => x | Raise _ => S754_nan end.

Definition parse_layout_part (out : gmap Z string) (part : string) : gmap Z string :=
  let part := strip part in
  match strip_prefix "AFE" part, split_once ":" part with
  | Some _, Some (lhs, rhs) => match int10 (replace_str "AFE" "" lhs) with
                               | Ok afe => <[afe := strip rhs]> out
                               | Raise _ => out
                               end
  | _, _ => out
  end.

Definition parse_layout_map (layout : string) : gmap Z string := foldl parse_layout_part ∅ (split_on "," layout).

(** The columns of a summary row, those copied from the database, and the numbers. *)
Definition summary_columns : list string :=
  ["run_name"; "run_kind"; "connection_mode"; "topology_label"; "technology_layout"; "selected_dataset_path";
   "selected_setting_kind"; "selected_setting_value"; "channels"].
Definition database_columns : list string := ["source_root"; "analysis_status"; "config_summary"; "notes"].
Definition metric_columns : list string :=
  ["mean_abs_corr_cross_afe"; "max_abs_corr_value"; "median_fft_floor_dbfs"; "median_ac_rms_counts"].

Record merged : Type := Merged {
  mg_texts : text_row; mg_waveform_len : Z; mg_metrics : list (string * float) }.

(** A text of a merged row *)
Definition mg_text (m : merged) (k : string) : string := default "" (text_get (mg_texts m) k).

Definition mg_name (m : merged) : string := mg_text m "run_name".

(** The row as the page has it *)
Definition mg_dict (m : merged) : row :=
  (prod_map id PyStr <$> mg_texts m) ++ ("waveform_len", PyInt (mg_waveform_len m))
  :: (prod_map id PyFloat <$> mg_metrics m).

Definition index_rows (rows : list text_row) : result (gmap string text_row) :=
  rfold (fun m r => name <-! text_item r "run_name" ;; Ok (<[name := r]> m)) rows ∅.

Definition merge_row (db_by_name : gmap string text_row) (r : text_row) : result merged :=
  name <-! text_item r "run_name" ;;
  let db := default [] (db_by_name !! name) in
  texts <-! rmap (fun k => v <-! text_item r k ;; Ok (k, v)) summary_columns ;;
  let len := default "0" (text_get db "waveform_len") in
  waveform_len <-! (if decide (len = "") then Ok 0 else int10 len) ;;
  Ok (Merged (texts ++ ((fun k => (k, default "" (text_get db k))) <$> database_columns)) waveform_len
        ((fun k => (k, number_or_nan (default "" (text_get r k)))) <$> metric_columns)).

Definition merge_rows (database_rows summary_rows : list text_row) : result (list merged) :=
  db_by_name <-! index_rows database_rows ;;
  ms <-! rmap (merge_row db_by_name) summary_rows ;;
  Ok (filter (fun m => mg_text m "analysis_status" = "analyzed") ms).

Definition name_le (a b : merged) : Prop := str_le (mg_name a) (mg_name b).

#[export] Instance name_le_dec : RelDecision name_le.
Proof. intros a b. unfold name_le. apply _. Defined.

(** ** Traces *)

(** [l[::n]] *)
Definition stride {A : Type} (n : nat) (l : list A) : list A :=
  omap (fun k => l !! (k * n)%nat) (seq 0 ((length l + n - 1) / n)).

(** [max(1, int(math.ceil(size / max(1, max_points))))] *)
Definition stride_of (size : nat) (max_points : Z) : nat :=
  let m := Z.to_nat (Z.max 1 max_points) in Nat.max 1 ((size + m - 1) / m).

(** [np.median(np.vstack(l), axis=0)]: the median of each column. *)
Definition median_columns `{Numpy} (l : list (list float)) : result (list float) :=
  let n := length (default [] (head l)) in
  if forallb (fun r => (length r =? n)%nat) l
  then Ok ((fun k => np_median (omap (fun r : list float => r !! k) l)) <$> seq 0 n)
  else Raise (value_error "all the input array dimensions except for the concatenation axis must match exactly").

Record trace : Type := Trace {
  tr_run : merged; tr_afe : Z; tr_label : string; tr_freq_mhz : list float; tr_dbfs : list float }.

Section traces.
Context `{NP : Numpy, SPE : Spectral, ST : Statistics, TR : Tree}.
Context (args : selector_args).

(** The spectrum of a channel; the mean over no records is not a number in any bin. *)
Definition channel_spectrum (ws : waves) (window : list float) : result (list float * list float) :=
  match rows ws with
  | [] => d <-! f_div (f_of_Z 1) (fa_fs args) ;;
          Ok (np_rfftfreq (cols ws) d, replicate (Z.to_nat (cols ws / 2 + 1)) S754_nan)
  | _ => '(freq_hz, fft_dbfs, _) <-! compute_avg_fft_dbfs ws (fa_fs args) window (fa_fft_avg_waves args)
           (f_of_Z 16384) true ;; Ok (freq_hz, fft_dbfs)
  end.

(** The spectra of the channels that can be read, in order. *)
Definition channel_spectra (dataset_path : string) (n_samples : Z) (window : list float) (channels : list Z)
    : result (list (Z * (list float * list float))) :=
  found <-! rmap (fun ch =>
    let path := channel_path dataset_path ch in
    match words_at path with
    | None => Ok None
    | Some file =>
        match WaveStats.load_channel_waves path file n_samples (fa_max_waves args) (fa_interpret args) with
        | Raise _ => Ok None
        | Ok ws => s <-! channel_spectrum ws window ;; Ok (Some (ch, s))
        end
    end) channels ;;
  Ok (omap id found).

(** The spectra of the channels of an AFE *)
Definition afe_spectra (spectra : list (Z * (list float * list float))) (afe : Z) : list (list float) :=
  (fun s => snd (snd s)) <$> filter (fun s => channel_to_afe (fst s) = afe) spectra.

Definition afe_trace (m : merged) (afe_map : gmap Z string) (step : nat) (freq_mhz : list float)
    (spectra : list (Z * (list float * list float))) (afe : Z) : result trace :=
  median_curve <-! median_columns (afe_spectra spectra afe) ;;
  let afe_label := default "" (afe_map !! afe) in
  let label := "AFE" +:+ str_Z afe +:+ (if decide (afe_label = "") then "" else " " +:+ afe_label) in
  Ok (Trace m afe label freq_mhz (stride step median_curve)).

Definition load_fft_traces (m : merged) : result (list trace) :=
  let dataset_path := at_path (mg_text m "selected_dataset_path") in
  let n_samples := mg_waveform_len m in
  if negb (exists_at dataset_path) || (n_samples <=? 0) then Ok []
  else
    window <-! WaveStats.get_window (fa_fft_window args) n_samples ;;
    channels <-! WaveStats.discover_channels dataset_path ;;
    spectra <-! channel_spectra dataset_path n_samples window channels ;;
    match spectra with
    | [] => Ok []
    | (_, (freq_axis, _)) :: _ =>
        let step := stride_of (length freq_axis) (fa_max_freq_points args) in
        let freq_mhz := (fun f => np_div f (f_of_Z 1000000)) <$> stride step freq_axis in
        rmap (afe_trace m (parse_layout_map (mg_text m "technology_layout")) step freq_mhz spectra)
          (sorted_set (channel_to_afe ∘ fst <$> spectra))
    end.

End traces.

Definition trace_dict (t : trace) : pyval :=
  let m := tr_run t in
  let texts ks := (fun k => (k, PyStr (mg_text m k))) <$> ks in
  PyDict (texts ["run_name"; "run_kind"; "connection_mode"; "topology_label"; "technology_layout"]
    ++ [("afe", PyInt (tr_afe t)); ("afe_label", PyStr (tr_label t)); ("freq_mhz", floats (tr_freq_mhz t));
        ("fft_dbfs", floats (tr_dbfs t))]
    ++ texts ["selected_setting_kind"; "selected_setting_value"; "source_root"; "config_summary"; "notes"]
    ++ (prod_map id PyFloat <$> mg_metrics m)).

(** ** The page *)

(** [html.escape] *)
Definition html_escape_all (s : string) : string :=
  replace_char (char 39) "&#x27;" (replace_char (char 34) "&quot;" (html_escape s)).

Definition quote (s : string) : string := String (char 34) (s +:+ String (char 34) "").

Definition value_le (a b : float * string) : Prop := f_leb (fst a) (fst b) = true.

#[local] Instance value_le_dec : RelDecision value_le.
Proof. intros a b. unfold value_le. apply _. Defined.

(** The values of the filter, each once, by number. *)
Definition vgain_values (rows : list merged) : result (list string) :=
  let values := remove_dups (filter (fun v => v <> "")
    ((fun m => mg_text m "selected_setting_value")
       <$> filter (fun m => mg_text m "selected_setting_kind" = "vgain") rows)) in
  keys <-! rmap py_float values ;;
  Ok (snd <$> merge_sort value_le (zip keys values)).

Definition vgain_option (value : string) : string :=
  "<option value=" +:+ quote (html_escape_all value) +:+ ">" +:+ html_escape_all value +:+ "</option>".

Definition vgain_options (rows : list merged) (values : list string) : list string :=
  ["<option value=" +:+ quote "all" +:+ " selected>All</option>"]
  ++ (if existsb (fun m => negb (bool_decide (mg_text m "selected_setting_kind" = "vgain"))
                           || bool_decide (mg_text m "selected_setting_value" = "")) rows
      then ["<option value=" +:+ quote "fixed" +:+ ">Fixed / other</option>"] else [])
  ++ (vgain_option <$> values).

Definition build_html `{SelectorPage} (title : string) (rows : list merged) (traces : list trace)
    : result string :=
  values <-! vgain_values rows ;;
  Ok (selector_page (html_escape_all title) (vgain_options rows values) (PyList (trace_dict <$> traces))
        (PyDict (foldl (fun d m => row_put d (mg_name m) (PyDict (mg_dict m))) [] rows))
        (PyList (PyDict ∘ mg_dict <$> rows))).

Section main.
Context `{NP : Numpy, SPE : Spectral, ST : Statistics, TR : Tree, TA : Tables, HO : Host, SEL : SelectorPage}.
Context (args : selector_args).

Definition selector_main : M files Z :=
  database_rows <- lift (read_csv (at_path (fa_database_csv args))) ;;
  summary_rows <- lift (read_csv (at_path (fa_summary_csv args))) ;;
  ms <- lift (merge_rows database_rows summary_rows) ;;
  let rows := merge_sort name_le ms in
  traces <- lift (rmap (load_fft_traces args) rows) ;;
  let out_path := at_path (fa_output_html args) in
  lift (file_ok (parent_path out_path)) ;;;
  page <- lift (build_html (fa_title args) rows (mjoin traces)) ;;
  put out_path (DText page) ;;;
  ret 0.

End main.

(** ** Lemmas: every n-th element *)

Lemma omap_total {A B : Type} (f : A -> option B) l :
  (forall x, x ∈ l -> is_Some (f x)) -> length (omap f l) = length l /\ forall k, omap f l !! k = l !! k ≫= f.
Proof.
  induction l as [|x l IH]; intros Hf; [done|]. destruct (Hf x (list_elem_of_here _ _)) as [y Hy].
  destruct IH as [Hl Hk]; [intros z Hz; by apply Hf, list_elem_of_further|]. cbn [omap list_omap]. rewrite Hy.
  split; [exact (f_equal S Hl)|]. intros [|k]; [exact (eq_sym Hy)|apply Hk].
Qed.

Lemma stride_lookup {A : Type} n (l : list A) : (0 < n)%nat ->
  length (stride n l) = ((length l + n - 1) / n)%nat /\ forall k, stride n l !! k = l !! (k * n)%nat.
Proof.
  intros Hn. unfold stride. pose proof (Nat.div_mod_eq (length l + n - 1) n) as Hd.
  pose proof (Nat.mod_upper_bound (length l + n - 1) n) as Hm.
  set (c := ((length l + n - 1) / n)%nat) in *.
  destruct (omap_total (fun k => l !! (k * n)%nat) (seq 0 c)) as [Hl Hk].
  { intros k Hk%elem_of_seq. apply lookup_lt_is_Some_2. nia. }
  split; [by rewrite Hl, length_seq|]. intros k. rewrite Hk. destruct (decide (k < c)%nat) as [Hlt|Hge].
  - rewrite lookup_seq_lt by done. done.
  - rewrite lookup_seq_ge by lia. symmetry. apply lookup_ge_None_2. nia.
Qed.

(** The decimation keeps at most the points that were asked for. *)
Lemma stride_bound {A : Type} (l : list A) m :
  Z.of_nat (length (stride (stride_of (length l) m) l)) <= Z.max 1 m.
Proof.
  unfold stride_of. set (b := Z.to_nat (Z.max 1 m)). set (n := Nat.max 1 _). assert (Hb : (0 < b)%nat) by lia.
  assert (Hn : (0 < n)%nat) by lia. destruct (stride_lookup n l Hn) as [-> _].
  assert (Hsize : (length l <= n * b)%nat).
  { pose proof (Nat.div_mod_eq (length l + b - 1) b). pose proof (Nat.mod_upper_bound (length l + b - 1) b). nia. }
  enough ((length l + n - 1) / n < S b)%nat by lia. apply Nat.Div0.div_lt_upper_bound. nia.
Qed.

(** ** Lemmas: lengths of spectra *)

(** The documented lengths of numpy's transform. *)
Class TransformLaws `{SPE : Spectral, ST : Statistics} : Prop := {
  rfft_length l : length (rfft l) = (length l / 2 + 1)%nat;
  rfftfreq_length n d : 0 <= n -> length (np_rfftfreq n d) = Z.to_nat (n / 2 + 1);
  mean_rows_length l n : l <> [] -> Forall (fun r => length r = n) l -> length (mean_rows l) = n }.

Lemma reshape_lengths k n l : (k * n <= length l)%nat -> Forall (fun r : list Z => length r = n) (reshape k n l).
Proof.
  revert l. induction k as [|k IH]; intros l Hl; [constructor|]. cbn [reshape]. constructor.
  - rewrite length_take. lia.
  - apply IH. rewrite length_drop. lia.
Qed.

Lemma loaded_shape path file n mw interpret ws :
  WaveStats.load_channel_waves path file n mw interpret = Ok ws -> 0 < n ->
  cols ws = n /\ Forall (fun r => length r = Z.to_nat n) (rows ws).
Proof.
  unfold WaveStats.load_channel_waves. intros H Hn. apply rbind_ok in H as (raw & _ & H).
  destruct (Z.eqb_spec n 0); [lia|]. destruct (Z.eqb_spec (Z.of_nat (length raw) mod n) 0) as [Hmod|]; [|done].
  cbn [negb] in H. destruct (Z.ltb_spec n 0); [lia|]. injection H as <-. cbn [cols ChargeWindows.rows].
  split; [done|]. apply reshape_lengths. set (k := if mw <=? 0 then _ else _).
  assert (Hk : k <= Z.of_nat (length raw) / n).
  { subst k. destruct (mw <=? 0); lia. }
  pose proof (Z.div_mod (Z.of_nat (length raw)) n). rewrite length_take.
  assert (length (if decide (interpret = "signed") then view_int16 <$> raw else raw) = length raw) as ->.
  { case_decide; [apply length_fmap|done]. }
  destruct (decide (0 <= k)); [nia|]. replace (Z.to_nat k) with 0%nat by lia. lia.
Qed.

Section lengths.
Context `{NP : Numpy, TL : TransformLaws}.

Lemma broadcast_length f x y z n : broadcast f x y = Ok z -> length x = n -> length y = n -> length z = n.
Proof using Type.
  unfold broadcast, size. intros H Hx Hy. rewrite Hx, Hy, Z.eqb_refl in H. injection H as <-.
  rewrite length_zip_with. lia.
Qed.

Lemma spectrum_lengths args ws window freq dbfs n :
  channel_spectrum args ws window = Ok (freq, dbfs) -> 0 < n -> cols ws = n ->
  Forall (fun r => length r = Z.to_nat n) (ChargeWindows.rows ws) -> length window = Z.to_nat n ->
  length freq = Z.to_nat (n / 2 + 1) /\ length dbfs = Z.to_nat (n / 2 + 1).
Proof using TL.
  intros H Hn Hcols Hrows Hwin. unfold channel_spectrum in H. destruct (ChargeWindows.rows ws) as [|r0 rs] eqn:Hr.
  { apply rbind_ok in H as (d & _ & H). injection H as <- <-. rewrite Hcols, length_replicate.
    rewrite rfftfreq_length by lia. done. }
  apply rbind_ok in H as ([[f d] u] & H & He). injection He as -> ->. unfold compute_avg_fft_dbfs in H.
  rewrite Hr in H. set (use := if _ <=? 0 then _ else _) in H.
  apply rbind_ok in H as (xw & Hxw & H). apply rbind_ok in H as (dd & _ & H). injection H as <- <- _.
  rewrite Hcols, rfftfreq_length by lia. split; [done|]. rewrite length_fmap. apply rmap_ok in Hxw.
  assert (Hx : Forall (fun x => length x = Z.to_nat n) xw).
  { clear -Hxw Hrows Hwin. apply Forall_forall. intros x Hx. apply list_elem_of_lookup in Hx as [i Hi].
    destruct (Forall2_lookup_r _ _ _ _ _ Hxw Hi) as (y & Hy & Hb). apply (broadcast_length _ _ _ _ _ Hb); [|done].
    apply list_lookup_fmap_Some in Hy as (r & -> & Hrr). cbn.
    apply list_elem_of_lookup_2, (subseteq_take (A:=list Z)) in Hrr. rewrite Forall_forall in Hrows.
    unfold centered. cbv zeta. rewrite length_fmap. by apply Hrows. }
  assert (Hne : xw <> []).
  { apply Forall2_length in Hxw. rewrite length_fmap, length_take in Hxw. intros ->. cbn [length] in *.
    subst use. destruct (fa_fft_avg_waves args <=? 0) eqn:?; lia. }
  apply mean_rows_length; [by destruct xw|]. apply Forall_fmap. eapply Forall_impl; [exact Hx|]. intros x Hlx.
  cbn. rewrite length_fmap, rfft_length, Hlx. rewrite Z2Nat.inj_add by (try lia; apply Z.div_pos; lia).
  by rewrite Z2Nat.inj_div by lia.
Qed.

Lemma spectra_lengths `{TR : Tree} args path n window channels spectra :
  channel_spectra args path n window channels = Ok spectra -> 0 < n -> length window = Z.to_nat n ->
  Forall (fun s => length (fst (snd s)) = Z.to_nat (n / 2 + 1) /\ length (snd (snd s)) = Z.to_nat (n / 2 + 1)) spectra.
Proof using TL.
  unfold channel_spectra. intros H Hn Hwin. apply rbind_ok in H as (found & Hf & H). injection H as <-.
  apply rmap_ok in Hf. apply Forall_forall. intros s Hs. apply list_elem_of_omap in Hs as (o & Ho & Hs); cbn in Hs; subst o; rename Ho into Ho0.
  apply list_elem_of_lookup in Ho0 as [i Hi]. destruct (Forall2_lookup_r _ _ _ _ _ Hf Hi) as (ch & _ & Hc).
  cbv zeta in Hc. destruct (words_at _) as [file|]; [|done].
  destruct (WaveStats.load_channel_waves _ _ _ _ _) as [ws|] eqn:Hws; [|done].
  apply rbind_ok in Hc as ([f d] & Hs & Hc). injection Hc as <-. destruct (loaded_shape _ _ _ _ _ _ Hws Hn) as [Hcols Hrows].
  by apply (spectrum_lengths _ _ _ _ _ _ Hs).
Qed.

End lengths.

(** ** Lemmas: the median of an AFE *)

Lemma rmap_total {A B : Type} (f : A -> result B) (P : A -> B -> Prop) l :
  (forall a, a ∈ l -> exists b, f a = Ok b /\ P a b) -> exists bs, rmap f l = Ok bs /\ Forall2 P l bs.
Proof.
  induction l as [|a l IH]; intros Hf; [exists []; split; [done|constructor]|].
  destruct (Hf a (list_elem_of_here _ _)) as (b & Hb & Hp).
  destruct IH as (bs & Hbs & Hps); [intros x Hx; by apply Hf, list_elem_of_further|].
  exists (b :: bs). cbn [rmap]. rewrite Hb. cbn [rbind]. rewrite Hbs. split; [done|by constructor].
Qed.

(** All curves have [n] bins: the median curve has [n] bins, each the median of its column. *)
Lemma median_columns_ok `{NP : Numpy} l n : l <> [] -> Forall (fun r : list float => length r = n) l ->
  exists c, median_columns l = Ok c /\ length c = n /\
    forall k, (k < n)%nat -> c !! k = Some (np_median (omap (fun r : list float => r !! k) l)).
Proof.
  intros Hne Hl. unfold median_columns. assert (Hn : length (default [] (head l)) = n).
  { destruct l as [|r l]; [done|]. by apply Forall_cons in Hl as [Hr _]. }
  rewrite Hn. assert (Hall : forallb (fun r : list float => (length r =? n)%nat) l = true).
  { apply forallb_forall. intros r Hr. apply Nat.eqb_eq. rewrite Forall_forall in Hl. by apply Hl, list_elem_of_In. }
  rewrite Hall. eexists. split; [done|]. rewrite length_fmap, length_seq. split; [done|]. intros k Hk.
  rewrite list_lookup_fmap, lookup_seq_lt by done. done.
Qed.

(** What a trace shows: its AFE has a channel, its frequencies and levels go together, there are not
    more than were asked for, and each level is the median over the channels of the AFE. *)
Record shows `{NP : Numpy} (args : selector_args) (m : merged) (spectra : list (Z * (list float * list float)))
    (step : nat) (t : trace) : Prop := {
  sh_run : tr_run t = m;
  sh_freq k : tr_freq_mhz t !! k = (fun f => np_div f (f_of_Z 1000000))
                <$> default [] ((fun s => fst (snd s)) <$> head spectra) !! (k * step)%nat;
  sh_lengths : length (tr_freq_mhz t) = length (tr_dbfs t);
  sh_bound : Z.of_nat (length (tr_dbfs t)) <= Z.max 1 (fa_max_freq_points args);
  sh_levels k v : tr_dbfs t !! k = Some v ->
    v = np_median (omap (fun r : list float => r !! (k * step)%nat) (afe_spectra spectra (tr_afe t))) }.

(** The traces of a run.  When its dataset exists and its spectra can be computed, no exception
    comes from their combination: there is one trace per AFE with a channel that can be read, in
    increasing order, and no other.  Each has as many frequencies as levels, at most
    [--max-freq-points], and each level is the median over the channels of that AFE at the bin of
    its frequency. *)
Theorem traces_by_afe `{NP : Numpy, TL : TransformLaws, TR : Tree} args m window channels spectra :
  let path := at_path (mg_text m "selected_dataset_path") in
  let n := mg_waveform_len m in
  exists_at path = true -> 0 < n -> WaveStats.get_window (fa_fft_window args) n = Ok window ->
  length window = Z.to_nat n -> WaveStats.discover_channels path = Ok channels ->
  channel_spectra args path n window channels = Ok spectra ->
  exists ts step, load_fft_traces args m = Ok ts /\ Forall (shows args m spectra step) ts /\
    StronglySorted Z.lt (tr_afe <$> ts) /\
    forall afe, afe ∈ tr_afe <$> ts <-> exists ch s, (ch, s) ∈ spectra /\ channel_to_afe ch = afe.
Proof.
  cbv zeta. intros Hpath Hn Hwin Hlen Hch Hs. pose proof (spectra_lengths _ _ _ _ _ _ Hs Hn Hlen) as Hall.
  unfold load_fft_traces. rewrite Hpath. destruct (Z.leb_spec (mg_waveform_len m) 0); [lia|]. cbn [negb orb].
  rewrite Hwin. cbn [rbind]. rewrite Hch. cbn [rbind]. rewrite Hs. cbn [rbind]. clear Hs.
  destruct spectra as [|[c0 [freq d0]] rest].
  { exists [], 0%nat. split_and!; [done|constructor|constructor|]. intros afe. split.
    - by intros ?%not_elem_of_nil.
    - by intros (ch & s & ?%not_elem_of_nil & _). }
  set (spectra := (c0, (freq, d0)) :: rest) in *. set (bins := Z.to_nat (mg_waveform_len m / 2 + 1)) in *.
  assert (Hfreq : length freq = bins) by (by apply Forall_cons in Hall as [[? _] _]).
  set (step := stride_of (length freq) (fa_max_freq_points args)).
  assert (Hstep : (0 < step)%nat) by (subst step; unfold stride_of; lia).
  set (freq_mhz := _ <$> stride step freq). set (afe_map := parse_layout_map _).
  assert (Hone : forall afe, afe ∈ sorted_set (channel_to_afe ∘ fst <$> spectra) ->
            exists t, afe_trace m afe_map step freq_mhz spectra afe = Ok t /\ tr_afe t = afe /\ shows args m spectra step t).
  { intros afe Hafe. rewrite elem_of_sorted_set in Hafe. apply list_elem_of_fmap in Hafe as (s & -> & Hin).
    cbn [compose]. set (afe := channel_to_afe (fst s)).
    destruct (median_columns_ok (afe_spectra spectra afe) bins) as (c & Hc & Hcl & Hck).
    - intros He. assert (Hmem : snd (snd s) ∈ afe_spectra spectra afe).
      { apply list_elem_of_fmap. exists s. split; [done|]. by apply list_elem_of_filter. }
      rewrite He in Hmem. by apply not_elem_of_nil in Hmem.
    - apply Forall_fmap. apply Forall_forall. intros x [_ Hx]%list_elem_of_filter. rewrite Forall_forall in Hall.
      by destruct (Hall x Hx).
    - unfold afe_trace. rewrite Hc. cbn [rbind]. eexists. split; [done|]. split; [done|].
      destruct (stride_lookup step c Hstep) as [Hl Hk]. destruct (stride_lookup step freq Hstep) as [Hl' _].
      constructor; cbn [tr_run tr_freq_mhz tr_dbfs tr_afe].
      + done.
      + intros k. unfold freq_mhz. rewrite list_lookup_fmap. by rewrite (proj2 (stride_lookup step freq Hstep)).
      + unfold freq_mhz. by rewrite length_fmap, Hl, Hl', Hcl, Hfreq.
      + unfold step. rewrite Hfreq, <- Hcl. apply stride_bound.
      + intros k v Hv. rewrite Hk in Hv. pose proof (lookup_lt_Some _ _ _ Hv) as Hlt. rewrite Hcl in Hlt.
        rewrite (Hck _ Hlt) in Hv. by injection Hv. }
  destruct (rmap_total (afe_trace m afe_map step freq_mhz spectra)
              (fun afe t => tr_afe t = afe /\ shows args m spectra step t) _ Hone) as (ts & Hts & Hf).
  exists ts, step. rewrite Hts. split; [done|].
  assert (Hafes : tr_afe <$> ts = sorted_set (channel_to_afe ∘ fst <$> spectra)).
  { clear -Hf. induction Hf as [|a t l ts [Ha _] _ IH]; [done|]. cbn. by rewrite Ha, IH. }
  rewrite Hafes. split_and!.
  - clear -Hf. induction Hf as [|a t l ts [_ Ht] _ IH]; by constructor.
  - apply sorted_set_strict.
  - intros afe. rewrite elem_of_sorted_set, list_elem_of_fmap. split.
    + intros ([ch s] & -> & Hin). by exists ch, s.
    + intros (ch & s & Hin & <-). by exists (ch, s).
Qed.

(** ** Lemmas: merged rows *)

Lemma text_get_cons k v r k' : text_get ((k, v) :: r) k' = if decide (k = k') then Some v else text_get r k'.
Proof.
  unfold text_get. cbn [list_find]. change (fst (k, v)) with k. destruct (decide (k = k')) as [->|Hne].
  - done.
  - by destruct (list_find _ r) as [[i kv]|].
Qed.

Lemma text_get_app_none l1 l2 k : k ∉ fst <$> l1 -> text_get (l1 ++ l2) k = text_get l2 k.
Proof.
  induction l1 as [|[k1 v1] l1 IH]; intros Hk; [done|]. cbn [fmap list_fmap fst] in Hk.
  apply not_elem_of_cons in Hk as [Hne Hk]. cbn [app]. rewrite text_get_cons, decide_False by done. by apply IH.
Qed.

Lemma rmap_columns r ks texts :
  rmap (fun k => v <-! text_item r k ;; Ok (k, v)) ks = Ok texts -> fst <$> texts = ks.
Proof.
  intros Hf%rmap_ok. induction Hf as [|k kv ks texts Hk _ IH]; [done|]. apply rbind_ok in Hk as (v & _ & Hk).
  injection Hk as <-. cbn. by rewrite IH.
Qed.

(** A merged row is analyzed only if the database has its run and says so. *)
Lemma merged_status db_by_name r m :
  merge_row db_by_name r = Ok m -> mg_text m "analysis_status" = "analyzed" ->
  exists db, db_by_name !! mg_name m = Some db /\ text_get db "analysis_status" = Some "analyzed".
Proof.
  unfold merge_row. intros H Hst. apply rbind_ok in H as (name & Hname & H). cbv zeta in H.
  apply rbind_ok in H as (texts & Htexts & H). apply rbind_ok in H as (len & _ & H).
  assert (Ht : mg_texts m = texts ++ ((fun k => (k, default "" (text_get (default [] (db_by_name !! name)) k)))
                                        <$> database_columns)) by (by injection H as <-).
  clear H. pose proof (rmap_columns _ _ _ Htexts) as Hks. unfold mg_text in Hst. rewrite Ht in Hst.
  rewrite text_get_app_none in Hst by (rewrite Hks; apply (bool_decide_unpack _); vm_compute; exact I).
  assert (Hmn : mg_name m = name).
  { unfold mg_name, mg_text. rewrite Ht. destruct texts as [|[k v] texts]; [done|].
    cbn [fmap list_fmap fst] in Hks. injection Hks as -> _. cbn [app]. rewrite text_get_cons, decide_True by done.
    cbn [rmap summary_columns] in Htexts. rewrite Hname in Htexts. cbn [rbind] in Htexts.
    apply rbind_ok in Htexts as (ts & _ & Htexts). injection Htexts as Hv _. by rewrite Hv. }
  rewrite Hmn. cbn [fmap list_fmap database_columns] in Hst. rewrite !text_get_cons in Hst.
  rewrite !(decide_False (P := _ = "analysis_status")) in Hst by done. rewrite decide_True in Hst by done.
  cbn [default id] in Hst. destruct (db_by_name !! name) as [db|]; cbn [default id] in Hst; [|done].
  exists db. split; [done|]. by destruct (text_get db "analysis_status") as [st|]; [rewrite <- Hst|].
Qed.

#[export] Instance name_le_total : Total name_le.
Proof. intros a b. unfold name_le. apply str_le_total. Qed.

#[export] Instance name_le_trans : Transitive name_le.
Proof. intros a b c. unfold name_le. intros Hab Hbc. by etrans. Qed.

(** The page of the selector.  When [main] returns, it returns 0 and has written the page and nothing
    else.  The page shows the rows of the summary that the database says are analyzed, each as often
    as in the summary, in the order of their names, and the traces of each of them in that order; a
    row that names no run of the database is not shown. *)
Theorem selector_page_complete `{NP : Numpy, SPE : Spectral, ST : Statistics, TR : Tree, TA : Tables, HO : Host,
    SEL : SelectorPage} args w code w' :
  selector_main args w = (Ok code, w') ->
  code = 0 /\ exists database_rows summary_rows db_by_name ms rows trss page,
    read_csv (at_path (fa_database_csv args)) = Ok database_rows /\
    read_csv (at_path (fa_summary_csv args)) = Ok summary_rows /\ index_rows database_rows = Ok db_by_name /\
    Forall2 (fun r m => merge_row db_by_name r = Ok m) summary_rows ms /\
    rows ≡ₚ filter (fun m => mg_text m "analysis_status" = "analyzed") ms /\ StronglySorted name_le rows /\
    Forall (fun m => exists db, db_by_name !! mg_name m = Some db /\ text_get db "analysis_status" = Some "analyzed") rows /\
    Forall2 (fun m ts => load_fft_traces args m = Ok ts) rows trss /\
    build_html (fa_title args) rows (mjoin trss) = Ok page /\
    w' = <[at_path (fa_output_html args) := DText page]> w.
Proof.
  unfold selector_main. intros H. do 7 inv_bind H. injection H as <- <-. split; [done|].
  injection Hrun as Hdb <-. injection Hrun0 as Hsum <-. injection Hrun1 as Hm <-. injection Hrun2 as Hts <-.
  injection Hrun3 as _ <-. injection Hrun4 as Hpage <-. apply put_ok in Hrun5 as ->.
  apply rbind_ok in Hm as (db_by_name & Hidx & Hm). apply rbind_ok in Hm as (ms & Hms & Hm). injection Hm as <-.
  apply rmap_ok in Hms. apply rmap_ok in Hts.
  exists a, a0, db_by_name, ms, (merge_sort name_le (filter (fun m => mg_text m "analysis_status" = "analyzed") ms)), a2, a4.
  split_and!; try done.
  - apply (merge_sort_Permutation name_le).
  - apply (StronglySorted_merge_sort name_le).
  - rewrite (merge_sort_Permutation name_le). apply Forall_forall. intros m [Hst Hm]%list_elem_of_filter.
    apply list_elem_of_lookup in Hm as [i Hi]. destruct (Forall2_lookup_r _ _ _ _ _ Hms Hi) as (r & _ & Hr).
    by apply (merged_status db_by_name r).
Qed.

(** ** Two channels of one AFE *)

Lemma rmap_of_Forall2 {A B : Type} (f : A -> result B) l bs : Forall2 (fun a b => f a = Ok b) l bs -> rmap f l = Ok bs.
Proof. induction 1 as [|a b l bs Hb _ IH]; [done|]. cbn [rmap]. by rewrite Hb, IH. Qed.

#[local] Existing Instances some_numpy some_host.

#[local] Instance selector_spectral : Spectral := {
  rfft := fun l => take (length l / 2 + 1)%nat ((fun x => (x, f_zero)) <$> (l ++ [f_zero])); np_log10 := fun x => x;
  np_hanning := fun n => replicate (Z.to_nat n) (f_of_Z 1); np_hamming := fun n => replicate (Z.to_nat n) (f_of_Z 1);
  np_blackman := fun n => replicate (Z.to_nat n) (f_of_Z 1); blackmanharris := None; tukey := None }.

#[local] Instance selector_statistics : Statistics := {
  np_rfftfreq := fun n d => (fun k => f_mul (f_of_Z k) d) <$> seqZ 0 (n / 2 + 1);
  mean_rows := fun l => default [] (head l); np_percentile := fun _ _ => f_zero; np_power := fun x _ => x }.

#[local] Instance selector_laws : TransformLaws.
Proof.
  split.
  - intros l. cbn [rfft selector_spectral]. rewrite length_take, length_fmap, length_app. cbn [length].
    destruct l as [|x l]; [done|]. pose proof (Nat.div_lt (length (x :: l)) 2). cbn [length] in *. lia.
  - intros n d _. cbn [np_rfftfreq selector_statistics]. by rewrite length_fmap, length_seqZ.
  - intros l n Hne Hl. cbn [mean_rows selector_statistics]. destruct l as [|r l]; [done|].
    by apply Forall_cons in Hl as [Hr _].
Qed.

#[local] Instance selector_tree : Tree := {
  listing := fun d => if decide (d = "data") then Some {["channel_8.dat"; "channel_9.dat"; "channel_30.dat"]} else None;
  text_at := fun _ => None;
  words_at := fun p => if bool_decide (p ∈ ["data/channel_8.dat"; "data/channel_9.dat"])
    then Some (Ok [100; 101; 99; 100; 102; 100; 98; 100])
    else if decide (p = "data/channel_30.dat") then Some (Ok [1]) else None;
  at_path := fun p => p; str_other := fun _ => ""; html_page := fun name _ _ => name }.

#[local] Instance selector_template : SelectorPage := { selector_page := fun title _ _ _ _ => title }.

Definition some_selector_args : selector_args :=
  {| fa_database_csv := "db.csv"; fa_summary_csv := "summary.csv"; fa_output_html := "page.html"; fa_max_waves := 256;
     fa_fft_avg_waves := 256; fa_fft_window := "hanning"; fa_fs := f_of_Z 62500000; fa_interpret := "signed";
     fa_max_freq_points := 2; fa_title := "Noise & FFT" |}.

Definition some_merged : merged :=
  Merged [("run_name", "a"); ("technology_layout", "AFE1:HD"); ("selected_dataset_path", "data")] 4 [].

Lemma traces_by_afe_witness :
  exists ts step, load_fft_traces some_selector_args some_merged = Ok ts /\ tr_afe <$> ts = [1] /\
    Forall (fun t => Z.of_nat (length (tr_dbfs t)) <= 2 /\ length (tr_freq_mhz t) = length (tr_dbfs t)) ts /\ step = 2%nat.
Proof.
  destruct (channel_spectra some_selector_args "data" 4 (replicate 4 (f_of_Z 1)) [8; 9; 30]) as [spectra|e] eqn:Hs;
    [|vm_compute in Hs; discriminate Hs].
  assert (Hch : WaveStats.discover_channels "data" = Ok [8; 9; 30]) by (vm_compute; reflexivity).
  assert (Hdata : exists_at "data" = true) by (vm_compute; reflexivity).
  assert (Hwin : WaveStats.get_window "hanning" 4 = Ok (replicate 4 (f_of_Z 1))) by (vm_compute; reflexivity).
  destruct (traces_by_afe some_selector_args some_merged (replicate 4 (f_of_Z 1)) [8; 9; 30] spectra Hdata eq_refl
              Hwin eq_refl Hch Hs) as (ts & step & Hts & Hall & _ & _).
  exists ts, 2%nat. split; [exact Hts|]. split.
  - assert (Hafe : match load_fft_traces some_selector_args some_merged with Ok l => tr_afe <$> l | Raise _ => [] end = [1])
      by (vm_compute; reflexivity).
    rewrite Hts in Hafe. exact Hafe.
  - split; [|reflexivity]. eapply Forall_impl; [exact Hall|]. intros t [_ _ Hlen Hb _]. split; [exact Hb|exact Hlen].
Defined.

#[local] Instance selector_tables : Tables := {
  table_at := fun p =>
    let summary name := (fun k => (k, if decide (k = "run_name") then name else "x")) <$> summary_columns in
    if decide (p = "db.csv") then Some (Ok [[("run_name", "b"); ("analysis_status", "analyzed"); ("waveform_len", "4")];
                                            [("run_name", "a"); ("analysis_status", "pending")]])
    else if decide (p = "summary.csv") then Some (Ok [summary "b"; summary "a"; summary "c"]) else None }.

Lemma selector_page_complete_witness :
  exists rows page, selector_main some_selector_args ∅ = (Ok 0, <["page.html" := DText page]> ∅) /\
    mg_name <$> rows = ["b"] /\ page = "Noise &amp; FFT".
Proof.
  destruct (selector_main some_selector_args ∅) as [r w'] eqn:Hm.
  assert (Hr : r = Ok 0) by (change r with (fst (r, w')); rewrite <- Hm; vm_compute; reflexivity). subst r.
  destruct (selector_page_complete some_selector_args ∅ 0 w' Hm)
    as (_ & db & sm & idx & ms & rows & trss & page & Hdb & Hsm & Hidx & Hms & Hrows & _ & _ & _ & Hpage & ->).
  exists rows, page. split; [reflexivity|].
  injection Hdb as <-. injection Hsm as <-.
  assert (Hidx' : idx = match index_rows (match read_csv "db.csv" with Ok l => l | Raise _ => [] end) with
                        | Ok m => m | Raise _ => ∅ end).
  { change (index_rows (match read_csv "db.csv" with Ok l => l | Raise _ => [] end) = Ok idx) in Hidx. by rewrite Hidx. }
  subst idx. clear Hidx. apply rmap_of_Forall2 in Hms. vm_compute in Hms. injection Hms as <-. split.
  - vm_compute in Hrows. apply Permutation_singleton_r in Hrows as ->. reflexivity.
  - apply rbind_ok in Hpage as (values & _ & Hpage). by injection Hpage.
Defined.
