(* ===== verification/WaveExamples.v ===== *)
(** The waveforms behind the selected points of an LED scan:
    [client/dynamic_range_led/plot_led_waveform_examples.py].

    The cuts say which waveforms of a point are clean; a figure holds some of the clean and some of
    the rejected ones with their means.  The tables are those of class [Tables] of [Figures]. *)
From S2P Require Import Prelude PyStr PyFloat PyVal ChannelSpec JsonText FeConfig SpyAcquire.
From S2P Require Import OscSpectrum WaveStats ScanRuntime ChargeWindows IntensityScan RunFiles Pools PeFit.
From S2P Require Import NoiseBatch RetroFit Figures.

(** [np.linspace(a, b, n, dtype=int)] *)
Class IndexSpace : Type := { linspace_int : Z -> Z -> Z -> list Z }.

(** [ChannelWindow] and [PointRow] *)
Record ex_window : Type := ExWindow {
  ew_channel : Z; ew_baseline_start : Z; ew_baseline_stop : Z; ew_onset_index : Z; ew_peak_index : Z;
  ew_integrate_start : Z; ew_integrate_stop : Z }.

Record point_row : Type := PointRow {
  pr_channel : Z; pr_intensity : Z; pr_point_dir : string; pr_sample_sigma : float; pr_n_waveforms : Z;
  pr_n_clean : Z }.

Record ex_args : Type := ExArgs {
  ex_analysis_dir : string; ex_output_dir : string; ex_points : string; ex_max_clean : Z; ex_max_reject : Z;
  ex_zoom_start : Z; ex_zoom_stop : Z; ex_reject_sigma : float; ex_window_pre : Z; ex_window_post : Z;
  ex_post_offset : Z; ex_pre_frac : float; ex_pre_floor : float; ex_post_frac : float; ex_post_floor : float }.

(** ** Inputs *)

Definition parse_point (token : string) : result (Z * Z) :=
  match split_once ":" token with
  | Some (channel_text, intensity_text) =>
      ch <-! int10 channel_text ;; i <-! int10 intensity_text ;; Ok (ch, i)
  | None => Raise (value_error "not enough values to unpack (expected 2, got 1)")
  end.

Definition parse_points (text : string) : result (list (Z * Z)) :=
  rmap parse_point (filter (fun t => t <> "") (strip <$> split_on "," text)).

Definition ex_load_window (out : gmap Z ex_window) (kv : string * pyval) : result (gmap Z ex_window) :=
  let v := snd kv in
  c <-! dict_get v "channel" (PyStr (fst kv)) ;;
  channel <-! py_int c ;;
  b0 <-! int_item v "baseline_start" ;; b1 <-! int_item v "baseline_stop" ;; o <-! int_item v "onset_index" ;;
  p <-! int_item v "peak_index" ;; i0 <-! int_item v "integrate_start" ;; i1 <-! int_item v "integrate_stop" ;;
  Ok (<[channel := ExWindow channel b0 b1 o p i0 i1]> out).

Section inputs.
Context `{TR : Tree, TA : Tables}.

(** [json.loads(path.read_text())] *)
Definition json_at (path : string) : result pyval :=
  match text_at path with
  | Some text => s <-! text ;; json_loads s
  | None => Raise (not_found path)
  end.

Definition load_windows (path : string) : result (gmap Z ex_window) :=
  raw <-! json_at path ;; items <-! items_of raw ;; rfold ex_load_window items ∅.

Definition read_point (r : text_row) : result point_row :=
  let int k := v <-! text_item r k ;; int10 v in
  ch <-! int "channel" ;; i <-! int "intensity" ;;
  dir <-! text_item r "point_dir" ;;
  s <-! text_item r "sample_sigma" ;; sigma <-! py_float s ;;
  n <-! int "n_waveforms" ;; clean <-! int "n_clean_waveforms" ;;
  Ok (PointRow ch i (at_path dir) sigma n clean).

Definition read_rows (path : string) : result (list point_row) :=
  l <-! read_csv path ;; rmap read_point l.

Definition point_key (r : point_row) : Z * Z := (pr_channel r, pr_intensity r).

(** The rows of the points that were asked for, else the best ones. *)
Definition pick_rows (analysis_dir : string) (point_keys : list (Z * Z)) : result (list point_row) :=
  summary_rows <-! read_rows (path_join analysis_dir "summary_by_point_channel.csv") ;;
  match point_keys with
  | [] => read_rows (path_join analysis_dir "best_by_channel.csv")
  | _ =>
      let lookup : gmap (Z * Z) point_row := foldl (fun m r => <[point_key r := r]> m) ∅ summary_rows in
      rmap (fun k => match lookup !! k with
                     | Some r => Ok r
                     | None => Raise (Exn KeyError ("(" +:+ str_Z (fst k) +:+ ", " +:+ str_Z (snd k) +:+ ")"))
                     end) point_keys
  end.

Definition load_waveform_len (run_dir : string) : result Z :=
  manifest <-! json_at (path_join run_dir "scan_manifest.json") ;; int_item manifest "waveform_len".

End inputs.

(** ** Cuts *)

Definition activity_cut_enabled (frac floor : float) : bool := f_leb f_zero frac || f_leb f_zero floor.

Definition exceeds_activity_cut (value peak_amp frac floor : float) : bool :=
  if negb (activity_cut_enabled frac floor) then false
  else
    let above_frac := f_leb f_zero frac && f_ltb (f_mul frac (np_maximum peak_amp (f_of_Z 1))) value in
    let above_floor := f_leb f_zero floor && f_ltb floor value in
    if f_leb f_zero frac && f_leb f_zero floor then above_frac && above_floor
    else if f_leb f_zero frac then above_frac else above_floor.

(** [np.max] of a slice *)
Definition max_of (l : list float) : result float :=
  match l with
  | [] => Raise (value_error "zero-size array to reduction operation maximum which has no identity")
  | _ => Ok (np_max l)
  end.

Section cuts.
Context `{NP : Numpy}.
Context (args : ex_args) (window : ex_window) (sample_sigma : float).

Definition search_start_of : Z := Z.max (ew_baseline_stop window) (ew_integrate_start window - 32).

Definition search_stop_of (n : Z) : Z :=
  Z.max (search_start_of + 1)
    (Z.min n (Z.max (ew_integrate_stop window + 64)
                (ew_peak_index window + Z.max (ex_window_post args) (ex_post_offset args) + 16))).

(** A record less the median of its baseline *)
Definition subtracted (r : list Z) : list float :=
  let baseline := np_median (f_of_Z <$> py_slice (ew_baseline_start window) (ew_baseline_stop window) r) in
  (fun v => f_sub (f_of_Z v) baseline) <$> r.

(** Whether the peak at [peak_idx] is out of its window. *)
Definition reject_peak (peak_idx : Z) : bool :=
  ((0 <=? ex_window_pre args) && (peak_idx <? ew_peak_index window - ex_window_pre args))
  || ((0 <=? ex_window_post args) && (ew_peak_index window + ex_window_post args <? peak_idx)).

(** [evaluate_cuts] of one record: its signal, and whether it is clean. *)
Definition evaluate_wave (n : Z) (r : list Z) : result (list float * bool) :=
  let signal := subtracted r in
  baseline_max <-! max_of (f_abs <$> py_slice (ew_baseline_start window) (ew_baseline_stop window) signal) ;;
  let reject_baseline := f_leb (f_mul (ex_reject_sigma args) sample_sigma) baseline_max in
  let search_start := search_start_of in
  let search_stop := search_stop_of n in
  peak_rel <-! argmax (py_slice search_start search_stop signal) ;;
  let peak_idx := Z.of_nat peak_rel + search_start in
  peak_amp <-! py_index_list signal peak_idx ;;
  let early := py_slice (ew_baseline_stop window) (ew_integrate_start window) signal in
  let early_max := match early with [] => f_zero | _ => np_max early end in
  let late_start := Z.min search_stop
    (Z.max (ew_integrate_stop window) (peak_idx + Z.max 0 (ex_post_offset args))) in
  late_max <-! (if late_start <? search_stop then max_of (py_slice late_start search_stop signal) else Ok f_zero) ;;
  let reject_pre := exceeds_activity_cut early_max peak_amp (ex_pre_frac args) (ex_pre_floor args) in
  let reject_post := exceeds_activity_cut late_max peak_amp (ex_post_frac args) (ex_post_floor args) in
  Ok (signal, negb (reject_baseline || reject_peak peak_idx || reject_pre || reject_post)).

(** Of a file without records the slices are not checked. *)
Definition evaluate_cuts (ws : waves) : result (list (list float * bool)) :=
  rmap (evaluate_wave (cols ws)) (rows ws).

End cuts.

(** The indices where the mask holds, thinned out to [limit]. *)
Definition choose_indices `{IndexSpace} (mask : list bool) (limit : Z) : result (list nat) :=
  let idx := omap (fun ib : nat * bool => if snd ib then Some (fst ib) else None) (imap pair mask) in
  let size := Z.of_nat (length idx) in
  if (limit <=? 0) || (size <=? limit) then Ok idx
  else rmap (fun z => at_index idx (Z.to_nat z)) (linspace_int 0 (size - 1) limit).

(** ** Figures *)

Section figures.
Context `{NP : Numpy, ST : Statistics, IX : IndexSpace, TR : Tree, TA : Tables, HO : Host}.
Context (args : ex_args).

Definition ex_curve (label : string) (y : list float) : string * list (float * float) :=
  (label, zip (f_of_Z <$> seqZ 0 (Z.of_nat (length y))) y).

(** A panel: the chosen records and their mean, under the title of the panel. *)
Definition panel (title : string) (signals : list (list float)) (idx : list nat)
    : result (list (string * list (float * float))) :=
  chosen <-! rmap (at_index signals) idx ;;
  Ok ((ex_curve title <$> chosen) ++ match chosen with [] => [] | _ => [ex_curve "mean" (mean_rows chosen)] end).

Definition count_true (mask : list bool) : Z := Z.of_nat (length (filter (fun b => b = true) mask)).

(** [f"{n}/{total}"] after [what] *)
Definition panel_title (what : string) (mask : list bool) : string :=
  what +:+ " " +:+ str_Z (count_true mask) +:+ "/" +:+ str_Z (Z.of_nat (length mask)).

Definition point_figure (r : point_row) (window : ex_window) (ws : waves) : result doc :=
  evaluated <-! evaluate_cuts args window (pr_sample_sigma r) ws ;;
  let clean_mask := snd <$> evaluated in
  let reject_mask := negb <$> clean_mask in
  clean_idx <-! choose_indices clean_mask (ex_max_clean args) ;;
  reject_idx <-! choose_indices reject_mask (ex_max_reject args) ;;
  clean <-! panel (panel_title "clean" clean_mask) (fst <$> evaluated) clean_idx ;;
  rejected <-! panel (panel_title "rejected" reject_mask) (fst <$> evaluated) reject_idx ;;
  Ok (DFigure ("ch" +:+ dec_pad 2 (pr_channel r) +:+ " | I=" +:+ dec_pad 4 (pr_intensity r) +:+ " | clean overlay")
        (clean ++ rejected)).

Definition ex_dir : string :=
  let analysis_dir := at_path (ex_analysis_dir args) in
  if decide (ex_output_dir args = "") then path_join analysis_dir "publication_plots" else at_path (ex_output_dir args).

Definition figure_path (r : point_row) : string :=
  path_join ex_dir ("ch" +:+ dec_pad 2 (pr_channel r) +:+ "_intensity_" +:+ dec_pad 4 (pr_intensity r)
                    +:+ "_waveform_overlay.pdf").

(** The records of a point *)
Definition point_waves (r : point_row) (waveform_len : Z) : result waves :=
  let raw_path := channel_path (path_join (pr_point_dir r) "raw") (pr_channel r) in
  ChargeWindows.load_channel_waves raw_path (default (Raise (not_found raw_path)) (words_at raw_path)) waveform_len 0 "signed".

Definition plot_single_point (r : point_row) (window : ex_window) (waveform_len : Z) : M files unit :=
  ws <- lift (point_waves r waveform_len) ;;
  d <- lift (point_figure r window ws) ;;
  put (figure_path r) d.

Definition ex_label (r : point_row) : string :=
  "ch" +:+ dec_pad 2 (pr_channel r) +:+ " I=" +:+ dec_pad 4 (pr_intensity r).

Definition plot_ex_overview (rs : list point_row) : M files unit :=
  match rs with
  | [] => ret tt
  | _ => put (path_join ex_dir "waveform_overlay_index.pdf")
           (DFigure (join (String "010" "") ("Waveform overlay pages saved alongside histogram plots:" :: (ex_label <$> rs))) [])
  end.

(** The run directory of a point *)
Definition run_dir_of (r : point_row) : string := parent_path (parent_path (pr_point_dir r)).

(** One turn of the loop; the lengths are read once per run. *)
Definition plot_turn (windows : gmap Z ex_window) (cache : gmap string Z) (r : point_row) : M files (gmap string Z) :=
  let run_dir := run_dir_of r in
  cache <- (match cache !! run_dir with
            | Some _ => ret cache
            | None => n <- lift (load_waveform_len run_dir) ;; ret (<[run_dir := n]> cache)
            end) ;;
  window <- lift (match windows !! pr_channel r with
                  | Some window => Ok window
                  | None => Raise (Exn KeyError (str_Z (pr_channel r)))
                  end) ;;
  plot_single_point r window (default 0 (cache !! run_dir)) ;;;
  ret cache.

Definition examples_main : M files Z :=
  let analysis_dir := at_path (ex_analysis_dir args) in
  lift (file_ok ex_dir) ;;;
  point_keys <- lift (if decide (ex_points args = "") then Ok [] else parse_points (ex_points args)) ;;
  rs <- lift (pick_rows analysis_dir point_keys) ;;
  windows <- lift (load_windows (path_join analysis_dir "channel_windows.json")) ;;
  fold_m rs (plot_turn windows) ∅ ;;;
  plot_ex_overview rs ;;;
  ret 0.

End figures.

(** ** Lemmas: the maximum of floats *)

Lemma is_nan_key x : is_nan x = false -> is_Some (f_key x).
Proof. destruct x; cbn; intros H; try discriminate H; by eexists. Qed.

(** A number is not below another exactly when that one is at most it. *)
Lemma f_leb_not_ltb x y : is_nan x = false -> is_nan y = false -> f_leb x y = negb (f_ltb y x).
Proof.
  intros [a Ha]%is_nan_key [b Hb]%is_nan_key. unfold f_leb, f_ltb. rewrite !f_compare_key, Ha, Hb.
  destruct a as [[a1 a2] a3], b as [[b1 b2] b3]. rewrite (Z.compare_antisym a1 b1), (Z.compare_antisym a2 b2), (Z.compare_antisym a3 b3).
  destruct (a1 ?= b1); [|done..]. destruct (a2 ?= b2); [|done..]. by destruct (a3 ?= b3).
Qed.

(** What is below one number that is not above another is below it too. *)
Lemma f_ltb_below t a b : is_nan a = false -> f_ltb a b = false -> f_ltb t b = true -> f_ltb t a = true.
Proof.
  intros [ka Ha]%is_nan_key Hab Htb. destruct (f_ltb_some _ _ Htb) as (kt & kb & Ht & Hb & Hlt).
  apply (f_ltb_key _ _ _ _ Ht Ha). destruct (key_lt_total ka kb) as [H|[->|H]]; [|done|by eapply key_lt_trans].
  apply (f_ltb_key _ _ _ _ Ha Hb) in H. congruence.
Qed.

Section maximum.
Context (t : float).

Lemma larger_ltb a b : is_nan a = false -> f_ltb t (if f_ltb a b then b else a) = f_ltb t a || f_ltb t b.
Proof using Type.
  intros Ha. destruct (f_ltb a b) eqn:Hab.
  - destruct (f_ltb t a) eqn:Hta; [|done]. by rewrite (f_ltb_trans _ _ _ Hta Hab).
  - destruct (f_ltb t b) eqn:Htb; [|by rewrite orb_false_r]. by rewrite (f_ltb_below _ _ _ Ha Hab Htb).
Qed.

Lemma larger_leb a b : is_nan a = false -> is_nan b = false ->
  f_leb t (if f_ltb a b then b else a) = f_leb t a || f_leb t b.
Proof using Type.
  intros Ha Hb. destruct (is_nan t) eqn:Ht; [by destruct t; destruct (f_ltb a b)|].
  destruct (f_ltb a b) eqn:Hab; rewrite !f_leb_not_ltb by done.
  - destruct (f_ltb a t) eqn:Hat; [done|]. cbn [negb orb]. destruct (f_ltb b t) eqn:Hbt; [|done].
    by rewrite (f_ltb_trans _ _ _ Hab Hbt) in Hat.
  - destruct (f_ltb b t) eqn:Hbt; [by rewrite orb_false_r|]. rewrite orb_true_r. destruct (f_ltb a t) eqn:Hat; [|done].
    by rewrite (f_ltb_below a b t Hb Hbt Hat) in Hab.
Qed.

Let numbers l := Forall (fun x => is_nan x = false) l.

Lemma np_max_both l : l <> [] -> numbers l ->
  f_ltb t (np_max l) = existsb (f_ltb t) l /\ f_leb t (np_max l) = existsb (f_leb t) l.
Proof using Type.
  destruct l as [|x l]; [done|]. intros _ [Hx Hl]%Forall_cons. unfold np_max.
  revert x Hx. induction Hl as [|y l Hy _ IH]; intros x Hx; cbn [foldl existsb].
  { by rewrite !orb_false_r. }
  rewrite Hx, Hy. destruct (IH (if f_ltb x y then y else x)) as [H1 H2]; [by destruct (f_ltb x y)|].
  rewrite H1, H2. cbn [existsb]. rewrite larger_ltb, larger_leb by done. by rewrite <- !orb_assoc.
Qed.

End maximum.

(** ** What the cuts mean *)

Section meaning.
Context `{NP : Numpy}.
Context (args : ex_args) (window : ex_window) (sample_sigma : float) (n : Z).

(** Some sample is above a value. *)
Definition some_above (t : float) (l : list float) : Prop := exists x, x ∈ l /\ f_ltb t x = true.

(** The activity that a cut rejects: a sample above the fraction of the peak, where one is given, and
    a sample above the floor, where one is given; no sample counts as one of 0. *)
Definition active (l : list float) (peak_amp frac floor : float) : Prop :=
  let l := match l with [] => [f_zero] | _ => l end in
  (f_leb f_zero frac = true \/ f_leb f_zero floor = true) /\
  (f_leb f_zero frac = true -> some_above (f_mul frac (np_maximum peak_amp (f_of_Z 1))) l) /\
  (f_leb f_zero floor = true -> some_above floor l).

Lemma existsb_some (p : float -> bool) l : existsb p l = true <-> exists x, x ∈ l /\ p x = true.
Proof using Type.
  rewrite existsb_exists. split; intros (x & Hx & Hp); exists x; by apply list_elem_of_In in Hx.
Qed.

Lemma exceeds_active l amp frac floor : Forall (fun x => is_nan x = false) l ->
  exceeds_activity_cut (match l with [] => f_zero | _ => np_max l end) amp frac floor = true <-> active l amp frac floor.
Proof using Type.
  intros Hl. unfold active. set (l' := match l with [] => [f_zero] | _ => l end).
  assert (Hmax : forall t, f_ltb t (match l with [] => f_zero | _ => np_max l end) = existsb (f_ltb t) l').
  { intros t. destruct l as [|x l]; [cbn; by rewrite orb_false_r|]. by destruct (np_max_both t (x :: l)). }
  unfold exceeds_activity_cut, activity_cut_enabled. rewrite !Hmax. unfold some_above. rewrite <- !existsb_some.
  destruct (f_leb f_zero frac), (f_leb f_zero floor); cbn [orb negb andb]; rewrite ?andb_true_iff; intuition discriminate.
Qed.

(** The clean records: [search] is where the peak is looked for. *)
Record clean_wave (signal : list float) (p : Z) : Prop := {
  cw_quiet : ~ exists x, x ∈ py_slice (ew_baseline_start window) (ew_baseline_stop window) signal /\
                         f_leb (f_mul (ex_reject_sigma args) sample_sigma) (f_abs x) = true;
  cw_peak : (0 <= ex_window_pre args -> ew_peak_index window - ex_window_pre args <= p) /\
            (0 <= ex_window_post args -> p <= ew_peak_index window + ex_window_post args);
  cw_early amp : py_index_list signal p = Ok amp ->
    ~ active (py_slice (ew_baseline_stop window) (ew_integrate_start window) signal) amp
        (ex_pre_frac args) (ex_pre_floor args);
  cw_late amp : py_index_list signal p = Ok amp ->
    let start := Z.max (ew_integrate_stop window) (p + Z.max 0 (ex_post_offset args)) in
    ~ active (if start <? search_stop_of args window n then py_slice start (search_stop_of args window n) signal else [])
        amp (ex_post_frac args) (ex_post_floor args) }.

End meaning.

Lemma py_slice_sub {A : Type} a b (l : list A) x : x ∈ py_slice a b l -> x ∈ l.
Proof. unfold py_slice, slice. intros H. by apply subseteq_take, subseteq_drop in H. Qed.

Lemma max_of_ok l m : max_of l = Ok m -> l <> [] /\ m = match l with [] => f_zero | _ => np_max l end.
Proof. destruct l; [done|]. by intros [= <-]. Qed.

Lemma quiet_baseline l thr m : max_of (f_abs <$> l) = Ok m -> Forall (fun x => is_nan x = false) l ->
  f_leb thr m = true <-> exists x, x ∈ l /\ f_leb thr (f_abs x) = true.
Proof.
  intros [Hne ->]%max_of_ok Hl.
  assert (Habs : Forall (fun x => is_nan x = false) (f_abs <$> l)).
  { apply Forall_fmap. eapply Forall_impl; [exact Hl|]. by intros []. }
  destruct (np_max_both thr _ Hne Habs) as [_ Hmax].
  assert (Hm : f_leb thr (match f_abs <$> l with [] => f_zero | _ => np_max (f_abs <$> l) end) = existsb (f_leb thr) (f_abs <$> l)).
  { by destruct (f_abs <$> l). }
  rewrite Hm, existsb_some. split.
  - intros (y & (x & -> & Hx)%list_elem_of_fmap & Hy). by exists x.
  - intros (x & Hx & Hy). exists (f_abs x). split; [|done]. apply list_elem_of_fmap. by exists x.
Qed.

(** What is found in a slice is at its place in the list. *)
Lemma py_slice_lookup {A : Type} a b (l : list A) k x : 0 <= a -> 0 <= b -> py_slice a b l !! k = Some x ->
  l !! (Z.to_nat a + k)%nat = Some x /\ a + Z.of_nat k < b.
Proof.
  unfold py_slice, slice. intros Ha Hb. set (n := Z.of_nat (length l)).
  assert (Hn : 0 <= n) by (subst n; lia). replace (a <? 0) with false by lia. replace (b <? 0) with false by lia. rewrite lookup_take_Some, lookup_drop. intros [Hx Hk].
  pose proof (lookup_lt_Some _ _ _ Hx) as Hlt. destruct (Z.le_gt_cases a n).
  - replace (Z.max 0 (Z.min n a)) with a in * by lia. split; [done|lia].
  - replace (Z.max 0 (Z.min n a)) with n in * by lia. lia.
Qed.

Lemma index_at {A : Type} (l : list A) (i : nat) x : l !! i = Some x -> py_index_list l (Z.of_nat i) = Ok x.
Proof.
  intros Hx. unfold py_index_list. destruct (Z.ltb_spec (Z.of_nat i) 0); [lia|]. rewrite Nat2Z.id, Hx.
  destruct (Z.ltb_spec (Z.of_nat i) (- Z.of_nat (length l))); [lia|done].
Qed.

Section cut_lemmas.
Context `{NP : Numpy} (args : ex_args) (window : ex_window) (sample_sigma : float) (n : Z).

Lemma reject_peak_in p : reject_peak args window p = false <->
  (0 <= ex_window_pre args -> ew_peak_index window - ex_window_pre args <= p) /\
  (0 <= ex_window_post args -> p <= ew_peak_index window + ex_window_post args).
Proof using Type. unfold reject_peak. rewrite orb_false_iff, !andb_false_iff, !Z.leb_gt, !Z.ltb_ge. lia. Qed.

Lemma slice_numbers a b l : Forall (fun x => is_nan x = false) l -> Forall (fun x => is_nan x = false) (py_slice a b l).
Proof using Type. rewrite !Forall_forall. intros Hl x Hx%py_slice_sub. by apply Hl. Qed.

(** One record: where its peak is, and when it is clean. *)
Lemma evaluated_wave r signal clean :
  evaluate_wave args window sample_sigma n r = Ok (signal, clean) -> 0 <= search_start_of window ->
  Forall (fun x => is_nan x = false) signal ->
  signal = subtracted window r /\ exists (p : nat) amp,
    search_start_of window <= Z.of_nat p < search_stop_of args window n /\ signal !! p = Some amp /\
    Forall (fun x => f_ltb amp x = false) (py_slice (search_start_of window) (search_stop_of args window n) signal) /\
    (clean = true <-> clean_wave args window sample_sigma n signal (Z.of_nat p)).
Proof using Type.
  unfold evaluate_wave. cbv zeta. intros H Hstart Hnum. apply rbind_ok in H as (bmax & Hb & H).
  apply rbind_ok in H as (rel & Hrel & H). apply rbind_ok in H as (amp & Hamp & H).
  apply rbind_ok in H as (late & Hlate & H).
  destruct (argmax_max _ _ Hrel) as (v & Hv & Hmax). assert (Hstop : 0 <= search_stop_of args window n) by (unfold search_stop_of; lia).
  destruct (py_slice_lookup _ _ _ _ _ Hstart Hstop Hv) as [Hat Hlt].
  set (p := (Z.to_nat (search_start_of window) + rel)%nat) in *.
  assert (Hp : Z.of_nat rel + search_start_of window = Z.of_nat p) by lia. rewrite Hp in *.
  rewrite (index_at _ _ _ Hat) in Hamp. injection Hamp as ->. injection H as Hs Hc.
  rewrite Hs in *. split; [done|]. exists p, amp. split; [lia|]. split; [done|]. split; [done|].
  rewrite <- Hc, negb_true_iff, !orb_false_iff, reject_peak_in.
  rewrite <- (not_true_iff_false (f_leb _ bmax)), (quiet_baseline _ _ _ Hb (slice_numbers _ _ _ Hnum)).
  rewrite <- (not_true_iff_false (exceeds_activity_cut (match _ with [] => _ | _ => _ end) _ _ _)).
  rewrite (exceeds_active _ _ _ _ (slice_numbers _ _ _ Hnum)).
  set (start := Z.max (ew_integrate_stop window) _) in *. set (stop := search_stop_of args window n) in *.
  set (tail := if start <? stop then py_slice start stop signal else []).
  assert (Hl : late = match tail with [] => f_zero | _ => np_max tail end).
  { subst tail. destruct (Z.ltb_spec (Z.min stop start) stop) as [Hm|Hm].
    - replace (start <? stop) with true by lia. replace (Z.min stop start) with start in Hlate by lia.
      by apply max_of_ok in Hlate as [_ Hlate].
    - replace (start <? stop) with false by lia. by injection Hlate. }
  assert (Htail : Forall (fun x => is_nan x = false) tail).
  { subst tail. destruct (start <? stop); [by apply slice_numbers|constructor]. }
  rewrite Hl, <- (not_true_iff_false (exceeds_activity_cut _ _ (ex_post_frac args) _)), (exceeds_active _ _ _ _ Htail).
  pose proof (index_at _ _ _ Hat) as Hidx. split.
  - intros [[[Hq Hpk] He] Hlt']. split; [done|done|intros a Ha; rewrite Hidx in Ha; by injection Ha as <-..].
  - intros [Hq Hpk He Hlt']. split; [split; [split; [done|done]|]|]; [by apply He|by apply Hlt'].
Qed.

End cut_lemmas.

(** C38. The cuts on the records of a point.  Each record loses the median of its baseline.  Its peak is
    a highest sample of the search range, which lies in the record; and it is clean exactly when no
    sample of the baseline reaches the threshold on either side of 0, the peak is inside its window
    where one is given, and neither the samples between baseline and integration nor those after
    the pulse hold activity above the fraction of the peak and the floor that are given. *)
Theorem cuts_correct `{NP : Numpy} args window sample_sigma ws out :
  evaluate_cuts args window sample_sigma ws = Ok out -> 0 <= search_start_of window ->
  Forall (fun e => Forall (fun x => is_nan x = false) (fst e)) out ->
  Forall2 (fun r e => fst e = subtracted window r /\ exists (p : nat) amp,
      let stop := search_stop_of args window (cols ws) in
      search_start_of window <= Z.of_nat p < stop /\ fst e !! p = Some amp /\
      Forall (fun x => f_ltb amp x = false) (py_slice (search_start_of window) stop (fst e)) /\
      (snd e = true <-> clean_wave args window sample_sigma (cols ws) (fst e) (Z.of_nat p)))
    (rows ws) out.
Proof.
  intros H Hstart Hnum. apply rmap_ok in H. induction H as [|r [signal clean] rs out Hr _ IH]; [constructor|].
  apply Forall_cons in Hnum as [Hn Hnum]. constructor; [|by apply IH].
  by apply (evaluated_wave _ _ _ _ _ _ _ Hr Hstart Hn).
Qed.

(** ** Lemmas: what a figure shows *)

(** The documented law of [np.linspace] for integers. *)
Class IndexLaws `{IX : IndexSpace} : Prop := {
  linspace_int_length a b n : 0 < n -> length (linspace_int a b n) = Z.to_nat n;
  linspace_int_inside a b n : 0 < n -> a <= b -> Forall (fun z => a <= z <= b) (linspace_int a b n) }.

(** All indices of the mask, or at most [limit] of them. *)
Definition chosen_from (mask : list bool) (limit : Z) (idx : list nat) : Prop :=
  (forall i, i ∈ idx -> mask !! i = Some true) /\ (0 < limit -> Z.of_nat (length idx) <= limit) /\
  (limit <= 0 \/ count_true mask <= limit -> forall i, mask !! i = Some true -> i ∈ idx).

Definition true_indices (mask : list bool) : list nat :=
  omap (fun ib : nat * bool => if snd ib then Some (fst ib) else None) (imap pair mask).

Lemma true_indices_in mask i : i ∈ true_indices mask <-> mask !! i = Some true.
Proof.
  unfold true_indices. rewrite list_elem_of_omap. split.
  - intros ([j b] & (k & x & [= -> ->] & Hx)%elem_of_lookup_imap_1 & Hb). cbn in Hb. destruct x; [|done].
    by injection Hb as ->.
  - intros Hi. exists (i, true). split; [|done]. apply (list_elem_of_lookup_2 _ i). rewrite list_lookup_imap.
    exact (f_equal (fmap (pair i)) Hi).
Qed.

Definition index_where (ib : nat * bool) : option nat := if snd ib then Some (fst ib) else None.

Lemma count_indices (g : nat -> bool -> nat * bool) mask : (forall i b, snd (g i b) = b) ->
  length (omap index_where (imap g mask)) = length (filter (fun b => b = true) mask).
Proof.
  revert g. induction mask as [|b mask IH]; intros g Hg; [done|]. rewrite imap_cons, filter_cons.
  cbn [omap list_omap]. unfold index_where at 1. rewrite Hg. destruct b.
  - rewrite decide_True by done. cbn [length]. f_equal. apply (IH (g ∘ S)). intros i b. apply Hg.
  - rewrite decide_False by done. apply (IH (g ∘ S)). intros i b. apply Hg.
Qed.

Lemma true_indices_count mask : Z.of_nat (length (true_indices mask)) = count_true mask.
Proof. unfold count_true. f_equal. by apply (count_indices pair). Qed.

(** Every record is on one side. *)
Lemma counts_add mask : count_true mask + count_true (negb <$> mask) = Z.of_nat (length mask).
Proof.
  unfold count_true. induction mask as [|b mask IH]; [done|]. rewrite fmap_cons, !filter_cons.
  destruct b; cbn [negb]; case_decide; try done; case_decide; try done; cbn [length]; lia.
Qed.

Lemma chosen_ok `{IL : IndexLaws} mask limit idx : choose_indices mask limit = Ok idx -> chosen_from mask limit idx.
Proof.
  unfold choose_indices. change (omap _ _) with (true_indices mask). cbv zeta. rewrite true_indices_count.
  destruct (_ || _) eqn:Hc.
  - intros [= <-]. split; [by intros i ?%true_indices_in|]. split; [|by intros _ i ?%true_indices_in].
    intros Hl. rewrite true_indices_count. apply orb_true_iff in Hc as [?%Z.leb_le|?%Z.leb_le]; lia.
  - apply orb_false_iff in Hc as [H1%Z.leb_gt H2%Z.leb_gt]. intros Hr%rmap_ok. split; [|split].
    + intros i Hi. apply list_elem_of_lookup in Hi as [k Hk]. destruct (Forall2_lookup_r _ _ _ _ _ Hr Hk) as (z & _ & Hz).
      unfold at_index in Hz. destruct (true_indices mask !! Z.to_nat z) as [j|] eqn:Hj; [|done]. injection Hz as <-.
      by apply list_elem_of_lookup_2, true_indices_in in Hj.
    + intros Hl. rewrite <- (Forall2_length _ _ _ Hr), linspace_int_length by done. lia.
    + lia.
Qed.

(** What the figure of a point shows. *)
Record drawn_point `{NP : Numpy, ST : Statistics} (args : ex_args) (r : point_row) (window : ex_window)
    (ws : waves) (d : doc) : Prop := {
  dp_figure : exists out clean_idx reject_idx clean rejected,
    let mask := snd <$> out in
    evaluate_cuts args window (pr_sample_sigma r) ws = Ok out /\ length out = length (rows ws) /\
    count_true mask + count_true (negb <$> mask) = Z.of_nat (length (rows ws)) /\
    chosen_from mask (ex_max_clean args) clean_idx /\ chosen_from (negb <$> mask) (ex_max_reject args) reject_idx /\
    rmap (at_index (fst <$> out)) clean_idx = Ok clean /\ rmap (at_index (fst <$> out)) reject_idx = Ok rejected /\
    let mean l := match l with [] => [] | _ => [ex_curve "mean" (mean_rows l)] end in
    d = DFigure ("ch" +:+ dec_pad 2 (pr_channel r) +:+ " | I=" +:+ dec_pad 4 (pr_intensity r) +:+ " | clean overlay")
          (((ex_curve (panel_title "clean" mask) <$> clean) ++ mean clean) ++
           ((ex_curve (panel_title "rejected" (negb <$> mask)) <$> rejected) ++ mean rejected)) }.

Lemma point_drawn `{NP : Numpy, ST : Statistics, IL : IndexLaws} args r window ws d :
  point_figure args r window ws = Ok d -> drawn_point args r window ws d.
Proof.
  unfold point_figure. intros H. apply rbind_ok in H as (out & Hout & H). cbv zeta in H.
  apply rbind_ok in H as (ci & Hci%chosen_ok & H). apply rbind_ok in H as (ri & Hri%chosen_ok & H).
  apply rbind_ok in H as (cl & Hcl & H). apply rbind_ok in H as (rj & Hrj & H). injection H as <-.
  unfold panel in Hcl, Hrj. apply rbind_ok in Hcl as (clean & Hclean & Hcl). apply rbind_ok in Hrj as (rejected & Hrej & Hrj).
  injection Hcl as <-. injection Hrj as <-. pose proof (proj1 (rmap_ok _ _ _) Hout) as Hlen%Forall2_length.
  constructor. exists out, ci, ri, clean, rejected. cbv zeta. split_and!; try done.
  rewrite counts_add, length_fmap. lia.
Qed.

(** ** Lemmas: the loop over the points *)

Section loop.
Context `{NP : Numpy, ST : Statistics, IX : IndexSpace, TR : Tree, TA : Tables, HO : Host}.
Context (args : ex_args) (windows : gmap Z ex_window).

(** One point, without the cache *)
Definition plot_uncached (r : point_row) : M files unit :=
  n <- lift (load_waveform_len (run_dir_of r)) ;;
  window <- lift (match windows !! pr_channel r with
                  | Some window => Ok window
                  | None => Raise (Exn KeyError (str_Z (pr_channel r)))
                  end) ;;
  plot_single_point args r window n.

(** The cache holds what the manifests say. *)
Definition cache_ok (cache : gmap string Z) : Prop :=
  forall dir n, cache !! dir = Some n -> load_waveform_len dir = Ok n.

Lemma cached_loop rs cache w u w' : cache_ok cache ->
  fold_m rs (plot_turn args windows) cache w = (Ok u, w') -> for_each rs plot_uncached w = (Ok tt, w').
Proof using Type.
  revert cache w. induction rs as [|r rs IH]; intros cache w Hc H; cbn [fold_m for_each] in *; [by injection H as _ <-|].
  inv_bind H. unfold plot_turn in Hrun. cbv zeta in Hrun. inv_bind Hrun. inv_bind Hrun. inv_bind Hrun. injection Hrun as <- <-.
  assert (Hcache : w1 = w /\ cache_ok a0 /\ exists n, a0 !! run_dir_of r = Some n /\ load_waveform_len (run_dir_of r) = Ok n).
  { destruct (cache !! run_dir_of r) as [n|] eqn:Hn.
    - injection Hrun0 as <- <-. split; [done|]. split; [done|]. exists n. split; [done|by apply Hc].
    - inv_bind Hrun0. injection Hrun as Hlen <-. injection Hrun0 as <- <-. split; [done|]. split.
      + intros dir k Hk. apply lookup_insert_Some in Hk as [[<- <-]|[_ Hk]]; [done|by apply Hc].
      + exists a. split; [apply lookup_insert_eq|done]. }
  destruct Hcache as (-> & Hok & n & Hn & Hlen). injection Hrun1 as Hwin <-. rewrite Hn in Hrun2.
  unfold bind at 1. assert (Hone : plot_uncached r w = (Ok a2, w3)).
  { unfold plot_uncached. unfold bind, lift. rewrite Hlen, Hwin. exact Hrun2. }
  destruct a2. rewrite Hone. by apply (IH a0).
Qed.

End loop.

Lemma NoDup_key {A B : Type} (f : A -> B) l x y : NoDup (f <$> l) -> x ∈ l -> y ∈ l -> f x = f y -> x = y.
Proof.
  intros Hnd [i Hi]%list_elem_of_lookup [j Hj]%list_elem_of_lookup He.
  assert (i = j) as ->; [|congruence]. apply (NoDup_lookup (f <$> l) i j (f x)); [done|by rewrite list_lookup_fmap, Hi|].
  by rewrite list_lookup_fmap, Hj, He.
Qed.

Lemma figure_path_inj `{TR : Tree} args a b : figure_path args a = figure_path args b -> point_key a = point_key b.
Proof.
  unfold figure_path. intros He%path_join_inj%(string_app_inj_l "ch").
  apply until_inj in He as [Hc He]; [|by apply dec_pad_chars; intros k; apply int_char_not..].
  apply (string_app_inj_l "intensity_") in He.
  apply until_inj in He as [Hi _]; [|by apply dec_pad_chars; intros k; apply int_char_not..].
  apply (inj (dec_pad 2)) in Hc. apply (inj (dec_pad 4)) in Hi. unfold point_key. by rewrite Hc, Hi.
Qed.

(** The rows that were asked for have their keys. *)
Lemma picked_keys `{TR : Tree, TA : Tables} dir k keys rs :
  pick_rows dir (k :: keys) = Ok rs -> point_key <$> rs = k :: keys.
Proof.
  unfold pick_rows. intros H. apply rbind_ok in H as (all & _ & H). revert H.
  set (m := foldl _ _ _). intros H%rmap_ok. generalize dependent (k :: keys).
  assert (Hm : forall k r, m !! k = Some r -> point_key r = k).
  { subst m. enough (Hg : forall m0 : gmap (Z * Z) point_row, (forall k r, m0 !! k = Some r -> point_key r = k) ->
      forall k r, foldl (fun m r => <[point_key r := r]> m) m0 all !! k = Some r -> point_key r = k).
    { apply Hg. intros k0 r Hr. by rewrite lookup_empty in Hr. }
    induction all as [|x all IH]; intros m0 Hm0; [done|]. apply IH. intros k0 r [[<- <-]|[_ Hr]]%lookup_insert_Some; [done|by apply Hm0]. }
  intros l. induction 1 as [|k0 r l rs Hr _ IH]; [done|]. cbn. rewrite IH. f_equal.
  destruct (m !! k0) as [r'|] eqn:Hr'; [|done]. injection Hr as <-. by apply Hm.
Qed.

(** What one point leaves. *)
Lemma plot_leaves `{NP : Numpy, ST : Statistics, IL : IndexLaws, TR : Tree, HO : Host} args windows r w1 u1 w2 :
  plot_uncached args windows r w1 = (Ok u1, w2) -> exists n window ws d,
    load_waveform_len (run_dir_of r) = Ok n /\ windows !! pr_channel r = Some window /\
    point_waves r n = Ok ws /\ drawn_point args r window ws d /\ w2 !! figure_path args r = Some d.
Proof.
  intros H1. unfold plot_uncached in H1. inv_bind H1. inv_bind H1. injection Hrun as Hn <-.
  injection Hrun0 as Hwd <-. unfold plot_single_point in H1. inv_bind H1. inv_bind H1. injection Hrun as Hws <-.
  injection Hrun0 as Hd <-. apply put_ok in H1 as ->. rewrite lookup_insert_eq. exists a, a0, a1, a2.
  split_and!; [done|by destruct (windows !! pr_channel r); [injection Hwd as ->|]|done|by apply point_drawn|done].
Qed.

(** The figures of the selected points.  When the script returns, it returns 0.  The points are those
    of [--points], in order, else the best ones.  When no point is named twice, each has its figure:
    the records of the point, read with the length that the manifest of its run gives, under the
    cuts with the window of its channel; of the clean ones and of the rejected ones all, or at most
    the number that was asked for, and the two counts in the titles add up to the records. *)
Theorem examples_complete `{NP : Numpy, ST : Statistics, IL : IndexLaws, TR : Tree, TA : Tables, HO : Host} args w code w' :
  examples_main args w = (Ok code, w') ->
  code = 0 /\ exists keys rs windows,
    (if decide (ex_points args = "") then keys = [] else parse_points (ex_points args) = Ok keys) /\
    pick_rows (at_path (ex_analysis_dir args)) keys = Ok rs /\ (keys <> [] -> point_key <$> rs = keys) /\
    load_windows (path_join (at_path (ex_analysis_dir args)) "channel_windows.json") = Ok windows /\
    (NoDup (point_key <$> rs) -> Forall (fun r => exists n window ws d,
       load_waveform_len (run_dir_of r) = Ok n /\ windows !! pr_channel r = Some window /\
       point_waves r n = Ok ws /\ drawn_point args r window ws d /\ w' !! figure_path args r = Some d) rs).
Proof.
  unfold examples_main. cbv zeta. intros H. do 6 inv_bind H. injection H as <- <-. split; [done|].
  injection Hrun as _ <-. injection Hrun0 as Hkeys <-. injection Hrun1 as Hrs <-. injection Hrun2 as Hwin <-.
  rename a0 into keys, a1 into rs, a2 into windows. exists keys, rs, windows.
  split_and!; [by case_decide; [injection Hkeys|]|done|by intros Hne; destruct keys; [done|apply (picked_keys _ _ _ _ Hrs)]|done|].
  intros Hnd. apply (cached_loop args windows) in Hrun3; [|by intros dir n Hn; rewrite lookup_empty in Hn].
  apply Forall_forall. intros r Hr.
  set (P o := exists n window ws d, load_waveform_len (run_dir_of r) = Ok n /\ windows !! pr_channel r = Some window /\
    point_waves r n = Ok ws /\ drawn_point args r window ws d /\ o = Some d). change (P (w5 !! figure_path args r)).
  replace (w5 !! figure_path args r) with (w4 !! figure_path args r).
  2: { symmetry. eapply spares_run; [|exact Hrun4]. destruct rs; [done|]. apply spares_put. by intros He%path_join_inj. }
  apply (loop_keeps rs (plot_uncached args windows) r (figure_path args r) P _ _ _ Hrun3 Hr); [by apply plot_leaves|].
  intros y Hy. destruct (decide (figure_path args y = figure_path args r)) as [He|Hne].
  - left. apply figure_path_inj in He. rewrite (NoDup_key _ _ _ _ Hnd Hy Hr He). by apply plot_leaves.
  - right. unfold plot_uncached. do 4 (apply spares_bind; [done|intros ?]). by apply spares_put.
Qed.

(** ** A point with two records *)

#[local] Existing Instances some_numpy some_host some_statistics.

#[local] Instance some_index : IndexSpace := { linspace_int := fun a _ n => replicate (Z.to_nat n) a }.

#[local] Instance some_index_laws : IndexLaws.
Proof.
  split.
  - intros a b n _. apply length_replicate.
  - intros a b n Hn Hab. apply Forall_replicate. lia.
Qed.

#[local] Instance example_tree : Tree := {
  listing := fun _ => None;
  text_at := fun p =>
    if decide (p = "an/channel_windows.json")
    then Some (Ok (quoted "{'5': {'baseline_start': 0, 'baseline_stop': 2, 'onset_index': 2, 'peak_index': 3, 'integrate_start': 2, 'integrate_stop': 5}}"))
    else if decide (p = "/r/scan_manifest.json") then Some (Ok (quoted "{'waveform_len': 8}")) else None;
  words_at := fun p => if decide (p = "/r/points/intensity_0100/raw/channel_5.dat")
    then Some (Ok [10; 10; 20; 60; 30; 10; 10; 10; 10; 90; 20; 60; 30; 10; 10; 10]) else None;
  at_path := fun p => p; str_other := fun _ => ""; html_page := fun name _ _ => name }.

Definition example_row : text_row :=
  [("channel", "5"); ("intensity", "100"); ("point_dir", "/r/points/intensity_0100"); ("sample_sigma", "2.0");
   ("n_waveforms", "2"); ("n_clean_waveforms", "1")].

#[local] Instance example_tables : Tables := {
  table_at := fun p => if decide (p = "an/summary_by_point_channel.csv") then Some (Ok [example_row]) else None }.

Definition some_ex_args : ex_args :=
  {| ex_analysis_dir := "an"; ex_output_dir := ""; ex_points := "5:100"; ex_max_clean := 96; ex_max_reject := 48;
     ex_zoom_start := 96; ex_zoom_stop := 240; ex_reject_sigma := f_of_Z 5; ex_window_pre := 1; ex_window_post := 1;
     ex_post_offset := 8; ex_pre_frac := SFopp (f_of_Z 1); ex_pre_floor := SFopp (f_of_Z 1);
     ex_post_frac := SFopp (f_of_Z 1); ex_post_floor := SFopp (f_of_Z 1) |}.

Lemma examples_complete_witness :
  exists w' window ws d, examples_main some_ex_args ∅ = (Ok 0, w') /\
    w' !! "an/publication_plots/ch05_intensity_0100_waveform_overlay.pdf" = Some d /\
    length (rows ws) = 2%nat /\ drawn_point some_ex_args (PointRow 5 100 "/r/points/intensity_0100" (f_of_Z 2) 2 1) window ws d.
Proof.
  destruct (examples_main some_ex_args ∅) as [r w'] eqn:Hm.
  assert (Hr : r = Ok 0) by (change r with (fst (r, w')); rewrite <- Hm; vm_compute; reflexivity). subst r.
  destruct (examples_complete some_ex_args ∅ 0 w' Hm) as (_ & keys & rs & windows & Hkeys & Hrs & _ & _ & H).
  vm_compute in Hkeys. injection Hkeys as <-.
  assert (Hrow : pick_rows "an" [(5, 100)] = Ok [PointRow 5 100 "/r/points/intensity_0100" (f_of_Z 2) 2 1])
    by (vm_compute; reflexivity).
  change (pick_rows "an" [(5, 100)] = Ok rs) in Hrs. rewrite Hrow in Hrs. injection Hrs as <-. clear Hrow.
  specialize (H (NoDup_singleton _)). apply Forall_singleton in H as (n & window & ws & d & Hn & _ & Hws & Hd & Hp).
  exists w', window, ws, d. split; [reflexivity|]. split; [exact Hp|]. split; [|exact Hd].
  vm_compute in Hn. injection Hn as <-. vm_compute in Hws. injection Hws as <-. reflexivity.
Defined.

Definition example_window : ex_window := ExWindow 5 0 2 2 3 2 5.

Definition example_waves : waves := Waves 8 [[10; 10; 20; 60; 30; 10; 10; 10]; [10; 90; 20; 60; 30; 10; 10; 10]].

Lemma cuts_correct_witness :
  exists out, evaluate_cuts some_ex_args example_window (f_of_Z 2) example_waves = Ok out /\
    snd <$> out = [true; false] /\
    Forall2 (fun r e => fst e = subtracted example_window r) (rows example_waves) out.
Proof.
  destruct (evaluate_cuts some_ex_args example_window (f_of_Z 2) example_waves) as [out|e] eqn:He;
    [|vm_compute in He; discriminate He].
  exists out. split; [reflexivity|]. split.
  - assert (Hout : match evaluate_cuts some_ex_args example_window (f_of_Z 2) example_waves with
                   | Ok l => snd <$> l | Raise _ => [] end = [true; false]) by (vm_compute; reflexivity).
    rewrite He in Hout. exact Hout.
  - assert (Hnum : Forall (fun e => Forall (fun x => is_nan x = false) (fst e)) out).
    { assert (Hb : match evaluate_cuts some_ex_args example_window (f_of_Z 2) example_waves with
                   | Ok l => bool_decide (Forall (fun e => Forall (fun x => is_nan x = false) (fst e)) l)
                   | Raise _ => false end = true) by (vm_compute; reflexivity).
      rewrite He in Hb. by apply bool_decide_eq_true_1 in Hb. }
    pose proof (cuts_correct some_ex_args example_window (f_of_Z 2) example_waves out He ltac:(vm_compute; discriminate) Hnum) as H.
    eapply Forall2_impl; [exact H|]. intros r e [Hs _]. exact Hs.
Defined.
