(* ===== verification/MeanOverlays.v ===== *)
(** Mean waveforms of an LED scan: [client/dynamic_range_led/plot_led_mean_waveform_overlays.py], one
    figure per channel with a curve per intensity, and an overview of four channels. *)
From S2P Require Import Prelude PyStr PyFloat PyVal ChannelSpec JsonText FeConfig SpyAcquire.
From S2P Require Import OscSpectrum WaveStats ScanRuntime ChargeWindows IntensityScan RunFiles Pools PeFit.
From S2P Require Import RetroFit Figures WaveExamples.

Record mean_args : Type := MeanArgs {
  ma_run_dir : string; ma_output_dir : string; ma_channels : string; ma_max_waves : Z; ma_zoom_start : Z;
  ma_zoom_stop : Z }.

Definition parse_channels (text : string) : result (list Z) :=
  rmap int10 (filter (fun t => t <> "") (strip <$> split_on "," text)).

Section means.
Context `{NP : Numpy, TR : Tree, HO : Host}.
Context (args : mean_args).

Definition baseline_subtract (mean_wf : list float) (baseline_start baseline_stop : Z) : list float :=
  let baseline := np_mean (py_slice baseline_start baseline_stop mean_wf) in
  (fun v => f_sub v baseline) <$> mean_wf.

(** [sorted((run_dir / "points").glob("intensity_*"))] *)
Definition point_names (run_dir : string) : list string :=
  filter (fun n => is_Some (strip_prefix "intensity_" n))
    (sorted_names (default ∅ (listing (path_join run_dir "points")))).

(** [int(name.split("_", 1)[1])] *)
Definition intensity_of (name : string) : result Z :=
  match split_once "_" name with
  | Some (_, rest) => int10 rest
  | None => Raise (Exn IndexError "list index out of range")
  end.

(** The mean waveform of a channel at a point, unless it has no file. *)
Definition point_mean (run_dir : string) (waveform_len baseline_start baseline_stop : Z) (point : Z * string) (ch : Z)
    : result (option (Z * list float)) :=
  let raw_path := channel_path (path_join (path_join (path_join run_dir "points") (snd point)) "raw") ch in
  match words_at raw_path with
  | None => Ok None
  | Some file =>
      ws <-! ChargeWindows.load_channel_waves raw_path file waveform_len (ma_max_waves args) "signed" ;;
      Ok (Some (fst point, baseline_subtract (mean_waveform ws) baseline_start baseline_stop))
  end.

Abbreviation series := (gmap Z (list (Z * list float))).

(** One turn of the loop over the points: those without [metadata.json] are skipped. *)
Definition add_point_means (run_dir : string) (channels : list Z) (waveform_len baseline_start baseline_stop : Z)
    (out : series) (name : string) : result series :=
  intensity <-! intensity_of name ;;
  if exists_at (path_join (path_join (path_join run_dir "points") name) "metadata.json")
  then rfold (add_found (point_mean run_dir waveform_len baseline_start baseline_stop (intensity, name))) channels out
  else Ok out.

Definition collect_means (run_dir : string) (channels : list Z) (waveform_len baseline_start baseline_stop : Z)
    : result series :=
  rfold (add_point_means run_dir channels waveform_len baseline_start baseline_stop) (point_names run_dir)
    (no_series channels).

(** ** Figures *)

(** The curves of a panel over the samples of the first of them. *)
Definition mean_curves (l : list (Z * list float)) : result (list (string * list (float * float))) :=
  match l with
  | [] => Raise (Exn IndexError "list index out of range")
  | (_, first) :: _ =>
      let samples := f_of_Z <$> seqZ 0 (Z.of_nat (length first)) in
      rmap (fun im => ps <-! paired samples (snd im) ;; Ok ("I=" +:+ str_Z (fst im), ps)) l
  end.

Definition means_dir (run_dir : string) : string :=
  if decide (ma_output_dir args = "") then path_join run_dir "waveform_overlays" else at_path (ma_output_dir args).

Definition means_base (dir : string) (ch : Z) : string :=
  path_join dir ("ch" +:+ dec_pad 2 ch +:+ "_mean_waveform_overlay").

(** The whole records and their zoom *)
Definition plot_channel (dir : string) (ch : Z) (l : list (Z * list float)) : M files unit :=
  curves <- lift (mean_curves l) ;;
  save_figure (means_base dir ch) (DFigure ("Channel " +:+ str_Z ch) (curves ++ curves)).

Definition plot_if_found (dir : string) (grouped : series) (ch : Z) : M files unit :=
  match grouped !! ch with
  | Some (x :: l) => plot_channel dir ch (x :: l)
  | _ => ret tt
  end.

(** The first four channels, in order *)
Definition overview_channels (grouped : series) : list Z :=
  take 4 (merge_sort Z.le ((map_to_list grouped).*1)).

Definition plot_overview (dir : string) (grouped : series) : M files unit :=
  panels <- lift (rmap (fun ch => cs <-! mean_curves (default [] (grouped !! ch)) ;;
                                  Ok ((fun c => ("ch" +:+ str_Z ch +:+ " " +:+ fst c, snd c)) <$> cs))
                    (overview_channels grouped)) ;;
  save_figure (path_join dir "vd_mean_waveform_overview")
    (DFigure "VD mean waveform overlays by LED intensity" (mjoin panels)).

(** ** [main] *)

Definition int_default (v : pyval) (k : string) (dflt : Z) : result Z := x <-! dict_get v k (PyInt dflt) ;; py_int x.

Definition means_channels (manifest : pyval) : result (list Z) :=
  if decide (ma_channels args = "")
  then v <-! item manifest "channels" ;; l <-! py_iter v ;; rmap py_int l
  else parse_channels (ma_channels args).

Definition means_main : M files Z :=
  let run_dir := at_path (ma_run_dir args) in
  let dir := means_dir run_dir in
  lift (file_ok dir) ;;;
  manifest <- lift (json_at (path_join run_dir "scan_manifest.json")) ;;
  channels <- lift (means_channels manifest) ;;
  waveform_len <- lift (int_item manifest "waveform_len") ;;
  baseline_start <- lift (int_default manifest "charge_baseline_start" 0) ;;
  baseline_stop <- lift (int_default manifest "charge_baseline_stop" 100) ;;
  grouped <- lift (collect_means run_dir channels waveform_len baseline_start baseline_stop) ;;
  for_each channels (plot_if_found dir grouped) ;;;
  when (negb (bool_decide (grouped = ∅))) (plot_overview dir grouped) ;;;
  ret 0.

End means.

(** ** Lemmas: the means of a channel *)

Section mean_lemmas.
Context `{NP : Numpy, TR : Tree, HO : Host}.
Context (args : mean_args).

(** The points that have metadata, with their intensities, in the order of their names. *)
Definition point_list (run_dir : string) (names : list string) : result (list (Z * string)) :=
  ps <-! rmap (fun n => i <-! intensity_of n ;; Ok (i, n)) names ;;
  Ok (filter (fun p => exists_at (path_join (path_join (path_join run_dir "points") (snd p)) "metadata.json") = true) ps).

(** The means of one channel, point by point. *)
Definition mean_series (run_dir : string) (waveform_len b0 b1 : Z) (ch : Z) : result (list (Z * list float)) :=
  ps <-! point_list run_dir (point_names run_dir) ;;
  ss <-! rmap (fun p => point_mean args run_dir waveform_len b0 b1 p ch) ps ;; Ok (omap id ss).

Lemma means_by_point run_dir channels len b0 b1 names g g' :
  rfold (add_point_means args run_dir channels len b0 b1) names g = Ok g' ->
  exists ps, point_list run_dir names = Ok ps /\
    rfold (fun g p => rfold (add_found (point_mean args run_dir len b0 b1 p)) channels g) ps g = Ok g'.
Proof using Type.
  revert g. induction names as [|n names IH]; intros g H; cbn [rfold] in H; [by exists []|].
  apply rbind_ok in H as (g1 & H1 & H). destruct (IH _ H) as (ps & Hps & Hr).
  unfold add_point_means in H1. apply rbind_ok in H1 as (i & Hi & H1). unfold point_list in *.
  apply rbind_ok in Hps as (all & Hall & Hps). injection Hps as <-. cbn [rmap]. rewrite Hi. cbn [rbind].
  rewrite Hall. cbn [rbind]. eexists. split; [done|]. rewrite filter_cons. cbn [snd].
  destruct (exists_at _) eqn:He.
  - rewrite decide_True by done. cbn [rfold]. rewrite H1. exact Hr.
  - rewrite decide_False by done. by injection H1 as ->.
Qed.

Lemma collected_means run_dir channels len b0 b1 g ch :
  collect_means args run_dir channels len b0 b1 = Ok g -> NoDup channels -> ch ∈ channels ->
  exists l, mean_series run_dir len b0 b1 ch = Ok l /\ g !! ch = Some l.
Proof using Type.
  intros H Hnd Hch. apply means_by_point in H as (ps & Hps & H).
  pose proof (added_points _ _ _ _ _ H Hnd ch) as Hs. rewrite no_series_lookup, !decide_True in Hs by done.
  destruct Hs as (ss & Hss & Hg). exists (omap id ss). split; [|done]. unfold mean_series. rewrite Hps. cbn [rbind].
  by rewrite Hss.
Qed.

(** ** Lemmas: figures *)

(** A curve is named by its intensity and holds its mean waveform, sample by sample. *)
Definition mean_curve (im : Z * list float) (c : string * list (float * float)) : Prop :=
  fst c = "I=" +:+ str_Z (fst im) /\ snd <$> snd c = snd im.

Lemma mean_curves_ok l curves : mean_curves l = Ok curves -> l <> [] /\ Forall2 mean_curve l curves.
Proof using Type.
  destruct l as [|[i first] l]; [done|]. intros H. split; [done|]. unfold mean_curves in H. apply rmap_ok in H.
  eapply Forall2_impl; [exact H|]. intros [j m] c Hc. apply rbind_ok in Hc as (ps & Hps & Hc). injection Hc as <-.
  split; [done|]. by apply paired_ok in Hps as [_ Hps].
Qed.

Lemma means_apart dir a b s s' : a <> b -> means_base dir a +:+ s <> means_base dir b +:+ s'.
Proof using Type.
  intros Hab. unfold means_base. rewrite !path_join_suffix, !append_assoc. by intros [He _]%numbered_apart.
Qed.

Lemma spares_means dir grouped ch p :
  (forall s, p <> means_base dir ch +:+ s) -> spares p (plot_if_found dir grouped ch).
Proof using Type.
  intros Hp. unfold plot_if_found. destruct (grouped !! ch) as [[|x l]|]; [done| |done].
  apply spares_bind; [done|]. intros curves. by apply spares_figure.
Qed.

Lemma means_saved dir (grouped : gmap Z (list (Z * list float))) channels ch l w u w' :
  for_each channels (plot_if_found dir grouped) w = (Ok u, w') -> ch ∈ channels ->
  grouped !! ch = Some l -> l <> [] -> exists curves, Forall2 mean_curve l curves /\
    w' !! (means_base dir ch +:+ ".png") = Some (DFigure ("Channel " +:+ str_Z ch) (curves ++ curves)).
Proof using Type.
  intros H Hch Hg Hl.
  set (P o := exists curves, Forall2 mean_curve l curves /\ o = Some (DFigure ("Channel " +:+ str_Z ch) (curves ++ curves))).
  assert (Hturn : plot_if_found dir grouped ch = plot_channel dir ch l).
  { unfold plot_if_found. rewrite Hg. by destruct l. }
  assert (Hleaves : forall w1 u1 w2, plot_if_found dir grouped ch w1 = (Ok u1, w2) -> P (w2 !! (means_base dir ch +:+ ".png"))).
  { intros w1 u1 w2 H1. rewrite Hturn in H1. unfold plot_channel in H1. inv_bind H1. injection Hrun as Hc <-.
    apply mean_curves_ok in Hc as [_ Hc]. exists a. split; [done|]. by apply figure_saved in H1 as [? _]. }
  apply (loop_keeps channels _ ch (means_base dir ch +:+ ".png") P _ _ _ H Hch Hleaves).
  intros y _. destruct (decide (y = ch)) as [->|Hne]; [by left|right].
  apply spares_means. intros s'. by apply means_apart, not_eq_sym.
Qed.

(** An overview is drawn only when each of its channels has a mean. *)
Lemma overview_drawn dir grouped w u w' :
  plot_overview dir grouped w = (Ok u, w') ->
  Forall (fun ch => exists x l, grouped !! ch = Some (x :: l)) (overview_channels grouped) /\
  exists curves, w' !! (path_join dir "vd_mean_waveform_overview" +:+ ".png")
    = Some (DFigure "VD mean waveform overlays by LED intensity" curves).
Proof using Type.
  unfold plot_overview. intros H. inv_bind H. injection Hrun as Hp <-. apply figure_saved in H as [Hpng _].
  split; [|by exists (mjoin a)]. apply rmap_ok in Hp. apply Forall_forall. intros ch Hch.
  apply list_elem_of_lookup in Hch as [i Hi]. destruct (Forall2_lookup_l _ _ _ _ _ Hp Hi) as (p & _ & Hc).
  apply rbind_ok in Hc as (cs & Hcs & _). apply mean_curves_ok in Hcs as [Hne _].
  destruct (grouped !! ch) as [[|x l]|]; [done|by exists x, l|done].
Qed.

End mean_lemmas.

(** Mean waveforms by intensity.  When the script returns, it returns 0.  When no channel is named
    twice, each channel has the mean waveforms of the points that have metadata and a file of it, by
    the names of the points, each less the mean of its baseline; a channel with any has its figure,
    with a curve per point and its samples, once whole and once for the zoom.  And with any channel,
    the overview has been drawn, which takes a mean waveform of each of the first four channels: the
    script never returns when one of these has none. *)
Theorem means_complete `{NP : Numpy, TR : Tree, HO : Host} args w code w' :
  means_main args w = (Ok code, w') ->
  code = 0 /\ exists manifest channels len b0 b1 grouped,
    let run_dir := at_path (ma_run_dir args) in
    let dir := means_dir args run_dir in
    json_at (path_join run_dir "scan_manifest.json") = Ok manifest /\ means_channels args manifest = Ok channels /\
    int_item manifest "waveform_len" = Ok len /\ int_default manifest "charge_baseline_start" 0 = Ok b0 /\
    int_default manifest "charge_baseline_stop" 100 = Ok b1 /\
    (NoDup channels -> forall ch, ch ∈ channels -> exists l,
       mean_series args run_dir len b0 b1 ch = Ok l /\ grouped !! ch = Some l /\
       (l <> [] -> exists curves, Forall2 mean_curve l curves /\
          w' !! (means_base dir ch +:+ ".png") = Some (DFigure ("Channel " +:+ str_Z ch) (curves ++ curves)))) /\
    (grouped <> ∅ -> Forall (fun ch => exists x l, grouped !! ch = Some (x :: l)) (overview_channels grouped) /\
       exists curves, w' !! (path_join dir "vd_mean_waveform_overview" +:+ ".png")
         = Some (DFigure "VD mean waveform overlays by LED intensity" curves)).
Proof.
  unfold means_main. cbv zeta. intros H. do 9 inv_bind H. injection H as <- <-. split; [done|].
  injection Hrun as _ <-. injection Hrun0 as Hman <-. injection Hrun1 as Hch <-. injection Hrun2 as Hlen <-.
  injection Hrun3 as Hb0 <-. injection Hrun4 as Hb1 <-. injection Hrun5 as Hg <-.
  exists a0, a1, a2, a3, a4, a5. split_and!; try done.
  - intros Hnd ch Hin. destruct (collected_means _ _ _ _ _ _ _ _ Hg Hnd Hin) as (l & Hl & Hgl).
    exists l. split; [done|]. split; [done|]. intros Hne.
    destruct (means_saved _ _ _ _ _ _ _ _ Hrun6 Hin Hgl Hne) as (curves & Hc & Hs). exists curves. split; [done|].
    rewrite <- Hs. eapply spares_run; [|exact Hrun7]. apply spares_when, spares_bind; [done|]. intros panels.
    apply spares_figure; unfold means_base; rewrite !path_join_suffix; by intros He%path_join_inj.
  - intros Hne. rewrite bool_decide_eq_false_2 in Hrun7 by done. by apply overview_drawn in Hrun7.
Qed.

(** ** A run of two points *)

#[local] Existing Instances some_numpy some_host.

#[local] Instance means_tree : Tree := {
  listing := fun d => if decide (d = "run/points") then Some {["intensity_200"; "intensity_100"]} else None;
  text_at := fun p => if decide (p = "run/scan_manifest.json")
    then Some (Ok (quoted "{'waveform_len': 4, 'channels': [3, 5], 'charge_baseline_stop': 2}"))
    else if bool_decide (p ∈ ["run/points/intensity_100/metadata.json"; "run/points/intensity_200/metadata.json"])
    then Some (Ok "{}") else None;
  words_at := fun p =>
    if bool_decide (p ∈ ["run/points/intensity_100/raw/channel_5.dat"; "run/points/intensity_200/raw/channel_5.dat"])
    then Some (Ok [10; 12; 20; 60; 30; 10; 10; 10]) else None;
  at_path := fun p => p; str_other := fun _ => ""; html_page := fun name _ _ => name }.

Definition some_mean_args (channels : string) : mean_args :=
  {| ma_run_dir := "run"; ma_output_dir := "out"; ma_channels := channels; ma_max_waves := 0; ma_zoom_start := 80;
     ma_zoom_stop := 240 |}.

Lemma means_complete_witness :
  exists w' c1 c2, means_main (some_mean_args "5") ∅ = (Ok 0, w') /\
    w' !! "out/ch05_mean_waveform_overlay.png" = Some (DFigure "Channel 5" ([c1; c2] ++ [c1; c2])) /\
    fst c1 = "I=100" /\ fst c2 = "I=200".
Proof.
  destruct (means_main (some_mean_args "5") ∅) as [r w'] eqn:Hm.
  assert (Hr : r = Ok 0) by (change r with (fst (r, w')); rewrite <- Hm; vm_compute; reflexivity). subst r.
  destruct (means_complete (some_mean_args "5") ∅ 0 w' Hm)
    as (_ & man & chs & len & b0 & b1 & g & Hman & Hch & Hlen & Hb0 & Hb1 & H & _).
  vm_compute in Hman. injection Hman as <-. vm_compute in Hch. injection Hch as <-.
  vm_compute in Hlen. injection Hlen as <-. vm_compute in Hb0. injection Hb0 as <-. vm_compute in Hb1. injection Hb1 as <-.
  destruct (H (NoDup_singleton _) 5 (list_elem_of_here _ _)) as (l & Hl & _ & Hfig). clear H.
  vm_compute in Hl. injection Hl as <-. destruct Hfig as (curves & Hc & Hw'); [discriminate|].
  inversion Hc as [|x c1 xs cs [H1 _] Hcs]; subst. inversion Hcs as [|y c2 ys cs' [H2 _] Hnil]; subst.
  inversion Hnil; subst. exists w', c1, c2. split; [reflexivity|]. split; [exact Hw'|]. split; [exact H1|exact H2].
Defined.

(** A channel without waveforms ends the script at the overview, after the figures of the others. *)
Lemma silent_channel_aborts :
  match means_main (some_mean_args "") ∅ with
  | (Raise e, w') => exn_class e = IndexError /\
      bool_decide (is_Some (w' !! "out/ch05_mean_waveform_overlay.png")) = true
  | (Ok _, _) => False
  end.
Proof. vm_compute. by split. Qed.
