(* ===== verification/SnrPlots.v ===== *)
(** Signal over noise against the attenuators:
    [client/dynamic_range_led/plot_snr_vs_vgain.py], one figure per channel of a scan with the quick
    values of its points and those of the fits, and an overview.

    A figure is its title and its curves, as in [Figures]; a vertical line is the curve that
    [ax.axvline] draws, from 0 to 1. *)
From S2P Require Import Prelude PyStr PyFloat PyVal ChannelSpec JsonText FeConfig SpyAcquire.
From S2P Require Import OscSpectrum WaveStats ScanRuntime ChargeWindows IntensityScan RunFiles Pools PeFit.
From S2P Require Import NoiseBatch RetroFit Figures WaveExamples.

(** The arguments, less the label of the horizontal axis *)
Record snr_args : Type := SnrArgs {
  sn_analysis_dir : string; sn_output_dir : string; sn_title_prefix : string; sn_fit_summary_csv : string;
  sn_show_best_marker : bool }.

(** A row of the table of fits *)
Record fit_values : Type := FitValues {
  fv_status : string; fv_snr_ped : float; fv_snr_combined : float; fv_gain : float; fv_sigma0 : float;
  fv_sigma1 : float }.

(** A row of the summary with the fit of its point *)
Record snr_row : Type := SnrRow {
  sr_channel : Z; sr_intensity : Z; sr_snr : float; sr_snr_combined : float; sr_gain : float;
  sr_zero_fraction : float; sr_n_clean : Z; sr_status : string; sr_vin_ped : float; sr_vin_combined : float;
  sr_vin_gain : float }.

Abbreviation fits := (gmap (Z * Z) fit_values).

(** ** Inputs *)

(** [float(row.get(k, "nan"))] *)
Definition float_or_nan (r : text_row) (k : string) : result float := py_float (default "nan" (text_get r k)).

Definition fit_entry (r : text_row) : result ((Z * Z) * fit_values) :=
  ch <-! int_at r "channel" ;; i <-! int_at r "intensity" ;;
  let status := default "" (text_get r "vinogradov_status") in
  ped <-! float_or_nan r "vinogradov_snr_ped" ;;
  combined <-! float_or_nan r "vinogradov_snr_combined" ;;
  gain <-! float_or_nan r "gain" ;;
  sigma0 <-! float_or_nan r "sigma0" ;;
  sigma1 <-! float_or_nan r "sigma1" ;;
  Ok ((ch, i), FitValues status ped combined gain sigma0 sigma1).

Definition add_fit (out : fits) (r : text_row) : result fits :=
  e <-! fit_entry r ;; Ok (<[fst e := snd e]> out).

(** [item["..."]] of a row of the summary; a point without a fit has an empty status and no numbers. *)
Definition read_snr_row (fit_lookup : fits) (r : text_row) : result snr_row :=
  ch <-! int_at r "channel" ;; i <-! int_at r "intensity" ;;
  let fit := default (FitValues "" S754_nan S754_nan S754_nan S754_nan S754_nan) (fit_lookup !! (ch, i)) in
  snr <-! float_at r "snr" ;;
  combined <-! float_at r "snr_combined" ;;
  gain <-! float_at r "first_peak_mean" ;;
  zero <-! float_at r "zero_fraction" ;;
  clean <-! int_at r "n_clean_waveforms" ;;
  Ok (SnrRow ch i snr combined gain zero clean (fv_status fit) (fv_snr_ped fit) (fv_snr_combined fit) (fv_gain fit)).

Definition group_rows_by_channel (summary : list text_row) (fit_lookup : fits) : result (gmap Z (list snr_row)) :=
  group_rows (read_snr_row fit_lookup) sr_channel sr_intensity summary.

Definition add_best (out : gmap Z Z) (r : text_row) : result (gmap Z Z) :=
  ch <-! int_at r "channel" ;; i <-! int_at r "intensity" ;; Ok (<[ch := i]> out).

Definition best_lookup (best_rows : list text_row) : result (gmap Z Z) := rfold add_best best_rows ∅.

(** [path.parents[2]] of an absolute path *)
Definition third_parent (path : string) : result string :=
  if (4 <=? length (split_on "/" path))%nat then Ok (parent_path (parent_path (parent_path path)))
  else Raise (Exn IndexError "2").

Definition add_led (out : gmap Z Z) (kv : string * pyval) : result (gmap Z Z) :=
  ch <-! int10 (fst kv) ;; i <-! py_int (snd kv) ;; Ok (<[ch := i]> out).

Section inputs.
Context `{TR : Tree, TA : Tables}.
Context (args : snr_args).

Definition table_there (path : string) : bool := bool_decide (is_Some (table_at path)).

Definition resolve_fit_summary_csv (analysis_dir : string) : option string :=
  if decide (sn_fit_summary_csv args = "")
  then head (filter (fun path => table_there path = true)
         [path_join (path_join analysis_dir "vinogradov_reanalysis_parallel") "fit_summary.csv";
          path_join analysis_dir "fit_summary.csv"])
  else
    let path := at_path (sn_fit_summary_csv args) in
    if table_there path then Some path else None.

Definition load_fit_lookup (path : option string) : result fits :=
  match path with
  | Some path => if table_there path then l <-! read_csv path ;; rfold add_fit l ∅ else Ok ∅
  | None => Ok ∅
  end.

Definition load_channel_led_map (analysis_dir : string) : result (gmap Z Z) :=
  best_rows <-! read_csv (path_join analysis_dir "best_by_channel.csv") ;;
  match best_rows with
  | [] => Ok ∅
  | first :: _ =>
      dir <-! text_item first "point_dir" ;;
      run_dir <-! third_parent (at_path dir) ;;
      let manifest := path_join run_dir "scan_manifest.json" in
      if exists_at manifest then
        payload <-! json_at manifest ;;
        raw_map <-! dict_get payload "channel_to_led_intensity" (PyDict []) ;;
        items <-! items_of raw_map ;;
        rfold add_led items ∅
      else Ok ∅
  end.

End inputs.

(** ** Figures *)

Definition build_title (prefix : string) (channel : Z) (led_map : gmap Z Z) : string :=
  join " | " ((if decide (prefix = "") then [] else [strip prefix])
              ++ ["Channel " +:+ str_Z channel]
              ++ match led_map !! channel with Some i => ["LED " +:+ str_Z i] | None => [] end).

Abbreviation curve := (string * list (float * float))%type.

(** The curve of a column, over the intensities *)
Definition column_of (label : string) (f : snr_row -> float) (l : list snr_row) : curve :=
  (label, (fun s => (f_of_Z (sr_intensity s), f s)) <$> l).

(** The same of the rows with a number, none without any. *)
Definition finite_column (label : string) (f : snr_row -> float) (l : list snr_row) : list curve :=
  match filter (fun s => is_finite (f s) = true) l with
  | [] => []
  | l' => [column_of label f l']
  end.

Definition best_line (show : bool) (label : Z -> string) (best_vgain : option Z) : list curve :=
  match best_vgain with
  | Some v => if show then [(label v, [(f_of_Z v, f_of_Z 0); (f_of_Z v, f_of_Z 1)])] else []
  | None => []
  end.

Definition gain_curve (l : list snr_row) : curve :=
  if existsb (fun s => is_finite (sr_vin_gain s)) l then column_of "Gain (Vin)" sr_vin_gain l
  else column_of "Gain" sr_gain l.

(** [max] of Python, of numbers *)
Definition largest (x : float) (l : list float) : float := foldl (fun a b => if f_ltb a b then b else a) x l.

(** [max(1.0, ymax * 1.12)] over the finite values *)
Definition y_top (l : list snr_row) : float :=
  let values := filter (fun v => is_finite v = true)
    ((sr_snr <$> l) ++ (sr_snr_combined <$> l) ++ (sr_vin_ped <$> l) ++ (sr_vin_combined <$> l)) in
  let ymax := match values with [] => f_of_Z 1 | x :: t => largest x t end in
  let scaled := f_mul ymax (f_dec 112 (-2)) in
  if f_ltb (f_of_Z 1) scaled then scaled else f_of_Z 1.

Section figures.
Context `{HO : Host}.
Context (args : snr_args) (led_map best_by_channel : gmap Z Z) (output_dir : string).

Definition channel_curves (channel : Z) (l : list snr_row) : list curve :=
  [column_of "Quick S/N pedestal" sr_snr l; column_of "Quick S/N combined" sr_snr_combined l]
  ++ finite_column "Vin S/N pedestal" sr_vin_ped l
  ++ finite_column "Vin S/N combined" sr_vin_combined l
  ++ best_line (sn_show_best_marker args) (fun v => "best = " +:+ str_Z v) (best_by_channel !! channel)
  ++ [gain_curve l].

Definition channel_figure (channel : Z) (l : list snr_row) : doc :=
  DFigure (build_title (sn_title_prefix args) channel led_map) (channel_curves channel l).

Definition snr_base (channel : Z) : string :=
  path_join output_dir ("ch" +:+ dec_pad 2 channel +:+ "_snr_vs_attenuators").

(** [fig.savefig] as [.pdf] and as [.png] *)
Definition save_pdf_png (base : string) (d : doc) : M files unit :=
  put (base +:+ ".pdf") d ;;; put (base +:+ ".png") d.

(** [ax.set_ylim] refuses a limit that is not finite. *)
Definition plot_channel (channel : Z) (l : list snr_row) : M files unit :=
  lift (if is_finite (y_top l) then Ok tt else Raise (value_error "Axis limits cannot be NaN or Inf")) ;;;
  save_pdf_png (snr_base channel) (channel_figure channel l).

(** A panel of the overview: its curves under the label of its axis. *)
Definition overview_panel (cl : Z * list snr_row) : list curve :=
  let (channel, l) := cl in
  let label := "ch" +:+ str_Z channel +:+ match led_map !! channel with Some i => ", LED " +:+ str_Z i | None => "" end in
  (fun c => (label +:+ " " +:+ fst c, snd c)) <$>
    ([column_of "Quick combined" sr_snr_combined l]
     ++ finite_column "Vin combined" sr_vin_combined l
     ++ best_line (sn_show_best_marker args) (fun _ => "best") (best_by_channel !! channel)).

(** [plt.subplots] refuses a figure without panels. *)
Definition plot_overview (grouped : gmap Z (list snr_row)) : M files unit :=
  lift (if bool_decide (grouped = ∅)
        then Raise (value_error "Number of rows must be a positive integer, not 0") else Ok tt) ;;;
  save_pdf_png (path_join output_dir "snr_vs_attenuators_overview")
    (DFigure "Signal / Noise vs Attenuators" (mjoin (overview_panel <$> sorted_entries grouped))).

End figures.

(** ** [main] *)

Definition snr_dir `{Tree} (args : snr_args) : string :=
  if decide (sn_output_dir args = "") then path_join (at_path (sn_analysis_dir args)) "snr_vs_attenuators"
  else at_path (sn_output_dir args).

Definition snr_main `{TR : Tree, TA : Tables, HO : Host} (args : snr_args) : M files Z :=
  let analysis_dir := at_path (sn_analysis_dir args) in
  let output_dir := snr_dir args in
  lift (file_ok output_dir) ;;;
  summary_rows <- lift (read_csv (path_join analysis_dir "summary_by_point_channel.csv")) ;;
  best_rows <- lift (read_csv (path_join analysis_dir "best_by_channel.csv")) ;;
  fit_lookup <- lift (load_fit_lookup (resolve_fit_summary_csv args analysis_dir)) ;;
  grouped <- lift (group_rows_by_channel summary_rows fit_lookup) ;;
  best_by_channel <- lift (best_lookup best_rows) ;;
  led_map <- lift (load_channel_led_map analysis_dir) ;;
  for_each (sorted_entries grouped) (fun cl =>
    plot_channel args led_map best_by_channel output_dir (fst cl) (snd cl)) ;;;
  plot_overview args led_map best_by_channel output_dir grouped ;;;
  ret 0.

(** ** Lemmas: tables *)

(** A dict that is filled row by row keeps the last row of a key. *)
Lemma filled_last {K V A : Type} `{Countable K} (f : A -> result (K * V)) l (m0 m : gmap K V) :
  rfold (fun m a => e <-! f a ;; Ok (<[fst e := snd e]> m)) l m0 = Ok m -> exists es,
    rmap f l = Ok es /\
    forall k, m !! k = match last (filter (fun e => fst e = k) es) with Some e => Some (snd e) | None => m0 !! k end.
Proof.
  revert m0. induction l as [|a l IH]; intros m0 Hf; cbn [rfold] in Hf; [injection Hf as <-; by exists []|].
  apply rbind_ok in Hf as (m1 & H1 & Hf). apply rbind_ok in H1 as ([k1 v1] & Ha & H1). injection H1 as <-.
  destruct (IH _ Hf) as (es & Hes & Hm). exists ((k1, v1) :: es). split.
  { cbn [rmap]. by rewrite Ha; cbn [rbind]; rewrite Hes. }
  intros k. rewrite Hm, filter_cons. cbn [fst snd]. case_decide as Hk.
  - subst k. rewrite lookup_insert_eq. destruct (filter _ es) as [|e es'] eqn:He; [done|].
    rewrite last_cons_cons, last_cons. by destruct (last es').
  - by rewrite lookup_insert_ne.
Qed.

(** ** Lemmas: the figures *)

Section saved.
Context `{HO : Host}.
Context (args : snr_args) (led_map best : gmap Z Z) (dir : string).

Lemma pdf_png_saved base d w u w' : save_pdf_png base d w = (Ok u, w') ->
  w' !! (base +:+ ".pdf") = Some d /\ w' !! (base +:+ ".png") = Some d.
Proof using Type.
  unfold save_pdf_png. intros H. inv_bind H. apply put_ok in Hrun as ->. apply put_ok in H as ->.
  rewrite lookup_insert_eq. split; [|done]. rewrite lookup_insert_ne, lookup_insert_eq; [done|].
  intros He%string_app_inj_l. discriminate He.
Qed.

Lemma spares_pdf_png p base d : p <> base +:+ ".png" -> p <> base +:+ ".pdf" -> spares p (save_pdf_png base d).
Proof using Type. intros H1 H2. apply spares_bind; [|intros _]; by apply spares_put, not_eq_sym. Qed.

Lemma snr_apart a b s s' : a <> b -> snr_base dir a +:+ s <> snr_base dir b +:+ s'.
Proof using Type.
  intros Hab. unfold snr_base. rewrite !path_join_suffix, !append_assoc. by intros [He _]%numbered_apart.
Qed.

Lemma spares_snr ch l p : (forall s, p <> snr_base dir ch +:+ s) -> spares p (plot_channel args led_map best dir ch l).
Proof using Type. intros Hp. apply spares_bind; [done|]. intros _. by apply spares_pdf_png. Qed.

Lemma snr_saved (grouped : gmap Z (list snr_row)) ch l w u w' :
  for_each (sorted_entries grouped) (fun cl => plot_channel args led_map best dir (fst cl) (snd cl)) w = (Ok u, w') ->
  grouped !! ch = Some l -> is_finite (y_top l) = true /\
  forall e, e ∈ [".pdf"; ".png"] -> w' !! (snr_base dir ch +:+ e) = Some (channel_figure args led_map best ch l).
Proof using Type.
  intros H Hl. pose proof (proj2 (elem_of_sorted_entries _ _ _) Hl) as Hin.
  assert (Hleaves : forall w1 u1 w2, plot_channel args led_map best dir ch l w1 = (Ok u1, w2) ->
            is_finite (y_top l) = true /\
            forall e, e ∈ [".pdf"; ".png"] -> w2 !! (snr_base dir ch +:+ e) = Some (channel_figure args led_map best ch l)).
  { intros w1 u1 w2 H1. unfold plot_channel in H1. inv_bind H1. injection Hrun as Hy _.
    apply pdf_png_saved in H1 as [Hpdf Hpng]. split; [by destruct (is_finite _)|].
    intros e [->|[->|[]%not_elem_of_nil]%elem_of_cons]%elem_of_cons; done. }
  enough (Hall : forall e, e ∈ [".pdf"; ".png"] -> is_finite (y_top l) = true /\
            w' !! (snr_base dir ch +:+ e) = Some (channel_figure args led_map best ch l)).
  { split; [by apply (Hall ".pdf" (list_elem_of_here _ _))|]. intros e He. by apply Hall. }
  intros e He.
  apply (loop_keeps (sorted_entries grouped) (fun cl => plot_channel args led_map best dir (fst cl) (snd cl)) (ch, l) _
           (fun o => is_finite (y_top l) = true /\ o = Some (channel_figure args led_map best ch l)) _ _ _ H Hin).
  - intros w1 u1 w2 H1. destruct (Hleaves _ _ _ H1) as [Hy Hf]. split; [done|by apply Hf].
  - intros [ch' l'] Hy. destruct (decide (ch' = ch)) as [->|Hne].
    + left. apply elem_of_sorted_entries in Hy. replace l' with l by congruence.
      intros w1 u1 w2 H1. destruct (Hleaves _ _ _ H1) as [Hfin Hf]. split; [done|by apply Hf].
    + right. apply spares_snr. intros s. by apply snr_apart, not_eq_sym.
Qed.

Lemma overview_saved grouped w u w' : plot_overview args led_map best dir grouped w = (Ok u, w') ->
  grouped <> ∅ /\ w' !! path_join dir "snr_vs_attenuators_overview.png"
    = Some (DFigure "Signal / Noise vs Attenuators" (mjoin (overview_panel args led_map best <$> sorted_entries grouped))).
Proof using Type.
  unfold plot_overview. intros H. inv_bind H. injection Hrun as Hg <-. apply pdf_png_saved in H as [_ Hpng].
  rewrite path_join_suffix in Hpng. split; [|done]. intros ->. by rewrite bool_decide_eq_true_2 in Hg.
Qed.

End saved.

(** ** Lemmas: the fits of the points *)

Section fitted.
Context `{TR : Tree, TA : Tables}.

(** The entries of the table that is found, none without one. *)
Definition fit_entries (args : snr_args) (analysis_dir : string) : result (list ((Z * Z) * fit_values)) :=
  match resolve_fit_summary_csv args analysis_dir with
  | Some path => l <-! read_csv path ;; rmap fit_entry l
  | None => Ok []
  end.

(** The fit of a row is the last entry of its point. *)
Definition fit_of (entries : list ((Z * Z) * fit_values)) (s : snr_row) : Prop :=
  match last (filter (fun e => fst e = (sr_channel s, sr_intensity s)) entries) with
  | Some (_, v) => sr_status s = fv_status v /\ sr_vin_ped s = fv_snr_ped v /\
                   sr_vin_combined s = fv_snr_combined v /\ sr_vin_gain s = fv_gain v
  | None => sr_status s = "" /\ sr_vin_ped s = S754_nan /\ sr_vin_combined s = S754_nan /\ sr_vin_gain s = S754_nan
  end.

Lemma resolved_there args dir path : resolve_fit_summary_csv args dir = Some path -> table_there path = true.
Proof using Type.
  unfold resolve_fit_summary_csv. case_decide.
  - intros Hp%head_Some_elem_of. by apply list_elem_of_filter in Hp as [Hp _].
  - destruct (table_there _) eqn:Ht; [by intros [= <-]|done].
Qed.

Lemma lookup_entries args dir fit_lookup :
  load_fit_lookup (resolve_fit_summary_csv args dir) = Ok fit_lookup -> exists entries,
    fit_entries args dir = Ok entries /\
    forall k, fit_lookup !! k = snd <$> last (filter (fun e => fst e = k) entries).
Proof using Type.
  unfold load_fit_lookup, fit_entries. destruct (resolve_fit_summary_csv args dir) as [path|] eqn:Hp.
  - rewrite (resolved_there _ _ _ Hp). intros H. apply rbind_ok in H as (l & -> & H). cbn [rbind].
    apply filled_last in H as (es & -> & Hes). exists es. split; [done|]. intros k. rewrite Hes.
    by destruct (last _).
  - intros [= <-]. by exists [].
Qed.

Lemma read_row_fit fit_lookup entries r s : read_snr_row fit_lookup r = Ok s ->
  (forall k, fit_lookup !! k = snd <$> last (filter (fun e => fst e = k) entries)) -> fit_of entries s.
Proof using Type.
  unfold read_snr_row. intros H Hl. cbv zeta in H. do 7 apply rbind_ok in H as (? & _ & H). injection H as <-.
  unfold fit_of. cbn. rewrite Hl. by destruct (last _) as [[k v]|].
Qed.

End fitted.

(** The figures of a scan.  When the script returns, it returns 0 and the summary has a row.  Each
    row has the fit of its point, the last one in the table of fits if there are several, and no
    numbers without one.  Every channel of the summary has its figure under both names, with its
    rows, which are ordered by intensity, those of one intensity as they stand in the table; and
    the overview holds a panel per channel, in order. *)
Theorem snr_figures_complete `{TR : Tree, TA : Tables, HO : Host} args w code w' :
  snr_main args w = (Ok code, w') ->
  code = 0 /\ exists summary best_rows fit_lookup entries best led_map rows panels,
    let analysis_dir := at_path (sn_analysis_dir args) in
    let dir := snr_dir args in
    read_csv (path_join analysis_dir "summary_by_point_channel.csv") = Ok summary /\
    read_csv (path_join analysis_dir "best_by_channel.csv") = Ok best_rows /\
    best_lookup best_rows = Ok best /\ load_channel_led_map analysis_dir = Ok led_map /\
    fit_entries args analysis_dir = Ok entries /\
    Forall2 (fun r s => read_snr_row fit_lookup r = Ok s /\ fit_of entries s) summary rows /\ rows <> [] /\
    StronglySorted Z.lt (fst <$> panels) /\ (forall ch, ch ∈ fst <$> panels <-> ch ∈ sr_channel <$> rows) /\
    (forall ch l, (ch, l) ∈ panels -> sorted_rows sr_intensity (of_channel sr_channel ch rows) l /\ is_finite (y_top l) = true /\
       forall e, e ∈ [".pdf"; ".png"] -> w' !! (snr_base dir ch +:+ e) = Some (channel_figure args led_map best ch l)) /\
    w' !! path_join dir "snr_vs_attenuators_overview.png"
      = Some (DFigure "Signal / Noise vs Attenuators" (mjoin (overview_panel args led_map best <$> panels))).
Proof.
  unfold snr_main. cbv zeta. intros H. do 9 inv_bind H. injection H as <- <-. split; [done|].
  injection Hrun as _ <-. injection Hrun0 as Hsum <-. injection Hrun1 as Hbest <-. injection Hrun2 as Hfit <-.
  injection Hrun3 as Hg <-. injection Hrun4 as Hb <-. injection Hrun5 as Hled <-.
  destruct (lookup_entries _ _ _ Hfit) as (entries & Hent & Hlk).
  destruct (grouped_entries _ _ _ _ _ Hg) as (rows & Hrows & Hsorted & Hchs & Hsort & Hempty).
  destruct (overview_saved _ _ _ _ _ _ _ _ Hrun7) as [Hne Hov].
  exists a0, a1, a2, entries, a4, a5, rows, (sorted_entries a3). split_and!; try done.
  - eapply Forall2_impl; [by apply rmap_ok|]. intros r s Hs. split; [done|by apply (read_row_fit _ _ _ _ Hs)].
  - intros ->. by apply Hne, Hempty.
  - intros ch l Hl. split; [by apply Hsort|]. apply elem_of_sorted_entries in Hl.
    destruct (snr_saved _ _ _ _ _ _ _ _ _ _ Hrun6 Hl) as [Hy Hs]. split; [done|].
    intros e He. rewrite <- (Hs e He). eapply spares_run; [|exact Hrun7]. apply spares_bind; [done|]. intros _.
    apply spares_pdf_png; unfold snr_base; rewrite !path_join_suffix; by intros Hp%path_join_inj.
Qed.

(** ** A scan of one channel *)

#[local] Existing Instances some_host.

#[local] Instance snr_tree : Tree := {
  listing := fun _ => None;
  text_at := fun p => if decide (p = "/r/scan_manifest.json")
    then Some (Ok (quoted "{'channel_to_led_intensity': {'5': 120}}")) else None;
  words_at := fun _ => None;
  at_path := fun p => p; str_other := fun _ => ""; html_page := fun name _ _ => name }.

Definition summary_row (intensity snr : string) : text_row :=
  [("channel", "5"); ("intensity", intensity); ("snr", snr); ("snr_combined", snr); ("first_peak_mean", "9.5");
   ("zero_fraction", "0.1"); ("n_clean_waveforms", "40")].

#[local] Instance snr_tables : Tables := {
  table_at := fun p =>
    if decide (p = "an/summary_by_point_channel.csv") then Some (Ok [summary_row "900" "4.0"; summary_row "700" "3.0"])
    else if decide (p = "an/best_by_channel.csv")
    then Some (Ok [[("channel", "5"); ("intensity", "900"); ("point_dir", "/r/points/p900/raw")]])
    else if decide (p = "an/fit_summary.csv")
    then Some (Ok [[("channel", "5"); ("intensity", "900"); ("vinogradov_snr_ped", "5.5")]]) else None }.

Definition some_snr_args : snr_args := SnrArgs "an" "out" "" "" true.

Lemma read_row_channel fit_lookup r s : read_snr_row fit_lookup r = Ok s -> int_at r "channel" = Ok (sr_channel s).
Proof.
  unfold read_snr_row. intros H. apply rbind_ok in H as (ch & Hch & H). cbv zeta in H.
  do 6 apply rbind_ok in H as (? & _ & H). by injection H as <-.
Qed.

Lemma snr_figures_complete_witness :
  exists w' led_map best l, snr_main some_snr_args ∅ = (Ok 0, w') /\
    w' !! "out/ch05_snr_vs_attenuators.png" = Some (channel_figure some_snr_args led_map best 5 l) /\
    led_map !! 5 = Some 120 /\ best !! 5 = Some 900 /\ length l = 2%nat /\ StronglySorted (intensity_le sr_intensity) l.
Proof.
  destruct (snr_main some_snr_args ∅) as [r w'] eqn:Hm.
  assert (Hr : r = Ok 0) by (change r with (fst (r, w')); rewrite <- Hm; vm_compute; reflexivity). subst r.
  destruct (snr_figures_complete some_snr_args ∅ 0 w' Hm) as (_ & summary & best_rows & fit_lookup & entries & best & led_map
    & rows & panels & Hsum & Hbest & Hb & Hled & Hent & Hrows & _ & _ & Hch & Hfig & _).
  vm_compute in Hsum. injection Hsum as <-. vm_compute in Hbest. injection Hbest as <-.
  vm_compute in Hb. injection Hb as <-. vm_compute in Hled. injection Hled as <-.
  inversion Hrows as [|r1 s1 rs ss [H1%read_row_channel _] Hrest]; subst.
  inversion Hrest as [|r2 s2 rs' ss' [H2%read_row_channel _] Hnil]; subst. inversion Hnil; subst.
  change (Ok 5 = Ok (sr_channel s1)) in H1. injection H1 as H1. change (Ok 5 = Ok (sr_channel s2)) in H2. injection H2 as H2.
  assert (H5 : 5 ∈ fst <$> panels) by (apply Hch; rewrite H1 at 1; apply list_elem_of_here).
  apply list_elem_of_fmap in H5 as ([c l] & Hc & Hl). cbn in Hc. subst c.
  destruct (Hfig 5 l Hl) as ((Hp & Hs & _) & _ & Hf). eexists w', _, _, l. split; [reflexivity|].
  split; [exact (Hf ".png" (list_elem_of_further _ _ _ (list_elem_of_here _ _)))|].
  split; [reflexivity|]. split; [reflexivity|]. split; [|exact Hs].
  rewrite Hp. unfold of_channel. rewrite !filter_cons, <- H1, <- H2. reflexivity.
Defined.

(** A summary without rows ends the script at the overview. *)
Lemma empty_summary_aborts `{TR : Tree, TA : Tables, HO : Host} args w :
  let analysis_dir := at_path (sn_analysis_dir args) in
  read_csv (path_join analysis_dir "summary_by_point_channel.csv") = Ok [] -> exists e w', snr_main args w = (Raise e, w').
Proof.
  cbv zeta. intros Hs. destruct (snr_main args w) as [[code|e] w'] eqn:Hm; [exfalso|by exists e, w'].
  unfold snr_main in Hm. cbv zeta in Hm. do 9 inv_bind Hm. injection Hrun0 as Hsum <-.
  rewrite Hs in Hsum. injection Hsum as <-. injection Hrun3 as Hg <-.
  assert (Hg' : a3 = ∅) by (rewrite <- Hg; apply fmap_empty). subst a3.
  by apply overview_saved in Hrun7 as [Hne _].
Qed.
