(* ===== verification/ReadOsc.v ===== *)
(** Reading what the oscilloscope saved: [client/read_osc_data.py], which shows a waveform of a
    channel, or the mean of all, and its spectrum.

    Cosines are a class; what is printed is kept as its parts, without the digits of numbers. *)
From S2P Require Import Prelude PyStr PyFloat FloatExact PyVal ChannelSpec JsonText FeConfig SpyAcquire.
From S2P Require Import OscAcq OscSpectrum WaveStats ScanRuntime ChargeWindows IntensityScan RunFiles Pools PeFit.
From S2P Require Import NoiseBatch Figures.

(** [np.cos] *)
Class Cosine : Type := { np_cos : float -> float }.

Record ro_args : Type := RoArgs {
  ro_input : string; ro_channel : option Z; ro_samples_per_waveform : Z; ro_interpret : string; ro_waveform : Z;
  ro_print_samples : Z; ro_mean : bool; ro_plot : bool; ro_fft : bool; ro_fft_avg_waves : Z; ro_fft_window : string;
  ro_fs : float; ro_fft_full_scale : float; ro_fft_keep_dc : bool; ro_fft_log_x : bool }.

(** What is shown: a line of text, a line with values behind its label, the window with its curves. *)
Inductive shown : Type :=
  | ShText (text : string)
  | ShValues (label : string) (values : list pyval)
  | ShPlot (d : doc).

Definition show (e : shown) : M (list shown) unit := modify (fun l => l ++ [e]).

(** ** The run *)

Section run.
Context `{TR : Tree}.

(** [load_metadata]: here a file that cannot be decoded is an error. *)
Definition load_metadata (run_dir : string) : result row :=
  let meta_path := path_join run_dir "run_metadata.json" in
  if negb (exists_at meta_path) then Ok []
  else
    s <-! default (Raise (not_found meta_path)) (text_at meta_path) ;;
    data <-! json_loads s ;;
    Ok (match data with PyDict d => d | _ => [] end).

Definition is_file (path : string) : bool :=
  negb (is_dir path) && (bool_decide (is_Some (text_at path)) || bool_decide (is_Some (words_at path))).

(** The channel of a file that is named directly is not used any more. *)
Definition resolve_paths (input_path : string) (channel : option Z) : result (string * string) :=
  if is_dir input_path then
    match channel with
    | None => Raise (value_error "--channel is required when the input path is a run directory")
    | Some ch => Ok (input_path, path_join input_path ("channel_" +:+ str_Z ch +:+ ".dat"))
    end
  else if is_file input_path then Ok (parent_path input_path, input_path)
  else Raise (Exn OtherError ("Input path not found: " +:+ input_path)).

End run.

Definition load_waveforms (channel_path : string) (file : result (list Z)) (n_samples : Z) (interpret : string)
    : result waves :=
  raw <-! file ;;
  let size := Z.of_nat (length raw) in
  if size =? 0 then Raise (value_error ("No samples found in " +:+ channel_path))
  else if n_samples =? 0 then Raise (Exn OtherError "integer modulo by zero")
  else if negb (size mod n_samples =? 0)
  then Raise (value_error (channel_path +:+ ": sample count " +:+ str_Z size
                           +:+ " is not divisible by samples_per_waveform=" +:+ str_Z n_samples))
  else
    let values := if decide (interpret = "signed") then view_int16 <$> raw else raw in
    if n_samples <? 0 then Raise (value_error "cannot reshape array")
    else Ok (Waves n_samples (reshape (Z.to_nat (size / n_samples)) (Z.to_nat n_samples) values)).

(** ** The spectrum *)

(** [np.pi] *)
Definition np_pi : float := f_dec 3141592653589793 (-15).

Section spectrum.
Context `{NP : Numpy, SPE : Spectral, ST : Statistics, CO : Cosine}.

Definition blackman_harris (n_samples : Z) : list float :=
  (fun k =>
     let scale := np_div (f_mul (f_mul (f_of_Z 2) np_pi) (f_of_Z k)) (f_of_Z (Z.max 1 (n_samples - 1))) in
     f_sub (f_add (f_sub (f_dec 35875 (-5)) (f_mul (f_dec 48829 (-5)) (np_cos scale)))
              (f_mul (f_dec 14128 (-5)) (np_cos (f_mul (f_of_Z 2) scale))))
           (f_mul (f_dec 1168 (-5)) (np_cos (f_mul (f_of_Z 3) scale)))) <$> seqZ 0 n_samples.

(** One value of the Tukey window, at [x] between 0 and 1; the right side is written last. *)
Definition tukey_at (x : float) : float :=
  let alpha := f_dec 1 (-1) in
  let half := np_div alpha (f_of_Z 2) in
  let rate := np_div (f_mul (f_of_Z 2) np_pi) alpha in
  let slope t := f_mul (f_dec 5 (-1)) (f_add (f_of_Z 1) (np_cos (f_mul rate t))) in
  if f_ltb (f_sub (f_of_Z 1) half) x then slope (f_add (f_sub x (f_of_Z 1)) half)
  else if f_ltb x half then slope (f_sub x half)
  else f_of_Z 1.

Definition make_window (name : string) (n_samples : Z) : result (list float) :=
  let name := upper_str name in
  if decide (name = "NONE") then Ok (replicate (Z.to_nat n_samples) (f_of_Z 1))
  else if decide (name = "HANNING") then Ok (np_hanning n_samples)
  else if decide (name = "HAMMING") then Ok (np_hamming n_samples)
  else if decide (name = "BLACKMAN") then Ok (np_blackman n_samples)
  else if decide (name = "BLACKMAN-HARRIS") then Ok (blackman_harris n_samples)
  else if decide (name = "TUKEY")
  then Ok (if n_samples <=? 1 then replicate (Z.to_nat n_samples) (f_of_Z 1)
           else tukey_at <$> np_linspace (f_of_Z 0) (f_of_Z 1) n_samples)
  else Raise (value_error ("Unsupported FFT window: " +:+ name)).

(** [dbfs[0] = np.nan] *)
Definition hide_dc (dbfs : list float) : list float := match dbfs with [] => [] | _ :: t => S754_nan :: t end.

Definition compute_fft_dbfs (ws : waves) (fs_hz : float) (window_name : string) (full_scale_counts : float)
    (keep_dc : bool) : result (list float * list float) :=
  window <-! make_window window_name (cols ws) ;;
  let x := (fun r => if keep_dc then f_of_Z <$> r else centered r) <$> rows ws in
  xw <-! rmap (fun r => broadcast f_mul r window) x ;;
  let scale := np_sum (zip_with f_mul window window) in
  let power := (fun r => (fun c => np_div (f_add (f_mul (fst c) (fst c)) (f_mul (snd c) (snd c))) scale)
                           <$> rfft r) <$> xw in
  let square := f_mul full_scale_counts full_scale_counts in
  let dbfs := (fun p => f_mul (f_of_Z 10) (np_log10 (f_add (np_div p square) (f_dec 1 (-24)))))
                <$> mean_rows power in
  d <-! f_div (f_of_Z 1) fs_hz ;;
  Ok (np_rfftfreq (cols ws) d, if keep_dc then dbfs else hide_dc dbfs).

(** [np.nanargmax] *)
Definition nanargmax (l : list float) : result nat :=
  argmax ((fun x => if is_nan x then S754_infinity true else x) <$> l).

End spectrum.

(** ** [main] *)

(** The waveform that is shown: integers, or the mean *)
Inductive selection : Type :=
  | Single (r : list Z)
  | Mean (m : list float).

Definition sel_floats (s : selection) : list float := match s with Single r => f_of_Z <$> r | Mean m => m end.

Section main.
Context `{NP : Numpy, SPE : Spectral, ST : Statistics, CO : Cosine, TR : Tree}.
Context (args : ro_args).

(** [min], [max], [mean] and [std] *)
Definition sel_stats (s : selection) : list pyval :=
  match s with
  | Single r => [PyInt (min_ints r); PyInt (max_ints r); PyFloat (mean_ints r); PyFloat (np_std (f_of_Z <$> r))]
  | Mean m => [PyFloat (np_min m); PyFloat (np_max m); PyFloat (np_mean m); PyFloat (np_std m)]
  end.

(** [int(v) for v in selected[:count]] *)
Definition sel_samples (s : selection) (count : Z) : result (list Z) :=
  match s with
  | Single r => Ok (take (Z.to_nat count) r)
  | Mean m => rmap f_trunc (take (Z.to_nat count) m)
  end.

Definition n_samples_of (metadata : row) : result Z :=
  py_int (py_or (py_or (PyInt (ro_samples_per_waveform args)) (row_get metadata "samples_per_waveform" (PyInt 0))) (PyInt 0)).

Definition selected_of (ws : waves) : selection :=
  if ro_mean args then Mean (mean_waveform ws) else Single (default [] (rows ws !! Z.to_nat (ro_waveform args))).

Definition selected_name : string :=
  if ro_mean args then "mean waveform" else "waveform " +:+ str_Z (ro_waveform args).

Definition show_selected (run_dir channel_path : string) (metadata : row) (n_samples : Z) (ws : waves)
    : M (list shown) unit :=
  show (ShText ("run_dir: " +:+ run_dir)) ;;;
  show (ShText ("channel_file: " +:+ channel_path)) ;;;
  show (ShText ("interpret: " +:+ ro_interpret args)) ;;;
  show (ShText ("waveforms: " +:+ str_Z (Z.of_nat (length (rows ws))))) ;;;
  show (ShText ("samples_per_waveform: " +:+ str_Z n_samples)) ;;;
  let rate := row_get metadata "sampling_rate_hz" PyNone in
  when (truthy rate) (show (ShValues "sampling_rate_hz" [rate])) ;;;
  show (ShText ("selected: " +:+ selected_name)) ;;;
  show (ShValues "selected_stats" (sel_stats (selected_of ws))) ;;;
  let count := Z.max 0 (Z.min (ro_print_samples args) n_samples) in
  when (0 <? count) (
    show (ShText ("first_" +:+ str_Z count +:+ "_samples:")) ;;;
    l <- lift (sel_samples (selected_of ws) count) ;;
    show (ShText (join " " (str_Z <$> l)))).

Definition fft_count (ws : waves) : Z :=
  let n := Z.of_nat (length (rows ws)) in
  if ro_fft_avg_waves args <=? 0 then n else Z.min (ro_fft_avg_waves args) n.

(** The spectrum that was asked for, with what is printed of it. *)
Definition show_fft (metadata : row) (ws : waves) : M (list shown) (list float * list float) :=
  let fft_wave_count := fft_count ws in
  let fft_input := Waves (cols ws) (take (Z.to_nat fft_wave_count) (rows ws)) in
  fs_hz <- lift (to_float (py_or (py_or (PyFloat (ro_fs args)) (row_get metadata "sampling_rate_hz" (PyFloat f_zero)))
                             (PyFloat (f_of_Z 62500000)))) ;;
  full_scale <- lift (to_float (py_or (py_or (PyFloat (ro_fft_full_scale args))
                                         (row_get metadata "fft_full_scale_counts" (PyFloat f_zero)))
                                  (PyFloat (f_of_Z 16384)))) ;;
  let window := py_str str_other (py_or (PyStr (ro_fft_window args))
                                    (row_get metadata "fft_window_function" (PyStr "BLACKMAN-HARRIS"))) in
  let keep_dc := truthy (py_or (PyBool (ro_fft_keep_dc args)) (row_get metadata "fft_keep_dc" (PyBool false))) in
  '(freq_hz, dbfs) <- lift (compute_fft_dbfs fft_input fs_hz window full_scale keep_dc) ;;
  when (existsb is_finite dbfs) (
    peak_idx <- lift (nanargmax dbfs) ;;
    show (ShText ("fft_avg_waves: " +:+ str_Z fft_wave_count)) ;;;
    show (ShText ("fft_window: " +:+ window)) ;;;
    show (ShValues "fft_full_scale_counts" [PyFloat full_scale]) ;;;
    f <- lift (at_index freq_hz peak_idx) ;;
    show (ShValues "fft_peak_freq_hz" [PyFloat f]) ;;;
    p <- lift (at_index dbfs peak_idx) ;;
    show (ShValues "fft_peak_dbfs" [PyFloat p])) ;;;
  ret (freq_hz, dbfs).

(** The window: the waveform, and the spectrum if there is one. *)
Definition show_plot (channel_path : string) (n_samples : Z) (ws : waves) (fft : option (list float * list float))
    : M (list shown) unit :=
  when (ro_plot args) (
    let time := (selected_name, zip (f_of_Z <$> seqZ 0 n_samples) (sel_floats (selected_of ws))) in
    spectrum <- lift (match fft with
                      | Some (freq_hz, dbfs) => ps <-! paired freq_hz dbfs ;; Ok [("FFT", ps)]
                      | None => Ok []
                      end) ;;
    show (ShPlot (DFigure (path_name channel_path +:+ ": " +:+ selected_name) (time :: spectrum)))).

Definition ro_main : M (list shown) Z :=
  let input_path := at_path (ro_input args) in
  '(run_dir, channel_path) <- lift (resolve_paths input_path (ro_channel args)) ;;
  metadata <- lift (load_metadata run_dir) ;;
  n_samples <- lift (n_samples_of metadata) ;;
  lift (if n_samples <=? 0 then Raise (value_error "Could not determine samples_per_waveform. Pass -L explicitly or use a run directory with run_metadata.json")
        else if negb (exists_at channel_path) then Raise (Exn OtherError ("Channel file not found: " +:+ channel_path))
        else Ok tt) ;;;
  ws <- lift (load_waveforms channel_path (default (Raise (not_found channel_path)) (words_at channel_path)) n_samples
                (ro_interpret args)) ;;
  let n_waveforms := Z.of_nat (length (rows ws)) in
  lift (if (ro_waveform args <? 0) || (n_waveforms <=? ro_waveform args)
        then Raise (Exn IndexError ("Waveform index " +:+ str_Z (ro_waveform args) +:+ " out of range 0.."
                                    +:+ str_Z (n_waveforms - 1)))
        else Ok tt) ;;;
  show_selected run_dir channel_path metadata n_samples ws ;;;
  fft <- (if ro_fft args then sp <- show_fft metadata ws ;; ret (Some sp) else ret None) ;;
  show_plot channel_path n_samples ws fft ;;;
  ret 0.

End main.

(** ** Lemmas: waveforms *)

Definition interpreted (interpret : string) (words : list Z) : list Z :=
  if decide (interpret = "signed") then view_int16 <$> words else words.

(** The values that a 16-bit word can hold. *)
Definition in_word (interpret : string) (v : Z) : Prop :=
  if decide (interpret = "signed") then - 2 ^ 15 <= v < 2 ^ 15 else 0 <= v < 2 ^ 16.

Lemma interpreted_to_u16 interpret l : Forall (in_word interpret) l -> interpreted interpret (to_u16 l) = l.
Proof.
  unfold interpreted, in_word. case_decide; [apply view_to_u16|]. unfold to_u16.
  induction 1 as [|v l Hv _ IH]; [done|]. cbn. rewrite Z.mod_small by done. by f_equal.
Qed.

Lemma interpreted_app interpret l1 l2 :
  interpreted interpret (l1 ++ l2) = interpreted interpret l1 ++ interpreted interpret l2.
Proof. unfold interpreted. case_decide; [apply fmap_app|done]. Qed.

(** The waveforms of a file are its words, in order, [n] in each. *)
Lemma loaded_waveforms path file n interpret ws : load_waveforms path file n interpret = Ok ws ->
  exists words, file = Ok words /\ words <> [] /\ cols ws = n /\ mjoin (rows ws) = interpreted interpret words /\
    0 < n /\ Forall (fun r => Z.of_nat (length r) = n) (rows ws).
Proof.
  unfold load_waveforms. intros H. apply rbind_ok in H as (words & -> & H). cbv zeta in H.
  destruct (Z.eqb_spec (Z.of_nat (length words)) 0) as [|Hne]; [done|].
  destruct (Z.eqb_spec n 0) as [|Hn]; [done|]. destruct (Z.eqb_spec (Z.of_nat (length words) mod n) 0) as [Hm|]; [|done].
  cbn [negb] in H. destruct (Z.ltb_spec n 0); [done|]. injection H as <-. cbn [cols rows].
  change (if decide _ then _ else _) with (interpreted interpret words).
  assert (Hlen : length (interpreted interpret words) = (Z.to_nat (Z.of_nat (length words) / n) * Z.to_nat n)%nat).
  { replace (length (interpreted interpret words)) with (length words)
      by (unfold interpreted; case_decide; [by rewrite length_fmap|done]).
    pose proof (Z.div_exact (Z.of_nat (length words)) n ltac:(lia)) as [_ Hd]. specialize (Hd Hm). nia. }
  destruct (reshape_all _ _ _ Hlen) as (Hj & _ & Hr). exists words. split_and!; try done; try lia.
  - by intros ->.
  - eapply Forall_impl; [exact Hr|]. cbn. lia.
Qed.

Lemma words_load path rs n interpret : rs <> [] -> (0 < n)%nat -> Forall (fun r => length r = n) rs ->
  Forall (Forall (in_word interpret)) rs ->
  load_waveforms path (Ok (mjoin (to_u16 <$> rs))) (Z.of_nat n) interpret = Ok (Waves (Z.of_nat n) rs).
Proof.
  intros Hne Hn Hlen Hin.
  assert (Hu : Forall (fun r => length r = n) (to_u16 <$> rs)).
  { apply Forall_fmap. eapply Forall_impl; [exact Hlen|]. intros r Hr. cbn. unfold to_u16. by rewrite length_fmap. }
  assert (Hi : interpreted interpret (mjoin (to_u16 <$> rs)) = mjoin rs).
  { clear -Hin. induction Hin as [|r rs Hr _ IH]; [by unfold interpreted; case_decide|].
    change (interpreted interpret (to_u16 r ++ mjoin (to_u16 <$> rs)) = r ++ mjoin rs).
    by rewrite interpreted_app, interpreted_to_u16, IH. }
  unfold load_waveforms. cbn [rbind]. cbv zeta. change (if decide _ then _ else _) with (interpreted interpret (mjoin (to_u16 <$> rs))).
  rewrite Hi, (join_length n) by done. rewrite length_fmap. assert (0 < length rs)%nat by (destruct rs; [done|cbn; lia]).
  rewrite Nat2Z.inj_mul, Z.mod_mul, Z.div_mul, !Nat2Z.id by lia.
  destruct (Z.eqb_spec (Z.of_nat (length rs) * Z.of_nat n) 0); [nia|]. destruct (Z.eqb_spec (Z.of_nat n) 0); [lia|].
  cbn [negb Z.eqb]. destruct (Z.ltb_spec (Z.of_nat n) 0); [lia|].
  rewrite <- (app_nil_r (mjoin rs)), reshape_join by done. done.
Qed.

Lemma samples_join (fs : list frame) (j : nat) : samples fs j = mjoin (to_u16 <$> ((fun f => default [] (f !! j)) <$> fs)).
Proof. unfold samples. by rewrite <- list_fmap_compose. Qed.

(** C14. What the oscilloscope saves is what this script reads.  In any run of the acquisition and of
    its writer, as long as the writer has reported no error, the file of a channel that started
    empty holds words which are read back as the waveforms of that channel in the frames that were
    written, in order, when these have the length that is read with and values that fit a word. *)
Theorem saved_channel_reads_back c saving d0 s j ch n interpret path :
  NoDup (o_channels c) -> star (step c) (start saving d0) s -> w_error (wr s) = "" -> ready (wr s) = true ->
  o_channels c !! j = Some ch -> o_append c = false \/ d0 !! ch = None ->
  let waveforms := (fun f : frame => default [] (f !! j)) <$> taken (wr s) in
  waveforms <> [] -> (0 < n)%nat -> Forall (fun r => length r = n) waveforms ->
  Forall (Forall (in_word interpret)) waveforms ->
  exists words, OscAcq.disk (wr s) !! ch = Some words /\
    load_waveforms path (Ok words) (Z.of_nat n) interpret = Ok (Waves (Z.of_nat n) waveforms).
Proof.
  intros Hnd Hstar He Hr Hj Hempty waveforms Hne Hn Hlen Hin.
  destruct (oi_writer _ _ _ _ (run_inv c d0 saving s Hnd Hstar)) as (_ & Hok & _).
  exists (samples (taken (wr s)) j). split.
  - rewrite (wo_disk _ _ _ (Hok He) Hr j ch Hj). unfold base_of. f_equal.
    destruct Hempty as [->| ->]; [done|by destruct (o_append c)].
  - rewrite samples_join. by apply words_load.
Qed.

(** ** Lemmas: the peak of a spectrum *)

Lemma nanargmax_peak l k : nanargmax l = Ok k -> existsb is_finite l = true ->
  exists v, l !! k = Some v /\ is_nan v = false /\ Forall (fun x => f_ltb v x = false) l.
Proof.
  unfold nanargmax. intros Hk Hf. destruct (argmax_max _ _ Hk) as (y & Hy & Hmax).
  rewrite list_lookup_fmap in Hy. destruct (l !! k) as [v|] eqn:Hv; [|done]. cbn in Hy. exists v. split; [done|].
  rewrite Forall_fmap, Forall_forall in Hmax. unfold compose in Hmax.
  apply existsb_exists in Hf as (x & Hx%list_elem_of_In & Hfin). assert (Hnum : is_nan v = false).
  { destruct (is_nan v) eqn:Hnan; [|done]. injection Hy as <-. specialize (Hmax x Hx). by destruct x as [[]| | |[]]. }
  split; [done|]. rewrite Hnum in Hy. injection Hy as <-. apply Forall_forall. intros z Hz. specialize (Hmax z Hz).
  destruct (is_nan z) eqn:Hzn; [|done]. destruct z; try done. by destruct v as [[]|[]| |[]].
Qed.

(** The spectrum is that of [analyze_waveform_dataset.py] under the same window, but for the bin of
    DC, which is no number here unless it is kept. *)
Theorem spectra_agree `{NP : Numpy, SPE : Spectral, ST : Statistics, CO : Cosine} ws fs_hz name window full_scale keep_dc :
  make_window name (cols ws) = Ok window -> 
  compute_fft_dbfs ws fs_hz name full_scale keep_dc =
    rbind (WaveStats.compute_avg_fft_dbfs ws fs_hz window 0 full_scale (negb keep_dc))
      (fun '(freq_hz, dbfs, _) => Ok (freq_hz, if keep_dc then dbfs else hide_dc dbfs)).
Proof.
  intros Hw. unfold compute_fft_dbfs, WaveStats.compute_avg_fft_dbfs. rewrite Hw. cbn [rbind]. cbv zeta.
  change (0 <=? 0) with true. cbv iota. rewrite take_ge by lia.
  replace ((fun r => if negb keep_dc then centered r else f_of_Z <$> r) <$> rows ws)
    with ((fun r => if keep_dc then f_of_Z <$> r else centered r) <$> rows ws) by (by destruct keep_dc).
  destruct (rmap _ _); [|done]. cbn [rbind]. by destruct (f_div _ _).
Qed.

Lemma saved_channel_reads_back_witness :
  exists words, OscAcq.disk (wr example_steps) !! 3 = Some words /\
    load_waveforms "channel_3.dat" (Ok words) 2 "signed" = Ok (Waves 2 [[11; 12]]).
Proof.
  apply (saved_channel_reads_back example_osc true ∅ example_steps 1 3 2 "signed" "channel_3.dat").
  - reg_mem.
  - apply example_reachable.
  - reflexivity.
  - reflexivity.
  - reflexivity.
  - by right.
  - by vm_compute.
  - lia.
  - by repeat constructor.
  - vm_compute. repeat constructor; discriminate.
Defined.

(** ** Lemmas: what is shown *)

(** A computation that shows something after what was shown before, whatever that is. *)
Definition appends {A : Type} (m : M (list shown) A) : Prop := forall w, m w = (fst (m []), w ++ snd (m [])).

Lemma appends_lift {A : Type} (r : result A) : appends (lift r).
Proof. intros w. unfold lift. cbn. by rewrite app_nil_r. Qed.

Lemma appends_ret {A : Type} (a : A) : appends (ret a).
Proof. intros w. cbn. by rewrite app_nil_r. Qed.

Lemma appends_show e : appends (show e).
Proof. done. Qed.

Lemma appends_bind {A B : Type} (m : M (list shown) A) (k : A -> M (list shown) B) :
  appends m -> (forall a, appends (k a)) -> appends (bind m k).
Proof.
  intros Hm Hk w. unfold bind. rewrite Hm. destruct (m []) as [[a|e] l]; cbn [fst snd]; [|done].
  rewrite (Hk a (w ++ l)), (Hk a l). cbn. by rewrite app_assoc.
Qed.

Lemma appends_when b (m : M (list shown) unit) : appends m -> appends (when b m).
Proof. intros Hm. destruct b; [done|apply appends_ret]. Qed.

Create HintDb shown discriminated.
#[local] Hint Resolve appends_lift appends_ret appends_show appends_when : shown.
#[local] Hint Extern 1 (appends (bind _ _)) => apply appends_bind; [|intros] : shown.

Lemma appends_ok {A : Type} (m : M (list shown) A) w a w' : appends m -> m w = (Ok a, w') ->
  exists l, m [] = (Ok a, l) /\ w' = w ++ l.
Proof. intros Hm H. rewrite Hm in H. destruct (m []) as [r l]. injection H as -> <-. by exists l. Qed.

Section shows.
Context `{NP : Numpy, SPE : Spectral, ST : Statistics, CO : Cosine, TR : Tree}.
Context (args : ro_args).

Lemma appends_selected run_dir path metadata n ws : appends (show_selected args run_dir path metadata n ws).
Proof using Type. unfold show_selected. cbv zeta. auto 20 with shown. Qed.

Lemma appends_fft metadata ws : appends (show_fft args metadata ws).
Proof using Type. unfold show_fft. cbv zeta. do 3 (apply appends_bind; [auto with shown|intros ?]). destruct a1. auto 20 with shown. Qed.

(** What is said of the peak: a bin that is a number and that no bin exceeds. *)
Definition peak_shown (freq_hz dbfs : list float) (l : list shown) : Prop :=
  if existsb is_finite dbfs
  then exists k f p, freq_hz !! k = Some f /\ dbfs !! k = Some p /\ is_nan p = false /\
         Forall (fun x => f_ltb p x = false) dbfs /\
         drop 3 l = [ShValues "fft_peak_freq_hz" [PyFloat f]; ShValues "fft_peak_dbfs" [PyFloat p]]
  else l = [].

Lemma fft_shown metadata ws freq_hz dbfs l : show_fft args metadata ws [] = (Ok (freq_hz, dbfs), l) ->
  peak_shown freq_hz dbfs l /\ exists fs_hz name full_scale keep_dc,
    compute_fft_dbfs (Waves (cols ws) (take (Z.to_nat (fft_count args ws)) (rows ws))) fs_hz name full_scale keep_dc
      = Ok (freq_hz, dbfs).
Proof using Type.
  unfold show_fft. cbv zeta. intros H. inv_bind H. inv_bind H. inv_bind H. destruct a1 as [f d]. inv_bind H.
  injection H as <- <- <-. injection Hrun as _ <-. injection Hrun0 as _ <-. injection Hrun1 as Hfft <-.
  split; [|by eexists _, _, _, _]. unfold peak_shown. destruct (existsb is_finite d) eqn:Hfin.
  - unfold when in Hrun2. do 7 inv_bind Hrun2. injection Hrun as Hk <-. injection Hrun0 as _ <-. injection Hrun1 as _ <-. injection Hrun3 as _ <-.
    injection Hrun4 as Hf <-. injection Hrun5 as _ <-. injection Hrun6 as Hp <-. injection Hrun2 as _ <-.
    destruct (nanargmax_peak _ _ Hk Hfin) as (v & Hv & Hnum & Hmax). unfold at_index in Hf, Hp. rewrite Hv in Hp.
    injection Hp as <-. destruct (f !! a2) as [fk|] eqn:Hfk; [|done]. injection Hf as <-. by exists a2, fk, v.
  - by injection Hrun2 as <-.
Qed.

Lemma fft_part metadata ws w sp w' :
  (if ro_fft args then sp <- show_fft args metadata ws ;; ret (Some sp) else ret None) w = (Ok sp, w') ->
  exists fft, w' = w ++ fft /\
    if ro_fft args
    then exists freq_hz dbfs, sp = Some (freq_hz, dbfs) /\ show_fft args metadata ws [] = (Ok (freq_hz, dbfs), fft) /\
           peak_shown freq_hz dbfs fft
    else sp = None /\ fft = [].
Proof using Type.
  destruct (ro_fft args).
  - intros H. inv_bind H. injection H as <- <-. apply (appends_ok _ _ _ _ (appends_fft _ _)) in Hrun as (fft & Hfft & ->).
    destruct a as [f d]. exists fft. split; [done|]. exists f, d. by destruct (fft_shown _ _ _ _ _ Hfft).
  - intros [= <- <-]. exists []. by rewrite app_nil_r.
Qed.

Lemma plot_part path n ws sp w u w' : show_plot args path n ws sp w = (Ok u, w') -> exists plot, w' = w ++ plot /\
    if ro_plot args
    then exists spectrum, (sp = None -> spectrum = []) /\
      plot = [ShPlot (DFigure (path_name path +:+ ": " +:+ selected_name args)
                ((selected_name args, zip (f_of_Z <$> seqZ 0 n) (sel_floats (selected_of args ws))) :: spectrum))]
    else plot = [].
Proof using Type.
  unfold show_plot. destruct (ro_plot args); cbn [when]; unfold when.
  - cbv zeta. intros H. inv_bind H. injection H as _ <-. injection Hrun as Hs <-. eexists. split; [done|].
    exists a. split; [|done]. intros ->. by injection Hs as <-.
  - intros [= _ <-]. exists []. by rewrite app_nil_r.
Qed.

End shows.

(** What the script shows.  When it returns, it returns 0.  Then the words of the channel's file
    are the waveforms, in order, each with the number of samples that was asked for or that the
    metadata gives, and there is a waveform with the index that was asked for (also when the mean
    is shown).  Its values are shown first, then with [--fft] the peak of the spectrum of the first
    waveforms, a bin that is a number and that none exceeds, unless no bin is finite; then the
    window with the waveform and the spectrum. *)
Theorem read_osc_shows `{NP : Numpy, SPE : Spectral, ST : Statistics, CO : Cosine, TR : Tree} args w code w' :
  ro_main args w = (Ok code, w') ->
  code = 0 /\ exists run_dir path metadata n words ws head fft plot,
    resolve_paths (at_path (ro_input args)) (ro_channel args) = Ok (run_dir, path) /\
    load_metadata run_dir = Ok metadata /\ n_samples_of args metadata = Ok n /\ 0 < n /\
    words_at path = Some (Ok words) /\ words <> [] /\ mjoin (rows ws) = interpreted (ro_interpret args) words /\
    Forall (fun r => Z.of_nat (length r) = n) (rows ws) /\ 0 <= ro_waveform args < Z.of_nat (length (rows ws)) /\
    w' = w ++ head ++ fft ++ plot /\ show_selected args run_dir path metadata n ws [] = (Ok tt, head) /\
    (if ro_fft args
     then exists freq_hz dbfs, show_fft args metadata ws [] = (Ok (freq_hz, dbfs), fft) /\ peak_shown freq_hz dbfs fft
     else fft = []) /\
    (if ro_plot args
     then exists spectrum, (ro_fft args = false -> spectrum = []) /\
       plot = [ShPlot (DFigure (path_name path +:+ ": " +:+ selected_name args)
                 ((selected_name args, zip (f_of_Z <$> seqZ 0 n) (sel_floats (selected_of args ws))) :: spectrum))]
     else plot = []).
Proof.
  unfold ro_main. cbv zeta. intros H. inv_bind H. destruct a as [run_dir path]. do 8 inv_bind H. injection H as <- Hw.
  split; [done|]. injection Hrun as Hpath <-. injection Hrun0 as Hmeta <-. injection Hrun1 as Hn <-.
  injection Hrun2 as Hok <-. injection Hrun3 as Hws <-. injection Hrun4 as Hidx <-.
  apply (appends_ok _ _ _ _ (appends_selected _ _ _ _ _ _)) in Hrun5 as (head & Hhead & ->). destruct a4.
  apply fft_part in Hrun6 as (fft & -> & Hfft). apply plot_part in Hrun7 as (plot & -> & Hplot).
  apply loaded_waveforms in Hws as (words & Hwords & Hne & _ & Hj & Hpos & Hlen).
  exists run_dir, path, a, a0, words, a2, head, fft, plot. split_and!; try done.
  - destruct (words_at path); [cbn in Hwords; by rewrite Hwords|done].
  - destruct (Z.ltb_spec (ro_waveform args) 0); [done|lia].
  - destruct (Z.leb_spec (Z.of_nat (length (rows a2))) (ro_waveform args)); [by rewrite orb_true_r in Hidx|lia].
  - by rewrite <- Hw, <- !app_assoc.
  - destruct (ro_fft args); [|by destruct Hfft]. destruct Hfft as (f & d & _ & Hf). by exists f, d.
  - destruct (ro_plot args); [|done]. destruct Hplot as (spectrum & Hs & ->). exists spectrum. split; [|done].
    intros Hf. rewrite Hf in Hfft. apply Hs. by destruct Hfft.
Qed.

(** ** A channel with two waveforms *)

#[local] Existing Instances some_numpy some_statistics plain_spectral.

#[local] Instance some_cosine : Cosine := { np_cos := fun x => x }.

#[local] Instance saved_tree : Tree := {
  listing := fun d => if decide (d = "/run") then Some {["channel_3.dat"; "run_metadata.json"]} else None;
  text_at := fun p => if decide (p = "/run/run_metadata.json")
    then Some (Ok (quoted "{'samples_per_waveform': 4, 'fft_window_function': 'NONE'}")) else None;
  words_at := fun p => if decide (p = "/run/channel_3.dat")
    then Some (Ok [10; 12; 65535; 60; 30; 10; 10; 10]) else None;
  at_path := fun p => p; str_other := fun _ => ""; html_page := fun name _ _ => name }.

Definition some_ro_args : ro_args :=
  {| ro_input := "/run"; ro_channel := Some 3; ro_samples_per_waveform := 0; ro_interpret := "signed"; ro_waveform := 0;
     ro_print_samples := 3; ro_mean := false; ro_plot := true; ro_fft := true; ro_fft_avg_waves := 1; ro_fft_window := "";
     ro_fs := f_zero; ro_fft_full_scale := f_zero; ro_fft_keep_dc := true; ro_fft_log_x := false |}.

Lemma read_osc_shows_witness :
  exists w' ws, ro_main some_ro_args [] = (Ok 0, w') /\ mjoin (rows ws) = [10; 12; -1; 60; 30; 10; 10; 10] /\
    Forall (fun r => Z.of_nat (length r) = 4) (rows ws) /\ nth_error w' 8 = Some (ShText "10 12 -1").
Proof.
  destruct (ro_main some_ro_args []) as [r w'] eqn:Hm.
  assert (Hr : r = Ok 0) by (change r with (fst (r, w')); rewrite <- Hm; vm_compute; reflexivity). subst r.
  destruct (read_osc_shows some_ro_args [] 0 w' Hm) as (_ & run_dir & path & meta & n & words & ws & head & fft & plot
    & Hpath & Hmeta & Hn & _ & Hwords & _ & Hj & Hlen & _).
  vm_compute in Hpath. injection Hpath as <- <-. vm_compute in Hmeta. injection Hmeta as <-. vm_compute in Hn.
  injection Hn as <-. change (Some (Ok [10; 12; 65535; 60; 30; 10; 10; 10]) = Some (Ok words)) in Hwords.
  injection Hwords as <-. exists w', ws. split; [reflexivity|]. split; [exact Hj|]. split; [exact Hlen|].
  assert (H8 : nth_error (snd (ro_main some_ro_args [])) 8 = Some (ShText "10 12 -1")) by (vm_compute; reflexivity).
  rewrite Hm in H8. exact H8.
Defined.

Lemma spectra_agree_witness :
  exists window, make_window "TUKEY" 2 = Ok window /\
    compute_fft_dbfs (Waves 2 [[3; 5]]) (f_of_Z 100) "TUKEY" (f_of_Z 2) true =
      rbind (WaveStats.compute_avg_fft_dbfs (Waves 2 [[3; 5]]) (f_of_Z 100) window 0 (f_of_Z 2) false)
        (fun '(freq_hz, dbfs, _) => Ok (freq_hz, dbfs)).
Proof.
  eexists. split; [reflexivity|].
  apply (spectra_agree (Waves 2 [[3; 5]]) (f_of_Z 100) "TUKEY" _ (f_of_Z 2) true). reflexivity.
Defined.
