(* ===== verification/BestPlots.v ===== *)
(** The charge histograms of the selected points of an LED scan:
    [client/dynamic_range_led/plot_best_led_snr_publication.py], with the fit of [RetroFit] and the
    range of charges that is shown.

    A figure is its title and its curves, as in [Figures]; the box with the numbers of the fit is
    not kept. *)
From S2P Require Import Prelude PyStr PyFloat PyVal ChannelSpec JsonText FeConfig SpyAcquire.
From S2P Require Import OscSpectrum WaveStats ScanRuntime ChargeWindows IntensityScan RunFiles Pools PeFit.
From S2P Require Import HistogramFits NoiseBatch RetroFit Figures WaveExamples SnrPlots.

(** A histogram as [pd.read_csv] reads it: its columns, each with a number per row. *)
Abbreviation frame := (list (string * list float)).

Class Frames : Type := { frame_at : string -> option (result frame) }.

Definition read_frame `{Frames} (path : string) : result frame :=
  match frame_at path with Some r => r | None => Raise (not_found path) end.

(** [frame[col].to_numpy(dtype=float)] *)
Definition column (f : frame) (col : string) : result (list float) :=
  match list_find (fun c => fst c = col) f with
  | Some (_, (_, l)) => Ok l
  | None => Raise (Exn KeyError ("'" +:+ col +:+ "'"))
  end.

Record best_args : Type := BestArgs {
  bp_analysis_dir : string; bp_output_dir : string; bp_fit_threshold_frac : float; bp_count_quantile : float;
  bp_max_columns : Z; bp_all_points : bool }.

Record best_row : Type := BestRow {
  br_channel : Z; br_intensity : Z; br_point_dir : string; br_snr : float; br_snr_combined : float;
  br_zero_fraction : float; br_selection_score : float; br_first_peak_mean : float; br_first_peak_sigma : float;
  br_pedestal_sigma : float; br_sample_sigma : float; br_n_clean : Z }.

Definition read_best_row (r : text_row) : result best_row :=
  ch <-! int_at r "channel" ;; i <-! int_at r "intensity" ;;
  dir <-! text_item r "point_dir" ;;
  snr <-! float_at r "snr" ;; combined <-! float_at r "snr_combined" ;; zero <-! float_at r "zero_fraction" ;;
  score <-! float_at r "selection_score" ;; mean <-! float_at r "first_peak_mean" ;;
  sigma <-! float_at r "first_peak_sigma" ;; ped <-! float_at r "pedestal_sigma" ;;
  sample <-! float_at r "sample_sigma" ;; clean <-! int_at r "n_clean_waveforms" ;;
  Ok (BestRow ch i dir snr combined zero score mean sigma ped sample clean).

Definition read_rows `{Tables} (path : string) : result (list best_row) := l <-! read_csv path ;; rmap read_best_row l.

(** ** The range of charges *)

(** The last of [x] where [y] is above [threshold] *)
Definition last_above (threshold : float) (x y : list float) : option float :=
  fst <$> last (filter (fun xy => f_ltb threshold (snd xy) = true) (zip x y)).

(** [np.cumsum] after [acc] *)
Fixpoint cumsum_from (acc : float) (l : list float) : list float :=
  match l with
  | [] => []
  | v :: t => let s := f_add acc v in s :: cumsum_from s t
  end.

Definition cumsum (l : list float) : list float := match l with [] => [] | v :: t => v :: cumsum_from v t end.

(** [np.searchsorted] in an increasing array: how many values are below [q]. *)
Fixpoint searchsorted (l : list float) (q : float) : nat :=
  match l with
  | v :: t => if f_ltb v q then S (searchsorted t q) else O
  | [] => O
  end.

Section range.
Context `{NP : Numpy}.

(** The fit of [retro_charge_fit] as far as it is drawn: [xfit], [yfit], the components, [mu0], [mu1]. *)
Record drawn_fit : Type := DrawnFit {
  df_x : list float; df_y : list float; df_components : list (list float); df_mu0 : float; df_mu1 : float }.

(** What is read of a fit whose status is "ok". *)
Definition read_fit (retro_fit : row) : result (option drawn_fit) :=
  if decide (status_text (row_get retro_fit "status" PyNone) = "ok") then
    xs <-! item (PyDict retro_fit) "xfit" ;; x <-! as_floats xs ;;
    ys <-! item (PyDict retro_fit) "yfit" ;; y <-! as_floats ys ;;
    cs <-! item (PyDict retro_fit) "components" ;; l <-! py_iter cs ;; components <-! rmap as_floats l ;;
    params <-! item (PyDict retro_fit) "params" ;;
    m0 <-! item params "mu0" ;; mu0 <-! to_float m0 ;; m1 <-! item params "mu1" ;; mu1 <-! to_float m1 ;;
    Ok (Some (DrawnFit x y components mu0 mu1))
  else Ok None.

(** [max(float(np.max(y)) * frac, 1e-9)] *)
Definition fit_threshold (frac : float) (y : list float) : result float :=
  top <-! max_of y ;; Ok (py_max (f_mul top frac) nano).

(** The largest charge that the fit asks for. *)
Definition fit_xmax_of (f : frame) (x : list float) (frac : float) (fit : option drawn_fit) : result float :=
  x_max <-! max_of x ;;
  match fit with
  | Some d => t <-! fit_threshold frac (df_y d) ;; Ok (default x_max (last_above t (df_x d) (df_y d)))
  | None => total_fit <-! column f "total_fit" ;; t <-! fit_threshold frac total_fit ;;
            Ok (default x_max (last_above t x total_fit))
  end.

(** The largest charge that the counts ask for. *)
Definition count_xmax_of (x counts : list float) (count_quantile : float) : result float :=
  let positive_counts := (fun v => np_maximum v f_zero) <$> counts in
  let total := np_sum positive_counts in
  if f_ltb f_zero total then
    let cum := (fun v => np_div v total) <$> cumsum positive_counts in
    at_index x (Nat.min (searchsorted cum count_quantile) (length x - 1))
  else max_of x.

(** [np.min(x[counts > 0])] when there are counts, else [x[0]] *)
Definition first_counted (x counts : list float) : result float :=
  match fst <$> filter (fun xc => f_ltb f_zero (snd xc) = true) (zip x counts) with
  | [] => at_index x 0
  | counted => Ok (np_min counted)
  end.

Definition choose_xlim (f : frame) (first_peak_mean pedestal_sigma fit_threshold_frac count_quantile : float)
    (fit : option drawn_fit) : result (float * float) :=
  x <-! column f "x" ;;
  counts <-! column f "count" ;;
  first <-! first_counted x counts ;;
  let xmin := py_min (f_mul (f_dec (-45) (-1)) pedestal_sigma) first in
  fit_xmax <-! fit_xmax_of f x fit_threshold_frac fit ;;
  count_xmax <-! count_xmax_of x counts count_quantile ;;
  let peak_xmax := py_max (f_mul (f_dec 58 (-1)) first_peak_mean)
                     (f_add (f_mul (f_of_Z 3) first_peak_mean) (f_mul (f_of_Z 4) pedestal_sigma)) in
  x_max <-! max_of x ;;
  Ok (py_max xmin (f_of_Z (-2000)), py_min (max3 fit_xmax count_xmax peak_xmax) x_max).

End range.

(** ** Figures *)

Definition SAMPLE_NS : float := f_of_Z 16.

(** [x[mask] * SAMPLE_NS] and [y[mask]] for the mask of a range *)
Definition in_range (lim : float * float) (x y : list float) : list (float * float) :=
  (fun xy => (f_mul (fst xy) SAMPLE_NS, snd xy)) <$> windowed (fst lim) (snd lim) (zip x y).

(** [np.max(y[mask])] when anything is in the mask, else 0 *)
Definition top_of (ps : list (float * float)) : float := match ps with [] => f_zero | _ => np_max (snd <$> ps) end.

Definition any_positive (ps : list (float * float)) : bool := existsb (fun p => f_ltb f_zero (snd p)) ps.

(** [ax.axvline] *)
Definition line_at (x : float) : curve := ("", [(x, f_of_Z 0); (x, f_of_Z 1)]).

(** [set_xlim] and [set_ylim] refuse limits that are not finite. *)
Definition finite_limits (l : list float) : result unit :=
  if forallb is_finite l then Ok tt else Raise (value_error "Axis limits cannot be NaN or Inf").

Section figures.
Context `{NP : Numpy, SP : Scipy, WF : WeightedFit, TR : Tree, TA : Tables, FR : Frames, HO : Host}.
Context (args : best_args).

(** The histogram of a row with its fit and its range *)
Definition fitted (r : best_row) (f : frame) : result (list float * list float * option drawn_fit * (float * float)) :=
  x <-! column f "x" ;;
  count <-! column f "count" ;;
  retro_fit <-! fit_retro_triple_gauss (zip x count) (br_first_peak_mean r) (br_pedestal_sigma r)
                  (Some (br_first_peak_sigma r)) ;;
  fit <-! read_fit retro_fit ;;
  lim <-! choose_xlim f (br_first_peak_mean r) (br_pedestal_sigma r) (bp_fit_threshold_frac args)
            (bp_count_quantile args) fit ;;
  Ok (x, count, fit, lim).

Definition peak_labels : list string := ["Pedestal"; "1 p.e."; "2 p.e."].

(** The curves of a fit and its height *)
Definition fit_curves (lim : float * float) (d : drawn_fit) : list curve * float :=
  let parts := omap (fun lc : string * list float =>
    let ps := in_range lim (df_x d) (snd lc) in if any_positive ps then Some (fst lc, ps) else None)
    (zip peak_labels (df_components d)) in
  ([("fit", in_range lim (df_x d) (df_y d))] ++ parts
   ++ [line_at (f_mul (df_mu0 d) SAMPLE_NS); line_at (f_mul (df_mu1 d) SAMPLE_NS)],
   top_of (in_range lim (df_x d) (df_y d))).

(** The stored components, which are drawn when the fit failed; the first has a label. *)
Definition component_curves (lim : float * float) (f : frame) (x : list float) : list curve :=
  omap (fun ic : nat * (string * list float) =>
    let ps := in_range lim x (snd (snd ic)) in
    if any_positive ps then Some (if decide (fst ic = 0%nat) then "C++ components" else "", ps) else None)
    (imap pair (filter (fun c => is_Some (strip_prefix "peak_" (fst c))) f)).

Definition best_title (r : best_row) : string :=
  "Channel " +:+ str_Z (br_channel r) +:+ "  |  LED intensity " +:+ str_Z (br_intensity r).

Definition point_figure (r : best_row) (f : frame) : result doc :=
  '(x, count, fit, lim) <-! fitted r f ;;
  let histogram := in_range lim x count in
  let '(curves, ymax) := match fit with
    | Some d => let '(cs, top) := fit_curves lim d in (cs, py_max (top_of histogram) top)
    | None => (component_curves lim f x, top_of histogram)
    end in
  _ <-! finite_limits [f_mul (fst lim) SAMPLE_NS; f_mul (snd lim) SAMPLE_NS;
                 if f_ltb f_zero ymax then f_mul ymax (f_dec 118 (-2)) else f_of_Z 1] ;;
  Ok (DFigure (best_title r) (("Charge histogram", histogram) :: curves)).

Definition plot_channel (r : best_row) (hist_csv output_base : string) : M files unit :=
  d <- lift (f <-! read_frame hist_csv ;; point_figure r f) ;; save_figure output_base d.

(** [f"ch{channel:02d}..._intensity_{intensity:04d}"] *)
Definition point_name (infix : string) (r : best_row) : string :=
  "ch" +:+ dec_pad 2 (br_channel r) +:+ infix +:+ dec_pad 4 (br_intensity r).

Definition best_histogram (analysis_dir : string) (r : best_row) : string :=
  path_join analysis_dir ("best_" +:+ point_name "_intensity_" r +:+ "_histogram.csv").

Definition stored_histogram (analysis_dir : string) (r : best_row) : string :=
  path_join (path_join analysis_dir "all_histograms") (point_name "_intensity_" r +:+ "_histogram.csv").

Definition render_point (analysis_dir output_dir : string) (r : best_row) : M files unit :=
  let hist_csv := stored_histogram analysis_dir r in
  match frame_at hist_csv with
  | None => ret tt
  | Some _ => plot_channel r hist_csv (path_join output_dir (point_name "_intensity_" r))
  end.

Definition render_all_point_plots (rs : list best_row) (analysis_dir output_dir : string) : M files unit :=
  for_each rs (render_point analysis_dir output_dir).

(** A panel of the overview: the histogram and the fit, under the name of the point *)
Definition best_panel (analysis_dir : string) (r : best_row) : result (list curve) :=
  f <-! read_frame (best_histogram analysis_dir r) ;;
  '(x, count, fit, lim) <-! fitted r f ;;
  _ <-! finite_limits [f_mul (fst lim) SAMPLE_NS; f_mul (snd lim) SAMPLE_NS] ;;
  let name := "ch" +:+ str_Z (br_channel r) +:+ "  I=" +:+ str_Z (br_intensity r) in
  Ok ((name, in_range lim x count)
      :: match fit with Some d => [(name +:+ " fit", in_range lim (df_x d) (df_y d))] | None => [] end).

(** [plt.subplots] refuses a grid without rows. *)
Definition plot_overview (rs : list best_row) (analysis_dir output_dir : string) : M files unit :=
  lift (if bool_decide (rs = [])
        then Raise (value_error "Number of rows must be a positive integer, not 0") else Ok tt) ;;;
  panels <- lift (rmap (best_panel analysis_dir) rs) ;;
  save_figure (path_join output_dir "best_points_overview") (DFigure "" (mjoin panels)).

Definition best_dir : string :=
  if decide (bp_output_dir args = "") then path_join (WaveStats.at_path (bp_analysis_dir args)) "publication_plots"
  else WaveStats.at_path (bp_output_dir args).

Definition best_main : M files Z :=
  let analysis_dir := WaveStats.at_path (bp_analysis_dir args) in
  lift (file_ok best_dir) ;;;
  rs <- lift (read_rows (path_join analysis_dir "best_by_channel.csv")) ;;
  for_each rs (fun r =>
    plot_channel r (best_histogram analysis_dir r) (path_join best_dir (point_name "_best_intensity_" r))) ;;;
  plot_overview rs analysis_dir best_dir ;;;
  let summary_csv := path_join analysis_dir "summary_by_point_channel.csv" in
  when (bp_all_points args && table_there summary_csv) (
    all_rows <- lift (read_rows summary_csv) ;; render_all_point_plots all_rows analysis_dir best_dir) ;;;
  ret 0.

End figures.

(** ** Lemmas: the range of charges *)

Lemma ok_pair {A B : Type} (a c : A) (b d : B) : Ok (a, b) = Ok (c, d) -> a = c /\ b = d.
Proof. intros [=]. by split. Qed.

Lemma np_min_below l v : Forall (fun x => is_nan x = false) l -> v ∈ l -> f_ltb v (np_min l) = false /\ is_nan (np_min l) = false.
Proof.
  destruct l as [|x l]; [intros _ []%not_elem_of_nil|]. intros [Hx Hl]%Forall_cons. unfold np_min.
  revert x v Hx. induction Hl as [|y l Hy _ IH]; intros x v Hx Hv; cbn [foldl].
  { apply elem_of_cons in Hv as [->|[]%not_elem_of_nil]. split; [apply f_ltb_irrefl|done]. }
  rewrite Hx, Hy. set (b := if f_ltb y x then y else x). assert (Hb : is_nan b = false) by (unfold b; by destruct (f_ltb y x)).
  destruct (IH b b Hb (list_elem_of_here _ _)) as [Hbest Hnum]. split; [|done].
  apply elem_of_cons in Hv as [->|[->|Hv]%elem_of_cons].
  - apply not_true_is_false. intros H. destruct (f_ltb y x) eqn:Hyx; unfold b in *; [|by rewrite H in Hbest].
    by rewrite (f_ltb_trans _ _ _ Hyx H) in Hbest.
  - apply not_true_is_false. intros H. destruct (f_ltb y x) eqn:Hyx; unfold b in *; [by rewrite H in Hbest|].
    by rewrite (f_ltb_below _ _ _ Hx Hbest H) in Hyx.
  - apply (IH b v Hb). by apply list_elem_of_further.
Qed.

Lemma py_max_keeps a b c : f_ltb a c = false -> f_ltb (py_max a b) c = false.
Proof.
  unfold py_max. destruct (f_ltb a b) eqn:Hab; [|done]. intros Hac. apply not_true_is_false. intros H.
  by rewrite (f_ltb_trans _ _ _ Hab H) in Hac.
Qed.

(** [max(a, b)] is below neither. *)
Lemma py_max_above a b : f_ltb (py_max a b) a = false /\ f_ltb (py_max a b) b = false.
Proof.
  split; [apply py_max_keeps, f_ltb_irrefl|]. unfold py_max. destruct (f_ltb a b) eqn:H; [apply f_ltb_irrefl|done].
Qed.

Lemma max3_above a b c d : f_ltb (max3 a b c) a = false /\ f_ltb (max3 a b c) b = false /\
  (is_nan c = false -> f_ltb c d = false -> f_ltb (max3 a b c) d = false).
Proof.
  unfold max3. destruct (py_max_above a b) as [Ha Hb]. split_and!; try by apply py_max_keeps.
  intros Hn Hd. set (m := py_max a b). destruct (py_max_above m c) as [_ Hc]. apply not_true_is_false. intros H.
  unfold py_max in H, Hc. destruct (f_ltb m c) eqn:Hmc; [by rewrite H in Hd|].
  by rewrite (f_ltb_below _ _ _ Hn Hd H) in Hc.
Qed.

Lemma f_ltb_nan x y : is_nan y = true -> f_ltb x y = false.
Proof. destruct y; try done. by destruct x as [[]|[]| |[]]. Qed.

(** The largest of three wishes is below none of them. *)
Lemma wishes_met a b c1 c2 : let m := max3 a b (py_max c1 c2) in
  f_ltb m a = false /\ f_ltb m b = false /\ f_ltb m c1 = false.
Proof.
  cbv zeta. destruct (max3_above a b (py_max c1 c2) c1) as (Ha & Hb & Hc). split_and!; [done|done|].
  destruct (py_max_above c1 c2) as [H1 _]. destruct (is_nan (py_max c1 c2)) eqn:Hn; [|by apply Hc].
  apply f_ltb_nan. revert Hn. unfold py_max. destruct (f_ltb c1 c2) eqn:H; [|done].
  intros Hn. by rewrite f_ltb_nan in H.
Qed.

(** The bins with counts stay in a range that begins at a wish, at the first of them or at -2000. *)
Lemma bins_kept wish first x counts k v c :
  Forall (fun v => is_nan v = false) x -> first_counted x counts = Ok first ->
  x !! k = Some v -> counts !! k = Some c -> f_ltb f_zero c = true -> f_ltb v (f_of_Z (-2000)) = false ->
  f_ltb v (py_max (py_min wish first) (f_of_Z (-2000))) = false.
Proof.
  intros Hnum Hfirst Hv Hk Hpos Hlow. unfold py_max. destruct (f_ltb (py_min _ _) _); [exact Hlow|].
  unfold first_counted in Hfirst. set (counted := fst <$> filter _ _) in Hfirst. assert (Hin : v ∈ counted).
  { apply list_elem_of_fmap. exists (v, c). split; [done|]. apply list_elem_of_filter. split; [done|].
    apply (list_elem_of_lookup_2 _ k). by rewrite lookup_zip_with, Hv, Hk. }
  assert (Hsub : Forall (fun v => is_nan v = false) counted).
  { apply Forall_fmap, Forall_forall. intros [a b] [_ Hab]%list_elem_of_filter. rewrite Forall_forall in Hnum.
    apply Hnum. by apply elem_of_zip_l in Hab. }
  destruct (np_min_below _ _ Hsub Hin) as [Hmin Hn].
  assert (Hf : first = np_min counted) by (destruct counted; [by apply not_elem_of_nil in Hin|by injection Hfirst]).
  rewrite <- Hf in Hmin, Hn.
  unfold py_min. destruct (f_ltb first _) eqn:Ha; [done|].
  apply not_true_is_false. intros H. by rewrite (f_ltb_below _ _ _ Hn Ha H) in Hmin.
Qed.

(** ** What the range must be, said without the steps that find it *)

Definition is_number_f (x : float) : Prop := is_nan x = false.
#[export] Instance is_number_f_dec x : Decision (is_number_f x).
Proof. unfold is_number_f. apply _. Defined.

(** [v] is of [l], and nothing of [l] is above it (below it). *)
Definition highest (l : list float) (v : float) : Prop := v ∈ l /\ Forall (fun t => f_ltb v t = false) l.
Definition lowest (l : list float) (v : float) : Prop := v ∈ l /\ Forall (fun t => f_ltb t v = false) l.

(** The first charge: the lowest of those with counts, or the first one where there is no count. *)
Definition counted_at (x counts : list float) (v : float) : Prop :=
  exists k c, x !! k = Some v /\ counts !! k = Some c /\ f_ltb f_zero c = true.

Definition first_charge (x counts : list float) (first : float) : Prop :=
  (counted_at x counts first /\ forall v, counted_at x counts v -> f_ltb v first = false) \/
  ((forall v, ~ counted_at x counts v) /\ x !! 0%nat = Some first).

(** The charge that a curve asks for: the last one at which it is above the fraction [frac] of its
    top, or the largest charge where it is nowhere. *)
Definition above_at (t : float) (xs ys : list float) (k : nat) : Prop :=
  exists v c, xs !! k = Some v /\ ys !! k = Some c /\ f_ltb t c = true.

Definition curve_asks (x xs ys : list float) (frac top : float) : Prop :=
  exists t, fit_threshold frac ys = Ok t /\
    ((exists k, above_at t xs ys k /\ xs !! k = Some top /\ forall j, (k < j)%nat -> ~ above_at t xs ys j) \/
     ((forall k, ~ above_at t xs ys k) /\ top = np_max x)).

Definition fit_asks (f : frame) (x : list float) (frac : float) (fit : option drawn_fit) (top : float) : Prop :=
  match fit with
  | Some d => curve_asks x (df_x d) (df_y d) frac top
  | None => exists total_fit, column f "total_fit" = Ok total_fit /\ curve_asks x x total_fit frac top
  end.

(** The charge that the counts ask for: the first one up to which there is the fraction [q] of
    them, or the largest charge. *)
Definition counts_ask `{NP : Numpy} (x counts : list float) (q top : float) : Prop :=
  let positive := (fun v => np_maximum v f_zero) <$> counts in
  let share := (fun v => np_div v (np_sum positive)) <$> cumsum positive in
  if f_ltb f_zero (np_sum positive) then
    exists k, (forall j v, (j < k)%nat -> share !! j = Some v -> f_ltb v q = true) /\
      (forall v, share !! k = Some v -> f_ltb v q = false) /\
      x !! Nat.min k (length x - 1) = Some top
  else top = np_max x.

Lemma larger_highest l l' v v' :
  Forall is_number_f l' -> highest l v -> highest l' v' -> highest (l ++ l') (py_max v v').
Proof.
  intros Hn [Hv Hl] [Hv' Hl']. assert (Hnum : is_nan v' = false) by by apply (proj1 (Forall_forall _ _) Hn).
  unfold py_max. destruct (f_ltb v v') eqn:Hc; (split; [apply elem_of_app; tauto|]);
    apply Forall_app; split; try done.
  - eapply Forall_impl; [exact Hl|]. intros t Ht. cbv beta in Ht. apply not_true_is_false. intros H.
    by rewrite (f_ltb_trans _ _ _ Hc H) in Ht.
  - eapply Forall_impl; [exact Hl'|]. intros t Ht. cbv beta in Ht. apply not_true_is_false. intros H.
    by rewrite (f_ltb_below _ _ _ Hnum Ht H) in Hc.
Qed.

Lemma highest_one v : highest [v] v.
Proof. split; [apply list_elem_of_here|]. constructor; [apply f_ltb_irrefl|constructor]. Qed.

Definition numbers (l : list float) : list float := filter is_number_f l.

Lemma numbers_cons v l : numbers (v :: l) = if is_nan v then numbers l else v :: numbers l.
Proof.
  unfold numbers. destruct (is_nan v) eqn:Hv.
  - rewrite filter_cons_False; [done|]. unfold is_number_f. by rewrite Hv.
  - by rewrite filter_cons_True.
Qed.

Lemma numbers_all l : Forall is_number_f (numbers l).
Proof. apply Forall_forall. by intros v [Hv _]%list_elem_of_filter. Qed.

(** Python's maximum of two wishes and a third, which may not be numbers, the second of them not
    without the first *)
Lemma max3_highest a b c1 c2 :
  is_nan a = false -> is_nan b = false -> (is_nan c1 = true -> is_nan c2 = true) ->
  highest (numbers [a; b; c1; c2]) (max3 a b (py_max c1 c2)).
Proof.
  intros Ha Hb Hc. rewrite !numbers_cons, Ha, Hb. unfold max3.
  pose proof (larger_highest [a] [b] a b ltac:(by repeat constructor) (highest_one a) (highest_one b)) as Hab.
  destruct (is_nan c1) eqn:H1.
  - rewrite (Hc eq_refl). assert (Hm : py_max c1 c2 = c1) by (unfold py_max; by rewrite f_ltb_nan by auto).
    rewrite Hm. assert (Hm' : py_max (py_max a b) c1 = py_max a b) by (unfold py_max at 1; by rewrite f_ltb_nan).
    by rewrite Hm'.
  - destruct (is_nan c2) eqn:H2.
    + assert (Hm : py_max c1 c2 = c1) by (unfold py_max; by rewrite f_ltb_nan). rewrite Hm.
      apply (larger_highest [a; b] [c1]); [by repeat constructor|done|apply highest_one].
    + apply (larger_highest [a; b] [c1; c2]); [by repeat constructor|done|].
      apply (larger_highest [c1] [c2]); [by repeat constructor|apply highest_one..].
Qed.

Lemma np_min_in l : l <> [] -> np_min l ∈ l.
Proof.
  destruct l as [|x l]; [done|intros _]. unfold np_min. revert x. induction l as [|y l IH]; intros x; cbn [foldl].
  - apply list_elem_of_here.
  - set (b := if is_nan x then _ else _). assert (Hb : b = x \/ b = y) by (subst b; repeat case_match; auto).
    specialize (IH b). apply elem_of_cons in IH as [IH|IH]; [rewrite IH; destruct Hb as [->| ->]|]; set_solver.
Qed.

Lemma first_found x counts first :
  Forall is_number_f x -> first_counted x counts = Ok first -> first_charge x counts first.
Proof.
  intros Hnum. unfold first_counted. set (counted := fst <$> filter _ _).
  assert (Hin : forall v, v ∈ counted <-> counted_at x counts v).
  { intros v. unfold counted. rewrite list_elem_of_fmap. split.
    - intros ([v' c] & -> & [Hc Hz]%list_elem_of_filter). apply list_elem_of_lookup in Hz as [k Hk].
      apply lookup_zip_with_Some in Hk as (v & c' & [= -> ->] & Hv & Hk). by exists k, c'.
    - intros (k & c & Hv & Hk & Hc). exists (v, c). split; [done|]. apply list_elem_of_filter. split; [done|].
      apply (list_elem_of_lookup_2 _ k). by rewrite lookup_zip_with, Hv, Hk. }
  destruct counted as [|v0 rest] eqn:He.
  - intros H. right. split; [intros v Hv%Hin; by apply not_elem_of_nil in Hv|].
    unfold at_index in H. destruct (x !! 0%nat); congruence.
  - rewrite <- He in *. intros [= <-]. left. split; [apply Hin, np_min_in; by rewrite He|].
    intros v Hv%Hin. apply np_min_below; [|done]. apply Forall_forall. intros u (k & c & Hu & _)%Hin.
    apply (proj1 (Forall_forall _ _) Hnum). by eapply list_elem_of_lookup_2.
Qed.

(** A product by a number that is neither zero nor infinite is a number when the other one is. *)
Lemma shr_1_nonneg r : 0 <= shr_m r -> 0 <= shr_m (shr_1 r).
Proof. destruct r as [[|[]|[]] b c]; cbn; lia. Qed.

Lemma shr_nonneg n r : 0 <= shr_m r -> 0 <= shr_m (iter_pos shr_1 n r).
Proof. revert r. induction n as [n IH|n IH|]; intros r Hr; cbn [iter_pos]; auto using shr_1_nonneg. Qed.

Lemma shr_fexp_nonneg m e l : 0 <= m -> 0 <= shr_m (fst (shr_fexp 53 1024 m e l)).
Proof.
  intros Hm. unfold shr_fexp, shr. assert (Hr : 0 <= shr_m (shr_record_of_loc m l)) by by destruct l as [|[]].
  destruct (_ - _); cbn [fst]; auto using shr_nonneg.
Qed.

Lemma rounded_number s m e : 0 <= m -> is_nan (binary_round_aux 53 1024 s m e loc_Exact) = false.
Proof.
  intros Hm. unfold binary_round_aux. pose proof (shr_fexp_nonneg m e loc_Exact Hm) as H1.
  destruct (shr_fexp 53 1024 m e loc_Exact) as [r1 e1]. cbn [fst] in H1.
  assert (H2 : 0 <= round_nearest_even (shr_m r1) (loc_of_shr_record r1)).
  { unfold round_nearest_even. destruct (loc_of_shr_record r1) as [|[]]; try case_match; lia. }
  pose proof (shr_fexp_nonneg _ e1 loc_Exact H2) as H3.
  destruct (shr_fexp 53 1024 _ e1 loc_Exact) as [r2 e2]. cbn [fst] in H3.
  destruct (shr_m r2) as [|n|n]; [done|by destruct (_ <=? _)|lia].
Qed.

Lemma mul_number s m e x : is_nan (f_mul (S754_finite s m e) x) = is_nan x.
Proof. destruct x as [sx|sx| |sx mx ex]; try done. cbn [f_mul SFmul]. by apply rounded_number. Qed.

(** The two wishes of the peak: the second is no number when the first is none. *)
Lemma peak_wishes mean ped : is_nan (f_mul (f_dec 58 (-1)) mean) = true ->
  is_nan (f_add (f_mul (f_of_Z 3) mean) (f_mul (f_of_Z 4) ped)) = true.
Proof.
  assert (H58 : exists s m e, f_dec 58 (-1) = S754_finite s m e) by (vm_compute; eauto).
  destruct H58 as (s & m & e & ->). rewrite mul_number. by destruct mean.
Qed.

(** The ends, from the wishes *)
Lemma low_end width first : is_nan first = false ->
  let lo := py_max (py_min width first) (f_of_Z (-2000)) in
  if is_nan width then is_nan lo = true
  else if existsb (fun t => f_ltb t (f_of_Z (-2000))) [width; first] then lo = f_of_Z (-2000)
  else lowest [width; first] lo.
Proof.
  cbv zeta. intros Hf. set (b := f_of_Z (-2000)). destruct (is_nan width) eqn:Hw.
  { unfold py_min. rewrite f_ltb_nan by done. unfold py_max. by rewrite nan_not_less. }
  assert (Hlow : lowest [width; first] (py_min width first)).
  { unfold py_min. destruct (f_ltb first width) eqn:Hc; (split; [set_solver|]).
    - repeat constructor; [|apply f_ltb_irrefl]. apply not_true_is_false. intros H.
      pose proof (f_ltb_trans _ _ _ Hc H) as Hi. by rewrite f_ltb_irrefl in Hi.
    - by repeat constructor; [apply f_ltb_irrefl|]. }
  assert (Hm : is_nan (py_min width first) = false) by (unfold py_min; by destruct (f_ltb _ _)).
  destruct Hlow as [Hin Hall]. destruct (existsb _ _) eqn:He.
  - apply existsb_exists in He as (t & Ht%list_elem_of_In & Hlt). rewrite Forall_forall in Hall.
    unfold py_max. destruct (f_ltb (py_min width first) b) eqn:Hb; [done|].
    specialize (Hall t Ht). cbv beta in Hall. by rewrite (f_ltb_below t _ b Hm Hb Hlt) in Hall.
  - assert (Hb : f_ltb (py_min width first) b = false).
    { apply not_true_is_false. intros H. apply not_true_iff_false in He. apply He, existsb_exists.
      exists (py_min width first). by split; [apply list_elem_of_In|]. }
    unfold py_max. by rewrite Hb.
Qed.

Lemma high_end wishes m top : highest wishes m -> is_nan m = false ->
  if existsb (f_ltb top) wishes then py_min m top = top else highest wishes (py_min m top).
Proof.
  intros [Hin Hall] Hm. unfold py_min. destruct (existsb _ _) eqn:He.
  - apply existsb_exists in He as (t & Ht%list_elem_of_In & Hlt). rewrite Forall_forall in Hall.
    by rewrite (f_ltb_below top m t Hm (Hall t Ht) Hlt).
  - replace (f_ltb top m) with false; [done|]. symmetry. apply not_true_is_false. intros H.
    apply not_true_iff_false in He. apply He, existsb_exists. exists m. by split; [apply list_elem_of_In|].
Qed.

(** The wishes themselves *)
Lemma first_number x counts first : Forall is_number_f x -> first_charge x counts first -> is_nan first = false.
Proof.
  intros Hnum [[(k & _ & Hk & _) _]|[_ Hk]]; apply list_elem_of_lookup_2 in Hk;
    by apply (proj1 (Forall_forall _ _) Hnum).
Qed.

Lemma max_number x m : Forall is_number_f x -> max_of x = Ok m -> m = np_max x /\ is_nan m = false.
Proof.
  intros Hnum H. destruct x as [|v x]; [done|]. injection H as <-. split; [done|].
  apply Forall_cons in Hnum as [Hv Hx]. unfold np_max. revert v Hv.
  induction Hx as [|u x Hu _ IH]; intros v Hv; cbn [foldl]; [done|].
  apply IH. rewrite Hv, Hu. by destruct (f_ltb v u).
Qed.

(** The last of a curve above a threshold *)
Lemma last_above_found t xs ys :
  match last_above t xs ys with
  | Some top => exists k, above_at t xs ys k /\ xs !! k = Some top /\
                  forall j, (k < j)%nat -> ~ above_at t xs ys j
  | None => forall k, ~ above_at t xs ys k
  end.
Proof.
  unfold last_above. revert ys. induction xs as [|v xs IH]; intros ys.
  { cbn. intros k (? & ? & Hk & _). by rewrite lookup_nil in Hk. }
  destruct ys as [|c ys].
  { cbn. intros k (? & ? & _ & Hk & _). by rewrite lookup_nil in Hk. }
  cbn [zip zip_with]. specialize (IH ys).
  assert (Hs : forall j, above_at t (v :: xs) (c :: ys) (S j) <-> above_at t xs ys j) by done.
  assert (Hlast : forall (P : float * float -> Prop) (HP : forall p, Decision (P p)) l p,
    fst <$> last (filter P (p :: l)) =
      match fst <$> last (filter P l) with Some a => Some a | None => if decide (P p) then Some (fst p) else None end).
  { intros P HP l p. destruct (decide (P p)).
    - rewrite filter_cons_True by done. rewrite last_cons. by destruct (last (filter P l)).
    - rewrite filter_cons_False by done. by destruct (last (filter P l)). }
  rewrite Hlast. destruct (fst <$> last _) as [top|].
  - destruct IH as (k & Hk & Htop & Hafter). exists (S k). split_and!; [by apply Hs|done|].
    intros [|j] Hj; [lia|]. rewrite Hs. apply Hafter. lia.
  - destruct (decide _) as [Hc|Hc]; cbn [fst snd] in *.
    + exists 0%nat. split_and!; [by exists v, c|done|]. intros [|j] Hj; [lia|]. rewrite Hs. apply IH.
    + intros [|k]; [|rewrite Hs; apply IH]. by intros (? & ? & [= <-] & [= <-] & ?).
Qed.

Lemma curve_found x xs ys frac t xm :
  fit_threshold frac ys = Ok t -> xm = np_max x ->
  curve_asks x xs ys frac (default xm (last_above t xs ys)).
Proof.
  intros Ht ->. exists t. split; [done|]. pose proof (last_above_found t xs ys) as H.
  destruct (last_above t xs ys) as [top|]; [by left|by right].
Qed.

Lemma fit_found f x frac fit top : Forall is_number_f x -> fit_xmax_of f x frac fit = Ok top ->
  fit_asks f x frac fit top.
Proof.
  intros Hnum H. unfold fit_xmax_of in H. apply rbind_ok in H as (xm & [Hxm _]%max_number & H); [|done].
  destruct fit as [d|]; cbn [fit_asks].
  - apply rbind_ok in H as (t & Ht & H). injection H as <-. by apply curve_found.
  - apply rbind_ok in H as (l & Hl & H). apply rbind_ok in H as (t & Ht & H). injection H as <-.
    exists l. split; [done|]. by apply curve_found.
Qed.

Lemma fit_number f x frac fit top : Forall is_number_f x -> (forall d, fit = Some d -> Forall is_number_f (df_x d)) ->
  fit_xmax_of f x frac fit = Ok top -> is_nan top = false.
Proof.
  intros Hnum Hfit H. unfold fit_xmax_of in H. apply rbind_ok in H as (xm & [_ Hxm]%max_number & H); [|done].
  assert (Hlast : forall t xs ys, Forall is_number_f xs -> is_nan (default xm (last_above t xs ys)) = false).
  { intros t xs ys Hxs. pose proof (last_above_found t xs ys) as Hl. destruct (last_above t xs ys) as [v|]; [|done].
    destruct Hl as (k & _ & Hk & _). apply (proj1 (Forall_forall _ _) Hxs). by eapply list_elem_of_lookup_2. }
  destruct fit as [d|].
  - apply rbind_ok in H as (t & _ & H). injection H as <-. by apply Hlast, Hfit.
  - apply rbind_ok in H as (l & _ & H). apply rbind_ok in H as (t & _ & H). injection H as <-. by apply Hlast.
Qed.

Lemma searchsorted_first l q : let k := searchsorted l q in
  (forall j v, (j < k)%nat -> l !! j = Some v -> f_ltb v q = true) /\
  (forall v, l !! k = Some v -> f_ltb v q = false).
Proof.
  cbv zeta. induction l as [|u l [IH1 IH2]]; cbn [searchsorted]; [by split|]. destruct (f_ltb u q) eqn:Hu.
  - split; [|exact IH2]. intros [|j] v Hj Hv; [by injection Hv as <-|]. apply (IH1 j); [lia|done].
  - split; [intros j v Hj; lia|]. by intros v [= <-].
Qed.

Lemma counts_found `{NP : Numpy} x counts q top : Forall is_number_f x -> count_xmax_of x counts q = Ok top ->
  counts_ask x counts q top /\ is_nan top = false.
Proof.
  intros Hnum. unfold count_xmax_of, counts_ask. cbv zeta. destruct (f_ltb f_zero _).
  - unfold at_index. destruct (x !! _) as [v|] eqn:Hv; [|done]. intros [= <-]. split.
    + eexists. destruct (searchsorted_first
        ((fun v => np_div v (np_sum ((fun v => np_maximum v f_zero) <$> counts))) <$>
           cumsum ((fun v => np_maximum v f_zero) <$> counts)) q) as [H1 H2]. by split_and!.
    + apply list_elem_of_lookup_2 in Hv. by apply (proj1 (Forall_forall _ _) Hnum).
  - by apply max_number.
Qed.

(** C33. The range that is shown, when the charges are numbers.  The low end: the pedestal asks for
    -4.5 widths of it and the counts for the first charge; the range begins at the lower of the two
    wishes, but not below -2000 (when the width is no number, nor is the low end).  So no bin with
    counts lies below it, unless it is below -2000.  The high end: the fit asks for the last charge
    at which it is above its threshold, the counts for the charge up to which there is the fraction
    [q] of them, and the peak for 5.8 means, and for three means and four widths of the pedestal; the
    range ends at the highest of those wishes that are numbers, or at the last charge where a wish
    is above it. *)
Theorem range_keeps_histogram `{NP : Numpy} f mean ped frac q fit lo hi x counts :
  choose_xlim f mean ped frac q fit = Ok (lo, hi) -> column f "x" = Ok x -> column f "count" = Ok counts ->
  Forall is_number_f x -> (forall d, fit = Some d -> Forall is_number_f (df_x d)) ->
  exists first fit_top count_top,
    first_charge x counts first /\ fit_asks f x frac fit fit_top /\ counts_ask x counts q count_top /\
    (forall v, counted_at x counts v -> f_ltb v (f_of_Z (-2000)) = false -> f_ltb v lo = false) /\
    (let width := f_mul (f_dec (-45) (-1)) ped in
     if is_nan width then is_nan lo = true
     else if existsb (fun t => f_ltb t (f_of_Z (-2000))) [width; first] then lo = f_of_Z (-2000)
     else lowest [width; first] lo) /\
    (let wishes := numbers [fit_top; count_top; f_mul (f_dec 58 (-1)) mean;
                            f_add (f_mul (f_of_Z 3) mean) (f_mul (f_of_Z 4) ped)] in
     if existsb (f_ltb (np_max x)) wishes then hi = np_max x else highest wishes hi).
Proof.
  unfold choose_xlim. intros H Hx Hc Hnum Hfit. rewrite Hx, Hc in H. cbn [rbind] in H. cbv zeta in H.
  apply rbind_ok in H as (first & Hfirst & H). apply rbind_ok in H as (fx & Hfx & H).
  apply rbind_ok in H as (cx & Hcx & H). apply rbind_ok in H as (xm & Hxm & H). apply ok_pair in H as [<- <-].
  pose proof (first_found _ _ _ Hnum Hfirst) as Hcharge. destruct (counts_found _ _ _ _ Hnum Hcx) as [Hq Hqn].
  pose proof (fit_number _ _ _ _ _ Hnum Hfit Hfx) as Hfn.
  exists first, fx, cx. split_and!; [done|by eapply fit_found|done|..].
  - intros v (k & c & Hv & Hk & Hpos). by eapply bins_kept.
  - apply low_end. by eapply first_number.
  - apply max_number in Hxm as [-> _]; [|done].
    pose proof (max3_highest _ _ _ _ Hfn Hqn (peak_wishes mean ped)) as Hm.
    apply high_end; [exact Hm|]. by apply (proj1 (Forall_forall _ _) (numbers_all _) _ (proj1 Hm)).
Qed.

(** ** Lemmas: the files *)

Definition best_key (r : best_row) : Z * Z := (br_channel r, br_intensity r).

Lemma point_name_inj dir pre r r' t t' : path_join dir (point_name ("_" +:+ pre) r) +:+ String "." t
    = path_join dir (point_name ("_" +:+ pre) r') +:+ String "." t' -> best_key r = best_key r'.
Proof.
  unfold point_name. rewrite !path_join_suffix, !append_assoc. cbn [append]. intros [Hc He]%(numbered_apart "_"); [|done].
  apply string_app_inj_l, until_inj in He as [Hi _]; [|by apply dec_pad_chars; intros k; apply int_char_not..].
  apply (inj (dec_pad 4)) in Hi. unfold best_key. by rewrite Hc, Hi.
Qed.

Section loops.
Context `{NP : Numpy, SP : Scipy, WF : WeightedFit, FR : Frames, HO : Host}.
Context (args : best_args) (dir pre : string) (histogram_of : best_row -> string).

(** One turn of a loop over points *)
Definition draw (r : best_row) : M files unit :=
  plot_channel args r (histogram_of r) (path_join dir (point_name ("_" +:+ pre) r)).

(** The figure of a point, from its histogram *)
Definition drawn (w : files) (r : best_row) : Prop :=
  exists f d, read_frame (histogram_of r) = Ok f /\ point_figure args r f = Ok d /\
    forall e, e ∈ [".png"; ".pdf"] -> w !! (path_join dir (point_name ("_" +:+ pre) r) +:+ e) = Some d.

Lemma draw_leaves r w1 u w2 : draw r w1 = (Ok u, w2) -> drawn w2 r.
Proof using Type.
  unfold draw, plot_channel. intros H. inv_bind H. injection Hrun as Hd <-. apply rbind_ok in Hd as (f & Hf & Hd).
  apply figure_saved in H as [Hpng Hpdf]. exists f, a. split; [done|]. split; [done|].
  by intros e [->|[->|[]%not_elem_of_nil]%elem_of_cons]%elem_of_cons.
Qed.

Lemma points_drawn rs w u w' : for_each rs draw w = (Ok u, w') -> NoDup (best_key <$> rs) -> Forall (drawn w') rs.
Proof using Type.
  intros H Hnd. apply Forall_forall. intros r Hr.
  assert (Hturn : forall w1 u1 w2, draw r w1 = (Ok u1, w2) -> drawn w2 r) by (intros; by eapply draw_leaves).
  enough (Hone : forall e, e ∈ [".png"; ".pdf"] -> exists f d, read_frame (histogram_of r) = Ok f /\
            point_figure args r f = Ok d /\ w' !! (path_join dir (point_name ("_" +:+ pre) r) +:+ e) = Some d).
  { destruct (Hone ".png" (list_elem_of_here _ _)) as (f & d & Hf & Hd & _). exists f, d. split_and!; [done|done|].
    intros e He. destruct (Hone e He) as (f' & d' & Hf' & Hd' & He'). congruence. }
  intros e He.
  assert (Hdot : exists t, e = String "." t).
  { apply elem_of_cons in He as [->|[->|[]%not_elem_of_nil]%elem_of_cons]; by eexists. }
  destruct Hdot as [t ->]. set (p := path_join dir _ +:+ _).
  apply (loop_keeps rs draw r p (fun o => exists f d, read_frame (histogram_of r) = Ok f /\
           point_figure args r f = Ok d /\ o = Some d) _ _ _ H Hr).
  - intros w1 u1 w2 (f & d & Hf & Hd & Hp)%Hturn. exists f, d. split_and!; [done|done|by apply Hp].
  - intros y Hy. destruct (decide (best_key y = best_key r)) as [Hk|Hk].
    + left. rewrite (NoDup_key _ _ _ _ Hnd Hy Hr Hk). intros w1 u1 w2 (f & d & Hf & Hd & Hp)%Hturn.
      exists f, d. split_and!; [done|done|by apply Hp].
    + right. apply spares_bind; [done|]. intros d. apply spares_figure; intros Hp%point_name_inj; by apply Hk.
Qed.

(** A file with another name is left as it was. *)
Lemma spares_drawn p rs : (forall r t, p <> path_join dir (point_name ("_" +:+ pre) r) +:+ String "." t) ->
  spares p (for_each rs draw).
Proof using Type.
  intros Hp. apply spares_for_each. intros r _. apply spares_bind; [done|]. intros d. by apply spares_figure.
Qed.

End loops.

Lemma render_filter `{NP : Numpy, SP : Scipy, WF : WeightedFit, FR : Frames, HO : Host} args rs an dir w :
  render_all_point_plots args rs an dir w
    = for_each (filter (fun r => is_Some (frame_at (stored_histogram an r))) rs)
        (draw args dir "intensity_" (stored_histogram an)) w.
Proof.
  unfold render_all_point_plots. revert w. induction rs as [|r rs IH]; intros w; [done|]. rewrite filter_cons.
  cbn [for_each]. unfold render_point at 1. destruct (frame_at (stored_histogram an r)) eqn:Hf.
  - rewrite decide_True by done. cbn [for_each]. unfold bind, draw at 1. change (path_join dir (point_name "_intensity_" r))
      with (path_join dir (point_name ("_" +:+ "intensity_") r)).
    destruct (plot_channel _ _ _ _ w) as [[u|e] w1]; [apply IH|done].
  - rewrite decide_False by (by intros [? ?]). apply IH.
Qed.

Lemma NoDup_filter_keys {A B : Type} (f : A -> B) (P : A -> Prop) `{!forall x, Decision (P x)} l :
  NoDup (f <$> l) -> NoDup (f <$> filter P l).
Proof. intros Hnd. eapply sublist_NoDup; [exact Hnd|]. apply fmap_sublist, sublist_filter. Qed.

(** Names of the two loops and of the overview *)
Lemma loops_apart dir r r' t t' :
  path_join dir (point_name ("_" +:+ "best_intensity_") r) +:+ String "." t
    <> path_join dir (point_name ("_" +:+ "intensity_") r') +:+ String "." t'.
Proof.
  unfold point_name. rewrite !path_join_suffix, !append_assoc. cbn [append]. intros [_ He]%(numbered_apart "_"); [|done].
  discriminate He.
Qed.

Lemma overview_apart dir pre r t t' :
  path_join dir (point_name ("_" +:+ pre) r) +:+ String "." t <> path_join dir "best_points_overview" +:+ t'.
Proof. unfold point_name. rewrite !path_join_suffix. by intros He%path_join_inj. Qed.

(** What the loop over all points leaves. *)
Lemma rendered `{NP : Numpy, SP : Scipy, WF : WeightedFit, TA : Tables, FR : Frames, HO : Host} args an dir path w u w' :
  when (bp_all_points args && table_there path)
    (all_rows <- lift (read_rows path) ;; render_all_point_plots args all_rows an dir) w = (Ok u, w') ->
  (forall p, (forall r t, p <> path_join dir (point_name ("_" +:+ "intensity_") r) +:+ String "." t) -> w' !! p = w !! p) /\
  (bp_all_points args = true -> table_there path = true -> exists all,
     read_rows path = Ok all /\
     (NoDup (best_key <$> all) -> forall r, r ∈ all -> is_Some (frame_at (stored_histogram an r)) ->
        drawn args dir "intensity_" (stored_histogram an) w' r)).
Proof.
  unfold when. destruct (_ && _) eqn:Hb.
  - intros H. inv_bind H. injection Hrun as Hall <-. rewrite render_filter in H. split.
    + intros p Hp. eapply spares_run; [by apply spares_drawn|exact H].
    + intros _ _. exists a. split; [done|]. intros Hnd r Hr Hs.
      pose proof (points_drawn _ _ _ _ _ _ _ _ H (NoDup_filter_keys _ _ _ Hnd)) as Hd. rewrite Forall_forall in Hd.
      apply Hd. by apply list_elem_of_filter.
  - intros [= _ <-]. split; [done|]. intros Ha Ht. by rewrite Ha, Ht in Hb.
Qed.

(** The figures of the selected points.  When the script returns, it returns 0 and there are best
    rows.  When no point is listed twice, each best row has its figure under both names, made from
    its histogram; the overview has the panels of all of them.  With [--all-points] and a summary,
    every row of it whose histogram is stored has its figure too, and those without are passed
    over. *)
Theorem best_plots_complete `{NP : Numpy, SP : Scipy, WF : WeightedFit, TR : Tree, TA : Tables, FR : Frames, HO : Host}
    args w code w' :
  best_main args w = (Ok code, w') ->
  code = 0 /\ exists rs panels,
    let an := WaveStats.at_path (bp_analysis_dir args) in
    let dir := best_dir args in
    let summary_csv := path_join an "summary_by_point_channel.csv" in
    read_rows (path_join an "best_by_channel.csv") = Ok rs /\ rs <> [] /\
    (NoDup (best_key <$> rs) -> Forall (drawn args dir "best_intensity_" (best_histogram an) w') rs) /\
    Forall2 (fun r p => best_panel args an r = Ok p) rs panels /\
    w' !! (path_join dir "best_points_overview" +:+ ".png") = Some (DFigure "" (mjoin panels)) /\
    (bp_all_points args = true -> table_there summary_csv = true -> exists all,
       read_rows summary_csv = Ok all /\
       (NoDup (best_key <$> all) -> forall r, r ∈ all -> is_Some (frame_at (stored_histogram an r)) ->
          drawn args dir "intensity_" (stored_histogram an) w' r)).
Proof.
  unfold best_main. cbv zeta. set (an := WaveStats.at_path _). set (dir := best_dir args).
  set (summary_csv := path_join an "summary_by_point_channel.csv"). intros H. do 5 inv_bind H. injection H as <- <-.
  split; [done|]. injection Hrun as _ <-. injection Hrun0 as Hrs <-. rename a0 into rs.
  change (for_each rs (draw args dir "best_intensity_" (best_histogram an)) w = (Ok a1, w2)) in Hrun1.
  apply rendered in Hrun3 as [Hkept Hall]. unfold plot_overview in Hrun2. do 2 inv_bind Hrun2.
  injection Hrun as Hne <-. injection Hrun0 as Hpanels <-. rename a4 into panels. exists rs, panels.
  pose proof (figure_saved _ _ _ _ _ Hrun2) as [Hpng _]. split_and!; try done.
  - intros ->. discriminate Hne.
  - intros Hnd. eapply Forall_impl; [exact (points_drawn _ _ _ _ _ _ _ _ Hrun1 Hnd)|].
    intros r (f & d & Hf & Hd & Hw). exists f, d. split_and!; [done|done|]. intros e He. rewrite <- (Hw e He).
    assert (Hdot : exists t, e = String "." t).
    { apply elem_of_cons in He as [->|[->|[]%not_elem_of_nil]%elem_of_cons]; by eexists. }
    destruct Hdot as [t ->]. rewrite Hkept by (intros r' t'; apply loops_apart).
    eapply spares_run; [|exact Hrun2]. apply spares_figure; apply overview_apart.
  - by apply rmap_ok.
  - rewrite Hkept; [done|]. intros r t He. by apply (overview_apart dir "intensity_" r t ".png").
Qed.

(** ** A point with three bins, too few for a fit *)

#[local] Existing Instances some_numpy some_scipy some_host retro_weighted.

#[local] Instance best_tree : Tree := {
  listing := fun _ => None; text_at := fun _ => None; words_at := fun _ => None;
  at_path := fun p => p; str_other := fun _ => ""; html_page := fun name _ _ => name }.

Definition best_text : text_row :=
  [("channel", "5"); ("intensity", "900"); ("point_dir", "/r/points/p900"); ("snr", "4.0"); ("snr_combined", "3.0");
   ("zero_fraction", "0.2"); ("selection_score", "1.0"); ("first_peak_mean", "1.0"); ("first_peak_sigma", "1.0");
   ("pedestal_sigma", "1.0"); ("sample_sigma", "2.0"); ("n_clean_waveforms", "40")].

#[local] Instance best_tables : Tables := {
  table_at := fun p =>
    if bool_decide (p ∈ ["an/best_by_channel.csv"; "an/summary_by_point_channel.csv"]) then Some (Ok [best_text]) else None }.

Definition three_bins : frame :=
  [("x", [f_of_Z (-1); f_of_Z 0; f_of_Z 7]); ("count", [f_of_Z 2; f_of_Z 0; f_of_Z 3]);
   ("total_fit", [f_of_Z 1; f_of_Z 2; f_of_Z 1]); ("peak_0", [f_of_Z 1; f_of_Z 1; f_of_Z 0])].

#[local] Instance best_frames : Frames := {
  frame_at := fun p =>
    if bool_decide (p ∈ ["an/best_ch05_intensity_0900_histogram.csv"; "an/all_histograms/ch05_intensity_0900_histogram.csv"])
    then Some (Ok three_bins) else None }.

Definition some_best_args : best_args := BestArgs "an" "out" f_zero (f_of_Z 1) 4 true.

Lemma best_plots_complete_witness :
  exists w' d, best_main some_best_args ∅ = (Ok 0, w') /\
    w' !! "out/ch05_best_intensity_0900.pdf" = Some d /\ w' !! "out/ch05_intensity_0900.png" = Some d /\
    match d with DFigure title cs => title = "Channel 5  |  LED intensity 900" /\ fst <$> cs = ["Charge histogram"; "C++ components"]
               | _ => False end.
Proof.
  destruct (best_main some_best_args ∅) as [r w'] eqn:Hm.
  assert (Hr : r = Ok 0) by (change r with (fst (r, w')); rewrite <- Hm; vm_compute; reflexivity). subst r.
  destruct (best_plots_complete some_best_args ∅ 0 w' Hm) as (_ & rs & panels & Hrs & _ & Hbest & _ & _ & Hall).
  assert (Hrow : exists r, read_best_row best_text = Ok r /\ best_key r = (5, 900)) by (vm_compute; eexists; split; reflexivity).
  destruct Hrow as (r & Hr & Hk). assert (Hone : rmap read_best_row [best_text] = Ok [r]) by (cbn [rmap]; by rewrite Hr).
  change (rmap read_best_row [best_text] = Ok rs) in Hrs. rewrite Hone in Hrs. injection Hrs as <-.
  specialize (Hbest (NoDup_singleton _)). apply Forall_singleton in Hbest as (f & d & Hf & Hd & Hw).
  destruct (Hall eq_refl eq_refl) as (all & Hrs & Hdrawn). change (rmap read_best_row [best_text] = Ok all) in Hrs.
  rewrite Hone in Hrs. injection Hrs as <-. injection Hk as Hc Hi.
  assert (Hname : forall infix, point_name infix r = "ch05" +:+ infix +:+ "0900")
    by (intros infix; unfold point_name; rewrite Hc, Hi; reflexivity).
  assert (Hread : read_frame (best_histogram "an" r) = Ok three_bins /\ read_frame (stored_histogram "an" r) = Ok three_bins)
    by (unfold best_histogram, stored_histogram; rewrite Hname; split; reflexivity).
  destruct Hread as [Hf1 Hf2]. change (read_frame (best_histogram "an" r) = Ok f) in Hf. rewrite Hf1 in Hf. injection Hf as <-.
  destruct (Hdrawn (NoDup_singleton _) r (list_elem_of_here _ _)) as (f' & d' & Hf' & Hd' & Hw').
  { change (is_Some (frame_at (stored_histogram "an" r))). unfold read_frame in Hf2. by destruct (frame_at _); [eexists|]. }
  change (read_frame (stored_histogram "an" r) = Ok f') in Hf'. rewrite Hf2 in Hf'. injection Hf' as <-.
  rewrite Hd in Hd'. injection Hd' as <-. exists w', d. split; [reflexivity|].
  specialize (Hw ".pdf" (list_elem_of_further _ _ _ (list_elem_of_here _ _))). specialize (Hw' ".png" (list_elem_of_here _ _)).
  rewrite Hname in Hw, Hw'. split; [exact Hw|]. split; [exact Hw'|].
  assert (Hdoc : match read_best_row best_text with
                 | Ok r => match point_figure some_best_args r three_bins with
                           | Ok (DFigure title cs) => title = "Channel 5  |  LED intensity 900" /\
                                                      fst <$> cs = ["Charge histogram"; "C++ components"]
                           | _ => False end
                 | Raise _ => False end) by (vm_compute; split; reflexivity).
  rewrite Hr, Hd in Hdoc. exact Hdoc.
Defined.

Lemma range_keeps_histogram_witness :
  exists lo hi, choose_xlim three_bins (f_of_Z 1) (f_of_Z 1) f_zero (f_of_Z 1) None = Ok (lo, hi) /\
    f_ltb (f_of_Z (-1)) lo = false /\ f_ltb (f_of_Z 7) lo = false /\
    exists fit_top count_top, fit_asks three_bins [f_of_Z (-1); f_of_Z 0; f_of_Z 7] f_zero None fit_top /\
      counts_ask [f_of_Z (-1); f_of_Z 0; f_of_Z 7] [f_of_Z 2; f_of_Z 0; f_of_Z 3] (f_of_Z 1) count_top.
Proof.
  destruct (choose_xlim three_bins (f_of_Z 1) (f_of_Z 1) f_zero (f_of_Z 1) None) as [[lo hi]|e] eqn:H;
    [|vm_compute in H; discriminate H].
  destruct (range_keeps_histogram _ _ _ _ _ _ lo hi _ _ H eq_refl eq_refl)
    as (first & ft & ct & _ & Hfit & Hcounts & Hbins & _); [by repeat constructor|by intros d|].
  exists lo, hi. split; [reflexivity|]. split; [|split; [|exists ft, ct; split; assumption]].
  - apply Hbins; [|reflexivity]. exists 0%nat, (f_of_Z 2). repeat split.
  - apply Hbins; [|reflexivity]. exists 2%nat, (f_of_Z 3). repeat split.
Defined.
