(* ===== verification/AllPlots.v ===== *)
(** One figure per channel and intensity of an LED scan, and sheets of them:
    [client/dynamic_range_led/plot_all_led_histograms.py], [make_channel_thumbnail_sheets.py],
    which shows the images that the former saves, and [make_channel_vector_contact_sheets.py],
    which draws the histograms again.

    Figures are as in [Figures] and histograms as in [BestPlots]; the boxes with numbers are not
    kept. *)
From S2P Require Import Prelude PyStr PyFloat PyVal ChannelSpec JsonText FeConfig SpyAcquire.
From S2P Require Import OscSpectrum WaveStats ScanRuntime ChargeWindows IntensityScan RunFiles Pools PeFit.
From S2P Require Import HistogramFits NoiseBatch RetroFit Figures WaveExamples SnrPlots BestPlots.

(** ** Rows *)

Record all_row : Type := AllRow {
  ar_channel : Z; ar_intensity : Z; ar_snr : float; ar_snr_combined : float; ar_zero_fraction : float;
  ar_first_peak_mean : float; ar_first_peak_sigma : float; ar_pedestal_sigma : float; ar_n_clean : Z; ar_ok : bool }.

(** [float(row[k]) if row[k] not in {"", "nan"} else math.nan] *)
Definition float_or_blank (r : text_row) (k : string) : result float :=
  v <-! text_item r k ;; if bool_decide (v ∈ [""; "nan"]) then Ok S754_nan else py_float v.

(** [row["ok"].strip().lower() == "true"] *)
Definition ok_at (r : text_row) : result bool := v <-! text_item r "ok" ;; Ok (bool_decide (lower_str (strip v) = "true")).

Definition read_values (ch i : Z) (r : text_row) : result all_row :=
  snr <-! float_or_blank r "snr" ;; combined <-! float_or_blank r "snr_combined" ;;
  zero <-! float_or_blank r "zero_fraction" ;; mean <-! float_or_blank r "first_peak_mean" ;;
  sigma <-! float_or_blank r "first_peak_sigma" ;; ped <-! float_or_blank r "pedestal_sigma" ;;
  clean <-! int_at r "n_clean_waveforms" ;; ok <-! ok_at r ;;
  Ok (AllRow ch i snr combined zero mean sigma ped clean ok).

(** [plot_all_led_histograms]: the directory of the point has to be there and is not used. *)
Definition read_all_row (r : text_row) : result all_row :=
  ch <-! int_at r "channel" ;; i <-! int_at r "intensity" ;; _ <-! text_item r "point_dir" ;; read_values ch i r.

(** [make_channel_vector_contact_sheets] *)
Definition read_sheet_row (r : text_row) : result all_row :=
  ch <-! int_at r "channel" ;; i <-! int_at r "intensity" ;; read_values ch i r.

(** [make_channel_thumbnail_sheets] *)
Record thumb_row : Type := ThumbRow {
  tr_channel : Z; tr_intensity : Z; tr_snr : float; tr_snr_combined : float; tr_zero_fraction : float; tr_ok : bool }.

Definition float_or_empty (v : string) : result float := if decide (v = "") then Ok S754_nan else py_float v.

Definition read_thumb_row (r : text_row) : result thumb_row :=
  ch <-! int_at r "channel" ;; i <-! int_at r "intensity" ;;
  s <-! text_item r "snr" ;; snr <-! float_or_empty s ;;
  combined <-! float_or_empty (default "" (text_get r "snr_combined")) ;;
  z <-! text_item r "zero_fraction" ;; zero <-! float_or_empty z ;;
  ok <-! ok_at r ;;
  Ok (ThumbRow ch i snr combined zero ok).

(** ** The histogram of a point *)

Definition histogram_csv_path (analysis_dir : string) (channel intensity : Z) : string :=
  path_join (path_join analysis_dir "all_histograms")
    ("ch" +:+ dec_pad 2 channel +:+ "_intensity_" +:+ dec_pad 4 intensity +:+ "_histogram.csv").

Section range.
Context `{NP : Numpy}.

(** [comp_max]: the largest of the stored components, bin by bin *)
Definition largest_component (f : frame) (x : list float) : option (list float) :=
  match filter (fun c => is_Some (strip_prefix "peak_" (fst c))) f with
  | [] => None
  | cs => Some (foldl (fun m c => zip_with np_maximum m (snd c)) (zeros x) cs)
  end.

Definition peak_xmax_of (f : frame) (x : list float) (frac : float) (fit : option drawn_fit) : result float :=
  x_max <-! max_of x ;;
  match fit with
  | Some d => t <-! fit_threshold frac (df_y d) ;; Ok (default x_max (last_above t (df_x d) (df_y d)))
  | None =>
      match largest_component f x with
      | Some comp_max => t <-! fit_threshold frac comp_max ;; Ok (default x_max (last_above t x comp_max))
      | None => Ok x_max
      end
  end.

(** The largest charge that the counts ask for; here their sum decides with the negative ones. *)
Definition count_xmax_signed (x counts : list float) (count_quantile : float) : result float :=
  if f_ltb f_zero (np_sum counts) then
    let clipped := (fun v => np_maximum v f_zero) <$> counts in
    let cum := (fun v => np_div v (np_sum clipped)) <$> cumsum clipped in
    at_index x (Nat.min (searchsorted cum count_quantile) (length x - 1))
  else max_of x.

Definition positive (v : float) : bool := is_finite v && f_ltb f_zero v.

Definition choose_xlim (f : frame) (first_peak_mean pedestal_sigma fit_threshold_frac count_quantile : float)
    (fit : option drawn_fit) : result (float * float) :=
  x <-! column f "x" ;;
  counts <-! column f "count" ;;
  wish <-! (if positive pedestal_sigma then Ok (f_mul (f_dec (-45) (-1)) pedestal_sigma) else at_index x 0) ;;
  first <-! first_counted x counts ;;
  peak_xmax <-! peak_xmax_of f x fit_threshold_frac fit ;;
  count_xmax <-! count_xmax_signed x counts count_quantile ;;
  let desired := if positive first_peak_mean then f_mul (f_dec 62 (-1)) first_peak_mean else count_xmax in
  x_max <-! max_of x ;;
  Ok (py_max (py_min wish first) (f_of_Z (-2000)), py_min (max3 count_xmax peak_xmax desired) x_max).

End range.

Section fitted.
Context `{NP : Numpy, SP : Scipy, WF : WeightedFit}.
Context (fit_threshold_frac count_quantile : float).

(** The fit of a row, with guesses where its values are not finite, and its range *)
Definition fit_row (r : all_row) (f : frame) : result (list float * list float * option drawn_fit * (float * float)) :=
  x <-! column f "x" ;;
  counts <-! column f "count" ;;
  let mean := ar_first_peak_mean r in
  let ped := ar_pedestal_sigma r in
  retro_fit <-! fit_retro_triple_gauss (zip x counts)
    (if is_finite mean then mean else py_max (f_mul ped (f_of_Z 3)) (f_of_Z 1))
    (if is_finite ped then ped else f_of_Z 1)
    (if is_finite (ar_first_peak_sigma r) then Some (ar_first_peak_sigma r) else None) ;;
  fit <-! read_fit retro_fit ;;
  lim <-! choose_xlim f mean ped fit_threshold_frac count_quantile fit ;;
  Ok (x, counts, fit, lim).

(** The components of a fit that are drawn, and its total when it is asked for *)
Definition component_parts (show_total_fit : bool) (lim : float * float) (d : drawn_fit) : list curve :=
  omap (fun lc : string * list float =>
    let ps := in_range lim (df_x d) (snd lc) in if any_positive ps then Some (fst lc, ps) else None)
    (zip peak_labels (df_components d))
  ++ (if show_total_fit then [("fit", in_range lim (df_x d) (df_y d))] else []).

(** The limits of a figure whose highest value is [ymax]; [headroom] is the space above. *)
Definition plot_limits (lim : float * float) (ymax headroom : float) : result unit :=
  finite_limits [f_mul (fst lim) SAMPLE_NS; f_mul (snd lim) SAMPLE_NS;
                 if f_ltb f_zero ymax then f_mul ymax headroom else f_of_Z 1].

End fitted.

(** ** [plot_all_led_histograms] *)

Record all_args : Type := AllArgs {
  al_analysis_dir : string; al_output_dir : string; al_show_total_fit : bool; al_fit_threshold_frac : float;
  al_count_quantile : float }.

(** Where the figures of a point are, less the suffix *)
Definition all_base (output_dir : string) (channel intensity : Z) : string :=
  path_join (path_join output_dir ("ch" +:+ dec_pad 2 channel))
    ("ch" +:+ dec_pad 2 channel +:+ "_intensity_" +:+ dec_pad 4 intensity).

Section all.
Context `{NP : Numpy, SP : Scipy, WF : WeightedFit, TR : Tree, TA : Tables, FR : Frames, HO : Host}.
Context (args : all_args).

Definition make_plot (r : all_row) (f : frame) : result doc :=
  '(x, counts, fit, lim) <-! fit_row (al_fit_threshold_frac args) (al_count_quantile args) r f ;;
  let histogram := in_range lim x counts in
  let '(curves, ymax) := match fit with
    | Some d => (component_parts (al_show_total_fit args) lim d,
                 py_max (top_of histogram) (top_of (in_range lim (df_x d) (df_y d))))
    | None => ([], top_of histogram)
    end in
  _ <-! plot_limits lim ymax (f_dec 118 (-2)) ;;
  Ok (DFigure ("Channel " +:+ str_Z (ar_channel r) +:+ "  |  LED intensity " +:+ str_Z (ar_intensity r))
        (("Charge histogram", histogram) :: curves)).

(** One turn of the loop: a point without a histogram is passed over. *)
Definition plot_row (analysis_dir output_dir : string) (r : all_row) : M files unit :=
  match frame_at (histogram_csv_path analysis_dir (ar_channel r) (ar_intensity r)) with
  | None => ret tt
  | Some frame =>
      f <- lift frame ;;
      lift (file_ok (path_join output_dir ("ch" +:+ dec_pad 2 (ar_channel r)))) ;;;
      d <- lift (make_plot r f) ;;
      save_figure (all_base output_dir (ar_channel r) (ar_intensity r)) d
  end.

Definition all_dir : string :=
  if decide (al_output_dir args = "") then path_join (WaveStats.at_path (al_analysis_dir args)) "all_point_plots"
  else WaveStats.at_path (al_output_dir args).

Definition all_main : M files Z :=
  let analysis_dir := WaveStats.at_path (al_analysis_dir args) in
  lift (file_ok all_dir) ;;;
  summary <- lift (read_csv (path_join analysis_dir "summary_by_point_channel.csv")) ;;
  rs <- lift (rmap read_all_row summary) ;;
  for_each rs (plot_row analysis_dir all_dir) ;;;
  ret 0.

End all.

(** ** [make_channel_thumbnail_sheets] *)

Record thumb_args : Type := ThumbArgs {
  th_analysis_dir : string; th_plot_dir : string; th_output_dir : string; th_columns : Z }.

(** The images that are there, as [plt.imread] reads them *)
Class Images : Type := { image_at : string -> option (result unit) }.

Definition plot_path (plot_dir : string) (channel intensity : Z) : string := all_base plot_dir channel intensity +:+ ".png".

Section thumbs.
Context `{TR : Tree, TA : Tables, IM : Images, HO : Host}.
Context (args : thumb_args).

(** A panel is a curve without points: its title and the image that it shows, if there is one. *)
Definition thumb_panel (plot_dir : string) (r : thumb_row) : result curve :=
  let image_path := plot_path plot_dir (tr_channel r) (tr_intensity r) in
  let title := "LED intensity = " +:+ str_Z (tr_intensity r) in
  match image_at image_path with
  | Some img => _ <-! img ;; Ok (title +:+ " " +:+ image_path, [])
  | None => Ok (title, [])
  end.

Definition build_thumbs (plot_dir output_dir : string) (channel : Z) (rs : list thumb_row) : M files unit :=
  panels <- lift (rmap (thumb_panel plot_dir) rs) ;;
  lift (file_ok output_dir) ;;;
  save_figure (path_join output_dir ("ch" +:+ dec_pad 2 channel +:+ "_contact_sheet"))
    (DFigure ("Channel " +:+ str_Z channel +:+ " contact sheet  |  varying parameter: LED intensity") panels).

Definition thumb_dir (given name : string) : string :=
  if decide (given = "") then path_join (WaveStats.at_path (th_analysis_dir args)) name else WaveStats.at_path given.

Definition thumb_main : M files Z :=
  let analysis_dir := WaveStats.at_path (th_analysis_dir args) in
  summary <- lift (read_csv (path_join analysis_dir "summary_by_point_channel.csv")) ;;
  grouped <- lift (group_rows read_thumb_row tr_channel tr_intensity summary) ;;
  for_each (sorted_entries grouped) (fun cl =>
    build_thumbs (thumb_dir (th_plot_dir args) "all_point_plots") (thumb_dir (th_output_dir args) "channel_contact_sheets")
      (fst cl) (snd cl)) ;;;
  ret 0.

End thumbs.

(** ** [make_channel_vector_contact_sheets] *)

Record sheet_args : Type := SheetArgs {
  sh_analysis_dir : string; sh_output_dir : string; sh_columns : Z; sh_show_total_fit : bool;
  sh_fit_threshold_frac : float; sh_count_quantile : float; sh_mu1_min : float; sh_mu1_max : float }.

Section sheets.
Context `{NP : Numpy, SP : Scipy, WF : WeightedFit, TR : Tree, TA : Tables, FR : Frames, HO : Host}.
Context (args : sheet_args).

(** [mu1_fit]: the distance of the two peaks *)
Definition mu1_fit (fit : option drawn_fit) : float :=
  match fit with Some d => f_sub (df_mu1 d) (df_mu0 d) | None => S754_nan end.

(** Whether the panel is highlighted. *)
Definition out_of_range (mu1 : float) : bool :=
  is_finite mu1 && ((f_ltb f_zero (sh_mu1_min args) && f_ltb mu1 (sh_mu1_min args))
                    || (f_ltb f_zero (sh_mu1_max args) && f_ltb (sh_mu1_max args) mu1)).

(** A panel: its curves under the intensity, and a mark when it is highlighted. *)
Definition make_panel (analysis_dir : string) (r : all_row) : result (list curve) :=
  f <-! read_frame (histogram_csv_path analysis_dir (ar_channel r) (ar_intensity r)) ;;
  '(x, counts, fit, lim) <-! fit_row (sh_fit_threshold_frac args) (sh_count_quantile args) r f ;;
  let histogram := in_range lim x counts in
  let ymax := match histogram with [] => f_of_Z 1 | _ => top_of histogram end in
  let '(curves, ymax) := match fit with
    | Some d => let fit_top := in_range lim (df_x d) (df_y d) in
                (component_parts (sh_show_total_fit args) lim d,
                 py_max ymax (match fit_top with [] => ymax | _ => top_of fit_top end))
    | None => ([], ymax)
    end in
  _ <-! plot_limits lim ymax (f_dec 112 (-2)) ;;
  let mark := if out_of_range (mu1_fit fit) then [("mu1 out of range", [])] else [] in
  Ok ((fun c => ("I=" +:+ str_Z (ar_intensity r) +:+ " " +:+ fst c, snd c)) <$> ("Charge histogram", histogram) :: curves ++ mark).

Definition build_sheet (analysis_dir output_dir : string) (channel : Z) (rs : list all_row) : M files unit :=
  panels <- lift (rmap (make_panel analysis_dir) rs) ;;
  lift (file_ok output_dir) ;;;
  save_pdf_png (path_join output_dir ("ch" +:+ dec_pad 2 channel +:+ "_vector_contact_sheet"))
    (DFigure ("Channel " +:+ str_Z channel +:+ " vector contact sheet") (mjoin panels)).

Definition sheet_dir : string :=
  if decide (sh_output_dir args = "") then path_join (WaveStats.at_path (sh_analysis_dir args)) "channel_contact_sheets_vector"
  else WaveStats.at_path (sh_output_dir args).

Definition sheet_main : M files Z :=
  let analysis_dir := WaveStats.at_path (sh_analysis_dir args) in
  summary <- lift (read_csv (path_join analysis_dir "summary_by_point_channel.csv")) ;;
  grouped <- lift (group_rows read_sheet_row ar_channel ar_intensity summary) ;;
  for_each (sorted_entries grouped) (fun cl => build_sheet analysis_dir sheet_dir (fst cl) (snd cl)) ;;;
  ret 0.

End sheets.

(** ** The range that is shown *)

(** The range keeps the bins with counts that are not below -2000, as that of [BestPlots]; it ends at
    the last charge, or where neither the fit, nor the counts, nor a positive mean of the first peak
    asks for more. *)
Theorem all_range_keeps_histogram `{NP : Numpy} f mean ped frac q fit lo hi x counts :
  choose_xlim f mean ped frac q fit = Ok (lo, hi) -> column f "x" = Ok x -> column f "count" = Ok counts ->
  Forall (fun v => is_nan v = false) x ->
  f_ltb lo (f_of_Z (-2000)) = false /\
  (forall k v c, x !! k = Some v -> counts !! k = Some c -> f_ltb f_zero c = true ->
     f_ltb v (f_of_Z (-2000)) = false -> f_ltb v lo = false) /\
  (hi = np_max x \/
   (positive mean = true -> f_ltb hi (f_mul (f_dec 62 (-1)) mean) = false) /\
   (forall top, peak_xmax_of f x frac fit = Ok top -> f_ltb hi top = false) /\
   (forall top, count_xmax_signed x counts q = Ok top -> f_ltb hi top = false)).
Proof.
  unfold choose_xlim. intros H Hx Hc Hnum. rewrite Hx, Hc in H. cbn [rbind] in H. cbv zeta in H.
  apply rbind_ok in H as (wish & _ & H). apply rbind_ok in H as (first & Hfirst & H).
  apply rbind_ok in H as (px & Hpx & H). apply rbind_ok in H as (cx & Hcx & H). apply rbind_ok in H as (xm & Hxm & H).
  set (desired := if positive mean then _ else cx) in H.
  apply ok_pair in H as [<- <-]. destruct (py_max_above (py_min wish first) (f_of_Z (-2000))) as [_ Hlo].
  split; [exact Hlo|]. split; [intros k v c; by apply bins_kept|].
  apply max_of_ok in Hxm as [Hne ->]. set (xm := match x with [] => f_zero | _ => np_max x end).
  assert (Hxm : xm = np_max x) by (subst xm; by destruct x). unfold py_min. destruct (f_ltb xm _); [by left|right].
  pose proof (wishes_met cx px desired desired) as (H1 & H2 & H3).
  assert (Hself : py_max desired desired = desired) by (unfold py_max; by rewrite f_ltb_irrefl).
  rewrite Hself in H1, H2, H3. split_and!.
  - intros Hm. unfold desired in *. rewrite Hm in *. exact H3.
  - intros top Ht. assert (top = px) as -> by congruence. exact H2.
  - intros top Ht. assert (top = cx) as -> by congruence. exact H1.
Qed.

(** ** Lemmas: the figures of the points *)

Lemma all_base_inj dir ch i ch' i' t t' :
  all_base dir ch i +:+ String "." t = all_base dir ch' i' +:+ String "." t' -> ch = ch' /\ i = i'.
Proof.
  unfold all_base. rewrite !path_join_nest, !path_join_suffix, !append_assoc by done.
  intros [-> He]%(numbered_apart "/"); [|done]. split; [done|].
  do 2 apply string_app_inj_l in He. apply string_app_inj_l in He.
  by apply until_inj in He as [Hi%(inj (dec_pad 4)) _]; [|by apply dec_pad_chars; intros k; apply int_char_not..].
Qed.

Definition all_key (r : all_row) : Z * Z := (ar_channel r, ar_intensity r).

Section all_lemmas.
Context `{NP : Numpy, SP : Scipy, WF : WeightedFit, FR : Frames, HO : Host}.
Context (args : all_args) (an dir : string).

(** What a point has: its figure from its histogram. *)
Definition all_drawn (w : files) (r : all_row) (rf : result frame) : Prop :=
  exists f d, rf = Ok f /\ make_plot args r f = Ok d /\
    forall e, e ∈ [".png"; ".pdf"] -> w !! (all_base dir (ar_channel r) (ar_intensity r) +:+ e) = Some d.

Definition stored (r : all_row) : option (result frame) :=
  frame_at (histogram_csv_path an (ar_channel r) (ar_intensity r)).

Lemma row_leaves r rf w1 u w2 : stored r = Some rf -> plot_row args an dir r w1 = (Ok u, w2) -> all_drawn w2 r rf.
Proof using Type.
  unfold plot_row. fold (stored r). intros -> H. do 3 inv_bind H. injection Hrun as Hf <-. injection Hrun0 as _ <-.
  injection Hrun1 as Hd <-. apply figure_saved in H as [Hpng Hpdf]. exists a, a1. split; [done|]. split; [done|].
  by intros e [->|[->|[]%not_elem_of_nil]%elem_of_cons]%elem_of_cons.
Qed.

Lemma spares_row r p : (forall t, p <> all_base dir (ar_channel r) (ar_intensity r) +:+ String "." t) ->
  spares p (plot_row args an dir r).
Proof using Type.
  intros Hp. unfold plot_row. destruct (frame_at _); [|done]. do 3 (apply spares_bind; [done|intros ?]).
  by apply spares_figure.
Qed.

Lemma rows_drawn rs w u w' : for_each rs (plot_row args an dir) w = (Ok u, w') -> NoDup (all_key <$> rs) ->
  forall r rf, r ∈ rs -> stored r = Some rf -> all_drawn w' r rf.
Proof using Type.
  intros H Hnd r rf Hr Hs.
  enough (Hone : forall e, e ∈ [".png"; ".pdf"] -> exists f d, rf = Ok f /\ make_plot args r f = Ok d /\
            w' !! (all_base dir (ar_channel r) (ar_intensity r) +:+ e) = Some d).
  { destruct (Hone ".png" (list_elem_of_here _ _)) as (f & d & Hf & Hd & _). exists f, d. split_and!; [done|done|].
    intros e He. destruct (Hone e He) as (f' & d' & Hf' & Hd' & He'). congruence. }
  intros e He. assert (Hdot : exists t, e = String "." t).
  { apply elem_of_cons in He as [->|[->|[]%not_elem_of_nil]%elem_of_cons]; by eexists. }
  destruct Hdot as [t ->]. set (p := all_base _ _ _ +:+ _).
  assert (Hleaves : forall w1 u1 w2, plot_row args an dir r w1 = (Ok u1, w2) ->
            exists f d, rf = Ok f /\ make_plot args r f = Ok d /\ w2 !! p = Some d).
  { intros w1 u1 w2 (f & d & Hf & Hd & Hp)%(row_leaves _ _ _ _ _ Hs). exists f, d. split_and!; [done|done|by apply Hp]. }
  apply (loop_keeps rs (plot_row args an dir) r p (fun o => exists f d, rf = Ok f /\ make_plot args r f = Ok d /\ o = Some d)
           _ _ _ H Hr Hleaves).
  intros y Hy. destruct (decide (all_key y = all_key r)) as [Hk|Hk].
  - left. by rewrite (NoDup_key _ _ _ _ Hnd Hy Hr Hk).
  - right. apply spares_row. intros t' [Hc Hi]%all_base_inj. apply Hk. unfold all_key. by rewrite Hc, Hi.
Qed.

End all_lemmas.

(** One figure per point.  When the script returns, it returns 0.  When no point is listed twice,
    every point of the summary whose histogram is stored has its figure under both names in the
    folder of its channel; a file that is not the figure of a listed point is as before. *)
Theorem all_plots_complete `{NP : Numpy, SP : Scipy, WF : WeightedFit, TR : Tree, TA : Tables, FR : Frames, HO : Host}
    args w code w' :
  all_main args w = (Ok code, w') ->
  code = 0 /\ exists summary rs,
    let an := WaveStats.at_path (al_analysis_dir args) in
    let dir := all_dir args in
    read_csv (path_join an "summary_by_point_channel.csv") = Ok summary /\ rmap read_all_row summary = Ok rs /\
    (NoDup (all_key <$> rs) -> forall r rf, r ∈ rs -> stored an r = Some rf -> all_drawn args dir w' r rf) /\
    (forall p, (forall r t, r ∈ rs -> p <> all_base dir (ar_channel r) (ar_intensity r) +:+ String "." t) ->
       w' !! p = w !! p).
Proof.
  unfold all_main. cbv zeta. intros H. do 4 inv_bind H. injection H as <- <-. split; [done|].
  injection Hrun as _ <-. injection Hrun0 as Hsum <-. injection Hrun1 as Hrs <-. exists a0, a1.
  split_and!; [done|done| |].
  - intros Hnd r rf. by apply (rows_drawn _ _ _ _ _ _ _ Hrun2).
  - intros p Hp. eapply spares_run; [|exact Hrun2]. apply spares_for_each. intros r Hr. apply spares_row. intros t. by apply Hp.
Qed.

(** ** Sheets *)

(** The sheets of a loop over the channels: each is what its turn left. *)
Lemma sheets_saved `{HO : Host} {R : Type} (g : gmap Z (list R)) (turn : Z -> list R -> M files unit) (name : Z -> string)
    (P : Z -> list R -> option doc -> Prop) w u w' :
  for_each (sorted_entries g) (fun cl => turn (fst cl) (snd cl)) w = (Ok u, w') ->
  (forall ch l w1 u1 w2, turn ch l w1 = (Ok u1, w2) -> P ch l (w2 !! name ch)) ->
  (forall ch ch' l, ch <> ch' -> spares (name ch) (turn ch' l)) ->
  forall ch l, (ch, l) ∈ sorted_entries g -> P ch l (w' !! name ch).
Proof.
  intros H Hturn Hspare ch l Hin.
  apply (loop_keeps (sorted_entries g) (fun cl => turn (fst cl) (snd cl)) (ch, l) (name ch) (P ch l) _ _ _ H Hin).
  - intros w1 u1 w2. apply Hturn.
  - intros [ch' l'] Hy. destruct (decide (ch = ch')) as [->|Hne]; [left|right; by apply Hspare].
    apply elem_of_sorted_entries in Hy, Hin. replace l' with l by congruence. intros w1 u1 w2. apply Hturn.
Qed.

Definition sheet_name (dir suffix : string) (ch : Z) : string :=
  path_join dir ("ch" +:+ dec_pad 2 ch +:+ "_" +:+ suffix) +:+ ".png".

Lemma sheet_apart dir suffix ch ch' e : ch <> ch' ->
  sheet_name dir suffix ch <> path_join dir ("ch" +:+ dec_pad 2 ch' +:+ "_" +:+ suffix) +:+ e.
Proof.
  intros Hne. unfold sheet_name. rewrite !path_join_suffix, !append_assoc. cbn [append].
  intros [Hc _]%(numbered_apart "_"); [by apply Hne|done].
Qed.

(** A thumbnail: the title of the point, with the image of its figure if that is there. *)
Definition thumb_shows `{Images} (plot_dir : string) (r : thumb_row) (c : curve) : Prop :=
  let image_path := plot_path plot_dir (tr_channel r) (tr_intensity r) in
  let title := "LED intensity = " +:+ str_Z (tr_intensity r) in
  (is_Some (image_at image_path) -> c = (title +:+ " " +:+ image_path, [])) /\ (image_at image_path = None -> c = (title, [])).

Lemma thumb_panel_shows `{Images} plot_dir r c : thumb_panel plot_dir r = Ok c -> thumb_shows plot_dir r c.
Proof.
  unfold thumb_panel, thumb_shows. cbv zeta. destruct (image_at _) as [img|].
  - intros Hc. apply rbind_ok in Hc as (u & _ & Hc). injection Hc as <-. by split.
  - intros [= <-]. split; [by intros [? ?]|done].
Qed.

(** What the script of the thumbnails leaves: every channel of the summary has its sheet, with one
    panel per row in the order of the intensities. *)
Lemma thumbs_saved `{TR : Tree, TA : Tables, IM : Images, HO : Host} args w code w' :
  thumb_main args w = (Ok code, w') -> code = 0 /\ exists summary rs,
    let plot_dir := thumb_dir args (th_plot_dir args) "all_point_plots" in
    let dir := thumb_dir args (th_output_dir args) "channel_contact_sheets" in
    read_csv (path_join (WaveStats.at_path (th_analysis_dir args)) "summary_by_point_channel.csv") = Ok summary /\
    rmap read_thumb_row summary = Ok rs /\
    forall ch, ch ∈ tr_channel <$> rs -> exists l panels,
      sorted_rows tr_intensity (of_channel tr_channel ch rs) l /\ Forall2 (thumb_shows plot_dir) l panels /\
      w' !! sheet_name dir "contact_sheet" ch
        = Some (DFigure ("Channel " +:+ str_Z ch +:+ " contact sheet  |  varying parameter: LED intensity") panels).
Proof.
  unfold thumb_main. cbv zeta. intros H. do 3 inv_bind H. injection H as <- <-. split; [done|].
  injection Hrun as Hsum <-. injection Hrun0 as Hg <-.
  destruct (grouped_entries _ _ _ _ _ Hg) as (rs & Hrs & _ & Hchs & Hsort & _). exists a, rs.
  split; [done|]. split; [done|]. intros ch Hch. apply Hchs, list_elem_of_fmap in Hch as ([ch' l] & -> & Hl).
  set (P ch (l : list thumb_row) o := exists panels, Forall2 (thumb_shows (thumb_dir args (th_plot_dir args) "all_point_plots")) l panels /\
    o = Some (DFigure ("Channel " +:+ str_Z ch +:+ " contact sheet  |  varying parameter: LED intensity") panels)).
  assert (HP : P ch' l (w2 !! sheet_name (thumb_dir args (th_output_dir args) "channel_contact_sheets") "contact_sheet" ch')).
  { apply (sheets_saved a0 _ _ P _ _ _ Hrun1); [| |done].
    - intros c l' v1 u1 v2 H1. unfold build_thumbs in H1. do 2 inv_bind H1. injection Hrun as Hp <-.
      apply figure_saved in H1 as [Hpng _]. exists a2. split; [|exact Hpng].
      eapply Forall2_impl; [by apply rmap_ok|]. intros r c'. apply thumb_panel_shows.
    - intros c c' l' Hne. do 2 (apply spares_bind; [done|intros ?]). apply spares_figure; by apply sheet_apart. }
  destruct HP as (panels & Hp & Hw). exists l, panels. split; [by apply Hsort|done].
Qed.

(** Both readers find the same point in a row of the table. *)
Lemma same_point r0 r t : read_all_row r0 = Ok r -> read_thumb_row r0 = Ok t ->
  tr_channel t = ar_channel r /\ tr_intensity t = ar_intensity r.
Proof.
  unfold read_all_row, read_thumb_row. intros Ha Ht. apply rbind_ok in Ha as (ch & Hch & Ha). apply rbind_ok in Ha as (i & Hi & Ha).
  rewrite Hch, Hi in Ht. cbn [rbind] in Ht. apply rbind_ok in Ha as (x & _ & Ha). unfold read_values in Ha.
  do 8 apply rbind_ok in Ha as (? & _ & Ha). injection Ha as <-. do 6 apply rbind_ok in Ht as (? & _ & Ht).
  by injection Ht as <-.
Qed.

Lemma plot_is_figure `{NP : Numpy, SP : Scipy, WF : WeightedFit} args r f d :
  make_plot args r f = Ok d -> exists title curves, d = DFigure title curves.
Proof.
  unfold make_plot. intros H. apply rbind_ok in H as ([[[x counts] fit] lim] & _ & H).
  destruct fit; apply rbind_ok in H as (u & _ & H); injection H as <-; by eexists _, _.
Qed.

(** C34. The thumbnails show the figures.  When [plot_all_led_histograms.py] has run and then
    [make_channel_thumbnail_sheets.py] over the same analysis and its figures, and no point is listed
    twice, every point whose histogram is stored is a panel of the sheet of its channel, with the
    image that the first script saved for it.  It is relied on that matplotlib reads back a figure
    that it has saved as a PNG; of other files, the PDFs among them, nothing is. *)
Theorem thumbnails_show_plots `{NP : Numpy, SP : Scipy, WF : WeightedFit, TR : Tree, TA : Tables, FR : Frames,
    IM : Images, HO : Host} a t w0 c1 w1 c2 w2 :
  all_main a w0 = (Ok c1, w1) -> thumb_main t w1 = (Ok c2, w2) ->
  WaveStats.at_path (th_analysis_dir t) = WaveStats.at_path (al_analysis_dir a) ->
  thumb_dir t (th_plot_dir t) "all_point_plots" = all_dir a ->
  (forall base title curves, w1 !! (base +:+ ".png") = Some (DFigure title curves) ->
     image_at (base +:+ ".png") = Some (Ok tt)) ->
  exists summary rs,
    let an := WaveStats.at_path (al_analysis_dir a) in
    read_csv (path_join an "summary_by_point_channel.csv") = Ok summary /\ rmap read_all_row summary = Ok rs /\
    (NoDup (all_key <$> rs) -> forall r, r ∈ rs -> is_Some (stored an r) -> exists title panels,
       w2 !! sheet_name (thumb_dir t (th_output_dir t) "channel_contact_sheets") "contact_sheet" (ar_channel r)
         = Some (DFigure title panels) /\
       (("LED intensity = " +:+ str_Z (ar_intensity r)) +:+ " " +:+ plot_path (all_dir a) (ar_channel r) (ar_intensity r), [])
         ∈ panels).
Proof.
  intros Ha Ht Han Hdir Himg. unfold all_main in Ha. cbv zeta in Ha. do 4 inv_bind Ha. injection Ha as _ Hw.
  injection Hrun as _ <-. injection Hrun0 as Hsum <-. injection Hrun1 as Hrs <-. subst. rename a1 into summary, a2 into rs.
  destruct (thumbs_saved _ _ _ _ Ht) as (_ & summary' & ts & Hsum' & Hts & Hsheets). rewrite Han, Hsum in Hsum'.
  injection Hsum' as <-. exists summary, rs. split; [done|]. split; [done|]. intros Hnd r Hr [rf Hs].
  destruct (rows_drawn _ _ _ _ _ _ _ Hrun2 Hnd r rf Hr Hs) as (f & d & _ & Hd & Hpng).
  specialize (Hpng ".png" (list_elem_of_here _ _)). apply plot_is_figure in Hd as (title & curves & ->).
  apply rmap_ok in Hrs, Hts. apply list_elem_of_lookup in Hr as [k Hk].
  destruct (Forall2_lookup_r _ _ _ _ _ Hrs Hk) as (r0 & Hr0 & Hread).
  destruct (Forall2_lookup_l _ _ _ _ _ Hts Hr0) as (tr & Htr & Htread). destruct (same_point _ _ _ Hread Htread) as [Hc Hi].
  apply list_elem_of_lookup_2 in Htr. assert (Hch : ar_channel r ∈ tr_channel <$> ts) by (apply list_elem_of_fmap; by exists tr).
  destruct (Hsheets _ Hch) as (l & panels & (Hperm & _) & Hp & Hsheet). eexists _, panels. split; [exact Hsheet|].
  assert (Hl : tr ∈ l) by (rewrite Hperm; by apply list_elem_of_filter).
  apply list_elem_of_lookup in Hl as [j Hj]. destruct (Forall2_lookup_l _ _ _ _ _ Hp Hj) as (c & Hcj & Hshow & _).
  apply list_elem_of_lookup_2 in Hcj. rewrite Hdir, Hc, Hi in Hshow. rewrite <- Hshow; [done|].
  unfold plot_path. rewrite (Himg _ _ _ Hpng). by eexists.
Qed.

(** The vector sheets.  When the script returns, it returns 0, and every channel of the summary has
    its sheet with the panels of its rows, in the order of the intensities, each from its
    histogram. *)
Theorem vector_sheets_complete `{NP : Numpy, SP : Scipy, WF : WeightedFit, TR : Tree, TA : Tables, FR : Frames, HO : Host}
    args w code w' :
  sheet_main args w = (Ok code, w') -> code = 0 /\ exists summary rs,
    let an := WaveStats.at_path (sh_analysis_dir args) in
    read_csv (path_join an "summary_by_point_channel.csv") = Ok summary /\ rmap read_sheet_row summary = Ok rs /\
    forall ch, ch ∈ ar_channel <$> rs -> exists l panels,
      sorted_rows ar_intensity (of_channel ar_channel ch rs) l /\ Forall2 (fun r p => make_panel args an r = Ok p) l panels /\
      w' !! sheet_name (sheet_dir args) "vector_contact_sheet" ch
        = Some (DFigure ("Channel " +:+ str_Z ch +:+ " vector contact sheet") (mjoin panels)).
Proof.
  unfold sheet_main. cbv zeta. intros H. do 3 inv_bind H. injection H as <- <-. split; [done|].
  injection Hrun as Hsum <-. injection Hrun0 as Hg <-. set (an := WaveStats.at_path _) in *.
  destruct (grouped_entries _ _ _ _ _ Hg) as (rs & Hrs & _ & Hchs & Hsort & _). exists a, rs.
  split; [done|]. split; [done|]. intros ch Hch. apply Hchs, list_elem_of_fmap in Hch as ([ch' l] & -> & Hl).
  set (P ch (l : list all_row) o := exists panels, Forall2 (fun r p => make_panel args an r = Ok p) l panels /\
    o = Some (DFigure ("Channel " +:+ str_Z ch +:+ " vector contact sheet") (mjoin panels))).
  assert (HP : P ch' l (w2 !! sheet_name (sheet_dir args) "vector_contact_sheet" ch')).
  { apply (sheets_saved a0 _ _ P _ _ _ Hrun1); [| |done].
    - intros c l' v1 u1 v2 H1. unfold build_sheet in H1. do 2 inv_bind H1. injection Hrun as Hp <-.
      apply pdf_png_saved in H1 as [_ Hpng]. exists a2. split; [by apply rmap_ok|exact Hpng].
    - intros c c' l' Hne. do 2 (apply spares_bind; [done|intros ?]). apply spares_pdf_png; by apply sheet_apart. }
  destruct HP as (panels & Hp & Hw). exists l, panels. split; [by apply Hsort|done].
Qed.

(** ** A point with three bins *)

#[local] Existing Instances some_numpy some_scipy some_host retro_weighted best_tree best_frames.

Definition all_text : text_row := best_text ++ [("ok", " True")].

#[local] Instance all_tables : Tables := {
  table_at := fun p => if decide (p = "an/summary_by_point_channel.csv") then Some (Ok [all_text]) else None }.

(** Only a PNG is an image that can be read. *)
Fixpoint is_png (s : string) : bool :=
  bool_decide (s = ".png") || match s with String _ t => is_png t | EmptyString => false end.

#[local] Instance all_images : Images := {
  image_at := fun p => Some (if is_png p then Ok tt else Raise (value_error "not a PNG file")) }.

Lemma png_read base : is_png (base +:+ ".png") = true.
Proof. induction base as [|c base IH]; [reflexivity|].
  change (bool_decide (String c (base +:+ ".png") = ".png") || is_png (base +:+ ".png") = true).
  by rewrite IH, orb_true_r.
Qed.

Definition some_all_args : all_args := AllArgs "an" "out" true f_zero (f_of_Z 1).

Definition some_thumb_args : thumb_args := ThumbArgs "an" "out" "sheets" 4.

Definition some_sheet_args : sheet_args := SheetArgs "an" "sheets" 2 true f_zero (f_of_Z 1) f_zero f_zero.

(** The row of the table as the script reads it. *)
Lemma some_all_row : exists r, rmap read_all_row [all_text] = Ok [r] /\ rmap read_sheet_row [all_text] = Ok [r] /\
  ar_channel r = 5 /\ ar_intensity r = 900.
Proof.
  assert (H : exists r, read_all_row all_text = Ok r /\ read_sheet_row all_text = Ok r /\ ar_channel r = 5 /\ ar_intensity r = 900)
    by (vm_compute; eexists; split_and!; reflexivity).
  destruct H as (r & H1 & H2 & H3 & H4). exists r. cbn [rmap]. rewrite H1, H2. by split_and!.
Qed.

Lemma some_stored r : ar_channel r = 5 -> ar_intensity r = 900 -> stored "an" r = Some (Ok three_bins).
Proof. intros Hc Hi. unfold stored. rewrite Hc, Hi. reflexivity. Qed.

Lemma all_plots_complete_witness :
  exists w' d, all_main some_all_args ∅ = (Ok 0, w') /\ w' !! "out/ch05/ch05_intensity_0900.pdf" = Some d /\
    w' !! "out/ch05/ch05_intensity_0900.png" = Some d.
Proof.
  destruct (all_main some_all_args ∅) as [res w'] eqn:Hm.
  assert (Hres : res = Ok 0) by (change res with (fst (res, w')); rewrite <- Hm; vm_compute; reflexivity). subst res.
  destruct (all_plots_complete some_all_args ∅ 0 w' Hm) as (_ & summary & rs & Hsum & Hrs & Hdrawn & _).
  change (Ok [all_text] = Ok summary) in Hsum. injection Hsum as <-. destruct some_all_row as (r & Hr & _ & Hc & Hi).
  rewrite Hr in Hrs. injection Hrs as <-.
  destruct (Hdrawn (NoDup_singleton _) r _ (list_elem_of_here _ _) (some_stored r Hc Hi)) as (f & d & _ & _ & Hw).
  rewrite Hc, Hi in Hw. exists w', d. split; [reflexivity|].
  split; [exact (Hw ".pdf" (list_elem_of_further _ _ _ (list_elem_of_here _ _)))|exact (Hw ".png" (list_elem_of_here _ _))].
Defined.

Lemma thumbnails_show_plots_witness :
  exists w1 w2 title panels, all_main some_all_args ∅ = (Ok 0, w1) /\ thumb_main some_thumb_args w1 = (Ok 0, w2) /\
    w2 !! "sheets/ch05_contact_sheet.png" = Some (DFigure title panels) /\
    ("LED intensity = 900 out/ch05/ch05_intensity_0900.png", []) ∈ panels.
Proof.
  destruct (all_main some_all_args ∅) as [res w1] eqn:Hm.
  assert (Hres : res = Ok 0) by (change res with (fst (res, w1)); rewrite <- Hm; vm_compute; reflexivity). subst res.
  destruct (thumb_main some_thumb_args w1) as [res w2] eqn:Hm2.
  assert (Hres : res = Ok 0) by (change res with (fst (res, w2)); rewrite <- Hm2; vm_compute; reflexivity). subst res.
  destruct (thumbnails_show_plots some_all_args some_thumb_args ∅ 0 w1 0 w2 Hm Hm2 eq_refl eq_refl)
    as (summary & rs & Hsum & Hrs & Hshow).
  { intros base title curves _. cbn [image_at all_images]. by rewrite png_read. }
  change (Ok [all_text] = Ok summary) in Hsum. injection Hsum as <-. destruct some_all_row as (r & Hr & _ & Hc & Hi).
  rewrite Hr in Hrs. injection Hrs as <-.
  destruct (Hshow (NoDup_singleton _) r (list_elem_of_here _ _)) as (title & panels & Hsheet & Hin).
  { exists (Ok three_bins). exact (some_stored r Hc Hi). }
  rewrite Hc in Hsheet. rewrite Hc, Hi in Hin. exists w1, w2, title, panels.
  split; [reflexivity|]. split; [exact Hm2|]. split; [exact Hsheet|exact Hin].
Defined.

Lemma vector_sheets_complete_witness :
  exists w' panels, sheet_main some_sheet_args ∅ = (Ok 0, w') /\ length panels = 1%nat /\
    w' !! "sheets/ch05_vector_contact_sheet.png" = Some (DFigure "Channel 5 vector contact sheet" (mjoin panels)).
Proof.
  destruct (sheet_main some_sheet_args ∅) as [res w'] eqn:Hm.
  assert (Hres : res = Ok 0) by (change res with (fst (res, w')); rewrite <- Hm; vm_compute; reflexivity). subst res.
  destruct (vector_sheets_complete some_sheet_args ∅ 0 w' Hm) as (_ & summary & rs & Hsum & Hrs & Hsheet).
  change (Ok [all_text] = Ok summary) in Hsum. injection Hsum as <-. destruct some_all_row as (r & _ & Hr & Hc & Hi).
  rewrite Hr in Hrs. injection Hrs as <-.
  destruct (Hsheet 5) as (l & panels & (Hperm & _) & Hp & Hw); [rewrite <- Hc; apply list_elem_of_here|].
  exists w', panels. split; [reflexivity|]. split; [|exact Hw].
  rewrite <- (Forall2_length _ _ _ Hp), Hperm. unfold of_channel. rewrite filter_cons, decide_True by exact Hc. reflexivity.
Defined.

Lemma all_range_keeps_histogram_witness :
  exists lo hi, choose_xlim three_bins (f_of_Z 1) (f_of_Z 1) f_zero (f_of_Z 1) None = Ok (lo, hi) /\
    f_ltb (f_of_Z (-1)) lo = false /\ f_ltb (f_of_Z 7) lo = false.
Proof.
  destruct (choose_xlim three_bins (f_of_Z 1) (f_of_Z 1) f_zero (f_of_Z 1) None) as [[lo hi]|e] eqn:H;
    [|vm_compute in H; discriminate H].
  destruct (all_range_keeps_histogram _ _ _ _ _ _ lo hi _ _ H eq_refl eq_refl) as (_ & Hbins & _); [by repeat constructor|].
  exists lo, hi. split; [reflexivity|]. split.
  - apply (Hbins 0%nat _ (f_of_Z 2) eq_refl eq_refl); reflexivity.
  - apply (Hbins 2%nat _ (f_of_Z 3) eq_refl eq_refl); reflexivity.
Defined.
