(* ===== verification/GroupSheet.v ===== *)
(** One sheet of the best points of several analyses:
    [client/dynamic_range_led/make_best_group_sheet.py], over the histograms of [BestPlots].

    Panels are as in [BestPlots]; the boxes with the numbers of the fits are not kept. *)
From S2P Require Import Prelude PyStr PyFloat PyVal ChannelSpec JsonText FeConfig SpyAcquire.
From S2P Require Import OscSpectrum WaveStats ScanRuntime ChargeWindows IntensityScan RunFiles Pools PeFit.
From S2P Require Import HistogramFits NoiseBatch RetroFit Figures WaveExamples SnrPlots BestPlots AllPlots.

Record group_args : Type := GroupArgs {
  gs_output_base : string; gs_analysis_dirs : list string; gs_title : string; gs_columns : Z;
  gs_fit_threshold_frac : float; gs_count_quantile : float }.

Record group_row : Type := GroupRow {
  gr_analysis_dir : string; gr_channel : Z; gr_intensity : Z; gr_zero_fraction : float; gr_snr : float;
  gr_snr_combined : float; gr_first_peak_mean : float; gr_first_peak_sigma : float; gr_pedestal_sigma : float }.

Definition read_group_row (analysis_dir : string) (r : text_row) : result group_row :=
  ch <-! int_at r "channel" ;; i <-! int_at r "intensity" ;;
  zero <-! float_at r "zero_fraction" ;; snr <-! float_at r "snr" ;; combined <-! float_at r "snr_combined" ;;
  mean <-! float_at r "first_peak_mean" ;; sigma <-! float_at r "first_peak_sigma" ;; ped <-! float_at r "pedestal_sigma" ;;
  Ok (GroupRow analysis_dir ch i zero snr combined mean sigma ped).

Definition load_best_rows `{Tables} (analysis_dir : string) : result (list group_row) :=
  l <-! read_csv (path_join analysis_dir "best_by_channel.csv") ;;
  rs <-! rmap (read_group_row analysis_dir) l ;;
  Ok (sort_by gr_channel rs).

Definition histogram_path (analysis_dir : string) (channel intensity : Z) : string :=
  path_join analysis_dir
    ("best_ch" +:+ dec_pad 2 channel +:+ "_intensity_" +:+ dec_pad 4 intensity +:+ "_histogram.csv").

(** [path.with_suffix(suffix)]: a suffix that the name has is replaced. *)
Definition with_suffix (path suffix : string) : result string :=
  let name := path_name path in
  if decide (name = "") then Raise (value_error (path +:+ " has an empty name"))
  else
    match after_last "." name with
    | Some t =>
        let stem_length := (String.length name - (String.length t + 1))%nat in
        if (stem_length =? 0)%nat || bool_decide (t = "") then Ok (path +:+ suffix)
        else Ok (String.substring 0 (String.length path - (String.length t + 1)) path +:+ suffix)
    | None => Ok (path +:+ suffix)
    end.

Section sheet.
Context `{NP : Numpy, SP : Scipy, WF : WeightedFit, TR : Tree, TA : Tables, FR : Frames, HO : Host}.
Context (args : group_args).

(** Here only a fit says where the range may end. *)
Definition group_xmax_of (x : list float) (frac : float) (fit : option drawn_fit) : result float :=
  x_max <-! max_of x ;;
  match fit with
  | Some d => t <-! fit_threshold frac (df_y d) ;; Ok (default x_max (last_above t (df_x d) (df_y d)))
  | None => Ok x_max
  end.

Definition choose_xlim (f : frame) (first_peak_mean pedestal_sigma fit_threshold_frac count_quantile : float)
    (fit : option drawn_fit) : result (float * float) :=
  x <-! column f "x" ;;
  counts <-! column f "count" ;;
  first <-! first_counted x counts ;;
  let xmin := py_min (f_mul (f_dec (-45) (-1)) pedestal_sigma) first in
  fit_xmax <-! group_xmax_of x fit_threshold_frac fit ;;
  count_xmax <-! count_xmax_of x counts count_quantile ;;
  let peak_xmax := py_max (f_mul (f_dec 58 (-1)) first_peak_mean)
                     (f_add (f_mul (f_of_Z 3) first_peak_mean) (f_mul (f_of_Z 4) pedestal_sigma)) in
  x_max <-! max_of x ;;
  Ok (py_max xmin (f_of_Z (-2000)), py_min (max3 fit_xmax count_xmax peak_xmax) x_max).

(** The curves of a panel, under the name of the point *)
Definition plot_panel (r : group_row) : result (list curve) :=
  f <-! read_frame (histogram_path (gr_analysis_dir r) (gr_channel r) (gr_intensity r)) ;;
  x <-! column f "x" ;;
  count <-! column f "count" ;;
  retro_fit <-! fit_retro_triple_gauss (zip x count) (gr_first_peak_mean r) (gr_pedestal_sigma r)
                  (Some (gr_first_peak_sigma r)) ;;
  fit <-! read_fit retro_fit ;;
  lim <-! choose_xlim f (gr_first_peak_mean r) (gr_pedestal_sigma r) (gs_fit_threshold_frac args)
            (gs_count_quantile args) fit ;;
  let histogram := in_range lim x count in
  let '(curves, ymax) := match fit with
    | Some d => let total := in_range lim (df_x d) (df_y d) in
                (("fit", total) :: component_parts false lim d, py_max (top_of histogram) (top_of total))
    | None => ([], top_of histogram)
    end in
  _ <-! plot_limits lim ymax (f_dec 116 (-2)) ;;
  let name := "ch" +:+ str_Z (gr_channel r) +:+ "  I=" +:+ str_Z (gr_intensity r) +:+ " " in
  Ok ((fun c => (name +:+ fst c, snd c)) <$> ("Charge histogram", histogram) :: curves).

(** ** [main] *)

Definition group_main : M files Z :=
  let analysis_dirs := WaveStats.at_path <$> gs_analysis_dirs args in
  let output_base := WaveStats.at_path (gs_output_base args) in
  tables <- lift (rmap load_best_rows analysis_dirs) ;;
  let rs := sort_by gr_channel (mjoin tables) in
  lift (if bool_decide (rs = [])
        then Raise (value_error "Number of rows must be a positive integer, not 0") else Ok tt) ;;;
  panels <- lift (rmap plot_panel rs) ;;
  lift (file_ok (parent_path output_base)) ;;;
  let d := DFigure (gs_title args) (mjoin panels) in
  png <- lift (with_suffix output_base ".png") ;; put png d ;;;
  pdf <- lift (with_suffix output_base ".pdf") ;; put pdf d ;;;
  ret 0.

End sheet.

(** ** Lemmas *)

(** Sorting the tables first and then all of their rows is sorting all rows. *)
Lemma sorted_twice (rss lss : list (list group_row)) l :
  Forall2 (sorted_rows gr_channel) rss lss -> sorted_rows gr_channel (mjoin lss) l -> sorted_rows gr_channel (mjoin rss) l.
Proof.
  intros H (Hp & Hs & Hf). assert (Hall : mjoin lss ≡ₚ mjoin rss /\ forall i,
    filter (fun s => gr_channel s = i) (mjoin lss) = filter (fun s => gr_channel s = i) (mjoin rss)).
  { clear -H. induction H as [|rs ls rss lss (Hp & _ & Hf) _ [IHp IHf]]; [done|].
    change (mjoin (ls :: lss)) with (ls ++ mjoin lss). change (mjoin (rs :: rss)) with (rs ++ mjoin rss). split.
    - by rewrite Hp, IHp.
    - intros i. by rewrite !filter_app, Hf, IHf. }
  destruct Hall as [Hp' Hf']. split_and!; [by rewrite Hp|done|]. intros i. by rewrite Hf.
Qed.

(** Files with different suffixes are different. *)
Lemma suffixes_apart path s s' p p' : with_suffix path s = Ok p -> with_suffix path s' = Ok p' -> s <> s' -> p <> p'.
Proof.
  unfold with_suffix. case_decide; [done|]. destruct (after_last "." _) as [t|]; [destruct (_ || _)|];
    intros [= <-] [= <-] Hne He%string_app_inj_l; by apply Hne.
Qed.

(** The sheet of a group.  When the script returns, it returns 0 and some analysis has a best row.
    The panels are those of all best rows of all analyses, in the order of the channels, where the
    rows of a channel stand as the analyses were named; the sheet is saved under both suffixes, each
    in place of a suffix that the output name has. *)
Theorem group_sheet_complete `{NP : Numpy, SP : Scipy, WF : WeightedFit, TR : Tree, TA : Tables, FR : Frames, HO : Host}
    args w code w' :
  group_main args w = (Ok code, w') -> code = 0 /\ exists tables rs panels png pdf,
    Forall2 (fun dir rows => exists l, read_csv (path_join (WaveStats.at_path dir) "best_by_channel.csv") = Ok l /\
               rmap (read_group_row (WaveStats.at_path dir)) l = Ok rows) (gs_analysis_dirs args) tables /\
    mjoin tables <> [] /\ sorted_rows gr_channel (mjoin tables) rs /\
    Forall2 (fun r p => plot_panel args r = Ok p) rs panels /\
    with_suffix (WaveStats.at_path (gs_output_base args)) ".png" = Ok png /\
    with_suffix (WaveStats.at_path (gs_output_base args)) ".pdf" = Ok pdf /\
    w' !! png = Some (DFigure (gs_title args) (mjoin panels)) /\ w' !! pdf = Some (DFigure (gs_title args) (mjoin panels)).
Proof.
  unfold group_main. cbv zeta. intros H. do 8 inv_bind H. injection H as <- <-. split; [done|].
  injection Hrun as Htab <-. injection Hrun0 as Hne <-. injection Hrun1 as Hpan <-. injection Hrun2 as _ <-.
  injection Hrun3 as Hpng <-. apply put_ok in Hrun4 as ->. injection Hrun5 as Hpdf <-. apply put_ok in Hrun6 as ->.
  set (sorted := sort_by gr_channel (mjoin a)) in *.
  assert (Htables : exists tables, Forall2 (fun dir rows => exists l, read_csv (path_join (WaveStats.at_path dir) "best_by_channel.csv") = Ok l /\
               rmap (read_group_row (WaveStats.at_path dir)) l = Ok rows) (gs_analysis_dirs args) tables /\
             Forall2 (sorted_rows gr_channel) tables a).
  { apply rmap_ok, Forall2_fmap_l in Htab. clear -Htab.
    induction Htab as [|dir ls dirs lss Hd _ (tables & H1 & H2)]; [by exists []|]. cbn in Hd. unfold load_best_rows in Hd.
    apply rbind_ok in Hd as (l & Hl & Hd). apply rbind_ok in Hd as (rs & Hrs & Hd). injection Hd as <-.
    exists (rs :: tables). split; constructor; try done; [by exists l|apply sort_by_ok]. }
  destruct Htables as (tables & Htables & Hsort).
  assert (Hrs : sorted_rows gr_channel (mjoin tables) sorted) by (eapply sorted_twice; [exact Hsort|apply sort_by_ok]).
  exists tables, sorted, a1. eexists _, _. split_and!; [exact Htables| |exact Hrs|by apply rmap_ok|exact Hpng|exact Hpdf| |].
  - intros He. destruct Hrs as [Hperm _]. rewrite He in Hperm. apply Permutation_nil_r in Hperm. by rewrite Hperm in Hne.
  - rewrite lookup_insert_ne by (intros He; by apply (suffixes_apart _ _ _ _ _ Hpng Hpdf)). apply lookup_insert_eq.
  - apply lookup_insert_eq.
Qed.

(** ** One analysis with one row; the output name has a suffix, which is replaced *)

#[local] Existing Instances some_numpy some_scipy some_host retro_weighted best_tree best_tables best_frames.

Definition some_group_args : group_args := GroupArgs "sheets/best.v1" ["an"] "Best points" 2 f_zero (f_of_Z 1).

Lemma group_sheet_complete_witness :
  exists w' panels, group_main some_group_args ∅ = (Ok 0, w') /\ length panels = 1%nat /\
    w' !! "sheets/best.png" = Some (DFigure "Best points" (mjoin panels)).
Proof.
  destruct (group_main some_group_args ∅) as [res w'] eqn:Hm.
  assert (Hres : res = Ok 0) by (change res with (fst (res, w')); rewrite <- Hm; vm_compute; reflexivity). subst res.
  destruct (group_sheet_complete some_group_args ∅ 0 w' Hm)
    as (_ & tables & rs & panels & png & pdf & Htab & _ & (Hperm & _) & Hp & Hpng & _ & Hw & _).
  change (Ok "sheets/best.png" = Ok png) in Hpng. injection Hpng as <-. exists w', panels.
  split; [reflexivity|]. split; [|exact Hw].
  inversion Htab as [|dir rows dirs tabs (l & Hl & Hrows) Hrest]; subst. inversion Hrest; subst.
  change (Ok [best_text] = Ok l) in Hl. injection Hl as <-.
  rewrite <- (Forall2_length _ _ _ Hp), Hperm. apply rmap_ok, Forall2_length in Hrows.
  change (mjoin [rows]) with (rows ++ []). rewrite app_nil_r. symmetry. exact Hrows.
Defined.
